(* ===== verification/_CoqProject ===== *)
-Q . S2P
Prelude.v
GoStrings.v
GoText.v
Json.v
JsonRoundtrip.v
Conversation.v
WorkingMemory.v
Subgoals.v
Jobs.v
Tools.v
Receipts.v
Compaction.v
HistoryRebuild.v
FinalGuard.v
Execution.v
EngineLoop.v
ReportState.v
ReportOps.v
ReportProps.v
ReportSnapshot.v
SessionRun.v
RunLifecycle.v
SessionManager.v
SqlGuard.v
LiveQuery.v
Delegate.v
RenderView.v
ReportView.v
Auth.v
Login.v
EventStream.v
Providers.v
Spill.v
StateTools.v
Calls.v
Sources.v
SourceProps.v
SourceSteps.v
SourceRemoval.v
Csv.v
Ingest.v
IngestProps.v
Sanitize.v
SanitizeProps.v
ReportPage.v
PageProps.v
Config.v
Files.v
FileProps.v
SessionDeletion.v
Connectors.v
ConnectorProps.v
LiveTables.v
DataTools.v
DataToolProps.v
Python.v
PythonProps.v
SourceTools.v
SourceToolProps.v
Uploads.v
UploadProps.v
RuntimeState.v
RuntimeProps.v
Persister.v
