(* ===== verification/Prelude.v ===== *)
(** * openDataAnalysis: a model of the analysis agent and its sessions

    The server under [src/server/] runs an agent that answers questions about data: a
    user message starts a run, the engine alternates requests to a language model with
    the tool calls the model asks for, the tools read data and build a report, and a
    session keeps what survives from one run to the next.  This development translates
    the server's own logic from Go into functions and step relations, proves what makes
    it correct, and shows the places where the code does not do what it says.

    ** How the parts interact

    A handler ([handler/chat.go]) finds the session of a user with the session manager
    ([session/manager.go]), starts or resumes its run ([session/types.go]) and hands it
    to a goroutine that executes [Engine.Run] ([agent/engine.go]).  Each iteration
    builds a prompt bundle from the history, the runtime facts and the notices of
    finished background jobs, compacts the history when the context is under pressure,
    checks the bundle's tool-call protocol, asks the model ([agent/llm.go]), and executes
    the calls the registry admits: tools that query data (on the session's own database,
    filled from files, or on the live objects of a configured source), tools that change
    the report, and tools on the agent's own state.  Events flow back through the handler,
    which stores them, turns them into session state and streams them to the browser; the
    stored events rebuild the history and the report after a restart.

    ** Files

    The agent:
    - [Prelude]: Go results, time, tactics, list lemmas.
    - [GoStrings], [GoText]: bytes, UTF-8 runes, [strings.TrimSpace] and friends, the case
      of letters and the classes of runes.
    - [Json], [JsonRoundtrip]: [encoding/json] as far as the code relies on it and
      [internal/jsoncontract], with the round trip.
    - [Conversation]: conversation items, prompt bundles, the tool-call protocol and its
      repair ([agent/prompt_bundle.go], [llm_types.go], [history_rebuild.go]).
    - [WorkingMemory], [Subgoals]: [agent/memory.go], [agent/goal_facts.go].
    - [Jobs]: the background job manager ([agent/jobs.go]) and the child registry
      ([agent/child_agents.go]).
    - [Tools]: tool capabilities, the registry and admission ([tools/registry.go],
      [tools/admission.go]).
    - [Receipts]: the engine's state, pending questions and confirmation receipts.
    - [Compaction]: context pressure, span selection and compaction
      ([agent/compaction.go], [agent/tokens.go]) and the bundle of a request.
    - [HistoryRebuild]: what a run's events store and the fold that rebuilds the history.
    - [FinalGuard], [Execution], [EngineLoop]: the guard of final texts, the execution of
      one call (timeouts aside: a tool is a function of the world), and the run loop.
    - [Delegate]: delegated agents ([agent/worker.go], [delegate_persistence.go]).
    - [Providers]: requests, answers and retries of the four model protocols
      ([agent/llm.go], [llm_google.go], [clean_schema.go]).
    - [Spill]: large tool results put aside on disk ([agent/spill.go]).
    - [StateTools]: the tools on the agent's own state ([agent/agentic_tools.go],
      [state_tools.go], [job_tools.go]).

    The report:
    - [ReportState], [ReportOps], [ReportProps]: the report, its edit scope and the tools
      that change it ([tools/report_*.go], [tools/chart.go]).
    - [ReportSnapshot]: how a report is persisted and loaded back.
    - [Sanitize], [SanitizeProps]: the sanitizing of documents and fragments
      ([tools/report_sanitize.go], [report_html.go]).
    - [ReportPage], [PageProps]: the page made of a report ([tools/report_html.go]).
    - [RenderView], [ReportView]: the rendered view the model is shown ([render/],
      [agent/report_view.go]) and its coordinator ([session/report_view.go]).

    Sessions and access:
    - [SessionRun], [RunLifecycle], [SessionManager]: a session and its run, the
      interleaving of handlers, goroutines and hooks around it, the map of sessions, its
      expiry and the restart path.
    - [EventStream]: the broker of events, its replay and its log ([handler/sse.go]).
    - [Auth], [Login]: tokens, revocation, roles, login and limits ([auth/],
      [handler/auth.go], [handler/ratelimit.go]).
    - [Config]: the configuration and what production asks of it ([config/config.go]).

    Data:
    - [SqlGuard], [LiveQuery]: the guard on SQL, identifiers, the boundary of live queries
      and the execution of a query ([data/schema.go], [service/live_source.go]).
    - [Calls]: the monad of calls on a store of which any may fail.
    - [Sources]: the metadata store and the service over sources, snapshots, profiles and
      confirmations ([service/source_service.go], [repository/sqlite]); [SourceProps],
      [SourceSteps], [SourceRemoval]: its invariants through failures.
    - [Csv], [Ingest], [IngestProps]: files read into a session's database and tables
      described from it ([data/ingester.go], [data/schema.go]).
    - [Files], [FileProps], [SessionDeletion]: stored files and reports and the deletion
      of a session ([service/file_service.go], [storage/local], [handler/session_delete.go]).
    - [Connectors], [ConnectorProps]: configured databases, their credentials and the
      handlers on them ([service/postgres_*.go], [mysql_*.go], [handler/data_source.go]).
    - [LiveTables]: the list and description of live objects ([service/live_source.go]).
    - [DataTools], [DataToolProps]: the tools that list, describe and query data and the
      ledger of results ([tools/tools.go], [tools/ledger.go]).
    - [Python], [PythonProps]: the Python tool, its inputs, the artifacts it leaves and the
      health of its executor ([tools/python.go]).
    - [SourceTools], [SourceToolProps]: governance, the tools over sources, profiles and
      time, and a patch committed under a receipt ([service/governance.go],
      [tools/source_tools.go], [tools/time_context.go], [handler/data_source.go]).
    - [Uploads], [UploadProps]: the upload of a file and the import of an object over HTTP
      ([handler/upload.go], [handler/data_source.go]).

    The log:
    - [RuntimeState], [RuntimeProps]: the log of a session and of a tree of runs, the state
      its events leave, hydration after a restart and the previews of a run
      ([handler/runtime_state.go], [session_runtime.go], [run.go]).
    - [Persister]: the goroutine that persists events, its queue and its shutdown
      ([handler/runtime_events.go]).

    Definitions carry the name of the function or type they translate; a method that
    changes its receiver returns the new receiver.  A critical section under a lock is
    one function.  Concurrency is the order in which these sections run: a step relation
    over one component ([Jobs], [Receipts], [ReportProps], [ReportView], [EventStream],
    [Persister]) or labelled steps of all the owners of a run ([RunLifecycle]).  Code over the database is
    written in the monad of [Calls]: each call is an operation on a finite map per table
    or fails, as a fault sequence says; [runs] ranges over all of them and [exec] is the
    run in which none fails.

    ** What the theorems show

    - The run: every request of a run and the history it leaves obey the tool-call
      protocol ([run_requests_paired], [repairToolPairing_valid], [requests_answered]); a run
      under an iteration limit returns ([engine_Run_terminates]); calls touch the world
      only when admitted ([batch_runs_admitted_calls]) and a delegated agent only what it
      was granted ([delegated_run_contained]).
    - Approval: each receipt was approved by the user for exactly one action and is used
      at most once ([receipts_single_use], [gated_call_was_approved],
      [receipt_confirms_once]).
    - Memory of a conversation: compaction keeps the pinned head and the tail and cuts at
      a protocol boundary ([compaction_preserves]); the stored events rebuild the live
      history ([rebuild_simulates_live]); a spilled result can be read back
      ([spilled_result_recoverable]); working memory, goals and jobs keep their invariants.
    - The report: well-formed in every reachable state, each mutation changes one block
      and places it as asked, finalization succeeds exactly on deliverable drafts, edit
      scopes protect what they protect, persistence gives the report back
      ([snapshot_roundtrip]); its page has the sections and the table of contents it
      should ([page_structure]), formulas survive the Markdown renderer
      ([formulas_put_back]) and only allowed markup passes ([report_sanitized]).
    - Sessions: one owner per run ([runs_have_one_owner]), no session handed to another
      user ([sessions_stay_private]), every event delivered in order
      ([event_stream_complete]), a protected request has a valid token, a revoked token
      stays refused, an accepted configuration is safe ([configuration_accepted]).
    - Data: the scanners of SQL agree with a lexer ([scanners_agree_with_lexer]); a live
      query stays within the bound objects ([live_query_within_bounds],
      [listed_is_queryable]); an import is whole or leaves nothing, and a CSV table is read
      back exactly ([import_all_or_nothing], [csv_import_exact]); whatever calls fail, the
      bound sources of a session stay usable ([sources_stay_usable]), a removal can be
      repeated to completion ([removal_converges]), files are stored whole and stay inside
      their directory ([upload_all_or_nothing], [files_confined]); a stored credential
      opens what it was given for ([stored_source_opens]) and a change of a source touches
      that source only ([update_confined]); each query adds one result to the ledger, at
      most 200 rows ([query_recorded]); code runs on the caller's own objects
      ([python_run_scoped]); a patch is committed only as its receipt approved it
      ([patch_commit_exact]) and an upload is answered as it ended ([upload_reported]).
    - The log: an event is stored once and its submitter told so ([events_stored_once],
      [submitters_answered]); reading a tree of runs ends ([tree_collected]); the state read
      back is the last event of each kind ([derived_state]) and a hydrated session holds it
      and counts what was left out ([hydration_restores]).

    Defects, each with a theorem that exhibits it: wedged sessions ([wedge_entries],
    [wedged_forever]), the dead restart path ([restart_recovery_is_dead]), overlapping
    executions ([failed_delivery_overlaps]), reports that cannot be loaded
    ([text_chart_snapshot_rejected]), lost job notices, split batches, an unpaired final
    request, a digest that outlives a reset, selection scopes that leak, a refused layout
    change that sticks, quoted names that escape the boundary of live queries
    ([quoted_names_escape_boundary]), credentials that live queries cannot open
    ([dedicated_secret_locks_out]), a query result that stops all snapshots
    ([infinite_value_blocks_snapshot]), a patch tool whose gate denies every call that
    carries a receipt ([patch_never_admitted]), and others named in their files.

    ** Bounds, fuel and integers

    A [time] is a number of nanoseconds.  Go's [int] is [Z] where the values are counts
    that cannot overflow; [parse_int] keeps the 64-bit range, [MutationVersion] wraps at
    2^64.  Text loops take the length of the text (or one more) as fuel, each step consumes
    a byte; [read_value] takes twice the text's length plus two, enough by [need_le]; the
    run loop takes the iteration limit plus one ([engine_Run_terminates] shows it is enough),
    a child's loop its 25 iterations; the walks over goals take the number of goals
    ([CanFinalize_spec], [ReplaceAll_total]); the slicing of a page takes its height.
    The code's own bounds are kept as they are: 200 rows of a query (probed with 201),
    batches of 5000 rows, pages of 6000 runes, four attempts of a model call, a send
    buffer of 100 events, a replay window of 5000 messages.

    ** What is not modelled

    - Outside the repository, as arguments with their documented laws where a theorem needs
      them: the model behind the API, the SQLite, PostgreSQL and MySQL engines and drivers
      ([SQLite], [Conn], [Upstream]), AES-GCM and SHA-256 ([Cipher]), HMAC and bcrypt, the
      HTML and Markdown parsers, the Excel reader, the image codecs, [net/url], [net/http].
    - In the repository: the texts of the prompts; traces, metrics and logs, which change
      nothing; the rendering client and the export of reports; the protocol client
      ([mcp/]); S3 storage; the repositories of PostgreSQL, whose statements are those of
      [repository/sqlite]; the in-memory repository; routing and start-up ([main.go],
      [handler/init.go], but for the connectors it registers); the Vue client and the
      Python and rendering services, in other languages.
    - Simplified: the set of tools is fixed during a run (the per-run availability probe
      filters it before the loop); parallel calls of one batch run one after the other in
      one of their orders; timeouts and cancellation are oracles of the calls they end; the
      texts of errors of the standard library are left out or arguments.
    - Left out of a part that is modelled: the handlers that list runs and sessions and the
      JSON they send, the events of delegated runs on their way to the browser, the shape of
      the directories of a session on disk, and the ping of an event stream. *)
From stdpp Require Export base tactics option list gmap strings sorting.
From Stdlib Require Export ZArith Lia.

(** * Results: Go's [(value, error)] return pairs *)

(** A Go function that returns [(A, error)] either yields its value with a nil
    error or a non-nil error (the value that accompanies a non-nil error is
    never read by the callers modelled here). *)
Inductive res (E A : Type) : Type :=
| Ok (a : A)
| Err (e : E).
Arguments Ok {E A} a.
Arguments Err {E A} e.

Declare Scope go_scope.
Delimit Scope go_scope with go.

(** [if err != nil { return err }] *)
Notation "'let?' x ':=' c 'in' k" :=
  (match c with Ok x => k | Err e => Err e end)
  (at level 10, x name, c at level 100, k at level 200) : go_scope.

(** An early return: [if b { return e }; k]. *)
Notation "'guard' b 'else' e ';;' k" :=
  (if b then k else Err e)
  (at level 10, b at level 99, e at level 99, k at level 200) : go_scope.

(** Bind of [option], used where a model can run out of fuel. *)
Notation "'let!' x ':=' c 'in' k" :=
  (match c with Some x => k | None => None end)
  (at level 10, x name, c at level 100, k at level 200) : go_scope.

Open Scope go_scope.

Definition is_ok {E A} (r : res E A) : bool :=
  match r with Ok _ => true | Err _ => false end.

Definition map_res {E A B} (f : A -> B) (r : res E A) : res E B :=
  match r with Ok a => Ok (f a) | Err e => Err e end.

Global Instance res_eq_dec {E A} `{EqDecision E, EqDecision A} : EqDecision (res E A).
Proof. solve_decision. Defined.

(** [for _, x := range l { if err := f(x); err != nil { return err } }] *)
Fixpoint each {E A} (f : A -> res E unit) (l : list A) : res E unit :=
  match l with
  | [] => Ok tt
  | x :: l' => let? _ := f x in each f l'
  end.

(** A left fold whose step may fail, as a Go loop with an early error return. *)
Fixpoint fold_res {E S A} (f : S -> A -> res E S) (s : S) (l : list A) : res E S :=
  match l with
  | [] => Ok s
  | x :: l' => let? s' := f s x in fold_res f s' l'
  end.

(** [append(l[:i], l[i+1:]...)] *)
Definition remove_at {A} (i : nat) (l : list A) : list A := take i l ++ drop (S i) l.

(** * Time

    A [time.Time] is the number of nanoseconds since Go's zero time
    (January 1 of year 1, UTC); [IsZero] is therefore [t = 0].  Every call of
    [time.Now] is an argument of the operation that makes it. *)
Abbreviation time := Z (only parsing).
Definition IsZero (t : time) : bool := (t =? 0)%Z.
Definition Before (t u : time) : bool := (t <? u)%Z.
Definition After (t u : time) : bool := (u <? t)%Z.
Definition Second : Z := 1000000000.
Definition Minute : Z := 60 * Second.
Definition Hour : Z := 60 * Minute.

(** Seconds from the zero time to the Unix epoch. *)
Definition unixToInternal : Z := 62135596800.
Definition Unix (t : time) : Z := (t / Second - unixToInternal)%Z.
Definition timeUnix (sec : Z) : time := ((sec + unixToInternal) * Second)%Z.

(** * Tactics *)

(** Break the innermost [match] or [if] of the goal (or of a hypothesis). *)
Ltac break_match :=
  match goal with
  | |- context [match ?x with _ => _ end] =>
      lazymatch x with context [match _ with _ => _ end] => fail | _ => destruct x eqn:? end
  end.
Ltac break_match_in H :=
  match type of H with
  | context [match ?x with _ => _ end] =>
      lazymatch x with context [match _ with _ => _ end] => fail | _ => destruct x eqn:? end
  end.

(** Turn the boolean tests of the code into the propositions they decide. *)
Ltac reflect_in H :=
  lazymatch type of H with
  | String.eqb _ _ = true => apply String.eqb_eq in H
  | String.eqb _ _ = false => apply String.eqb_neq in H
  | Z.eqb _ _ = true => apply Z.eqb_eq in H
  | Z.eqb _ _ = false => apply Z.eqb_neq in H
  | Z.leb _ _ = true => apply Z.leb_le in H
  | Z.leb _ _ = false => apply Z.leb_gt in H
  | Z.ltb _ _ = true => apply Z.ltb_lt in H
  | Z.ltb _ _ = false => apply Z.ltb_ge in H
  | Nat.eqb _ _ = true => apply Nat.eqb_eq in H
  | Nat.eqb _ _ = false => apply Nat.eqb_neq in H
  | Nat.leb _ _ = true => apply Nat.leb_le in H
  | Nat.leb _ _ = false => apply Nat.leb_gt in H
  | Nat.ltb _ _ = true => apply Nat.ltb_lt in H
  | Nat.ltb _ _ = false => apply Nat.ltb_ge in H
  | andb _ _ = true => apply andb_true_iff in H; destruct H
  | orb _ _ = false => apply orb_false_iff in H; destruct H
  | negb _ = true => apply negb_true_iff in H
  | negb _ = false => apply negb_false_iff in H
  | bool_decide _ = true => apply bool_decide_eq_true in H
  | bool_decide _ = false => apply bool_decide_eq_false in H
  end.
Ltac reflect_bools :=
  repeat match goal with
  | H : _ = true |- _ => reflect_in H
  | H : _ = false |- _ => reflect_in H
  end.

(** Invert a successful run of a fallible operation. *)
Ltac inv_ok H :=
  repeat (break_match_in H; try discriminate H; simpl in H);
  try (injection H as H).

(** * Shared lemmas *)

Create HintDb go discriminated.

Lemma each_ok {E A} (f : A -> res E unit) l :
  each f l = Ok tt <-> Forall (fun x => f x = Ok tt) l.
Proof.
  induction l as [|x l IH]; simpl; [split; [constructor|done]|].
  rewrite Forall_cons, <- IH. destruct (f x) as [[]|]; naive_solver.
Qed.

Lemma each_map_ok {E K A} `{Countable K} (f : K * A -> res E unit) (m : gmap K A) :
  each f (map_to_list m) = Ok tt <-> map_Forall (fun k a => f (k, a) = Ok tt) m.
Proof.
  rewrite each_ok, map_Forall_to_list.
  apply Forall_iff. by intros [k a].
Qed.

Lemma fold_res_app {E S A} (f : S -> A -> res E S) l1 l2 s :
  fold_res f s (l1 ++ l2) = let? s' := fold_res f s l1 in fold_res f s' l2.
Proof.
  revert s; induction l1 as [|x l1 IH]; intros s; simpl; [done|].
  destruct (f s x); simpl; [apply IH|done].
Qed.

(** Rule of invariance for a failing fold. *)
Lemma fold_res_inv {E S A} (P : S -> Prop) (f : S -> A -> res E S) l s s' :
  (forall s x s', P s -> f s x = Ok s' -> P s') ->
  P s -> fold_res f s l = Ok s' -> P s'.
Proof.
  intros Hstep. revert s; induction l as [|x l IH]; intros s HP; simpl.
  - by intros [= ->].
  - destruct (f s x) as [s1|] eqn:Hfx; [|done]. intros Hf. by apply (IH s1 (Hstep _ _ _ HP Hfx)).
Qed.

(** Collecting the non-empty results of a search that always returns. *)
Lemma mapM_join_total {A B} (f : A -> option (list B)) (l : list A) :
  (forall x, x ∈ l -> exists bs, f x = Some bs /\ bs <> []) ->
  exists bs, mjoin <$> mapM f l = Some bs /\ (bs = [] <-> l = []).
Proof.
  induction l as [|x l IH]; intros Hf; simpl; [by exists []|].
  destruct (Hf x) as (bs & Hx & Hne); [by left|]. rewrite Hx. simpl.
  destruct IH as (bs' & Hl & _); [intros y Hy; apply Hf; by right|].
  destruct (mapM f l) as [bss|]; [|done]. simpl in Hl. injection Hl as <-.
  exists (bs ++ mjoin bss). split; [done|]. destruct bs; [done|by split].
Qed.

Lemma Unix_timeUnix s : Unix (timeUnix s) = s.
Proof. unfold Unix, timeUnix, Second. rewrite Z.div_mul; lia. Qed.

Lemma negb_eqb_false (a b : string) : negb (a =? b)%string = false <-> a = b.
Proof. rewrite negb_false_iff. apply String.eqb_eq. Qed.

Lemma negb_eqb_true (a b : string) : negb (a =? b)%string = true <-> a <> b.
Proof. rewrite negb_true_iff. apply String.eqb_neq. Qed.

#[export] Hint Resolve Unix_timeUnix : go.

Lemma remove_at_middle {A} (l1 l2 : list A) x :
  remove_at (length l1) (l1 ++ x :: l2) = l1 ++ l2.
Proof.
  unfold remove_at. rewrite take_app_length.
  replace (S (length l1)) with (length l1 + 1) by lia.
  by rewrite drop_app_add.
Qed.

Lemma remove_at_split {A} i (l : list A) x :
  l !! i = Some x -> exists l1 l2, l = l1 ++ x :: l2 /\ length l1 = i /\ remove_at i l = l1 ++ l2.
Proof.
  intros H. exists (take i l), (drop (S i) l).
  pose proof (lookup_lt_Some _ _ _ H). rewrite length_take_le by lia.
  split_and!; [by rewrite take_drop_middle | done | done].
Qed.

Lemma length_remove_at {A} i (l : list A) x :
  l !! i = Some x -> length (remove_at i l) = length l - 1.
Proof.
  intros (l1 & l2 & -> & _ & ->)%remove_at_split. rewrite !length_app. simpl. lia.
Qed.

Lemma NoDup_remove_at {A} i (l : list A) x :
  l !! i = Some x -> NoDup l -> NoDup (remove_at i l) /\ x ∉ remove_at i l.
Proof.
  intros (l1 & l2 & -> & _ & ->)%remove_at_split Hnd.
  rewrite <- Permutation_middle in Hnd. apply NoDup_cons in Hnd. tauto.
Qed.

Lemma elem_of_remove_at {A} i (l : list A) x y :
  l !! i = Some x -> y ∈ l <-> y = x \/ y ∈ remove_at i l.
Proof.
  intros (l1 & l2 & -> & _ & ->)%remove_at_split. rewrite !elem_of_app, elem_of_cons. tauto.
Qed.
