(* ===== verification/GoStrings.v ===== *)
(** The parts of Go's [strings], [unicode] and [unicode/utf8] packages that the
    program relies on.  A Go string is a byte sequence, so it is a
    [String.string] here: a list of 8-bit characters, not of runes. *)
From S2P Require Import Prelude.
From Stdlib Require Import Ascii.
Open Scope string_scope.

(** * [strings.TrimSpace]

    [unicode.IsSpace] on the UTF-8 encodings: the six ASCII spaces, the
    two-byte U+0085 and U+00A0, and the three-byte U+1680, U+2000 to U+200A,
    U+2028, U+2029, U+202F, U+205F and U+3000.  Continuation bytes never start
    a rune, so trimming by these byte patterns is trimming by runes, also on
    strings that are not valid UTF-8. *)
Definition is_space1 (a : ascii) : bool :=
  let n := N_of_ascii a in ((9 <=? n) && (n <=? 13) || (n =? 32))%N.
Definition is_space2 (a b : ascii) : bool :=
  let b := N_of_ascii b in ((N_of_ascii a =? 194) && ((b =? 133) || (b =? 160)))%N.
Definition is_space3 (a b c : ascii) : bool :=
  let a := N_of_ascii a in let b := N_of_ascii b in let c := N_of_ascii c in
  ((a =? 225) && (b =? 154) && (c =? 128)
   || (a =? 226) && (b =? 128) && ((128 <=? c) && (c <=? 138) || (c =? 168) || (c =? 169) || (c =? 175))
   || (a =? 226) && (b =? 129) && (c =? 159)
   || (a =? 227) && (b =? 128) && (c =? 128))%N.

(** Drop the longest prefix made of one-, two- and three-byte units accepted by
    the three tests. *)
Fixpoint drop_units (p1 : ascii -> bool) (p2 : ascii -> ascii -> bool)
    (p3 : ascii -> ascii -> ascii -> bool) (l : list ascii) : list ascii :=
  match l with
  | [] => []
  | a :: l1 =>
      if p1 a then drop_units p1 p2 p3 l1
      else match l1 with
      | [] => l
      | b :: l2 =>
          if p2 a b then drop_units p1 p2 p3 l2
          else match l2 with
          | [] => l
          | c :: l3 => if p3 a b c then drop_units p1 p2 p3 l3 else l
          end
      end
  end.

Definition trim_left (l : list ascii) : list ascii := drop_units is_space1 is_space2 is_space3 l.
Definition trim_right (l : list ascii) : list ascii :=
  rev (drop_units is_space1 (fun b a => is_space2 a b) (fun c b a => is_space3 a b c) (rev l)).

Definition TrimSpace (s : string) : string :=
  String.string_of_list_ascii (trim_right (trim_left (String.list_ascii_of_string s))).

(** [s != strings.TrimSpace(s)]: the program's test for a value that is not exact. *)
Definition not_exact (s : string) : bool := negb (s =? TrimSpace s).
(** [strings.TrimSpace(s) == ""] *)
Definition blank (s : string) : bool := TrimSpace s =? "".

(** [len(s)]: the number of bytes. *)
Definition len (s : string) : Z := Z.of_nat (String.length s).

(** * Prefixes, suffixes and splitting *)

Definition HasPrefix (s p : string) : bool := String.prefix p s.

Definition TrimPrefix (s p : string) : string :=
  if HasPrefix s p then String.substring (String.length p) (String.length s - String.length p) s else s.

Definition HasSuffix (s p : string) : bool :=
  (String.length p <=? String.length s)%nat
  && (String.substring (String.length s - String.length p) (String.length p) s =? p).

(** [strings.Split(s, sep)] for a one-byte separator. *)
Fixpoint Split (s : string) (sep : ascii) : list string :=
  match s with
  | EmptyString => [EmptyString]
  | String c s' =>
      if Ascii.eqb c sep then EmptyString :: Split s' sep
      else match Split s' sep with
           | w :: ws => String c w :: ws
           | [] => [String c EmptyString]
           end
  end.

(** [strings.Contains] for a one-byte needle. *)
Fixpoint contains_byte (s : string) (c : ascii) : bool :=
  match s with
  | EmptyString => false
  | String a s' => Ascii.eqb a c || contains_byte s' c
  end.

(** * Runes: [[]rune(s)], [for range s] and [string(runes)] *)

Definition RuneError : Z := 65533.
Definition byteZ (a : ascii) : Z := Z.of_N (N_of_ascii a).
Definition is_cont (a : ascii) : bool := (128 <=? byteZ a)%Z && (byteZ a <=? 191)%Z.

(** [utf8.DecodeRune]: the first rune of a non-empty byte sequence with its
    width; an encoding that is invalid, overlong, a surrogate or out of range
    yields [RuneError] with width 1. *)
Definition decode_rune (l : list ascii) : Z * nat :=
  match l with
  | [] => (RuneError, 0)
  | a :: l1 =>
    let n := byteZ a in
    if (n <? 128)%Z then (n, 1)
    else match l1 with
    | b :: l2 =>
      let lo := if (n =? 224)%Z then 160%Z else if (n =? 240)%Z then 144%Z else 128%Z in
      let hi := if (n =? 237)%Z then 159%Z else if (n =? 244)%Z then 143%Z else 191%Z in
      let m := byteZ b in
      if negb ((lo <=? m)%Z && (m <=? hi)%Z) then (RuneError, 1)
      else if (194 <=? n)%Z && (n <=? 223)%Z then (((n - 192) * 64 + (m - 128))%Z, 2)
      else match l2 with
      | c :: l3 =>
        if negb (is_cont c) then (RuneError, 1)
        else if (224 <=? n)%Z && (n <=? 239)%Z then
          (((n - 224) * 4096 + (m - 128) * 64 + (byteZ c - 128))%Z, 3)
        else match l3 with
        | d :: _ =>
          if is_cont d && (240 <=? n)%Z && (n <=? 244)%Z then
            (((n - 240) * 262144 + (m - 128) * 4096 + (byteZ c - 128) * 64 + (byteZ d - 128))%Z, 4)
          else (RuneError, 1)
        | [] => (RuneError, 1)
        end
      | [] => (RuneError, 1)
      end
    | [] => (RuneError, 1)
    end
  end.

Fixpoint decode_runes (fuel : nat) (l : list ascii) : list Z :=
  match fuel, l with
  | S fuel', _ :: _ => let '(r, w) := decode_rune l in r :: decode_runes fuel' (drop w l)
  | _, _ => []
  end.

(** Every rune has at least one byte, so the number of bytes is enough fuel. *)
Definition runes (s : string) : list Z :=
  decode_runes (String.length s) (String.list_ascii_of_string s).

Definition asciiZ (z : Z) : ascii := ascii_of_N (Z.to_N z).

(** [utf8.EncodeRune]: a surrogate or out-of-range value encodes [RuneError]. *)
Definition encode_rune (r0 : Z) : list ascii :=
  let r := if (r0 <? 0)%Z || (1114111 <? r0)%Z || ((55296 <=? r0)%Z && (r0 <=? 57343)%Z)
           then RuneError else r0 in
  if (r <? 128)%Z then [asciiZ r]
  else if (r <? 2048)%Z then [asciiZ (192 + r / 64); asciiZ (128 + r mod 64)]
  else if (r <? 65536)%Z then
    [asciiZ (224 + r / 4096); asciiZ (128 + (r / 64) mod 64); asciiZ (128 + r mod 64)]
  else [asciiZ (240 + r / 262144); asciiZ (128 + (r / 4096) mod 64);
        asciiZ (128 + (r / 64) mod 64); asciiZ (128 + r mod 64)].

Definition string_of_runes (rs : list Z) : string :=
  String.string_of_list_ascii (List.concat (map encode_rune rs)).

(** * Lemmas *)

Lemma drop_units_cons p1 p2 p3 a l1 :
  drop_units p1 p2 p3 (a :: l1) =
  if p1 a then drop_units p1 p2 p3 l1
  else match l1 with
  | [] => a :: l1
  | b :: l2 => if p2 a b then drop_units p1 p2 p3 l2
               else match l2 with
               | [] => a :: l1
               | c :: l3 => if p3 a b c then drop_units p1 p2 p3 l3 else a :: l1
               end
  end.
Proof. reflexivity. Qed.

(** Case analysis on the next unit, with the recursive calls on strictly shorter lists. *)
Lemma drop_units_ind p1 p2 p3 (P : list ascii -> list ascii -> Prop) :
  P [] [] ->
  (forall pre l, pre <> [] -> P l (drop_units p1 p2 p3 l) -> P (pre ++ l)%list (drop_units p1 p2 p3 l)) ->
  (forall l, l <> [] -> drop_units p1 p2 p3 l = l -> P l l) ->
  forall l, P l (drop_units p1 p2 p3 l).
Proof.
  intros Hnil Hdrop Hstop l.
  remember (length l) as n eqn:Hn. assert (length l <= n) as Hle by lia. clear Hn.
  revert l Hle. induction n as [|n IH]; intros [|a l1] Hle; [done|simpl in Hle; lia|done|].
  rewrite drop_units_cons. simpl in Hle.
  destruct (p1 a) eqn:Ha; [apply (Hdrop [a]); [done|apply IH; lia]|].
  destruct l1 as [|b l2]; [apply Hstop; [done|by rewrite drop_units_cons, Ha]|]. simpl in Hle.
  destruct (p2 a b) eqn:Hb; [apply (Hdrop [a; b]); [done|apply IH; lia]|].
  destruct l2 as [|c l3]; [apply Hstop; [done|by rewrite drop_units_cons, Ha, Hb]|]. simpl in Hle.
  destruct (p3 a b c) eqn:Hc; [apply (Hdrop [a; b; c]); [done|apply IH; lia]|].
  apply Hstop; [done|by rewrite drop_units_cons, Ha, Hb, Hc].
Qed.

Lemma drop_units_suffix p1 p2 p3 l : exists l0, l = (l0 ++ drop_units p1 p2 p3 l)%list.
Proof.
  apply (drop_units_ind p1 p2 p3 (fun l r => exists l0, l = (l0 ++ r)%list)).
  - by exists [].
  - intros pre l' _ [l0 Hl0]. exists (pre ++ l0)%list. by rewrite <- app_assoc, <- Hl0.
  - intros l' _ _. by exists [].
Qed.

Lemma drop_units_idem p1 p2 p3 l :
  drop_units p1 p2 p3 (drop_units p1 p2 p3 l) = drop_units p1 p2 p3 l.
Proof. by apply (drop_units_ind p1 p2 p3 (fun _ r => drop_units p1 p2 p3 r = r)). Qed.

Lemma drop_units_longer p1 p2 p3 pre x : pre <> [] -> drop_units p1 p2 p3 x <> (pre ++ x)%list.
Proof.
  intros Hpre Heq. destruct (drop_units_suffix p1 p2 p3 x) as [l0 Hl0].
  apply (f_equal length) in Hl0, Heq. rewrite length_app in Hl0, Heq.
  destruct pre; [done|simpl in *; lia].
Qed.

(** A list that starts with no unit is left alone, and so is each prefix of it. *)
Lemma drop_units_prefix p1 p2 p3 l l1 l2 :
  drop_units p1 p2 p3 l = l -> l = (l1 ++ l2)%list -> drop_units p1 p2 p3 l1 = l1.
Proof.
  intros Hl ->. destruct l1 as [|a l1]; [done|]. change ((a :: l1) ++ l2)%list with (a :: (l1 ++ l2))%list in Hl.
  rewrite drop_units_cons in Hl. rewrite drop_units_cons. destruct (p1 a); [by apply (drop_units_longer _ _ _ [a]) in Hl|].
  destruct l1 as [|b l1]; [done|]. simpl in Hl.
  destruct (p2 a b); [by apply (drop_units_longer _ _ _ [a; b]) in Hl|].
  destruct l1 as [|c l1]; [done|]. simpl in Hl.
  destruct (p3 a b c); [by apply (drop_units_longer _ _ _ [a; b; c]) in Hl|done].
Qed.

Lemma TrimSpace_idem s : TrimSpace (TrimSpace s) = TrimSpace s.
Proof.
  unfold TrimSpace. rewrite String.list_ascii_of_string_of_list_ascii. f_equal.
  set (l := trim_left (String.list_ascii_of_string s)).
  assert (trim_left (trim_right l) = trim_right l) as ->.
  { unfold trim_left, trim_right.
    destruct (drop_units_suffix is_space1 (fun b a => is_space2 a b)
      (fun c b a => is_space3 a b c) (rev l)) as [l0 Hl0].
    apply (f_equal (@rev _)) in Hl0. rewrite rev_involutive, rev_app_distr in Hl0.
    eapply drop_units_prefix; [|exact Hl0]. apply drop_units_idem. }
  unfold trim_right. rewrite rev_involutive. f_equal. apply drop_units_idem.
Qed.

Lemma not_exact_false s : not_exact s = false <-> s = TrimSpace s.
Proof. unfold not_exact. apply negb_eqb_false. Qed.

Lemma not_exact_TrimSpace s : not_exact (TrimSpace s) = false.
Proof. apply not_exact_false. by rewrite TrimSpace_idem. Qed.

Lemma blank_false_exact s : not_exact s = false -> blank s = (s =? "")%string.
Proof. intros ->%not_exact_false. unfold blank. by rewrite TrimSpace_idem. Qed.

Lemma Split_cons s sep : exists w ws, Split s sep = w :: ws.
Proof.
  induction s as [|c s (w & ws & Hs)]; simpl; [eauto|]. rewrite Hs.
  destruct (Ascii.eqb c sep); eauto.
Qed.

Lemma Split_none s sep : contains_byte s sep = false -> Split s sep = [s].
Proof.
  induction s as [|c s IH]; simpl; [done|]. intros [Hc Hs]%orb_false_iff.
  by rewrite Hc, IH.
Qed.

(** Splitting at a separator that the first part does not contain. *)
Lemma Split_app s t sep : contains_byte s sep = false ->
  Split (s ++ String sep t) sep = s :: Split t sep.
Proof.
  induction s as [|c s IH]; simpl.
  - by rewrite Ascii.eqb_refl.
  - intros [Hc Hs]%orb_false_iff. by rewrite Hc, IH.
Qed.

Lemma app_str_assoc (a b c : string) : (a ++ (b ++ c) = (a ++ b) ++ c)%string.
Proof. induction a as [|x a IH]; [done|]. exact (f_equal (String x) IH). Qed.

Lemma HasPrefix_app p s : HasPrefix (p ++ s) p = true.
Proof.
  unfold HasPrefix. induction p as [|c p IH]; [by destruct s|].
  simpl. by destruct (ascii_dec c c).
Qed.

Lemma HasPrefix_spec s p : HasPrefix s p = true <-> exists t, s = p ++ t.
Proof.
  unfold HasPrefix. split; [|intros [t ->]; apply HasPrefix_app].
  revert s. induction p as [|c p IH]; intros s; [by exists s|].
  destruct s as [|d s]; simpl; [done|]. destruct (ascii_dec c d) as [->|]; [|done].
  intros (t & ->)%IH. by exists t.
Qed.

Lemma substring_app p t n : n = String.length t -> String.substring (String.length p) n (p ++ t) = t.
Proof.
  intros ->. induction p as [|c p IH]; simpl; [|done].
  induction t as [|c t IH]; simpl; [done|]. by f_equal.
Qed.

Lemma String_length_app p t : String.length (p ++ t) = String.length p + String.length t.
Proof. induction p as [|c p IH]; [done|]. cbn. by rewrite <- IH. Qed.

Lemma TrimPrefix_app p t : TrimPrefix (p ++ t) p = t.
Proof.
  unfold TrimPrefix. rewrite HasPrefix_app, String_length_app. apply substring_app. lia.
Qed.

(** A separator byte marks where the first part ends. *)
Lemma app_sep_inj s1 s2 t1 t2 sep :
  contains_byte s1 sep = false -> contains_byte s2 sep = false ->
  s1 ++ String sep t1 = s2 ++ String sep t2 -> s1 = s2 /\ t1 = t2.
Proof.
  intros H1 H2 Heq. revert s2 H2 Heq. induction s1 as [|c s1 IH]; intros [|d s2]; simpl in *.
  - intros _ [= ->]. done.
  - intros [Hd _]%orb_false_iff [= <- _]. by rewrite Ascii.eqb_refl in Hd.
  - intros _ [= -> _]. by rewrite Ascii.eqb_refl in H1.
  - apply orb_false_iff in H1 as [_ H1]. intros [_ H2]%orb_false_iff [= -> Heq].
    destruct (IH H1 s2 H2 Heq) as [-> ->]. done.
Qed.
