(* ===== verification/GoText.v ===== *)
(** More of Go's text library: [strings.Fields], upper and lower case, the doubling
    of a quote byte with [strings.ReplaceAll], and the backtracking (leftmost-first)
    semantics of [regexp] for the patterns the program uses.  Regular expressions run
    on bytes here: the patterns only name ASCII characters (and the two runes that
    case-fold to ASCII letters), so matching bytes is matching runes. *)
From S2P Require Import Prelude.
From S2P Require Import GoStrings.
From Stdlib Require Import Ascii.
Open Scope string_scope.
Open Scope list_scope.

Abbreviation bytes := (list ascii) (only parsing).
Abbreviation to_bytes := String.list_ascii_of_string (only parsing).
Abbreviation of_bytes := String.string_of_list_ascii (only parsing).

Lemma to_bytes_app (a b : string) : to_bytes (a ++ b)%string = to_bytes a ++ to_bytes b.
Proof. induction a as [|c a IH]; [done|]. exact (f_equal (cons c) IH). Qed.

Lemma of_bytes_app (a b : bytes) : of_bytes (a ++ b) = (of_bytes a ++ of_bytes b)%string.
Proof. induction a as [|c a IH]; [done|]. exact (f_equal (String c) IH). Qed.

(** * [strings.Fields] *)

Definition flush_field (cur : bytes) (rest : list bytes) : list bytes :=
  match cur with [] => rest | _ => rev cur :: rest end.

Fixpoint fields_from (cur l : bytes) : list bytes :=
  match l with
  | [] => flush_field cur []
  | a :: l1 =>
      if is_space1 a then flush_field cur (fields_from [] l1)
      else match l1 with
      | [] => flush_field (a :: cur) []
      | b :: l2 =>
          if is_space2 a b then flush_field cur (fields_from [] l2)
          else match l2 with
          | [] => fields_from (a :: cur) l1
          | c :: l3 => if is_space3 a b c then flush_field cur (fields_from [] l3)
                       else fields_from (a :: cur) l1
          end
      end
  end.
Definition Fields (s : string) : list string := map of_bytes (fields_from [] (to_bytes s)).

(** * Case

    [unicode.ToUpper] and [unicode.ToLower] outside ASCII are tables of the standard
    library, an argument here. *)
Section Case.
Context (table : Z -> Z).
Definition upper_rune (r : Z) : Z :=
  if (r <? 128)%Z then (if (97 <=? r)%Z && (r <=? 122)%Z then r - 32 else r)%Z else table r.
Definition lower_rune (r : Z) : Z :=
  if (r <? 128)%Z then (if (65 <=? r)%Z && (r <=? 90)%Z then r + 32 else r)%Z else table r.
Definition ToUpper (s : string) : string := string_of_runes (map upper_rune (runes s)).
Definition ToLower (s : string) : string := string_of_runes (map lower_rune (runes s)).
End Case.

(** * [strings.ReplaceAll(s, "q", "qq")] and back, for a byte [q] *)

Fixpoint double_byte (q : ascii) (l : bytes) : bytes :=
  match l with
  | [] => []
  | c :: l' => if Ascii.eqb c q then c :: c :: double_byte q l' else c :: double_byte q l'
  end.
Fixpoint undouble_byte (q : ascii) (l : bytes) : bytes :=
  match l with
  | c :: l' =>
      match l' with
      | d :: l2 => if Ascii.eqb c q && Ascii.eqb d q then q :: undouble_byte q l2
                   else c :: undouble_byte q l'
      | [] => [c]
      end
  | [] => []
  end.

Lemma undouble_double q l : undouble_byte q (double_byte q l) = l.
Proof.
  induction l as [|c l IH]; [done|]. cbn [double_byte]. destruct (Ascii.eqb c q) eqn:E.
  - apply Ascii.eqb_eq in E as ->. cbn [undouble_byte]. rewrite Ascii.eqb_refl. cbn. by rewrite IH.
  - cbn [undouble_byte]. destruct (double_byte q l) as [|d l2] eqn:Ed.
    + destruct l as [|c2 l]; [done|]. cbn in Ed. by destruct (Ascii.eqb c2 q).
    + rewrite E. cbn [andb]. by rewrite IH.
Qed.

(** * Regular expressions *)

Inductive re : Type :=
| RByte (p : ascii -> bool)
| RSeq (r1 r2 : re)
| RAlt (r1 r2 : re)
| RStar (r : re)
| RGroup (r : re)
| RBound
| REmpty.
Definition RPlus (r : re) : re := RSeq r (RStar r).
Definition ROpt (r : re) : re := RAlt r REmpty.

(** [\b]: the neighbours differ in being ASCII word characters. *)
Definition is_word (c : ascii) : bool :=
  let n := N_of_ascii c in
  ((48 <=? n) && (n <=? 57) || (65 <=? n) && (n <=? 90) || (97 <=? n) && (n <=? 122) || (n =? 95))%N.
Definition opt_word (o : option ascii) : bool := match o with Some c => is_word c | None => false end.
Definition at_bound (prev : option ascii) (l : bytes) : bool := xorb (opt_word prev) (opt_word (head l)).

(** A position in the text: the byte before it, the bytes after it and the text the
    group captured so far. *)
Record pos : Type := { pos_prev : option ascii; pos_rest : bytes; pos_cap : bytes }.

Section Star.
Context {A : Type} (body : pos -> (pos -> option A) -> option A) (k : pos -> option A).
Fixpoint star_from (n : nat) (p : pos) : option A :=
  match n with
  | 0 => k p
  | S n' =>
      match body p (fun p' => if (length (pos_rest p') <? length (pos_rest p))%nat
                              then star_from n' p' else None) with
      | Some x => Some x
      | None => k p
      end
  end.
End Star.

(** Greedy, leftmost-first matching: the first success of the alternatives in order.
    A starred body takes at least one byte, so the length of the text bounds it. *)
Fixpoint re_match {A} (r : re) (p : pos) (k : pos -> option A) : option A :=
  match r with
  | REmpty => k p
  | RByte t =>
      match pos_rest p with
      | c :: l => if t c then k {| pos_prev := Some c; pos_rest := l; pos_cap := pos_cap p |} else None
      | [] => None
      end
  | RSeq r1 r2 => re_match r1 p (fun p' => re_match r2 p' k)
  | RAlt r1 r2 => match re_match r1 p k with Some x => Some x | None => re_match r2 p k end
  | RStar r1 => star_from (re_match r1) k (length (pos_rest p)) p
  | RGroup r1 =>
      re_match r1 p (fun p' =>
        k {| pos_prev := pos_prev p'; pos_rest := pos_rest p';
             pos_cap := take (length (pos_rest p) - length (pos_rest p')) (pos_rest p) |})
  | RBound => if at_bound (pos_prev p) (pos_rest p) then k p else None
  end.

(** [FindAllStringSubmatch(s, -1)], the captures of the group, for a pattern that
    matches no empty text: the leftmost match, then on from its end. *)
Fixpoint find_all (r : re) (fuel : nat) (prev : option ascii) (l : bytes) : list bytes :=
  match fuel with
  | 0 => []
  | S fuel' =>
      match re_match r {| pos_prev := prev; pos_rest := l; pos_cap := [] |} Some with
      | Some p => pos_cap p :: find_all r fuel' (pos_prev p) (pos_rest p)
      | None => match l with
                | c :: l' => find_all r fuel' (Some c) l'
                | [] => []
                end
      end
  end.
Definition FindAllSubmatch (r : re) (s : bytes) : list bytes := find_all r (S (length s)) None s.

(** Pattern helpers. *)
Definition in_range (lo hi : N) (c : ascii) : bool := ((lo <=? N_of_ascii c) && (N_of_ascii c <=? hi))%N.
Definition byte_is (c : ascii) : re := RByte (Ascii.eqb c).
Definition letter_is (c : ascii) : re := (* either case of an upper-case letter *)
  RByte (fun d => Ascii.eqb c d || (N_of_ascii d =? N_of_ascii c + 32)%N).
Definition word_is (w : string) : re := fold_right (fun c r => RSeq (letter_is c) r) REmpty (to_bytes w).
(** [\s] *)
Definition re_space : re := RByte (fun c =>
  let n := N_of_ascii c in ((n =? 9) || (n =? 10) || (n =? 12) || (n =? 13) || (n =? 32))%N).
