(* ===== verification/Json.v ===== *)
(** The parts of Go's [encoding/json] the program relies on, and the strict
    decoder of server/internal/jsoncontract/jsoncontract.go.  A number keeps its
    literal text; [float_value] is what decoding it into a [float64] and
    encoding that again makes of it. *)
From S2P Require Import Prelude GoStrings.
From Stdlib Require Import Ascii.
Open Scope string_scope.
Open Scope list_scope.

(** * Values *)

Inductive jval :=
| JNull
| JBool (b : bool)
| JNum (lit : string)
| JStr (s : string)
| JArr (vs : list jval)
| JObj (kvs : list (string * jval)).

(** * [json.Marshal] *)

Definition hexdigit (n : Z) : ascii := asciiZ (if (n <? 10)%Z then 48 + n else 87 + n).
Definition u00 (n : Z) : list ascii :=
  ["\"%char; "u"%char; "0"%char; "0"%char; hexdigit (n / 16); hexdigit (n mod 16)].

(** One byte below 0x80, with the HTML-escaping that [json.Marshal] applies. *)
Definition escape_ascii (a : ascii) : list ascii :=
  let n := byteZ a in
  if (n =? 34)%Z || (n =? 92)%Z then ["\"%char; a]
  else if (n =? 8)%Z then ["\"%char; "b"%char]
  else if (n =? 12)%Z then ["\"%char; "f"%char]
  else if (n =? 10)%Z then ["\"%char; "n"%char]
  else if (n =? 13)%Z then ["\"%char; "r"%char]
  else if (n =? 9)%Z then ["\"%char; "t"%char]
  else if (n <? 32)%Z || (n =? 60)%Z || (n =? 62)%Z || (n =? 38)%Z then u00 n
  else [a].

(** [appendString]: invalid UTF-8 becomes the escape of U+FFFD, and the two
    JavaScript line separators are escaped.  Every rune has at least one byte,
    so the number of bytes is enough fuel. *)
Fixpoint escape_loop (fuel : nat) (l : list ascii) : list ascii :=
  match fuel, l with
  | S fuel, a :: l1 =>
      if (byteZ a <? 128)%Z then escape_ascii a ++ escape_loop fuel l1
      else
        let '(r, w) := decode_rune l in
        if (r =? RuneError)%Z && (w =? 1)%nat
        then String.list_ascii_of_string "\ufffd" ++ escape_loop fuel (drop w l)
        else if (r =? 8232)%Z || (r =? 8233)%Z
        then String.list_ascii_of_string "\u202" ++ [hexdigit (r - 8224)] ++ escape_loop fuel (drop w l)
        else take w l ++ escape_loop fuel (drop w l)
  | _, _ => []
  end.
Definition quote : ascii := "034"%char.
Definition encode_string (s : string) : list ascii :=
  quote :: escape_loop (String.length s) (String.list_ascii_of_string s) ++ [quote].

(** Join with commas. *)
Fixpoint commas (ls : list (list ascii)) : list ascii :=
  match ls with
  | [] => []
  | [l] => l
  | l :: ls' => l ++ ","%char :: commas ls'
  end.

Fixpoint encode (v : jval) : list ascii :=
  match v with
  | JNull => String.list_ascii_of_string "null"
  | JBool true => String.list_ascii_of_string "true"
  | JBool false => String.list_ascii_of_string "false"
  | JNum lit => String.list_ascii_of_string lit
  | JStr s => encode_string s
  | JArr vs => "["%char :: commas (map encode vs) ++ ["]"%char]
  | JObj kvs =>
      "{"%char :: commas (map (fun kv => encode_string kv.1 ++ ":"%char :: encode kv.2) kvs)
      ++ ["}"%char]
  end.

(** A Go map is encoded with its keys in byte order. *)
Fixpoint insert_key {A} (kv : string * A) (l : list (string * A)) : list (string * A) :=
  match l with
  | [] => [kv]
  | kv' :: l' => if String.ltb kv.1 kv'.1 then kv :: l else kv' :: insert_key kv l'
  end.
Definition sort_keys {A} (l : list (string * A)) : list (string * A) := foldr insert_key [] l.

(** The value [json.Marshal] sees for a decoded [interface{}]: every object is a
    map. *)
Fixpoint as_maps (v : jval) : jval :=
  match v with
  | JArr vs => JArr (map as_maps vs)
  | JObj kvs => JObj (sort_keys (map (fun kv => (kv.1, as_maps kv.2)) kvs))
  | _ => v
  end.

Definition Marshal (v : jval) : string := String.string_of_list_ascii (encode v).
Definition MarshalMap (kvs : list (string * jval)) : string := Marshal (JObj (sort_keys kvs)).

(** * Reading JSON text *)

Definition is_ws (a : ascii) : bool :=
  let n := byteZ a in (n =? 32)%Z || (n =? 9)%Z || (n =? 10)%Z || (n =? 13)%Z.
Fixpoint skip_ws (l : list ascii) : list ascii :=
  match l with
  | a :: l' => if is_ws a then skip_ws l' else l
  | [] => []
  end.

Definition is_digit (a : ascii) : bool := (48 <=? byteZ a)%Z && (byteZ a <=? 57)%Z.
Fixpoint span {A} (p : A -> bool) (l : list A) : list A * list A :=
  match l with
  | a :: l' => if p a then let '(x, y) := span p l' in (a :: x, y) else ([], l)
  | [] => ([], [])
  end.

(** -?(0|[1-9][0-9]* )(\.[0-9]+)?([eE][+-]?[0-9]+)? *)
Definition read_int (l : list ascii) : option (list ascii * list ascii) :=
  match l with
  | a :: l' =>
      if Ascii.eqb a "0" then Some ([a], l')
      else if is_digit a then Some (span is_digit l) else None
  | [] => None
  end.
Definition read_frac (l : list ascii) : option (list ascii * list ascii) :=
  match l with
  | a :: l' =>
      if Ascii.eqb a "." then
        let '(ds, rest) := span is_digit l' in
        match ds with [] => None | _ => Some (a :: ds, rest) end
      else Some ([], l)
  | [] => Some ([], [])
  end.
Definition read_exp (l : list ascii) : option (list ascii * list ascii) :=
  match l with
  | a :: l' =>
      if Ascii.eqb a "e" || Ascii.eqb a "E" then
        let '(sign, l2) := match l' with
                           | b :: l2 => if Ascii.eqb b "+" || Ascii.eqb b "-" then ([b], l2) else ([], l')
                           | [] => ([], [])
                           end in
        let '(ds, rest) := span is_digit l2 in
        match ds with [] => None | _ => Some (a :: sign ++ ds, rest) end
      else Some ([], l)
  | [] => Some ([], [])
  end.
Definition read_number (l : list ascii) : option (list ascii * list ascii) :=
  let '(sign, l0) := match l with
                     | a :: l' => if Ascii.eqb a "-" then ([a], l') else ([], l)
                     | [] => ([], [])
                     end in
  let! ip := read_int l0 in
  let! fp := read_frac ip.2 in
  let! ep := read_exp fp.2 in
  Some (sign ++ ip.1 ++ fp.1 ++ ep.1, ep.2).

Definition hexval (a : ascii) : option Z :=
  let n := byteZ a in
  if is_digit a then Some (n - 48)%Z
  else if (97 <=? n)%Z && (n <=? 102)%Z then Some (n - 87)%Z
  else if (65 <=? n)%Z && (n <=? 70)%Z then Some (n - 55)%Z
  else None.
Definition read_u4 (l : list ascii) : option (Z * list ascii) :=
  match l with
  | a :: b :: c :: d :: l' =>
      let! a := hexval a in let! b := hexval b in let! c := hexval c in let! d := hexval d in
      Some ((a * 4096 + b * 256 + c * 16 + d)%Z, l')
  | _ => None
  end.
(** [\uXXXX] after a high surrogate, when it completes a pair. *)
Definition low_surrogate (hi : Z) (l : list ascii) : option (Z * list ascii) :=
  match l with
  | b :: u :: l1 =>
      if Ascii.eqb b "\" && Ascii.eqb u "u" then
        let! r := read_u4 l1 in
        if (55296 <=? hi)%Z && (hi <? 56320)%Z && (56320 <=? r.1)%Z && (r.1 <? 57344)%Z
        then Some (((hi - 55296) * 1024 + (r.1 - 56320) + 65536)%Z, r.2) else None
      else None
  | _ => None
  end.

(** [unquote]: the bytes of the string and the text after the closing quote. *)
Fixpoint read_string (fuel : nat) (l : list ascii) : option (list ascii * list ascii) :=
  match fuel, l with
  | S fuel, a :: l1 =>
      let n := byteZ a in
      let emit bs rest := let! p := read_string fuel rest in Some (bs ++ p.1, p.2) in
      if (n =? 34)%Z then Some ([], l1)
      else if (n =? 92)%Z then
        match l1 with
        | c :: l2 =>
            let m := byteZ c in
            if (m =? 34)%Z || (m =? 92)%Z || (m =? 47)%Z then emit [c] l2
            else if (m =? 98)%Z then emit [asciiZ 8] l2
            else if (m =? 102)%Z then emit [asciiZ 12] l2
            else if (m =? 110)%Z then emit [asciiZ 10] l2
            else if (m =? 114)%Z then emit [asciiZ 13] l2
            else if (m =? 116)%Z then emit [asciiZ 9] l2
            else if (m =? 117)%Z then
              let! r := read_u4 l2 in
              if (55296 <=? r.1)%Z && (r.1 <? 57344)%Z then
                match low_surrogate r.1 r.2 with
                | Some (rr, l4) => emit (encode_rune rr) l4
                | None => emit (encode_rune RuneError) r.2
                end
              else emit (encode_rune r.1) r.2
            else None
        | [] => None
        end
      else if (n <? 32)%Z then None
      else if (n <? 128)%Z then emit [a] l1
      else let '(r, w) := decode_rune l in emit (encode_rune r) (drop w l)
  | _, _ => None
  end.

Definition maxNestingDepth : Z := 10000.

(** Strip a literal. *)
Fixpoint eat (p l : list ascii) : option (list ascii) :=
  match p, l with
  | [], _ => Some l
  | a :: p', b :: l' => if Ascii.eqb a b then eat p' l' else None
  | _ :: _, [] => None
  end.

Definition str_text (bs : list ascii) : string := String.string_of_list_ascii bs.

(** Every recursive call follows a consumed byte, so twice the number of bytes
    is enough fuel. *)
Fixpoint read_value (fuel : nat) (depth : Z) (l : list ascii) {struct fuel} : option (jval * list ascii) :=
  match fuel with
  | O => None
  | S fuel =>
      match skip_ws l with
      | [] => None
      | a :: l1 =>
          if Ascii.eqb a quote then
            let! p := read_string (length l1) l1 in Some (JStr (str_text p.1), p.2)
          else if Ascii.eqb a "{" then
            if (maxNestingDepth <=? depth)%Z then None
            else match skip_ws l1 with
                 | b :: l2 => if Ascii.eqb b "}" then Some (JObj [], l2)
                              else let! p := read_members fuel (depth + 1)%Z l1 in Some (JObj p.1, p.2)
                 | [] => None
                 end
          else if Ascii.eqb a "[" then
            if (maxNestingDepth <=? depth)%Z then None
            else match skip_ws l1 with
                 | b :: l2 => if Ascii.eqb b "]" then Some (JArr [], l2)
                              else let! p := read_elements fuel (depth + 1)%Z l1 in Some (JArr p.1, p.2)
                 | [] => None
                 end
          else if Ascii.eqb a "t" then
            let! r := eat (String.list_ascii_of_string "rue") l1 in Some (JBool true, r)
          else if Ascii.eqb a "f" then
            let! r := eat (String.list_ascii_of_string "alse") l1 in Some (JBool false, r)
          else if Ascii.eqb a "n" then
            let! r := eat (String.list_ascii_of_string "ull") l1 in Some (JNull, r)
          else
            let! p := read_number (a :: l1) in Some (JNum (str_text p.1), p.2)
      end
  end
with read_elements (fuel : nat) (depth : Z) (l : list ascii) {struct fuel} : option (list jval * list ascii) :=
  match fuel with
  | O => None
  | S fuel =>
      let! p := read_value fuel depth l in
      match skip_ws p.2 with
      | a :: l2 =>
          if Ascii.eqb a "]" then Some ([p.1], l2)
          else if Ascii.eqb a "," then
            let! q := read_elements fuel depth l2 in Some (p.1 :: q.1, q.2)
          else None
      | [] => None
      end
  end
with read_members (fuel : nat) (depth : Z) (l : list ascii) {struct fuel} : option (list (string * jval) * list ascii) :=
  match fuel with
  | O => None
  | S fuel =>
      match skip_ws l with
      | a :: l1 =>
          if Ascii.eqb a quote then
            let! k := read_string (length l1) l1 in
            match skip_ws k.2 with
            | c :: l3 =>
                if Ascii.eqb c ":" then
                  let! p := read_value fuel depth l3 in
                  match skip_ws p.2 with
                  | d :: l4 =>
                      if Ascii.eqb d "}" then Some ([(str_text k.1, p.1)], l4)
                      else if Ascii.eqb d "," then
                        let! q := read_members fuel depth l4 in Some ((str_text k.1, p.1) :: q.1, q.2)
                      else None
                  | [] => None
                  end
                else None
            | [] => None
            end
          else None
      | [] => None
      end
  end.

(** * jsoncontract: one value, nothing after it, no duplicate keys *)

Fixpoint distinct (l : list string) : bool :=
  match l with
  | [] => true
  | x :: l' => negb (existsb (String.eqb x) l') && distinct l'
  end.
Fixpoint no_duplicate_keys (v : jval) : bool :=
  match v with
  | JArr vs => forallb no_duplicate_keys vs
  | JObj kvs => distinct (map fst kvs) && forallb (fun kv => no_duplicate_keys kv.2) kvs
  | _ => true
  end.

(** [json.Unmarshal] of one complete text. *)
Definition Unmarshal (raw : string) : option jval :=
  let l := String.list_ascii_of_string raw in
  let! p := read_value (2 * length l + 2) 0 l in
  match skip_ws p.2 with [] => Some p.1 | _ => None end.

(** [jsoncontract.Validate] followed by the decoding into an [interface{}]. *)
Definition Validate (raw : string) : option jval :=
  let! v := Unmarshal raw in
  if no_duplicate_keys v then Some v else None.

(** * Numbers: [strconv.ParseFloat] and the encoder's shortest format *)

(** Round [p / q] to an integer, ties to even. *)
Definition round_even (p q : Z) : Z :=
  let n := (p / q)%Z in let r := (p mod q)%Z in
  if (2 * r <? q)%Z then n else if (q <? 2 * r)%Z then (n + 1)%Z else if Z.even n then n else (n + 1)%Z.

Definition pow_ratio (b e : Z) : Z * Z := if (0 <=? e)%Z then (b ^ e, 1)%Z else (1, b ^ (- e))%Z.

(** The double nearest to the positive rational [p / q], as mantissa and binary
    exponent; [None] on overflow. *)
Definition to_double (p q : Z) : option (Z * Z) :=
  let e0 := (Z.log2 p - Z.log2 q - 52)%Z in
  let e1 := (if let '(a, b) := pow_ratio 2 e0 in p * b <? 2 ^ 52 * q * a then e0 - 1 else e0)%Z in
  let e := Z.max e1 (-1074) in
  let '(a, b) := pow_ratio 2 e in
  let m := round_even (p * b) (q * a) in
  let '(m, e) := (if m =? 2 ^ 53 then (2 ^ 52, e + 1) else (m, e))%Z in
  if (971 <? e)%Z then None else Some (m, e).

(** The digits and decimal exponent of a number literal: the value is
    [digits * 10 ^ exponent]. *)
Definition digits_value (l : list ascii) : Z := fold_left (fun n a => (n * 10 + (byteZ a - 48))%Z) l 0%Z.
Definition literal_value (l : list ascii) : bool * Z * Z :=
  let '(neg, l0) := match l with a :: l' => if Ascii.eqb a "-" then (true, l') else (false, l) | [] => (false, l) end in
  let '(ip, l1) := span is_digit l0 in
  let '(fp, l2) := match l1 with a :: l' => if Ascii.eqb a "." then span is_digit l' else ([], l1) | [] => ([], l1) end in
  let e := match l2 with
           | _ :: b :: l3 => if Ascii.eqb b "-" then (- digits_value l3)%Z
                             else if Ascii.eqb b "+" then digits_value l3 else digits_value (b :: l3)
           | _ => 0%Z
           end in
  (neg, digits_value (ip ++ fp), (e - Z.of_nat (length fp))%Z).

Fixpoint decimal_digits (fuel : nat) (n : Z) (acc : list ascii) : list ascii :=
  match fuel with
  | O => acc
  | S fuel => let acc := asciiZ (48 + n mod 10) :: acc in
              if (n <? 10)%Z then acc else decimal_digits fuel (n / 10) acc
  end.
Definition itoa_digits (n : Z) : list ascii := decimal_digits (Z.to_nat (Z.log2 n) + 1) n [].

(** [fmt.Sprintf("%d", n)] *)
Definition itoa (n : Z) : string :=
  str_text ((if (n <? 0)%Z then ["-"%char] else []) ++ itoa_digits (Z.abs n)).

(** [strconv.ParseInt(lit, 10, 64)], as decoding into an [int] does. *)
Definition parse_int (lit : string) : option Z :=
  let l := String.list_ascii_of_string lit in
  let '(neg, ds) := match l with a :: l' => if Ascii.eqb a "-" then (true, l') else (false, l) | [] => (false, []) end in
  if (length ds =? 0)%nat || negb (forallb is_digit ds) then None
  else
    let n := if neg then (- digits_value ds)%Z else digits_value ds in
    if (-9223372036854775808 <=? n)%Z && (n <=? 9223372036854775807)%Z then Some n else None.
Definition is_jint (v : jval) : bool :=
  match v with JNum lit => bool_decide (is_Some (parse_int lit)) | _ => false end.

(** The shortest decimal that rounds to the double [m * 2 ^ e]: its digits and
    the exponent of the digit before the point. *)
Fixpoint shortest (tries : nat) (nd : Z) (m e : Z) : Z * Z :=
  let '(a, b) := pow_ratio 2 e in
  let p := (m * a)%Z in
  let x0 := ((Z.log2 p - Z.log2 b) * 30103 / 100000 - 1)%Z in
  let ge x := (let '(c, d) := pow_ratio 10 x in c * b <=? p * d)%Z in
  let x := (if ge (x0 + 2) then x0 + 2 else if ge (x0 + 1) then x0 + 1 else x0)%Z in
  let '(c, d) := pow_ratio 10 (x - nd + 1) in
  let n := round_even (p * d) (b * c) in
  match tries with
  | O => (n, x - nd + 1)%Z
  | S tries =>
      if bool_decide (to_double (n * c) d = Some (m, e)) then (n, x - nd + 1)%Z
      else shortest tries (nd + 1) m e
  end.

Definition zeros (n : Z) : list ascii := repeat "0"%char (Z.to_nat n).
Fixpoint drop_zeros (l : list ascii) : list ascii :=
  match l with a :: l' => if Ascii.eqb a "0" then drop_zeros l' else l | [] => [] end.
(** [floatEncoder]: fixed notation between 1e-6 and 1e21, else scientific. *)
Definition layout_float (neg : bool) (n x : Z) : list ascii :=
  let ds := rev (drop_zeros (rev (itoa_digits n))) in
  let point := (Z.of_nat (length (itoa_digits n)) + x)%Z in
  let k := Z.of_nat (length ds) in
  (if neg then ["-"%char] else []) ++
  if (point <? -5)%Z || (21 <? point)%Z then
    match ds with
    | [] => []
    | a :: ds' =>
        a :: match ds' with [] => [] | _ => "."%char :: ds' end
        ++ "e"%char :: (if (point - 1 <? 0)%Z then "-"%char else "+"%char) :: itoa_digits (Z.abs (point - 1))
    end
  else if (point <=? 0)%Z then "0"%char :: "."%char :: zeros (- point) ++ ds
  else if (k <=? point)%Z then ds ++ zeros (point - k)
  else take (Z.to_nat point) ds ++ "."%char :: drop (Z.to_nat point) ds.

(** The text of the [float64] a literal decodes to, [None] when out of range. *)
Definition float_value (lit : string) : option string :=
  let '(neg, n, x) := literal_value (String.list_ascii_of_string lit) in
  if (n =? 0)%Z then Some (if neg then "-0" else "0")
  else if (310 <? Z.of_nat (length (itoa_digits n)) + x)%Z then None
  else if (Z.of_nat (length (itoa_digits n)) + x <? -330)%Z then Some (if neg then "-0" else "0")
  else
    let '(a, b) := pow_ratio 10 x in
    let! d := to_double (n * a) b in
    if (d.1 =? 0)%Z then Some (if neg then "-0" else "0")
    else let '(n', x') := shortest 16 1 d.1 d.2 in Some (str_text (layout_float neg n' x')).

(** * Decoding into a Go value *)

(** Into an [interface{}]: every number becomes a [float64], and one that is out
    of its range is an error. *)
Fixpoint to_interface (v : jval) : option jval :=
  match v with
  | JNum lit => JNum <$> float_value lit
  | JArr vs =>
      let! ws := (fix go l := match l with
                  | [] => Some []
                  | x :: l' => let! y := to_interface x in let! ys := go l' in Some (y :: ys)
                  end) vs in Some (JArr ws)
  | JObj kvs =>
      let! ws := (fix go l := match l with
                  | [] => Some []
                  | kx :: l' => let! y := to_interface kx.2 in let! ys := go l' in Some ((kx.1, y) :: ys)
                  end) kvs in Some (JObj ws)
  | _ => Some v
  end.

(** [jsoncontract.Decode] into an [interface{}] *)
Definition Decode (raw : string) : option jval :=
  let! v := Validate raw in to_interface v.

(** Into a [map[string]interface{}]: JSON null leaves the map nil. *)
Definition as_object (v : jval) : option (list (string * jval)) :=
  match v with
  | JObj kvs => Some kvs
  | JNull => Some []
  | _ => None
  end.

(** Struct fields match by exact name, or else by case folding (ASCII letters,
    U+017F as s and U+212A as k). *)
Fixpoint fold_name (l : list ascii) : list ascii :=
  match l with
  | [] => []
  | a :: l1 =>
      let n := byteZ a in
      if (97 <=? n)%Z && (n <=? 122)%Z then asciiZ (n - 32) :: fold_name l1
      else match l1 with
      | b :: l2 =>
          if (n =? 197)%Z && (byteZ b =? 191)%Z then asciiZ 83 :: fold_name l2
          else match l2 with
          | c :: l3 =>
              if (n =? 226)%Z && (byteZ b =? 132)%Z && (byteZ c =? 170)%Z
              then asciiZ 75 :: fold_name l3 else a :: fold_name l1
          | [] => a :: fold_name l1
          end
      | [] => [a]
      end
  end.
Definition fold_key (s : string) : string :=
  str_text (fold_name (String.list_ascii_of_string s)).
Definition match_field (fields : list string) (key : string) : option string :=
  match List.find (String.eqb key) fields with
  | Some f => Some f
  | None => List.find (fun f => fold_key f =? fold_key key) fields
  end.

(** The value each field of the struct receives, the last member winning;
    [DisallowUnknownFields] makes an unmatched key an error, [accepts] is the
    type check of the field, and null leaves a field alone. *)
Fixpoint bind_fields (fields : list (string * (jval -> bool))) (kvs : list (string * jval))
    (acc : gmap string jval) : option (gmap string jval) :=
  match kvs with
  | [] => Some acc
  | (k, v) :: kvs' =>
      let! f := match_field (map fst fields) k in
      match v with
      | JNull => bind_fields fields kvs' acc
      | _ =>
          if existsb (fun fa => (fa.1 =? f)%string && fa.2 v) fields
          then bind_fields fields kvs' (<[f := v]> acc) else None
      end
  end.

Definition is_jstr (v : jval) : bool := match v with JStr _ => true | _ => false end.
Definition is_jbool (v : jval) : bool := match v with JBool _ => true | _ => false end.

(** A [string] field: absent and null leave it empty. *)
Definition string_field (m : gmap string jval) (f : string) : string :=
  match m !! f with Some (JStr s) => s | _ => "" end.
Definition bool_field (m : gmap string jval) (f : string) : bool :=
  match m !! f with Some (JBool b) => b | _ => false end.

Definition int_field (m : gmap string jval) (f : string) : Z :=
  match m !! f with Some (JNum lit) => default 0%Z (parse_int lit) | _ => 0%Z end.

(** The value of a key of a decoded map; Go keeps the last one, and strict
    texts have no duplicates. *)
Fixpoint lookup_key (kvs : list (string * jval)) (k : string) : option jval :=
  match kvs with
  | [] => None
  | (k', v) :: kvs' =>
      match lookup_key kvs' k with
      | Some w => Some w
      | None => if k' =? k then Some v else None
      end
  end.

(** A member that [omitempty] drops when its string is empty. *)
Definition opt_str (k s : string) : list (string * jval) := if s =? "" then [] else [(k, JStr s)].

(** [jsoncontract.Decode] into a struct. *)
Definition decode_struct (fields : list (string * (jval -> bool))) (raw : string) : option (gmap string jval) :=
  let! v := Validate raw in
  let! kvs := as_object v in
  bind_fields fields kvs ∅.

(** Decoding into a struct with [json.Unmarshal], which ignores members no field matches. *)
Definition bind_known (fields : list (string * (jval -> bool))) (kvs : list (string * jval)) : option (gmap string jval) :=
  bind_fields fields (List.filter (fun kv => bool_decide (is_Some (match_field (map fst fields) kv.1))) kvs) ∅.

Lemma insert_key_perm {A} (kv : string * A) l : insert_key kv l ≡ₚ kv :: l.
Proof.
  induction l as [|x l IH]; simpl; [done|]. repeat break_match; try done.
  rewrite IH. by rewrite Permutation_swap.
Qed.

Lemma sort_keys_perm {A} (l : list (string * A)) : sort_keys l ≡ₚ l.
Proof. induction l as [|kv l IH]; simpl; [done|]. by rewrite insert_key_perm, IH. Qed.
