(* ===== verification/JsonRoundtrip.v ===== *)
(** Round trip of the JSON model: what [json.Marshal] writes for a value with
    valid UTF-8 strings, jsoncontract reads back as the same value.  The engine's
    checkpoints, suspension events and receipts all travel through this. *)
From S2P Require Import Prelude GoStrings Json.
From Stdlib Require Import Ascii.
Open Scope string_scope.
Open Scope list_scope.

(** * Valid UTF-8 *)

(** Every rune of the text decodes; the number of bytes is enough fuel. *)
Fixpoint utf8_loop (fuel : nat) (l : list ascii) : bool :=
  match fuel, l with
  | S fuel, _ :: _ =>
      let '(r, w) := decode_rune l in
      negb ((r =? RuneError)%Z && (w =? 1)%nat) && utf8_loop fuel (drop w l)
  | _, _ => true
  end.
Definition ValidString (s : string) : bool := utf8_loop (String.length s) (String.list_ascii_of_string s).

(** * Values that survive the trip *)

(** A number literal that is read back whole before any delimiter. *)
Definition delimited (rest : list ascii) : Prop :=
  match rest with
  | [] => True
  | a :: _ => a = ","%char \/ a = "]"%char \/ a = "}"%char
  end.
Definition number_ok (lit : string) : Prop :=
  match String.list_ascii_of_string lit with
  | [] => False
  | a :: _ => is_digit a = true \/ a = "-"%char
  end
  /\ forall rest, delimited rest ->
       read_number (String.list_ascii_of_string lit ++ rest) = Some (String.list_ascii_of_string lit, rest).

Fixpoint json_ok (v : jval) : Prop :=
  match v with
  | JNum lit => number_ok lit
  | JStr s => ValidString s = true
  | JArr vs => (fix go l := match l with [] => True | x :: l' => json_ok x /\ go l' end) vs
  | JObj kvs =>
      (fix go l := match l with [] => True | kx :: l' => ValidString kx.1 = true /\ json_ok kx.2 /\ go l' end) kvs
  | _ => True
  end.

Fixpoint depth_of (v : jval) : nat :=
  match v with
  | JArr vs => S (fold_right (fun x n => Nat.max (depth_of x) n) 0 vs)
  | JObj kvs => S (fold_right (fun kx n => Nat.max (depth_of kx.2) n) 0 kvs)
  | _ => 0
  end.

(** Fuel that reading the encoding needs. *)
Fixpoint need (v : jval) : nat :=
  match v with
  | JArr vs => S (fold_right (fun x n => S (need x) + n) 0 vs)
  | JObj kvs => S (fold_right (fun kx n => S (need kx.2) + n) 0 kvs)
  | _ => 1
  end.

(** * Lemmas: bytes and runes *)

Lemma byteZ_range a : (0 <= byteZ a < 256)%Z.
Proof. unfold byteZ. destruct a as [[] [] [] [] [] [] [] []]; vm_compute; split; congruence. Qed.

Lemma asciiZ_byteZ a : asciiZ (byteZ a) = a.
Proof. unfold asciiZ, byteZ. rewrite N2Z.id. apply ascii_N_embedding. Qed.

Lemma byteZ_asciiZ z : (0 <= z < 256)%Z -> byteZ (asciiZ z) = z.
Proof.
  intros Hz. unfold asciiZ, byteZ. rewrite N_ascii_embedding by lia. lia.
Qed.

Lemma encode_rune2 n m :
  (194 <= n <= 223)%Z -> (128 <= m <= 191)%Z ->
  encode_rune ((n - 192) * 64 + (m - 128)) = [asciiZ n; asciiZ m].
Proof.
  intros Hn Hm. set (r := ((n - 192) * 64 + (m - 128))%Z).
  assert (128 <= r < 2048)%Z as Hr by (subst r; lia). unfold encode_rune.
  replace ((r <? 0)%Z || (1114111 <? r)%Z || ((55296 <=? r)%Z && (r <=? 57343)%Z)) with false by lia.
  replace (r <? 128)%Z with false by lia. replace (r <? 2048)%Z with true by lia.
  f_equal; [f_equal|f_equal; f_equal]; subst r; Z.div_mod_to_equations; lia.
Qed.

Lemma encode_rune3 n m c :
  (224 <= n <= 239)%Z -> (128 <= m <= 191)%Z -> (128 <= c <= 191)%Z ->
  (n = 224 -> 160 <= m)%Z -> (n = 237 -> m <= 159)%Z ->
  encode_rune ((n - 224) * 4096 + (m - 128) * 64 + (c - 128)) = [asciiZ n; asciiZ m; asciiZ c].
Proof.
  intros Hn Hm Hc Hlo Hhi. set (r := ((n - 224) * 4096 + (m - 128) * 64 + (c - 128))%Z).
  assert (2048 <= r < 65536 /\ ~ (55296 <= r <= 57343))%Z as [Hr Hs] by (subst r; lia). unfold encode_rune.
  replace ((r <? 0)%Z || (1114111 <? r)%Z || ((55296 <=? r)%Z && (r <=? 57343)%Z)) with false by lia.
  replace (r <? 128)%Z with false by lia. replace (r <? 2048)%Z with false by lia.
  replace (r <? 65536)%Z with true by lia.
  f_equal; [f_equal|f_equal; [f_equal|f_equal; f_equal]]; subst r; Z.div_mod_to_equations; lia.
Qed.

Lemma encode_rune4 n m c d :
  (240 <= n <= 244)%Z -> (128 <= m <= 191)%Z -> (128 <= c <= 191)%Z -> (128 <= d <= 191)%Z ->
  (n = 240 -> 144 <= m)%Z -> (n = 244 -> m <= 143)%Z ->
  encode_rune ((n - 240) * 262144 + (m - 128) * 4096 + (c - 128) * 64 + (d - 128))
  = [asciiZ n; asciiZ m; asciiZ c; asciiZ d].
Proof.
  intros Hn Hm Hc Hd Hlo Hhi.
  set (r := ((n - 240) * 262144 + (m - 128) * 4096 + (c - 128) * 64 + (d - 128))%Z).
  assert (65536 <= r <= 1114111)%Z as Hr by (subst r; lia). unfold encode_rune.
  replace ((r <? 0)%Z || (1114111 <? r)%Z || ((55296 <=? r)%Z && (r <=? 57343)%Z)) with false by lia.
  replace (r <? 128)%Z with false by lia. replace (r <? 2048)%Z with false by lia.
  replace (r <? 65536)%Z with false by lia.
  f_equal; [f_equal|f_equal; [f_equal|f_equal; [f_equal|f_equal; f_equal]]];
    subst r; Z.div_mod_to_equations; lia.
Qed.

(** A rune that decodes is its own encoding, and decoding looks no further. *)
Lemma decode_rune_ok a l r w :
  (128 <= byteZ a)%Z -> decode_rune (a :: l) = (r, w) -> ~ (r = RuneError /\ w = 1) ->
  exists bs rest, a :: l = bs ++ rest /\ length bs = w /\ 1 < w /\ encode_rune r = bs
    /\ forall tail, decode_rune (bs ++ tail) = (r, w).
Proof.
  intros Ha. unfold decode_rune. replace (byteZ a <? 128)%Z with false by lia.
  destruct l as [|b l]; [intros [= <- <-] []; done|]. cbv zeta.
  set (lo := (if (byteZ a =? 224)%Z then 160%Z else if (byteZ a =? 240)%Z then 144%Z else 128%Z)).
  set (hi := (if (byteZ a =? 237)%Z then 159%Z else if (byteZ a =? 244)%Z then 143%Z else 191%Z)).
  assert (128 <= lo /\ hi <= 191 /\ (byteZ a = 224 -> lo = 160) /\ (byteZ a = 240 -> lo = 144)
          /\ (byteZ a = 237 -> hi = 159) /\ (byteZ a = 244 -> hi = 143))%Z as Hlh.
  { subst lo hi. repeat case_match; reflect_bools; lia. }
  destruct ((lo <=? byteZ b)%Z && (byteZ b <=? hi)%Z) eqn:Hb; simpl; [|intros [= <- <-] []; done].
  apply andb_true_iff in Hb as [Hb1 Hb2]. reflect_bools.
  destruct ((194 <=? byteZ a)%Z && (byteZ a <=? 223)%Z) eqn:H2.
  { intros [= <- <-] _. apply andb_true_iff in H2 as [? ?]. reflect_bools.
    exists [a; b], l. split_and!; [done|done|lia| |].
    - rewrite encode_rune2, !asciiZ_byteZ by lia. done.
    - intros tail. simpl. replace (byteZ a <? 128)%Z with false by lia. fold lo hi.
      replace ((lo <=? byteZ b)%Z && (byteZ b <=? hi)%Z) with true by lia. simpl.
      by replace ((194 <=? byteZ a)%Z && (byteZ a <=? 223)%Z) with true by lia. }
  destruct l as [|c l]; [intros [= <- <-] []; done|]. unfold is_cont.
  destruct ((128 <=? byteZ c)%Z && (byteZ c <=? 191)%Z) eqn:Hc; simpl; [|intros [= <- <-] []; done].
  apply andb_true_iff in Hc as [Hc1 Hc2]. reflect_bools.
  destruct ((224 <=? byteZ a)%Z && (byteZ a <=? 239)%Z) eqn:H3.
  { intros [= <- <-] _. apply andb_true_iff in H3 as [? ?]. reflect_bools.
    exists [a; b; c], l. split_and!; [done|done|lia| |].
    - rewrite encode_rune3, !asciiZ_byteZ by lia. done.
    - intros tail. simpl. replace (byteZ a <? 128)%Z with false by lia. fold lo hi.
      replace ((lo <=? byteZ b)%Z && (byteZ b <=? hi)%Z) with true by lia. simpl.
      rewrite H2. unfold is_cont. replace ((128 <=? byteZ c)%Z && (byteZ c <=? 191)%Z) with true by lia. simpl.
      by replace ((224 <=? byteZ a)%Z && (byteZ a <=? 239)%Z) with true by lia. }
  destruct l as [|d l]; [intros [= <- <-] []; done|].
  destruct ((128 <=? byteZ d)%Z && (byteZ d <=? 191)%Z && (240 <=? byteZ a)%Z && (byteZ a <=? 244)%Z) eqn:H4;
    [|intros [= <- <-] []; done].
  intros [= <- <-] _. exists [a; b; c; d], l.
  repeat (apply andb_true_iff in H4 as [H4 ?]). reflect_bools.
  split_and!; [done|done|lia| |].
  - rewrite encode_rune4, !asciiZ_byteZ by lia. done.
  - intros tail. simpl. replace (byteZ a <? 128)%Z with false by lia. fold lo hi.
    replace ((lo <=? byteZ b)%Z && (byteZ b <=? hi)%Z) with true by lia. simpl.
    rewrite H2. unfold is_cont. replace ((128 <=? byteZ c)%Z && (byteZ c <=? 191)%Z) with true by lia. simpl.
    rewrite H3. by replace ((128 <=? byteZ d)%Z && (byteZ d <=? 191)%Z && (240 <=? byteZ a)%Z && (byteZ a <=? 244)%Z)
      with true by lia.
Qed.

(** * Lemmas: strings *)

Lemma read_escaped_ascii a fuel t :
  (byteZ a < 128)%Z ->
  read_string (S fuel) (escape_ascii a ++ t) = (let! p := read_string fuel t in Some (a :: p.1, p.2)).
Proof.
  destruct a as [b0 b1 b2 b3 b4 b5 b6 b7]. intros Ha.
  destruct b7; [exfalso; revert Ha; destruct b0, b1, b2, b3, b4, b5, b6; vm_compute; congruence|].
  destruct b0, b1, b2, b3, b4, b5, b6; reflexivity.
Qed.

Lemma read_raw_rune bs r w fuel t :
  match bs with a :: _ => (128 <= byteZ a)%Z | [] => False end ->
  length bs = w -> encode_rune r = bs -> decode_rune (bs ++ t) = (r, w) ->
  read_string (S fuel) (bs ++ t) = (let! p := read_string fuel t in Some (bs ++ p.1, p.2)).
Proof.
  destruct bs as [|a bs]; [done|]. intros Ha Hw Henc Hdec. cbn [app read_string].
  replace (byteZ a =? 34)%Z with false by lia. replace (byteZ a =? 92)%Z with false by lia.
  replace (byteZ a <? 32)%Z with false by lia. replace (byteZ a <? 128)%Z with false by lia.
  change (a :: bs ++ t) with ((a :: bs) ++ t). rewrite Hdec, Henc.
  replace (drop w ((a :: bs) ++ t)) with t; [done|]. rewrite <- Hw. by rewrite drop_app_length.
Qed.

(** The text of the two separators that are escaped. *)
Lemma read_separator r fuel t :
  (r = 8232 \/ r = 8233)%Z ->
  read_string (S fuel) ((String.list_ascii_of_string "\u202" ++ [hexdigit (r - 8224)]) ++ t)
  = (let! p := read_string fuel t in Some (encode_rune r ++ p.1, p.2)).
Proof. by intros [-> | ->]. Qed.

Lemma read_escape_loop n l rest fuel :
  length l <= n -> utf8_loop n l = true -> length (escape_loop n l) < fuel ->
  read_string fuel (escape_loop n l ++ quote :: rest) = Some (l, rest).
Proof.
  revert l fuel. induction n as [|n IH]; intros l fuel Hlen Hutf Hfuel.
  { destruct l; [|simpl in Hlen; lia]. destruct fuel; [simpl in Hfuel; lia|]. reflexivity. }
  destruct fuel as [|fuel]; [lia|].
  destruct l as [|a l1]; [reflexivity|]. cbn [escape_loop utf8_loop] in *.
  destruct (byteZ a <? 128)%Z eqn:Ha; reflect_bools.
  - rewrite <- app_assoc, read_escaped_ascii by done. rewrite length_app in Hfuel.
    assert (0 < length (escape_ascii a)) as Hpos.
    { unfold escape_ascii. repeat case_match; simpl; lia. }
    assert (decode_rune (a :: l1) = (byteZ a, 1)) as Hd.
    { unfold decode_rune. cbv zeta. by rewrite (proj2 (Z.ltb_lt _ _) Ha). }
    rewrite Hd in Hutf. apply andb_true_iff in Hutf as [_ Hutf]. simpl in Hutf, Hlen.
    rewrite drop_0 in Hutf. rewrite IH; [done|lia|done|lia].
  - destruct (decode_rune (a :: l1)) as [r w] eqn:Hd.
    apply andb_true_iff in Hutf as [Hok Hutf]. apply negb_true_iff in Hok.
    destruct (decode_rune_ok a l1 r w Ha Hd) as (bs & tl & Heq & Hw & Hw1 & Henc & Hloc).
    { intros [-> ->]. done. }
    rewrite Hok in *. assert (drop w (a :: l1) = tl) as Hdrop by (rewrite Heq, <- Hw; apply drop_app_length).
    assert (take w (a :: l1) = bs) as Htake by (rewrite Heq, <- Hw; apply take_app_length).
    rewrite Hdrop in *. assert (length tl <= n) as Htl.
    { rewrite Heq, length_app in Hlen. lia. }
    destruct ((r =? 8232)%Z || (r =? 8233)%Z) eqn:Hsep.
    + rewrite app_assoc in Hfuel |- *. rewrite <- (app_assoc _ _ (quote :: rest)), read_separator by lia.
      rewrite length_app in Hfuel. cbn in Hfuel.
      rewrite IH; [|lia|done|lia]. by rewrite Henc, Heq.
    + rewrite Htake in *. rewrite <- app_assoc, (read_raw_rune bs r w); [| |done|done|apply Hloc].
      * rewrite length_app in Hfuel. rewrite IH; [|lia|done|lia]. by rewrite Heq.
      * destruct bs as [|a' bs]; [simpl in Hw; lia|]. by injection Heq as <- _.
Qed.

Lemma length_bytes s : length (String.list_ascii_of_string s) = String.length s.
Proof. induction s; simpl; congruence. Qed.

Lemma read_encoded_string s rest :
  ValidString s = true ->
  let l := escape_loop (String.length s) (String.list_ascii_of_string s) ++ quote :: rest in
  read_string (length l) l = Some (String.list_ascii_of_string s, rest).
Proof.
  intros Hv l. apply read_escape_loop; [|done|subst l; rewrite length_app; simpl; lia].
  by rewrite length_bytes.
Qed.

Lemma encode_string_app s rest :
  encode_string s ++ rest
  = quote :: escape_loop (String.length s) (String.list_ascii_of_string s) ++ quote :: rest.
Proof. unfold encode_string. simpl. by rewrite <- app_assoc. Qed.

Lemma str_text_of s : str_text (String.list_ascii_of_string s) = s.
Proof. apply String.string_of_list_ascii_of_string. Qed.
Lemma contains_byte_text l c : Forall (fun a => Ascii.eqb a c = false) l -> contains_byte (str_text l) c = false.
Proof. unfold str_text. induction 1 as [|a l Ha _ IH]; [done|]. cbn. by rewrite Ha, IH. Qed.

(** * Lemmas: values *)

(** Induction on values through the lists inside them. *)
Lemma jval_ind' (P : jval -> Prop) :
  P JNull -> (forall b, P (JBool b)) -> (forall lit, P (JNum lit)) -> (forall s, P (JStr s)) ->
  (forall vs, Forall P vs -> P (JArr vs)) ->
  (forall kvs, Forall (fun kx => P kx.2) kvs -> P (JObj kvs)) ->
  forall v, P v.
Proof.
  intros Hn Hb Hnum Hs Ha Ho. fix IH 1. intros [|b|lit|s|vs|kvs];
    [exact Hn|apply Hb|apply Hnum|apply Hs| |].
  - apply Ha. induction vs as [|v vs IHvs]; constructor; [apply IH|apply IHvs].
  - apply Ho. induction kvs as [|kv kvs IHkvs]; constructor; [apply IH|apply IHkvs].
Qed.

(** The first byte of an encoding decides the branch of the reader. *)
Lemma encode_head v :
  json_ok v -> exists a l, encode v = a :: l /\ is_ws a = false
    /\ a <> "]"%char /\ a <> "}"%char.
Proof.
  destruct v as [|[]|lit|s|vs|kvs]; simpl; intros Hok; try (eexists _, _; split; [reflexivity|by vm_compute]).
  destruct Hok as [Hhd _]. destruct (String.list_ascii_of_string lit) as [|a l]; [done|].
  exists a, l. split; [done|]. destruct Hhd as [Hd|Hd]; [|by subst].
  unfold is_digit in Hd. apply andb_true_iff in Hd as [? ?]. unfold is_ws. reflect_bools.
  split; [lia|]. split; intros ->; vm_compute in H, H0; congruence.
Qed.

Lemma skip_ws_head a l : is_ws a = false -> skip_ws (a :: l) = a :: l.
Proof. simpl. by intros ->. Qed.

(** [read_value] on the first byte of a value that is a number. *)
Lemma read_value_number fuel depth lit rest :
  number_ok lit -> delimited rest ->
  read_value (S fuel) depth (String.list_ascii_of_string lit ++ rest) = Some (JNum lit, rest).
Proof.
  intros [Hhd Hread] Hrest. specialize (Hread rest Hrest).
  pose proof (str_text_of lit) as Htext.
  destruct (String.list_ascii_of_string lit) as [|a l]; [done|].
  assert (is_ws a = false /\ Ascii.eqb a quote = false /\ Ascii.eqb a "{" = false
    /\ Ascii.eqb a "[" = false /\ Ascii.eqb a "t" = false /\ Ascii.eqb a "f" = false
    /\ Ascii.eqb a "n" = false) as (Hws & H1 & H2 & H3 & H4 & H5 & H6).
  { clear - Hhd. destruct Hhd as [Hd| ->]; [|by vm_compute]. revert Hd.
    destruct a as [[] [] [] [] [] [] [] []]; vm_compute; intros [=]; by split_and!. }
  simpl app in *. cbn [read_value]. rewrite skip_ws_head by done.
  rewrite H1, H2, H3, H4, H5, H6, Hread. cbn [fst snd]. by rewrite Htext.
Qed.

Lemma read_value_string fuel depth s rest :
  ValidString s = true -> read_value (S fuel) depth (encode_string s ++ rest) = Some (JStr s, rest).
Proof.
  intros Hv. rewrite encode_string_app. cbn [read_value]. rewrite skip_ws_head by done.
  change (Ascii.eqb quote quote) with true. cbv iota.
  rewrite read_encoded_string by done. cbn. by rewrite str_text_of.
Qed.

(** What is to be shown of a value. *)
Definition reads_back (v : jval) : Prop :=
  json_ok v -> forall fuel depth rest,
    need v <= fuel -> (depth + Z.of_nat (depth_of v) <= maxNestingDepth)%Z -> delimited rest ->
    read_value fuel depth (encode v ++ rest) = Some (v, rest).

Fixpoint all_ok (vs : list jval) : Prop :=
  match vs with [] => True | x :: l' => json_ok x /\ all_ok l' end.
Fixpoint members_ok (kvs : list (string * jval)) : Prop :=
  match kvs with [] => True | kx :: l' => ValidString kx.1 = true /\ json_ok kx.2 /\ members_ok l' end.

Lemma commas_cons l ls rest :
  commas (l :: ls) ++ rest = l ++ match ls with [] => rest | _ => ","%char :: commas ls ++ rest end.
Proof. destruct ls; simpl; [done|]. by rewrite <- app_assoc. Qed.

Lemma read_elements_back vs fuel depth rest :
  Forall reads_back vs -> all_ok vs -> vs <> [] ->
  fold_right (fun x n => S (need x) + n) 0 vs <= fuel ->
  (depth + Z.of_nat (fold_right (fun x n => Nat.max (depth_of x) n) 0%nat vs) <= maxNestingDepth)%Z ->
  read_elements fuel depth (commas (map encode vs) ++ "]"%char :: rest) = Some (vs, rest).
Proof.
  intros Hall. revert fuel. induction Hall as [|v vs Hv Hall IH]; intros fuel Hok Hne Hfuel Hdepth; [done|].
  simpl in Hok, Hfuel, Hdepth. destruct Hok as [Hokv Hok]. destruct fuel as [|fuel]; [lia|].
  simpl map. rewrite commas_cons. cbn [read_elements].
  rewrite Hv; [|done|lia|lia|destruct vs; [by right; left|by left]].
  destruct vs as [|v' vs]; [reflexivity|].
  cbn [map fst snd]. rewrite skip_ws_head by done. cbn [Ascii.eqb Bool.eqb].
  rewrite IH; [done|done|done|simpl in *; lia|simpl in *; lia].
Qed.

Lemma encode_object_cons k v kvs rest :
  commas (map (fun kv => encode_string kv.1 ++ ":"%char :: encode kv.2) ((k, v) :: kvs)) ++ rest
  = encode_string k ++ ":"%char :: encode v
    ++ match kvs with [] => rest
       | _ => ","%char :: commas (map (fun kv => encode_string kv.1 ++ ":"%char :: encode kv.2) kvs) ++ rest end.
Proof. cbn [map fst snd]. rewrite commas_cons, <- app_assoc. cbn [app]. by destruct kvs. Qed.

Lemma read_members_back kvs fuel depth rest :
  Forall (fun kx => reads_back kx.2) kvs -> members_ok kvs -> kvs <> [] ->
  fold_right (fun kx n => S (need kx.2) + n) 0 kvs <= fuel ->
  (depth + Z.of_nat (fold_right (fun kx n => Nat.max (depth_of kx.2) n) 0%nat kvs) <= maxNestingDepth)%Z ->
  read_members fuel depth
    (commas (map (fun kv => encode_string kv.1 ++ ":"%char :: encode kv.2) kvs) ++ "}"%char :: rest)
  = Some (kvs, rest).
Proof.
  intros Hall. revert fuel. induction Hall as [|[k v] kvs Hv Hall IH]; intros fuel Hok Hne Hfuel Hdepth; [done|].
  simpl in Hok, Hfuel, Hdepth, Hv. destruct Hok as (Hk & Hokv & Hok). destruct fuel as [|fuel]; [lia|].
  rewrite encode_object_cons, encode_string_app. cbn [read_members].
  rewrite skip_ws_head by done. change (Ascii.eqb quote quote) with true. cbv iota.
  rewrite read_encoded_string by done. cbn [fst snd].
  rewrite skip_ws_head by done. change (Ascii.eqb ":" ":") with true. cbv iota.
  rewrite Hv; [|done|lia|lia|destruct kvs; [by right; right|by left]].
  destruct kvs as [|kv' kvs]; cbn [fst snd].
  - rewrite skip_ws_head by done. cbn. by rewrite str_text_of.
  - rewrite skip_ws_head by done. change (Ascii.eqb "," "}") with false. change (Ascii.eqb "," ",") with true.
    cbv iota. rewrite IH; [by rewrite str_text_of|done|done|simpl in *; lia|simpl in *; lia].
Qed.

Lemma read_value_back v : reads_back v.
Proof.
  induction v as [|b|lit|s|vs Hvs|kvs Hkvs] using jval_ind'; intros Hok fuel depth rest Hfuel Hdepth Hrest;
    destruct fuel as [|fuel]; try (simpl in Hfuel; lia).
  - reflexivity.
  - by destruct b.
  - by apply read_value_number.
  - by apply read_value_string.
  - simpl encode. cbn [app read_value]. rewrite skip_ws_head by done.
    cbn [need depth_of] in Hfuel, Hdepth. change (all_ok vs) in Hok.
    replace (maxNestingDepth <=? depth)%Z with false by lia. cbn [Ascii.eqb Bool.eqb quote].
    rewrite <- app_assoc. cbn [app]. destruct vs as [|v vs]; [reflexivity|].
    pose proof (encode_head v (proj1 Hok)) as (a & l & Hl & Hws & Hne & _).
    rewrite read_elements_back; [|done|done|done|lia|lia].
    simpl map. rewrite commas_cons, Hl. cbn [app]. rewrite skip_ws_head by done.
    by rewrite (proj2 (Ascii.eqb_neq _ _) Hne).
  - simpl encode. cbn [app read_value]. rewrite skip_ws_head by done.
    cbn [need depth_of] in Hfuel, Hdepth. change (members_ok kvs) in Hok.
    replace (maxNestingDepth <=? depth)%Z with false by lia. cbn [Ascii.eqb Bool.eqb quote].
    rewrite <- app_assoc. cbn [app]. destruct kvs as [|[k v] kvs]; [reflexivity|].
    rewrite read_members_back; [|done|done|done|lia|lia].
    rewrite encode_object_cons, encode_string_app. rewrite skip_ws_head by done. reflexivity.
Qed.

Lemma need_le v : json_ok v -> need v < 2 * length (encode v).
Proof.
  induction v as [|b|lit|s|vs Hvs|kvs Hkvs] using jval_ind'; intros Hok; try (simpl; lia).
  - destruct b; simpl; lia.
  - simpl. destruct Hok as [Hhd _]. destruct (String.list_ascii_of_string lit); [done|simpl; lia].
  - assert (fold_right (fun x n => S (need x) + n) 0 vs <= 2 * length (commas (map encode vs))) as Hsum.
    { change (all_ok vs) in Hok. induction Hvs as [|v vs Hv Hvs IH]; [simpl; lia|].
      destruct Hok as [Hokv Hok]. specialize (Hv Hokv). specialize (IH Hok).
      simpl map. rewrite <- (app_nil_r (commas (encode v :: _))), commas_cons.
      cbn [fold_right]. rewrite length_app. destruct vs; simpl in *; [lia|].
      rewrite app_nil_r in *. lia. }
    cbn [encode need length]. rewrite length_app. cbn [length]. lia.
  - assert (fold_right (fun kx n => S (need kx.2) + n) 0 kvs
      <= 2 * length (commas (map (fun kv => encode_string kv.1 ++ ":"%char :: encode kv.2) kvs))) as Hsum.
    { change (members_ok kvs) in Hok. induction Hkvs as [|[k v] kvs Hv Hkvs IH]; [simpl; lia|].
      destruct Hok as (_ & Hokv & Hok). specialize (Hv Hokv). specialize (IH Hok).
      rewrite <- (app_nil_r (commas _)), encode_object_cons, app_nil_r.
      cbn [fold_right snd] in *. rewrite length_app. cbn [length]. rewrite length_app.
      destruct kvs; cbn [length]; [cbn [fold_right]; lia|]. rewrite ?length_app in *. cbn [length]. lia. }
    cbn [encode need length]. rewrite length_app. cbn [length]. lia.
Qed.

Lemma Unmarshal_Marshal v :
  json_ok v -> (Z.of_nat (depth_of v) <= maxNestingDepth)%Z -> Unmarshal (Marshal v) = Some v.
Proof.
  intros Hok Hdepth. unfold Unmarshal, Marshal. rewrite String.list_ascii_of_string_of_list_ascii.
  pose proof (need_le v Hok). rewrite <- (app_nil_r (encode v)) at 2.
  rewrite read_value_back; [done|done|lia|lia|done].
Qed.

(** * Lemmas: integers *)

Lemma decimal_digits_spec fuel n acc :
  (0 <= n < 10 ^ Z.of_nat fuel)%Z -> fuel <> 0 ->
  exists ds, decimal_digits fuel n acc = ds ++ acc /\ ds <> []
    /\ Forall (fun a => is_digit a = true) ds /\ (forall k, fold_left (fun n a => (n * 10 + (byteZ a - 48))%Z) ds k
         = k * 10 ^ Z.of_nat (length ds) + n)%Z
    /\ ((n = 0)%Z /\ ds = ["0"%char] \/ exists a l, ds = a :: l /\ Ascii.eqb a "0" = false).
Proof.
  revert n acc. induction fuel as [|fuel IH]; intros n acc Hn Hf; [done|]. cbn [decimal_digits].
  assert (0 <= n mod 10 < 10)%Z as Hm by (apply Z.mod_pos_bound; lia).
  assert (byteZ (asciiZ (48 + n mod 10)) = 48 + n mod 10)%Z as Hb by (apply byteZ_asciiZ; lia).
  assert (is_digit (asciiZ (48 + n mod 10)) = true) as Hd by (unfold is_digit; rewrite Hb; lia).
  destruct (n <? 10)%Z eqn:Hlt; reflect_bools.
  - exists [asciiZ (48 + n mod 10)]. rewrite Z.mod_small in * by lia. split_and!; [done|done|by constructor| |].
    + intros k. cbn [fold_left length]. rewrite Hb. lia.
    + destruct (decide (n = 0)%Z) as [->|Hne]; [by left|right]. eexists _, []. split; [done|].
      apply Ascii.eqb_neq. intros Heq. rewrite Heq in Hb. change (byteZ "0") with 48%Z in Hb. lia.
  - assert (0 <= n / 10 < 10 ^ Z.of_nat fuel)%Z as Hn'.
    { split; [apply Z.div_pos; lia|]. apply Z.div_lt_upper_bound; [lia|].
      rewrite Nat2Z.inj_succ, Z.pow_succ_r in Hn by lia. lia. }
    assert (fuel <> 0) as Hf'.
    { intros ->. simpl in Hn'. assert (1 <= n / 10)%Z; [|lia]. apply Z.div_le_lower_bound; lia. }
    destruct (IH (n / 10)%Z (asciiZ (48 + n mod 10) :: acc) Hn' Hf') as (ds & Heq & Hne & Hall & Hval & Hhd).
    exists (ds ++ [asciiZ (48 + n mod 10)]). split_and!.
    + by rewrite Heq, <- app_assoc.
    + by destruct ds.
    + apply Forall_app. split; [done|by constructor].
    + intros k. rewrite fold_left_app, Hval. cbn [fold_left]. rewrite Hb, length_app. cbn [length].
      rewrite Nat2Z.inj_add, Z.pow_add_r by lia. change (10 ^ Z.of_nat 1)%Z with 10%Z.
      pose proof (Z.div_mod n 10 ltac:(lia)). lia.
    + right. destruct Hhd as [[H0 _]|(a & l & -> & Ha)].
      * exfalso. assert (1 <= n / 10)%Z; [|lia]. apply Z.div_le_lower_bound; lia.
      * by exists a, (l ++ [asciiZ (48 + n mod 10)]).
Qed.

Lemma itoa_digits_spec n :
  (0 <= n)%Z ->
  itoa_digits n <> [] /\ Forall (fun a => is_digit a = true) (itoa_digits n)
  /\ digits_value (itoa_digits n) = n
  /\ ((n = 0)%Z /\ itoa_digits n = ["0"%char] \/ exists a l, itoa_digits n = a :: l /\ Ascii.eqb a "0" = false).
Proof.
  intros Hn. unfold itoa_digits.
  destruct (decimal_digits_spec (Z.to_nat (Z.log2 n) + 1) n []) as (ds & Heq & Hne & Hall & Hval & Hhd).
  - split; [done|]. destruct (decide (n = 0)%Z) as [->|Hnz]; [by vm_compute|].
    destruct (Z.log2_spec n) as [_ Hlog]; [lia|].
    eapply Z.lt_le_trans; [exact Hlog|]. rewrite Nat2Z.inj_add, Z2Nat.id by apply Z.log2_nonneg.
    change (Z.of_nat 1) with 1%Z. rewrite Z.add_1_r.
    apply Z.pow_le_mono_l. split; [lia|lia].
  - lia.
  - rewrite app_nil_r in Heq. rewrite Heq. split_and!; [done|done| |done].
    unfold digits_value. rewrite Hval. lia.
Qed.

Lemma span_all {A} (p : A -> bool) l rest :
  Forall (fun a => p a = true) l -> match rest with a :: _ => p a = false | [] => True end ->
  span p (l ++ rest) = (l, rest).
Proof.
  intros Hl Hr. induction Hl as [|a l Ha _ IH]; simpl.
  - destruct rest as [|a rest]; [done|]. simpl. by rewrite Hr.
  - by rewrite Ha, IH.
Qed.

Lemma delimited_head rest :
  delimited rest -> match rest with a :: _ => is_digit a = false | [] => True end
  /\ read_frac rest = Some ([], rest) /\ read_exp rest = Some ([], rest).
Proof. destruct rest as [|a rest]; [done|]. by intros [-> |[-> | ->]]. Qed.

Lemma read_digits n rest :
  (0 <= n)%Z -> delimited rest -> read_int (itoa_digits n ++ rest) = Some (itoa_digits n, rest).
Proof.
  intros Hn Hrest. destruct (itoa_digits_spec n Hn) as (_ & Hall & _ & [[-> Heq]|(a & l & Heq & Ha)]).
  - rewrite Heq. reflexivity.
  - rewrite Heq in *. cbn [app read_int]. rewrite Ha.
    pose proof Hall as Hd. apply Forall_cons in Hd as [-> _].
    change (a :: l ++ rest) with ((a :: l) ++ rest). f_equal.
    apply span_all; [done|by apply delimited_head].
Qed.

Lemma itoa_text n :
  String.list_ascii_of_string (itoa n) = (if (n <? 0)%Z then ["-"%char] else []) ++ itoa_digits (Z.abs n).
Proof. unfold itoa, str_text. apply String.list_ascii_of_string_of_list_ascii. Qed.

Lemma digit_not_minus a : is_digit a = true -> Ascii.eqb a "-" = false.
Proof. destruct a as [[] [] [] [] [] [] [] []]; vm_compute; congruence. Qed.

Lemma number_ok_itoa n : number_ok (itoa n).
Proof.
  unfold number_ok. rewrite itoa_text.
  destruct (itoa_digits_spec (Z.abs n) ltac:(lia)) as (Hne & Hall & _ & _).
  split.
  { destruct (n <? 0)%Z; [by right|]. simpl. destruct (itoa_digits _); [done|]. apply Forall_cons in Hall. left. apply Hall. }
  intros rest Hrest. destruct (delimited_head rest Hrest) as (_ & Hfrac & Hexp).
  unfold read_number. destruct (n <? 0)%Z.
  - rewrite <- app_assoc. cbn [app]. change (Ascii.eqb "-" "-") with true. cbv iota.
    rewrite read_digits by (lia || done). cbn [fst snd]. rewrite Hfrac. cbn [fst snd]. rewrite Hexp. cbn.
    by rewrite app_nil_r.
  - cbn [app]. pose proof (read_digits (Z.abs n) rest ltac:(lia) Hrest) as Hread.
    destruct (itoa_digits (Z.abs n)) as [|a l]; [done|]. cbn [app] in *.
    apply Forall_cons in Hall as [Ha _]. rewrite (digit_not_minus a Ha).
    rewrite Hread. cbn [fst snd]. rewrite Hfrac. cbn [fst snd]. rewrite Hexp. cbn. by rewrite app_nil_r.
Qed.

Lemma parse_int_itoa n :
  (-9223372036854775808 <= n <= 9223372036854775807)%Z -> parse_int (itoa n) = Some n.
Proof.
  intros Hn. unfold parse_int. rewrite itoa_text.
  destruct (itoa_digits_spec (Z.abs n) ltac:(lia)) as (Hne & Hall & Hval & _).
  assert (forallb is_digit (itoa_digits (Z.abs n)) = true) as Hfb.
  { apply forallb_forall. rewrite Forall_forall in Hall. intros x Hx. apply Hall. by apply list_elem_of_In. }
  destruct (n <? 0)%Z eqn:Hneg; reflect_bools.
  - cbn [app]. change (Ascii.eqb "-" "-") with true. cbv iota. rewrite Hfb, Hval.
    destruct (itoa_digits _); [done|]. simpl length. cbn [Nat.eqb negb orb].
    replace (- Z.abs n)%Z with n by lia. by replace ((_ <=? n)%Z && (n <=? _)%Z) with true by lia.
  - cbn [app]. destruct (itoa_digits (Z.abs n)) as [|a l] eqn:Hd; [done|].
    apply Forall_cons in Hall as [Ha _]. rewrite (digit_not_minus a Ha), Hfb, Hval. cbn [length Nat.eqb negb orb].
    replace (Z.abs n) with n by lia. by replace ((_ <=? n)%Z && (n <=? _)%Z) with true by lia.
Qed.

#[export] Hint Resolve number_ok_itoa parse_int_itoa : go.

(** * Lemmas: struct fields *)

Lemma bind_field fields k f v kvs acc :
  match_field (map fst fields) k = Some f -> v <> JNull ->
  existsb (fun fa => (fa.1 =? f)%string && fa.2 v) fields = true ->
  bind_fields fields ((k, v) :: kvs) acc = bind_fields fields kvs (<[f := v]> acc).
Proof. intros Hk Hv Hex. simpl. rewrite Hk. destruct v; try done; by rewrite Hex. Qed.

(** An omitted empty string reads back as the empty string it stands for. *)
Lemma bind_opt_str fields k f s kvs acc :
  match_field (map fst fields) k = Some f -> acc !! f = None ->
  existsb (fun fa => (fa.1 =? f)%string && fa.2 (JStr s)) fields = true ->
  exists acc', bind_fields fields (opt_str k s ++ kvs) acc = bind_fields fields kvs acc'
    /\ string_field acc' f = s /\ forall g, g <> f -> acc' !! g = acc !! g.
Proof.
  intros Hk Hacc Hex. unfold opt_str. destruct (String.eqb_spec s "") as [->|Hs].
  - exists acc. split; [done|]. unfold string_field. by rewrite Hacc.
  - exists (<[f := JStr s]> acc). split; [by apply bind_field|]. split.
    + unfold string_field. by rewrite lookup_insert_eq.
    + intros g Hg. by rewrite lookup_insert_ne.
Qed.

Ltac opt_cases :=
  repeat match goal with
  | |- context [opt_str ?k ?s] => unfold opt_str at 1; destruct (String.eqb_spec s "") as [?|?]
  end.

Lemma accepts_field (fields : list (string * (jval -> bool))) i f a v :
  fields !! i = Some (f, a) -> a v = true ->
  existsb (fun fa => (fa.1 =? f)%string && fa.2 v) fields = true.
Proof.
  intros Hi Ha. apply existsb_exists. exists (f, a). split; [apply list_elem_of_In; by eapply list_elem_of_lookup_2|].
  simpl. by rewrite String.eqb_refl, Ha.
Qed.

Lemma match_field_exact fields k : In k fields -> match_field fields k = Some k.
Proof.
  intros Hin. unfold match_field. destruct (List.find (String.eqb k) fields) as [f|] eqn:Hf.
  - apply find_some in Hf as [_ Hf]. by apply String.eqb_eq in Hf as ->.
  - exfalso. by eapply find_none in Hf; [|exact Hin]; rewrite String.eqb_refl in Hf.
Qed.

(** No member is ignored when every key is a field. *)
Lemma bind_known_exact fields kvs :
  Forall (fun kv => In kv.1 (map fst fields)) kvs -> bind_known fields kvs = bind_fields fields kvs ∅.
Proof.
  intros H. unfold bind_known. f_equal. induction H as [|kv kvs Hk _ IH]; [done|]. cbn [List.filter].
  rewrite match_field_exact by done. rewrite bool_decide_eq_true_2 by eauto. by rewrite IH.
Qed.

(** The text members of a literal object, and an object without foreign members. *)
Ltac bind_text := repeat match goal with |- context [bind_fields _ ((?k, JStr _) :: _) _] => rewrite (bind_field _ k k) by done end.
Ltac known_names := rewrite bind_known_exact by (repeat (constructor; [vm_compute; tauto|]); constructor).

(** * Properties *)

(** jsoncontract reads back exactly what [json.Marshal] wrote: for a value
    with valid UTF-8 strings, well-formed number literals, no duplicate keys and
    at most [maxNestingDepth] levels, the strict decoder accepts the encoding and
    returns the value. *)
Theorem Validate_Marshal (v : jval) :
  json_ok v -> no_duplicate_keys v = true -> (Z.of_nat (depth_of v) <= maxNestingDepth)%Z ->
  Validate (Marshal v) = Some v.
Proof. intros Hok Hdup Hdepth. unfold Validate. by rewrite Unmarshal_Marshal, Hdup. Qed.

Lemma Validate_Marshal_witness :
  let v := JObj [("ok", JBool true); ("items", JArr [JNum (itoa (-12)); JStr (string_of_runes [233; 10; 8232; 128512]%Z)])] in
  Validate (Marshal v) = Some v.
Proof.
  intros v. apply (Validate_Marshal v).
  - repeat split; apply number_ok_itoa.
  - reflexivity.
  - vm_compute. congruence.
Defined.
