(* ===== verification/Conversation.v ===== *)
(** Model of the conversation the engine keeps (server/agent/llm_types.go,
    prompt_bundle.go) and of the two operations every provider's protocol
    depends on: pairing each tool call with its result
    (history_rebuild.go, [repairToolPairing]) and choosing a place to cut the
    history that separates no call from its results (engine.go,
    [adjustCompactionBoundary]). *)
From S2P Require Import Prelude GoStrings Json.
From Stdlib Require Import Ascii.
Open Scope string_scope.
Open Scope list_scope.

(** * Data *)

Definition LLMRoleSystem : string := "system".
Definition LLMRoleUser : string := "user".
Definition LLMRoleAssistant : string := "assistant".
Definition LLMRoleTool : string := "tool".
Definition LLMFinishReasonStop : string := "stop".
Definition LLMToolTypeFunction : string := "function".

Record LLMFunctionCall := {
  fc_Name : string;
  fc_Arguments : string;
  fc_ThoughtSignature : string;
}.

Record LLMToolCall := { tc_ID : string; tc_Type : string; tc_Function : LLMFunctionCall }.

Record LLMMessage := {
  lm_Role : string;
  lm_Content : string;
  lm_ReasoningContent : string;
  lm_ToolCalls : list LLMToolCall;
}.

Record LLMChoice := { ch_Index : Z; ch_Message : LLMMessage; ch_FinishReason : string }.
Record LLMUsage := { us_PromptTokens : Z; us_CompletionTokens : Z; us_TotalTokens : Z }.
Record LLMResponse := { rs_Choices : list LLMChoice; rs_Usage : LLMUsage }.

Definition MessagePartText : string := "text".
Definition MessagePartImage : string := "image".

(** [Data] is a byte slice, kept as a byte string. *)
Record MessagePart := {
  mp_Kind : string;
  mp_Text : string;
  mp_MIME : string;
  mp_Data : string;
  mp_W : Z;
  mp_H : Z;
}.

Record ConversationItem := {
  ci_Role : string;
  ci_Content : string;
  ci_Parts : list MessagePart;
  ci_ReasoningContent : string;
  ci_ToolCalls : list LLMToolCall;
  ci_ToolCallID : string;
  ci_ToolCallName : string;
  ci_ToolCallThoughtSignature : string;
}.

Record RuntimeContextBlock := {
  rc_Name : string;
  rc_Role : string;
  rc_Content : string;
  rc_Parts : list MessagePart;
}.

Record PromptBundle := {
  pb_Policy : string;
  pb_PolicyAppendix : string;
  pb_Task : string;
  pb_RuntimeContext : list RuntimeContextBlock;
  pb_History : list ConversationItem;
}.

(** Literals that set only some fields. *)
Definition text_item (role content : string) : ConversationItem :=
  {| ci_Role := role; ci_Content := content; ci_Parts := []; ci_ReasoningContent := "";
     ci_ToolCalls := []; ci_ToolCallID := ""; ci_ToolCallName := "";
     ci_ToolCallThoughtSignature := "" |}.
Definition tool_item (content id name : string) : ConversationItem :=
  {| ci_Role := LLMRoleTool; ci_Content := content; ci_Parts := []; ci_ReasoningContent := "";
     ci_ToolCalls := []; ci_ToolCallID := id; ci_ToolCallName := name;
     ci_ToolCallThoughtSignature := "" |}.
Definition text_block (name role content : string) : RuntimeContextBlock :=
  {| rc_Name := name; rc_Role := role; rc_Content := content; rc_Parts := [] |}.

(** * Message parts *)

Definition maxMessageParts : nat := 32.
Definition maxMessageImages : nat := 24.
Definition maxMessageImageBytes : Z := Z.shiftl 5 20.
Definition maxMessageImageSide : Z := 4096.
Definition allowedMessageImageMIMEs : list string := ["image/png"; "image/jpeg"; "image/webp"].

Definition TextMessagePart (text : string) : MessagePart :=
  {| mp_Kind := MessagePartText; mp_Text := text; mp_MIME := ""; mp_Data := ""; mp_W := 0; mp_H := 0 |}.
Definition ImageMessagePart (mimeType data : string) (width height : Z) : MessagePart :=
  {| mp_Kind := MessagePartImage; mp_Text := ""; mp_MIME := mimeType; mp_Data := data;
     mp_W := width; mp_H := height |}.

Definition payloadParts (text : string) (parts : list MessagePart) : list MessagePart :=
  if (length parts =? 0)%nat then [TextMessagePart text]
  else if blank text then parts
  else TextMessagePart text :: parts.

Inductive PromptError :=
| ETooManyParts (n : nat)
| ETextBinary (index : nat)
| EImageMIME (index : nat) (mime : string)
| EImageEmpty (index : nat)
| EImageBytes (index : nat) (n : Z)
| EImageSide (index : nat) (w h : Z)
| EPartKind (index : nat) (kind : string)
| ETooManyImages (n : nat)
| EBundleNil
| EBlockName (index : nat)
| EBlockRole (index : nat)
| EBlockParts (index : nat) (e : PromptError)
| EItemRole (index : nat) (role : string)
| EItemParts (index : nat) (e : PromptError).

(** One iteration of the loop over the parts, counting the images. *)
Definition check_part (images : nat) (ip : nat * MessagePart) : res PromptError nat :=
  let '(index, part) := ip in
  if mp_Kind part =? MessagePartText then
    if (mp_Text part =? "") && (0 <? len (mp_Data part))%Z then Err (ETextBinary index) else Ok images
  else if mp_Kind part =? MessagePartImage then
    if negb (existsb (String.eqb (mp_MIME part)) allowedMessageImageMIMEs)
    then Err (EImageMIME index (mp_MIME part))
    else if (len (mp_Data part) =? 0)%Z then Err (EImageEmpty index)
    else if (maxMessageImageBytes <? len (mp_Data part))%Z then Err (EImageBytes index (len (mp_Data part)))
    else if (mp_W part <=? 0)%Z || (mp_H part <=? 0)%Z || (maxMessageImageSide <? mp_W part)%Z
            || (maxMessageImageSide <? mp_H part)%Z
    then Err (EImageSide index (mp_W part) (mp_H part))
    else Ok (S images)
  else Err (EPartKind index (mp_Kind part)).

Definition indexed {A} (l : list A) : list (nat * A) := imap pair l.

Definition validateMessageParts (parts : list MessagePart) : res PromptError unit :=
  if (length parts =? 0)%nat then Ok tt
  else if (maxMessageParts <? length parts)%nat then Err (ETooManyParts (length parts))
  else
    let? images := fold_res check_part 0%nat (indexed parts) in
    if (maxMessageImages <? images)%nat then Err (ETooManyImages images) else Ok tt.

Definition check_block (ib : nat * RuntimeContextBlock) : res PromptError unit :=
  let '(index, block) := ib in
  if (rc_Name block =? "") || not_exact (rc_Name block) then Err (EBlockName index)
  else if negb (rc_Role block =? LLMRoleUser) then Err (EBlockRole index)
  else match validateMessageParts (rc_Parts block) with
  | Err e => Err (EBlockParts index e)
  | Ok _ => Ok tt
  end.

Definition check_item (ii : nat * ConversationItem) : res PromptError unit :=
  let '(index, item) := ii in
  if (ci_Role item =? LLMRoleUser) || (ci_Role item =? LLMRoleAssistant) || (ci_Role item =? LLMRoleTool)
  then match validateMessageParts (ci_Parts item) with
       | Err e => Err (EItemParts index e)
       | Ok _ => Ok tt
       end
  else Err (EItemRole index (ci_Role item)).

Definition validatePromptBundle (bundle : option PromptBundle) : res PromptError unit :=
  match bundle with
  | None => Err EBundleNil
  | Some bundle =>
      let? _ := each check_block (indexed (pb_RuntimeContext bundle)) in
      each check_item (indexed (pb_History bundle))
  end.

(** * Pairing tool calls with their results *)

Definition is_tool (item : ConversationItem) : bool := ci_Role item =? LLMRoleTool.
(** An assistant message that requests tools. *)
Definition calls_tools (item : ConversationItem) : bool :=
  (ci_Role item =? LLMRoleAssistant) && negb (length (ci_ToolCalls item) =? 0)%nat.

Definition unrecordedToolResult (toolName : string) : string :=
  MarshalMap
    [("ok", JBool false); ("tool", JStr toolName); ("error_code", JStr "tool_outcome_unknown");
     ("message", JStr "The session log does not record a result for this call, so its outcome is unknown. Do not assume it succeeded; call the tool again only if the result is still needed.")].

(** The synthesized results of the calls that have none. *)
Definition missing_results (skipCallID : string) (answered : gset string) (calls : list LLMToolCall) :
    list ConversationItem :=
  flat_map (fun call =>
    if bool_decide (tc_ID call ∈ answered) then []
    else if negb (skipCallID =? "") && (tc_ID call =? skipCallID) then []
    else [tool_item (unrecordedToolResult (fc_Name (tc_Function call))) (tc_ID call)
            (fc_Name (tc_Function call))]) calls.

(** The loop over [items]; the inner loop takes the leading tool results.  Each
    round consumes at least one item, so their number is enough fuel. *)
Fixpoint repair_loop (fuel : nat) (items : list ConversationItem) (skipCallID : string) :
    list ConversationItem :=
  match fuel, items with
  | S fuel, item :: rest =>
      if is_tool item then repair_loop fuel rest skipCallID
      else if negb (calls_tools item) then item :: repair_loop fuel rest skipCallID
      else
        let '(results, rest') := span is_tool rest in
        let answered := list_to_set (map ci_ToolCallID results) in
        item :: results ++ missing_results skipCallID answered (ci_ToolCalls item)
          ++ repair_loop fuel rest' skipCallID
  | _, _ => []
  end.

Definition repairToolPairing (items : list ConversationItem) (skipCallID : string) :
    list ConversationItem :=
  repair_loop (length items) items skipCallID.

(** * Choosing a compaction boundary *)

Definition recentContextWindow : nat := 12.

(** The inner loop on [j]: tool results directly after item [i], at most
    [toolCallCount] of them. *)
Fixpoint count_results (toolCallCount : nat) (l : list ConversationItem) : nat :=
  match toolCallCount, l with
  | S n, item :: l' => if is_tool item then S (count_results n l') else 0
  | _, _ => 0
  end.

(** The loop on [k] from [i-1] down to [i-5]. *)
Fixpoint plain_turn_before (tries : nat) (history : list ConversationItem) (k : nat) : option nat :=
  match tries, k with
  | S tries, S k' =>
      match history !! k' with
      | Some item =>
          if (ci_Role item =? LLMRoleUser)
             || ((ci_Role item =? LLMRoleAssistant) && (length (ci_ToolCalls item) =? 0)%nat)
          then Some (S k') else plain_turn_before tries history k'
      | None => None
      end
  | _, _ => None
  end.

(** The loop on [i] from [boundary-1] down to 0. *)
Fixpoint owning_boundary (history : list ConversationItem) (i : nat) : option nat :=
  match i with
  | O => None
  | S i =>
      match history !! i with
      | Some item =>
          if calls_tools item then
            let toolCallCount := length (ci_ToolCalls item) in
            if (count_results toolCallCount (drop (S i) history) <? toolCallCount)%nat
            then Some (default i (plain_turn_before 5 history i))
            else Some i
          else owning_boundary history i
      | None => None
      end
  end.

(** Both callers pass a positive boundary, so indices are naturals. *)
Definition adjustCompactionBoundary (history : list ConversationItem) (boundary : nat) : nat :=
  match history !! boundary with
  | Some msg =>
      if (boundary =? 0)%nat then boundary
      else if is_tool msg then default boundary (owning_boundary history boundary)
      else boundary
  | None => boundary
  end.

(** * Trimming a delegated worker's history (engine.go, [compactWorkerBundle]) *)

Definition history_window_block (omitted : Z) : RuntimeContextBlock :=
  text_block "history_window" "user"
    (str_text (String.list_ascii_of_string "{" ++ encode_string "omitted_message_count"
               ++ String.list_ascii_of_string ":" ++ String.list_ascii_of_string (itoa omitted)
               ++ String.list_ascii_of_string "}")).

Definition compactWorkerBundle (triggerTokens : Z) (bundle : PromptBundle) (promptTokens omitted : Z) :
    PromptBundle * Z :=
  if (length (pb_History bundle) <=? 1)%nat then (bundle, omitted)
  else if (promptTokens <=? 0)%Z || (promptTokens <=? triggerTokens)%Z then (bundle, omitted)
  else if (length (pb_History bundle) <=? recentContextWindow)%nat then (bundle, omitted)
  else
    let recentStart :=
      adjustCompactionBoundary (pb_History bundle) (length (pb_History bundle) - recentContextWindow) in
    let omitted := (omitted + Z.of_nat recentStart)%Z in
    let retained := List.filter (fun b => negb (rc_Name b =? "history_window")) (pb_RuntimeContext bundle) in
    ({| pb_Policy := pb_Policy bundle; pb_PolicyAppendix := pb_PolicyAppendix bundle;
        pb_Task := pb_Task bundle;
        pb_RuntimeContext := retained ++ [history_window_block omitted];
        pb_History := drop recentStart (pb_History bundle) |}, omitted).

(** [compactAssistantMessage]: the assistant turn as history stores it. *)
Definition compactAssistantMessage (message : LLMMessage) : ConversationItem :=
  {| ci_Role := lm_Role message; ci_Content := lm_Content message; ci_Parts := [];
     ci_ReasoningContent := lm_ReasoningContent message; ci_ToolCalls := lm_ToolCalls message;
     ci_ToolCallID := ""; ci_ToolCallName := ""; ci_ToolCallThoughtSignature := "" |}.

(** * Specification *)

(** A call is answered by a result that carries its identifier. *)
Definition answers (results : list ConversationItem) (skip : string) (call : LLMToolCall) : Prop :=
  tc_ID call ∈ map ci_ToolCallID results \/ (skip <> "" /\ tc_ID call = skip).

(** The protocol the providers require: no result stands outside the run of
    results that directly follows an assistant's calls, and in that run every
    call (but the one the run is suspended on) is answered. *)
Inductive paired (skip : string) : list ConversationItem -> Prop :=
| paired_nil : paired skip []
| paired_plain item h :
    is_tool item = false -> calls_tools item = false -> paired skip h -> paired skip (item :: h)
| paired_calls item results h :
    is_tool item = false -> calls_tools item = true ->
    Forall (fun r => is_tool r = true) results ->
    Forall (answers results skip) (ci_ToolCalls item) ->
    paired skip h -> paired skip (item :: results ++ h).

(** A user question, an assistant turn with two calls of which one is recorded,
    and a result that belongs to no call. *)
Definition sample_call (id name : string) : LLMToolCall :=
  {| tc_ID := id; tc_Type := LLMToolTypeFunction;
     tc_Function := {| fc_Name := name; fc_Arguments := "{}"; fc_ThoughtSignature := "" |} |}.
Definition calls_item (content : string) (calls : list LLMToolCall) : ConversationItem :=
  {| ci_Role := LLMRoleAssistant; ci_Content := content; ci_Parts := []; ci_ReasoningContent := "";
     ci_ToolCalls := calls; ci_ToolCallID := ""; ci_ToolCallName := "";
     ci_ToolCallThoughtSignature := "" |}.
Definition sample_history : list ConversationItem :=
  [text_item LLMRoleUser "q"; calls_item "" [sample_call "c1" "sql"]; tool_item "{}" "c1" "sql";
   text_item LLMRoleAssistant "a"].

(** * Lemmas *)

Lemma span_spec {A} (p : A -> bool) l :
  l = (span p l).1 ++ (span p l).2 /\ Forall (fun a => p a = true) (span p l).1
  /\ match (span p l).2 with a :: _ => p a = false | [] => True end.
Proof.
  induction l as [|a l IH]; simpl; [done|]. destruct (p a) eqn:Ha; simpl; [|done].
  destruct (span p l) as [x y]. simpl in *. destruct IH as (-> & Hx & Hy). auto.
Qed.

Lemma span_app {A} (p : A -> bool) x y :
  Forall (fun a => p a = true) x -> match y with a :: _ => p a = false | [] => True end ->
  span p (x ++ y) = (x, y).
Proof.
  intros Hx Hy. induction Hx as [|a x Ha _ IH]; simpl.
  - destruct y as [|a y]; [done|]. simpl. by rewrite Hy.
  - by rewrite Ha, IH.
Qed.

Lemma length_span_snd {A} (p : A -> bool) l : length (span p l).2 <= length l.
Proof.
  destruct (span_spec p l) as (Hl & _). apply (f_equal length) in Hl.
  rewrite length_app in Hl. lia.
Qed.

Lemma repair_fuel skip f1 f2 items :
  length items <= f1 -> length items <= f2 -> repair_loop f1 items skip = repair_loop f2 items skip.
Proof.
  revert f2 items. induction f1 as [|f1 IH]; intros [|f2] [|item rest] H1 H2; simpl in *; try done; try lia.
  destruct (is_tool item); [apply IH; lia|].
  destruct (calls_tools item); simpl; [|f_equal; apply IH; lia].
  pose proof (length_span_snd is_tool rest). destruct (span is_tool rest) as [rs rest']. simpl in *.
  do 3 f_equal. apply IH; lia.
Qed.

(** The equation of the loop, without fuel. *)
Lemma repair_cons skip item rest :
  repairToolPairing (item :: rest) skip =
  if is_tool item then repairToolPairing rest skip
  else if calls_tools item then
    let '(results, rest') := span is_tool rest in
    item :: results ++ missing_results skip (list_to_set (map ci_ToolCallID results)) (ci_ToolCalls item)
      ++ repairToolPairing rest' skip
  else item :: repairToolPairing rest skip.
Proof.
  unfold repairToolPairing at 1. simpl.
  destruct (is_tool item); [done|]. destruct (calls_tools item); simpl; [|done].
  pose proof (length_span_snd is_tool rest). destruct (span is_tool rest) as [rs rest'] eqn:Hs.
  simpl in *. do 3 f_equal. apply repair_fuel; lia.
Qed.

(** Induction along the loop: one case for each kind of round. *)
Lemma repair_ind (P : list ConversationItem -> Prop) :
  P [] ->
  (forall item rest, is_tool item = true -> P rest -> P (item :: rest)) ->
  (forall item rest, is_tool item = false -> calls_tools item = false -> P rest -> P (item :: rest)) ->
  (forall item results rest, is_tool item = false -> calls_tools item = true ->
     Forall (fun r => is_tool r = true) results ->
     match rest with x :: _ => is_tool x = false | [] => True end ->
     P rest -> P (item :: results ++ rest)) ->
  forall items, P items.
Proof.
  intros Hnil Htool Hplain Hcalls items. remember (length items) as n eqn:Hn.
  assert (length items <= n) as Hle by lia. clear Hn. revert items Hle.
  induction n as [|n IH]; intros [|item rest] Hle; simpl in Hle; try done; try lia.
  destruct (is_tool item) eqn:Ht; [apply Htool; [done|apply IH; lia]|].
  destruct (calls_tools item) eqn:Hc; [|apply Hplain; [done|done|apply IH; lia]].
  destruct (span_spec is_tool rest) as (Hl & Hrs & Hhd). pose proof (length_span_snd is_tool rest).
  rewrite Hl. apply Hcalls; auto. apply IH. lia.
Qed.

Lemma missing_results_tools skip ans calls :
  Forall (fun r => is_tool r = true) (missing_results skip ans calls).
Proof.
  unfold missing_results. induction calls as [|c calls IH]; simpl; [constructor|].
  case_bool_decide; [done|]. destruct (_ && _); [done|]. by constructor.
Qed.

Lemma missing_results_answer skip results calls :
  Forall (answers (results ++ missing_results skip (list_to_set (map ci_ToolCallID results)) calls) skip) calls.
Proof.
  apply Forall_forall. intros c Hc. unfold answers.
  rewrite map_app, elem_of_app.
  destruct (decide (tc_ID c ∈ (list_to_set (map ci_ToolCallID results) : gset string))) as [Hin|Hin].
  { left. left. by apply elem_of_list_to_set in Hin. }
  destruct (negb (skip =? "") && (tc_ID c =? skip)) eqn:Hskip.
  { apply andb_true_iff in Hskip as [Hs1 Hs2]. reflect_bools. auto. }
  left. right. apply list_elem_of_fmap. eexists (tool_item _ (tc_ID c) _). split; [done|].
  apply list_elem_of_In, in_flat_map. exists c. split; [by apply list_elem_of_In|].
  rewrite bool_decide_eq_false_2 by done. rewrite Hskip. by left.
Qed.

Lemma missing_results_none skip results calls :
  Forall (answers results skip) calls ->
  missing_results skip (list_to_set (map ci_ToolCallID results)) calls = [].
Proof.
  intros Hall. unfold missing_results. induction Hall as [|c calls Hc _ IH]; simpl; [done|].
  case_bool_decide as Hin; [done|]. rewrite elem_of_list_to_set in Hin.
  destruct Hc as [?|[Hne ->]]; [done|]. rewrite String.eqb_refl.
  revert IH. rewrite (proj2 (String.eqb_neq _ _) Hne). simpl. done.
Qed.

Lemma paired_head skip h : paired skip h -> match h with x :: _ => is_tool x = false | [] => True end.
Proof. by destruct 1. Qed.

Lemma repair_tools skip results rest :
  Forall (fun r => is_tool r = true) results ->
  repairToolPairing (results ++ rest) skip = repairToolPairing rest skip.
Proof. induction 1 as [|r rs Hr _ IH]; [done|]. simpl. by rewrite repair_cons, Hr. Qed.

Lemma repair_calls skip item results rest :
  is_tool item = false -> calls_tools item = true ->
  Forall (fun r => is_tool r = true) results ->
  match rest with x :: _ => is_tool x = false | [] => True end ->
  repairToolPairing (item :: results ++ rest) skip =
  item :: (results ++ missing_results skip (list_to_set (map ci_ToolCallID results)) (ci_ToolCalls item))
    ++ repairToolPairing rest skip.
Proof. intros Ht Hc Hrs Hhd. by rewrite repair_cons, Ht, Hc, span_app, <- app_assoc. Qed.

Lemma repair_paired skip items : paired skip (repairToolPairing items skip).
Proof.
  induction items as [|item rest Ht IH|item rest Ht Hc IH|item rs rest Ht Hc Hrs Hhd IH] using repair_ind.
  - constructor.
  - by rewrite repair_cons, Ht.
  - rewrite repair_cons, Ht, Hc. by apply paired_plain.
  - rewrite repair_calls by done. apply paired_calls; [done|done| |apply missing_results_answer|done].
    apply Forall_app. split; [done|apply missing_results_tools].
Qed.

Lemma repair_fix skip h : paired skip h -> repairToolPairing h skip = h.
Proof.
  induction 1 as [|item h Ht Hc Hp IH|item rs h Ht Hc Hrs Hans Hp IH]; [done| |].
  - by rewrite repair_cons, Ht, Hc, IH.
  - rewrite repair_calls by (auto; by apply (paired_head skip)).
    by rewrite missing_results_none, app_nil_r, IH.
Qed.

Lemma filter_tools_nil l :
  Forall (fun r => is_tool r = true) l -> List.filter (fun x => negb (is_tool x)) l = [].
Proof. induction 1 as [|r l Hr _ IH]; simpl; [done|]. by rewrite Hr. Qed.

Lemma repair_keeps_turns skip items :
  List.filter (fun x => negb (is_tool x)) (repairToolPairing items skip)
  = List.filter (fun x => negb (is_tool x)) items.
Proof.
  induction items as [|item rest Ht IH|item rest Ht Hc IH|item rs rest Ht Hc Hrs Hhd IH] using repair_ind.
  - done.
  - rewrite repair_cons, Ht, IH. simpl. by rewrite Ht.
  - rewrite repair_cons, Ht, Hc. simpl. by rewrite Ht, IH.
  - rewrite repair_calls by done. simpl. rewrite Ht, !List.filter_app, IH. simpl.
    by rewrite !filter_tools_nil by (done || apply missing_results_tools).
Qed.

(** * Lemmas: cutting a paired history *)

Lemma tool_not_calls item : is_tool item = true -> calls_tools item = false.
Proof. unfold is_tool, calls_tools. intros ->%String.eqb_eq. done. Qed.

Lemma tool_not_plain item :
  is_tool item = true ->
  (ci_Role item =? LLMRoleUser) || ((ci_Role item =? LLMRoleAssistant) && (length (ci_ToolCalls item) =? 0)%nat)
  = false.
Proof. unfold is_tool. intros ->%String.eqb_eq. done. Qed.

Lemma calls_not_plain item :
  calls_tools item = true ->
  (ci_Role item =? LLMRoleUser) || ((ci_Role item =? LLMRoleAssistant) && (length (ci_ToolCalls item) =? 0)%nat)
  = false.
Proof. unfold calls_tools. intros [->%String.eqb_eq ->%negb_true_iff]%andb_true_iff. done. Qed.

(** A cut that does not stand before a tool result. *)
Definition cut_ok (h : list ConversationItem) (n : nat) : Prop :=
  forall x, h !! n = Some x -> is_tool x = false.

Lemma paired_cut skip h n :
  paired skip h -> cut_ok h n -> paired skip (take n h) /\ paired skip (drop n h).
Proof.
  intros Hp. revert n. induction Hp as [|item h Ht Hc Hp IH|item rs h Ht Hc Hrs Hans Hp IH]; intros n Hcut.
  - rewrite take_nil, drop_nil. split; constructor.
  - destruct n as [|n]; simpl; [split; [constructor|by apply paired_plain]|].
    destruct (IH n) as [H1 H2]; [by intros x Hx; apply Hcut|].
    split; [by apply paired_plain|done].
  - destruct n as [|n]; simpl; [split; [constructor|by apply paired_calls]|].
    assert (length rs <= n) as Hn.
    { destruct (decide (length rs <= n)) as [|Hlt]; [done|exfalso].
      destruct (lookup_lt_is_Some_2 rs n) as [x Hx]; [lia|].
      specialize (Hcut x). simpl in Hcut. rewrite lookup_app_l in Hcut by lia.
      rewrite Forall_lookup in Hrs. rewrite (Hrs _ _ Hx) in Hcut. by specialize (Hcut Hx). }
    rewrite take_app_ge, drop_app_ge by done.
    destruct (IH (n - length rs)) as [H1 H2].
    { intros x Hx. apply Hcut. simpl. by rewrite lookup_app_r. }
    split; [by apply paired_calls|done].
Qed.

Lemma paired_after_plain skip h k x :
  paired skip h -> h !! k = Some x ->
  (ci_Role x =? LLMRoleUser) || ((ci_Role x =? LLMRoleAssistant) && (length (ci_ToolCalls x) =? 0)%nat) = true ->
  cut_ok h (S k).
Proof.
  intros Hp Hx Hplain. revert k Hx.
  induction Hp as [|item h Ht Hc Hp IH|item rs h Ht Hc Hrs Hans Hp IH]; intros k Hx; [done| |].
  - destruct k as [|k]; [|by apply IH]. intros y Hy. simpl in Hy.
    apply paired_head in Hp. by destruct h; simplify_eq/=.
  - destruct k as [|k]; simpl in Hx; [injection Hx as ->; by rewrite (calls_not_plain x) in Hplain|].
    destruct (decide (k < length rs)) as [Hk|Hk].
    { rewrite lookup_app_l in Hx by done. rewrite Forall_lookup in Hrs.
      by rewrite (tool_not_plain x) in Hplain by eauto. }
    rewrite lookup_app_r in Hx by lia. intros y Hy. simpl in Hy. rewrite lookup_app_r in Hy by lia.
    apply (IH _ Hx). by replace (S (k - length rs)) with (S k - length rs) by lia.
Qed.

Lemma plain_turn_before_cut skip h tries k r :
  paired skip h -> plain_turn_before tries h k = Some r -> r <= k /\ cut_ok h r.
Proof.
  intros Hp. revert k. induction tries as [|tries IH]; intros [|k]; simpl; try done.
  destruct (h !! k) as [x|] eqn:Hx; [|done]. destruct (_ || _) eqn:Hpl.
  - intros [= <-]. split; [lia|by eapply paired_after_plain].
  - intros [? ?]%IH. split; [lia|done].
Qed.

Lemma owning_boundary_S history i :
  owning_boundary history (S i) =
  match history !! i with
  | Some item =>
      if calls_tools item then
        if (count_results (length (ci_ToolCalls item)) (drop (S i) history) <? length (ci_ToolCalls item))%nat
        then Some (default i (plain_turn_before 5 history i))
        else Some i
      else owning_boundary history i
  | None => None
  end.
Proof. reflexivity. Qed.

Lemma owning_boundary_cut skip h i r :
  paired skip h -> owning_boundary h i = Some r -> r < i /\ cut_ok h r.
Proof.
  intros Hp. induction i as [|i IH]; [done|]. rewrite owning_boundary_S.
  destruct (h !! i) as [x|] eqn:Hx; [|done].
  destruct (calls_tools x) eqn:Hc; [|intros [? ?]%IH; split; [lia|done]].
  assert (cut_ok h i) as Hi.
  { intros y Hy. rewrite Hx in Hy. injection Hy as <-. apply not_true_iff_false.
    intros ?%tool_not_calls. congruence. }
  destruct (plain_turn_before 5 h i) as [r'|] eqn:Hk;
    destruct (_ <? _)%nat; intros [= <-]; simpl; try (split; [lia|done]).
  apply (plain_turn_before_cut skip) in Hk as [? ?]; [|done]. split; [lia|done].
Qed.

Lemma paired_first skip h : paired skip h -> cut_ok h 0.
Proof. intros Hp x Hx. apply paired_head in Hp. by destruct h; simplify_eq/=. Qed.

(** In a paired history every tool result has an owner before it. *)
Lemma paired_owner skip h n x :
  paired skip h -> h !! n = Some x -> is_tool x = true -> owning_boundary h n <> None.
Proof.
  intros Hp Hx Ht.
  assert (exists i c, i < n /\ h !! i = Some c /\ calls_tools c = true) as (i & c & Hi & Hc & Hcalls).
  { revert n Hx. induction Hp as [|item h Hti Hc Hp IH|item rs h Hti Hc Hrs Hans Hp IH]; intros n Hx; [done| |].
    - destruct n as [|n]; simpl in Hx; [congruence|]. destruct (IH n Hx) as (i & c & ? & ? & ?).
      exists (S i), c. split_and!; [lia|done|done].
    - destruct n as [|n]; simpl in Hx; [congruence|]. exists 0, item. split_and!; [lia|done|done]. }
  apply lookup_lt_Some in Hx. clear Ht Hp. induction n as [|n IH]; [lia|]. rewrite owning_boundary_S.
  destruct (decide (i = n)) as [->|Hne].
  - rewrite Hc, Hcalls. by destruct (_ <? _)%nat.
  - assert (i < n) as Hlt by lia. destruct (h !! n) as [y|] eqn:Hy.
    + destruct (calls_tools y); [by destruct (_ <? _)%nat|apply IH; lia].
    + apply lookup_ge_None in Hy. lia.
Qed.

Lemma adjust_boundary_cut skip h b :
  paired skip h -> adjustCompactionBoundary h b <= b /\ cut_ok h (adjustCompactionBoundary h b).
Proof.
  intros Hp. unfold adjustCompactionBoundary. destruct (h !! b) as [x|] eqn:Hx.
  - destruct (b =? 0)%nat eqn:Hb; [apply Nat.eqb_eq in Hb as ->; split; [lia|by eapply paired_first]|].
    destruct (is_tool x) eqn:Ht.
    + pose proof (paired_owner _ _ _ _ Hp Hx Ht). destruct (owning_boundary h b) as [r|] eqn:Hr; [|done].
      apply (owning_boundary_cut skip) in Hr as [? ?]; [|done]. split; simpl; [lia|done].
    + split; [lia|]. intros y Hy. congruence.
  - split; [lia|]. intros y Hy. congruence.
Qed.

#[export] Hint Resolve repair_paired adjust_boundary_cut : go.

(** * Properties *)


(** repair is the identity exactly on the histories that already follow the
    protocol; in particular repairing twice is repairing once. *)
Theorem repairToolPairing_identity (items : list ConversationItem) (skipCallID : string) :
  (repairToolPairing items skipCallID = items <-> paired skipCallID items)
  /\ repairToolPairing (repairToolPairing items skipCallID) skipCallID
     = repairToolPairing items skipCallID.
Proof.
  split; [split; [intros <-; apply repair_paired|apply repair_fix]|].
  apply repair_fix, repair_paired.
Qed.

(** on a paired history the adjusted compaction boundary never moves
    forward, and cutting there separates no call from its results: both the part
    that is dropped and the part that is kept follow the protocol. *)
Theorem adjustCompactionBoundary_safe (history : list ConversationItem) (boundary : nat) (skip : string) :
  paired skip history ->
  adjustCompactionBoundary history boundary <= boundary
  /\ paired skip (take (adjustCompactionBoundary history boundary) history)
  /\ paired skip (drop (adjustCompactionBoundary history boundary) history).
Proof.
  intros Hp. destruct (adjust_boundary_cut skip history boundary Hp) as [Hle Hcut].
  split; [done|by apply paired_cut].
Qed.

Lemma adjustCompactionBoundary_safe_witness :
  adjustCompactionBoundary (repairToolPairing sample_history "") 2 = 1
  /\ paired "" (take 1 (repairToolPairing sample_history ""))
  /\ paired "" (drop 1 (repairToolPairing sample_history "")).
Proof.
  destruct (adjustCompactionBoundary_safe (repairToolPairing sample_history "") 2 "") as (_ & H1 & H2).
  - apply repair_paired.
  - split; [vm_compute; reflexivity|]. split; [exact H1|exact H2].
Defined.
