(* ===== verification/WorkingMemory.v ===== *)
(** Model of [WorkingMemory] (server/agent/memory.go): the bounded map of typed
    statements a run keeps.  Every operation holds the mutex for its whole body,
    so each is one atomic function here.  A nil [Entries] map reads as the empty
    map, which is how Go treats it. *)
From S2P Require Import Prelude GoStrings.
From Stdlib Require Import SpecFloat.
Open Scope string_scope.
Open Scope list_scope.

(** * Data *)

Definition maxMemoryEntries : nat := 50.
Definition maxMemoryKeyLength : Z := 200.
Definition maxStatementLength : Z := 2000.

(** [Confidence] is a [*float64]: an optional IEEE 754 double. *)
Record MemoryEntry := {
  me_Statement : string;
  me_Status : string;
  me_SourceResultIDs : list string;
  me_Confidence : option spec_float;
  me_CreatedBy : string;
  me_CreatedAt : time;
}.

Definition with_me_CreatedAt (e : MemoryEntry) (t : time) : MemoryEntry :=
  {| me_Statement := me_Statement e; me_Status := me_Status e;
     me_SourceResultIDs := me_SourceResultIDs e; me_Confidence := me_Confidence e;
     me_CreatedBy := me_CreatedBy e; me_CreatedAt := t |}.

Record WorkingMemory := { wm_Entries : gmap string MemoryEntry }.

Inductive MemoryError :=
| EMemoryKey
| EMemoryStatement
| EMemoryStatus
| EMemoryObservedSources
| EMemoryConfidence
| EMemoryResultID
| EMemoryDuplicateResult (resultID : string)
| EMemoryLimit
| EMemoryPersisted (key : string) (e : MemoryError)
| EMemoryPersistedTime (key : string).

(** * Operations *)

Definition NewWorkingMemory : WorkingMemory := {| wm_Entries := ∅ |}.

(** IEEE comparison [x < 0 || x > 1]; both tests are false on NaN. *)
Definition float_one : spec_float := S754_finite false 4503599627370496 (-52).
Definition confidence_out_of_range (c : spec_float) : bool :=
  SFltb c (S754_zero false) || SFltb float_one c.

(** The loop over [entry.SourceResultIDs] with its [seenResults] set. *)
Fixpoint check_source_results (seen : gset string) (ids : list string) : res MemoryError unit :=
  match ids with
  | [] => Ok tt
  | resultID :: ids' =>
      if (resultID =? "") || not_exact resultID then Err EMemoryResultID
      else if bool_decide (resultID ∈ seen) then Err (EMemoryDuplicateResult resultID)
      else check_source_results ({[resultID]} ∪ seen) ids'
  end.

Definition validateMemoryEntry (key : string) (entry : MemoryEntry) : res MemoryError unit :=
  if (key =? "") || not_exact key || (maxMemoryKeyLength <? len key)%Z then Err EMemoryKey
  else if blank (me_Statement entry) || (maxStatementLength <? len (me_Statement entry))%Z
  then Err EMemoryStatement
  else if negb (me_Status entry =? "observed") && negb (me_Status entry =? "inferred")
          && negb (me_Status entry =? "assumed")
  then Err EMemoryStatus
  else if (me_Status entry =? "observed") && (length (me_SourceResultIDs entry) =? 0)%nat
  then Err EMemoryObservedSources
  else if match me_Confidence entry with Some c => confidence_out_of_range c | None => false end
  then Err EMemoryConfidence
  else check_source_results ∅ (me_SourceResultIDs entry).

(** The boolean is [false] when the memory is full and [key] is new. *)
Definition SaveEntry (m : WorkingMemory) (key : string) (entry : MemoryEntry) (now : time) :
    WorkingMemory * res MemoryError bool :=
  match validateMemoryEntry key entry with
  | Err e => (m, Err e)
  | Ok _ =>
      if (maxMemoryEntries <=? size (wm_Entries m))%nat
         && negb (bool_decide (is_Some (wm_Entries m !! key)))
      then (m, Ok false)
      else
        let entry := if IsZero (me_CreatedAt entry) then with_me_CreatedAt entry now else entry in
        ({| wm_Entries := <[key := entry]> (wm_Entries m) |}, Ok true)
  end.

Definition RemoveEntry (m : WorkingMemory) (key : string) : WorkingMemory :=
  {| wm_Entries := delete key (wm_Entries m) |}.

(** Values are copied, [SourceResultIDs] included, so the snapshot is a value. *)
Definition EntrySnapshot (m : WorkingMemory) : gmap string MemoryEntry := wm_Entries m.

(** [Snapshot]: the display values. *)
Definition MemorySnapshot (m : WorkingMemory) : gmap string string := me_Statement <$> wm_Entries m.

Definition ResetMemory (_ : WorkingMemory) : WorkingMemory := {| wm_Entries := ∅ |}.

Definition check_persisted_entry (kv : string * MemoryEntry) : res MemoryError unit :=
  match validateMemoryEntry kv.1 kv.2 with
  | Err e => Err (EMemoryPersisted kv.1 e)
  | Ok _ => if IsZero (me_CreatedAt kv.2) then Err (EMemoryPersistedTime kv.1) else Ok tt
  end.

(** Go ranges over the map in an unspecified order; only which of several
    invalid entries is reported depends on it.  The replacement is built aside
    and installed only when every entry passed. *)
Definition ReplaceEntries (m : WorkingMemory) (entries : gmap string MemoryEntry) :
    WorkingMemory * res MemoryError unit :=
  if (maxMemoryEntries <? size entries)%nat then (m, Err EMemoryLimit)
  else match each check_persisted_entry (map_to_list entries) with
  | Err e => (m, Err e)
  | Ok _ => ({| wm_Entries := entries |}, Ok tt)
  end.

(** * Specification *)

(** Every stored entry passed validation and carries its creation time, and the
    bound holds. *)
Definition memory_wf (m : WorkingMemory) : Prop :=
  (size (wm_Entries m) <= maxMemoryEntries)%nat
  /\ map_Forall (fun k e => check_persisted_entry (k, e) = Ok tt) (wm_Entries m).

(** One call on the memory; [time.Now] never returns the zero time. *)
Inductive memory_step : WorkingMemory -> WorkingMemory -> Prop :=
| mem_save m key entry now : now <> 0%Z -> memory_step m (SaveEntry m key entry now).1
| mem_remove m key : memory_step m (RemoveEntry m key)
| mem_reset m : memory_step m (ResetMemory m)
| mem_replace m entries : memory_step m (ReplaceEntries m entries).1.

(** A concrete entry for the witnesses. *)
Definition sample_entry : MemoryEntry :=
  {| me_Statement := "revenue grew"; me_Status := "observed"; me_SourceResultIDs := ["r1"];
     me_Confidence := None; me_CreatedBy := "model"; me_CreatedAt := 0 |}.

(** * Lemmas *)

Lemma check_source_results_spec seen ids :
  check_source_results seen ids = Ok tt <->
  NoDup ids /\ Forall (fun r => r <> "" /\ r = TrimSpace r) ids /\ Forall (fun r => r ∉ seen) ids.
Proof.
  revert seen; induction ids as [|r ids IH]; intros seen; simpl.
  { repeat split; constructor. }
  rewrite NoDup_cons, !Forall_cons.
  destruct (r =? "") eqn:Hr; reflect_bools; simpl; [naive_solver|].
  destruct (not_exact r) eqn:Hx; simpl.
  { apply negb_eqb_true in Hx. naive_solver. }
  apply not_exact_false in Hx. case_bool_decide as Hin; [naive_solver|].
  rewrite IH, !Forall_forall. split.
  - intros (Hnd & Hex & Hni). split_and!; auto.
    + intros Hin'. apply Hni in Hin'. set_solver.
    + intros x Hx'. apply Hni in Hx'. set_solver.
  - intros ((Hr' & Hnd) & (_ & Hex) & (_ & Hni)). split_and!; auto.
    intros x Hx'. pose proof (Hni x Hx'). assert (x <> r) by (intros ->; done). set_solver.
Qed.

Lemma check_persisted_fresh key entry now :
  validateMemoryEntry key entry = Ok tt -> now <> 0%Z ->
  check_persisted_entry
    (key, if IsZero (me_CreatedAt entry) then with_me_CreatedAt entry now else entry) = Ok tt.
Proof.
  intros Hv Hnow. unfold check_persisted_entry. destruct (IsZero (me_CreatedAt entry)) eqn:Hz; simpl.
  - change (validateMemoryEntry key (with_me_CreatedAt entry now)) with (validateMemoryEntry key entry).
    rewrite Hv. unfold IsZero. by rewrite (proj2 (Z.eqb_neq now 0)).
  - by rewrite Hv, Hz.
Qed.

Lemma SaveEntry_wf m key entry now :
  now <> 0%Z -> memory_wf m -> memory_wf (SaveEntry m key entry now).1.
Proof.
  intros Hnow [Hsz Hall]. unfold SaveEntry.
  destruct (validateMemoryEntry key entry) as [[]|] eqn:Hv; [|done].
  destruct (_ && _) eqn:Hfull; [done|]. split; simpl.
  - destruct (wm_Entries m !! key) as [e|] eqn:Hk.
    + rewrite map_size_insert_Some by eauto. done.
    + rewrite map_size_insert_None by done. apply andb_false_iff in Hfull as [Hf|Hf].
      * apply Nat.leb_gt in Hf. lia.
      * case_bool_decide as Hs; [by destruct Hs|done].
  - apply map_Forall_insert_2; [by apply check_persisted_fresh|done].
Qed.

Lemma RemoveEntry_wf m key : memory_wf m -> memory_wf (RemoveEntry m key).
Proof.
  intros [Hsz Hall]. split; simpl; [|by apply map_Forall_delete].
  rewrite map_size_delete. destruct (wm_Entries m !! key); simpl; unfold id; lia.
Qed.

Lemma ReplaceEntries_wf m entries : memory_wf m -> memory_wf (ReplaceEntries m entries).1.
Proof.
  intros Hm. unfold ReplaceEntries. destruct (maxMemoryEntries <? size entries)%nat eqn:Hsz; [done|].
  destruct (each _ _) as [[]|] eqn:Hall; [|done]. apply Nat.ltb_ge in Hsz.
  by apply each_map_ok in Hall.
Qed.

(** Restoring the snapshot of a well-formed memory succeeds and rebuilds it. *)
Lemma ReplaceEntries_EntrySnapshot m m0 :
  memory_wf m -> ReplaceEntries m0 (EntrySnapshot m) = (m, Ok tt).
Proof.
  intros [Hsz Hall]. unfold ReplaceEntries, EntrySnapshot.
  rewrite (proj2 (Nat.ltb_ge _ _)) by done.
  rewrite (proj2 (each_map_ok _ _)) by done. by destruct m.
Qed.

#[export] Hint Resolve SaveEntry_wf RemoveEntry_wf ReplaceEntries_wf : go.

(** * Properties *)

(** every sequence of calls on the working memory, starting from an empty
    one, leaves at most [maxMemoryEntries] entries, each with a valid exact key,
    a bounded statement, a known status, exact distinct sources (at least one
    when observed) and a creation time; and restoring its snapshot into any
    other memory succeeds and reproduces it exactly. *)
Theorem memory_reachable_restorable (m m0 : WorkingMemory) :
  rtc memory_step NewWorkingMemory m ->
  memory_wf m /\ ReplaceEntries m0 (EntrySnapshot m) = (m, Ok tt).
Proof.
  intros Hrtc. cut (memory_wf m); [auto using ReplaceEntries_EntrySnapshot|].
  eapply (rtc_ind_r (fun m => memory_wf m)); [| |exact Hrtc].
  - split; [simpl; rewrite map_size_empty; lia|apply map_Forall_empty].
  - intros m1 m2 _ Hs Hwf. inversion Hs; subst; auto with go.
    split; [simpl; rewrite map_size_empty; lia|apply map_Forall_empty].
Qed.

Lemma memory_reachable_restorable_witness :
  let m := (SaveEntry NewWorkingMemory "k" sample_entry 7).1 in
  memory_wf m /\ ReplaceEntries NewWorkingMemory (EntrySnapshot m) = (m, Ok tt).
Proof.
  intros m. apply (memory_reachable_restorable m NewWorkingMemory).
  apply rtc_once. apply mem_save. lia.
Defined.
