(* ===== verification/Subgoals.v ===== *)
(** Model of [SubgoalManager] (server/agent/memory.go) and of the goal facts
    derived from it (server/agent/goal_facts.go): the bounded forest of goals a
    run plans with, and the finalization gate the report tools consult. *)
From S2P Require Import Prelude GoStrings.
Open Scope string_scope.
Open Scope list_scope.

(** * Data *)

Definition maxGoals : nat := 30.
Definition maxGoalDescLen : Z := 500.

(** [SubgoalStatus] is a Go string type with four declared constants. *)
Definition StatusPending : string := "pending".
Definition StatusRunning : string := "running".
Definition StatusComplete : string := "complete".
Definition StatusRejected : string := "rejected".

Record Subgoal := {
  sg_ID : string;
  sg_ParentGoalID : string;
  sg_Description : string;
  sg_Status : string;
  sg_Blocking : bool;
  sg_Result : string;
  sg_CreatedAt : time;
  sg_UpdatedAt : time;
}.

Record SubgoalManager := { sm_Goals : list Subgoal }.

Inductive GoalError :=
| EGoalLimit
| EGoalDescription
| EGoalParentExact
| EGoalParentMissing (parent : string)
| EGoalNotFound (id : string)
| EPersistedLimit
| EPersistedID
| EPersistedDuplicate (id : string)
| EPersistedDescription (id : string)
| EPersistedStatus (id status : string)
| EPersistedParentExact (id : string)
| EPersistedTimestamps (id : string)
| EPersistedMissingParent (id parent : string)
| EPersistedCycle (id : string).

(** * Operations *)

Definition NewSubgoalManager : SubgoalManager := {| sm_Goals := [] |}.

Definition has_id (id : string) (g : Subgoal) : bool := sg_ID g =? id.

Definition HasGoal (s : SubgoalManager) (id : string) : bool := existsb (has_id id) (sm_Goals s).

(** [id] is the identifier drawn from idgen, [now1] and [now2] the two clock
    reads of the literal. *)
Definition AddGoalWithBlocking (s : SubgoalManager) (description parentGoalID : string)
    (blocking : bool) (id : string) (now1 now2 : time) : SubgoalManager * res GoalError string :=
  if (maxGoals <=? length (sm_Goals s))%nat then (s, Err EGoalLimit)
  else if blank description || (maxGoalDescLen <? len description)%Z then (s, Err EGoalDescription)
  else if not_exact parentGoalID then (s, Err EGoalParentExact)
  else if negb (parentGoalID =? "") && negb (existsb (has_id parentGoalID) (sm_Goals s))
  then (s, Err (EGoalParentMissing parentGoalID))
  else
    ({| sm_Goals := sm_Goals s ++
          [{| sg_ID := id; sg_ParentGoalID := parentGoalID; sg_Description := description;
              sg_Status := StatusPending; sg_Blocking := blocking; sg_Result := "";
              sg_CreatedAt := now1; sg_UpdatedAt := now2 |}] |}, Ok id).

Definition touch_goal (status result : string) (now : time) (g : Subgoal) : Subgoal :=
  {| sg_ID := sg_ID g; sg_ParentGoalID := sg_ParentGoalID g; sg_Description := sg_Description g;
     sg_Status := status; sg_Blocking := sg_Blocking g;
     sg_Result := if negb (result =? "") then result else sg_Result g;
     sg_CreatedAt := sg_CreatedAt g; sg_UpdatedAt := now |}.

(** The first goal with the identifier is updated in place. *)
Fixpoint update_first (id status result : string) (now : time) (goals : list Subgoal) :
    option (list Subgoal) :=
  match goals with
  | [] => None
  | g :: gs => if has_id id g then Some (touch_goal status result now g :: gs)
               else cons g <$> update_first id status result now gs
  end.

Definition UpdateGoalStatus (s : SubgoalManager) (id status result : string) (now : time) :
    SubgoalManager * res GoalError unit :=
  match update_first id status result now (sm_Goals s) with
  | Some goals => ({| sm_Goals := goals |}, Ok tt)
  | None => (s, Err (EGoalNotFound id))
  end.

Definition isTerminalSubgoalStatus (status : string) : bool :=
  (status =? StatusComplete) || (status =? StatusRejected).

(** [snapshotLocked]: the roots in list order, and the children of an
    identifier, also in list order ([byID] is built there but not returned). *)
Record finalizeSnapshot := {
  fs_roots : list Subgoal;
  fs_children : string -> list Subgoal;
}.
Definition is_root (g : Subgoal) : bool := sg_ParentGoalID g =? "".
Definition snapshotLocked (s : SubgoalManager) : finalizeSnapshot :=
  {| fs_roots := List.filter is_root (sm_Goals s);
     fs_children := fun id =>
       List.filter (fun g => negb (is_root g) && (sg_ParentGoalID g =? id)) (sm_Goals s) |}.

(** The recursive closure [dfs] of [collectActiveBranchLines]: the branches
    appended for one goal, or [None] when the fuel runs out.  The loop over the
    children skips terminal ones; a goal whose children are all terminal closes
    its branch. *)
Fixpoint branch_dfs (fuel : nat) (children : string -> list Subgoal) (goal : Subgoal)
    (path : list string) : option (list string) :=
  match fuel with
  | O => None
  | S fuel =>
      if isTerminalSubgoalStatus (sg_Status goal) then Some []
      else
        let path := (path ++ [(sg_Description goal ++ "[" ++ sg_Status goal ++ "]")%string])%list in
        let live := List.filter (fun c => negb (isTerminalSubgoalStatus (sg_Status c)))
                           (children (sg_ID goal)) in
        match live with
        | [] => Some [String.concat " -> " path]
        | _ => mjoin <$> mapM (fun c => branch_dfs fuel children c path) live
        end
  end.

Definition open_blocking_root (g : Subgoal) : bool :=
  negb (isTerminalSubgoalStatus (sg_Status g) || negb (sg_Blocking g)).

Definition collectActiveBranchLines (fuel : nat) (snapshot : finalizeSnapshot) : option (list string) :=
  mjoin <$> mapM (fun root => branch_dfs fuel (fs_children snapshot) root [])
                 (List.filter open_blocking_root (fs_roots snapshot)).

(** A branch never visits a goal twice when identifiers are distinct, so one
    more than the number of goals is enough fuel ([CanFinalize_spec]). *)
Definition CanFinalize (s : SubgoalManager) : option (bool * list string) :=
  if (length (sm_Goals s) =? 0)%nat then Some (true, [])
  else
    let! blockers := collectActiveBranchLines (S (length (sm_Goals s))) (snapshotLocked s) in
    Some ((length blockers =? 0)%nat, blockers).

Definition ListAll (s : SubgoalManager) : list Subgoal := sm_Goals s.
Definition ResetGoals (_ : SubgoalManager) : SubgoalManager := {| sm_Goals := [] |}.

(** The first loop of [ReplaceAll]: field validation while [byID] is built. *)
Definition check_persisted_goal (byID : gmap string Subgoal) (goal : Subgoal) :
    res GoalError (gmap string Subgoal) :=
  if (sg_ID goal =? "") || not_exact (sg_ID goal) then Err EPersistedID
  else if bool_decide (is_Some (byID !! sg_ID goal)) then Err (EPersistedDuplicate (sg_ID goal))
  else if blank (sg_Description goal) || (maxGoalDescLen <? len (sg_Description goal))%Z
  then Err (EPersistedDescription (sg_ID goal))
  else if negb ((sg_Status goal =? StatusPending) || (sg_Status goal =? StatusRunning)
                || (sg_Status goal =? StatusComplete) || (sg_Status goal =? StatusRejected))
  then Err (EPersistedStatus (sg_ID goal) (sg_Status goal))
  else if not_exact (sg_ParentGoalID goal) then Err (EPersistedParentExact (sg_ID goal))
  else if IsZero (sg_CreatedAt goal) || IsZero (sg_UpdatedAt goal)
  then Err (EPersistedTimestamps (sg_ID goal))
  else Ok (<[sg_ID goal := goal]> byID).

(** [byID[id].ParentGoalID]: a missing key reads the zero [Subgoal]. *)
Definition parent_of (byID : gmap string Subgoal) (id : string) : string :=
  match byID !! id with Some g => sg_ParentGoalID g | None => "" end.

(** The loop [for parentID != ""] with its [seen] set; [None] is out of fuel. *)
Fixpoint walk_parents (fuel : nat) (byID : gmap string Subgoal) (seen : gset string)
    (parentID : string) : option (res GoalError unit) :=
  match fuel with
  | O => None
  | S fuel =>
      if parentID =? "" then Some (Ok tt)
      else if bool_decide (parentID ∈ seen) then Some (Err (EPersistedCycle parentID))
      else walk_parents fuel byID ({[parentID]} ∪ seen) (parent_of byID parentID)
  end.

(** The second loop of [ReplaceAll]. *)
Fixpoint check_parents (fuel : nat) (byID : gmap string Subgoal) (goals : list Subgoal) :
    option (res GoalError unit) :=
  match goals with
  | [] => Some (Ok tt)
  | goal :: gs =>
      if negb (sg_ParentGoalID goal =? "") && negb (bool_decide (is_Some (byID !! sg_ParentGoalID goal)))
      then Some (Err (EPersistedMissingParent (sg_ID goal) (sg_ParentGoalID goal)))
      else match walk_parents fuel byID {[sg_ID goal]} (sg_ParentGoalID goal) with
      | Some (Ok _) => check_parents fuel byID gs
      | r => r
      end
  end.

(** Each step of the parent walk adds an identifier to [seen], so two more than
    the number of goals is enough fuel ([ReplaceAll_total]). *)
Definition ReplaceAll (s : SubgoalManager) (goals : list Subgoal) :
    option (SubgoalManager * res GoalError unit) :=
  if (maxGoals <? length goals)%nat then Some (s, Err EPersistedLimit)
  else match fold_res check_persisted_goal ∅ goals with
  | Err e => Some (s, Err e)
  | Ok byID =>
      match check_parents (S (S (length goals))) byID goals with
      | None => None
      | Some (Err e) => Some (s, Err e)
      | Some (Ok _) => Some ({| sm_Goals := goals |}, Ok tt)
      end
  end.

(** ** Goal facts (goal_facts.go) *)

Record GoalFacts := {
  gf_goal_count : nat;
  gf_active_roots : nat;
  gf_running_goals : nat;
  gf_pending_goals : nat;
  gf_complete_goals : nat;
  gf_rejected_goals : nat;
  gf_blocking_goals : nat;
  gf_active_root_goal_ids : list string;
  gf_active_root_goals : list (string * string * string * bool);
  gf_goals : option (list Subgoal);
  gf_active_branches : list string;
  gf_active_branch_count : nat;
}.

Definition count_status (status : string) (goals : list Subgoal) : nat :=
  length (List.filter (fun g => sg_Status g =? status) goals).

Definition is_active_root (g : Subgoal) : bool :=
  blank (sg_ParentGoalID g) && negb (isTerminalSubgoalStatus (sg_Status g)).

Definition empty_goal_facts (includeGoals : bool) : GoalFacts :=
  {| gf_goal_count := 0; gf_active_roots := 0; gf_running_goals := 0; gf_pending_goals := 0;
     gf_complete_goals := 0; gf_rejected_goals := 0; gf_blocking_goals := 0;
     gf_active_root_goal_ids := []; gf_active_root_goals := [];
     gf_goals := if includeGoals then Some [] else None;
     gf_active_branches := []; gf_active_branch_count := 0 |}.

(** The counters of the loop are independent accumulators, so each is a filter. *)
Definition buildGoalStateFacts (subgoals : option SubgoalManager) (includeGoals : bool) :
    option GoalFacts :=
  match subgoals with
  | None => Some (empty_goal_facts includeGoals)
  | Some s =>
      let goals := ListAll s in
      let roots := List.filter is_active_root goals in
      let! fin := CanFinalize s in
      Some {| gf_goal_count := length goals;
              gf_active_roots := length roots;
              gf_running_goals := count_status StatusRunning goals;
              gf_pending_goals := count_status StatusPending goals;
              gf_complete_goals := count_status StatusComplete goals;
              gf_rejected_goals := count_status StatusRejected goals;
              gf_blocking_goals := length (List.filter sg_Blocking goals);
              gf_active_root_goal_ids := map sg_ID roots;
              gf_active_root_goals :=
                map (fun g => (sg_ID g, sg_Description g, sg_Status g, sg_Blocking g)) roots;
              gf_goals := if includeGoals then Some goals else None;
              gf_active_branches := fin.2;
              gf_active_branch_count := length fin.2 |}
  end.

(** * Specification *)

(** The goal tree as its (identifier, parent) pairs. *)
Definition goal_keys (goals : list Subgoal) : list (string * string) :=
  map (fun g => (sg_ID g, sg_ParentGoalID g)) goals.

(** An identifier whose chain of parents ends at a root. *)
Inductive rooted (keys : list (string * string)) : string -> Prop :=
| rooted_root id : (id, "") ∈ keys -> rooted keys id
| rooted_child id parent : (id, parent) ∈ keys -> rooted keys parent -> rooted keys id.

(** A bounded forest: distinct non-empty identifiers, every goal below a root. *)
Definition forest (goals : list Subgoal) : Prop :=
  (length goals <= maxGoals)%nat
  /\ NoDup (map sg_ID goals)
  /\ Forall (fun g => sg_ID g <> "" /\ rooted (goal_keys goals) (sg_ID g)) goals.

(** One call on the manager; an identifier drawn from idgen is fresh and not empty. *)
Inductive goal_step : SubgoalManager -> SubgoalManager -> Prop :=
| goal_add s description parent blocking id now1 now2 :
    id <> "" -> HasGoal s id = false ->
    goal_step s (AddGoalWithBlocking s description parent blocking id now1 now2).1
| goal_update s id status result now :
    goal_step s (UpdateGoalStatus s id status result now).1
| goal_reset s : goal_step s (ResetGoals s)
| goal_replace s goals s' r : ReplaceAll s goals = Some (s', r) -> goal_step s s'.

(** A concrete plan for the witnesses: a blocking root with one child. *)
Definition sample_root : Subgoal :=
  {| sg_ID := "g1"; sg_ParentGoalID := ""; sg_Description := "explain revenue";
     sg_Status := StatusRunning; sg_Blocking := true; sg_Result := "";
     sg_CreatedAt := 1; sg_UpdatedAt := 1 |}.
Definition sample_child : Subgoal :=
  {| sg_ID := "g2"; sg_ParentGoalID := "g1"; sg_Description := "split by region";
     sg_Status := StatusPending; sg_Blocking := false; sg_Result := "";
     sg_CreatedAt := 2; sg_UpdatedAt := 2 |}.

(** The path from a root down to the head of the list, as the dfs visits it. *)
Inductive goal_chain (goals : list Subgoal) : list Subgoal -> Prop :=
| chain_root g : g ∈ goals -> is_root g = true -> goal_chain goals [g]
| chain_child c g l :
    c ∈ goals -> is_root c = false -> sg_ParentGoalID c = sg_ID g ->
    goal_chain goals (g :: l) -> goal_chain goals (c :: g :: l).

(** * Lemmas: branches *)

Lemma same_id_same_goal goals g h :
  NoDup (map sg_ID goals) -> g ∈ goals -> h ∈ goals -> sg_ID g = sg_ID h -> g = h.
Proof.
  intros Hnd Hg Hh Heq. induction goals as [|x gs IH]; [set_solver|].
  simpl in Hnd. apply NoDup_cons in Hnd as [Hx Hnd].
  apply elem_of_cons in Hg as [->|Hg]; apply elem_of_cons in Hh as [->|Hh]; auto.
  - destruct Hx. rewrite Heq. by apply list_elem_of_fmap_2.
  - destruct Hx. rewrite <- Heq. by apply list_elem_of_fmap_2.
Qed.

Lemma goal_chain_elem goals l : goal_chain goals l -> Forall (fun g => g ∈ goals) l.
Proof. induction 1; constructor; auto. Qed.

Lemma goal_chain_det goals l1 : NoDup (map sg_ID goals) -> goal_chain goals l1 ->
  forall l2, goal_chain goals l2 -> head l1 = head l2 -> l1 = l2.
Proof.
  intros Hnd. induction 1 as [g Hg Hr|c g l Hc Hr Hp Hl IH]; intros l2 Hl2 Hhd;
    inversion Hl2 as [g' Hg' Hr'|c' g' l' Hc' Hr' Hp' Hl']; subst; simpl in Hhd; simplify_eq.
  - done.
  - congruence.
  - congruence.
  - f_equal. apply IH; [done|]. simpl. f_equal.
    apply (same_id_same_goal goals); auto; [..|congruence].
    + apply goal_chain_elem in Hl. by inversion Hl.
    + apply goal_chain_elem in Hl'. by inversion Hl'.
Qed.

Lemma goal_chain_suffix goals l g : goal_chain goals l -> g ∈ l ->
  exists l1 l2, l = l1 ++ g :: l2 /\ goal_chain goals (g :: l2).
Proof.
  induction 1 as [x Hx Hr|c x l Hc Hr Hp Hl IH]; intros Hg.
  - apply list_elem_of_singleton in Hg as ->. exists [], []. by split; [|constructor].
  - apply elem_of_cons in Hg as [->|Hg]; [exists [], (x :: l); by split; [|constructor]|].
    destruct (IH Hg) as (l1 & l2 & Heq & Hch). exists (c :: l1), l2. by rewrite Heq.
Qed.

Lemma goal_chain_length goals l :
  NoDup (map sg_ID goals) -> goal_chain goals l -> (length l <= length goals)%nat.
Proof.
  intros Hnd Hl. apply submseteq_length, NoDup_submseteq.
  - induction Hl as [g Hg Hr|c g l Hc Hr Hp Hl IH]; [apply NoDup_singleton|].
    apply NoDup_cons; split; [|done]. intros Hin.
    destruct (goal_chain_suffix _ _ _ Hl Hin) as (l1 & l2 & Heq & Hch).
    assert (c :: g :: l = c :: l2) as Hdet.
    { eapply goal_chain_det; [done|by constructor|done|done]. }
    injection Hdet as Hdet. rewrite Hdet in Heq. apply (f_equal length) in Heq.
    rewrite length_app in Heq. simpl in Heq. lia.
  - apply Forall_forall. by apply goal_chain_elem.
Qed.

Lemma elem_of_children goals c id :
  c ∈ fs_children (snapshotLocked {| sm_Goals := goals |}) id ->
  c ∈ goals /\ is_root c = false /\ sg_ParentGoalID c = id.
Proof.
  simpl. rewrite list_elem_of_In, filter_In, <- list_elem_of_In.
  intros [Hc Ht]. apply andb_true_iff in Ht as [Hr Hp].
  by apply negb_true_iff in Hr; apply String.eqb_eq in Hp.
Qed.

(** Each branch search returns, and it reports a branch exactly for an open goal. *)
Lemma branch_dfs_total goals fuel goal vis path :
  NoDup (map sg_ID goals) -> goal_chain goals (goal :: vis) ->
  (length goals < fuel + length (goal :: vis))%nat ->
  exists bs, branch_dfs fuel (fs_children (snapshotLocked {| sm_Goals := goals |})) goal path = Some bs
    /\ (bs = [] <-> isTerminalSubgoalStatus (sg_Status goal) = true).
Proof.
  intros Hnd. revert goal vis path. induction fuel as [|fuel IH]; intros goal vis path Hch Hlt.
  { apply goal_chain_length in Hch; [simpl in *; lia|done]. }
  cbn [branch_dfs]. destruct (isTerminalSubgoalStatus (sg_Status goal)) eqn:Hterm; [by exists []|].
  set (live := List.filter _ _). set (path' := (path ++ _)%list).
  assert (forall c, c ∈ live -> exists bs,
    branch_dfs fuel (fs_children (snapshotLocked {| sm_Goals := goals |})) c path' = Some bs /\ bs <> []) as Hlive.
  { intros c Hc. apply list_elem_of_In, filter_In in Hc as [Hc Hnt]. apply list_elem_of_In in Hc.
    apply elem_of_children in Hc as (Hc & Hr & Hp). apply negb_true_iff in Hnt.
    destruct (IH c (goal :: vis) path') as (bs & Hbs & Hiff); [by constructor|simpl in *; lia|].
    exists bs. split; [done|]. rewrite Hiff. congruence. }
  destruct (mapM_join_total _ _ Hlive) as (bs & Hbs & Hnil).
  destruct live as [|c live]; [by exists [String.concat " -> " path']|].
  exists bs. split; [exact Hbs|]. rewrite Hnil. done.
Qed.

Lemma CanFinalize_total s :
  NoDup (map sg_ID (sm_Goals s)) ->
  exists blockers, CanFinalize s = Some ((length blockers =? 0)%nat, blockers)
    /\ (blockers = [] <-> Forall (fun g => is_root g && open_blocking_root g = false) (sm_Goals s)).
Proof.
  intros Hnd. unfold CanFinalize. destruct s as [goals]; simpl in *.
  destruct (length goals =? 0)%nat eqn:Hlen.
  { apply Nat.eqb_eq, nil_length_inv in Hlen as ->. exists []. split; [done|]. split; [constructor|done]. }
  unfold collectActiveBranchLines.
  set (snap := snapshotLocked {| sm_Goals := goals |}).
  set (roots := List.filter open_blocking_root (fs_roots snap)).
  assert (forall r, r ∈ roots <-> r ∈ goals /\ is_root r && open_blocking_root r = true) as Hroots.
  { intros r. unfold roots, snap. simpl. rewrite !list_elem_of_In, !filter_In, andb_true_iff. tauto. }
  assert (forall r, r ∈ roots -> exists bs,
    branch_dfs (S (length goals)) (fs_children snap) r [] = Some bs /\ bs <> []) as Hdfs.
  { intros r (Hr & Hb)%Hroots. apply andb_true_iff in Hb as [Hroot Hopen].
    destruct (branch_dfs_total goals (S (length goals)) r [] [] Hnd) as (bs & Hbs & Hiff);
      [by constructor|simpl; lia|].
    exists bs. split; [done|]. rewrite Hiff. unfold open_blocking_root in Hopen.
    apply negb_true_iff, orb_false_iff in Hopen as [-> _]. done. }
  destruct (mapM_join_total _ _ Hdfs) as (bs & Hbs & Hnil). rewrite Hbs.
  exists bs. split; [done|]. rewrite Hnil, Forall_forall. split.
  - intros Hnone g Hg. apply not_true_iff_false. intros Hb.
    apply (not_elem_of_nil g). rewrite <- Hnone. by apply Hroots.
  - intros Hall. destruct roots as [|r roots']; [done|].
    destruct (proj1 (Hroots r) ltac:(left)) as [Hr Hb]. rewrite Hall in Hb by done. done.
Qed.

(** * Lemmas: the goal forest *)

Lemma rooted_mono keys keys' id : keys ⊆ keys' -> rooted keys id -> rooted keys' id.
Proof.
  intros Hsub. induction 1; [apply rooted_root; auto|eapply rooted_child; eauto].
Qed.

Lemma elem_of_goal_keys goals g : g ∈ goals -> (sg_ID g, sg_ParentGoalID g) ∈ goal_keys goals.
Proof. intros Hg. unfold goal_keys. by apply (list_elem_of_fmap_2 (fun g => (sg_ID g, sg_ParentGoalID g))). Qed.

Lemma has_id_spec id goals : existsb (has_id id) goals = true <-> id ∈ map sg_ID goals.
Proof.
  rewrite existsb_exists, list_elem_of_fmap. unfold has_id. setoid_rewrite <- list_elem_of_In.
  split; [intros (g & Hg & <-%String.eqb_eq)|intros (g & -> & Hg)]; exists g; auto.
  split; [done|by apply String.eqb_eq].
Qed.

Lemma forest_keys goals goals' :
  goal_keys goals = goal_keys goals' -> forest goals -> forest goals'.
Proof.
  unfold forest, goal_keys. intros Hk (Hlen & Hnd & Hall).
  assert (length goals = length goals') as Hl.
  { apply (f_equal length) in Hk. by rewrite !length_map in Hk. }
  assert (map sg_ID goals = map sg_ID goals') as Hids.
  { apply (f_equal (map fst)) in Hk. by rewrite !map_map in Hk. }
  rewrite <- Hl, <- Hids, <- Hk. split_and!; [done|done|].
  rewrite Forall_forall in Hall |- *. intros g' Hg'.
  assert (sg_ID g' ∈ map sg_ID goals) as Hin by (rewrite Hids; by apply list_elem_of_fmap_2).
  apply list_elem_of_fmap in Hin as (g & -> & Hg). auto.
Qed.

Lemma update_first_keys id status result now goals goals' :
  update_first id status result now goals = Some goals' -> goal_keys goals = goal_keys goals'.
Proof.
  revert goals'. induction goals as [|g gs IH]; intros goals'; simpl; [done|].
  destruct (has_id id g); [by intros [= <-]|].
  destruct (update_first id status result now gs); simpl; [|done].
  intros [= <-]. simpl. by rewrite (IH _ eq_refl).
Qed.

Lemma AddGoal_forest s description parent blocking id now1 now2 :
  id <> "" -> HasGoal s id = false -> forest (sm_Goals s) ->
  forest (sm_Goals (AddGoalWithBlocking s description parent blocking id now1 now2).1).
Proof.
  intros Hid Hfresh (Hlen & Hnd & Hall). unfold AddGoalWithBlocking.
  destruct (maxGoals <=? _)%nat eqn:Hmax; [done|].
  destruct (blank description || _); [done|]. destruct (not_exact parent); [done|].
  destruct (negb (parent =? "") && _) eqn:Hpar; [done|]. simpl.
  apply Nat.leb_gt in Hmax. unfold HasGoal in Hfresh.
  apply not_true_iff_false in Hfresh. rewrite has_id_spec in Hfresh.
  set (g := Build_Subgoal _ _ _ _ _ _ _ _).
  assert (goal_keys (sm_Goals s) ⊆ goal_keys (sm_Goals s ++ [g])) as Hsub.
  { unfold goal_keys. rewrite map_app. intros x Hx. apply elem_of_app. by left. }
  split_and!.
  - rewrite length_app. simpl. lia.
  - rewrite map_app. apply NoDup_app. split_and!; [done|set_solver|apply NoDup_singleton].
  - apply Forall_app. split.
    + eapply Forall_impl; [exact Hall|]. simpl. intros h [? ?]. eauto using rooted_mono.
    + apply Forall_singleton. split; [done|]. simpl.
      assert ((id, parent) ∈ goal_keys (sm_Goals s ++ [g])) as Hkey.
      { apply (elem_of_goal_keys _ g). set_solver. }
      destruct (parent =? "") eqn:Hroot; simpl in Hpar.
      * apply String.eqb_eq in Hroot as ->. by apply rooted_root.
      * apply negb_false_iff, has_id_spec, list_elem_of_fmap in Hpar as (h & -> & Hh).
        eapply rooted_child; [exact Hkey|]. eapply rooted_mono; [exact Hsub|].
        rewrite Forall_forall in Hall. by apply Hall.
Qed.

Lemma check_persisted_goal_ok m g m' :
  check_persisted_goal m g = Ok m' ->
  m' = <[sg_ID g := g]> m /\ m !! sg_ID g = None /\ sg_ID g <> "".
Proof.
  unfold check_persisted_goal.
  destruct (sg_ID g =? "") eqn:Hid; [done|]. apply String.eqb_neq in Hid.
  destruct (not_exact (sg_ID g)); [done|]. simpl.
  case_bool_decide as Hs; [done|].
  destruct (_ || _); [done|]. destruct (negb _); [done|].
  destruct (not_exact (sg_ParentGoalID g)); [done|]. destruct (_ || _); [done|].
  intros [= <-]. split_and!; [done|by apply eq_None_not_Some|done].
Qed.

Lemma index_goals_ok m goals m' :
  fold_res check_persisted_goal m goals = Ok m' ->
  NoDup (map sg_ID goals)
  /\ Forall (fun g => sg_ID g <> "" /\ m !! sg_ID g = None) goals
  /\ (forall id g, m' !! id = Some g <-> m !! id = Some g \/ (g ∈ goals /\ sg_ID g = id)).
Proof.
  revert m. induction goals as [|g gs IH]; intros m; simpl.
  { intros [= <-]. split_and!; [constructor|constructor|]. set_solver. }
  destruct (check_persisted_goal m g) as [m1|] eqn:Hg; [|done]. intros Hfold.
  apply check_persisted_goal_ok in Hg as (-> & Hnone & Hne).
  destruct (IH _ Hfold) as (Hnd & Hall & Hm). rewrite Forall_forall in Hall.
  split_and!.
  - apply NoDup_cons. split; [|done]. intros (h & Heq & Hh)%list_elem_of_fmap.
    destruct (Hall h Hh) as [_ Hl]. by rewrite Heq, lookup_insert_eq in Hl.
  - apply Forall_cons. split; [done|]. apply Forall_forall. intros h Hh.
    destruct (Hall h Hh) as [? Hl]. split; [done|]. by apply lookup_insert_None in Hl as [? _].
  - intros id h. rewrite Hm, elem_of_cons, lookup_insert_Some.
    destruct (decide (sg_ID g = id)) as [<-|]; naive_solver.
Qed.

Lemma walk_parents_total fuel byID seen id :
  (S (size (dom byID ∖ seen)) < fuel)%nat -> walk_parents fuel byID seen id <> None.
Proof.
  revert seen id. induction fuel as [|fuel IH]; intros seen id Hlt; [lia|]. simpl.
  destruct (id =? "") eqn:Hid; [done|]. case_bool_decide as Hseen; [done|].
  destruct (byID !! id) as [g|] eqn:Hg.
  - apply IH. assert (id ∈ dom byID) as Hdom by (apply elem_of_dom; eauto).
    assert (size (dom byID ∖ ({[id]} ∪ seen)) < size (dom byID ∖ seen))%nat; [|lia].
    apply subset_size. set_solver.
  - unfold parent_of. rewrite Hg. destruct fuel; [lia|done].
Qed.

(** A walk that reaches [""] witnesses that its start is rooted. *)
Lemma walk_parents_rooted goals byID fuel seen id :
  (forall id g, byID !! id = Some g -> g ∈ goals /\ sg_ID g = id) ->
  Forall (fun g => sg_ParentGoalID g = "" \/ is_Some (byID !! sg_ParentGoalID g)) goals ->
  is_Some (byID !! id) -> walk_parents fuel byID seen id = Some (Ok tt) ->
  id <> "" -> rooted (goal_keys goals) id.
Proof.
  intros Hby Hpar. rewrite Forall_forall in Hpar. revert seen id.
  induction fuel as [|fuel IH]; intros seen id [g Hg]; simpl; [done|].
  intros Hw Hne. apply String.eqb_neq in Hne. rewrite Hne in Hw.
  case_bool_decide as Hseen; [done|]. unfold parent_of in Hw. rewrite Hg in Hw.
  destruct (Hby _ _ Hg) as [Hin <-]. pose proof (elem_of_goal_keys _ _ Hin) as Hkey.
  destruct (decide (sg_ParentGoalID g = "")) as [He|He].
  - apply rooted_root. by rewrite <- He.
  - eapply rooted_child; [exact Hkey|]. destruct (Hpar g Hin) as [?|Hs]; [done|].
    by eapply IH.
Qed.

Lemma check_parents_total fuel byID goals :
  (S (size byID) < fuel)%nat -> check_parents fuel byID goals <> None.
Proof.
  intros Hlt. induction goals as [|g gs IH]; simpl; [done|].
  destruct (negb _ && _); [done|].
  destruct (walk_parents fuel byID {[sg_ID g]} (sg_ParentGoalID g)) as [[[]|]|] eqn:Hw; [done|done|].
  exfalso. revert Hw. apply walk_parents_total.
  assert (size (dom byID ∖ {[sg_ID g]}) <= size (dom byID))%nat.
  { apply subseteq_size. set_solver. }
  rewrite size_dom in *. lia.
Qed.

Lemma check_parents_ok fuel byID goals :
  check_parents fuel byID goals = Some (Ok tt) ->
  Forall (fun g => (sg_ParentGoalID g = "" \/ is_Some (byID !! sg_ParentGoalID g))
    /\ walk_parents fuel byID {[sg_ID g]} (sg_ParentGoalID g) = Some (Ok tt)) goals.
Proof.
  induction goals as [|g gs IH]; simpl; [constructor|].
  destruct (negb _ && _) eqn:Hp; [done|].
  destruct (walk_parents fuel byID _ _) as [[[]|]|] eqn:Hw; [|done|done]. intros Hc.
  constructor; [|by apply IH]. split; [|done].
  apply andb_false_iff in Hp as [Hp|Hp]; apply negb_false_iff in Hp.
  - left. by apply String.eqb_eq.
  - right. by apply bool_decide_eq_true in Hp.
Qed.

Lemma size_index goals m : (forall id g, m !! id = Some g -> g ∈ goals /\ sg_ID g = id) ->
  (size (m : gmap string Subgoal) <= length goals)%nat.
Proof.
  intros Hm. rewrite <- size_dom. trans (size (list_to_set (map sg_ID goals) : gset string)).
  - apply subseteq_size. intros id [g Hg]%elem_of_dom. apply Hm in Hg as [Hg <-].
    apply elem_of_list_to_set. by apply list_elem_of_fmap_2.
  - rewrite <- (length_map sg_ID). generalize (map sg_ID goals) as l.
    induction l as [|x l IH]; [done|]. simpl. rewrite size_union_alt, size_singleton.
    assert (size (list_to_set l ∖ {[x]} : gset string) <= size (list_to_set l : gset string))%nat.
    { apply subseteq_size. set_solver. }
    lia.
Qed.

Lemma ReplaceAll_ok_forest s goals s' :
  ReplaceAll s goals = Some (s', Ok tt) -> sm_Goals s' = goals /\ forest goals.
Proof.
  unfold ReplaceAll. destruct (maxGoals <? length goals)%nat eqn:Hmax; [done|].
  apply Nat.ltb_ge in Hmax.
  destruct (fold_res check_persisted_goal ∅ goals) as [byID|] eqn:Hfold; [|done].
  destruct (check_parents _ byID goals) as [[[]|]|] eqn:Hpar; [|done|done].
  intros [= <-]. simpl. split; [done|].
  apply index_goals_ok in Hfold as (Hnd & Hne & Hby). apply check_parents_ok in Hpar.
  assert (forall id g, byID !! id = Some g -> g ∈ goals /\ sg_ID g = id) as Hby1.
  { intros id g Hg. apply Hby in Hg as [Hg|Hg]; [by rewrite lookup_empty in Hg|done]. }
  split_and!; [done|done|]. rewrite Forall_forall in Hne, Hpar |- *. intros g Hg.
  destruct (Hne g Hg) as [Hid _]. split; [done|].
  destruct (Hpar g Hg) as [_ Hw]. pose proof (elem_of_goal_keys _ _ Hg) as Hkey.
  destruct (decide (sg_ParentGoalID g = "")) as [He|He]; [apply rooted_root; by rewrite <- He|].
  eapply rooted_child; [exact Hkey|].
  eapply (walk_parents_rooted goals byID); [exact Hby1| |..|exact Hw|done].
  - apply Forall_forall. intros h Hh. by destruct (Hpar h Hh).
  - by destruct (proj1 (Hpar g Hg)).
Qed.

Lemma ReplaceAll_err_keeps s goals s' e : ReplaceAll s goals = Some (s', Err e) -> s' = s.
Proof.
  unfold ReplaceAll. intros H. repeat (case_match; try done); congruence.
Qed.

(** * Properties *)

Lemma goal_step_forest s1 s2 : goal_step s1 s2 -> forest (sm_Goals s1) -> forest (sm_Goals s2).
Proof.
  intros Hs Hf. inversion Hs as [s0 ? parent ? id ? ? Hid Hfr|s0 id status result now|s0|s0 goals s' r Hr]; subst.
  - by apply AddGoal_forest.
  - unfold UpdateGoalStatus. destruct (update_first _ _ _ _ _) eqn:Hu; [|done].
    eapply forest_keys; [by eapply update_first_keys|done].
  - split_and!; [simpl; lia|constructor|constructor].
  - destruct r as [[]|e].
    + apply ReplaceAll_ok_forest in Hr as [Hg Hfor]. by rewrite Hg.
    + apply ReplaceAll_err_keeps in Hr as ->. done.
Qed.

(** every manager reachable through AddGoalWithBlocking, UpdateGoalStatus,
    Reset and ReplaceAll holds a bounded forest: at most [maxGoals] goals, with
    distinct non-empty identifiers, each below a root through existing parents. *)
Theorem subgoals_reachable_forest (s : SubgoalManager) :
  rtc goal_step NewSubgoalManager s -> forest (sm_Goals s).
Proof.
  intros Hrtc. eapply (rtc_ind_r (fun s => forest (sm_Goals s))); [| |exact Hrtc].
  { split_and!; [simpl; lia|constructor|constructor]. }
  intros s1 s2 _ Hs Hf. by eapply goal_step_forest.
Qed.

Lemma subgoals_reachable_forest_witness :
  forest (sm_Goals (AddGoalWithBlocking NewSubgoalManager "explain" "" true "g1" 1 1).1).
Proof.
  apply subgoals_reachable_forest. apply rtc_once. apply goal_add; [done|reflexivity].
Defined.

(** on a manager with distinct identifiers CanFinalize always returns (its
    branch search terminates), it lists the open branches it found, and it allows
    finalization exactly when no blocking root goal is still open: scratchpad
    roots and leftovers below a closed root never block delivery. *)
Theorem CanFinalize_spec (s : SubgoalManager) :
  NoDup (map sg_ID (sm_Goals s)) ->
  exists ok blockers,
    CanFinalize s = Some (ok, blockers)
    /\ (ok = true <-> blockers = [])
    /\ (ok = true <->
        forall g, g ∈ sm_Goals s -> sg_ParentGoalID g = "" -> sg_Blocking g = true ->
          sg_Status g = StatusComplete \/ sg_Status g = StatusRejected).
Proof.
  intros Hnd. destruct (CanFinalize_total s Hnd) as (bl & Hcf & Hiff).
  exists (length bl =? 0)%nat, bl. rewrite Nat.eqb_eq, length_zero_iff_nil.
  split_and!; [done|done|]. rewrite Hiff, Forall_forall.
  unfold is_root, open_blocking_root, isTerminalSubgoalStatus. split.
  - intros H g Hg Hr Hb. specialize (H g Hg). rewrite Hr, Hb, orb_false_r in H. simpl in H.
    apply negb_false_iff, orb_true_iff in H as [H|H]; apply String.eqb_eq in H; auto.
  - intros H g Hg. destruct (sg_ParentGoalID g =? "") eqn:Hr; [|done].
    destruct (sg_Blocking g) eqn:Hb; [|by rewrite orb_true_r]. apply String.eqb_eq in Hr.
    by destruct (H g Hg Hr Hb) as [-> | ->].
Qed.

Lemma CanFinalize_spec_witness :
  exists ok blockers,
    CanFinalize {| sm_Goals := [sample_root; sample_child] |} = Some (ok, blockers)
    /\ (ok = true <-> blockers = [])
    /\ (ok = true <->
        forall g, g ∈ [sample_root; sample_child] -> sg_ParentGoalID g = "" -> sg_Blocking g = true ->
          sg_Status g = StatusComplete \/ sg_Status g = StatusRejected).
Proof.
  apply (CanFinalize_spec {| sm_Goals := [sample_root; sample_child] |}).
  simpl. apply (bool_decide_unpack _). reflexivity.
Defined.

(** restoring a persisted goal tree always returns (the cycle walk of every
    goal terminates); when it succeeds the goals are installed as they are and
    form a forest, so no cycle and no dangling parent is ever accepted, and when
    it fails the manager is unchanged. *)
Theorem ReplaceAll_total (s : SubgoalManager) (goals : list Subgoal) :
  exists s' r, ReplaceAll s goals = Some (s', r)
    /\ match r with
       | Ok _ => sm_Goals s' = goals /\ forest goals
       | Err _ => s' = s
       end.
Proof.
  destruct (ReplaceAll s goals) as [[s' [[]|e]]|] eqn:Hr.
  - exists s', (Ok tt). split; [done|]. by apply ReplaceAll_ok_forest in Hr.
  - exists s', (Err e). split; [done|]. by apply ReplaceAll_err_keeps in Hr.
  - exfalso. unfold ReplaceAll in Hr. destruct (_ <? _)%nat; [done|].
    destruct (fold_res _ _ _) as [byID|] eqn:Hfold; [|done].
    apply index_goals_ok in Hfold as (_ & _ & Hby).
    destruct (check_parents _ byID goals) as [[[]|]|] eqn:Hc; [done|done|].
    revert Hc. apply check_parents_total.
    pose proof (size_index goals byID). rewrite <- Nat.succ_lt_mono.
    apply Nat.lt_succ_r. apply H. intros id g Hg.
    apply Hby in Hg as [Hg|Hg]; [by rewrite lookup_empty in Hg|done].
Qed.
