(* ===== verification/Jobs.v ===== *)
(** Model of the background jobs of a session (server/agent/jobs.go) and of the
    registry of delegated conversations (server/agent/child_agents.go).

    A job's goroutine runs beside the session, so the component is a transition
    system: the methods are atomic (each holds [mu] for its whole body), and
    [job_step] interleaves submissions, the goroutines' progress under [execMu]
    and the deliveries of notices in every order. *)
From S2P Require Import Prelude GoStrings Json Conversation.
Open Scope string_scope.
Open Scope list_scope.

(** * Jobs: data *)

Definition JobStatusRunning : string := "running".
Definition JobStatusSucceeded : string := "succeeded".
Definition JobStatusFailed : string := "failed".
Definition maxRetainedJobs : nat := 32.
Definition jobAllowedTools : list string := ["code_run_python"; "data_query_sql"].

Record Job := {
  jb_ID : string;
  jb_Tool : string;
  jb_Status : string;
  jb_ResultID : string;
  jb_ResultChars : Z;
  jb_ErrorMessage : string;
  jb_StartedAt : time;
  jb_FinishedAt : time;
}.

(** [jm_registry] tells whether a registry is attached; the jobs map holds
    pointers that only the manager writes, so the values stand for them. *)
Record JobManager := {
  jm_registry : bool;
  jm_jobs : gmap string Job;
  jm_order : list string;
  jm_unannounced : list string;
}.

Inductive JobError :=
| EJobsUnavailable
| EJobTool (tool : string)
| EJobArguments
| EUnknownJob (id : string).

(** * Jobs: operations *)

Definition NewJobManager : JobManager :=
  {| jm_registry := false; jm_jobs := ∅; jm_order := []; jm_unannounced := [] |}.

Definition SetRegistry (m : JobManager) : JobManager :=
  {| jm_registry := true; jm_jobs := jm_jobs m; jm_order := jm_order m;
     jm_unannounced := jm_unannounced m |}.

(** In nanoseconds. *)
Definition Duration (j : Job) (now : time) : Z :=
  ((if IsZero (jb_FinishedAt j) then now else jb_FinishedAt j) - jb_StartedAt j)%Z.
Definition Milliseconds (d : Z) : Z := Z.quot d 1000000.

(** The inner loop of [evictLocked]: the index of the first identifier that is
    unknown or names a job that is not running. *)
Fixpoint evictable (jobs : gmap string Job) (order : list string) : option nat :=
  match order with
  | [] => None
  | id :: order' =>
      match jobs !! id with
      | Some job => if jb_Status job =? JobStatusRunning then S <$> evictable jobs order' else Some 0
      | None => Some 0
      end
  end.

(** The outer loop; each round shortens [order], so its length is enough fuel. *)
Fixpoint evict_loop (fuel : nat) (jobs : gmap string Job) (order : list string) :
    gmap string Job * list string :=
  match fuel with
  | O => (jobs, order)
  | S fuel =>
      if (length order <=? maxRetainedJobs)%nat then (jobs, order)
      else match evictable jobs order with
      | Some i => evict_loop fuel (match order !! i with Some id => delete id jobs | None => jobs end)
                    (remove_at i order)
      | None => (jobs, order)
      end
  end.
Definition evictJobsLocked (m : JobManager) : JobManager :=
  let '(jobs, order) := evict_loop (length (jm_order m)) (jm_jobs m) (jm_order m) in
  {| jm_registry := jm_registry m; jm_jobs := jobs; jm_order := order;
     jm_unannounced := jm_unannounced m |}.

(** [id] is the identifier drawn from idgen.  On success a goroutine for the job
    is started ([js_submit] below). *)
Definition Submit (m : option JobManager) (toolName : string) (arguments : string) (id : string)
    (now : time) : option JobManager * res JobError Job :=
  match m with
  | None => (m, Err EJobsUnavailable)
  | Some jm =>
      if negb (existsb (String.eqb toolName) jobAllowedTools) then (m, Err (EJobTool toolName))
      else if (len arguments =? 0)%Z then (m, Err EJobArguments)
      else if negb (jm_registry jm) then (m, Err EJobsUnavailable)
      else
        let job := {| jb_ID := id; jb_Tool := toolName; jb_Status := JobStatusRunning;
                      jb_ResultID := ""; jb_ResultChars := 0; jb_ErrorMessage := "";
                      jb_StartedAt := now; jb_FinishedAt := 0 |} in
        (Some (evictJobsLocked
                 {| jm_registry := jm_registry jm; jm_jobs := <[id := job]> (jm_jobs jm);
                    jm_order := jm_order jm ++ [id]; jm_unannounced := jm_unannounced jm |}),
         Ok job)
  end.

(** [finish]: [failure] is the sanitized message of a non-nil error.  The job is
    updated in place. *)
Definition finish (m : JobManager) (jobID resultID : string) (resultChars : Z)
    (failure : option string) (now : time) : JobManager :=
  match jm_jobs m !! jobID with
  | None => m
  | Some job =>
      let job :=
        {| jb_ID := jb_ID job; jb_Tool := jb_Tool job;
           jb_Status := match failure with Some _ => JobStatusFailed | None => JobStatusSucceeded end;
           jb_ResultID := resultID; jb_ResultChars := resultChars;
           jb_ErrorMessage := match failure with Some msg => msg | None => jb_ErrorMessage job end;
           jb_StartedAt := jb_StartedAt job; jb_FinishedAt := now |} in
      {| jm_registry := jm_registry m; jm_jobs := <[jobID := job]> (jm_jobs m);
         jm_order := jm_order m; jm_unannounced := jm_unannounced m ++ [jobID] |}
  end.

Definition job_notice (job : Job) (now : time) : RuntimeContextBlock :=
  text_block "background_job_finished" LLMRoleUser
    (MarshalMap
       ([("job_id", JStr (jb_ID job)); ("job_tool", JStr (jb_Tool job)); ("status", JStr (jb_Status job));
         ("duration_ms", JNum (itoa (Milliseconds (Duration job now))));
         ("result_chars", JNum (itoa (jb_ResultChars job)))]
        ++ (if jb_ErrorMessage job =? "" then [] else [("error_message", JStr (jb_ErrorMessage job))]))).

Definition TakeCompletedNotices (m : option JobManager) (now : time) :
    option JobManager * list RuntimeContextBlock :=
  match m with
  | None => (m, [])
  | Some jm =>
      if (length (jm_unannounced jm) =? 0)%nat then (m, [])
      else
        (Some {| jm_registry := jm_registry jm; jm_jobs := jm_jobs jm; jm_order := jm_order jm;
                 jm_unannounced := [] |},
         flat_map (fun id => match jm_jobs jm !! id with
                             | Some job => [job_notice job now]
                             | None => []
                             end) (jm_unannounced jm))
  end.

Definition JobManager_Status (m : option JobManager) (jobID : string) : res JobError Job :=
  match m with
  | None => Err EJobsUnavailable
  | Some jm => match jm_jobs jm !! jobID with Some job => Ok job | None => Err (EUnknownJob jobID) end
  end.

(** What [run] passes to [finish], from the outcome of the tool lookup, of the
    execution (the result and the error) and of the spill. *)
Definition run_outcome (available : res string unit) (execution : res string string)
    (spill : string -> res string string) (sanitize : string -> string) :
    string * Z * option string :=
  match available with
  | Err e => ("", 0%Z, Some (sanitize e))
  | Ok _ =>
      match execution with
      | Err e => ("", 0%Z, Some (sanitize e))
      | Ok result =>
          let chars := Z.of_nat (length (runes result)) in
          match spill result with
          | Err e => ("", chars, Some (sanitize ("job result could not be retained: " ++ e)%string))
          | Ok id => (id, chars, None)
          end
      end
  end.

(** * Delegated conversations *)

Definition maxRetainedChildren : nat := 16.

Record ChildAgent := {
  ca_ID : string;
  ca_RoleName : string;
  ca_PolicyAppendix : string;
  ca_AllowedTools : list string;
  ca_GoalID : string;
  ca_History : list ConversationItem;
  ca_LastResult : string;
  ca_CreatedAt : time;
  ca_UpdatedAt : time;
}.

Record ChildAgentRegistry := { cr_agents : gmap string ChildAgent; cr_order : list string }.
Definition NewChildAgentRegistry : ChildAgentRegistry := {| cr_agents := ∅; cr_order := [] |}.

(** The loop of [evictLocked] over the excess of [order]. *)
Fixpoint evict_oldest (excess : nat) (agents : gmap string ChildAgent) (order : list string) :
    gmap string ChildAgent * list string :=
  match excess, order with
  | S n, oldest :: order' => evict_oldest n (delete oldest agents) order'
  | _, _ => (agents, order)
  end.
Definition evictChildrenLocked (r : ChildAgentRegistry) : ChildAgentRegistry :=
  let '(agents, order) :=
    evict_oldest (length (cr_order r) - maxRetainedChildren) (cr_agents r) (cr_order r) in
  {| cr_agents := agents; cr_order := order |}.

Definition ChildAgentRegistry_Create (r : option ChildAgentRegistry) (roleName policyAppendix : string)
    (allowedTools : list string) (goalID id : string) (now : time) :
    option ChildAgentRegistry * ChildAgent :=
  let child := {| ca_ID := id; ca_RoleName := roleName; ca_PolicyAppendix := policyAppendix;
                  ca_AllowedTools := allowedTools; ca_GoalID := goalID; ca_History := [];
                  ca_LastResult := ""; ca_CreatedAt := now; ca_UpdatedAt := now |} in
  match r with
  | None => (None, child)
  | Some r =>
      (Some (evictChildrenLocked
               {| cr_agents := <[id := child]> (cr_agents r); cr_order := cr_order r ++ [id] |}), child)
  end.

Inductive ChildError := EChildrenUnavailable | EUnknownChild (id : string).

Definition ChildAgentRegistry_Get (r : option ChildAgentRegistry) (id : string) : res ChildError ChildAgent :=
  match r with
  | None => Err EChildrenUnavailable
  | Some r => match cr_agents r !! id with Some c => Ok c | None => Err (EUnknownChild id) end
  end.

Definition ChildAgentRegistry_Save (r : option ChildAgentRegistry) (id : string)
    (history : list ConversationItem) (result : string) (now : time) : option ChildAgentRegistry :=
  match r with
  | None => None
  | Some r =>
      match cr_agents r !! id with
      | None => Some r
      | Some c =>
          Some {| cr_agents := <[id := {| ca_ID := ca_ID c; ca_RoleName := ca_RoleName c;
                    ca_PolicyAppendix := ca_PolicyAppendix c; ca_AllowedTools := ca_AllowedTools c;
                    ca_GoalID := ca_GoalID c; ca_History := history; ca_LastResult := result;
                    ca_CreatedAt := ca_CreatedAt c; ca_UpdatedAt := now |}]> (cr_agents r);
                  cr_order := cr_order r |}
      end
  end.

(** * Specification *)

(** The system around the manager: [sj_waiting] are the goroutines that wait for
    [execMu], [sj_holder] the one that holds it, [sj_used] every identifier idgen
    has returned and [sj_delivered] the identifiers whose notice was handed out. *)
Record JobSystem := {
  sj_manager : JobManager;
  sj_waiting : list string;
  sj_holder : option string;
  sj_used : list string;
  sj_delivered : list string;
}.

Definition announced_now (m : JobManager) : list string :=
  List.filter (fun id => bool_decide (is_Some (jm_jobs m !! id))) (jm_unannounced m).

Inductive job_step : JobSystem -> JobSystem -> Prop :=
| js_registry s :
    job_step s {| sj_manager := SetRegistry (sj_manager s); sj_waiting := sj_waiting s;
                  sj_holder := sj_holder s; sj_used := sj_used s; sj_delivered := sj_delivered s |}
| js_submit s tool args id now m' job :
    id ∉ sj_used s ->
    Submit (Some (sj_manager s)) tool args id now = (Some m', Ok job) ->
    job_step s {| sj_manager := m'; sj_waiting := sj_waiting s ++ [id]; sj_holder := sj_holder s;
                  sj_used := id :: sj_used s; sj_delivered := sj_delivered s |}
| js_lock s w1 id w2 :
    sj_waiting s = w1 ++ id :: w2 -> sj_holder s = None ->
    job_step s {| sj_manager := sj_manager s; sj_waiting := w1 ++ w2; sj_holder := Some id;
                  sj_used := sj_used s; sj_delivered := sj_delivered s |}
| js_finish s id resultID chars failure now :
    sj_holder s = Some id ->
    job_step s {| sj_manager := finish (sj_manager s) id resultID chars failure now;
                  sj_waiting := sj_waiting s; sj_holder := None; sj_used := sj_used s;
                  sj_delivered := sj_delivered s |}
| js_take s now m' notices :
    TakeCompletedNotices (Some (sj_manager s)) now = (Some m', notices) ->
    job_step s {| sj_manager := m'; sj_waiting := sj_waiting s; sj_holder := sj_holder s;
                  sj_used := sj_used s;
                  sj_delivered := sj_delivered s ++ announced_now (sj_manager s) |}.

Definition initial_jobs : JobSystem :=
  {| sj_manager := NewJobManager; sj_waiting := []; sj_holder := None; sj_used := []; sj_delivered := [] |}.

Definition runs (jobs : gmap string Job) (id : string) : Prop :=
  exists job, jobs !! id = Some job /\ jb_Status job = JobStatusRunning.

(** The goroutines that have not called [finish] yet. *)
Definition executing (s : JobSystem) : list string :=
  match sj_holder s with Some id => id :: sj_waiting s | None => sj_waiting s end.

Record jobs_inv (s : JobSystem) : Prop := {
  ji_order : NoDup (jm_order (sj_manager s));
  ji_keys : forall id, id ∈ jm_order (sj_manager s) <-> is_Some (jm_jobs (sj_manager s) !! id);
  ji_ids : forall id job, jm_jobs (sj_manager s) !! id = Some job -> jb_ID job = id;
  ji_used : forall id, id ∈ jm_order (sj_manager s) \/ id ∈ executing s
                \/ id ∈ jm_unannounced (sj_manager s) \/ id ∈ sj_delivered s -> id ∈ sj_used s;
  ji_running : forall id, runs (jm_jobs (sj_manager s)) id <-> id ∈ executing s;
  ji_once : NoDup (executing s ++ jm_unannounced (sj_manager s) ++ sj_delivered s);
  ji_told : forall id, is_Some (jm_jobs (sj_manager s) !! id) ->
              id ∈ executing s ++ jm_unannounced (sj_manager s) ++ sj_delivered s;
}.

(** A manager with an attached registry, and a system that has submitted one job. *)
Definition sample_manager : JobManager := SetRegistry NewJobManager.

(** * Lemmas: eviction *)

Lemma evictable_some jobs order i :
  evictable jobs order = Some i -> exists id, order !! i = Some id /\ ~ runs jobs id.
Proof.
  revert i. induction order as [|id order IH]; intros i; simpl; [done|].
  destruct (jobs !! id) as [job|] eqn:Hj.
  - destruct (jb_Status job =? JobStatusRunning) eqn:Hr; reflect_bools.
    + destruct (evictable jobs order) as [k|]; simpl; [|done]. intros [= <-].
      by apply (IH k).
    + intros [= <-]. exists id. split; [done|]. intros (job' & Hj' & Hr'). congruence.
  - intros [= <-]. exists id. split; [done|]. intros (job' & Hj' & _). congruence.
Qed.

Lemma evictable_none jobs order : evictable jobs order = None -> Forall (runs jobs) order.
Proof.
  induction order as [|id order IH]; simpl; [constructor|].
  destruct (jobs !! id) as [job|] eqn:Hj; [|done].
  destruct (jb_Status job =? JobStatusRunning) eqn:Hr; [|done]. reflect_bools.
  destruct (evictable jobs order); [done|]. intros _. constructor; [by exists job|by apply IH].
Qed.

(** The map and the order hold the same identifiers, each once. *)
Definition indexed_by (jobs : gmap string Job) (order : list string) : Prop :=
  NoDup order /\ forall id, id ∈ order <-> is_Some (jobs !! id).

Record evict_result (jobs jobs' : gmap string Job) (order order' : list string) : Prop := {
  er_index : indexed_by jobs' order';
  er_sub : jobs' ⊆ jobs;
  er_running : forall id, runs jobs id -> jobs' !! id = jobs !! id;
  er_bound : length order' <= maxRetainedJobs \/ Forall (runs jobs') order';
  er_few : length order <= maxRetainedJobs -> jobs' = jobs /\ order' = order;
}.

Lemma remove_indexed jobs order i id :
  indexed_by jobs order -> order !! i = Some id -> indexed_by (delete id jobs) (remove_at i order).
Proof.
  intros [Hnd Hk] Hi. destruct (NoDup_remove_at i order id Hi Hnd) as [Hnd' Hni].
  split; [done|]. intros id'. pose proof (elem_of_remove_at i order id id' Hi) as Hel.
  destruct (decide (id' = id)) as [->|Hne].
  - rewrite lookup_delete_eq. split; [done|]. by intros [? ?].
  - rewrite lookup_delete_ne by done. rewrite <- Hk. tauto.
Qed.

Lemma evict_loop_spec fuel jobs order :
  length order <= fuel -> indexed_by jobs order ->
  evict_result jobs (evict_loop fuel jobs order).1 order (evict_loop fuel jobs order).2.
Proof.
  revert jobs order. induction fuel as [|fuel IH]; intros jobs order Hlen Hidx; simpl.
  { split; try done. left. lia. }
  destruct (length order <=? maxRetainedJobs)%nat eqn:Hfew; reflect_bools.
  { split; try done. by left. }
  destruct (evictable jobs order) as [i|] eqn:Hev.
  2: { apply evictable_none in Hev. split; try done. by right. }
  apply evictable_some in Hev as (id & Hi & Hnr). rewrite Hi.
  pose proof (remove_indexed _ _ _ _ Hidx Hi) as Hidx'.
  pose proof (length_remove_at _ _ _ Hi) as Hl.
  destruct (IH (delete id jobs) (remove_at i order)) as [H1 H2 H3 H4 H5]; [lia|done|].
  split; [done| | |done|lia].
  - trans (delete id jobs); [done|apply delete_subseteq].
  - intros id' Hr. assert (id' <> id) as Hne by (intros ->; done). rewrite H3.
    + by rewrite lookup_delete_ne.
    + destruct Hr as (job & Hj & Hs). exists job. by rewrite lookup_delete_ne.
Qed.

(** What a successful submission does. *)
Lemma Submit_ok m tool args id now m' job :
  Submit (Some m) tool args id now = (Some m', Ok job) ->
  jb_Status job = JobStatusRunning /\ jb_ID job = id
  /\ m' = evictJobsLocked {| jm_registry := jm_registry m; jm_jobs := <[id := job]> (jm_jobs m);
                             jm_order := jm_order m ++ [id]; jm_unannounced := jm_unannounced m |}.
Proof.
  unfold Submit. destruct (negb _); [done|]. destruct (_ =? 0)%Z; [done|]. destruct (negb _); [done|].
  intros [= <- <-]. done.
Qed.

Lemma indexed_insert jobs order id job :
  indexed_by jobs order -> id ∉ order -> indexed_by (<[id := job]> jobs) (order ++ [id]).
Proof.
  intros [Hnd Hk] Hni. split.
  - apply NoDup_app. split_and!; [done|set_solver|apply NoDup_singleton].
  - intros id'. rewrite elem_of_app, list_elem_of_singleton, Hk, lookup_insert_is_Some. split.
    + intros [?| ->]; [destruct (decide (id = id')); auto|by left].
    + intros [->|[? ?]]; auto.
Qed.

Lemma evictJobsLocked_spec m :
  indexed_by (jm_jobs m) (jm_order m) ->
  evict_result (jm_jobs m) (jm_jobs (evictJobsLocked m)) (jm_order m) (jm_order (evictJobsLocked m))
  /\ jm_unannounced (evictJobsLocked m) = jm_unannounced m.
Proof.
  intros Hidx. unfold evictJobsLocked.
  pose proof (evict_loop_spec (length (jm_order m)) (jm_jobs m) (jm_order m) ltac:(done) Hidx) as H.
  by destruct (evict_loop _ _ _).
Qed.

(** * Lemmas: the invariant *)

Lemma inv_indexed s : jobs_inv s -> indexed_by (jm_jobs (sj_manager s)) (jm_order (sj_manager s)).
Proof. intros H. split; [apply ji_order, H|apply ji_keys, H]. Qed.

Lemma initial_jobs_inv : jobs_inv initial_jobs.
Proof.
  assert (forall id, ~ is_Some ((∅ : gmap string Job) !! id)) as Hn.
  { intros id [? Hj]. by rewrite lookup_empty in Hj. }
  assert (forall id, ~ runs ∅ id) as Hr by (intros id (j & Hj & _); apply (Hn id); eauto).
  split; simpl; try constructor; intros; set_solver.
Qed.

Lemma submit_inv s tool args id now m' job :
  jobs_inv s -> id ∉ sj_used s -> Submit (Some (sj_manager s)) tool args id now = (Some m', Ok job) ->
  jobs_inv {| sj_manager := m'; sj_waiting := sj_waiting s ++ [id]; sj_holder := sj_holder s;
              sj_used := id :: sj_used s; sj_delivered := sj_delivered s |}.
Proof.
  intros Hinv Hfresh Hsub. apply Submit_ok in Hsub as (Hrun & Hid & ->).
  assert (id ∉ jm_order (sj_manager s)) as Hno by (intros ?; apply Hfresh, (ji_used s Hinv); auto).
  set (m1 := Build_JobManager _ _ _ _).
  destruct (evictJobsLocked_spec m1 (indexed_insert _ _ _ job (inv_indexed s Hinv) Hno)) as [[Hidx Hsubm Hkeep _ _] Hun].
  set (m2 := evictJobsLocked m1) in *. clearbody m2.
  assert (executing {| sj_manager := m2; sj_waiting := sj_waiting s ++ [id]; sj_holder := sj_holder s;
              sj_used := id :: sj_used s; sj_delivered := sj_delivered s |} = executing s ++ [id]) as Hex.
  { unfold executing. simpl. by destruct (sj_holder s). }
  assert (forall id', is_Some (jm_jobs m2 !! id') -> id' = id \/ is_Some (jm_jobs (sj_manager s) !! id')) as Hold.
  { intros id' [j Hj]. apply (lookup_weaken _ _ _ _ Hj) in Hsubm as Hj1. simpl in Hj1.
    apply lookup_insert_Some in Hj1 as [[-> _]|[_ ?]]; eauto. }
  split; rewrite ?Hex; simpl; rewrite ?Hun; simpl.
  - apply Hidx.
  - apply Hidx.
  - intros id' j Hj. apply (lookup_weaken _ _ _ _ Hj) in Hsubm as Hj1. simpl in Hj1.
    apply lookup_insert_Some in Hj1 as [[<- <-]|[_ Hj1]]; [done|by apply (ji_ids s Hinv)].
  - intros id' Hor. rewrite elem_of_cons. destruct (decide (id' = id)) as [->|Hne]; [by left|right].
    apply (ji_used s Hinv). destruct Hor as [Ho|Ho].
    + apply Hidx, Hold in Ho as [->|Ho]; [done|left; by apply (ji_keys s Hinv)].
    + rewrite elem_of_app, list_elem_of_singleton in Ho. tauto.
  - intros id'. rewrite elem_of_app, list_elem_of_singleton, <- (ji_running s Hinv).
    assert (runs (jm_jobs m1) id' <-> runs (jm_jobs (sj_manager s)) id' \/ id' = id) as <-.
    { unfold runs. simpl. destruct (decide (id' = id)) as [->|Hne].
      - rewrite lookup_insert_eq. split; [by right|eauto].
      - rewrite lookup_insert_ne by done. naive_solver. }
    unfold runs. split.
    + intros (j & Hj & Hs). exists j. split; [|done]. by eapply lookup_weaken.
    + intros (j & Hj & Hs). exists j. split; [|done]. rewrite Hkeep; [done|by exists j].
  - rewrite <- app_assoc. apply NoDup_app. pose proof (ji_once s Hinv) as Hnd.
    apply NoDup_app in Hnd as (H1 & H2 & H3). split_and!; [done| |].
    + intros x Hx. simpl. rewrite elem_of_cons. intros [->|?]; [|by eapply H2].
      apply Hfresh, (ji_used s Hinv). auto.
    + simpl. apply NoDup_cons. split; [|done]. intros Hx. apply Hfresh, (ji_used s Hinv).
      rewrite elem_of_app in Hx. tauto.
  - intros id' Hs. rewrite <- app_assoc. destruct (Hold id' Hs) as [->|Ho]; [set_solver|].
    pose proof (ji_told s Hinv id' Ho). set_solver.
Qed.

Lemma finish_inv s id resultID chars failure now :
  jobs_inv s -> sj_holder s = Some id ->
  jobs_inv {| sj_manager := finish (sj_manager s) id resultID chars failure now;
              sj_waiting := sj_waiting s; sj_holder := None; sj_used := sj_used s;
              sj_delivered := sj_delivered s |}.
Proof.
  intros Hinv Hh. assert (executing s = id :: sj_waiting s) as Hex by (unfold executing; by rewrite Hh).
  destruct (proj2 (ji_running s Hinv id) ltac:(rewrite Hex; by left)) as (job & Hj & _).
  pose proof (ji_once s Hinv) as Hnd. rewrite Hex in Hnd. simpl in Hnd.
  apply NoDup_cons in Hnd as [Hni Hnd].
  unfold finish. rewrite Hj. set (job' := Build_Job _ _ _ _ _ _ _ _).
  assert (jb_Status job' <> JobStatusRunning) as Hst by (by destruct failure).
  assert (jb_ID job' = id) as Hjid by (simpl; by apply (ji_ids s Hinv)).
  clearbody job'.
  split; simpl.
  - apply (ji_order s Hinv).
  - intros id'. rewrite (ji_keys s Hinv), lookup_insert_is_Some.
    destruct (decide (id = id')) as [<-|]; [split; eauto|naive_solver].
  - intros id' j Hj'. apply lookup_insert_Some in Hj' as [[<- <-]|[_ Hj']]; [done|by apply (ji_ids s Hinv)].
  - intros id' Hor. apply (ji_used s Hinv). rewrite Hex. set_solver.
  - intros id'. assert (runs (<[id:=job']> (jm_jobs (sj_manager s))) id'
      <-> runs (jm_jobs (sj_manager s)) id' /\ id' <> id) as ->.
    { unfold runs. destruct (decide (id = id')) as [<-|Hne].
      - rewrite lookup_insert_eq. naive_solver.
      - rewrite lookup_insert_ne by done. naive_solver. }
    rewrite (ji_running s Hinv), Hex. set_solver.
  - unfold executing. simpl. rewrite <- app_assoc. simpl.
    rewrite !app_assoc, <- Permutation_middle, <- app_assoc. by apply NoDup_cons.
  - intros id' Hs. apply lookup_insert_is_Some in Hs.
    assert (is_Some (jm_jobs (sj_manager s) !! id')) as Hs' by (destruct Hs as [<-|[_ ?]]; eauto).
    pose proof (ji_told s Hinv id' Hs') as Ht. rewrite Hex in Ht. unfold executing. simpl. set_solver.
Qed.

Lemma take_inv s now m' notices :
  jobs_inv s -> TakeCompletedNotices (Some (sj_manager s)) now = (Some m', notices) ->
  jobs_inv {| sj_manager := m'; sj_waiting := sj_waiting s; sj_holder := sj_holder s;
              sj_used := sj_used s; sj_delivered := sj_delivered s ++ announced_now (sj_manager s) |}.
Proof.
  intros Hinv Htake. set (ann := announced_now (sj_manager s)).
  assert (jm_jobs m' = jm_jobs (sj_manager s) /\ jm_order m' = jm_order (sj_manager s)
          /\ jm_unannounced m' = []) as (Hj & Ho & Hu).
  { unfold TakeCompletedNotices in Htake. destruct (_ =? 0)%nat eqn:Hz; injection Htake as <- _; [|done].
    apply Nat.eqb_eq, length_zero_iff_nil in Hz. done. }
  assert (forall id, id ∈ ann <-> is_Some (jm_jobs (sj_manager s) !! id) /\ id ∈ jm_unannounced (sj_manager s)) as Hann.
  { intros id. unfold ann, announced_now. rewrite !list_elem_of_In, filter_In, bool_decide_eq_true. tauto. }
  pose proof (ji_once s Hinv) as Hnd.
  split; unfold executing; simpl; fold (executing s); rewrite ?Hj, ?Ho, ?Hu; simpl;
    try (intros ?; rewrite ?Hj, ?Ho, ?Hu; simpl).
  - apply (ji_order s Hinv).
  - apply (ji_keys s Hinv).
  - apply (ji_ids s Hinv).
  - intros Hor. apply (ji_used s Hinv). rewrite elem_of_app, Hann in Hor. set_solver.
  - apply (ji_running s Hinv).
  - apply NoDup_app in Hnd as (H1 & H2 & H3). apply NoDup_app in H3 as (H3 & H4 & H5).
    apply NoDup_app. split_and!; [done| |].
    + intros id Hid Hin. apply (H2 id Hid). rewrite elem_of_app, Hann in Hin. set_solver.
    + apply NoDup_app. split_and!; [done| |].
      * intros id Hid Hin. apply Hann in Hin as [_ Hin]. by apply (H4 id).
      * unfold ann, announced_now. apply NoDup_ListNoDup, List.NoDup_filter. by apply NoDup_ListNoDup.
  - intros Hs. pose proof (ji_told s Hinv _ Hs) as Ht.
    rewrite !elem_of_app in Ht |- *. rewrite Hann. tauto.
Qed.

Lemma job_step_inv s s' : jobs_inv s -> job_step s s' -> jobs_inv s'.
Proof.
  intros Hinv Hs. inversion Hs; subst.
  - destruct Hinv. by split.
  - by eapply submit_inv.
  - assert (executing s ≡ₚ id :: w1 ++ w2) as Hp.
    { unfold executing. rewrite H0, H. symmetry. apply Permutation_middle. }
    destruct Hinv as [H1 H2 H3 H4 H5 H6 H7]. split; unfold executing; simpl; try done.
    + intros id' Hor. apply H4. by rewrite Hp.
    + intros id'. rewrite H5. by rewrite Hp.
    + change (NoDup ((id :: w1 ++ w2) ++ jm_unannounced (sj_manager s) ++ sj_delivered s)).
      by rewrite <- Hp.
    + intros id' Hi. change (id' ∈ (id :: w1 ++ w2) ++ jm_unannounced (sj_manager s) ++ sj_delivered s).
      rewrite <- Hp. by apply H7.
  - by apply finish_inv.
  - by eapply take_inv.
Qed.

#[export] Hint Resolve initial_jobs_inv job_step_inv : go.

(** * Properties *)

(** in every interleaving of submissions, goroutines and deliveries, the
    retained jobs are exactly the ones in the order list, a job is running exactly
    when its goroutine has not finished, and every retained job that has finished
    is either still to be announced or was announced; no completion is ever
    announced twice. *)
Theorem jobs_reachable_inv (s : JobSystem) : rtc job_step initial_jobs s -> jobs_inv s.
Proof.
  intros Hrtc. eapply (rtc_ind_r (fun s => jobs_inv s)); [| |exact Hrtc]; eauto with go.
Qed.

Lemma jobs_reachable_inv_witness :
  exists s, rtc job_step initial_jobs s /\ sj_waiting s = ["job_1"] /\ jobs_inv s.
Proof.
  pose (s1 := {| sj_manager := sample_manager; sj_waiting := []; sj_holder := None; sj_used := [];
                 sj_delivered := [] |}).
  pose (p := Submit (Some sample_manager) "data_query_sql" "{}" "job_1" 5).
  destruct p as [[m|] [job|]] eqn:Hp; try discriminate Hp.
  assert (rtc job_step initial_jobs
    {| sj_manager := m; sj_waiting := [] ++ ["job_1"]; sj_holder := None; sj_used := ["job_1"]; sj_delivered := [] |}) as Hr.
  { eapply rtc_l; [apply (js_registry initial_jobs)|]. apply rtc_once.
    apply (js_submit s1 "data_query_sql" "{}" "job_1" 5 m job); [apply not_elem_of_nil|exact Hp]. }
  eexists. split; [exact Hr|]. split; [reflexivity|]. apply jobs_reachable_inv. exact Hr.
Defined.

(** retention.  A submission that succeeds keeps its own job and every
    running one with its state unchanged, never brings back a job, removes
    nothing while the bound is not exceeded, and leaves at most
    [maxRetainedJobs] jobs unless all of them are running. *)
Theorem Submit_retention (s : JobSystem) (tool args id : string) (now : time) m' job :
  rtc job_step initial_jobs s -> id ∉ sj_used s ->
  Submit (Some (sj_manager s)) tool args id now = (Some m', Ok job) ->
  let before := jm_jobs (sj_manager s) in
  jm_jobs m' !! id = Some job
  /\ (forall i, runs before i -> jm_jobs m' !! i = before !! i)
  /\ jm_jobs m' ⊆ <[id := job]> before
  /\ (length (jm_order (sj_manager s)) < maxRetainedJobs -> jm_jobs m' = <[id := job]> before)
  /\ (length (jm_order m') <= maxRetainedJobs \/ Forall (runs (jm_jobs m')) (jm_order m')).
Proof.
  intros Hrtc Hfresh Hsub before.
  assert (jobs_inv s) as Hinv by (eapply (rtc_ind_r (fun s => jobs_inv s)); eauto with go).
  assert (id ∉ jm_order (sj_manager s)) as Hno by (intros ?; apply Hfresh, (ji_used s Hinv); auto).
  apply Submit_ok in Hsub as (Hrun & _ & ->). set (m1 := Build_JobManager _ _ _ _).
  destruct (evictJobsLocked_spec m1 (indexed_insert _ _ _ job (inv_indexed s Hinv) Hno)) as [[Hidx Hsubm Hkeep Hb Hfew] _].
  split_and!; [| |done| |done].
  - rewrite Hkeep; simpl; [by rewrite lookup_insert_eq|]. exists job. by rewrite lookup_insert_eq.
  - intros i Hi. assert (i <> id) as Hne.
    { intros ->. destruct Hi as (j & Hj & _). apply Hno, (ji_keys s Hinv). eauto. }
    assert (jm_jobs m1 !! i = before !! i) as Heq by (simpl; by rewrite lookup_insert_ne).
    rewrite Hkeep; [done|]. destruct Hi as (j & Hj & Hs). exists j. by rewrite Heq.
  - intros Hlt. apply Hfew. simpl. rewrite length_app. simpl. lia.
Qed.

Lemma Submit_retention_witness :
  exists s m' job,
    Submit (Some (sj_manager s)) "data_query_sql" "{}" "job_1" 5 = (Some m', Ok job)
    /\ jm_jobs m' !! "job_1" = Some job.
Proof.
  pose (s1 := {| sj_manager := sample_manager; sj_waiting := []; sj_holder := None; sj_used := [];
                 sj_delivered := [] |}).
  pose (p := Submit (Some sample_manager) "data_query_sql" "{}" "job_1" 5).
  destruct p as [[m|] [job|]] eqn:Hp; try discriminate Hp.
  exists s1, m, job. split; [exact Hp|].
  apply (Submit_retention s1 "data_query_sql" "{}" "job_1" 5 m job).
  - apply rtc_once. apply (js_registry initial_jobs).
  - apply not_elem_of_nil.
  - exact Hp.
Defined.
