(* ===== verification/Tools.v ===== *)
(** Model of the tool interfaces and registry (server/tools/registry.go) and of
    the single admission decision for a tool call (server/tools/admission.go).

    A Go tool implements [Tool] and any of several optional interfaces; here it
    is a record of operations whose optional ones may be absent, which is what a
    failing type assertion observes.  [W] is the state tools act on. *)
From S2P Require Import Prelude GoStrings Json.
From Stdlib Require Import Ascii.
Open Scope string_scope.
Open Scope list_scope.

(** * Interfaces *)

Record ToolCapability := {
  cap_Mode : string;
  cap_RuntimeEnabled : bool;
  cap_Delegable : bool;
  cap_RunControl : string;
  cap_DeliveryBoundary : bool;
  cap_EmitsReportPreview : bool;
  cap_Idempotent : bool;
}.
Definition no_capability : ToolCapability :=
  {| cap_Mode := ""; cap_RuntimeEnabled := false; cap_Delegable := false; cap_RunControl := "";
     cap_DeliveryBoundary := false; cap_EmitsReportPreview := false; cap_Idempotent := false |}.

Record ApprovalRequest := {
  ar_Action : string;
  ar_ResourceRef : string;
  ar_PayloadJSON : string;
}.

(** What the retry and normalization code observes of an execution error: its
    text, whether it exposes a transient transport contract, and whether it is
    the runtime's own timeout. *)
Record ExecError := { ee_Message : string; ee_Transient : bool; ee_Timeout : bool }.

Record ApprovalGate := {
  ag_ApprovalRequest : string -> res string ApprovalRequest;
  ag_ApprovalReceiptID : string -> string;
}.

(** [t_SuspensionEvent] yields the payload of the suspension event. *)
Record Tool (W : Type) := {
  t_Name : string;
  t_Description : string;
  t_Parameters : string;
  t_Execute : string -> W -> W * res ExecError string;
  t_Strict : option bool;
  t_Capability : option ToolCapability;
  t_ApprovalGate : option ApprovalGate;
  t_CheckAvailability : option (W -> option string);
  t_SuspensionEvent : option (string -> string -> res string jval);
  t_AcceptsUserResponse : option bool;
  t_IsConcurrencySafe : option (string -> bool);
}.
Arguments t_Name {W}. Arguments t_Description {W}. Arguments t_Parameters {W}. Arguments t_Execute {W}.
Arguments t_Strict {W}. Arguments t_Capability {W}. Arguments t_ApprovalGate {W}.
Arguments t_CheckAvailability {W}. Arguments t_SuspensionEvent {W}. Arguments t_AcceptsUserResponse {W}.
Arguments t_IsConcurrencySafe {W}.

Definition toolCapability {W} (t : Tool W) : ToolCapability := default no_capability (t_Capability t).

(** * The registry *)

Abbreviation Registry W := (gmap string (Tool W)).
Definition NewRegistry {W} : Registry W := ∅.

(** [None] stands for a panic: the name is not exact or already registered. *)
Definition Register {W} (r : Registry W) (tool : Tool W) : option (Registry W) :=
  let name := t_Name tool in
  if (name =? "") || not_exact name then None
  else if bool_decide (is_Some (r !! name)) then None
  else Some (<[name := tool]> r).

Definition Registry_Get {W} (r : Registry W) (name : string) : res string (Tool W) :=
  match r !! name with
  | Some t => Ok t
  | None => Err ("tool '" ++ name ++ "' not registered")%string
  end.
Definition HasTool {W} (r : Registry W) (name : string) : bool := bool_decide (is_Some (r !! name)).

(** A tool listed twice in [allowed] registers twice, which panics. *)
Fixpoint clone_loop {W} (r filtered : Registry W) (allowed : list string) : option (Registry W) :=
  match allowed with
  | [] => Some filtered
  | name :: rest =>
      match r !! name with
      | Some tool => let! f := Register filtered tool in clone_loop r f rest
      | None => clone_loop r filtered rest
      end
  end.
Definition CloneFiltered {W} (r : Registry W) (allowed : list string) : option (Registry W) :=
  clone_loop r NewRegistry allowed.

(** The names are sorted, so the iteration order of the map does not show. *)
Definition runtime_tool {W} (delegableOnly : bool) (nt : string * Tool W) : bool :=
  match t_Capability nt.2 with
  | None => false
  | Some c => negb (negb (cap_RuntimeEnabled c) || (delegableOnly && negb (cap_Delegable c)))
  end.
Definition RuntimeToolNames {W} (r : Registry W) (delegableOnly : bool) : list string :=
  map fst (sort_keys (map (fun nt => (nt.1, tt)) (List.filter (runtime_tool delegableOnly) (map_to_list r)))).

Definition Registry_Execute {W} (r : Registry W) (name args : string) (w : W) : W * res ExecError string :=
  match Registry_Get r name with
  | Err e => (w, Err {| ee_Message := e; ee_Transient := false; ee_Timeout := false |})
  | Ok tool => t_Execute tool args w
  end.

Definition register_all {W} (ts : list (Tool W)) (r : option (Registry W)) : option (Registry W) :=
  fold_left (fun r t => let! r := r in Register r t) ts r.

(** * Admission *)

Inductive AdmissionKind := AdmissionAllow | AdmissionAsk | AdmissionDeny.
Definition admission_text (k : AdmissionKind) : string :=
  match k with AdmissionAllow => "allow" | AdmissionAsk => "ask" | AdmissionDeny => "deny" end.
Global Instance AdmissionKind_eq_dec : EqDecision AdmissionKind.
Proof. solve_decision. Defined.

(** The reason is the fixed text of the branch, as an error value, so that it
    can be compared; the engine shows it to the model. *)
Record Admission := { ad_Kind : AdmissionKind; ad_Reason : string; ad_Code : string }.
Definition allow : Admission := {| ad_Kind := AdmissionAllow; ad_Reason := ""; ad_Code := "" |}.
Definition deny (reason : string) : Admission :=
  {| ad_Kind := AdmissionDeny; ad_Reason := reason; ad_Code := "" |}.

(** The [%q] verb on printable text: quotes and backslashes are escaped. *)
Definition quoted (s : string) : string :=
  str_text (quote :: flat_map (fun a => if (byteZ a =? 34)%Z || (byteZ a =? 92)%Z then ["\"%char; a] else [a])
                       (String.list_ascii_of_string s) ++ [quote]).

(** An [ApprovalStore]: verifying a receipt may drop it when it has expired, so
    the state [S] of the store is threaded. *)
Class ApprovalStore (S : Type) := {
  VerifyApproval : S -> string -> ApprovalRequest -> S * res string unit;
}.

(** [approvals] is nil when absent. *)
Definition DecideToolCall {W S} `{ApprovalStore S} (tool : Tool W) (args : string) (has_store : bool) (s : S) :
    S * Admission :=
  match t_ApprovalGate tool with
  | None => (s, allow)
  | Some gate =>
      match ag_ApprovalRequest gate args with
      | Err e => (s, deny ("this action cannot be authorized as requested: " ++ e)%string)
      | Ok request =>
          if blank (ar_Action request) || blank (ar_ResourceRef request)
          then (s, deny "this action does not declare the authorization it requires, so it cannot be approved")
          else
            let receiptID := TrimSpace (ag_ApprovalReceiptID gate args) in
            if receiptID =? "" then
              (s, {| ad_Kind := AdmissionAsk;
                     ad_Reason := ("action " ++ quoted (ar_Action request) ++ " on " ++ quoted (ar_ResourceRef request)
                       ++ " requires explicit user authorization and was not executed; no authorization receipt was supplied.")%string;
                     ad_Code := "" |})
            else if negb has_store then
              (s, deny "no authorization store is available, so this action cannot be verified and must not run")
            else match VerifyApproval s receiptID request with
            | (s, Err e) => (s, deny e)
            | (s, Ok _) => (s, allow)
            end
      end
  end.

(** [SemanticConfirmationAuthorizationPayload] *)
Definition SemanticConfirmationAuthorizationPayload (scope overridesJSON : string) : res string string :=
  if (scope =? "") || not_exact scope then Err "scope must be a non-empty exact value"
  else if (overridesJSON =? "") || not_exact overridesJSON
  then Err "overrides_json must be a non-empty exact JSON object"
  else match Decode overridesJSON with
  | Some (JObj kvs) =>
      Ok (MarshalMap [("scope", JStr scope); ("overrides", as_maps (JObj kvs))])
  | Some JNull => Ok (MarshalMap [("scope", JStr scope); ("overrides", JNull)])
  | _ => Err "overrides_json must be a strict JSON object"
  end.

(** * Lemmas *)

(** A registry built by [Register] maps each name to a tool of that name, and
    every name is exact and non-empty. *)
Definition registry_wf {W} (r : Registry W) : Prop :=
  forall name t, r !! name = Some t -> t_Name t = name /\ name <> "" /\ name = TrimSpace name.

Lemma Register_wf {W} (r r' : Registry W) t :
  registry_wf r -> Register r t = Some r' ->
  registry_wf r' /\ r !! t_Name t = None /\ r' = <[t_Name t := t]> r.
Proof.
  unfold Register. intros Hwf. destruct (t_Name t =? "") eqn:He; [done|]. apply String.eqb_neq in He. simpl.
  destruct (not_exact (t_Name t)) eqn:Hx; [done|]. apply not_exact_false in Hx.
  case_bool_decide as Hs; [done|]. intros [= <-]. split_and!; [|by apply eq_None_not_Some|done].
  intros name t' [[<- <-]|[_ Hl]]%lookup_insert_Some; [done|by apply Hwf].
Qed.

Lemma clone_loop_spec {W} (r f f' : Registry W) allowed :
  registry_wf r -> registry_wf f -> f ⊆ r -> clone_loop r f allowed = Some f' ->
  registry_wf f' /\ f' ⊆ r /\ (forall name, is_Some (f' !! name) <-> is_Some (f !! name)
                                \/ (name ∈ allowed /\ is_Some (r !! name))).
Proof.
  intros Hr. revert f. induction allowed as [|name rest IH]; intros f Hf Hsub; simpl.
  { intros [= <-]. split_and!; [done|done|]. set_solver. }
  destruct (r !! name) as [tool|] eqn:Hl.
  - destruct (Register f tool) as [f1|] eqn:Hreg; [|done]. intros Hc.
    destruct (Register_wf _ _ _ Hf Hreg) as (Hwf1 & Hnone & ->).
    destruct (Hr _ _ Hl) as (Hname & _ & _). rewrite Hname in *.
    apply IH in Hc as (? & ? & Hin); [|done|by apply insert_subseteq_l].
    split_and!; [done|done|]. intros n. rewrite Hin, lookup_insert_is_Some, elem_of_cons.
    destruct (decide (n = name)) as [->|Hne]; naive_solver.
  - intros Hc. apply IH in Hc as (? & ? & Hin); [|done|done].
    split_and!; [done|done|]. intros n. rewrite Hin, elem_of_cons.
    destruct (decide (n = name)) as [->|Hne]; [|naive_solver]. rewrite Hl.
    split; [naive_solver|]. intros [?|[_ [? ?]]]; [by left|done].
Qed.

#[export] Hint Resolve Register_wf : go.
