(* ===== verification/Receipts.v ===== *)
(** Model of the engine's state (server/agent/engine.go, [Engine]) and of the
    authorization receipts it keeps: how an authenticated answer to a suspended
    [user_request_input] call becomes a receipt ([ProvideAskUserResult]), how a
    receipt is verified ([VerifyApproval]) and consumed
    ([CommitWithConfirmationReceipt]).  The arguments of the call are those of
    server/agent/agentic_tools.go. *)
From S2P Require Import Prelude GoStrings Json Conversation Tools.
Open Scope string_scope.
Open Scope list_scope.

(** * Data *)

Record ConfirmationReceipt := {
  cf_ID : string;
  cf_ToolCallID : string;
  cf_ActorUserID : string;
  cf_Scope : string;
  cf_ContextRef : string;
  cf_Question : string;
  cf_ResponseText : string;
  cf_Action : string;
  cf_ResourceRef : string;
  cf_PayloadHash : string;
  cf_CreatedAt : time;
  cf_ExpiresAt : time;
  cf_ConsumedAt : option time;
}.

Definition confirmationReceiptTTL : Z := 30 * Minute.

(** The mutable fields of [Engine]; the LLM client, the registry, the report
    state, the report view and the job manager are arguments of the operations
    that use them. *)
Record Engine := {
  en_policy : string;
  en_history : list ConversationItem;
  en_omitted : Z;
  en_lastPromptTokens : Z;
  en_repeatCalls : gmap string Z;
  en_pendingNotices : list RuntimeContextBlock;
  en_failureStreaks : gmap string Z;
  en_pendingSuspensionID : string;
  en_historySummary : string;
  en_promptTokens : Z;
  en_completionTokens : Z;
  en_receipts : gmap string ConfirmationReceipt;
}.

Definition NewEngine (policy : string) : Engine :=
  {| en_policy := policy; en_history := []; en_omitted := 0; en_lastPromptTokens := 0;
     en_repeatCalls := ∅; en_pendingNotices := []; en_failureStreaks := ∅;
     en_pendingSuspensionID := ""; en_historySummary := ""; en_promptTokens := 0;
     en_completionTokens := 0; en_receipts := ∅ |}.

Definition with_history (e : Engine) (h : list ConversationItem) : Engine :=
  {| en_policy := en_policy e; en_history := h; en_omitted := en_omitted e;
     en_lastPromptTokens := en_lastPromptTokens e; en_repeatCalls := en_repeatCalls e;
     en_pendingNotices := en_pendingNotices e; en_failureStreaks := en_failureStreaks e;
     en_pendingSuspensionID := en_pendingSuspensionID e; en_historySummary := en_historySummary e;
     en_promptTokens := en_promptTokens e; en_completionTokens := en_completionTokens e;
     en_receipts := en_receipts e |}.
Definition with_suspension (e : Engine) (id : string) : Engine :=
  {| en_policy := en_policy e; en_history := en_history e; en_omitted := en_omitted e;
     en_lastPromptTokens := en_lastPromptTokens e; en_repeatCalls := en_repeatCalls e;
     en_pendingNotices := en_pendingNotices e; en_failureStreaks := en_failureStreaks e;
     en_pendingSuspensionID := id; en_historySummary := en_historySummary e;
     en_promptTokens := en_promptTokens e; en_completionTokens := en_completionTokens e;
     en_receipts := en_receipts e |}.
Definition with_receipts (e : Engine) (rs : gmap string ConfirmationReceipt) : Engine :=
  {| en_policy := en_policy e; en_history := en_history e; en_omitted := en_omitted e;
     en_lastPromptTokens := en_lastPromptTokens e; en_repeatCalls := en_repeatCalls e;
     en_pendingNotices := en_pendingNotices e; en_failureStreaks := en_failureStreaks e;
     en_pendingSuspensionID := en_pendingSuspensionID e; en_historySummary := en_historySummary e;
     en_promptTokens := en_promptTokens e; en_completionTokens := en_completionTokens e;
     en_receipts := rs |}.
Definition with_omitted (e : Engine) (n : Z) : Engine :=
  {| en_policy := en_policy e; en_history := en_history e; en_omitted := n;
     en_lastPromptTokens := en_lastPromptTokens e; en_repeatCalls := en_repeatCalls e;
     en_pendingNotices := en_pendingNotices e; en_failureStreaks := en_failureStreaks e;
     en_pendingSuspensionID := en_pendingSuspensionID e; en_historySummary := en_historySummary e;
     en_promptTokens := en_promptTokens e; en_completionTokens := en_completionTokens e;
     en_receipts := en_receipts e |}.
Definition with_summary (e : Engine) (s : string) : Engine :=
  {| en_policy := en_policy e; en_history := en_history e; en_omitted := en_omitted e;
     en_lastPromptTokens := en_lastPromptTokens e; en_repeatCalls := en_repeatCalls e;
     en_pendingNotices := en_pendingNotices e; en_failureStreaks := en_failureStreaks e;
     en_pendingSuspensionID := en_pendingSuspensionID e; en_historySummary := s;
     en_promptTokens := en_promptTokens e; en_completionTokens := en_completionTokens e;
     en_receipts := en_receipts e |}.
Definition with_repeats (e : Engine) (r : gmap string Z) (n : list RuntimeContextBlock) : Engine :=
  {| en_policy := en_policy e; en_history := en_history e; en_omitted := en_omitted e;
     en_lastPromptTokens := en_lastPromptTokens e; en_repeatCalls := r;
     en_pendingNotices := n; en_failureStreaks := en_failureStreaks e;
     en_pendingSuspensionID := en_pendingSuspensionID e; en_historySummary := en_historySummary e;
     en_promptTokens := en_promptTokens e; en_completionTokens := en_completionTokens e;
     en_receipts := en_receipts e |}.
Definition with_streaks (e : Engine) (s : gmap string Z) : Engine :=
  {| en_policy := en_policy e; en_history := en_history e; en_omitted := en_omitted e;
     en_lastPromptTokens := en_lastPromptTokens e; en_repeatCalls := en_repeatCalls e;
     en_pendingNotices := en_pendingNotices e; en_failureStreaks := s;
     en_pendingSuspensionID := en_pendingSuspensionID e; en_historySummary := en_historySummary e;
     en_promptTokens := en_promptTokens e; en_completionTokens := en_completionTokens e;
     en_receipts := en_receipts e |}.
Definition with_usage (e : Engine) (last prompt completion : Z) : Engine :=
  {| en_policy := en_policy e; en_history := en_history e; en_omitted := en_omitted e;
     en_lastPromptTokens := last; en_repeatCalls := en_repeatCalls e;
     en_pendingNotices := en_pendingNotices e; en_failureStreaks := en_failureStreaks e;
     en_pendingSuspensionID := en_pendingSuspensionID e; en_historySummary := en_historySummary e;
     en_promptTokens := prompt; en_completionTokens := completion;
     en_receipts := en_receipts e |}.

(** [e.history = append(e.history, item)] *)
Definition append_history (e : Engine) (item : ConversationItem) : Engine :=
  with_history e (en_history e ++ [item]).

(** * Simple accessors *)

Definition ResetMessages (e : Engine) : Engine :=
  with_receipts (with_omitted (with_history e []) 0) ∅.
Definition SetHistory (e : Engine) (items : list ConversationItem) (omitted : Z) : Engine :=
  with_omitted (with_history e items) (if (omitted <? 0)%Z then 0 else omitted)%Z.
Definition History (e : Engine) : list ConversationItem := en_history e.
Definition SetHistorySummary (e : Engine) (summary : string) : Engine := with_summary e (TrimSpace summary).
Definition runTokens (e : Engine) : Z * Z := (en_promptTokens e, en_completionTokens e).
Definition repairDanglingToolCalls (e : Engine) : Engine :=
  with_history e (repairToolPairing (en_history e) (en_pendingSuspensionID e)).
Definition clearAbandonedSuspension (e : Engine) : Engine :=
  let e := with_suspension e "" in with_history e (repairToolPairing (en_history e) "").

(** * The arguments of [user_request_input] (agentic_tools.go) *)

Record ActionAuthorizationRequest := {
  au_Action : string;
  au_ResourceRef : string;
  au_PayloadJSON : string;
}.
Record AskUserOption := { op_ID : string; op_Label : string; op_Hint : string }.
Record askUserToolCallArguments := {
  ak_Question : string;
  ak_Reason : string;
  ak_Scope : string;
  ak_ContextRef : string;
  ak_InputHint : string;
  ak_Required : option bool;
  ak_SelectionMode : string;
  ak_AllowCustom : option bool;
  ak_Options : list AskUserOption;
  ak_Authorization : option ActionAuthorizationRequest;
}.

Definition decode_authorization (v : jval) : option ActionAuthorizationRequest :=
  match v with
  | JObj kvs =>
      let! m := bind_fields [("action", is_jstr); ("resource_ref", is_jstr); ("payload_json", is_jstr)] kvs ∅ in
      Some {| au_Action := string_field m "action"; au_ResourceRef := string_field m "resource_ref";
              au_PayloadJSON := string_field m "payload_json" |}
  | _ => None
  end.
Definition decode_option (v : jval) : option AskUserOption :=
  match v with
  | JObj kvs =>
      let! m := bind_fields [("id", is_jstr); ("label", is_jstr); ("hint", is_jstr)] kvs ∅ in
      Some {| op_ID := string_field m "id"; op_Label := string_field m "label"; op_Hint := string_field m "hint" |}
  | JNull => Some {| op_ID := ""; op_Label := ""; op_Hint := "" |}
  | _ => None
  end.
Definition decode_options (v : jval) : option (list AskUserOption) :=
  match v with JArr vs => mapM decode_option vs | _ => None end.

Definition opt_bool_field (m : gmap string jval) (f : string) : option bool :=
  match m !! f with Some (JBool b) => Some b | _ => None end.

Definition ask_user_fields : list (string * (jval -> bool)) :=
  [("question", is_jstr); ("reason", is_jstr); ("scope", is_jstr); ("context_ref", is_jstr);
   ("input_hint", is_jstr); ("required", is_jbool); ("selection_mode", is_jstr);
   ("allow_custom", is_jbool);
   ("options", fun v => bool_decide (is_Some (decode_options v)));
   ("authorization", fun v => bool_decide (is_Some (decode_authorization v)))].

(** [jsoncontract.Decode] into [askUserToolCallArguments] *)
Definition decode_ask_user (raw : string) : option askUserToolCallArguments :=
  let! v := Validate raw in
  let! kvs := as_object v in
  let! m := bind_fields ask_user_fields kvs ∅ in
  Some {| ak_Question := string_field m "question"; ak_Reason := string_field m "reason";
          ak_Scope := string_field m "scope"; ak_ContextRef := string_field m "context_ref";
          ak_InputHint := string_field m "input_hint"; ak_Required := opt_bool_field m "required";
          ak_SelectionMode := string_field m "selection_mode";
          ak_AllowCustom := opt_bool_field m "allow_custom";
          ak_Options := default [] (let! v := m !! "options" in decode_options v);
          ak_Authorization := let! v := m !! "authorization" in decode_authorization v |}.

(** * Authorization *)

Inductive ReceiptError :=
| ERegistryNil | EActor | EPendingArguments | ENoPending | EManyPending (n : nat) | EAllAnswered
| EAuthResponseJSON | EAuthResponseType | EAuthResponseMismatch
| EPayloadJSON
| EReceiptIDExact | EReceiptUnknown | EReceiptUsed | EReceiptExpired | EReceiptAction
| EReceiptResource | EReceiptPayload
| ECommitNil | ECommitFields | ECommitFailed (msg : string).

(** The text of an error; the identifiers and values that the messages also
    quote are left out. *)
Definition receipt_error_text (e : ReceiptError) : string :=
  match e with
  | EReceiptIDExact => "authorization receipt id must be a non-empty exact value"
  | EReceiptUnknown => "authorization receipt is unknown or has expired; ask the user for authorization again"
  | EReceiptUsed => "authorization receipt has already been used"
  | EReceiptExpired => "authorization receipt has expired; ask the user for authorization again"
  | EReceiptAction => "authorization receipt approves another action"
  | EReceiptResource => "authorization receipt approves another resource"
  | EReceiptPayload => "authorization receipt approves a different payload than the one being committed"
  | EPayloadJSON => "authorization payload is invalid"
  | ECommitFailed msg => msg
  | _ => "authorization failed"
  end.

Definition response_fields : list (string * (jval -> bool)) :=
  [("response_type", is_jstr); ("authorization_decision", is_jstr); ("action", is_jstr); ("resource_ref", is_jstr)].

Definition authorizationResponseApproved (raw : string) (request : option ActionAuthorizationRequest) :
    res ReceiptError bool :=
  match request with
  | None => Ok false
  | Some request =>
      match (let! v := Validate raw in let! kvs := as_object v in bind_fields response_fields kvs ∅) with
      | None => Err EAuthResponseJSON
      | Some m =>
          let decision := string_field m "authorization_decision" in
          if negb (string_field m "response_type" =? "authorization")
             || (negb (decision =? "approve") && negb (decision =? "reject"))
          then Err EAuthResponseType
          else if negb (string_field m "action" =? au_Action request)
                  || negb (string_field m "resource_ref" =? au_ResourceRef request)
          then Err EAuthResponseMismatch
          else Ok (decision =? "approve")
      end
  end.

Definition buildAskUserToolResult (userResponse receiptID : string) : string :=
  let '(response, is_json) :=
    if blank userResponse then (JStr userResponse, false)
    else match Decode userResponse with
         | Some v => (as_maps v, true)
         | None => (JStr userResponse, false)
         end in
  MarshalMap
    ([("ok", JBool true); ("tool", JStr "user_request_input"); ("response_text", JStr userResponse);
      ("response_json", JBool is_json); ("ui_summary", JStr "已收到用户输入。"); ("response", response)]
     ++ (if receiptID =? "" then [] else [("confirmation_receipt_id", JStr receiptID)])).

Record ApprovalOutcome := {
  ao_Requested : bool;
  ao_Approved : bool;
  ao_Action : string;
  ao_ResourceRef : string;
}.
Definition no_outcome : ApprovalOutcome :=
  {| ao_Requested := false; ao_Approved := false; ao_Action := ""; ao_ResourceRef := "" |}.

Section receipts.
(** Hex-encoded SHA-256. *)
Context (sha256hex : string -> string).
(** Whether the registry has a tool of this name that accepts a user response;
    [None] when the registry is nil. *)
Context (accepts_response : option (string -> bool)).

Definition authorizationPayloadHash (raw : string) : res ReceiptError string :=
  match Decode raw with
  | None => Err EPayloadJSON
  | Some payload => Ok (sha256hex (Marshal (as_maps payload)))
  end.

Definition expired (receipt : ConfirmationReceipt) (now : time) : bool :=
  negb (IsZero (cf_ExpiresAt receipt)) && After now (cf_ExpiresAt receipt).

Definition purgeExpiredReceiptsLocked (e : Engine) (now : time) : Engine :=
  with_receipts e (filter (fun kr => expired kr.2 now = false) (en_receipts e)).

(** The asks of one assistant message, in order; the first that does not decode
    is an error. *)
Fixpoint asks_of (accepts : string -> bool) (calls : list LLMToolCall) :
    res ReceiptError (list (string * askUserToolCallArguments)) :=
  match calls with
  | [] => Ok []
  | tc :: rest =>
      if accepts (fc_Name (tc_Function tc)) then
        match decode_ask_user (fc_Arguments (tc_Function tc)) with
        | None => Err EPendingArguments
        | Some args => let? more := asks_of accepts rest in Ok ((tc_ID tc, args) :: more)
        end
      else asks_of accepts rest
  end.

(** The loop from the end of the history; [rev_history] is the history reversed. *)
Fixpoint pending_asks (accepts : string -> bool) (rev_history : list ConversationItem) :
    res ReceiptError (list (string * askUserToolCallArguments)) :=
  match rev_history with
  | [] => Ok []
  | msg :: rest =>
      if calls_tools msg then
        let? pending := asks_of accepts (ci_ToolCalls msg) in
        match pending with [] => pending_asks accepts rest | _ => Ok pending end
      else pending_asks accepts rest
  end.

Definition has_result (history : list ConversationItem) (id : string) : bool :=
  existsb (fun item => is_tool item && (ci_ToolCallID item =? id)) history.

(** [uuid] is the receipt identifier drawn from uuid; [now1] is the clock of the
    purge and [now2] that of the receipt. *)
Definition ProvideAskUserResult (e : Engine) (userResponse actorUserID uuid : string) (now1 now2 : time) :
    Engine * res ReceiptError ApprovalOutcome :=
  match accepts_response with
  | None => (e, Err ERegistryNil)
  | Some accepts =>
      if (actorUserID =? "") || not_exact actorUserID then (e, Err EActor)
      else
        let e := purgeExpiredReceiptsLocked e now1 in
        match pending_asks accepts (rev (en_history e)) with
        | Err err => (e, Err err)
        | Ok [] => (e, Err ENoPending)
        | Ok [(id, args)] =>
            if has_result (en_history e) id then (e, Err EAllAnswered)
            else
              match authorizationResponseApproved userResponse (ak_Authorization args) with
              | Err err => (e, Err err)
              | Ok approved =>
                  let outcome :=
                    match ak_Authorization args with
                    | Some a => {| ao_Requested := true; ao_Approved := approved;
                                   ao_Action := au_Action a; ao_ResourceRef := au_ResourceRef a |}
                    | None => no_outcome
                    end in
                  let answer e receiptID :=
                    let e := append_history e (tool_item (buildAskUserToolResult userResponse receiptID) id "") in
                    if en_pendingSuspensionID e =? id then with_suspension e "" else e in
                  match ak_Authorization args with
                  | Some a =>
                      if approved then
                        match authorizationPayloadHash (au_PayloadJSON a) with
                        | Err err => (e, Err err)
                        | Ok payloadHash =>
                            let receiptID := ("ucr_" ++ uuid)%string in
                            let receipt :=
                              {| cf_ID := receiptID; cf_ToolCallID := id; cf_ActorUserID := actorUserID;
                                 cf_Scope := ak_Scope args; cf_ContextRef := ak_ContextRef args;
                                 cf_Question := ak_Question args; cf_ResponseText := userResponse;
                                 cf_Action := au_Action a; cf_ResourceRef := au_ResourceRef a;
                                 cf_PayloadHash := payloadHash; cf_CreatedAt := now2;
                                 cf_ExpiresAt := (now2 + confirmationReceiptTTL)%Z; cf_ConsumedAt := None |} in
                            (answer (with_receipts e (<[receiptID := receipt]> (en_receipts e))) receiptID, Ok outcome)
                        end
                      else (answer e "", Ok outcome)
                  | None => (answer e "", Ok outcome)
                  end
              end
        | Ok pending => (e, Err (EManyPending (length pending)))
        end
  end.

Definition verify_receipt (e : Engine) (now : time) (receiptID : string) (request : ApprovalRequest) :
    Engine * res ReceiptError unit :=
  if (receiptID =? "") || not_exact receiptID then (e, Err EReceiptIDExact)
  else match en_receipts e !! receiptID with
  | None => (e, Err EReceiptUnknown)
  | Some receipt =>
      if bool_decide (is_Some (cf_ConsumedAt receipt)) then (e, Err EReceiptUsed)
      else if expired receipt now then (with_receipts e (delete receiptID (en_receipts e)), Err EReceiptExpired)
      else if negb (cf_Action receipt =? ar_Action request) then (e, Err EReceiptAction)
      else if negb (cf_ResourceRef receipt =? ar_ResourceRef request) then (e, Err EReceiptResource)
      else match authorizationPayloadHash (ar_PayloadJSON request) with
      | Err _ => (e, Err EPayloadJSON)
      | Ok payloadHash =>
          if negb (cf_PayloadHash receipt =? payloadHash) then (e, Err EReceiptPayload) else (e, Ok tt)
      end
  end.

(** The engine as the store the admission decision consults; [now] is the clock
    read of the call. *)
Definition engine_approvals (now : time) : ApprovalStore Engine :=
  {| VerifyApproval e id req :=
       let '(e', r) := verify_receipt e now id req in
       (e', match r with Ok _ => Ok tt | Err err => Err (receipt_error_text err) end) |}.

Definition consume (receipt : ConfirmationReceipt) (now : time) : ConfirmationReceipt :=
  {| cf_ID := cf_ID receipt; cf_ToolCallID := cf_ToolCallID receipt; cf_ActorUserID := cf_ActorUserID receipt;
     cf_Scope := cf_Scope receipt; cf_ContextRef := cf_ContextRef receipt; cf_Question := cf_Question receipt;
     cf_ResponseText := cf_ResponseText receipt; cf_Action := cf_Action receipt;
     cf_ResourceRef := cf_ResourceRef receipt; cf_PayloadHash := cf_PayloadHash receipt;
     cf_CreatedAt := cf_CreatedAt receipt; cf_ExpiresAt := cf_ExpiresAt receipt; cf_ConsumedAt := Some now |}.

(** [commit] runs under the engine lock on the state [W] it writes to. *)
Definition CommitWithConfirmationReceipt {W} (e : Engine) (w : W) (receiptID action resourceRef payloadJSON : string)
    (commit : option (string -> W -> W * res string unit)) (now1 now2 : time) :
    Engine * W * res ReceiptError unit :=
  match commit with
  | None => (e, w, Err ECommitNil)
  | Some commit =>
      if (receiptID =? "") || not_exact receiptID || (action =? "") || not_exact action
         || (resourceRef =? "") || not_exact resourceRef
      then (e, w, Err ECommitFields)
      else match en_receipts e !! receiptID with
      | None => (e, w, Err EReceiptUnknown)
      | Some receipt =>
          if bool_decide (is_Some (cf_ConsumedAt receipt)) then (e, w, Err EReceiptUsed)
          else if expired receipt now1
          then (with_receipts e (delete receiptID (en_receipts e)), w, Err EReceiptExpired)
          else if (action =? "") || negb (cf_Action receipt =? action) then (e, w, Err EReceiptAction)
          else if (resourceRef =? "") || negb (cf_ResourceRef receipt =? resourceRef)
          then (e, w, Err EReceiptResource)
          else match authorizationPayloadHash payloadJSON with
          | Err err => (e, w, Err err)
          | Ok payloadHash =>
              if negb (cf_PayloadHash receipt =? payloadHash) then (e, w, Err EReceiptPayload)
              else match commit (cf_ActorUserID receipt) w with
              | (w', Err msg) => (e, w', Err (ECommitFailed msg))
              | (w', Ok _) =>
                  (with_receipts e (<[receiptID := consume receipt now2]> (en_receipts e)), w', Ok tt)
              end
          end
      end
  end.
End receipts.

(** * Specification *)

(** A successful commit: which receipt, for which action, resource and payload,
    on behalf of whom and when it was checked. *)
Record Commit := {
  cm_Receipt : string;
  cm_Action : string;
  cm_ResourceRef : string;
  cm_PayloadJSON : string;
  cm_Actor : string;
  cm_At : time;
}.

(** The engine with the history of the receipts it issued and of the commits
    they allowed. *)
Record ReceiptSystem := {
  rs_engine : Engine;
  rs_issued : list ConfirmationReceipt;
  rs_commits : list Commit;
}.

Section receipt_spec.
Context (sha256hex : string -> string) (accepts_response : option (string -> bool)).

(** The user answered exactly this action, resource and payload with an explicit
    approval, as an authenticated actor, and the receipt lives [TTL] from then. *)
Definition approved_by_user (r : ConfirmationReceipt) : Prop :=
  (exists payload,
     authorizationResponseApproved (cf_ResponseText r)
       (Some {| au_Action := cf_Action r; au_ResourceRef := cf_ResourceRef r; au_PayloadJSON := payload |}) = Ok true
     /\ authorizationPayloadHash sha256hex payload = Ok (cf_PayloadHash r))
  /\ cf_ActorUserID r <> "" /\ cf_ActorUserID r = TrimSpace (cf_ActorUserID r)
  /\ (0 < cf_CreatedAt r)%Z /\ cf_ExpiresAt r = (cf_CreatedAt r + confirmationReceiptTTL)%Z.

Inductive receipt_step : ReceiptSystem -> ReceiptSystem -> Prop :=
| rcs_answer s response actor uuid now1 now2 e' r :
    ("ucr_" ++ uuid)%string ∉ map cf_ID (rs_issued s) -> (0 < now2)%Z ->
    ProvideAskUserResult sha256hex accepts_response (rs_engine s) response actor uuid now1 now2 = (e', r) ->
    receipt_step s
      {| rs_engine := e';
         rs_issued := rs_issued s ++ match en_receipts e' !! ("ucr_" ++ uuid)%string with
                                     | Some r => [r] | None => [] end;
         rs_commits := rs_commits s |}
| rcs_verify s now id req e' r :
    verify_receipt sha256hex (rs_engine s) now id req = (e', r) ->
    receipt_step s {| rs_engine := e'; rs_issued := rs_issued s; rs_commits := rs_commits s |}
| rcs_commit s W (w w' : W) id action ref payload commit now1 now2 e' r :
    CommitWithConfirmationReceipt sha256hex (rs_engine s) w id action ref payload commit now1 now2 = (e', w', r) ->
    receipt_step s
      {| rs_engine := e'; rs_issued := rs_issued s;
         rs_commits := rs_commits s ++
           match r, en_receipts (rs_engine s) !! id with
           | Ok _, Some receipt =>
               [{| cm_Receipt := id; cm_Action := action; cm_ResourceRef := ref; cm_PayloadJSON := payload;
                   cm_Actor := cf_ActorUserID receipt; cm_At := now1 |}]
           | _, _ => []
           end |}
| rcs_other s e' :
    en_receipts e' ⊆ en_receipts (rs_engine s) ->
    receipt_step s {| rs_engine := e'; rs_issued := rs_issued s; rs_commits := rs_commits s |}.

(** The issued receipt a commit was allowed by. *)
Definition allowed_by (r : ConfirmationReceipt) (c : Commit) : Prop :=
  cf_ID r = cm_Receipt c /\ cf_Action r = cm_Action c /\ cf_ResourceRef r = cm_ResourceRef c
  /\ authorizationPayloadHash sha256hex (cm_PayloadJSON c) = Ok (cf_PayloadHash r)
  /\ cf_ActorUserID r = cm_Actor c /\ (cm_At c <= cf_ExpiresAt r)%Z.

Definition unconsumed (r : ConfirmationReceipt) : ConfirmationReceipt :=
  {| cf_ID := cf_ID r; cf_ToolCallID := cf_ToolCallID r; cf_ActorUserID := cf_ActorUserID r;
     cf_Scope := cf_Scope r; cf_ContextRef := cf_ContextRef r; cf_Question := cf_Question r;
     cf_ResponseText := cf_ResponseText r; cf_Action := cf_Action r; cf_ResourceRef := cf_ResourceRef r;
     cf_PayloadHash := cf_PayloadHash r; cf_CreatedAt := cf_CreatedAt r; cf_ExpiresAt := cf_ExpiresAt r;
     cf_ConsumedAt := None |}.

Record receipts_inv (s : ReceiptSystem) : Prop := {
  ri_issued : forall r, r ∈ rs_issued s -> approved_by_user r;
  ri_stored : forall id r, en_receipts (rs_engine s) !! id = Some r ->
                cf_ID r = id /\ unconsumed r ∈ rs_issued s;
  ri_commits : forall c, c ∈ rs_commits s -> exists r, r ∈ rs_issued s /\ allowed_by r c;
  ri_once : NoDup (map cm_Receipt (rs_commits s));
  ri_spent : forall id r, en_receipts (rs_engine s) !! id = Some r -> cf_ConsumedAt r = None ->
               id ∉ map cm_Receipt (rs_commits s);
}.
End receipt_spec.

(** Sample data: an answer to a suspended request for [commit] on [p1]. *)
Definition sample_sha (s : string) : string := ("h:" ++ s)%string.
Definition qs (s : string) : string := str_text (encode_string s).
Definition sample_ask_args : string :=
  Marshal (JObj [("question", JStr "commit?"); ("selection_mode", JStr "single"); ("allow_custom", JBool false);
                 ("required", JBool true);
                 ("authorization", JObj [("action", JStr "commit"); ("resource_ref", JStr "p1");
                                         ("payload_json", JStr "{}")])]).
Definition sample_approval : string :=
  Marshal (JObj [("response_type", JStr "authorization"); ("authorization_decision", JStr "approve");
                 ("action", JStr "commit"); ("resource_ref", JStr "p1")]).
Definition sample_accepts : option (string -> bool) := Some (String.eqb "user_request_input").
Definition suspended_engine : Engine :=
  with_suspension
    (append_history (NewEngine "")
       (calls_item "" [{| tc_ID := "c1"; tc_Type := LLMToolTypeFunction;
          tc_Function := {| fc_Name := "user_request_input"; fc_Arguments := sample_ask_args;
                            fc_ThoughtSignature := "" |} |}])) "c1".
Definition answered_engine : Engine :=
  (ProvideAskUserResult sample_sha sample_accepts suspended_engine sample_approval "u1" "aa" 5 5).1.
Definition committed_engine : Engine :=
  (CommitWithConfirmationReceipt sample_sha answered_engine tt "ucr_aa" "commit" "p1" "{}"
     (Some (fun _ w => (w, Ok tt))) 6 6).1.1.

(** * Lemmas *)

Section receipt_lemmas.
Context (sha256hex : string -> string) (accepts_response : option (string -> bool)).

Lemma purge_subseteq e now : en_receipts (purgeExpiredReceiptsLocked e now) ⊆ en_receipts e.
Proof. simpl. apply map_filter_subseteq. Qed.

(** An answer either issues nothing new or the one receipt it approves. *)
Lemma answer_receipts e response actor uuid now1 now2 e' r :
  (0 < now2)%Z ->
  ProvideAskUserResult sha256hex accepts_response e response actor uuid now1 now2 = (e', r) ->
  en_receipts e' ⊆ en_receipts e
  \/ exists rc, cf_ID rc = ("ucr_" ++ uuid)%string /\ cf_ConsumedAt rc = None /\ approved_by_user sha256hex rc
       /\ en_receipts e' = <[cf_ID rc := rc]> (en_receipts (purgeExpiredReceiptsLocked e now1)).
Proof.
  intros Hnow. unfold ProvideAskUserResult. destruct accepts_response as [accepts|]; [|intros [= <- _]; by left].
  destruct (actor =? "") eqn:Ha; simpl; [intros [= <- _]; by left|]. apply String.eqb_neq in Ha.
  destruct (not_exact actor) eqn:Hx; [intros [= <- _]; by left|]. apply not_exact_false in Hx.
  pose proof (purge_subseteq e now1) as Hp. set (e1 := purgeExpiredReceiptsLocked e now1) in *.
  destruct (pending_asks _ _) as [pending|]; [|intros [= <- _]; by left].
  destruct pending as [|[id args] [|]]; [intros [= <- _]; by left| |intros [= <- _]; by left].
  destruct (has_result _ _); [intros [= <- _]; by left|].
  destruct (authorizationResponseApproved response (ak_Authorization args)) as [approved|] eqn:Happ;
    [|intros [= <- _]; by left].
  destruct (ak_Authorization args) as [a|]; [|intros [= <- _]; left; by destruct (_ =? id)].
  destruct approved; [|intros [= <- _]; left; by destruct (_ =? id)].
  destruct (authorizationPayloadHash sha256hex (au_PayloadJSON a)) as [h|] eqn:Hh; [|intros [= <- _]; by left].
  intros [= <- _]. right. eexists (Build_ConfirmationReceipt _ _ _ _ _ _ _ _ _ _ _ _ _).
  split; [reflexivity|]. split; [reflexivity|]. split; [|by destruct (_ =? id)].
  split; [|done]. exists (au_PayloadJSON a). simpl. split; [|done]. by destruct a.
Qed.

Lemma verify_receipts e now id req e' r :
  verify_receipt sha256hex e now id req = (e', r) -> en_receipts e' ⊆ en_receipts e.
Proof.
  unfold verify_receipt. destruct (_ || _); [by intros [= <- _]|].
  destruct (en_receipts e !! id) as [rc|]; [|by intros [= <- _]].
  destruct (bool_decide _); [by intros [= <- _]|].
  destruct (expired rc now); [intros [= <- _]; simpl; apply delete_subseteq|].
  repeat (break_match; try (by intros [= <- _])).
Qed.

(** A verified receipt matches the request exactly, is fresh and unused. *)
Lemma verify_receipt_ok e now id req e' :
  verify_receipt sha256hex e now id req = (e', Ok tt) ->
  e' = e /\ exists rc, en_receipts e !! id = Some rc /\ cf_ConsumedAt rc = None /\ expired rc now = false
    /\ cf_Action rc = ar_Action req /\ cf_ResourceRef rc = ar_ResourceRef req
    /\ authorizationPayloadHash sha256hex (ar_PayloadJSON req) = Ok (cf_PayloadHash rc).
Proof.
  unfold verify_receipt. destruct (_ || _); [done|].
  destruct (en_receipts e !! id) as [rc|] eqn:Hrc; [|done].
  case_bool_decide as Hc; [done|]. destruct (expired rc now) eqn:Hexp; [done|].
  destruct (negb (cf_Action rc =? _)) eqn:Ha; [done|]. apply negb_eqb_false in Ha.
  destruct (negb (cf_ResourceRef rc =? _)) eqn:Hr; [done|]. apply negb_eqb_false in Hr.
  destruct (authorizationPayloadHash _ _) as [h|] eqn:Hh; [|done].
  destruct (negb (cf_PayloadHash rc =? h)) eqn:Hp; [done|]. apply negb_eqb_false in Hp as <-.
  intros [= <-]. split; [done|]. exists rc. split_and!; try done.
  by apply eq_None_not_Some.
Qed.

(** A commit that succeeds was allowed by a stored, unused, unexpired receipt
    for exactly this change, which it consumes. *)
Lemma commit_ok {W} e (w w' : W) id action ref payload commit now1 now2 e' :
  CommitWithConfirmationReceipt sha256hex e w id action ref payload commit now1 now2 = (e', w', Ok tt) ->
  exists rc, en_receipts e !! id = Some rc /\ cf_ConsumedAt rc = None /\ expired rc now1 = false
    /\ cf_Action rc = action /\ cf_ResourceRef rc = ref
    /\ authorizationPayloadHash sha256hex payload = Ok (cf_PayloadHash rc)
    /\ en_receipts e' = <[id := consume rc now2]> (en_receipts e).
Proof.
  unfold CommitWithConfirmationReceipt. destruct commit as [commit|]; [|done].
  destruct (_ || _); [done|]. destruct (en_receipts e !! id) as [rc|] eqn:Hrc; [|done].
  case_bool_decide as Hc; [done|]. destruct (expired rc now1) eqn:Hexp; [done|].
  destruct (action =? ""); simpl; [done|].
  destruct (negb (cf_Action rc =? _)) eqn:Ha; [done|]. apply negb_eqb_false in Ha.
  destruct (ref =? ""); simpl; [done|].
  destruct (negb (cf_ResourceRef rc =? _)) eqn:Hr; [done|]. apply negb_eqb_false in Hr.
  destruct (authorizationPayloadHash _ _) as [h|] eqn:Hh; [|done].
  destruct (negb (cf_PayloadHash rc =? h)) eqn:Hp; [done|]. apply negb_eqb_false in Hp as <-.
  destruct (commit _ w) as [w1 [[]|]]; [|done]. intros [= <- <-].
  exists rc. split_and!; try done. by apply eq_None_not_Some.
Qed.

Lemma commit_err_receipts {W} e (w w' : W) id action ref payload commit now1 now2 e' err :
  CommitWithConfirmationReceipt sha256hex e w id action ref payload commit now1 now2 = (e', w', Err err) ->
  en_receipts e' ⊆ en_receipts e.
Proof.
  unfold CommitWithConfirmationReceipt. destruct commit as [commit|]; [|by intros [= <- _ _]].
  destruct (_ || _); [by intros [= <- _ _]|].
  destruct (en_receipts e !! id) as [rc|]; [|by intros [= <- _ _]].
  destruct (bool_decide _); [by intros [= <- _ _]|].
  destruct (expired rc now1); [intros [= <- _ _]; simpl; apply delete_subseteq|].
  repeat (break_match; try (by intros [= <- _ _]); try done).
Qed.

(** Receipts may only disappear. *)
Lemma receipts_inv_shrink s e' :
  receipts_inv sha256hex s -> en_receipts e' ⊆ en_receipts (rs_engine s) ->
  receipts_inv sha256hex {| rs_engine := e'; rs_issued := rs_issued s; rs_commits := rs_commits s |}.
Proof.
  intros [H1 H2 H3 H4 H5] Hsub. split; simpl; try done.
  - intros id r Hr. apply (H2 id). by eapply lookup_weaken.
  - intros id r Hr. apply (H5 id r). by eapply lookup_weaken.
Qed.

Lemma unconsumed_id r : cf_ConsumedAt r = None -> unconsumed r = r.
Proof. destruct r. simpl. by intros ->. Qed.

Lemma issued_commit_ids s c :
  receipts_inv sha256hex s -> c ∈ rs_commits s -> cm_Receipt c ∈ map cf_ID (rs_issued s).
Proof.
  intros Hinv Hc. destruct (ri_commits _ s Hinv c Hc) as (r & Hr & <- & _).
  by apply list_elem_of_fmap_2.
Qed.

Lemma issue_inv s e' rc rs0 :
  receipts_inv sha256hex s -> cf_ID rc ∉ map cf_ID (rs_issued s) -> cf_ConsumedAt rc = None ->
  approved_by_user sha256hex rc -> rs0 ⊆ en_receipts (rs_engine s) ->
  en_receipts e' = <[cf_ID rc := rc]> rs0 ->
  receipts_inv sha256hex {| rs_engine := e'; rs_issued := rs_issued s ++ [rc]; rs_commits := rs_commits s |}.
Proof.
  intros Hinv Hfresh Hnone Happ Hsub He'. pose proof Hinv as [H1 H2 H3 H4 H5]. split; simpl.
  - intros r. rewrite elem_of_app, list_elem_of_singleton. intros [?| ->]; auto.
  - intros id r. rewrite He', lookup_insert_Some. intros [[<- <-]|[_ Hr]].
    + split; [done|]. rewrite unconsumed_id by done. set_solver.
    + destruct (H2 id r) as [? ?]; [by eapply lookup_weaken|]. set_solver.
  - intros c Hc. destruct (H3 c Hc) as (r & Hr & Hal). exists r. set_solver.
  - done.
  - intros id r. rewrite He', lookup_insert_Some. intros [[<- <-]|[_ Hr]] Hn.
    + intros (c & Heq & Hc)%list_elem_of_fmap. apply Hfresh. rewrite Heq. by eapply issued_commit_ids.
    + by apply (H5 id r); [eapply lookup_weaken|].
Qed.

Lemma commit_inv s W (w w' : W) id action ref payload commit now1 now2 e' rc :
  receipts_inv sha256hex s -> en_receipts (rs_engine s) !! id = Some rc ->
  CommitWithConfirmationReceipt sha256hex (rs_engine s) w id action ref payload commit now1 now2 = (e', w', Ok tt) ->
  receipts_inv sha256hex
    {| rs_engine := e'; rs_issued := rs_issued s;
       rs_commits := rs_commits s ++
         [{| cm_Receipt := id; cm_Action := action; cm_ResourceRef := ref; cm_PayloadJSON := payload;
             cm_Actor := cf_ActorUserID rc; cm_At := now1 |}] |}.
Proof.
  intros Hinv Hrc Hc. apply commit_ok in Hc as (rc' & Hrc' & Hnone & Hexp & Ha & Hr & Hh & He').
  assert (rc' = rc) as -> by congruence. pose proof Hinv as [H1 H2 H3 H4 H5].
  destruct (H2 id rc Hrc) as [Hid Hiss]. rewrite unconsumed_id in Hiss by done.
  split; simpl.
  - done.
  - intros id' r. rewrite He', lookup_insert_Some. intros [[<- <-]|[_ ?]]; [|by apply H2].
    split; [done|]. by destruct (H2 id rc Hrc).
  - intros c. rewrite elem_of_app, list_elem_of_singleton. intros [?| ->]; [by apply H3|].
    exists rc. split; [done|]. split_and!; try done. simpl.
    destruct (H1 rc Hiss) as (_ & _ & _ & Hpos & Hexpat). unfold expired in Hexp.
    assert (IsZero (cf_ExpiresAt rc) = false) as Hz.
    { unfold IsZero. apply Z.eqb_neq. rewrite Hexpat. unfold confirmationReceiptTTL, Minute, Second. lia. }
    rewrite Hz in Hexp. simpl in Hexp. unfold After in Hexp. by apply Z.ltb_ge.
  - rewrite map_app. apply NoDup_app. split_and!; [done| |apply NoDup_singleton].
    simpl. intros x Hx. rewrite list_elem_of_singleton. intros ->. by apply (H5 id rc).
  - intros id' r. rewrite He', lookup_insert_Some. intros [[<- <-]|[Hne Hr']] Hn; [done|].
    rewrite map_app. intros Hin. apply elem_of_app in Hin as [?|Hin]; [by apply (H5 id' r)|].
    apply list_elem_of_singleton in Hin. by apply Hne.
Qed.

Lemma receipt_step_inv s s' :
  receipts_inv sha256hex s -> receipt_step sha256hex accepts_response s s' -> receipts_inv sha256hex s'.
Proof.
  intros Hinv Hs. inversion Hs as
    [s0 response actor uuid now1 now2 e' r Hfresh Hnow Hans|s0 now id req e' r Hv
    |s0 W w w' id action ref payload commit now1 now2 e' r Hc|s0 e' Hsub]; subst.
  - apply answer_receipts in Hans as [Hsub|(rc & Hid & Hn & Happ & He')]; [| |done].
    + destruct (en_receipts e' !! _) as [rc|] eqn:Hrc; [|rewrite app_nil_r; by apply receipts_inv_shrink].
      exfalso. apply (lookup_weaken _ _ _ _ Hrc) in Hsub.
      destruct (ri_stored _ s Hinv _ _ Hsub) as [Hid Hin]. apply Hfresh. rewrite <- Hid.
      change (cf_ID rc) with (cf_ID (unconsumed rc)). by apply list_elem_of_fmap_2.
    + rewrite He', Hid, lookup_insert_eq. rewrite <- Hid in Hfresh.
      eapply issue_inv; [done|done|done|done|apply purge_subseteq|].
      by rewrite He'.
  - apply receipts_inv_shrink; [done|by eapply verify_receipts].
  - destruct r as [[]|err].
    + pose proof (commit_ok _ _ _ _ _ _ _ _ _ _ _ Hc) as (rc & Hrc & _). rewrite Hrc.
      by eapply commit_inv.
    + rewrite app_nil_r. apply receipts_inv_shrink; [done|by eapply commit_err_receipts].
  - by apply receipts_inv_shrink.
Qed.

Lemma initial_receipts_inv policy :
  receipts_inv sha256hex {| rs_engine := NewEngine policy; rs_issued := []; rs_commits := [] |}.
Proof.
  split; simpl; try (intros; set_solver); try constructor; intros id r Hr;
    by rewrite lookup_empty in Hr.
Qed.

Lemma receipts_reachable_inv policy s :
  rtc (receipt_step sha256hex accepts_response)
    {| rs_engine := NewEngine policy; rs_issued := []; rs_commits := [] |} s -> receipts_inv sha256hex s.
Proof.
  intros Hrtc. eapply (rtc_ind_r (fun s => receipts_inv sha256hex s)); [| |exact Hrtc].
  - apply initial_receipts_inv.
  - intros s1 s2 _ Hs Hi. by eapply receipt_step_inv.
Qed.

(** A gated tool's call is allowed exactly when its gate names an action and a
    resource and the store verifies the receipt it carries. *)
Lemma DecideToolCall_allow {W} (tool : Tool W) args has_store now e e' :
  DecideToolCall (H := engine_approvals sha256hex now) tool args has_store e = (e', allow) <->
  (t_ApprovalGate tool = None /\ e' = e)
  \/ exists gate request,
       t_ApprovalGate tool = Some gate /\ ag_ApprovalRequest gate args = Ok request
       /\ blank (ar_Action request) = false /\ blank (ar_ResourceRef request) = false
       /\ has_store = true
       /\ verify_receipt sha256hex e now (TrimSpace (ag_ApprovalReceiptID gate args)) request = (e', Ok tt).
Proof.
  unfold DecideToolCall. destruct (t_ApprovalGate tool) as [gate|] eqn:Hg.
  2: { split; [intros [= <-]; by left|]. intros [[_ ->]|(? & ? & ? & _)]; done. }
  destruct (ag_ApprovalRequest gate args) as [request|] eqn:Hr.
  2: { split; [done|]. intros [[? _]|(g & rq & [= <-] & Hr' & _)]; [done|congruence]. }
  destruct (blank (ar_Action request)) eqn:Ha; simpl.
  { split; [done|]. intros [[? _]|(g & rq & [= <-] & Hr' & Ha' & _)]; [done|congruence]. }
  destruct (blank (ar_ResourceRef request)) eqn:Hb; simpl.
  { split; [done|]. intros [[? _]|(g & rq & [= <-] & Hr' & _ & Hb' & _)]; [done|congruence]. }
  destruct (TrimSpace (ag_ApprovalReceiptID gate args) =? "") eqn:Hid.
  { split; [done|]. intros [[? _]|(g & rq & [= <-] & Hr' & _ & _ & _ & Hv)]; [done|].
    unfold verify_receipt in Hv. by rewrite Hid in Hv. }
  destruct has_store; simpl.
  2: { split; [done|]. intros [[? _]|(g & rq & [= <-] & _ & _ & _ & ? & _)]; done. }
  destruct (verify_receipt _ _ _ _ _) as [e1 [[]|err]] eqn:Hv; split.
  - intros [= <-]. right. exists gate, request. split_and!; try done.
  - intros [[? _]|(g & rq & [= <-] & Hr' & _ & _ & _ & Hv')]; [done|]. congruence.
  - done.
  - intros [[? _]|(g & rq & [= <-] & Hr' & _ & _ & _ & Hv')]; [done|]. congruence.
Qed.
End receipt_lemmas.

#[export] Hint Resolve receipts_reachable_inv : go.

(** * Properties *)

(** C31: receipts are single-use and exact.  In every sequence of answers,
    verifications, commits and other engine operations, no receipt ever allows two
    commits, and each commit was allowed by a receipt the user approved for that
    very action, resource and payload hash, on behalf of that actor, at most
    [confirmationReceiptTTL] before. *)
Theorem receipts_single_use sha accepts policy (s : ReceiptSystem) :
  rtc (receipt_step sha accepts) {| rs_engine := NewEngine policy; rs_issued := []; rs_commits := [] |} s ->
  NoDup (map cm_Receipt (rs_commits s))
  /\ forall c, c ∈ rs_commits s ->
       exists r, r ∈ rs_issued s /\ approved_by_user sha r /\ allowed_by sha r c
         /\ (cm_At c <= cf_CreatedAt r + confirmationReceiptTTL)%Z.
Proof.
  intros Hrtc. apply receipts_reachable_inv in Hrtc as Hinv. split; [apply (ri_once _ s Hinv)|].
  intros c Hc. destruct (ri_commits _ s Hinv c Hc) as (r & Hr & Hal).
  pose proof (ri_issued _ s Hinv r Hr) as Happ. exists r. split_and!; try done; try apply Hal.
  destruct Happ as (_ & _ & _ & _ & <-). apply Hal.
Qed.

(** C32: admission fails closed.  A call of a gated tool is allowed only when its
    receipt is one the user approved for exactly the action, the resource and the
    payload hash that the tool declares for these arguments, has not been used for
    a commit and has not expired; the decision then leaves the engine unchanged. *)
Theorem gated_call_was_approved sha accepts policy (s : ReceiptSystem) {W} (tool : Tool W) gate args has_store now e' :
  rtc (receipt_step sha accepts) {| rs_engine := NewEngine policy; rs_issued := []; rs_commits := [] |} s ->
  t_ApprovalGate tool = Some gate ->
  DecideToolCall (H := engine_approvals sha now) tool args has_store (rs_engine s) = (e', allow) ->
  e' = rs_engine s
  /\ exists request r,
       ag_ApprovalRequest gate args = Ok request
       /\ r ∈ rs_issued s /\ approved_by_user sha r
       /\ cf_ID r = TrimSpace (ag_ApprovalReceiptID gate args)
       /\ cf_Action r = ar_Action request /\ cf_ResourceRef r = ar_ResourceRef request
       /\ authorizationPayloadHash sha (ar_PayloadJSON request) = Ok (cf_PayloadHash r)
       /\ cf_ID r ∉ map cm_Receipt (rs_commits s)
       /\ expired r now = false.
Proof.
  intros Hrtc Hg Hd. apply receipts_reachable_inv in Hrtc as Hinv.
  apply DecideToolCall_allow in Hd as [[? _]|(gate' & request & Hg' & Hr & _ & _ & _ & Hv)]; [congruence|].
  assert (gate' = gate) as -> by congruence.
  apply verify_receipt_ok in Hv as (-> & rc & Hrc & Hn & Hexp & Ha & Hres & Hh).
  split; [done|]. destruct (ri_stored _ s Hinv _ _ Hrc) as [Hid Hiss]. rewrite unconsumed_id in Hiss by done.
  exists request, rc. split_and!; try done; [by apply (ri_issued _ s Hinv)|].
  rewrite Hid. by apply (ri_spent _ s Hinv _ rc).
Qed.

(** The system after the sample approval. *)
Lemma sample_answered :
  exists rc, rtc (receipt_step sample_sha sample_accepts)
    {| rs_engine := NewEngine ""; rs_issued := []; rs_commits := [] |}
    {| rs_engine := answered_engine; rs_issued := [rc]; rs_commits := [] |}
    /\ en_receipts answered_engine !! "ucr_aa" = Some rc.
Proof.
  destruct (en_receipts answered_engine !! "ucr_aa") as [rc|] eqn:Hrc; [|vm_compute in Hrc; discriminate Hrc].
  exists rc. split; [|done].
  eapply rtc_l; [apply (rcs_other _ _ {| rs_engine := NewEngine ""; rs_issued := []; rs_commits := [] |} suspended_engine); done|].
  apply rtc_once.
  destruct (ProvideAskUserResult sample_sha sample_accepts suspended_engine sample_approval "u1" "aa" 5 5) as [e' r] eqn:Hans.
  assert (e' = answered_engine) as -> by (unfold answered_engine; by rewrite Hans).
  pose proof (rcs_answer sample_sha sample_accepts
    {| rs_engine := suspended_engine; rs_issued := []; rs_commits := [] |} sample_approval "u1" "aa" 5 5 answered_engine r
    ltac:(apply not_elem_of_nil) ltac:(lia) Hans) as Hstep.
  cbn [rs_issued rs_commits app] in Hstep. change ("ucr_" ++ "aa")%string with "ucr_aa" in Hstep.
  rewrite Hrc in Hstep. exact Hstep.
Qed.

Lemma receipts_single_use_witness :
  exists s, rtc (receipt_step sample_sha sample_accepts)
              {| rs_engine := NewEngine ""; rs_issued := []; rs_commits := [] |} s
    /\ map cm_Receipt (rs_commits s) = ["ucr_aa"] /\ NoDup (map cm_Receipt (rs_commits s)).
Proof.
  destruct sample_answered as (rc & Hrtc & Hrc).
  destruct (CommitWithConfirmationReceipt sample_sha answered_engine tt "ucr_aa" "commit" "p1" "{}"
     (Some (fun _ w => (w, Ok tt))) 6 6) as [[e' w'] r] eqn:Hc.
  destruct r as [[]|err]; [|vm_compute in Hc; discriminate Hc].
  pose proof (rcs_commit sample_sha sample_accepts
    {| rs_engine := answered_engine; rs_issued := [rc]; rs_commits := [] |} unit tt w' "ucr_aa" "commit" "p1" "{}"
    _ 6 6 e' (Ok tt) Hc) as Hstep.
  cbn [rs_engine rs_commits app rs_issued] in Hstep. rewrite Hrc in Hstep.
  eexists. split; [eapply rtc_r; [exact Hrtc|exact Hstep]|]. split; [reflexivity|].
  apply (receipts_single_use sample_sha sample_accepts ""). eapply rtc_r; [exact Hrtc|exact Hstep].
Defined.

(** A tool gated on [commit] of [p1] whose receipt is its argument text. *)
Lemma gated_call_was_approved_witness :
  let gate := {| ag_ApprovalRequest := fun _ => Ok {| ar_Action := "commit"; ar_ResourceRef := "p1"; ar_PayloadJSON := "{}" |};
                 ag_ApprovalReceiptID := fun args => args |} in
  let tool := {| t_Name := "t"; t_Description := ""; t_Parameters := "";
                 t_Execute := fun _ (w : unit) => (w, Ok ""); t_Strict := None; t_Capability := None;
                 t_ApprovalGate := Some gate; t_CheckAvailability := None; t_SuspensionEvent := None;
                 t_AcceptsUserResponse := None; t_IsConcurrencySafe := None |} in
  DecideToolCall (H := engine_approvals sample_sha 6) tool "ucr_aa" true answered_engine = (answered_engine, allow)
  /\ exists r, cf_ID r = "ucr_aa" /\ approved_by_user sample_sha r.
Proof.
  intros gate tool. destruct sample_answered as (rc & Hrtc & Hrc).
  assert (DecideToolCall (H := engine_approvals sample_sha 6) tool "ucr_aa" true answered_engine
          = (answered_engine, allow)) as Hd by (vm_compute; reflexivity).
  split; [exact Hd|].
  destruct (gated_call_was_approved sample_sha sample_accepts "" _ tool gate "ucr_aa" true 6 answered_engine Hrtc
    eq_refl Hd) as (_ & request & r & _ & _ & Happ & Hid & _).
  exists r. split; [rewrite Hid; reflexivity|exact Happ].
Defined.
