(* ===== verification/Compaction.v ===== *)
(** Model of how the engine keeps a request inside the model's context window:
    token estimates (server/agent/tokens.go), the assembly of a request and the
    compaction of older conversation (server/agent/compaction.go). *)
From S2P Require Import Prelude GoStrings Json Conversation Jobs Tools Receipts.
From Stdlib Require Import Ascii SpecFloat.
Open Scope string_scope.
Open Scope list_scope.

(** * Token estimates *)

Definition defaultContextWindowTokens : Z := 128000.
Definition contextCompactTriggerRatio : Z := 9.
Definition promptMessageOverheadTokens : Z := 4.

(** [float64] arithmetic. *)
Definition f64 (n : Z) : spec_float := binary_normalize 53 1024 n 0 false.
Definition fmul := SFmul 53 1024.
Definition fdiv := SFdiv 53 1024.
Definition fsqrt := SFsqrt 53 1024.
(** [int(math.Ceil(x))] of a finite positive number. *)
Definition ceil_int (x : spec_float) : Z :=
  match x with
  | S754_finite false m e =>
      if (0 <=? e)%Z then (Z.pos m * 2 ^ e)%Z else (- ((- Z.pos m) / 2 ^ (- e)))%Z
  | _ => 0%Z
  end.

Definition estimateImageTokens (width height : Z) : Z :=
  if (width <=? 0)%Z || (height <=? 0)%Z then 0%Z
  else
    let w := f64 width in let h := f64 height in
    let scale := fdiv (f64 1568) (if SFltb w h then h else w) in
    let '(w, h) := if SFltb scale (f64 1) then (fmul w scale, fmul h scale) else (w, h) in
    let area := fmul w h in
    let '(w, h) := if SFltb (f64 1150000) area
                   then let scale := fsqrt (fdiv (f64 1150000) area) in (fmul w scale, fmul h scale)
                   else (w, h) in
    ceil_int (fdiv (fmul w h) (f64 750)).

Definition estimateTextTokens (text : string) : Z :=
  if text =? "" then 0%Z
  else
    let rs := runes text in
    let ascii := Z.of_nat (length (List.filter (fun r => (r <? 128)%Z) rs)) in
    let wide := Z.of_nat (length (List.filter (fun r => negb (r <? 128)%Z) rs)) in
    (Z.quot (ascii + 3) 4 + wide)%Z.

Definition sumZ {A} (f : A -> Z) (l : list A) : Z := fold_right (fun a n => (f a + n)%Z) 0%Z l.

Definition estimatePartsTokens (parts : list MessagePart) : Z :=
  sumZ (fun part => if mp_Kind part =? MessagePartImage then estimateImageTokens (mp_W part) (mp_H part)
                    else estimateTextTokens (mp_Text part)) parts.

(** The configured window is 0 when there is no configuration. *)
Definition contextWindowTokens (configured : Z) : Z :=
  if (0 <? configured)%Z then configured else defaultContextWindowTokens.
Definition contextCompactTriggerTokens (configured : Z) : Z :=
  Z.quot (contextWindowTokens configured * contextCompactTriggerRatio) 10.

Record ToolSpec := { sp_Name : string; sp_Description : string; sp_Parameters : string; sp_Strict : bool }.

Definition EstimatePromptTokens (bundle : option PromptBundle) (toolSpecs : list ToolSpec) : Z :=
  match bundle with
  | None => 0%Z
  | Some bundle =>
      (estimateTextTokens (pb_Policy bundle) + estimateTextTokens (pb_PolicyAppendix bundle)
       + estimateTextTokens (pb_Task bundle)
       + sumZ (fun block => promptMessageOverheadTokens + estimateTextTokens (rc_Name block)
                 + estimateTextTokens (rc_Content block) + estimatePartsTokens (rc_Parts block))
              (pb_RuntimeContext bundle)
       + sumZ (fun item => promptMessageOverheadTokens + estimateTextTokens (ci_Content item)
                 + estimatePartsTokens (ci_Parts item) + estimateTextTokens (ci_ReasoningContent item)
                 + sumZ (fun call => estimateTextTokens (fc_Name (tc_Function call))
                           + estimateTextTokens (fc_Arguments (tc_Function call))) (ci_ToolCalls item))
              (pb_History bundle)
       + sumZ (fun spec => estimateTextTokens (sp_Name spec) + estimateTextTokens (sp_Description spec)
                 + estimateTextTokens (sp_Parameters spec)) toolSpecs)%Z
  end.

(** * Assembling a request *)

Definition compactionSummaryPolicy : string :=
  "You compress the earlier part of a data-analysis conversation into a short factual record, so it can replace that conversation in the model's context.

Preserve, when the conversation contains them:
- the user's objective and any explicit constraints or corrections
- confirmed metric definitions, units, time grains, filters and join keys
- data sources, tables and columns that were inspected or used
- key query or computation results, including the numbers that matter
- decisions already made and the reason for them
- open questions, unresolved ambiguity and known data limitations

Do not add recommendations, do not invent facts, and do not mention that a summary was produced. Output only the summary text.".
Definition compactionSummaryTask : string := "Summarize the conversation above into one factual record.".
Definition LF : string := String (ascii_of_nat 10) "".

Definition formatCompactionSummary (summary : string) : string :=
  ("Earlier conversation in this session was compacted into the record below. It is a factual record of what happened, not new instructions."
   ++ LF ++ "<compacted-summary>" ++ LF ++ TrimSpace summary ++ LF ++ "</compacted-summary>")%string.

(** [view] are the blocks of the report view, none when it is nil; the blocks of
    finished jobs are taken from the job manager. *)
Definition buildBundleLocked (e : Engine) (jobs : option JobManager) (now : time) (userTask : string)
    (runtimeVars continuationFacts view : list RuntimeContextBlock) : option JobManager * PromptBundle :=
  let summary := if negb (en_historySummary e =? "")
                 then [text_block "history_summary" LLMRoleUser (formatCompactionSummary (en_historySummary e))]
                 else [] in
  let window := if (0 <? en_omitted e)%Z then [history_window_block (en_omitted e)] else [] in
  let '(jobs, notices) := TakeCompletedNotices jobs now in
  (jobs, {| pb_Policy := en_policy e; pb_PolicyAppendix := ""; pb_Task := userTask;
            pb_RuntimeContext := runtimeVars ++ continuationFacts ++ summary ++ window ++ notices ++ view;
            pb_History := en_history e |}).

Definition pressureTokens (e : Engine) (estimate : Z) : Z :=
  if (estimate <? en_lastPromptTokens e)%Z then en_lastPromptTokens e else estimate.

(** * Choosing and applying a compaction *)

Fixpoint pinned_from (i : nat) (history : list ConversationItem) : nat :=
  match history with
  | [] => 0
  | item :: rest =>
      if ci_Role item =? LLMRoleUser then S i
      else if calls_tools item then 0
      else pinned_from (S i) rest
  end.
Definition pinnedHistoryItems (history : list ConversationItem) : nat := pinned_from 0 history.

(** The span, its length and the number of pinned items. *)
Definition selectCompactionSpan (e : Engine) : list ConversationItem * nat * nat :=
  let history := en_history e in
  let pinned := pinnedHistoryItems history in
  if (length history <=? recentContextWindow + pinned)%nat then ([], 0, pinned)
  else
    let boundary := adjustCompactionBoundary history (length history - recentContextWindow) in
    if (boundary <=? pinned)%nat then ([], 0, pinned)
    else (take (boundary - pinned) (drop pinned history), boundary - pinned, pinned).

Definition applyCompaction (e : Engine) (count pinned : nat) (summary : string) : Engine :=
  if (count =? 0)%nat || (length (en_history e) <? pinned + count)%nat then e
  else
    let e' := with_history e (take pinned (en_history e) ++ drop (pinned + count) (en_history e)) in
    if blank summary then with_omitted e' (en_omitted e' + Z.of_nat count)%Z
    else with_summary e' summary.

(** * The summarization request *)

Definition HistoryCompactionMethodSummary : string := "summary".
Definition HistoryCompactionMethodTrim : string := "trim".

Record HistoryCompactedData := {
  hc_Summary : string;
  hc_ShadowedItems : Z;
  hc_PinnedItems : Z;
  hc_Method : string;
  hc_PromptTokens : Z;
  hc_ContextWindow : Z;
}.

Section requests.
(** The LLM client: one request, an answer or an error. *)
Context (ChatWithTools : PromptBundle -> list ToolSpec -> res string LLMResponse).
(** The configured context window. *)
Context (window : Z).

Definition summarizeHistorySpan (e : Engine) (span : list ConversationItem) : res string string :=
  if (length span =? 0)%nat then Err "nothing to summarize"
  else
    let span := if negb (en_historySummary e =? "")
                then text_item LLMRoleUser (formatCompactionSummary (en_historySummary e)) :: span
                else span in
    let bundle := {| pb_Policy := compactionSummaryPolicy; pb_PolicyAppendix := "";
                     pb_Task := compactionSummaryTask; pb_RuntimeContext := []; pb_History := span |} in
    match ChatWithTools bundle [] with
    | Err err => Err err
    | Ok resp =>
        match rs_Choices resp with
        | [] => Err "summarizer returned no choices"
        | choice :: _ =>
            let summary := TrimSpace (lm_Content (ch_Message choice)) in
            if summary =? "" then Err "summarizer returned an empty summary" else Ok summary
        end
    end.

Definition takePendingNotices (e : Engine) : Engine * list RuntimeContextBlock :=
  (with_repeats e (en_repeatCalls e) [], en_pendingNotices e).

(** [prepareRequestBundle]: the engine and the job manager after it, the
    checkpoint it emits, if any, and the request. *)
Definition prepareRequestBundle (e : Engine) (jobs : option JobManager) (now1 now2 : time) (userTask : string)
    (runtimeVars continuationFacts view : list RuntimeContextBlock) (toolSpecs : list ToolSpec) :
    Engine * option JobManager * option HistoryCompactedData * PromptBundle :=
  let '(jobs, bundle) := buildBundleLocked e jobs now1 userTask runtimeVars continuationFacts view in
  let pressure := pressureTokens e (EstimatePromptTokens (Some bundle) toolSpecs) in
  let '(e, jobs, checkpoint, bundle) :=
    if (contextCompactTriggerTokens window <? pressure)%Z then
      let '(span, shadowed, pinned) := selectCompactionSpan e in
      if (0 <? shadowed)%nat then
        let '(summary, method) :=
          match summarizeHistorySpan e span with
          | Ok summary => (summary, HistoryCompactionMethodSummary)
          | Err _ => ("", HistoryCompactionMethodTrim)
          end in
        let e := applyCompaction e shadowed pinned summary in
        let '(jobs, bundle) := buildBundleLocked e jobs now2 userTask runtimeVars continuationFacts view in
        (e, jobs,
         Some {| hc_Summary := summary; hc_ShadowedItems := Z.of_nat shadowed;
                 hc_PinnedItems := Z.of_nat pinned; hc_Method := method; hc_PromptTokens := pressure;
                 hc_ContextWindow := contextWindowTokens window |}, bundle)
      else (e, jobs, None, bundle)
    else (e, jobs, None, bundle) in
  let '(e, notices) := takePendingNotices e in
  (e, jobs, checkpoint,
   {| pb_Policy := pb_Policy bundle; pb_PolicyAppendix := pb_PolicyAppendix bundle; pb_Task := pb_Task bundle;
      pb_RuntimeContext := pb_RuntimeContext bundle ++ notices; pb_History := pb_History bundle |}).
End requests.

(** * Tool results in history *)

Definition toolResultHistoryThresholdChars : nat := 8192.
Definition toolResultHistoryHeadChars : nat := 4096.
Definition toolResultHistoryTailChars : nat := 1024.

(** The decoded object, JSON null being a nil map. *)
Definition decode_map (raw : string) : option (list (string * jval)) :=
  let! v := Decode raw in as_object v.

Definition stripHistorySummaryFields (payload : list (string * jval)) : list (string * jval) :=
  List.filter (fun kv => negb (kv.1 =? "ui_summary")) payload.

(** [None] is the error; a nil map is encoded as null. *)
Definition compactToolResult (result : string) : option string :=
  let! v := Decode result in
  match v with
  | JNull => Some "null"
  | JObj kvs => Some (MarshalMap (map (fun kv => (kv.1, as_maps kv.2)) (stripHistorySummaryFields kvs)))
  | _ => None
  end.

(** [spill] writes the full payload and returns its identifier, or fails. *)
Definition pruneToolResultForHistory (spill : string -> option string) (toolName compactedResult : string) : string :=
  let rs := runes compactedResult in
  if (length rs <=? toolResultHistoryThresholdChars)%nat then compactedResult
  else
    let succeeded := match decode_map compactedResult with
                     | Some kvs => match lookup_key kvs "ok" with Some (JBool b) => b | _ => false end
                     | None => false
                     end in
    MarshalMap
      ([("ok", JBool succeeded); ("tool", JStr toolName); ("truncated", JBool true);
        ("original_chars", JNum (itoa (Z.of_nat (length rs))));
        ("omitted_chars", JNum (itoa (Z.of_nat (length rs - toolResultHistoryHeadChars - toolResultHistoryTailChars))));
        ("head", JStr (string_of_runes (take toolResultHistoryHeadChars rs)));
        ("tail", JStr (string_of_runes (drop (length rs - toolResultHistoryTailChars) rs)));
        ("notice", JStr "This tool result was too large to keep in the conversation, so only its head and tail are shown here.")]
       ++ match spill compactedResult with
          | Some id => [("full_result_id", JStr id); ("full_result_retrieval", JStr "state_tool_result_inspect")]
          | None => []
          end).

Definition historyToolResultContent (spill : string -> option string) (toolName raw : string) : string :=
  match compactToolResult raw with
  | None => pruneToolResultForHistory spill toolName raw
  | Some compacted => pruneToolResultForHistory spill toolName compacted
  end.

(** * Sample data *)

Definition long_history : list ConversationItem :=
  text_item LLMRoleUser "task" :: text_item LLMRoleAssistant "step" :: repeat (text_item LLMRoleAssistant "a") 12.
Definition sample_llm (_ : PromptBundle) (_ : list ToolSpec) : res string LLMResponse := Err "down".
(** A manager with one finished job that has not been announced. *)
Definition finished_jobs : JobManager :=
  match Submit (Some (SetRegistry NewJobManager)) "data_query_sql" "{}" "job_1" 5 with
  | (Some m, _) => finish m "job_1" "r1" 10 None 9
  | (None, _) => NewJobManager
  end.

(** * Lemmas *)

Lemma pinned_from_le i h : pinned_from i h <= i + length h.
Proof.
  revert i. induction h as [|x h IH]; intros i; simpl; [lia|].
  destruct (_ =? _); [lia|]. destruct (calls_tools x); [lia|]. specialize (IH (S i)). lia.
Qed.

(** The pinned prefix holds only plain turns and ends with the first user turn. *)
Lemma pinned_cut skip h : paired skip h -> cut_ok h (pinnedHistoryItems h).
Proof.
  intros Hp. unfold pinnedHistoryItems.
  assert (forall i pre, h = pre ++ drop i h -> length pre = i -> cut_ok h (pinned_from i (drop i h))) as Hgen.
  2: { apply (Hgen 0 []); done. }
  intros i. remember (drop i h) as t eqn:Ht. revert i Ht.
  induction t as [|x t IH]; intros i Ht pre Hpre Hlen; simpl; [by eapply paired_first|].
  destruct (ci_Role x =? LLMRoleUser) eqn:Hu.
  - apply (paired_after_plain skip h i x Hp); [|by rewrite Hu].
    rewrite Hpre, lookup_app_r, <- Hlen, Nat.sub_diag by lia. done.
  - destruct (calls_tools x); [by eapply paired_first|].
    assert (t = drop (S i) h) as Ht'.
    { rewrite <- Nat.add_1_r, <- drop_drop, <- Ht. done. }
    apply (IH (S i) Ht' (pre ++ [x])); [by rewrite <- app_assoc|rewrite length_app; simpl; lia].
Qed.

Lemma paired_app skip h1 h2 : paired skip h1 -> paired skip h2 -> paired skip (h1 ++ h2).
Proof.
  induction 1 as [|item h Ht Hc Hp IH|item rs h Ht Hc Hrs Hans Hp IH]; intros H2; [done| |].
  - simpl. apply paired_plain; auto.
  - simpl. rewrite <- app_assoc. apply paired_calls; auto.
Qed.

(** What a selected span is. *)
Lemma selectCompactionSpan_spec e span shadowed pinned skip :
  paired skip (en_history e) ->
  selectCompactionSpan e = (span, shadowed, pinned) -> 0 < shadowed ->
  pinned = pinnedHistoryItems (en_history e)
  /\ pinned + shadowed <= length (en_history e) - recentContextWindow
  /\ span = take shadowed (drop pinned (en_history e))
  /\ cut_ok (en_history e) (pinned + shadowed).
Proof.
  intros Hp. unfold selectCompactionSpan. set (p := pinnedHistoryItems _).
  destruct (_ <=? _)%nat eqn:H1; [intros [= <- <- <-]; lia|].
  destruct (adjust_boundary_cut skip (en_history e) (length (en_history e) - recentContextWindow) Hp) as [Hle Hcut].
  destruct (adjustCompactionBoundary _ _ <=? p)%nat eqn:H2; [intros [= <- <- <-]; lia|].
  reflect_bools. intros [= <- <- <-] _.
  replace (p + (adjustCompactionBoundary (en_history e) (length (en_history e) - recentContextWindow) - p))
    with (adjustCompactionBoundary (en_history e) (length (en_history e) - recentContextWindow)) by lia.
  split_and!; done.
Qed.

Lemma applyCompaction_history e count pinned summary :
  0 < count -> pinned + count <= length (en_history e) ->
  en_history (applyCompaction e count pinned summary)
  = take pinned (en_history e) ++ drop (pinned + count) (en_history e).
Proof.
  intros H1 H2. unfold applyCompaction.
  destruct ((count =? 0)%nat || (length (en_history e) <? pinned + count)%nat) eqn:Hg.
  - apply orb_true_iff in Hg as [?%Nat.eqb_eq|?%Nat.ltb_lt]; lia.
  - by destruct (blank summary).
Qed.

(** * Properties *)

(** compaction keeps the conversation valid and keeps what matters.  When a
    span is selected from a history that follows the protocol, applying it removes
    exactly that span: the items before it (with the user's original task) and at
    least the last [recentContextWindow] items after it are kept as they were, the
    resulting history still follows the protocol, and either the digest is stored
    or the number of omitted items grows by the length of the span. *)
Theorem compaction_preserves (e : Engine) span shadowed pinned summary skip :
  paired skip (en_history e) ->
  selectCompactionSpan e = (span, shadowed, pinned) -> 0 < shadowed ->
  let e' := applyCompaction e shadowed pinned summary in
  (exists head tail,
     en_history e = head ++ span ++ tail /\ en_history e' = head ++ tail
     /\ length head = pinnedHistoryItems (en_history e) /\ recentContextWindow <= length tail)
  /\ paired skip (en_history e')
  /\ (if blank summary
      then en_omitted e' = (en_omitted e + Z.of_nat (length span))%Z /\ en_historySummary e' = en_historySummary e
      else en_omitted e' = en_omitted e /\ en_historySummary e' = summary).
Proof.
  intros Hp Hsel Hpos e'.
  destruct (selectCompactionSpan_spec _ _ _ _ _ Hp Hsel Hpos) as (-> & Hle & -> & Hcut).
  set (pinned := pinnedHistoryItems (en_history e)) in *.
  assert (pinned + shadowed <= length (en_history e)) as Hle' by lia.
  assert (en_history e' = take pinned (en_history e) ++ drop (pinned + shadowed) (en_history e)) as He'
    by (by apply applyCompaction_history).
  split; [|split].
  - exists (take pinned (en_history e)), (drop (pinned + shadowed) (en_history e)). split_and!.
    + by rewrite <- (take_drop pinned (en_history e)) at 1; rewrite <- (take_drop shadowed (drop pinned (en_history e))) at 1; rewrite drop_drop.
    + done.
    + apply length_take_le. lia.
    + rewrite length_drop. assert (recentContextWindow <= length (en_history e)); [|lia].
      unfold selectCompactionSpan in Hsel. fold pinned in Hsel.
      destruct (length (en_history e) <=? recentContextWindow + pinned)%nat eqn:H1 in Hsel.
      * injection Hsel. lia.
      * apply Nat.leb_gt in H1. lia.
  - rewrite He'. apply paired_app.
    + apply paired_cut; [done|]. by eapply pinned_cut.
    + by apply paired_cut.
  - assert (length (take shadowed (drop pinned (en_history e))) = shadowed) as ->.
    { apply length_take_le. rewrite length_drop. lia. }
    unfold e', applyCompaction. rewrite (proj2 (Nat.eqb_neq shadowed 0)) by lia.
    rewrite (proj2 (Nat.ltb_ge (length (en_history e)) (pinned + shadowed))) by lia. cbn [orb].
    by destruct (blank summary).
Qed.

Lemma compaction_preserves_witness :
  let e := with_history (NewEngine "") long_history in
  selectCompactionSpan e = ([text_item LLMRoleAssistant "step"], 1, 1)
  /\ paired "" (en_history (applyCompaction e 1 1 "digest")).
Proof.
  intros e. split; [vm_compute; reflexivity|].
  apply (compaction_preserves e [text_item LLMRoleAssistant "step"] 1 1 "digest" "").
  - replace (en_history e) with (repairToolPairing long_history "") by (vm_compute; reflexivity).
    apply repair_paired.
  - vm_compute. reflexivity.
  - lia.
Defined.

(** a finished job's notice can be lost.  [prepareRequestBundle] assembles the
    request twice when it compacts, and the first assembly, which is thrown away,
    already takes the notices: here a job has finished and is still to be
    announced, yet after the call nothing is left to announce and the request
    carries no notice, while the same call without pressure delivers it. *)
Theorem compaction_loses_job_notices :
  let e := with_usage (with_history (NewEngine "") long_history) 200000 0 0 in
  let notified (b : PromptBundle) :=
    existsb (fun blk => rc_Name blk =? "background_job_finished") (pb_RuntimeContext b) in
  (exists e' m' checkpoint bundle,
     prepareRequestBundle sample_llm 0 e (Some finished_jobs) 10 11 "" [] [] [] []
     = (e', Some m', Some checkpoint, bundle)
     /\ jm_unannounced finished_jobs = ["job_1"] /\ jm_unannounced m' = [] /\ notified bundle = false)
  /\ (exists e' m' bundle,
     prepareRequestBundle sample_llm 0 (with_usage e 0 0 0) (Some finished_jobs) 10 11 "" [] [] [] []
     = (e', Some m', None, bundle) /\ notified bundle = true).
Proof.
  split.
  - do 4 eexists. split; [vm_compute; reflexivity|]. vm_compute. split_and!; reflexivity.
  - do 3 eexists. split; [vm_compute; reflexivity|]. vm_compute. reflexivity.
Qed.

(** resetting the conversation forgets the history but not its digest: the
    next request of a reset engine still carries the old conversation's summary. *)
Theorem reset_keeps_digest e jobs now task rv cf view c s :
  let e' := ResetMessages (with_summary e (String c s)) in
  en_history e' = []
  /\ text_block "history_summary" LLMRoleUser (formatCompactionSummary (String c s))
     ∈ pb_RuntimeContext (buildBundleLocked e' jobs now task rv cf view).2.
Proof.
  intros e'. split; [done|]. unfold buildBundleLocked. destruct (TakeCompletedNotices jobs now) as [jobs' notices].
  cbn [pb_RuntimeContext snd]. rewrite !elem_of_app. right. right. left. by constructor.
Qed.
