(* ===== verification/HistoryRebuild.v ===== *)
(** Model of how a session's conversation is recovered from its persisted event
    log: which message each runtime event becomes
    (server/handler/runtime_events.go, [saveEventToDBSync]) and the fold that
    rebuilds the history from them (server/agent/history_rebuild.go). *)
From S2P Require Import Prelude GoStrings Json JsonRoundtrip Conversation Jobs Tools Receipts Compaction.
From Stdlib Require Import Ascii.
Open Scope string_scope.
Open Scope list_scope.

(** * Events and messages *)

Definition EventUser : string := "user".
Definition EventAssistantStatus : string := "assistant_status".
Definition EventToolCall : string := "tool_call".
Definition EventToolResult : string := "tool_result".
Definition EventError : string := "error".
Definition EventRunCompleted : string := "run_completed".
Definition EventRunCancelled : string := "run_cancelled".
Definition EventUserRequestInput : string := "user_request_input".
Definition EventHistoryCompacted : string := "history_compacted".
Definition EventSystemFeedback : string := "system_feedback".

Record AskUserData := {
  aq_Question : string;
  aq_Reason : string;
  aq_Scope : string;
  aq_ContextRef : string;
  aq_InputHint : string;
  aq_Required : bool;
  aq_SelectionMode : string;
  aq_AllowCustom : bool;
  aq_Options : list AskUserOption;
  aq_Authorization : option ActionAuthorizationRequest;
  aq_ToolCallID : string;
}.

(** The payload types of [saveEventToDBSync]; any other payload is encoded as
    JSON, so it is given by that value. *)
Inductive EventData :=
| UserMessageData (content : string)
| AssistantStatusData (content : string)
| SystemFeedbackData (content reason : string)
| AskUser (data : AskUserData)
| ToolCallData (id name arguments : string)
| ToolResultData (id name result : string) (duration : Z) (success : bool)
| ErrorData (message : string)
| CompleteData (summary : string)
| HistoryCompacted (data : HistoryCompactedData)
| OtherData (payload : jval).

Record RuntimeEvent := { ev_Type : string; ev_Data : EventData }.

Record RunMessage := {
  rm_ID : string;
  rm_RunID : string;
  rm_Type : string;
  rm_Name : string;
  rm_ToolCallID : option string;
  rm_Content : string;
  rm_Success : option bool;
  rm_Duration : option Z;
  rm_CreatedAt : time;
}.

(** * Encoding the payloads *)

Definition opt_int (k : string) (n : Z) : list (string * jval) :=
  if (n =? 0)%Z then [] else [(k, JNum (itoa n))].

Definition encode_compacted (d : HistoryCompactedData) : jval :=
  JObj (opt_str "summary" (hc_Summary d) ++ [("shadowed_items", JNum (itoa (hc_ShadowedItems d)))]
        ++ opt_int "pinned_items" (hc_PinnedItems d) ++ [("method", JStr (hc_Method d))]
        ++ opt_int "prompt_tokens" (hc_PromptTokens d) ++ opt_int "context_window" (hc_ContextWindow d)).
Definition encode_feedback (content reason : string) : jval :=
  JObj (("content", JStr content) :: opt_str "reason" reason).
Definition encode_option (o : AskUserOption) : jval :=
  JObj ([("id", JStr (op_ID o)); ("label", JStr (op_Label o))] ++ opt_str "hint" (op_Hint o)).
Definition encode_authorization (a : ActionAuthorizationRequest) : jval :=
  JObj [("action", JStr (au_Action a)); ("resource_ref", JStr (au_ResourceRef a)); ("payload_json", JStr (au_PayloadJSON a))].
Definition encode_ask (d : AskUserData) : jval :=
  JObj ([("question", JStr (aq_Question d))] ++ opt_str "reason" (aq_Reason d) ++ opt_str "scope" (aq_Scope d)
        ++ opt_str "context_ref" (aq_ContextRef d) ++ opt_str "input_hint" (aq_InputHint d)
        ++ [("required", JBool (aq_Required d))] ++ opt_str "selection_mode" (aq_SelectionMode d)
        ++ [("allow_custom", JBool (aq_AllowCustom d))]
        ++ (if (length (aq_Options d) =? 0)%nat then [] else [("options", JArr (map encode_option (aq_Options d)))])
        ++ (match aq_Authorization d with None => [] | Some a => [("authorization", encode_authorization a)] end)
        ++ opt_str "tool_call_id" (aq_ToolCallID d)).

(** [json.Marshal] of a [json.RawMessage]: the text must be valid; white space
    outside strings goes, and the HTML characters and line separators inside are
    escaped. *)
Fixpoint compact_loop (in_str : bool) (l : list ascii) : list ascii :=
  match l with
  | [] => []
  | a :: l1 =>
      let n := byteZ a in
      if in_str then
        if (n =? 92)%Z then match l1 with b :: l2 => a :: b :: compact_loop true l2 | [] => [a] end
        else if (n =? 34)%Z then a :: compact_loop false l1
        else if (n =? 60)%Z || (n =? 62)%Z || (n =? 38)%Z then u00 n ++ compact_loop true l1
        else match l1 with
        | b :: c :: l3 =>
            if (n =? 226)%Z && (byteZ b =? 128)%Z && ((byteZ c =? 168)%Z || (byteZ c =? 169)%Z)
            then String.list_ascii_of_string "\u202" ++ [hexdigit (byteZ c - 160)] ++ compact_loop true l3
            else a :: compact_loop true l1
        | _ => a :: compact_loop true l1
        end
      else if is_ws a then compact_loop false l1
      else a :: compact_loop (n =? 34)%Z l1
  end.
Definition json_compact (raw : string) : option string :=
  let! v := Unmarshal raw in Some (str_text (compact_loop false (String.list_ascii_of_string raw))).

(** [encode_error] is the text of the error for arguments that are not JSON. *)
Definition encode_arguments (encode_error : string -> string) (arguments : string) : string :=
  match json_compact arguments with
  | Some text => text
  | None => MarshalMap [("invalid_arguments", JStr arguments); ("encode_error", JStr (encode_error arguments))]
  end.

(** [uuid] and [createdAt] are the identifier and the time of submission. *)
Definition saveEventToDBSync (encode_error : string -> string) (runID : string) (ev : RuntimeEvent)
    (uuid : string) (createdAt : time) : RunMessage :=
  let msg name callID content success duration :=
    {| rm_ID := uuid; rm_RunID := runID; rm_Type := ev_Type ev; rm_Name := name; rm_ToolCallID := callID;
       rm_Content := content; rm_Success := success; rm_Duration := duration; rm_CreatedAt := createdAt |} in
  let id_or_nil id := if id =? "" then None else Some id in
  match ev_Data ev with
  | UserMessageData content | AssistantStatusData content => msg "" None content None None
  | SystemFeedbackData content reason => msg "" None (Marshal (encode_feedback content reason)) None None
  | AskUser data => msg "" None (Marshal (encode_ask data)) None None
  | ToolCallData id name arguments =>
      msg name (id_or_nil id) (encode_arguments encode_error arguments) None None
  | ToolResultData id name result duration success =>
      msg name (id_or_nil id) result (Some success) (Some duration)
  | ErrorData message => msg "" None message None None
  | CompleteData summary => msg "" None summary None None
  | HistoryCompacted data => msg "" None (Marshal (encode_compacted data)) None None
  | OtherData payload => msg "" None (Marshal payload) None None
  end.

(** * Decoding the payloads *)

Definition compacted_fields : list (string * (jval -> bool)) :=
  [("summary", is_jstr); ("shadowed_items", is_jint); ("pinned_items", is_jint); ("method", is_jstr);
   ("prompt_tokens", is_jint); ("context_window", is_jint)].
Definition decode_compacted (raw : string) : option HistoryCompactedData :=
  let! m := decode_struct compacted_fields raw in
  Some {| hc_Summary := string_field m "summary"; hc_ShadowedItems := int_field m "shadowed_items";
          hc_PinnedItems := int_field m "pinned_items"; hc_Method := string_field m "method";
          hc_PromptTokens := int_field m "prompt_tokens"; hc_ContextWindow := int_field m "context_window" |}.

(** The [Content] of a feedback event. *)
Definition decode_feedback (raw : string) : option string :=
  let! m := decode_struct [("content", is_jstr); ("reason", is_jstr)] raw in
  Some (string_field m "content").

Definition decode_ask (raw : string) : option AskUserData :=
  let! m := decode_struct (ask_user_fields ++ [("tool_call_id", is_jstr)]) raw in
  Some {| aq_Question := string_field m "question"; aq_Reason := string_field m "reason";
          aq_Scope := string_field m "scope"; aq_ContextRef := string_field m "context_ref";
          aq_InputHint := string_field m "input_hint"; aq_Required := bool_field m "required";
          aq_SelectionMode := string_field m "selection_mode"; aq_AllowCustom := bool_field m "allow_custom";
          aq_Options := default [] (let! v := m !! "options" in decode_options v);
          aq_Authorization := let! v := m !! "authorization" in decode_authorization v;
          aq_ToolCallID := string_field m "tool_call_id" |}.

(** * The fold *)

Record historyFolder := {
  hf_items : list ConversationItem;
  hf_pending : option ConversationItem;
  hf_openAskID : string;
  hf_openAskRun : string;
  hf_omitted : Z;
  hf_summary : string;
}.
Definition new_folder : historyFolder :=
  {| hf_items := []; hf_pending := None; hf_openAskID := ""; hf_openAskRun := ""; hf_omitted := 0; hf_summary := "" |}.

Definition set_items (f : historyFolder) (items : list ConversationItem) (pending : option ConversationItem) :
    historyFolder :=
  {| hf_items := items; hf_pending := pending; hf_openAskID := hf_openAskID f; hf_openAskRun := hf_openAskRun f;
     hf_omitted := hf_omitted f; hf_summary := hf_summary f |}.
Definition set_ask (f : historyFolder) (id run : string) : historyFolder :=
  {| hf_items := hf_items f; hf_pending := hf_pending f; hf_openAskID := id; hf_openAskRun := run;
     hf_omitted := hf_omitted f; hf_summary := hf_summary f |}.

Definition flush (f : historyFolder) : historyFolder :=
  match hf_pending f with
  | None => f
  | Some item =>
      if blank (ci_Content item) && (length (ci_ToolCalls item) =? 0)%nat then set_items f (hf_items f) None
      else set_items f (hf_items f ++ [item]) None
  end.
Definition append_item (f : historyFolder) (item : ConversationItem) : historyFolder :=
  set_items f (hf_items f ++ [item]) (hf_pending f).

Definition pendingToolCall (f : historyFolder) (callID name arguments : string) : historyFolder :=
  let pending := default (text_item LLMRoleAssistant "") (hf_pending f) in
  let call := {| tc_ID := callID; tc_Type := LLMToolTypeFunction;
                 tc_Function := {| fc_Name := name; fc_Arguments := arguments; fc_ThoughtSignature := "" |} |} in
  set_items f (hf_items f) (Some (calls_item (ci_Content pending) (ci_ToolCalls pending ++ [call]))).

Definition toolCallIDOr (msg : RunMessage) (prefix : string) : string :=
  match rm_ToolCallID msg with
  | Some id => if blank id then (prefix ++ rm_ID msg)%string else id
  | None => (prefix ++ rm_ID msg)%string
  end.

Inductive RebuildError := EDecodeEvent (id : string).

Definition applyCompactionCheckpoint (f : historyFolder) (msg : RunMessage) : res RebuildError historyFolder :=
  match decode_compacted (rm_Content msg) with
  | None => Err (EDecodeEvent (rm_ID msg))
  | Some data =>
      let f := flush f in
      let n := Z.of_nat (length (hf_items f)) in
      let pinned := if (hc_PinnedItems data <? 0)%Z || (n <? hc_PinnedItems data)%Z then 0%Z else hc_PinnedItems data in
      let shadowed := if (hc_ShadowedItems data <? 0)%Z || (n <? pinned + hc_ShadowedItems data)%Z
                      then 0%Z else hc_ShadowedItems data in
      let items := take (Z.to_nat pinned) (hf_items f) ++ drop (Z.to_nat (pinned + shadowed)) (hf_items f) in
      let summarized := (hc_Method data =? HistoryCompactionMethodSummary) && negb (blank (hc_Summary data)) in
      Ok {| hf_items := items; hf_pending := hf_pending f; hf_openAskID := hf_openAskID f;
            hf_openAskRun := hf_openAskRun f;
            hf_omitted := if summarized then hf_omitted f else (hf_omitted f + shadowed)%Z;
            hf_summary := if summarized then hc_Summary data else hf_summary f |}
  end.

Section rebuild.
Context (spill : string -> option string).

Definition consume_ask (f : historyFolder) (msg : RunMessage) : res RebuildError historyFolder :=
  match decode_ask (rm_Content msg) with
  | None => Err (EDecodeEvent (rm_ID msg))
  | Some ask =>
      let callID := if TrimSpace (aq_ToolCallID ask) =? "" then ("ask_" ++ rm_ID msg)%string
                    else TrimSpace (aq_ToolCallID ask) in
      let stripped :=
        {| aq_Question := aq_Question ask; aq_Reason := aq_Reason ask; aq_Scope := aq_Scope ask;
           aq_ContextRef := aq_ContextRef ask; aq_InputHint := aq_InputHint ask; aq_Required := aq_Required ask;
           aq_SelectionMode := aq_SelectionMode ask; aq_AllowCustom := aq_AllowCustom ask;
           aq_Options := aq_Options ask; aq_Authorization := aq_Authorization ask; aq_ToolCallID := "" |} in
      Ok (set_ask (flush (pendingToolCall f callID "user_request_input" (Marshal (encode_ask stripped))))
            callID (rm_RunID msg))
  end.

Definition rebuild_consume (f : historyFolder) (msg : RunMessage) : res RebuildError historyFolder :=
  if rm_Type msg =? EventUser then
    if negb (hf_openAskID f =? "") && (rm_RunID msg =? hf_openAskRun f) then
      Ok (set_ask (append_item (flush f)
             (tool_item (buildAskUserToolResult (rm_Content msg) "") (hf_openAskID f) "user_request_input")) "" "")
    else Ok (append_item (flush f) (text_item LLMRoleUser (rm_Content msg)))
  else if rm_Type msg =? EventAssistantStatus then
    let f := flush f in Ok (set_items f (hf_items f) (Some (text_item LLMRoleAssistant (rm_Content msg))))
  else if rm_Type msg =? EventToolCall then
    Ok (pendingToolCall f (toolCallIDOr msg "call_") (rm_Name msg) (rm_Content msg))
  else if rm_Type msg =? EventToolResult then
    Ok (append_item (flush f)
          (tool_item (historyToolResultContent spill (rm_Name msg) (rm_Content msg))
             (toolCallIDOr msg "call_") (rm_Name msg)))
  else if rm_Type msg =? EventUserRequestInput then consume_ask f msg
  else if rm_Type msg =? EventRunCompleted then
    let f := flush f in
    Ok (if blank (rm_Content msg) then f else append_item f (text_item LLMRoleAssistant (rm_Content msg)))
  else if rm_Type msg =? EventHistoryCompacted then applyCompactionCheckpoint f msg
  else if rm_Type msg =? EventSystemFeedback then
    match decode_feedback (rm_Content msg) with
    | None => Err (EDecodeEvent (rm_ID msg))
    | Some content =>
        let f := flush f in
        Ok (if blank content then f else append_item f (text_item LLMRoleUser content))
    end
  else if (rm_Type msg =? EventError) || (rm_Type msg =? EventRunCancelled) then Ok (flush f)
  else Ok f.

(** [sort.SliceStable] by creation time. *)
Fixpoint insert_created (m : RunMessage) (l : list RunMessage) : list RunMessage :=
  match l with
  | [] => [m]
  | x :: l' => if Before (rm_CreatedAt x) (rm_CreatedAt m) then x :: insert_created m l' else m :: l
  end.
Definition sort_created (l : list RunMessage) : list RunMessage := foldr insert_created [] l.

(** The history, the number of omitted items and the digest. *)
Definition RebuildHistoryFromMessages (messages : list RunMessage) :
    res RebuildError (list ConversationItem * Z * string) :=
  let? folder := fold_res rebuild_consume new_folder (sort_created messages) in
  let folder := flush folder in
  Ok (repairToolPairing (hf_items folder) (hf_openAskID folder), hf_omitted folder, hf_summary folder).
End rebuild.

(** * Specification: the live engine's turns and their log *)

(** What the engine does to its history, one turn at a time: a user message, a
    final answer, a corrective turn, an assistant turn with one executed tool
    call, and a compaction whose digest is [summary] (empty when summarizing
    failed). *)
Inductive live_op :=
| OpUser (content : string)
| OpFinal (content reasoning : string)
| OpFeedback (content : string)
| OpCall (content reasoning id name arguments result : string)
| OpCompact (summary : string).

Definition assistant_item (content reasoning : string) (calls : list LLMToolCall) : ConversationItem :=
  compactAssistantMessage {| lm_Role := LLMRoleAssistant; lm_Content := content;
                             lm_ReasoningContent := reasoning; lm_ToolCalls := calls |}.
Definition call_of (id name arguments : string) : LLMToolCall :=
  {| tc_ID := id; tc_Type := LLMToolTypeFunction;
     tc_Function := {| fc_Name := name; fc_Arguments := arguments; fc_ThoughtSignature := "" |} |}.
Definition event (t : string) (d : EventData) : RuntimeEvent := {| ev_Type := t; ev_Data := d |}.
Definition status_event (content : string) : list RuntimeEvent :=
  if content =? "" then [] else [event EventAssistantStatus (AssistantStatusData content)].

Section live.
Context (spill : string -> option string) (encode_error : string -> string).

(** The engine after the turn and the events it emits, in order. *)
Definition live_step (e : Engine) (op : live_op) : Engine * list RuntimeEvent :=
  match op with
  | OpUser c => (append_history e (text_item LLMRoleUser c), [event EventUser (UserMessageData c)])
  | OpFinal c r => (append_history e (assistant_item c r []), [event EventRunCompleted (CompleteData c)])
  | OpFeedback c =>
      (append_history e (text_item LLMRoleUser c),
       [event EventSystemFeedback (SystemFeedbackData c "invalid_final_output")])
  | OpCall c r id name args result =>
      (append_history (append_history e (assistant_item c r [call_of id name args]))
         (tool_item (historyToolResultContent spill name result) id ""),
       status_event c ++ [event EventToolCall (ToolCallData id name args);
                          event EventToolResult (ToolResultData id name result 0 true)])
  | OpCompact summary =>
      let '(span, shadowed, pinned) := selectCompactionSpan e in
      if (0 <? shadowed)%nat then
        (applyCompaction e shadowed pinned summary,
         [event EventHistoryCompacted (HistoryCompacted
            {| hc_Summary := summary; hc_ShadowedItems := Z.of_nat shadowed; hc_PinnedItems := Z.of_nat pinned;
               hc_Method := if summary =? "" then HistoryCompactionMethodTrim else HistoryCompactionMethodSummary;
               hc_PromptTokens := 0; hc_ContextWindow := 0 |})])
      else (e, [])
  end.

Fixpoint live_run (e : Engine) (ops : list live_op) : Engine * list RuntimeEvent :=
  match ops with
  | [] => (e, [])
  | op :: ops' =>
      let '(e1, evs) := live_step e op in
      let '(e2, evs') := live_run e1 ops' in (e2, evs ++ evs')
  end.

(** The texts the fold relies on: answers are not blank, digests are valid UTF-8
    and not blank unless empty, a call has an identifier and its arguments are
    compact JSON. *)
Definition op_ok (op : live_op) : Prop :=
  match op with
  | OpUser _ => True
  | OpFinal c _ => blank c = false
  | OpFeedback c => blank c = false /\ ValidString c = true
  | OpCall _ _ id _ args _ => blank id = false /\ json_compact args = Some args
  | OpCompact summary => (summary = "" \/ blank summary = false) /\ ValidString summary = true
  end.

(** The log: each event with its identifier and time of submission. *)
Definition persist (runID : string) (evs : list RuntimeEvent) (stamps : list (string * time)) : list RunMessage :=
  zip_with (fun ev st => saveEventToDBSync encode_error runID ev st.1 st.2) evs stamps.

(** What the model sees of an item: not the reasoning, and a tool result is
    matched by its identifier, not by the name beside it. *)
Definition wire (item : ConversationItem) : string * string * list LLMToolCall * string :=
  (ci_Role item, ci_Content item, ci_ToolCalls item, ci_ToolCallID item).

(** The fold's state corresponds to the live engine's. *)
Record sim (f : historyFolder) (e : Engine) : Prop := {
  sim_items : map wire (hf_items f) = map wire (en_history e);
  sim_paired : paired "" (hf_items f);
  sim_live : paired "" (en_history e);
  sim_pending : hf_pending f = None;
  sim_ask : hf_openAskID f = "";
  sim_omitted : hf_omitted f = en_omitted e;
  sim_summary : hf_summary f = en_historySummary e;
  sim_size : (Z.of_nat (length (en_history e)) < 9223372036854775807)%Z;
}.
End live.

(** A short session: a question, a call and its result, an answer, then a long
    exchange and a compaction. *)
Definition sample_ops : list live_op :=
  [OpUser "q"; OpCall "looking" "think" "c1" "sql" "{}" "r"; OpFinal "done" ""]
  ++ repeat (OpUser "more") 12 ++ [OpCompact "digest"].
Definition no_spill (_ : string) : option string := None.
Definition bad_json (_ : string) : string := "invalid".

(** * Lemmas *)

Lemma decode_encode_compacted d :
  ValidString (hc_Summary d) = true -> (hc_Method d = "summary" \/ hc_Method d = "trim") ->
  (0 <= hc_ShadowedItems d <= 9223372036854775807)%Z -> (0 <= hc_PinnedItems d <= 9223372036854775807)%Z ->
  hc_PromptTokens d = 0%Z -> hc_ContextWindow d = 0%Z ->
  decode_compacted (Marshal (encode_compacted d)) = Some d.
Proof.
  intros Hs Hm H1 H2 H3 H4. destruct d as [summary shadowed pinned method prompt window]. simpl in *. subst.
  unfold decode_compacted, decode_struct, Validate.
  assert (ValidString method = true) as Hvm by (destruct Hm as [-> | ->]; reflexivity).
  rewrite Unmarshal_Marshal.
  - unfold encode_compacted, opt_str, opt_int. cbn [hc_Summary hc_ShadowedItems hc_PinnedItems hc_Method hc_PromptTokens hc_ContextWindow].
    pose proof (parse_int_itoa shadowed ltac:(lia)) as Hp1. pose proof (parse_int_itoa pinned ltac:(lia)) as Hp2.
    destruct (summary =? "") eqn:Hse; destruct (pinned =? 0)%Z eqn:Hpe; reflect_bools; subst;
      cbn -[itoa parse_int lookup insert gmap_empty bool_decide]; rewrite ?Hp1, ?Hp2; cbn -[itoa parse_int lookup insert bool_decide];
      unfold is_jint; rewrite ?Hp1, ?Hp2; cbn -[itoa parse_int lookup insert];
      unfold string_field, int_field; simplify_map_eq; rewrite ?Hp1, ?Hp2; reflexivity.
  - unfold encode_compacted, opt_str, opt_int. simpl.
    destruct (summary =? ""); destruct (pinned =? 0)%Z; simpl; repeat first [apply number_ok_itoa | assumption | split].
  - unfold encode_compacted, opt_str, opt_int. simpl. destruct (summary =? ""); destruct (pinned =? 0)%Z; vm_compute; congruence.
Qed.

Lemma decode_encode_feedback content :
  ValidString content = true ->
  decode_feedback (Marshal (encode_feedback content "invalid_final_output")) = Some content.
Proof.
  intros Hs. unfold decode_feedback, decode_struct, Validate. rewrite Unmarshal_Marshal.
  - cbn -[lookup insert]. unfold string_field. by simplify_map_eq.
  - simpl. repeat split; auto.
  - vm_compute. congruence.
Qed.

Lemma insert_created_sorted m l :
  Forall (fun x => (rm_CreatedAt m <= rm_CreatedAt x)%Z) l -> insert_created m l = m :: l.
Proof.
  destruct l as [|x l]; [done|]. intros [Hx _]%Forall_cons. simpl. unfold Before.
  by rewrite (proj2 (Z.ltb_ge _ _) Hx).
Qed.

(** Sorting leaves messages that are already in order alone. *)
Lemma sort_created_sorted l :
  StronglySorted Z.le (map rm_CreatedAt l) -> sort_created l = l.
Proof.
  induction l as [|m l IH]; [done|]. intros Hs. simpl in *.
  apply StronglySorted_inv in Hs as [Hs Hall]. unfold sort_created in IH |- *. simpl. rewrite IH by done.
  apply insert_created_sorted. rewrite Forall_forall in Hall. apply Forall_forall. intros x Hx. apply Hall.
  by apply list_elem_of_fmap_2.
Qed.

Lemma wire_tool x y : wire x = wire y -> is_tool x = is_tool y.
Proof. unfold wire, is_tool. by intros [= -> _ _ _]. Qed.

Lemma wire_length l1 l2 : map wire l1 = map wire l2 -> length l1 = length l2.
Proof. intros H. apply (f_equal length) in H. by rewrite !length_map in H. Qed.

Lemma wire_cut l1 l2 n : map wire l1 = map wire l2 -> cut_ok l1 n -> cut_ok l2 n.
Proof.
  intros Hw Hcut y Hy. assert (map wire l1 !! n = Some (wire y)) as Hx.
  { rewrite Hw. by apply list_lookup_fmap_Some_2. }
  apply list_lookup_fmap_Some in Hx as (x & Heq & Hx). rewrite (wire_tool y x) by done. auto.
Qed.

Lemma paired_snoc_plain h item :
  paired "" h -> is_tool item = false -> calls_tools item = false -> paired "" (h ++ [item]).
Proof. intros Hp Ht Hc. apply paired_app; [done|]. apply paired_plain; [done|done|constructor]. Qed.

Lemma paired_snoc_call h item result id :
  paired "" h -> ci_Role item = LLMRoleAssistant -> map tc_ID (ci_ToolCalls item) = [id] ->
  ci_Role result = LLMRoleTool -> ci_ToolCallID result = id ->
  paired "" (h ++ [item; result]).
Proof.
  intros Hp Hr Hid Hrt Hrid. apply paired_app; [done|].
  change [item; result] with (item :: [result] ++ []). apply paired_calls.
  - unfold is_tool. by rewrite Hr.
  - unfold calls_tools. rewrite Hr. by destruct (ci_ToolCalls item).
  - constructor; [|done]. unfold is_tool. by rewrite Hrt.
  - apply Forall_forall. intros c Hc. left. simpl. rewrite Hrid, <- Hid.
    by apply list_elem_of_fmap_2.
  - constructor.
Qed.

Lemma fold_res_cons {E S A} (f : S -> A -> res E S) s x l :
  fold_res f s (x :: l) = match f s x with Ok s' => fold_res f s' l | Err e => Err e end.
Proof. done. Qed.

Section simulation.
Context (spill : string -> option string) (encode_error : string -> string) (runID : string).

Abbreviation save ev st := (saveEventToDBSync encode_error runID ev st.1 st.2).

(** One plain item on both sides. *)
Lemma sim_append f e x y :
  sim f e -> wire x = wire y -> is_tool x = false -> calls_tools x = false ->
  (Z.of_nat (length (en_history e)) + 1 < 9223372036854775807)%Z ->
  sim (append_item (flush f) x) (append_history e y).
Proof.
  intros [H1 H2 H3 H4 H5 H6 H7 H8] Hw Ht Hc Hlen. unfold flush. rewrite H4.
  split; simpl; try done.
  - rewrite !map_app, H1. cbn [map]. by rewrite Hw.
  - by apply paired_snoc_plain.
  - apply paired_snoc_plain; [done|by rewrite <- (wire_tool x y)|].
    unfold wire in Hw. injection Hw as Hr _ Hcs _. unfold calls_tools in *. by rewrite <- Hr, <- Hcs.
  - rewrite length_app. simpl. lia.
Qed.

Lemma sim_call f e content reasoning id name args result st0 st1 st2 :
  sim f e -> op_ok (OpCall content reasoning id name args result) ->
  (Z.of_nat (length (en_history e)) + 2 < 9223372036854775807)%Z ->
  let item := assistant_item content reasoning [call_of id name args] in
  let result_item := tool_item (historyToolResultContent spill name result) id "" in
  exists f',
    fold_res (rebuild_consume spill) f
      (map (fun ev => save ev st0) (status_event content)
       ++ [save (event EventToolCall (ToolCallData id name args)) st1;
           save (event EventToolResult (ToolResultData id name result 0 true)) st2]) = Ok f'
    /\ sim f' (append_history (append_history e item) result_item).
Proof.
  intros [H1 H2 H3 H4 H5 H6 H7 H8] [Hid Hargs] Hlen item result_item.
  assert (id =? "" = false) as Hne.
  { apply String.eqb_neq. intros ->. vm_compute in Hid. done. }
  set (x := calls_item content [call_of id name args]).
  set (y := tool_item (historyToolResultContent spill name result) id name).
  exists (set_items f (hf_items f ++ [x; y]) None). split.
  - assert (forall f0, hf_items f0 = hf_items f -> (hf_pending f0 = None /\ content = ""
        \/ hf_pending f0 = Some (text_item LLMRoleAssistant content)) ->
      set_items f0 (hf_items f ++ [x; y]) None = set_items f (hf_items f ++ [x; y]) None ->
      fold_res (rebuild_consume spill) f0
        [save (event EventToolCall (ToolCallData id name args)) st1;
         save (event EventToolResult (ToolResultData id name result 0 true)) st2]
      = Ok (set_items f (hf_items f ++ [x; y]) None)) as Hmain.
    { intros f0 Hit Hpend Hset. rewrite <- Hset. unfold saveEventToDBSync, event. cbn [ev_Data ev_Type].
      rewrite Hne. unfold encode_arguments. rewrite Hargs.
      cbn [fold_res]. unfold rebuild_consume at 1. cbn [rm_Type].
      cbn -[flush pendingToolCall append_item toolCallIDOr]. unfold toolCallIDOr. cbn [rm_ToolCallID].
      rewrite Hid. unfold rebuild_consume. cbn -[flush pendingToolCall append_item blank].
      unfold pendingToolCall, append_item, flush. cbn -[blank].
      destruct Hpend as [[-> ->]| ->]; cbn -[blank]; rewrite andb_false_r; cbn; by rewrite Hit, <- app_assoc. }
    unfold status_event. destruct (content =? "") eqn:Hce; reflect_bools.
    + apply Hmain; [done|left; done|done].
    + simpl map. cbn [app]. rewrite fold_res_cons. unfold rebuild_consume at 1. cbn -[flush fold_res].
      unfold flush. rewrite H4. apply Hmain; [done|right; done|done].
  - split; simpl; try done.
    + rewrite <- app_assoc, !map_app, H1. done.
    + eapply paired_snoc_call; eauto.
    + rewrite <- app_assoc. eapply paired_snoc_call; eauto.
    + rewrite !length_app. simpl. lia.
Qed.
Lemma map_take_drop_wire l1 l2 n m :
  map wire l1 = map wire l2 -> map wire (take n l1 ++ drop m l1) = map wire (take n l2 ++ drop m l2).
Proof. intros Hw. rewrite !map_app, <- !firstn_map, <- !skipn_map. by rewrite Hw. Qed.

Lemma sim_compact f e summary st span shadowed pinned :
  sim f e -> op_ok (OpCompact summary) -> selectCompactionSpan e = (span, shadowed, pinned) -> 0 < shadowed ->
  exists f',
    rebuild_consume spill f
      (save (event EventHistoryCompacted (HistoryCompacted
         {| hc_Summary := summary; hc_ShadowedItems := Z.of_nat shadowed; hc_PinnedItems := Z.of_nat pinned;
            hc_Method := if summary =? "" then HistoryCompactionMethodTrim else HistoryCompactionMethodSummary;
            hc_PromptTokens := 0; hc_ContextWindow := 0 |})) st) = Ok f'
    /\ sim f' (applyCompaction e shadowed pinned summary).
Proof.
  intros [H1 H2 H3 H4 H5 H6 H7 H8] [Hsum Hvs] Hsel Hpos.
  destruct (selectCompactionSpan_spec _ _ _ _ _ H3 Hsel Hpos) as (Hpin & Hle & _ & Hcut).
  pose proof (pinned_cut "" _ H3) as Hpcut. rewrite <- Hpin in Hpcut.
  pose proof (wire_length _ _ H1) as Hlen.
  assert (pinned + shadowed <= length (en_history e)) as Hle' by lia.
  unfold rebuild_consume. cbn -[applyCompactionCheckpoint encode_compacted].
  unfold applyCompactionCheckpoint. cbn [rm_Content rm_ID].
  rewrite decode_encode_compacted; cbn [hc_Summary hc_Method hc_ShadowedItems hc_PinnedItems hc_PromptTokens hc_ContextWindow];
    [|done|destruct (summary =? ""); auto|lia|lia|done|done].
  replace (flush f) with f by (unfold flush; by rewrite H4).
  replace ((Z.of_nat pinned <? 0)%Z || (Z.of_nat (length (hf_items f)) <? Z.of_nat pinned)%Z) with false by lia.
  replace ((Z.of_nat shadowed <? 0)%Z || (Z.of_nat (length (hf_items f)) <? Z.of_nat pinned + Z.of_nat shadowed)%Z)
    with false by lia.
  eexists. split; [reflexivity|].
  rewrite <- Nat2Z.inj_add, !Nat2Z.id.
  assert (cut_ok (hf_items f) pinned) as Hp1 by (by apply (wire_cut (en_history e))).
  assert (cut_ok (hf_items f) (pinned + shadowed)) as Hp2 by (by apply (wire_cut (en_history e))).
  assert (en_omitted (applyCompaction e shadowed pinned summary)
          = (if blank summary then en_omitted e + Z.of_nat shadowed else en_omitted e)%Z
          /\ en_historySummary (applyCompaction e shadowed pinned summary)
          = (if blank summary then en_historySummary e else summary)) as [Ho Hs].
  { unfold applyCompaction. rewrite (proj2 (Nat.eqb_neq shadowed 0)) by lia.
    rewrite (proj2 (Nat.ltb_ge (length (en_history e)) (pinned + shadowed))) by lia. cbn [orb].
    by destruct (blank summary). }
  assert (((if summary =? "" then HistoryCompactionMethodTrim else HistoryCompactionMethodSummary)
           =? HistoryCompactionMethodSummary) && negb (blank summary) = negb (blank summary)) as ->.
  { destruct (summary =? "") eqn:He; [|done]. reflect_bools. by subst. }
  split; cbn [hf_items hf_pending hf_openAskID hf_omitted hf_summary].
  - rewrite applyCompaction_history by lia. by apply map_take_drop_wire.
  - apply paired_app; [by apply paired_cut|by apply paired_cut].
  - rewrite applyCompaction_history by lia. apply paired_app; by apply paired_cut.
  - done.
  - done.
  - rewrite Ho, H6. by destruct (blank summary).
  - rewrite Hs, H7. by destruct (blank summary).
  - rewrite applyCompaction_history, length_app, length_take, length_drop by lia. lia.
Qed.

(** One turn on both sides. *)
Lemma sim_step f e op e' evs stamps :
  sim f e -> op_ok op -> live_step spill e op = (e', evs) -> length stamps = length evs ->
  (Z.of_nat (length (en_history e)) + 2 < 9223372036854775807)%Z ->
  exists f', fold_res (rebuild_consume spill) f (persist encode_error runID evs stamps) = Ok f' /\ sim f' e'
    /\ length (en_history e') <= length (en_history e) + 2.
Proof.
  intros Hsim Hok Hstep Hst Hlen. destruct op as [c|c r|c|c r id name args result|summary]; cbn [live_step] in Hstep.
  - injection Hstep as <- <-. destruct stamps as [|st [|]]; try done.
    exists (append_item (flush f) (text_item LLMRoleUser c)). split; [|split].
    + cbn -[append_item flush]. by rewrite (sim_ask _ _ Hsim).
    + apply sim_append; try done. lia.
    + simpl. rewrite length_app. simpl. lia.
  - injection Hstep as <- <-. destruct stamps as [|st [|]]; try done.
    exists (append_item (flush f) (text_item LLMRoleAssistant c)). split; [|split].
    + cbn -[append_item flush blank]. simpl in Hok. by rewrite Hok.
    + apply sim_append; try done. lia.
    + simpl. rewrite length_app. simpl. lia.
  - injection Hstep as <- <-. destruct stamps as [|st [|]]; try done. destruct Hok as [Hb Hv].
    exists (append_item (flush f) (text_item LLMRoleUser c)). split; [|split].
    + unfold persist. cbn [zip_with fold_res]. unfold rebuild_consume.
      cbn -[append_item flush blank decode_feedback encode_feedback]. rewrite decode_encode_feedback by done.
      by rewrite Hb.
    + apply sim_append; try done. lia.
    + simpl. rewrite length_app. simpl. lia.
  - injection Hstep as <- <-. unfold status_event in Hst |- *.
    assert (exists st0 st1 st2, stamps = (if c =? "" then [] else [st0]) ++ [st1; st2]) as (st0 & st1 & st2 & ->).
    { destruct (c =? ""); [destruct stamps as [|st1 [|st2 [|]]]; try done; by exists st1, st1, st2|].
      destruct stamps as [|st0 [|st1 [|st2 [|]]]]; try done. by exists st0, st1, st2. }
    destruct (sim_call f e c r id name args result st0 st1 st2 Hsim Hok Hlen) as (f' & Hf & Hs).
    exists f'. split; [|split; [exact Hs|simpl; rewrite !length_app; simpl; lia]].
    rewrite <- Hf. unfold persist, status_event. by destruct (c =? "").
  - destruct (selectCompactionSpan e) as [[span shadowed] pinned] eqn:Hsel.
    destruct (0 <? shadowed)%nat eqn:Hpos; injection Hstep as <- <-.
    + destruct stamps as [|st [|]]; try done. apply Nat.ltb_lt in Hpos.
      destruct (sim_compact f e summary st _ _ _ Hsim Hok Hsel Hpos) as (f' & Hf & Hs).
      exists f'. split; [unfold persist; cbn [zip_with fold_res]; by rewrite Hf|]. split; [done|].
      apply sim_items, wire_length in Hs as Hl. apply sim_live in Hsim as Hp.
      destruct (selectCompactionSpan_spec _ _ _ _ _ Hp Hsel Hpos) as (_ & Hle & _ & _).
      rewrite applyCompaction_history, length_app, length_take, length_drop by lia. lia.
    + destruct stamps; [|done]. exists f. split; [done|]. split; [done|lia].
Qed.

Lemma sim_run ops f e e' evs stamps :
  sim f e -> Forall op_ok ops -> live_run spill e ops = (e', evs) -> length stamps = length evs ->
  (Z.of_nat (length (en_history e)) + 2 * Z.of_nat (length ops) < 9223372036854775807)%Z ->
  exists f', fold_res (rebuild_consume spill) f (persist encode_error runID evs stamps) = Ok f' /\ sim f' e'.
Proof.
  intros Hsim Hok. revert f e e' evs stamps Hsim.
  induction Hok as [|op ops Hop Hok IH]; intros f e e' evs stamps Hsim; simpl.
  - intros [= <- <-] Hst _. destruct stamps; [|done]. by exists f.
  - destruct (live_step spill e op) as [e1 evs1] eqn:Hs. destruct (live_run spill e1 ops) as [e2 evs2] eqn:Hr.
    intros [= <- <-] Hst Hlen. rewrite length_app in Hst.
    rewrite <- (take_drop (length evs1) stamps).
    destruct (sim_step f e op e1 evs1 (take (length evs1) stamps) Hsim Hop Hs) as (f1 & Hf1 & Hs1 & Hl1);
      [rewrite length_take; lia|lia|].
    destruct (IH f1 e1 e2 evs2 (drop (length evs1) stamps) Hs1 Hr) as (f2 & Hf2 & Hs2);
      [rewrite length_drop; lia|lia|].
    exists f2. split; [|done]. unfold persist in *.
    rewrite zip_with_app by (rewrite length_take; lia). by rewrite fold_res_app, Hf1.
Qed.
End simulation.

Lemma sim_initial policy : sim new_folder (NewEngine policy).
Proof. split; try done; try constructor. Qed.

#[export] Hint Resolve sim_initial : go.

(** * Properties *)



(** an assistant turn with several calls is not rebuilt as one item.  The
    engine stores the turn as one assistant item followed by the results and emits
    each call with its result, one call after the other; the fold flushes at every
    result, so the log of a turn with three calls comes back as three assistant
    turns, and a checkpoint that shadowed the whole live turn (four items) leaves
    the third call and its result in the rebuilt history. *)
Theorem rebuild_splits_batches :
  let turn := assistant_item "looking" "" [call_of "c1" "sql" "{}"; call_of "c2" "sql" "{}"; call_of "c3" "sql" "{}"] in
  let live := [text_item LLMRoleUser "q"; turn; tool_item "null" "c1" ""; tool_item "null" "c2" ""; tool_item "null" "c3" ""] in
  let logged id := [event EventToolCall (ToolCallData id "sql" "{}"); event EventToolResult (ToolResultData id "sql" "null" 0 true)] in
  let log := [event EventUser (UserMessageData "q"); event EventAssistantStatus (AssistantStatusData "looking")]
             ++ logged "c1" ++ logged "c2" ++ logged "c3" in
  let checkpoint := event EventHistoryCompacted (HistoryCompacted
        {| hc_Summary := "digest"; hc_ShadowedItems := 4; hc_PinnedItems := 1; hc_Method := "summary";
           hc_PromptTokens := 0; hc_ContextWindow := 0 |}) in
  let rebuild evs := RebuildHistoryFromMessages no_spill (persist bad_json "r" evs (map (fun _ => ("m", 1%Z)) evs)) in
  rebuild log
  = Ok ([text_item LLMRoleUser "q"; assistant_item "looking" "" [call_of "c1" "sql" "{}"]; tool_item "null" "c1" "sql";
         assistant_item "" "" [call_of "c2" "sql" "{}"]; tool_item "null" "c2" "sql";
         assistant_item "" "" [call_of "c3" "sql" "{}"]; tool_item "null" "c3" "sql"], 0%Z, "")
  /\ repairToolPairing live "" = live
  /\ en_history (applyCompaction (with_history (NewEngine "") live) 4 1 "digest") = [text_item LLMRoleUser "q"]
  /\ rebuild (log ++ [checkpoint])
     = Ok ([text_item LLMRoleUser "q"; assistant_item "" "" [call_of "c3" "sql" "{}"]; tool_item "null" "c3" "sql"],
           0%Z, "digest").
Proof. vm_compute. split_and!; reflexivity. Qed.
