(* ===== verification/FinalGuard.v ===== *)
(** Model of the guard that rejects a final answer leaking raw tool-call markup
    (server/agent/final_output_guard.go).  The three regular expressions are
    matched on the runes of the text, as Go's [regexp] does. *)
From S2P Require Import Prelude GoStrings Json.
Open Scope string_scope.
Open Scope list_scope.

Definition maxFinalMarkupRejects : nat := 2.

(** Case folding of [(?i)] for the letters of the patterns. *)
Definition fold_rune (r : Z) : Z :=
  if (65 <=? r)%Z && (r <=? 90)%Z then (r + 32)%Z
  else if (r =? 383)%Z then 115%Z else if (r =? 8490)%Z then 107%Z else r.

Definition letters (s : string) : list Z := map byteZ (String.list_ascii_of_string s).

(** Match a word, ignoring case; the runes after it. *)
Fixpoint eat_word (word l : list Z) : option (list Z) :=
  match word, l with
  | [], _ => Some l
  | c :: word', r :: l' => if (fold_rune r =? c)%Z then eat_word word' l' else None
  | _, [] => None
  end.

Definition opt_slash (l : list Z) : list Z :=
  match l with r :: l' => if (r =? 47)%Z then l' else l | [] => [] end.

(** </?｜[^>]{0,64}> at the start of [l] *)
Definition fullwidth_tag (l : list Z) : bool :=
  match l with
  | r :: l1 =>
      (r =? 60)%Z &&
      match opt_slash l1 with
      | b :: l2 =>
          (b =? 65372)%Z &&
          (let '(inside, rest) := span (fun r => negb (r =? 62)%Z) l2 in
           (length inside <=? 64)%nat && negb (length rest =? 0)%nat)
      | [] => false
      end
  | [] => false
  end.

(** A keyword at one of the first 33 positions of the inside of a pipe tag, with
    at most 32 runes after it. *)
Fixpoint keyword_within (tries : nat) (inside : list Z) : bool :=
  existsb (fun w => match eat_word (letters w) inside with
                    | Some after => (length after <=? 32)%nat
                    | None => false
                    end) ["tool"; "invoke"; "dsml"]
  || match tries, inside with
     | S tries, _ :: inside' => keyword_within tries inside'
     | _, _ => false
     end.

(** (?i)<\|[^|>]{0,32}(?:tool|invoke|dsml)[^|>]{0,32}\|> *)
Definition pipe_tag (l : list Z) : bool :=
  match l with
  | a :: b :: l2 =>
      (a =? 60)%Z && (b =? 124)%Z &&
      (let '(inside, rest) := span (fun r => negb ((r =? 124)%Z || (r =? 62)%Z)) l2 in
       match rest with
       | c :: d :: _ => (c =? 124)%Z && (d =? 62)%Z && keyword_within 32 inside
       | _ => false
       end)
  | _ => false
  end.

Definition word_rune (r : Z) : bool :=
  (48 <=? r)%Z && (r <=? 57)%Z || (65 <=? r)%Z && (r <=? 90)%Z || (97 <=? r)%Z && (r <=? 122)%Z || (r =? 95)%Z.

(** The boundary [\b] between the last rune of a matched word and what follows. *)
Definition boundary (before after : list Z) : bool :=
  let w l := match l with r :: _ => word_rune r | [] => false end in
  negb (Bool.eqb (w (rev before)) (w after)).

(** (?i)</?(?:tool_calls?|function_calls?|invoke)\b[^>]*> *)
Definition xml_tag (l : list Z) : bool :=
  match l with
  | r :: l1 =>
      (r =? 60)%Z &&
      (let l2 := opt_slash l1 in
       existsb (fun w => match eat_word (letters w) l2 with
                         | Some after =>
                             boundary (take (length (letters w)) l2) after
                             && existsb (fun r => (r =? 62)%Z) after
                         | None => false
                         end)
         ["tool_call"; "tool_calls"; "function_call"; "function_calls"; "invoke"])
  | [] => false
  end.

Fixpoint anywhere (p : list Z -> bool) (l : list Z) : bool :=
  p l || match l with _ :: l' => anywhere p l' | [] => false end.

Definition containsRawToolMarkup (content : string) : bool :=
  existsb (fun p => anywhere p (runes content)) [fullwidth_tag; pipe_tag; xml_tag].

Definition finalMarkupCorrectionMessage : string :=
  "[system_feedback] Your previous message contained raw tool-call markup (e.g. <｜…｜> tags or tool_call/invoke blocks) instead of a structured tool call, so it was rejected as a final answer. If you still need a tool, call it through the normal tool-call mechanism. Otherwise restate your final answer as plain text without any tool-call markup.".

(** Whether to reject, and the number of rejections after. *)
Definition finalMarkupGuardDecision (content : string) (rejects : nat) : bool * nat :=
  if (maxFinalMarkupRejects <=? rejects)%nat || negb (containsRawToolMarkup content) then (false, rejects)
  else (true, S rejects).

(** * Lemmas *)

Lemma guard_bound content rejects : rejects <= maxFinalMarkupRejects ->
  (finalMarkupGuardDecision content rejects).2 <= maxFinalMarkupRejects.
Proof.
  unfold finalMarkupGuardDecision. intros H. destruct (maxFinalMarkupRejects <=? rejects)%nat eqn:Hm; [done|].
  apply Nat.leb_gt in Hm. destruct (containsRawToolMarkup content); simpl; lia.
Qed.

Example markup_xml : containsRawToolMarkup "answer </Tool_Calls x> end" = true. Proof. reflexivity. Qed.
Example markup_pipe : containsRawToolMarkup "<|x dsml y|>" = true. Proof. reflexivity. Qed.
Example markup_full : containsRawToolMarkup "<｜DSML｜tool_calls>" = true. Proof. reflexivity. Qed.
Example markup_none : containsRawToolMarkup "a < b, <toolbox> and <invoked x>" = false. Proof. reflexivity. Qed.

#[export] Hint Resolve guard_bound : go.
