(* ===== verification/Execution.v ===== *)
(** Model of what surrounds one tool call of the engine: retries
    (server/agent/engine.go, [executeToolCall], [retryableToolExec]), the shape of
    results ([normalizeToolExecutionResult]), the repeat notices
    (server/agent/repeat_notice.go), the failure streaks (engine.go,
    [recordToolOutcome], [repeatedFailureBlock]) and the planning of a batch
    (server/agent/parallel_tools.go, [planToolCalls]). *)
From S2P Require Import Prelude GoStrings Json Conversation Jobs Tools Receipts Compaction HistoryRebuild.
From Stdlib Require Import Ascii.
Open Scope string_scope.
Open Scope list_scope.

(** * Repeat notices *)

Definition repeatNoticeThresholds : list Z := [3; 5; 8]%Z.

Definition NUL : string := String Ascii.zero "".

(** A Go map keeps the last of several members with one key. *)
Fixpoint last_members (kvs : list (string * jval)) : list (string * jval) :=
  match kvs with
  | [] => []
  | kv :: rest =>
      if existsb (fun kv' => kv'.1 =? kv.1) rest then last_members rest else kv :: last_members rest
  end.
Fixpoint collapse (v : jval) : jval :=
  match v with
  | JArr vs => JArr (map collapse vs)
  | JObj kvs => JObj (sort_keys (last_members (map (fun kv => (kv.1, collapse kv.2)) kvs)))
  | _ => v
  end.

(** [json.Unmarshal] into an [interface{}] and back. *)
Definition canonicalToolArguments (raw : string) : string :=
  match (let! v := Unmarshal raw in to_interface v) with
  | Some payload => Marshal (collapse payload)
  | None => raw
  end.

Definition recordRepeatCall (e : Engine) (call : LLMToolCall) : Engine :=
  let key := (fc_Name (tc_Function call) ++ NUL ++ canonicalToolArguments (fc_Arguments (tc_Function call)))%string in
  let count := (default 0 (en_repeatCalls e !! key) + 1)%Z in
  let notices := flat_map (fun threshold =>
    if (count =? threshold)%Z then
      [text_block "repeat_tool_notice" LLMRoleUser
         (MarshalMap [("tool", JStr (fc_Name (tc_Function call))); ("identical_calls", JNum (itoa count))])]
    else []) repeatNoticeThresholds in
  with_repeats e (<[key := count]> (en_repeatCalls e)) (en_pendingNotices e ++ notices).

Definition resetRepeatTracking (e : Engine) : Engine := with_repeats e ∅ [].

(** * Failure streaks *)

Definition nonDeterministicToolFailures : list string := ["tool_unavailable"; "tool_timeout"; "execution_error"].
Definition defaultRepeatedToolFailureThreshold : Z := 3.
(** [configured] is 0 when there is no configuration. *)
Definition repeatedToolFailureThreshold (configured : Z) : Z :=
  if (0 <? configured)%Z then configured else defaultRepeatedToolFailureThreshold.

Definition toolResultErrorCode (result : string) : string :=
  match (let! v := Unmarshal result in let! v := to_interface v in as_object v) with
  | Some kvs => match lookup_key kvs "error_code" with Some (JStr s) => TrimSpace s | _ => "" end
  | None => ""
  end.

Definition streak_prefix (toolName : string) : string := (toolName ++ NUL)%string.

Definition recordToolOutcome (e : Engine) (toolName result : string) (success : bool) : Engine :=
  if success then
    with_streaks e (filter (fun kc => HasPrefix kc.1 (streak_prefix toolName) = false) (en_failureStreaks e))
  else
    let code := toolResultErrorCode result in
    let code := if code =? "" then "execution_error" else code in
    if existsb (String.eqb code) nonDeterministicToolFailures then e
    else
      let key := (streak_prefix toolName ++ code)%string in
      with_streaks e (<[key := (default 0 (en_failureStreaks e !! key) + 1)%Z]> (en_failureStreaks e)).

(** The map is ranged over in an unspecified order; the first entry over the
    threshold is reported. *)
Definition repeatedFailureBlock (threshold : Z) (e : Engine) (toolName : string) : option (string * Z) :=
  match List.filter (fun kc => HasPrefix kc.1 (streak_prefix toolName) && negb (kc.2 <? threshold)%Z)
          (map_to_list (en_failureStreaks e)) with
  | (key, count) :: _ => Some (TrimPrefix key (streak_prefix toolName), count)
  | [] => None
  end.

(** * Results *)

Section execution.
Context {W : Type} (registry : Registry W).
(** [regexp] replacement of secrets, paths and addresses in an error text. *)
Context (sanitizeToolError : string -> string).
(** The text of the decoder's error for a text that is not a strict object. *)
Context (decode_error : string -> string).
(** The error of the run's context, when it is done. *)
Context (ctx_err : W -> option string).
(** Which wait of [executeToolCall] fires before the worker: the timer or the
    cancellation. *)
Context (interrupted : W -> string -> option ExecError).
(** Whether a retry delay ends with the context done. *)
Context (wait_delay : W -> W).

Definition failure_result (toolName code message : string) : string :=
  MarshalMap [("ok", JBool false); ("tool", JStr toolName); ("error_code", JStr code); ("message", JStr message)].

(** The result, whether it is a success and the contract error, if any. *)
Definition normalizeToolExecutionResult (toolName result : string) (execErr : option ExecError) :
    string * bool * option string :=
  match execErr with
  | Some err =>
      (failure_result toolName (if ee_Timeout err then "tool_timeout" else "execution_error")
         (sanitizeToolError (ee_Message err)), false, None)
  | None =>
      match decode_map result with
      | None =>
          let contract := ("tool " ++ toolName ++ " result is not a strict result object: " ++ decode_error result)%string in
          (failure_result toolName "invalid_tool_result" contract, false, Some contract)
      | Some payload =>
          match lookup_key payload "ok", lookup_key payload "tool" with
          | Some (JBool ok), Some (JStr resultTool) =>
              if resultTool =? toolName then (result, ok, None)
              else
                let contract := ("tool " ++ toolName ++ " result must contain exact ok and tool fields")%string in
                (failure_result toolName "invalid_tool_result" contract, false, Some contract)
          | _, _ =>
              let contract := ("tool " ++ toolName ++ " result must contain exact ok and tool fields")%string in
              (failure_result toolName "invalid_tool_result" contract, false, Some contract)
          end
      end
  end.

(** * Execution *)

(** An interrupted observation call is abandoned: its worker still runs, its
    result is discarded. *)
Definition executeToolCall (toolName args : string) (w : W) : W * res ExecError string :=
  match Registry_Get registry toolName with
  | Err _ => Registry_Execute registry toolName args w
  | Ok tool =>
      if negb (cap_Mode (toolCapability tool) =? "observe") then Registry_Execute registry toolName args w
      else
        let '(w', r) := Registry_Execute registry toolName args w in
        match interrupted w toolName with
        | Some err => (w', Err err)
        | None => (w', r)
        end
  end.

Definition toolIsIdempotent (toolName : string) : bool :=
  match Registry_Get registry toolName with
  | Err _ => false
  | Ok tool => cap_Idempotent (toolCapability tool) || (cap_Mode (toolCapability tool) =? "observe")
  end.

Definition ctx_error (msg : string) : ExecError :=
  {| ee_Message := msg; ee_Transient := false; ee_Timeout := false |}.

(** The loop on [attempt]; [delays] are the ones still to wait. *)
Fixpoint retry_loop (delays : nat) (toolName args : string) (w : W) : W * res ExecError string :=
  match ctx_err w with
  | Some msg => (w, Err (ctx_error msg))
  | None =>
      match executeToolCall toolName args w with
      | (w, Ok result) => (w, Ok result)
      | (w, Err err) =>
          if negb (ee_Transient err) then (w, Err err)
          else match delays with
               | O => (w, Err err)
               | S delays =>
                   let w := wait_delay w in
                   match ctx_err w with
                   | Some msg => (w, Err (ctx_error msg))
                   | None => retry_loop delays toolName args w
                   end
               end
      end
  end.

Definition retryableToolExec (toolName args : string) (w : W) : W * res ExecError string :=
  if negb (toolIsIdempotent toolName) then executeToolCall toolName args w
  else retry_loop 3 toolName args w.

(** * Planning a batch *)

Record plannedToolCall := {
  pl_call : LLMToolCall;
  pl_tool : option (Tool W);
  pl_capability : ToolCapability;
  pl_admission : Admission;
  pl_safe : bool;
}.

(** A suspending call must be alone in its turn. *)
Definition validateToolCallBatch (calls : list LLMToolCall) : bool :=
  let suspending := length (List.filter (fun call =>
    match Registry_Get registry (fc_Name (tc_Function call)) with
    | Ok tool => cap_RunControl (toolCapability tool) =? "suspend"
    | Err _ => false
    end) calls) in
  negb ((0 <? suspending)%nat && negb (length calls =? 1)%nat).

Definition validateToolCallArguments (args : string) : option string :=
  if (len args =? 0)%Z then Some "tool arguments are empty; a JSON object is required"
  else match decode_map args with
  | Some _ => None
  | None => Some ("tool arguments are not a valid JSON object: " ++ decode_error args)%string
  end.

(** An inconclusive probe counts as available; [t_CheckAvailability] gives the
    definite negative. *)
Definition probeToolAvailability (tool : Tool W) (w : W) : option string :=
  let! check := t_CheckAvailability tool in check w.

Definition deny_code (code reason : string) : Admission :=
  {| ad_Kind := AdmissionDeny; ad_Reason := reason; ad_Code := code |}.

(** The admission of a registered tool's call. *)
Definition admit_call (sha : string -> string) (threshold : Z) (now : time) (w : W) (e : Engine)
    (tool : Tool W) (call : LLMToolCall) : Engine * Admission :=
  let name := fc_Name (tc_Function call) in
  let args := fc_Arguments (tc_Function call) in
  let '(e, admission) := DecideToolCall (H := engine_approvals sha now) tool args true e in
  if decide (ad_Kind admission = AdmissionAllow) then
    let admission :=
      match repeatedFailureBlock threshold e name with
      | Some (code, count) =>
          deny_code "repeated_failure_blocked"
            ("tool " ++ name ++ " has failed " ++ itoa count ++ " times with error_code=" ++ code
             ++ " in this run; repeating the same call cannot succeed")%string
      | None =>
          match validateToolCallArguments args with
          | Some reason => deny_code "invalid_tool_arguments" reason
          | None => admission
          end
      end in
    match probeToolAvailability tool w with
    | Some reason => (e, deny_code "tool_unavailable" ("tool " ++ name ++ " is currently unavailable: " ++ reason)%string)
    | None => (e, admission)
    end
  else (e, admission).

(** A panic of the classifier counts as unsafe. *)
Definition toolIsConcurrencySafe (tool : Tool W) (args : string) : bool :=
  match t_IsConcurrencySafe tool with Some f => f args | None => false end.

Fixpoint planToolCalls (sha : string -> string) (threshold : Z) (now : time) (w : W) (e : Engine)
    (calls : list LLMToolCall) : Engine * list plannedToolCall :=
  match calls with
  | [] => (e, [])
  | call :: rest =>
      match Registry_Get registry (fc_Name (tc_Function call)) with
      | Err reason =>
          let '(e, plan) := planToolCalls sha threshold now w e rest in
          (e, {| pl_call := call; pl_tool := None; pl_capability := no_capability;
                 pl_admission := deny_code "unknown_tool" reason; pl_safe := false |} :: plan)
      | Ok tool =>
          let '(e, admission) := admit_call sha threshold now w e tool call in
          let '(e, plan) := planToolCalls sha threshold now w e rest in
          (e, {| pl_call := call; pl_tool := Some tool; pl_capability := toolCapability tool;
                 pl_admission := admission;
                 pl_safe := bool_decide (ad_Kind admission = AdmissionAllow)
                            && negb (cap_RunControl (toolCapability tool) =? "suspend")
                            && toolIsConcurrencySafe tool (fc_Arguments (tc_Function call)) |} :: plan)
      end
  end.

(** * Futures *)

(** [startParallelRun]: the maximal run of parallel-safe calls from here on is
    started; a call whose identifier already has a future is not.  The workers
    are run here one after the other, one of the orders in which they may. *)
Fixpoint startParallelRun (plan : list plannedToolCall) (futures : gmap string (res ExecError string)) (w : W) :
    W * gmap string (res ExecError string) :=
  match plan with
  | [] => (w, futures)
  | planned :: rest =>
      if negb (pl_safe planned) then (w, futures)
      else if bool_decide (is_Some (futures !! tc_ID (pl_call planned))) then startParallelRun rest futures w
      else
        let '(w, r) := retryableToolExec (fc_Name (tc_Function (pl_call planned)))
                         (fc_Arguments (tc_Function (pl_call planned))) w in
        startParallelRun rest (<[tc_ID (pl_call planned) := r]> futures) w
  end.

Definition runPlannedToolCall (call : LLMToolCall) (futures : gmap string (res ExecError string)) (w : W) :
    W * res ExecError string :=
  match futures !! tc_ID call with
  | Some r => (w, r)
  | None => retryableToolExec (fc_Name (tc_Function call)) (fc_Arguments (tc_Function call)) w
  end.
End execution.
Arguments plannedToolCall : clear implicits.

(** * Lemmas *)

(** How often the world is changed by an execution attempt. *)
Inductive attempts {W} (exec : W -> W) (wait : W -> W) : nat -> W -> W -> Prop :=
| att_none w : attempts exec wait 0 w w
| att_exec n w w' : attempts exec wait n (exec w) w' -> attempts exec wait (S n) w w'
| att_wait n w w' : attempts exec wait n (wait w) w' -> attempts exec wait n w w'.

Lemma Execute_Get {W} (registry : Registry W) name args w :
  is_Some (registry !! name) ->
  exists tool, registry !! name = Some tool /\ Registry_Execute registry name args w = t_Execute tool args w.
Proof.
  intros [tool Ht]. exists tool. split; [done|]. unfold Registry_Execute, Registry_Get. by rewrite Ht.
Qed.

Section lemmas.
Context {W : Type} (registry : Registry W) (ctx_err : W -> option string)
  (interrupted : W -> string -> option ExecError) (wait_delay : W -> W).

Lemma executeToolCall_world name args w :
  (executeToolCall registry interrupted name args w).1 = (Registry_Execute registry name args w).1.
Proof.
  unfold executeToolCall. destruct (Registry_Get registry name) as [tool|]; [|done].
  destruct (negb _); [done|]. destruct (Registry_Execute registry name args w) as [w' r].
  by destruct (interrupted w name).
Qed.

Lemma retry_loop_attempts delays name args w :
  exists n, n <= S delays
    /\ attempts (fun w => (Registry_Execute registry name args w).1) wait_delay n w
         (retry_loop registry ctx_err interrupted wait_delay delays name args w).1.
Proof.
  revert w. induction delays as [|delays IH]; intros w; simpl.
  - destruct (ctx_err w); [exists 0; split; [lia|constructor]|].
    pose proof (executeToolCall_world name args w) as Hw.
    destruct (executeToolCall registry interrupted name args w) as [w' [result|err]]; simpl in Hw; subst w'.
    + exists 1. split; [lia|]. repeat constructor.
    + destruct (negb _); exists 1; (split; [lia|]); repeat constructor.
  - destruct (ctx_err w); [exists 0; split; [lia|constructor]|].
    pose proof (executeToolCall_world name args w) as Hw.
    destruct (executeToolCall registry interrupted name args w) as [w' [result|err]]; simpl in Hw; subst w'.
    + exists 1. split; [lia|]. repeat constructor.
    + destruct (negb _); [exists 1; split; [lia|]; repeat constructor|].
      destruct (ctx_err (wait_delay _)); [exists 1; split; [lia|]; by apply att_exec, att_wait, att_none|].
      destruct (IH (wait_delay (Registry_Execute registry name args w).1)) as (n & Hn & Ha).
      exists (S n). split; [lia|]. by apply att_exec, att_wait.
Qed.
End lemmas.

(** A call whose name is not registered, or whose admission is not allow, is
    never parallel-safe. *)
Lemma planned_safe {W} (registry : Registry W) derr sha threshold now w e calls p :
  p ∈ (planToolCalls registry derr sha threshold now w e calls).2 -> pl_safe p = true ->
  ad_Kind (pl_admission p) = AdmissionAllow.
Proof.
  revert e. induction calls as [|call rest IH]; intros e; simpl; [set_solver|].
  destruct (Registry_Get registry _) as [tool|reason].
  - destruct (admit_call _ _ _ _ _ _ _ _) as [e1 admission] eqn:Ha.
    specialize (IH e1). destruct (planToolCalls _ _ _ _ _ _ e1 rest) as [e2 plan]. simpl in *.
    rewrite elem_of_cons. intros [->|?]; [|auto]. simpl.
    intros [[?%bool_decide_eq_true _]%andb_true_iff _]%andb_true_iff. done.
  - specialize (IH e). destruct (planToolCalls _ _ _ _ _ _ e rest) as [e2 plan]. simpl in *.
    rewrite elem_of_cons. intros [->|?]; [done|auto].
Qed.

(** * Properties *)

(** one call executes its tool a bounded number of times: at most once when
    the tool is not idempotent, at most four times (the attempt and three retries)
    otherwise, and never again once the run's context is done. *)
Theorem retryableToolExec_attempts {W} (registry : Registry W) ctx_err interrupted wait_delay toolName args w :
  exists n, attempts (fun w => (Registry_Execute registry toolName args w).1) wait_delay n w
      (retryableToolExec registry ctx_err interrupted wait_delay toolName args w).1
    /\ n <= 4
    /\ (toolIsIdempotent registry toolName = false -> n = 1)
    /\ (toolIsIdempotent registry toolName = true -> ctx_err w <> None -> n = 0).
Proof.
  unfold retryableToolExec. destruct (toolIsIdempotent registry toolName); cbn [negb].
  - destruct (ctx_err w) as [msg|] eqn:Hc.
    + exists 0. cbn [retry_loop]. rewrite Hc. split; [constructor|]. auto with lia.
    + destruct (retry_loop_attempts registry ctx_err interrupted wait_delay 3 toolName args w) as (n & Hn & Ha).
      exists n. done.
  - exists 1. split; [|auto with lia]. rewrite executeToolCall_world. repeat constructor.
Qed.
