(* ===== verification/EngineLoop.v ===== *)
(** Model of the engine's main loop (server/agent/engine.go, [Run]): one
    iteration assembles a request, calls the model and either ends the run,
    appends a corrective or draft turn, or executes a batch of tool calls.

    Everything outside the engine is the state [W] with the oracles of the
    section: the model client, the context, the tools, the clock and what the rest
    of the process does between two steps ([env]).  Debug traces and metrics are
    not modelled. *)
From S2P Require Import Prelude GoStrings Json Conversation Jobs Tools Receipts Compaction HistoryRebuild.
From S2P Require Import FinalGuard Execution.
From Stdlib Require Import Ascii.
Open Scope string_scope.
Open Scope list_scope.

Section engine.
Context {W : Type} (registry : Registry W).
Context (llm : W -> PromptBundle -> list ToolSpec -> W * res string LLMResponse).
Context (sanitizeToolError decode_error sha : string -> string).
Context (spill : string -> option string).
Context (ctx_err : W -> option string) (interrupted : W -> string -> option ExecError).
Context (wait_delay env : W -> W) (clock : W -> time).
Context (getRuntimeVars : W -> list RuntimeContextBlock).
(** The blocks of the report view; taking it may mark it delivered. *)
Context (takeReportView : W -> W * list RuntimeContextBlock).
(** The report state's mutation version and whether it needs finalizing; [None]
    when no report state is attached. *)
Context (reportDraft : W -> option (Z * bool)).
(** Deployment configuration: iteration limit (0 is none), context window,
    failure threshold. *)
Context (iteration_limit window threshold : Z).
Context (toolSpecs : list ToolSpec).

(** * State of a run *)

Record RunState := {
  rn_engine : Engine;
  rn_jobs : option JobManager;
  rn_world : W;
  rn_events : list RuntimeEvent;
}.
Definition emit (st : RunState) (evs : list RuntimeEvent) : RunState :=
  {| rn_engine := rn_engine st; rn_jobs := rn_jobs st; rn_world := rn_world st; rn_events := rn_events st ++ evs |}.
Definition set_engine (st : RunState) (e : Engine) : RunState :=
  {| rn_engine := e; rn_jobs := rn_jobs st; rn_world := rn_world st; rn_events := rn_events st |}.
Definition set_world (st : RunState) (w : W) : RunState :=
  {| rn_engine := rn_engine st; rn_jobs := rn_jobs st; rn_world := w; rn_events := rn_events st |}.
Definition push (st : RunState) (item : ConversationItem) : RunState :=
  set_engine st (append_history (rn_engine st) item).

(** The variables of [Run] that live across iterations. *)
Record LoopVars := {
  lv_userTask : string;
  lv_facts : list RuntimeContextBlock;
  lv_injected : Z;
  lv_rejects : nat;
}.

(** What a step does next: go on, or return from [Run]. *)
Inductive flow (A : Type) := Next (a : A) | Return.
Arguments Next {A}. Arguments Return {A}.

Definition error_event (code message : string) : RuntimeEvent :=
  event EventError (OtherData (JObj [("message", JStr message); ("code", JStr code)])).
Definition cancelled_event : RuntimeEvent :=
  event EventRunCancelled (ErrorData "任务已取消").

(** * A batch of tool calls *)

Definition isSuccessfulDeliveryBoundaryResult (result : string) : bool :=
  let trimmed := TrimSpace result in
  if trimmed =? "" then false
  else match (let! v := Unmarshal trimmed in let! v := to_interface v in as_object v) with
  | None => false
  | Some payload =>
      match lookup_key payload "ok", lookup_key payload "is_finalized", lookup_key payload "delivery_state" with
      | Some (JBool ok), Some (JBool finalized), Some (JStr deliveryState) =>
          ok && finalized && (deliveryState =? "finalized")
      | _, _, _ => false
      end
  end.

(** [blockToolCall] *)
Definition blockToolCall (st : RunState) (call : LLMToolCall) (admission : Admission) : RunState :=
  let name := fc_Name (tc_Function call) in
  let errorCode :=
    if negb (ad_Code admission =? "") then ad_Code admission
    else if decide (ad_Kind admission = AdmissionDeny) then "approval_denied" else "approval_required" in
  let result := MarshalMap [("ok", JBool false); ("tool", JStr name); ("error_code", JStr errorCode);
                            ("message", JStr (ad_Reason admission))] in
  let st := emit st
    [event EventToolCall (ToolCallData (tc_ID call) name (fc_Arguments (tc_Function call)));
     event "approval_denied" (OtherData (JObj [("tool", JStr name);
       ("decision", JStr (admission_text (ad_Kind admission))); ("reason", JStr (ad_Reason admission))]));
     event EventToolResult (ToolResultData (tc_ID call) name result 0 false)] in
  push st (tool_item result (tc_ID call) name).

(** The loop of [finalResponseAfterFinalize]; [rejects] is how many more
    rejections are allowed. *)
Fixpoint final_loop (rejects : nat) (w : W) (bundle : PromptBundle) (baseHistory : list ConversationItem) :
    W * res string (string * string * LLMUsage) :=
  let '(w, r) := llm w bundle [] in
  match r with
  | Err err => (w, Err err)
  | Ok resp =>
      match rs_Choices resp with
      | [] => (w, Err "LLM returned empty response")
      | choice :: _ =>
          let summary := lm_Content (ch_Message choice) in
          let reasoning := lm_ReasoningContent (ch_Message choice) in
          if blank summary then (w, Err "LLM returned empty final response")
          else if negb (containsRawToolMarkup summary) then (w, Ok (summary, reasoning, rs_Usage resp))
          else match rejects with
          | O => (w, Ok (summary, reasoning, rs_Usage resp))
          | S rejects =>
              final_loop rejects w
                {| pb_Policy := pb_Policy bundle; pb_PolicyAppendix := ""; pb_Task := "";
                   pb_RuntimeContext := pb_RuntimeContext bundle;
                   pb_History := baseHistory ++ [text_item LLMRoleUser finalMarkupCorrectionMessage] |} baseHistory
          end
      end
  end.

Definition add_usage (e : Engine) (usage : LLMUsage) : Engine :=
  with_usage e (if (0 <? us_PromptTokens usage)%Z then us_PromptTokens usage else en_lastPromptTokens e)
    (en_promptTokens e + us_PromptTokens usage)%Z (en_completionTokens e + us_CompletionTokens usage)%Z.

(** The request of the final response. *)
Definition final_bundle (st : RunState) : RunState * PromptBundle :=
  let '(w, view) := takeReportView (rn_world st) in
  let '(jobs, bundle) := buildBundleLocked (rn_engine st) (rn_jobs st) (clock w) "" (getRuntimeVars w) [] view in
  ({| rn_engine := rn_engine st; rn_jobs := jobs; rn_world := w; rn_events := rn_events st |}, bundle).

Definition finalResponseAfterFinalize (st : RunState) : RunState * res string string :=
  let '(st, bundle) := final_bundle st in
  let '(w, r) := final_loop maxFinalMarkupRejects (rn_world st) bundle (pb_History bundle) in
  let st := set_world st w in
  match r with
  | Err err => (st, Err err)
  | Ok (summary, reasoning, usage) =>
      (set_engine st (add_usage (append_history (rn_engine st) (assistant_item summary reasoning [])) usage), Ok summary)
  end.

(** A call that asks to suspend the run. *)
Definition suspend_call (st : RunState) (tool : option (Tool W)) (call : LLMToolCall) : RunState * flow unit :=
  match tool with
  | Some t =>
      match t_SuspensionEvent t with
      | None => (emit st [error_event "invalid_suspension_contract" "工具挂起协议无效"], Return)
      | Some provider =>
          match provider (tc_ID call) (fc_Arguments (tc_Function call)) with
          | Err err =>
              let result := MarshalMap [("ok", JBool false); ("tool", JStr (fc_Name (tc_Function call)));
                ("message", JStr ("invalid suspension tool arguments: " ++ err)%string)] in
              let st := emit st [event EventToolResult
                (ToolResultData (tc_ID call) (fc_Name (tc_Function call)) result 0 false)] in
              (push st (tool_item result (tc_ID call) ""), Next tt)
          | Ok payload =>
              let st := set_engine st (with_suspension (rn_engine st) (tc_ID call)) in
              (emit st [event EventUserRequestInput (OtherData payload)], Return)
          end
      end
  | None => (emit st [error_event "invalid_suspension_contract" "工具挂起协议无效"], Return)
  end.

Definition futures_map : Type := gmap string (res ExecError string).

(** The execution of an admitted call, from the tool_call event to the end of the
    loop body. *)
Definition run_call (st : RunState) (planned : plannedToolCall W) (futures : futures_map) : RunState * flow unit :=
  let call := pl_call planned in
  let name := fc_Name (tc_Function call) in
  let st := emit st [event EventToolCall (ToolCallData (tc_ID call) name (fc_Arguments (tc_Function call)))] in
  let '(w, r) := runPlannedToolCall registry ctx_err interrupted wait_delay call futures (rn_world st) in
  let st := set_world st w in
  match ctx_err (rn_world st) with
  | Some _ => (emit st [cancelled_event], Return)
  | None =>
      let '(raw, execErr) := match r with Ok result => (result, None) | Err err => ("", Some err) end in
      let '(result, success, _) := normalizeToolExecutionResult sanitizeToolError decode_error name raw execErr in
      let st := set_engine st (recordToolOutcome (rn_engine st) name result success) in
      let st := emit st [event EventToolResult (ToolResultData (tc_ID call) name result 0 success)] in
      let st := set_world st (env (rn_world st)) in
      match ctx_err (rn_world st) with
      | Some _ => (emit st [cancelled_event], Return)
      | None =>
          match compactToolResult result with
          | None => (emit st [error_event "tool_result_compaction_failed" "处理工具结果失败"], Return)
          | Some compacted =>
              let compacted := pruneToolResultForHistory spill name compacted in
              let st := set_engine st (recordRepeatCall (rn_engine st) call) in
              let st := push st (tool_item compacted (tc_ID call) "") in
              if cap_DeliveryBoundary (pl_capability planned) && isSuccessfulDeliveryBoundaryResult result then
                match finalResponseAfterFinalize st with
                | (st, Err _) => (emit st [error_event "final_response_failed" "生成最终回复失败"], Return)
                | (st, Ok summary) => (emit st [event EventRunCompleted (CompleteData summary)], Return)
                end
              else (st, Next tt)
          end
      end
  end.

(** The loop over the plan. *)
Fixpoint run_batch (st : RunState) (futures : futures_map) (plan : list (plannedToolCall W)) : RunState * flow unit :=
  match plan with
  | [] => (st, Next tt)
  | planned :: rest =>
      if decide (ad_Kind (pl_admission planned) = AdmissionAllow) then
        let '(st, futures) :=
          if pl_safe planned then
            let '(w, futures) := startParallelRun registry ctx_err interrupted wait_delay (planned :: rest) futures (rn_world st) in
            (set_world st w, futures)
          else (st, futures) in
        let '(st, next) :=
          if cap_RunControl (pl_capability planned) =? "suspend"
          then suspend_call st (pl_tool planned) (pl_call planned)
          else run_call st planned futures in
        match next with
        | Next _ => run_batch st futures rest
        | Return => (st, Return)
        end
      else run_batch (blockToolCall st (pl_call planned) (pl_admission planned)) futures rest
  end.

(** * One iteration *)

Definition draft_after (startVersion : Z) (w : W) : bool * Z :=
  match reportDraft w with
  | Some (version, needsFinalize) => ((startVersion <? version)%Z && needsFinalize, version)
  | None => (false, 0%Z)
  end.

Definition draft_fact (version : Z) : RuntimeContextBlock :=
  text_block "report_delivery_state" "user"
    ("report_mutation_version=" ++ itoa version ++ "; needs_finalize=true; delivery_state=draft; is_finalized=false")%string.

(** The tool calls of a response. *)
Definition handle_tool_calls (st : RunState) (message : LLMMessage) (vars : LoopVars) : RunState * flow LoopVars :=
  if negb (validateToolCallBatch registry (lm_ToolCalls message))
  then (emit st [error_event "invalid_tool_call_batch" "工具调用批次不符合协议"], Return)
  else
    let st := push st (compactAssistantMessage message) in
    let '(e, plan) := planToolCalls registry decode_error sha threshold (clock (rn_world st)) (rn_world st)
                        (rn_engine st) (lm_ToolCalls message) in
    match run_batch (set_engine st e) ∅ plan with
    | (st, Return) => (st, Return)
    | (st, Next _) => (st, Next vars)
    end.

(** From the first choice of the response to the end of the iteration. *)
Definition handle_choice (startVersion : Z) (st : RunState) (choice : LLMChoice) (vars : LoopVars) :
    RunState * flow LoopVars :=
  let message := ch_Message choice in
  let content := lm_Content message in
  let complete st :=
    (emit (push st (assistant_item content (lm_ReasoningContent message) []))
       [event EventRunCompleted (CompleteData content)], Return) in
  match content, lm_ToolCalls message with
  | String _ _, [] =>
      let '(draft, version) := draft_after startVersion (rn_world st) in
      if draft && negb (lv_injected vars =? version)%Z then
        (emit (push st (assistant_item content (lm_ReasoningContent message) []))
           [event EventAssistantStatus (AssistantStatusData content)],
         Next {| lv_userTask := lv_userTask vars; lv_facts := [draft_fact version]; lv_injected := version;
                 lv_rejects := lv_rejects vars |})
      else
        let '(reject, rejectsAfter) := finalMarkupGuardDecision content (lv_rejects vars) in
        if reject then
          (emit (push st (text_item LLMRoleUser finalMarkupCorrectionMessage))
             [event EventSystemFeedback (SystemFeedbackData finalMarkupCorrectionMessage "invalid_final_output")],
           Next {| lv_userTask := lv_userTask vars; lv_facts := lv_facts vars; lv_injected := lv_injected vars;
                   lv_rejects := rejectsAfter |})
        else complete st
  | EmptyString, [] =>
      (emit st [error_event "empty_llm_output" (if ch_FinishReason choice =? LLMFinishReasonStop
         then "模型没有返回可展示的分析内容，请重试或检查当前 LLM 网关配置。"
         else "模型没有返回可展示的分析内容，也没有请求工具调用。")], Return)
  | _, _ => handle_tool_calls (emit st (status_event content)) message vars
  end.

(** The user turn enters history once the request is assembled. *)
Definition append_task (e : Engine) (userTask : string) : Engine :=
  if negb (userTask =? "") then append_history e (text_item LLMRoleUser userTask) else e.

(** The checkpoint's event. *)
Definition checkpoint_event (c : option HistoryCompactedData) : list RuntimeEvent :=
  match c with Some d => [event EventHistoryCompacted (HistoryCompacted d)] | None => [] end.

(** The summarizer's request is answered in the world it is made in. *)
Definition summarizer (w : W) (bundle : PromptBundle) (specs : list ToolSpec) : res string LLMResponse :=
  (llm w bundle specs).2.

(** The engine and the request of an iteration. *)
Definition request_of (st : RunState) (vars : LoopVars) : RunState * PromptBundle :=
  let '(w, view) := takeReportView (rn_world st) in
  let '(e, jobs, checkpoint, bundle) :=
    prepareRequestBundle (summarizer w) window (rn_engine st) (rn_jobs st) (clock w) (clock w) (lv_userTask vars)
      (getRuntimeVars w) (lv_facts vars) view toolSpecs in
  (emit {| rn_engine := append_task e (lv_userTask vars); rn_jobs := jobs; rn_world := w; rn_events := rn_events st |}
     (checkpoint_event checkpoint), bundle).

Definition run_iteration (startVersion i : Z) (st : RunState) (vars : LoopVars) : RunState * flow LoopVars :=
  match ctx_err (rn_world st) with
  | Some _ => (emit st [cancelled_event], Return)
  | None =>
      if (0 <? iteration_limit)%Z && (iteration_limit <? i)%Z
      then (emit st [error_event "iteration_limit_exceeded"
              ("任务超过运行轮次上限（" ++ itoa iteration_limit ++ "），该上限由部署配置")%string], Return)
      else
        let '(st, bundle) := request_of st vars in
        let vars := {| lv_userTask := ""; lv_facts := []; lv_injected := lv_injected vars; lv_rejects := lv_rejects vars |} in
        let '(w, r) := llm (rn_world st) bundle toolSpecs in
        let st := set_world st w in
        match r with
        | Err _ => (emit st [error_event "llm_request_failed" "模型服务调用失败"], Return)
        | Ok resp =>
            let st := set_engine st (add_usage (rn_engine st) (rs_Usage resp)) in
            match rs_Choices resp with
            | [] => (emit st [error_event "empty_llm_response" "模型服务未返回响应内容"], Return)
            | choice :: _ => handle_choice startVersion st choice vars
            end
        end
  end.

(** * The run *)

(** [None] when the fuel runs out before the loop returns. *)
Fixpoint run_loop (fuel : nat) (startVersion i : Z) (st : RunState) (vars : LoopVars) : option RunState :=
  match fuel with
  | O => None
  | S fuel =>
      match run_iteration startVersion i st vars with
      | (st, Return) => Some st
      | (st, Next vars) => run_loop fuel startVersion (i + 1) st vars
      end
  end.

Definition usage_event (e : Engine) : list RuntimeEvent :=
  let '(p, c) := runTokens e in
  if (p =? 0)%Z && (c =? 0)%Z then []
  else [event "run_usage" (OtherData (JObj [("prompt_tokens", JNum (itoa p)); ("completion_tokens", JNum (itoa c));
                                            ("total_tokens", JNum (itoa (p + c)))]))].

Definition start_engine (e : Engine) (userInput : string) : Engine :=
  let e := clearAbandonedSuspension (with_usage e (en_lastPromptTokens e) 0 0) in
  if negb (userInput =? "") then resetRepeatTracking e else e.

(** [Run] up to the loop, the loop, and the deferred calls: usage is reported and
    then the history is repaired, on every exit path. *)
Definition engine_Run (fuel : nat) (e : Engine) (jobs : option JobManager) (w : W) (userInput : string) :
    option RunState :=
  let st := {| rn_engine := start_engine e userInput; rn_jobs := jobs; rn_world := w; rn_events := [] |} in
  let startVersion := match reportDraft w with Some (v, _) => v | None => 0%Z end in
  let! st := run_loop fuel startVersion 1 st
               {| lv_userTask := userInput; lv_facts := []; lv_injected := 0; lv_rejects := 0 |} in
  let st := emit st (usage_event (rn_engine st)) in
  Some (set_engine st (repairDanglingToolCalls (rn_engine st))).

(** * Specification *)

(** Every model answer is an assistant message, as the chat protocol has it. *)
Definition llm_answers_as_assistant : Prop :=
  forall w bundle specs w' resp choice,
    llm w bundle specs = (w', Ok resp) -> choice ∈ rs_Choices resp ->
    lm_Role (ch_Message choice) = LLMRoleAssistant.

(** What may change the world during a batch: the execution of an admitted call,
    waiting, the rest of the process, and the final response's request. *)
Inductive batch_world (plan : list (plannedToolCall W)) : W -> W -> Prop :=
| bw_exec w p :
    p ∈ plan -> ad_Kind (pl_admission p) = AdmissionAllow ->
    batch_world plan w
      (Registry_Execute registry (fc_Name (tc_Function (pl_call p))) (fc_Arguments (tc_Function (pl_call p))) w).1
| bw_wait w : batch_world plan w (wait_delay w)
| bw_env w : batch_world plan w (env w)
| bw_view w : batch_world plan w (takeReportView w).1
| bw_llm w bundle : batch_world plan w (llm w bundle []).1.

(** Results answer calls one by one, in the model's order. *)
Definition answered_by (calls : list LLMToolCall) (results : list ConversationItem) : Prop :=
  Forall (fun r => is_tool r = true) results /\ map ci_ToolCallID results = map tc_ID calls.

(** * Lemmas: the history through a batch *)

Lemma admit_call_history (t now : Z) (w : W) (e : Engine) (tool : Tool W) (call : LLMToolCall) :
  en_history (admit_call decode_error sha t now w e tool call).1 = en_history e
  /\ en_failureStreaks (admit_call decode_error sha t now w e tool call).1 = en_failureStreaks e.
Proof.
  assert (forall id req e' r, verify_receipt sha e now id req = (e', r) ->
    en_history e' = en_history e /\ en_failureStreaks e' = en_failureStreaks e) as Hv.
  { intros id req e' r. unfold verify_receipt. repeat (break_match; try (by intros [= <- _])). }
  unfold admit_call, DecideToolCall.
  destruct (t_ApprovalGate tool) as [gate|]; simpl.
  2: { by destruct (probeToolAvailability tool w). }
  destruct (ag_ApprovalRequest gate _) as [request|]; simpl; [|done].
  destruct (blank _ || blank _); simpl; [done|].
  destruct (TrimSpace _ =? ""); simpl; [done|].
  destruct (verify_receipt _ _ _ _ _) as [e' [[]|err]] eqn:Hvr; simpl; apply Hv in Hvr; [|done].
  by destruct (probeToolAvailability tool w).
Qed.

Lemma planToolCalls_spec t now w e calls :
  let '(e', plan) := planToolCalls registry decode_error sha t now w e calls in
  en_history e' = en_history e /\ en_failureStreaks e' = en_failureStreaks e /\ map pl_call plan = calls.
Proof.
  revert e. induction calls as [|call rest IH]; intros e; simpl; [done|].
  destruct (Registry_Get registry _) as [tool|reason].
  - pose proof (admit_call_history t now w e tool call) as [Hh Hs].
    destruct (admit_call _ _ _ _ _ _ _ _) as [e1 admission]. simpl in Hh, Hs.
    specialize (IH e1). destruct (planToolCalls _ _ _ _ _ _ e1 rest) as [e2 plan].
    destruct IH as (H1 & H2 & H3). simpl. rewrite H1, H2, H3. done.
  - specialize (IH e). destruct (planToolCalls _ _ _ _ _ _ e rest) as [e2 plan].
    destruct IH as (H1 & H2 & H3). simpl. by rewrite H3.
Qed.

Lemma run_call_history st planned futures st' :
  run_call st planned futures = (st', Next tt) ->
  exists r, en_history (rn_engine st') = en_history (rn_engine st) ++ [r]
    /\ is_tool r = true /\ ci_ToolCallID r = tc_ID (pl_call planned).
Proof.
  unfold run_call. destruct (runPlannedToolCall _ _ _ _ _ _ _) as [w r].
  cbn [rn_world set_world]. destruct (ctx_err w); [done|].
  destruct r as [result|err].
  all: destruct (normalizeToolExecutionResult _ _ _ _ _) as [[res success] contract].
  all: cbn [rn_world set_world set_engine emit]; destruct (ctx_err (env w)); [done|].
  all: destruct (compactToolResult res) as [compacted|]; [|done].
  all: destruct (_ && _); [destruct (finalResponseAfterFinalize _) as [st1 [|]]; done|].
  all: intros [= <-]; exists (tool_item (pruneToolResultForHistory spill (fc_Name (tc_Function (pl_call planned))) compacted)
                             (tc_ID (pl_call planned)) ""); split; [|done].
  all: cbn; unfold recordToolOutcome; repeat (break_match; try done).
Qed.

Lemma suspend_call_history st tool call st' :
  suspend_call st tool call = (st', Next tt) ->
  exists r, en_history (rn_engine st') = en_history (rn_engine st) ++ [r]
    /\ is_tool r = true /\ ci_ToolCallID r = tc_ID call.
Proof.
  unfold suspend_call. destruct tool as [t|]; [|done]. destruct (t_SuspensionEvent t) as [provider|]; [|done].
  destruct (provider _ _) as [|err]; [done|]. intros [= <-].
  by exists (tool_item (MarshalMap [("ok", JBool false); ("tool", JStr (fc_Name (tc_Function call)));
    ("message", JStr ("invalid suspension tool arguments: " ++ err)%string)]) (tc_ID call) "").
Qed.

(** A batch that runs to its end has answered every call, in order. *)
Lemma run_batch_history st futures plan st' :
  run_batch st futures plan = (st', Next tt) ->
  exists results, en_history (rn_engine st') = en_history (rn_engine st) ++ results
    /\ answered_by (map pl_call plan) results.
Proof.
  revert st futures. induction plan as [|planned rest IH]; intros st futures; cbn [run_batch].
  { intros [= <-]. exists []. rewrite app_nil_r. split; [done|]. by split. }
  assert (forall st1 futures1 r, en_history (rn_engine st1) = en_history (rn_engine st) ++ [r] ->
    is_tool r = true -> ci_ToolCallID r = tc_ID (pl_call planned) ->
    run_batch st1 futures1 rest = (st', Next tt) ->
    exists results, en_history (rn_engine st') = en_history (rn_engine st) ++ results
      /\ answered_by (map pl_call (planned :: rest)) results) as Hstep.
  { intros st1 futures1 r Hh Ht Hid Hrun. destruct (IH _ _ Hrun) as (results & Hr & Hall & Hids).
    exists (r :: results). rewrite Hr, Hh, <- app_assoc. split; [done|]. split; [by constructor|].
    simpl. by rewrite Hid, Hids. }
  destruct (decide _) as [Hallow|Hdeny].
  2: { intros Hrun. by eapply (Hstep (blockToolCall st _ _) futures (tool_item _ _ _)); [| | |exact Hrun]. }
  destruct (if pl_safe planned then _ else _) as [st1 futures1] eqn:Hpar.
  assert (rn_engine st1 = rn_engine st) as He.
  { destruct (pl_safe planned); [|by injection Hpar as <- _].
    destruct (startParallelRun _ _ _ _ _ _ _) as [w fs]. by injection Hpar as <- _. }
  destruct (if cap_RunControl _ =? "suspend" then _ else _) as [st2 next] eqn:Hnext.
  destruct next as [[]|]; [|done]. intros Hrun.
  assert (exists r, en_history (rn_engine st2) = en_history (rn_engine st1) ++ [r]
    /\ is_tool r = true /\ ci_ToolCallID r = tc_ID (pl_call planned)) as (r & Hh & Ht & Hid).
  { destruct (cap_RunControl _ =? "suspend"); [by eapply suspend_call_history|by eapply run_call_history]. }
  rewrite He in Hh. by eapply Hstep.
Qed.

Lemma paired_batch h item results :
  paired "" h -> ci_Role item = LLMRoleAssistant -> ci_ToolCalls item <> [] ->
  answered_by (ci_ToolCalls item) results -> paired "" (h ++ item :: results).
Proof.
  intros Hp Hr Hne [Ht Hids]. apply paired_app; [done|]. rewrite <- (app_nil_r results).
  apply paired_calls; [| |done| |constructor].
  - unfold is_tool. by rewrite Hr.
  - unfold calls_tools. rewrite Hr. by destruct (ci_ToolCalls item).
  - apply Forall_forall. intros c Hc. left. rewrite Hids. by apply list_elem_of_fmap_2.
Qed.

Lemma paired_plain_push h item :
  paired "" h -> ci_Role item = LLMRoleUser \/ (ci_Role item = LLMRoleAssistant /\ ci_ToolCalls item = []) ->
  paired "" (h ++ [item]).
Proof.
  intros Hp Hor. apply paired_snoc_plain; [done| |].
  - unfold is_tool. by destruct Hor as [-> | [-> _]].
  - unfold calls_tools. by destruct Hor as [-> | [-> ->]].
Qed.

Lemma handle_tool_calls_paired st message vars st' vars' :
  paired "" (en_history (rn_engine st)) -> lm_Role message = LLMRoleAssistant -> lm_ToolCalls message <> [] ->
  handle_tool_calls st message vars = (st', Next vars') -> paired "" (en_history (rn_engine st')).
Proof.
  intros Hp Hr Hne. unfold handle_tool_calls. destruct (negb _); [done|].
  pose proof (planToolCalls_spec threshold (clock (rn_world st)) (rn_world st)
    (rn_engine (push st (compactAssistantMessage message))) (lm_ToolCalls message)) as Hplan.
  cbn [rn_world push set_engine] in *.
  destruct (planToolCalls _ _ _ _ _ _ _ _) as [e plan]. destruct Hplan as (Hh & _ & Hcalls).
  destruct (run_batch _ ∅ plan) as [st1 [[]|]] eqn:Hrun; [|done]. intros [= <- _].
  apply run_batch_history in Hrun as (results & Hres & Hans). cbn [rn_engine set_engine] in Hres.
  rewrite Hres, Hh. cbn. rewrite <- app_assoc. rewrite Hcalls in Hans. by apply paired_batch.
Qed.

Lemma handle_choice_paired startVersion st choice vars st' vars' :
  paired "" (en_history (rn_engine st)) -> lm_Role (ch_Message choice) = LLMRoleAssistant ->
  handle_choice startVersion st choice vars = (st', Next vars') -> paired "" (en_history (rn_engine st')).
Proof.
  intros Hp Hr. unfold handle_choice.
  destruct (lm_ToolCalls (ch_Message choice)) as [|call calls] eqn:Hcalls.
  - destruct (lm_Content (ch_Message choice)) as [|c content]; [done|].
    destruct (draft_after startVersion (rn_world st)) as [draft version].
    destruct (draft && _); [intros [= <- _]; simpl; apply paired_plain_push; [done|by right]|].
    destruct (finalMarkupGuardDecision _ _) as [reject rejectsAfter].
    destruct reject; [|done]. intros [= <- _]. simpl. apply paired_plain_push; [done|by left].
  - assert (handle_tool_calls (emit st (status_event (lm_Content (ch_Message choice)))) (ch_Message choice) vars
            = (st', Next vars') -> paired "" (en_history (rn_engine st'))) as H.
    { apply handle_tool_calls_paired; [done|done|by rewrite Hcalls]. }
    by destruct (lm_Content (ch_Message choice)).
Qed.

Lemma prepareRequestBundle_paired chat e jobs n1 n2 task rv cf view specs :
  paired "" (en_history e) ->
  let '(e', _, _, bundle) := prepareRequestBundle chat window e jobs n1 n2 task rv cf view specs in
  paired "" (en_history e') /\ pb_History bundle = en_history e'.
Proof.
  intros Hp. unfold prepareRequestBundle, buildBundleLocked.
  destruct (TakeCompletedNotices jobs n1) as [jobs1 notices1].
  destruct (_ <? _)%Z; [|done].
  destruct (selectCompactionSpan e) as [[span shadowed] pinned] eqn:Hsel.
  destruct (0 <? shadowed)%nat eqn:Hpos; [|done]. apply Nat.ltb_lt in Hpos.
  assert (forall summary, paired "" (en_history (applyCompaction e shadowed pinned summary))) as Hap.
  { intros summary. destruct (selectCompactionSpan_spec _ _ _ _ _ Hp Hsel Hpos) as (-> & Hle & _ & Hcut).
    rewrite applyCompaction_history by lia.
    apply paired_app; [apply paired_cut; [done|by eapply pinned_cut]|by apply paired_cut]. }
  destruct (summarizeHistorySpan chat e span) as [summary|err];
    destruct (TakeCompletedNotices jobs1 n2) as [jobs2 notices2]; by cbn.
Qed.

Lemma request_of_paired st vars :
  paired "" (en_history (rn_engine st)) ->
  paired "" (pb_History (request_of st vars).2) /\ paired "" (en_history (rn_engine (request_of st vars).1)).
Proof.
  intros Hp. unfold request_of. destruct (takeReportView (rn_world st)) as [w view].
  pose proof (prepareRequestBundle_paired (summarizer w) (rn_engine st) (rn_jobs st) (clock w) (clock w)
    (lv_userTask vars) (getRuntimeVars w) (lv_facts vars) view toolSpecs Hp) as Hprep.
  destruct (prepareRequestBundle _ _ _ _ _ _ _ _ _ _ _) as [[[e jobs] checkpoint] bundle].
  destruct Hprep as (Hpe & Hpb). cbn. split; [by rewrite Hpb|]. unfold append_task.
  destruct (negb _); [|done]. simpl. apply paired_plain_push; [done|by left].
Qed.

Lemma request_of_streaks st vars :
  en_failureStreaks (rn_engine (request_of st vars).1) = en_failureStreaks (rn_engine st).
Proof.
  unfold request_of, prepareRequestBundle, buildBundleLocked. destruct (takeReportView (rn_world st)) as [w view].
  destruct (TakeCompletedNotices (rn_jobs st) (clock w)) as [jobs1 notices1].
  assert (forall e, en_failureStreaks (append_task e (lv_userTask vars)) = en_failureStreaks e) as Htask
    by (intros e; unfold append_task; by destruct (negb _)).
  destruct (_ <? _)%Z; [|by cbn; rewrite Htask].
  destruct (selectCompactionSpan _) as [[span shadowed] pinned]. destruct (0 <? shadowed)%nat; [|by cbn; rewrite Htask].
  destruct (summarizeHistorySpan _ _ span) as [summary|err];
    destruct (TakeCompletedNotices jobs1 (clock w)) as [jobs2 notices2]; cbn; rewrite Htask;
    unfold applyCompaction; destruct (_ || _); try done; by destruct (blank _).
Qed.

(** * Lemmas: termination *)

Lemma run_iteration_limit startVersion i st vars :
  (0 < iteration_limit < i)%Z -> exists st', run_iteration startVersion i st vars = (st', Return).
Proof.
  intros Hi. unfold run_iteration. destruct (ctx_err _); [eauto|].
  replace ((0 <? iteration_limit)%Z && (iteration_limit <? i)%Z) with true by lia. eauto.
Qed.

Lemma run_loop_total fuel startVersion i st vars :
  (0 < iteration_limit)%Z -> (1 <= i)%Z -> (iteration_limit + 2 - i <= Z.of_nat fuel)%Z -> 0 < fuel ->
  is_Some (run_loop fuel startVersion i st vars).
Proof.
  intros Hl. revert i st vars. induction fuel as [|fuel IH]; intros i st vars Hi Hf Hpos; [lia|]. cbn [run_loop].
  destruct (decide (iteration_limit < i)%Z) as [Hlt|Hge].
  - destruct (run_iteration_limit startVersion i st vars) as [st' ->]; [lia|]. eauto.
  - destruct (run_iteration startVersion i st vars) as [st1 [vars1|]]; [|eauto]. apply IH; lia.
Qed.
Lemma run_loop_more fuel fuel' startVersion i st vars st' :
  fuel <= fuel' -> run_loop fuel startVersion i st vars = Some st' -> run_loop fuel' startVersion i st vars = Some st'.
Proof.
  revert fuel' i st vars. induction fuel as [|fuel IH]; intros fuel' i st vars Hle; [done|].
  destruct fuel' as [|fuel']; [lia|]. cbn [run_loop].
  destruct (run_iteration startVersion i st vars) as [st1 [vars1|]]; [|done]. apply IH. lia.
Qed.

(** * Lemmas: a whole run *)

Definition start_state (e : Engine) (jobs : option JobManager) (w : W) (userInput : string) : RunState :=
  {| rn_engine := start_engine e userInput; rn_jobs := jobs; rn_world := w; rn_events := [] |}.
Definition start_version (w : W) : Z := match reportDraft w with Some (v, _) => v | None => 0%Z end.
Definition start_vars (userInput : string) : LoopVars :=
  {| lv_userTask := userInput; lv_facts := []; lv_injected := 0; lv_rejects := 0 |}.

(** One iteration that goes on to the next. *)
Record LoopHead := { lh_i : Z; lh_state : RunState; lh_vars : LoopVars }.
Definition loop_step (startVersion : Z) (a b : LoopHead) : Prop :=
  run_iteration startVersion (lh_i a) (lh_state a) (lh_vars a) = (lh_state b, Next (lh_vars b))
  /\ lh_i b = (lh_i a + 1)%Z.
Definition start_head (e : Engine) (jobs : option JobManager) (w : W) (userInput : string) : LoopHead :=
  {| lh_i := 1; lh_state := start_state e jobs w userInput; lh_vars := start_vars userInput |}.
Definition run_reaches (e : Engine) (jobs : option JobManager) (w : W) (userInput : string) (head : LoopHead) : Prop :=
  rtc (loop_step (start_version w)) (start_head e jobs w userInput) head.

Lemma start_engine_paired e userInput : paired "" (en_history (start_engine e userInput)).
Proof. unfold start_engine. destruct (negb _); simpl; apply repair_paired. Qed.

Lemma run_iteration_paired startVersion i st vars st' vars' :
  llm_answers_as_assistant -> paired "" (en_history (rn_engine st)) ->
  run_iteration startVersion i st vars = (st', Next vars') -> paired "" (en_history (rn_engine st')).
Proof.
  intros Hllm Hp. unfold run_iteration. destruct (ctx_err _); [done|]. destruct (_ && _); [done|].
  pose proof (request_of_paired st vars Hp) as (_ & Hpe).
  destruct (request_of st vars) as [st1 bundle]. simpl in Hpe.
  destruct (llm (rn_world st1) bundle toolSpecs) as [w1 [resp|err]] eqn:Hresp; [|done].
  destruct (rs_Choices resp) as [|choice rest] eqn:Hchoices; [done|].
  apply handle_choice_paired; [done|]. eapply Hllm; [exact Hresp|]. rewrite Hchoices. by constructor.
Qed.

Lemma loop_steps_paired startVersion a b :
  llm_answers_as_assistant -> rtc (loop_step startVersion) a b ->
  paired "" (en_history (rn_engine (lh_state a))) -> paired "" (en_history (rn_engine (lh_state b))).
Proof.
  intros Hllm. induction 1 as [|a b c [Hab _] _ IH]; [done|]. intros Hp. apply IH.
  by eapply run_iteration_paired.
Qed.

(** * Lemmas: the world during a batch *)

Lemma attempts_rtc {plan} {exec : W -> W} {wait : W -> W} n w w' :
  (forall w, rtc (batch_world plan) w (exec w)) -> (forall w, rtc (batch_world plan) w (wait w)) ->
  attempts exec wait n w w' -> rtc (batch_world plan) w w'.
Proof. intros He Hw. induction 1; [done|by etrans; [apply He|]|by etrans; [apply Hw|]]. Qed.

Lemma retryable_world plan p w :
  p ∈ plan -> ad_Kind (pl_admission p) = AdmissionAllow ->
  rtc (batch_world plan) w
    (retryableToolExec registry ctx_err interrupted wait_delay (fc_Name (tc_Function (pl_call p)))
       (fc_Arguments (tc_Function (pl_call p))) w).1.
Proof.
  intros Hin Ha. unfold retryableToolExec. destruct (negb _).
  - rewrite executeToolCall_world. apply rtc_once. by constructor.
  - destruct (retry_loop_attempts registry ctx_err interrupted wait_delay 3 (fc_Name (tc_Function (pl_call p)))
      (fc_Arguments (tc_Function (pl_call p))) w) as (n & _ & Hat).
    eapply attempts_rtc; [| |exact Hat]; intros w1; apply rtc_once; [by constructor|constructor].
Qed.

Definition safe_allowed (plan : list (plannedToolCall W)) : Prop :=
  forall p, p ∈ plan -> pl_safe p = true -> ad_Kind (pl_admission p) = AdmissionAllow.

Lemma startParallelRun_world plan0 plan futures w :
  (forall p, p ∈ plan -> p ∈ plan0) -> safe_allowed plan0 ->
  rtc (batch_world plan0) w (startParallelRun registry ctx_err interrupted wait_delay plan futures w).1.
Proof.
  intros Hsub Hsafe. revert futures w. induction plan as [|p rest IH]; intros futures w; cbn [startParallelRun]; [done|].
  destruct (pl_safe p) eqn:Hp; [|done]. cbn [negb].
  assert (p ∈ plan0) as Hin by (apply Hsub; constructor).
  assert (forall q, q ∈ rest -> q ∈ plan0) as Hrest by (intros q Hq; apply Hsub; by constructor).
  destruct (bool_decide _); [by apply IH|].
  pose proof (retryable_world plan0 p w Hin (Hsafe p Hin Hp)) as Hw.
  destruct (retryableToolExec _ _ _ _ _ _ _) as [w1 r]. etrans; [exact Hw|]. by apply IH.
Qed.

Lemma runPlanned_world plan p futures w :
  p ∈ plan -> ad_Kind (pl_admission p) = AdmissionAllow ->
  rtc (batch_world plan) w (runPlannedToolCall registry ctx_err interrupted wait_delay (pl_call p) futures w).1.
Proof.
  intros Hin Ha. unfold runPlannedToolCall. destruct (futures !! _); [done|]. by apply retryable_world.
Qed.

Lemma final_loop_world plan n w bundle base : rtc (batch_world plan) w (final_loop n w bundle base).1.
Proof.
  revert w bundle. induction n as [|n IH]; intros w bundle; cbn [final_loop];
    pose proof (bw_llm plan w bundle) as Hl; destruct (llm w bundle []) as [w1 [resp|err]]; simpl in Hl;
    try (by apply rtc_once); destruct (rs_Choices resp) as [|choice rest]; try (by apply rtc_once);
    destruct (blank _); try (by apply rtc_once); destruct (negb _); try (by apply rtc_once).
  eapply rtc_l; [exact Hl|]. apply IH.
Qed.

Lemma finalResponse_world plan st : rtc (batch_world plan) (rn_world st) (rn_world (finalResponseAfterFinalize st).1).
Proof.
  unfold finalResponseAfterFinalize, final_bundle.
  pose proof (bw_view plan (rn_world st)) as Hv. destruct (takeReportView (rn_world st)) as [w view]. simpl in Hv.
  destruct (buildBundleLocked _ _ _ _ _ _ _) as [jobs bundle].
  pose proof (final_loop_world plan maxFinalMarkupRejects w bundle (pb_History bundle)) as Hf. cbn [rn_world].
  destruct (final_loop _ w bundle _) as [w1 r]. simpl in Hf. eapply rtc_l; [exact Hv|].
  by destruct r as [[[summary reasoning] usage]|err].
Qed.

Lemma run_call_world plan p st futures :
  p ∈ plan -> ad_Kind (pl_admission p) = AdmissionAllow ->
  rtc (batch_world plan) (rn_world st) (rn_world (run_call st p futures).1).
Proof.
  intros Hin Ha. unfold run_call. cbn [rn_world emit].
  pose proof (runPlanned_world plan p futures (rn_world st) Hin Ha) as Hw.
  destruct (runPlannedToolCall _ _ _ _ _ _ _) as [w r]. simpl in Hw. cbn [rn_world set_world].
  destruct (ctx_err w); [done|].
  destruct (match r with Ok result => (result, None) | Err err => ("", Some err) end) as [raw execErr].
  destruct (normalizeToolExecutionResult _ _ _ _ _) as [[result success] contract].
  cbn [rn_world set_world set_engine emit]. pose proof (bw_env plan w) as He.
  assert (rtc (batch_world plan) (rn_world st) (env w)) as Hwe by (etrans; [exact Hw|by apply rtc_once]).
  destruct (ctx_err (env w)); [done|]. destruct (compactToolResult result) as [compacted|]; [|done].
  destruct (_ && _); [|done].
  match goal with |- context [finalResponseAfterFinalize ?s] =>
    pose proof (finalResponse_world plan s) as Hf; destruct (finalResponseAfterFinalize s) as [st1 [|]] end;
    simpl in Hf; cbn [fst rn_world emit]; by etrans.
Qed.

Lemma suspend_call_world st tool call : rn_world (suspend_call st tool call).1 = rn_world st.
Proof.
  unfold suspend_call. destruct tool as [t|]; [|done]. destruct (t_SuspensionEvent t) as [provider|]; [|done].
  by destruct (provider _ _).
Qed.

Lemma run_batch_world plan0 plan st futures :
  (forall p, p ∈ plan -> p ∈ plan0) -> safe_allowed plan0 ->
  rtc (batch_world plan0) (rn_world st) (rn_world (run_batch st futures plan).1).
Proof.
  intros Hsub Hsafe. revert st futures. induction plan as [|p rest IH]; intros st futures; cbn [run_batch]; [done|].
  assert (p ∈ plan0) as Hin by (apply Hsub; constructor).
  assert (forall q, q ∈ rest -> q ∈ plan0) as Hrest by (intros q Hq; apply Hsub; by constructor).
  destruct (decide _) as [Ha|_]; [|by apply (IH Hrest (blockToolCall st _ _))].
  pose proof (startParallelRun_world plan0 (p :: rest) futures (rn_world st) Hsub Hsafe) as Hpar.
  assert (exists st1 futures1, (if pl_safe p then
      let '(w, futures) := startParallelRun registry ctx_err interrupted wait_delay (p :: rest) futures (rn_world st) in
      (set_world st w, futures) else (st, futures)) = (st1, futures1)
    /\ rtc (batch_world plan0) (rn_world st) (rn_world st1)) as (st1 & futures1 & -> & H1).
  { destruct (pl_safe p); [|by eexists _, _]. destruct (startParallelRun _ _ _ _ _ _ _) as [w fs]. by eexists _, _. }
  assert (rtc (batch_world plan0) (rn_world st)
    (rn_world (if cap_RunControl (pl_capability p) =? "suspend" then suspend_call st1 (pl_tool p) (pl_call p)
               else run_call st1 p futures1).1)) as H2.
  { etrans; [exact H1|]. destruct (_ =? "suspend"); [by rewrite suspend_call_world|by apply run_call_world]. }
  destruct (if cap_RunControl _ =? "suspend" then _ else _) as [st2 [[]|]]; simpl in H2; [|done].
  etrans; [exact H2|]. by apply IH.
Qed.
(** * Lemmas: the failure streaks through a run *)

Definition nul_free (s : string) : bool := negb (existsb (Ascii.eqb Ascii.zero) (String.list_ascii_of_string s)).

Lemma nul_split_same a b s t :
  nul_free a = true -> nul_free b = true -> (a ++ NUL ++ s = b ++ NUL ++ t)%string -> a = b.
Proof.
  unfold nul_free. rewrite !negb_true_iff.
  revert b. induction a as [|x a IH]; intros [|y b]; cbn -[Ascii.eqb]; [done| | |].
  - by intros _ [Hy _]%orb_false_iff [= <- _].
  - by intros [Hx _]%orb_false_iff _ [= -> _].
  - intros [_ Ha]%orb_false_iff [_ Hb]%orb_false_iff [= -> Heq]. f_equal. by apply IH.
Qed.

Lemma nul_prefix_same a b code :
  nul_free a = true -> nul_free b = true -> HasPrefix (streak_prefix a ++ code)%string (streak_prefix b) = true -> a = b.
Proof.
  intros Ha Hb [t Ht]%HasPrefix_spec. unfold streak_prefix in Ht. rewrite <- !app_str_assoc in Ht.
  by eapply nul_split_same.
Qed.

(** The tool has a streak at the threshold. *)
Definition has_streak (name : string) (e : Engine) : Prop :=
  exists code count, en_failureStreaks e !! (streak_prefix name ++ code)%string = Some count /\ (threshold <= count)%Z.

Lemma has_streak_block name e : has_streak name e <-> repeatedFailureBlock threshold e name <> None.
Proof.
  unfold has_streak, repeatedFailureBlock.
  destruct (List.filter _ _) as [|[key count] rest] eqn:Hf.
  - split; [|done]. intros (code & count & Hl & Hle).
    assert (((streak_prefix name ++ code)%string, count) ∈ ([] : list (string * Z))) as Hin; [|set_solver].
    { rewrite <- Hf. apply list_elem_of_In, filter_In. split; [by apply list_elem_of_In, elem_of_map_to_list|].
      cbn [fst snd]. rewrite HasPrefix_app. simpl. lia. }
  - split; [done|]. intros _.
    assert ((key, count) ∈ map_to_list (en_failureStreaks e)
      /\ HasPrefix key (streak_prefix name) = true /\ (threshold <= count)%Z) as (Hin & [code ->]%HasPrefix_spec & Hle).
    { assert (In (key, count) (List.filter (fun kc => HasPrefix kc.1 (streak_prefix name) && negb (kc.2 <? threshold)%Z)
        (map_to_list (en_failureStreaks e)))) as [Hin [Hpre Hle]%andb_true_iff]%filter_In by (rewrite Hf; by left).
      split; [by apply list_elem_of_In|]. simpl in *. split; [done|lia]. }
    exists code, count. split; [by apply elem_of_map_to_list|done].
Qed.

Lemma recordToolOutcome_streak name e name' result success :
  nul_free name = true -> nul_free name' = true -> name' <> name ->
  has_streak name e -> has_streak name (recordToolOutcome e name' result success).
Proof.
  intros Hn Hn' Hne (code & count & Hl & Hle). unfold recordToolOutcome. destruct success.
  - exists code, count. split; [|done]. cbn. apply map_lookup_filter_Some. split; [done|]. cbn.
    destruct (HasPrefix (streak_prefix name ++ code)%string (streak_prefix name')) eqn:Hp; [|exact Hp].
    by apply nul_prefix_same in Hp.
  - destruct (existsb _ _); [by exists code, count|]. exists code, count. split; [|done]. cbn.
    rewrite lookup_insert_ne; [done|]. unfold streak_prefix. rewrite <- !app_str_assoc.
    intros Heq. by apply nul_split_same in Heq.
Qed.

(** Every admitted call of the plan is to a registered tool other than [name]. *)
Definition avoids (name : string) (plan : list (plannedToolCall W)) : Prop :=
  forall p, p ∈ plan -> ad_Kind (pl_admission p) = AdmissionAllow ->
    is_Some (registry !! fc_Name (tc_Function (pl_call p))) /\ fc_Name (tc_Function (pl_call p)) <> name.

Lemma admit_call_blocked (now : Z) (w : W) (e : Engine) (tool : Tool W) (call : LLMToolCall) :
  has_streak (fc_Name (tc_Function call)) e ->
  ad_Kind (admit_call decode_error sha threshold now w e tool call).2 <> AdmissionAllow.
Proof.
  intros Hs. pose proof (admit_call_history threshold now w e tool call) as [_ Heq]. revert Heq. unfold admit_call.
  destruct (DecideToolCall _ _ _ _) as [e1 admission]. destruct (decide _) as [Ha|Hne]; [|by intros _].
  intros Heq. assert (has_streak (fc_Name (tc_Function call)) e1) as Hs1.
  { unfold has_streak. replace (en_failureStreaks e1) with (en_failureStreaks e); [done|].
    by destruct (probeToolAvailability tool w). }
  apply has_streak_block in Hs1. destruct (repeatedFailureBlock threshold e1 _) as [[code count]|]; [|done].
  by destruct (probeToolAvailability tool w).
Qed.

Lemma planToolCalls_avoids (now : Z) (w : W) (e : Engine) calls name :
  has_streak name e -> avoids name (planToolCalls registry decode_error sha threshold now w e calls).2.
Proof.
  revert e. induction calls as [|call rest IH]; intros e Hs; simpl; [by intros p Hp%not_elem_of_nil|].
  unfold Registry_Get. destruct (registry !! _) as [tool|] eqn:Hr.
  - pose proof (admit_call_history threshold now w e tool call) as [_ Heq].
    pose proof (admit_call_blocked now w e tool call) as Hb.
    destruct (admit_call _ _ _ _ _ _ _ _) as [e1 admission]. simpl in Heq, Hb.
    assert (has_streak name e1) as Hs1 by (unfold has_streak; by rewrite Heq).
    specialize (IH e1 Hs1). destruct (planToolCalls _ _ _ _ _ _ e1 rest) as [e2 plan]. simpl in *.
    intros p [->|Hp]%elem_of_cons; [|by apply IH]. simpl. intros Ha. split; [by rewrite Hr|].
    intros <-. by apply Hb.
  - specialize (IH e Hs). destruct (planToolCalls _ _ _ _ _ _ e rest) as [e2 plan]. simpl in *.
    intros p [->|Hp]%elem_of_cons; [done|by apply IH].
Qed.

Section streaks.
Context (name : string) (Hname : nul_free name = true)
  (Hregistry : forall n, is_Some (registry !! n) -> nul_free n = true).

Lemma streak_eq e e' : en_failureStreaks e' = en_failureStreaks e -> has_streak name e -> has_streak name e'.
Proof. unfold has_streak. by intros ->. Qed.

Lemma finalResponse_streaks st :
  en_failureStreaks (rn_engine (finalResponseAfterFinalize st).1) = en_failureStreaks (rn_engine st).
Proof.
  unfold finalResponseAfterFinalize, final_bundle. destruct (takeReportView _) as [w view].
  destruct (buildBundleLocked _ _ _ _ _ _ _) as [jobs bundle]. destruct (final_loop _ _ _ _) as [w1 r].
  by destruct r as [[[summary reasoning] usage]|err].
Qed.

Lemma run_call_streak p st futures :
  is_Some (registry !! fc_Name (tc_Function (pl_call p))) -> fc_Name (tc_Function (pl_call p)) <> name ->
  has_streak name (rn_engine st) -> has_streak name (rn_engine (run_call st p futures).1).
Proof.
  intros Hreg Hne Hs. unfold run_call. destruct (runPlannedToolCall _ _ _ _ _ _ _) as [w r].
  cbn [rn_world rn_engine set_world emit]. destruct (ctx_err w); [done|].
  destruct (match r with Ok result => (result, None) | Err err => ("", Some err) end) as [raw execErr].
  destruct (normalizeToolExecutionResult _ _ _ _ _) as [[result success] contract].
  assert (has_streak name (recordToolOutcome (rn_engine st) (fc_Name (tc_Function (pl_call p))) result success)) as Hs1
    by (apply recordToolOutcome_streak; auto).
  cbn [rn_world rn_engine set_world set_engine emit]. destruct (ctx_err (env w)); [done|].
  destruct (compactToolResult result); [|done]. destruct (_ && _); [|by eapply streak_eq; [|exact Hs1]].
  match goal with |- context [finalResponseAfterFinalize ?s] =>
    pose proof (finalResponse_streaks s) as Hf; destruct (finalResponseAfterFinalize s) as [st1 [|]] end;
    (eapply streak_eq; [exact Hf|exact Hs1]).
Qed.

Lemma run_batch_streak plan st futures :
  avoids name plan -> has_streak name (rn_engine st) -> has_streak name (rn_engine (run_batch st futures plan).1).
Proof.
  revert st futures. induction plan as [|p rest IH]; intros st futures Hav Hs; cbn [run_batch]; [done|].
  assert (avoids name rest) as Hrest by (intros q Hq; apply Hav; by constructor).
  destruct (decide _) as [Ha|_]; [|by apply (IH (blockToolCall st _ _))].
  destruct (Hav p ltac:(constructor) Ha) as [Hreg Hne].
  assert (exists st1 futures1, (if pl_safe p then
      let '(w, futures) := startParallelRun registry ctx_err interrupted wait_delay (p :: rest) futures (rn_world st) in
      (set_world st w, futures) else (st, futures)) = (st1, futures1)
    /\ has_streak name (rn_engine st1)) as (st1 & futures1 & -> & H1).
  { destruct (pl_safe p); [|by eexists _, _]. destruct (startParallelRun _ _ _ _ _ _ _) as [w fs]. by eexists _, _. }
  assert (has_streak name (rn_engine (if cap_RunControl (pl_capability p) =? "suspend"
    then suspend_call st1 (pl_tool p) (pl_call p) else run_call st1 p futures1).1)) as H2.
  { destruct (_ =? "suspend"); [|by apply run_call_streak]. eapply streak_eq; [|exact H1]. unfold suspend_call.
    destruct (pl_tool p) as [t|]; [|done]. destruct (t_SuspensionEvent t) as [provider|]; [|done].
    by destruct (provider _ _). }
  destruct (if cap_RunControl _ =? "suspend" then _ else _) as [st2 [[]|]]; simpl in H2; [|done]. by apply IH.
Qed.

Lemma handle_tool_calls_streak st message vars :
  has_streak name (rn_engine st) -> has_streak name (rn_engine (handle_tool_calls st message vars).1).
Proof.
  intros Hs. unfold handle_tool_calls. destruct (negb _); [done|].
  pose proof (planToolCalls_spec threshold (clock (rn_world st)) (rn_world st)
    (rn_engine (push st (compactAssistantMessage message))) (lm_ToolCalls message)) as Hplan.
  pose proof (planToolCalls_avoids (clock (rn_world st)) (rn_world st)
    (rn_engine (push st (compactAssistantMessage message))) (lm_ToolCalls message) name Hs) as Hav.
  cbn [rn_world push set_engine] in *. destruct (planToolCalls _ _ _ _ _ _ _ _) as [e plan].
  destruct Hplan as (_ & Heq & _).
  pose proof (run_batch_streak plan (set_engine (push st (compactAssistantMessage message)) e) ∅ Hav) as Hb.
  cbn [rn_engine set_engine push] in Hb. specialize (Hb (streak_eq _ _ Heq Hs)).
  by destruct (run_batch _ ∅ plan) as [st1 [[]|]].
Qed.

Lemma handle_choice_streak startVersion st choice vars :
  has_streak name (rn_engine st) -> has_streak name (rn_engine (handle_choice startVersion st choice vars).1).
Proof.
  intros Hs. unfold handle_choice. destruct (lm_Content (ch_Message choice)) as [|c content];
    destruct (lm_ToolCalls (ch_Message choice)); try (by apply (handle_tool_calls_streak (emit st _))); [done|].
  destruct (draft_after startVersion (rn_world st)) as [draft version]. destruct (draft && _); [done|].
  by destruct (finalMarkupGuardDecision _ _) as [[] rejectsAfter].
Qed.
Lemma run_iteration_streak startVersion i st vars :
  has_streak name (rn_engine st) ->
  has_streak name (rn_engine (run_iteration startVersion i st vars).1).
Proof.
  intros Hs. unfold run_iteration. destruct (ctx_err _); [done|]. destruct (_ && _); [done|].
  pose proof (request_of_streaks st vars) as Heq.
  destruct (request_of st vars) as [st1 bundle]. simpl in Heq.
  pose proof (streak_eq _ _ Heq Hs) as Hs1.
  destruct (llm (rn_world st1) bundle toolSpecs) as [w1 [resp|err]]; [|done].
  destruct (rs_Choices resp) as [|choice rest]; [done|]. by apply handle_choice_streak.
Qed.

Lemma run_loop_streak fuel startVersion i st vars st' :
  has_streak name (rn_engine st) ->
  run_loop fuel startVersion i st vars = Some st' -> has_streak name (rn_engine st').
Proof.
  revert i st vars. induction fuel as [|fuel IH]; intros i st vars Hs; cbn [run_loop]; [done|].
  pose proof (run_iteration_streak startVersion i st vars Hs) as Hs1.
  destruct (run_iteration startVersion i st vars) as [st1 [vars1|]]; [by apply IH|by intros [= <-]].
Qed.

Lemma loop_steps_streak startVersion a b :
  rtc (loop_step startVersion) a b -> has_streak name (rn_engine (lh_state a)) ->
  has_streak name (rn_engine (lh_state b)).
Proof.
  induction 1 as [|a b c [Hab _] _ IH]; [done|]. intros Hs. apply IH.
  pose proof (run_iteration_streak startVersion (lh_i a) (lh_state a) (lh_vars a) Hs) as H. by rewrite Hab in H.
Qed.
End streaks.

(** * Properties *)


(** C2: under a configured iteration limit a run always returns, and within that
    many iterations: the fuel of limit + 2 is enough from every state, more fuel
    changes nothing, and no iteration beyond limit + 1 is begun. *)
Theorem engine_Run_terminates e jobs w userInput :
  (0 < iteration_limit)%Z ->
  (exists st, forall fuel, Z.to_nat iteration_limit + 2 <= fuel -> engine_Run fuel e jobs w userInput = Some st)
  /\ (forall head, run_reaches e jobs w userInput head -> (1 <= lh_i head <= iteration_limit + 1)%Z).
Proof.
  intros Hl. split.
  - unfold engine_Run.
    destruct (run_loop_total (Z.to_nat iteration_limit + 2) (start_version w) 1 (start_state e jobs w userInput)
      (start_vars userInput)) as [st Hst]; [done|lia|lia|lia|].
    eexists. intros fuel Hf. unfold start_state, start_version, start_vars in Hst.
    rewrite (run_loop_more _ _ _ _ _ _ _ Hf Hst). reflexivity.
  - intros head Hr.
    assert (forall a b, rtc (loop_step (start_version w)) a b ->
      (1 <= lh_i a <= iteration_limit + 1)%Z -> (1 <= lh_i b <= iteration_limit + 1)%Z) as H; [|apply (H _ _ Hr); simpl; lia].
    induction 1 as [|a b c [Hab Hi] _ IH]; [done|]. intros Ha. apply IH.
    destruct (decide (iteration_limit < lh_i a)%Z) as [Hlt|]; [|lia].
    destruct (run_iteration_limit (start_version w) (lh_i a) (lh_state a) (lh_vars a)) as [st' Hst]; [lia|].
    by rewrite Hab in Hst.
Qed.

(** C26: a batch of tool calls touches the outside world only by executing calls
    that were admitted when the batch was planned (and by waiting, by what the
    rest of the process does, and by the final response's own request); the calls
    planned are the ones the model made, in its order. *)
Theorem batch_runs_admitted_calls (t now : Z) st (w : W) futures calls :
  let planned := planToolCalls registry decode_error sha t now w (rn_engine st) calls in
  map pl_call planned.2 = calls
  /\ rtc (batch_world planned.2) (rn_world st) (rn_world (run_batch (set_engine st planned.1) futures planned.2).1).
Proof.
  intros planned. split.
  - pose proof (planToolCalls_spec t now w (rn_engine st) calls) as H. unfold planned.
    destruct (planToolCalls _ _ _ _ _ _ _ _) as [e plan]. apply H.
  - apply (run_batch_world planned.2 planned.2 (set_engine st planned.1)); [done|].
    intros p Hin Hsafe. by eapply planned_safe.
Qed.

(** once a tool has used up its budget of deterministic failures it is refused
    for the rest of the session: every later batch denies it, and the block is
    still there after any later run, whatever the user asks for. *)
Theorem failure_block_outlives_run e jobs w userInput name fuel st :
  nul_free name = true -> (forall n, is_Some (registry !! n) -> nul_free n = true) ->
  repeatedFailureBlock threshold e name <> None ->
  engine_Run fuel e jobs w userInput = Some st ->
  repeatedFailureBlock threshold (rn_engine st) name <> None
  /\ forall head (now : Z) w' calls p, run_reaches e jobs w userInput head ->
       p ∈ (planToolCalls registry decode_error sha threshold now w' (rn_engine (lh_state head)) calls).2 ->
       fc_Name (tc_Function (pl_call p)) = name -> ad_Kind (pl_admission p) <> AdmissionAllow.
Proof.
  intros Hn Hreg Hb%has_streak_block Hrun.
  assert (has_streak name (start_engine e userInput)) as Hs0.
  { eapply streak_eq; [|exact Hb]. unfold start_engine. by destruct (negb _). }
  split.
  - apply has_streak_block. revert Hrun. unfold engine_Run.
    destruct (run_loop _ _ _ _ _) as [st1|] eqn:Hloop; [|done]. intros [= <-].
    apply (streak_eq name (rn_engine st1)); [done|]. by eapply run_loop_streak; [..|exact Hloop].
  - intros head now w' calls p Hr Hin Hname Ha.
    pose proof (loop_steps_streak name Hn Hreg _ _ _ Hr Hs0) as Hs.
    destruct (planToolCalls_avoids now w' _ calls name Hs p Hin Ha) as [_ Hne]. by apply Hne.
Qed.
End engine.

(** * Samples *)

(** A world with a scripted model, which records the requests it is sent and the
    calls that are executed. *)
Module Sample.
Record World := { wd_script : list (string * list LLMToolCall); wd_requests : list PromptBundle; wd_executed : list string }.

Definition answer (a : string * list LLMToolCall) : LLMResponse :=
  {| rs_Choices := [{| ch_Index := 0;
       ch_Message := {| lm_Role := LLMRoleAssistant; lm_Content := a.1; lm_ReasoningContent := "";
                        lm_ToolCalls := a.2 |};
       ch_FinishReason := LLMFinishReasonStop |}];
     rs_Usage := {| us_PromptTokens := 10; us_CompletionTokens := 2; us_TotalTokens := 12 |} |}.

Definition model (w : World) (bundle : PromptBundle) (_ : list ToolSpec) : World * res string LLMResponse :=
  match wd_script w with
  | [] => (w, Err "no more answers")
  | r :: rest =>
      ({| wd_script := rest; wd_requests := wd_requests w ++ [bundle]; wd_executed := wd_executed w |}, Ok (answer r))
  end.

Definition tool (name : string) (boundary : bool) (result : string) : Tool World :=
  {| t_Name := name; t_Description := ""; t_Parameters := "{}";
     t_Execute := fun args w =>
       ({| wd_script := wd_script w; wd_requests := wd_requests w; wd_executed := wd_executed w ++ [name] |}, Ok result);
     t_Strict := None;
     t_Capability := Some {| cap_Mode := "act"; cap_RuntimeEnabled := true; cap_Delegable := false; cap_RunControl := "";
       cap_DeliveryBoundary := boundary; cap_EmitsReportPreview := false; cap_Idempotent := false |};
     t_ApprovalGate := None; t_CheckAvailability := None; t_SuspensionEvent := None; t_AcceptsUserResponse := None;
     t_IsConcurrencySafe := None |}.

Definition failing : string := MarshalMap [("ok", JBool false); ("tool", JStr "sql"); ("error_code", JStr "bad_sql"); ("message", JStr "no such column")].
Definition finalized : string :=
  MarshalMap [("ok", JBool true); ("tool", JStr "finalize"); ("is_finalized", JBool true); ("delivery_state", JStr "finalized")].
Definition registry : Registry World :=
  {["sql" := tool "sql" false failing; "finalize" := tool "finalize" true finalized]}.

Definition world (script : list (string * list LLMToolCall)) : World := {| wd_script := script; wd_requests := []; wd_executed := [] |}.

(** The sample run: a limit of eight iterations, a large window, threshold 3. *)
Abbreviation run fuel e world0 userInput :=
  (engine_Run registry model id id id Some (fun _ => None) (fun _ _ => None) id id (fun _ => 0%Z) (fun _ => [])
    (fun w => (w, [])) (fun _ => None) 8 100000 3 [] fuel e None world0 userInput).
Definition ask_then_answer : World := world [("", [sample_call "c1" "sql"]); ("done", [])].
(** The model fails with [sql] three times and ends the run. *)
Definition three_failures : World :=
  world [("", [sample_call "c1" "sql"]); ("", [sample_call "c2" "sql"]); ("", [sample_call "c3" "sql"]);
         ("giving up", [])].
Definition after_failures : Engine := default (NewEngine "") (rn_engine <$> run 10 (NewEngine "") three_failures "q").
(** The model finalizes and makes another call in the same turn. *)
Definition finalize_and_more : World :=
  world [("", [sample_call "c1" "finalize"; sample_call "c2" "sql"]); ("the report is ready", [])].
Definition result (e : Engine) (w : World) (userInput : string) : RunState :=
  default (start_state e None w userInput) (run 10 e w userInput).
Definition returns (e : Engine) (w : World) (userInput : string) : bool :=
  match run 10 e w userInput with Some _ => true | None => false end.
Lemma run_result e w userInput : returns e w userInput = true -> run 10 e w userInput = Some (result e w userInput).
Proof. unfold returns, result. by destruct (run 10 e w userInput). Qed.

Lemma model_as_assistant : llm_answers_as_assistant model.
Proof.
  intros w bundle specs w' resp choice. unfold model. destruct (wd_script w) as [|r rest]; [done|].
  intros [= <- <-]. cbn. by intros ->%list_elem_of_singleton.
Qed.
End Sample.


Lemma engine_Run_terminates_witness :
  (0 < 8)%Z
  /\ exists st, forall fuel, 10 <= fuel -> Sample.run fuel (NewEngine "") Sample.three_failures "q" = Some st.
Proof.
  split; [lia|].
  exact (proj1 (engine_Run_terminates Sample.registry Sample.model id id id Some (fun _ => None) (fun _ _ => None) id id
    (fun _ => 0%Z) (fun _ => []) (fun w => (w, [])) (fun _ => None) 8 100000 3 [] (NewEngine "") None
    Sample.three_failures "q" ltac:(lia))).
Defined.

Lemma failure_block_outlives_run_witness :
  repeatedFailureBlock 3 Sample.after_failures "sql" = Some ("bad_sql", 3%Z)
  /\ let st := Sample.result Sample.after_failures Sample.ask_then_answer "a new question" in
     Sample.run 10 Sample.after_failures Sample.ask_then_answer "a new question" = Some st
     /\ Sample.wd_executed (rn_world st) = [] /\ repeatedFailureBlock 3 (rn_engine st) "sql" <> None.
Proof.
  assert (repeatedFailureBlock 3 Sample.after_failures "sql" = Some ("bad_sql", 3%Z)) as Hb by (vm_compute; reflexivity).
  split; [exact Hb|]. intros st.
  assert (Sample.run 10 Sample.after_failures Sample.ask_then_answer "a new question" = Some st) as Hrun
    by (apply Sample.run_result; vm_compute; reflexivity).
  split; [exact Hrun|]. split; [vm_compute; reflexivity|].
  clearbody st. assert (repeatedFailureBlock 3 Sample.after_failures "sql" <> None) as Hne by (by rewrite Hb).
  refine (proj1 (failure_block_outlives_run Sample.registry Sample.model id id id Some (fun _ => None) (fun _ _ => None) id id
    (fun _ => 0%Z) (fun _ => []) (fun w => (w, [])) (fun _ => None) 8 100000 3 [] Sample.after_failures None
    Sample.ask_then_answer "a new question" "sql" 10 st eq_refl _ Hne Hrun)).
  intros n. unfold Sample.registry. rewrite lookup_insert_is_Some, lookup_singleton_is_Some.
  by intros [<-|[_ <-]].
Defined.

(** the request of the final response breaks the protocol when the model makes
    another call in the turn that finalizes the report: the run ends before that
    call is answered, and the request is assembled before the history is
    repaired. *)
Theorem finalize_request_unpaired :
  let st := Sample.result (NewEngine "") Sample.finalize_and_more "q" in
  Sample.run 10 (NewEngine "") Sample.finalize_and_more "q" = Some st
  /\ exists first final, Sample.wd_requests (rn_world st) = [first; final]
       /\ map tc_ID (flat_map ci_ToolCalls (pb_History final)) = ["c1"; "c2"]
       /\ map ci_ToolCallID (List.filter is_tool (pb_History final)) = ["c1"]
       /\ ~ paired "" (pb_History final).
Proof.
  intros st. split; [apply Sample.run_result; vm_compute; reflexivity|].
  assert (exists first final, Sample.wd_requests (rn_world st) = [first; final]
    /\ map tc_ID (flat_map ci_ToolCalls (pb_History final)) = ["c1"; "c2"]
    /\ map ci_ToolCallID (List.filter is_tool (pb_History final)) = ["c1"]
    /\ map ci_Role (repairToolPairing (pb_History final) "") <> map ci_Role (pb_History final)) as
    (first & final & Hreq & H1 & H2 & H3) by (do 2 eexists; split; [vm_compute; reflexivity|by vm_compute]).
  exists first, final. split; [done|]. split; [done|]. split; [done|]. intros Hp. apply H3. by rewrite (repair_fix _ _ Hp).
Qed.
