(* ===== verification/ReportState.v ===== *)
(** Model of the report a session edits: its state and evidence ledger
    (server/tools/report_state.go), the edit scope (report_guardrails.go,
    [ReportEditState]) and what both decide: which blocks and charts a scope lets
    change, the projection that locates a selection, and the delivery state.

    Every operation runs under the state's lock, so each is one atomic function.
    A nil slice or map reads as an empty one. *)
From S2P Require Import Prelude GoStrings Json Tools.
From Stdlib Require Import Ascii.
Open Scope string_scope.
Open Scope list_scope.

(** * Data *)

Record EvidenceRef := {
  ev_Kind : string;
  ev_ResultID : string;
  ev_ArtifactID : string;
  ev_ChartID : string;
  ev_Label : string;
}.
Global Instance EvidenceRef_eq_dec : EqDecision EvidenceRef.
Proof. solve_decision. Defined.

(** The rows are maps of decoded JSON values. *)
Record AnalysisResult := {
  ar_ID : string;
  ar_ToolName : string;
  ar_Operation : string;
  ar_Columns : list string;
  ar_Rows : list (list (string * jval));
  ar_RowCount : Z;
  ar_SourceID : string;
  ar_Dialect : string;
  ar_CreatedAt : string;
}.
Record ArtifactRecord := {
  af_ID : string;
  af_Name : string;
  af_ContentType : string;
  af_DownloadURL : string;
  af_CreatedAt : string;
}.
Record ReportBlock := {
  rb_ID : string;
  rb_Kind : string;
  rb_Title : string;
  rb_Content : string;
  rb_ChartID : string;
  rb_Sources : list EvidenceRef;
}.
(** [Option] is raw JSON text. *)
Record ChartData := {
  cd_ID : string;
  cd_Option : string;
  cd_Width : string;
  cd_Height : string;
  cd_Sources : list EvidenceRef;
}.
Record ReportLayout := { ly_CustomCSS : string; ly_BodyClass : string }.

Record ReportState := {
  rp_Blocks : list ReportBlock;
  rp_Charts : list ChartData;
  rp_FinalTitle : string;
  rp_FinalAuthor : string;
  rp_Layout : ReportLayout;
  rp_NeedsFinalize : bool;
  rp_MutationVersion : Z;
  rp_Results : gmap string AnalysisResult;
  rp_Artifacts : gmap string ArtifactRecord;
}.
Definition empty_layout : ReportLayout := {| ly_CustomCSS := ""; ly_BodyClass := "" |}.
Definition empty_report : ReportState :=
  {| rp_Blocks := []; rp_Charts := []; rp_FinalTitle := ""; rp_FinalAuthor := ""; rp_Layout := empty_layout;
     rp_NeedsFinalize := false; rp_MutationVersion := 0; rp_Results := ∅; rp_Artifacts := ∅ |}.

(** [MutationVersion++] on a [uint64] *)
Definition bump (v : Z) : Z := ((v + 1) mod 2 ^ 64)%Z.

Definition with_blocks (st : ReportState) (blocks : list ReportBlock) : ReportState :=
  {| rp_Blocks := blocks; rp_Charts := rp_Charts st; rp_FinalTitle := rp_FinalTitle st;
     rp_FinalAuthor := rp_FinalAuthor st; rp_Layout := rp_Layout st; rp_NeedsFinalize := true;
     rp_MutationVersion := bump (rp_MutationVersion st); rp_Results := rp_Results st; rp_Artifacts := rp_Artifacts st |}.
Definition with_charts (st : ReportState) (charts : list ChartData) : ReportState :=
  {| rp_Blocks := rp_Blocks st; rp_Charts := charts; rp_FinalTitle := rp_FinalTitle st;
     rp_FinalAuthor := rp_FinalAuthor st; rp_Layout := rp_Layout st; rp_NeedsFinalize := true;
     rp_MutationVersion := bump (rp_MutationVersion st); rp_Results := rp_Results st; rp_Artifacts := rp_Artifacts st |}.
(** Only the layout: the caller marks the draft. *)
Definition set_layout (st : ReportState) (layout : ReportLayout) : ReportState :=
  {| rp_Blocks := rp_Blocks st; rp_Charts := rp_Charts st; rp_FinalTitle := rp_FinalTitle st;
     rp_FinalAuthor := rp_FinalAuthor st; rp_Layout := layout; rp_NeedsFinalize := rp_NeedsFinalize st;
     rp_MutationVersion := rp_MutationVersion st; rp_Results := rp_Results st; rp_Artifacts := rp_Artifacts st |}.
Definition mark_draft (st : ReportState) : ReportState :=
  {| rp_Blocks := rp_Blocks st; rp_Charts := rp_Charts st; rp_FinalTitle := rp_FinalTitle st;
     rp_FinalAuthor := rp_FinalAuthor st; rp_Layout := rp_Layout st; rp_NeedsFinalize := true;
     rp_MutationVersion := bump (rp_MutationVersion st); rp_Results := rp_Results st; rp_Artifacts := rp_Artifacts st |}.
Definition set_final (st : ReportState) (title author : string) : ReportState :=
  {| rp_Blocks := rp_Blocks st; rp_Charts := rp_Charts st; rp_FinalTitle := title; rp_FinalAuthor := author;
     rp_Layout := rp_Layout st; rp_NeedsFinalize := false; rp_MutationVersion := rp_MutationVersion st;
     rp_Results := rp_Results st; rp_Artifacts := rp_Artifacts st |}.
Definition with_ledger (st : ReportState) (results : gmap string AnalysisResult) (artifacts : gmap string ArtifactRecord) :
    ReportState :=
  {| rp_Blocks := rp_Blocks st; rp_Charts := rp_Charts st; rp_FinalTitle := rp_FinalTitle st;
     rp_FinalAuthor := rp_FinalAuthor st; rp_Layout := rp_Layout st; rp_NeedsFinalize := rp_NeedsFinalize st;
     rp_MutationVersion := rp_MutationVersion st; rp_Results := results; rp_Artifacts := artifacts |}.

(** The errors of the report operations.  Those a tool reports as feedback keep
    their text.  Where the code validates the entries of a map literal, which of
    two failing fields is named is unspecified; here it is the first listed. *)
Inductive ReportError :=
| EReportText (text : string)
| EReportParams
| EReportAction
| EReportResultID
| EReportArtifactID
| EBlockExists (id : string)
| EBlockMissing (id : string)
| EBlockContent
| EBlockChart
| EBlockUnsupported
| EBlockBoth
| EBlockBefore (id : string)
| EBlockAfter (id : string)
| EBlockScope (action id : string)
| EChartScope (id : string)
| EChartInvalid (detail : string)
| ELayoutReset
| ELayoutMerge
| ELayoutCSSSize
| ELayoutBodyClass
| EAlreadyFinalized
| EFinalizeBlocked (blockers : list string)
| EFinalizeIssues (issues : list string).
Global Instance ReportError_eq_dec : EqDecision ReportError.
Proof. solve_decision. Defined.

(** * The ledger *)

Definition RecordResult (st : ReportState) (result : AnalysisResult) : res ReportError ReportState :=
  if (ar_ID result =? "") || not_exact (ar_ID result) then Err EReportResultID
  else Ok (with_ledger st (<[ar_ID result := result]> (rp_Results st)) (rp_Artifacts st)).
Definition RecordArtifact (st : ReportState) (artifact : ArtifactRecord) : res ReportError ReportState :=
  if (af_ID artifact =? "") || not_exact (af_ID artifact) then Err EReportArtifactID
  else Ok (with_ledger st (rp_Results st) (<[af_ID artifact := artifact]> (rp_Artifacts st))).

Definition set_ids (ref : EvidenceRef) : nat :=
  length (List.filter (fun v => negb (v =? "")) [ev_ResultID ref; ev_ArtifactID ref; ev_ChartID ref]).

(** The first of the named values that is not exact. *)
Definition check_exact (fields : list (string * string)) : res string unit :=
  match List.find (fun fv => not_exact fv.2) fields with
  | Some (field, _) => Err (field ++ " must be exact")%string
  | None => Ok tt
  end.

Definition validateEvidenceRefShape (ref : EvidenceRef) : res string unit :=
  let? _ := check_exact [("kind", ev_Kind ref); ("result_id", ev_ResultID ref); ("artifact_id", ev_ArtifactID ref);
                         ("chart_id", ev_ChartID ref)] in
  if negb (set_ids ref =? 1)%nat then Err "exactly one result_id, artifact_id, or chart_id is required"
  else if ev_Kind ref =? "result" then
    if ev_ResultID ref =? "" then Err "kind=result requires result_id" else Ok tt
  else if ev_Kind ref =? "artifact" then
    if ev_ArtifactID ref =? "" then Err "kind=artifact requires artifact_id" else Ok tt
  else if ev_Kind ref =? "chart" then
    if ev_ChartID ref =? "" then Err "kind=chart requires chart_id" else Ok tt
  else Err ("unsupported evidence kind " ++ quoted (ev_Kind ref))%string.

(** The shapes of a list of sources, the index in front of the error. *)
Definition check_sources (refs : list EvidenceRef) : res string unit :=
  each (fun ir => match validateEvidenceRefShape ir.2 with
                  | Ok _ => Ok tt
                  | Err e => Err ("sources[" ++ itoa (Z.of_nat ir.1) ++ "]: " ++ e)%string
                  end) (imap pair refs).

(** * Delivery state *)

Record ReportDeliveryState := {
  dl_HasContent : bool;
  dl_IsFinalized : bool;
  dl_NeedsFinalize : bool;
  dl_DeliveryState : string;
  dl_BlockCount : Z;
  dl_ChartCount : Z;
  dl_FinalTitle : string;
  dl_FinalAuthor : string;
}.
Definition describeReportDeliveryState (st : ReportState) : ReportDeliveryState :=
  let blocks := Z.of_nat (length (rp_Blocks st)) in
  let charts := Z.of_nat (length (rp_Charts st)) in
  let hasContent := (0 <? blocks)%Z || (0 <? charts)%Z in
  let isFinalized := hasContent && negb (rp_NeedsFinalize st) && negb (blank (rp_FinalTitle st)) in
  {| dl_HasContent := hasContent; dl_IsFinalized := isFinalized; dl_NeedsFinalize := rp_NeedsFinalize st;
     dl_DeliveryState := if hasContent then if isFinalized then "finalized" else "draft" else "empty";
     dl_BlockCount := blocks; dl_ChartCount := charts; dl_FinalTitle := rp_FinalTitle st;
     dl_FinalAuthor := rp_FinalAuthor st |}.

(** * Chart references

    [FindAllStringSubmatch] of the pattern open-open "chart:" name close-close,
    the name being one or more characters other than braces and line ends.  The
    excluded characters are single bytes and the name cannot stop earlier, so a
    match is a maximal run of other bytes. *)
Definition name_byte (a : ascii) : bool :=
  let n := byteZ a in negb ((n =? 123)%Z || (n =? 125)%Z || (n =? 13)%Z || (n =? 10)%Z).
Definition starts_with (p l : list ascii) : bool := bool_decide (take (length p) l = p).
Definition chart_open : list ascii := String.list_ascii_of_string "{{chart:".
Definition chart_close : list ascii := String.list_ascii_of_string "}}".

Fixpoint chart_matches (fuel : nat) (l : list ascii) : list (list ascii) :=
  match fuel, l with
  | S fuel, _ :: l1 =>
      if starts_with chart_open l then
        let '(name, rest) := span name_byte (drop (length chart_open) l) in
        if negb (length name =? 0)%nat && starts_with chart_close rest
        then name :: chart_matches fuel (drop (length chart_close) rest)
        else chart_matches fuel l1
      else chart_matches fuel l1
  | _, _ => []
  end.

Definition ChartReferences (content : string) : list string :=
  let l := String.list_ascii_of_string content in
  List.filter (fun name => negb (not_exact name)) (map String.string_of_list_ascii (chart_matches (length l) l)).

(** * Blocks *)

(** The index of the first block with an identifier. *)
Fixpoint findReportBlockIndex (blocks : list ReportBlock) (blockID : string) : option nat :=
  match blocks with
  | [] => None
  | b :: rest => if rb_ID b =? blockID then Some 0 else S <$> findReportBlockIndex rest blockID
  end.

Definition referencedChartsOutsideChartBlocks (blocks : list ReportBlock) : gset string :=
  list_to_set (flat_map (fun b => if rb_Kind b =? "chart" then [] else ChartReferences (rb_Content b)) blocks).

Definition collectEditableChartIDs (blocks : list ReportBlock) (blockID chartID : string) : gset string :=
  let refs : gset string := if chartID =? "" then ∅ else {[chartID]} in
  if (length blocks =? 0)%nat || (blockID =? "") then refs
  else match (let! i := findReportBlockIndex blocks blockID in blocks !! i) with
  | None => refs
  | Some b =>
      refs ∪ (if rb_ChartID b =? "" then ∅ else {[rb_ChartID b]}) ∪ list_to_set (ChartReferences (rb_Content b))
  end.

(** * The edit scope *)

Record ReportEditState := {
  es_ScopeKindValue : string;
  es_TargetRunID : string;
  es_TargetBlockID : string;
  es_TargetBlockLabel : string;
  es_TargetChartID : string;
  es_SelectionText : string;
  es_SelectionStart : Z;
  es_SelectionEnd : Z;
  es_SelectionRangeSet : bool;
  es_AllowedChartIDs : gset string;
  es_TargetBlockContent : string;
  es_TargetBlockKind : string;
  es_TargetBlockTitle : string;
  es_TargetBlockChartID : string;
  es_TargetBlockSources : list EvidenceRef;
}.
Definition ResetEditState : ReportEditState :=
  {| es_ScopeKindValue := ""; es_TargetRunID := ""; es_TargetBlockID := ""; es_TargetBlockLabel := "";
     es_TargetChartID := ""; es_SelectionText := ""; es_SelectionStart := 0; es_SelectionEnd := 0;
     es_SelectionRangeSet := false; es_AllowedChartIDs := ∅; es_TargetBlockContent := "";
     es_TargetBlockKind := ""; es_TargetBlockTitle := ""; es_TargetBlockChartID := ""; es_TargetBlockSources := [] |}.
Definition Active (s : ReportEditState) : bool := negb (es_ScopeKindValue s =? "").
Definition ScopeKind (s : ReportEditState) : string :=
  if es_ScopeKindValue s =? "" then "inactive" else es_ScopeKindValue s.

(** The facts derived from the report the scope is about. *)
Definition RefreshFromReportState (s : ReportEditState) (st : ReportState) : ReportEditState :=
  let blocks := rp_Blocks st in
  let target := if es_TargetBlockID s =? "" then None
                else let! i := findReportBlockIndex blocks (es_TargetBlockID s) in blocks !! i in
  let get {A} (f : ReportBlock -> A) (d : A) : A := match target with Some b => f b | None => d end in
  {| es_ScopeKindValue := es_ScopeKindValue s; es_TargetRunID := es_TargetRunID s;
     es_TargetBlockID := es_TargetBlockID s; es_TargetBlockLabel := es_TargetBlockLabel s;
     es_TargetChartID := es_TargetChartID s; es_SelectionText := es_SelectionText s;
     es_SelectionStart := es_SelectionStart s; es_SelectionEnd := es_SelectionEnd s;
     es_SelectionRangeSet := es_SelectionRangeSet s;
     es_AllowedChartIDs := collectEditableChartIDs blocks (es_TargetBlockID s) (es_TargetChartID s);
     es_TargetBlockContent := get rb_Content ""; es_TargetBlockKind := get rb_Kind "";
     es_TargetBlockTitle := get rb_Title ""; es_TargetBlockChartID := get rb_ChartID "";
     es_TargetBlockSources := get rb_Sources [] |}.

Definition BlockMutationAllowed (s : ReportEditState) (action blockID : string) : bool :=
  let kind := es_ScopeKindValue s in
  if (kind =? "") || (kind =? "whole_report") then true
  else if (kind =? "partial_block") || (kind =? "partial_selection") then
    (action =? "upsert") && negb (es_TargetBlockID s =? "") && (blockID =? es_TargetBlockID s)
  else false.

Definition ChartMutationAllowed (s : ReportEditState) (chartID : string) : bool :=
  let kind := es_ScopeKindValue s in
  if (kind =? "") || (kind =? "whole_report") then true
  else if kind =? "layout" then false
  else bool_decide (chartID ∈ es_AllowedChartIDs s).

Definition LayoutMutationAllowed (s : ReportEditState) : bool :=
  let kind := es_ScopeKindValue s in (kind =? "") || (kind =? "whole_report") || (kind =? "layout").

(** * The projection of a selection

    The user selects in the rendered text; the projection is that text with, for
    each rune, the range of source runes it stands for. *)

(** [unicode.IsSpace] *)
Definition IsSpaceRune (r : Z) : bool :=
  (9 <=? r)%Z && (r <=? 13)%Z || (r =? 32)%Z || (r =? 133)%Z || (r =? 160)%Z || (r =? 5760)%Z
  || (8192 <=? r)%Z && (r <=? 8202)%Z || (r =? 8232)%Z || (r =? 8233)%Z || (r =? 8239)%Z || (r =? 8287)%Z
  || (r =? 12288)%Z.

Record projectedRune := { pr_value : Z; pr_start : nat; pr_end : nat }.

(** The index of the first [target] from [start] on. *)
Fixpoint find_rune (l : list Z) (target : Z) : option nat :=
  match l with
  | [] => None
  | r :: rest => if (r =? target)%Z then Some 0 else S <$> find_rune rest target
  end.
Definition findRuneForward (rs : list Z) (start : nat) (target : Z) : option nat :=
  (fun k => start + k) <$> find_rune (drop start rs) target.

Definition isMarkdownSyntaxRune (rs : list Z) (i : nat) : bool :=
  match rs !! i with
  | None => false
  | Some ch =>
      if (ch =? 42)%Z || (ch =? 96)%Z then true
      else if (ch =? 35)%Z then
        ((i =? 0)%nat || bool_decide (rs !! (i - 1) = Some 10%Z))
        && (bool_decide (rs !! (i + 1) = Some 32%Z) || bool_decide (rs !! (i + 1) = Some 35%Z))
      else false
  end.

Section projection.
(** [html.UnescapeString], whose table of named entities is not repeated here. *)
Context (UnescapeString : string -> string).

Definition decodeHTMLEntityAt (rs : list Z) (start : nat) : option (list Z * nat) :=
  if negb (bool_decide (rs !! start = Some 38%Z)) then None
  else
    let! end_ := findRuneForward rs (start + 1) 59 in
    if (32 <? end_ - start)%nat then None
    else
      let raw := string_of_runes (take (end_ + 1 - start) (drop start rs)) in
      let decoded := UnescapeString raw in
      if decoded =? raw then None else Some (runes decoded, end_ + 1).

(** [appendProjectedRuneRange]: the runes from [i] up to [stop]. *)
Fixpoint projectedRange (fuel : nat) (rs : list Z) (i stop : nat) : list projectedRune :=
  match fuel with
  | O => []
  | S fuel =>
      if (stop <=? i)%nat then []
      else match rs !! i with
      | None => []
      | Some ch =>
          match decodeHTMLEntityAt rs i with
          | Some (decoded, rawEnd) =>
              if (rawEnd <=? stop)%nat
              then map (fun r => {| pr_value := r; pr_start := i; pr_end := rawEnd |}) decoded
                   ++ projectedRange fuel rs rawEnd stop
              else {| pr_value := ch; pr_start := i; pr_end := i + 1 |} :: projectedRange fuel rs (i + 1) stop
          | None => {| pr_value := ch; pr_start := i; pr_end := i + 1 |} :: projectedRange fuel rs (i + 1) stop
          end
      end
  end.

(** A link or image at [i] whose text starts at [text]: the range of the text and
    the index after the closing parenthesis. *)
Definition link_at (rs : list Z) (text : nat) : option (nat * nat) :=
  let! textEnd := findRuneForward rs text 93 in
  if bool_decide (rs !! (textEnd + 1) = Some 40%Z) then
    let! linkEnd := findRuneForward rs (textEnd + 2) 41 in Some (textEnd, linkEnd + 1)
  else None.

(** The loop over the content.  An entity not taken by the first test of the loop
    is not one, so [appendProjectedRune] adds the rune itself.  Each round moves
    forward, so the number of runes is enough fuel. *)
Fixpoint project_loop (fuel : nat) (rs : list Z) (i : nat) : list projectedRune :=
  match fuel with
  | O => []
  | S fuel =>
      match rs !! i with
      | None => []
      | Some ch =>
          let plain :=
            if isMarkdownSyntaxRune rs i then project_loop fuel rs (i + 1)
            else {| pr_value := ch; pr_start := i; pr_end := i + 1 |} :: project_loop fuel rs (i + 1) in
          let link :=
            if (ch =? 91)%Z then
              match link_at rs (i + 1) with
              | Some (textEnd, next) => projectedRange (length rs) rs (i + 1) textEnd ++ project_loop fuel rs next
              | None => plain
              end
            else plain in
          let image :=
            if (ch =? 33)%Z && bool_decide (rs !! (i + 1) = Some 91%Z) then
              match link_at rs (i + 2) with
              | Some (textEnd, next) => projectedRange (length rs) rs (i + 2) textEnd ++ project_loop fuel rs next
              | None => link
              end
            else link in
          let tag :=
            if (ch =? 60)%Z then
              match findRuneForward rs (i + 1) 62 with
              | Some end_ => project_loop fuel rs (end_ + 1)
              | None => image
              end
            else image in
          match decodeHTMLEntityAt rs i with
          | Some (decoded, rawEnd) =>
              map (fun r => {| pr_value := r; pr_start := i; pr_end := rawEnd |}) decoded ++ project_loop fuel rs rawEnd
          | None => tag
          end
      end
  end.
Definition projectReportContentText (content : string) : list projectedRune :=
  let rs := runes content in project_loop (length rs) rs 0.

(** Runs of white space become one space, leading and trailing ones go. *)
Fixpoint normalize_loop (rs : list Z) (inSpace started : bool) : list Z :=
  match rs with
  | [] => []
  | ch :: rest =>
      if IsSpaceRune ch then normalize_loop rest true started
      else (if inSpace && started then [32%Z] else []) ++ ch :: normalize_loop rest false true
  end.
Definition normalizeSelectionCompareText (value : string) : string :=
  TrimSpace (string_of_runes (normalize_loop (runes value) false false)).

Definition projectedText (projected : list projectedRune) : string := string_of_runes (map pr_value projected).

Definition selectionBounds (s : ReportEditState) (original : string) : option (nat * nat) :=
  let projected := projectReportContentText original in
  if (length projected =? 0)%nat then None
  else
    let needle := normalizeSelectionCompareText (es_SelectionText s) in
    if needle =? "" then None
    else if negb (es_SelectionRangeSet s) || (es_SelectionEnd s <=? es_SelectionStart s)%Z
            || (es_SelectionStart s <? 0)%Z || (Z.of_nat (length projected) <? es_SelectionEnd s)%Z then None
    else
      let start := Z.to_nat (es_SelectionStart s) in
      let end_ := Z.to_nat (es_SelectionEnd s) in
      let selected := projectedText (take (end_ - start) (drop start projected)) in
      if negb (normalizeSelectionCompareText selected =? needle) then None
      else let! first := projected !! start in
           let! final := projected !! (end_ - 1) in Some (pr_start first, pr_end final).

Definition SelectionMutationAllowed (s : ReportEditState) (blockID newContent : string) : bool :=
  if negb (es_ScopeKindValue s =? "partial_selection") then true
  else if (blockID =? "") || negb (blockID =? es_TargetBlockID s) then false
  else
    let original := es_TargetBlockContent s in
    if original =? "" then false
    else match selectionBounds s original with
    | None => false
    | Some (start, end_) =>
        let prefix := string_of_runes (take start (runes original)) in
        let suffix := string_of_runes (drop end_ (runes original)) in
        HasPrefix newContent prefix && HasSuffix newContent suffix
    end.

Definition SelectionBlockMutationAllowed (s : ReportEditState) (block : ReportBlock) : bool :=
  if negb (SelectionMutationAllowed s (rb_ID block) (rb_Content block)) then false
  else if negb (es_ScopeKindValue s =? "partial_selection") then true
  else
    ((es_TargetBlockKind s =? "") || (rb_Kind block =? es_TargetBlockKind s))
    && (rb_Title block =? es_TargetBlockTitle s) && (rb_ChartID block =? es_TargetBlockChartID s)
    && bool_decide (rb_Sources block = es_TargetBlockSources s).
End projection.
