(* ===== verification/ReportOps.v ===== *)
(** Model of the operations on a report (server/tools): block mutations
    (report_blocks.go), chart mutations (report_charts.go), the layout
    (report_layout.go), finalization (report_finalize.go with the checks of
    report_guardrails.go) and the tools that expose them (report_tools.go, chart.go,
    report_tool_payloads.go, response.go).

    An operation yields the state it leaves and its result, so that what an
    operation that fails has already changed is visible. *)
From S2P Require Import Prelude GoStrings GoText Json Tools HistoryRebuild ReportState.
From Stdlib Require Import Ascii.
Open Scope string_scope.
Open Scope list_scope.

Section operations.
Context (UnescapeString : string -> string).

(** * Blocks *)

Definition validateExactReportField (field value : string) (required : bool) : res string unit :=
  if required && blank value then Err (field ++ " is required")%string
  else if not_exact value then Err (field ++ " must not contain leading or trailing whitespace")%string
  else if contains_byte value Ascii.zero then Err (field ++ " contains a NUL byte")%string
  else Ok tt.
Definition texts {A} (r : res string A) : res ReportError A :=
  match r with Ok a => Ok a | Err e => Err (EReportText e) end.

Record reportBlockMutationParams := {
  bp_Action : string;
  bp_BlockID : string;
  bp_BlockKind : string;
  bp_Title : string;
  bp_Content : string;
  bp_ChartID : string;
  bp_BeforeBlockID : string;
  bp_AfterBlockID : string;
  bp_Sources : list EvidenceRef;
}.
Record reportBlockMutationResult := {
  br_Action : string;
  br_BlockID : string;
  br_BlockKind : string;
  br_BlockCount : Z;
  br_UISummary : string;
}.

Definition buildReportBlock (p : reportBlockMutationParams) : res ReportError ReportBlock :=
  let? _ := texts (check_sources (bp_Sources p)) in
  let block := {| rb_ID := bp_BlockID p; rb_Kind := bp_BlockKind p; rb_Title := bp_Title p;
                  rb_Content := bp_Content p; rb_ChartID := bp_ChartID p; rb_Sources := bp_Sources p |} in
  if (bp_BlockKind p =? "markdown") || (bp_BlockKind p =? "html") then
    if blank (bp_Content p) then Err EBlockContent else Ok block
  else if bp_BlockKind p =? "chart" then
    if blank (bp_ChartID p) then Err EBlockChart else Ok block
  else Err EBlockUnsupported.

Definition resolveReportBlockInsertIndex (blocks : list ReportBlock) (before after : string) : res ReportError nat :=
  if negb (before =? "") && negb (after =? "") then Err EBlockBoth
  else if negb (before =? "") then
    match findReportBlockIndex blocks before with Some i => Ok i | None => Err (EBlockBefore before) end
  else if negb (after =? "") then
    match findReportBlockIndex blocks after with Some i => Ok (S i) | None => Err (EBlockAfter after) end
  else Ok (length blocks).

(** An index past the end is the end. *)
Definition insertReportBlockAt (blocks : list ReportBlock) (block : ReportBlock) (index : nat) : list ReportBlock :=
  take index blocks ++ block :: drop index blocks.

Definition block_summary (block : ReportBlock) (what : string) : string :=
  ("内容块 [" ++ rb_Kind block ++ "] " ++ rb_ID block ++ what)%string.

Definition block_result (st : ReportState) (action : string) (block : ReportBlock) (what : string) :
    reportBlockMutationResult :=
  {| br_Action := action; br_BlockID := rb_ID block; br_BlockKind := rb_Kind block;
     br_BlockCount := Z.of_nat (length (rp_Blocks st)); br_UISummary := block_summary block what |}.

(** [editState] is nil when no scope is attached. *)
Definition block_allowed (editState : option ReportEditState) (action id : string) : bool :=
  match editState with Some s => BlockMutationAllowed s action id | None => true end.
Definition selection_allowed (editState : option ReportEditState) (block : ReportBlock) : bool :=
  match editState with Some s => SelectionBlockMutationAllowed UnescapeString s block | None => true end.

Definition upsertReportBlock (st : ReportState) (editState : option ReportEditState) (p : reportBlockMutationParams) :
    ReportState * res ReportError reportBlockMutationResult :=
  match (let? _ := texts (validateExactReportField "block_kind" (bp_BlockKind p) true) in
         let? _ := texts (validateExactReportField "chart_id" (bp_ChartID p) false) in
         let? block := buildReportBlock p in
         let existing := findReportBlockIndex (rp_Blocks st) (rb_ID block) in
         if (bp_Action p =? "append") && bool_decide (is_Some existing) then Err (EBlockExists (rb_ID block))
         else if negb (block_allowed editState (bp_Action p) (rb_ID block)) then Err (EBlockScope (bp_Action p) (rb_ID block))
         else if negb (selection_allowed editState block) then Err (EBlockScope "partial_selection" (rb_ID block))
         else
           let working := match existing with Some i => remove_at i (rp_Blocks st) | None => rp_Blocks st end in
           let? insertAt :=
             match existing, bp_BeforeBlockID p, bp_AfterBlockID p with
             | Some i, EmptyString, EmptyString => Ok i
             | _, _, _ => resolveReportBlockInsertIndex working (bp_BeforeBlockID p) (bp_AfterBlockID p)
             end in
           Ok (block, bool_decide (is_Some existing), insertReportBlockAt working block insertAt)) with
  | Err e => (st, Err e)
  | Ok (block, replaced, blocks) =>
      let st := with_blocks st blocks in
      (st, Ok (block_result st (bp_Action p) block
                 (if replaced then " 已更新，当前仍为草稿。" else " 已写入报告，当前仍为草稿。")))
  end.

Definition removeReportBlock (st : ReportState) (editState : option ReportEditState) (p : reportBlockMutationParams) :
    ReportState * res ReportError reportBlockMutationResult :=
  if negb (block_allowed editState (bp_Action p) (bp_BlockID p)) then (st, Err (EBlockScope (bp_Action p) (bp_BlockID p)))
  else match (let! i := findReportBlockIndex (rp_Blocks st) (bp_BlockID p) in
              let! removed := rp_Blocks st !! i in Some (i, removed)) with
  | None => (st, Err (EBlockMissing (bp_BlockID p)))
  | Some (i, removed) =>
      let st := with_blocks st (remove_at i (rp_Blocks st)) in
      (st, Ok (block_result st (bp_Action p) removed " 已从报告移除，当前仍为草稿。"))
  end.

Definition moveReportBlock (st : ReportState) (editState : option ReportEditState) (p : reportBlockMutationParams) :
    ReportState * res ReportError reportBlockMutationResult :=
  if negb (block_allowed editState (bp_Action p) (bp_BlockID p)) then (st, Err (EBlockScope (bp_Action p) (bp_BlockID p)))
  else match (let! i := findReportBlockIndex (rp_Blocks st) (bp_BlockID p) in
              let! block := rp_Blocks st !! i in Some (i, block)) with
  | None => (st, Err (EBlockMissing (bp_BlockID p)))
  | Some (i, block) =>
      let blocks := remove_at i (rp_Blocks st) in
      match resolveReportBlockInsertIndex blocks (bp_BeforeBlockID p) (bp_AfterBlockID p) with
      | Err e => (st, Err e)
      | Ok insertAt =>
          let st := with_blocks st (insertReportBlockAt blocks block insertAt) in
          (st, Ok (block_result st (bp_Action p) block " 已重新排序，当前仍为草稿。"))
      end
  end.

Definition applyReportBlockMutation (st : ReportState) (editState : option ReportEditState) (p : reportBlockMutationParams) :
    ReportState * res ReportError reportBlockMutationResult :=
  match (let? _ := texts (validateExactReportField "action" (bp_Action p) true) in
         let? _ := texts (validateExactReportField "block_id" (bp_BlockID p) true) in
         let? _ := texts (validateExactReportField "before_block_id" (bp_BeforeBlockID p) false) in
         texts (validateExactReportField "after_block_id" (bp_AfterBlockID p) false)) with
  | Err e => (st, Err e)
  | Ok _ =>
      if (bp_Action p =? "append") || (bp_Action p =? "upsert") then upsertReportBlock st editState p
      else if bp_Action p =? "remove" then removeReportBlock st editState p
      else if bp_Action p =? "move" then moveReportBlock st editState p
      else (st, Err EReportAction)
  end.

(** * Charts *)

Record createChartParams := {
  cp_ChartID : string;
  cp_Title : string;
  cp_Option : string;
  cp_Width : string;
  cp_Height : string;
  cp_Sources : list EvidenceRef;
}.
Record reportChartMutationResult := { cr_ChartID : string; cr_Title : string; cr_ChartRef : string; cr_Replaced : bool }.

(** ^(?:0|[0-9]+(?:\.[0-9]+)?(?:px|%|em|rem|vh|vw))$ *)
Definition chart_dimension (s : string) : bool :=
  if s =? "0" then true
  else
    let '(whole, rest) := span is_digit (String.list_ascii_of_string s) in
    let unit_ok l := existsb (fun u => bool_decide (l = String.list_ascii_of_string u)) ["px"; "%"; "em"; "rem"; "vh"; "vw"] in
    negb (length whole =? 0)%nat
    && (unit_ok rest
        || match rest with
           | a :: l => Ascii.eqb a "." && (let '(frac, rest) := span is_digit l in negb (length frac =? 0)%nat && unit_ok rest)
           | [] => false
           end).

Definition check_dimension (field value : string) : res string unit :=
  let? _ := validateExactReportField field value false in
  if negb (value =? "") && negb (chart_dimension value)
  then Err (field ++ " must be a non-negative CSS length using px, %, em, rem, vh, or vw")%string
  else Ok tt.

Definition resolveChartOption (option_ : string) : res string string :=
  let trimmed := TrimSpace option_ in
  if (trimmed =? "") || (trimmed =? "null") then Err "option is required"
  else match (let! v := Decode option_ in match v with JObj _ => Some tt | _ => None end) with
  | Some _ => Ok option_
  | None => Err "option must be a JSON object"
  end.

(** The first chart with the identifier is replaced in place. *)
Fixpoint replace_chart (charts : list ChartData) (chart : ChartData) : option (list ChartData) :=
  match charts with
  | [] => None
  | c :: rest => if cd_ID c =? cd_ID chart then Some (chart :: rest) else (c ::.) <$> replace_chart rest chart
  end.

Definition chart_allowed (editState : option ReportEditState) (id : string) : bool :=
  match editState with Some s => ChartMutationAllowed s id | None => true end.

Definition applyReportChartMutation (st : ReportState) (editState : option ReportEditState) (p : createChartParams) :
    ReportState * res ReportError reportChartMutationResult :=
  match (let? _ := validateExactReportField "chart_id" (cp_ChartID p) true in
         let? _ := check_sources (cp_Sources p) in
         let? _ := check_dimension "width" (cp_Width p) in
         let? _ := check_dimension "height" (cp_Height p) in
         resolveChartOption (cp_Option p)) with
  | Err e => (st, Err (EChartInvalid e))
  | Ok option_ =>
      if negb (chart_allowed editState (cp_ChartID p)) then (st, Err (EChartScope (cp_ChartID p)))
      else
        let chart := {| cd_ID := cp_ChartID p; cd_Option := option_; cd_Width := cp_Width p; cd_Height := cp_Height p;
                        cd_Sources := cp_Sources p |} in
        let '(charts, replaced) := match replace_chart (rp_Charts st) chart with
                                   | Some charts => (charts, true)
                                   | None => (rp_Charts st ++ [chart], false)
                                   end in
        (with_charts st charts,
         Ok {| cr_ChartID := cp_ChartID p; cr_Title := cp_Title p;
               cr_ChartRef := ("{{chart:" ++ cp_ChartID p ++ "}}")%string; cr_Replaced := replaced |})
  end.

(** * The layout *)

Record reportLayoutParams := { lp_Action : string; lp_CustomCSS : string; lp_BodyClass : string }.
Record reportLayoutResult := { lr_Action : string; lr_HasCustomCSS : bool; lr_BodyClass : string; lr_UISummary : string }.
Definition maxCustomCSSSize : Z := 10240.

Definition class_byte (a : ascii) : bool :=
  let n := byteZ a in
  (97 <=? n)%Z && (n <=? 122)%Z || (65 <=? n)%Z && (n <=? 90)%Z || (48 <=? n)%Z && (n <=? 57)%Z
  || (n =? 45)%Z || (n =? 95)%Z.
Definition sanitizeBodyClass (value : string) : string :=
  String.concat " " (List.filter (fun f => forallb class_byte (String.list_ascii_of_string f)) (Fields value)).

(** The merge writes the style before the class is checked. *)
Definition applyReportLayoutMutation (st : ReportState) (p : reportLayoutParams) :
    ReportState * res ReportError reportLayoutResult :=
  match texts (validateExactReportField "action" (lp_Action p) true) with
  | Err e => (st, Err e)
  | Ok _ =>
      if lp_Action p =? "reset" then
        if negb (lp_CustomCSS p =? "") || negb (lp_BodyClass p =? "") then (st, Err ELayoutReset)
        else (mark_draft (set_layout st empty_layout),
              Ok {| lr_Action := lp_Action p; lr_HasCustomCSS := false; lr_BodyClass := "";
                    lr_UISummary := "报告布局已重置，当前仍为草稿。" |})
      else if lp_Action p =? "merge" then
        if (lp_CustomCSS p =? "") && (lp_BodyClass p =? "") then (st, Err ELayoutMerge)
        else if negb (lp_CustomCSS p =? "") && (maxCustomCSSSize <? len (lp_CustomCSS p))%Z then (st, Err ELayoutCSSSize)
        else
          let st := if negb (lp_CustomCSS p =? "")
                    then set_layout st {| ly_CustomCSS := lp_CustomCSS p; ly_BodyClass := ly_BodyClass (rp_Layout st) |}
                    else st in
          if negb (lp_BodyClass p =? "") && negb (sanitizeBodyClass (lp_BodyClass p) =? lp_BodyClass p)
          then (st, Err ELayoutBodyClass)
          else
            let st := if negb (lp_BodyClass p =? "")
                      then set_layout st {| ly_CustomCSS := ly_CustomCSS (rp_Layout st); ly_BodyClass := lp_BodyClass p |}
                      else st in
            (mark_draft st,
             Ok {| lr_Action := lp_Action p; lr_HasCustomCSS := negb (ly_CustomCSS (rp_Layout st) =? "");
                   lr_BodyClass := ly_BodyClass (rp_Layout st); lr_UISummary := "报告布局已更新，当前仍为草稿。" |})
      else (st, Err EReportAction)
  end.

(** * Finalization *)

(** The charts a block embeds, each counted once. *)
Definition block_charts (block : ReportBlock) : gset string :=
  if rb_Kind block =? "chart" then if rb_ChartID block =? "" then ∅ else {[rb_ChartID block]}
  else referencedChartsOutsideChartBlocks [block].

(** [refCounts]: how many blocks embed each chart. *)
Fixpoint ref_counts (blocks : list ReportBlock) : gmap string nat :=
  match blocks with
  | [] => ∅
  | b :: rest => set_fold (fun id counts => <[id := S (default 0 (counts !! id))]> counts) (ref_counts rest) (block_charts b)
  end.

Definition chart_set (st : ReportState) : gset string :=
  list_to_set (List.filter (fun id => negb (id =? "")) (map cd_ID (rp_Charts st))).

Definition renderableReportBlockCount (blocks : list ReportBlock) : nat :=
  length (List.filter (fun b => (rb_Kind b =? "markdown") || (rb_Kind b =? "html") || (rb_Kind b =? "chart")) blocks).

(** [sort.Strings] *)
Definition sort_strings (l : list string) : list string := map fst (sort_keys (map (fun s => (s, tt)) l)).

(** The problems of one reference of [owner], at index [i]. *)
Definition evidence_issue (st : ReportState) (owner : string) (i : nat) (ref : EvidenceRef) : list string :=
  let at_ := (owner ++ ":" ++ itoa (Z.of_nat i))%string in
  if negb (set_ids ref =? 1)%nat then [("invalid_evidence_ref:" ++ at_)%string]
  else
    let check (id : string) (known : bool) (what : string) : list string :=
      if id =? "" then [("evidence_kind_mismatch:" ++ at_)%string]
      else if known then [] else [("unknown_" ++ what ++ "_ref:" ++ at_ ++ ":" ++ id)%string] in
    if ev_Kind ref =? "result" then check (ev_ResultID ref) (bool_decide (is_Some (rp_Results st !! ev_ResultID ref))) "result"
    else if ev_Kind ref =? "artifact" then
      check (ev_ArtifactID ref) (bool_decide (is_Some (rp_Artifacts st !! ev_ArtifactID ref))) "artifact"
    else if ev_Kind ref =? "chart" then check (ev_ChartID ref) (existsb (String.eqb (ev_ChartID ref)) (map cd_ID (rp_Charts st))) "chart"
    else [("unknown_evidence_kind:" ++ at_ ++ ":" ++ ev_Kind ref)%string].
Definition evidence_issues (st : ReportState) (owner : string) (refs : list EvidenceRef) : list string :=
  List.concat (imap (evidence_issue st owner) refs).
Definition reportEvidenceFinalizeIssues (st : ReportState) : list string :=
  flat_map (fun b => evidence_issues st ("block:" ++ rb_ID b)%string (rb_Sources b)) (rp_Blocks st)
  ++ flat_map (fun c => evidence_issues st ("chart:" ++ cd_ID c)%string (cd_Sources c)) (rp_Charts st).

Definition reportFinalizeIssues (st : ReportState) : list string :=
  let counts := map_to_list (ref_counts (rp_Blocks st)) in
  let missing := map fst (List.filter (fun kc => negb (bool_decide (kc.1 ∈ chart_set st))) counts) in
  let duplicate := map (fun kc => (kc.1 ++ "(x" ++ itoa (Z.of_nat kc.2) ++ ")")%string)
                     (List.filter (fun kc => (1 <? kc.2)%nat) counts) in
  (if (renderableReportBlockCount (rp_Blocks st) =? 0)%nat then ["report_has_no_blocks"] else [])
  ++ map (fun id => ("missing_chart:" ++ id)%string) (sort_strings missing)
  ++ map (fun item => ("duplicate_chart:" ++ item)%string) (sort_strings duplicate)
  ++ reportEvidenceFinalizeIssues st.

Record reportFinalizeParams := { fp_ReportTitle : string; fp_Author : string }.
Record reportFinalizeResult := { fr_ReportTitle : string; fr_Author : string; fr_BlockCount : Z; fr_ChartCount : Z }.

(** [can] is the checker's answer, [None] when there is no checker. *)
Definition finalizeReportState (st : ReportState) (can : option (bool * list string)) (p : reportFinalizeParams) :
    ReportState * res ReportError reportFinalizeResult :=
  if dl_IsFinalized (describeReportDeliveryState st) then (st, Err EAlreadyFinalized)
  else if blank (fp_ReportTitle p) then (st, Err (EFinalizeIssues ["report_title_missing"]))
  else match can with
  | Some (false, blockers) => (st, Err (EFinalizeBlocked blockers))
  | _ =>
      match reportFinalizeIssues st with
      | _ :: _ as issues => (st, Err (EFinalizeIssues issues))
      | [] =>
          let st := set_final st (fp_ReportTitle p) (fp_Author p) in
          (st, Ok {| fr_ReportTitle := fp_ReportTitle p; fr_Author := fp_Author p;
                     fr_BlockCount := Z.of_nat (length (rp_Blocks st)); fr_ChartCount := Z.of_nat (length (rp_Charts st)) |})
      end
  end.

(** * The tools

    A payload is a map: a later value of a key replaces an earlier one. *)

Definition set_key (payload : list (string * jval)) (kv : string * jval) : list (string * jval) :=
  List.filter (fun kv' => negb (kv'.1 =? kv.1)) payload ++ [kv].
Definition mergePayloads (base extra : list (string * jval)) : list (string * jval) := fold_left set_key extra base.

Definition toolSuccess (toolName : string) (payload : list (string * jval)) : string :=
  MarshalMap (mergePayloads payload [("ok", JBool true); ("tool", JStr toolName)]).
Definition toolFailure (toolName code message : string) (payload : list (string * jval)) : string :=
  MarshalMap (mergePayloads payload
    [("ok", JBool false); ("tool", JStr toolName); ("error_code", JStr code); ("message", JStr message)]).

Definition reportDraftMessage : string := "报告当前为草稿，尚未生成定稿文件。".
Definition reportDraftPayload (st : ReportState) (fields : list (string * jval)) : list (string * jval) :=
  let delivery := describeReportDeliveryState st in
  let payload := mergePayloads fields
    [("delivery_state", JStr (dl_DeliveryState delivery)); ("is_finalized", JBool (dl_IsFinalized delivery));
     ("needs_finalize", JBool (dl_NeedsFinalize delivery)); ("requires_finalize_for_delivery", JBool (dl_HasContent delivery))] in
  if existsb (fun kv => kv.1 =? "ui_summary") payload then payload else set_key payload ("ui_summary", JStr reportDraftMessage).
Definition reportDraftSuccess (toolName : string) (st : ReportState) (fields : list (string * jval)) : string :=
  toolSuccess toolName (reportDraftPayload st fields).

(** [ReportEditState.Snapshot] *)
Definition EditSnapshot (s : ReportEditState) : list (string * jval) :=
  [("scope_kind", JStr (es_ScopeKindValue s)); ("target_run_id", JStr (es_TargetRunID s));
   ("target_block_id", JStr (es_TargetBlockID s)); ("target_block_label", JStr (es_TargetBlockLabel s));
   ("target_chart_id", JStr (es_TargetChartID s)); ("selection_text", JStr (es_SelectionText s));
   ("selection_start", JNum (itoa (es_SelectionStart s))); ("selection_end", JNum (itoa (es_SelectionEnd s)));
   ("selection_range_set", JBool (es_SelectionRangeSet s));
   ("allowed_chart_ids", JArr (map JStr (sort_strings (elements (es_AllowedChartIDs s)))));
   ("active", JBool (Active s))].

Definition selection_contract : string :=
  "Only the target block content may change; content outside the selected range, block title, block kind, chart_id, and sources remain protected.".
Definition edit_scope_facts (editState : option ReportEditState) : list (string * jval) :=
  match editState with
  | Some s =>
      if negb (Active s) then []
      else
        [("active_edit_scope", JObj (sort_keys (EditSnapshot s))); ("scope_kind", JStr (es_ScopeKindValue s))]
        ++ (if negb (blank (es_TargetBlockID s))
            then [("target_block_id", JStr (es_TargetBlockID s)); ("allowed_block_ids", JArr [JStr (es_TargetBlockID s)])] else [])
        ++ (if negb (blank (es_TargetChartID s)) then [("target_chart_id", JStr (es_TargetChartID s))] else [])
        ++ [("allowed_chart_ids", JArr (map JStr (sort_strings (elements (es_AllowedChartIDs s)))))]
        ++ (if es_ScopeKindValue s =? "partial_selection"
            then [("allowed_block_actions", JArr [JStr "upsert"]); ("selection_mutation_contract", JStr selection_contract)] else [])
  | None => []
  end.
Definition reportEditScopeFailure (toolName targetKey targetID targetLabel uiSummary : string)
    (fields : list (string * jval)) (editState : option ReportEditState) : string :=
  toolFailure toolName "edit_scope_violation" ("current edit scope does not allow modifying this " ++ targetLabel)%string
    (mergePayloads (mergePayloads fields [(targetKey, JStr targetID); ("ui_summary", JStr uiSummary)]) (edit_scope_facts editState)).

Definition decode_source (v : jval) : option EvidenceRef :=
  match v with
  | JObj kvs =>
      let! m := bind_fields [("kind", is_jstr); ("result_id", is_jstr); ("artifact_id", is_jstr); ("chart_id", is_jstr);
                             ("label", is_jstr)] kvs ∅ in
      Some {| ev_Kind := string_field m "kind"; ev_ResultID := string_field m "result_id";
              ev_ArtifactID := string_field m "artifact_id"; ev_ChartID := string_field m "chart_id";
              ev_Label := string_field m "label" |}
  | JNull => Some {| ev_Kind := ""; ev_ResultID := ""; ev_ArtifactID := ""; ev_ChartID := ""; ev_Label := "" |}
  | _ => None
  end.
Definition decode_sources (v : jval) : option (list EvidenceRef) :=
  match v with JArr vs => mapM decode_source vs | _ => None end.

Definition block_fields : list (string * (jval -> bool)) :=
  [("action", is_jstr); ("block_id", is_jstr); ("block_kind", is_jstr); ("title", is_jstr); ("content", is_jstr);
   ("chart_id", is_jstr); ("before_block_id", is_jstr); ("after_block_id", is_jstr);
   ("sources", fun v => bool_decide (is_Some (decode_sources v)))].
Definition decode_block_params (args : string) : option reportBlockMutationParams :=
  let! m := decode_struct block_fields args in
  Some {| bp_Action := string_field m "action"; bp_BlockID := string_field m "block_id";
          bp_BlockKind := string_field m "block_kind"; bp_Title := string_field m "title";
          bp_Content := string_field m "content"; bp_ChartID := string_field m "chart_id";
          bp_BeforeBlockID := string_field m "before_block_id"; bp_AfterBlockID := string_field m "after_block_id";
          bp_Sources := default [] (let! v := m !! "sources" in decode_sources v) |}.

Definition ManageReportBlocks_Execute (st : ReportState) (editState : option ReportEditState) (args : string) :
    ReportState * res ReportError string :=
  match decode_block_params args with
  | None => (st, Err EReportParams)
  | Some p =>
      match applyReportBlockMutation st editState p with
      | (st, Err (EBlockScope action id)) =>
          (st, Ok (reportEditScopeFailure "report_manage_blocks" "block_id" id " block"
                     ("block " ++ id ++ " is outside current partial edit scope")%string [("action", JStr action)] editState))
      | (st, Err e) => (st, Err e)
      | (st, Ok r) =>
          (st, Ok (reportDraftSuccess "report_manage_blocks" st
            [("action", JStr (br_Action r)); ("block_id", JStr (br_BlockID r)); ("block_kind", JStr (br_BlockKind r));
             ("block_count", JNum (itoa (br_BlockCount r))); ("ui_summary", JStr (br_UISummary r))]))
      end
  end.

(** [p] is what decoding the arguments yields: the option keeps its raw text. *)
Definition CreateChart_Execute (st : ReportState) (editState : option ReportEditState) (p : option createChartParams) :
    ReportState * res ReportError string :=
  match p with
  | None => (st, Err EReportParams)
  | Some p =>
      match applyReportChartMutation st editState p with
      | (st, Err (EChartInvalid detail)) =>
          (st, Ok (toolFailure "report_create_chart" "invalid_chart_spec" "invalid chart definition"
            [("chart_id", JStr (cp_ChartID p)); ("title", JStr (cp_Title p)); ("detail", JStr detail);
             ("required_fields", JArr [JStr "chart_id"; JStr "option"])]))
      | (st, Err (EChartScope id)) =>
          (st, Ok (reportEditScopeFailure "report_create_chart" "chart_id" id "chart"
                     ("chart " ++ id ++ " is outside current partial edit scope")%string [] editState))
      | (st, Err e) => (st, Err e)
      | (st, Ok r) =>
          (st, Ok (reportDraftSuccess "report_create_chart" st
            [("chart_id", JStr (cr_ChartID r)); ("title", JStr (cr_Title r)); ("chart_ref", JStr (cr_ChartRef r));
             ("ui_summary", JStr ("图表 " ++ cr_ChartID r ++ " 已" ++ (if cr_Replaced r then "更新到" else "写入")
                                  ++ "报告，当前仍为草稿。")%string)]))
      end
  end.

Definition layout_allowed (editState : option ReportEditState) : bool :=
  match editState with Some s => LayoutMutationAllowed s | None => true end.
Definition decode_layout_params (args : string) : option reportLayoutParams :=
  let! m := decode_struct [("action", is_jstr); ("custom_css", is_jstr); ("body_class", is_jstr)] args in
  Some {| lp_Action := string_field m "action"; lp_CustomCSS := string_field m "custom_css";
          lp_BodyClass := string_field m "body_class" |}.
Definition ConfigureReport_Execute (st : ReportState) (editState : option ReportEditState) (args : string) :
    ReportState * res ReportError string :=
  if negb (layout_allowed editState) then
    (st, Ok (reportEditScopeFailure "report_configure_layout" "layout" "report_layout" "layout"
               "report layout is outside current partial edit scope" [] editState))
  else match decode_layout_params args with
  | None => (st, Err EReportParams)
  | Some p =>
      match applyReportLayoutMutation st p with
      | (st, Err e) => (st, Err e)
      | (st, Ok r) =>
          (st, Ok (reportDraftSuccess "report_configure_layout" st
            [("action", JStr (lr_Action r)); ("has_custom_css", JBool (lr_HasCustomCSS r));
             ("body_class", JStr (lr_BodyClass r)); ("ui_summary", JStr (lr_UISummary r))]))
      end
  end.

Definition count_text (before : string) (n : nat) (after : string) : string :=
  (before ++ itoa (Z.of_nat n) ++ after)%string.
Definition decode_finalize_params (args : string) : option reportFinalizeParams :=
  let! m := decode_struct [("report_title", is_jstr); ("author", is_jstr)] args in
  Some {| fp_ReportTitle := string_field m "report_title"; fp_Author := string_field m "author" |}.
Definition FinalizeReport_Execute (st : ReportState) (can : option (bool * list string)) (args : string) :
    ReportState * res ReportError string :=
  match decode_finalize_params args with
  | None => (st, Err EReportParams)
  | Some p =>
      match finalizeReportState st can p with
      | (st, Err (EFinalizeBlocked blockers)) =>
          (st, Ok (toolFailure "report_finalize" "active_branches_block_finalize"
            "detected active goal branches; delivery_state stays draft."
            (mergePayloads (reportDraftPayload st [])
              [("blocker_kind", JStr "active_branches"); ("active_branch_count", JNum (itoa (Z.of_nat (length blockers))));
               ("active_branches", JArr (map JStr blockers));
               ("ui_summary", JStr (count_text "报告定稿受阻，仍有 " (length blockers) " 个活动目标分支。"))])))
      | (st, Err (EFinalizeIssues issues)) =>
          (st, Ok (toolFailure "report_finalize" "report_state_invalid" "report validation failed; delivery_state stays draft."
            (mergePayloads (reportDraftPayload st [])
              [("finalize_issue_count", JNum (itoa (Z.of_nat (length issues)))); ("finalize_issues", JArr (map JStr issues));
               ("ui_summary", JStr (count_text "报告定稿受阻，仍有 " (length issues) " 个结构问题。"))])))
      | (st, Err EAlreadyFinalized) =>
          (st, Ok (toolFailure "report_finalize" "report_already_finalized"
            "delivery_state is already finalized; no new draft changes detected."
            (mergePayloads (reportDraftPayload st []) [("ui_summary", JStr "报告已经定稿，未检测到新的草稿变更。")])))
      | (st, Err e) => (st, Err e)
      | (st, Ok r) =>
          (st, Ok (toolSuccess "report_finalize"
            [("report_title", JStr (fr_ReportTitle r)); ("author", JStr (fr_Author r));
             ("block_count", JNum (itoa (fr_BlockCount r))); ("chart_count", JNum (itoa (fr_ChartCount r)));
             ("ui_summary", JStr (("报告已定稿，共 " ++ itoa (fr_BlockCount r) ++ " 个内容块、"
                                   ++ itoa (fr_ChartCount r) ++ " 个图表。")%string));
             ("delivery_state", JStr "finalized"); ("is_finalized", JBool true); ("needs_finalize", JBool false)]))
      end
  end.
End operations.
