(* ===== verification/ReportProps.v ===== *)
(** Properties of the report operations of [ReportOps]: the invariant of every
    reachable report, the exact effect of the block mutations, the edit scope and
    finalization. *)
From S2P Require Import Prelude GoStrings Json Tools ReportState ReportOps.
From Stdlib Require Import Ascii.
Open Scope string_scope.
Open Scope list_scope.

(** * Specification *)

Definition exact_id (s : string) : Prop := blank s = false /\ not_exact s = false.

Definition block_ok (b : ReportBlock) : Prop :=
  exact_id (rb_ID b) /\ check_sources (rb_Sources b) = Ok tt /\ not_exact (rb_ChartID b) = false
  /\ ((rb_Kind b = "markdown" \/ rb_Kind b = "html") /\ blank (rb_Content b) = false
      \/ rb_Kind b = "chart" /\ blank (rb_ChartID b) = false).

Definition chart_ok (c : ChartData) : Prop :=
  exact_id (cd_ID c) /\ check_sources (cd_Sources c) = Ok tt /\ resolveChartOption (cd_Option c) = Ok (cd_Option c).

Record report_wf (st : ReportState) : Prop := {
  wf_block_ids : NoDup (map rb_ID (rp_Blocks st));
  wf_blocks : Forall block_ok (rp_Blocks st);
  wf_chart_ids : NoDup (map cd_ID (rp_Charts st));
  wf_charts : Forall chart_ok (rp_Charts st);
  wf_results : map_Forall (fun k r => ar_ID r = k /\ k <> "" /\ not_exact k = false) (rp_Results st);
  wf_artifacts : map_Forall (fun k a => af_ID a = k /\ k <> "" /\ not_exact k = false) (rp_Artifacts st);
}.

(** The operations the tools and the analysis make on one report. *)
Inductive report_step (unescape : string -> string) : ReportState -> ReportState -> Prop :=
| rst_blocks st scope p : report_step unescape st (applyReportBlockMutation unescape st scope p).1
| rst_chart st scope p : report_step unescape st (applyReportChartMutation st scope p).1
| rst_layout st p : report_step unescape st (applyReportLayoutMutation st p).1
| rst_finalize st can p : report_step unescape st (finalizeReportState st can p).1
| rst_result st r st' : RecordResult st r = Ok st' -> report_step unescape st st'
| rst_artifact st a st' : RecordArtifact st a = Ok st' -> report_step unescape st st'.

(** * Lemmas: finding and placing blocks *)

Lemma find_block_some blocks id i :
  findReportBlockIndex blocks id = Some i -> exists b, blocks !! i = Some b /\ rb_ID b = id.
Proof.
  revert i. induction blocks as [|b rest IH]; intros i; simpl; [done|].
  destruct (rb_ID b =? id) eqn:Hb; [intros [= <-]; reflect_bools; by exists b|].
  destruct (findReportBlockIndex rest id) as [j|]; [|done]. intros [= <-]. by apply IH.
Qed.

Lemma find_block_none blocks id : findReportBlockIndex blocks id = None <-> id ∉ map rb_ID blocks.
Proof.
  induction blocks as [|b rest IH]; simpl; [split; [by intros _ ?%not_elem_of_nil|done]|].
  rewrite not_elem_of_cons, <- IH. destruct (rb_ID b =? id) eqn:Hb; reflect_bools.
  - split; [done|]. by intros [Hne _].
  - destruct (findReportBlockIndex rest id); simpl; naive_solver.
Qed.

Lemma insert_block_perm (blocks : list ReportBlock) b i : insertReportBlockAt blocks b i ≡ₚ b :: blocks.
Proof. unfold insertReportBlockAt. rewrite <- Permutation_middle, take_drop. done. Qed.

Lemma remove_block_perm (blocks : list ReportBlock) i b : blocks !! i = Some b -> blocks ≡ₚ b :: remove_at i blocks.
Proof. intros (l1 & l2 & -> & _ & ->)%remove_at_split. by rewrite Permutation_middle. Qed.

Lemma placed_wf (l l' : list ReportBlock) b :
  l' ≡ₚ b :: l -> NoDup (map rb_ID l) -> rb_ID b ∉ map rb_ID l -> Forall block_ok l -> block_ok b ->
  NoDup (map rb_ID l') /\ Forall block_ok l'.
Proof.
  intros Hp Hnd Hb Hl Hok. rewrite Hp. simpl. by split; constructor.
Qed.

Lemma removed_wf (l : list ReportBlock) i b :
  l !! i = Some b -> NoDup (map rb_ID l) -> Forall block_ok l ->
  NoDup (map rb_ID (remove_at i l)) /\ rb_ID b ∉ map rb_ID (remove_at i l) /\ Forall block_ok (remove_at i l) /\ block_ok b.
Proof.
  intros Hi%remove_block_perm Hnd Hl. rewrite Hi in Hnd, Hl. simpl in Hnd.
  apply NoDup_cons in Hnd as [? ?]. by apply Forall_cons in Hl as [? ?].
Qed.

Lemma texts_ok {A} (r : res string A) a : texts r = Ok a -> r = Ok a.
Proof. unfold texts. destruct r; [|done]. by intros [= ->]. Qed.

Lemma exact_field_required field v : validateExactReportField field v true = Ok tt -> exact_id v.
Proof.
  unfold validateExactReportField, exact_id. simpl. destruct (blank v); [done|]. destruct (not_exact v); [done|]. done.
Qed.
Lemma exact_field_optional field v : validateExactReportField field v false = Ok tt -> not_exact v = false.
Proof. unfold validateExactReportField. simpl. by destruct (not_exact v). Qed.

Lemma build_block_ok p b :
  exact_id (bp_BlockID p) -> not_exact (bp_ChartID p) = false -> buildReportBlock p = Ok b ->
  block_ok b /\ b = {| rb_ID := bp_BlockID p; rb_Kind := bp_BlockKind p; rb_Title := bp_Title p;
                       rb_Content := bp_Content p; rb_ChartID := bp_ChartID p; rb_Sources := bp_Sources p |}.
Proof.
  intros Hid Hchart. unfold buildReportBlock.
  destruct (texts (check_sources (bp_Sources p))) as [[]|] eqn:Hs; [|done]. apply texts_ok in Hs.
  destruct (_ || _) eqn:Hk.
  - destruct (blank (bp_Content p)) eqn:Hc; [done|]. intros [= <-]. split; [|done].
    split; [done|]. split; [done|]. split; [done|]. left. simpl.
    apply orb_true_iff in Hk as [->%String.eqb_eq | ->%String.eqb_eq]; auto.
  - destruct (bp_BlockKind p =? "chart") eqn:Hkc; [|done]. destruct (blank (bp_ChartID p)) eqn:Hc; [done|].
    intros [= <-]. reflect_bools. split; [|done]. split; [done|]. split; [done|]. split; [done|]. by right.
Qed.

(** * Lemmas: each operation keeps the report well-formed *)

Lemma wf_with_blocks st blocks :
  report_wf st -> NoDup (map rb_ID blocks) /\ Forall block_ok blocks -> report_wf (with_blocks st blocks).
Proof. intros [] [? ?]. by constructor. Qed.

(** What a successful upsert does: [block] replaces the block of its identifier,
    which goes where the parameters say. *)
Lemma upsert_ok unescape st scope p st' r :
  exact_id (bp_BlockID p) -> upsertReportBlock unescape st scope p = (st', Ok r) ->
  exists block working i,
    block_ok block /\ rb_ID block = bp_BlockID p /\ buildReportBlock p = Ok block
    /\ st' = with_blocks st (insertReportBlockAt working block i)
    /\ block_allowed scope (bp_Action p) (rb_ID block) = true /\ selection_allowed unescape scope block = true
    /\ match findReportBlockIndex (rp_Blocks st) (rb_ID block) with
       | Some k => bp_Action p <> "append" /\ working = remove_at k (rp_Blocks st)
                   /\ (bp_BeforeBlockID p = "" -> bp_AfterBlockID p = "" -> i = k)
       | None => working = rp_Blocks st
                 /\ (bp_BeforeBlockID p = "" -> bp_AfterBlockID p = "" -> i = length working)
       end
    /\ ((bp_BeforeBlockID p <> "" \/ bp_AfterBlockID p <> "") ->
        resolveReportBlockInsertIndex working (bp_BeforeBlockID p) (bp_AfterBlockID p) = Ok i).
Proof.
  intros Hid. unfold upsertReportBlock.
  destruct (texts (validateExactReportField "block_kind" _ _)) as [[]|]; [|done].
  destruct (texts (validateExactReportField "chart_id" _ _)) as [[]|] eqn:Hc; [|done].
  apply texts_ok, exact_field_optional in Hc.
  destruct (buildReportBlock p) as [block|] eqn:Hb; [|done].
  destruct (build_block_ok p block Hid Hc Hb) as [Hok Heq].
  destruct ((bp_Action p =? "append") && _) eqn:Happ; [done|].
  destruct (block_allowed scope _ _) eqn:Hall; [|done]. destruct (selection_allowed _ _ _) eqn:Hsel; [|done].
  cbn [negb]. destruct (findReportBlockIndex (rp_Blocks st) (rb_ID block)) as [k|] eqn:Hf.
  - assert (bp_Action p <> "append") as Hne.
    { rewrite bool_decide_true in Happ by done. rewrite andb_true_r in Happ. by reflect_bools. }
    destruct (match bp_BeforeBlockID p with "" => _ | _ => _ end) as [i|] eqn:Hi; [|done].
    intros [= <- _]. exists block, (remove_at k (rp_Blocks st)), i. rewrite Hf.
    split_and!; try done; [by rewrite Heq| |].
    + intros Hbe Haf. rewrite Hbe, Haf in Hi. by injection Hi.
    + intros Hor. destruct (bp_BeforeBlockID p), (bp_AfterBlockID p); try done; by destruct Hor.
  - destruct (resolveReportBlockInsertIndex _ _ _) as [i|] eqn:Hi.
    2: { by destruct (bp_BeforeBlockID p), (bp_AfterBlockID p). }
    intros H. exists block, (rp_Blocks st), i. rewrite Hf. split_and!; try done; [by rewrite Heq| |].
    + by destruct (bp_BeforeBlockID p), (bp_AfterBlockID p); injection H as <- _.
    + intros Hbe Haf. rewrite Hbe, Haf in Hi. by injection Hi.
Qed.

Lemma block_mutation_wf unescape st scope p : report_wf st -> report_wf (applyReportBlockMutation unescape st scope p).1.
Proof.
  intros Hwf. unfold applyReportBlockMutation.
  destruct (texts (validateExactReportField "action" _ _)) as [[]|]; [|done].
  destruct (texts (validateExactReportField "block_id" _ _)) as [[]|] eqn:Hid; [|done].
  apply texts_ok, exact_field_required in Hid.
  destruct (texts (validateExactReportField "before_block_id" _ _)) as [[]|]; [|done].
  destruct (texts (validateExactReportField "after_block_id" _ _)) as [[]|]; [|done].
  destruct (_ || _); [|destruct (_ =? "remove"); [|destruct (_ =? "move"); [|done]]].
  - destruct (upsertReportBlock unescape st scope p) as [st' [r|e]] eqn:Hu.
    2: { unfold upsertReportBlock in Hu. revert Hu. repeat (break_match; try (by intros [= <- _])). }
    destruct (upsert_ok _ _ _ _ _ _ Hid Hu) as (b & working & i & Hok & Hbid & _ & -> & _ & _ & Hw & _).
    apply wf_with_blocks; [done|]. destruct Hwf as [Hnd Hbl _ _ _ _].
    destruct (findReportBlockIndex (rp_Blocks st) (rb_ID b)) as [k|] eqn:Hf.
    + destruct Hw as (_ & -> & _). destruct (find_block_some _ _ _ Hf) as (b0 & Hk & Hb0).
      destruct (removed_wf _ _ _ Hk Hnd Hbl) as (? & Hn & ? & _). rewrite Hb0 in Hn.
      by eapply placed_wf; [apply insert_block_perm|..].
    + destruct Hw as [-> _]. apply find_block_none in Hf. by eapply placed_wf; [apply insert_block_perm|..].
  - unfold removeReportBlock. destruct (negb _); [done|].
    destruct (findReportBlockIndex _ _) as [k|] eqn:Hf; [|done].
    destruct (find_block_some _ _ _ Hf) as (b0 & Hk & Hb0). rewrite Hk. cbn.
    apply wf_with_blocks; [done|]. destruct Hwf as [Hnd Hbl _ _ _ _].
    destruct (removed_wf _ _ _ Hk Hnd Hbl) as (? & _ & ? & _). done.
  - unfold moveReportBlock. destruct (negb _); [done|].
    destruct (findReportBlockIndex _ _) as [k|] eqn:Hf; [|done].
    destruct (find_block_some _ _ _ Hf) as (b0 & Hk & Hb0). rewrite Hk.
    destruct (resolveReportBlockInsertIndex _ _ _) as [i|]; [|done]. cbn.
    apply wf_with_blocks; [done|]. destruct Hwf as [Hnd Hbl _ _ _ _].
    destruct (removed_wf _ _ _ Hk Hnd Hbl) as (? & ? & ? & ?).
    by eapply placed_wf; [apply insert_block_perm|..].
Qed.

Lemma replace_chart_spec charts chart :
  match replace_chart charts chart with
  | Some charts' => map cd_ID charts' = map cd_ID charts /\ (Forall chart_ok charts -> chart_ok chart -> Forall chart_ok charts')
  | None => cd_ID chart ∉ map cd_ID charts
  end.
Proof.
  induction charts as [|c rest IH]; simpl; [apply not_elem_of_nil|].
  destruct (cd_ID c =? cd_ID chart) eqn:Hc; reflect_bools.
  - simpl. rewrite Hc. split; [done|]. rewrite !Forall_cons. naive_solver.
  - destruct (replace_chart rest chart) as [rest'|]; simpl.
    + destruct IH as [-> Hok]. split; [done|]. rewrite !Forall_cons. naive_solver.
    + rewrite not_elem_of_cons. split; [congruence|done].
Qed.

Lemma chart_mutation_wf st scope p : report_wf st -> report_wf (applyReportChartMutation st scope p).1.
Proof.
  intros Hwf. unfold applyReportChartMutation.
  destruct (validateExactReportField "chart_id" _ _) as [[]|] eqn:Hid; [|done]. apply exact_field_required in Hid.
  destruct (check_sources _) as [[]|] eqn:Hs; [|done]. destruct (check_dimension "width" _) as [[]|]; [|done].
  destruct (check_dimension "height" _) as [[]|]; [|done].
  destruct (resolveChartOption (cp_Option p)) as [opt|] eqn:Ho; [|done]. destruct (negb _); [done|].
  assert (opt = cp_Option p) as ->.
  { unfold resolveChartOption in Ho. destruct (_ || _); [done|]. destruct (let! v := _ in _); [|done]. by injection Ho. }
  set (chart := {| cd_ID := cp_ChartID p |}).
  assert (chart_ok chart) as Hok by done.
  pose proof (replace_chart_spec (rp_Charts st) chart) as Hr. destruct Hwf as [Hbi Hb Hci Hc Hre Har].
  destruct (replace_chart (rp_Charts st) chart) as [charts|]; simpl.
  - destruct Hr as [Hids Hcs]. constructor; simpl; try done; [by rewrite Hids|by apply Hcs].
  - constructor; simpl; try done.
    + rewrite map_app. apply NoDup_app. split; [done|]. split; [|by apply NoDup_singleton].
      intros id Hin ->%list_elem_of_singleton. by apply Hr.
    + apply Forall_app. by split; [|constructor].
Qed.

Lemma layout_mutation_wf st p : report_wf st -> report_wf (applyReportLayoutMutation st p).1.
Proof.
  intros Hwf. unfold applyReportLayoutMutation. repeat (break_match; try done); destruct Hwf; by constructor.
Qed.

Lemma finalize_wf st can p : report_wf st -> report_wf (finalizeReportState st can p).1.
Proof.
  intros Hwf. unfold finalizeReportState. repeat (break_match; try done); destruct Hwf; by constructor.
Qed.

Lemma report_step_wf unescape st st' : report_step unescape st st' -> report_wf st -> report_wf st'.
Proof.
  intros [] Hwf; [by apply block_mutation_wf|by apply chart_mutation_wf|by apply layout_mutation_wf|by apply finalize_wf| |].
  - unfold RecordResult in H. destruct ((ar_ID r =? "") || _) eqn:He; [done|]. injection H as <-.
    destruct Hwf. constructor; try done. simpl. reflect_bools. by apply map_Forall_insert_2.
  - unfold RecordArtifact in H. destruct ((af_ID a =? "") || _) eqn:He; [done|]. injection H as <-.
    destruct Hwf. constructor; try done. simpl. reflect_bools. by apply map_Forall_insert_2.
Qed.

Lemma empty_report_wf : report_wf empty_report.
Proof. split; simpl; try apply NoDup_nil_2; try apply Forall_nil_2; apply map_Forall_empty. Qed.

(** * Specification: what a block mutation does *)

(** The blocks of other identifiers, in order. *)
Definition others (id : string) (blocks : list ReportBlock) : list ReportBlock :=
  List.filter (fun b => negb (rb_ID b =? id)) blocks.

(** A block stands where the parameters ask, or else where [default] says. *)
Definition placed (p : reportBlockMutationParams) (before after : list ReportBlock) (default : Prop) : Prop :=
  (bp_BeforeBlockID p <> "" -> exists b rest, after = b :: rest /\ rb_ID b = bp_BeforeBlockID p)
  /\ (bp_AfterBlockID p <> "" -> exists init b, before = init ++ [b] /\ rb_ID b = bp_AfterBlockID p)
  /\ (bp_BeforeBlockID p = "" -> bp_AfterBlockID p = "" -> default).

(** Nothing but the blocks, the draft mark and the version changes. *)
Definition drafted_from (st st' : ReportState) : Prop := st' = with_blocks st (rp_Blocks st').

(** * Lemmas: other blocks and places *)

Lemma others_absent id blocks : id ∉ map rb_ID blocks -> others id blocks = blocks.
Proof.
  induction blocks as [|b rest IH]; simpl; [done|]. rewrite not_elem_of_cons. intros [Hne Hin].
  destruct (rb_ID b =? id) eqn:Hb; reflect_bools; [done|]. simpl. by rewrite IH.
Qed.

Lemma others_insert blocks b i : others (rb_ID b) (insertReportBlockAt blocks b i) = others (rb_ID b) blocks.
Proof.
  unfold insertReportBlockAt, others. rewrite List.filter_app. simpl. rewrite String.eqb_refl. simpl.
  by rewrite <- List.filter_app, take_drop.
Qed.

Lemma removed_absent (blocks : list ReportBlock) i b :
  blocks !! i = Some b -> NoDup (map rb_ID blocks) -> rb_ID b ∉ map rb_ID (remove_at i blocks).
Proof. intros Hi%remove_block_perm Hnd. rewrite Hi in Hnd. by apply NoDup_cons in Hnd as [? _]. Qed.

Lemma others_remove blocks i b :
  blocks !! i = Some b -> NoDup (map rb_ID blocks) -> others (rb_ID b) blocks = remove_at i blocks.
Proof.
  intros (l1 & l2 & -> & _ & ->)%remove_at_split. rewrite map_app. simpl. intros (_ & Hl1 & Hl2)%NoDup_app.
  apply NoDup_cons in Hl2 as [Hb2 _]. unfold others. rewrite !List.filter_app. simpl. rewrite String.eqb_refl. simpl.
  f_equal; apply others_absent; [|done]. intros Hb1. apply (Hl1 _ Hb1). by left.
Qed.

Lemma resolve_placed p blocks i :
  resolveReportBlockInsertIndex blocks (bp_BeforeBlockID p) (bp_AfterBlockID p) = Ok i ->
  (bp_BeforeBlockID p <> "" -> exists b rest, drop i blocks = b :: rest /\ rb_ID b = bp_BeforeBlockID p)
  /\ (bp_AfterBlockID p <> "" -> exists init b, take i blocks = init ++ [b] /\ rb_ID b = bp_AfterBlockID p)
  /\ (bp_BeforeBlockID p = "" -> bp_AfterBlockID p = "" -> i = length blocks).
Proof.
  unfold resolveReportBlockInsertIndex.
  destruct (bp_BeforeBlockID p =? "") eqn:Hb, (bp_AfterBlockID p =? "") eqn:Ha; simpl; try done; reflect_bools.
  - intros [= <-]. done.
  - destruct (findReportBlockIndex blocks (bp_AfterBlockID p)) as [k|] eqn:Hf; [|done]. intros [= <-].
    apply find_block_some in Hf as (b & Hk & Hid). split_and!; [done| |done].
    intros _. exists (take k blocks), b. by rewrite (take_S_r _ _ _ Hk).
  - destruct (findReportBlockIndex blocks (bp_BeforeBlockID p)) as [k|] eqn:Hf; [|done]. intros [= <-].
    apply find_block_some in Hf as (b & Hk & Hid). split_and!; [|done|done].
    intros _. exists b, (drop (S k) blocks). by rewrite (drop_S _ _ _ Hk).
Qed.

Lemma upsert_placed unescape st scope p st' r :
  report_wf st -> exact_id (bp_BlockID p) -> upsertReportBlock unescape st scope p = (st', Ok r) ->
  drafted_from st st' /\ others (bp_BlockID p) (rp_Blocks st') = others (bp_BlockID p) (rp_Blocks st)
  /\ exists l1 b l2, rp_Blocks st' = l1 ++ b :: l2 /\ buildReportBlock p = Ok b
       /\ placed p l1 l2 (match findReportBlockIndex (rp_Blocks st) (bp_BlockID p) with
                          | Some k => length l1 = k
                          | None => l2 = []
                          end).
Proof.
  intros [Hnd _ _ _ _ _] Hid Hu.
  destruct (upsert_ok _ _ _ _ _ _ Hid Hu) as (b & working & i & _ & Hbid & Hb & -> & _ & _ & Hw & Hres).
  rewrite Hbid in Hw. split; [done|]. cbn [rp_Blocks with_blocks]. split.
  - rewrite <- Hbid, others_insert. rewrite Hbid.
    destruct (findReportBlockIndex (rp_Blocks st) (bp_BlockID p)) as [k|] eqn:Hf.
    + destruct Hw as (_ & -> & _). destruct (find_block_some _ _ _ Hf) as (b0 & Hk & Hb0).
      rewrite <- Hb0. rewrite (others_remove _ _ _ Hk Hnd). by apply others_absent, removed_absent.
    + by destruct Hw as [-> _].
  - exists (take i working), b, (drop i working). split; [done|]. split; [done|].
    destruct (decide (bp_BeforeBlockID p = "")) as [Hbe|Hbe], (decide (bp_AfterBlockID p = "")) as [Haf|Haf].
    + split_and!; [done|done|]. intros _ _.
      destruct (findReportBlockIndex (rp_Blocks st) (bp_BlockID p)) as [k|] eqn:Hf.
      * destruct Hw as (_ & -> & ->); [|done|done]. destruct (find_block_some _ _ _ Hf) as (b0 & Hk & _).
        apply lookup_lt_Some in Hk as Hlt. rewrite length_take, (length_remove_at _ _ _ Hk). lia.
      * destruct Hw as [-> ->]; [|done|done]. by rewrite drop_all.
    + destruct (resolve_placed p working i) as (? & ? & _); [auto|]. split_and!; [done|done|done].
    + destruct (resolve_placed p working i) as (? & ? & _); [auto|]. split_and!; [done|done|done].
    + destruct (resolve_placed p working i) as (? & ? & _); [auto|]. split_and!; [done|done|done].
Qed.

Lemma move_placed st scope p st' r :
  report_wf st -> moveReportBlock st scope p = (st', Ok r) ->
  drafted_from st st' /\ others (bp_BlockID p) (rp_Blocks st') = others (bp_BlockID p) (rp_Blocks st)
  /\ exists l1 b l2, rp_Blocks st' = l1 ++ b :: l2 /\ b ∈ rp_Blocks st /\ rb_ID b = bp_BlockID p
       /\ placed p l1 l2 (l2 = []).
Proof.
  intros [Hnd _ _ _ _ _]. unfold moveReportBlock. destruct (negb _); [done|].
  destruct (findReportBlockIndex _ _) as [k|] eqn:Hf; [|done].
  destruct (find_block_some _ _ _ Hf) as (b & Hk & Hb). rewrite Hk.
  destruct (resolveReportBlockInsertIndex _ _ _) as [i|] eqn:Hi; [|done]. intros [= <- _].
  split; [done|]. cbn [rp_Blocks with_blocks]. apply resolve_placed in Hi as (H1 & H2 & H3). split.
  - rewrite <- Hb, others_insert, (others_remove _ _ _ Hk Hnd).
    by apply others_absent, removed_absent.
  - eexists _, b, _. split; [reflexivity|]. split; [by eapply list_elem_of_lookup_2|]. split; [done|].
    split_and!; [done|done|]. intros Hbe Haf. rewrite (H3 Hbe Haf), drop_all. done.
Qed.

(** Running out of the early returns of a mutation. *)
Lemma mutation_cases unescape st scope p st' r :
  applyReportBlockMutation unescape st scope p = (st', Ok r) ->
  exact_id (bp_BlockID p)
  /\ ((bp_Action p = "append" \/ bp_Action p = "upsert") /\ upsertReportBlock unescape st scope p = (st', Ok r)
      \/ bp_Action p = "remove" /\ removeReportBlock st scope p = (st', Ok r)
      \/ bp_Action p = "move" /\ moveReportBlock st scope p = (st', Ok r)).
Proof.
  unfold applyReportBlockMutation.
  destruct (texts (validateExactReportField "action" _ _)) as [[]|]; [|done].
  destruct (texts (validateExactReportField "block_id" _ _)) as [[]|] eqn:Hid; [|done].
  apply texts_ok, exact_field_required in Hid.
  destruct (texts (validateExactReportField "before_block_id" _ _)) as [[]|]; [|done].
  destruct (texts (validateExactReportField "after_block_id" _ _)) as [[]|]; [|done].
  destruct (bp_Action p =? "append") eqn:H1; [reflect_bools; simpl; auto|].
  destruct (bp_Action p =? "upsert") eqn:H2; [reflect_bools; simpl; auto|]. simpl.
  destruct (bp_Action p =? "remove") eqn:H3; [reflect_bools; auto|].
  destruct (bp_Action p =? "move") eqn:H4; [reflect_bools; auto|done].
Qed.

(** Every successful block mutation leaves a draft. *)
Lemma mutation_drafts unescape st scope p st' r :
  applyReportBlockMutation unescape st scope p = (st', Ok r) -> rp_NeedsFinalize st' = true.
Proof.
  intros (Hid & [[_ Hu]|[[_ Hu]|[_ Hu]]])%mutation_cases.
  - by apply upsert_ok in Hu as (b & w & i & _ & _ & _ & -> & _); [|done].
  - revert Hu. unfold removeReportBlock. repeat (break_match; try done). by intros [= <- _].
  - revert Hu. unfold moveReportBlock. repeat (break_match; try done). by intros [= <- _].
Qed.

(** * Properties *)

(** in every state a report can reach through its tools and its ledger, block
    identifiers are unique and exact, every block has the content its kind needs and
    well-shaped sources, charts are unique JSON objects, and ledger records sit
    under their own identifiers. *)
Theorem report_reachable_wf unescape st : rtc (report_step unescape) empty_report st -> report_wf st.
Proof.
  intros Hr. assert (forall a b, rtc (report_step unescape) a b -> report_wf a -> report_wf b) as H.
  { induction 1 as [|a b c Hab _ IH]; [done|]. intros Ha. by apply IH, (report_step_wf unescape a). }
  by apply (H _ _ Hr), empty_report_wf.
Qed.

(** a block mutation that succeeds marks the report a draft and changes one
    block only: the other blocks keep their content and their order, and the block
    of the call is the one built from the parameters (append, upsert), gone
    (remove) or the old one (move), in the place the parameters ask for, which is its
    old place, or else the end, when they ask for none. *)
Theorem block_mutation_effect unescape st scope p st' r :
  report_wf st -> applyReportBlockMutation unescape st scope p = (st', Ok r) ->
  drafted_from st st' /\ others (bp_BlockID p) (rp_Blocks st') = others (bp_BlockID p) (rp_Blocks st)
  /\ (((bp_Action p = "append" \/ bp_Action p = "upsert") /\ exists l1 b l2,
         rp_Blocks st' = l1 ++ b :: l2 /\ buildReportBlock p = Ok b
         /\ placed p l1 l2 (match findReportBlockIndex (rp_Blocks st) (bp_BlockID p) with
                            | Some k => length l1 = k
                            | None => l2 = []
                            end))
      \/ (bp_Action p = "remove" /\ rp_Blocks st' = others (bp_BlockID p) (rp_Blocks st))
      \/ (bp_Action p = "move" /\ exists l1 b l2,
            rp_Blocks st' = l1 ++ b :: l2 /\ b ∈ rp_Blocks st /\ rb_ID b = bp_BlockID p /\ placed p l1 l2 (l2 = []))).
Proof.
  intros Hwf Hm. apply mutation_cases in Hm as (Hid & [[Ha Hu]|[[Ha Hu]|[Ha Hu]]]).
  - apply upsert_placed in Hu as (? & ? & ?); [|done|done]. split; [done|]. split; [done|]. by left.
  - unfold removeReportBlock in Hu. destruct (negb _); [done|].
    destruct (findReportBlockIndex _ _) as [k|] eqn:Hf; [|done].
    destruct (find_block_some _ _ _ Hf) as (b & Hk & Hb). rewrite Hk in Hu. injection Hu as <- _.
    cbn [rp_Blocks with_blocks]. destruct Hwf as [Hnd _ _ _ _ _].
    rewrite <- Hb, (others_remove _ _ _ Hk Hnd). split; [done|]. split; [|by right; left].
    by apply others_absent, removed_absent.
  - apply move_placed in Hu as (? & ? & ?); [|done]. split; [done|]. split; [done|]. by right; right.
Qed.

(** * Specification: a report that can be delivered *)

Definition embeds (id : string) (b : ReportBlock) : bool := bool_decide (id ∈ block_charts b).

(** The reference names one record, of its kind, that exists. *)
Definition resolves (st : ReportState) (ref : EvidenceRef) : Prop :=
  set_ids ref = 1
  /\ (ev_Kind ref = "result" /\ ev_ResultID ref <> "" /\ is_Some (rp_Results st !! ev_ResultID ref)
      \/ ev_Kind ref = "artifact" /\ ev_ArtifactID ref <> "" /\ is_Some (rp_Artifacts st !! ev_ArtifactID ref)
      \/ ev_Kind ref = "chart" /\ ev_ChartID ref <> "" /\ ev_ChartID ref ∈ map cd_ID (rp_Charts st)).

Record deliverable (st : ReportState) : Prop := {
  dv_blocks : exists b, b ∈ rp_Blocks st /\ rb_Kind b ∈ ["markdown"; "html"; "chart"];
  dv_charts : forall b id, b ∈ rp_Blocks st -> id ∈ block_charts b ->
    id ∈ chart_set st /\ length (List.filter (embeds id) (rp_Blocks st)) = 1;
  dv_block_sources : forall b ref, b ∈ rp_Blocks st -> ref ∈ rb_Sources b -> resolves st ref;
  dv_chart_sources : forall c ref, c ∈ rp_Charts st -> ref ∈ cd_Sources c -> resolves st ref;
}.

(** * Lemmas: the finalization checks *)

Definition count_in (counts : gmap string nat) (X : gset string) : gmap string nat :=
  set_fold (fun id counts => <[id := S (default 0 (counts !! id))]> counts) counts X.

Lemma count_in_spec counts X id :
  count_in counts X !! id = if decide (id ∈ X) then Some (S (default 0 (counts !! id))) else counts !! id.
Proof.
  unfold count_in. revert X. apply (set_fold_ind_L (fun (r : gmap string nat) (X : gset string) =>
    r !! id = if decide (id ∈ X) then Some (S (default 0 (counts !! id))) else counts !! id)); [done|].
  intros x X r Hx Hr. destruct (decide (x = id)) as [->|Hne].
  - rewrite lookup_insert, decide_True, Hr, decide_False by set_solver. by rewrite decide_True by set_solver.
  - rewrite lookup_insert_ne, Hr by done. destruct (decide (id ∈ X)); [rewrite decide_True by set_solver|
      rewrite decide_False by set_solver]; done.
Qed.

Lemma ref_counts_spec blocks id :
  ref_counts blocks !! id =
  (let n := length (List.filter (embeds id) blocks) in if (n =? 0)%nat then None else Some n).
Proof.
  induction blocks as [|b rest IH]; [apply lookup_empty|]. cbn [ref_counts].
  change (count_in (ref_counts rest) (block_charts b) !! id = 
    (let n := length (List.filter (embeds id) (b :: rest)) in if (n =? 0)%nat then None else Some n)).
  rewrite count_in_spec, IH. cbn [List.filter]. cbv zeta.
  destruct (decide (id ∈ block_charts b)) as [Hin|Hin].
  - replace (embeds id b) with true by (unfold embeds; by rewrite bool_decide_true). cbn [length Nat.eqb].
    by destruct (length (List.filter (embeds id) rest)) as [|n].
  - replace (embeds id b) with false by (unfold embeds; by rewrite bool_decide_false). done.
Qed.

Lemma sort_strings_nil l : sort_strings l = [] <-> l = [].
Proof.
  unfold sort_strings. destruct l as [|s l]; [done|]. split; [|done]. simpl. unfold sort_keys. simpl.
  destruct (foldr insert_key [] _) as [|kv rest]; simpl; [done|]. by destruct (String.ltb s kv.1).
Qed.

Lemma map_eq_nil' {A B} (f : A -> B) l : map f l = [] <-> l = [].
Proof. by destruct l. Qed.

Lemma flat_map_nil {A B} (f : A -> list B) l : flat_map f l = [] <-> forall x, x ∈ l -> f x = [].
Proof.
  induction l as [|x l IH]; simpl; [split; [by intros _ ? ?%not_elem_of_nil|done]|].
  split.
  - intros [Hx Hl]%app_nil y [->|Hy]%elem_of_cons; [done|]. by apply IH.
  - intros H. rewrite (H x) by by left. simpl. apply IH. intros y Hy. apply H. by right.
Qed.

Lemma imap_concat_nil {A B} (f : nat -> A -> list B) l :
  List.concat (imap f l) = [] <-> forall i x, l !! i = Some x -> f i x = [].
Proof.
  revert f. induction l as [|x l IH]; intros f; simpl; [done|]. split.
  - intros [Hx Hl]%app_nil [|i] y; simpl; [by intros [= <-]|]. by apply (proj1 (IH (f ∘ S)) Hl).
  - intros H. rewrite (H 0 x) by done. simpl. apply (IH (f ∘ S)). intros i y Hy. by apply (H (S i)).
Qed.

Ltac by_kind := intros (_ & [(? & ? & ?)|[(? & ? & ?)|(? & ? & ?)]]); first [congruence|contradiction].

Lemma evidence_issue_nil st owner i ref : evidence_issue st owner i ref = [] <-> resolves st ref.
Proof.
  unfold evidence_issue, resolves. destruct (set_ids ref =? 1)%nat eqn:Hn; cbn [negb].
  2: { reflect_bools. split; [done|]. by intros [? _]. }
  apply Nat.eqb_eq in Hn.
  destruct (ev_Kind ref =? "result") eqn:Hk1; [|destruct (ev_Kind ref =? "artifact") eqn:Hk2;
    [|destruct (ev_Kind ref =? "chart") eqn:Hk3]]; reflect_bools.
  - destruct (ev_ResultID ref =? "") eqn:He; reflect_bools; [split; [done|by_kind]|].
    destruct (bool_decide _) eqn:Hb; reflect_bools; [split; [auto 10|done]|split; [done|by_kind]].
  - destruct (ev_ArtifactID ref =? "") eqn:He; reflect_bools; [split; [done|by_kind]|].
    destruct (bool_decide _) eqn:Hb; reflect_bools; [split; [auto 10|done]|split; [done|by_kind]].
  - destruct (ev_ChartID ref =? "") eqn:He; reflect_bools; [split; [done|by_kind]|].
    destruct (existsb _ _) eqn:Hb.
    + apply existsb_exists in Hb as (id & Hin & <-%String.eqb_eq). apply list_elem_of_In in Hin.
      split; [auto 10|done].
    + split; [done|]. intros (_ & [(? & _)|[(? & _)|(_ & _ & Hin)]]); [congruence|congruence|].
      assert (existsb (String.eqb (ev_ChartID ref)) (map cd_ID (rp_Charts st)) = true) as Ht; [|congruence].
      apply existsb_exists. exists (ev_ChartID ref). split; [by apply list_elem_of_In|apply String.eqb_refl].
  - split; [done|by_kind].
Qed.

Lemma evidence_issues_nil st owner refs :
  evidence_issues st owner refs = [] <-> forall ref, ref ∈ refs -> resolves st ref.
Proof.
  unfold evidence_issues. rewrite imap_concat_nil. split.
  - intros H ref [i Hi]%list_elem_of_lookup. by apply (evidence_issue_nil st owner i), H.
  - intros H i ref Hi. apply evidence_issue_nil, H. by eapply list_elem_of_lookup_2.
Qed.

Lemma filter_nil {A} (f : A -> bool) l : List.filter f l = [] <-> forall x, x ∈ l -> f x = false.
Proof.
  induction l as [|x l IH]; simpl; [split; [by intros _ ? ?%not_elem_of_nil|done]|].
  destruct (f x) eqn:Hx; [split; [done|]; intros H; rewrite (H x) in Hx; [done|by left]|].
  rewrite IH. split; [intros H y [->|Hy]%elem_of_cons; auto|intros H y Hy; apply H; by right].
Qed.


Lemma finalize_issues_nil st : reportFinalizeIssues st = [] <-> deliverable st.
Proof.
  unfold reportFinalizeIssues. rewrite !app_nil, !map_eq_nil', !sort_strings_nil, !map_eq_nil', !filter_nil.
  unfold reportEvidenceFinalizeIssues. rewrite app_nil, !flat_map_nil. setoid_rewrite evidence_issues_nil.
  assert (forall id n, (id, n) ∈ map_to_list (ref_counts (rp_Blocks st)) <->
    n = length (List.filter (embeds id) (rp_Blocks st)) /\ exists b, b ∈ rp_Blocks st /\ id ∈ block_charts b) as Hcounts.
  { intros id n. rewrite elem_of_map_to_list, ref_counts_spec. cbv zeta. split.
    - destruct (length (List.filter (embeds id) (rp_Blocks st))) as [|k] eqn:Hl; [done|]. intros [= <-]. split; [done|].
      destruct (List.filter (embeds id) (rp_Blocks st)) as [|b rest] eqn:Hf; [done|].
      assert (In b (List.filter (embeds id) (rp_Blocks st))) as [Hin Hb]%filter_In by (rewrite Hf; by left).
      exists b. split; [by apply list_elem_of_In|]. unfold embeds in Hb. by reflect_bools.
    - intros (-> & b & Hb & Hid).
      destruct (length (List.filter (embeds id) (rp_Blocks st))) as [|k] eqn:Hl; [|done].
      apply length_zero_iff_nil in Hl. rewrite filter_nil in Hl. apply Hl in Hb. unfold embeds in Hb. by reflect_bools. }
  assert ((if (renderableReportBlockCount (rp_Blocks st) =? 0)%nat then ["report_has_no_blocks"] else []) = [] <->
    exists b, b ∈ rp_Blocks st /\ rb_Kind b ∈ ["markdown"; "html"; "chart"]) as Hrender.
  { unfold renderableReportBlockCount. destruct (length _ =? 0)%nat eqn:Hl; reflect_bools.
    - apply length_zero_iff_nil in Hl. rewrite filter_nil in Hl. split; [done|]. intros (b & Hb & Hk).
      apply Hl in Hb. apply orb_false_iff in Hb as [[? ?]%orb_false_iff ?]. reflect_bools. set_solver.
    - split; [|done]. intros _. destruct (List.filter _ _) as [|b rest] eqn:Hf; [done|].
      assert (In b (b :: rest)) as Hin by by left. rewrite <- Hf in Hin. apply filter_In in Hin as [Hin Hk].
      exists b. split; [by apply list_elem_of_In|]. rewrite !orb_true_iff, !String.eqb_eq in Hk. set_solver. }
  rewrite Hrender. split.
  - intros (H1 & H2 & H3 & H4 & H5). constructor; [done| |naive_solver|naive_solver].
    intros b id Hb Hid. assert ((id, length (List.filter (embeds id) (rp_Blocks st))) ∈ map_to_list (ref_counts (rp_Blocks st)))
      as Hin by (apply Hcounts; eauto).
    specialize (H2 _ Hin). specialize (H3 _ Hin). simpl in H2, H3. reflect_bools. split; [done|].
    apply Hcounts in Hin as [_ _]. destruct (length (List.filter (embeds id) (rp_Blocks st))) as [|[|k]] eqn:Hl; [|done|lia].
    apply length_zero_iff_nil in Hl. rewrite filter_nil in Hl. apply Hl in Hb. unfold embeds in Hb. by reflect_bools.
  - intros [H1 H2 H3 H4]. split; [done|]. split; [|split; [|naive_solver]].
    + intros [id n] (_ & b & Hb & Hid)%Hcounts. simpl. rewrite bool_decide_true; [done|]. by apply (H2 b id).
    + intros [id n] (-> & b & Hb & Hid)%Hcounts. simpl. by rewrite (proj2 (H2 b id Hb Hid)).
Qed.

Lemma finalized_delivery st title author :
  deliverable st -> blank title = false ->
  dl_DeliveryState (describeReportDeliveryState (set_final st title author)) = "finalized".
Proof.
  intros [(b & Hb & _) _ _ _] Ht. unfold describeReportDeliveryState. simpl. rewrite Ht.
  by destruct (rp_Blocks st) as [|? ?]; [apply not_elem_of_nil in Hb|].
Qed.

Lemma draft_not_final st : rp_NeedsFinalize st = true -> dl_IsFinalized (describeReportDeliveryState st) = false.
Proof. intros Hn. unfold describeReportDeliveryState. cbn [dl_IsFinalized]. rewrite Hn. by rewrite andb_false_r. Qed.

(** finalization succeeds exactly when the report is not yet final, has a title,
    no blocking goal is open and it can be delivered: it has something to render,
    every chart a block embeds exists and is embedded by that block alone, and every
    citation of a block or chart names a record of its kind that exists.  It then
    is final until the next mutation, and otherwise nothing has changed. *)
Theorem finalize_spec st can p :
  let '(st', r) := finalizeReportState st can p in
  (is_ok r = true <-> dl_IsFinalized (describeReportDeliveryState st) = false /\ blank (fp_ReportTitle p) = false
                      /\ (forall blockers, can <> Some (false, blockers)) /\ deliverable st)
  /\ (is_ok r = true -> st' = set_final st (fp_ReportTitle p) (fp_Author p)
        /\ dl_DeliveryState (describeReportDeliveryState st') = "finalized"
        /\ forall unescape scope q st2 r2, applyReportBlockMutation unescape st' scope q = (st2, Ok r2) ->
             dl_IsFinalized (describeReportDeliveryState st2) = false)
  /\ (is_ok r = false -> st' = st).
Proof.
  unfold finalizeReportState.
  destruct (dl_IsFinalized (describeReportDeliveryState st)) eqn:Hf; [simpl; naive_solver|].
  destruct (blank (fp_ReportTitle p)) eqn:Ht; [simpl; naive_solver|].
  destruct can as [[[] blockers]|]; [| simpl; naive_solver |].
  all: pose proof (finalize_issues_nil st) as Hi; destruct (reportFinalizeIssues st) as [|issue issues]; cbn [is_ok].
  2, 4: split; [split; [done|]; intros (_ & _ & _ & Hd); by apply Hi in Hd|naive_solver].
  all: assert (deliverable st) as Hd by (by apply Hi); split; [naive_solver|]; split; [|done]; intros _.
  all: split; [done|]; split; [by apply finalized_delivery|].
  all: intros unescape scope q st2 r2 Hm; by eapply draft_not_final, mutation_drafts.
Qed.

(** a layout merge whose class is refused has already replaced the style: the
    operation reports an error, yet the report's style is the new one, and a
    report that was final stays final, at the same version. *)
Theorem layout_error_mutates st :
  let '(st', r) := applyReportLayoutMutation st {| lp_Action := "merge"; lp_CustomCSS := "p{}"; lp_BodyClass := "a<b" |} in
  r = Err ELayoutBodyClass /\ ly_CustomCSS (rp_Layout st') = "p{}"
  /\ describeReportDeliveryState st' = describeReportDeliveryState st /\ rp_MutationVersion st' = rp_MutationVersion st.
Proof.
  change (applyReportLayoutMutation st _) with
    (set_layout st {| ly_CustomCSS := "p{}"; ly_BodyClass := ly_BodyClass (rp_Layout st) |},
     @Err ReportError reportLayoutResult ELayoutBodyClass).
  split_and!; reflexivity.
Qed.

(** * Properties: the edit scope *)

Lemma refreshed_target s st :
  RefreshFromReportState s st = s -> es_TargetBlockContent s <> "" ->
  exists i b0, rp_Blocks st !! i = Some b0 /\ rb_ID b0 = es_TargetBlockID s
    /\ es_TargetBlockContent s = rb_Content b0 /\ es_TargetBlockKind s = rb_Kind b0
    /\ es_TargetBlockTitle s = rb_Title b0 /\ es_TargetBlockChartID s = rb_ChartID b0
    /\ es_TargetBlockSources s = rb_Sources b0.
Proof.
  intros Hs Hne. rewrite <- Hs in Hne |- *. unfold RefreshFromReportState in *. cbn in *.
  destruct (es_TargetBlockID s =? ""); [done|].
  destruct (findReportBlockIndex _ _) as [i|] eqn:Hf; [|done]. apply find_block_some in Hf as (b0 & Hi & Hb).
  rewrite Hi in *. by exists i, b0.
Qed.

Lemma selection_block_allowed unescape s block :
  es_ScopeKindValue s = "partial_selection" -> SelectionBlockMutationAllowed unescape s block = true ->
  es_TargetBlockContent s <> "" /\ rb_ID block = es_TargetBlockID s
  /\ (es_TargetBlockKind s = "" \/ rb_Kind block = es_TargetBlockKind s) /\ rb_Title block = es_TargetBlockTitle s
  /\ rb_ChartID block = es_TargetBlockChartID s /\ rb_Sources block = es_TargetBlockSources s
  /\ exists start end_, selectionBounds unescape s (es_TargetBlockContent s) = Some (start, end_)
       /\ HasPrefix (rb_Content block) (string_of_runes (take start (runes (es_TargetBlockContent s)))) = true
       /\ HasSuffix (rb_Content block) (string_of_runes (drop end_ (runes (es_TargetBlockContent s)))) = true.
Proof.
  intros Hk. unfold SelectionBlockMutationAllowed, SelectionMutationAllowed. rewrite Hk, String.eqb_refl. cbn [negb].
  destruct ((rb_ID block =? "") || _) eqn:Hid; [done|].
  destruct (es_TargetBlockContent s =? "") eqn:Hc; [done|].
  destruct (selectionBounds unescape s (es_TargetBlockContent s)) as [[start end_]|]; [|done].
  destruct (HasPrefix _ _) eqn:Hp; [|done]. destruct (HasSuffix _ _) eqn:Hsf; [|done]. cbn [andb negb].
  rewrite !andb_true_iff, orb_true_iff, !String.eqb_eq. intros (((? & ?) & ?) & ?). reflect_bools.
  split_and!; try done. by exists start, end_.
Qed.

(** under a selection scope that is up to date, a mutation that succeeds is an
    upsert of the target block: the other blocks keep their content and order, the
    target keeps its kind, title, chart and sources, and its content still begins
    with the text before the selection and ends with the text after it. *)
Theorem partial_selection_protects unescape st s p st' r :
  report_wf st -> es_ScopeKindValue s = "partial_selection" -> RefreshFromReportState s st = s ->
  applyReportBlockMutation unescape st (Some s) p = (st', Ok r) ->
  bp_Action p = "upsert" /\ bp_BlockID p = es_TargetBlockID s
  /\ drafted_from st st' /\ others (es_TargetBlockID s) (rp_Blocks st') = others (es_TargetBlockID s) (rp_Blocks st)
  /\ exists b0 b start end_, b0 ∈ rp_Blocks st /\ b ∈ rp_Blocks st'
       /\ rb_ID b0 = es_TargetBlockID s /\ rb_ID b = es_TargetBlockID s /\ rb_Kind b = rb_Kind b0
       /\ rb_Title b = rb_Title b0 /\ rb_ChartID b = rb_ChartID b0 /\ rb_Sources b = rb_Sources b0
       /\ selectionBounds unescape s (rb_Content b0) = Some (start, end_)
       /\ HasPrefix (rb_Content b) (string_of_runes (take start (runes (rb_Content b0)))) = true
       /\ HasSuffix (rb_Content b) (string_of_runes (drop end_ (runes (rb_Content b0)))) = true.
Proof.
  intros Hwf Hk Hfresh Hm. apply mutation_cases in Hm as (Hid & Hcase).
  assert (forall action id, BlockMutationAllowed s action id = true -> action = "upsert" /\ id = es_TargetBlockID s) as Hall.
  { intros action id. unfold BlockMutationAllowed. rewrite Hk.
    change ((action =? "upsert") && negb (es_TargetBlockID s =? "") && (id =? es_TargetBlockID s) = true ->
            action = "upsert" /\ id = es_TargetBlockID s).
    rewrite !andb_true_iff, !String.eqb_eq. tauto. }
  destruct Hcase as [[_ Hu]|[[Ha Hu]|[Ha Hu]]].
  2: { revert Hu. unfold removeReportBlock, block_allowed. destruct (BlockMutationAllowed s _ _) eqn:Hb; [|done].
       apply Hall in Hb as [Hb _]. congruence. }
  2: { revert Hu. unfold moveReportBlock, block_allowed. destruct (BlockMutationAllowed s _ _) eqn:Hb; [|done].
       apply Hall in Hb as [Hb _]. congruence. }
  destruct (upsert_placed _ _ _ _ _ _ Hwf Hid Hu) as (Hd & Ho & l1 & b & l2 & Hb & Hbuild & _).
  destruct (upsert_ok _ _ _ _ _ _ Hid Hu) as (b' & _ & _ & Hok & Hbid & Hbuild' & _ & Hba & Hsel & _).
  rewrite Hbuild in Hbuild'. injection Hbuild' as <-. apply Hall in Hba as [Ha Hid']. rewrite Hbid in Hid'.
  rewrite Hid' in *. destruct (selection_block_allowed _ _ _ Hk Hsel) as (Hne & Hbt & Hkind & Ht & Hc & Hs & start & end_ & Hbo & Hp & Hsf).
  destruct (refreshed_target s st Hfresh Hne) as (i & b0 & Hi & Hb0 & Hc0 & Hk0 & Ht0 & Hch0 & Hs0).
  rewrite Hc0 in Hbo, Hp, Hsf. split; [done|]. split; [done|]. split; [done|]. split; [done|].
  exists b0, b, start, end_. rewrite Hb. split_and!; try done; try congruence.
  - by eapply list_elem_of_lookup_2.
  - apply elem_of_app. right. by left.
  - destruct Hkind as [He|?]; [|congruence]. rewrite He in Hk0. exfalso.
    destruct Hwf as [_ Hbl _ _ _ _]. apply (Forall_lookup_1 _ _ _ _ Hbl) in Hi as (_ & _ & _ & Hkinds).
    rewrite <- Hk0 in Hkinds. naive_solver.
Qed.

(** A two-block report, and the scope of a user who selected the X of "-X-". *)
Definition sample_block (id content : string) : ReportBlock :=
  {| rb_ID := id; rb_Kind := "markdown"; rb_Title := ""; rb_Content := content; rb_ChartID := ""; rb_Sources := [] |}.
Definition sample_params (action id content before : string) : reportBlockMutationParams :=
  {| bp_Action := action; bp_BlockID := id; bp_BlockKind := "markdown"; bp_Title := ""; bp_Content := content;
     bp_ChartID := ""; bp_BeforeBlockID := before; bp_AfterBlockID := ""; bp_Sources := [] |}.
Definition sample_report : ReportState :=
  (applyReportBlockMutation id
    (applyReportBlockMutation id empty_report None (sample_params "append" "b1" "intro" "")).1
    None (sample_params "append" "b2" "-X-" "")).1.
Definition sample_selection : ReportEditState :=
  RefreshFromReportState
    {| es_ScopeKindValue := "partial_selection"; es_TargetRunID := ""; es_TargetBlockID := "b2"; es_TargetBlockLabel := "";
       es_TargetChartID := ""; es_SelectionText := "X"; es_SelectionStart := 1; es_SelectionEnd := 2;
       es_SelectionRangeSet := true; es_AllowedChartIDs := ∅; es_TargetBlockContent := ""; es_TargetBlockKind := "";
       es_TargetBlockTitle := ""; es_TargetBlockChartID := ""; es_TargetBlockSources := [] |} sample_report.

Lemma sample_reachable : rtc (report_step id) empty_report sample_report.
Proof.
  eapply rtc_l; [apply (rst_blocks id empty_report None (sample_params "append" "b1" "intro" ""))|].
  apply rtc_once. apply (rst_blocks id _ None (sample_params "append" "b2" "-X-" "")).
Qed.

(** the selection scope does not keep all it promises.  The texts before and
    after the selection may overlap in the new content, so a mutation can delete
    text outside the selected range; and an upsert that names a place moves the target
    block, though the scope refuses the action that moves. *)
Theorem partial_selection_leaks :
  selectionBounds id sample_selection "-X-" = Some (1, 2)
  /\ map rb_Content (rp_Blocks (applyReportBlockMutation id sample_report (Some sample_selection)
                                  (sample_params "upsert" "b2" "-" "")).1) = ["intro"; "-"]
  /\ map rb_ID (rp_Blocks (applyReportBlockMutation id sample_report (Some sample_selection)
                             (sample_params "upsert" "b2" "-Y-" "b1")).1) = ["b2"; "b1"]
  /\ (applyReportBlockMutation id sample_report (Some sample_selection) (sample_params "move" "b2" "" "b1")).2
     = Err (EBlockScope "move" "b2").
Proof. vm_compute. done. Qed.

Lemma partial_selection_protects_witness :
  let p := sample_params "upsert" "b2" "-Y-" "" in
  exists st' r, applyReportBlockMutation id sample_report (Some sample_selection) p = (st', Ok r)
    /\ others "b2" (rp_Blocks st') = others "b2" (rp_Blocks sample_report).
Proof.
  intros p. destruct (applyReportBlockMutation id sample_report (Some sample_selection) p) as [st' [r|e]] eqn:Hm;
    [|vm_compute in Hm; done].
  exists st', r. split; [done|].
  assert (report_wf sample_report) as Hwf.
  { eapply (rtc_ind_l (fun s => report_wf s -> report_wf sample_report)); [done| |exact sample_reachable|exact empty_report_wf].
    intros a b Hab _ IH Ha. by eapply IH, report_step_wf. }
  apply (partial_selection_protects id sample_report sample_selection p st' r Hwf); [reflexivity|vm_compute; reflexivity|done].
Defined.

Lemma report_reachable_wf_witness : rtc (report_step id) empty_report sample_report /\ report_wf sample_report.
Proof. split; [exact sample_reachable|]. apply (report_reachable_wf id), sample_reachable. Defined.

Lemma block_mutation_effect_witness :
  exists st' r, applyReportBlockMutation id empty_report None (sample_params "append" "b1" "intro" "") = (st', Ok r)
    /\ others "b1" (rp_Blocks st') = [].
Proof.
  eexists _, _. split; [reflexivity|].
  apply (block_mutation_effect id empty_report None (sample_params "append" "b1" "intro" "") _ _ empty_report_wf eq_refl).
Defined.
