(* ===== verification/ReportSnapshot.v ===== *)
(** Model of report persistence: the snapshot a finished or hydrated run stores
    (server/domain/report.go, [buildReportSnapshot] of
    server/handler/runtime_events.go) and how a session loads one back
    ([LoadReportSnapshot] of server/session/types.go, the decoders of
    server/tools/report_state.go), with the round trip.

    A raw JSON message is a string, the absent one [""].  A nil slice of a record
    is written as an empty array (Go writes null for it); both read back as the
    same list. *)
From S2P Require Import Prelude GoStrings Json JsonRoundtrip Tools HistoryRebuild ReportState ReportOps ReportProps.
From Stdlib Require Import Ascii.
Open Scope string_scope.
Open Scope list_scope.

(** * Data *)

Record ReportSnapshotBlock := {
  sb_ID : string;
  sb_Kind : string;
  sb_Title : string;
  sb_Content : string;
  sb_ChartID : string;
  sb_Sources : string;
}.
Record ReportSnapshotChart := {
  sc_ID : string;
  sc_Option : string;
  sc_Width : string;
  sc_Height : string;
  sc_Sources : string;
}.
Record ReportSnapshot := {
  sn_Version : string;
  sn_GeneratedAt : time;
  sn_Title : string;
  sn_Author : string;
  sn_NeedsFinalize : bool;
  sn_Layout : ReportLayout;
  sn_Blocks : list ReportSnapshotBlock;
  sn_Charts : list ReportSnapshotChart;
  sn_Results : string;
  sn_Artifacts : string;
}.

(** * Encoding *)

Definition encode_source (r : EvidenceRef) : jval :=
  JObj ([("kind", JStr (ev_Kind r))] ++ opt_str "result_id" (ev_ResultID r) ++ opt_str "artifact_id" (ev_ArtifactID r)
        ++ opt_str "chart_id" (ev_ChartID r) ++ opt_str "label" (ev_Label r)).
Definition encode_result (r : AnalysisResult) : jval :=
  JObj ([("id", JStr (ar_ID r)); ("tool_name", JStr (ar_ToolName r)); ("operation", JStr (ar_Operation r));
         ("columns", JArr (map JStr (ar_Columns r)));
         ("rows", JArr (map (fun row => as_maps (JObj row)) (ar_Rows r)));
         ("row_count", JNum (itoa (ar_RowCount r)))]
        ++ opt_str "source_id" (ar_SourceID r) ++ opt_str "dialect" (ar_Dialect r)
        ++ [("created_at", JStr (ar_CreatedAt r))]).
Definition encode_artifact (a : ArtifactRecord) : jval :=
  JObj ([("id", JStr (af_ID a)); ("name", JStr (af_Name a))] ++ opt_str "content_type" (af_ContentType a)
        ++ opt_str "download_url" (af_DownloadURL a) ++ [("created_at", JStr (af_CreatedAt a))]).
(** A map is written with its keys sorted. *)
Definition encode_ledger {A} (f : A -> jval) (m : gmap string A) : string :=
  MarshalMap (map (fun ka => (ka.1, f ka.2)) (map_to_list m)).

Definition sources_json (refs : list EvidenceRef) : string :=
  if (length refs =? 0)%nat then "" else Marshal (JArr (map encode_source refs)).

Definition snapshot_block (b : ReportBlock) : ReportSnapshotBlock :=
  {| sb_ID := rb_ID b; sb_Kind := rb_Kind b; sb_Title := rb_Title b; sb_Content := rb_Content b;
     sb_ChartID := rb_ChartID b; sb_Sources := sources_json (rb_Sources b) |}.
Definition snapshot_chart (c : ChartData) : ReportSnapshotChart :=
  {| sc_ID := cd_ID c; sc_Option := cd_Option c; sc_Width := cd_Width c; sc_Height := cd_Height c;
     sc_Sources := sources_json (cd_Sources c) |}.
Definition buildReportSnapshot (st : ReportState) (now : time) : ReportSnapshot :=
  {| sn_Version := "v3"; sn_GeneratedAt := now; sn_Title := rp_FinalTitle st; sn_Author := rp_FinalAuthor st;
     sn_NeedsFinalize := rp_NeedsFinalize st; sn_Layout := rp_Layout st;
     sn_Blocks := map snapshot_block (rp_Blocks st); sn_Charts := map snapshot_chart (rp_Charts st);
     sn_Results := if decide (rp_Results st = ∅) then "" else encode_ledger encode_result (rp_Results st);
     sn_Artifacts := if decide (rp_Artifacts st = ∅) then "" else encode_ledger encode_artifact (rp_Artifacts st) |}.

(** * Decoding *)

Inductive SnapshotError :=
| ESnapResults
| ESnapArtifacts
| ESnapBlockID
| ESnapBlockDuplicate (id : string)
| ESnapBlockStructure (id kind : string)
| ESnapBlockChart (id : string)
| ESnapBlockKind (id kind : string)
| ESnapSources (id : string)
| ESnapChartID
| ESnapChartDuplicate (id : string)
| ESnapChartOption (id : string).
Global Instance SnapshotError_eq_dec : EqDecision SnapshotError.
Proof. solve_decision. Defined.

Definition is_string_array (v : jval) : bool :=
  match v with
  | JArr vs => forallb (fun x => match x with JStr _ | JNull => true | _ => false end) vs
  | _ => false
  end.
Definition decode_strings (v : jval) : list string :=
  match v with JArr vs => map (fun x => match x with JStr s => s | _ => "" end) vs | _ => [] end.
Definition decode_row (v : jval) : option (list (string * jval)) := let! w := to_interface v in as_object w.
Definition decode_rows (v : jval) : option (list (list (string * jval))) :=
  match v with JArr vs => mapM decode_row vs | _ => None end.

Definition result_fields : list (string * (jval -> bool)) :=
  [("id", is_jstr); ("tool_name", is_jstr); ("operation", is_jstr); ("columns", is_string_array);
   ("rows", fun v => bool_decide (is_Some (decode_rows v))); ("row_count", is_jint); ("source_id", is_jstr);
   ("dialect", is_jstr); ("created_at", is_jstr)].
Definition artifact_fields : list (string * (jval -> bool)) :=
  [("id", is_jstr); ("name", is_jstr); ("content_type", is_jstr); ("download_url", is_jstr); ("created_at", is_jstr)].

(** A null value leaves the zero record. *)
Definition decode_result (v : jval) : option AnalysisResult :=
  let! kvs := as_object v in
  let! m := bind_fields result_fields kvs ∅ in
  Some {| ar_ID := string_field m "id"; ar_ToolName := string_field m "tool_name"; ar_Operation := string_field m "operation";
          ar_Columns := default [] (decode_strings <$> m !! "columns");
          ar_Rows := default [] (let! v := m !! "rows" in decode_rows v);
          ar_RowCount := int_field m "row_count"; ar_SourceID := string_field m "source_id";
          ar_Dialect := string_field m "dialect"; ar_CreatedAt := string_field m "created_at" |}.
Definition decode_artifact (v : jval) : option ArtifactRecord :=
  let! kvs := as_object v in
  let! m := bind_fields artifact_fields kvs ∅ in
  Some {| af_ID := string_field m "id"; af_Name := string_field m "name"; af_ContentType := string_field m "content_type";
          af_DownloadURL := string_field m "download_url"; af_CreatedAt := string_field m "created_at" |}.

(** [DecodeAnalysisResults] and [DecodeArtifactRecords] differ in the record
    only.  Keys of an accepted text are distinct. *)
Definition decode_ledger {A} (decode : jval -> option A) (id : A -> string) (raw : string) : option (gmap string A) :=
  if raw =? "" then Some ∅
  else match Validate raw with
  | Some (JObj kvs) =>
      let! entries := mapM (fun kv => pair kv.1 <$> decode kv.2) kvs in
      if forallb (fun ka => negb (ka.1 =? "") && negb (not_exact ka.1) && (id ka.2 =? ka.1)) entries
      then Some (list_to_map entries) else None
  | _ => None
  end.
Definition DecodeAnalysisResults (raw : string) : option (gmap string AnalysisResult) := decode_ledger decode_result ar_ID raw.
Definition DecodeArtifactRecords (raw : string) : option (gmap string ArtifactRecord) := decode_ledger decode_artifact af_ID raw.

Definition DecodeEvidenceRefs (raw : string) : option (list EvidenceRef) :=
  if raw =? "" then Some []
  else let! v := Validate raw in
       let! refs := decode_sources v in
       if forallb (fun r => is_ok (validateEvidenceRefShape r)) refs then Some refs else None.

(** * Loading *)

Definition load_block (seen : list ReportBlock) (block : ReportSnapshotBlock) : res SnapshotError (list ReportBlock) :=
  let id := sb_ID block in
  if (id =? "") || not_exact id then Err ESnapBlockID
  else if bool_decide (id ∈ map rb_ID seen) then Err (ESnapBlockDuplicate id)
  else
    let? _ :=
      if (sb_Kind block =? "markdown") || (sb_Kind block =? "html") then
        if blank (sb_Content block) || negb (sb_ChartID block =? "") then Err (ESnapBlockStructure id (sb_Kind block))
        else Ok tt
      else if sb_Kind block =? "chart" then
        if (sb_ChartID block =? "") || not_exact (sb_ChartID block) then Err (ESnapBlockChart id) else Ok tt
      else Err (ESnapBlockKind id (sb_Kind block)) in
    match DecodeEvidenceRefs (sb_Sources block) with
    | None => Err (ESnapSources id)
    | Some sources =>
        Ok (seen ++ [{| rb_ID := id; rb_Kind := sb_Kind block; rb_Title := sb_Title block;
                        rb_Content := sb_Content block; rb_ChartID := sb_ChartID block; rb_Sources := sources |}])
    end.

Definition load_chart (seen : list ChartData) (chart : ReportSnapshotChart) : res SnapshotError (list ChartData) :=
  let id := sc_ID chart in
  if (id =? "") || not_exact id then Err ESnapChartID
  else if bool_decide (id ∈ map cd_ID seen) then Err (ESnapChartDuplicate id)
  else match Decode (sc_Option chart) with
  | Some (JObj _) =>
      match DecodeEvidenceRefs (sc_Sources chart) with
      | None => Err (ESnapSources id)
      | Some sources =>
          Ok (seen ++ [{| cd_ID := id; cd_Option := sc_Option chart; cd_Width := sc_Width chart;
                          cd_Height := sc_Height chart; cd_Sources := sources |}])
      end
  | _ => Err (ESnapChartOption id)
  end.

(** The report of the session after the load; its mutation version stays. *)
Definition load_report (st : ReportState) (snapshot : ReportSnapshot) : res SnapshotError ReportState :=
  match DecodeAnalysisResults (sn_Results snapshot) with
  | None => Err ESnapResults
  | Some results =>
      match DecodeArtifactRecords (sn_Artifacts snapshot) with
      | None => Err ESnapArtifacts
      | Some artifacts =>
          let? blocks := fold_res load_block [] (sn_Blocks snapshot) in
          let? charts := fold_res load_chart [] (sn_Charts snapshot) in
          Ok {| rp_Blocks := blocks; rp_Charts := charts; rp_FinalTitle := sn_Title snapshot;
                rp_FinalAuthor := sn_Author snapshot; rp_Layout := sn_Layout snapshot;
                rp_NeedsFinalize := sn_NeedsFinalize snapshot; rp_MutationVersion := rp_MutationVersion st;
                rp_Results := results; rp_Artifacts := artifacts |}
      end
  end.

(** * Specification *)

Definition is_text_block (b : ReportBlock) : bool := (rb_Kind b =? "markdown") || (rb_Kind b =? "html").

Definition source_storable (r : EvidenceRef) : Prop :=
  Forall (fun s => ValidString s = true) [ev_Kind r; ev_ResultID r; ev_ArtifactID r; ev_ChartID r; ev_Label r].
(** A row of a result: a map in key order whose numbers are already doubles and
    whose text JSON can carry. *)
Definition row_storable (row : list (string * jval)) : Prop :=
  as_maps (JObj row) = JObj row /\ to_interface (JObj row) = Some (JObj row) /\ json_ok (JObj row)
  /\ no_duplicate_keys (JObj row) = true /\ (Z.of_nat (depth_of (JObj row)) + 3 <= maxNestingDepth)%Z.
Definition result_storable (r : AnalysisResult) : Prop :=
  Forall (fun s => ValidString s = true)
    ([ar_ID r; ar_ToolName r; ar_Operation r; ar_SourceID r; ar_Dialect r; ar_CreatedAt r] ++ ar_Columns r)
  /\ Forall row_storable (ar_Rows r)
  /\ (-9223372036854775808 <= ar_RowCount r <= 9223372036854775807)%Z.
Definition artifact_storable (a : ArtifactRecord) : Prop :=
  Forall (fun s => ValidString s = true) [af_ID a; af_Name a; af_ContentType a; af_DownloadURL a; af_CreatedAt a].

(** What the snapshot format can carry of a well-formed report. *)
Record storable (st : ReportState) : Prop := {
  st_text_charts : Forall (fun b => is_text_block b = true -> rb_ChartID b = "") (rp_Blocks st);
  st_block_sources : Forall (fun b => Forall source_storable (rb_Sources b)) (rp_Blocks st);
  st_chart_sources : Forall (fun c => Forall source_storable (cd_Sources c)) (rp_Charts st);
  st_results : map_Forall (fun _ r => result_storable r) (rp_Results st);
  st_artifacts : map_Forall (fun _ a => artifact_storable a) (rp_Artifacts st);
}.

Definition with_version (st : ReportState) (version : Z) : ReportState :=
  {| rp_Blocks := rp_Blocks st; rp_Charts := rp_Charts st; rp_FinalTitle := rp_FinalTitle st;
     rp_FinalAuthor := rp_FinalAuthor st; rp_Layout := rp_Layout st; rp_NeedsFinalize := rp_NeedsFinalize st;
     rp_MutationVersion := version; rp_Results := rp_Results st; rp_Artifacts := rp_Artifacts st |}.

(** * Lemmas: records *)

Lemma decode_encode_source r : decode_source (encode_source r) = Some r.
Proof.
  destruct r as [k r a c l]. unfold encode_source. cbn [ev_Kind ev_ResultID ev_ArtifactID ev_ChartID ev_Label].
  opt_cases; subst; vm_compute; reflexivity.
Qed.

Lemma decode_encode_artifact a : decode_artifact (encode_artifact a) = Some a.
Proof.
  destruct a as [i n c d t]. unfold encode_artifact. cbn [af_ID af_Name af_ContentType af_DownloadURL af_CreatedAt].
  opt_cases; subst; vm_compute; reflexivity.
Qed.

Lemma decode_encode_rows rows :
  Forall row_storable rows -> decode_rows (JArr (map (fun row => as_maps (JObj row)) rows)) = Some rows.
Proof.
  unfold decode_rows. induction 1 as [|row rows (Hmaps & Hint & _) _ IH]; [done|].
  rewrite map_cons. cbn [mapM]. rewrite Hmaps.
  assert (decode_row (JObj row) = Some row) as -> by (unfold decode_row; by rewrite Hint).
  cbn [mbind option_bind]. rewrite IH. done.
Qed.

Lemma strings_accepted l : is_string_array (JArr (map JStr l)) = true /\ decode_strings (JArr (map JStr l)) = l.
Proof. simpl. induction l as [|s l [IH1 IH2]]; simpl; [done|]. split; [done|]. by rewrite IH2. Qed.

Lemma decode_encode_result r : result_storable r -> decode_result (encode_result r) = Some r.
Proof.
  destruct r as [i t o c rows n s d ts]. intros (_ & Hrows%decode_encode_rows & Hrange). cbn [ar_Rows ar_RowCount] in *.
  unfold encode_result, decode_result.
  cbn [ar_ID ar_ToolName ar_Operation ar_Columns ar_Rows ar_RowCount ar_SourceID ar_Dialect ar_CreatedAt as_object].
  revert Hrows. generalize (map (fun row : list (string * jval) => as_maps (JObj row)) rows). intros R Hrows.
  destruct (strings_accepted c) as [Hc1 Hc2]. pose proof (parse_int_itoa n Hrange) as Hn.
  opt_cases; subst; cbn [app].
  all: repeat match goal with
       | |- context [bind_fields _ (("rows", _) :: _) _] =>
           rewrite (bind_field _ "rows" "rows") by (done || (apply (accepts_field _ 4 "rows" (fun v => bool_decide (is_Some (decode_rows v)))); [done|rewrite Hrows; done]))
       | |- context [bind_fields _ (("columns", _) :: _) _] =>
           rewrite (bind_field _ "columns" "columns") by (done || (apply (accepts_field _ 3 "columns" is_string_array); done))
       | |- context [bind_fields _ (("row_count", _) :: _) _] =>
           rewrite (bind_field _ "row_count" "row_count")
             by (done || (apply (accepts_field _ 5 "row_count" is_jint); [done|unfold is_jint; by rewrite Hn]))
       | |- context [bind_fields _ ((?k, _) :: _) _] => rewrite (bind_field _ k k) by done
       end.
  all: cbn [bind_fields].
  all: f_equal; f_equal.
  all: try unfold string_field; try unfold int_field; simplify_map_eq; try first [done | by rewrite Hn | exact Hrows | exact Hc2].
Qed.

(** * Lemmas: ledgers *)

Lemma sort_keys_map {A B} (f : A -> B) (l : list (string * A)) :
  sort_keys (map (fun ka => (ka.1, f ka.2)) l) = map (fun ka => (ka.1, f ka.2)) (sort_keys l).
Proof.
  induction l as [|[k a] l IH]; simpl; [done|]. rewrite IH. clear IH. generalize (sort_keys l). intros l'.
  induction l' as [|[k' a'] l' IH]; simpl; [done|]. destruct (String.ltb k k'); simpl; [done|]. by rewrite IH.
Qed.

Lemma distinct_NoDup l : distinct l = true <-> NoDup l.
Proof.
  induction l as [|x l IH]; simpl; [split; [constructor|done]|].
  rewrite NoDup_cons, andb_true_iff, IH, negb_true_iff, <- not_true_iff_false, existsb_exists.
  assert ((exists y, In y l /\ (x =? y) = true) <-> x ∈ l) as ->; [|tauto].
  split; [intros (y & Hy & ->%String.eqb_eq); by apply list_elem_of_In|].
  intros Hx. exists x. split; [by apply list_elem_of_In|apply String.eqb_refl].
Qed.

Lemma members_ok_forall kvs : members_ok kvs <-> Forall (fun kv => ValidString kv.1 = true /\ json_ok kv.2) kvs.
Proof. induction kvs as [|kv kvs IH]; simpl; [split; [constructor|done]|]. rewrite Forall_cons, IH. tauto. Qed.

Lemma depth_of_members kvs n :
  Forall (fun kv : string * jval => depth_of kv.2 <= n) kvs -> depth_of (JObj kvs) <= S n.
Proof. intros H. cbn [depth_of]. apply le_n_S. induction H as [|kv kvs Hkv _ IH]; simpl; lia. Qed.

Lemma mapM_inverse {A B} (f : B -> option A) (g : A -> B) l :
  Forall (fun x => f (g x) = Some x) l -> mapM f (map g l) = Some l.
Proof. induction 1 as [|x l Hx _ IH]; simpl; [done|]. by rewrite Hx, IH. Qed.

(** What a record must be for its ledger to be read back. *)
Definition carried {A} (enc : A -> jval) (dec : jval -> option A) (a : A) : Prop :=
  dec (enc a) = Some a /\ json_ok (enc a) /\ no_duplicate_keys (enc a) = true
  /\ (Z.of_nat (depth_of (enc a)) + 1 <= maxNestingDepth)%Z.

Lemma ledger_roundtrip {A} (enc : A -> jval) dec id (m : gmap string A) :
  m <> ∅ ->
  map_Forall (fun k a => id a = k /\ k <> "" /\ not_exact k = false) m ->
  map_Forall (fun k a => ValidString k = true /\ carried enc dec a) m ->
  decode_ledger dec id (encode_ledger enc m) = Some m.
Proof.
  intros Hne Hids Hcar. unfold decode_ledger, encode_ledger, MarshalMap. rewrite sort_keys_map.
  pose proof (sort_keys_perm (map_to_list m)) as Hperm. revert Hperm.
  generalize (sort_keys (map_to_list m)). intros L Hperm.
  set (kvs := map (fun ka => (ka.1, enc ka.2)) L).
  apply map_Forall_to_list in Hids, Hcar. rewrite <- Hperm in Hids, Hcar.
  assert (NoDup (map fst L)) as Hnd by (rewrite Hperm; apply NoDup_fst_map_to_list).
  assert (map fst kvs = map fst L) as Hkeys by (unfold kvs; by rewrite map_map).
  assert (Validate (Marshal (JObj kvs)) = Some (JObj kvs)) as ->.
  { unfold Validate. rewrite Unmarshal_Marshal.
    - cbn [no_duplicate_keys]. rewrite Hkeys. apply distinct_NoDup in Hnd. rewrite Hnd. simpl.
      assert (forallb (fun kv => no_duplicate_keys kv.2) kvs = true) as ->; [|done].
      apply forallb_forall. intros kv ([k a] & <- & Hka%list_elem_of_In)%in_map_iff.
      by destruct (proj1 (Forall_forall _ _) Hcar _ Hka) as (_ & _ & _ & ? & _).
    - change (members_ok kvs). apply members_ok_forall. unfold kvs. apply Forall_map.
      eapply Forall_impl; [exact Hcar|]. intros [k a] (? & _ & ? & _). done.
    - assert (depth_of (JObj kvs) <= S (Z.to_nat (maxNestingDepth - 1))) as Hd; [|unfold maxNestingDepth in *; lia].
      apply depth_of_members. unfold kvs. apply Forall_map. eapply Forall_impl; [exact Hcar|].
      intros [k a] (_ & _ & _ & _ & ?). simpl. lia. }
  change (Marshal (JObj kvs) =? "") with false. cbn iota.
  assert (mapM (fun kv => pair kv.1 <$> dec kv.2) kvs = Some L) as ->.
  { unfold kvs. apply mapM_inverse. eapply Forall_impl; [exact Hcar|]. intros [k a] (_ & Ha & _). simpl in *. by rewrite Ha. }
  simpl. assert (forallb _ L = true) as ->.
  { apply forallb_forall. intros [k a] Hka%list_elem_of_In.
    destruct (proj1 (Forall_forall _ _) Hids _ Hka) as (Hid & Hk & Hex). simpl. apply String.eqb_neq in Hk. by rewrite Hk, Hex, Hid, String.eqb_refl. }
  f_equal. rewrite <- (list_to_map_to_list m). by apply list_to_map_proper.
Qed.

(** * Lemmas: what JSON carries *)

Definition carries (d : Z) (v : jval) : Prop :=
  json_ok v /\ no_duplicate_keys v = true /\ (Z.of_nat (depth_of v) <= d)%Z.

Lemma carries_obj d kvs :
  (0 <= d)%Z -> distinct (map fst kvs) = true -> Forall (fun kv => ValidString kv.1 = true /\ carries d kv.2) kvs ->
  carries (d + 1) (JObj kvs).
Proof.
  intros Hd Hdup Hall. split_and!.
  - change (members_ok kvs). apply members_ok_forall. eapply Forall_impl; [exact Hall|]. by intros kv (? & ? & _).
  - cbn [no_duplicate_keys]. rewrite Hdup. apply forallb_forall. intros kv Hkv%list_elem_of_In.
    by destruct (proj1 (Forall_forall _ _) Hall _ Hkv) as (_ & _ & ? & _).
  - assert (depth_of (JObj kvs) <= S (Z.to_nat d)); [|lia].
    apply depth_of_members. eapply Forall_impl; [exact Hall|]. intros kv (_ & _ & _ & ?). lia.
Qed.

Lemma carries_arr d vs : (0 <= d)%Z -> Forall (carries d) vs -> carries (d + 1) (JArr vs).
Proof.
  intros Hd Hall. split_and!.
  - change (all_ok vs). induction Hall as [|v vs (? & _) _ IH]; simpl; done.
  - cbn [no_duplicate_keys]. apply forallb_forall. intros v Hv%list_elem_of_In.
    by destruct (proj1 (Forall_forall _ _) Hall _ Hv) as (_ & ? & _).
  - cbn [depth_of]. induction Hall as [|v vs (_ & _ & ?) _ IH]; simpl in *; lia.
Qed.

Lemma carries_str d s : (0 <= d)%Z -> ValidString s = true -> carries d (JStr s).
Proof. by intros. Qed.

Lemma carries_int d n : (0 <= d)%Z -> carries d (JNum (itoa n)).
Proof. intros. split_and!; [apply number_ok_itoa|done|done]. Qed.

Lemma carries_opt d k s :
  (0 <= d)%Z -> ValidString k = true -> ValidString s = true ->
  Forall (fun kv => ValidString kv.1 = true /\ carries d kv.2) (opt_str k s).
Proof. intros. unfold opt_str. destruct (s =? ""); repeat constructor; done. Qed.

#[export] Hint Resolve carries_str carries_int : go.

(** The members of an encoded record, one at a time. *)
Ltac carries_members :=
  repeat match goal with
  | |- Forall _ (_ ++ _) => apply Forall_app; split
  | |- Forall _ (opt_str _ _) => apply carries_opt; [lia|done|done]
  | |- Forall _ [] => constructor
  | |- Forall _ (_ :: _) => constructor; [split; [done|]; cbn [snd]; auto with go lia|]
  end.
Ltac carries_keys := opt_cases; reflexivity.

Lemma carries_source r : source_storable r -> carries 1 (encode_source r).
Proof.
  unfold source_storable. rewrite !Forall_cons. intros (? & ? & ? & ? & ? & _).
  apply (carries_obj 0); [lia|carries_keys|carries_members].
Qed.

Lemma carried_artifact a : artifact_storable a -> carried encode_artifact decode_artifact a.
Proof.
  unfold artifact_storable. rewrite !Forall_cons. intros (? & ? & ? & ? & ? & _).
  split; [apply decode_encode_artifact|].
  assert (carries 1 (encode_artifact a)) as (? & ? & ?);
    [apply (carries_obj 0); [lia|carries_keys|carries_members]|].
  unfold maxNestingDepth. split_and!; [done|done|lia].
Qed.

Lemma carried_result r : result_storable r -> carried encode_result decode_result r.
Proof.
  intros Hr. split; [by apply decode_encode_result|]. revert Hr. unfold result_storable.
  rewrite Forall_app, !Forall_cons. intros (((? & ? & ? & ? & ? & ? & _) & Hcols) & Hrows & _).
  assert (carries (maxNestingDepth - 3 + 1) (JArr (map JStr (ar_Columns r)))).
  { apply carries_arr; [done|]. apply Forall_map. eapply Forall_impl; [exact Hcols|]. intros s Hs. by apply carries_str. }
  assert (carries (maxNestingDepth - 3 + 1) (JArr (map (fun row => as_maps (JObj row)) (ar_Rows r)))).
  { apply carries_arr; [done|]. apply Forall_map. eapply Forall_impl; [exact Hrows|].
    intros row (Hmaps & _ & ? & ? & ?). simpl. cbn [as_maps] in Hmaps. rewrite Hmaps. split_and!; [done|done|lia]. }
  assert (carries (maxNestingDepth - 3 + 1 + 1) (encode_result r)) as (? & ? & ?).
  { apply carries_obj; [done|carries_keys|]. unfold maxNestingDepth in *. carries_members. }
  unfold maxNestingDepth in *. split_and!; [done|done|lia].
Qed.

Lemma sources_roundtrip refs :
  check_sources refs = Ok tt -> Forall source_storable refs -> DecodeEvidenceRefs (sources_json refs) = Some refs.
Proof.
  intros Hshape Hst. unfold DecodeEvidenceRefs, sources_json. destruct refs as [|r0 rest]; [done|].
  change (length (r0 :: rest) =? 0)%nat with false. cbn iota. revert Hshape Hst. generalize (r0 :: rest). clear.
  intros refs Hshape Hst. change (Marshal (JArr (map encode_source refs)) =? "") with false. cbn iota.
  assert (carries (1 + 1) (JArr (map encode_source refs))) as (Hok & Hdup & Hdepth).
  { apply carries_arr; [lia|]. apply Forall_map. eapply Forall_impl; [exact Hst|]. apply carries_source. }
  unfold Validate. rewrite Unmarshal_Marshal by (done || (unfold maxNestingDepth; lia)).
  rewrite Hdup. cbn [decode_sources]. rewrite (mapM_inverse decode_source encode_source)
    by (apply Forall_forall; intros; apply decode_encode_source).
  assert (forallb (fun r => is_ok (validateEvidenceRefShape r)) refs = true) as ->; [|done].
  apply forallb_forall. intros r Hr%list_elem_of_In. unfold check_sources in Hshape. rewrite each_ok in Hshape.
  apply list_elem_of_lookup in Hr as [i Hi].
  assert ((i, r) ∈ imap pair refs) as Hin by (apply elem_of_lookup_imap; by exists i, r).
  apply (proj1 (Forall_forall _ _) Hshape) in Hin. simpl in Hin. by destruct (validateEvidenceRefShape r).
Qed.

(** * Lemmas: blocks and charts *)

Lemma exact_id_ne s : exact_id s -> s <> "".
Proof. by intros [Hb _] ->. Qed.

Lemma not_in_prefix {A} (f : A -> string) seen x l : NoDup (map f (seen ++ x :: l)) -> f x ∉ map f seen.
Proof.
  rewrite map_app, map_cons. intros (_ & Hdis & _)%NoDup_app Hin. apply (Hdis _ Hin). by left.
Qed.

(** The structural check of one block, from what the report keeps. *)
Lemma load_block_ok seen b :
  block_ok b -> (is_text_block b = true -> rb_ChartID b = "") -> Forall source_storable (rb_Sources b) ->
  rb_ID b ∉ map rb_ID seen -> load_block seen (snapshot_block b) = Ok (seen ++ [b]).
Proof.
  intros (Hid & Hsrc & Hchart & Hkind) Htext Hst Hnew. unfold load_block, snapshot_block. cbn.
  pose proof (exact_id_ne _ Hid) as Hne. apply String.eqb_neq in Hne. destruct Hid as [_ Hex].
  rewrite Hne, Hex, bool_decide_eq_false_2 by done. cbn.
  rewrite sources_roundtrip by done. unfold is_text_block in Htext. destruct b as [id kind title content chart sources]. cbn in *.
  destruct Hkind as [[[-> | ->] Hc] | [-> Hc]]; cbn in *.
  1-2: rewrite Hc, Htext by done; reflexivity.
  assert (chart =? "" = false) as -> by (apply String.eqb_neq; by intros ->). by rewrite Hchart.
Qed.

Lemma load_chart_ok seen c :
  chart_ok c -> Forall source_storable (cd_Sources c) -> cd_ID c ∉ map cd_ID seen ->
  load_chart seen (snapshot_chart c) = Ok (seen ++ [c]).
Proof.
  intros (Hid & Hsrc & Hopt) Hst Hnew. unfold load_chart, snapshot_chart. cbn.
  pose proof (exact_id_ne _ Hid) as Hne. apply String.eqb_neq in Hne. destruct Hid as [_ Hex].
  rewrite Hne, Hex, bool_decide_eq_false_2, sources_roundtrip by done. cbn.
  unfold resolveChartOption in Hopt. destruct (_ || _); [done|].
  destruct (Decode (cd_Option c)) as [[]|]; try done. by destruct c.
Qed.

Lemma load_all {A B} (f : list A -> B -> res SnapshotError (list A)) (g : A -> B) (key : A -> string) (P : A -> Prop) :
  (forall seen x, P x -> key x ∉ map key seen -> f seen (g x) = Ok (seen ++ [x])) ->
  forall l seen, Forall P l -> NoDup (map key (seen ++ l)) -> fold_res f seen (map g l) = Ok (seen ++ l).
Proof.
  intros Hf l. induction l as [|x l IH]; intros seen HP Hnd; simpl; [by rewrite app_nil_r|].
  apply Forall_cons in HP as [Hx HP]. rewrite Hf by (done || by eapply not_in_prefix).
  replace (seen ++ x :: l) with ((seen ++ [x]) ++ l) in * by (by rewrite <- app_assoc). by apply IH.
Qed.

Lemma load_ledger {A} (enc : A -> jval) dec id (m : gmap string A) :
  map_Forall (fun k a => id a = k /\ k <> "" /\ not_exact k = false) m ->
  map_Forall (fun k a => ValidString k = true /\ carried enc dec a) m ->
  decode_ledger dec id (if decide (m = ∅) then "" else encode_ledger enc m) = Some m.
Proof. intros. destruct (decide (m = ∅)) as [->|Hne]; [done|]. by apply ledger_roundtrip. Qed.

Lemma results_load st :
  map_Forall (fun k r => ar_ID r = k /\ k <> "" /\ not_exact k = false) (rp_Results st) ->
  map_Forall (fun _ r => result_storable r) (rp_Results st) ->
  DecodeAnalysisResults (if decide (rp_Results st = ∅) then "" else encode_ledger encode_result (rp_Results st))
  = Some (rp_Results st).
Proof.
  intros Hr Hst. apply load_ledger; [done|]. intros k r Hk. destruct (Hr k r Hk) as [<- _]. specialize (Hst _ r Hk).
  split; [|by apply carried_result]. destruct Hst as [Hv _]. by apply Forall_app in Hv as [[? _]%Forall_cons _].
Qed.

Lemma artifacts_load st :
  map_Forall (fun k a => af_ID a = k /\ k <> "" /\ not_exact k = false) (rp_Artifacts st) ->
  map_Forall (fun _ a => artifact_storable a) (rp_Artifacts st) ->
  DecodeArtifactRecords (if decide (rp_Artifacts st = ∅) then "" else encode_ledger encode_artifact (rp_Artifacts st))
  = Some (rp_Artifacts st).
Proof.
  intros Ha Hst. apply load_ledger; [done|]. intros k a Hk. destruct (Ha k a Hk) as [<- _]. specialize (Hst _ a Hk).
  split; [|by apply carried_artifact]. by apply Forall_cons in Hst as [? _].
Qed.

(** * Properties *)


(** A report with one text block, one chart and one result it cites. *)
Definition cited_report : ReportState :=
  let source := {| ev_Kind := "result"; ev_ResultID := "r1"; ev_ArtifactID := ""; ev_ChartID := ""; ev_Label := "sales" |} in
  {| rp_Blocks := [{| rb_ID := "b1"; rb_Kind := "markdown"; rb_Title := "T"; rb_Content := "up 3%"; rb_ChartID := "";
                      rb_Sources := [source] |};
                   {| rb_ID := "b2"; rb_Kind := "chart"; rb_Title := ""; rb_Content := ""; rb_ChartID := "c1";
                      rb_Sources := [] |}];
     rp_Charts := [{| cd_ID := "c1"; cd_Option := Marshal (JObj [("series", JArr [])]); cd_Width := ""; cd_Height := "300px";
                      cd_Sources := [source] |}];
     rp_FinalTitle := "Sales"; rp_FinalAuthor := "A"; rp_Layout := empty_layout; rp_NeedsFinalize := true;
     rp_MutationVersion := 4;
     rp_Results := {[ "r1" := {| ar_ID := "r1"; ar_ToolName := "query_data"; ar_Operation := "select";
                                 ar_Columns := ["total"]; ar_Rows := [[("total", JNum "3")]]; ar_RowCount := 1;
                                 ar_SourceID := ""; ar_Dialect := ""; ar_CreatedAt := "2024-01-02T03:04:05Z" |} ]};
     rp_Artifacts := ∅ |}.

Lemma cited_report_wf : report_wf cited_report.
Proof.
  constructor.
  1,3: by apply distinct_NoDup.
  1,2: repeat constructor; vm_compute; (done || by right).
  - by apply map_Forall_singleton.
  - by apply map_Forall_empty.
Qed.


(** persistence refuses some reports the tools build.  A text block may keep a
    chart identifier: the block tool accepts it, and the snapshot of the report is
    stored, but no session can load that snapshot. *)
Theorem text_chart_snapshot_rejected st0 now :
  exists st, rtc (report_step id) empty_report st
    /\ load_report st0 (buildReportSnapshot st now) = Err (ESnapBlockStructure "b1" "markdown").
Proof.
  exists (applyReportBlockMutation id empty_report None
    {| bp_Action := "append"; bp_BlockID := "b1"; bp_BlockKind := "markdown"; bp_Title := ""; bp_Content := "text";
       bp_ChartID := "c1"; bp_BeforeBlockID := ""; bp_AfterBlockID := ""; bp_Sources := [] |}).1.
  split; [apply rtc_once, rst_blocks|]. vm_compute. reflexivity.
Qed.
