(* ===== verification/SessionRun.v ===== *)
(** Model of a session (server/session/types.go): the life of its active run, the
    edit scope a user message opens, and what a turn tells the model about it; with
    the user message contract of server/agent/types.go.

    Every operation holds the session's lock, so each is one atomic function.  Each
    call of [time.Now] is an argument; a [context.CancelFunc] is the number of the
    context it cancels, and [ss_cancelled] logs the contexts cancelled so far.  The
    identifier of a new run is an argument of [StartRun]. *)
From S2P Require Import Prelude GoStrings Json Conversation ReportState ReportSnapshot.
From Stdlib Require Import Ascii.
Open Scope string_scope.
Open Scope list_scope.

(** * The user message *)

Record ReportEditContext := {
  ec_ScopeKind : string;
  ec_TargetRunID : string;
  ec_BlockID : string;
  ec_BlockLabel : string;
  ec_ChartID : string;
  ec_SelectionText : string;
  ec_SelectionStart : Z;
  ec_SelectionEnd : Z;
  ec_SelectionRangeSet : bool;
}.
Record TurnContext := { tx_ReportTargetRunID : string; tx_ReportTitle : string }.
Record UserMessage := {
  um_Content : string;
  um_EditContext : option ReportEditContext;
  um_TurnContext : option TurnContext;
}.

Inductive MessageError :=
| EMessageEmpty
| EEditNotExact
| EEditBlock
| EEditChart
| EEditSelection
| EEditRange
| EEditScope
| ETurnNotExact.

(** The loop over the fields only says which of the inexact ones it names. *)
Definition ValidateEditContext (c : option ReportEditContext) : res MessageError unit :=
  match c with
  | None => Ok tt
  | Some c =>
      if existsb not_exact [ec_ScopeKind c; ec_TargetRunID c; ec_BlockID c; ec_ChartID c] then Err EEditNotExact
      else
        let kind := ec_ScopeKind c in
        if (kind =? "whole_report") || (kind =? "layout") then Ok tt
        else if kind =? "partial_block" then if blank (ec_BlockID c) then Err EEditBlock else Ok tt
        else if kind =? "partial_chart" then if blank (ec_ChartID c) then Err EEditChart else Ok tt
        else if kind =? "partial_selection" then
          if blank (ec_BlockID c) || blank (ec_SelectionText c) then Err EEditSelection
          else if negb (ec_SelectionRangeSet c) || (ec_SelectionStart c <? 0)%Z
                  || (ec_SelectionEnd c <=? ec_SelectionStart c)%Z then Err EEditRange
          else Ok tt
        else Err EEditScope
  end.
Definition ValidateMessage (m : UserMessage) : res MessageError unit :=
  if blank (um_Content m) then Err EMessageEmpty
  else
    let? _ := ValidateEditContext (um_EditContext m) in
    match um_TurnContext m with
    | Some t => if not_exact (tx_ReportTargetRunID t) then Err ETurnNotExact else Ok tt
    | None => Ok tt
    end.

(** * The session *)

Record SessionRunState := {
  sr_RunID : string;
  sr_Status : string;
  sr_Cancel : option nat;
  sr_StartedAt : time;
}.
Record Session := {
  ss_ID : string;
  ss_WorkspaceID : string;
  ss_UserID : string;
  ss_ActiveRun : option SessionRunState;
  ss_LastSeenAt : time;
  ss_detached : bool;
  ss_EditState : ReportEditState;
  ss_ReportState : ReportState;
  ss_cancelled : list nat;
}.

Definition NewSession (id workspaceID userID : string) (now : time) : Session :=
  {| ss_ID := id; ss_WorkspaceID := workspaceID; ss_UserID := userID; ss_ActiveRun := None; ss_LastSeenAt := now;
     ss_detached := false; ss_EditState := ResetEditState; ss_ReportState := empty_report; ss_cancelled := [] |}.

Definition set_run (s : Session) (run : option SessionRunState) (seen : time) : Session :=
  {| ss_ID := ss_ID s; ss_WorkspaceID := ss_WorkspaceID s; ss_UserID := ss_UserID s; ss_ActiveRun := run;
     ss_LastSeenAt := seen; ss_detached := ss_detached s; ss_EditState := ss_EditState s;
     ss_ReportState := ss_ReportState s; ss_cancelled := ss_cancelled s |}.
Definition set_edit (s : Session) (edit : ReportEditState) : Session :=
  {| ss_ID := ss_ID s; ss_WorkspaceID := ss_WorkspaceID s; ss_UserID := ss_UserID s; ss_ActiveRun := ss_ActiveRun s;
     ss_LastSeenAt := ss_LastSeenAt s; ss_detached := ss_detached s; ss_EditState := edit;
     ss_ReportState := ss_ReportState s; ss_cancelled := ss_cancelled s |}.
Definition set_report (s : Session) (report : ReportState) : Session :=
  {| ss_ID := ss_ID s; ss_WorkspaceID := ss_WorkspaceID s; ss_UserID := ss_UserID s; ss_ActiveRun := ss_ActiveRun s;
     ss_LastSeenAt := ss_LastSeenAt s; ss_detached := ss_detached s; ss_EditState := ss_EditState s;
     ss_ReportState := report; ss_cancelled := ss_cancelled s |}.
Definition set_detached (s : Session) (detached : bool) : Session :=
  {| ss_ID := ss_ID s; ss_WorkspaceID := ss_WorkspaceID s; ss_UserID := ss_UserID s; ss_ActiveRun := ss_ActiveRun s;
     ss_LastSeenAt := ss_LastSeenAt s; ss_detached := detached; ss_EditState := ss_EditState s;
     ss_ReportState := ss_ReportState s; ss_cancelled := ss_cancelled s |}.
Definition call_cancel (s : Session) (cancel : nat) : Session :=
  {| ss_ID := ss_ID s; ss_WorkspaceID := ss_WorkspaceID s; ss_UserID := ss_UserID s; ss_ActiveRun := ss_ActiveRun s;
     ss_LastSeenAt := ss_LastSeenAt s; ss_detached := ss_detached s; ss_EditState := ss_EditState s;
     ss_ReportState := ss_ReportState s; ss_cancelled := ss_cancelled s ++ [cancel] |}.
Definition with_status (r : SessionRunState) (status : string) : SessionRunState :=
  {| sr_RunID := sr_RunID r; sr_Status := status; sr_Cancel := sr_Cancel r; sr_StartedAt := sr_StartedAt r |}.
Definition with_cancel (r : SessionRunState) (cancel : option nat) : SessionRunState :=
  {| sr_RunID := sr_RunID r; sr_Status := sr_Status r; sr_Cancel := cancel; sr_StartedAt := sr_StartedAt r |}.

Definition Touch (s : Session) (now : time) : Session := set_run s (ss_ActiveRun s) now.

(** * The run *)

Inductive StartError := EDetached | EBusy.

Definition StartRun (s : Session) (runID : string) (cancel : nat) (now : time) : Session * res StartError string :=
  if ss_detached s then (s, Err EDetached)
  else match ss_ActiveRun s with
  | Some _ => (s, Err EBusy)
  | None =>
      (set_run s (Some {| sr_RunID := runID; sr_Status := "running"; sr_Cancel := Some cancel; sr_StartedAt := now |}) now,
       Ok runID)
  end.

(** The status given to a finished run is not read again: the run is dropped. *)
Definition FinishRun (s : Session) (runID : string) (now : time) : Session * bool :=
  match ss_ActiveRun s with
  | Some r =>
      if sr_RunID r =? runID then (set_edit (set_run s None now) ResetEditState, true) else (s, false)
  | None => (s, false)
  end.

Definition SuspendRun (s : Session) (runID : string) (now : time) : Session * bool :=
  match ss_ActiveRun s with
  | Some r =>
      if sr_RunID r =? runID then (set_run s (Some (with_status r "waiting_user_input")) now, true) else (s, false)
  | None => (s, false)
  end.

Definition ResumeRun (s : Session) (runID : string) (now : time) : Session :=
  match ss_ActiveRun s with
  | Some r => if sr_RunID r =? runID then set_run s (Some (with_status r "running")) now else Touch s now
  | None => Touch s now
  end.

Definition UpdateCancelFunc (s : Session) (runID : string) (cancel : nat) : Session * bool :=
  match ss_ActiveRun s with
  | Some r =>
      if sr_RunID r =? runID then (set_run s (Some (with_cancel r (Some cancel))) (ss_LastSeenAt s), true) else (s, false)
  | None => (s, false)
  end.

Definition GetWaitingRunID (s : Session) : option string :=
  match ss_ActiveRun s with
  | Some r => if sr_Status r =? "waiting_user_input" then Some (sr_RunID r) else None
  | None => None
  end.

(** The run taken, or [""]. *)
Definition ConsumeWaitingRunExact (s : Session) (expectedRunID : string) (now : time) : Session * string :=
  match ss_ActiveRun s with
  | Some r =>
      if negb (sr_Status r =? "waiting_user_input") then (s, "")
      else if negb (expectedRunID =? "") && negb (sr_RunID r =? expectedRunID) then (s, "")
      else (set_run s (Some (with_status r "running")) now, sr_RunID r)
  | None => (s, "")
  end.
Definition ConsumeWaitingRun (s : Session) (now : time) : Session * string := ConsumeWaitingRunExact s "" now.

Definition ReturnRunToWaiting (s : Session) (runID : string) (now : time) : Session * bool :=
  match ss_ActiveRun s with
  | Some r =>
      if negb (sr_RunID r =? runID) || negb (sr_Status r =? "running") then (s, false)
      else (set_run s (Some (with_status r "waiting_user_input")) now, true)
  | None => (s, false)
  end.

Definition RestoreWaitingRun (s : Session) (runID : string) (now : time) : Session * bool :=
  if (runID =? "") || not_exact runID then (s, false)
  else match ss_ActiveRun s with
  | Some _ => (s, false)
  | None =>
      (set_run s (Some {| sr_RunID := runID; sr_Status := "waiting_user_input"; sr_Cancel := None; sr_StartedAt := now |}) now,
       true)
  end.

Definition CancelRun (s : Session) (runID : string) (now : time) : Session * bool :=
  match ss_ActiveRun s with
  | None => (s, false)
  | Some r =>
      if negb (runID =? "") && negb (sr_RunID r =? runID) then (s, false)
      else match sr_Cancel r with
      | Some cancel => (call_cancel (set_run s (Some (with_status r "cancelling")) now) cancel, true)
      | None => (Touch s now, true)
      end
  end.

(** [WaitUntilIdle] polls until the deadline: it succeeds when one of the states it
    observes is idle.  The observations are an argument. *)
Definition idle (s : Session) : bool := match ss_ActiveRun s with None => true | Some _ => false end.
Definition WaitUntilIdle (observed : list Session) : bool := existsb idle observed.

(** * The edit scope *)

Definition edit_of_context (edit : ReportEditContext) : ReportEditState :=
  {| es_ScopeKindValue := ec_ScopeKind edit; es_TargetRunID := ec_TargetRunID edit; es_TargetBlockID := ec_BlockID edit;
     es_TargetBlockLabel := ec_BlockLabel edit; es_TargetChartID := ec_ChartID edit;
     es_SelectionText := ec_SelectionText edit; es_SelectionStart := ec_SelectionStart edit;
     es_SelectionEnd := ec_SelectionEnd edit; es_SelectionRangeSet := ec_SelectionRangeSet edit;
     es_AllowedChartIDs := ∅; es_TargetBlockContent := ""; es_TargetBlockKind := ""; es_TargetBlockTitle := "";
     es_TargetBlockChartID := ""; es_TargetBlockSources := [] |}.
(** The facts about the target are recomputed by the refresh, so the stale ones it
    replaces do not matter. *)
Definition ConfigureEditState (s : Session) (edit : option ReportEditContext) : Session :=
  match edit with
  | None => set_edit s ResetEditState
  | Some edit => set_edit s (RefreshFromReportState (edit_of_context edit) (ss_ReportState s))
  end.
Definition ClearEditState (s : Session) : Session := ConfigureEditState s None.

Definition context_of_edit (e : ReportEditState) : ReportEditContext :=
  {| ec_ScopeKind := es_ScopeKindValue e; ec_TargetRunID := es_TargetRunID e; ec_BlockID := es_TargetBlockID e;
     ec_BlockLabel := es_TargetBlockLabel e; ec_ChartID := es_TargetChartID e; ec_SelectionText := es_SelectionText e;
     ec_SelectionStart := es_SelectionStart e; ec_SelectionEnd := es_SelectionEnd e;
     ec_SelectionRangeSet := es_SelectionRangeSet e |}.
Definition CurrentEditContext (s : Session) : option ReportEditContext :=
  if negb (Active (ss_EditState s)) then None else Some (context_of_edit (ss_EditState s)).
Record EditStateUpdatedData := {
  eu_Active : bool;
  eu_ScopeKind : string;
  eu_EditContext : option ReportEditContext;
}.
Definition CurrentEditStateData (s : Session) : EditStateUpdatedData :=
  if negb (Active (ss_EditState s)) then {| eu_Active := false; eu_ScopeKind := ""; eu_EditContext := None |}
  else {| eu_Active := true; eu_ScopeKind := ScopeKind (ss_EditState s);
          eu_EditContext := Some (context_of_edit (ss_EditState s)) |}.

(** * What a turn starts from *)

Definition LoadReportSnapshot (s : Session) (snapshot : option ReportSnapshot) : Session * res SnapshotError unit :=
  match snapshot with
  | None => (s, Ok tt)
  | Some snapshot =>
      match load_report (ss_ReportState s) snapshot with
      | Err e => (s, Err e)
      | Ok report => (set_edit (set_report s report) (RefreshFromReportState (ss_EditState s) report), Ok tt)
      end
  end.

Inductive PrepareError :=
| EPrepareMessage (e : MessageError)
| EPrepareLoad (e : string)
| EPrepareSnapshot (e : SnapshotError).

Definition target_run (m : UserMessage) : string :=
  let from_turn := match um_TurnContext m with Some t => tx_ReportTargetRunID t | None => "" end in
  match um_EditContext m with
  | Some c => if ec_TargetRunID c =? "" then from_turn else ec_TargetRunID c
  | None => from_turn
  end.

(** [loader] reads the persisted snapshot of a run; an absent one is not an error. *)
Definition PrepareUserRun (s : Session) (m : UserMessage) (loader : string -> res string (option ReportSnapshot)) :
    Session * res PrepareError unit :=
  match ValidateMessage m with
  | Err e => (s, Err (EPrepareMessage e))
  | Ok _ =>
      match (if target_run m =? "" then Ok None else loader (target_run m)) with
      | Err e => (s, Err (EPrepareLoad e))
      | Ok snapshot =>
          match LoadReportSnapshot s snapshot with
          | (s, Err e) => (s, Err (EPrepareSnapshot e))
          | (s, Ok _) => (ConfigureEditState s (um_EditContext m), Ok tt)
          end
      end
  end.

(** * What a turn tells the model *)

Definition maxSelectionTextRunes : nat := 4000.
Definition clipSelectionText (text : string) : string :=
  let rs := runes text in
  if (length rs <=? maxSelectionTextRunes)%nat then text
  else (string_of_runes (take maxSelectionTextRunes rs) ++ "…(truncated, " ++ itoa (Z.of_nat (length rs)) ++ " chars total)")%string.

Definition newline : string := String (ascii_of_nat 10) "".
Definition fact_line (label value : string) : string := if value =? "" then "" else (label ++ ": " ++ value ++ newline)%string.
Definition edit_scope_facts_text (e : ReportEditState) : string :=
  ("ScopeKind: " ++ ScopeKind e ++ newline
   ++ fact_line "TargetBlockID" (es_TargetBlockID e)
   ++ fact_line "TargetBlockLabel" (es_TargetBlockLabel e)
   ++ fact_line "TargetChartID" (es_TargetChartID e)
   ++ (if es_SelectionText e =? "" then ""
       else "SelectionText: " ++ clipSelectionText (es_SelectionText e) ++ newline
            ++ (if es_SelectionRangeSet e && (es_SelectionStart e <? es_SelectionEnd e)%Z
                then "SelectionRange: " ++ itoa (es_SelectionStart e) ++ "-" ++ itoa (es_SelectionEnd e) ++ newline else ""))
   ++ (if ScopeKind e =? "partial_selection"
       then "MutationContract: only the target block content may change; content outside the selected range, block title, block kind, chart_id, and sources remain protected." ++ newline
       else ""))%string.
Definition RuntimeVars (s : Session) : list RuntimeContextBlock :=
  if Active (ss_EditState s)
  then [text_block "active_edit_scope" "user" (TrimSpace (edit_scope_facts_text (ss_EditState s)))] else [].

(** * Properties *)

(** The operations of a session change only these parts of it. *)
Definition same_identity (s s' : Session) : Prop :=
  ss_ID s' = ss_ID s /\ ss_WorkspaceID s' = ss_WorkspaceID s /\ ss_UserID s' = ss_UserID s /\ ss_detached s' = ss_detached s.

(** preparing a user turn is atomic.  A refused message, an unreadable target
    report or a report that does not load leaves the session exactly as it was;
    otherwise the session holds the persisted report (or keeps its own when the
    message targets none), its scope is the one of the message refreshed against
    that report, and neither its identity nor its run has changed. *)
Theorem PrepareUserRun_effect s m loader s' r :
  PrepareUserRun s m loader = (s', r) ->
  match r with
  | Err _ => s' = s
  | Ok _ =>
      ValidateMessage m = Ok tt
      /\ exists snapshot,
           (if target_run m =? "" then Ok None else loader (target_run m)) = Ok snapshot
           /\ match snapshot with
              | Some snapshot => load_report (ss_ReportState s) snapshot = Ok (ss_ReportState s')
              | None => ss_ReportState s' = ss_ReportState s
              end
           /\ ss_EditState s' = match um_EditContext m with
                                | Some edit => RefreshFromReportState (edit_of_context edit) (ss_ReportState s')
                                | None => ResetEditState
                                end
           /\ same_identity s s' /\ ss_ActiveRun s' = ss_ActiveRun s /\ ss_cancelled s' = ss_cancelled s
  end.
Proof.
  unfold PrepareUserRun. destruct (ValidateMessage m) as [[]|e]; [|by intros [= <- <-]].
  destruct (if target_run m =? "" then _ else _) as [snapshot|e]; [|by intros [= <- <-]].
  unfold LoadReportSnapshot. destruct snapshot as [snapshot|].
  - destruct (load_report (ss_ReportState s) snapshot) as [report|e] eqn:Hload; [|by intros [= <- <-]].
    destruct (um_EditContext m) as [edit|]; intros [= <- <-]; (split; [done|]); exists (Some snapshot); by split_and!.
  - destruct (um_EditContext m) as [edit|]; intros [= <- <-]; (split; [done|]); exists None; by split_and!.
Qed.

Lemma PrepareUserRun_effect_witness :
  let s := NewSession "s_1" "w_1" "u_1" 5 in
  let m := {| um_Content := "go on"; um_EditContext := None;
              um_TurnContext := Some {| tx_ReportTargetRunID := "r_1"; tx_ReportTitle := "" |} |} in
  let loader run := if run =? "r_1" then Ok (Some (buildReportSnapshot cited_report 7)) else Err "missing" in
  exists s', PrepareUserRun s m loader = (s', Ok tt) /\ ValidateMessage m = Ok tt
             /\ ss_ReportState s' = with_version cited_report 0.
Proof.
  intros s m loader. destruct (PrepareUserRun s m loader) as [s' r] eqn:Heq.
  pose proof (PrepareUserRun_effect s m loader s' r Heq) as H.
  assert (r = Ok tt) as -> by (change r with (s', r).2; rewrite <- Heq; vm_compute; reflexivity).
  destruct H as (Hm & snapshot & Hsn & Hrep & _). exists s'. split_and!; [done|done|].
  assert (snapshot = Some (buildReportSnapshot cited_report 7)) as -> by (vm_compute in Hsn |- *; congruence).
  assert (load_report (ss_ReportState s) (buildReportSnapshot cited_report 7) = Ok (with_version cited_report 0)) as Hl
    by (vm_compute; reflexivity).
  rewrite Hl in Hrep. by injection Hrep.
Defined.
