(* ===== verification/RunLifecycle.v ===== *)
(** Model of the life of the runs of one session: the HTTP handlers that start,
    answer and cancel a run (server/handler/chat.go), the goroutine that executes it
    (run_backend.go) and the hooks that turn its events into session state
    (runtime_hooks.go, runtime_events.go).

    A run is owned by whoever has to bring it to its end: the handler that started or
    took it, then the goroutine it hands it to.  The state is the session and its
    owners; a label is one critical section of one of them, so a trace is an
    interleaving of concurrent requests and executions.  What the code outside the
    session decides (persistence, dispatch, the events of the engine) is in the label. *)
From S2P Require Import Prelude GoStrings Json ReportState ReportSnapshot SessionRun.
From Stdlib Require Import Ascii.
Open Scope string_scope.
Open Scope list_scope.

(** * Event hooks *)

(** The events of a run, as far as the hooks tell them apart; a tool result says
    whether the tool previews the report (and whether the preview was stored) and
    whether it delivers it (and whether the delivery was stored). *)
Inductive RunEvent :=
| EvOther
| EvToolResult (preview : option bool) (delivery : option bool)
| EvUserRequestInput
| EvRunCompleted
| EvRunCancelled
| EvError.

(** The hooks run with the scope of the root run. *)
Definition finishTerminalRun (s : Session) (runID : string) (now : time) : Session * bool := FinishRun s runID now.
Definition rollbackFinalizeDraft (s : Session) : Session :=
  let st := ss_ReportState s in
  set_report s {| rp_Blocks := rp_Blocks st; rp_Charts := rp_Charts st; rp_FinalTitle := rp_FinalTitle st;
                  rp_FinalAuthor := rp_FinalAuthor st; rp_Layout := rp_Layout st; rp_NeedsFinalize := true;
                  rp_MutationVersion := rp_MutationVersion st; rp_Results := rp_Results st;
                  rp_Artifacts := rp_Artifacts st |}.
(** [handlePersistenceFailure], for the root run *)
Definition handlePersistenceFailure (s : Session) (runID : string) (now : time) : Session := (CancelRun s runID now).1.

Definition reportLifecycleHook (s : Session) (runID : string) (ev : RunEvent) (now : time) : Session :=
  match ev with
  | EvToolResult preview delivery =>
      let s := if bool_decide (preview = Some false) then handlePersistenceFailure s runID now else s in
      match delivery with
      | Some false => (finishTerminalRun (CancelRun (rollbackFinalizeDraft s) runID now).1 runID now).1
      | _ => s
      end
  | _ => s
  end.
Definition runLifecycleHook (s : Session) (runID : string) (ev : RunEvent) (now : time) : Session :=
  if blank runID then s
  else match ev with
  | EvUserRequestInput => (SuspendRun s runID now).1
  | EvRunCompleted | EvRunCancelled | EvError => (finishTerminalRun s runID now).1
  | EvOther | EvToolResult _ _ => s
  end.
(** [delivered]: the event was stored.  An event that was not is not hooked. *)
Definition Emit (s : Session) (runID : string) (ev : RunEvent) (delivered : bool) (now : time) : Session :=
  if delivered then runLifecycleHook (reportLifecycleHook s runID ev now) runID ev now
  else handlePersistenceFailure s runID now.
(** The engine returns right after these; on its way out it reports the usage of the
    run ([EvOther]). *)
Definition last_event (ev : RunEvent) : bool :=
  match ev with EvUserRequestInput | EvRunCompleted | EvRunCancelled | EvError => true | _ => false end.

(** * Handlers *)

Inductive Phase := PStart | PResume | PDispatched | PExecuting | PUnwinding.
Global Instance Phase_eq_dec : EqDecision Phase.
Proof. solve_decision. Defined.

(** [ChatHandler]: the run the message goes to. *)
Definition chat_begin (s : Session) (newID : string) (cancel : nat) (now : time) :
    Session * res StartError (string * Phase) :=
  let '(s, activeRunID) := ConsumeWaitingRun s now in
  if negb (activeRunID =? "") then (s, Ok (activeRunID, PResume))
  else match StartRun s newID cancel now with
  | (s, Ok runID) => (s, Ok (runID, PStart))
  | (s, Err e) => (s, Err e)
  end.

(** What follows in [ChatHandler] up to the background goroutine: the request context
    is applied, then the run, its first event and the session's pointer are stored.
    The result says whether the goroutine is started. *)
Inductive StartPersist := StoreCreateFailed | StoreEventFailed | StoreLastRunFailed | StoreOk.
Definition start_outcome (s : Session) (runID : string) (m : UserMessage)
    (loader : string -> res string (option ReportSnapshot)) (stored : StartPersist) (now : time) : Session * bool :=
  match PrepareUserRun s m loader with
  | (s, Err _) => ((FinishRun s runID now).1, false)
  | (s, Ok _) =>
      match stored with
      | StoreCreateFailed | StoreEventFailed | StoreLastRunFailed => ((CancelRun s runID now).1, false)
      | StoreOk => (s, true)
      end
  end.

(** [SubmitUserInputHandler]: 409 unless this very run waits. *)
Definition submit_begin (s : Session) (runID : string) (now : time) : Session * option (string * Phase) :=
  match GetWaitingRunID s with
  | Some waiting =>
      if negb (waiting =? runID) then (s, None)
      else match ConsumeWaitingRunExact s runID now with
      | (s, taken) => if taken =? "" then (s, None) else (s, Some (runID, PResume))
      end
  | None => (s, None)
  end.

(** The request context, then [resumeWaitingRun]: the answer and the state of the run
    are stored and the engine takes the answer ([resumed]); any failure returns the
    run to its waiting state. *)
Definition resume_outcome (s : Session) (runID : string) (m : UserMessage)
    (loader : string -> res string (option ReportSnapshot)) (resumed : bool) (now : time) : Session * bool :=
  match PrepareUserRun s m loader with
  | (s, Err _) => ((ReturnRunToWaiting s runID now).1, false)
  | (s, Ok _) => if resumed then (s, true) else ((ReturnRunToWaiting s runID now).1, false)
  end.

(** The background goroutine: its cancel function replaces the run's, and
    [dispatchRunExecution] starts the engine or [failRunStart] ends the run. *)
Definition failRunStart (s : Session) (runID : string) (now : time) : Session := (FinishRun s runID now).1.
Definition dispatch (s : Session) (runID : string) (cancel : nat) (started : bool) (now : time) : Session * bool :=
  let s := (UpdateCancelFunc s runID cancel).1 in
  if started then (s, true) else (failRunStart s runID now, false).

(** [CancelRunHandler], once the run is found and authorized: true is the reply
    "cancelled", false 409. *)
Definition cancel_handler (s : Session) (runID : string) (now : time) : Session * bool := CancelRun s runID now.

(** * Steps *)

Record Life := { lf_session : Session; lf_owners : list (string * Phase) }.

Inductive label :=
| LChat (newID : string) (cancel : nat) (now : time)
| LSubmit (runID : string) (now : time)
| LStart (i : nat) (m : UserMessage) (loader : string -> res string (option ReportSnapshot)) (stored : StartPersist) (now : time)
| LResume (i : nat) (m : UserMessage) (loader : string -> res string (option ReportSnapshot)) (resumed : bool) (now : time)
| LDispatch (i : nat) (cancel : nat) (started : bool) (now : time)
| LEvent (i : nat) (ev : RunEvent) (delivered : bool) (now : time)
| LUsage (i : nat) (delivered : bool) (now : time)
| LExit (i : nat)
| LCancel (runID : string) (now : time)
| LTouch (now : time).

Definition life (s : Session) (owners : list (string * Phase)) : Life := {| lf_session := s; lf_owners := owners |}.
(** The owner at [i] in phase [p] makes its step; it goes on in phase [next] or, with
    [None], is done. *)
Definition owner_step (l : Life) (i : nat) (p : Phase) (f : string -> Session * option Phase) : option Life :=
  match lf_owners l !! i with
  | Some (runID, q) =>
      if decide (q = p) then
        let '(s, next) := f runID in
        Some (life s (match next with
                      | Some n => <[i := (runID, n)]> (lf_owners l)
                      | None => remove_at i (lf_owners l)
                      end))
      else None
  | None => None
  end.
(** [None]: the label is not possible in the state.  New identifiers are random and
    long, so the identifier of a new run is not the one of a run in progress. *)
Definition step (l : Life) (lab : label) : option Life :=
  let s := lf_session l in
  match lab with
  | LChat newID cancel now =>
      if blank newID || bool_decide (newID ∈ map fst (lf_owners l)) then None
      else match chat_begin s newID cancel now with
      | (s, Ok owner) => Some (life s (lf_owners l ++ [owner]))
      | (s, Err _) => Some (life s (lf_owners l))
      end
  | LSubmit runID now =>
      match submit_begin s runID now with
      | (s, Some owner) => Some (life s (lf_owners l ++ [owner]))
      | (s, None) => Some (life s (lf_owners l))
      end
  | LStart i m loader stored now =>
      owner_step l i PStart (fun runID =>
        match start_outcome s runID m loader stored now with (s, true) => (s, Some PDispatched) | (s, false) => (s, None) end)
  | LResume i m loader resumed now =>
      owner_step l i PResume (fun runID =>
        match resume_outcome s runID m loader resumed now with (s, true) => (s, Some PDispatched) | (s, false) => (s, None) end)
  | LDispatch i cancel started now =>
      owner_step l i PDispatched (fun runID =>
        match dispatch s runID cancel started now with (s, true) => (s, Some PExecuting) | (s, false) => (s, None) end)
  | LEvent i ev delivered now =>
      owner_step l i PExecuting (fun runID =>
        (Emit s runID ev delivered now, Some (if last_event ev then PUnwinding else PExecuting)))
  | LUsage i delivered now =>
      owner_step l i PUnwinding (fun runID => (Emit s runID EvOther delivered now, Some PUnwinding))
  | LExit i => owner_step l i PUnwinding (fun _ => (s, None))
  | LCancel runID now => Some (life (cancel_handler s runID now).1 (lf_owners l))
  | LTouch now => Some (life (Touch s now) (lf_owners l))
  end.
Fixpoint steps (l : Life) (labs : list label) : option Life :=
  match labs with
  | [] => Some l
  | lab :: rest => let! l' := step l lab in steps l' rest
  end.

(** * Specification *)

(** The owners that have not come to the end of their run. *)
Definition active (l : Life) : list (string * Phase) := filter (fun o => o.2 <> PUnwinding) (lf_owners l).
Definition executing (l : Life) : list (string * Phase) := filter (fun o => o.2 = PExecuting) (lf_owners l).

(** Every run in progress that does not wait for the user has exactly one owner. *)
Definition run_owned (run : option SessionRunState) (act : list (string * Phase)) : Prop :=
  match run with
  | None => act = []
  | Some r =>
      blank (sr_RunID r) = false
      /\ (sr_Status r = "waiting_user_input" /\ act = []
          \/ (sr_Status r = "running" \/ sr_Status r = "cancelling") /\ exists p, act = [(sr_RunID r, p)])
  end.
Definition owned (l : Life) : Prop := run_owned (ss_ActiveRun (lf_session l)) (active l).

(** What has to go well: the start of a run is stored, the last event of a run and its
    usage are stored, a delivered report is stored, nobody cancels a waiting run, and no
    answer fails after its run was cancelled. *)
Definition run_status (s : Session) : string :=
  match ss_ActiveRun s with Some r => sr_Status r | None => "" end.
Definition healthy (l : Life) (lab : label) : bool :=
  let s := lf_session l in
  match lab with
  | LCancel _ _ => negb (run_status s =? "waiting_user_input")
  | LStart _ _ _ stored _ => match stored with StoreOk => true | _ => false end
  | LResume i m loader resumed now =>
      match lf_owners l !! i with
      | Some (runID, _) => (resume_outcome s runID m loader resumed now).2 || (run_status s =? "running")
      | None => true
      end
  | LUsage _ delivered _ => delivered
  | LEvent _ ev delivered _ =>
      (delivered || negb (last_event ev)) && match ev with EvToolResult _ (Some false) => false | _ => true end
  | _ => true
  end.
Fixpoint healthy_steps (l : Life) (labs : list label) : option Life :=
  match labs with
  | [] => Some l
  | lab :: rest => if healthy l lab then let! l' := step l lab in healthy_steps l' rest else None
  end.

(** A run in progress that nobody will bring to an end: it does not wait for the user
    and no handler or goroutine owns it. *)
Definition stuck (runID : string) (s : Session) : Prop :=
  exists r, ss_ActiveRun s = Some r /\ sr_RunID r = runID /\ sr_Status r <> "waiting_user_input".
Definition wedged (runID : string) (l : Life) : Prop :=
  stuck runID (lf_session l) /\ forall o, o ∈ lf_owners l -> o.2 <> PUnwinding -> o.1 <> runID.

(** * Lemmas: owners *)

Lemma filter_middle {A} (P : A -> Prop) `{!forall x, Decision (P x)} (l1 l2 : list A) x y :
  P x -> filter P (l1 ++ x :: l2) = [x] ->
  filter P (l1 ++ y :: l2) = (if decide (P y) then [y] else []) /\ filter P (l1 ++ l2) = [].
Proof.
  intros HP. rewrite !filter_app, !filter_cons. rewrite decide_True by done.
  destruct (filter P l1) as [|a l1']; simpl.
  - intros [= ->]. by destruct (decide (P y)).
  - intros [= _ Hnil]. by destruct l1'.
Qed.

Lemma active_member l i runID p :
  lf_owners l !! i = Some (runID, p) -> p <> PUnwinding -> (runID, p) ∈ active l.
Proof. intros Hi Hp. apply list_elem_of_filter. split; [done|]. by eapply list_elem_of_lookup_2. Qed.

Lemma active_replace s l i runID p n :
  lf_owners l !! i = Some (runID, p) -> p <> PUnwinding -> active l = [(runID, p)] ->
  active (life s (<[i := (runID, n)]> (lf_owners l))) = (if decide (n = PUnwinding) then [] else [(runID, n)])
  /\ active (life s (remove_at i (lf_owners l))) = [].
Proof.
  intros Hi Hp Hact. destruct (remove_at_split _ _ _ Hi) as (l1 & l2 & Hl & Hlen & Hrem).
  unfold active in *. cbn [life lf_owners]. rewrite Hrem. rewrite Hl in Hact |- *.
  destruct (filter_middle (fun o : string * Phase => o.2 <> PUnwinding) l1 l2 (runID, p) (runID, n) Hp Hact) as [Hins Hdel].
  split; [|done]. rewrite <- Hlen, insert_app_r_alt, Nat.sub_diag by lia. simpl. rewrite Hins.
  destruct (decide (n = PUnwinding)), (decide ((runID, n).2 <> PUnwinding)); simpl in *; tauto || congruence.
Qed.

Lemma active_exit s l i runID :
  lf_owners l !! i = Some (runID, PUnwinding) -> active (life s (remove_at i (lf_owners l))) = active l.
Proof.
  intros (l1 & l2 & Hl & _ & Hrem)%remove_at_split. unfold active. cbn [life lf_owners]. rewrite Hrem, Hl.
  rewrite !filter_app. f_equal.
Qed.

Lemma active_unwinding s l i runID :
  lf_owners l !! i = Some (runID, PUnwinding) -> active (life s (<[i := (runID, PUnwinding)]> (lf_owners l))) = active l.
Proof. intros Hi. unfold active. cbn [life lf_owners]. by rewrite list_insert_id. Qed.

Lemma active_new s l o : o.2 <> PUnwinding -> active (life s (lf_owners l ++ [o])) = active l ++ [o].
Proof. intros Ho. unfold active. cbn. by rewrite filter_app, filter_cons_True. Qed.

(** An active owner of an owned state is the only one, and the run is its. *)
Lemma owned_owner l i runID p :
  owned l -> lf_owners l !! i = Some (runID, p) -> p <> PUnwinding ->
  exists r, ss_ActiveRun (lf_session l) = Some r /\ sr_RunID r = runID /\ blank runID = false
            /\ (sr_Status r = "running" \/ sr_Status r = "cancelling") /\ active l = [(runID, p)].
Proof.
  intros Hown Hi Hp. pose proof (active_member l i runID p Hi Hp) as Hin. unfold owned, run_owned in Hown.
  destruct (ss_ActiveRun (lf_session l)) as [r|]; [|by rewrite Hown in Hin; apply not_elem_of_nil in Hin].
  destruct Hown as (Hb & [[_ Hact] | (Hst & q & Hact)]); rewrite Hact in Hin; [by apply not_elem_of_nil in Hin|].
  apply list_elem_of_singleton in Hin. injection Hin as -> ->. by exists r.
Qed.

(** * Lemmas: the run of the session *)

Lemma prepared_run s m loader s' r : PrepareUserRun s m loader = (s', r) -> ss_ActiveRun s' = ss_ActiveRun s.
Proof.
  unfold PrepareUserRun, LoadReportSnapshot, ConfigureEditState. intros H. repeat break_match_in H; simplify_eq; done.
Qed.

Lemma blank_ne s : blank s = false -> s <> "".
Proof. by intros H ->. Qed.

Section own_run.
Context (s : Session) (r : SessionRunState) (Hrun : ss_ActiveRun s = Some r).

Lemma finish_own now : ss_ActiveRun (FinishRun s (sr_RunID r) now).1 = None.
Proof. unfold FinishRun. by rewrite Hrun, String.eqb_refl. Qed.
Lemma suspend_own now : ss_ActiveRun (SuspendRun s (sr_RunID r) now).1 = Some (with_status r "waiting_user_input").
Proof. unfold SuspendRun. by rewrite Hrun, String.eqb_refl. Qed.
Lemma update_own c : ss_ActiveRun (UpdateCancelFunc s (sr_RunID r) c).1 = Some (with_cancel r (Some c)).
Proof. unfold UpdateCancelFunc. by rewrite Hrun, String.eqb_refl. Qed.
Lemma return_own now :
  sr_Status r = "running" -> ss_ActiveRun (ReturnRunToWaiting s (sr_RunID r) now).1 = Some (with_status r "waiting_user_input").
Proof. intros Hst. unfold ReturnRunToWaiting. rewrite Hrun, String.eqb_refl, Hst. done. Qed.
Lemma cancel_any id now :
  ss_ActiveRun (CancelRun s id now).1 = Some r \/ ss_ActiveRun (CancelRun s id now).1 = Some (with_status r "cancelling").
Proof. unfold CancelRun. rewrite Hrun. destruct (_ && _); [by left|]. destruct (sr_Cancel r); [by right|by left]. Qed.
End own_run.

(** A cancel keeps the run of its owner, in one of the two owned statuses. *)
Lemma run_owned_cancel s id now act :
  run_status s <> "waiting_user_input" ->
  run_owned (ss_ActiveRun s) act -> run_owned (ss_ActiveRun (CancelRun s id now).1) act.
Proof.
  unfold run_status. intros Hst Hown. destruct (ss_ActiveRun s) as [r|] eqn:Hrun.
  - destruct (cancel_any s r Hrun id now) as [-> | ->]; [done|]. destruct Hown as (Hb & [[? _]|(_ & p & Hact)]); [done|].
    split; [done|]. right. split; [by right|]. by exists p.
  - unfold CancelRun. rewrite Hrun. simpl. by rewrite Hrun.
Qed.

Lemma report_hook_owned s runID ev now act :
  match ev with EvToolResult _ (Some false) => false | _ => true end = true ->
  run_status s <> "waiting_user_input" ->
  run_owned (ss_ActiveRun s) act -> run_owned (ss_ActiveRun (reportLifecycleHook s runID ev now)) act.
Proof.
  intros Hev Hst Hown. unfold reportLifecycleHook, handlePersistenceFailure.
  destruct ev as [|preview delivery| | | |]; try done.
  destruct (bool_decide (preview = Some false)), delivery as [[]|]; try done; by apply run_owned_cancel.
Qed.

(** * Lemmas: each step keeps the ownership *)

(** An owner's step that leaves the run as [run] and goes on in phase [next]. *)
Lemma owner_step_owned l i p f l' :
  owner_step l i p f = Some l' -> p <> PUnwinding -> owned l ->
  (forall runID, blank runID = false -> lf_owners l !! i = Some (runID, p) ->
     run_owned (ss_ActiveRun (lf_session l)) [(runID, p)] ->
     run_owned (ss_ActiveRun (f runID).1)
       (match (f runID).2 with
        | None => []
        | Some n => if decide (n = PUnwinding) then [] else [(runID, n)]
        end)) ->
  owned l'.
Proof.
  unfold owner_step. intros Hstep Hp Hown Hf. destruct (lf_owners l !! i) as [[runID q]|] eqn:Hi; [|done].
  destruct (decide (q = p)) as [->|]; [|done].
  destruct (owned_owner l i runID p Hown Hi Hp) as (r & Hrun & Hid & Hb & Hst & Hact).
  specialize (Hf runID Hb eq_refl). destruct (f runID) as [s next]. injection Hstep as <-. cbn [fst snd] in Hf.
  unfold owned in Hown. rewrite Hact in Hown. specialize (Hf Hown). unfold owned. cbn [life lf_session].
  destruct next as [n|].
  - destruct (active_replace s l i runID p n Hi Hp Hact) as [Hnew _]. by rewrite Hnew.
  - destruct (active_replace s l i runID p PUnwinding Hi Hp Hact) as [_ Hnew]. by rewrite Hnew.
Qed.

(** The run of an owner: it is in progress and belongs to it. *)
Lemma run_owned_owner run runID p :
  run_owned run [(runID, p)] ->
  exists r, run = Some r /\ sr_RunID r = runID /\ blank runID = false /\ (sr_Status r = "running" \/ sr_Status r = "cancelling").
Proof.
  unfold run_owned. destruct run as [r|]; [|done]. intros (Hb & [[_ ?]|(Hst & q & [= -> ->])]); [done|]. by exists r.
Qed.
Lemma run_owned_next runID p q run : run_owned run [(runID, p)] -> run_owned run [(runID, q)].
Proof. intros (r & -> & <- & Hb & Hst)%run_owned_owner. split; [done|]. right. split; [done|]. by exists q. Qed.
Lemma owned_status runID p s : run_owned (ss_ActiveRun s) [(runID, p)] -> run_status s <> "waiting_user_input".
Proof. intros (r & Hrun & _ & _ & Hst)%run_owned_owner. unfold run_status. rewrite Hrun. by destruct Hst as [-> | ->]. Qed.

Lemma finish_owned s runID p now : run_owned (ss_ActiveRun s) [(runID, p)] -> run_owned (ss_ActiveRun (FinishRun s runID now).1) [].
Proof. intros (r & Hrun & <- & _)%run_owned_owner. by rewrite (finish_own s r Hrun). Qed.
Lemma suspend_owned s runID p now : run_owned (ss_ActiveRun s) [(runID, p)] -> run_owned (ss_ActiveRun (SuspendRun s runID now).1) [].
Proof. intros (r & Hrun & <- & Hb & _)%run_owned_owner. rewrite (suspend_own s r Hrun). split; [done|]. by left. Qed.

Lemma chat_owned l newID c now l' : step l (LChat newID c now) = Some l' -> owned l -> owned l'.
Proof.
  cbn [step]. destruct (blank newID) eqn:Hnew; [done|]. destruct (bool_decide _); [done|]. cbn [orb].
  unfold chat_begin, ConsumeWaitingRun, ConsumeWaitingRunExact, owned, StartRun. intros Hstep Hown.
  destruct (ss_ActiveRun (lf_session l)) as [r|] eqn:Hrun.
  - destruct Hown as (Hb & Hown). destruct (sr_Status r =? "waiting_user_input") eqn:Hst; cbn [negb andb] in Hstep.
    + destruct Hown as [[_ Hact]|([Hr|Hr] & _)]; [|by rewrite Hr in Hst..].
      change ("" =? "") with true in Hstep. cbn [negb andb] in Hstep.
      assert (sr_RunID r =? "" = false) as Hne by (apply String.eqb_neq; by apply blank_ne).
      rewrite Hne in Hstep. cbn [negb] in Hstep. injection Hstep as <-.
      rewrite active_new, Hact by done. split; [done|]. right. split; [by left|]. by exists PResume.
    + change ("" =? "") with true in Hstep. cbn [negb] in Hstep.
      destruct (ss_detached (lf_session l)); [|rewrite Hrun in Hstep]; injection Hstep as <-; cbn [life lf_session lf_owners];
        rewrite Hrun; by split.
  - change ("" =? "") with true in Hstep. cbn [negb] in Hstep. rewrite Hrun in Hstep.
    destruct (ss_detached (lf_session l)); injection Hstep as <-; cbn [life lf_session lf_owners]; [by rewrite Hrun|].
    rewrite active_new, Hown by done. split; [done|]. right. split; [by left|]. by exists PStart.
Qed.

Lemma submit_owned l runID now l' : step l (LSubmit runID now) = Some l' -> owned l -> owned l'.
Proof.
  cbn [step]. unfold submit_begin, GetWaitingRunID, ConsumeWaitingRunExact, owned. intros Hstep Hown.
  destruct (ss_ActiveRun (lf_session l)) as [r|] eqn:Hrun; [|injection Hstep as <-; cbn; by rewrite Hrun].
  destruct (sr_Status r =? "waiting_user_input") eqn:Hst; [|injection Hstep as <-; cbn [life lf_session]; by rewrite Hrun].
  destruct (sr_RunID r =? runID) eqn:Hid; cbn [negb] in Hstep; [|injection Hstep as <-; cbn [life lf_session]; by rewrite Hrun].
  reflect_bools. rewrite andb_false_r in Hstep. destruct Hown as (Hb & Hown).
  assert (sr_RunID r =? "" = false) as Hne by (apply String.eqb_neq; by apply blank_ne).
  rewrite Hne in Hstep. injection Hstep as <-. rewrite active_new by done. cbn [life lf_session set_run ss_ActiveRun].
  destruct Hown as [[_ Hact]|([Hr|Hr] & _)]; [|congruence..].
  rewrite Hact. split; [done|]. right. split; [by left|]. exists PResume. simpl. by rewrite Hid.
Qed.

Lemma start_owned l i m loader stored now l' :
  step l (LStart i m loader stored now) = Some l' -> healthy l (LStart i m loader stored now) = true -> owned l -> owned l'.
Proof.
  cbn [step healthy]. intros Hstep Hst Hown. eapply owner_step_owned; [exact Hstep|done|done|].
  intros runID _ _ Hrun. unfold start_outcome. destruct (PrepareUserRun _ m loader) as [s [[]|e]] eqn:Hprep;
    rewrite <- (prepared_run _ _ _ _ _ Hprep) in Hrun.
  - destruct stored; try done. by eapply run_owned_next.
  - by eapply finish_owned.
Qed.

Lemma resume_owned l i m loader resumed now l' :
  step l (LResume i m loader resumed now) = Some l' -> healthy l (LResume i m loader resumed now) = true -> owned l -> owned l'.
Proof.
  cbn [step healthy]. intros Hstep Hst Hown. eapply owner_step_owned; [exact Hstep|done|done|].
  intros runID Hb Hi Hrun. rewrite Hi in Hst. unfold resume_outcome in *.
  destruct (PrepareUserRun _ m loader) as [s [[]|e]] eqn:Hprep; pose proof (prepared_run _ _ _ _ _ Hprep) as Hsame;
    [destruct resumed|]; cbn [fst snd orb] in *.
  - rewrite Hsame. by eapply run_owned_next.
  - reflect_bools. pose proof (run_owned_owner _ _ _ Hrun) as (r & Hr & <- & _ & _).
    unfold run_status in Hst. rewrite Hr in Hst. rewrite Hr in Hsame.
    rewrite (return_own s r Hsame now Hst). split; [done|]. by left.
  - reflect_bools. pose proof (run_owned_owner _ _ _ Hrun) as (r & Hr & <- & _ & _).
    unfold run_status in Hst. rewrite Hr in Hst. rewrite Hr in Hsame.
    rewrite (return_own s r Hsame now Hst). split; [done|]. by left.
Qed.

Lemma dispatch_owned l i c started now l' : step l (LDispatch i c started now) = Some l' -> owned l -> owned l'.
Proof.
  cbn [step]. intros Hstep Hown. eapply owner_step_owned; [exact Hstep|done|done|]. intros runID Hb Hi Hrun. unfold dispatch.
  assert (run_owned (ss_ActiveRun (UpdateCancelFunc (lf_session l) runID c).1) [(runID, PDispatched)]) as Hupd.
  { apply run_owned_owner in Hrun as (r & Hr & <- & _ & Hst). rewrite (update_own _ r Hr).
    split; [done|]. right. split; [done|]. by exists PDispatched. }
  destruct started; [by eapply run_owned_next|]. by eapply finish_owned.
Qed.

Lemma event_owned l i ev delivered now l' :
  step l (LEvent i ev delivered now) = Some l' -> healthy l (LEvent i ev delivered now) = true -> owned l -> owned l'.
Proof.
  cbn [step healthy]. intros Hstep Hok Hown. eapply owner_step_owned; [exact Hstep|done|done|].
  intros runID Hb Hi Hrun. cbn [fst snd]. apply andb_true_iff in Hok as [Hdel Hev].
  pose proof (owned_status _ _ _ Hrun) as Hst. unfold Emit. destruct delivered.
  - unfold runLifecycleHook. rewrite Hb. pose proof (report_hook_owned _ runID ev now _ Hev Hst Hrun) as Hrep.
    destruct ev; cbn [last_event]; (done || (by eapply suspend_owned) || (by eapply finish_owned)).
  - destruct (last_event ev); [done|]. by apply run_owned_cancel.
Qed.

Lemma exit_owned l i l' : step l (LExit i) = Some l' -> owned l -> owned l'.
Proof.
  cbn [step]. unfold owner_step. destruct (lf_owners l !! i) as [[runID q]|] eqn:Hi; [|done].
  destruct (decide (q = PUnwinding)) as [->|]; [|done]. intros [= <-] Hown. unfold owned. by rewrite (active_exit _ l i runID).
Qed.

Lemma usage_owned l i delivered now l' :
  step l (LUsage i delivered now) = Some l' -> healthy l (LUsage i delivered now) = true -> owned l -> owned l'.
Proof.
  cbn [step healthy]. unfold owner_step. destruct (lf_owners l !! i) as [[runID q]|] eqn:Hi; [|done].
  destruct (decide (q = PUnwinding)) as [->|]; [|done]. intros [= <-] -> Hown. unfold owned.
  rewrite (active_unwinding _ l i runID Hi). cbn [life lf_session]. unfold Emit, runLifecycleHook, reportLifecycleHook.
  by destruct (blank runID).
Qed.

Lemma step_owned l lab l' : step l lab = Some l' -> healthy l lab = true -> owned l -> owned l'.
Proof.
  destruct lab; intros Hstep Hok Hown.
  - by eapply chat_owned.
  - by eapply submit_owned.
  - by eapply start_owned.
  - by eapply resume_owned.
  - by eapply dispatch_owned.
  - by eapply event_owned.
  - by eapply usage_owned.
  - by eapply exit_owned.
  - cbn [step healthy] in *. injection Hstep as <-. apply negb_eqb_true in Hok. by apply run_owned_cancel.
  - cbn [step] in *. by injection Hstep as <-.
Qed.

Lemma healthy_steps_owned l labs l' : healthy_steps l labs = Some l' -> owned l -> owned l'.
Proof.
  revert l. induction labs as [|lab rest IH]; intros l; cbn [healthy_steps]; [by intros [= ->]|].
  destruct (healthy l lab) eqn:Hok; [|done]. destruct (step l lab) as [l1|] eqn:Hstep; [|done].
  intros Hrest Hown. apply (IH l1 Hrest). by eapply step_owned.
Qed.

Lemma executing_active l : length (executing l) <= length (active l).
Proof.
  unfold executing, active. induction (lf_owners l) as [|[id p] rest IH]; [done|]. rewrite !filter_cons.
  cbn [snd]. repeat case_decide; simpl; (lia || naive_solver).
Qed.

(** * Lemmas: a wedged run stays *)

Section stuck.
Context (runID : string).

Lemma stuck_same s s' : ss_ActiveRun s' = ss_ActiveRun s -> stuck runID s -> stuck runID s'.
Proof. intros Heq (r & Hr & ?). exists r. by rewrite Heq. Qed.

Lemma stuck_other s id : stuck runID s -> id <> runID ->
  forall r, ss_ActiveRun s = Some r -> sr_RunID r =? id = false.
Proof. intros (r' & Hr' & Hid & _) Hne r Hr. apply String.eqb_neq. congruence. Qed.

Lemma stuck_finish s id now : id <> runID -> stuck runID s -> stuck runID (FinishRun s id now).1.
Proof.
  intros Hne Hs. pose proof (stuck_other s id Hs Hne) as Ho. unfold FinishRun.
  destruct (ss_ActiveRun s) as [r|]; [|done]. by rewrite Ho.
Qed.
Lemma stuck_suspend s id now : id <> runID -> stuck runID s -> stuck runID (SuspendRun s id now).1.
Proof.
  intros Hne Hs. pose proof (stuck_other s id Hs Hne) as Ho. unfold SuspendRun.
  destruct (ss_ActiveRun s) as [r|]; [|done]. by rewrite Ho.
Qed.
Lemma stuck_update s id c : id <> runID -> stuck runID s -> stuck runID (UpdateCancelFunc s id c).1.
Proof.
  intros Hne Hs. pose proof (stuck_other s id Hs Hne) as Ho. unfold UpdateCancelFunc.
  destruct (ss_ActiveRun s) as [r|]; [|done]. by rewrite Ho.
Qed.
Lemma stuck_return s id now : id <> runID -> stuck runID s -> stuck runID (ReturnRunToWaiting s id now).1.
Proof.
  intros Hne Hs. pose proof (stuck_other s id Hs Hne) as Ho. unfold ReturnRunToWaiting.
  destruct (ss_ActiveRun s) as [r|]; [|done]. by rewrite Ho.
Qed.
Lemma stuck_cancel s id now : stuck runID s -> stuck runID (CancelRun s id now).1.
Proof.
  intros (r & Hr & Hid & Hst). destruct (cancel_any s r Hr id now) as [Heq | Heq]; [by exists r|].
  by exists (with_status r "cancelling").
Qed.
Lemma stuck_report_hook s id ev now : id <> runID -> stuck runID s -> stuck runID (reportLifecycleHook s id ev now).
Proof.
  intros Hne Hs. unfold reportLifecycleHook, handlePersistenceFailure, finishTerminalRun.
  destruct ev as [|preview delivery| | | |]; try done.
  destruct (bool_decide (preview = Some false)), delivery as [[]|];
    repeat (done || apply stuck_cancel || (apply stuck_finish; [done|]) || apply (stuck_same s)
            || (apply (stuck_same (CancelRun s id now).1); [done|])).
Qed.
Lemma stuck_emit s id ev delivered now : id <> runID -> stuck runID s -> stuck runID (Emit s id ev delivered now).
Proof.
  intros Hne Hs. unfold Emit. destruct delivered; [|by apply stuck_cancel].
  pose proof (stuck_report_hook s id ev now Hne Hs). unfold runLifecycleHook, finishTerminalRun.
  destruct (blank id); [done|]. destruct ev; (done || by apply stuck_finish || by apply stuck_suspend).
Qed.

Lemma wedged_owner_step l i p f l' :
  owner_step l i p f = Some l' -> wedged runID l ->
  (forall id, (p <> PUnwinding -> id <> runID) -> stuck runID (f id).1 /\ (p = PUnwinding -> (f id).2 = None \/ (f id).2 = Some PUnwinding)) ->
  wedged runID l'.
Proof.
  unfold owner_step. intros Hstep [Hs Hown] Hf. destruct (lf_owners l !! i) as [[id q]|] eqn:Hi; [|done].
  destruct (decide (q = p)) as [->|]; [|done].
  assert (p <> PUnwinding -> id <> runID) as Hne.
  { intros Hp. apply (Hown (id, p)); [by eapply list_elem_of_lookup_2|done]. }
  destruct (Hf id Hne) as [Hs' Hnone]. destruct (f id) as [s next]. injection Hstep as <-. split; [exact Hs'|].
  cbn [life lf_owners fst snd] in *. intros o Ho Hact. destruct next as [n|].
  - apply list_elem_of_lookup in Ho as [j Hj]. rewrite list_lookup_insert_Some in Hj.
    destruct Hj as [(<- & <- & _)|(_ & Hj)]; [|apply Hown; [by eapply list_elem_of_lookup_2|done]].
    apply Hne. intros ->. destruct (Hnone eq_refl) as [?|[= ->]]; done.
  - apply Hown; [|done]. apply (elem_of_remove_at _ _ _ o Hi). by right.
Qed.

Lemma stuck_refuses s newID c now : stuck runID s -> exists e, chat_begin s newID c now = (s, Err e).
Proof.
  intros (r & Hr & _ & Hst). unfold chat_begin, ConsumeWaitingRun, ConsumeWaitingRunExact, StartRun. rewrite Hr.
  apply String.eqb_neq in Hst. rewrite Hst. change ("" =? "") with true. cbn [negb]. rewrite Hr.
  destruct (ss_detached s); by eexists.
Qed.
Lemma stuck_not_waiting s id now : stuck runID s -> submit_begin s id now = (s, None).
Proof.
  intros (r & Hr & _ & Hst). unfold submit_begin, GetWaitingRunID. rewrite Hr. apply String.eqb_neq in Hst. by rewrite Hst.
Qed.

Lemma step_wedged l lab l' : step l lab = Some l' -> wedged runID l -> wedged runID l'.
Proof.
  intros Hstep Hw. destruct lab; cbn [step] in Hstep.
  - destruct (_ || _); [done|]. destruct (stuck_refuses (lf_session l) newID cancel now (proj1 Hw)) as [e Heq].
    rewrite Heq in Hstep. by injection Hstep as <-.
  - rewrite (stuck_not_waiting _ _ _ (proj1 Hw)) in Hstep. by injection Hstep as <-.
  - eapply wedged_owner_step; [exact Hstep|done|]. intros id Hne. specialize (Hne ltac:(done)).
    unfold start_outcome. destruct (PrepareUserRun _ m loader) as [s [[]|e]] eqn:Hp;
      pose proof (stuck_same _ _ (prepared_run _ _ _ _ _ Hp) (proj1 Hw)).
    + destruct stored; (split; [|done]); (done || by apply stuck_cancel).
    + split; [|done]. by apply stuck_finish.
  - eapply wedged_owner_step; [exact Hstep|done|]. intros id Hne. specialize (Hne ltac:(done)).
    unfold resume_outcome. destruct (PrepareUserRun _ m loader) as [s [[]|e]] eqn:Hp;
      pose proof (stuck_same _ _ (prepared_run _ _ _ _ _ Hp) (proj1 Hw)); [destruct resumed|];
      (split; [|done]); (done || by apply stuck_return).
  - eapply wedged_owner_step; [exact Hstep|done|]. intros id Hne. specialize (Hne ltac:(done)). unfold dispatch.
    pose proof (stuck_update (lf_session l) id cancel Hne (proj1 Hw)).
    destruct started; (split; [|done]); (done || by apply stuck_finish).
  - eapply wedged_owner_step; [exact Hstep|done|]. intros id Hne. specialize (Hne ltac:(done)).
    split; [|done]. by apply stuck_emit; [|apply Hw].
  - eapply wedged_owner_step; [exact Hstep|done|]. intros id _. cbn [fst snd]. split; [|by right].
    unfold Emit, runLifecycleHook, reportLifecycleHook. destruct delivered; [|apply stuck_cancel, Hw].
    destruct (blank id); apply Hw.
  - eapply wedged_owner_step; [exact Hstep|done|]. intros id _. split; [apply Hw|by left].
  - injection Hstep as <-. split; [|apply Hw]. apply stuck_cancel, Hw.
  - injection Hstep as <-. split; [|apply Hw]. eapply stuck_same; [|apply Hw]. done.
Qed.
End stuck.

(** * Properties *)


(** * Samples *)

Definition sample_message : UserMessage := {| um_Content := "total sales?"; um_EditContext := None; um_TurnContext := None |}.
Definition no_loader (_ : string) : res string (option ReportSnapshot) := Err "not found".
Abbreviation fresh := (life (NewSession "s_1" "w_1" "u_1" 0) []) (only parsing).
(** A run that asks the user and suspends. *)
Definition asking : list label :=
  [LChat "r_1" 1 10; LStart 0 sample_message no_loader StoreOk 11; LDispatch 0 2 true 12; LEvent 0 EvOther true 13;
   LEvent 0 EvUserRequestInput true 14; LUsage 0 true 14].
(** The user answers while the first goroutine is still returning; the run ends, and
    the session takes another. *)
Definition answered : list label :=
  asking ++ [LSubmit "r_1" 15; LResume 1 sample_message no_loader true 16; LDispatch 1 3 true 17; LExit 0;
             LEvent 0 (EvToolResult (Some true) (Some true)) true 18; LEvent 0 EvRunCompleted true 19; LExit 0;
             LChat "r_2" 4 20].


(** a run that nobody owns blocks its session for good.  Whatever the users, the
    other goroutines and the clock do from then on, the run stays in progress, is
    never taken by an answer, and every new message is refused. *)
Theorem wedged_forever runID labs l l' :
  wedged runID l -> steps l labs = Some l' ->
  wedged runID l'
  /\ (forall newID c now, exists e, chat_begin (lf_session l') newID c now = (lf_session l', Err e))
  /\ (forall id now, submit_begin (lf_session l') id now = (lf_session l', None)).
Proof.
  intros Hw Hsteps. assert (wedged runID l') as Hw'.
  { revert l Hw Hsteps. induction labs as [|lab rest IH]; intros l Hw; cbn [steps]; [by intros [= <-]|].
    destruct (step l lab) as [l1|] eqn:Hstep; [|done]. apply IH. by eapply step_wedged. }
  split; [done|]. split; intros; [eapply stuck_refuses|eapply stuck_not_waiting]; apply Hw'.
Qed.

(** three ways into that state, from any state the code otherwise keeps in order.
    (1) The record, the first event or the session pointer of a new run cannot be
    stored: [ChatHandler] only cancels the run, though no goroutine was started that
    could end it.  (2) A run that waits for the user is cancelled: its goroutine is
    gone or leaving, so "cancelled" is answered and nothing ends the run.  (3) The last event of
    a run cannot be stored: the hooks that end the run are skipped. *)
Theorem wedge_entries l :
  owned l ->
  (forall i runID m loader stored now l',
     lf_owners l !! i = Some (runID, PStart) -> (PrepareUserRun (lf_session l) m loader).2 = Ok tt -> stored <> StoreOk ->
     step l (LStart i m loader stored now) = Some l' -> wedged runID l')
  /\ (forall r c now l',
     ss_ActiveRun (lf_session l) = Some r -> sr_Status r = "waiting_user_input" -> sr_Cancel r = Some c ->
     step l (LCancel (sr_RunID r) now) = Some l' ->
     wedged (sr_RunID r) l' /\ (cancel_handler (lf_session l) (sr_RunID r) now).2 = true)
  /\ (forall i runID ev now l',
     lf_owners l !! i = Some (runID, PExecuting) -> last_event ev = true ->
     step l (LEvent i ev false now) = Some l' -> wedged runID l').
Proof.
  intros Hown. assert (forall s act, active (life s act) = [] -> forall o, o ∈ act -> o.2 <> PUnwinding -> forall id : string, o.1 <> id) as Hnil.
  { intros s act Hact o Ho Hp. assert (o ∈ active (life s act)) as Hin by (apply list_elem_of_filter; by split).
    rewrite Hact in Hin. by apply not_elem_of_nil in Hin. }
  split_and!.
  - intros i runID m loader stored now l' Hi Hprep Hst Hstep.
    destruct (owned_owner l i runID PStart Hown Hi ltac:(done)) as (r & Hr & Hid & _ & Hrs & Hact).
    cbn [step] in Hstep. unfold owner_step in Hstep. rewrite Hi, decide_True in Hstep by done.
    unfold start_outcome in Hstep. destruct (PrepareUserRun _ m loader) as [s [[]|]] eqn:Hp; [|done].
    apply prepared_run in Hp. rewrite Hr in Hp.
    assert (Some l' = Some (life (CancelRun s runID now).1 (remove_at i (lf_owners l)))) as [= ->]
      by (rewrite <- Hstep; by destruct stored).
    split; [apply stuck_cancel; exists r; split_and!; [done|done|by destruct Hrs as [-> | ->]]|].
    destruct (active_replace (lf_session l) l i runID PStart PUnwinding Hi ltac:(done) Hact) as [_ Hempty].
    intros o Ho Hph. by apply (Hnil _ _ Hempty).
  - intros r c now l' Hr Hst Hc Hstep. cbn [step] in Hstep. injection Hstep as <-. unfold cancel_handler, CancelRun.
    rewrite Hr, String.eqb_refl, andb_false_r, Hc. split; [|done].
    split; [by exists (with_status r "cancelling")|]. cbn [life lf_owners]. intros o Ho Hph.
    unfold owned, run_owned in Hown. rewrite Hr, Hst in Hown. destruct Hown as (_ & [[_ Hact]|([?|?] & _)]); [|done..].
    by apply (Hnil (lf_session l) (lf_owners l) Hact).
  - intros i runID ev now l' Hi Hlast Hstep.
    destruct (owned_owner l i runID PExecuting Hown Hi ltac:(done)) as (r & Hr & Hid & _ & Hrs & Hact).
    cbn [step] in Hstep. unfold owner_step in Hstep. rewrite Hi, decide_True, Hlast in Hstep by done. injection Hstep as <-.
    split; [apply stuck_cancel; exists r; split_and!; [done|done|by destruct Hrs as [-> | ->]]|].
    destruct (active_replace (lf_session l) l i runID PExecuting PUnwinding Hi ltac:(done) Hact) as [Hempty _].
    rewrite decide_True in Hempty by done. intros o Ho Hph. by apply (Hnil _ _ Hempty).
Qed.

Abbreviation after labs := (default fresh (steps fresh labs)) (only parsing).
(** The three traces: a failed start, a cancelled question, a lost completion. *)
Definition failed_start : list label := [LChat "r_1" 1 10; LStart 0 sample_message no_loader StoreCreateFailed 11].

Lemma wedged_forever_witness :
  exists l, wedged "r_1" (after failed_start)
    /\ steps (after failed_start) [LTouch 20; LChat "r_2" 5 30; LCancel "r_1" 40] = Some l
    /\ wedged "r_1" l /\ exists e, chat_begin (lf_session l) "r_3" 6 50 = (lf_session l, Err e).
Proof.
  assert (wedged "r_1" (after failed_start)) as Hw.
  { split; [|by intros o Ho; apply not_elem_of_nil in Ho].
    exists {| sr_RunID := "r_1"; sr_Status := "cancelling"; sr_Cancel := Some 1; sr_StartedAt := 10 |}. done. }
  destruct (steps (after failed_start) [LTouch 20; LChat "r_2" 5 30; LCancel "r_1" 40]) as [l|] eqn:H;
    [|vm_compute in H; discriminate].
  destruct (wedged_forever "r_1" [LTouch 20; LChat "r_2" 5 30; LCancel "r_1" 40] (after failed_start) l Hw H) as (Hw' & Hchat & _).
  exists l. split_and!; [exact Hw|done|exact Hw'|apply Hchat].
Defined.

Lemma wedge_entries_witness :
  wedged "r_1" (default fresh (step (after (take 1 asking)) (LStart 0 sample_message no_loader StoreEventFailed 11)))
  /\ wedged "r_1" (default fresh (step (after asking) (LCancel "r_1" 20)))
  /\ wedged "r_1" (default fresh (step (after (take 4 asking)) (LEvent 0 EvRunCompleted false 20))).
Proof.
  assert (owned fresh) as H0 by done.
  assert (forall labs l', healthy_steps fresh labs = Some l' -> owned l') as Hown
    by (intros labs l' H; by eapply healthy_steps_owned).
  split_and!.
  - assert (owned (after (take 1 asking))) as Ho by (apply (Hown (take 1 asking)); vm_compute; reflexivity).
    destruct (wedge_entries _ Ho) as (Hs & _). apply (Hs 0 "r_1" sample_message no_loader StoreEventFailed 11%Z);
      [vm_compute; reflexivity|vm_compute; reflexivity|done|vm_compute; reflexivity].
  - assert (owned (after asking)) as Ho by (apply (Hown asking); vm_compute; reflexivity).
    destruct (wedge_entries _ Ho) as (_ & Hc & _).
    destruct (Hc {| sr_RunID := "r_1"; sr_Status := "waiting_user_input"; sr_Cancel := Some 2; sr_StartedAt := 10 |} 2 20%Z
                 (default fresh (step (after asking) (LCancel "r_1" 20)))) as [Hw _];
      [vm_compute; reflexivity|done|done|vm_compute; reflexivity|exact Hw].
  - assert (owned (after (take 4 asking))) as Ho by (apply (Hown (take 4 asking)); vm_compute; reflexivity).
    destruct (wedge_entries _ Ho) as (_ & _ & He). apply (He 0 "r_1" EvRunCompleted 20%Z); [vm_compute; reflexivity|done|vm_compute; reflexivity].
Defined.

(** a report whose delivery cannot be stored ends its run while the engine is
    still executing it: the session accepts the next message, and two goroutines
    execute the session's one engine at the same time. *)
Theorem failed_delivery_overlaps :
  exists labs l, steps fresh labs = Some l /\ executing l = [("r_1", PExecuting); ("r_2", PExecuting)].
Proof.
  exists (take 4 asking ++ [LEvent 0 (EvToolResult (Some true) (Some false)) true 14; LChat "r_2" 5 15;
                            LStart 1 sample_message no_loader StoreOk 16; LDispatch 1 6 true 17]).
  eexists. split; vm_compute; reflexivity.
Qed.
