(* ===== verification/SessionManager.v ===== *)
(** Model of the session manager (server/session/manager.go), its expiry
    (server/session/cleanup.go) and the handlers that restore a session after a restart
    (server/handler/session_runtime.go, chat.go).

    The manager is the map of live sessions.  What the session repository answers and
    whether its writes and the creation of a session's database succeed are arguments;
    where the code leaves the manager's lock, the function [others] stands for what
    other requests do to the manager before it takes the lock again. *)
From S2P Require Import Prelude GoStrings Json ReportState ReportSnapshot SessionRun.
From Stdlib Require Import Ascii.
Open Scope string_scope.
Open Scope list_scope.

(** * Data *)

Abbreviation Manager := (gmap string Session) (only parsing).
Record SessionRecord := { dr_ID : string; dr_WorkspaceID : string; dr_UserID : string }.
Inductive Lookup := Found (record : SessionRecord) | NotFound | LookupFailed.

Inductive ManagerError := ENotAuthorized | ENoSession | ELookup | ELastSeen | ENewSession | ECreate | EStillRunning | EDestroy.

(** What the outside decides in one call: is a repository configured, what does it find,
    do its writes and [New] succeed; and the clock. *)
Record Env := {
  en_repo : bool;
  en_lookup : string -> Lookup;
  en_updated : bool;
  en_new : bool;
  en_created : bool;
  en_now : time;
}.

Definition authorized (s : Session) (workspaceID userID : string) : bool :=
  (ss_WorkspaceID s =? workspaceID) && (ss_UserID s =? userID).

(** * Operations *)

(** The second critical section of [GetOrCreate]: adopt the session that is there by
    now, or make one. *)
Definition install (m : Manager) (env : Env) (id workspaceID userID : string) (created : bool) :
    Manager * res ManagerError (Session * bool) :=
  match m !! id with
  | Some sess =>
      if negb (authorized sess workspaceID userID) then (m, Err ENotAuthorized)
      else let sess := Touch sess (en_now env) in (<[id := sess]> m, Ok (sess, false))
  | None =>
      if negb (en_new env) then (m, Err ENewSession)
      else
        let sess := NewSession id workspaceID userID (en_now env) in
        if created && en_repo env && negb (en_created env) then (m, Err ECreate)
        else if en_repo env && negb created && negb (en_updated env) then (<[id := sess]> m, Err ELastSeen)
        else (<[id := sess]> m, Ok (sess, created))
  end.

(** [newID] is the identifier drawn when none is given.  A failed [Create] takes the new
    session out again, as if it had not been inserted. *)
Definition GetOrCreate (m : Manager) (env : Env) (others : Manager -> Manager) (sessionID newID workspaceID userID : string) :
    Manager * res ManagerError (Session * bool) :=
  match (if sessionID =? "" then None else m !! sessionID) with
  | Some cached =>
      if negb (authorized cached workspaceID userID) then (m, Err ENotAuthorized)
      else
        let cached := Touch cached (en_now env) in
        (<[sessionID := cached]> m, if en_repo env && negb (en_updated env) then Err ELastSeen else Ok (cached, false))
  | None =>
      let id := if sessionID =? "" then newID else sessionID in
      if negb (sessionID =? "") && en_repo env then
        match en_lookup env sessionID with
        | Found record =>
            if negb ((dr_WorkspaceID record =? workspaceID) && (dr_UserID record =? userID)) then (m, Err ENotAuthorized)
            else install (others m) env id (dr_WorkspaceID record) (dr_UserID record) false
        | NotFound => install (others m) env id workspaceID userID true
        | LookupFailed => (m, Err ELookup)
        end
      else install (others m) env id workspaceID userID true
  end.

Definition GetSession (m : Manager) (env : Env) (others : Manager -> Manager) (sessionID workspaceID userID : string) :
    Manager * res ManagerError Session :=
  let finish (m : Manager) (sess : Session) :=
    if negb (authorized sess workspaceID userID) then (m, Err ENotAuthorized)
    else
      let sess := Touch sess (en_now env) in
      (<[sessionID := sess]> m, if en_repo env && negb (en_updated env) then Err ELastSeen else Ok sess) in
  match m !! sessionID with
  | Some sess => finish m sess
  | None =>
      if negb (en_repo env) then (m, Err ENoSession)
      else match en_lookup env sessionID with
      | NotFound => (m, Err ENoSession)
      | LookupFailed => (m, Err ELookup)
      | Found record =>
          if negb ((dr_WorkspaceID record =? workspaceID) && (dr_UserID record =? userID)) then (m, Err ENotAuthorized)
          else
            let m := others m in
            match m !! sessionID with
            | Some existing => finish m existing
            | None =>
                if negb (en_new env) then (m, Err ENewSession)
                else
                  let sess := NewSession (dr_ID record) (dr_WorkspaceID record) (dr_UserID record) (en_now env) in
                  finish (<[sessionID := sess]> m) sess
            end
      end
  end.

Definition Peek (m : Manager) (sessionID workspaceID userID : string) : res ManagerError (option Session) :=
  match m !! sessionID with
  | None => Ok None
  | Some sess => if negb (authorized sess workspaceID userID) then Err ENotAuthorized else Ok (Some sess)
  end.

Definition IsSessionLive (m : Manager) (sessionID : string) : bool := bool_decide (is_Some (m !! sessionID)).

(** [destroyed]: the session's database could be removed.  The session itself lives on
    where a request still holds it: detached and cancelled. *)
Definition DeleteSession (m : Manager) (sessionID workspaceID userID : string) (destroyed : bool) (now : time) :
    Manager * option Session * res ManagerError unit :=
  let done_ := if destroyed then Ok tt else Err EDestroy in
  match m !! sessionID with
  | Some sess =>
      if negb (authorized sess workspaceID userID) then (m, None, Err ENotAuthorized)
      else (delete sessionID m, Some (CancelRun (set_detached sess true) "" now).1, done_)
  | None => (m, None, done_)
  end.

(** [observed] are the states of the session its polling sees. *)
Definition StopSession (m : Manager) (sessionID workspaceID userID : string) (observed : list Session) (now : time) :
    Manager * res ManagerError unit :=
  match m !! sessionID with
  | None => (m, Ok tt)
  | Some sess =>
      if negb (authorized sess workspaceID userID) then (m, Err ENotAuthorized)
      else (<[sessionID := (CancelRun sess "" now).1]> m, if WaitUntilIdle observed then Ok tt else Err EStillRunning)
  end.

(** * Expiry *)

Definition expiredSession (cutoff : time) (sess : Session) : bool :=
  match ss_ActiveRun sess with
  | None => true
  | Some r => negb (sr_Status r =? "running")
  end && Before (ss_LastSeenAt sess) cutoff.

Definition candidates (m : Manager) (cutoff : time) : list string :=
  map fst (List.filter (fun ks => expiredSession cutoff ks.2) (map_to_list m)).

(** One candidate: checked again and taken out in one critical section, then deleted
    outside it; a failed deletion puts it back unless it was made anew meanwhile.  The
    result counts the deleted session. *)
Definition cleanup_one (cutoff now : time) (deleteSession : string -> bool) (others : Manager -> Manager)
    (m : Manager) (id : string) : Manager * nat :=
  match m !! id with
  | None => (m, 0)
  | Some sess =>
      if negb (expiredSession cutoff sess) then (m, 0)
      else
        let sess := (CancelRun (set_detached sess true) "" now).1 in
        let m := others (delete id m) in
        if deleteSession id then (m, 1)
        else (match m !! id with Some _ => m | None => <[id := set_detached sess false]> m end, 0)
  end.
Fixpoint cleanup_all (cutoff now : time) (deleteSession : string -> bool) (others : nat -> Manager -> Manager)
    (m : Manager) (ids : list string) : Manager * nat :=
  match ids with
  | [] => (m, 0)
  | id :: rest =>
      let '(m, n) := cleanup_one cutoff now deleteSession (others (length rest)) m id in
      let '(m, n') := cleanup_all cutoff now deleteSession others m rest in (m, n + n')
  end.
(** The persisted sessions no manager holds, from the listing of the repository. *)
Definition cleanup_persisted (m : Manager) (deleteSession : string -> bool) (dbExpired : list string) : nat :=
  length (List.filter (fun id => negb (IsSessionLive m id) && deleteSession id) dbExpired).
(** The number of sessions deleted; no deletion function is an error. *)
Definition CleanupExpiredSessions (m : Manager) (ttlHours : Z) (now : time) (deleteSession : option (string -> bool))
    (others : nat -> Manager -> Manager) (dbExpired : time -> list string) : option (Manager * nat) :=
  if (ttlHours <=? 0)%Z then Some (m, 0)
  else match deleteSession with
  | None => None
  | Some deleteSession =>
      let cutoff := (now - ttlHours * Hour)%Z in
      let '(m, n) := cleanup_all cutoff now deleteSession others m (candidates m cutoff) in
      Some (m, n + cleanup_persisted m deleteSession (dbExpired cutoff))
  end.

(** * Trace directories *)

Fixpoint date_name_loop (i : nat) (rs : list Z) : bool :=
  match rs with
  | [] => true
  | ch :: rest =>
      (if (i =? 4)%nat || (i =? 7)%nat then (ch =? 45)%Z else (48 <=? ch)%Z && (ch <=? 57)%Z) && date_name_loop (S i) rest
  end.
(** [range] over a string yields byte offsets; on the ASCII texts it accepts they are
    the positions. *)
Definition isDateDirName (name : string) : bool := date_name_loop 0 (map byteZ (String.list_ascii_of_string name)).

(** * After a restart *)

(** Some error of the request itself, or of the repository. *)
Inductive HandlerError := EBadID | EManager (e : ManagerError).

Definition sessionExists (env : Env) (sessionID : string) : res HandlerError bool :=
  if negb (en_repo env) then Err (EManager ELookup)
  else if not_exact sessionID || blank sessionID then Err EBadID
  else match en_lookup env sessionID with
  | Found _ => Ok true
  | NotFound => Ok false
  | LookupFailed => Err (EManager ELookup)
  end.
Definition shouldHydrateSessionFromPersistence (m : Manager) (env : Env) (workspaceID userID sessionID : string) :
    res HandlerError bool :=
  if blank sessionID || not_exact sessionID then Err EBadID
  else match Peek m sessionID workspaceID userID with
  | Err e => Err (EManager e)
  | Ok (Some _) => Ok false
  | Ok None => sessionExists env sessionID
  end.

(** The persisted runs of a session, the delegated ones under their parents. *)
Inductive RunTree := Run (id status : string) (children : list RunTree).
Fixpoint recoverStaleRunTree (t : RunTree) : RunTree :=
  match t with
  | Run id status children =>
      Run id (if (status =? "running") || (status =? "waiting_user_input") then "failed" else status)
        (map recoverStaleRunTree children)
  end.
Definition recoverStaleSessionRuns (m : Manager) (sessionID : string) (roots : list RunTree) : list RunTree :=
  if blank sessionID then roots
  else if IsSessionLive m sessionID then roots
  else map recoverStaleRunTree roots.

Inductive AnswerReply :=
| RNotFound
| RServerError
| RConflict
| RTaken (runID : string).

(** [SubmitUserInputHandler] for a valid answer of the run's own user, up to the taking
    of the run; [status] is the persisted status of the run and [hydrate] what
    [hydrateSessionFromPersistence] makes of the session, if it succeeds. *)
Definition SubmitUserInput (m : Manager) (env : Env) (others : Manager -> Manager) (hydrate : Session -> option Session)
    (runID status sessionID workspaceID userID : string) (now : time) : Manager * AnswerReply :=
  match GetOrCreate m env others sessionID "" workspaceID userID with
  | (m, Err _) => (m, RNotFound)
  | (m, Ok (sess, _)) =>
      match (match shouldHydrateSessionFromPersistence m env workspaceID userID sessionID with
             | Err _ => None
             | Ok false => Some sess
             | Ok true =>
                 let! sess := hydrate sess in
                 Some (if status =? "waiting_user_input" then (RestoreWaitingRun sess runID now).1 else sess)
             end) with
      | None => (m, RServerError)
      | Some sess =>
          match GetWaitingRunID sess with
          | Some waiting =>
              if negb (waiting =? runID) then (<[sessionID := sess]> m, RConflict)
              else
                let '(sess, taken) := ConsumeWaitingRunExact sess runID now in
                (<[sessionID := sess]> m, if taken =? "" then RConflict else RTaken runID)
          | None => (<[sessionID := sess]> m, RConflict)
          end
      end
  end.

(** The start of [ChatHandler]: what it makes of the manager and of the persisted runs
    of the session, before the session itself is hydrated. *)
Definition chat_restore (m : Manager) (env : Env) (others : Manager -> Manager) (sessionID workspaceID userID : string)
    (roots : list RunTree) : Manager * list RunTree :=
  match shouldHydrateSessionFromPersistence m env workspaceID userID sessionID with
  | Err _ => (m, roots)
  | Ok shouldHydrate =>
      match GetOrCreate m env others sessionID "" workspaceID userID with
      | (m, Err _) => (m, roots)
      | (m, Ok _) => (m, if shouldHydrate then recoverStaleSessionRuns m sessionID roots else roots)
      end
  end.

(** * Lemmas *)

Lemma authorized_touch s w u now : authorized (Touch s now) w u = authorized s w u.
Proof. done. Qed.

Lemma install_ok m env id w u created m' s c :
  install m env id w u created = (m', Ok (s, c)) ->
  authorized s w u = true /\ m' !! id = Some s /\ (c = true -> m !! id = None /\ s = NewSession id w u (en_now env)).
Proof.
  unfold install. destruct (m !! id) as [sess|].
  - destruct (authorized sess w u) eqn:Ha; cbn [negb]; [|done]. intros [= <- <- <-].
    split_and!; [by rewrite authorized_touch|by rewrite lookup_insert_eq|done].
  - destruct (en_new env); [|done]. cbn [negb]. destruct (_ && _); [done|]. destruct (_ && _); [done|].
    intros [= <- <- <-]. split_and!; [|by rewrite lookup_insert_eq|done].
    unfold authorized, NewSession. simpl. by rewrite !String.eqb_refl.
Qed.

Lemma GetOrCreate_ok m env others sessionID newID w u m' s c :
  GetOrCreate m env others sessionID newID w u = (m', Ok (s, c)) ->
  authorized s w u = true /\ m' !! (if sessionID =? "" then newID else sessionID) = Some s.
Proof.
  unfold GetOrCreate. destruct (sessionID =? "") eqn:Hid; cbn [negb andb].
  - intros H%install_ok. tauto.
  - destruct (m !! sessionID) as [cached|].
    + destruct (authorized cached w u) eqn:Ha; cbn [negb]; [|done]. destruct (_ && _); [done|].
      intros [= <- <- <-]. split; [by rewrite authorized_touch|by rewrite lookup_insert_eq].
    + destruct (en_repo env); [|intros H%install_ok; tauto].
      destruct (en_lookup env sessionID) as [record| |]; [|intros H%install_ok; tauto|done].
      destruct (dr_WorkspaceID record =? w) eqn:Hw, (dr_UserID record =? u) eqn:Hu; cbn [andb negb]; try done.
      apply String.eqb_eq in Hw, Hu. rewrite Hw, Hu. intros H%install_ok. tauto.
Qed.

Lemma GetSession_ok m env others sessionID w u m' s :
  GetSession m env others sessionID w u = (m', Ok s) -> authorized s w u = true /\ m' !! sessionID = Some s.
Proof.
  unfold GetSession. intros H. repeat (break_match_in H; try discriminate H); injection H as <- <-;
    rewrite authorized_touch, lookup_insert_eq; by reflect_bools.
Qed.

Lemma hydration_after_load m env others sessionID w u m' s c :
  GetOrCreate m env others sessionID "" w u = (m', Ok (s, c)) -> blank sessionID = false -> not_exact sessionID = false ->
  shouldHydrateSessionFromPersistence m' env w u sessionID = Ok false /\ IsSessionLive m' sessionID = true.
Proof.
  intros H Hb Hex. apply GetOrCreate_ok in H as [Ha Hs].
  assert (sessionID =? "" = false) as Hne by (apply String.eqb_neq; by intros ->). rewrite Hne in Hs.
  unfold shouldHydrateSessionFromPersistence, IsSessionLive, Peek. rewrite Hb, Hex, Hs, Ha. done.
Qed.

(** * Properties *)


(** a restart loses the runs that were in progress.  The answer to a run that
    waited for its user is refused, because the handler loads the session before it
    asks whether the session is in memory, and so never restores the waiting run; and
    the chat handler recovers no stale run, because it loads the session first too.
    Both hold for every environment in which nobody else brings the session back. *)
Theorem restart_recovery_is_dead m env others hydrate runID status sessionID workspaceID userID now roots :
  blank sessionID = false -> not_exact sessionID = false -> m !! sessionID = None -> others m !! sessionID = None ->
  (forall m' reply, SubmitUserInput m env others hydrate runID status sessionID workspaceID userID now = (m', reply) ->
     reply = RNotFound \/ reply = RConflict)
  /\ (chat_restore m env others sessionID workspaceID userID roots).2 = roots.
Proof.
  intros Hb Hex Hm Hothers. assert (sessionID =? "" = false) as Hne by (apply String.eqb_neq; by intros ->). split.
  - intros m' reply. unfold SubmitUserInput.
    destruct (GetOrCreate m env others sessionID "" workspaceID userID) as [m1 [[s c]|e]] eqn:Hget; [|intros [= <- <-]; by left].
    destruct (hydration_after_load _ _ _ _ _ _ _ _ _ Hget Hb Hex) as [-> _].
    assert (ss_ActiveRun s = None) as Hrun.
    { revert Hget. unfold GetOrCreate, install. rewrite Hne, Hm. cbn [negb andb]. rewrite Hothers.
      intros H. repeat (break_match_in H; try discriminate H); by injection H as <- <- <-. }
    unfold GetWaitingRunID. rewrite Hrun. intros [= <- <-]. by right.
  - unfold chat_restore. destruct (shouldHydrateSessionFromPersistence _ _ _ _ _) as [h|e]; [|done].
    destruct (GetOrCreate m env others sessionID "" workspaceID userID) as [m1 [[s c]|e]] eqn:Hget; [|done].
    destruct (hydration_after_load _ _ _ _ _ _ _ _ _ Hget Hb Hex) as [_ Hlive].
    unfold recoverStaleSessionRuns. rewrite Hb, Hlive. by destruct h.
Qed.

Definition sample_env : Env :=
  {| en_repo := true; en_lookup := fun _ => Found {| dr_ID := "s_1"; dr_WorkspaceID := "w_1"; dr_UserID := "u_1" |};
     en_updated := true; en_new := true; en_created := true; en_now := 5 |}.

Lemma restart_recovery_is_dead_witness :
  (SubmitUserInput ∅ sample_env id Some "r_1" "waiting_user_input" "s_1" "w_1" "u_1" 9).2 = RConflict
  /\ (chat_restore ∅ sample_env id "s_1" "w_1" "u_1" [Run "r_1" "running" []]).2 = [Run "r_1" "running" []].
Proof.
  destruct (restart_recovery_is_dead ∅ sample_env id Some "r_1" "waiting_user_input" "s_1" "w_1" "u_1" 9%Z
              [Run "r_1" "running" []] ltac:(reflexivity) ltac:(reflexivity) ltac:(reflexivity) ltac:(reflexivity)) as [Hreply Hroots].
  split; [|exact Hroots].
  destruct (SubmitUserInput ∅ sample_env id Some "r_1" "waiting_user_input" "s_1" "w_1" "u_1" 9) as [m' reply] eqn:H.
  destruct (Hreply m' reply eq_refl) as [-> | ->]; [vm_compute in H; discriminate|reflexivity].
Defined.

(** * Lemmas: expiry *)

(** A session put back after a failed deletion. *)
Definition put_back (sess : Session) (now : time) : Session :=
  set_detached (CancelRun (set_detached sess true) "" now).1 false.

(** What the expiry leaves of one session, when no request interferes. *)
Definition after_cleanup (cutoff now : time) (deleteSession : string -> bool) (id : string) (sess : Session) : option Session :=
  if expiredSession cutoff sess then if deleteSession id then None else Some (put_back sess now) else Some sess.

Lemma cleanup_one_other cutoff now del m id id' :
  id' <> id -> (cleanup_one cutoff now del (fun m => m) m id).1 !! id' = m !! id'.
Proof.
  intros Hne. unfold cleanup_one. destruct (m !! id) as [sess|] eqn:Hm; [|done]. destruct (expiredSession cutoff sess); [|done].
  cbn [negb]. destruct (del id); cbn [fst]; [by rewrite lookup_delete_ne|].
  rewrite lookup_delete_eq. by rewrite lookup_insert_ne, lookup_delete_ne.
Qed.

Lemma cleanup_one_own cutoff now del m id :
  (cleanup_one cutoff now del (fun m => m) m id).1 !! id = (m !! id) ≫= after_cleanup cutoff now del id
  /\ (cleanup_one cutoff now del (fun m => m) m id).2
     = (if (match m !! id with Some sess => expiredSession cutoff sess | None => false end) && del id then 1 else 0).
Proof.
  unfold cleanup_one, after_cleanup. destruct (m !! id) as [sess|] eqn:Hm; [|by simpl]. simpl.
  destruct (expiredSession cutoff sess); [|by simpl; rewrite Hm]. cbn [negb andb].
  destruct (del id); cbn [fst snd]; [by rewrite lookup_delete_eq|]. rewrite lookup_delete_eq. by rewrite lookup_insert_eq.
Qed.

Lemma cleanup_all_spec cutoff now del ids m :
  NoDup ids ->
  let r := cleanup_all cutoff now del (fun _ m => m) m ids in
  (forall id, r.1 !! id = if decide (id ∈ ids) then (m !! id) ≫= after_cleanup cutoff now del id else m !! id)
  /\ r.2 = length (List.filter (fun id => match m !! id with Some sess => expiredSession cutoff sess | None => false end && del id) ids).
Proof.
  revert m. induction ids as [|id ids IH]; intros m Hnd; cbn [cleanup_all]; [done|].
  apply NoDup_cons in Hnd as [Hid Hnd].
  destruct (cleanup_one_own cutoff now del m id) as [Hown Hn]. pose proof (cleanup_one_other cutoff now del m id) as Hother.
  destruct (cleanup_one cutoff now del (fun m => m) m id) as [m1 n]. cbn [fst snd] in *.
  destruct (IH m1 Hnd) as [Hmap Hcount]. destruct (cleanup_all cutoff now del _ m1 ids) as [m2 n']. cbn [fst snd] in *. split.
  - intros id'. rewrite Hmap. destruct (decide (id' = id)) as [->|Hne].
    + rewrite decide_False by done. rewrite decide_True by (by left). done.
    + rewrite (Hother id' Hne). destruct (decide (id' ∈ ids)) as [Hin|Hin].
      * by rewrite decide_True by (by right).
      * rewrite decide_False; [done|]. by intros [?|?]%elem_of_cons.
  - rewrite Hn, Hcount. cbn [List.filter].
    assert (List.filter (fun i => match m1 !! i with Some sess => expiredSession cutoff sess | None => false end && del i) ids
            = List.filter (fun i => match m !! i with Some sess => expiredSession cutoff sess | None => false end && del i) ids) as ->.
    { apply filter_ext_in. intros i Hi%list_elem_of_In. rewrite Hother; [done|]. by intros ->. }
    by destruct (_ && del id).
Qed.

Lemma candidates_spec m cutoff id :
  id ∈ candidates m cutoff <-> exists sess, m !! id = Some sess /\ expiredSession cutoff sess = true.
Proof.
  unfold candidates. rewrite list_elem_of_In, in_map_iff. split.
  - intros ([k sess] & <- & [Hin Hex]%filter_In). exists sess. split; [|done]. by apply elem_of_map_to_list, list_elem_of_In.
  - intros (sess & Hm & Hex). exists (id, sess). split; [done|]. apply filter_In. split; [|done].
    by apply list_elem_of_In, elem_of_map_to_list.
Qed.

Lemma filter_sublist {A} (p : A -> bool) l : sublist (List.filter p l) l.
Proof. induction l as [|x l IH]; simpl; [constructor|]. destruct (p x); by constructor. Qed.

Lemma candidates_NoDup m cutoff : NoDup (candidates m cutoff).
Proof.
  unfold candidates. eapply sublist_NoDup; [apply (NoDup_fst_map_to_list m)|].
  apply (fmap_sublist fst), filter_sublist.
Qed.

(** expiry takes exactly the sessions it should.  With no request in between, a
    session survives untouched unless it was last seen before the cutoff and executes
    no run; such a session is gone when its complete deletion succeeds, and otherwise it
    is back, usable, with its run cancelled; the result counts the deletions. *)
Theorem cleanup_spec m ttlHours now del dbExpired m' n :
  CleanupExpiredSessions m ttlHours now (Some del) (fun _ m => m) dbExpired = Some (m', n) ->
  let cutoff := (now - ttlHours * Hour)%Z in
  if (ttlHours <=? 0)%Z then m' = m /\ n = 0
  else
    (forall id, m' !! id = (m !! id) ≫= after_cleanup cutoff now del id)
    /\ n = length (List.filter del (candidates m cutoff))
           + length (List.filter (fun id => negb (IsSessionLive m' id) && del id) (dbExpired cutoff)).
Proof.
  unfold CleanupExpiredSessions. destruct (ttlHours <=? 0)%Z; [by intros [= <- <-]|]. cbn zeta.
  set (cutoff := (now - ttlHours * Hour)%Z).
  destruct (cleanup_all_spec cutoff now del (candidates m cutoff) m (candidates_NoDup m cutoff)) as [Hmap Hcount].
  destruct (cleanup_all cutoff now del _ m (candidates m cutoff)) as [m1 n1]. cbn [fst snd] in *. intros [= <- <-]. split.
  - intros id. rewrite Hmap. destruct (decide (id ∈ candidates m cutoff)) as [|Hout]; [done|].
    destruct (m !! id) as [sess|] eqn:Hm; [|done]. simpl. unfold after_cleanup.
    destruct (expiredSession cutoff sess) eqn:Hex; [|done]. destruct Hout. apply candidates_spec. by exists sess.
  - rewrite Hcount. f_equal. f_equal. apply filter_ext_in. intros id Hid%list_elem_of_In.
    apply candidates_spec in Hid as (sess & -> & ->). done.
Qed.

Lemma cleanup_spec_witness :
  let old := NewSession "s_1" "w" "u" 0 in
  let busy := (StartRun (NewSession "s_2" "w" "u" 0) "r_1" 1 0).1 in
  let m := <["s_1" := old]> (<["s_2" := busy]> ∅) in
  exists m' n, CleanupExpiredSessions m 1 (2 * Hour) (Some (fun _ => true)) (fun _ m => m) (fun _ => []) = Some (m', n)
    /\ m' !! "s_1" = None /\ m' !! "s_2" = Some busy /\ n = 1.
Proof.
  intros old busy m. destruct (CleanupExpiredSessions m 1 (2 * Hour) (Some (fun _ => true)) (fun _ m => m) (fun _ => []))
    as [[m' n]|] eqn:H; [|vm_compute in H; discriminate].
  destruct (cleanup_spec m 1 (2 * Hour) (fun _ => true) (fun _ => []) m' n H) as [Hmap Hn].
  exists m', n. split_and!; [done|by rewrite Hmap|by rewrite Hmap|]. rewrite Hn. vm_compute. reflexivity.
Defined.
