(* ===== verification/SqlGuard.v ===== *)
(** The guard on model-written SQL of [data/schema.go]: which texts are accepted as one
    read-only statement, how literals and comments are stripped, which table references
    are seen, and how identifiers are quoted ([data/ingester.go]).

    The two scanners of the code are loops over the bytes with four flags.  They are
    related to a reference lexer, an inductive relation that cuts a text into code
    bytes, quoted texts and comments. *)
From S2P Require Import Prelude.
From S2P Require Import GoStrings.
From S2P Require Import GoText.
From Stdlib Require Import Ascii.
Open Scope string_scope.
Open Scope list_scope.

Definition squote : ascii := "039"%char.
Definition dquote : ascii := "034"%char.
Definition newline : ascii := "010"%char.

(** [i+1 < len(query) && query[i+1] == c] *)
Definition next_is (c : ascii) (l : bytes) : bool :=
  match l with d :: _ => Ascii.eqb d c | [] => false end.
(** [i++] *)
Definition skip (l : bytes) : bytes := match l with _ :: t => t | [] => l end.

(** The flags are, in order, inSingleQuote, inDoubleQuote, inLineComment and
    inBlockComment. *)
Fixpoint hasMultipleStatements_from (sq dq lc bc : bool) (q : bytes) : bool :=
  match q with
  | [] => false
  | ch :: rest =>
      if lc then hasMultipleStatements_from sq dq (negb (Ascii.eqb ch newline)) bc rest
      else if bc then
        if Ascii.eqb ch "*" && next_is "/" rest
        then hasMultipleStatements_from sq dq lc false (skip rest)
        else hasMultipleStatements_from sq dq lc bc rest
      else if sq then
        if Ascii.eqb ch squote then
          if next_is squote rest then hasMultipleStatements_from sq dq lc bc (skip rest)
          else hasMultipleStatements_from false dq lc bc rest
        else hasMultipleStatements_from sq dq lc bc rest
      else if dq then
        if Ascii.eqb ch dquote then
          if next_is dquote rest then hasMultipleStatements_from sq dq lc bc (skip rest)
          else hasMultipleStatements_from sq false lc bc rest
        else hasMultipleStatements_from sq dq lc bc rest
      else if Ascii.eqb ch "-" && next_is "-" rest then
        hasMultipleStatements_from sq dq true bc (skip rest)
      else if Ascii.eqb ch "/" && next_is "*" rest then
        hasMultipleStatements_from sq dq lc true (skip rest)
      else if Ascii.eqb ch squote then hasMultipleStatements_from true dq lc bc rest
      else if Ascii.eqb ch dquote then hasMultipleStatements_from sq true lc bc rest
      else if Ascii.eqb ch ";" then true
      else hasMultipleStatements_from sq dq lc bc rest
  end.
Definition hasMultipleStatements (query : string) : bool :=
  hasMultipleStatements_from false false false false (to_bytes query).

Fixpoint strip_from (sq dq lc bc : bool) (q : bytes) : bytes :=
  match q with
  | [] => []
  | ch :: rest =>
      if lc then
        if Ascii.eqb ch newline then " "%char :: strip_from sq dq false bc rest
        else strip_from sq dq lc bc rest
      else if bc then
        if Ascii.eqb ch "*" && next_is "/" rest
        then " "%char :: strip_from sq dq lc false (skip rest)
        else strip_from sq dq lc bc rest
      else if sq then
        if Ascii.eqb ch squote then
          if next_is squote rest then strip_from sq dq lc bc (skip rest)
          else " "%char :: strip_from false dq lc bc rest
        else strip_from sq dq lc bc rest
      else if dq then
        if Ascii.eqb ch dquote then
          if next_is dquote rest then strip_from sq dq lc bc (skip rest)
          else " "%char :: strip_from sq false lc bc rest
        else strip_from sq dq lc bc rest
      else if Ascii.eqb ch "-" && next_is "-" rest then strip_from sq dq true bc (skip rest)
      else if Ascii.eqb ch "/" && next_is "*" rest then strip_from sq dq lc true (skip rest)
      else if Ascii.eqb ch squote then " "%char :: strip_from true dq lc bc rest
      else if Ascii.eqb ch dquote then " "%char :: strip_from sq true lc bc rest
      else ch :: strip_from sq dq lc bc rest
  end.
Definition stripSQLStringsAndComments (query : string) : string :=
  of_bytes (strip_from false false false false (to_bytes query)).

Inductive QueryError : Type :=
| EmptySQL | SurroundingSpace | SeveralStatements | NotReadOnly.

(** The upper-case table of [unicode] is an argument. *)
Definition normalizeReadOnlyQuery (table : Z -> Z) (query : string) : res QueryError string :=
  guard negb (TrimSpace query =? "")%string else EmptySQL;;
  guard (query =? TrimSpace query)%string else SurroundingSpace;;
  guard negb (hasMultipleStatements query) else SeveralStatements;;
  let inspection := stripSQLStringsAndComments query in
  match Fields (ToUpper table (TrimSpace inspection)) with
  | w :: _ => if (w =? "SELECT")%string || (w =? "WITH")%string then Ok query else Err NotReadOnly
  | [] => Err NotReadOnly
  end.
Definition NormalizeReadOnlyQuery := normalizeReadOnlyQuery.

(** ** Table references *)

(** [[A-Za-z_]] and [[A-Za-z0-9_$]] under [(?i)]: case folding adds U+017F (long s) and
    U+212A (the Kelvin sign). *)
Definition folded_letters : re :=
  RAlt (RSeq (byte_is "197") (byte_is "191"))
       (RSeq (byte_is "226") (RSeq (byte_is "132") (byte_is "170"))).
Definition is_letter (c : ascii) : bool := in_range 65 90 c || in_range 97 122 c.
Definition ident_start : re := RAlt (RByte (fun c => is_letter c || Ascii.eqb c "_")) folded_letters.
Definition ident_rest : re :=
  RAlt (RByte (fun c => is_letter c || in_range 48 57 c || Ascii.eqb c "_" || Ascii.eqb c "$")) folded_letters.
Definition re_ident : re := RSeq ident_start (RStar ident_rest).
Definition re_quoted (q : ascii) : re :=
  RSeq (byte_is q) (RSeq (RPlus (RByte (fun c => negb (Ascii.eqb c q)))) (byte_is q)).
Definition re_name : re := RAlt (re_quoted dquote) (RAlt (re_quoted "`") re_ident).

Definition queryTableRefPattern : re :=
  RSeq RBound (RSeq (RAlt (word_is "FROM") (word_is "JOIN")) (RSeq (RPlus re_space)
    (RGroup (RSeq re_name
      (ROpt (RSeq (RStar re_space) (RSeq (byte_is ".") (RSeq (RStar re_space) re_name)))))))).
(** [AS] under [(?i)]: the [S] also matches U+017F. *)
Definition re_as : re := RSeq (letter_is "A") (RAlt (letter_is "S") (RSeq (byte_is "197") (byte_is "191"))).
Definition queryCTEPattern : re :=
  RSeq RBound (RSeq (RAlt (word_is "WITH") (byte_is ",")) (RSeq (RStar re_space)
    (RSeq (RGroup re_ident) (RSeq (RPlus re_space) (RSeq re_as (RSeq (RStar re_space) (byte_is "("))))))).

(** [trimmed[1:len(trimmed)-1]] *)
Definition inner (l : bytes) : bytes := removelast (skip l).

Definition quoted_by (q : ascii) (l : bytes) : bool :=
  next_is q l && match last l with Some c => Ascii.eqb c q | None => false end.

Definition unquoteSQLIdentifier (part : string) : string :=
  let trimmed := TrimSpace part in
  let l := to_bytes trimmed in
  if (2 <=? length l)%nat then
    if quoted_by dquote l then of_bytes (undouble_byte dquote (inner l))
    else if quoted_by "`" l then of_bytes (undouble_byte "`" (inner l))
    else trimmed
  else trimmed.

Definition ExtractQueryTableRefs (query : string) : list string :=
  let inspection := to_bytes (stripSQLStringsAndComments query) in
  map (fun m => String.concat "." (map unquoteSQLIdentifier (Split (of_bytes m) "."%char)))
      (FindAllSubmatch queryTableRefPattern inspection)
  ++ map (fun m => unquoteSQLIdentifier (of_bytes m)) (FindAllSubmatch queryCTEPattern inspection).

(** ** Quoting identifiers *)

Inductive IdentError : Type := EmptyIdent | NulIdent | LongIdent (shown : string) | BadIdent (name : string).

Definition ident_byte (c : ascii) : bool := is_letter c || in_range 48 57 c || Ascii.eqb c "_".

Definition ValidateSQLIdent (name : string) : res IdentError unit :=
  guard negb (name =? "")%string else EmptyIdent;;
  guard (len name <=? 128)%Z else LongIdent (String.substring 0 20 name);;
  guard forallb ident_byte (to_bytes name) else BadIdent name;;
  Ok tt.

Definition quote_with (q : ascii) (name : string) : string :=
  of_bytes (q :: double_byte q (to_bytes name) ++ [q]).

Definition QuoteSQLiteIdentifier (name : string) : res IdentError string :=
  guard negb (name =? "")%string else EmptyIdent;;
  guard negb (contains_byte name "000"%char) else NulIdent;;
  Ok (quote_with dquote name).
(** [service/mysql_service.go] and [service/postgres_service.go]. *)
Definition quoteMySQLIdentifier (name : string) : res IdentError string :=
  guard negb (name =? "")%string && negb (TrimSpace name =? "")%string else EmptyIdent;;
  guard negb (contains_byte name "000"%char) else NulIdent;;
  Ok (quote_with "`" name).
Definition quotePGIdentifier (name : string) : res IdentError string :=
  guard negb (name =? "")%string && negb (TrimSpace name =? "")%string else EmptyIdent;;
  guard negb (contains_byte name "000"%char) else NulIdent;;
  Ok (quote_with dquote name).

(** * The reference lexer *)

Inductive token : Type :=
| TCode (c : ascii)
| TQuoted (q : ascii) (body : bytes)
| TLine (body : bytes)
| TBlock (body : bytes)
| TOpenQuoted (q : ascii) (body : bytes)
| TOpenLine (body : bytes)
| TOpenBlock (body : bytes).

Definition is_quote (c : ascii) : bool := Ascii.eqb c squote || Ascii.eqb c dquote.

(** A byte of code: no quote, and not the start of a comment. *)
Definition code_byte (c : ascii) (rest : bytes) : bool :=
  negb (is_quote c) && negb (Ascii.eqb c "-" && next_is "-" rest)
  && negb (Ascii.eqb c "/" && next_is "*" rest).

Fixpoint no_close (b : bytes) : bool :=
  match b with
  | [] => true
  | c :: b' => negb (Ascii.eqb c "*" && next_is "/" b') && no_close b'
  end.
Definition no_newline (b : bytes) : bool := forallb (fun c => negb (Ascii.eqb c newline)) b.

(** [lexes ts s]: the text [s] is the sequence of tokens [ts]; inside a quoted text a
    doubled quote stands for one, and only the last token may be left open. *)
Inductive lexes : list token -> bytes -> Prop :=
| lex_nil : lexes [] []
| lex_code c s ts : code_byte c s = true -> lexes ts s -> lexes (TCode c :: ts) (c :: s)
| lex_quoted q b s ts : is_quote q = true -> next_is q s = false -> lexes ts s ->
    lexes (TQuoted q b :: ts) (q :: double_byte q b ++ q :: s)
| lex_line b s ts : no_newline b = true -> lexes ts s ->
    lexes (TLine b :: ts) ("-"%char :: "-"%char :: b ++ newline :: s)
| lex_block b s ts : no_close b = true -> lexes ts s ->
    lexes (TBlock b :: ts) ("/"%char :: "*"%char :: b ++ "*"%char :: "/"%char :: s)
| lex_open_quoted q b : is_quote q = true -> lexes [TOpenQuoted q b] (q :: double_byte q b)
| lex_open_line b : no_newline b = true -> lexes [TOpenLine b] ("-"%char :: "-"%char :: b)
| lex_open_block b : no_close b = true -> lexes [TOpenBlock b] ("/"%char :: "*"%char :: b).

(** What a token leaves in the stripped text. *)
Definition token_strip (t : token) : bytes :=
  match t with
  | TCode c => [c]
  | TQuoted _ _ => [" "%char; " "%char]
  | TLine _ | TBlock _ | TOpenQuoted _ _ => [" "%char]
  | TOpenLine _ | TOpenBlock _ => []
  end.
Definition tokens_strip (ts : list token) : bytes := concat (map token_strip ts).
Definition separates (t : token) : bool := match t with TCode c => Ascii.eqb c ";" | _ => false end.

(** * Lemmas on the scanners *)

(** Induction for loops that advance by one or two bytes. *)
Lemma scan_ind (P : bytes -> Prop) :
  P [] -> (forall c l, P l -> P (skip l) -> P (c :: l)) -> forall l, P l.
Proof.
  intros Hnil Hcons l. assert (P l /\ P (skip l)) as [H _]; [|exact H].
  induction l as [|c l [IH1 IH2]]; [done|]. split; [by apply Hcons|done].
Qed.

Ltac byte_cases :=
  repeat match goal with
  | |- context [if ?b then _ else _] => destruct b eqn:?
  end.

Lemma multiple_strip l : forall sq dq lc bc,
  hasMultipleStatements_from sq dq lc bc l = existsb (fun c => Ascii.eqb c ";") (strip_from sq dq lc bc l).
Proof.
  induction l as [|c l IH1 IH2] using scan_ind; intros sq dq lc bc; [done|].
  cbn [hasMultipleStatements_from strip_from].
  destruct lc; [destruct (Ascii.eqb c newline); cbn; by rewrite IH1|].
  byte_cases; cbn; rewrite ?IH1, ?IH2; try done.
  - by match goal with H : Ascii.eqb c ";" = true |- _ => rewrite H end.
  - by match goal with H : Ascii.eqb c ";" = false |- _ => rewrite H end.
Qed.

Lemma double_byte_app q a b : double_byte q (a ++ b) = double_byte q a ++ double_byte q b.
Proof.
  induction a as [|c a IH]; [done|]. cbn. destruct (Ascii.eqb c q); by rewrite IH.
Qed.

Lemma next_double q c b s : next_is q (double_byte q (c :: b) ++ s) = Ascii.eqb c q.
Proof. cbn. destruct (Ascii.eqb c q) eqn:E; cbn; by rewrite E. Qed.

Lemma is_quote_cases q : is_quote q = true -> q = squote \/ q = dquote.
Proof. unfold is_quote. rewrite orb_true_iff, !Ascii.eqb_eq. done. Qed.

(** The flags inside a text quoted by [q]. *)
Definition sq_of (q : ascii) : bool := Ascii.eqb q squote.
Definition dq_of (q : ascii) : bool := Ascii.eqb q dquote.

Lemma strip_quote_step q c l : is_quote q = true ->
  strip_from (sq_of q) (dq_of q) false false (c :: l) =
  if Ascii.eqb c q then
    if next_is q l then strip_from (sq_of q) (dq_of q) false false (skip l)
    else " "%char :: strip_from false false false false l
  else strip_from (sq_of q) (dq_of q) false false l.
Proof. by intros [-> | ->]%is_quote_cases. Qed.

Lemma strip_in_quote q b s : is_quote q = true -> next_is q s = false ->
  strip_from (sq_of q) (dq_of q) false false (double_byte q b ++ q :: s)
  = " "%char :: strip_from false false false false s.
Proof.
  intros Hq Hs. induction b as [|c b IH].
  - cbn [double_byte app]. by rewrite strip_quote_step, Ascii.eqb_refl, Hs.
  - cbn [double_byte]. destruct (Ascii.eqb c q) eqn:E; cbn [app];
      rewrite strip_quote_step, E; [|done..].
    cbn [next_is]. rewrite E. done.
Qed.

Lemma strip_open_quote q b : is_quote q = true ->
  strip_from (sq_of q) (dq_of q) false false (double_byte q b) = [].
Proof.
  intros Hq. induction b as [|c b IH]; [done|].
  cbn [double_byte]. destruct (Ascii.eqb c q) eqn:E; rewrite strip_quote_step, E; [|done..].
  cbn [next_is]. rewrite E. done.
Qed.

Lemma strip_line b s : no_newline b = true ->
  strip_from false false true false (b ++ newline :: s) = " "%char :: strip_from false false false false s.
Proof.
  induction b as [|c b IH]; [done|]. cbn [no_newline forallb app strip_from].
  intros [Hc Hb]%andb_true_iff. apply negb_true_iff in Hc. rewrite Hc. auto.
Qed.

Lemma strip_open_line b : no_newline b = true -> strip_from false false true false b = [].
Proof.
  induction b as [|c b IH]; [done|]. cbn [no_newline forallb strip_from].
  intros [Hc Hb]%andb_true_iff. apply negb_true_iff in Hc. rewrite Hc. auto.
Qed.

Lemma strip_block b s : no_close b = true ->
  strip_from false false false true (b ++ "*"%char :: "/"%char :: s)
  = " "%char :: strip_from false false false false s.
Proof.
  induction b as [|c b IH]; [done|]. cbn [no_close app strip_from].
  intros [Hc Hb]%andb_true_iff. apply negb_true_iff in Hc.
  assert (next_is "/" (b ++ "*"%char :: "/"%char :: s) = next_is "/" b) as ->.
  { destruct b; done. }
  rewrite Hc. auto.
Qed.

Lemma strip_open_block b : no_close b = true -> strip_from false false false true b = [].
Proof.
  induction b as [|c b IH]; [done|]. cbn [no_close strip_from].
  intros [Hc Hb]%andb_true_iff. apply negb_true_iff in Hc. rewrite Hc. auto.
Qed.

Lemma strip_code c l : code_byte c l = true ->
  strip_from false false false false (c :: l) = c :: strip_from false false false false l.
Proof.
  unfold code_byte, is_quote. rewrite !andb_true_iff, !negb_true_iff, orb_false_iff.
  intros [[[H1 H2] H3] H4]. cbn [strip_from]. by rewrite H1, H2, H3, H4.
Qed.

Lemma strip_open q l : is_quote q = true ->
  strip_from false false false false (q :: l) = " "%char :: strip_from (sq_of q) (dq_of q) false false l.
Proof. by intros [-> | ->]%is_quote_cases. Qed.

Lemma strip_lexes ts s : lexes ts s -> strip_from false false false false s = tokens_strip ts.
Proof.
  induction 1; [done|..]; unfold tokens_strip in *; cbn [map concat token_strip app] in *.
  - rewrite strip_code; [by f_equal|done].
  - rewrite strip_open, strip_in_quote; [by f_equal; f_equal|done..].
  - cbn [strip_from next_is skip]. cbn. rewrite strip_line; [by f_equal|done].
  - cbn. rewrite strip_block; [by f_equal|done].
  - by rewrite strip_open, strip_open_quote.
  - cbn. by rewrite strip_open_line.
  - cbn. by rewrite strip_open_block.
Qed.

(** Every text has a lexing. *)
Lemma split_quote q l :
  (exists b s, l = double_byte q b ++ q :: s /\ next_is q s = false) \/ exists b, l = double_byte q b.
Proof.
  induction l as [|c l IH1 IH2] using scan_ind; [right; by exists []|].
  destruct (Ascii.eqb c q) eqn:E.
  - apply Ascii.eqb_eq in E as ->. destruct (next_is q l) eqn:Hn.
    + destruct l as [|d l]; [done|]. cbn in Hn, IH2. apply Ascii.eqb_eq in Hn as ->.
      destruct IH2 as [(b & s & -> & Hs)|(b & ->)].
      * left. exists (q :: b), s. cbn. by rewrite Ascii.eqb_refl.
      * right. exists (q :: b). cbn. by rewrite Ascii.eqb_refl.
    + left. by exists [], l.
  - destruct IH1 as [(b & s & -> & Hs)|(b & ->)].
    + left. exists (c :: b), s. cbn. by rewrite E.
    + right. exists (c :: b). cbn. by rewrite E.
Qed.

Lemma split_line l :
  (exists b s, l = b ++ newline :: s /\ no_newline b = true) \/ no_newline l = true.
Proof.
  induction l as [|c l IH]; [by right|]. destruct (Ascii.eqb c newline) eqn:E.
  - apply Ascii.eqb_eq in E as ->. left. by exists [], l.
  - destruct IH as [(b & s & -> & Hb)|Hl].
    + left. exists (c :: b), s. cbn. by rewrite E.
    + right. cbn. by rewrite E.
Qed.

Lemma split_block l :
  (exists b s, l = b ++ "*"%char :: "/"%char :: s /\ no_close b = true) \/ no_close l = true.
Proof.
  induction l as [|c l IH]; [by right|].
  destruct (Ascii.eqb c "*" && next_is "/" l) eqn:E.
  - apply andb_true_iff in E as [E1 E2]. apply Ascii.eqb_eq in E1 as ->.
    destruct l as [|d l]; [done|]. cbn in E2. apply Ascii.eqb_eq in E2 as ->.
    left. by exists [], l.
  - destruct IH as [(b & s & -> & Hb)|Hl].
    + left. exists (c :: b), s. cbn. split; [done|].
      rewrite andb_false_iff in E.
      assert (Ascii.eqb c "*" && next_is "/" b = false) as ->; [|done].
      destruct b as [|d b]; [by rewrite andb_false_r|]. cbn in E |- *. by apply andb_false_iff.
    + right. cbn. by rewrite E.
Qed.

Lemma lexes_total l : exists ts, lexes ts l.
Proof.
  induction l as [l IH] using (well_founded_induction (Wf_nat.well_founded_ltof _ (@length ascii))).
  unfold Wf_nat.ltof in IH. destruct l as [|c l]; [exists []; constructor|].
  destruct (is_quote c) eqn:Hq.
  { destruct (split_quote c l) as [(b & s & -> & Hs)|(b & ->)]; [|eexists; by constructor].
    destruct (IH s) as [ts Hts]; [cbn; rewrite length_app; cbn; lia|].
    eexists; by constructor. }
  destruct (code_byte c l) eqn:Hc.
  { destruct (IH l) as [ts Hts]; [cbn; lia|]. eexists; by constructor. }
  unfold code_byte in Hc. rewrite Hq in Hc. cbn [negb andb] in Hc.
  apply andb_false_iff in Hc as [Hc|Hc]; apply negb_false_iff, andb_true_iff in Hc as [E1 E2];
    apply Ascii.eqb_eq in E1 as ->; (destruct l as [|d l]; [done|]); cbn in E2; apply Ascii.eqb_eq in E2 as ->.
  - destruct (split_line l) as [(b & s & -> & Hs)|Hl]; [|eexists; by apply lex_open_line].
    destruct (IH s) as [ts Hts]; [cbn; rewrite length_app; cbn; lia|].
    eexists; by apply lex_line.
  - destruct (split_block l) as [(b & s & -> & Hs)|Hl]; [|eexists; by apply lex_open_block].
    destruct (IH s) as [ts Hts]; [cbn; rewrite length_app; cbn; lia|].
    eexists; by apply lex_block.
Qed.

Lemma separates_strip ts :
  existsb (fun c => Ascii.eqb c ";") (tokens_strip ts) = existsb separates ts.
Proof.
  unfold tokens_strip. induction ts as [|t ts IH]; [done|].
  cbn [map concat existsb]. rewrite existsb_app, IH. f_equal.
  destruct t; cbn; rewrite ?orb_false_r; done.
Qed.

Lemma multiple_lexes ts s : lexes ts (to_bytes s) ->
  hasMultipleStatements s = existsb separates ts.
Proof.
  intros H. unfold hasMultipleStatements. by rewrite multiple_strip, (strip_lexes ts), separates_strip.
Qed.

Lemma strip_lexing ts s : lexes ts (to_bytes s) ->
  stripSQLStringsAndComments s = of_bytes (tokens_strip ts).
Proof. intros H. unfold stripSQLStringsAndComments. by rewrite (strip_lexes ts). Qed.

Lemma scanners_lex s : exists ts, lexes ts (to_bytes s)
  /\ stripSQLStringsAndComments s = of_bytes (tokens_strip ts)
  /\ hasMultipleStatements s = existsb separates ts.
Proof.
  destruct (lexes_total (to_bytes s)) as [ts H]. exists ts.
  split; [done|]. split; [by apply strip_lexing|by apply multiple_lexes].
Qed.

Lemma normalized_same table q r : normalizeReadOnlyQuery table q = Ok r -> r = q.
Proof. unfold normalizeReadOnlyQuery. intros H. inv_ok H. done. Qed.

Lemma normalizeReadOnly_single table q r :
  normalizeReadOnlyQuery table q = Ok r -> hasMultipleStatements q = false.
Proof. unfold normalizeReadOnlyQuery. intros H. inv_ok H. by reflect_bools. Qed.

(** A byte that no UTF-8 space starts or ends with. *)
Definition edge (q : ascii) : bool :=
  let n := N_of_ascii q in ((33 <=? n) && (n <=? 127))%N.

Lemma edge_spaces q a b : edge q = true ->
  is_space1 q = false /\ is_space2 q a = false /\ is_space3 q a b = false
  /\ is_space2 a q = false /\ is_space3 b a q = false.
Proof.
  unfold edge. intros H. unfold is_space1, is_space2, is_space3.
  generalize dependent (N_of_ascii q). intros n Hn.
  generalize dependent (N_of_ascii a). generalize dependent (N_of_ascii b). intros m o.
  apply andb_true_iff in Hn as [H1 H2]. apply N.leb_le in H1, H2.
  repeat match goal with
  | |- context [(n =? ?k)%N] => replace (n =? k)%N with false by (symmetry; apply N.eqb_neq; lia)
  end.
  replace (n <=? 13)%N with false by (symmetry; apply N.leb_gt; lia).
  replace (128 <=? n)%N with false by (symmetry; apply N.leb_gt; lia).
  rewrite ?andb_false_r, ?orb_false_r. done.
Qed.

Lemma trim_left_edge q l : edge q = true -> trim_left (q :: l) = q :: l.
Proof.
  intros H. unfold trim_left. rewrite drop_units_cons.
  destruct (edge_spaces q q q H) as (-> & _). destruct l as [|b [|c l]]; [done|..].
  - by destruct (edge_spaces q b b H) as (_ & -> & _).
  - by destruct (edge_spaces q b c H) as (_ & -> & -> & _).
Qed.

Lemma trim_right_edge q l : edge q = true -> trim_right (l ++ [q]) = l ++ [q].
Proof.
  intros H. unfold trim_right. rewrite rev_app_distr. cbn [rev app].
  rewrite drop_units_cons. destruct (edge_spaces q q q H) as (-> & _).
  rewrite <- (rev_involutive l) at 2. generalize (rev l). clear l. intros l.
  destruct l as [|b [|c l]]; [done|..].
  - by destruct (edge_spaces q b b H) as (_ & _ & _ & -> & _).
  - by destruct (edge_spaces q b c H) as (_ & _ & _ & -> & ->).
Qed.

Lemma TrimSpace_edges q l : edge q = true ->
  TrimSpace (of_bytes (q :: l ++ [q])) = of_bytes (q :: l ++ [q]).
Proof.
  intros H. unfold TrimSpace. rewrite String.list_ascii_of_string_of_list_ascii, trim_left_edge by done.
  by rewrite app_comm_cons, trim_right_edge.
Qed.

Lemma TrimSpace_between c (m : string) d : edge c = true -> edge d = true ->
  TrimSpace (String c m ++ String d "")%string = (String c m ++ String d "")%string.
Proof.
  intros Hc Hd. unfold TrimSpace. rewrite to_bytes_app. cbn [String.list_ascii_of_string app].
  rewrite trim_left_edge, app_comm_cons, trim_right_edge by done.
  rewrite of_bytes_app. cbn. by rewrite String.string_of_list_ascii_of_string.
Qed.

Lemma unquote_quote q name : q = dquote \/ q = "`"%char ->
  unquoteSQLIdentifier (quote_with q name) = name.
Proof.
  intros Hq. unfold unquoteSQLIdentifier, quote_with.
  rewrite TrimSpace_edges, String.list_ascii_of_string_of_list_ascii by (by destruct Hq as [-> | ->]).
  set (l := double_byte q (to_bytes name)).
  assert (2 <= length (q :: l ++ [q]))%nat as Hlen by (cbn; rewrite length_app; cbn; lia).
  apply Nat.leb_le in Hlen. rewrite Hlen.
  assert (quoted_by q (q :: l ++ [q]) = true) as Hquoted.
  { unfold quoted_by. cbn [next_is]. rewrite app_comm_cons, last_snoc, Ascii.eqb_refl. done. }
  assert (of_bytes (undouble_byte q (inner (q :: l ++ [q]))) = name) as Hinner.
  { unfold inner. cbn [skip]. rewrite removelast_last. unfold l.
    by rewrite undouble_double, String.string_of_list_ascii_of_string. }
  destruct Hq as [-> | ->].
  - by rewrite Hquoted.
  - assert (quoted_by dquote ("`"%char :: l ++ ["`"%char]) = false) as -> by done.
    by rewrite Hquoted.
Qed.

(** ** Text around a statement *)

(** Bytes that start no token, and bytes that neither start nor end one. *)
Definition inert_byte (c : ascii) : bool :=
  negb (is_quote c || Ascii.eqb c "/" || Ascii.eqb c "-" || Ascii.eqb c ";").
Definition plain_byte (c : ascii) : bool := inert_byte c && negb (Ascii.eqb c newline || Ascii.eqb c "*").
Definition inert (l : bytes) : bool := forallb inert_byte l.
Definition plain (l : bytes) : bool := forallb plain_byte l.
Definition open_token (t : token) : bool :=
  match t with TOpenQuoted _ _ | TOpenLine _ | TOpenBlock _ => true | _ => false end.

Lemma inert_byte_spec c : inert_byte c = true ->
  is_quote c = false /\ Ascii.eqb c "/" = false /\ Ascii.eqb c "-" = false /\ Ascii.eqb c ";" = false.
Proof. unfold inert_byte. rewrite negb_true_iff, !orb_false_iff. tauto. Qed.

Lemma plain_byte_spec c : plain_byte c = true ->
  is_quote c = false /\ Ascii.eqb c newline = false /\ Ascii.eqb c "/" = false
  /\ Ascii.eqb c "-" = false /\ Ascii.eqb c "*" = false /\ Ascii.eqb c ";" = false.
Proof.
  unfold plain_byte. rewrite andb_true_iff, negb_true_iff, !orb_false_iff.
  intros [H%inert_byte_spec [H1 H2]]. tauto.
Qed.

Lemma plain_next q l : plain l = true -> plain_byte q = false -> next_is q l = false.
Proof.
  destruct l as [|c l]; [done|]. cbn. intros [Hc _]%andb_true_iff Hq.
  destruct (Ascii.eqb c q) eqn:E; [|done]. apply Ascii.eqb_eq in E as ->. congruence.
Qed.

Lemma plain_inert l : plain l = true -> inert l = true.
Proof.
  unfold plain, inert, plain_byte. rewrite !forallb_forall.
  intros H c Hc. by destruct (andb_prop _ _ (H c Hc)).
Qed.

Lemma inert_code c s : inert_byte c = true -> code_byte c s = true.
Proof. intros (H1 & H3 & H4 & _)%inert_byte_spec. unfold code_byte. by rewrite H1, H3, H4. Qed.

Lemma lexes_inert_app pre ts s : inert pre = true -> lexes ts s ->
  lexes (map TCode pre ++ ts) (pre ++ s).
Proof.
  intros Hp Hl. induction pre as [|c pre IH]; [done|].
  cbn in Hp. apply andb_true_iff in Hp as [Hc Hp]. cbn. constructor; [by apply inert_code|auto].
Qed.

Lemma tokens_strip_app ts1 ts2 : tokens_strip (ts1 ++ ts2) = tokens_strip ts1 ++ tokens_strip ts2.
Proof. unfold tokens_strip. by rewrite map_app, concat_app. Qed.

Lemma tokens_strip_code l : tokens_strip (map TCode l) = l.
Proof. unfold tokens_strip. induction l as [|c l IH]; [done|]. cbn. by f_equal. Qed.

Lemma separates_inert l : inert l = true -> existsb separates (map TCode l) = false.
Proof.
  induction l as [|c l IH]; [done|]. cbn. intros [Hc Hl]%andb_true_iff.
  apply inert_byte_spec in Hc as (_ & _ & _ & ->). auto.
Qed.

Lemma double_plain q l : is_quote q = true -> plain l = true -> double_byte q l = l.
Proof.
  intros Hq. induction l as [|c l IH]; [done|]. cbn. intros [Hc Hl]%andb_true_iff.
  destruct (Ascii.eqb c q) eqn:E; [|by rewrite IH].
  apply Ascii.eqb_eq in E as ->. apply plain_byte_spec in Hc as (Hc & _). congruence.
Qed.

Lemma no_newline_plain b l : plain l = true -> no_newline (b ++ l) = no_newline b.
Proof.
  intros Hl. unfold no_newline. rewrite forallb_app.
  assert (forallb (fun c => negb (Ascii.eqb c newline)) l = true) as ->; [|apply andb_true_r].
  revert Hl. unfold plain. rewrite !forallb_forall. intros Hl c Hc.
  by destruct (plain_byte_spec c (Hl c Hc)) as (_ & -> & _).
Qed.

Lemma no_close_plain b l : plain l = true -> no_close b = true -> no_close (b ++ l) = true.
Proof.
  intros Hl. induction b as [|c b IH]; cbn.
  - intros _. induction l as [|c l IH]; [done|]. cbn in Hl |- *. apply andb_true_iff in Hl as [Hc Hl].
    apply plain_byte_spec in Hc as (_ & _ & _ & _ & -> & _). auto.
  - intros [Hc Hb]%andb_true_iff. rewrite IH by done. destruct b as [|d b]; [|cbn in *; by rewrite Hc].
    cbn [app next_is]. rewrite (plain_next "/" l Hl eq_refl), andb_false_r. done.
Qed.

Definition is_closed (ts : list token) : bool := negb (existsb open_token ts).

(** Plain text after a statement continues it as code, or disappears in the literal or
    comment that the statement leaves open. *)
Lemma lexes_app_plain ts s post : lexes ts s -> plain post = true ->
  exists ts', lexes ts' (s ++ post) /\ existsb separates ts' = existsb separates ts
    /\ tokens_strip ts' = tokens_strip ts ++ (if is_closed ts then post else []).
Proof.
  intros Hl Hp. unfold is_closed. induction Hl as [|c s ts Hc Hl IH|q b s ts Hq Hs Hl IH|b s ts Hb Hl IH|b s ts Hb Hl IH|q b Hq|b Hb|b Hb].
  - exists (map TCode post). split; [|split; [by apply separates_inert, plain_inert|apply tokens_strip_code]].
    pose proof (lexes_inert_app post [] [] (plain_inert _ Hp) lex_nil) as H. by rewrite !app_nil_r in H.
  - destruct IH as (ts' & H1 & H2 & H3). exists (TCode c :: ts'). split; [|split].
    + cbn. constructor; [|done]. destruct s as [|d s]; [|done]. cbn [app].
      unfold code_byte in *. rewrite (plain_next "-" post Hp eq_refl), (plain_next "*" post Hp eq_refl).
      rewrite !andb_false_r in *. done.
    + cbn. by rewrite H2.
    + cbn [existsb open_token orb]. unfold tokens_strip in *. cbn. by rewrite H3.
  - destruct IH as (ts' & H1 & H2 & H3). exists (TQuoted q b :: ts'). split; [|split].
    + cbn. rewrite <- app_assoc. cbn. constructor; [done| |done].
      destruct s as [|d s]; [|done]. cbn. apply plain_next; [done|].
      unfold plain_byte, inert_byte. by rewrite Hq.
    + done.
    + cbn [existsb open_token orb]. unfold tokens_strip in *. cbn. by rewrite H3.
  - destruct IH as (ts' & H1 & H2 & H3). exists (TLine b :: ts'). split; [|split].
    + cbn. rewrite <- app_assoc. cbn. by constructor.
    + done.
    + cbn [existsb open_token orb]. unfold tokens_strip in *. cbn. by rewrite H3.
  - destruct IH as (ts' & H1 & H2 & H3). exists (TBlock b :: ts'). split; [|split].
    + cbn. rewrite <- app_assoc. cbn. by constructor.
    + done.
    + cbn [existsb open_token orb]. unfold tokens_strip in *. cbn. by rewrite H3.
  - exists [TOpenQuoted q (b ++ post)]. split; [|done]. cbn.
    rewrite <- (double_plain q post) at 2 by done. rewrite <- double_byte_app. by constructor.
  - exists [TOpenLine (b ++ post)]. split; [|done]. constructor. by rewrite no_newline_plain.
  - exists [TOpenBlock (b ++ post)]. split; [|done]. constructor. by apply no_close_plain.
Qed.

(** * Properties of the guard *)

(** C35: The two scanners agree with the reference lexer.  Every text has a lexing into
    code bytes, quoted texts and comments; for each of them
    [stripSQLStringsAndComments] returns the code bytes with blanks for the literals
    and comments, and [hasMultipleStatements] answers whether a code byte is a
    semicolon: what a literal or a comment contains has no influence on either. *)
Theorem scanners_agree_with_lexer query :
  (exists ts, lexes ts (to_bytes query)) /\
  forall ts, lexes ts (to_bytes query) ->
    stripSQLStringsAndComments query = of_bytes (tokens_strip ts)
    /\ hasMultipleStatements query = existsb separates ts.
Proof.
  split; [apply lexes_total|]. intros ts H. split; [by apply strip_lexing|by apply multiple_lexes].
Qed.

(** A quoted identifier is read back exactly, by the code's own unquoting, for each
    of the three dialects, and (with double quotes) it is one token of the statement it
    is put in, whatever the name contains: no name of a column or a table can end the
    identifier, start a comment or separate statements. *)
Theorem quoted_identifier_roundtrip name :
  (forall s, QuoteSQLiteIdentifier name = Ok s \/ quotePGIdentifier name = Ok s \/ quoteMySQLIdentifier name = Ok s ->
     unquoteSQLIdentifier s = name) /\
  (forall s ts post, QuoteSQLiteIdentifier name = Ok s \/ quotePGIdentifier name = Ok s ->
     lexes ts post -> next_is dquote post = false ->
     lexes (TQuoted dquote (to_bytes name) :: ts) (to_bytes s ++ post)).
Proof.
  assert (forall s, QuoteSQLiteIdentifier name = Ok s -> s = quote_with dquote name) as HL.
  { intros s H. unfold QuoteSQLiteIdentifier in H. by inv_ok H. }
  assert (forall s, quotePGIdentifier name = Ok s -> s = quote_with dquote name) as HP.
  { intros s H. unfold quotePGIdentifier in H. by inv_ok H. }
  assert (forall s, quoteMySQLIdentifier name = Ok s -> s = quote_with "`" name) as HM.
  { intros s H. unfold quoteMySQLIdentifier in H. by inv_ok H. }
  split.
  - intros s [->%HL|[->%HP| ->%HM]]; apply unquote_quote; auto.
  - intros s ts post Hs Hlex Hnext.
    assert (s = quote_with dquote name) as -> by (destruct Hs; auto).
    unfold quote_with. rewrite String.list_ascii_of_string_of_list_ascii.
    change ((dquote :: ?l ++ [dquote]) ++ post) with (dquote :: (l ++ [dquote]) ++ post).
    rewrite <- app_assoc. by apply lex_quoted.
Qed.

(** The guard accepts exactly the texts without surrounding space whose lexing has
    no semicolon in code and whose code starts with the word SELECT or WITH, and
    returns them unchanged. *)
Theorem normalizeReadOnlyQuery_accepts table query r :
  normalizeReadOnlyQuery table query = Ok r <->
  r = query /\ query = TrimSpace query /\ query <> "" /\
  (exists ts, lexes ts (to_bytes query) /\ existsb separates ts = false
     /\ exists w ws, Fields (ToUpper table (TrimSpace (of_bytes (tokens_strip ts)))) = w :: ws
        /\ (w = "SELECT" \/ w = "WITH")).
Proof.
  destruct (scanners_lex query) as (ts & Hlex & Hstrip & Hmult).
  unfold normalizeReadOnlyQuery. split.
  - intros H. inv_ok H. reflect_bools. subst r.
    match goal with Hw : (_ || _)%bool = true |- _ => apply orb_true_iff in Hw end.
    split; [done|]. split; [done|]. split; [congruence|]. exists ts. rewrite <- Hstrip.
    split; [done|]. split; [congruence|]. eexists _, _. split; [eassumption|].
    rewrite <- !String.eqb_eq. done.
  - intros (-> & Hex & Hne & ts' & Hlex' & Hsep & w & ws & Hw & Hword).
    rewrite <- Hex, String.eqb_refl. apply String.eqb_neq in Hne. rewrite Hne. cbn [negb].
    rewrite (multiple_lexes ts'), Hsep by done. cbn [negb].
    rewrite (strip_lexing ts'), Hw by done. by destruct Hword as [-> | ->].
Qed.
