(* ===== verification/LiveQuery.v ===== *)
(** Queries against live sources: the boundary of a session's bound objects
    ([service/live_source.go]) and the execution of an accepted query on the analysis
    database ([data/schema.go]) and on the upstream databases
    ([service/postgres_service.go], [service/mysql_service.go]).

    A database connection is a parameter: which statements succeed and what a query
    returns.  An execution yields the statements it sent, in order, and its result. *)
From S2P Require Import Prelude.
From S2P Require Import GoStrings.
From S2P Require Import GoText.
From S2P Require Import SqlGuard.
From Stdlib Require Import Ascii.
From stdpp Require Import pretty.
Open Scope string_scope.
Open Scope list_scope.

(** * Executing a query *)

(** A value the driver scans into an [interface{}]: a [[]byte] or something else. *)
Inductive SqlValue (V : Type) : Type :=
| VBytes (b : string)
| VString (s : string)
| VOther (v : V).
Arguments VBytes {V} b.
Arguments VString {V} s.
Arguments VOther {V} v.

Record DbRows (V : Type) : Type := {
  db_columns : option (list string);          (* rows.Columns() *)
  db_rows : list (option (list (SqlValue V))); (* each row, None when Scan fails *)
  db_err : bool;                              (* rows.Err() is not nil at the end *)
  db_close_ok : bool                          (* rows.Close() *)
}.
Arguments db_columns {V} _.
Arguments db_rows {V} _.
Arguments db_err {V} _.
Arguments db_close_ok {V} _.

(** A connection: whether a statement of [Exec] succeeds and what [Query] returns. *)
Record Conn (V : Type) : Type := {
  conn_exec : string -> bool;
  conn_query : string -> option (DbRows V);
  conn_close_ok : bool
}.
Arguments conn_exec {V} _.
Arguments conn_query {V} _.
Arguments conn_close_ok {V} _.

Inductive QueryExecError : Type :=
| ErrGuard (e : QueryError)
| ErrTimeoutArg | ErrMaxRowsArg
| ErrNoContext
| ErrNoConnection
| ErrStatement (stmt : string)
| ErrColumns
| ErrDuplicateColumn (c : string)
| ErrScan
| ErrRowLimit (limit : Z)
| ErrRows
| ErrCloseRows | ErrResetReadOnly | ErrCloseConnection.

Record QueryResult (V : Type) : Type := {
  Columns : list string;
  Rows : list (gmap string (SqlValue V))
}.
Arguments Columns {V} _.
Arguments Rows {V} _.

Definition queryRowLimit : Z := 200.
Definition queryProbeRows : Z := queryRowLimit + 1.

Section Execution.
Context {V : Type}.

(** The duplicate-column check: the first column seen before. *)
Fixpoint first_duplicate (seen : gset string) (cols : list string) : option string :=
  match cols with
  | [] => None
  | c :: cols' => if decide (c ∈ seen) then Some c else first_duplicate ({[c]} ∪ seen) cols'
  end.

Definition bytes_to_string (v : SqlValue V) : SqlValue V :=
  match v with VBytes b => VString b | _ => v end.

(** [row := make(map); for i, col := range columns { row[col] = values[i] }] *)
Definition scan_row (cols : list string) (values : list (SqlValue V)) : gmap string (SqlValue V) :=
  list_to_map (zip cols (map bytes_to_string values)).

Fixpoint scan_rows (cols : list string) (bound limit : Z) (result : list (gmap string (SqlValue V)))
    (rows : list (option (list (SqlValue V)))) : res QueryExecError (list (gmap string (SqlValue V))) :=
  match rows with
  | [] => Ok result
  | None :: _ => Err ErrScan
  | Some values :: rows' =>
      let result := result ++ [scan_row cols values] in
      if (bound <=? Z.of_nat (length result))%Z then Err (ErrRowLimit limit)
      else scan_rows cols bound limit result rows'
  end.

Definition read_rows (bound limit : Z) (rows : DbRows V) : res QueryExecError (QueryResult V) :=
  match db_columns rows with
  | None => Err ErrColumns
  | Some cols =>
      match first_duplicate ∅ cols with
      | Some c => Err (ErrDuplicateColumn c)
      | None =>
          let? result := scan_rows cols bound limit [] (db_rows rows) in
          if db_err rows then Err ErrRows else Ok {| Columns := cols; Rows := result |}
      end
  end.

Definition wrap_query (alias : string) (query : string) (limit : Z) : string :=
  ("SELECT * FROM (" ++ query ++ ") AS " ++ alias ++ " LIMIT " ++ pretty limit)%string.

Definition join_errors (r : res (list QueryExecError) (QueryResult V)) (es : list QueryExecError) :
    res (list QueryExecError) (QueryResult V) :=
  match es with
  | [] => r
  | _ => match r with Ok _ => Err es | Err es0 => Err (es0 ++ es) end
  end.
Definition lift (r : res QueryExecError (QueryResult V)) : res (list QueryExecError) (QueryResult V) :=
  match r with Ok x => Ok x | Err e => Err [e] end.

(** [ExecuteQueryDetailedContext]: [parent] tells a context from nil, and [conn] is
    [None] when [db.Conn] fails. *)
Definition ExecuteQueryDetailedContext (table : Z -> Z) (parent : bool) (conn : option (Conn V))
    (query : string) (timeout : Z) : list string * res (list QueryExecError) (QueryResult V) :=
  match normalizeReadOnlyQuery table query with
  | Err e => ([], Err [ErrGuard e])
  | Ok normalizedQuery =>
      if (timeout <=? 0)%Z then ([], Err [ErrTimeoutArg])
      else if negb parent then ([], Err [ErrNoContext])
      else match conn with
      | None => ([], Err [ErrNoConnection])
      | Some conn =>
          let on := "PRAGMA query_only = ON" in
          let off := "PRAGMA query_only = OFF" in
          let deferred := (if conn_exec conn off then [] else [ErrResetReadOnly])
                          ++ (if conn_close_ok conn then [] else [ErrCloseConnection]) in
          if negb (conn_exec conn on) then ([on; off], join_errors (Err [ErrStatement on]) deferred)
          else
            let wrappedQuery := wrap_query "_oda_query" normalizedQuery queryProbeRows in
            match conn_query conn wrappedQuery with
            | None => ([on; wrappedQuery; off], join_errors (Err [ErrStatement wrappedQuery]) deferred)
            | Some rows =>
                ([on; wrappedQuery; off],
                 join_errors (join_errors (lift (read_rows queryProbeRows queryRowLimit rows))
                                (if db_close_ok rows then [] else [ErrCloseRows])) deferred)
            end
      end
  end.

(** [scanLiveQueryRows] *)
Definition scanLiveQueryRows (rows : DbRows V) (maxRows : Z) : res QueryExecError (QueryResult V) :=
  if (maxRows <? 1)%Z then Err ErrMaxRowsArg else read_rows maxRows (maxRows - 1) rows.

Definition ExecutePostgresLiveQuery (conn : option (Conn V)) (sql : string) (timeoutSeconds maxRows : Z) :
    list string * res QueryExecError (QueryResult V) :=
  if (timeoutSeconds <? 1)%Z then ([], Err ErrTimeoutArg)
  else if (maxRows <? 1)%Z then ([], Err ErrMaxRowsArg)
  else match conn with
  | None => ([], Err ErrNoConnection)
  | Some conn =>
      let begin := "BEGIN TRANSACTION READ ONLY" in
      let set_timeout := ("SET LOCAL statement_timeout = " ++ pretty (timeoutSeconds * 1000)%Z)%string in
      let wrapped := wrap_query "_oda_live_query" sql maxRows in
      if negb (conn_exec conn begin) then ([begin], Err (ErrStatement begin))
      else if negb (conn_exec conn set_timeout) then
        ([begin; set_timeout; "ROLLBACK"], Err (ErrStatement set_timeout))
      else match conn_query conn wrapped with
      | None => ([begin; set_timeout; wrapped; "ROLLBACK"], Err (ErrStatement wrapped))
      | Some rows => ([begin; set_timeout; wrapped; "ROLLBACK"], scanLiveQueryRows rows maxRows)
      end
  end.

Definition ExecuteMySQLLiveQuery (conn : option (Conn V)) (sql : string) (timeoutSeconds maxRows : Z) :
    list string * res QueryExecError (QueryResult V) :=
  if (timeoutSeconds <? 1)%Z then ([], Err ErrTimeoutArg)
  else if (maxRows <? 1)%Z then ([], Err ErrMaxRowsArg)
  else match conn with
  | None => ([], Err ErrNoConnection)
  | Some conn =>
      let begin := "START TRANSACTION READ ONLY" in
      let set_timeout := ("SET SESSION max_execution_time=" ++ pretty (timeoutSeconds * 1000)%Z)%string in
      let wrapped := wrap_query "_oda_live_query" sql maxRows in
      if negb (conn_exec conn set_timeout) then ([set_timeout], Err (ErrStatement set_timeout))
      else if negb (conn_exec conn begin) then ([set_timeout; begin], Err (ErrStatement begin))
      else match conn_query conn wrapped with
      | None => ([set_timeout; begin; wrapped; "ROLLBACK"], Err (ErrStatement wrapped))
      | Some rows => ([set_timeout; begin; wrapped; "ROLLBACK"], scanLiveQueryRows rows maxRows)
      end
  end.
End Execution.

(** * The objects a session may query *)

Inductive SnapshotMode : Type := SnapshotModeImported | SnapshotModeLive.
Record SourceSnapshot : Type := {
  ss_ID : string;
  ss_SessionID : string;
  ss_SourceID : string;
  ss_UpstreamSchema : string;
  ss_UpstreamObject : string;
  ss_Mode : SnapshotMode
}.
Record SessionSourceBinding : Type := {
  sb_SessionID : string;
  sb_SourceID : string;
  sb_SourceObjectKey : string;
  sb_ActiveSnapshotID : string
}.
Record DataSource : Type := { ds_ID : string; ds_WorkspaceID : string; ds_SourceType : string }.

(** The repositories the service reads; [Err] carries the repository's error. *)
Record Repos (E : Type) : Type := {
  DataSource_GetByID : string -> res E DataSource;
  Binding_GetBySession : string -> res E (list SessionSourceBinding);
  Snapshot_GetByID : string -> res E SourceSnapshot;
  ErrNotFound : E
}.
Arguments DataSource_GetByID {E} _.
Arguments Binding_GetBySession {E} _.
Arguments Snapshot_GetByID {E} _.
Arguments ErrNotFound {E} _.

Inductive LiveError (E : Type) : Type :=
| LiveRepo (e : E)
| LiveArgs
| LiveTimeout | LiveMaxRows
| LiveGuard (e : QueryError)
| LiveNotBound
| LiveNoObjects
| LiveOutside (ref : string) (names : list string)
| LiveConnector (sourceType : string).
Arguments LiveRepo {E} e.
Arguments LiveArgs {E}.
Arguments LiveTimeout {E}.
Arguments LiveMaxRows {E}.
Arguments LiveGuard {E} e.
Arguments LiveNotBound {E}.
Arguments LiveNoObjects {E}.
Arguments LiveOutside {E} ref names.
Arguments LiveConnector {E} sourceType.

Record LiveQueryCall : Type := {
  lq_SourceID : string;
  lq_SessionID : string;
  lq_WorkspaceID : string;
  lq_SQL : string;
  lq_TimeoutSeconds : Z;
  lq_MaxRows : Z
}.

(** What [connector.ExecuteLiveQuery] is called with. *)
Record ConnectorCall : Type := {
  cc_SourceType : string;
  cc_SourceID : string;
  cc_SQL : string;
  cc_TimeoutSeconds : Z;
  cc_MaxRows : Z
}.

Definition QueryTimeoutLargeSeconds : Z := 30.
Definition liveQueryRowLimit : Z := 200.
Definition liveQueryProbeRows : Z := liveQueryRowLimit + 1.

Section Live.
Context {E : Type} (tables : (Z -> Z) * (Z -> Z)) (repos : Repos E).
(** The upper- and lower-case tables of [unicode], and whether the resolver knows a
    source type. *)
Context (resolves : string -> bool).
Local Notation upper := (fst tables).
Local Notation lower := (ToLower (snd tables)).

Definition lift_repo {A} (r : res E A) : res (LiveError E) A :=
  match r with Ok a => Ok a | Err e => Err (LiveRepo e) end.

Definition requireLiveBindings (sessionID workspaceID sourceID : string) :
    res (LiveError E) (DataSource * list SessionSourceBinding) :=
  let? source := lift_repo (DataSource_GetByID repos sourceID) in
  if negb (ds_WorkspaceID source =? workspaceID) then Err (LiveRepo (ErrNotFound repos))
  else
    let? bindings := lift_repo (Binding_GetBySession repos sessionID) in
    if negb (existsb (fun b => sb_SourceID b =? sourceID) bindings) then Err LiveNotBound
    else Ok (source, bindings).

(** One pass of the loop over the bindings. *)
Definition allow_binding (sourceID : string) (allowed : gset string) (b : SessionSourceBinding) :
    res (LiveError E) (gset string) :=
  if negb (sb_SourceID b =? sourceID) then Ok allowed
  else
    let? snapshot := lift_repo (Snapshot_GetByID repos (sb_ActiveSnapshotID b)) in
    match ss_Mode snapshot with
    | SnapshotModeImported => Ok allowed
    | SnapshotModeLive =>
        Ok ({[lower (ss_UpstreamObject snapshot)]}
            ∪ ({[lower (ss_UpstreamSchema snapshot ++ "." ++ ss_UpstreamObject snapshot)%string]} ∪ allowed))
    end.

Definition enforceLiveQueryObjectBoundary (sourceID : string) (bindings : list SessionSourceBinding)
    (normalizedSQL : string) : res (LiveError E) unit :=
  let? allowed := fold_res (allow_binding sourceID) ∅ bindings in
  if decide (allowed = ∅) then Err LiveNoObjects
  else each (fun ref =>
    if decide (lower (TrimSpace ref) ∈ allowed) then Ok tt
    else Err (LiveOutside ref
      (merge_sort String.le (List.filter (fun key => contains_byte key "."%char) (elements allowed)))))
    (ExtractQueryTableRefs normalizedSQL).

Definition ExecuteSessionLiveQuery (call : LiveQueryCall) : res (LiveError E) ConnectorCall :=
  if (lq_SessionID call =? "") || (lq_WorkspaceID call =? "") || (lq_SourceID call =? "") then Err LiveArgs
  else if (lq_TimeoutSeconds call <? 1)%Z || (QueryTimeoutLargeSeconds <? lq_TimeoutSeconds call)%Z
  then Err LiveTimeout
  else
    let maxRows := if (lq_MaxRows call =? 0)%Z then liveQueryProbeRows else lq_MaxRows call in
    if (maxRows <? 2)%Z || (liveQueryProbeRows <? maxRows)%Z then Err LiveMaxRows
    else match NormalizeReadOnlyQuery upper (lq_SQL call) with
    | Err e => Err (LiveGuard e)
    | Ok normalizedSQL =>
        let? sb := requireLiveBindings (lq_SessionID call) (lq_WorkspaceID call) (lq_SourceID call) in
        let? _ := enforceLiveQueryObjectBoundary (lq_SourceID call) (snd sb) normalizedSQL in
        if negb (resolves (ds_SourceType (fst sb))) then Err (LiveConnector (ds_SourceType (fst sb)))
        else Ok {| cc_SourceType := ds_SourceType (fst sb); cc_SourceID := lq_SourceID call;
                   cc_SQL := normalizedSQL; cc_TimeoutSeconds := lq_TimeoutSeconds call;
                   cc_MaxRows := maxRows |}
    end.
End Live.

(** The name of an object as [list] tools show it to the model
    ([service/postgres_connector.go], [service/mysql_connector.go]). *)
Definition qualify (quote : string -> res IdentError string) (schema name : string) : string :=
  match quote schema, quote name with
  | Ok s, Ok n => (s ++ "." ++ n)%string
  | _, _ => (schema ++ "." ++ name)%string
  end.
Definition Postgres_QualifyObject := qualify quotePGIdentifier.
Definition MySQL_QualifyObject := qualify quoteMySQLIdentifier.

(** * Lemmas *)

Lemma first_duplicate_none seen cols :
  first_duplicate seen cols = None -> NoDup cols /\ forall c, c ∈ cols -> c ∉ seen.
Proof.
  revert seen. induction cols as [|c cols IH]; intros seen; cbn.
  - intros _. split; [constructor|]. intros c Hc. by apply not_elem_of_nil in Hc.
  - case_decide as Hc; [done|]. intros [Hnd Hseen]%IH. split.
    + constructor; [|done]. intros Hin. specialize (Hseen c Hin). set_solver.
    + intros d [->|Hd]%elem_of_cons; [done|]. specialize (Hseen d Hd). set_solver.
Qed.

Section ExecutionFacts.
Context {V : Type}.

(** The rows the database returned, when each of them scans. *)
Definition scanned (cols : list string) (rows : list (option (list (SqlValue V)))) :
    list (gmap string (SqlValue V)) :=
  map (scan_row cols) (omap id rows).

Lemma scan_rows_ok cols bound limit acc rows result :
  scan_rows (V:=V) cols bound limit acc rows = Ok result ->
  result = acc ++ scanned cols rows /\ Forall (fun r => r <> None) rows
  /\ (rows <> [] -> (Z.of_nat (length result) < bound)%Z).
Proof.
  revert acc. induction rows as [|[values|] rows IH]; intros acc; cbn [scan_rows]; [..|done].
  - intros [= ->]. by rewrite app_nil_r.
  - destruct (bound <=? _)%Z eqn:Hb; [done|]. intros H.
    apply IH in H as (-> & Hall & Hlen). reflect_bools.
    split; [by rewrite <- app_assoc|]. split; [by constructor|]. intros _.
    destruct rows; [by rewrite app_nil_r|by apply Hlen].
Qed.

Lemma read_rows_ok bound limit rows qr :
  (0 < bound)%Z -> read_rows (V:=V) bound limit rows = Ok qr ->
  db_columns rows = Some (Columns qr) /\ NoDup (Columns qr)
  /\ Rows qr = scanned (Columns qr) (db_rows rows)
  /\ length (Rows qr) = length (db_rows rows)
  /\ (Z.of_nat (length (Rows qr)) < bound)%Z.
Proof.
  intros Hb. unfold read_rows. intros H. inv_ok H. subst qr. cbn.
  match goal with Hd : first_duplicate _ _ = None |- _ => apply first_duplicate_none in Hd as [Hd _] end.
  match goal with Hs : scan_rows _ _ _ _ _ = Ok _ |- _ => apply scan_rows_ok in Hs as (-> & Hall & Hlen) end.
  cbn [app] in *. split; [done|]. split; [done|]. split; [done|]. split.
  - unfold scanned. rewrite length_map. clear Hlen.
    induction Hall as [|[v|] rs Hr _ IH]; cbn; [done|by f_equal|done].
  - destruct (db_rows rows); [cbn; lia|]. by apply Hlen.
Qed.

Lemma join_errors_ok r es (x : QueryResult V) : join_errors r es = Ok x -> es = [] /\ r = Ok x.
Proof. destruct es; cbn; [done|]. by destruct r. Qed.

Lemma lift_ok (r : res QueryExecError (QueryResult V)) x : lift r = Ok x -> r = Ok x.
Proof. destruct r; cbn; congruence. Qed.
End ExecutionFacts.

Lemma wrap_bytes alias q limit :
  to_bytes (wrap_query alias q limit)
  = to_bytes "SELECT * FROM (" ++ to_bytes q ++ to_bytes (") AS " ++ alias ++ " LIMIT " ++ pretty limit)%string.
Proof. unfold wrap_query. by rewrite !to_bytes_app. Qed.

Lemma probe_rows_text : pretty queryProbeRows = "201".
Proof. by vm_compute. Qed.

(** * Properties *)

(** An execution on the analysis database sends nothing unless the guard accepts the
    text; then it sends the wrapped text only after query_only was switched on, and in
    every case switches it off again last.  A result has distinct columns, every row the
    database returned, in order, and at most [queryRowLimit] of them. *)
Theorem ExecuteQueryDetailed_contained {V} table parent (conn : option (Conn V)) query timeout :
  let '(sent, r) := ExecuteQueryDetailedContext table parent conn query timeout in
  (sent = [] \/
   exists c mid, conn = Some c /\ normalizeReadOnlyQuery table query = Ok query /\ (0 < timeout)%Z
     /\ sent = ["PRAGMA query_only = ON"] ++ mid ++ ["PRAGMA query_only = OFF"]
     /\ (mid = [] \/ conn_exec c "PRAGMA query_only = ON" = true
                     /\ mid = [wrap_query "_oda_query" query queryProbeRows]))
  /\ forall qr, r = Ok qr ->
       exists c rows, conn = Some c
         /\ conn_query c (wrap_query "_oda_query" query queryProbeRows) = Some rows
         /\ conn_exec c "PRAGMA query_only = OFF" = true
         /\ db_columns rows = Some (Columns qr) /\ NoDup (Columns qr)
         /\ Rows qr = scanned (Columns qr) (db_rows rows)
         /\ length (Rows qr) = length (db_rows rows)
         /\ (Z.of_nat (length (Rows qr)) <= queryRowLimit)%Z.
Proof.
  unfold ExecuteQueryDetailedContext.
  destruct (normalizeReadOnlyQuery table query) as [q|e] eqn:Hq; [|by split; [left|]].
  apply normalized_same in Hq as Hsame. subst q.
  destruct (timeout <=? 0)%Z eqn:Ht; [by split; [left|]|].
  destruct parent; [cbn [negb]|by split; [left|]].
  destruct conn as [c|]; [|by split; [left|]]. reflect_bools.
  destruct (conn_exec c "PRAGMA query_only = ON") eqn:Hon; cbn [negb].
  2:{ split; [right; exists c, []; split_and!; auto|]. intros qr [_ H]%join_errors_ok. done. }
  destruct (conn_query c _) as [rows|] eqn:Hrows.
  2:{ split; [right; exists c, [wrap_query "_oda_query" query queryProbeRows]; split_and!; auto|]. intros qr [_ H]%join_errors_ok. done. }
  split; [right; exists c, [wrap_query "_oda_query" query queryProbeRows]; split_and!; auto|]. intros qr [Hes [_ Hr]%join_errors_ok]%join_errors_ok.
  apply lift_ok, read_rows_ok in Hr as (Hcols & Hnd & Hrs & Hlen & Hb); [|done].
  exists c, rows. split; [done|]. split; [done|]. split.
  { destruct (conn_exec c "PRAGMA query_only = OFF"); [done|]. done. }
  unfold queryProbeRows in Hb. repeat (split; [done|]). lia.
Qed.

(** The text sent for an accepted query is still a single statement, and the wrapper
    closes around it unless the query ends inside a comment or a literal: an accepted
    query that ends with a line comment takes the closing parenthesis and the row limit
    into the comment. *)
Theorem wrapped_query_single_statement table query :
  normalizeReadOnlyQuery table query = Ok query ->
  hasMultipleStatements (wrap_query "_oda_query" query queryProbeRows) = false
  /\ exists ts, lexes ts (to_bytes query)
     /\ stripSQLStringsAndComments (wrap_query "_oda_query" query queryProbeRows)
        = ("SELECT * FROM (" ++ stripSQLStringsAndComments query
           ++ (if is_closed ts then ") AS _oda_query LIMIT 201" else ""))%string.
Proof.
  intros H. apply normalizeReadOnly_single in H.
  destruct (scanners_lex query) as (ts & Hlex & Hstrip & Hmult).
  destruct (lexes_app_plain ts _ (to_bytes ") AS _oda_query LIMIT 201") Hlex eq_refl) as (ts' & Hlex' & Hsep & Hts').
  assert (lexes (map TCode (to_bytes "SELECT * FROM (") ++ ts')
            (to_bytes (wrap_query "_oda_query" query queryProbeRows))) as Hw.
  { rewrite wrap_bytes, probe_rows_text. apply lexes_inert_app; [reflexivity|exact Hlex']. }
  split.
  - rewrite (multiple_lexes _ _ Hw), existsb_app, separates_inert by done.
    cbn [orb]. congruence.
  - exists ts. split; [done|]. rewrite (strip_lexing _ _ Hw), tokens_strip_app, tokens_strip_code, Hts', !of_bytes_app.
    rewrite String.string_of_list_ascii_of_string, Hstrip. by destruct (is_closed ts).
Qed.
Lemma wrapped_query_single_statement_witness :
  normalizeReadOnlyQuery id "SELECT 1 -- note; x" = Ok "SELECT 1 -- note; x"
  /\ hasMultipleStatements (wrap_query "_oda_query" "SELECT 1 -- note; x" queryProbeRows) = false.
Proof.
  split; [reflexivity|]. apply (wrapped_query_single_statement id "SELECT 1 -- note; x"). reflexivity.
Defined.

(** ** The boundary *)

Section Boundary.
Context {E : Type} (tables : (Z -> Z) * (Z -> Z)) (repos : Repos E).

(** [key] names a live object that a binding of the list makes available. *)
Definition names_bound_object (sourceID : string) (bindings : list SessionSourceBinding) (key : string) : Prop :=
  exists b snapshot, In b bindings /\ sb_SourceID b = sourceID
    /\ Snapshot_GetByID repos (sb_ActiveSnapshotID b) = Ok snapshot
    /\ ss_Mode snapshot = SnapshotModeLive
    /\ (key = ToLower (snd tables) (ss_UpstreamObject snapshot)
        \/ key = ToLower (snd tables) (ss_UpstreamSchema snapshot ++ "." ++ ss_UpstreamObject snapshot)%string).

Lemma allowed_names sourceID bindings allowed0 allowed :
  fold_res (allow_binding tables repos sourceID) allowed0 bindings = Ok allowed ->
  forall key, key ∈ allowed <-> key ∈ allowed0 \/ names_bound_object sourceID bindings key.
Proof.
  revert allowed0. induction bindings as [|b bindings IH]; intros allowed0; cbn [fold_res].
  - intros [= ->] key. split; [by left|]. intros [?|(b & s & [] & _)]. done.
  - unfold allow_binding at 1. destruct (sb_SourceID b =? sourceID)%string eqn:Hs; cbn [negb].
    2:{ intros H key. rewrite (IH _ H). reflect_bools. unfold names_bound_object. set_solver. }
    unfold lift_repo. destruct (Snapshot_GetByID repos _) as [snapshot|e] eqn:Hget; [|done].
    destruct (ss_Mode snapshot) eqn:Hmode; intros H key; rewrite (IH _ H); reflect_bools;
      unfold names_bound_object.
    + split; [set_solver|]. intros [?|(b' & s' & [->|?] & ?)]; [by left| |set_solver].
      destruct_and!. congruence.
    + rewrite !elem_of_union, !elem_of_singleton. split.
      * intros [[->|[->|?]]|(b' & s' & ? & ?)]; [right; exists b, snapshot; naive_solver..|by left|].
        right. exists b', s'. set_solver.
      * intros [?|(b' & s' & [->|?] & Hsrc & Hget' & ? & Hkey)]; [by left; right; right| |].
        -- left. rewrite Hget in Hget'. injection Hget' as <-. tauto.
        -- right. exists b', s'. done.
Qed.

Lemma boundary_ok sourceID bindings sql :
  enforceLiveQueryObjectBoundary tables repos sourceID bindings sql = Ok tt ->
  forall ref, In ref (ExtractQueryTableRefs sql) ->
    names_bound_object sourceID bindings (ToLower (snd tables) (TrimSpace ref)).
Proof.
  unfold enforceLiveQueryObjectBoundary. intros H ref Href.
  destruct (fold_res _ _ _) as [allowed|e] eqn:Hfold; [|done].
  destruct (decide (allowed = ∅)); [done|].
  rewrite each_ok, Forall_forall in H. specialize (H ref). rewrite <- list_elem_of_In in Href.
  apply H in Href. case_decide as Hin; [|done].
  apply (allowed_names _ _ _ _ Hfold) in Hin as [Hin|Hin]; [set_solver|done].
Qed.

Lemma requireLiveBindings_ok sessionID workspaceID sourceID source bindings :
  requireLiveBindings repos sessionID workspaceID sourceID = Ok (source, bindings) ->
  DataSource_GetByID repos sourceID = Ok source /\ ds_WorkspaceID source = workspaceID
  /\ Binding_GetBySession repos sessionID = Ok bindings
  /\ exists b, In b bindings /\ sb_SourceID b = sourceID.
Proof.
  unfold requireLiveBindings, lift_repo.
  destruct (DataSource_GetByID repos sourceID) as [s|e]; [|done].
  destruct (ds_WorkspaceID s =? workspaceID)%string eqn:Hw; [cbn [negb]|done].
  destruct (Binding_GetBySession repos sessionID) as [bs|e]; [|done].
  destruct (existsb _ bs) eqn:Hb; [cbn [negb]|done]. intros [= -> ->].
  reflect_bools. apply existsb_exists in Hb as (b & Hb & Hs%String.eqb_eq). eauto 10.
Qed.
End Boundary.

(** C33: A live query reaches the upstream connector only for a source of the caller's
    workspace that is bound to the session, with a timeout of 1 to 30 seconds and a
    probe of 2 to 201 rows, unchanged, after the guard accepted it, and every table
    reference that [ExtractQueryTableRefs] sees in it names a live object bound to the
    session for that source. *)
Theorem live_query_within_bounds {E} tables (repos : Repos E) resolves call cc :
  ExecuteSessionLiveQuery tables repos resolves call = Ok cc ->
  cc_SourceID cc = lq_SourceID call /\ cc_SQL cc = lq_SQL call
  /\ (1 <= cc_TimeoutSeconds cc <= 30)%Z /\ (2 <= cc_MaxRows cc <= 201)%Z
  /\ normalizeReadOnlyQuery (fst tables) (lq_SQL call) = Ok (lq_SQL call)
  /\ exists source bindings,
       DataSource_GetByID repos (lq_SourceID call) = Ok source
       /\ ds_WorkspaceID source = lq_WorkspaceID call /\ ds_SourceType source = cc_SourceType cc
       /\ Binding_GetBySession repos (lq_SessionID call) = Ok bindings
       /\ (exists b, In b bindings /\ sb_SourceID b = lq_SourceID call)
       /\ forall ref, In ref (ExtractQueryTableRefs (lq_SQL call)) ->
            names_bound_object tables repos (lq_SourceID call) bindings (ToLower (snd tables) (TrimSpace ref)).
Proof.
  unfold ExecuteSessionLiveQuery. intros H.
  destruct (_ || _ || _)%bool; [done|].
  destruct (_ || (QueryTimeoutLargeSeconds <? _)%Z)%bool eqn:Ht; [done|].
  set (maxRows := if (lq_MaxRows call =? 0)%Z then _ else _) in *.
  destruct (_ || (liveQueryProbeRows <? _)%Z)%bool eqn:Hm; [done|].
  unfold NormalizeReadOnlyQuery in H.
  destruct (normalizeReadOnlyQuery _ _) as [sql|] eqn:Hn; [|done].
  pose proof (normalized_same _ _ _ Hn) as ->.
  destruct (requireLiveBindings _ _ _ _) as [[source bindings]|] eqn:Hreq; [|done]. cbn [fst snd] in H.
  destruct (enforceLiveQueryObjectBoundary _ _ _ _ _) as [[]|] eqn:Hb; [|done].
  destruct (resolves _) eqn:Hres; [cbn [negb] in H|done]. injection H as <-. cbn.
  apply requireLiveBindings_ok in Hreq as (Hsrc & Hws & Hbs & Hbound).
  unfold QueryTimeoutLargeSeconds, liveQueryProbeRows, liveQueryRowLimit in *. reflect_bools.
  split; [done|]. split; [done|]. split; [lia|]. split; [lia|]. split; [done|].
  exists source, bindings. repeat (split; [done|]). by apply (boundary_ok tables repos).
Qed.

(** A session of workspace [w] with one live Postgres object, [public.orders]. *)
Definition example_repos : Repos unit := {|
  DataSource_GetByID := fun s => if (s =? "src")%string
    then Ok {| ds_ID := "src"; ds_WorkspaceID := "w"; ds_SourceType := "postgres_connection" |} else Err tt;
  Binding_GetBySession := fun s => Ok (if (s =? "sess")%string
    then [{| sb_SessionID := "sess"; sb_SourceID := "src"; sb_SourceObjectKey := "k"; sb_ActiveSnapshotID := "snap" |}]
    else []);
  Snapshot_GetByID := fun s =>
    Ok {| ss_ID := s; ss_SessionID := "sess"; ss_SourceID := "src"; ss_UpstreamSchema := "public";
          ss_UpstreamObject := "orders"; ss_Mode := SnapshotModeLive |};
  ErrNotFound := tt
|}.
Definition example_call (sql : string) : LiveQueryCall := {|
  lq_SourceID := "src"; lq_SessionID := "sess"; lq_WorkspaceID := "w"; lq_SQL := sql;
  lq_TimeoutSeconds := 5; lq_MaxRows := 0
|}.

Lemma live_query_within_bounds_witness :
  exists cc, ExecuteSessionLiveQuery (id, id) example_repos (fun _ => true)
               (example_call "SELECT id FROM public.orders JOIN Orders o2 ON true") = Ok cc
    /\ cc_SourceID cc = "src".
Proof.
  eexists. split; [vm_compute; reflexivity|].
  eapply (live_query_within_bounds (id, id) example_repos (fun _ => true)
           (example_call "SELECT id FROM public.orders JOIN Orders o2 ON true")).
  vm_compute; reflexivity.
Defined.

(** ** What the boundary does not see *)

Definition with_sql (call : LiveQueryCall) (sql : string) : LiveQueryCall := {|
  lq_SourceID := lq_SourceID call; lq_SessionID := lq_SessionID call; lq_WorkspaceID := lq_WorkspaceID call;
  lq_SQL := sql; lq_TimeoutSeconds := lq_TimeoutSeconds call; lq_MaxRows := lq_MaxRows call
|}.

Lemma quotePG_ok name s : quotePGIdentifier name = Ok s -> s = quote_with dquote name.
Proof. unfold quotePGIdentifier. intros H. by inv_ok H. Qed.

Definition select_from (table : string) : string := ("SELECT * FROM " ++ table)%string.

Lemma select_qualified_lexes schema name s n :
  quotePGIdentifier schema = Ok s -> quotePGIdentifier name = Ok n ->
  lexes (map TCode (to_bytes "SELECT * FROM ") ++ [TQuoted dquote (to_bytes schema); TCode "."%char; TQuoted dquote (to_bytes name)])
    (to_bytes (select_from (Postgres_QualifyObject schema name))).
Proof.
  intros Hs Hn. unfold Postgres_QualifyObject, qualify. rewrite Hs, Hn.
  apply quotePG_ok in Hs as ->. apply quotePG_ok in Hn as ->. unfold select_from.
  rewrite !to_bytes_app. apply lexes_inert_app; [reflexivity|].
  unfold quote_with. rewrite !String.list_ascii_of_string_of_list_ascii.
  cbn [app]. rewrite <- app_assoc. cbn [app].
  constructor; [done..|]. cbn. constructor; [done|]. constructor; [done..|constructor].
Qed.

Lemma select_qualified_accepted table schema name s n :
  quotePGIdentifier schema = Ok s -> quotePGIdentifier name = Ok n ->
  normalizeReadOnlyQuery table (select_from (Postgres_QualifyObject schema name))
    = Ok (select_from (Postgres_QualifyObject schema name))
  /\ ExtractQueryTableRefs (select_from (Postgres_QualifyObject schema name)) = [].
Proof.
  intros Hs Hn. pose proof (select_qualified_lexes _ _ _ _ Hs Hn) as Hlex.
  assert (stripSQLStringsAndComments (select_from (Postgres_QualifyObject schema name)) = "SELECT * FROM   .  ") as Hstrip.
  { rewrite (strip_lexing _ _ Hlex), tokens_strip_app, tokens_strip_code. reflexivity. }
  assert (hasMultipleStatements (select_from (Postgres_QualifyObject schema name)) = false) as Hm.
  { rewrite (multiple_lexes _ _ Hlex). reflexivity. }
  assert (TrimSpace (select_from (Postgres_QualifyObject schema name)) = select_from (Postgres_QualifyObject schema name)) as Ht.
  { unfold Postgres_QualifyObject, qualify. rewrite Hs, Hn. apply quotePG_ok in Hn as ->.
    unfold select_from, quote_with. rewrite app_comm_cons, !of_bytes_app, !app_str_assoc.
    change (of_bytes [dquote]) with (String dquote ""). by apply (TrimSpace_between "S"%char). }
  split.
  - unfold normalizeReadOnlyQuery. rewrite Ht, Hm, Hstrip, String.eqb_refl. reflexivity.
  - unfold ExtractQueryTableRefs. rewrite Hstrip. vm_compute. reflexivity.
Qed.

(** The boundary does not see double-quoted names.  In a session that can run one
    live query on a source, the query [SELECT * FROM "schema"."name"] for every schema
    and name, written the way the Postgres connector itself qualifies objects, reaches
    the connector, bound or not: stripping the text removes the quoted names before
    the references are extracted. *)
Theorem quoted_names_escape_boundary {E} tables (repos : Repos E) resolves call cc schema name s n :
  ExecuteSessionLiveQuery tables repos resolves call = Ok cc ->
  quotePGIdentifier schema = Ok s -> quotePGIdentifier name = Ok n ->
  let sql := select_from (Postgres_QualifyObject schema name) in
  exists cc', ExecuteSessionLiveQuery tables repos resolves (with_sql call sql) = Ok cc'
    /\ cc_SourceID cc' = cc_SourceID cc /\ cc_SourceType cc' = cc_SourceType cc /\ cc_SQL cc' = sql.
Proof.
  intros H Hs Hn. destruct (select_qualified_accepted (fst tables) _ _ _ _ Hs Hn) as [Hacc Hrefs].
  unfold ExecuteSessionLiveQuery, NormalizeReadOnlyQuery in *. cbn [with_sql lq_SourceID lq_SessionID lq_WorkspaceID lq_SQL lq_TimeoutSeconds lq_MaxRows].
  destruct (_ || _ || _)%bool; [done|].
  destruct (_ || (QueryTimeoutLargeSeconds <? _)%Z)%bool; [done|].
  set (maxRows := if (lq_MaxRows call =? 0)%Z then _ else _) in *.
  destruct (_ || (liveQueryProbeRows <? _)%Z)%bool; [done|].
  rewrite Hacc. destruct (normalizeReadOnlyQuery _ (lq_SQL call)) as [sql0|]; [|done].
  destruct (requireLiveBindings _ _ _ _) as [[source bindings]|]; [|done]. cbn [fst snd] in *.
  unfold enforceLiveQueryObjectBoundary in *. rewrite Hrefs.
  destruct (fold_res _ _ _) as [allowed|]; [|done].
  destruct (decide (allowed = ∅)); [done|]. cbn [each].
  destruct (each _ _) as [[]|]; [|done].
  destruct (resolves _); [cbn [negb] in *|done]. injection H as <-. eexists. split; [reflexivity|]. done.
Qed.
Lemma quoted_names_escape_boundary_witness :
  exists cc', ExecuteSessionLiveQuery (id, id) example_repos (fun _ => true)
      (with_sql (example_call "SELECT 1 FROM orders") (select_from (Postgres_QualifyObject "hr" "salaries"))) = Ok cc'
    /\ cc_SQL cc' = select_from (Postgres_QualifyObject "hr" "salaries").
Proof.
  destruct (quoted_names_escape_boundary (id, id) example_repos (fun _ => true) (example_call "SELECT 1 FROM orders")
    {| cc_SourceType := "postgres_connection"; cc_SourceID := "src"; cc_SQL := "SELECT 1 FROM orders";
       cc_TimeoutSeconds := 5; cc_MaxRows := 201 |}
    "hr" "salaries" (quote_with dquote "hr") (quote_with dquote "salaries")) as (cc' & H & _ & _ & Hsql);
    [vm_compute; reflexivity|reflexivity|reflexivity|].
  exists cc'. split; [exact H|exact Hsql].
Defined.

(** A CTE of the query itself is reported as a reference and refused, and a table after
    a comma is not reported at all. *)
Lemma cte_is_refused :
  ExecuteSessionLiveQuery (id, id) example_repos (fun _ => true)
    (example_call "WITH t AS (SELECT * FROM orders) SELECT * FROM t")
  = Err (LiveOutside "t" ["public.orders"]).
Proof. vm_compute. reflexivity. Qed.
Lemma comma_join_is_not_seen :
  ExtractQueryTableRefs "SELECT * FROM orders, hr.salaries" = ["orders"].
Proof. vm_compute. reflexivity. Qed.
