(* ===== verification/Delegate.v ===== *)
(** Delegated agents (server/agent/worker.go): the validation of a delegation, the
    registry of tools it may use (server/session/types.go, [buildRuntimeRegistry]), the
    loop of the child, the evidence it collects and the persistence of its terminal
    state.

    As in [EngineLoop], everything outside is the state [W] with the oracles of the
    section.  The events, the persistence calls and the requests are logged in the
    state, in order. *)
From S2P Require Import Prelude GoStrings Json Conversation Jobs Subgoals Tools Receipts Compaction HistoryRebuild.
From S2P Require Import FinalGuard Execution EngineLoop.
From Stdlib Require Import Ascii.
Open Scope string_scope.
Open Scope list_scope.

(** * Text helpers *)

(** [clipText] (server/agent/stringutil.go). *)
Definition clipText (input : string) (max : Z) : string :=
  let input := TrimSpace input in
  if (input =? "") || (max <=? 0)%Z then input
  else
    let rs := runes input in
    if (Z.of_nat (length rs) <=? max)%Z then input
    else (string_of_runes (take (Z.to_nat max) rs) ++ "...(truncated)")%string.

Definition clipDelegateToolResult (raw : string) (max : Z) : string :=
  match decode_map raw with
  | Some payload =>
      match lookup_key payload "ui_summary" with
      | Some (JStr summary) =>
          if blank summary then clipText (MarshalMap (map (fun kv => (kv.1, as_maps kv.2)) payload)) max
          else clipText summary max
      | _ => clipText (MarshalMap (map (fun kv => (kv.1, as_maps kv.2)) payload)) max
      end
  | None => clipText raw max
  end.

Inductive PolicyError := PolicySpace | PolicyLong | PolicyLines.
Definition policy_message (e : PolicyError) : string :=
  match e with
  | PolicySpace => "policy_appendix must not contain leading or trailing whitespace"
  | PolicyLong => "policy_appendix too long; it can only contain short constraints, not context dumps"
  | PolicyLines => "policy_appendix has too many lines; it can only contain a few constraint rules"
  end.
Definition validatePolicyAppendix (raw : string) : res PolicyError unit :=
  let trimmed := TrimSpace raw in
  if trimmed =? "" then Ok tt
  else if negb (raw =? trimmed) then Err PolicySpace
  else if (280 <? length (runes trimmed))%nat then Err PolicyLong
  else if (6 <? length (List.filter (fun line => negb (blank line)) (Split trimmed "010"%char)))%nat
  then Err PolicyLines
  else Ok tt.

Definition appendUniqueString (values : list string) (value : string) : list string :=
  if existsb (fun existing => existing =? value) values then values else values ++ [value].

(** * Evidence *)

Record delegateEvidence := {
  de_ResultIDs : list string;
  de_ArtifactIDs : list string;
  de_ToolFailures : list (string * string); (* tool and detail *)
}.
Definition no_evidence : delegateEvidence := {| de_ResultIDs := []; de_ArtifactIDs := []; de_ToolFailures := [] |}.
Definition add_result (ev : delegateEvidence) (id : string) : delegateEvidence :=
  {| de_ResultIDs := appendUniqueString (de_ResultIDs ev) id; de_ArtifactIDs := de_ArtifactIDs ev;
     de_ToolFailures := de_ToolFailures ev |}.
Definition add_artifact (ev : delegateEvidence) (id : string) : delegateEvidence :=
  {| de_ResultIDs := de_ResultIDs ev; de_ArtifactIDs := appendUniqueString (de_ArtifactIDs ev) id;
     de_ToolFailures := de_ToolFailures ev |}.
Definition add_failure (ev : delegateEvidence) (tool detail : string) : delegateEvidence :=
  {| de_ResultIDs := de_ResultIDs ev; de_ArtifactIDs := de_ArtifactIDs ev;
     de_ToolFailures := de_ToolFailures ev ++ [(tool, detail)] |}.

Definition evidence_id (v : option jval) : option string :=
  match v with
  | Some (JStr id) => if (id =? "") || not_exact id then None else Some id
  | _ => None
  end.

(** The loop over the artifacts: what was collected before a bad entry stays. *)
Fixpoint collect_artifacts (ev : delegateEvidence) (artifacts : list jval) : delegateEvidence * option string :=
  match artifacts with
  | [] => (ev, None)
  | JObj object :: rest =>
      match evidence_id (lookup_key object "id") with
      | None => (ev, Some "artifact id must be a non-empty exact string")
      | Some id => collect_artifacts (add_artifact ev id) rest
      end
  | _ :: _ => (ev, Some "artifact entries must be objects")
  end.

Definition collect_payload_artifacts (ev : delegateEvidence) (payload : list (string * jval)) :
    delegateEvidence * option string :=
  match lookup_key payload "artifacts" with
  | None => (ev, None)
  | Some (JArr artifacts) => collect_artifacts ev artifacts
  | Some _ => (ev, Some "artifacts must be an array")
  end.

Definition collectDelegateEvidence (decode_error : string -> string) (raw : string) (ev : delegateEvidence) :
    delegateEvidence * option string :=
  match decode_map raw with
  | None => (ev, Some (decode_error raw))
  | Some payload =>
      match lookup_key payload "result_id" with
      | None => collect_payload_artifacts ev payload
      | Some v =>
          match evidence_id (Some v) with
          | None => (ev, Some "result_id must be a non-empty exact string")
          | Some id => collect_payload_artifacts (add_result ev id) payload
          end
      end
  end.

(** * Results *)

(** A nil slice is encoded as null. *)
Definition json_strings (l : list string) : jval := match l with [] => JNull | _ => JArr (map JStr l) end.
Definition json_allowed (l : option (list string)) : jval :=
  match l with None => JNull | Some l => JArr (map JStr l) end.
Definition json_failures (l : list (string * string)) : jval :=
  match l with
  | [] => JNull
  | _ => JArr (map (fun td => JObj [("detail", JStr td.2); ("tool", JStr td.1)]) l)
  end.

Definition RunStatusCompleted : string := "completed".
Definition RunStatusFailed : string := "failed".
Definition RunStatusCancelled : string := "cancelled".

Definition delegateToolFailure (childRunID roleName taskInstruction : string) (allowedTools : option (list string))
    (goalID code message : string) (extra : list (string * jval)) : string :=
  MarshalMap
    ([("ok", JBool false); ("tool", JStr "task_delegate"); ("error_code", JStr code); ("message", JStr message);
      ("delegate_role", JStr roleName); ("task_instruction", JStr taskInstruction);
      ("allowed_tools", json_allowed allowedTools);
      ("ui_summary", JStr (if blank roleName then "子智能体执行失败。" else ("子智能体 " ++ roleName ++ " 执行失败。")%string))]
     ++ (if blank childRunID then [] else [("child_run_id", JStr childRunID)])
     ++ (if blank goalID then [] else [("goal_id", JStr goalID)])
     ++ extra).

Definition delegateToolSuccess (childRunID subagentID roleName taskInstruction : string)
    (allowedTools : option (list string)) (goalID summary : string) (traceCount : nat) (ev : delegateEvidence) : string :=
  MarshalMap
    ([("ok", JBool true); ("tool", JStr "task_delegate"); ("child_run_id", JStr childRunID);
      ("delegate_role", JStr roleName); ("task_instruction", JStr taskInstruction);
      ("allowed_tools", json_allowed allowedTools); ("child_result", JStr summary);
      ("child_run_status", JStr RunStatusCompleted);
      ("ui_summary", JStr ("子智能体 " ++ roleName ++ " 已完成：" ++ summary)%string);
      ("trace_count", JNum (itoa (Z.of_nat traceCount)));
      ("result_ids", json_strings (de_ResultIDs ev)); ("artifact_ids", json_strings (de_ArtifactIDs ev));
      ("tool_failures", json_failures (de_ToolFailures ev))]
     ++ (if subagentID =? "" then [] else [("subagent_id", JStr subagentID)])
     ++ (if goalID =? "" then [] else [("goal_id", JStr goalID)])).

Definition delegateStatusFacts (status : string) (persistenceErrors : list string) : list (string * jval) :=
  ("child_run_status_target", JStr status)
  :: match persistenceErrors with
     | [] => [("child_run_status", JStr status)]
     | _ => [("persistence_errors", JArr (map JStr persistenceErrors))]
     end.

Definition delegateChildToolFailure (toolName message : string) : string :=
  MarshalMap [("ok", JBool false); ("tool", JStr toolName); ("error_code", JStr "execution_error"); ("message", JStr message)].

(** * Arguments and validation *)

Record DelegateArgs := {
  da_Action : string;
  da_SubagentID : string;
  da_RoleName : string;
  da_PolicyAppendix : string;
  da_TaskInstruction : string;
  da_AllowedTools : option (list string);
  da_GoalID : string;
}.

(** An array of strings; null elements leave the empty string. *)
Definition is_strings (v : jval) : bool :=
  match v with JArr vs => forallb (fun x => match x with JStr _ | JNull => true | _ => false end) vs | _ => false end.
Definition strings_field (m : gmap string jval) (f : string) : option (list string) :=
  match m !! f with
  | Some (JArr vs) => Some (map (fun x => match x with JStr s => s | _ => "" end) vs)
  | _ => None
  end.
Definition decode_delegate (raw : string) : option DelegateArgs :=
  let! m := decode_struct [("action", is_jstr); ("subagent_id", is_jstr); ("role_name", is_jstr);
                           ("policy_appendix", is_jstr); ("task_instruction", is_jstr);
                           ("allowed_tools", is_strings); ("goal_id", is_jstr)] raw in
  Some {| da_Action := string_field m "action"; da_SubagentID := string_field m "subagent_id";
          da_RoleName := string_field m "role_name"; da_PolicyAppendix := string_field m "policy_appendix";
          da_TaskInstruction := string_field m "task_instruction"; da_AllowedTools := strings_field m "allowed_tools";
          da_GoalID := string_field m "goal_id" |}.

(** A refusal: the fields the failure shows, its code, message and extra facts. *)
Record Refusal := {
  rf_RoleName : string;
  rf_TaskInstruction : string;
  rf_AllowedTools : option (list string);
  rf_GoalID : string;
  rf_Code : string;
  rf_Message : string;
  rf_Extra : list (string * jval);
}.
Definition refuse_with (p : DelegateArgs) (code message : string) (extra : list (string * jval)) : Refusal :=
  {| rf_RoleName := da_RoleName p; rf_TaskInstruction := da_TaskInstruction p; rf_AllowedTools := da_AllowedTools p;
     rf_GoalID := da_GoalID p; rf_Code := code; rf_Message := message; rf_Extra := extra |}.
Definition refuse (p : DelegateArgs) (code message : string) : Refusal := refuse_with p code message [].
Definition refuse_early (task code message : string) : Refusal :=
  {| rf_RoleName := ""; rf_TaskInstruction := task; rf_AllowedTools := None; rf_GoalID := "";
     rf_Code := code; rf_Message := message; rf_Extra := [] |}.
Definition render_refusal (r : Refusal) : string :=
  delegateToolFailure "" (rf_RoleName r) (rf_TaskInstruction r) (rf_AllowedTools r) (rf_GoalID r)
    (rf_Code r) (rf_Message r) (rf_Extra r).

Definition child_error_text (e : ChildError) : string :=
  match e with
  | EChildrenUnavailable => "delegated conversations are not available in this session"
  | EUnknownChild id =>
      ("unknown subagent " ++ quoted id ++ ": its conversation is not available, because delegated conversations do not survive a process restart or session eviction")%string
  end.

(** [action]: a continued child keeps its role, constraints, grant and goal. *)
Definition resolve_action (children : option ChildAgentRegistry) (p : DelegateArgs) :
    res Refusal (DelegateArgs * option ChildAgent) :=
  let action := if da_Action p =? "" then "start" else da_Action p in
  if action =? "continue" then
    match children with
    | None => Err (refuse_early (da_TaskInstruction p) "subagent_store_missing" "delegated conversations are not available in this session")
    | Some _ =>
        if blank (da_SubagentID p) then
          Err (refuse_early (da_TaskInstruction p) "missing_subagent_id" "subagent_id is required for action=continue")
        else match ChildAgentRegistry_Get children (da_SubagentID p) with
        | Err e => Err (refuse_early (da_TaskInstruction p) "unknown_subagent" (child_error_text e))
        | Ok child =>
            Ok ({| da_Action := action; da_SubagentID := da_SubagentID p; da_RoleName := ca_RoleName child;
                   da_PolicyAppendix := ca_PolicyAppendix child; da_TaskInstruction := da_TaskInstruction p;
                   da_AllowedTools := Some (ca_AllowedTools child); da_GoalID := ca_GoalID child |}, Some child)
        end
    end
  else if negb (action =? "start") then
    Err (refuse_early (da_TaskInstruction p) "invalid_action" ("unsupported action " ++ quoted action)%string)
  else Ok (p, None).

(** The loop over the requested names. *)
Fixpoint check_allowed (p : DelegateArgs) (seen : list string) (allowed : list string) : res Refusal unit :=
  match allowed with
  | [] => Ok tt
  | requested :: rest =>
      if (requested =? "") || not_exact requested then
        Err (refuse p "non_exact_tool_name" "allowed_tools must contain non-empty exact names")
      else if existsb (String.eqb requested) seen then
        Err (refuse_with p "duplicate_tool_name" "allowed_tools must not contain duplicates" [("tool_name", JStr requested)])
      else check_allowed p (requested :: seen) rest
  end.

Definition with_allowed (p : DelegateArgs) (allowed : option (list string)) : DelegateArgs :=
  {| da_Action := da_Action p; da_SubagentID := da_SubagentID p; da_RoleName := da_RoleName p;
     da_PolicyAppendix := da_PolicyAppendix p; da_TaskInstruction := da_TaskInstruction p;
     da_AllowedTools := allowed; da_GoalID := da_GoalID p |}.
Definition with_task (p : DelegateArgs) (task : string) : DelegateArgs :=
  {| da_Action := da_Action p; da_SubagentID := da_SubagentID p; da_RoleName := da_RoleName p;
     da_PolicyAppendix := da_PolicyAppendix p; da_TaskInstruction := task;
     da_AllowedTools := da_AllowedTools p; da_GoalID := da_GoalID p |}.

Definition check_delegate (p : DelegateArgs) : res Refusal (list string) :=
  if blank (da_RoleName p) then Err (refuse p "missing_role_name" "role_name is required")
  else if blank (da_TaskInstruction p) then
    Err (refuse (with_task p "") "missing_task_instruction" "task_instruction is required")
  else match da_AllowedTools p with
  | None | Some [] => Err (refuse (with_allowed p None) "missing_allowed_tools" "allowed_tools is required")
  | Some allowed =>
      if not_exact (da_RoleName p) || not_exact (da_GoalID p) then
        Err (refuse p "non_exact_identifier" "role_name and goal_id must use exact values")
      else
        let? _ := check_allowed p [] allowed in
        match validatePolicyAppendix (da_PolicyAppendix p) with
        | Err e => Err (refuse p "policy_appendix_invalid" (policy_message e))
        | Ok _ => Ok allowed
        end
  end.

(** * The registry of a delegate (server/session/types.go, [buildRuntimeRegistry]) *)

(** The requested tools that are delegable and whose probe does not fail now; here a
    probe that is interrupted fails too. *)
Definition runtime_allowed {W} (reg : Registry W) (probe_interrupted : W -> string -> bool) (w : W)
    (allowed : list string) : list string :=
  let delegable := RuntimeToolNames reg true in
  List.filter (fun name =>
    existsb (String.eqb name) delegable
    && match Registry_Get reg name with
       | Ok tool =>
           match t_CheckAvailability tool with
           | Some check => match check w with Some _ => false | None => negb (probe_interrupted w name) end
           | None => true
           end
       | Err _ => true
       end) allowed.
(** [None] is a panic of [CloneFiltered] on a name listed twice. *)
Definition buildRuntimeRegistry {W} (reg : Registry W) (probe_interrupted : W -> string -> bool) (w : W)
    (allowed : list string) : option (Registry W) :=
  CloneFiltered reg (runtime_allowed reg probe_interrupted w allowed).

(** * Persistence *)

Record ChildRunStart := {
  cs_ParentRunID : string;
  cs_RoleName : string;
  cs_InputMessage : string;
  cs_GoalID : string;
  cs_AllowedTools : list string;
}.

(** [DelegateRunPersistence]; an error is given by its text. *)
Record Persistence (W : Type) := {
  pe_StartChildRun : ChildRunStart -> W -> W * res string string;
  pe_UpdateStatus : string -> string -> option string -> W -> W * option string;
  pe_UpdateSummary : string -> string -> W -> W * option string;
  pe_UpdateTokens : string -> Z -> Z -> W -> W * option string;
}.
Arguments pe_StartChildRun {W}.
Arguments pe_UpdateStatus {W}.
Arguments pe_UpdateSummary {W}.
Arguments pe_UpdateTokens {W}.

(** What the child did, in order: requests to the model, executions of a tool, events,
    and the statuses it stored. *)
Inductive Action :=
| ARequest (bundle : PromptBundle)
| AExecute (name args : string)
| AEvent (runID : string) (ev : RuntimeEvent)
| AStatus (runID status : string).

(** * The child's loop *)

Section worker.
Context {W : Type} (subReg : Registry W).
Context (llm : W -> PromptBundle -> list ToolSpec -> W * res string LLMResponse).
Context (sanitizeToolError decode_error : string -> string).
Context (spill : string -> option string).
Context (ctx_err : W -> option string) (interrupted : W -> string -> option ExecError) (wait_delay : W -> W).
Context (persistence : Persistence W).
Context (triggerTokens : Z) (toolSpecs : list ToolSpec).
Context (childRunID : string).

Record WorkerState := {
  wk_world : W;
  wk_bundle : PromptBundle;
  wk_log : list Action;
  wk_trace : list (string * string);
  wk_evidence : delegateEvidence;
  wk_prompt : Z;
  wk_completion : Z;
  wk_omitted : Z;
}.
Definition wk_history (st : WorkerState) : list ConversationItem := pb_History (wk_bundle st).

Definition wk_set_world (st : WorkerState) (w : W) : WorkerState :=
  {| wk_world := w; wk_bundle := wk_bundle st; wk_log := wk_log st; wk_trace := wk_trace st;
     wk_evidence := wk_evidence st; wk_prompt := wk_prompt st; wk_completion := wk_completion st;
     wk_omitted := wk_omitted st |}.
Definition wk_do (st : WorkerState) (w : W) (acts : list Action) : WorkerState :=
  {| wk_world := w; wk_bundle := wk_bundle st; wk_log := wk_log st ++ acts; wk_trace := wk_trace st;
     wk_evidence := wk_evidence st; wk_prompt := wk_prompt st; wk_completion := wk_completion st;
     wk_omitted := wk_omitted st |}.
Definition wk_emit (st : WorkerState) (type : string) (d : EventData) : WorkerState :=
  wk_do st (wk_world st) [AEvent childRunID (event type d)].
Definition wk_note (st : WorkerState) (kind summary : string) : WorkerState :=
  {| wk_world := wk_world st; wk_bundle := wk_bundle st; wk_log := wk_log st;
     wk_trace := wk_trace st ++ [(kind, summary)];
     wk_evidence := wk_evidence st; wk_prompt := wk_prompt st; wk_completion := wk_completion st;
     wk_omitted := wk_omitted st |}.
Definition wk_learn (st : WorkerState) (ev : delegateEvidence) : WorkerState :=
  {| wk_world := wk_world st; wk_bundle := wk_bundle st; wk_log := wk_log st; wk_trace := wk_trace st;
     wk_evidence := ev; wk_prompt := wk_prompt st; wk_completion := wk_completion st;
     wk_omitted := wk_omitted st |}.
Definition with_history (b : PromptBundle) (h : list ConversationItem) : PromptBundle :=
  {| pb_Policy := pb_Policy b; pb_PolicyAppendix := pb_PolicyAppendix b; pb_Task := pb_Task b;
     pb_RuntimeContext := pb_RuntimeContext b; pb_History := h |}.
Definition wk_push (st : WorkerState) (item : ConversationItem) : WorkerState :=
  {| wk_world := wk_world st; wk_bundle := with_history (wk_bundle st) (wk_history st ++ [item]);
     wk_log := wk_log st; wk_trace := wk_trace st; wk_evidence := wk_evidence st; wk_prompt := wk_prompt st;
     wk_completion := wk_completion st; wk_omitted := wk_omitted st |}.

(** One tool call of the child; a name that is not registered executes nothing. *)
Definition run_child_call (st : WorkerState) (call : LLMToolCall) : WorkerState :=
  let name := fc_Name (tc_Function call) in
  let args := fc_Arguments (tc_Function call) in
  let st := wk_note st "tool_call" (name ++ "(" ++ clipText args 120 ++ ")")%string in
  let st := wk_emit st EventToolCall (ToolCallData (tc_ID call) name args) in
  let '(w, r) := retryableToolExec subReg ctx_err interrupted wait_delay name args (wk_world st) in
  let st := wk_do st w (if HasTool subReg name then [AExecute name args] else []) in
  let '(raw, execErr) := match r with Ok result => (result, None) | Err err => ("", Some err) end in
  let '(result, success, contractErr) := normalizeToolExecutionResult sanitizeToolError decode_error name raw execErr in
  if negb success then
    let detail := match contractErr, execErr with
                  | Some contract, _ => contract
                  | None, Some err => ee_Message err
                  | None, None => result
                  end in
    let st := wk_learn st (add_failure (wk_evidence st) name (clipText detail 300)) in
    let st := wk_note st "tool_error" (name ++ " failed: " ++ clipText detail 160)%string in
    let st := wk_emit st EventToolResult (ToolResultData (tc_ID call) name result 0 false) in
    wk_push st (tool_item (historyToolResultContent spill name result) (tc_ID call) name)
  else
    let '(ev, evidenceErr) := collectDelegateEvidence decode_error result (wk_evidence st) in
    let st := wk_learn st ev in
    match evidenceErr with
    | Some err =>
        let st := wk_learn st (add_failure (wk_evidence st) name err) in
        let failureResult := delegateChildToolFailure name ("invalid structured tool result: " ++ err)%string in
        let st := wk_emit st EventToolResult (ToolResultData (tc_ID call) name failureResult 0 false) in
        wk_push st (tool_item (historyToolResultContent spill name failureResult) (tc_ID call) name)
    | None =>
        let st := wk_note st "tool_result" (name ++ " ok: " ++ clipDelegateToolResult result 160)%string in
        let st := wk_emit st EventToolResult (ToolResultData (tc_ID call) name result 0 true) in
        wk_push st (tool_item (historyToolResultContent spill name result) (tc_ID call) name)
    end.

Definition opt_error (prefix : string) (e : option string) : list string :=
  match e with Some err => [(prefix ++ err)%string] | None => [] end.

Definition store_status (st : WorkerState) (statusPrefix tokensPrefix status : string) (message : option string) :
    WorkerState * list string :=
  let '(w, e1) := pe_UpdateStatus persistence childRunID status message (wk_world st) in
  let '(w, e2) := pe_UpdateTokens persistence childRunID (wk_prompt st) (wk_completion st) w in
  (wk_do st w [AStatus childRunID status], opt_error statusPrefix e1 ++ opt_error tokensPrefix e2).
Definition persistDelegateFailure (st : WorkerState) (status : string) (message : option string) :
    WorkerState * list string :=
  store_status st "update child status: " "update child tokens: " status message.
Definition persistDelegateCompletion (st : WorkerState) (summary : string) : WorkerState * list string :=
  let '(w, e) := pe_UpdateSummary persistence childRunID summary (wk_world st) in
  let '(st, failures) := persistDelegateFailure (wk_set_world st w) RunStatusCompleted None in
  (st, opt_error "update child summary: " e ++ failures).

(** How the loop ends. *)
Inductive WorkerEnd :=
| EndFailed (status code message : string) (errs : list string)
| EndUnpersisted (result : string) (errs : list string)
| EndCompleted (result : string).

Definition end_failed (st : WorkerState) (code message persisted : string) : WorkerState * WorkerEnd :=
  let '(st, errs) := persistDelegateFailure st RunStatusFailed (Some persisted) in
  (st, EndFailed RunStatusFailed code message errs).

Definition after_response (st : WorkerState) (usage : LLMUsage) : WorkerState :=
  let promptTokens := if (us_PromptTokens usage <=? 0)%Z then EstimatePromptTokens (Some (wk_bundle st)) []
                      else us_PromptTokens usage in
  let '(bundle, omitted) := compactWorkerBundle triggerTokens (wk_bundle st) promptTokens (wk_omitted st) in
  {| wk_world := wk_world st; wk_bundle := bundle; wk_log := wk_log st; wk_trace := wk_trace st;
     wk_evidence := wk_evidence st; wk_prompt := (wk_prompt st + us_PromptTokens usage)%Z;
     wk_completion := (wk_completion st + us_CompletionTokens usage)%Z; wk_omitted := omitted |}.

Definition child_choice (st : WorkerState) (choice : LLMChoice) : WorkerState * option WorkerEnd :=
  let message := ch_Message choice in
  let content := lm_Content message in
  let st := if content =? "" then st
            else wk_emit (wk_note st "assistant_status" (clipText content 160)) EventAssistantStatus
                   (AssistantStatusData content) in
  match lm_ToolCalls message with
  | [] =>
      if ch_FinishReason choice =? LLMFinishReasonStop then
        let st := wk_push st (text_item LLMRoleAssistant content) in
        let '(st, errs) := persistDelegateCompletion st content in
        match errs with
        | [] => (wk_emit st EventRunCompleted (CompleteData content), Some (EndCompleted content))
        | _ => (st, Some (EndUnpersisted content errs))
        end
      else (st, None)
  | calls => (fold_left run_child_call calls (wk_push st (compactAssistantMessage message)), None)
  end.

(** One pass of the loop; [None] continues it. *)
Definition worker_iteration (st : WorkerState) : WorkerState * option WorkerEnd :=
  match ctx_err (wk_world st) with
  | Some err =>
      let '(st, errs) := store_status st "persist cancelled child status: " "persist child tokens: "
                           RunStatusCancelled (Some "task cancelled") in
      let st := wk_emit st EventRunCancelled (ErrorData "任务已取消") in
      (st, Some (EndFailed RunStatusCancelled "delegate_cancelled" ("delegated task was cancelled: " ++ err)%string errs))
  | None =>
      let '(w, r) := llm (wk_world st) (wk_bundle st) toolSpecs in
      let st := wk_do st w [ARequest (wk_bundle st)] in
      match r with
      | Err err =>
          let '(st, e) := end_failed st "delegate_execution_failed" ("delegated agent failed: " ++ err)%string err in
          (st, Some e)
      | Ok resp =>
          let st := after_response st (rs_Usage resp) in
          match rs_Choices resp with
          | [] =>
              let '(st, e) := end_failed st "delegate_no_response" "delegated agent returned no response"
                                "delegated agent returned no response" in
              (st, Some e)
          | choice :: _ => child_choice st choice
          end
      end
  end.

Definition maxWorkerIterations : nat := 25.

Fixpoint worker_loop (n : nat) (roleName : string) (st : WorkerState) : WorkerState * WorkerEnd :=
  match n with
  | O =>
      let msg := ("delegated agent " ++ roleName ++ " max iterations reached")%string in
      end_failed st "delegate_max_iterations_reached" msg msg
  | S n =>
      match worker_iteration st with
      | (st, Some e) => (st, e)
      | (st, None) => worker_loop n roleName st
      end
  end.
End worker.
Arguments WorkerState : clear implicits.

(** * The tool (server/agent/worker.go, [DelegateTaskTool.Execute]) *)

(** The tool's state: the stored conversations; the goals are only read. *)
Record Delegation (W : Type) := {
  dl_world : W;
  dl_children : option ChildAgentRegistry;
  dl_log : list Action;
}.
Arguments dl_world {W}.
Arguments dl_children {W}.
Arguments dl_log {W}.

(** What the tool is configured with; a missing part is nil. *)
Record DelegateConfig (W : Type) := {
  dc_factory : option (W -> list string -> option (Registry W));
  dc_goals : option SubgoalManager;
  dc_context : bool;
  dc_emitter : bool;
  dc_persistence : option (Persistence W);
  dc_parentRun : string;
  dc_policy : string;
  dc_specs : Registry W -> list ToolSpec;
}.
Arguments dc_factory {W}.
Arguments dc_goals {W}.
Arguments dc_context {W}.
Arguments dc_emitter {W}.
Arguments dc_persistence {W}.
Arguments dc_parentRun {W}.
Arguments dc_policy {W}.
Arguments dc_specs {W}.

(** A delegation that passed every check before its run starts. *)
Record Admitted_delegation (W : Type) := {
  ok_args : DelegateArgs;
  ok_resumed : option ChildAgent;
  ok_allowed : list string;
  ok_registry : Registry W;
  ok_persistence : Persistence W;
}.
Arguments ok_args {W}.
Arguments ok_resumed {W}.
Arguments ok_allowed {W}.
Arguments ok_registry {W}.
Arguments ok_persistence {W}.

Definition unavailable_tools {W} (subReg : Registry W) (allowed : list string) : list string :=
  List.filter (fun requested => negb (HasTool subReg requested)) allowed.

Definition check_goal {W} (cfg : DelegateConfig W) (p : DelegateArgs) : res Refusal unit :=
  if da_GoalID p =? "" then Ok tt
  else match dc_goals cfg with
  | None => Err (refuse p "goal_store_missing" "goal_id was provided but the goal store is unavailable")
  | Some goals => if HasGoal goals (da_GoalID p) then Ok tt
                  else Err (refuse p "goal_not_found" "goal_id does not identify an existing goal")
  end.

(** The checks of [Execute], in order. *)
Definition prepare_delegate {W} (cfg : DelegateConfig W) (decode_error : string -> string)
    (children : option ChildAgentRegistry) (w : W) (args : string) : res Refusal (Admitted_delegation W) :=
  match dc_factory cfg with
  | None => Err (refuse_early "" "delegate_registry_missing" "delegate registry factory is not configured")
  | Some factory =>
  match decode_delegate args with
  | None => Err (refuse_early "" "invalid_arguments" ("invalid arguments: " ++ decode_error args)%string)
  | Some p0 =>
      let? pr := resolve_action children p0 in
      let p := pr.1 in
      let? allowed := check_delegate p in
      match factory w allowed with
      | None => Err (refuse p "delegate_registry_unavailable" "delegate registry factory returned no registry")
      | Some subReg =>
          match unavailable_tools subReg allowed with
          | [] =>
              if bool_decide (map_to_list subReg = []) then
                Err (refuse p "no_allowed_tools_resolved" "no allowed tools resolved for delegate")
              else if negb (dc_context cfg) then
                Err (refuse p "execution_context_missing" "delegate execution context is not initialized")
              else if negb (dc_emitter cfg) then
                Err (refuse p "event_emitter_missing" "delegate event emitter is not initialized")
              else match dc_persistence cfg with
              | None => Err (refuse p "child_run_persistence_missing" "delegate child-run persistence is not initialized")
              | Some persistence =>
                  let? _ := check_goal cfg p in
                  Ok {| ok_args := p; ok_resumed := pr.2; ok_allowed := allowed; ok_registry := subReg;
                        ok_persistence := persistence |}
              end
          | unavailable =>
              Err (refuse_with p "tools_not_delegable" "one or more requested tools are unknown, unavailable, or not delegable"
                     [("unavailable_tools", JArr (map JStr unavailable))])
          end
      end
  end
  end.

Section execute.
Context {W : Type} (cfg : DelegateConfig W).
Context (llm : W -> PromptBundle -> list ToolSpec -> W * res string LLMResponse).
Context (sanitizeToolError decode_error : string -> string).
Context (spill : string -> option string).
Context (ctx_err : W -> option string) (interrupted : W -> string -> option ExecError) (wait_delay : W -> W).
Context (triggerTokens : Z).

(** The conversation the run works in: the resumed one, or a new one when the session
    stores conversations. *)
Definition child_of (children : option ChildAgentRegistry) (a : Admitted_delegation W) (freshID : string) (now : time) :
    option ChildAgentRegistry * option ChildAgent :=
  match ok_resumed a with
  | Some child => (children, Some child)
  | None =>
      match children with
      | None => (None, None)
      | Some _ =>
          let p := ok_args a in
          let '(children, child) :=
            ChildAgentRegistry_Create children (da_RoleName p) (da_PolicyAppendix p) (ok_allowed a) (da_GoalID p) freshID now in
          (children, Some child)
      end
  end.

Definition child_bundle (a : Admitted_delegation W) (child : option ChildAgent) : PromptBundle :=
  let p := ok_args a in
  {| pb_Policy := dc_policy cfg; pb_PolicyAppendix := da_PolicyAppendix p; pb_Task := "";
     pb_RuntimeContext := [];
     pb_History := match child with Some c => ca_History c | None => [] end
                   ++ [text_item LLMRoleUser (da_TaskInstruction p)] |}.

Definition render_end (p : DelegateArgs) (childRunID subagentID : string) (st : WorkerState W) (e : WorkerEnd) : string :=
  let fail := delegateToolFailure childRunID (da_RoleName p) (da_TaskInstruction p) (da_AllowedTools p) (da_GoalID p) in
  match e with
  | EndFailed status code message errs => fail code message (delegateStatusFacts status errs)
  | EndUnpersisted result errs =>
      fail "child_run_persistence_failed" "delegated agent finished but its terminal state was not durably persisted"
        [("child_result", JStr result); ("child_run_status_target", JStr RunStatusCompleted);
         ("persistence_errors", JArr (map JStr errs))]
  | EndCompleted result =>
      delegateToolSuccess childRunID subagentID (da_RoleName p) (da_TaskInstruction p) (da_AllowedTools p) (da_GoalID p)
        result (length (wk_trace st)) (wk_evidence st)
  end.

Definition child_loop (a : Admitted_delegation W) (childRunID : string) (bundle : PromptBundle) (w : W)
    (log : list Action) : WorkerState W * WorkerEnd :=
  worker_loop (ok_registry a) llm sanitizeToolError decode_error spill ctx_err interrupted wait_delay
    (ok_persistence a) triggerTokens (dc_specs cfg (ok_registry a)) childRunID maxWorkerIterations
    (da_RoleName (ok_args a))
    {| wk_world := w; wk_bundle := bundle; wk_log := log; wk_trace := []; wk_evidence := no_evidence;
       wk_prompt := 0; wk_completion := 0; wk_omitted := 0 |}.

Definition start_of (a : Admitted_delegation W) : ChildRunStart :=
  {| cs_ParentRunID := dc_parentRun cfg; cs_RoleName := da_RoleName (ok_args a);
     cs_InputMessage := da_TaskInstruction (ok_args a); cs_GoalID := da_GoalID (ok_args a);
     cs_AllowedTools := ok_allowed a |}.

(** [freshID] and the two times are what the generator and the clock give. *)
Definition DelegateTask_Execute (freshID : string) (now now' : time) (d : Delegation W) (args : string) :
    Delegation W * string :=
  match prepare_delegate cfg decode_error (dl_children d) (dl_world d) args with
  | Err r => (d, render_refusal r)
  | Ok a =>
      let p := ok_args a in
      let '(w, r) := pe_StartChildRun (ok_persistence a) (start_of a) (dl_world d) in
      let d := {| dl_world := w; dl_children := dl_children d; dl_log := dl_log d |} in
      match r with
      | Err err => (d, render_refusal (refuse p "child_run_start_failed" ("failed to start child run: " ++ err)%string))
      | Ok childRunID =>
          if (childRunID =? "") || not_exact childRunID then
            (d, render_refusal (refuse p "child_run_identity_invalid" "delegate persistence returned an invalid child run ID"))
          else
            let '(children, child) := child_of (dl_children d) a freshID now in
            let '(st, e) := child_loop a childRunID (child_bundle a child) w (dl_log d) in
            let children := match child with
                            | Some c => ChildAgentRegistry_Save children (ca_ID c) (wk_history st) "" now'
                            | None => children
                            end in
            ({| dl_world := wk_world st; dl_children := children; dl_log := wk_log st |},
             render_end p childRunID (match child with Some c => ca_ID c | None => "" end) st e)
      end
  end.
End execute.

(** * Lemmas: one call, one iteration *)

Definition quiet {W} (subReg : Registry W) (a : Action) : Prop :=
  match a with AEvent _ _ => True | AExecute name _ => HasTool subReg name = true | _ => False end.

Definition end_status (e : WorkerEnd) : string :=
  match e with EndFailed status _ _ _ => status | _ => RunStatusCompleted end.

(** The actions of one pass: at most one request, then calls and events, then the
    status, when the pass is the last. *)
Definition pass_acts {W} (subReg : Registry W) (runID : string) (bundle : PromptBundle) (e : option WorkerEnd)
    (acts : list Action) : Prop :=
  exists req q1 q2,
    acts = req ++ q1 ++ (match e with Some e => [AStatus runID (end_status e)] | None => [] end) ++ q2
    /\ (req = [] /\ e <> None \/ req = [ARequest bundle])
    /\ Forall (quiet subReg) q1 /\ Forall (quiet subReg) q2.

Section worker_lemmas.
Context {W : Type} (subReg : Registry W).
Context (llm : W -> PromptBundle -> list ToolSpec -> W * res string LLMResponse).
Context (sanitizeToolError decode_error : string -> string).
Context (spill : string -> option string).
Context (ctx_err : W -> option string) (interrupted : W -> string -> option ExecError) (wait_delay : W -> W).
Context (persistence : Persistence W).
Context (triggerTokens : Z) (toolSpecs : list ToolSpec).
Context (childRunID : string).
Local Abbreviation call1 := (run_child_call subReg sanitizeToolError decode_error spill ctx_err interrupted wait_delay childRunID).
Local Abbreviation iteration := (worker_iteration subReg llm sanitizeToolError decode_error spill ctx_err interrupted
  wait_delay persistence triggerTokens toolSpecs childRunID).
Local Abbreviation loop := (worker_loop subReg llm sanitizeToolError decode_error spill ctx_err interrupted
  wait_delay persistence triggerTokens toolSpecs childRunID).

Lemma run_child_call_spec st call :
  exists acts r, wk_log (call1 st call) = wk_log st ++ acts /\ Forall (quiet subReg) acts
    /\ wk_history (call1 st call) = wk_history st ++ [r] /\ is_tool r = true /\ ci_ToolCallID r = tc_ID call.
Proof.
  unfold run_child_call. cbn [wk_world wk_emit wk_note wk_do].
  destruct (retryableToolExec _ _ _ _ _ _ _) as [w r].
  set (ran := if HasTool subReg _ then _ else _).
  assert (Forall (quiet subReg) ran) as Hran.
  { unfold ran. destruct (HasTool subReg _) eqn:Hh; repeat constructor. done. }
  destruct (match r with Ok result => (result, None) | Err err => ("", Some err) end) as [raw execErr].
  destruct (normalizeToolExecutionResult _ _ _ _ _) as [[result success] contractErr].
  destruct success; cbn [negb].
  - destruct (collectDelegateEvidence _ _ _) as [ev [err|]];
      eexists _, _; (split; [cbn; rewrite <- !app_assoc; reflexivity|]);
      (split; [by repeat first [apply Forall_cons_2|apply Forall_app_2|apply Forall_nil_2]|]); by split.
  - eexists _, _; (split; [cbn; rewrite <- !app_assoc; reflexivity|]);
      (split; [by repeat first [apply Forall_cons_2|apply Forall_app_2|apply Forall_nil_2]|]); by split.
Qed.

Lemma run_child_calls_spec calls st :
  exists acts results, wk_log (fold_left call1 calls st) = wk_log st ++ acts /\ Forall (quiet subReg) acts
    /\ wk_history (fold_left call1 calls st) = wk_history st ++ results /\ answered_by calls results.
Proof.
  revert st. induction calls as [|call calls IH]; intros st; cbn [fold_left].
  - exists [], []. rewrite !app_nil_r. by repeat split.
  - destruct (run_child_call_spec st call) as (acts1 & r & Hlog & Hq & Hh & Ht & Hid).
    destruct (IH (call1 st call)) as (acts2 & results & Hlog2 & Hq2 & Hh2 & Hans & Hids).
    exists (acts1 ++ acts2), (r :: results). rewrite Hlog2, Hlog, Hh2, Hh, <- !app_assoc.
    repeat split; [by apply Forall_app_2|by apply Forall_cons_2|]. cbn. by rewrite Hid, Hids.
Qed.

Lemma persist_spec st p1 p2 status message :
  wk_log (store_status persistence childRunID st p1 p2 status message).1 = wk_log st ++ [AStatus childRunID status]
  /\ wk_history (store_status persistence childRunID st p1 p2 status message).1 = wk_history st.
Proof.
  unfold store_status. destruct (pe_UpdateStatus _ _ _ _ _) as [w e1].
  destruct (pe_UpdateTokens _ _ _ _ _) as [w' e2]. by split.
Qed.

Lemma completion_spec st summary :
  wk_log (persistDelegateCompletion persistence childRunID st summary).1
    = wk_log st ++ [AStatus childRunID RunStatusCompleted]
  /\ wk_history (persistDelegateCompletion persistence childRunID st summary).1 = wk_history st.
Proof.
  unfold persistDelegateCompletion, persistDelegateFailure.
  destruct (pe_UpdateSummary _ _ _ _) as [w e].
  pose proof (persist_spec (wk_set_world st w) "update child status: " "update child tokens: " RunStatusCompleted None) as H.
  by destruct (store_status _ _ _ _ _ _ _) as [st' errs].
Qed.

Lemma end_failed_spec st code message persisted :
  let '(st', e) := end_failed persistence childRunID st code message persisted in
  wk_log st' = wk_log st ++ [AStatus childRunID (end_status e)] /\ wk_history st' = wk_history st.
Proof.
  unfold end_failed, persistDelegateFailure.
  pose proof (persist_spec st "update child status: " "update child tokens: " RunStatusFailed (Some persisted)) as H.
  by destruct (store_status _ _ _ _ _ _ _) as [st' errs].
Qed.

Lemma compactWorkerBundle_paired trigger bundle tokens omitted skip :
  paired skip (pb_History bundle) -> paired skip (pb_History (compactWorkerBundle trigger bundle tokens omitted).1).
Proof.
  intros Hp. unfold compactWorkerBundle.
  destruct (_ <=? 1)%nat; [done|]. destruct (_ || _)%bool; [done|]. destruct (_ <=? _)%nat; [done|]. cbn.
  destruct (adjust_boundary_cut skip (pb_History bundle) (length (pb_History bundle) - recentContextWindow) Hp) as [_ Hcut].
  by apply paired_cut.
Qed.

Lemma after_response_spec (st : WorkerState W) usage :
  wk_log (after_response triggerTokens st usage) = wk_log st
  /\ (paired "" (wk_history st) -> paired "" (wk_history (after_response triggerTokens st usage))).
Proof.
  unfold after_response. set (tokens := if (_ <=? 0)%Z then _ else _).
  pose proof (compactWorkerBundle_paired triggerTokens (wk_bundle st) tokens (wk_omitted st) "") as H.
  destruct (compactWorkerBundle _ _ _ _) as [bundle omitted]. by split.
Qed.

Lemma child_choice_spec st choice :
  let '(st', oe) := child_choice subReg sanitizeToolError decode_error spill ctx_err interrupted wait_delay
                      persistence childRunID st choice in
  (exists q1 q2, wk_log st' = wk_log st ++ q1 ++ (match oe with Some e => [AStatus childRunID (end_status e)] | None => [] end) ++ q2
     /\ Forall (quiet subReg) q1 /\ Forall (quiet subReg) q2)
  /\ (lm_Role (ch_Message choice) = LLMRoleAssistant -> paired "" (wk_history st) -> paired "" (wk_history st')).
Proof.
  unfold child_choice. set (message := ch_Message choice).
  assert (exists q0, let st1 := if lm_Content message =? "" then st
      else wk_emit childRunID (wk_note st "assistant_status" (clipText (lm_Content message) 160)) EventAssistantStatus
             (AssistantStatusData (lm_Content message)) in
    wk_log st1 = wk_log st ++ q0 /\ Forall (quiet subReg) q0 /\ wk_history st1 = wk_history st) as (q0 & Hlog & Hq0 & Hh).
  { cbn zeta. destruct (_ =? _); [exists []; by rewrite app_nil_r|]. eexists. by repeat constructor. }
  cbn zeta in *. set (st1 := if lm_Content message =? "" then st else _) in *.
  destruct (lm_ToolCalls message) as [|call calls] eqn:Hcalls.
  - destruct (_ =? LLMFinishReasonStop).
    2: { split; [|by rewrite Hh]. exists q0, []. by rewrite !app_nil_r. }
    pose proof (completion_spec (wk_push st1 (text_item LLMRoleAssistant (lm_Content message))) (lm_Content message)) as [H1 H2].
    destruct (persistDelegateCompletion _ _ _ _) as [st2 errs]. cbn [fst] in H1, H2.
    assert (paired "" (wk_history st) -> paired "" (wk_history st2)) as Hp.
    { rewrite H2. cbn. rewrite Hh. intros Hp. apply paired_plain_push; [done|by right]. }
    destruct errs; (split; [|by intros _]); cbn [wk_log wk_push] in *.
    + exists q0. eexists. cbn [wk_log wk_emit wk_do]. rewrite H1, Hlog, <- !app_assoc. split; [done|by repeat constructor].
    + exists q0, []. by rewrite H1, Hlog, <- !app_assoc.
  - destruct (run_child_calls_spec (call :: calls) (wk_push st1 (compactAssistantMessage message)))
      as (acts & results & H1 & Hq & H2 & Hans).
    split.
    + exists (q0 ++ acts), []. rewrite H1. cbn [wk_log wk_push]. rewrite Hlog, !app_nil_r, <- app_assoc.
      split; [done|]. split; [by apply Forall_app_2|done].
    + intros Hrole Hp. rewrite H2. cbn [wk_history wk_bundle wk_push with_history pb_History].
      rewrite Hh, <- app_assoc. apply paired_batch; [done..| |].
      * cbn. by rewrite Hcalls.
      * cbn. by rewrite Hcalls.
Qed.

Lemma worker_iteration_spec st :
  let '(st', oe) := iteration st in
  (exists acts, wk_log st' = wk_log st ++ acts /\ pass_acts subReg childRunID (wk_bundle st) oe acts)
  /\ (llm_answers_as_assistant llm -> paired "" (wk_history st) -> paired "" (wk_history st')).
Proof.
  unfold worker_iteration. destruct (ctx_err (wk_world st)) as [err|].
  { pose proof (persist_spec st "persist cancelled child status: " "persist child tokens: " RunStatusCancelled (Some "task cancelled")) as [H1 H2].
    destruct (store_status _ _ _ _ _ _ _) as [st1 errs]. cbn [fst] in *. split; [|intros _; change (wk_history (wk_emit _ st1 _ _)) with (wk_history st1); by rewrite H2].
    eexists. cbn [wk_log wk_emit wk_do]. rewrite H1, <- app_assoc. split; [reflexivity|].
    exists [], [], [AEvent childRunID (event EventRunCancelled (ErrorData "任务已取消"))].
    split; [done|]. split; [by left|]. by repeat constructor. }
  destruct (llm (wk_world st) (wk_bundle st) toolSpecs) as [w r] eqn:Hllm.
  assert (forall (st1 st' : WorkerState W) e, wk_log st1 = wk_log st ++ [ARequest (wk_bundle st)] ->
    wk_log st' = wk_log st1 ++ [AStatus childRunID (end_status e)] ->
    exists acts, wk_log st' = wk_log st ++ acts /\ pass_acts subReg childRunID (wk_bundle st) (Some e) acts) as Hend.
  { intros st1 st' e H1 H2. eexists. rewrite H2, H1, <- app_assoc. split; [reflexivity|].
    exists [ARequest (wk_bundle st)], [], []. split; [done|]. split; [by right|]. by repeat constructor. }
  destruct r as [resp|err].
  2: { pose proof (end_failed_spec (wk_do st w [ARequest (wk_bundle st)]) "delegate_execution_failed"
         ("delegated agent failed: " ++ err)%string err) as H.
       destruct (end_failed _ _ _ _ _ _) as [st' e]. destruct H as [H1 H2]. split; [by apply (Hend (wk_do st w [ARequest (wk_bundle st)]))|].
       intros _. by rewrite H2. }
  pose proof (after_response_spec (wk_do st w [ARequest (wk_bundle st)]) (rs_Usage resp)) as [Hlog Hpair].
  set (st1 := after_response triggerTokens _ _) in *.
  destruct (rs_Choices resp) as [|choice rest] eqn:Hch.
  - pose proof (end_failed_spec st1 "delegate_no_response" "delegated agent returned no response" "delegated agent returned no response") as H.
    destruct (end_failed _ _ _ _ _ _) as [st' e]. destruct H as [H1 H2]. split; [by apply (Hend st1)|].
    intros _. rewrite H2. exact Hpair.
  - pose proof (child_choice_spec st1 choice) as H.
    destruct (child_choice _ _ _ _ _ _ _ _ _ _ _) as [st' oe]. destruct H as [(q1 & q2 & H1 & Hq1 & Hq2) H2]. split.
    + eexists. rewrite H1, Hlog. cbn [wk_log wk_do]. rewrite <- app_assoc. split; [reflexivity|].
      exists [ARequest (wk_bundle st)], q1, q2. split; [done|]. split; [by right|done].
    + intros Hass Hp. apply H2; [|by apply Hpair]. eapply Hass; [exact Hllm|]. rewrite Hch. by left.
Qed.

(** What a run of the loop did: at most [n] requests, each on a paired history, then
    exactly one status, the one of its end. *)
Definition is_request (a : Action) : bool := match a with ARequest _ => true | _ => false end.
Definition statuses (acts : list Action) : list (string * string) :=
  flat_map (fun a => match a with AStatus r s => [(r, s)] | _ => [] end) acts.
Definition requests (acts : list Action) : list PromptBundle :=
  flat_map (fun a => match a with ARequest b => [b] | _ => [] end) acts.
Definition executed (acts : list Action) : list string :=
  flat_map (fun a => match a with AExecute n _ => [n] | _ => [] end) acts.

Lemma statuses_app a b : statuses (a ++ b) = statuses a ++ statuses b.
Proof. apply flat_map_app. Qed.
Lemma requests_app a b : requests (a ++ b) = requests a ++ requests b.
Proof. apply flat_map_app. Qed.
Lemma executed_app a b : executed (a ++ b) = executed a ++ executed b.
Proof. apply flat_map_app. Qed.

Lemma quiet_nothing acts : Forall (quiet subReg) acts ->
  statuses acts = [] /\ requests acts = [] /\ Forall (fun n => HasTool subReg n = true) (executed acts).
Proof.
  induction 1 as [|a acts Ha _ IH]; [by repeat split|].
  destruct IH as (H1 & H2 & H3). destruct a; cbn; by repeat split; try constructor.
Qed.

Lemma pass_acts_spec bundle oe acts : pass_acts subReg childRunID bundle oe acts ->
  statuses acts = (match oe with Some e => [(childRunID, end_status e)] | None => [] end)
  /\ (requests acts = [] \/ requests acts = [bundle])
  /\ Forall (fun n => HasTool subReg n = true) (executed acts).
Proof.
  intros (req & q1 & q2 & -> & Hreq & (Hs1 & Hr1 & He1)%quiet_nothing & (Hs2 & Hr2 & He2)%quiet_nothing).
  rewrite !statuses_app, !requests_app, !executed_app, Hs1, Hr1, Hs2, Hr2, !app_nil_r. split; [|split].
  - destruct Hreq as [[-> _] | ->]; by destruct oe.
  - destruct Hreq as [[-> _] | ->]; destruct oe; auto.
  - repeat apply Forall_app_2; [destruct Hreq as [[-> _] | ->]|..| |]; try done; by destruct oe.
Qed.

Lemma worker_loop_spec n roleName st :
  let '(st', e) := loop n roleName st in
  exists acts, wk_log st' = wk_log st ++ acts
    /\ statuses acts = [(childRunID, end_status e)]
    /\ length (requests acts) <= n
    /\ Forall (fun m => HasTool subReg m = true) (executed acts)
    /\ (llm_answers_as_assistant llm -> paired "" (wk_history st) ->
        paired "" (wk_history st') /\ Forall (fun b => paired "" (pb_History b)) (requests acts)).
Proof.
  revert st. induction n as [|n IH]; intros st; cbn [worker_loop].
  - pose proof (end_failed_spec st "delegate_max_iterations_reached" ("delegated agent " ++ roleName ++ " max iterations reached")%string
      ("delegated agent " ++ roleName ++ " max iterations reached")%string) as H.
    destruct (end_failed _ _ _ _ _ _) as [st' e]. destruct H as [H1 H2].
    eexists. split; [exact H1|]. cbn. split; [done|]. split; [lia|]. split; [done|]. by rewrite H2.
  - pose proof (worker_iteration_spec st) as H. destruct (iteration st) as [st1 oe].
    destruct H as [(acts1 & Hlog1 & Hpass) Hpair1]. apply pass_acts_spec in Hpass as (Hs1 & Hr1 & He1).
    assert (llm_answers_as_assistant llm -> paired "" (wk_history st) ->
      Forall (fun b => paired "" (pb_History b)) (requests acts1)) as Hreqs1.
    { intros _ Hp. destruct Hr1 as [-> | ->]; [done|]. by repeat constructor. }
    assert (length (requests acts1) <= 1) as Hlen1 by (destruct Hr1 as [-> | ->]; cbn; lia).
    destruct oe as [e|].
    + exists acts1. split; [done|]. split; [done|]. split; [lia|]. split; [done|]. intros Ha Hp. by split; [apply Hpair1|apply Hreqs1].
    + specialize (IH st1). destruct (loop n roleName st1) as [st' e].
      destruct IH as (acts2 & Hlog2 & Hs2 & Hr2 & He2 & Hpair2). exists (acts1 ++ acts2).
      rewrite statuses_app, requests_app, executed_app, Hs1, Hs2, Hlog2, Hlog1, app_assoc, length_app.
      split; [done|]. split; [done|]. split; [lia|]. split; [by apply Forall_app_2|].
      intros Ha Hp. destruct (Hpair2 Ha (Hpair1 Ha Hp)) as [Hp2 Hq2]. split; [done|].
      apply Forall_app_2; [by apply Hreqs1|done].
Qed.

Definition terminal (status : string) : Prop :=
  status ∈ [RunStatusCompleted; RunStatusFailed; RunStatusCancelled].

Lemma end_failed_status (st : WorkerState W) code message persisted :
  terminal (end_status (end_failed persistence childRunID st code message persisted).2).
Proof. unfold end_failed. destruct (persistDelegateFailure _ _ _ _ _). unfold terminal. cbn. set_solver. Qed.

Lemma worker_iteration_status st :
  match (iteration st).2 with Some e => terminal (end_status e) | None => True end.
Proof.
  unfold worker_iteration. destruct (ctx_err _).
  { destruct (store_status _ _ _ _ _ _ _). unfold terminal. cbn. set_solver. }
  destruct (llm _ _ _) as [w [resp|err]].
  2: { match goal with |- context [end_failed ?a ?b ?c ?d ?e ?f] => pose proof (end_failed_status c d e f) as H;
         by destruct (end_failed a b c d e f) end. }
  destruct (rs_Choices resp) as [|choice rest].
  { match goal with |- context [end_failed ?a ?b ?c ?d ?e ?f] => pose proof (end_failed_status c d e f) as H;
         by destruct (end_failed a b c d e f) end. }
  unfold child_choice. destruct (lm_ToolCalls _); [|done]. destruct (_ =? _); [|done].
  destruct (persistDelegateCompletion _ _ _ _) as [st' errs]. unfold terminal. destruct errs; cbn; set_solver.
Qed.

Lemma worker_loop_status n roleName st : terminal (end_status (loop n roleName st).2).
Proof.
  revert st. induction n as [|n IH]; intros st; cbn [worker_loop]; [apply end_failed_status|].
  pose proof (worker_iteration_status st) as H. destruct (iteration st) as [st' [e|]]; [done|apply IH].
Qed.
End worker_lemmas.


(** * Lemmas: the grant, and the whole tool *)

Lemma runtime_names {W} (reg : Registry W) n :
  existsb (String.eqb n) (RuntimeToolNames reg true) = true ->
  exists tool, reg !! n = Some tool /\ runtime_tool true (n, tool) = true.
Proof.
  intros (m & Hin & ->%String.eqb_eq)%existsb_exists. unfold RuntimeToolNames in Hin.
  apply in_map_iff in Hin as ([k u] & <- & Hin). rewrite <- list_elem_of_In in Hin. rewrite sort_keys_perm in Hin.
  rewrite list_elem_of_In in Hin. apply in_map_iff in Hin as ([k' tool] & [= -> <-] & Hin).
  apply filter_In in Hin as [Hin Hrt]. rewrite <- list_elem_of_In in Hin. apply elem_of_map_to_list in Hin.
  by exists tool.
Qed.

(** A tool the child may use was asked for, and is declared runtime-enabled and
    delegable. *)
Lemma buildRuntimeRegistry_grants {W} (reg : Registry W) pi w allowed sub n :
  registry_wf reg -> buildRuntimeRegistry reg pi w allowed = Some sub -> HasTool sub n = true ->
  In n allowed /\ exists tool, reg !! n = Some tool /\ sub !! n = Some tool /\ runtime_tool true (n, tool) = true.
Proof.
  unfold buildRuntimeRegistry, CloneFiltered, HasTool. intros Hwf Hc Hn. apply bool_decide_eq_true in Hn.
  apply (clone_loop_spec reg) in Hc as (_ & Hsub & Hin); [|done|done|apply map_empty_subseteq].
  apply Hin in Hn as Hcase. destruct Hcase as [[x Hx]|[Ha _]].
  { unfold NewRegistry in Hx. by rewrite lookup_empty in Hx. }
  unfold runtime_allowed in Ha. rewrite list_elem_of_In in Ha. apply filter_In in Ha as [Ha Hb].
  apply andb_true_iff in Hb as [Hb _]. apply runtime_names in Hb as (tool & Htool & Hrt).
  split; [done|]. exists tool. split; [done|]. split; [|done].
  destruct Hn as [tool' Ht]. pose proof (lookup_weaken _ _ _ _ Ht Hsub). congruence.
Qed.

Lemma evict_oldest_subseteq n agents order : (evict_oldest n agents order).1 ⊆ agents.
Proof.
  revert agents order. induction n as [|n IH]; intros agents order; cbn; [done|].
  destruct order as [|o order]; [done|]. etrans; [apply IH|apply delete_subseteq].
Qed.

(** Every stored conversation follows the tool-call protocol. *)
Definition children_paired (children : option ChildAgentRegistry) : Prop :=
  match children with
  | None => True
  | Some r => map_Forall (fun _ c => paired "" (ca_History c)) (cr_agents r)
  end.

Lemma child_of_paired {W} children (a : Admitted_delegation W) freshID now :
  children_paired children ->
  (forall c, ok_resumed a = Some c -> paired "" (ca_History c)) ->
  children_paired (child_of children a freshID now).1
  /\ forall c, (child_of children a freshID now).2 = Some c -> paired "" (ca_History c).
Proof.
  intros Hch Hres. unfold child_of. destruct (ok_resumed a) as [child|]; [split; [done|]; intros c [= <-]; auto|].
  destruct children as [r|]; [|by split]. cbn [ChildAgentRegistry_Create fst snd]. split.
  - cbn. unfold evictChildrenLocked. cbn [cr_agents cr_order].
    destruct (evict_oldest _ _ _) as [agents order] eqn:He. cbn.
    pose proof (evict_oldest_subseteq (length (cr_order r ++ [freshID]) - maxRetainedChildren)
      (<[freshID := {| ca_ID := freshID; ca_RoleName := da_RoleName (ok_args a);
                       ca_PolicyAppendix := da_PolicyAppendix (ok_args a); ca_AllowedTools := ok_allowed a;
                       ca_GoalID := da_GoalID (ok_args a); ca_History := []; ca_LastResult := "";
                       ca_CreatedAt := now; ca_UpdatedAt := now |}]> (cr_agents r)) (cr_order r ++ [freshID])) as Hsub.
    rewrite He in Hsub. intros id c Hc. apply (lookup_weaken _ _ _ _ Hc) in Hsub.
    revert Hsub. clear Hc. revert id c. apply map_Forall_insert_2; [constructor|done].
  - intros c [= <-]. constructor.
Qed.

Lemma save_paired children id history result now :
  children_paired children -> paired "" history -> children_paired (ChildAgentRegistry_Save children id history result now).
Proof.
  intros Hch Hp. destruct children as [r|]; [|done]. cbn. destruct (cr_agents r !! id) as [c|]; [|done].
  cbn. by apply map_Forall_insert_2.
Qed.

Lemma prepare_resumed {W} (cfg : DelegateConfig W) derr children w args a c :
  prepare_delegate cfg derr children w args = Ok a -> ok_resumed a = Some c ->
  exists r id, children = Some r /\ cr_agents r !! id = Some c.
Proof.
  unfold prepare_delegate. destruct (dc_factory cfg) as [factory|]; [|done].
  destruct (decode_delegate args) as [p0|]; [|done].
  destruct (resolve_action children p0) as [[p resumed]|] eqn:Hres; [|done]. cbn [fst snd].
  intros H Hc.
  assert (ok_resumed a = resumed) as Heq by (repeat (break_match_in H; try discriminate H); by injection H as <-).
  rewrite Heq in Hc. subst resumed. unfold resolve_action in Hres.
  destruct ((if da_Action p0 =? "" then "start" else da_Action p0) =? "continue"); [|by repeat break_match_in Hres].
  destruct children as [r|]; [|done]. destruct (blank _); [done|].
  unfold ChildAgentRegistry_Get in Hres. destruct (cr_agents r !! da_SubagentID p0) as [c'|] eqn:Hl; [|done].
  injection Hres as _ ->. eauto.
Qed.

Lemma prepare_registry {W} (cfg : DelegateConfig W) derr children w args a reg pi :
  dc_factory cfg = Some (buildRuntimeRegistry reg pi) ->
  prepare_delegate cfg derr children w args = Ok a ->
  buildRuntimeRegistry reg pi w (ok_allowed a) = Some (ok_registry a).
Proof.
  unfold prepare_delegate. intros ->. destruct (decode_delegate args) as [p0|]; [|done].
  destruct (resolve_action children p0) as [[p resumed]|]; [|done]. cbn [fst snd].
  destruct (check_delegate p) as [allowed|]; [|done].
  destruct (buildRuntimeRegistry reg pi w allowed) as [sub|] eqn:Hb; [|done]. intros H.
  assert (ok_allowed a = allowed /\ ok_registry a = sub) as [-> ->]; [|done].
  repeat (break_match_in H; try discriminate H); by injection H as <-.
Qed.

(** * Properties *)

Section properties.
Context {W : Type} (cfg : DelegateConfig W).
Context (llm : W -> PromptBundle -> list ToolSpec -> W * res string LLMResponse).
Context (sanitizeToolError decode_error : string -> string).
Context (spill : string -> option string).
Context (ctx_err : W -> option string) (interrupted : W -> string -> option ExecError) (wait_delay : W -> W).
Context (triggerTokens : Z).
Local Abbreviation execute := (DelegateTask_Execute cfg llm sanitizeToolError decode_error spill ctx_err interrupted
  wait_delay triggerTokens).


(** The conversations of delegated agents follow the tool-call protocol: when every
    stored conversation does, then, whatever the model and the tools answer and however
    the run ends, every request of a delegation does, and so does every conversation
    stored after it, the one a later continue starts from included. *)
Theorem delegated_conversations_paired freshID now now' d args :
  llm_answers_as_assistant llm -> children_paired (dl_children d) ->
  children_paired (dl_children (execute freshID now now' d args).1)
  /\ exists acts, dl_log (execute freshID now now' d args).1 = dl_log d ++ acts
       /\ Forall (fun b => paired "" (pb_History b)) (requests acts).
Proof.
  intros Hass Hch. unfold DelegateTask_Execute.
  destruct (prepare_delegate _ _ _ _ _) as [a|r] eqn:Hprep; [|split; [done|exists []; rewrite app_nil_r; by split]].
  destruct (pe_StartChildRun _ _ _) as [w [runID|err]]; [|split; [done|exists []; cbn; rewrite app_nil_r; by split]].
  destruct (_ || _)%bool; [split; [done|exists []; cbn; rewrite app_nil_r; by split]|]. cbn [dl_children dl_log].
  assert (forall c, ok_resumed a = Some c -> paired "" (ca_History c)) as Hres.
  { intros c Hc. destruct (prepare_resumed _ _ _ _ _ _ _ Hprep Hc) as (r & id & Hr & Hl).
    rewrite Hr in Hch. exact (Hch id c Hl). }
  pose proof (child_of_paired (dl_children d) a freshID now Hch Hres) as [Hch1 Hchild].
  destruct (child_of _ _ _ _) as [children child]. cbn [fst snd] in *. unfold child_loop.
  match goal with |- context [worker_loop ?r ?l ?s ?de ?sp ?ce ?i ?wd ?p ?t ?ts ?id ?n ?rn ?st] =>
    pose proof (worker_loop_spec r l s de sp ce i wd p t ts id n rn st) as H;
    destruct (worker_loop r l s de sp ce i wd p t ts id n rn st) as [st' e] end.
  destruct H as (acts & Hlog & _ & _ & _ & Hpair). cbn [dl_children dl_log].
  destruct Hpair as [Hp Hreqs]; [done| |].
  { cbn. apply paired_plain_push; [|by left]. destruct child as [c|]; [by apply Hchild|constructor]. }
  split; [|by exists acts]. destruct child as [c|]; [by apply save_paired|done].
Qed.
End properties.

(** * Samples *)

(** A session with one delegable tool, [sql], and one that is not, [finalize]; the model
    is scripted and every call of the persistence succeeds. *)
Module DelegateSample.
Import EngineLoop.Sample.

Definition delegable (t : Tool World) : Tool World :=
  {| t_Name := t_Name t; t_Description := ""; t_Parameters := "{}"; t_Execute := t_Execute t; t_Strict := None;
     t_Capability := Some {| cap_Mode := "act"; cap_RuntimeEnabled := true; cap_Delegable := true; cap_RunControl := "";
       cap_DeliveryBoundary := false; cap_EmitsReportPreview := false; cap_Idempotent := false |};
     t_ApprovalGate := None; t_CheckAvailability := None; t_SuspensionEvent := None; t_AcceptsUserResponse := None;
     t_IsConcurrencySafe := None |}.
Definition found : string :=
  MarshalMap [("ok", JBool true); ("tool", JStr "sql"); ("result_id", JStr "res_1")].
Definition session_tools : Registry World :=
  {["sql" := delegable (tool "sql" false found); "finalize" := tool "finalize" true finalized]}.
Definition stored : Persistence World :=
  {| pe_StartChildRun := fun _ w => (w, Ok "d_1"); pe_UpdateStatus := fun _ _ _ w => (w, None);
     pe_UpdateSummary := fun _ _ w => (w, None); pe_UpdateTokens := fun _ _ _ w => (w, None) |}.
Definition config : DelegateConfig World :=
  {| dc_factory := Some (buildRuntimeRegistry session_tools (fun _ _ => false)); dc_goals := None; dc_context := true; dc_emitter := true;
     dc_persistence := Some stored; dc_parentRun := "r_1"; dc_policy := "policy"; dc_specs := fun _ => [] |}.
Definition delegate (script : list (string * list LLMToolCall)) (children : option ChildAgentRegistry) (args : string) :=
  DelegateTask_Execute config model id (fun _ => "bad json") (fun _ => None) (fun _ => None) (fun _ _ => None) id 1000
    "sub_1" 5 9 {| dl_world := world script; dl_children := children; dl_log := [] |} args.
Definition start_args : string :=
  MarshalMap [("role_name", JStr "checker"); ("task_instruction", JStr "count rows"); ("allowed_tools", JArr [JStr "sql"])].
Definition two_turns : list (string * list LLMToolCall) := [("", [sample_call "c1" "sql"]); ("42 rows", [])].

Lemma session_tools_wf : registry_wf session_tools.
Proof.
  intros name t Ht. unfold session_tools in Ht.
  apply lookup_insert_Some in Ht as [[<- <-]|[_ Ht]]; [by vm_compute|].
  apply lookup_singleton_Some in Ht as [<- <-]. by vm_compute.
Qed.

Lemma model_as_assistant' : llm_answers_as_assistant model.
Proof.
  intros w bundle specs w' resp choice. unfold model. destruct (wd_script w) as [|[c calls] rest]; [done|].
  intros [= _ <-]. cbn. intros [->|Hin]%elem_of_cons; [done|]. by apply not_elem_of_nil in Hin.
Qed.

End DelegateSample.
Import DelegateSample EngineLoop.Sample.


Lemma delegated_conversations_paired_witness :
  length (requests (dl_log (delegate two_turns (Some NewChildAgentRegistry) start_args).1)) = 2
  /\ children_paired (dl_children (delegate two_turns (Some NewChildAgentRegistry) start_args).1).
Proof.
  split; [vm_compute; reflexivity|].
  apply (delegated_conversations_paired config model id (fun _ => "bad json") (fun _ => None) (fun _ => None) (fun _ _ => None) id 1000
    "sub_1" 5 9 {| dl_world := world two_turns; dl_children := Some NewChildAgentRegistry; dl_log := [] |} start_args).
  - exact model_as_assistant'.
  - apply map_Forall_empty.
Defined.

(** A failed start keeps the conversation and takes one of the stored slots, but its
    result does not name it, so no later call can continue it. *)
Lemma failed_start_unreachable :
  let out := delegate [("", [sample_call "c1" "sql"])] (Some NewChildAgentRegistry) start_args in
  (let! m := decode_map out.2 in lookup_key m "error_code") = Some (JStr "delegate_execution_failed")
  /\ (let! m := decode_map out.2 in lookup_key m "subagent_id") = None
  /\ (let! r := dl_children out.1 in let! c := cr_agents r !! "sub_1" in Some (length (ca_History c))) = Some 3.
Proof. vm_compute. auto. Qed.

(** Under context pressure the child loses its task: the instruction is only the first
    item of the history, and the trimming keeps the last items. *)
Lemma worker_forgets_task {W} (st : WorkerState W) (calls : list (LLMToolCall * string)) task trigger usage :
  length calls = 6 ->
  wk_history st = text_item LLMRoleUser task
    :: flat_map (fun c => [calls_item "" [c.1]; tool_item c.2 (tc_ID c.1) ""]) calls ->
  (0 < us_PromptTokens usage)%Z -> (trigger < us_PromptTokens usage)%Z ->
  wk_history (after_response trigger st usage)
  = flat_map (fun c => [calls_item "" [c.1]; tool_item c.2 (tc_ID c.1) ""]) calls.
Proof.
  intros Hlen Hh Hpos Htr. unfold after_response, wk_history in *.
  replace (us_PromptTokens usage <=? 0)%Z with false by lia. unfold compactWorkerBundle. rewrite Hh.
  do 7 (destruct calls as [|? calls]; try done). cbn [flat_map app length Nat.leb].
  replace (us_PromptTokens usage <=? 0)%Z with false by lia.
  replace (us_PromptTokens usage <=? trigger)%Z with false by lia. reflexivity.
Qed.
