(* ===== verification/RenderView.v ===== *)
(** The rendered view of a report: how a page is cut into slices ([render/layout.go]),
    cropped ([render/crop.go]), cached ([render/cache.go]) and assembled
    ([render/view.go]), and how a view becomes blocks of a request
    ([agent/report_view.go]).

    The renderer and the image codec are parameters: what a capture answers, the bounds
    of a decoded image and the encoding of one of its bands. *)
From S2P Require Import Prelude GoStrings Json Conversation.
From Stdlib Require Import Ascii.
Open Scope string_scope.
Open Scope list_scope.

(** * Layout *)

Record BlockRect := { br_BlockID : string; br_Kind : string; br_Y : Z; br_H : Z; br_X : Z; br_W : Z }.
Record AtomicRect := { ar_Tag : string; at_Y : Z; at_H : Z; at_X : Z; at_W : Z }.
Record Layout := { lo_Blocks : list BlockRect; lo_Atomic : list AtomicRect }.

Definition DefaultSliceHeight : Z := 960.
Definition MinPartHeight : Z := 320.

Record Slice := { sl_BlockID : string; sl_Kind : string; sl_Part : string; sl_Y : Z; sl_Height : Z }.
Record blockCut := { bc_from : Z; bc_to : Z }.

(** One step of the loop over the elements; the state is [(best, found)]. *)
Definition boundary_step (cut : Z) (best : option Z) (element : AtomicRect) : option Z :=
  if (at_Y element <? cut)%Z && (cut <? at_Y element + at_H element)%Z then
    match best with
    | None => Some (at_Y element)
    | Some b => if (at_Y element <? b)%Z then Some (at_Y element) else Some b
    end
  else best.
Definition atomicBoundary (atomic : list AtomicRect) (cut : Z) : option Z :=
  fold_left (boundary_step cut) atomic None.

(** The end of the part that starts at [cursor]. *)
Definition cut_candidate (atomic : list AtomicRect) (maxHeight cursor : Z) : Z :=
  let candidate := (cursor + maxHeight)%Z in
  let candidate :=
    match atomicBoundary atomic candidate with
    | Some boundary =>
        let safe := (boundary - 2 - cursor)%Z in
        if (MinPartHeight <? safe)%Z then (cursor + safe)%Z else candidate
    | None => candidate
    end in
  if (candidate <=? cursor)%Z then (cursor + maxHeight)%Z else candidate.

(** [None] when the fuel runs out. *)
Fixpoint cuts_loop (fuel : nat) (atomic : list AtomicRect) (maxHeight last cursor : Z) : option (list blockCut) :=
  match fuel with
  | O => None
  | S fuel =>
      if (maxHeight <? last - cursor)%Z then
        let candidate := cut_candidate atomic maxHeight cursor in
        let! cuts := cuts_loop fuel atomic maxHeight last candidate in
        Some ({| bc_from := cursor; bc_to := candidate |} :: cuts)
      else if (cursor <? last)%Z then Some [{| bc_from := cursor; bc_to := last |}]
      else Some []
  end.
(** Each part is at least one pixel high, so the height of the block bounds the loop. *)
Definition planBlockCuts (block : BlockRect) (atomic : list AtomicRect) (maxHeight : Z) : list blockCut :=
  default [] (cuts_loop (S (Z.to_nat (br_H block))) atomic maxHeight (br_Y block + br_H block) (br_Y block)).

(** [itoa] of the package prints non-negative numbers. *)
Definition render_itoa (value : Z) : string :=
  if (value =? 0)%Z then "0" else if (0 <? value)%Z then itoa value else "".
Definition partLabel (index total : Z) : string :=
  (render_itoa (index + 1) ++ "/" ++ render_itoa total)%string.

Definition slices_of_block (atomic : list AtomicRect) (maxHeight : Z) (block : BlockRect) : list Slice :=
  if (br_H block <=? 0)%Z || (br_W block <=? 0)%Z then []
  else
    let cuts := planBlockCuts block atomic maxHeight in
    imap (fun index cut =>
      {| sl_BlockID := br_BlockID block; sl_Kind := br_Kind block;
         sl_Part := partLabel (Z.of_nat index) (Z.of_nat (length cuts));
         sl_Y := bc_from cut; sl_Height := bc_to cut - bc_from cut |}) cuts.
Definition PlanSlices (layout : Layout) (maxHeight : Z) : list Slice :=
  let maxHeight := if (maxHeight <=? 0)%Z then DefaultSliceHeight else maxHeight in
  flat_map (slices_of_block (lo_Atomic layout) maxHeight) (lo_Blocks layout).

(** * Cropping *)

Record Bounds := { bo_MinX : Z; bo_MinY : Z; bo_MaxX : Z; bo_MaxY : Z }.
Record SliceImage := {
  si_BlockID : string; si_Kind : string; si_Part : string; si_Width : Z; si_Height : Z; si_PNG : string
}.

Section crop.
(** [png.Decode] of the page, and [png.Encode] of the band from [top] to [bottom]. *)
Context (decode_png : string -> res string Bounds) (encode_band : string -> Z -> Z -> res string string).

Fixpoint crop_loop (fullPNG : string) (bounds : Bounds) (slices : list Slice) : res string (list SliceImage) :=
  match slices with
  | [] => Ok []
  | slice :: rest =>
      let top := if (sl_Y slice <? 0)%Z then 0%Z else sl_Y slice in
      let bottom := (sl_Y slice + sl_Height slice)%Z in
      let bottom := if (bo_MaxY bounds <? bottom)%Z then bo_MaxY bounds else bottom in
      if (bottom <=? top)%Z then crop_loop fullPNG bounds rest
      else
        let? png := match encode_band fullPNG (bo_MinY bounds + top)%Z (bo_MinY bounds + bottom)%Z with
                    | Ok png => Ok png
                    | Err e => Err ("encode slice " ++ sl_BlockID slice ++ ": " ++ e)%string
                    end in
        let? cropped := crop_loop fullPNG bounds rest in
        Ok ({| si_BlockID := sl_BlockID slice; si_Kind := sl_Kind slice; si_Part := sl_Part slice;
               si_Width := bo_MaxX bounds - bo_MinX bounds; si_Height := bottom - top; si_PNG := png |} :: cropped)
  end.
Definition CropSlices (fullPNG : string) (slices : list Slice) : res string (list SliceImage) :=
  match decode_png fullPNG with
  | Err e => Err ("decode full-page capture: " ++ e)%string
  | Ok bounds => crop_loop fullPNG bounds slices
  end.
End crop.

(** * The cache *)

Record MemoryCache := { mc_maxEntries : nat; mc_entries : gmap string string; mc_order : list string }.
Definition NewMemoryCache (maxEntries : Z) : MemoryCache :=
  {| mc_maxEntries := Z.to_nat (if (maxEntries <=? 0)%Z then 256 else maxEntries); mc_entries := ∅; mc_order := [] |}.
Definition Cache_Get (c : MemoryCache) (key : string) : option string := mc_entries c !! key.
(** The eviction loop; the order shrinks at each pass. *)
Fixpoint evict_keys (max : nat) (entries : gmap string string) (order : list string) : gmap string string * list string :=
  match order with
  | [] => (entries, [])
  | oldest :: rest =>
      if (max <=? length order)%nat then evict_keys max (delete oldest entries) rest else (entries, order)
  end.
Definition Cache_Put (c : MemoryCache) (key value : string) : MemoryCache :=
  if (key =? "") || (value =? "") then c
  else match mc_entries c !! key with
  | Some _ => {| mc_maxEntries := mc_maxEntries c; mc_entries := <[key := value]> (mc_entries c); mc_order := mc_order c |}
  | None =>
      let '(entries, order) := evict_keys (mc_maxEntries c) (mc_entries c) (mc_order c) in
      {| mc_maxEntries := mc_maxEntries c; mc_entries := <[key := value]> entries; mc_order := order ++ [key] |}
  end.

(** * The view *)

Record ReportViewSlice := {
  vs_BlockID : string; vs_Kind : string; vs_Part : string; vs_Width : Z; vs_Height : Z; vs_PNG : string;
  vs_ContentHash : string
}.
Record ReportViewSkipped := { sk_BlockID : string; sk_Reason : string }.
(** [Facts] is raw JSON, passed through; the empty string is nil. *)
Record ReportView := {
  rv_ReportVersion : Z;
  rv_CapturedAt : string;
  rv_ViewportWidth : Z;
  rv_ViewportDPR : Z;
  rv_Facts : string;
  rv_Slices : list ReportViewSlice;
  rv_NotCaptured : list ReportViewSkipped;
  rv_UnchangedBlocks : list string;
}.

Record CaptureResponse := { cp_PNG : string; cp_Layout : Layout; cp_Facts : string }.
Record BuildRequest := {
  bq_HTML : string; bq_ReportVersion : Z; bq_CapturedAt : string; bq_BlockHashes : option (gmap string string)
}.

Section build.
Context (decode_png : string -> res string Bounds) (encode_band : string -> Z -> Z -> res string string).
(** [sha256] of a text in hexadecimal. *)
Context (sha_hex : string -> string).
(** The client, [None] when not configured. *)
Context (client : option (BuildRequest -> res string CaptureResponse)).
Context (sliceHeight viewportWidth viewportDPR : Z) (factsOnly : bool).

Definition NUL_byte : string := String Ascii.zero "".
Definition slice_key_text (parts : list string) : string := String.concat "" (map (fun p => (p ++ NUL_byte)%string) parts).
Definition SliceKey (parts : list string) : string := String.substring 0 32 (sha_hex (slice_key_text parts)).

Definition blockHash (request : BuildRequest) (blockID : string) : string :=
  match bq_BlockHashes request with None => "" | Some hashes => default "" (hashes !! blockID) end.
Definition sliceKey_parts (request : BuildRequest) (slice : Slice) : list string :=
  [itoa (bq_ReportVersion request); sl_BlockID slice; sl_Part slice; itoa (sl_Height slice);
   itoa viewportWidth; itoa viewportDPR; blockHash request (sl_BlockID slice)].
Definition sliceKey (request : BuildRequest) (slice : Slice) : string := SliceKey (sliceKey_parts request slice).
Definition sliceKeyID (blockID part : string) : string := (blockID ++ NUL_byte ++ part)%string.

Definition failureFacts (reason detail captured : string) : string :=
  Marshal (JObj ([("ok", JBool false); ("reason", JStr reason)]
    ++ (if detail =? "" then [] else [("detail", JStr detail)])
    ++ (if captured =? "" then [] else [("captured_at", JStr captured)]))).

Definition empty_view (request : BuildRequest) (facts : string) : ReportView :=
  {| rv_ReportVersion := bq_ReportVersion request; rv_CapturedAt := bq_CapturedAt request;
     rv_ViewportWidth := viewportWidth; rv_ViewportDPR := viewportDPR; rv_Facts := facts;
     rv_Slices := []; rv_NotCaptured := []; rv_UnchangedBlocks := [] |}.

(** The lookup loop: the cached images and the slices still to crop. *)
Fixpoint lookup_slices (cache : MemoryCache) (request : BuildRequest) (slices : list Slice) :
    gmap string string * list Slice :=
  match slices with
  | [] => (∅, [])
  | slice :: rest =>
      let '(cached, pending) := lookup_slices cache request rest in
      let key := sliceKey request slice in
      if key =? "" then (cached, slice :: pending)
      else match Cache_Get cache key with
      | Some value =>
          (* a later slice with the same identity wins *)
          (match cached !! sliceKeyID (sl_BlockID slice) (sl_Part slice) with
           | Some _ => cached
           | None => <[sliceKeyID (sl_BlockID slice) (sl_Part slice) := value]> cached
           end, pending)
      | None => (cached, slice :: pending)
      end
  end.

Definition store_fresh (keyByID : gmap string string) (fc : gmap string SliceImage * MemoryCache) (image : SliceImage) :
    gmap string SliceImage * MemoryCache :=
  let id := sliceKeyID (si_BlockID image) (si_Part image) in
  let key := default "" (keyByID !! id) in
  (<[id := image]> fc.1, if key =? "" then fc.2 else Cache_Put fc.2 key (si_PNG image)).

Definition slice_of_cached (request : BuildRequest) (slice : Slice) (png : string) : ReportViewSlice :=
  {| vs_BlockID := sl_BlockID slice; vs_Kind := sl_Kind slice; vs_Part := sl_Part slice; vs_Width := viewportWidth;
     vs_Height := sl_Height slice; vs_PNG := png; vs_ContentHash := blockHash request (sl_BlockID slice) |}.
Definition slice_of_image (request : BuildRequest) (image : SliceImage) : ReportViewSlice :=
  {| vs_BlockID := si_BlockID image; vs_Kind := si_Kind image; vs_Part := si_Part image; vs_Width := si_Width image;
     vs_Height := si_Height image; vs_PNG := si_PNG image; vs_ContentHash := blockHash request (si_BlockID image) |}.

(** The last loop: each slice is shown or reported as not captured. *)
Definition assemble_slice (request : BuildRequest) (cached : gmap string string) (fresh : gmap string SliceImage)
    (slice : Slice) : ReportViewSlice + ReportViewSkipped :=
  let id := sliceKeyID (sl_BlockID slice) (sl_Part slice) in
  match cached !! id with
  | Some png => inl (slice_of_cached request slice png)
  | None => match fresh !! id with
            | Some image => inl (slice_of_image request image)
            | None => inr {| sk_BlockID := sl_BlockID slice; sk_Reason := "slice_crop_failed" |}
            end
  end.
Definition shown {A B} (l : list (A + B)) : list A := flat_map (fun x => match x with inl a => [a] | inr _ => [] end) l.
Definition missed {A B} (l : list (A + B)) : list B := flat_map (fun x => match x with inr b => [b] | inl _ => [] end) l.

Definition with_slices (v : ReportView) (slices : list ReportViewSlice) (notCaptured : list ReportViewSkipped) : ReportView :=
  {| rv_ReportVersion := rv_ReportVersion v; rv_CapturedAt := rv_CapturedAt v; rv_ViewportWidth := rv_ViewportWidth v;
     rv_ViewportDPR := rv_ViewportDPR v; rv_Facts := rv_Facts v; rv_Slices := slices; rv_NotCaptured := notCaptured;
     rv_UnchangedBlocks := rv_UnchangedBlocks v |}.

Definition BuildView (cache : MemoryCache) (request : BuildRequest) : MemoryCache * ReportView :=
  match client with
  | None => (cache, empty_view request (failureFacts "capture_not_configured" "" ""))
  | Some capture =>
      match capture request with
      | Err e => (cache, empty_view request (failureFacts "capture_failed" e (bq_CapturedAt request)))
      | Ok capture =>
          let view := empty_view request (cp_Facts capture) in
          if factsOnly then (cache, view)
          else
            match PlanSlices (cp_Layout capture) sliceHeight with
            | [] => (cache, with_slices view [] [{| sk_BlockID := ""; sk_Reason := "no_blocks_rendered" |}])
            | slices =>
                let '(cached, pending) := lookup_slices cache request slices in
                match CropSlices decode_png encode_band (cp_PNG capture) pending with
                | Err e => (cache, empty_view request (failureFacts "crop_failed" e (bq_CapturedAt request)))
                | Ok cropped =>
                    let keyByID : gmap string string :=
                      fold_left (fun m slice => <[sliceKeyID (sl_BlockID slice) (sl_Part slice) := sliceKey request slice]> m)
                        pending ∅ in
                    let '(fresh, cache) := fold_left (store_fresh keyByID) cropped (∅, cache) in
                    let out := map (assemble_slice request cached fresh) slices in
                    (cache, with_slices view (shown out) (missed out))
                end
            end
      end
  end.
End build.

(** * Blocks of a request ([agent/report_view.go]) *)

Definition reportViewBlockName : string := "report_view".
Definition maxReportViewImagesPerBlock : nat := 20.

Definition usable_slice (slice : ReportViewSlice) : bool :=
  negb ((len (vs_PNG slice) =? 0)%Z || (vs_Width slice <=? 0)%Z || (vs_Height slice <=? 0)%Z)
  && negb ((maxMessageImageSide <? vs_Width slice)%Z || (maxMessageImageSide <? vs_Height slice)%Z).
Definition usableSlices (v : ReportView) : list ReportViewSlice := List.filter usable_slice (rv_Slices v).

(** The loop on [start]; [fuel] is the number of slices. *)
Fixpoint chunk_loop {A} (fuel : nat) (slices : list A) (size : nat) : list (list A) :=
  match fuel, slices with
  | S fuel, _ :: _ => take size slices :: chunk_loop fuel (drop size slices) size
  | _, _ => []
  end.
Definition chunkReportViewSlices {A} (slices : list A) (size : nat) : list (list A) :=
  if (length slices =? 0)%nat || (size =? 0)%nat then [] else chunk_loop (length slices) slices size.

Definition encode_view_slice (slice : ReportViewSlice) : jval :=
  JObj ([("block_id", JStr (vs_BlockID slice))] ++ opt_str "kind" (vs_Kind slice) ++ opt_str "part" (vs_Part slice)
        ++ [("width", JNum (itoa (vs_Width slice))); ("height", JNum (itoa (vs_Height slice)))]).

Section blocks.
(** [json.RawMessage] is compacted as it is encoded: the value it holds, if it is valid. *)
Context (raw_value : string -> option jval).

Definition view_fact (v : ReportView) (facts : jval) (total index : nat) (chunk : list ReportViewSlice) : jval :=
  JObj ([("report_version", JNum (itoa (rv_ReportVersion v)))] ++ opt_str "captured_at" (rv_CapturedAt v)
        ++ (if (index =? 0)%nat then [] else [("continuation", JBool true)])
        ++ (if (1 <? total)%nat
            then [("chunk", JStr (itoa (Z.of_nat index + 1) ++ "/" ++ itoa (Z.of_nat total))%string)] else [])
        ++ (if (index =? 0)%nat && (0 <? rv_ViewportWidth v)%Z
            then [("viewport", JObj [("width", JNum (itoa (rv_ViewportWidth v))); ("dpr", JNum (itoa (rv_ViewportDPR v)))])]
            else [])
        ++ [("blocks", JArr (map encode_view_slice chunk))]
        ++ (if (index =? 0)%nat then
              (match rv_UnchangedBlocks v with [] => [] | bs => [("unchanged_blocks", JArr (map JStr bs))] end)
              ++ (match rv_NotCaptured v with
                  | [] => []
                  | l => [("not_captured", JArr (map (fun s => JObj [("block_id", JStr (sk_BlockID s)); ("reason", JStr (sk_Reason s))]) l))]
                  end)
              ++ (if rv_Facts v =? "" then [] else [("render_facts", facts)])
            else [])).

(** [None] when the facts cannot be encoded. *)
Definition view_block (v : ReportView) (total index : nat) (chunk : list ReportViewSlice) : option RuntimeContextBlock :=
  let! facts := (if (index =? 0)%nat && negb (rv_Facts v =? "") then raw_value (rv_Facts v) else Some JNull) in
  Some {| rc_Name := reportViewBlockName; rc_Role := LLMRoleUser; rc_Content := Marshal (view_fact v facts total index chunk);
     rc_Parts := map (fun slice => ImageMessagePart "image/png" (vs_PNG slice) (vs_Width slice) (vs_Height slice)) chunk |}.

(** A view without usable slices is one block of facts. *)
Definition chunks_or_one {A} (chunks : list (list A)) : list (list A) := match chunks with [] => [[]] | _ => chunks end.

Definition RuntimeContextBlocks (v : option ReportView) : list RuntimeContextBlock :=
  match v with
  | None => []
  | Some v =>
      if (rv_ReportVersion v <=? 0)%Z then []
      else
        let slices := usableSlices v in
        if (length slices =? 0)%nat && (length (rv_NotCaptured v) =? 0)%nat && (len (rv_Facts v) =? 0)%Z then []
        else
          let chunks := chunks_or_one (chunkReportViewSlices slices maxReportViewImagesPerBlock) in
          omap id (imap (view_block v (length chunks)) chunks)
  end.
End blocks.

(** * Lemmas: slices *)

(** Cuts that follow one another from [from] to [last], each of 1 to [max] pixels. *)
Fixpoint tiles (max : Z) (from last : Z) (cuts : list blockCut) : Prop :=
  match cuts with
  | [] => from = last
  | cut :: rest => bc_from cut = from /\ (from < bc_to cut <= from + max)%Z /\ tiles max (bc_to cut) last rest
  end.

Lemma boundary_lt cut atomic best b :
  (forall b0, best = Some b0 -> (b0 < cut)%Z) ->
  fold_left (boundary_step cut) atomic best = Some b -> (b < cut)%Z.
Proof.
  revert best. induction atomic as [|element atomic IH]; intros best Hbest; cbn; [auto|].
  apply IH. intros b0. unfold boundary_step.
  destruct ((at_Y element <? cut)%Z && _) eqn:E; [|auto]. reflect_bools.
  destruct best as [b1|]; [|intros [= <-]; lia]. destruct (at_Y element <? b1)%Z; intros [= <-]; [lia|auto].
Qed.

Lemma cut_candidate_bounds atomic maxHeight cursor :
  (0 < maxHeight)%Z -> (cursor < cut_candidate atomic maxHeight cursor <= cursor + maxHeight)%Z.
Proof.
  intros Hmax. unfold cut_candidate.
  destruct (atomicBoundary atomic (cursor + maxHeight)) as [boundary|] eqn:Hb.
  - apply boundary_lt in Hb; [|done].
    destruct (MinPartHeight <? boundary - 2 - cursor)%Z eqn:Hs; unfold MinPartHeight in *; reflect_bools.
    + replace (cursor + (boundary - 2 - cursor) <=? cursor)%Z with false by lia. lia.
    + replace (cursor + maxHeight <=? cursor)%Z with false by lia. lia.
  - replace (cursor + maxHeight <=? cursor)%Z with false by lia. lia.
Qed.

Lemma cuts_loop_tiles fuel atomic maxHeight last cursor :
  (0 < maxHeight)%Z -> (cursor <= last)%Z -> (last - cursor < Z.of_nat fuel)%Z ->
  exists cuts, cuts_loop fuel atomic maxHeight last cursor = Some cuts /\ tiles maxHeight cursor last cuts.
Proof.
  intros Hmax. revert cursor. induction fuel as [|fuel IH]; intros cursor Hle Hfuel; [lia|]. cbn [cuts_loop].
  destruct (maxHeight <? last - cursor)%Z eqn:Hlt; reflect_bools.
  - pose proof (cut_candidate_bounds atomic maxHeight cursor Hmax) as Hc.
    destruct (IH (cut_candidate atomic maxHeight cursor)) as (cuts & -> & Ht); [lia..|].
    eexists. split; [reflexivity|]. cbn. split; [done|]. split; [lia|done].
  - destruct (cursor <? last)%Z eqn:Hcl; reflect_bools; eexists; (split; [reflexivity|]); cbn; lia.
Qed.

Lemma planBlockCuts_tiles block atomic maxHeight :
  (0 < maxHeight)%Z -> (0 <= br_H block)%Z ->
  tiles maxHeight (br_Y block) (br_Y block + br_H block) (planBlockCuts block atomic maxHeight).
Proof.
  intros Hmax Hh. unfold planBlockCuts.
  destruct (cuts_loop_tiles (S (Z.to_nat (br_H block))) atomic maxHeight (br_Y block + br_H block) (br_Y block))
    as (cuts & -> & Ht); [lia..|done].
Qed.

Definition slice_cut (s : Slice) : blockCut := {| bc_from := sl_Y s; bc_to := sl_Y s + sl_Height s |}.

(** Part [index] of a block. *)
Definition part_of (block : BlockRect) (label : nat -> string) (index : nat) (cut : blockCut) : Slice :=
  {| sl_BlockID := br_BlockID block; sl_Kind := br_Kind block; sl_Part := label index;
     sl_Y := bc_from cut; sl_Height := bc_to cut - bc_from cut |}.

Lemma parts_cuts block label cuts : map slice_cut (imap (part_of block label) cuts) = cuts.
Proof.
  revert label. induction cuts as [|[f t] cuts IH]; intros label; cbn; [done|].
  f_equal; [unfold slice_cut; cbn; f_equal; lia|]. apply (IH (fun i => label (S i))).
Qed.

Lemma slices_of_block_cuts atomic maxHeight block :
  (0 < br_H block)%Z -> (0 < br_W block)%Z ->
  map slice_cut (slices_of_block atomic maxHeight block) = planBlockCuts block atomic maxHeight
  /\ Forall (fun s => sl_BlockID s = br_BlockID block /\ sl_Kind s = br_Kind block) (slices_of_block atomic maxHeight block).
Proof.
  intros Hh Hw. unfold slices_of_block.
  replace (br_H block <=? 0)%Z with false by lia. replace (br_W block <=? 0)%Z with false by lia. cbn [orb].
  set (cuts := planBlockCuts block atomic maxHeight).
  change (fun index cut => _) with (part_of block (fun index => partLabel (Z.of_nat index) (Z.of_nat (length cuts)))).
  split; [apply parts_cuts|]. apply Forall_forall. intros s Hs. apply list_elem_of_lookup in Hs as [i Hi].
  rewrite list_lookup_imap in Hi. destruct (cuts !! i); [|done]. by injection Hi as <-.
Qed.

(** * Lemmas: blocks *)

Lemma chunk_loop_spec {A} fuel (slices : list A) size :
  0 < size -> length slices <= fuel ->
  concat (chunk_loop fuel slices size) = slices
  /\ Forall (fun c => 0 < length c <= size) (chunk_loop fuel slices size).
Proof.
  intros Hs. revert slices. induction fuel as [|fuel IH]; intros slices Hlen.
  { destruct slices; [|cbn in Hlen; lia]. by split. }
  destruct slices as [|x slices]; [by split|]. cbn [chunk_loop].
  destruct (IH (drop size (x :: slices))) as [Hc Hf]; [rewrite length_drop; cbn in *; lia|].
  split; [cbn [concat]; rewrite Hc; apply take_drop|]. constructor; [|done].
  rewrite length_take. cbn. lia.
Qed.

Definition image_part (slice : ReportViewSlice) : MessagePart :=
  ImageMessagePart "image/png" (vs_PNG slice) (vs_Width slice) (vs_Height slice).

Lemma check_images slices n k :
  Forall (fun s => usable_slice s = true /\ (len (vs_PNG s) <= maxMessageImageBytes)%Z) slices ->
  fold_res check_part n (imap (fun i p => (k + i, p)) (map image_part slices)) = Ok (n + length slices).
Proof.
  intros H. revert n k. induction H as [|s slices [Hs Hb] _ IH]; intros n k; cbn; [by rewrite Nat.add_0_r|].
  unfold usable_slice in Hs. apply andb_true_iff in Hs as [H1 H2]. apply negb_true_iff in H1, H2.
  apply orb_false_iff in H1 as [H1 H3]. apply orb_false_iff in H1 as [H1 H1']. apply orb_false_iff in H2 as [H2 H2'].
  rewrite H1. replace (maxMessageImageBytes <? len (vs_PNG s))%Z with false by lia.
  rewrite H1', H3, H2, H2'. cbn [orb].
  rewrite (imap_ext _ (fun i p => (S k + i, p))) by (intros i x _; cbn; f_equal; lia).
  rewrite IH. f_equal. lia.
Qed.

(** * Properties *)

Definition effective_height (maxHeight : Z) : Z := if (maxHeight <=? 0)%Z then DefaultSliceHeight else maxHeight.

(** Planning always ends, and the slices of a page are those of its visible blocks
    in order: for each block, parts that follow one another from its top to its bottom
    without gap or overlap, none empty and none higher than the limit, all carrying the
    block's identity. *)
Theorem PlanSlices_tiles layout maxHeight :
  exists parts, PlanSlices layout maxHeight = concat parts
    /\ Forall2 (fun block slices =>
         ((br_H block <= 0 \/ br_W block <= 0)%Z /\ slices = [])
         \/ ((0 < br_H block /\ 0 < br_W block)%Z
             /\ tiles (effective_height maxHeight) (br_Y block) (br_Y block + br_H block) (map slice_cut slices)
             /\ Forall (fun s => sl_BlockID s = br_BlockID block /\ sl_Kind s = br_Kind block) slices))
       (lo_Blocks layout) parts.
Proof.
  unfold PlanSlices. fold (effective_height maxHeight).
  assert (0 < effective_height maxHeight)%Z as Hmax.
  { unfold effective_height. destruct (maxHeight <=? 0)%Z eqn:E; reflect_bools; [done|lia]. }
  exists (map (slices_of_block (lo_Atomic layout) (effective_height maxHeight)) (lo_Blocks layout)).
  split; [apply flat_map_concat_map|]. induction (lo_Blocks layout) as [|block blocks IH]; cbn; constructor; [|done].
  destruct (decide (0 < br_H block /\ 0 < br_W block)%Z) as [[Hh Hw]|Hno].
  - right. destruct (slices_of_block_cuts (lo_Atomic layout) (effective_height maxHeight) block Hh Hw) as [-> Hf].
    split; [done|]. split; [apply planBlockCuts_tiles; lia|done].
  - left. split; [lia|]. unfold slices_of_block.
    destruct (br_H block <=? 0)%Z eqn:E1; [done|]. destruct (br_W block <=? 0)%Z eqn:E2; [done|].
    reflect_bools. lia.
Qed.

Lemma usable_blocks_check raw_value v index block :
  Forall (fun s => (len (vs_PNG s) <= maxMessageImageBytes)%Z) (rv_Slices v) ->
  In block (RuntimeContextBlocks raw_value (Some v)) -> check_block (index, block) = Ok tt.
Proof.
  intros Hsize. unfold RuntimeContextBlocks.
  destruct (_ <=? 0)%Z; [done|]. destruct (_ && _ && _)%bool; [done|].
  assert (Forall (fun c => Forall (fun s => usable_slice s = true /\ (len (vs_PNG s) <= maxMessageImageBytes)%Z) c
                           /\ length c <= 20) (chunks_or_one (chunkReportViewSlices (usableSlices v) maxReportViewImagesPerBlock))) as Hchunks.
  { unfold chunkReportViewSlices. destruct (_ || _)%bool; [by repeat constructor|].
    destruct (chunk_loop_spec (length (usableSlices v)) (usableSlices v) maxReportViewImagesPerBlock) as [Hc Hf];
      [unfold maxReportViewImagesPerBlock; lia|done|].
    assert (Forall (fun s => usable_slice s = true /\ (len (vs_PNG s) <= maxMessageImageBytes)%Z) (usableSlices v)) as Hu.
    { apply Forall_forall. intros s Hs. rewrite list_elem_of_In in Hs. apply filter_In in Hs as [Hs Hus].
      split; [done|]. rewrite Forall_forall in Hsize. apply Hsize. by rewrite list_elem_of_In. }
    rewrite <- Hc in Hu. revert Hf Hu. generalize (chunk_loop (length (usableSlices v)) (usableSlices v) maxReportViewImagesPerBlock).
    intros l Hf Hu. destruct l as [|c0 l0]; [repeat constructor; cbn; lia|]. unfold chunks_or_one.
    induction Hf as [|c l [_ Hc1] _ IH]; [constructor|]. cbn [concat] in Hu. apply Forall_app in Hu as [Hu1 Hu2].
    constructor; [done|auto]. }
  revert Hchunks. generalize (chunks_or_one (chunkReportViewSlices (usableSlices v) maxReportViewImagesPerBlock)).
  intros chunks Hchunks Hin. rewrite <- list_elem_of_In in Hin. apply list_elem_of_omap in Hin as (ob & Hob & Hid).
  unfold id in Hid. subst ob. apply list_elem_of_lookup in Hob as [i Hi]. rewrite list_lookup_imap in Hi.
  destruct (chunks !! i) as [c|] eqn:Hc; [|done]. cbn in Hi. injection Hi as Hi.
  rewrite Forall_lookup in Hchunks. destruct (Hchunks i c Hc) as [Hu Hlen].
  unfold view_block in Hi. destruct (if _ && _ then _ else _) as [facts|]; [|done]. injection Hi as <-.
  unfold check_block. cbn [rc_Name rc_Role rc_Parts]. change (fun slice => ImageMessagePart _ _ _ _) with image_part.
  change ((reportViewBlockName =? "") || not_exact reportViewBlockName) with false.
  change (negb (LLMRoleUser =? LLMRoleUser)) with false. cbn iota.
  assert (validateMessageParts (map image_part c) = Ok tt) as ->; [|done].
  unfold validateMessageParts. destruct (length (map image_part c) =? 0)%nat; [done|].
  rewrite length_map. replace (maxMessageParts <? length c)%nat with false by (symmetry; apply Nat.ltb_ge; unfold maxMessageParts; lia).
  unfold indexed. rewrite (imap_ext _ (fun i p => (0 + i, p))) by done.
  rewrite (check_images c 0 0) by done. cbn [Nat.add].
  by replace (maxMessageImages <? length c)%nat with false by (symmetry; apply Nat.ltb_ge; unfold maxMessageImages; lia).
Qed.

(** Whatever the capture produced, the blocks of a view are accepted by the
    validation of a request, at most 20 images each, as long as no image exceeds the
    5 MiB limit; the code drops images of other unusable shapes itself. *)
Theorem RuntimeContextBlocks_accepted raw_value v :
  Forall (fun s => (len (vs_PNG s) <= maxMessageImageBytes)%Z) (rv_Slices v) ->
  each check_block (indexed (RuntimeContextBlocks raw_value (Some v))) = Ok tt.
Proof.
  intros Hsize. apply each_ok. apply Forall_forall. intros [i b] Hin.
  apply list_elem_of_lookup in Hin as [j Hj]. unfold indexed in Hj. rewrite list_lookup_imap in Hj.
  destruct (_ !! j) as [b'|] eqn:Hb; [|done]. injection Hj as <- <-.
  apply (usable_blocks_check raw_value v); [done|]. rewrite <- list_elem_of_In. by eapply list_elem_of_lookup_2.
Qed.

(** An image over the limit is not dropped: the whole request is then refused. *)
Lemma oversized_slice_rejected raw_value v s :
  (0 < rv_ReportVersion v)%Z -> rv_Slices v = [s] -> rv_Facts v = "" -> usable_slice s = true ->
  (maxMessageImageBytes < len (vs_PNG s))%Z ->
  each check_block (indexed (RuntimeContextBlocks raw_value (Some v)))
  = Err (EBlockParts 0 (EImageBytes 0 (len (vs_PNG s)))).
Proof.
  intros Hv Hs Hf Hu Hbig. unfold RuntimeContextBlocks, usableSlices.
  replace (rv_ReportVersion v <=? 0)%Z with false by lia. rewrite Hs. cbn [List.filter]. rewrite Hu. cbn [length Nat.eqb andb].
  cbn [chunkReportViewSlices chunk_loop length Nat.eqb orb take drop imap]. unfold view_block. rewrite Hf. cbn.
  unfold usable_slice in Hu. apply andb_true_iff in Hu as [H1 _]. apply negb_true_iff in H1.
  apply orb_false_iff in H1 as [H1 _]. apply orb_false_iff in H1 as [H1 _]. unfold id. cbn. rewrite H1.
  by replace (maxMessageImageBytes <? len (vs_PNG s))%Z with true by lia.
Qed.

Definition sample_view : ReportView :=
  {| rv_ReportVersion := 3; rv_CapturedAt := "dirty_blocks"; rv_ViewportWidth := 1200; rv_ViewportDPR := 1;
     rv_Facts := ""; rv_NotCaptured := []; rv_UnchangedBlocks := [];
     rv_Slices := [{| vs_BlockID := "b1"; vs_Kind := "chart"; vs_Part := "1/1"; vs_Width := 1200; vs_Height := 400;
                      vs_PNG := "png"; vs_ContentHash := "h" |};
                   {| vs_BlockID := "b2"; vs_Kind := "chart"; vs_Part := "1/1"; vs_Width := 9000; vs_Height := 400;
                      vs_PNG := "png"; vs_ContentHash := "h" |}] |}.
Lemma RuntimeContextBlocks_accepted_witness :
  length (RuntimeContextBlocks (fun _ => None) (Some sample_view)) = 1
  /\ each check_block (indexed (RuntimeContextBlocks (fun _ => None) (Some sample_view))) = Ok tt.
Proof.
  split; [vm_compute; reflexivity|]. apply (RuntimeContextBlocks_accepted (fun _ => None) sample_view).
  repeat constructor; vm_compute; discriminate.
Defined.

(** The cut that avoids one atomic element may fall inside another one: here a chart
    from 100 to 700 beside a table from 690 to 1200. *)
Lemma cut_crosses_atomic :
  let chart := {| ar_Tag := "canvas"; at_Y := 100; at_H := 600; at_X := 0; at_W := 500 |} in
  let table := {| ar_Tag := "table"; at_Y := 690; at_H := 510; at_X := 600; at_W := 500 |} in
  map slice_cut (PlanSlices {| lo_Blocks := [{| br_BlockID := "b"; br_Kind := "html"; br_Y := 0; br_H := 1300; br_X := 0; br_W := 1200 |}];
                               lo_Atomic := [chart; table] |} 960)
  = [{| bc_from := 0; bc_to := 688 |}; {| bc_from := 688; bc_to := 1300 |}].
Proof. vm_compute. reflexivity. Qed.
