(* ===== verification/ReportView.v ===== *)
(** The coordinator of a session's rendered view ([session/report_view.go]).

    Every critical section under the coordinator's lock is a function of its state.  A
    state of the system also holds the capture goroutines, the blocking captures in
    flight and, for the statements, what was delivered and what was captured; a step
    runs one section of one of them. *)
From S2P Require Import Prelude GoStrings Json Conversation RenderView.
From Stdlib Require Import Ascii Relation_Operators.
Open Scope string_scope.
Open Scope list_scope.

(** * The coordinator *)

Record reportViewRequest := {
  rr_reportVersion : Z;
  rr_publishVersion : Z;
  rr_capturedAt : string;
  rr_html : string;
  rr_hashes : gmap string string;
}.

(** The version last requested starts at -1.  A nil map of hashes is empty. *)
Record ReportViewCoordinator := {
  co_view : option ReportView;
  co_readyVersion : Z;
  co_lastRequested : Z;
  co_publishSequence : Z;
  co_deliveredVersion : Z;
  co_deliveredHashes : gmap string string;
  co_pending : option reportViewRequest;
  co_running : bool;
  co_closed : bool;
}.
Definition NewReportViewCoordinator : ReportViewCoordinator :=
  {| co_view := None; co_readyVersion := 0; co_lastRequested := -1; co_publishSequence := 0;
     co_deliveredVersion := 0; co_deliveredHashes := ∅; co_pending := None; co_running := false; co_closed := false |}.

Definition set_requested (c : ReportViewCoordinator) (last seq : Z) (pending : option reportViewRequest) (running : bool) :
    ReportViewCoordinator :=
  {| co_view := co_view c; co_readyVersion := co_readyVersion c; co_lastRequested := last; co_publishSequence := seq;
     co_deliveredVersion := co_deliveredVersion c; co_deliveredHashes := co_deliveredHashes c; co_pending := pending;
     co_running := running; co_closed := co_closed c |}.
Definition set_delivered (c : ReportViewCoordinator) (version : Z) (hashes : gmap string string) : ReportViewCoordinator :=
  {| co_view := co_view c; co_readyVersion := co_readyVersion c; co_lastRequested := co_lastRequested c;
     co_publishSequence := co_publishSequence c; co_deliveredVersion := version; co_deliveredHashes := hashes;
     co_pending := co_pending c; co_running := co_running c; co_closed := co_closed c |}.
Definition set_view (c : ReportViewCoordinator) (view : ReportView) (version : Z) : ReportViewCoordinator :=
  {| co_view := Some view; co_readyVersion := version; co_lastRequested := co_lastRequested c;
     co_publishSequence := co_publishSequence c; co_deliveredVersion := co_deliveredVersion c;
     co_deliveredHashes := co_deliveredHashes c; co_pending := co_pending c; co_running := co_running c;
     co_closed := co_closed c |}.

(** [Request]: the new state and whether a capture goroutine is started. *)
Definition Request (c : ReportViewCoordinator) (version : Z) (capturedAt html : string) (hashes : gmap string string) :
    ReportViewCoordinator * bool :=
  if co_closed c then (c, false)
  else if (version <=? co_lastRequested c)%Z then (c, false)
  else
    let seq := (co_publishSequence c + 1)%Z in
    let request := {| rr_reportVersion := version; rr_publishVersion := seq; rr_capturedAt := capturedAt;
                      rr_html := html; rr_hashes := hashes |} in
    (set_requested c version seq (Some request) true, negb (co_running c)).

Definition hashesOfView (view : ReportView) : gmap string string :=
  fold_left (fun (m : gmap string string) slice => <[vs_BlockID slice := vs_ContentHash slice]> m) (rv_Slices view) ∅.

(** A slice whose content was already delivered. *)
Definition known_slice (delivered : gmap string string) (slice : ReportViewSlice) : bool :=
  negb (vs_ContentHash slice =? "") && (vs_ContentHash slice =? default "" (delivered !! vs_BlockID slice)).

(** The distinct names in order ([sort.Strings] of the keys of a map). *)
Definition sorted_names (l : list string) : list string := merge_sort String.le (elements (list_to_set l : gset string)).

Definition dirtyOnlyLocked (c : ReportViewCoordinator) (view : ReportView) : ReportView :=
  if decide (co_deliveredHashes c = ∅) then view
  else
    {| rv_ReportVersion := rv_ReportVersion view; rv_CapturedAt := rv_CapturedAt view;
       rv_ViewportWidth := rv_ViewportWidth view; rv_ViewportDPR := rv_ViewportDPR view; rv_Facts := rv_Facts view;
       rv_Slices := List.filter (fun s => negb (known_slice (co_deliveredHashes c) s)) (rv_Slices view);
       rv_NotCaptured := rv_NotCaptured view;
       rv_UnchangedBlocks :=
         sorted_names (map vs_BlockID (List.filter (known_slice (co_deliveredHashes c)) (rv_Slices view))) |}.

Definition ForRequest (c : ReportViewCoordinator) : ReportViewCoordinator * option ReportView :=
  match co_view c with
  | None => (c, None)
  | Some view =>
      if co_closed c then (c, None)
      else if (rv_ReportVersion view <=? co_deliveredVersion c)%Z then (c, None)
      else (set_delivered c (rv_ReportVersion view) (hashesOfView view), Some (dirtyOnlyLocked c view))
  end.

(** The first section of a pass of [drain]: the request to capture, or the end. *)
Definition drain_take (c : ReportViewCoordinator) : ReportViewCoordinator * option reportViewRequest :=
  match co_pending c with
  | Some request =>
      if co_closed c
      then (set_requested c (co_lastRequested c) (co_publishSequence c) None false, None)
      else (set_requested c (co_lastRequested c) (co_publishSequence c) None (co_running c), Some request)
  | None => (set_requested c (co_lastRequested c) (co_publishSequence c) None false, None)
  end.

Definition with_version (view : ReportView) (version : Z) : ReportView :=
  {| rv_ReportVersion := version; rv_CapturedAt := rv_CapturedAt view; rv_ViewportWidth := rv_ViewportWidth view;
     rv_ViewportDPR := rv_ViewportDPR view; rv_Facts := rv_Facts view; rv_Slices := rv_Slices view;
     rv_NotCaptured := rv_NotCaptured view; rv_UnchangedBlocks := rv_UnchangedBlocks view |}.

(** [capture] stamps what the builder answers; a nil answer stays nil. *)
Definition capture (built : option ReportView) (request : reportViewRequest) : option ReportView :=
  match built with Some view => Some (with_version view (rr_publishVersion request)) | None => None end.

(** The second section of a pass. *)
Definition drain_publish (c : ReportViewCoordinator) (request : reportViewRequest) (view : option ReportView) :
    ReportViewCoordinator :=
  match view with
  | Some view =>
      if negb (co_closed c) && (co_readyVersion c <? rr_publishVersion request)%Z
      then set_view c view (rr_publishVersion request) else c
  | None => c
  end.

Definition Close (c : ReportViewCoordinator) : ReportViewCoordinator :=
  {| co_view := co_view c; co_readyVersion := co_readyVersion c; co_lastRequested := co_lastRequested c;
     co_publishSequence := co_publishSequence c; co_deliveredVersion := co_deliveredVersion c;
     co_deliveredHashes := co_deliveredHashes c; co_pending := None; co_running := co_running c; co_closed := true |}.

(** The section of [RequestManual]: whether it goes on with [Request]. *)
Definition manual_reset (c : ReportViewCoordinator) (version : Z) : ReportViewCoordinator * bool :=
  if co_closed c then (c, false)
  else
    (set_delivered c 0 ∅,
     match co_view c with None => true | Some _ => (co_lastRequested c <? version)%Z end).
(** [RequestManual] when nothing runs between its two sections. *)
Definition RequestManual (c : ReportViewCoordinator) (version : Z) (html : string) (hashes : gmap string string) :
    ReportViewCoordinator * bool :=
  let '(c, needsCapture) := manual_reset c version in
  if needsCapture then Request c version "manual_screen" html hashes else (c, false).

(** The two sections of [CaptureNow], around the capture. *)
Definition now_begin (c : ReportViewCoordinator) (version : Z) : option (ReportViewCoordinator * Z) :=
  if co_closed c then None
  else
    let last := if (co_lastRequested c <? version)%Z then version else co_lastRequested c in
    let seq := (co_publishSequence c + 1)%Z in
    Some (set_requested c last seq (co_pending c) (co_running c), seq).
Definition now_end (c : ReportViewCoordinator) (publishVersion : Z) (built : option ReportView) : ReportViewCoordinator :=
  match built with
  | None => c
  | Some view =>
      let view := with_version view publishVersion in
      if co_closed c then c
      else
        let c := if (co_readyVersion c <=? publishVersion)%Z then set_view c view publishVersion else c in
        set_delivered c 0 ∅
  end.

(** * The system *)

(** [sy_drains]: the capture goroutines, each about to take a request or capturing one.
    [sy_now]: the generations of the blocking captures in flight.  [sy_deliveries]: the
    view and what was delivered of it, oldest first.  [sy_last]: the generation of the
    last request that was scheduled.  [sy_done]: the generations whose capture ended. *)
Record System := {
  sy_c : ReportViewCoordinator;
  sy_drains : list (option reportViewRequest);
  sy_now : list Z;
  sy_deliveries : list (ReportView * ReportView);
  sy_last : Z;
  sy_done : list Z;
}.
Definition init_system : System :=
  {| sy_c := NewReportViewCoordinator; sy_drains := []; sy_now := []; sy_deliveries := []; sy_last := 0; sy_done := [] |}.

Definition schedule (s : System) (r : ReportViewCoordinator * bool) : System :=
  {| sy_c := r.1; sy_drains := if r.2 then sy_drains s ++ [None] else sy_drains s; sy_now := sy_now s;
     sy_deliveries := sy_deliveries s;
     sy_last := if (co_publishSequence r.1 =? co_publishSequence (sy_c s))%Z then sy_last s else co_publishSequence r.1;
     sy_done := sy_done s |}.
Definition set_c (s : System) (c : ReportViewCoordinator) : System :=
  {| sy_c := c; sy_drains := sy_drains s; sy_now := sy_now s; sy_deliveries := sy_deliveries s; sy_last := sy_last s;
     sy_done := sy_done s |}.
Definition set_drains (s : System) (c : ReportViewCoordinator) (drains : list (option reportViewRequest)) (done : list Z) : System :=
  {| sy_c := c; sy_drains := drains; sy_now := sy_now s; sy_deliveries := sy_deliveries s; sy_last := sy_last s;
     sy_done := done |}.

(** The builder never names unchanged blocks ([BuildView_fresh]). *)
Definition fresh_view (built : option ReportView) : Prop :=
  match built with Some view => rv_UnchangedBlocks view = [] | None => True end.

Inductive view_step : System -> System -> Prop :=
| VRequest s version at_ html hashes : view_step s (schedule s (Request (sy_c s) version at_ html hashes))
| VManual s version : view_step s (set_c s (manual_reset (sy_c s) version).1)
| VForRequest s c out : ForRequest (sy_c s) = (c, out) ->
    view_step s {| sy_c := c; sy_drains := sy_drains s; sy_now := sy_now s;
                   sy_deliveries := sy_deliveries s ++ match co_view (sy_c s), out with
                                                       | Some view, Some out => [(view, out)] | _, _ => [] end;
                   sy_last := sy_last s; sy_done := sy_done s |}
| VTake s i c request : sy_drains s !! i = Some None -> drain_take (sy_c s) = (c, request) ->
    view_step s (set_drains s c (match request with
                                 | Some r => <[i := Some r]> (sy_drains s)
                                 | None => remove_at i (sy_drains s)
                                 end) (sy_done s))
| VPublish s i request built : sy_drains s !! i = Some (Some request) -> fresh_view built ->
    view_step s (set_drains s (drain_publish (sy_c s) request (capture built request)) (<[i := None]> (sy_drains s))
                   (sy_done s ++ [rr_publishVersion request]))
| VNow s version c seq : now_begin (sy_c s) version = Some (c, seq) ->
    view_step s {| sy_c := c; sy_drains := sy_drains s; sy_now := sy_now s ++ [seq]; sy_deliveries := sy_deliveries s;
                   sy_last := sy_last s; sy_done := sy_done s |}
| VNowEnd s i seq built : sy_now s !! i = Some seq -> fresh_view built ->
    view_step s {| sy_c := now_end (sy_c s) seq built; sy_drains := sy_drains s; sy_now := remove_at i (sy_now s);
                   sy_deliveries := sy_deliveries s; sy_last := sy_last s; sy_done := sy_done s ++ [seq] |}
| VClose s : view_step s (set_c s (Close (sy_c s))).

Definition reachable_view (s : System) : Prop := rtc view_step init_system s.

(** * The invariant *)

(** The model was shown block [b] with content [h]. *)
Definition shown_before (deliveries : list (ReportView * ReportView)) (b h : string) : Prop :=
  exists d s, d ∈ deliveries /\ In s (rv_Slices d.2) /\ vs_BlockID s = b /\ vs_ContentHash s = h.

(** A delivery hides nothing: each slice of the view is delivered, or its block is named
    unchanged and was shown before with this very content; and nothing else is named. *)
Definition honest_delivery (before : list (ReportView * ReportView)) (d : ReportView * ReportView) : Prop :=
  rv_ReportVersion d.2 = rv_ReportVersion d.1 /\ rv_NotCaptured d.2 = rv_NotCaptured d.1
  /\ (forall s, In s (rv_Slices d.1) -> In s (rv_Slices d.2)
        \/ (In (vs_BlockID s) (rv_UnchangedBlocks d.2) /\ shown_before before (vs_BlockID s) (vs_ContentHash s)))
  /\ (forall b, In b (rv_UnchangedBlocks d.2) ->
        exists s, In s (rv_Slices d.1) /\ vs_BlockID s = b /\ shown_before before b (vs_ContentHash s)).

Definition last_request_alive (s : System) : Prop :=
  sy_last s = 0%Z \/ (exists r, co_pending (sy_c s) = Some r /\ rr_publishVersion r = sy_last s)
  \/ (exists r, Some r ∈ sy_drains s /\ rr_publishVersion r = sy_last s) \/ sy_last s ∈ sy_done s.

Record view_inv (s : System) : Prop := {
  vi_single : length (sy_drains s) = if co_running (sy_c s) then 1 else 0;
  vi_pending : co_pending (sy_c s) <> None -> co_running (sy_c s) = true;
  vi_view : match co_view (sy_c s) with
            | None => co_readyVersion (sy_c s) = 0%Z
            | Some v => rv_ReportVersion v = co_readyVersion (sy_c s) /\ (0 < co_readyVersion (sy_c s))%Z
                        /\ rv_UnchangedBlocks v = []
            end;
  vi_order : (0 <= co_deliveredVersion (sy_c s) <= co_readyVersion (sy_c s))%Z
             /\ (co_readyVersion (sy_c s) <= co_publishSequence (sy_c s))%Z;
  vi_generations :
    (forall r, co_pending (sy_c s) = Some r -> 0 < rr_publishVersion r <= co_publishSequence (sy_c s))%Z
    /\ (forall r, Some r ∈ sy_drains s -> 0 < rr_publishVersion r <= co_publishSequence (sy_c s))%Z
    /\ (forall n, n ∈ sy_now s -> 0 < n <= co_publishSequence (sy_c s))%Z;
  vi_last : co_closed (sy_c s) = false -> last_request_alive s;
  vi_hashes : forall b h, co_deliveredHashes (sy_c s) !! b = Some h -> shown_before (sy_deliveries s) b h;
  vi_honest : forall i d, sy_deliveries s !! i = Some d -> honest_delivery (take i (sy_deliveries s)) d;
}.

Lemma hashes_lookup slices (m : gmap string string) b h :
  fold_left (fun (m : gmap string string) slice => <[vs_BlockID slice := vs_ContentHash slice]> m) slices m !! b = Some h ->
  m !! b = Some h \/ exists s, In s slices /\ vs_BlockID s = b /\ vs_ContentHash s = h.
Proof.
  revert m. induction slices as [|s slices IH]; intros m; cbn; [by left|].
  intros H. apply IH in H as [H|(s' & Hin & Hb & Hh)]; [|right; eauto].
  apply lookup_insert_Some in H as [[Hb Hh]|[_ H]]; [right; eauto|by left].
Qed.

Lemma sorted_names_in l b : In b (sorted_names l) <-> In b l.
Proof.
  unfold sorted_names. rewrite <- !list_elem_of_In.
  rewrite (merge_sort_Permutation String.le). by rewrite elem_of_elements, elem_of_list_to_set.
Qed.

Lemma shown_before_app D D' b h : shown_before D b h -> shown_before (D ++ D') b h.
Proof. intros (d & s & Hd & H). exists d, s. split; [by apply elem_of_app; left|done]. Qed.

(** What one delivery does. *)
Lemma delivery_honest c view before :
  rv_UnchangedBlocks view = [] ->
  (forall b h, co_deliveredHashes c !! b = Some h -> shown_before before b h) ->
  honest_delivery before (view, dirtyOnlyLocked c view)
  /\ forall b h, hashesOfView view !! b = Some h -> shown_before (before ++ [(view, dirtyOnlyLocked c view)]) b h.
Proof.
  intros Hfresh Hhash.
  assert (honest_delivery before (view, dirtyOnlyLocked c view)) as Hon.
  { unfold honest_delivery, dirtyOnlyLocked. cbn [fst snd]. case_decide as He.
    - split; [done|]. split; [done|]. split; [by left|]. intros b. by rewrite Hfresh.
    - cbn. split; [done|]. split; [done|].
      assert (forall s, known_slice (co_deliveredHashes c) s = true -> shown_before before (vs_BlockID s) (vs_ContentHash s)) as Hk.
      { intros s. unfold known_slice. intros [Hne Heq]%andb_true_iff. apply negb_true_iff in Hne. reflect_bools.
        apply Hhash. destruct (co_deliveredHashes c !! vs_BlockID s) as [h|]; cbn in Heq; [by rewrite Heq|done]. }
      split.
      + intros s Hs. destruct (known_slice (co_deliveredHashes c) s) eqn:Hks.
        * right. split; [|by apply Hk]. rewrite sorted_names_in. apply in_map_iff. exists s. split; [done|]. by apply filter_In.
        * left. apply filter_In. by rewrite Hks.
      + intros b. rewrite sorted_names_in. intros (s & <- & [Hs Hks]%filter_In)%in_map_iff. eauto. }
  split; [done|]. intros b h Hb. apply hashes_lookup in Hb as [Hb|(s & Hs & <- & <-)]; [by rewrite lookup_empty in Hb|].
  destruct Hon as (_ & _ & Hcover & _). destruct (Hcover s Hs) as [Hin|[_ Hsh]].
  - exists (view, dirtyOnlyLocked c view), s. split; [apply elem_of_app; right; by apply list_elem_of_singleton|done].
  - by apply shown_before_app.
Qed.

Lemma view_inv_init : view_inv init_system.
Proof.
  split; cbn; try done.
  - split; [done|]. split; intros n H; by apply elem_of_nil in H.
  - by left.
Qed.

(** A list of goroutines with at most one element. *)
Lemma single_lookup {A} (l : list A) (b : bool) i x :
  length l = (if b then 1 else 0) -> l !! i = Some x -> l = [x] /\ i = 0 /\ b = true.
Proof.
  destruct b, l as [|y [|? ?]]; try discriminate; intros _ H; destruct i as [|i]; cbn in H; by simplify_eq.
Qed.

Lemma view_inv_request s version at_ html hashes :
  view_inv s -> view_inv (schedule s (Request (sy_c s) version at_ html hashes)).
Proof.
  intros Hinv. destruct s as [c drains now dels last done_]. pose proof Hinv as [Hs Hp Hv Ho Hg Hl Hh Hd].
  unfold Request, schedule. cbn [sy_c sy_drains sy_now sy_deliveries sy_last sy_done] in *.
  destruct (co_closed c) eqn:Hc; [cbn; by rewrite Z.eqb_refl|].
  destruct (version <=? co_lastRequested c)%Z; [cbn; by rewrite Z.eqb_refl|].
  cbn [fst snd]. destruct Hg as (Hg1 & Hg2 & Hg3).
  assert (forall r, Some r ∈ (if negb (co_running c) then drains ++ [None] else drains) -> Some r ∈ drains) as Hin.
  { intros r. destruct (co_running c); cbn; [done|]. by intros [H|H%list_elem_of_singleton]%elem_of_app. }
  split; cbn; try done.
  - destruct (co_running c); cbn; [done|]. rewrite length_app, Hs. done.
  - lia.
  - split; [intros r [= <-]; cbn; lia|]. split.
    + intros r Hr%Hin. specialize (Hg2 r Hr). lia.
    + intros n Hn. specialize (Hg3 n Hn). lia.
  - intros _. right; left. eexists. split; [done|]. cbn. destruct (Z.eqb_spec (co_publishSequence c + 1) (co_publishSequence c)); [lia|done].
Qed.

Lemma view_inv_manual s version : view_inv s -> view_inv (set_c s (manual_reset (sy_c s) version).1).
Proof.
  intros Hinv. destruct s as [c drains now dels last done_]. pose proof Hinv as [Hs Hp Hv Ho Hg Hl Hh Hd].
  unfold manual_reset. cbn [sy_c] in *. destruct (co_closed c) eqn:Hc; [done|].
  split; cbn in *; try done; [lia|intros _; exact (Hl eq_refl)].
Qed.

Lemma view_inv_for_request s c out :
  ForRequest (sy_c s) = (c, out) -> view_inv s ->
  view_inv {| sy_c := c; sy_drains := sy_drains s; sy_now := sy_now s;
              sy_deliveries := sy_deliveries s ++ match co_view (sy_c s), out with
                                                  | Some view, Some out => [(view, out)] | _, _ => [] end;
              sy_last := sy_last s; sy_done := sy_done s |}.
Proof.
  intros HF Hinv. destruct s as [c0 drains now dels last done_]. pose proof Hinv as [Hs Hp Hv Ho Hg Hl Hh Hd].
  unfold ForRequest in HF. cbn [sy_c sy_drains sy_now sy_deliveries sy_last sy_done] in *.
  destruct (co_view c0) as [view|] eqn:Hview; [|simplify_eq; by rewrite app_nil_r].
  destruct (co_closed c0); [simplify_eq; by rewrite app_nil_r|].
  destruct (Z.leb_spec (rv_ReportVersion view) (co_deliveredVersion c0)); simplify_eq; [by rewrite app_nil_r|].
  destruct Hv as (Hv1 & Hv2 & Hv3).
  destruct (delivery_honest c0 view dels Hv3 Hh) as [Hon Hsh].
  split; cbn; try done.
  - by rewrite Hview.
  - lia.
  - intros _. exact (Hl eq_refl).
  - intros i d [Hi|[Hle Hi]]%lookup_app_Some.
    + rewrite take_app_le by (apply lookup_lt_Some in Hi; lia). by apply Hd.
    + destruct (i - length dels) as [|k] eqn:Hk; [|done]. cbn in Hi. simplify_eq.
      replace i with (length dels) by lia. by rewrite take_app_length.
Qed.

Lemma view_inv_take s i c request :
  sy_drains s !! i = Some None -> drain_take (sy_c s) = (c, request) -> view_inv s ->
  view_inv (set_drains s c (match request with
                            | Some r => <[i := Some r]> (sy_drains s)
                            | None => remove_at i (sy_drains s)
                            end) (sy_done s)).
Proof.
  intros Hi HT Hinv. destruct s as [c0 drains now dels last done_]. pose proof Hinv as [Hs Hp Hv Ho Hg Hl Hh Hd].
  unfold drain_take in HT. cbn [sy_c sy_drains sy_now sy_deliveries sy_last sy_done] in *.
  destruct (single_lookup _ _ _ _ Hs Hi) as (-> & -> & Hrun). destruct Hg as (Hg1 & Hg2 & Hg3).
  assert (forall r, Some r ∉ [@None reportViewRequest]) as Hno by (by intros r H%list_elem_of_singleton).
  destruct (co_pending c0) as [r|] eqn:Hpend; [destruct (co_closed c0) eqn:Hc|]; simplify_eq; split; cbn; try done.
  - split; [done|]. split; [|done]. intros r' H. by apply elem_of_nil in H.
  - by rewrite Hc.
  - split; [done|]. split; [|done]. intros r' H%list_elem_of_singleton. simplify_eq. by apply Hg1.
  - intros _. destruct (Hl eq_refl) as [H|[(r' & H & Hr)|[(r' & H & Hr)|H]]].
    + by left.
    + cbn in H. rewrite Hpend in H. simplify_eq. right; right; left. exists r'. split; [by apply list_elem_of_singleton|done].
    + by apply Hno in H.
    + by right; right; right.
  - split; [done|]. split; [|done]. intros r' H. by apply elem_of_nil in H.
  - intros Hc. destruct (Hl Hc) as [H|[(r' & H & Hr)|[(r' & H & Hr)|H]]].
    + by left.
    + cbn in H. by rewrite Hpend in H.
    + by apply Hno in H.
    + by right; right; right.
Qed.

Lemma view_inv_publish s i request built :
  sy_drains s !! i = Some (Some request) -> fresh_view built -> view_inv s ->
  view_inv (set_drains s (drain_publish (sy_c s) request (capture built request)) (<[i := None]> (sy_drains s))
              (sy_done s ++ [rr_publishVersion request])).
Proof.
  intros Hi Hf Hinv. destruct s as [c drains now dels last done_]. pose proof Hinv as [Hs Hp Hv Ho Hg Hl Hh Hd].
  cbn [sy_c sy_drains sy_now sy_deliveries sy_last sy_done] in *.
  destruct (single_lookup _ _ _ _ Hs Hi) as (-> & -> & Hrun). destruct Hg as (Hg1 & Hg2 & Hg3).
  assert (Hn := Hg2 request ltac:(by apply list_elem_of_singleton)).
  assert (forall r, Some r ∉ [@None reportViewRequest]) as Hno by (by intros r H%list_elem_of_singleton).
  assert (drain_publish c request (capture built request) = c \/ exists view, built = Some view
    /\ (co_readyVersion c < rr_publishVersion request)%Z
    /\ drain_publish c request (capture built request) = set_view c (with_version view (rr_publishVersion request)) (rr_publishVersion request))
    as [->|(view & -> & Hlt & ->)].
  { destruct built as [view|]; cbn; [|by left]. destruct (co_closed c); cbn; [by left|].
    destruct (Z.ltb_spec (co_readyVersion c) (rr_publishVersion request)); [right; eauto|by left]. }
  all: split; cbn; try done.
  all: try (split; [done|]; split; [|done]; intros r H%list_elem_of_singleton; done).
  1, 4: intros Hc; destruct (Hl Hc) as [H|[H|[(r & H & Hr)|H]]];
    [by left|by right; left|apply list_elem_of_singleton in H; simplify_eq; right; right; right; cbn;
       apply elem_of_app; right; cbn in Hr; rewrite Hr; by apply list_elem_of_singleton
    |right; right; right; by apply elem_of_app; left].
  - split; [done|]. split; [lia|]. done.
  - lia.
Qed.

Lemma elem_of_remove_at_sub {A} i (l : list A) x y : l !! i = Some x -> y ∈ remove_at i l -> y ∈ l.
Proof. intros Hi H. apply (elem_of_remove_at i l x y Hi). by right. Qed.

Lemma view_inv_now s version c seq :
  now_begin (sy_c s) version = Some (c, seq) -> view_inv s ->
  view_inv {| sy_c := c; sy_drains := sy_drains s; sy_now := sy_now s ++ [seq]; sy_deliveries := sy_deliveries s;
              sy_last := sy_last s; sy_done := sy_done s |}.
Proof.
  intros HN Hinv. destruct s as [c0 drains now dels last done_]. pose proof Hinv as [Hs Hp Hv Ho Hg Hl Hh Hd].
  unfold now_begin in HN. cbn [sy_c sy_drains sy_now sy_deliveries sy_last sy_done] in *.
  destruct (co_closed c0) eqn:Hc; simplify_eq. destruct Hg as (Hg1 & Hg2 & Hg3).
  split; cbn; try done.
  - lia.
  - split; [intros r H; specialize (Hg1 r H); lia|]. split; [intros r H; specialize (Hg2 r H); lia|].
    intros n [H%Hg3|H%list_elem_of_singleton]%elem_of_app; lia.
  - intros _. exact (Hl eq_refl).
Qed.

Lemma view_inv_now_end s i seq built :
  sy_now s !! i = Some seq -> fresh_view built -> view_inv s ->
  view_inv {| sy_c := now_end (sy_c s) seq built; sy_drains := sy_drains s; sy_now := remove_at i (sy_now s);
              sy_deliveries := sy_deliveries s; sy_last := sy_last s; sy_done := sy_done s ++ [seq] |}.
Proof.
  intros Hi Hf Hinv. destruct s as [c drains now dels last done_]. pose proof Hinv as [Hs Hp Hv Ho Hg Hl Hh Hd].
  cbn [sy_c sy_drains sy_now sy_deliveries sy_last sy_done] in *. destruct Hg as (Hg1 & Hg2 & Hg3).
  assert (Hseq := Hg3 seq ltac:(by eapply list_elem_of_lookup_2)).
  assert (forall n, n ∈ remove_at i now -> (0 < n <= co_publishSequence c)%Z) as Hg3'.
  { intros n H. apply Hg3. by eapply elem_of_remove_at_sub. }
  assert (last_request_alive {| sy_c := c; sy_drains := drains; sy_now := now; sy_deliveries := dels; sy_last := last; sy_done := done_ |}
    -> (last = 0%Z \/ (exists r, co_pending c = Some r /\ rr_publishVersion r = last)
       \/ (exists r, Some r ∈ drains /\ rr_publishVersion r = last) \/ last ∈ done_ ++ [seq])) as Hal.
  { intros [H|[H|[H|H]]]; [by left|by right; left|by right; right; left|]. right; right; right. by apply elem_of_app; left. }
  unfold now_end. destruct built as [view|]; [|split; cbn; try done; intros Hc; exact (Hal (Hl Hc))].
  destruct (co_closed c) eqn:Hc; [split; cbn; try done; congruence|].
  assert (Halive := Hal (Hl eq_refl)). cbn in Hf.
  destruct (Z.leb_spec (co_readyVersion c) seq); split; cbn; try done; try (by intros _); try lia.
  split; [done|]. split; [lia|done].
Qed.

Lemma view_inv_close s : view_inv s -> view_inv (set_c s (Close (sy_c s))).
Proof.
  intros [Hs Hp Hv Ho (Hg1 & Hg2 & Hg3) Hl Hh Hd]. destruct s as [c drains now dels last done_].
  split; cbn in *; try done.
Qed.

Lemma view_step_inv s s' : view_step s s' -> view_inv s -> view_inv s'.
Proof.
  intros H. destruct H; eauto using view_inv_request, view_inv_manual, view_inv_for_request, view_inv_take,
    view_inv_publish, view_inv_now, view_inv_now_end, view_inv_close.
Qed.
Lemma reachable_view_inv s : reachable_view s -> view_inv s.
Proof.
  intros H. unfold reachable_view in H. assert (forall a b, rtc view_step a b -> view_inv a -> view_inv b) as Hr.
  { induction 1; eauto using view_step_inv. }
  exact (Hr _ _ H view_inv_init).
Qed.

(** What [BuildView] answers is a view of no unchanged block, as the steps assume. *)
Lemma BuildView_fresh decode_png encode_band sha_hex client sliceHeight width dpr factsOnly cache request :
  fresh_view (Some (BuildView decode_png encode_band sha_hex client sliceHeight width dpr factsOnly cache request).2).
Proof. unfold BuildView. by repeat case_match. Qed.

(** * Properties *)

(** A report is captured at two versions; its second block changed in between. *)
Definition sample_slice (b h : string) : ReportViewSlice :=
  {| vs_BlockID := b; vs_Kind := "chart"; vs_Part := "1/1"; vs_Width := 800; vs_Height := 300; vs_PNG := b; vs_ContentHash := h |}.
Definition sample_view (slices : list ReportViewSlice) : ReportView :=
  {| rv_ReportVersion := 0; rv_CapturedAt := "edit"; rv_ViewportWidth := 1200; rv_ViewportDPR := 1; rv_Facts := "";
     rv_Slices := slices; rv_NotCaptured := []; rv_UnchangedBlocks := [] |}.
Definition edit_cycle (s : System) (version : Z) (view : ReportView) : list System :=
  let s1 := schedule s (Request (sy_c s) version "edit" "<html>" ∅) in
  let '(c2, request) := drain_take (sy_c s1) in
  let s2 := set_drains s1 c2 match request with
                             | Some r => <[0 := Some r]> (sy_drains s1) | None => remove_at 0 (sy_drains s1) end (sy_done s1) in
  let r := default (Build_reportViewRequest 0 0 "" "" ∅) request in
  let s3 := set_drains s2 (drain_publish (sy_c s2) r (capture (Some view) r)) (<[0 := None]> (sy_drains s2))
              (sy_done s2 ++ [rr_publishVersion r]) in
  let '(c4, out) := ForRequest (sy_c s3) in
  let s4 := {| sy_c := c4; sy_drains := sy_drains s3; sy_now := sy_now s3;
               sy_deliveries := sy_deliveries s3 ++ match co_view (sy_c s3), out with
                                                   | Some view, Some out => [(view, out)] | _, _ => [] end;
               sy_last := sy_last s3; sy_done := sy_done s3 |} in
  [s1; s2; s3; s4].
Definition sample_run : System :=
  List.last (edit_cycle (List.last (edit_cycle init_system 1 (sample_view [sample_slice "b1" "h1"; sample_slice "b2" "h2"])) init_system)
               2 (sample_view [sample_slice "b1" "h1"; sample_slice "b2" "h3"])) init_system.

Lemma edit_cycle_reachable s version view i :
  sy_drains (schedule s (Request (sy_c s) version "edit" "<html>" ∅)) !! 0 = Some None ->
  co_pending (sy_c (schedule s (Request (sy_c s) version "edit" "<html>" ∅))) <> None ->
  co_closed (sy_c (schedule s (Request (sy_c s) version "edit" "<html>" ∅))) = false ->
  rv_UnchangedBlocks view = [] ->
  reachable_view s -> reachable_view (List.last (edit_cycle s version view) i).
Proof.
  intros Hd Hp Hc Hv Hr. unfold edit_cycle.
  set (s1 := schedule s (Request (sy_c s) version "edit" "<html>" ∅)) in *.
  destruct (drain_take (sy_c s1)) as [c2 request] eqn:HT.
  assert (exists r, request = Some r) as [r ->].
  { unfold drain_take in HT. destruct (co_pending (sy_c s1)); [|done]. rewrite Hc in HT. simplify_eq. eauto. }
  cbn [default List.last]. set (s2 := set_drains s1 c2 _ _). set (s3 := set_drains s2 _ _ _).
  destruct (ForRequest (sy_c s3)) as [c4 out] eqn:HF. cbn [List.last].
  eapply rtc_r; [|apply VForRequest, HF]. eapply rtc_r; [|apply (VPublish s2 0 r (Some view)); [|done]].
  2: { cbn. apply list_lookup_insert_eq. by eapply lookup_lt_Some. }
  eapply rtc_r; [|apply (VTake s1 0 c2 (Some r) Hd HT)]. eapply rtc_r; [exact Hr|apply VRequest].
Qed.

(** in every state the coordinator can reach, under any interleaving of requests,
    manual requests, deliveries, capture goroutines, blocking captures and a close: at
    most one capture goroutine runs, and one does while a request is pending; the view
    that is served carries the newest generation published, never one that was not handed
    out; while it is not closed the last request is pending, being captured or done;
    every delivery was honest, naming as unchanged only blocks the model was shown with
    the same content; and a step never goes back to an older view, nor publishes one
    after the close. *)
Theorem report_view_reachable s : reachable_view s ->
  (length (sy_drains s) <= 1 /\ (co_pending (sy_c s) <> None -> length (sy_drains s) = 1))
  /\ (forall v, co_view (sy_c s) = Some v ->
        rv_ReportVersion v = co_readyVersion (sy_c s) /\ (0 < rv_ReportVersion v <= co_publishSequence (sy_c s))%Z)
  /\ (co_closed (sy_c s) = false -> last_request_alive s)
  /\ (forall i d, sy_deliveries s !! i = Some d -> honest_delivery (take i (sy_deliveries s)) d)
  /\ forall s', view_step s s' ->
       (co_readyVersion (sy_c s) <= co_readyVersion (sy_c s'))%Z
       /\ (co_closed (sy_c s) = true -> co_closed (sy_c s') = true /\ co_view (sy_c s') = co_view (sy_c s)).
Proof.
  intros [Hs Hp Hv Ho Hg Hl Hh Hd]%reachable_view_inv.
  split. { rewrite Hs. split; [by destruct (co_running _); lia|]. intros H%Hp. by rewrite H. }
  split. { intros v Hview. rewrite Hview in Hv. destruct Hv as (Hv1 & Hv2 & _). lia. }
  split; [done|]. split; [done|]. clear -Ho. intros s' Hstep.
  destruct Hstep as [s ?|s ?|s c out HF|s i c request _ HT|s i request built _ _|s version c seq HN|s i seq built _ _|s].
  - unfold Request. cbn. repeat case_match; cbn; done.
  - unfold manual_reset. cbn. repeat case_match; cbn; done.
  - unfold ForRequest in HF. cbn. repeat case_match; simplify_eq; cbn; done.
  - unfold drain_take in HT. cbn. repeat case_match; simplify_eq; cbn; done.
  - unfold drain_publish. cbn. destruct (capture built request); [|done].
    destruct (co_closed (sy_c s)) eqn:Hc; cbn; [done|]. destruct (Z.ltb_spec (co_readyVersion (sy_c s)) (rr_publishVersion request)); cbn; split; (lia || congruence).
  - unfold now_begin in HN. cbn. repeat case_match; simplify_eq; cbn; done.
  - unfold now_end. cbn. destruct built; [|done]. destruct (co_closed (sy_c s)) eqn:Hc; [cbn; rewrite Hc; split; [lia|done]|].
    destruct (Z.leb_spec (co_readyVersion (sy_c s)) seq); cbn; split; (lia || congruence).
  - done.
Qed.

Example sample_deliveries :
  map (fun d => (rv_ReportVersion d.2, map vs_BlockID (rv_Slices d.2), rv_UnchangedBlocks d.2)) (sy_deliveries sample_run)
  = [(1%Z, ["b1"; "b2"], []); (2%Z, ["b2"], ["b1"])].
Proof. vm_compute. reflexivity. Qed.

Lemma report_view_reachable_witness :
  reachable_view sample_run
  /\ ((length (sy_drains sample_run) <= 1 /\ (co_pending (sy_c sample_run) <> None -> length (sy_drains sample_run) = 1))
      /\ (forall v, co_view (sy_c sample_run) = Some v ->
            rv_ReportVersion v = co_readyVersion (sy_c sample_run)
            /\ (0 < rv_ReportVersion v <= co_publishSequence (sy_c sample_run))%Z)
      /\ (co_closed (sy_c sample_run) = false -> last_request_alive sample_run)
      /\ (forall i d, sy_deliveries sample_run !! i = Some d -> honest_delivery (take i (sy_deliveries sample_run)) d)
      /\ forall s', view_step sample_run s' ->
           (co_readyVersion (sy_c sample_run) <= co_readyVersion (sy_c s'))%Z
           /\ (co_closed (sy_c sample_run) = true -> co_closed (sy_c s') = true /\ co_view (sy_c s') = co_view (sy_c sample_run))).
Proof.
  assert (reachable_view sample_run) as H.
  { unfold sample_run. apply edit_cycle_reachable; [vm_compute; reflexivity|vm_compute; discriminate|vm_compute; reflexivity|reflexivity|].
    apply edit_cycle_reachable; [vm_compute; reflexivity|vm_compute; discriminate|vm_compute; reflexivity|reflexivity|].
    apply rtc_refl. }
  split; [exact H|exact (report_view_reachable sample_run H)].
Defined.

(** What the code does where its comments promise otherwise. *)

(** A capture that failed is not made again on request: with no view to serve, the
    section decides that a capture is needed, but [Request] skips the version it has seen. *)
Lemma failed_capture_not_retried c version html hashes :
  co_closed c = false -> co_view c = None -> (version <= co_lastRequested c)%Z ->
  (manual_reset c version).2 = true /\ RequestManual c version html hashes = (set_delivered c 0 ∅, false).
Proof.
  intros Hc Hv Hle. unfold RequestManual, manual_reset. rewrite Hc, Hv. split; [done|]. unfold Request. cbn. rewrite Hc.
  by apply Z.leb_le in Hle as ->.
Qed.

(** A part that was not captured the first time is never shown once its block was
    delivered: the hash is the block's, and the next view calls the block unchanged. *)
Lemma unchanged_part_never_shown :
  let part p := {| vs_BlockID := "b1"; vs_Kind := "table"; vs_Part := p; vs_Width := 800; vs_Height := 900; vs_PNG := p;
                   vs_ContentHash := "h1" |} in
  let first := sample_view [part "1/2"] in
  let c := (ForRequest (set_view NewReportViewCoordinator (with_version first 1) 1)).1 in
  exists out, (ForRequest (set_view c (with_version (sample_view [part "1/2"; part "2/2"]) 2) 2)).2 = Some out
    /\ rv_Slices out = [] /\ rv_UnchangedBlocks out = ["b1"].
Proof. eexists. split; [reflexivity|]. vm_compute. split; reflexivity. Qed.

