(* ===== verification/Auth.v ===== *)
(** Authentication: tokens and their revocation ([auth/token.go], [auth/revocation.go],
    [handler/token_store.go], [repository/sqlite/revoked_token_repo.go]), roles
    ([auth/rbac.go]), the middleware ([auth/identity.go]) and the client address
    ([handler/ratelimit.go]).

    Times are nanoseconds since the epoch; every reading of the clock is an argument.
    HMAC-SHA256 is a parameter, which no theorem restricts. *)
From S2P Require Import Prelude GoStrings Json JsonRoundtrip GoText.
From Stdlib Require Import Ascii.
Open Scope string_scope.
Open Scope list_scope.

(** * [base64.RawURLEncoding] *)

Definition b64_alphabet : list ascii :=
  String.list_ascii_of_string "ABCDEFGHIJKLMNOPQRSTUVWXYZabcdefghijklmnopqrstuvwxyz0123456789-_".
Definition b64_char (n : Z) : ascii := nth (Z.to_nat n) b64_alphabet "A"%char.
Fixpoint index_from (i : Z) (l : list ascii) (a : ascii) : option Z :=
  match l with
  | [] => None
  | b :: l => if Ascii.eqb a b then Some i else index_from (i + 1) l a
  end.
Definition b64_value (a : ascii) : option Z := index_from 0 b64_alphabet a.

Fixpoint b64_encode (l : list ascii) : list ascii :=
  match l with
  | a :: b :: c :: l =>
      let n := (byteZ a * 65536 + byteZ b * 256 + byteZ c)%Z in
      b64_char (n / 262144) :: b64_char (n / 4096 mod 64) :: b64_char (n / 64 mod 64) :: b64_char (n mod 64) :: b64_encode l
  | [a; b] =>
      let n := (byteZ a * 65536 + byteZ b * 256)%Z in
      [b64_char (n / 262144); b64_char (n / 4096 mod 64); b64_char (n / 64 mod 64)]
  | [a] => let n := (byteZ a * 65536)%Z in [b64_char (n / 262144); b64_char (n / 4096 mod 64)]
  | [] => []
  end.
(** Groups of four characters; the bits left over at the end are dropped. *)
Fixpoint b64_groups (l : list ascii) : option (list ascii) :=
  match l with
  | a :: b :: c :: d :: l =>
      let! va := b64_value a in let! vb := b64_value b in let! vc := b64_value c in let! vd := b64_value d in
      let n := (va * 262144 + vb * 4096 + vc * 64 + vd)%Z in
      let! bytes := b64_groups l in
      Some (asciiZ (n / 65536) :: asciiZ (n / 256 mod 256) :: asciiZ (n mod 256) :: bytes)
  | [a; b; c] =>
      let! va := b64_value a in let! vb := b64_value b in let! vc := b64_value c in
      let n := (va * 262144 + vb * 4096 + vc * 64)%Z in
      Some [asciiZ (n / 65536); asciiZ (n / 256 mod 256)]
  | [a; b] =>
      let! va := b64_value a in let! vb := b64_value b in
      let n := (va * 262144 + vb * 4096)%Z in
      Some [asciiZ (n / 65536)]
  | [_] => None
  | [] => Some []
  end.
Definition is_newline (a : ascii) : bool := Ascii.eqb a "010" || Ascii.eqb a "013".
Definition EncodeToString (s : string) : string := str_text (b64_encode (String.list_ascii_of_string s)).
Definition DecodeString (s : string) : option string :=
  let! bytes := b64_groups (List.filter (fun a => negb (is_newline a)) (String.list_ascii_of_string s)) in
  Some (str_text bytes).

Lemma b64_char_value n : (0 <= n < 64)%Z -> b64_value (b64_char n) = Some n.
Proof.
  intros H. assert (forallb (fun i => bool_decide (b64_value (b64_char (Z.of_nat i)) = Some (Z.of_nat i))) (seq 0 64) = true) as Hall
    by (vm_compute; reflexivity).
  rewrite forallb_forall in Hall. specialize (Hall (Z.to_nat n) ltac:(apply in_seq; lia)).
  apply bool_decide_eq_true in Hall. by rewrite Z2Nat.id in Hall by lia.
Qed.
Lemma b64_char_plain n : is_newline (b64_char n) = false /\ Ascii.eqb (b64_char n) "." = false.
Proof.
  unfold b64_char. assert (Forall (fun a => is_newline a = false /\ Ascii.eqb a "." = false) b64_alphabet) as Hall
    by (repeat constructor).
  destruct (nth_in_or_default (Z.to_nat n) b64_alphabet "A"%char) as [Hin| ->]; [|done].
  rewrite Forall_forall in Hall. apply Hall. by apply list_elem_of_In.
Qed.

(** Induction three bytes at a time. *)
Lemma triple_ind {A} (P : list A -> Prop) :
  P [] -> (forall a, P [a]) -> (forall a b, P [a; b]) -> (forall a b c l, P l -> P (a :: b :: c :: l)) -> forall l, P l.
Proof.
  intros H0 H1 H2 H3. fix IH 1. intros [|a [|b [|c l]]]; [done|done|done|]. apply H3, IH.
Qed.

Ltac b64_bytes :=
  repeat match goal with a : ascii |- _ =>
    lazymatch goal with _ : (0 <= byteZ a < 256)%Z |- _ => fail | _ => pose proof (byteZ_range a) end end.

Lemma b64_groups_encode l : b64_groups (b64_encode l) = Some l.
Proof.
  assert (forall a z, z = byteZ a -> asciiZ z = a) as Hback by (intros a z ->; apply asciiZ_byteZ).
  induction l as [|a|a b|a b c l IH] using triple_ind; [done|..]; cbn [b64_encode b64_groups]; cbv zeta.
  all: b64_bytes; rewrite !b64_char_value by (split; Z.div_mod_to_equations; lia).
  all: cbn [mbind option_bind]; rewrite ?IH; cbn [mbind option_bind].
  all: repeat f_equal; apply Hback; Z.div_mod_to_equations; lia.
Qed.

Lemma b64_encode_plain l : Forall (fun a => is_newline a = false /\ Ascii.eqb a "." = false) (b64_encode l).
Proof.
  induction l as [|a|a b|a b c l IH] using triple_ind; cbn [b64_encode]; cbv zeta; repeat constructor;
    try apply b64_char_plain; done.
Qed.

Lemma filter_all {A} (p : A -> bool) l : Forall (fun a => p a = true) l -> List.filter p l = l.
Proof. induction 1 as [|a l Ha _ IH]; [done|]. cbn. by rewrite Ha, IH. Qed.

Lemma DecodeString_EncodeToString s : DecodeString (EncodeToString s) = Some s.
Proof.
  unfold DecodeString, EncodeToString, str_text. rewrite String.list_ascii_of_string_of_list_ascii, filter_all.
  - rewrite b64_groups_encode. cbn. by rewrite String.string_of_list_ascii_of_string.
  - eapply Forall_impl; [apply b64_encode_plain|]. intros a [H _]. by rewrite H.
Qed.

Lemma EncodeToString_no_dot s : contains_byte (EncodeToString s) "."%char = false.
Proof. apply contains_byte_text. eapply Forall_impl; [apply b64_encode_plain|]. by intros a [_ H]. Qed.

(** * Tokens *)

Definition second : Z := 1000000000.
(** [Time.Unix] and [time.Unix(s, 0)]. *)
Definition unix (t : Z) : Z := (t / second)%Z.
Definition at_unix (s : Z) : Z := (s * second)%Z.

Record Identity := {
  id_UserID : string; id_UserName : string; id_UserEmail : string; id_WorkspaceID : string; id_Workspace : string
}.
Definition no_identity : Identity :=
  {| id_UserID := ""; id_UserName := ""; id_UserEmail := ""; id_WorkspaceID := ""; id_Workspace := "" |}.

Definition TokenIssuer : string := "openDataAnalysis".
Record Claims := {
  cl_JWTID : string; cl_Issuer : string; cl_Subject : string; cl_UserID : string; cl_UserName : string;
  cl_UserEmail : string; cl_WorkspaceID : string; cl_Workspace : string; cl_IssuedAt : Z; cl_ExpiresAt : Z
}.
Definition encode_claims (c : Claims) : jval :=
  JObj (opt_str "jti" (cl_JWTID c) ++ opt_str "iss" (cl_Issuer c) ++ opt_str "sub" (cl_Subject c)
        ++ [("userId", JStr (cl_UserID c)); ("userName", JStr (cl_UserName c)); ("userEmail", JStr (cl_UserEmail c));
            ("workspaceId", JStr (cl_WorkspaceID c)); ("workspaceName", JStr (cl_Workspace c));
            ("iat", JNum (itoa (cl_IssuedAt c))); ("exp", JNum (itoa (cl_ExpiresAt c)))]).
Definition claims_fields : list (string * (jval -> bool)) :=
  [("jti", is_jstr); ("iss", is_jstr); ("sub", is_jstr); ("userId", is_jstr); ("userName", is_jstr); ("userEmail", is_jstr);
   ("workspaceId", is_jstr); ("workspaceName", is_jstr); ("iat", is_jint); ("exp", is_jint)].
Definition claims_of (m : gmap string jval) : Claims :=
  {| cl_JWTID := string_field m "jti"; cl_Issuer := string_field m "iss"; cl_Subject := string_field m "sub";
     cl_UserID := string_field m "userId"; cl_UserName := string_field m "userName";
     cl_UserEmail := string_field m "userEmail"; cl_WorkspaceID := string_field m "workspaceId";
     cl_Workspace := string_field m "workspaceName"; cl_IssuedAt := int_field m "iat"; cl_ExpiresAt := int_field m "exp" |}.
(** [json.Unmarshal] into the struct. *)
Definition decode_claims (payload : string) : option Claims :=
  let! v := Unmarshal payload in
  let! kvs := as_object v in
  let! m := bind_known claims_fields kvs in
  Some (claims_of m).

Inductive TokenError :=
| TokenFormat | TokenSignature | TokenPayload | TokenClaims | TokenExpired | TokenWrongIssuer | TokenRevoked
| TokenWithoutJTI | TokenNotPersisted.

(** The denylist, and the rows of the revocation table when a store is attached: by
    [jti], the expiry as a time and as a unix second. *)
Record TokenManager := {
  tm_secret : string;
  tm_revoked : gmap string Z;
  tm_store : option (gmap string Z);
}.
Definition NewTokenManager (secret : string) (store : option (gmap string Z)) : TokenManager :=
  {| tm_secret := secret; tm_revoked := ∅; tm_store := store |}.
Definition set_revoked (m : TokenManager) (r : gmap string Z) : TokenManager :=
  {| tm_secret := tm_secret m; tm_revoked := r; tm_store := tm_store m |}.
Definition set_store (m : TokenManager) (s : option (gmap string Z)) : TokenManager :=
  {| tm_secret := tm_secret m; tm_revoked := tm_revoked m; tm_store := s |}.

(** [now.Before(expiresAt)] decides whether an entry counts. *)
Definition evictExpired (now : Z) (r : gmap string Z) : gmap string Z := filter (fun kv => now < kv.2)%Z r.
Definition Revoker_Revoke (now : Z) (jti : string) (expiresAt : Z) (r : gmap string Z) : gmap string Z :=
  if jti =? "" then r
  else if (expiresAt <=? now)%Z then r
  else <[jti := expiresAt]> (evictExpired now r).
Definition IsRevoked (now : Z) (jti : string) (r : gmap string Z) : gmap string Z * bool :=
  if jti =? "" then (r, false)
  else match r !! jti with
  | None => (r, false)
  | Some expiresAt => if (expiresAt <=? now)%Z then (delete jti r, false) else (r, true)
  end.
Definition Revoker_ReplaceAll (now : Z) (revocations : gmap string Z) : gmap string Z := evictExpired now revocations.

(** The repository of revoked tokens; [db_ok]: the statement succeeds. *)
Definition CreateRevokedToken (db_ok : bool) (jti : string) (expiresAt : Z) (rows : gmap string Z) : option (gmap string Z) :=
  if blank jti || not_exact jti then None
  else if db_ok then Some (<[jti := unix expiresAt]> rows) else None.
Definition ListActiveRevokedTokens (now : Z) (rows : gmap string Z) : gmap string Z :=
  at_unix <$> filter (fun kv => unix now < kv.2)%Z rows.
Definition DeleteExpiredRevokedTokens (now : Z) (rows : gmap string Z) : gmap string Z :=
  filter (fun kv => unix now < kv.2)%Z rows.

(** The clock is read for pruning, for listing and for the denylist. *)
Definition LoadRevocations (m : TokenManager) (t1 t2 t3 : Z) : TokenManager :=
  match tm_store m with
  | None => m
  | Some rows =>
      let rows := DeleteExpiredRevokedTokens t1 rows in
      set_store (set_revoked m (Revoker_ReplaceAll t3 (ListActiveRevokedTokens t2 rows))) (Some rows)
  end.

Section token.
(** HMAC-SHA256 of a message under a secret. *)
Context (hmac : string -> string -> string).

Definition signature (secret payload : string) : string := EncodeToString (hmac secret payload).
Definition claims_for (now : Z) (jti : string) (identity : Identity) (ttl : Z) : Claims :=
  {| cl_JWTID := jti; cl_Issuer := TokenIssuer; cl_Subject := id_UserID identity; cl_UserID := id_UserID identity;
     cl_UserName := id_UserName identity; cl_UserEmail := id_UserEmail identity; cl_WorkspaceID := id_WorkspaceID identity;
     cl_Workspace := id_Workspace identity; cl_IssuedAt := unix now; cl_ExpiresAt := unix (now + ttl) |}.
Definition Sign (m : TokenManager) (now : Z) (jti : string) (identity : Identity) (ttl : Z) : string :=
  let payload := EncodeToString (Marshal (encode_claims (claims_for now jti identity ttl))) in
  (payload ++ "." ++ signature (tm_secret m) payload)%string.

Definition verifiedClaims (m : TokenManager) (token : string) : res TokenError Claims :=
  match Split token "."%char with
  | [payload; sign] =>
      if negb (signature (tm_secret m) payload =? sign) then Err TokenSignature
      else match DecodeString payload with
      | None => Err TokenPayload
      | Some text => match decode_claims text with
                     | None => Err TokenClaims
                     | Some claims => Ok claims
                     end
      end
  | _ => Err TokenFormat
  end.

Definition identity_of (claims : Claims) : Identity :=
  {| id_UserID := if cl_UserID claims =? "" then cl_Subject claims else cl_UserID claims;
     id_UserName := cl_UserName claims; id_UserEmail := cl_UserEmail claims; id_WorkspaceID := cl_WorkspaceID claims;
     id_Workspace := cl_Workspace claims |}.

(** The clock is read for the expiry and for the denylist. *)
Definition Parse (m : TokenManager) (now now' : Z) (token : string) : TokenManager * res TokenError Identity :=
  match verifiedClaims m token with
  | Err e => (m, Err e)
  | Ok claims =>
      if (cl_ExpiresAt claims <? unix now)%Z then (m, Err TokenExpired)
      else if negb (cl_Issuer claims =? TokenIssuer) then (m, Err TokenWrongIssuer)
      else
        let '(r, revoked) := IsRevoked now' (cl_JWTID claims) (tm_revoked m) in
        (set_revoked m r, if revoked then Err TokenRevoked else Ok (identity_of claims))
  end.

Definition Revoke (m : TokenManager) (now now' : Z) (token : string) (db_ok : bool) : TokenManager * res TokenError unit :=
  match verifiedClaims m token with
  | Err e => (m, Err e)
  | Ok claims =>
      if (cl_ExpiresAt claims <=? unix now)%Z then (m, Err TokenExpired)
      else if cl_JWTID claims =? "" then (m, Err TokenWithoutJTI)
      else
        let expiresAt := at_unix (cl_ExpiresAt claims) in
        let m := set_revoked m (Revoker_Revoke now' (cl_JWTID claims) expiresAt (tm_revoked m)) in
        match tm_store m with
        | None => (m, Ok tt)
        | Some rows => match CreateRevokedToken db_ok (cl_JWTID claims) expiresAt rows with
                       | None => (m, Err TokenNotPersisted)
                       | Some rows => (set_store m (Some rows), Ok tt)
                       end
        end
  end.

(** What happens to a manager: requests parse tokens, logouts revoke them, and the
    process restarts, losing the denylist but not the table. *)
Inductive TokenOp :=
| OpParse (now now' : Z) (token : string)
| OpRevoke (now now' : Z) (token : string) (db_ok : bool)
| OpRestart (t1 t2 t3 : Z).
Definition apply_op (m : TokenManager) (op : TokenOp) : TokenManager :=
  match op with
  | OpParse now now' token => (Parse m now now' token).1
  | OpRevoke now now' token db_ok => (Revoke m now now' token db_ok).1
  | OpRestart t1 t2 t3 => LoadRevocations (NewTokenManager (tm_secret m) (tm_store m)) t1 t2 t3
  end.
End token.

(** * Lemmas: tokens *)

Lemma unix_at_unix s : unix (at_unix s) = s.
Proof. unfold unix, at_unix, second. by rewrite Z.div_mul. Qed.
Lemma unix_lt t s : (t < at_unix s)%Z -> (unix t < s)%Z.
Proof. unfold unix, at_unix. intros H. apply Z.div_lt_upper_bound; unfold second in *; lia. Qed.

Lemma decode_encode_claims c :
  (-9223372036854775808 <= cl_IssuedAt c <= 9223372036854775807)%Z ->
  (-9223372036854775808 <= cl_ExpiresAt c <= 9223372036854775807)%Z ->
  exists kvs m, encode_claims c = JObj kvs /\ bind_known claims_fields kvs = Some m /\ claims_of m = c.
Proof.
  intros Hi He. destruct c as [jti iss sub uid un ue wid wn iat exp]. unfold encode_claims. cbn [cl_IssuedAt cl_ExpiresAt] in *.
  cbn [cl_JWTID cl_Issuer cl_Subject cl_UserID cl_UserName cl_UserEmail cl_WorkspaceID cl_Workspace cl_IssuedAt cl_ExpiresAt].
  apply parse_int_itoa in Hi, He.
  assert (is_jint (JNum (itoa iat)) = true) as Hji by (unfold is_jint; by rewrite Hi).
  assert (is_jint (JNum (itoa exp)) = true) as Hje by (unfold is_jint; by rewrite He).
  opt_cases; subst; cbn [app]; do 2 eexists; (split; [reflexivity|]).
  all: rewrite bind_known_exact by (repeat (constructor; [vm_compute; tauto|]); constructor).
  all: repeat match goal with
       | |- context [bind_fields _ ((?k, JStr _) :: _) _] => rewrite (bind_field _ k k) by done
       | |- context [bind_fields _ (("iat", _) :: _) _] =>
           rewrite (bind_field _ "iat" "iat") by (done || by apply (accepts_field _ 8 "iat" is_jint))
       | |- context [bind_fields _ (("exp", _) :: _) _] =>
           rewrite (bind_field _ "exp" "exp") by (done || by apply (accepts_field _ 9 "exp" is_jint))
       end.
  all: cbn [bind_fields]; (split; [reflexivity|]).
  all: unfold claims_of, string_field, int_field; simplify_map_eq; by rewrite ?Hi, ?He.
Qed.

(** What every claim a token carries must satisfy to survive [json.Marshal] unchanged. *)
Definition identity_text (i : Identity) : Prop :=
  ValidString (id_UserID i) = true /\ ValidString (id_UserName i) = true /\ ValidString (id_UserEmail i) = true
  /\ ValidString (id_WorkspaceID i) = true /\ ValidString (id_Workspace i) = true.
Definition int64 (n : Z) : Prop := (-9223372036854775808 <= n <= 9223372036854775807)%Z.

Lemma encode_claims_ok c :
  ValidString (cl_JWTID c) = true -> ValidString (cl_Issuer c) = true -> ValidString (cl_Subject c) = true ->
  ValidString (cl_UserID c) = true -> ValidString (cl_UserName c) = true -> ValidString (cl_UserEmail c) = true ->
  ValidString (cl_WorkspaceID c) = true -> ValidString (cl_Workspace c) = true ->
  json_ok (encode_claims c) /\ (Z.of_nat (depth_of (encode_claims c)) <= maxNestingDepth)%Z.
Proof.
  intros. unfold encode_claims. opt_cases; cbn [app].
  all: (split; [repeat split; (done || apply number_ok_itoa)|vm_compute; congruence]).
Qed.

Lemma verified_signed hmac m payload text claims :
  payload = EncodeToString text -> decode_claims text = Some claims ->
  verifiedClaims hmac m (payload ++ "." ++ signature hmac (tm_secret m) payload)%string = Ok claims.
Proof.
  intros -> Hd. unfold verifiedClaims. change ("." ++ ?x)%string with (String "."%char x).
  rewrite Split_app by apply EncodeToString_no_dot. rewrite Split_none by apply EncodeToString_no_dot.
  rewrite String.eqb_refl. cbn [negb]. by rewrite DecodeString_EncodeToString, Hd.
Qed.

Lemma verified_Sign hmac m now jti i ttl :
  identity_text i -> ValidString jti = true -> int64 (unix now) -> int64 (unix (now + ttl)) ->
  verifiedClaims hmac m (Sign hmac m now jti i ttl) = Ok (claims_for now jti i ttl).
Proof.
  intros (H1 & H2 & H3 & H4 & H5) Hj Hn He. unfold Sign. eapply verified_signed; [reflexivity|].
  unfold decode_claims. destruct (decode_encode_claims (claims_for now jti i ttl) Hn He) as (kvs & mm & Henc & Hb & Hc).
  rewrite Unmarshal_Marshal by (apply encode_claims_ok; done). cbn [mbind option_bind]. rewrite Henc. cbn [as_object mbind option_bind].
  rewrite Hb. cbn. by rewrite Hc.
Qed.

(** The token is on the denylist and, with a store, in the table. *)
Definition denied (jti : string) (exp : Z) (m : TokenManager) : Prop :=
  tm_revoked m !! jti = Some (at_unix exp) /\ exists rows, tm_store m = Some rows /\ rows !! jti = Some exp.

(** The readings of the clock of an operation are before [limit]. *)
Definition op_before (limit : Z) (op : TokenOp) : Prop :=
  match op with
  | OpParse now now' _ => (now < limit)%Z /\ (now' < limit)%Z
  | OpRevoke now now' _ _ => (now < limit)%Z /\ (now' < limit)%Z
  | OpRestart t1 t2 t3 => (t1 < limit)%Z /\ (t2 < limit)%Z /\ (t3 < limit)%Z
  end.
(** Tokens that are revoked under the same identifier expire at the same time. *)
Definition same_expiry (hmac : string -> string -> string) (secret jti : string) (exp : Z) (op : TokenOp) : Prop :=
  match op with
  | OpRevoke _ _ token _ =>
      forall store claims, verifiedClaims hmac (NewTokenManager secret store) token = Ok claims ->
        cl_JWTID claims = jti -> cl_ExpiresAt claims = exp
  | _ => True
  end.

Lemma verified_secret hmac m m' token : tm_secret m = tm_secret m' -> verifiedClaims hmac m token = verifiedClaims hmac m' token.
Proof. intros H. unfold verifiedClaims. by rewrite H. Qed.

Lemma evict_keeps now r (jti : string) e : r !! jti = Some e -> (now < e)%Z -> evictExpired now r !! jti = Some e.
Proof. intros H Hlt. by apply map_lookup_filter_Some. Qed.

Lemma apply_op_secret hmac m op : tm_secret (apply_op hmac m op) = tm_secret m.
Proof.
  destruct op; cbn; unfold Parse, Revoke, LoadRevocations; repeat (case_match; simplify_eq; cbn; try done).
Qed.

Lemma denied_step hmac m op jti exp :
  denied jti exp m -> op_before (at_unix exp) op -> same_expiry hmac (tm_secret m) jti exp op ->
  denied jti exp (apply_op hmac m op).
Proof.
  intros [Hr (rows & Hs & Hrow)] Hb He. destruct op as [now now' token|now now' token db_ok|t1 t2 t3]; cbn in *.
  - unfold Parse. destruct (verifiedClaims hmac m token) as [claims|e]; [|by split; eauto].
    destruct (_ <? _)%Z; [by split; eauto|]. destruct (negb _); [by split; eauto|].
    destruct (IsRevoked now' (cl_JWTID claims) (tm_revoked m)) as [r rev] eqn:HI. cbn. split; [cbn|by eauto].
    unfold IsRevoked in HI. destruct (cl_JWTID claims =? ""); simplify_eq; [done|].
    destruct (tm_revoked m !! cl_JWTID claims) as [e|] eqn:Hl; simplify_eq; [|done].
    destruct (Z.leb_spec e now'); simplify_eq; [|done].
    rewrite lookup_delete_ne; [done|]. intros Heq. rewrite Heq in Hl. simplify_eq. lia.
  - unfold Revoke. destruct (verifiedClaims hmac m token) as [claims|e] eqn:Hv; [|by split; eauto].
    destruct (_ <=? unix now)%Z; [by split; eauto|]. destruct (cl_JWTID claims =? "") eqn:Hj; [by split; eauto|].
    assert (cl_JWTID claims = jti -> cl_ExpiresAt claims = exp) as Hexp.
    { apply (He (tm_store m)). rewrite <- Hv. by apply verified_secret. }
    set (r := Revoker_Revoke now' (cl_JWTID claims) (at_unix (cl_ExpiresAt claims)) (tm_revoked m)).
    assert (r !! jti = Some (at_unix exp)) as Hr'.
    { unfold r, Revoker_Revoke. rewrite Hj. destruct (_ <=? now')%Z; [done|].
      destruct (decide (cl_JWTID claims = jti)) as [Heq|Hne].
      - rewrite (Hexp Heq), Heq. apply lookup_insert_eq.
      - rewrite lookup_insert_ne by done. apply evict_keeps; [done|lia]. }
    cbn [tm_store set_revoked]. rewrite Hs. unfold CreateRevokedToken.
    destruct (_ || _); [split; cbn; eauto|]. destruct db_ok; [|split; cbn; eauto]. split; cbn; [done|].
    eexists. split; [done|]. rewrite unix_at_unix. destruct (decide (cl_JWTID claims = jti)) as [Heq|Hne].
    + rewrite (Hexp Heq), Heq. apply lookup_insert_eq.
    + by rewrite lookup_insert_ne.
  - unfold LoadRevocations. cbn. rewrite Hs. destruct Hb as (H1 & H2 & H3).
    assert (DeleteExpiredRevokedTokens t1 rows !! jti = Some exp) as Hd.
    { apply map_lookup_filter_Some. split; [done|]. cbn. by apply unix_lt. }
    split; [|eexists; split; [reflexivity|done]]. cbn. apply evict_keeps; [|done].
    unfold ListActiveRevokedTokens. rewrite lookup_fmap. apply fmap_Some. exists exp. split; [|done].
    apply map_lookup_filter_Some. split; [done|]. cbn. by apply unix_lt.
Qed.

Lemma denied_run hmac ops m jti exp :
  denied jti exp m -> Forall (op_before (at_unix exp)) ops -> Forall (same_expiry hmac (tm_secret m) jti exp) ops ->
  denied jti exp (fold_left (apply_op hmac) ops m) /\ tm_secret (fold_left (apply_op hmac) ops m) = tm_secret m.
Proof.
  revert m. induction ops as [|op ops IH]; intros m Hd Hb He; [done|]. cbn.
  apply Forall_cons in Hb as [Hb1 Hb2], He as [He1 He2].
  destruct (IH (apply_op hmac m op)) as [IH1 IH2]; [by apply denied_step|done|by rewrite apply_op_secret|].
  split; [done|]. by rewrite IH2, apply_op_secret.
Qed.

Lemma denied_refused hmac m jti exp claims token now now' :
  denied jti exp m -> verifiedClaims hmac m token = Ok claims -> cl_JWTID claims = jti -> jti <> "" ->
  (now' < at_unix exp)%Z -> exists e, (Parse hmac m now now' token).2 = Err e.
Proof.
  intros [Hr _] Hv Hj Hne Hlt. unfold Parse. rewrite Hv. destruct (_ <? _)%Z; [by eexists|]. destruct (negb _); [by eexists|].
  unfold IsRevoked. rewrite Hj. apply String.eqb_neq in Hne as ->. rewrite Hr.
  replace (at_unix exp <=? now')%Z with false by (symmetry; apply Z.leb_gt; lia). by eexists.
Qed.

Lemma Revoke_denied hmac m t1 t2 token claims m' rows :
  verifiedClaims hmac m token = Ok claims -> tm_store m = Some rows -> Revoke hmac m t1 t2 token true = (m', Ok tt) ->
  (t2 < at_unix (cl_ExpiresAt claims))%Z ->
  denied (cl_JWTID claims) (cl_ExpiresAt claims) m' /\ cl_JWTID claims <> "" /\ tm_secret m' = tm_secret m.
Proof.
  intros Hv Hs HR Ht. unfold Revoke in HR. rewrite Hv in HR. destruct (_ <=? unix t1)%Z; [done|].
  destruct (String.eqb_spec (cl_JWTID claims) "") as [|Hne]; [done|]. cbn [tm_store set_revoked] in HR. rewrite Hs in HR.
  unfold CreateRevokedToken in HR. destruct (_ || _); [done|]. simplify_eq. split; [|done]. split; cbn.
  - unfold Revoker_Revoke. apply String.eqb_neq in Hne as ->.
    replace (at_unix (cl_ExpiresAt claims) <=? t2)%Z with false by (symmetry; apply Z.leb_gt; lia). apply lookup_insert_eq.
  - eexists. split; [reflexivity|]. rewrite unix_at_unix. apply lookup_insert_eq.
Qed.

(** * Properties of tokens *)

(** a token the manager signs is accepted by it, with the identity it was signed for,
    until the second of its expiry has passed, as long as its identifier is not revoked;
    base64 and JSON change nothing on the way. *)
Theorem Parse_Sign hmac m t jti identity ttl now now' :
  identity_text identity -> ValidString jti = true -> int64 (unix t) -> int64 (unix (t + ttl)) ->
  (unix now <= unix (t + ttl))%Z -> tm_revoked m !! jti = None ->
  (Parse hmac m now now' (Sign hmac m t jti identity ttl)).2 = Ok identity.
Proof.
  intros Hi Hj Ht He Hnow Hr. unfold Parse. rewrite verified_Sign by done. cbn [cl_ExpiresAt cl_Issuer cl_JWTID claims_for].
  replace (unix (t + ttl) <? unix now)%Z with false by (symmetry; apply Z.ltb_ge; lia). rewrite String.eqb_refl. cbn [negb].
  unfold IsRevoked. rewrite Hr. destruct (jti =? ""); cbn; f_equal; unfold identity_of, claims_for;
    destruct identity as [uid un ue wid wn]; cbn; by destruct (uid =? "").
Qed.

Definition sample_hmac (secret message : string) : string := (secret ++ itoa (len message))%string.
Definition sample_identity : Identity :=
  {| id_UserID := "usr_1"; id_UserName := "Ada"; id_UserEmail := "ada@example.org"; id_WorkspaceID := "ws_1"; id_Workspace := "Lab" |}.
Definition sample_manager : TokenManager := NewTokenManager "secret" (Some ∅).
Lemma Parse_Sign_witness :
  (Parse sample_hmac sample_manager 1700000000000000000 1700000000000000000
     (Sign sample_hmac sample_manager 1699999999000000000 "j-1" sample_identity 604800000000000)).2 = Ok sample_identity.
Proof.
  apply (Parse_Sign sample_hmac sample_manager 1699999999000000000 "j-1" sample_identity 604800000000000).
  - repeat split; vm_compute; reflexivity.
  - vm_compute; reflexivity.
  - vm_compute; split; discriminate.
  - vm_compute; split; discriminate.
  - vm_compute; discriminate.
  - reflexivity.
Defined.

(** once [Revoke] has answered without an error, the token is refused by every later
    [Parse] made before its expiry, whatever happened in between: other tokens parsed or
    revoked, expired entries evicted, the table pruned, and any number of restarts that
    lose the denylist and reload it from the table. *)
Theorem revoked_token_stays_refused hmac m t1 t2 token claims m' ops now now' :
  is_Some (tm_store m) -> verifiedClaims hmac m token = Ok claims -> Revoke hmac m t1 t2 token true = (m', Ok tt) ->
  (t2 < at_unix (cl_ExpiresAt claims))%Z -> Forall (op_before (at_unix (cl_ExpiresAt claims))) ops ->
  Forall (same_expiry hmac (tm_secret m) (cl_JWTID claims) (cl_ExpiresAt claims)) ops ->
  (now' < at_unix (cl_ExpiresAt claims))%Z ->
  exists e, (Parse hmac (fold_left (apply_op hmac) ops m') now now' token).2 = Err e.
Proof.
  intros [rows Hs] Hv HR Ht Hb He Hlt. destruct (Revoke_denied hmac m t1 t2 token claims m' rows Hv Hs HR Ht) as (Hd & Hne & Hsec).
  rewrite <- Hsec in He. destruct (denied_run hmac ops m' _ _ Hd Hb He) as [Hd' Hsec'].
  eapply denied_refused; [exact Hd'| |done|done|done]. rewrite <- Hv. apply verified_secret. congruence.
Qed.

Definition sample_token : string := Sign sample_hmac sample_manager 1000000000 "j-1" sample_identity 9000000000.
Definition other_token : string := Sign sample_hmac sample_manager 1000000000 "j-2" sample_identity 4000000000.
Definition sample_ops : list TokenOp :=
  [OpParse 3000000000 3000000001 sample_token; OpRevoke 4000000000 4000000001 other_token true;
   OpRestart 6000000000 6000000001 6000000002; OpParse 7000000000 7000000001 sample_token].
Lemma revoked_token_stays_refused_witness :
  exists claims m', verifiedClaims sample_hmac sample_manager sample_token = Ok claims
    /\ Revoke sample_hmac sample_manager 2000000000 2000000001 sample_token true = (m', Ok tt)
    /\ exists e, (Parse sample_hmac (fold_left (apply_op sample_hmac) sample_ops m') 8000000000 8000000001 sample_token).2 = Err e.
Proof.
  exists (claims_for 1000000000 "j-1" sample_identity 9000000000), (Revoke sample_hmac sample_manager 2000000000 2000000001 sample_token true).1.
  assert (verifiedClaims sample_hmac sample_manager sample_token = Ok (claims_for 1000000000 "j-1" sample_identity 9000000000)) as Hv
    by (vm_compute; reflexivity).
  assert (Revoke sample_hmac sample_manager 2000000000 2000000001 sample_token true
          = ((Revoke sample_hmac sample_manager 2000000000 2000000001 sample_token true).1, Ok tt)) as HR by (vm_compute; reflexivity).
  split; [exact Hv|]. split; [exact HR|].
  apply (revoked_token_stays_refused sample_hmac sample_manager 2000000000 2000000001 sample_token _ _ sample_ops
           8000000000 8000000001 ltac:(eexists; reflexivity) Hv HR).
  - vm_compute; reflexivity.
  - repeat (constructor; [repeat split; vm_compute; reflexivity|]); constructor.
  - repeat (constructor; [try exact I|]); [|constructor]. intros store claims Hc.
    assert (verifiedClaims sample_hmac (NewTokenManager "secret" store) other_token
            = Ok (claims_for 1000000000 "j-2" sample_identity 4000000000)) as Ho by (vm_compute; reflexivity).
    change (tm_secret sample_manager) with "secret" in Hc. rewrite Ho in Hc. injection Hc as <-. vm_compute. discriminate.
  - vm_compute; reflexivity.
Defined.

(** In the second of its expiry a token is no longer on the denylist, as the entry counts
    as expired, but [Parse] still accepts it: a revoked token works again. *)
Lemma revoked_token_revives hmac m t1 t2 token claims m' rows now now' :
  tm_store m = Some rows -> verifiedClaims hmac m token = Ok claims -> cl_Issuer claims = TokenIssuer ->
  Revoke hmac m t1 t2 token true = (m', Ok tt) -> (t2 < at_unix (cl_ExpiresAt claims))%Z ->
  unix now = cl_ExpiresAt claims -> (now <= now')%Z ->
  (Parse hmac m' now now' token).2 = Ok (identity_of claims).
Proof.
  intros Hs Hv Hiss HR Ht Hnow Hle. destruct (Revoke_denied hmac m t1 t2 token claims m' rows Hv Hs HR Ht) as ([Hr _] & Hne & Hsec).
  unfold Parse. rewrite (verified_secret hmac m' m token Hsec), Hv, Hiss, String.eqb_refl, Hnow, Z.ltb_irrefl. cbn [negb].
  unfold IsRevoked. apply String.eqb_neq in Hne as ->. rewrite Hr.
  replace (at_unix (cl_ExpiresAt claims) <=? now')%Z with true; [done|]. symmetry. apply Z.leb_le.
  rewrite <- Hnow. unfold at_unix, unix, second. pose proof (Z.mul_div_le now 1000000000 ltac:(lia)). lia.
Qed.
