(* ===== verification/Login.v ===== *)
(** The handlers that open and close a login ([handler/auth.go]), the middlewares in
    front of the protected routes ([auth/identity.go], [auth/rbac.go],
    [handler/ratelimit.go]) and the password rules ([auth/password.go]).

    The repositories of users and workspaces are an interface, [AuthRepos], with the
    laws the handlers rely on; the tables of [repository/sqlite] implement it. *)
From S2P Require Import Prelude GoStrings Json JsonRoundtrip GoText Auth.
From Stdlib Require Import Ascii.
Open Scope string_scope.
Open Scope list_scope.

(** * Records and repositories *)

Record User := { us_ID : string; us_Email : string; us_PasswordHash : string; us_Name : string; us_Status : string }.
Record Workspace := {
  wo_ID : string; wo_Name : string; wo_Slug : string; wo_OwnerUserID : string; wo_Status : string; wo_CreatedAt : Z
}.
Definition WorkspaceRoleOwner : string := "owner".
Definition WorkspaceRoleAdmin : string := "admin".
Definition WorkspaceRoleMember : string := "member".
Definition UserStatusActive : string := "active".
Definition WorkspaceStatusActive : string := "active".

(** A lookup fails because the record is absent or because the storage fails. *)
Inductive RepoError := ErrNotFound | ErrStorage.

(** What the handlers need of the repositories, and what they rely on: a workspace that
    is listed for a user, or that the user was just added to, is one the user is a
    member of. *)
Class AuthRepos (R : Type) := {
  GetByEmail : R -> string -> res RepoError User;
  CreateUser : R -> User -> R * bool;
  ListByUser : R -> string -> res RepoError (list Workspace);
  IsMember : R -> string -> string -> res RepoError bool;
  GetMemberRole : R -> string -> string -> res RepoError (option string);
  GetWorkspaceByID : R -> string -> res RepoError Workspace;
  CreateWorkspace : R -> Workspace -> R * bool;
  AddMember : R -> string -> string -> string -> R * bool;
  member_of : R -> string -> string -> Prop;
  ListByUser_members r uid ws w : ListByUser r uid = Ok ws -> In w ws -> member_of r (wo_ID w) uid;
  IsMember_members r wid uid : IsMember r wid uid = Ok true -> member_of r wid uid;
  GetMemberRole_members r wid uid role : GetMemberRole r wid uid = Ok (Some role) -> member_of r wid uid;
  GetWorkspaceByID_id r wid w : GetWorkspaceByID r wid = Ok w -> wo_ID w = wid;
  AddMember_members r r' wid uid role : AddMember r wid uid role = (r', true) -> member_of r' wid uid;
}.

(** ** The tables *)

(** The rows, and which statements the database refuses. *)
Record Tables := {
  tb_users : gmap string User;
  tb_workspaces : gmap string Workspace;
  tb_members : gmap (string * string) string;
  tb_fails : string -> bool;
}.
Definition set_users (r : Tables) (u : gmap string User) : Tables :=
  {| tb_users := u; tb_workspaces := tb_workspaces r; tb_members := tb_members r; tb_fails := tb_fails r |}.
Definition set_workspaces (r : Tables) (w : gmap string Workspace) : Tables :=
  {| tb_users := tb_users r; tb_workspaces := w; tb_members := tb_members r; tb_fails := tb_fails r |}.
Definition set_members (r : Tables) (m : gmap (string * string) string) : Tables :=
  {| tb_users := tb_users r; tb_workspaces := tb_workspaces r; tb_members := m; tb_fails := tb_fails r |}.

(** Users are indexed by their unique address. *)
Definition sql_GetByEmail (r : Tables) (email : string) : res RepoError User :=
  if tb_fails r "users.by_email" then Err ErrStorage
  else match tb_users r !! email with Some u => Ok u | None => Err ErrNotFound end.
Definition sql_CreateUser (r : Tables) (u : User) : Tables * bool :=
  if tb_fails r "users.insert" || bool_decide (is_Some (tb_users r !! us_Email u))
     || existsb (fun kv => (us_ID kv.2 =? us_ID u)%string) (map_to_list (tb_users r))
  then (r, false) else (set_users r (<[us_Email u := u]> (tb_users r)), true).
Definition created_before (a b : Workspace) : Prop := (wo_CreatedAt a <= wo_CreatedAt b)%Z.
#[export] Instance created_before_dec a b : Decision (created_before a b).
Proof. unfold created_before. apply _. Defined.
(** The key of a row is its [id] column. *)
Definition workspace_row (r : Tables) (wid : string) : option Workspace :=
  (fun w => {| wo_ID := wid; wo_Name := wo_Name w; wo_Slug := wo_Slug w; wo_OwnerUserID := wo_OwnerUserID w;
               wo_Status := wo_Status w; wo_CreatedAt := wo_CreatedAt w |}) <$> tb_workspaces r !! wid.
(** The join of the memberships of the user with the workspaces, oldest first. *)
Definition sql_ListByUser (r : Tables) (uid : string) : res RepoError (list Workspace) :=
  if tb_fails r "workspaces.by_user" then Err ErrStorage
  else Ok (merge_sort created_before
             (omap (fun kv : (string * string) * string => if (kv.1.2 =? uid)%string then workspace_row r kv.1.1 else None)
                   (map_to_list (tb_members r)))).
Definition sql_IsMember (r : Tables) (wid uid : string) : res RepoError bool :=
  if tb_fails r "members.count" then Err ErrStorage else Ok (bool_decide (is_Some (tb_members r !! (wid, uid)))).
Definition sql_GetMemberRole (r : Tables) (wid uid : string) : res RepoError (option string) :=
  if tb_fails r "members.role" then Err ErrStorage else Ok (tb_members r !! (wid, uid)).
Definition sql_GetByID (r : Tables) (wid : string) : res RepoError Workspace :=
  if tb_fails r "workspaces.by_id" then Err ErrStorage
  else match workspace_row r wid with Some w => Ok w | None => Err ErrNotFound end.
Definition sql_CreateWorkspace (r : Tables) (w : Workspace) : Tables * bool :=
  if tb_fails r "workspaces.insert" || bool_decide (is_Some (tb_workspaces r !! wo_ID w))
     || existsb (fun kv => (wo_Slug kv.2 =? wo_Slug w)%string) (map_to_list (tb_workspaces r))
  then (r, false) else (set_workspaces r (<[wo_ID w := w]> (tb_workspaces r)), true).
Definition sql_AddMember (r : Tables) (wid uid role : string) : Tables * bool :=
  if tb_fails r "members.insert" || bool_decide (is_Some (tb_members r !! (wid, uid)))
  then (r, false) else (set_members r (<[(wid, uid) := role]> (tb_members r)), true).

Lemma workspace_row_id r wid w : workspace_row r wid = Some w -> wo_ID w = wid.
Proof. unfold workspace_row. destruct (tb_workspaces r !! wid); cbn; [|done]. by intros [= <-]. Qed.

Lemma sql_ListByUser_members r uid ws w :
  sql_ListByUser r uid = Ok ws -> In w ws -> is_Some (tb_members r !! (wo_ID w, uid)).
Proof.
  unfold sql_ListByUser. destruct (tb_fails r _); [done|]. intros [= <-] Hin.
  apply list_elem_of_In in Hin. rewrite merge_sort_Permutation in Hin.
  apply list_elem_of_omap in Hin as ([[wid uid'] role] & Hkv & Hw). cbn in Hw.
  destruct (String.eqb_spec uid' uid) as [->|]; [|done]. rewrite (workspace_row_id r wid w Hw).
  apply elem_of_map_to_list in Hkv. eauto.
Qed.

#[export] Program Instance sql_repos : AuthRepos Tables := {|
  GetByEmail := sql_GetByEmail; CreateUser := sql_CreateUser; ListByUser := sql_ListByUser; IsMember := sql_IsMember;
  GetMemberRole := sql_GetMemberRole; GetWorkspaceByID := sql_GetByID; CreateWorkspace := sql_CreateWorkspace;
  AddMember := sql_AddMember; member_of r wid uid := is_Some (tb_members r !! (wid, uid));
  ListByUser_members := sql_ListByUser_members
|}.
Next Obligation. intros r wid uid. cbn. unfold sql_IsMember. destruct (tb_fails r _); [done|]. by intros [= H%bool_decide_eq_true]. Qed.
Next Obligation. intros r wid uid role. cbn. unfold sql_GetMemberRole. destruct (tb_fails r _); [done|]. intros [= H]. eauto. Qed.
Next Obligation.
  intros r wid w. cbn. unfold sql_GetByID. destruct (tb_fails r _); [done|]. destruct (workspace_row r wid) eqn:Hw; [|done].
  intros [= <-]. by apply workspace_row_id in Hw.
Qed.
Next Obligation.
  intros r r' wid uid role. cbn. unfold sql_AddMember. destruct (_ || _); [done|]. intros [= <-]. cbn. rewrite lookup_insert_eq. eauto.
Qed.

(** * Roles and passwords *)

Definition RoleWeight (role : string) : Z :=
  if (role =? WorkspaceRoleOwner)%string then 3
  else if (role =? WorkspaceRoleAdmin)%string then 2
  else if (role =? WorkspaceRoleMember)%string then 1 else 0.
Definition HasMinRole (actualRole minRole : string) : bool := (RoleWeight minRole <=? RoleWeight actualRole)%Z.

(** [unicode.IsLetter] and [unicode.IsDigit] are tables. *)
Definition ValidatePasswordStrength (letter digit : Z -> bool) (password : string) : option string :=
  if (len password <? 8)%Z then Some "密码长度至少为 8 个字符"
  else if negb (existsb letter (runes password)) || negb (existsb digit (runes password))
  then Some "密码必须同时包含字母和数字" else None.

(** * Requests and replies *)

(** The first value of each header, the cookie of the login and the body. *)
Record Request := {
  rq_RemoteAddr : string; rq_ForwardedFor : string; rq_RealIP : string; rq_Authorization : string;
  rq_Cookie : option string; rq_Body : string
}.
Record Cookie := {
  ck_Name : string; ck_Value : string; ck_Path : string; ck_MaxAge : Z; ck_HttpOnly : bool; ck_Secure : bool; ck_SameSite : string
}.
(** The body is a text ([http.Error]) or a JSON value. *)
Record Reply := { re_Status : Z; re_Body : res string jval; re_Cookie : option Cookie }.
Definition http_Error (message : string) (status : Z) : Reply := {| re_Status := status; re_Body := Err message; re_Cookie := None |}.
Definition json_reply (status : Z) (body : jval) (cookie : option Cookie) : Reply :=
  {| re_Status := status; re_Body := Ok (as_maps body); re_Cookie := cookie |}.
Definition writeAuthError (status : Z) (message : string) : Reply := json_reply status (JObj [("error", JStr message)]) None.

Definition auth_cookie (secure : bool) (value : string) (maxAge : Z) : Cookie :=
  {| ck_Name := "oda_token"; ck_Value := value; ck_Path := "/"; ck_MaxAge := maxAge; ck_HttpOnly := true;
     ck_Secure := secure; ck_SameSite := "Strict" |}.
(** [secure] is false only when the configuration says so. *)
Definition authCookieSecure (configured : option bool) : bool := default true configured.
Definition setAuthCookie (configured : option bool) (token : string) : Cookie :=
  auth_cookie (authCookieSecure configured) token 604800.
Definition clearAuthCookie (configured : option bool) : Cookie := auth_cookie (authCookieSecure configured) "" (-1).

(** * The client address *)

Section address.
(** Addresses and networks of package [net]; [networks] is [None] without a configuration. *)
Context {IP CIDR : Type} (ParseIP : string -> option IP) (ip_String : IP -> string) (SplitHost : string -> option string).
Context (network_contains : CIDR -> IP -> bool) (networks : option (list CIDR)).

Definition isTrustedProxy (ip : IP) : bool :=
  match networks with None => false | Some cidrs => existsb (fun cidr => network_contains cidr ip) cidrs end.
Definition splitForwardedFor (value : string) : list string :=
  if blank value then [] else map TrimSpace (Split value ","%char).

(** The loop from the last entry: [Some None] for an entry that is no address,
    [None] when every entry is a trusted proxy. *)
Fixpoint last_untrusted (entries : list string) : option (option IP) :=
  match entries with
  | [] => None
  | entry :: rest =>
      match ParseIP entry with
      | None => Some None
      | Some ip => if isTrustedProxy ip then last_untrusted rest else Some (Some ip)
      end
  end.
Definition forwarded_client (peer : IP) (entries : list string) : option string :=
  match entries with
  | [] => None
  | first :: _ =>
      match last_untrusted (rev entries) with
      | Some None => Some (ip_String peer)
      | Some (Some ip) => Some (ip_String ip)
      | None => ip_String <$> ParseIP first
      end
  end.
Definition getClientIP (r : Request) : string :=
  let host := match SplitHost (rq_RemoteAddr r) with Some host => host | None => TrimSpace (rq_RemoteAddr r) end in
  match ParseIP host with
  | None => host
  | Some peer =>
      if negb (isTrustedProxy peer) then ip_String peer
      else match forwarded_client peer (splitForwardedFor (rq_ForwardedFor r)) with
      | Some client => client
      | None =>
          let xreal := TrimSpace (rq_RealIP r) in
          if xreal =? "" then ip_String peer
          else match ParseIP xreal with Some ip => ip_String ip | None => ip_String peer end
      end
  end.

Lemma last_untrusted_skips trusted rest :
  Forall (fun e => exists ip, ParseIP e = Some ip /\ isTrustedProxy ip = true) trusted ->
  last_untrusted (trusted ++ rest) = last_untrusted rest.
Proof. induction 1 as [|e l (ip & He & Ht) _ IH]; [done|]. cbn. by rewrite He, Ht. Qed.
End address.

(** * Limits *)

Section limits.
(** A limiter of [golang.org/x/time/rate]: a new one, and whether it lets an event at a
    time happen. *)
Context {L : Type} (new_limiter : L) (allow : Z -> L -> L * bool).

(** The limiter of each key and when it was last used. *)
Definition RateLimiterMap : Type := gmap string (L * Z).
Definition getLimiter (m : RateLimiterMap) (now : Z) (key : string) : RateLimiterMap * L :=
  match m !! key with
  | None => (<[key := (new_limiter, now)]> m, new_limiter)
  | Some (limiter, _) => (<[key := (limiter, now)]> m, limiter)
  end.
(** The limiter is shared: what [Allow] does to it is seen through the map. *)
Definition limiter_Allow (m : RateLimiterMap) (now : Z) (key : string) : RateLimiterMap * bool :=
  let '(m, limiter) := getLimiter m now key in
  let '(limiter, ok) := allow now limiter in
  (match m !! key with Some (_, seen) => <[key := (limiter, seen)]> m | None => m end, ok).
(** One pass of [cleanupLoop]. *)
Definition cleanup_limiters (now ttl : Z) (m : RateLimiterMap) : RateLimiterMap := filter (fun kv => now - ttl <= kv.2.2)%Z m.

(** [IPRateLimitMiddleware] and [UserRateLimitMiddleware]: [None] when the request goes on. *)
Definition rate_limit (m : RateLimiterMap) (now : Z) (key : string) : RateLimiterMap * option Reply :=
  let '(m, ok) := limiter_Allow m now key in
  (m, if ok then None else Some (http_Error "请求过于频繁，请稍后重试" 429)).
Definition user_key (identity : option Identity) (ip : string) : string :=
  match identity with
  | Some identity => if id_UserID identity =? "" then ip else (id_UserID identity ++ ":" ++ id_WorkspaceID identity)%string
  | None => ip
  end.
End limits.

(** ** Failed logins of an address *)

Definition loginRateLimit : nat := 5.
Definition loginRateWindow : Z := 300 * second.
Abbreviation LoginAttempts := (gmap string (list Z)) (only parsing).
Definition recent (cutoff : Z) (attempts : list Z) : list Z := List.filter (fun t => (cutoff <? t)%Z) attempts.
Definition cleanupLoginAttempts (now : Z) (m : LoginAttempts) : LoginAttempts :=
  filter (fun kv => kv.2 <> []) (recent (now - loginRateWindow) <$> m).
Definition checkLoginRate (now : Z) (email : string) (m : LoginAttempts) : LoginAttempts * bool :=
  let valid := recent (now - loginRateWindow) (default [] (m !! email)) in
  (<[email := valid]> m, (length valid <? loginRateLimit)%nat).
Definition recordLoginAttempt (now : Z) (email : string) (m : LoginAttempts) : LoginAttempts :=
  <[email := default [] (m !! email) ++ [now]]> m.

(** * Handlers *)

Definition selectWorkspace (workspaces : list Workspace) (workspaceID : string) : res string Workspace :=
  if negb (workspaceID =? "") then
    match List.find (fun w => (wo_ID w =? workspaceID)%string) workspaces with
    | Some w => Ok w
    | None => Err "指定的工作空间不存在或无权访问"
    end
  else match workspaces with
  | [w] => Ok w
  | _ => Err "账户属于多个工作空间时必须提供 workspaceId"
  end.

Definition tokenTTL : Z := 7 * 24 * 3600 * second.
Definition maxBody : Z := 1048576.

(** [bearerTokenFromRequest] and the same lines of [Middleware]; [lower] is the table of
    lower case. *)
Definition bearerTokenFromRequest (lower : Z -> Z) (r : Request) : string :=
  let authHeader := TrimSpace (rq_Authorization r) in
  if HasPrefix (ToLower lower authHeader) "bearer " then TrimSpace (String.substring 7 (String.length authHeader - 7) authHeader)
  else "".

(** The tokens a logout revokes. *)
Definition logout_tokens (lower : Z -> Z) (r : Request) : list string :=
  let bearer := bearerTokenFromRequest lower r in
  let cookie := default "" (rq_Cookie r) in
  (if bearer =? "" then [] else [bearer]) ++ (if cookie =? "" then [] else [cookie]).

(** [decodeRequestJSON], of a body that [limited] bounds. *)
Definition decodeRequestJSON (limited : bool) (fields : list (string * (jval -> bool))) (r : Request) : option (gmap string jval) :=
  if limited && (maxBody <? len (rq_Body r))%Z then None else decode_struct fields (rq_Body r).

Section handlers.
Context {R : Type} `{AuthRepos R} {L : Type} (new_limiter : L) (allow : Z -> L -> L * bool).
Context (hmac : string -> string -> string) (lower : Z -> Z) (letter digit : Z -> bool).
(** bcrypt: the hash of a password, and whether a password has a given hash. *)
Context (HashPassword : string -> option string) (VerifyPassword : string -> string -> bool).
Context (client_ip : Request -> string) (secure : option bool).

Record LoginState := {
  ls_repos : R; ls_tokens : TokenManager; ls_attempts : LoginAttempts;
  ls_loginLimiters : RateLimiterMap (L := L); ls_registerLimiters : RateLimiterMap (L := L)
}.
Definition set_attempts (st : LoginState) (a : LoginAttempts) : LoginState :=
  {| ls_repos := ls_repos st; ls_tokens := ls_tokens st; ls_attempts := a; ls_loginLimiters := ls_loginLimiters st;
     ls_registerLimiters := ls_registerLimiters st |}.
Definition set_login_limiters (st : LoginState) (m : RateLimiterMap) : LoginState :=
  {| ls_repos := ls_repos st; ls_tokens := ls_tokens st; ls_attempts := ls_attempts st; ls_loginLimiters := m;
     ls_registerLimiters := ls_registerLimiters st |}.
Definition set_register_limiters (st : LoginState) (m : RateLimiterMap) : LoginState :=
  {| ls_repos := ls_repos st; ls_tokens := ls_tokens st; ls_attempts := ls_attempts st; ls_loginLimiters := ls_loginLimiters st;
     ls_registerLimiters := m |}.
Definition set_repos (st : LoginState) (r : R) : LoginState :=
  {| ls_repos := r; ls_tokens := ls_tokens st; ls_attempts := ls_attempts st; ls_loginLimiters := ls_loginLimiters st;
     ls_registerLimiters := ls_registerLimiters st |}.
Definition set_tokens (st : LoginState) (m : TokenManager) : LoginState :=
  {| ls_repos := ls_repos st; ls_tokens := m; ls_attempts := ls_attempts st; ls_loginLimiters := ls_loginLimiters st;
     ls_registerLimiters := ls_registerLimiters st |}.

Definition workspace_map (id name : string) : jval := JObj [("id", JStr id); ("name", JStr name)].
Definition user_map (id name email : string) : jval := JObj [("id", JStr id); ("name", JStr name); ("email", JStr email)].
Definition identity_in (u : User) (w : Workspace) : Identity :=
  {| id_UserID := us_ID u; id_UserName := us_Name u; id_UserEmail := us_Email u; id_WorkspaceID := wo_ID w; id_Workspace := wo_Name w |}.

(** The readings of the clock of a request: its limit, the check of the failed logins,
    the record of one, the signature. *)
Record Clock := { ck_limit : Z; ck_check : Z; ck_record : Z; ck_sign : Z }.

Definition login_fields : list (string * (jval -> bool)) := [("email", is_jstr); ("password", is_jstr); ("workspaceId", is_jstr)].

(** [LoginHandler] once the password is right. *)
Definition login_user (st : LoginState) (clock : Clock) (jti workspaceID : string) (user : User) : Reply :=
  match ListByUser (ls_repos st) (us_ID user) with
  | Err _ | Ok [] => http_Error "服务器内部错误" 500
  | Ok workspaces =>
      match selectWorkspace workspaces workspaceID with
      | Err e => http_Error e 400
      | Ok active =>
          let token := Sign hmac (ls_tokens st) (ck_sign clock) jti (identity_in user active) tokenTTL in
          json_reply 200
            (JObj [("token", JStr token); ("user", user_map (us_ID user) (us_Name user) (us_Email user));
                   ("workspace", workspace_map (wo_ID active) (wo_Name active));
                   ("workspaces", JArr (map (fun w => workspace_map (wo_ID w) (wo_Name w)) workspaces))])
            (Some (setAuthCookie secure token))
      end
  end.

(** An unknown address also pays for one verification, which changes nothing. *)
Definition LoginHandler (st : LoginState) (r : Request) (clock : Clock) (jti : string) : LoginState * Reply :=
  let '(limiters, ok) := limiter_Allow new_limiter allow (ls_loginLimiters st) (ck_limit clock) (client_ip r) in
  let st := set_login_limiters st limiters in
  if negb ok then (st, http_Error "请求过于频繁，请稍后重试" 429)
  else match decodeRequestJSON true login_fields r with
  | None => (st, http_Error "请求格式无效" 400)
  | Some req =>
      let email := TrimSpace (ToLower lower (string_field req "email")) in
      let password := string_field req "password" in
      if (email =? "") || (password =? "") then (st, http_Error "邮箱和密码不能为空" 400)
      else
        let '(attempts, ok) := checkLoginRate (ck_check clock) email (ls_attempts st) in
        let st := set_attempts st attempts in
        if negb ok then (st, http_Error "登录尝试过于频繁，请稍后重试" 429)
        else
          let failed := (set_attempts st (recordLoginAttempt (ck_record clock) email (ls_attempts st)),
                         http_Error "邮箱或密码错误" 401) in
          match GetByEmail (ls_repos st) email with
          | Err ErrNotFound => failed
          | Err ErrStorage => (st, http_Error "服务器内部错误" 500)
          | Ok user =>
              if negb (VerifyPassword password (us_PasswordHash user)) then failed
              else (st, login_user st clock jti (string_field req "workspaceId") user)
          end
  end.

(** [revoke_clock]: the two readings of each revocation; [db_ok]: whether it is stored. *)
Definition LogoutHandler (st : LoginState) (r : Request) (revoke_clock : string -> Z * Z) (db_ok : string -> bool) :
    LoginState * Reply :=
  let m := fold_left (fun m token => (Revoke hmac m (revoke_clock token).1 (revoke_clock token).2 token (db_ok token)).1)
             (logout_tokens lower r) (ls_tokens st) in
  (set_tokens st m, json_reply 200 (JObj [("status", JStr "ok")]) (Some (clearAuthCookie secure))).

(** The identity the middleware put in the context, empty without one. *)
Definition SwitchWorkspaceHandler (st : LoginState) (identity : option Identity) (r : Request) (clock : Clock) (jti : string) : Reply :=
  let identity := default no_identity identity in
  match decodeRequestJSON false [("workspaceId", is_jstr)] r with
  | None => http_Error "请求格式无效" 400
  | Some req =>
      let workspaceID := string_field req "workspaceId" in
      if blank workspaceID then http_Error "workspaceId 不能为空" 400
      else if not_exact workspaceID then http_Error "workspaceId 必须保持原值" 400
      else match IsMember (ls_repos st) workspaceID (id_UserID identity) with
      | Err _ => http_Error "服务器内部错误" 500
      | Ok false => http_Error "无权访问此工作空间" 403
      | Ok true =>
          match GetWorkspaceByID (ls_repos st) workspaceID with
          | Err _ => http_Error "服务器内部错误" 500
          | Ok workspace =>
              let newIdentity := {| id_UserID := id_UserID identity; id_UserName := id_UserName identity;
                                    id_UserEmail := id_UserEmail identity; id_WorkspaceID := wo_ID workspace;
                                    id_Workspace := wo_Name workspace |} in
              let token := Sign hmac (ls_tokens st) (ck_sign clock) jti newIdentity tokenTTL in
              json_reply 200 (JObj [("token", JStr token); ("workspace", workspace_map (wo_ID workspace) (wo_Name workspace))])
                (Some (setAuthCookie secure token))
          end
      end
  end.

Definition register_fields : list (string * (jval -> bool)) :=
  [("name", is_jstr); ("email", is_jstr); ("password", is_jstr); ("workspaceName", is_jstr)].
Definition remove_dashes (s : string) : string :=
  str_text (List.filter (fun a => negb (Ascii.eqb a "-")) (String.list_ascii_of_string s)).
Definition short_id (prefix uuid : string) : string := (prefix ++ String.substring 0 12 (remove_dashes uuid))%string.

(** The writes of [RegisterHandler], one table after the other. *)
Definition register_writes (st : LoginState) (clock : Clock) (jti userID workspaceID email name workspaceName hash : string) :
    LoginState * Reply :=
  let user := {| us_ID := userID; us_Email := email; us_PasswordHash := hash; us_Name := name; us_Status := UserStatusActive |} in
  let '(repos, ok) := CreateUser (ls_repos st) user in
  let st := set_repos st repos in
  if negb ok then (st, http_Error "创建用户失败" 500)
  else
    let workspace := {| wo_ID := workspaceID; wo_Name := workspaceName; wo_Slug := workspaceID; wo_OwnerUserID := userID;
                        wo_Status := WorkspaceStatusActive; wo_CreatedAt := ck_record clock |} in
    let '(repos, ok) := CreateWorkspace (ls_repos st) workspace in
    let st := set_repos st repos in
    if negb ok then (st, http_Error "创建工作空间失败" 500)
    else
      let '(repos, ok) := AddMember (ls_repos st) workspaceID userID WorkspaceRoleOwner in
      let st := set_repos st repos in
      if negb ok then (st, http_Error "创建工作空间成员关系失败" 500)
      else
        let token := Sign hmac (ls_tokens st) (ck_sign clock) jti (identity_in user workspace) tokenTTL in
        (st, json_reply 201
               (JObj [("token", JStr token); ("user", user_map userID name email);
                      ("workspace", workspace_map workspaceID workspaceName);
                      ("workspaces", JArr [workspace_map workspaceID workspaceName])])
               (Some (setAuthCookie secure token))).

Definition RegisterHandler (st : LoginState) (r : Request) (clock : Clock) (uuid1 uuid2 jti : string) : LoginState * Reply :=
  let '(limiters, ok) := limiter_Allow new_limiter allow (ls_registerLimiters st) (ck_limit clock) (client_ip r) in
  let st := set_register_limiters st limiters in
  if negb ok then (st, http_Error "请求过于频繁，请稍后重试" 429)
  else match decodeRequestJSON true register_fields r with
  | None => (st, http_Error "请求格式无效" 400)
  | Some req =>
      let email := TrimSpace (ToLower lower (string_field req "email")) in
      let name := string_field req "name" in
      let password := string_field req "password" in
      let workspaceName := string_field req "workspaceName" in
      if (email =? "") || blank password || blank name || blank workspaceName
      then (st, http_Error "姓名、邮箱、密码和工作空间名称不能为空" 400)
      else if not_exact name || not_exact workspaceName then (st, http_Error "姓名和工作空间名称必须保持原值" 400)
      else match ValidatePasswordStrength letter digit password with
      | Some e => (st, http_Error e 400)
      | None =>
          match GetByEmail (ls_repos st) email with
          | Ok _ => (st, http_Error "该邮箱已注册" 409)
          | Err ErrStorage => (st, http_Error "检查现有用户失败" 500)
          | Err ErrNotFound =>
              match HashPassword password with
              | None => (st, http_Error "处理密码失败" 500)
              | Some hash =>
                  register_writes st clock jti (short_id "usr_" uuid1) (short_id "ws_" uuid2) email name workspaceName hash
              end
          end
      end
  end.

(** [auth.Middleware]: a reply, or the identity the next handler gets. *)
Definition Middleware (m : TokenManager) (r : Request) (now now' : Z) : TokenManager * (Reply + Identity) :=
  let bearer := bearerTokenFromRequest lower r in
  let token := if bearer =? "" then default "" (rq_Cookie r) else bearer in
  if token =? "" then (m, inl (writeAuthError 401 "未登录"))
  else match Parse hmac m now now' token with
  | (m, Err _) => (m, inl (writeAuthError 401 "登录凭证无效或已过期"))
  | (m, Ok identity) => (m, inr identity)
  end.

(** [RequireWorkspaceRole]: [None] when the next handler serves the request. *)
Definition RequireWorkspaceRole (repos : R) (minRole : string) (identity : option Identity) : option Reply :=
  match identity with
  | None => Some (writeAuthError 401 "未登录")
  | Some identity =>
      if (id_UserID identity =? "") || (id_WorkspaceID identity =? "") then Some (writeAuthError 401 "未登录")
      else match GetMemberRole repos (id_WorkspaceID identity) (id_UserID identity) with
      | Err _ => Some (writeAuthError 500 "服务器内部错误")
      | Ok None => Some (writeAuthError 403 "无权访问此工作空间")
      | Ok (Some role) => if negb (HasMinRole role minRole) then Some (writeAuthError 403 "当前工作空间角色权限不足") else None
      end
  end.

(** [requireWorkspaceMembership] of the handlers. *)
Definition requireWorkspaceMembership (repos : R) (workspaceID userID : string) : option Reply :=
  match IsMember repos workspaceID userID with
  | Err _ => Some (http_Error "验证工作区成员身份失败" 500)
  | Ok false => Some (http_Error "无权访问该工作区" 403)
  | Ok true => None
  end.
End handlers.
Arguments LoginState : clear implicits.

(** * Lemmas: failed logins *)

Definition attempts_of (m : LoginAttempts) (email : string) : list Z := default [] (m !! email).
(** The times of the failures of one address, among all of them. *)
Definition failures_of (log : list (string * Z)) (email : string) : list Z :=
  map snd (List.filter (fun e => (e.1 =? email)%string) log).

Lemma recent_recent c d l : (d <= c)%Z -> recent c (recent d l) = recent c l.
Proof.
  intros Hle. unfold recent. induction l as [|t l IH]; [done|]. cbn.
  destruct (Z.ltb_spec d t); cbn; [by rewrite IH|]. destruct (Z.ltb_spec c t); [lia|done].
Qed.
Lemma recent_app c l1 l2 : recent c (l1 ++ l2) = recent c l1 ++ recent c l2.
Proof. apply List.filter_app. Qed.
Lemma failures_app log1 log2 email : failures_of (log1 ++ log2) email = failures_of log1 email ++ failures_of log2 email.
Proof. unfold failures_of. by rewrite List.filter_app, map_app. Qed.

Lemma attempts_check now email m email' :
  attempts_of (checkLoginRate now email m).1 email'
  = if (email =? email')%string then recent (now - loginRateWindow) (attempts_of m email') else attempts_of m email'.
Proof.
  unfold checkLoginRate, attempts_of. cbn. destruct (String.eqb_spec email email') as [->|Hne].
  - by rewrite lookup_insert_eq.
  - by rewrite lookup_insert_ne.
Qed.
Lemma attempts_record now email m email' :
  attempts_of (recordLoginAttempt now email m) email'
  = attempts_of m email' ++ (if (email =? email')%string then [now] else []).
Proof.
  unfold recordLoginAttempt, attempts_of. destruct (String.eqb_spec email email') as [->|Hne].
  - by rewrite lookup_insert_eq.
  - by rewrite lookup_insert_ne, app_nil_r.
Qed.
Lemma attempts_cleanup now m email :
  attempts_of (cleanupLoginAttempts now m) email = recent (now - loginRateWindow) (attempts_of m email).
Proof.
  unfold cleanupLoginAttempts, attempts_of.
  destruct (m !! email) as [l|] eqn:Hl.
  - destruct (decide (recent (now - loginRateWindow) l = [])) as [He|Hne].
    + change (default [] (Some l)) with l. rewrite He. destruct (filter _ _ !! email) as [l'|] eqn:Hf; [|done].
      apply map_lookup_filter_Some in Hf as [Hf Hn]. rewrite lookup_fmap, Hl in Hf. cbn [fmap option_fmap option_map snd] in *. congruence.
    + assert (filter (fun kv : string * list Z => kv.2 <> []) (recent (now - loginRateWindow) <$> m) !! email
              = Some (recent (now - loginRateWindow) l)) as ->; [|done].
      apply map_lookup_filter_Some. split; [|done]. by rewrite lookup_fmap, Hl.
  - destruct (filter _ _ !! email) as [l'|] eqn:Hf; [|done].
    apply map_lookup_filter_Some in Hf as [Hf Hn]. by rewrite lookup_fmap, Hl in Hf.
Qed.

(** The failures in the window that ends at [now]. *)
Definition in_window (now : Z) (l : list Z) : list Z :=
  List.filter (fun t => (now - loginRateWindow <? t)%Z && (t <=? now)%Z) l.
Definition attempts_inv (last : Z) (m : LoginAttempts) (log : list (string * Z)) : Prop :=
  forall email,
    (forall c, (last - loginRateWindow <= c)%Z -> recent c (attempts_of m email) = recent c (failures_of log email))
    /\ Forall (fun t => t <= last)%Z (failures_of log email)
    /\ forall now, length (in_window now (failures_of log email)) <= loginRateLimit.

Lemma attempts_inv_later last last' m log : (last <= last')%Z -> attempts_inv last m log -> attempts_inv last' m log.
Proof.
  intros Hle Hinv email. destruct (Hinv email) as (Ha & Hb & Hc). split; [intros c Hcle; apply Ha; lia|]. split; [|done].
  eapply Forall_impl; [exact Hb|]. cbn. lia.
Qed.
Lemma attempts_inv_check last now email m log :
  (last <= now)%Z -> attempts_inv last m log -> attempts_inv now (checkLoginRate now email m).1 log.
Proof.
  intros Hle Hinv email'. destruct (attempts_inv_later last now m log Hle Hinv email') as (Ha & Hb & Hc).
  split; [|done]. intros c Hcle. rewrite attempts_check. destruct (_ =? _)%string; [|by apply Ha].
  rewrite recent_recent by lia. by apply Ha.
Qed.
Lemma attempts_inv_cleanup last now m log :
  (last <= now)%Z -> attempts_inv last m log -> attempts_inv now (cleanupLoginAttempts now m) log.
Proof.
  intros Hle Hinv email'. destruct (attempts_inv_later last now m log Hle Hinv email') as (Ha & Hb & Hc).
  split; [|done]. intros c Hcle. rewrite attempts_cleanup, recent_recent by lia. by apply Ha.
Qed.

Lemma in_window_recent now l : length (in_window now l) <= length (recent (now - loginRateWindow) l).
Proof.
  unfold in_window, recent. induction l as [|t l IH]; [done|]. cbn.
  destruct (now - loginRateWindow <? t)%Z; cbn; [|done]. destruct (t <=? now)%Z; cbn; lia.
Qed.
Lemma recent_later c d l : (c <= d)%Z -> length (recent d l) <= length (recent c l).
Proof.
  intros Hle. unfold recent. induction l as [|t l IH]; [done|]. cbn.
  destruct (Z.ltb_spec d t), (Z.ltb_spec c t); cbn; lia.
Qed.

Lemma attempts_inv_record last check now email m log :
  (last <= check <= now)%Z -> attempts_inv last m log -> (checkLoginRate check email m).2 = true ->
  attempts_inv now (recordLoginAttempt now email (checkLoginRate check email m).1) (log ++ [(email, now)]).
Proof.
  intros [Hl Hn] Hinv Hok email'. pose proof (attempts_inv_check last check email m log Hl Hinv) as Hinv'.
  destruct (attempts_inv_later check now _ _ Hn Hinv' email') as (Ha & Hb & Hc).
  assert (failures_of (log ++ [(email, now)]) email'
          = failures_of log email' ++ (if (email =? email')%string then [now] else [])) as Hlog.
  { rewrite failures_app. unfold failures_of at 2. cbn. by destruct (_ =? _)%string. }
  rewrite Hlog. split; [|split].
  - intros c Hcle. rewrite attempts_record, !recent_app. f_equal. by apply Ha.
  - apply Forall_app. split; [done|]. destruct (_ =? _)%string; repeat constructor. lia.
  - intros w. unfold in_window in *. rewrite List.filter_app, length_app.
    destruct (String.eqb_spec email email') as [->|Hne]; [|cbn; specialize (Hc w); lia]. cbn.
    destruct ((w - loginRateWindow <? now)%Z && (now <=? w)%Z) eqn:Hw; cbn; [|specialize (Hc w); lia]. reflect_bools.
    pose proof (in_window_recent w (failures_of log email')) as H1. unfold in_window in H1.
    pose proof (recent_later (check - loginRateWindow) (w - loginRateWindow) (failures_of log email') ltac:(lia)) as H2.
    destruct (Hinv' email') as (Ha' & _ & _). specialize (Ha' (check - loginRateWindow)%Z ltac:(lia)).
    rewrite attempts_check, String.eqb_refl, recent_recent in Ha' by lia. rewrite <- Ha' in H2.
    change ((length (recent (check - loginRateWindow) (attempts_of m email')) <? loginRateLimit)%nat = true) in Hok.
    apply Nat.ltb_lt in Hok. unfold loginRateLimit in *. lia.
Qed.

Section login_runs.
Context {R : Type} `{AuthRepos R} {L : Type} (new_limiter : L) (allow : Z -> L -> L * bool).
Context (hmac : string -> string -> string) (lower : Z -> Z).
Context (VerifyPassword : string -> string -> bool) (client_ip : Request -> string) (secure : option bool).

(** The address a login request names. *)
Definition login_email (r : Request) : string :=
  match decodeRequestJSON true login_fields r with
  | Some req => TrimSpace (ToLower lower (string_field req "email"))
  | None => ""
  end.

Lemma login_user_status (st : LoginState R L) clock jti wid user :
  re_Status (login_user hmac secure st clock jti wid user) <> 401%Z.
Proof. unfold login_user. by repeat case_match. Qed.

(** What a login does to the failures on record. *)
Lemma LoginHandler_attempts (st : LoginState R L) r clock jti st' reply :
  LoginHandler new_limiter allow hmac lower VerifyPassword client_ip secure st r clock jti = (st', reply) ->
  let check := checkLoginRate (ck_check clock) (login_email r) (ls_attempts st) in
  (re_Status reply <> 401%Z /\ (ls_attempts st' = ls_attempts st \/ ls_attempts st' = check.1))
  \/ (re_Status reply = 401%Z /\ check.2 = true
      /\ ls_attempts st' = recordLoginAttempt (ck_record clock) (login_email r) check.1).
Proof.
  unfold LoginHandler, login_email. destruct (limiter_Allow _ _ _ _ _) as [limiters ok].
  destruct ok; cbn [negb]; [|intros [= <- <-]; left; by split; [|left]].
  destruct (decodeRequestJSON true login_fields r) as [req|]; [|intros [= <- <-]; left; by split; [|left]].
  cbv zeta. set (email := TrimSpace _). destruct (_ || _); [intros [= <- <-]; left; by split; [|left]|].
  cbn [ls_attempts set_login_limiters]. destruct (checkLoginRate (ck_check clock) email (ls_attempts st)) as [attempts ok].
  cbn [fst snd]. destruct ok; cbn [negb]; [|intros [= <- <-]; left; by split; [|right]].
  cbn [ls_repos set_attempts set_login_limiters]. destruct (GetByEmail (ls_repos st) email) as [user|[|]].
  - destruct (VerifyPassword _ _); cbn [negb]; intros [= <- <-]; [|by right].
    left. split; [apply login_user_status|by right].
  - intros [= <- <-]. by right.
  - intros [= <- <-]. left. by split; [|right].
Qed.

Inductive LoginEvent :=
| EvLogin (r : Request) (clock : Clock) (jti : string)
| EvCleanup (now : Z).
(** The handler's state and the failed logins so far: the address and the time. *)
Definition login_event (s : LoginState R L * list (string * Z)) (ev : LoginEvent) : LoginState R L * list (string * Z) :=
  match ev with
  | EvLogin r clock jti =>
      let '(st, reply) := LoginHandler new_limiter allow hmac lower VerifyPassword client_ip secure s.1 r clock jti in
      (st, if (re_Status reply =? 401)%Z then s.2 ++ [(login_email r, ck_record clock)] else s.2)
  | EvCleanup now => (set_attempts s.1 (cleanupLoginAttempts now (ls_attempts s.1)), s.2)
  end.
(** One event ends before the next begins. *)
Fixpoint in_order (last : Z) (evs : list LoginEvent) : Prop :=
  match evs with
  | [] => True
  | EvLogin _ clock _ :: evs => (last <= ck_check clock <= ck_record clock)%Z /\ in_order (ck_record clock) evs
  | EvCleanup now :: evs => (last <= now)%Z /\ in_order now evs
  end.

Lemma login_run_inv evs last s :
  attempts_inv last (ls_attempts s.1) s.2 -> in_order last evs ->
  exists last', attempts_inv last' (ls_attempts (fold_left login_event evs s).1) (fold_left login_event evs s).2.
Proof.
  revert last s. induction evs as [|ev evs IH]; intros last s Hinv Hord; [by exists last|]. cbn [fold_left].
  destruct ev as [r clock jti|now]; destruct Hord as [Hle Hord].
  - apply (IH (ck_record clock)); [|done]. unfold login_event.
    destruct (LoginHandler _ _ _ _ _ _ _ _ _ _ _) as [st' reply] eqn:HL.
    destruct (LoginHandler_attempts s.1 r clock jti st' reply HL) as [[Hst Ha]|(Hst & Hok & Ha)]; cbn [fst snd].
    + apply Z.eqb_neq in Hst as ->. destruct Ha as [-> | ->].
      * eapply attempts_inv_later; [|exact Hinv]. lia.
      * apply (attempts_inv_later (ck_check clock)); [lia|]. apply (attempts_inv_check last); [lia|done].
    + rewrite Hst, Z.eqb_refl, Ha. apply (attempts_inv_record last); [lia|done|done].
  - apply (IH now); [|done]. cbn. by apply (attempts_inv_cleanup last).
Qed.
End login_runs.

(** * Properties *)

(** A cookie that carries a token of the manager [m] for an identity whose user is a
    member of its workspace. *)
Definition member_cookie {R : Type} `{AuthRepos R} (hmac : string -> string -> string) (secure : option bool) (repos : R)
    (m : TokenManager) (t : Z) (jti : string) (uid : string) (cookie : option Cookie) : Prop :=
  exists identity, cookie = Some (setAuthCookie secure (Sign hmac m t jti identity tokenTTL))
    /\ id_UserID identity = uid /\ member_of repos (id_WorkspaceID identity) uid.

Section issued.
Context {R : Type} `{AuthRepos R} {L : Type} (new_limiter : L) (allow : Z -> L -> L * bool).
Context (hmac : string -> string -> string) (lower : Z -> Z) (letter digit : Z -> bool).
Context (HashPassword : string -> option string) (VerifyPassword : string -> string -> bool).
Context (client_ip : Request -> string) (secure : option bool).

Lemma selectWorkspace_in ws wid w : selectWorkspace ws wid = Ok w -> In w ws /\ (wid <> "" -> wo_ID w = wid).
Proof.
  unfold selectWorkspace. destruct (String.eqb_spec wid "") as [->|Hne]; cbn [negb].
  - destruct ws as [|w' [|]]; try done. intros [= ->]. split; [by left|done].
  - destruct (List.find _ ws) as [w'|] eqn:Hf; [|done]. intros [= <-]. apply find_some in Hf as [Hin Heq].
    apply String.eqb_eq in Heq. by split.
Qed.

Lemma login_user_member (st : LoginState R L) clock jti wid user :
  re_Status (login_user hmac secure st clock jti wid user) = 200%Z ->
  member_cookie hmac secure (ls_repos st) (ls_tokens st) (ck_sign clock) jti (us_ID user)
    (re_Cookie (login_user hmac secure st clock jti wid user)).
Proof.
  unfold login_user. destruct (ListByUser (ls_repos st) (us_ID user)) as [[|w0 ws]|] eqn:Hws; [done| |done].
  destruct (selectWorkspace (w0 :: ws) wid) as [w|] eqn:Hw; [|done]. intros _. exists (identity_in user w).
  split; [reflexivity|]. split; [done|]. cbn. apply selectWorkspace_in in Hw as [Hin _]. by eapply ListByUser_members.
Qed.

Lemma switch_member (st : LoginState R L) identity r clock jti :
  re_Status (SwitchWorkspaceHandler hmac secure st identity r clock jti) = 200%Z ->
  member_cookie hmac secure (ls_repos st) (ls_tokens st) (ck_sign clock) jti (id_UserID (default no_identity identity))
    (re_Cookie (SwitchWorkspaceHandler hmac secure st identity r clock jti)).
Proof.
  unfold SwitchWorkspaceHandler. destruct (decodeRequestJSON _ _ _) as [req|]; [|done]. cbv zeta.
  set (wid := string_field req "workspaceId"). destruct (blank wid); [done|]. destruct (not_exact wid); [done|].
  destruct (IsMember _ wid _) as [[|]|] eqn:Hm; [|done..]. destruct (GetWorkspaceByID _ wid) as [w|] eqn:Hw; [|done].
  intros _. eexists. split; [reflexivity|]. split; [done|]. cbn. rewrite (GetWorkspaceByID_id _ _ _ Hw). by apply IsMember_members.
Qed.

Lemma register_member (st : LoginState R L) r clock uuid1 uuid2 jti st' reply :
  RegisterHandler new_limiter allow hmac lower letter digit HashPassword client_ip secure st r clock uuid1 uuid2 jti = (st', reply) ->
  re_Status reply = 201%Z ->
  member_cookie hmac secure (ls_repos st') (ls_tokens st') (ck_sign clock) jti (short_id "usr_" uuid1) (re_Cookie reply).
Proof.
  unfold RegisterHandler. destruct (limiter_Allow _ _ _ _ _) as [limiters ok]. destruct ok; cbn [negb]; [|by intros [= <- <-]].
  destruct (decodeRequestJSON _ _ _) as [req|]; [|by intros [= <- <-]]. cbv zeta.
  destruct (_ || _); [by intros [= <- <-]|]. destruct (_ || _); [by intros [= <- <-]|].
  destruct (ValidatePasswordStrength _ _ _); [by intros [= <- <-]|].
  destruct (GetByEmail _ _) as [u|[|]]; [by intros [= <- <-]| |by intros [= <- <-]].
  destruct (HashPassword _) as [hash|]; [|by intros [= <- <-]]. unfold register_writes.
  destruct (CreateUser _ _) as [r1 ok1]. destruct ok1; cbn [negb]; [|by intros [= <- <-]].
  cbn [ls_repos set_repos]. destruct (CreateWorkspace _ _) as [r2 ok2]. destruct ok2; cbn [negb]; [|by intros [= <- <-]].
  cbn [ls_repos set_repos]. destruct (AddMember _ _ _ _) as [r3 ok3] eqn:Hadd. destruct ok3; cbn [negb]; [|by intros [= <- <-]].
  intros [= <- <-] _. eexists. split; [reflexivity|]. split; [done|]. cbn. by eapply AddMember_members.
Qed.
End issued.

(** every way to obtain a token checks membership: a login answers 200 only for a user
    found under the address whose stored hash the password matches, and only then, and so
    do a switch of workspace and a registration, the cookie holds a token for a workspace
    the user is a member of (after the writes, for a registration). *)
Theorem issued_tokens_are_members {R : Type} `{AuthRepos R} {L : Type} (new_limiter : L) allow hmac lower letter digit
    HashPassword VerifyPassword client_ip secure (st : LoginState R L) r clock jti :
  (let '(st', reply) := LoginHandler new_limiter allow hmac lower VerifyPassword client_ip secure st r clock jti in
   re_Status reply = 200%Z -> exists req user,
     decodeRequestJSON true login_fields r = Some req
     /\ GetByEmail (ls_repos st) (TrimSpace (ToLower lower (string_field req "email"))) = Ok user
     /\ VerifyPassword (string_field req "password") (us_PasswordHash user) = true
     /\ member_cookie hmac secure (ls_repos st) (ls_tokens st) (ck_sign clock) jti (us_ID user) (re_Cookie reply))
  /\ (forall identity, let reply := SwitchWorkspaceHandler hmac secure st identity r clock jti in
      re_Status reply = 200%Z ->
      member_cookie hmac secure (ls_repos st) (ls_tokens st) (ck_sign clock) jti (id_UserID (default no_identity identity))
        (re_Cookie reply))
  /\ (forall uuid1 uuid2,
      let '(st', reply) := RegisterHandler new_limiter allow hmac lower letter digit HashPassword client_ip secure st r clock
                             uuid1 uuid2 jti in
      re_Status reply = 201%Z ->
      member_cookie hmac secure (ls_repos st') (ls_tokens st') (ck_sign clock) jti (short_id "usr_" uuid1) (re_Cookie reply)).
Proof.
  split; [|split].
  - unfold LoginHandler. destruct (limiter_Allow _ _ _ _ _) as [limiters ok]. destruct ok; cbn [negb]; [|done].
    destruct (decodeRequestJSON _ _ _) as [req|]; [|done]. cbv zeta. destruct (_ || _); [done|].
    cbn [ls_attempts set_login_limiters]. destruct (checkLoginRate _ _ _) as [attempts ok].
    destruct ok; cbn [negb]; [|done]. cbn [ls_repos set_attempts set_login_limiters].
    destruct (GetByEmail _ _) as [user|[|]] eqn:Hu; [|done..]. destruct (VerifyPassword _ _) eqn:Hv; cbn [negb]; [|done].
    intros Hst. exists req, user. split; [done|]. split; [done|]. split; [done|]. by apply login_user_member in Hst.
  - intros identity reply Hst. by apply switch_member.
  - intros uuid1 uuid2. destruct (RegisterHandler _ _ _ _ _ _ _ _ _ _ _ _ _ _) as [st' reply] eqn:HR.
    intros Hst. by eapply register_member.
Qed.

(** however logins for an address are attempted one after another, at most five of
    them are answered "wrong address or password" within any five minutes: pruning the
    attempts of other times and the periodic clean-up lose none of them. *)
Theorem login_failures_bounded {R : Type} `{AuthRepos R} {L : Type} (new_limiter : L) allow hmac lower VerifyPassword client_ip
    secure (st : LoginState R L) evs last email now :
  ls_attempts st = ∅ -> in_order last evs ->
  length (in_window now (failures_of
    (fold_left (login_event new_limiter allow hmac lower VerifyPassword client_ip secure) evs (st, [])).2 email)) <= loginRateLimit.
Proof.
  intros Hempty Hord.
  destruct (login_run_inv new_limiter allow hmac lower VerifyPassword client_ip secure evs last (st, [])) as [last' Hinv]; [|done|].
  - intros e. cbn [fst snd]. rewrite Hempty. split; [intros c _; done|]. split; [constructor|intros w; cbn; lia].
  - by destruct (Hinv email) as (_ & _ & Hc).
Qed.

(** A deployment: one user of one workspace, and a limiter that lets everything pass. *)
Definition sample_user : User :=
  {| us_ID := "usr_1"; us_Email := "ada@example.org"; us_PasswordHash := "correct1"; us_Name := "Ada"; us_Status := UserStatusActive |}.
Definition sample_workspace : Workspace :=
  {| wo_ID := "ws_1"; wo_Name := "Lab"; wo_Slug := "ws_1"; wo_OwnerUserID := "usr_1"; wo_Status := WorkspaceStatusActive; wo_CreatedAt := 0 |}.
Definition sample_tables : Tables :=
  {| tb_users := {["ada@example.org" := sample_user]}; tb_workspaces := {["ws_1" := sample_workspace]};
     tb_members := {[("ws_1", "usr_1") := WorkspaceRoleOwner]}; tb_fails := fun _ => false |}.
Definition sample_state (r : Tables) : LoginState Tables unit :=
  {| ls_repos := r; ls_tokens := sample_manager; ls_attempts := ∅; ls_loginLimiters := ∅; ls_registerLimiters := ∅ |}.
Definition always (now : Z) (l : unit) : unit * bool := (l, true).
Definition request (body : jval) : Request :=
  {| rq_RemoteAddr := "10.0.0.1:80"; rq_ForwardedFor := ""; rq_RealIP := ""; rq_Authorization := ""; rq_Cookie := None;
     rq_Body := Marshal body |}.
Definition login_request (email password : string) : Request :=
  request (JObj [("email", JStr email); ("password", JStr password)]).
Definition clock_at (t : Z) : Clock := {| ck_limit := t; ck_check := t; ck_record := t + 1; ck_sign := t + 2 |}.
Definition try_login (t : Z) (password : string) : LoginEvent := EvLogin (login_request "Ada@Example.org" password) (clock_at t) "j".
Definition sample_event := login_event () always sample_hmac (fun r => r) String.eqb rq_RemoteAddr None (R := Tables).

(** Seven wrong passwords in a row: the last two are refused before they are looked at. *)
Definition seven_logins : list LoginEvent := map (fun i => try_login (Z.of_nat i * second) "wrong") (seq 1 7).
Lemma login_failures_bounded_witness :
  failures_of (fold_left sample_event seven_logins (sample_state sample_tables, [])).2 "ada@example.org"
    = map (fun i => Z.of_nat i * second + 1)%Z (seq 1 5)
  /\ length (in_window (8 * second) (failures_of (fold_left sample_event seven_logins (sample_state sample_tables, [])).2 "ada@example.org"))
     <= loginRateLimit.
Proof.
  split; [vm_compute; reflexivity|].
  apply (login_failures_bounded () always sample_hmac (fun r => r) String.eqb rq_RemoteAddr None (sample_state sample_tables)
           seven_logins 0 "ada@example.org" (8 * second)); [reflexivity|].
  vm_compute. repeat split; discriminate.
Defined.

(** Logins that overlap are all checked before one of them fails: no number of them
    meets the limit. *)
Lemma concurrent_logins_exceed now email m n :
  (checkLoginRate now email m).2 = true ->
  (checkLoginRate now email (Nat.iter n (fun m => (checkLoginRate now email m).1) m)).2 = true.
Proof.
  intros H. assert (attempts_of (Nat.iter n (fun m => (checkLoginRate now email m).1) m) email = attempts_of m email
    \/ attempts_of (Nat.iter n (fun m => (checkLoginRate now email m).1) m) email = recent (now - loginRateWindow) (attempts_of m email)) as Ha.
  { induction n as [|n IH]; [by left|]. right. rewrite Nat.iter_succ, attempts_check, String.eqb_refl.
    destruct IH as [-> | ->]; [done|]. apply recent_recent. lia. }
  unfold checkLoginRate in *. cbn [snd] in *. unfold attempts_of in Ha.
  destruct Ha as [-> | ->]; [done|]. by rewrite recent_recent by lia.
Qed.

(** A registration whose workspace cannot be stored leaves a user without one: the
    address can neither register again nor log in. *)
Lemma half_registration_wedges :
  let failing := {| tb_users := ∅; tb_workspaces := ∅; tb_members := ∅; tb_fails := fun s => (s =? "workspaces.insert")%string |} in
  let body := request (JObj [("name", JStr "Ada"); ("email", JStr "ada@example.org"); ("password", JStr "correct1");
                             ("workspaceName", JStr "Lab")]) in
  let register st := RegisterHandler () always sample_hmac (fun r => r) (fun r => (97 <=? r)%Z) (fun r => (48 <=? r)%Z && (r <=? 57)%Z)
                       Some rq_RemoteAddr None st body (clock_at 0) "00000000-1111" "22222222-3333" "j" in
  let '(st1, first) := register (sample_state failing) in
  let repaired := set_repos st1 {| tb_users := tb_users (ls_repos st1); tb_workspaces := tb_workspaces (ls_repos st1);
                                   tb_members := tb_members (ls_repos st1); tb_fails := fun _ => false |} in
  re_Status first = 500%Z /\ re_Status (register repaired).2 = 409%Z
  /\ re_Status (LoginHandler () always sample_hmac (fun r => r) String.eqb rq_RemoteAddr None repaired
                   (login_request "ada@example.org" "correct1") (clock_at 0) "j").2 = 500%Z.
Proof. vm_compute. auto. Qed.

(** the address requests are limited by cannot be forged: without a trusted proxy in
    front it is the peer's, whatever the headers say, and behind trusted proxies it is the
    last forwarded address that is not one of them, whatever the client wrote before it;
    an entry that is no address makes it the peer's again. *)
Theorem client_address_not_forgeable {IP CIDR : Type} ParseIP (ip_String : IP -> string) SplitHost
    (network_contains : CIDR -> IP -> bool) networks (r : Request) :
  let client := getClientIP ParseIP ip_String SplitHost network_contains networks r in
  let trusted := isTrustedProxy network_contains networks in
  let host := default (TrimSpace (rq_RemoteAddr r)) (SplitHost (rq_RemoteAddr r)) in
  (ParseIP host = None -> client = host)
  /\ forall peer, ParseIP host = Some peer ->
     (trusted peer = false -> client = ip_String peer)
     /\ (trusted peer = true -> forall forged entry proxies,
         splitForwardedFor (rq_ForwardedFor r) = forged ++ entry :: proxies ->
         Forall (fun e => exists ip, ParseIP e = Some ip /\ trusted ip = true) proxies ->
         match ParseIP entry with
         | None => client = ip_String peer
         | Some ip => trusted ip = false -> client = ip_String ip
         end).
Proof.
  cbv zeta. unfold getClientIP. set (host := default _ _).
  replace (match SplitHost (rq_RemoteAddr r) with Some h => h | None => TrimSpace (rq_RemoteAddr r) end) with host
    by (unfold host; by destruct (SplitHost _)).
  split; [by intros ->|]. intros peer ->. split; [by intros ->|]. intros -> forged entry proxies Hs Hp. cbn [negb].
  assert (forwarded_client ParseIP ip_String network_contains networks peer (splitForwardedFor (rq_ForwardedFor r))
    = match last_untrusted ParseIP network_contains networks (entry :: rev forged) with
      | Some None => Some (ip_String peer)
      | Some (Some ip) => Some (ip_String ip)
      | None => match splitForwardedFor (rq_ForwardedFor r) with first :: _ => ip_String <$> ParseIP first | [] => None end
      end) as ->.
  { rewrite Hs. unfold forwarded_client. destruct (forged ++ entry :: proxies) as [|f l] eqn:E; [by destruct forged|].
    rewrite <- E, rev_app_distr. cbn [rev]. rewrite <- app_assoc. cbn [app]. by rewrite last_untrusted_skips by (by apply Forall_rev). }
  cbn [last_untrusted]. destruct (ParseIP entry) as [ip|]; [|done]. by intros ->.
Qed.

(** a protected request reaches its handler only with a token, from the header or the
    cookie, that the manager's secret signed, that has not expired and is not on the
    denylist, and then with exactly the identity of its claims; and past a role check only
    when the repository has the user in the workspace with a role of at least that weight. *)
Theorem protected_request_authorized {R : Type} `{AuthRepos R} hmac lower m r now now' :
  let '(m', out) := Middleware hmac lower m r now now' in
  forall identity, out = inr identity ->
  (exists token claims, (token = bearerTokenFromRequest lower r \/ rq_Cookie r = Some token)
     /\ verifiedClaims hmac m token = Ok claims /\ identity = identity_of claims
     /\ (unix now <= cl_ExpiresAt claims)%Z /\ cl_Issuer claims = TokenIssuer
     /\ (forall e, cl_JWTID claims <> "" -> tm_revoked m !! cl_JWTID claims = Some e -> (e <= now')%Z))
  /\ forall (repos : R) minRole, RequireWorkspaceRole repos minRole (Some identity) = None ->
     member_of repos (id_WorkspaceID identity) (id_UserID identity)
     /\ exists role, GetMemberRole repos (id_WorkspaceID identity) (id_UserID identity) = Ok (Some role)
          /\ (RoleWeight minRole <= RoleWeight role)%Z.
Proof.
  unfold Middleware. set (bearer := bearerTokenFromRequest lower r). set (token := if bearer =? "" then _ else _).
  destruct (String.eqb_spec token "") as [|Hne]; [done|].
  destruct (Parse hmac m now now' token) as [m' [identity|e]] eqn:HP; [|done]. intros identity' [= <-]. split.
  - unfold Parse in HP. destruct (verifiedClaims hmac m token) as [claims|] eqn:Hv; [|done].
    destruct (Z.ltb_spec (cl_ExpiresAt claims) (unix now)); [done|].
    destruct (String.eqb_spec (cl_Issuer claims) TokenIssuer) as [Hi|]; [|done]. cbn [negb] in HP.
    destruct (IsRevoked now' (cl_JWTID claims) (tm_revoked m)) as [rev revoked] eqn:HI. destruct revoked; [done|].
    injection HP as <- <-. exists token, claims. split_and!; try done.
    + clear -Hne. unfold token in *. destruct (bearer =? ""); [|by left]. right. by destruct (rq_Cookie r).
    + intros e Hj He. unfold IsRevoked in HI. apply String.eqb_neq in Hj as Hj'. rewrite Hj', He in HI.
      destruct (Z.leb_spec e now'); [done|]. by injection HI.
  - intros repos minRole. unfold RequireWorkspaceRole. destruct (_ || _); [done|].
    destruct (GetMemberRole _ _ _) as [[role|]|] eqn:Hr; [|done..]. destruct (HasMinRole role minRole) eqn:Hm; [|done].
    intros _. split; [by eapply GetMemberRole_members|]. exists role. split; [done|]. by apply Z.leb_le.
Qed.

Lemma Revoke_keeps hmac m t1 t2 token db_ok :
  tm_secret (Revoke hmac m t1 t2 token db_ok).1 = tm_secret m
  /\ (is_Some (tm_store m) -> is_Some (tm_store (Revoke hmac m t1 t2 token db_ok).1)).
Proof. unfold Revoke. repeat (case_match; cbn; try done; eauto). Qed.

(** The revocations of a logout, as operations of the manager. *)
Definition logout_op (clock : string -> Z * Z) (db_ok : string -> bool) (token : string) : TokenOp :=
  OpRevoke (clock token).1 (clock token).2 token (db_ok token).
Lemma logout_run hmac clock db_ok tokens m :
  fold_left (fun m token => (Revoke hmac m (clock token).1 (clock token).2 token (db_ok token)).1) tokens m
  = fold_left (apply_op hmac) (map (logout_op clock db_ok) tokens) m.
Proof. revert m. induction tokens as [|t tokens IH]; intros m; cbn; [done|apply IH]. Qed.
Lemma logout_run_keeps hmac clock db_ok tokens m :
  let m' := fold_left (apply_op hmac) (map (logout_op clock db_ok) tokens) m in
  tm_secret m' = tm_secret m /\ (is_Some (tm_store m) -> is_Some (tm_store m')).
Proof.
  revert m. induction tokens as [|t tokens IH]; intros m; cbn; [done|].
  destruct (IH (apply_op hmac m (logout_op clock db_ok t))) as [IH1 IH2].
  destruct (Revoke_keeps hmac m (clock t).1 (clock t).2 t (db_ok t)) as [H1 H2].
  cbn in IH1, IH2. split; [by rewrite IH1|]. intros Hs. by apply IH2, H2.
Qed.

Lemma Revoke_accepts hmac m t1 t2 token claims :
  verifiedClaims hmac m token = Ok claims -> (unix t1 < cl_ExpiresAt claims)%Z ->
  blank (cl_JWTID claims) = false -> not_exact (cl_JWTID claims) = false -> is_Some (tm_store m) ->
  exists m', Revoke hmac m t1 t2 token true = (m', Ok tt).
Proof.
  intros Hv Ht Hb Hne [rows Hs]. unfold Revoke. rewrite Hv. apply Z.leb_gt in Ht as ->.
  destruct (String.eqb_spec (cl_JWTID claims) "") as [He|]; [by rewrite He in Hb|]. cbn [tm_store set_revoked]. rewrite Hs.
  unfold CreateRevokedToken. rewrite Hb, Hne. by eexists.
Qed.

Lemma logout_tokens_in lower r t :
  In t (logout_tokens lower r) <-> t <> "" /\ (t = bearerTokenFromRequest lower r \/ rq_Cookie r = Some t).
Proof.
  unfold logout_tokens. rewrite in_app_iff.
  destruct (String.eqb_spec (bearerTokenFromRequest lower r) "") as [->|Hb]; destruct (rq_Cookie r) as [c|].
  all: unfold default, id; rewrite ?String.eqb_refl.
  all: try (destruct (String.eqb_spec c "") as [->|Hc]).
  all: cbn [In]; naive_solver.
Qed.

(** a logout always answers 200 and clears the cookie, and it ends the session: each
    token the request carried, in its header or its cookie, that the manager signed and
    that is stored as revoked before its expiry, is refused by every later check before
    that expiry, through any operations and restarts in between. *)
Theorem logout_ends_session {R : Type} {L : Type} hmac lower secure (st : LoginState R L) r clock db_ok :
  let '(st', reply) := LogoutHandler hmac lower secure st r clock db_ok in
  re_Status reply = 200%Z /\ re_Cookie reply = Some (clearAuthCookie secure)
  /\ forall token claims,
     token <> "" -> token = bearerTokenFromRequest lower r \/ rq_Cookie r = Some token ->
     is_Some (tm_store (ls_tokens st)) -> verifiedClaims hmac (ls_tokens st) token = Ok claims ->
     blank (cl_JWTID claims) = false -> not_exact (cl_JWTID claims) = false -> db_ok token = true ->
     forall ops now now',
     (forall t, ((clock t).1 < at_unix (cl_ExpiresAt claims))%Z /\ ((clock t).2 < at_unix (cl_ExpiresAt claims))%Z) ->
     (forall t, In t (logout_tokens lower r) -> same_expiry hmac (tm_secret (ls_tokens st)) (cl_JWTID claims) (cl_ExpiresAt claims) (logout_op clock db_ok t)) ->
     Forall (op_before (at_unix (cl_ExpiresAt claims))) ops ->
     Forall (same_expiry hmac (tm_secret (ls_tokens st)) (cl_JWTID claims) (cl_ExpiresAt claims)) ops ->
     (now' < at_unix (cl_ExpiresAt claims))%Z ->
     exists e, (Parse hmac (fold_left (apply_op hmac) ops (ls_tokens st')) now now' token).2 = Err e.
Proof.
  unfold LogoutHandler. set (tokens := logout_tokens lower r). split; [done|]. split; [done|].
  intros token claims Hne Hfrom Hs Hv Hb Hex Hdb ops now now' Hclock Hsame Hops Hops' Hlt.
  assert (In token tokens) as (l1 & l2 & Htok)%in_split.
  { by apply logout_tokens_in. }
  cbn [ls_tokens set_tokens]. rewrite logout_run, Htok, map_app, fold_left_app. cbn [map fold_left].
  destruct (logout_run_keeps hmac clock db_ok l1 (ls_tokens st)) as [Hsec Hstore]. specialize (Hstore Hs).
  set (m1 := fold_left _ (map _ l1) _) in *. cbn [apply_op logout_op]. rewrite Hdb.
  assert (verifiedClaims hmac m1 token = Ok claims) as Hv1 by (rewrite <- Hv; by apply verified_secret).
  destruct (Hclock token) as [Hc1 Hc2]. apply unix_lt in Hc1 as Hu.
  destruct (Revoke_accepts hmac m1 (clock token).1 (clock token).2 token claims Hv1 Hu Hb Hex Hstore) as [m2 HR].
  rewrite HR. cbn [fst]. destruct Hstore as [rows Hrows].
  destruct (Revoke_denied hmac m1 _ _ token claims m2 rows Hv1 Hrows HR Hc2) as (Hd & Hj & Hsec2).
  assert (tm_secret m2 = tm_secret (ls_tokens st)) as Hsec3 by congruence.
  rewrite <- fold_left_app.
  destruct (denied_run hmac (map (logout_op clock db_ok) l2 ++ ops) m2 _ _ Hd) as [Hd' Hsec'].
  - apply Forall_app. split; [|done]. apply Forall_forall. intros op (t & -> & _)%list_elem_of_fmap. cbn. apply Hclock.
  - rewrite Hsec3. apply Forall_app. split; [|done]. apply Forall_forall. intros op (t & -> & Ht)%list_elem_of_fmap.
    apply Hsame. fold tokens. rewrite Htok. apply in_app_iff. right; right. by apply list_elem_of_In.
  - eapply denied_refused; [exact Hd'| |done|done|done]. rewrite <- Hv. apply verified_secret. congruence.
Qed.
