(* ===== verification/EventStream.v ===== *)
(** The event stream of a session ([handler/sse.go]): the broker that hands events to
    the connections, the replay after a reconnection, and the reading of the persisted
    log it uses ([handler/runtime_state.go], [repository/sqlite/message_repo.go]).

    A state of the system holds the log, the broker, the goroutines that publish an event
    (persist it, then broadcast it) and the connections; every step is one critical
    section or one channel operation of one of them. *)
From S2P Require Import Prelude GoStrings Json JsonRoundtrip Conversation Jobs Tools Receipts Compaction HistoryRebuild.
From Stdlib Require Import Ascii.
Open Scope string_scope.
Open Scope list_scope.

(** * Reading the log *)

Definition messageWindowHead : nat := 1500.
Definition messageWindowTail : nat := 3500.

(** Messages whose identifier was seen are dropped, the others kept in order. *)
Fixpoint merge_unseen (seen : gset string) (l : list RunMessage) : list RunMessage :=
  match l with
  | [] => []
  | msg :: l => if decide (rm_ID msg ∈ seen) then merge_unseen seen l else msg :: merge_unseen ({[rm_ID msg]} ∪ seen) l
  end.
Definition mergeMessageWindows (head tailDescending : list RunMessage) : list RunMessage :=
  sort_created (head ++ merge_unseen (list_to_set (map rm_ID head)) (rev tailDescending)).
(** [all]: the rows of the query by time; the head query takes the first ones, the tail
    query the last ones, newest first. *)
Definition listWindow (all : list RunMessage) : list RunMessage :=
  if (length all <=? messageWindowHead + messageWindowTail)%nat then all
  else mergeMessageWindows (take messageWindowHead all) (take messageWindowTail (rev all)).

Definition run_rows (log : list RunMessage) (runID : string) : list RunMessage :=
  sort_created (List.filter (fun m => (rm_RunID m =? runID)%string) log).
Definition ListByRun (log : list RunMessage) (runID : string) : list RunMessage := listWindow (run_rows log runID).
(** [runs]: the root runs of the session, oldest first; the list is not empty of an
    exact session. *)
Definition collectSessionMessages (log : list RunMessage) (runs : list string) (sessionID : string) : option (list RunMessage) :=
  if blank sessionID || not_exact sessionID then None
  else Some (sort_created (flat_map (ListByRun log) runs)).

Fixpoint sessionReplayMessages (messages : list RunMessage) (cursor : string) : option (list RunMessage) :=
  if cursor =? "" then None
  else match messages with
  | [] => None
  | msg :: rest => if rm_ID msg =? cursor then Some rest else sessionReplayMessages rest cursor
  end.

(** * Events and frames *)

Record StreamEvent := { se_SessionID : string; se_RunID : string; se_Event : RuntimeEvent }.

(** The JSON text of the payload, [None] when it cannot be encoded: the arguments of a
    tool call are raw JSON. *)
Definition data_text (d : EventData) : option string :=
  match d with
  | UserMessageData content | AssistantStatusData content => Some (Marshal (JObj [("content", JStr content)]))
  | SystemFeedbackData content reason => Some (Marshal (encode_feedback content reason))
  | AskUser data => Some (Marshal (encode_ask data))
  | ToolCallData id name arguments =>
      let! raw := json_compact arguments in
      Some (String.concat "" ["{" ; Marshal (JStr "id"); ":"; Marshal (JStr id); ","; Marshal (JStr "name"); ":"; Marshal (JStr name); ",";
                             Marshal (JStr "arguments"); ":"; raw; "}"])
  | ToolResultData id name result duration success =>
      Some (Marshal (JObj [("id", JStr id); ("name", JStr name); ("result", JStr result); ("duration", JNum (itoa duration));
                           ("success", JBool success)]))
  | ErrorData message => Some (Marshal (JObj [("message", JStr message)]))
  | CompleteData summary => Some (Marshal (JObj [("summary", JStr summary)]))
  | HistoryCompacted data => Some (Marshal (encode_compacted data))
  | OtherData payload => Some (Marshal payload)
  end.
Definition string_member (key value : string) : string := String.concat "" [Marshal (JStr key); ":"; Marshal (JStr value); ","].
Definition event_text (e : StreamEvent) : option string :=
  let! data := data_text (ev_Data (se_Event e)) in
  Some (String.concat "" ["{"; string_member "type" (ev_Type (se_Event e));
                          if se_SessionID e =? "" then "" else string_member "sessionId" (se_SessionID e);
                          if se_RunID e =? "" then "" else string_member "runId" (se_RunID e);
                          Marshal (JStr "data"); ":"; data; "}"]).

Definition EventReportUpdate : string := "report_update".
Definition EventReportFinal : string := "report_final".
Definition EventApprovalDenied : string := "approval_denied".
Definition EventRunUsage : string := "run_usage".

(** [json.Unmarshal] of a payload: unknown members are ignored, null is the zero value. *)
Definition known_members (fields : list (string * (jval -> bool))) (raw : string) : option (gmap string jval) :=
  let! v := Unmarshal raw in
  match v with JObj kvs => bind_known fields kvs | JNull => Some ∅ | _ => None end.
Definition keep_known (names : list string) (v : jval) : jval :=
  match v with
  | JObj kvs => JObj (List.filter (fun kv => bool_decide (is_Some (match_field names kv.1))) kvs)
  | _ => v
  end.
Definition read_options (v : jval) : option (list AskUserOption) :=
  match v with JArr vs => decode_options (JArr (map (keep_known ["id"; "label"; "hint"]) vs)) | _ => None end.
Definition read_authorization (v : jval) : option ActionAuthorizationRequest :=
  decode_authorization (keep_known ["action"; "resource_ref"; "payload_json"] v).
Definition read_ask (raw : string) : option AskUserData :=
  let! m := known_members [("question", is_jstr); ("reason", is_jstr); ("scope", is_jstr); ("context_ref", is_jstr);
      ("input_hint", is_jstr); ("required", is_jbool); ("selection_mode", is_jstr); ("allow_custom", is_jbool);
      ("options", fun v => bool_decide (is_Some (read_options v)));
      ("authorization", fun v => bool_decide (is_Some (read_authorization v))); ("tool_call_id", is_jstr)] raw in
  Some {| aq_Question := string_field m "question"; aq_Reason := string_field m "reason";
          aq_Scope := string_field m "scope"; aq_ContextRef := string_field m "context_ref";
          aq_InputHint := string_field m "input_hint"; aq_Required := bool_field m "required";
          aq_SelectionMode := string_field m "selection_mode"; aq_AllowCustom := bool_field m "allow_custom";
          aq_Options := default [] (let! v := m !! "options" in read_options v);
          aq_Authorization := let! v := m !! "authorization" in read_authorization v;
          aq_ToolCallID := string_field m "tool_call_id" |}.
Definition read_compacted (raw : string) : option HistoryCompactedData :=
  let! m := known_members compacted_fields raw in
  Some {| hc_Summary := string_field m "summary"; hc_ShadowedItems := int_field m "shadowed_items";
          hc_PinnedItems := int_field m "pinned_items"; hc_Method := string_field m "method";
          hc_PromptTokens := int_field m "prompt_tokens"; hc_ContextWindow := int_field m "context_window" |}.

(** The payload of a persisted message.  Payloads without a record here are given by the
    value they are sent as; that of a report is read as its JSON value.  A
    [json.RawMessage] is sent as its compacted text, which a number literal prints as it
    is; one that is not JSON cannot be encoded. *)
Definition message_data (msg : RunMessage) : option EventData :=
  let ty := rm_Type msg in
  let id := default "" (rm_ToolCallID msg) in
  if ty =? EventUser then Some (UserMessageData (rm_Content msg))
  else if ty =? EventAssistantStatus then Some (AssistantStatusData (rm_Content msg))
  else if (ty =? EventError) || (ty =? EventRunCancelled) then Some (ErrorData (rm_Content msg))
  else if ty =? EventRunCompleted then Some (CompleteData (rm_Content msg))
  else if ty =? EventToolCall then Some (ToolCallData id (rm_Name msg) (rm_Content msg))
  else if ty =? EventToolResult then
    Some (ToolResultData id (rm_Name msg) (rm_Content msg) (default 0%Z (rm_Duration msg)) (default false (rm_Success msg)))
  else if ty =? EventUserRequestInput then let! data := read_ask (rm_Content msg) in Some (AskUser data)
  else if (ty =? EventReportUpdate) || (ty =? EventReportFinal) then
    let! v := Unmarshal (rm_Content msg) in Some (OtherData v)
  else if ty =? EventHistoryCompacted then let! data := read_compacted (rm_Content msg) in Some (HistoryCompacted data)
  else if ty =? EventApprovalDenied then
    let! m := known_members [("tool", is_jstr); ("decision", is_jstr); ("reason", is_jstr)] (rm_Content msg) in
    Some (OtherData (JObj [("tool", JStr (string_field m "tool")); ("decision", JStr (string_field m "decision"));
                           ("reason", JStr (string_field m "reason"))]))
  else if ty =? EventRunUsage then
    let! m := known_members [("prompt_tokens", is_jint); ("completion_tokens", is_jint); ("total_tokens", is_jint)] (rm_Content msg) in
    Some (OtherData (JObj [("prompt_tokens", JNum (itoa (int_field m "prompt_tokens")));
                           ("completion_tokens", JNum (itoa (int_field m "completion_tokens")));
                           ("total_tokens", JNum (itoa (int_field m "total_tokens")))]))
  else if ty =? EventSystemFeedback then
    let! m := known_members [("content", is_jstr); ("reason", is_jstr)] (rm_Content msg) in
    Some (SystemFeedbackData (string_field m "content") (string_field m "reason"))
  else let! raw := json_compact (rm_Content msg) in Some (OtherData (JNum raw)).
Definition runMessageToRuntimeEvent (sessionID : string) (msg : RunMessage) : option StreamEvent :=
  let! data := message_data msg in
  Some {| se_SessionID := sessionID; se_RunID := rm_RunID msg; se_Event := {| ev_Type := rm_Type msg; ev_Data := data |} |}.

(** What a connection is sent: an event with its identifier and text, or one of the
    notices; and its text on the wire. *)
Inductive SSEOut :=
| OutConnected (sessionID : string)
| OutEvent (id data : string)
| OutResync
| OutOverflow (dropped : Z).
Definition NL : string := String "010"%char "".
Definition writeSSEEvent (id data : string) : string :=
  String.concat "" [if id =? "" then "" else String.concat "" ["id: "; id; NL]; "data: "; data; NL; NL].
Definition out_text (o : SSEOut) : string :=
  match o with
  | OutConnected sid =>
      writeSSEEvent "" (MarshalMap [("type", JStr "connected"); ("data", JObj [("sessionId", JStr sid)])])
  | OutEvent id data => writeSSEEvent id data
  | OutResync =>
      String.concat "" ["event: resync_required"; NL; "data: ";
        MarshalMap [("reason", JStr "cursor_not_found"); ("message", JStr "增量回放游标已失效，请重新同步会话状态。")]; NL; NL]
  | OutOverflow n =>
      String.concat "" ["event: overflow"; NL; "data: "; MarshalMap [("type", JStr "overflow"); ("dropped", JNum (itoa n))]; NL; NL]
  end.

(** * The broker *)

Record sseMessage := { sm_id : string; sm_evt : StreamEvent }.
(** [sc_done]: the channel is closed. *)
Record sseClient := {
  sc_sessionID : string; sc_send : list sseMessage; sc_done : bool; sc_dropped : Z; sc_overflow : bool
}.
Definition sendBuffer : nat := 100.

(** A client is a pointer: its place in [br_heap].  [br_panicked]: a closed channel was
    closed again. *)
Record SSEBroker := {
  br_clients : gmap string (gset nat);
  br_heap : list sseClient;
  br_panicked : bool;
}.
Definition set_clients (b : SSEBroker) (m : gmap string (gset nat)) : SSEBroker :=
  {| br_clients := m; br_heap := br_heap b; br_panicked := br_panicked b |}.
Definition set_client (b : SSEBroker) (c : nat) (client : sseClient) : SSEBroker :=
  {| br_clients := br_clients b; br_heap := <[c := client]> (br_heap b); br_panicked := br_panicked b |}.

Definition session_clients (b : SSEBroker) (sid : string) : gset nat := default ∅ (br_clients b !! sid).
Definition new_client (sid : string) : sseClient :=
  {| sc_sessionID := sid; sc_send := []; sc_done := false; sc_dropped := 0; sc_overflow := false |}.
Definition Register (b : SSEBroker) (sid : string) : SSEBroker * nat :=
  let c := length (br_heap b) in
  ({| br_clients := <[sid := {[c]} ∪ session_clients b sid]> (br_clients b); br_heap := br_heap b ++ [new_client sid];
      br_panicked := br_panicked b |}, c).

Definition with_done (client : sseClient) : sseClient :=
  {| sc_sessionID := sc_sessionID client; sc_send := sc_send client; sc_done := true; sc_dropped := sc_dropped client;
     sc_overflow := sc_overflow client |}.
(** [close(client.done)] *)
Definition close_done (b : SSEBroker) (c : nat) : SSEBroker :=
  match br_heap b !! c with
  | None => b
  | Some client =>
      if sc_done client then {| br_clients := br_clients b; br_heap := br_heap b; br_panicked := true |}
      else set_client b c (with_done client)
  end.
Definition Unregister (b : SSEBroker) (c : nat) : SSEBroker :=
  match br_heap b !! c with
  | None => b
  | Some client =>
      let sid := sc_sessionID client in
      match br_clients b !! sid with
      | None => b
      | Some m =>
          let '(b, m) := if decide (c ∈ m) then (close_done b c, m ∖ {[c]}) else (b, m) in
          set_clients b (if decide (m = ∅) then delete sid (br_clients b) else <[sid := m]> (br_clients b))
      end
  end.
Definition CloseSession (b : SSEBroker) (sid : string) : SSEBroker :=
  let b := foldr (fun c b => close_done b c) b (elements (session_clients b sid)) in
  set_clients b (delete sid (br_clients b)).

(** The [select] of [Broadcast]: when both cases are ready either may be taken. *)
Definition push (client : sseClient) (msg : sseMessage) : sseClient :=
  {| sc_sessionID := sc_sessionID client; sc_send := sc_send client ++ [msg]; sc_done := sc_done client;
     sc_dropped := sc_dropped client; sc_overflow := sc_overflow client |}.
Definition drop_message (client : sseClient) : sseClient :=
  {| sc_sessionID := sc_sessionID client; sc_send := sc_send client; sc_done := sc_done client;
     sc_dropped := sc_dropped client + 1; sc_overflow := true |}.
Definition select_send (pick_done : bool) (client : sseClient) (msg : sseMessage) : sseClient :=
  if (length (sc_send client) <? sendBuffer)%nat then
    if sc_done client && pick_done then client else push client msg
  else if sc_done client then client else drop_message client.
Definition send_to (pick_done : bool) (b : SSEBroker) (c : nat) (msg : sseMessage) : SSEBroker :=
  match br_heap b !! c with
  | None => b
  | Some client => set_client b c (select_send pick_done client msg)
  end.

(** * A connection *)

(** What the handler answers before the stream starts; [lookup]: the workspace and the
    user of the session, or why it was not found. *)
Inductive SSEOpen := SSERefused (status : Z) (message : string) | SSEOpened (cursor : string).
Definition SSEHandler_open (can_flush : bool) (identity : option (string * string)) (sessionID lastEventHeader lastEventQuery : string)
    (lookup : string -> (string * string) + bool) : SSEOpen :=
  if negb can_flush then SSERefused 400 "当前连接不支持事件流"
  else if blank sessionID then SSERefused 400 "缺少会话 ID"
  else if not_exact sessionID then SSERefused 400 "会话 ID 必须保持原值"
  else match identity with
  | None => SSERefused 401 "需要登录"
  | Some who =>
      match lookup sessionID with
      | inr true => SSERefused 404 "会话不存在"
      | inr false => SSERefused 500 "服务器内部错误"
      | inl owner =>
          if negb (owner.1 =? who.1)%string || negb (owner.2 =? who.2)%string then SSERefused 403 "无权访问该会话"
          else
            let header := TrimSpace lastEventHeader in
            SSEOpened (if header =? "" then TrimSpace lastEventQuery else header)
      end
  end.

(** [inl None]: a duplicate; an error ends the connection. *)
Definition deliverSSEMessage (msg : sseMessage) (replayed : gset string) : option SSEOut + unit :=
  if negb (sm_id msg =? "") && bool_decide (sm_id msg ∈ replayed) then inl None
  else match event_text (sm_evt msg) with
  | None => inr tt
  | Some data => inl (Some (OutEvent (sm_id msg) data))
  end.

(** A message that cannot be decoded or encoded is skipped. *)
Definition replay_message (sid : string) (msg : RunMessage) : option SSEOut :=
  let! evt := runMessageToRuntimeEvent sid msg in
  let! data := event_text evt in
  Some (OutEvent (rm_ID msg) data).
Definition out_ids (outs : list SSEOut) : list string :=
  flat_map (fun o => match o with OutEvent id _ => if id =? "" then [] else [id] | _ => [] end) outs.
(** What is written, and the identifiers that were replayed; [loaded] is the log, unless
    reading it failed. *)
Definition replaySessionMessages (sid cursor : string) (loaded : option (list RunMessage)) : list SSEOut * gset string :=
  if cursor =? "" then ([], ∅)
  else match loaded with
  | None => ([], ∅)
  | Some messages =>
      match sessionReplayMessages messages cursor with
      | None => ([OutResync], ∅)
      | Some replay => let outs := omap (replay_message sid) replay in (outs, list_to_set (out_ids outs))
      end
  end.

(** * The system *)

Inductive Phase := Opening | Live | Ended.
(** Connection [k] owns client [k].  [cn_base]: the log that the connection does not owe
    the client any more, as of its registration or of its replay;
    [cn_replay]: the messages after the cursor, as they were read. *)
Record Connection := {
  cn_session : string; cn_cursor : string; cn_phase : Phase; cn_replayed : gset string; cn_out : list SSEOut;
  cn_base : list RunMessage; cn_replay : list RunMessage
}.
(** A goroutine that delivers an event: it persists it (or has nothing to persist), takes
    the clients of the session, and sends to one after the other. *)
Inductive Stage := ToPersist | ToSnapshot (id : string) | Sending (id : string) (rest : list nat) | Published (id : string) | PersistFailed.
Record Publisher := { pb_event : StreamEvent; pb_createdAt : time; pb_stage : Stage }.
Definition set_stage (p : Publisher) (s : Stage) : Publisher :=
  {| pb_event := pb_event p; pb_createdAt := pb_createdAt p; pb_stage := s |}.

Record System := {
  sy_runs : list (string * string);  (* session and root run, oldest first *)
  sy_log : list RunMessage;
  sy_broker : SSEBroker;
  sy_pubs : list Publisher;
  sy_conns : list Connection;
}.
Definition init_system : System :=
  {| sy_runs := []; sy_log := []; sy_broker := {| br_clients := ∅; br_heap := []; br_panicked := false |}; sy_pubs := []; sy_conns := [] |}.
Definition session_runs (s : System) (sid : string) : list string :=
  map snd (List.filter (fun r => (r.1 =? sid)%string) (sy_runs s)).
Definition set_broker (s : System) (b : SSEBroker) : System :=
  {| sy_runs := sy_runs s; sy_log := sy_log s; sy_broker := b; sy_pubs := sy_pubs s; sy_conns := sy_conns s |}.
Definition set_pub (s : System) (i : nat) (p : Publisher) : System :=
  {| sy_runs := sy_runs s; sy_log := sy_log s; sy_broker := sy_broker s; sy_pubs := <[i := p]> (sy_pubs s); sy_conns := sy_conns s |}.
Definition set_conn (s : System) (k : nat) (c : Connection) : System :=
  {| sy_runs := sy_runs s; sy_log := sy_log s; sy_broker := sy_broker s; sy_pubs := sy_pubs s; sy_conns := <[k := c]> (sy_conns s) |}.
Definition add_message (s : System) (m : RunMessage) : System :=
  {| sy_runs := sy_runs s; sy_log := sy_log s ++ [m]; sy_broker := sy_broker s; sy_pubs := sy_pubs s; sy_conns := sy_conns s |}.

Definition with_phase (c : Connection) (p : Phase) (outs : list SSEOut) : Connection :=
  {| cn_session := cn_session c; cn_cursor := cn_cursor c; cn_phase := p; cn_replayed := cn_replayed c;
     cn_out := cn_out c ++ outs; cn_base := cn_base c; cn_replay := cn_replay c |}.
(** The end of the handler: the deferred [Unregister]. *)
Definition end_conn (s : System) (k : nat) (c : Connection) (outs : list SSEOut) : System :=
  set_conn (set_broker s (Unregister (sy_broker s) k)) k (with_phase c Ended outs).
(** The replay settles what the log held when it was read with a known cursor. *)
Definition replayed_conn (s : System) (c : Connection) (loaded : option (list RunMessage)) : Connection :=
  let '(outs, replayed) := replaySessionMessages (cn_session c) (cn_cursor c) loaded in
  {| cn_session := cn_session c; cn_cursor := cn_cursor c; cn_phase := Live; cn_replayed := replayed; cn_out := cn_out c ++ outs;
     cn_base := match loaded with
                | Some messages => match sessionReplayMessages messages (cn_cursor c) with Some _ => sy_log s | None => cn_base c end
                | None => cn_base c
                end;
     cn_replay := match loaded with
                  | Some messages => default [] (sessionReplayMessages messages (cn_cursor c))
                  | None => []
                  end |}.

(** A run of the session begins; a goroutine starts to deliver an event. *)
Definition add_run (s : System) (sid run : string) : System :=
  {| sy_runs := sy_runs s ++ [(sid, run)]; sy_log := sy_log s; sy_broker := sy_broker s; sy_pubs := sy_pubs s; sy_conns := sy_conns s |}.
Definition start_publisher (s : System) (evt : StreamEvent) (t : time) (persisted : bool) : System :=
  {| sy_runs := sy_runs s; sy_log := sy_log s; sy_broker := sy_broker s;
     sy_pubs := sy_pubs s ++ [{| pb_event := evt; pb_createdAt := t; pb_stage := if persisted then ToPersist else ToSnapshot "" |}];
     sy_conns := sy_conns s |}.
Definition send_event (s : System) (i : nat) (p : Publisher) (id : string) (c : nat) (rest : list nat) (pick : bool) : System :=
  set_pub (set_broker s (send_to pick (sy_broker s) c {| sm_id := id; sm_evt := pb_event p |})) i (set_stage p (Sending id rest)).
Definition connect (s : System) (sid cursor : string) : System :=
  {| sy_runs := sy_runs s; sy_log := sy_log s; sy_broker := (Register (sy_broker s) sid).1; sy_pubs := sy_pubs s;
     sy_conns := sy_conns s ++ [{| cn_session := sid; cn_cursor := cursor; cn_phase := Opening; cn_replayed := ∅;
                                   cn_out := [OutConnected sid]; cn_base := sy_log s; cn_replay := [] |}] |}.
Definition pop_client (cl : sseClient) (rest : list sseMessage) : sseClient :=
  {| sc_sessionID := sc_sessionID cl; sc_send := rest; sc_done := sc_done cl; sc_dropped := sc_dropped cl;
     sc_overflow := sc_overflow cl |}.
Definition deliver (s : System) (k : nat) (c : Connection) (client : sseClient) (msg : sseMessage) (rest : list sseMessage) : System :=
  let s := set_broker s (set_client (sy_broker s) k (pop_client client rest)) in
  match deliverSSEMessage msg (cn_replayed c) with
  | inl None => s
  | inl (Some out) => set_conn s k (with_phase c Live [out])
  | inr _ => end_conn s k c []
  end.

Section steps.
Context (encode_error : string -> string).

Definition persist (s : System) (i : nat) (p : Publisher) (uuid : string) : System :=
  set_pub (add_message s (saveEventToDBSync encode_error (se_RunID (pb_event p)) (se_Event (pb_event p)) uuid (pb_createdAt p))) i
    (set_stage p (ToSnapshot uuid)).

Inductive stream_step : System -> System -> Prop :=
| SRun s sid run : run ∉ map snd (sy_runs s) ->
    stream_step s (add_run s sid run)
| SStart s evt t (persisted : bool) :
    stream_step s (start_publisher s evt t persisted)
| SPersist s i p uuid : sy_pubs s !! i = Some p -> pb_stage p = ToPersist -> uuid <> "" -> uuid ∉ map rm_ID (sy_log s) ->
    stream_step s (persist s i p uuid)
| SPersistFailed s i p : sy_pubs s !! i = Some p -> pb_stage p = ToPersist ->
    stream_step s (set_pub s i (set_stage p PersistFailed))
| SSnapshot s i p id order : sy_pubs s !! i = Some p -> pb_stage p = ToSnapshot id ->
    order ≡ₚ elements (session_clients (sy_broker s) (se_SessionID (pb_event p))) ->
    stream_step s (set_pub s i (set_stage p (Sending id order)))
| SSend s i p id c rest pick : sy_pubs s !! i = Some p -> pb_stage p = Sending id (c :: rest) ->
    stream_step s (send_event s i p id c rest pick)
| SPublished s i p id : sy_pubs s !! i = Some p -> pb_stage p = Sending id [] ->
    stream_step s (set_pub s i (set_stage p (Published id)))
| SConnect s sid cursor :
    stream_step s (connect s sid cursor)
| SReplay s k c loaded : sy_conns s !! k = Some c -> cn_phase c = Opening ->
    (loaded = None \/ loaded = collectSessionMessages (sy_log s) (session_runs s (cn_session c)) (cn_session c)) ->
    stream_step s (set_conn s k (replayed_conn s c loaded))
| SDeliver s k c client msg rest : sy_conns s !! k = Some c -> cn_phase c = Live ->
    br_heap (sy_broker s) !! k = Some client -> sc_send client = msg :: rest ->
    stream_step s (deliver s k c client msg rest)
| SOverflow s k c client : sy_conns s !! k = Some c -> cn_phase c = Live -> br_heap (sy_broker s) !! k = Some client ->
    sc_overflow client = true -> stream_step s (end_conn s k c [OutOverflow (sc_dropped client)])
| SEnd s k c : sy_conns s !! k = Some c -> cn_phase c <> Ended -> stream_step s (end_conn s k c [])
| SClose s sid : stream_step s (set_broker s (CloseSession (sy_broker s) sid)).

Definition reachable_stream (s : System) : Prop := rtc stream_step init_system s.
End steps.

(** * Lemmas: the broker *)

Record broker_inv (b : SSEBroker) : Prop := {
  bi_member : forall k cl, br_heap b !! k = Some cl -> k ∈ session_clients b (sc_sessionID cl) <-> sc_done cl = false;
  bi_known : forall sid k, k ∈ session_clients b sid -> exists cl, br_heap b !! k = Some cl /\ sc_sessionID cl = sid;
  bi_panic : br_panicked b = false;
}.

(** Only channels were closed. *)
Definition closes_more (b b' : SSEBroker) : Prop :=
  length (br_heap b') = length (br_heap b)
  /\ forall k cl', br_heap b' !! k = Some cl' -> exists cl, br_heap b !! k = Some cl
       /\ sc_sessionID cl' = sc_sessionID cl /\ sc_send cl' = sc_send cl /\ sc_overflow cl' = sc_overflow cl
       /\ (sc_done cl = true -> sc_done cl' = true).

Lemma closes_more_refl b : closes_more b b.
Proof. split; [done|]. intros k cl H. exists cl. eauto. Qed.

Lemma close_list b l :
  NoDup l -> (forall k, k ∈ l -> exists cl, br_heap b !! k = Some cl /\ sc_done cl = false) ->
  let b' := foldr (fun c b => close_done b c) b l in
  br_clients b' = br_clients b /\ br_panicked b' = br_panicked b
  /\ forall k, br_heap b' !! k = (fun cl => if decide (k ∈ l) then with_done cl else cl) <$> br_heap b !! k.
Proof.
  induction 1 as [|a l Ha Hnd IH]; intros Hl; cbn [foldr].
  - split; [done|]. split; [done|]. intros k. destruct (br_heap b !! k); done.
  - destruct IH as (IH1 & IH2 & IH3); [intros k Hk; apply Hl; by right|].
    destruct (Hl a ltac:(by left)) as (cl & Hcl & Hd).
    assert (br_heap (foldr (fun c b => close_done b c) b l) !! a = Some cl) as Hacl.
    { rewrite IH3, Hcl. cbn. by destruct (decide (a ∈ l)). }
    unfold close_done at 1 3 5. rewrite Hacl, Hd. cbn [br_clients br_panicked br_heap set_client].
    split; [done|]. split; [done|]. intros k. destruct (decide (k = a)) as [->|Hne].
    + rewrite list_lookup_insert_eq by (by eapply lookup_lt_Some). rewrite Hcl. cbn. rewrite decide_True by (by left). done.
    + rewrite list_lookup_insert_ne by done. rewrite IH3. destruct (br_heap b !! k) as [cl'|]; [|done]. cbn. f_equal.
      destruct (decide (k ∈ l)) as [Hk|Hk].
      * by rewrite decide_True by (by right).
      * rewrite decide_False; [done|]. by intros [|]%elem_of_cons.
Qed.

(** Closing the clients [l] of session [sid] and taking them off the map. *)
Lemma close_clients_inv b sid l (m : gmap string (gset nat)) :
  broker_inv b -> NoDup l -> (forall k, k ∈ l -> k ∈ session_clients b sid) ->
  (forall k, k ∈ default ∅ (m !! sid) <-> k ∈ session_clients b sid /\ k ∉ l) ->
  (forall sid', sid' <> sid -> m !! sid' = br_clients b !! sid') ->
  let b' := set_clients (foldr (fun c b => close_done b c) b l) m in
  broker_inv b' /\ closes_more b b' /\ forall k cl, k ∈ l -> br_heap b' !! k = Some cl -> sc_done cl = true.
Proof.
  intros [Hm Hk Hp] Hnd Hl Hsid Hother b'.
  destruct (close_list b l Hnd) as (Hc & Hpan & Hheap).
  { intros k Hkl. destruct (Hk sid k (Hl k Hkl)) as (cl & Hcl & Hs). exists cl. split; [done|]. apply (Hm k cl Hcl). rewrite Hs. auto. }
  assert (forall sid', sid' <> sid -> session_clients b' sid' = session_clients b sid') as Hoth.
  { intros sid' Hne. unfold session_clients. cbn. by rewrite Hother. }
  assert (forall k cl', br_heap b' !! k = Some cl' -> exists cl, br_heap b !! k = Some cl
            /\ cl' = if decide (k ∈ l) then with_done cl else cl) as Hback.
  { intros k cl' H. cbn in H. rewrite Hheap in H. destruct (br_heap b !! k) as [cl|]; [|done]. cbn in H. simplify_eq. eauto. }
  split; [split|split; [split|]].
  - intros k cl' Hcl'. destruct (Hback k cl' Hcl') as (cl & Hcl & ->).
    assert (sc_sessionID (if decide (k ∈ l) then with_done cl else cl) = sc_sessionID cl) as -> by (by destruct (decide _)).
    destruct (decide (sc_sessionID cl = sid)) as [Hs|Hs].
    + unfold session_clients at 1. cbn. rewrite Hs, Hsid. specialize (Hm k cl Hcl). rewrite Hs in Hm.
      destruct (decide (k ∈ l)); cbn; [naive_solver|]. rewrite <- Hm. tauto.
    + rewrite Hoth by done. rewrite decide_False; [by apply Hm|].
      intros Hkl. destruct (Hk sid k (Hl k Hkl)) as (cl2 & Hcl2 & Hs2). by simplify_eq.
  - intros sid' k Hin. assert (k ∈ session_clients b sid') as Hin'.
    { destruct (decide (sid' = sid)) as [->|Hne]; [by apply Hsid in Hin as [? _]|by rewrite <- Hoth]. }
    destruct (Hk sid' k Hin') as (cl & Hcl & Hs). exists (if decide (k ∈ l) then with_done cl else cl). split.
    + cbn. by rewrite Hheap, Hcl.
    + by destruct (decide (k ∈ l)).
  - cbn. by rewrite Hpan.
  - cbn. clear -Hheap. assert (forall k, (br_heap (foldr (fun c b => close_done b c) b l) !! k = None) <-> br_heap b !! k = None) as HN.
    { intros k. rewrite Hheap. by destruct (br_heap b !! k). }
    apply Nat.le_antisymm; apply lookup_ge_None, HN, lookup_ge_None; lia.
  - intros k cl' H. destruct (Hback k cl' H) as (cl & Hcl & ->). exists cl. split; [done|]. by destruct (decide (k ∈ l)).
  - intros k cl' Hkl H. destruct (Hback k cl' H) as (cl & Hcl & ->). by rewrite decide_True.
Qed.

Lemma CloseSession_inv b sid : broker_inv b -> broker_inv (CloseSession b sid) /\ closes_more b (CloseSession b sid).
Proof.
  intros Hb. unfold CloseSession.
  destruct (close_list b (elements (session_clients b sid))) as (Hc & _); [apply NoDup_elements| |].
  { intros k Hk%elem_of_elements. destruct (bi_known b Hb sid k Hk) as (cl & Hcl & Hs). exists cl. split; [done|].
    apply (bi_member b Hb k cl Hcl). by rewrite Hs. }
  cbv zeta in Hc. rewrite Hc.
  destruct (close_clients_inv b sid (elements (session_clients b sid)) (delete sid (br_clients b)) Hb) as (H1 & H2 & _).
  - apply NoDup_elements.
  - intros k. by rewrite elem_of_elements.
  - intros k. rewrite lookup_delete_eq. cbn. rewrite elem_of_elements. set_solver.
  - intros sid' Hne. by rewrite lookup_delete_ne.
  - by split.
Qed.

Lemma Unregister_inv b k cl :
  broker_inv b -> br_heap b !! k = Some cl ->
  broker_inv (Unregister b k) /\ closes_more b (Unregister b k)
  /\ forall cl', br_heap (Unregister b k) !! k = Some cl' -> sc_done cl' = true.
Proof.
  intros Hb Hcl. unfold Unregister. rewrite Hcl.
  assert (forall m, br_clients b !! sc_sessionID cl = Some m -> session_clients b (sc_sessionID cl) = m) as Hses.
  { intros m H. unfold session_clients. by rewrite H. }
  destruct (br_clients b !! sc_sessionID cl) as [m|] eqn:Hm.
  2: { split; [done|]. split; [apply closes_more_refl|]. intros cl' Hcl'. rewrite Hcl in Hcl'. injection Hcl' as <-.
       destruct (sc_done cl) eqn:Hd; [done|]. apply (bi_member b Hb k cl Hcl) in Hd. unfold session_clients in Hd. by rewrite Hm in Hd. }
  specialize (Hses m eq_refl).
  destruct (decide (k ∈ m)) as [Hk|Hk].
  - change (close_done b k) with (foldr (fun c b => close_done b c) b [k]).
    destruct (close_list b [k]) as (Hc & _).
    { apply NoDup_singleton. }
    { intros k' ->%list_elem_of_singleton. exists cl. split; [done|]. apply (bi_member b Hb k cl Hcl). by rewrite Hses. }
    cbv zeta in Hc. rewrite Hc.
    destruct (close_clients_inv b (sc_sessionID cl) [k]
      (if decide (m ∖ {[k]} = ∅) then delete (sc_sessionID cl) (br_clients b) else <[sc_sessionID cl := m ∖ {[k]}]> (br_clients b)) Hb)
      as (H1 & H2 & H3).
    + apply NoDup_singleton.
    + intros k' ->%list_elem_of_singleton. by rewrite Hses.
    + intros k'. rewrite Hses, list_elem_of_singleton. destruct (decide (m ∖ {[k]} = ∅)) as [He|He].
      * rewrite lookup_delete_eq. cbn. set_solver.
      * rewrite lookup_insert_eq. cbn. set_solver.
    + intros sid' Hne. destruct (decide _); [by rewrite lookup_delete_ne|by rewrite lookup_insert_ne].
    + split; [done|]. split; [done|]. intros cl' Hcl'. apply (H3 k cl'); [by apply list_elem_of_singleton|done].
  - assert (m <> ∅ -> set_clients b (<[sc_sessionID cl := m]> (br_clients b)) = b) as Hsame.
    { intros _. rewrite insert_id by done. by destruct b. }
    assert (sc_done cl = true) as Hd.
    { destruct (sc_done cl) eqn:Hd; [done|]. apply (bi_member b Hb k cl Hcl) in Hd. by rewrite Hses in Hd. }
    destruct (decide (m = ∅)) as [->|Hne].
    + destruct (close_clients_inv b (sc_sessionID cl) [] (delete (sc_sessionID cl) (br_clients b)) Hb) as (H1 & H2 & _).
      * constructor.
      * by intros k' H%elem_of_nil.
      * intros k'. rewrite lookup_delete_eq, Hses. cbn. set_solver.
      * intros sid' Hne. by rewrite lookup_delete_ne.
      * split; [exact H1|]. split; [exact H2|]. cbn. intros cl' Hcl'. by simplify_eq.
    + rewrite Hsame by done. split; [done|]. split; [apply closes_more_refl|]. intros cl' Hcl'. by simplify_eq.
Qed.

Lemma Register_inv b sid :
  broker_inv b ->
  broker_inv (Register b sid).1 /\ br_heap (Register b sid).1 = br_heap b ++ [new_client sid].
Proof.
  intros [Hm Hk Hp]. split; [|done].
  assert (forall sid', session_clients (Register b sid).1 sid'
            = if decide (sid' = sid) then {[length (br_heap b)]} ∪ session_clients b sid else session_clients b sid') as Hs.
  { intros sid'. unfold session_clients at 1. cbn. destruct (decide (sid' = sid)) as [->|Hne];
      [by rewrite lookup_insert_eq|by rewrite lookup_insert_ne]. }
  assert (forall sid', length (br_heap b) ∉ session_clients b sid') as Hnew.
  { intros sid' H. destruct (Hk _ _ H) as (cl & Hcl & _). apply lookup_lt_Some in Hcl. lia. }
  split; [| |done].
  - intros k cl Hcl. cbn [Register fst br_heap] in Hcl. rewrite Hs.
    apply lookup_app_Some in Hcl as [Hcl|[Hle Hcl]].
    + specialize (Hm k cl Hcl). assert (k <> length (br_heap b)) by (apply lookup_lt_Some in Hcl; lia).
      destruct (decide (sc_sessionID cl = sid)) as [He|]; [rewrite <- Hm, He; set_solver|done].
    + apply list_lookup_singleton_Some in Hcl as [Hk0 <-]. cbn. rewrite decide_True by done.
      assert (k = length (br_heap b)) as -> by lia. set_solver.
  - intros sid' k. rewrite Hs. cbn [Register fst br_heap].
    destruct (decide (sid' = sid)) as [->|Hne]; [intros [->%elem_of_singleton|H]%elem_of_union|intros H].
    + exists (new_client sid). split; [|done]. by apply list_lookup_middle.
    + destruct (Hk sid k H) as (cl & Hcl & He). exists cl. split; [|done]. by apply lookup_app_l_Some.
    + destruct (Hk sid' k H) as (cl & Hcl & He). exists cl. split; [|done]. by apply lookup_app_l_Some.
Qed.

(** A client changed in nothing but its queue and counters. *)
Lemma set_client_inv b k cl cl' :
  broker_inv b -> br_heap b !! k = Some cl -> sc_sessionID cl' = sc_sessionID cl -> sc_done cl' = sc_done cl ->
  broker_inv (set_client b k cl').
Proof.
  intros [Hm Hk Hp] Hcl Hs Hd. split; [| |done].
  - intros j clj Hj. cbn in Hj. change (session_clients (set_client b k cl')) with (session_clients b).
    destruct (decide (j = k)) as [->|Hne].
    + rewrite list_lookup_insert_eq in Hj by (by eapply lookup_lt_Some). simplify_eq. rewrite Hs, Hd. by apply Hm.
    + rewrite list_lookup_insert_ne in Hj by done. by apply Hm.
  - intros sid j Hj. destruct (Hk sid j Hj) as (clj & Hclj & Hsj). cbn. destruct (decide (j = k)) as [->|Hne].
    + exists cl'. rewrite list_lookup_insert_eq by (by eapply lookup_lt_Some). simplify_eq. by rewrite Hs.
    + exists clj. by rewrite list_lookup_insert_ne.
Qed.

(** * Lemmas: the replay *)

Definition ids_of (l : list RunMessage) : list string := map rm_ID l.
Arguments ids_of : simpl never.

Lemma sort_created_perm l : sort_created l ≡ₚ l.
Proof.
  unfold sort_created. induction l as [|m l IH]; cbn; [done|].
  assert (forall m l, insert_created m l ≡ₚ m :: l) as Hins.
  { clear. intros m l. induction l as [|x l IH]; cbn; [done|]. destruct (Before _ _); [|done]. rewrite IH. apply Permutation_swap. }
  by rewrite Hins, IH.
Qed.

Lemma ids_perm l l' : l ≡ₚ l' -> NoDup (ids_of l') -> NoDup (ids_of l).
Proof. intros Hp. unfold ids_of. by rewrite Hp. Qed.

Lemma merge_unseen_ids seen l :
  NoDup (ids_of (merge_unseen seen l)) /\ (forall m, m ∈ merge_unseen seen l -> m ∈ l /\ rm_ID m ∉ seen).
Proof.
  revert seen. induction l as [|msg l IH]; intros seen; cbn; [split; [constructor|]; by intros m H%elem_of_nil|].
  destruct (decide (rm_ID msg ∈ seen)) as [Hin|Hout].
  - destruct (IH seen) as [H1 H2]. split; [done|]. intros m Hm. destruct (H2 m Hm). split; [by right|done].
  - destruct (IH ({[rm_ID msg]} ∪ seen)) as [H1 H2]. split.
    + constructor; [|done]. intros (m & Heq & Hm)%list_elem_of_fmap. destruct (H2 m Hm). set_solver.
    + intros m [->|Hm]%elem_of_cons; [split; [by left|done]|]. destruct (H2 m Hm). split; [by right|set_solver].
Qed.

Lemma take_in {A} (x : A) n l : x ∈ take n l -> x ∈ l.
Proof. intros (i & Hi & _)%elem_of_take. by eapply list_elem_of_lookup_2. Qed.

Lemma listWindow_ids all :
  NoDup (ids_of all) -> NoDup (ids_of (listWindow all)) /\ forall m, m ∈ listWindow all -> m ∈ all.
Proof.
  intros Hnd. unfold listWindow. destruct (_ <=? _)%nat; [done|]. unfold mergeMessageWindows.
  set (head := take messageWindowHead all). set (tail := take messageWindowTail (rev all)).
  destruct (merge_unseen_ids (list_to_set (map rm_ID head)) (rev tail)) as [H1 H2].
  assert (NoDup (ids_of head)) as Hh.
  { unfold ids_of, head. rewrite <- firstn_map. unfold ids_of in Hnd.
    rewrite <- (take_drop messageWindowHead (map rm_ID all)) in Hnd. by apply NoDup_app in Hnd as [Hnd _]. }
  split.
  - apply (ids_perm _ _ (sort_created_perm _)). unfold ids_of. rewrite map_app. apply NoDup_app. split; [done|]. split; [|done].
    intros id Hid (m & -> & Hm)%list_elem_of_fmap. destruct (H2 m Hm) as [_ Hn]. apply Hn, elem_of_list_to_set, Hid.
  - intros m Hm. rewrite (sort_created_perm _) in Hm. apply elem_of_app in Hm as [Hm|Hm].
    + by eapply take_in.
    + destruct (H2 m Hm) as [Hm' _]. apply list_elem_of_In, in_rev, list_elem_of_In in Hm'. unfold tail in Hm'.
      apply take_in in Hm'. by apply list_elem_of_In, in_rev, list_elem_of_In in Hm'.
Qed.

Lemma run_rows_spec log run :
  NoDup (ids_of log) -> NoDup (ids_of (run_rows log run)) /\ forall m, m ∈ run_rows log run -> m ∈ log /\ rm_RunID m = run.
Proof.
  intros Hnd. unfold run_rows. split.
  - apply (ids_perm _ _ (sort_created_perm _)). clear -Hnd. unfold ids_of in *. induction log as [|m log IH]; cbn; [constructor|].
    apply NoDup_cons in Hnd as [Hn Hnd]. destruct (_ =? _)%string; [|by apply IH]. cbn. constructor; [|by apply IH].
    intros (m' & Heq & Hm')%list_elem_of_fmap. apply Hn. rewrite Heq. apply list_elem_of_fmap. exists m'. split; [done|].
    apply list_elem_of_In in Hm'. apply filter_In in Hm' as [Hm' _]. by apply list_elem_of_In.
  - intros m Hm. rewrite sort_created_perm in Hm. apply list_elem_of_In, filter_In in Hm as [Hm Hr].
    apply String.eqb_eq in Hr. split; [by apply list_elem_of_In|done].
Qed.

Lemma collect_ids log runs sid messages :
  NoDup (ids_of log) -> NoDup runs -> collectSessionMessages log runs sid = Some messages ->
  NoDup (ids_of messages) /\ forall m, m ∈ messages -> m ∈ log.
Proof.
  intros Hnd Hruns. unfold collectSessionMessages. destruct (_ || _); [done|]. intros [= <-].
  assert (forall m, m ∈ flat_map (ListByRun log) runs -> m ∈ log /\ rm_RunID m ∈ runs) as Hsub.
  { intros m Hm. apply list_elem_of_In, in_flat_map in Hm as (run & Hrun & Hm). apply list_elem_of_In in Hm.
    destruct (run_rows_spec log run Hnd) as [Hr1 Hr2]. apply listWindow_ids in Hm; [|done].
    destruct (Hr2 m Hm) as [? <-]. split; [done|by apply list_elem_of_In]. }
  split; [|intros m Hm; rewrite sort_created_perm in Hm; by apply Hsub].
  apply (ids_perm _ _ (sort_created_perm _)).
  induction runs as [|run runs IH]; [constructor|]. apply NoDup_cons in Hruns as [Hn Hruns]. cbn [flat_map].
  unfold ids_of. rewrite map_app. destruct (run_rows_spec log run Hnd) as [Hr1 Hr2].
  destruct (listWindow_ids _ Hr1) as [Hw1 Hw2]. apply NoDup_app. split; [exact Hw1|]. split.
  - intros id (m & -> & Hm)%list_elem_of_fmap (m' & Heq & Hm')%list_elem_of_fmap.
    destruct (Hr2 m (Hw2 m Hm)) as [Hin Hrun]. assert (m' ∈ log /\ rm_RunID m' ∈ runs) as [Hin' Hrun'].
    { apply list_elem_of_In, in_flat_map in Hm' as (run' & Hrun' & Hm'). apply list_elem_of_In in Hm'.
      destruct (run_rows_spec log run' Hnd) as [_ Hr2']. apply listWindow_ids in Hm'; [|by apply run_rows_spec].
      destruct (Hr2' m' Hm') as [? <-]. split; [done|by apply list_elem_of_In]. }
    assert (m = m') as <-; [|by rewrite Hrun in Hrun'].
    apply list_elem_of_lookup in Hin as [i Hi], Hin' as [j Hj].
    assert (i = j) as <-; [|congruence]. eapply (NoDup_lookup (ids_of log)); [done| |]; unfold ids_of; rewrite list_lookup_fmap.
    + by rewrite Hi.
    + rewrite Hj. cbn. by rewrite Heq.
  - apply IH; [done|]. intros m Hm. destruct (Hsub m) as [H1 H2]; [cbn; by apply elem_of_app; right|]. split; [done|].
    apply list_elem_of_In, in_flat_map in Hm as (run' & Hrun' & Hm). apply list_elem_of_In in Hm.
    destruct (run_rows_spec log run' Hnd) as [_ Hr2']. apply listWindow_ids in Hm; [|by apply run_rows_spec].
    destruct (Hr2' m Hm) as [_ <-]. by apply list_elem_of_In.
Qed.

(** * The invariant *)

Definition msg_ids (q : list sseMessage) : list string :=
  flat_map (fun m => if sm_id m =? "" then [] else [sm_id m]) q.
Definition stage_id (st : Stage) : option string :=
  match st with ToSnapshot id | Sending id _ | Published id => Some id | _ => None end.
(** The event [id] is still to be sent to client [k]. *)
Definition pending (k : nat) (id : string) (st : Stage) : Prop :=
  st = ToSnapshot id \/ exists rest, st = Sending id rest /\ k ∈ rest.

(** A connection and its client: nothing is queued or written twice, and what is queued
    although it was written is known to have been replayed. *)
Record conn_ok (log_ids : list string) (cl : sseClient) (c : Connection) : Prop := {
  ok_queue : NoDup (msg_ids (sc_send cl));
  ok_out : NoDup (out_ids (cn_out c));
  ok_replayed : forall id, id ∈ msg_ids (sc_send cl) -> id ∈ out_ids (cn_out c) -> id ∈ cn_replayed c;
  ok_seen : forall id, id ∈ cn_replayed c -> id ∈ out_ids (cn_out c);
  ok_log : forall id, id ∈ msg_ids (sc_send cl) \/ id ∈ out_ids (cn_out c) -> id ∈ log_ids;
  ok_opening : cn_phase c = Opening -> out_ids (cn_out c) = [] /\ cn_replayed c = ∅;
  ok_session : cn_session c = sc_sessionID cl;
  ok_ended : cn_phase c = Ended -> sc_done cl = true;
  ok_replay : forall m o, m ∈ cn_replay c -> replay_message (cn_session c) m = Some o -> o ∈ cn_out c;
}.
Definition pending_ok (p : Publisher) (k : nat) (cl : sseClient) (c : Connection) : Prop :=
  forall id, id <> "" -> pending k id (pb_stage p) ->
    id ∉ msg_ids (sc_send cl) /\ (id ∈ out_ids (cn_out c) -> id ∈ cn_replayed c).
(** An event that was persisted and that the connection owes its client. *)
Definition covered (p : Publisher) (k : nat) (cl : sseClient) (c : Connection) : Prop :=
  forall id, stage_id (pb_stage p) = Some id -> id <> "" -> se_SessionID (pb_event p) = cn_session c -> sc_done cl = false ->
    id ∉ ids_of (cn_base c) ->
    pending k id (pb_stage p) \/ id ∈ msg_ids (sc_send cl) \/ id ∈ out_ids (cn_out c) \/ sc_overflow cl = true.

Record stream_inv (s : System) : Prop := {
  sv_broker : broker_inv (sy_broker s);
  sv_len : length (br_heap (sy_broker s)) = length (sy_conns s);
  sv_log : NoDup (ids_of (sy_log s)) /\ "" ∉ ids_of (sy_log s);
  sv_runs : NoDup (map snd (sy_runs s));
  sv_pub : forall i p id, sy_pubs s !! i = Some p -> stage_id (pb_stage p) = Some id -> id <> "" -> id ∈ ids_of (sy_log s);
  sv_distinct : forall i j p q id, sy_pubs s !! i = Some p -> sy_pubs s !! j = Some q ->
    stage_id (pb_stage p) = Some id -> stage_id (pb_stage q) = Some id -> id <> "" -> i = j;
  sv_rest : forall i p id rest, sy_pubs s !! i = Some p -> pb_stage p = Sending id rest -> NoDup rest;
  sv_conn : forall k c cl, sy_conns s !! k = Some c -> br_heap (sy_broker s) !! k = Some cl -> conn_ok (ids_of (sy_log s)) cl c;
  sv_pending : forall i p k c cl, sy_pubs s !! i = Some p -> sy_conns s !! k = Some c -> br_heap (sy_broker s) !! k = Some cl ->
    pending_ok p k cl c;
  sv_cover : forall i p k c cl, sy_pubs s !! i = Some p -> sy_conns s !! k = Some c -> br_heap (sy_broker s) !! k = Some cl ->
    covered p k cl c;
}.

Lemma stream_inv_init : stream_inv init_system.
Proof.
  split; cbn; try done.
  - unfold ids_of. cbn. split; [constructor|apply not_elem_of_nil].
  - constructor.
Qed.

Lemma msg_ids_app q1 q2 : msg_ids (q1 ++ q2) = msg_ids q1 ++ msg_ids q2.
Proof. apply flat_map_app. Qed.
Lemma out_ids_app q1 q2 : out_ids (q1 ++ q2) = out_ids q1 ++ out_ids q2.
Proof. apply flat_map_app. Qed.

(** A publisher moves on without a message being sent. *)
Lemma stage_inv s i p st' :
  stream_inv s -> sy_pubs s !! i = Some p -> stage_id st' = stage_id (pb_stage p) ->
  (forall k id, pending k id st' -> pending k id (pb_stage p)) -> (forall id rest, st' = Sending id rest -> NoDup rest) ->
  (forall k cl id, br_heap (sy_broker s) !! k = Some cl -> sc_done cl = false -> sc_sessionID cl = se_SessionID (pb_event p) ->
     pending k id (pb_stage p) -> pending k id st') ->
  stream_inv (set_pub s i (set_stage p st')).
Proof.
  intros [Hb Hlen Hlog Hruns Hpub Hdist Hrest Hconn Hpend Hcov] Hi Hid Hsub Hnd Hkeep.
  assert (forall j q, <[i := set_stage p st']> (sy_pubs s) !! j = Some q ->
            (j = i /\ q = set_stage p st') \/ (j <> i /\ sy_pubs s !! j = Some q)) as Hcase.
  { intros j q Hj. destruct (decide (j = i)) as [->|Hne].
    - rewrite list_lookup_insert_eq in Hj by (by eapply lookup_lt_Some). simplify_eq. by left.
    - rewrite list_lookup_insert_ne in Hj by done. by right. }
  assert (forall j q, <[i := set_stage p st']> (sy_pubs s) !! j = Some q ->
            exists q', sy_pubs s !! j = Some q' /\ stage_id (pb_stage q) = stage_id (pb_stage q')) as Hback.
  { intros j q [[-> ->]|[_ H]]%Hcase; eauto. }
  split; cbn; try done.
  - intros j q id Hj Hst. destruct (Hback j q Hj) as (q' & Hq' & Hs). rewrite Hs in Hst. by eapply Hpub.
  - intros j1 j2 q1 q2 id H1 H2 Hs1 Hs2. destruct (Hback _ _ H1) as (q1' & Hq1 & E1), (Hback _ _ H2) as (q2' & Hq2 & E2).
    rewrite E1 in Hs1. rewrite E2 in Hs2. by eapply Hdist.
  - intros j q id rest [[-> ->]|[_ Hj]]%Hcase; [apply Hnd|by eapply Hrest].
  - intros j q k c cl [[-> ->]|[_ Hj]]%Hcase Hc Hcl; [|by eapply Hpend].
    intros id Hne Hp. cbn in Hp. by apply (Hpend i p k c cl Hi Hc Hcl id Hne), Hsub.
  - intros j q k c cl [[-> ->]|[_ Hj]]%Hcase Hc Hcl; [|by eapply Hcov].
    intros id Hst Hne Hses Hd Hbase. cbn [pb_stage set_stage pb_event] in *. rewrite Hid in Hst.
    destruct (Hcov i p k c cl Hi Hc Hcl id Hst Hne Hses Hd Hbase) as [Hp|H]; [|by right].
    left. eapply Hkeep; eauto. rewrite <- (ok_session _ _ _ (Hconn k c cl Hc Hcl)). done.
Qed.

(** A connection and its client change together. *)
Lemma local_inv s k c cl c' cl' :
  stream_inv s -> sy_conns s !! k = Some c -> br_heap (sy_broker s) !! k = Some cl ->
  sc_sessionID cl' = sc_sessionID cl -> sc_done cl' = sc_done cl -> conn_ok (ids_of (sy_log s)) cl' c' ->
  (forall i p, sy_pubs s !! i = Some p -> pending_ok p k cl' c') -> (forall i p, sy_pubs s !! i = Some p -> covered p k cl' c') ->
  stream_inv (set_conn (set_broker s (set_client (sy_broker s) k cl')) k c').
Proof.
  intros [Hb Hlen Hlog Hruns Hpub Hdist Hrest Hconn Hpend Hcov] Hc Hcl Hs Hd Hok Hp Hcv.
  assert (forall j cj clj, <[k := c']> (sy_conns s) !! j = Some cj -> <[k := cl']> (br_heap (sy_broker s)) !! j = Some clj ->
    (j = k /\ cj = c' /\ clj = cl') \/ (sy_conns s !! j = Some cj /\ br_heap (sy_broker s) !! j = Some clj)) as Hcase.
  { intros j cj clj H1 H2. destruct (decide (j = k)) as [->|Hne].
    - rewrite list_lookup_insert_eq in H1 by (by eapply lookup_lt_Some).
      rewrite list_lookup_insert_eq in H2 by (by eapply lookup_lt_Some). simplify_eq. by left.
    - rewrite list_lookup_insert_ne in H1 by done. rewrite list_lookup_insert_ne in H2 by done. by right. }
  split; cbn; try done.
  - by eapply set_client_inv.
  - by rewrite !length_insert.
  - intros j cj clj H1 H2. destruct (Hcase j cj clj H1 H2) as [(-> & -> & ->)|[? ?]]; [done|by eapply Hconn].
  - intros i p j cj clj Hi H1 H2. destruct (Hcase j cj clj H1 H2) as [(-> & -> & ->)|[? ?]]; [by eapply Hp|by eapply Hpend].
  - intros i p j cj clj Hi H1 H2. destruct (Hcase j cj clj H1 H2) as [(-> & -> & ->)|[? ?]]; [by eapply Hcv|by eapply Hcov].
Qed.

(** Closing channels leaves the connections nothing new to do. *)
Lemma closes_inv s b' : stream_inv s -> broker_inv b' -> closes_more (sy_broker s) b' -> stream_inv (set_broker s b').
Proof.
  intros [Hb Hlen Hlog Hruns Hpub Hdist Hrest Hconn Hpend Hcov] Hb' [Hl Hmore].
  split; cbn; try done.
  - by rewrite Hl.
  - intros k c cl' Hc Hcl'. destruct (Hmore k cl' Hcl') as (cl & Hcl & E1 & E2 & E3 & E4).
    destruct (Hconn k c cl Hc Hcl) as [H1 H2 H3 H4 H5 H6 H7 H8 H9]. split; rewrite ?E1, ?E2; try done. auto.
  - intros i p k c cl' Hi Hc Hcl'. destruct (Hmore k cl' Hcl') as (cl & Hcl & E1 & E2 & E3 & E4).
    unfold pending_ok. rewrite E2. by eapply Hpend.
  - intros i p k c cl' Hi Hc Hcl'. destruct (Hmore k cl' Hcl') as (cl & Hcl & E1 & E2 & E3 & E4).
    intros id Hst Hne Hses Hd Hbase. rewrite E2, E3. eapply Hcov; eauto.
    destruct (sc_done cl) eqn:Hdc; [|done]. rewrite E4 in Hd by done. done.
Qed.

(** ** The steps *)

Lemma set_client_same b k cl : br_heap b !! k = Some cl -> set_client b k cl = b.
Proof. intros H. destruct b. unfold set_client. cbn in *. by rewrite list_insert_id. Qed.
Lemma set_broker_same s : set_broker s (sy_broker s) = s.
Proof. by destruct s. Qed.
Lemma set_conn_same s k c : sy_conns s !! k = Some c -> set_conn s k c = s.
Proof. intros H. destruct s. unfold set_conn. cbn in *. by rewrite list_insert_id. Qed.
Lemma conn_client s k c : stream_inv s -> sy_conns s !! k = Some c -> exists cl, br_heap (sy_broker s) !! k = Some cl.
Proof. intros Hinv Hc. apply lookup_lt_is_Some_2. rewrite (sv_len s Hinv). by eapply lookup_lt_Some. Qed.

Lemma inv_end s k c outs :
  stream_inv s -> sy_conns s !! k = Some c -> out_ids outs = [] -> stream_inv (end_conn s k c outs).
Proof.
  intros Hinv Hc Ho. destruct (conn_client s k c Hinv Hc) as [cl Hcl].
  destruct (Unregister_inv (sy_broker s) k cl (sv_broker s Hinv) Hcl) as (Hb & Hmore & Hdone).
  pose proof (closes_inv s _ Hinv Hb Hmore) as Hinv'. unfold end_conn.
  set (b' := Unregister (sy_broker s) k) in *.
  destruct (conn_client (set_broker s b') k c Hinv' Hc) as [cl' Hcl']. specialize (Hdone cl' Hcl').
  pose proof (sv_conn _ Hinv' k c cl' Hc Hcl') as [H1 H2 H3 H4 H5 H6 H7 H8 H9].
  assert (out_ids (cn_out (with_phase c Ended outs)) = out_ids (cn_out c)) as Hout by (cbn; by rewrite out_ids_app, Ho, app_nil_r).
  pose proof (local_inv (set_broker s b') k c cl' (with_phase c Ended outs) cl' Hinv' Hc Hcl' eq_refl eq_refl) as HL.
  cbn [sy_broker set_broker] in HL. rewrite (set_client_same b' k cl' Hcl') in HL. apply HL.
  - split; rewrite ?Hout; try done. intros m o Hm Hr. apply elem_of_app; left. by eapply H9.
  - intros i p Hi. unfold pending_ok. rewrite Hout. by apply (sv_pending _ Hinv' i p k c cl' Hi Hc Hcl').
  - intros i p Hi id _ _ _ Hd. by rewrite Hdone in Hd.
Qed.

Lemma inv_close s sid : stream_inv s -> stream_inv (set_broker s (CloseSession (sy_broker s) sid)).
Proof. intros Hinv. destruct (CloseSession_inv (sy_broker s) sid (sv_broker s Hinv)). by apply closes_inv. Qed.

Lemma inv_snapshot s i p id order :
  stream_inv s -> sy_pubs s !! i = Some p -> pb_stage p = ToSnapshot id ->
  order ≡ₚ elements (session_clients (sy_broker s) (se_SessionID (pb_event p))) ->
  stream_inv (set_pub s i (set_stage p (Sending id order))).
Proof.
  intros Hinv Hi Hst Ho. apply stage_inv; rewrite ?Hst; try done.
  - intros k id' [H|(rest & [= <- <-] & Hk)]; [done|by left].
  - intros id' rest [= <- <-]. rewrite Ho. apply NoDup_elements.
  - intros k cl id' Hcl Hd Hs [[= <-]|(rest & H & _)]; [|done]. right. exists order. split; [done|].
    rewrite Ho, elem_of_elements, <- Hs. by apply (bi_member _ (sv_broker s Hinv)).
Qed.

Lemma inv_published s i p id :
  stream_inv s -> sy_pubs s !! i = Some p -> pb_stage p = Sending id [] -> stream_inv (set_pub s i (set_stage p (Published id))).
Proof.
  intros Hinv Hi Hst. apply stage_inv; rewrite ?Hst; try done.
  - intros k id' [H|(rest & H & _)]; done.
  - intros k cl id' _ _ _ [H|(rest & [= <- <-] & Hk)]; [done|]. by apply elem_of_nil in Hk.
Qed.

Lemma inv_persist_failed s i p :
  stream_inv s -> sy_pubs s !! i = Some p -> pb_stage p = ToPersist -> stream_inv (set_pub s i (set_stage p PersistFailed)).
Proof.
  intros Hinv Hi Hst. apply stage_inv; rewrite ?Hst; try done.
  - intros k id' [H|(rest & H & _)]; done.
  - intros k cl id' _ _ _ [H|(rest & H & _)]; done.
Qed.

Lemma conn_ok_log log log' cl c : (forall id, id ∈ log -> id ∈ log') -> conn_ok log cl c -> conn_ok log' cl c.
Proof. intros Hsub [H1 H2 H3 H4 H5 H6 H7 H8 H9]. split; eauto. Qed.

Lemma inv_persist s i p m :
  stream_inv s -> sy_pubs s !! i = Some p -> pb_stage p = ToPersist -> rm_ID m <> "" -> rm_ID m ∉ ids_of (sy_log s) ->
  stream_inv (set_pub (add_message s m) i (set_stage p (ToSnapshot (rm_ID m)))).
Proof.
  intros Hinv Hi Hst Hne Hfresh. destruct Hinv as [Hb Hlen [Hlog Hempty] Hruns Hpub Hdist Hrest Hconn Hpend Hcov].
  assert (ids_of (sy_log s ++ [m]) = ids_of (sy_log s) ++ [rm_ID m]) as Hids by (unfold ids_of; by rewrite map_app).
  assert (forall id, id ∈ ids_of (sy_log s) -> id ∈ ids_of (sy_log s ++ [m])) as Hgrow.
  { intros id H. rewrite Hids. by apply elem_of_app; left. }
  assert (forall j q, <[i := set_stage p (ToSnapshot (rm_ID m))]> (sy_pubs s) !! j = Some q ->
            (j = i /\ q = set_stage p (ToSnapshot (rm_ID m))) \/ (j <> i /\ sy_pubs s !! j = Some q)) as Hcase.
  { intros j q Hj. destruct (decide (j = i)) as [->|Hji].
    - rewrite list_lookup_insert_eq in Hj by (by eapply lookup_lt_Some). simplify_eq. by left.
    - rewrite list_lookup_insert_ne in Hj by done. by right. }
  split; cbn; try done.
  - rewrite Hids. split; [apply NoDup_app; split; [done|split; [|apply NoDup_singleton]]|].
    + intros id Hid ->%list_elem_of_singleton. done.
    + intros [H|H%list_elem_of_singleton]%elem_of_app; done.
  - intros j q id [[-> ->]|[_ Hj]]%Hcase Hs Hn; [|by eapply Hgrow, Hpub].
    cbn in Hs. injection Hs as <-. rewrite Hids. apply elem_of_app; right. by apply list_elem_of_singleton.
  - assert (forall j q id, sy_pubs s !! j = Some q -> stage_id (pb_stage q) = Some id -> id <> "" -> id <> rm_ID m) as Hdiff.
    { intros j q id Hj Hs Hn ->. by apply Hfresh, (Hpub j q (rm_ID m)). }
    intros j1 j2 q1 q2 id [[-> ->]|[Hn1 H1]]%Hcase [[-> ->]|[Hn2 H2]]%Hcase Hs1 Hs2 Hn; [done| | |by eapply Hdist].
    + cbn in Hs1. simplify_eq. by destruct (Hdiff _ _ _ H2 Hs2 Hn).
    + cbn in Hs2. simplify_eq. by destruct (Hdiff _ _ _ H1 Hs1 Hn).
  - intros j q id rest [[-> ->]|[_ Hj]]%Hcase; [done|by eapply Hrest].
  - intros k c cl Hc Hcl. by eapply conn_ok_log, Hconn.
  - intros j q k c cl [[-> ->]|[_ Hj]]%Hcase Hc Hcl; [|by eapply Hpend].
    intros id Hn [[= <-]|(rest & H & _)]; [|done].
    pose proof (ok_log _ _ _ (Hconn k c cl Hc Hcl)) as Hin. split; [intros H; by apply Hfresh, Hin; left|intros H; exfalso; by apply Hfresh, Hin; right].
  - intros j q k c cl [[-> ->]|[_ Hj]]%Hcase Hc Hcl; [|by eapply Hcov].
    intros id Hs _ _ _ _. left. left. cbn in *. by simplify_eq.
Qed.

Lemma inv_run s sid run :
  stream_inv s -> run ∉ map snd (sy_runs s) ->
  stream_inv {| sy_runs := sy_runs s ++ [(sid, run)]; sy_log := sy_log s; sy_broker := sy_broker s; sy_pubs := sy_pubs s;
                sy_conns := sy_conns s |}.
Proof.
  intros [Hb Hlen Hlog Hruns Hpub Hdist Hrest Hconn Hpend Hcov] Hn. split; cbn; try done.
  rewrite map_app. apply NoDup_app. split; [done|]. split; [|apply NoDup_singleton]. intros r Hr ->%list_elem_of_singleton. done.
Qed.

Lemma inv_start s evt t (persisted : bool) :
  stream_inv s ->
  stream_inv {| sy_runs := sy_runs s; sy_log := sy_log s; sy_broker := sy_broker s;
                sy_pubs := sy_pubs s ++ [{| pb_event := evt; pb_createdAt := t;
                                            pb_stage := if persisted then ToPersist else ToSnapshot "" |}];
                sy_conns := sy_conns s |}.
Proof.
  intros [Hb Hlen Hlog Hruns Hpub Hdist Hrest Hconn Hpend Hcov].
  set (p0 := {| pb_event := evt; pb_createdAt := t; pb_stage := _ |}).
  assert (forall j q, (sy_pubs s ++ [p0]) !! j = Some q -> sy_pubs s !! j = Some q \/ q = p0) as Hcase.
  { intros j q [H|[_ H]]%lookup_app_Some; [by left|]. apply list_lookup_singleton_Some in H as [_ <-]. by right. }
  assert (forall id, stage_id (pb_stage p0) = Some id -> id = "") as Hid by (intros id; cbn; destruct persisted; by intros [= <-]).
  assert (forall k id, pending k id (pb_stage p0) -> id = "") as Hpid.
  { intros k id [H|(rest & H & _)]; cbn in H; destruct persisted; by simplify_eq. }
  split; cbn [sy_runs sy_log sy_broker sy_pubs sy_conns]; try done.
  - intros j q id [Hj| ->]%Hcase Hs Hn; [by eapply Hpub|]. by apply Hid in Hs.
  - intros j1 j2 q1 q2 id H1 H2 Hs1 Hs2 Hn.
    apply Hcase in H1 as H1'. apply Hcase in H2 as H2'.
    destruct H1' as [H1'| ->]; [|by apply Hid in Hs1]. destruct H2' as [H2'| ->]; [|by apply Hid in Hs2]. by eapply Hdist.
  - intros j q id rest [Hj| ->]%Hcase Hs; [by eapply Hrest|]. cbn in Hs. by destruct persisted.
  - intros j q k c cl [Hj| ->]%Hcase Hc Hcl; [by eapply Hpend|]. intros id Hn Hp. by apply Hpid in Hp.
  - intros j q k c cl [Hj| ->]%Hcase Hc Hcl; [by eapply Hcov|]. intros id Hs Hn. by apply Hid in Hs.
Qed.

Lemma inv_connect s sid cursor :
  stream_inv s ->
  stream_inv {| sy_runs := sy_runs s; sy_log := sy_log s; sy_broker := (Register (sy_broker s) sid).1; sy_pubs := sy_pubs s;
                sy_conns := sy_conns s ++ [{| cn_session := sid; cn_cursor := cursor; cn_phase := Opening; cn_replayed := ∅;
                                              cn_out := [OutConnected sid]; cn_base := sy_log s; cn_replay := [] |}] |}.
Proof.
  intros [Hb Hlen Hlog Hruns Hpub Hdist Hrest Hconn Hpend Hcov].
  destruct (Register_inv (sy_broker s) sid Hb) as [Hb' Hheap].
  set (c0 := {| cn_session := sid; cn_cursor := _; cn_phase := _; cn_replayed := _; cn_out := _; cn_base := _; cn_replay := _ |}).
  assert (forall k c cl, (sy_conns s ++ [c0]) !! k = Some c -> br_heap (Register (sy_broker s) sid).1 !! k = Some cl ->
    (sy_conns s !! k = Some c /\ br_heap (sy_broker s) !! k = Some cl) \/ (c = c0 /\ cl = new_client sid)) as Hcase.
  { rewrite Hheap. intros k c cl [H1|[Hl1 H1]]%lookup_app_Some [H2|[Hl2 H2]]%lookup_app_Some.
    - by left.
    - apply lookup_lt_Some in H1. lia.
    - apply lookup_lt_Some in H2. lia.
    - apply list_lookup_singleton_Some in H1 as [_ <-], H2 as [_ <-]. by right. }
  split; cbn [sy_runs sy_log sy_broker sy_pubs sy_conns]; try done.
  - rewrite Hheap, !length_app. cbn. lia.
  - intros k c cl Hc Hcl. destruct (Hcase k c cl Hc Hcl) as [[H1 H2]|[-> ->]]; [by eapply Hconn|].
    split; cbn; try done; try constructor; try set_solver.
  - intros i p k c cl Hi Hc Hcl. destruct (Hcase k c cl Hc Hcl) as [[H1 H2]|[-> ->]]; [by eapply Hpend|].
    intros id _ _. cbn. split; [apply not_elem_of_nil|by intros H%elem_of_nil].
  - intros i p k c cl Hi Hc Hcl. destruct (Hcase k c cl Hc Hcl) as [[H1 H2]|[-> ->]]; [by eapply Hcov|].
    intros id Hs Hn _ _ Hbase. destruct Hbase. by eapply Hpub.
Qed.

Lemma replayed_ids sid messages :
  NoDup (ids_of messages) -> "" ∉ ids_of messages ->
  NoDup (out_ids (omap (replay_message sid) messages))
  /\ forall id, id ∈ out_ids (omap (replay_message sid) messages) -> id ∈ ids_of messages.
Proof.
  unfold ids_of. induction messages as [|m messages IH]; cbn; [split; [constructor|done]|].
  intros [Hn Hnd]%NoDup_cons He. destruct IH as [IH1 IH2]; [done|set_solver|].
  destruct (replay_message sid m) as [o|] eqn:Ho; cbn.
  - assert (exists d, o = OutEvent (rm_ID m) d) as [d ->].
    { unfold replay_message in Ho. destruct (runMessageToRuntimeEvent sid m) as [e|]; [|done]. cbn in Ho.
      destruct (event_text e); [|done]. cbn in Ho. injection Ho as <-. eauto. }
    cbn. destruct (String.eqb_spec (rm_ID m) "") as [E|_]; [set_solver|]. cbn. split.
    + constructor; [|done]. intros H%IH2. done.
    + intros id [->|H]%elem_of_cons; [by left|right; auto].
  - split; [done|]. intros id H. right. auto.
Qed.

Lemma replay_suffix messages cursor replay :
  sessionReplayMessages messages cursor = Some replay -> exists l m, messages = l ++ m :: replay /\ rm_ID m = cursor.
Proof.
  induction messages as [|m messages IH]; cbn; destruct (cursor =? ""); try done.
  destruct (String.eqb_spec (rm_ID m) cursor) as [E|_].
  - intros [= <-]. by exists [], m.
  - intros H. destruct (IH H) as (l & m' & -> & He). by exists (m :: l), m'.
Qed.

Lemma inv_replay s k c loaded :
  stream_inv s -> sy_conns s !! k = Some c -> cn_phase c = Opening ->
  (loaded = None \/ loaded = collectSessionMessages (sy_log s) (session_runs s (cn_session c)) (cn_session c)) ->
  stream_inv (set_conn s k (replayed_conn s c loaded)).
Proof.
  intros Hinv Hc Hph Hload. destruct (conn_client s k c Hinv Hc) as [cl Hcl].
  pose proof (sv_conn s Hinv k c cl Hc Hcl) as [H1 H2 H3 H4 H5 H6 H7 H8 H9]. destruct (H6 Hph) as [Hout Hrep].
  destruct (sv_log s Hinv) as [Hlog Hempty].
  assert (exists outs replayed, replaySessionMessages (cn_session c) (cn_cursor c) loaded = (outs, replayed)
    /\ NoDup (out_ids outs) /\ (forall id, id ∈ replayed <-> id ∈ out_ids outs) /\ (forall id, id ∈ out_ids outs -> id ∈ ids_of (sy_log s)))
    as (outs & replayed & Hrs & Hnd & Hset & Hin).
  { unfold replaySessionMessages. destruct (cn_cursor c =? ""); [do 2 eexists; split; [done|]; cbn; split; [constructor|]; set_solver|].
    destruct loaded as [messages|]; [|do 2 eexists; split; [done|]; cbn; split; [constructor|]; set_solver].
    destruct (sessionReplayMessages messages (cn_cursor c)) as [replay|] eqn:Hr;
      [|do 2 eexists; split; [done|]; cbn; split; [constructor|]; set_solver].
    destruct Hload as [|Hload]; [done|]. symmetry in Hload.
    assert (NoDup (session_runs s (cn_session c))) as Hrn.
    { pose proof (sv_runs s Hinv) as Hr'. unfold session_runs. clear -Hr'. induction (sy_runs s) as [|r l IH]; cbn; [constructor|].
      apply NoDup_cons in Hr' as [Hn Hnd]. destruct (_ =? _)%string; [|by apply IH]. cbn. constructor; [|by apply IH].
      intros (r' & Heq & Hr')%list_elem_of_fmap. apply Hn. rewrite Heq. apply list_elem_of_fmap. exists r'. split; [done|].
      apply list_elem_of_In, filter_In in Hr' as [Hr' _]. by apply list_elem_of_In. }
    destruct (collect_ids _ _ _ _ Hlog Hrn Hload) as [Hmnd Hmin].
    destruct (replay_suffix _ _ _ Hr) as (l & m & Hm & _).
    assert (NoDup (ids_of replay) /\ forall id, id ∈ ids_of replay -> id ∈ ids_of (sy_log s)) as [Hrnd Hrin].
    { rewrite Hm in Hmnd. unfold ids_of in *. rewrite map_app in Hmnd. cbn in Hmnd. apply NoDup_app in Hmnd as (_ & _ & Hmnd).
      apply NoDup_cons in Hmnd as [_ Hmnd]. split; [done|]. intros id (m' & -> & Hm')%list_elem_of_fmap.
      apply list_elem_of_fmap. exists m'. split; [done|]. apply Hmin. rewrite Hm. apply elem_of_app; right. by right. }
    destruct (replayed_ids (cn_session c) replay Hrnd) as [Ho1 Ho2]; [intros H; by apply Hempty, Hrin|].
    do 2 eexists. split; [done|]. split; [done|]. split; [|by eauto]. intros id. by rewrite elem_of_list_to_set. }
  pose proof (local_inv s k c cl (replayed_conn s c loaded) cl Hinv Hc Hcl eq_refl eq_refl) as HL.
  rewrite (set_client_same _ k cl Hcl), set_broker_same in HL.
  assert (cn_out (replayed_conn s c loaded) = cn_out c ++ outs) as E1 by (unfold replayed_conn; by rewrite Hrs).
  assert (cn_replayed (replayed_conn s c loaded) = replayed) as E2 by (unfold replayed_conn; by rewrite Hrs).
  assert (cn_phase (replayed_conn s c loaded) = Live) as E3 by (unfold replayed_conn; by rewrite Hrs).
  assert (cn_session (replayed_conn s c loaded) = cn_session c) as E4 by (unfold replayed_conn; by rewrite Hrs).
  assert (out_ids (cn_out (replayed_conn s c loaded)) = out_ids outs) as E5 by (by rewrite E1, out_ids_app, Hout).
  apply HL.
  - split; rewrite ?E5, ?E2, ?E3, ?E4; try done.
    + intros id _ H. by apply Hset.
    + intros id. apply Hset.
    + intros id [H|H]; [apply H5; by left|by apply Hin].
    + intros m o Hm Hr. rewrite E1. apply elem_of_app; right. clear -Hm Hr Hrs. unfold replayed_conn in Hm. rewrite Hrs in Hm. cbn in Hm.
      destruct loaded as [messages|]; [|by apply elem_of_nil in Hm].
      destruct (sessionReplayMessages messages (cn_cursor c)) as [replay|] eqn:Hrep; [|by apply elem_of_nil in Hm].
      unfold replaySessionMessages in Hrs. rewrite Hrep in Hrs. destruct (cn_cursor c =? "") eqn:He.
      * by destruct messages; cbn in Hrep; rewrite He in Hrep.
      * injection Hrs as <- _. apply list_elem_of_omap. by exists m.
  - intros i p Hi id Hn Hp. rewrite E5, E2. split; [by apply (sv_pending s Hinv i p k c cl Hi Hc Hcl id Hn Hp)|apply Hset].
  - intros i p Hi id Hs Hn Hses Hd Hbase. rewrite E4 in Hses.
    assert (id ∈ ids_of (sy_log s)) as Hl by (by eapply (sv_pub s Hinv)).
    assert (cn_base (replayed_conn s c loaded) = sy_log s \/ cn_base (replayed_conn s c loaded) = cn_base c) as [E|E].
    { unfold replayed_conn. rewrite Hrs. cbn. destruct loaded as [ms|]; [|by right]. destruct (sessionReplayMessages _ _); [by left|by right]. }
    + by rewrite E in Hbase.
    + rewrite E in Hbase. destruct (sv_cover s Hinv i p k c cl Hi Hc Hcl id Hs Hn Hses Hd Hbase) as [H|[H|[H|H]]]; [by left| |by rewrite Hout in H; apply elem_of_nil in H|by right; right; right].
      right; left. done.
Qed.

Lemma msg_ids_cons msg rest : msg_ids (msg :: rest) = (if sm_id msg =? "" then [] else [sm_id msg]) ++ msg_ids rest.
Proof. done. Qed.

Lemma Unregister_pop b k cl rest :
  br_heap b !! k = Some cl -> exists cl', br_heap (Unregister b k) !! k = Some cl'
    /\ Unregister (set_client b k (pop_client cl rest)) k = set_client (Unregister b k) k (pop_client cl' rest).
Proof.
  intros Hcl. assert (k < length (br_heap b)) as Hlt by (by eapply lookup_lt_Some).
  assert (<[k := pop_client cl rest]> (br_heap b) !! k = Some (pop_client cl rest)) as Hin by (by apply list_lookup_insert_eq).
  unfold Unregister. cbn [br_heap set_client]. rewrite Hin, Hcl. cbn [sc_sessionID pop_client br_clients set_client].
  destruct (br_clients b !! sc_sessionID cl) as [m|]; [|exists cl; by split].
  destruct (decide (k ∈ m)); [|exists cl; by split]. unfold close_done. cbn [br_heap set_client]. rewrite Hin, Hcl.
  cbn [sc_done pop_client]. destruct (sc_done cl); [exists cl; by split|]. exists (with_done cl). cbn. split.
  - by apply list_lookup_insert_eq.
  - unfold set_client, set_clients. cbn. by rewrite !list_insert_insert_eq.
Qed.

Lemma inv_end_popped s k c cl msg rest :
  stream_inv s -> sy_conns s !! k = Some c -> br_heap (sy_broker s) !! k = Some cl -> sc_send cl = msg :: rest ->
  stream_inv (end_conn (set_broker s (set_client (sy_broker s) k (pop_client cl rest))) k c []).
Proof.
  intros Hinv Hc Hcl Hq. pose proof (inv_end s k c [] Hinv Hc eq_refl) as Hinv'.
  destruct (Unregister_pop (sy_broker s) k cl rest Hcl) as (cl' & Hcl' & Heq).
  destruct (Unregister_inv (sy_broker s) k cl (sv_broker s Hinv) Hcl) as (_ & [_ Hmore] & Hdone).
  destruct (Hmore k cl' Hcl') as (cl0 & Hcl0 & E1 & E2 & _). rewrite Hcl in Hcl0. injection Hcl0 as <-. specialize (Hdone cl' Hcl').
  assert (sy_conns (end_conn s k c []) !! k = Some (with_phase c Ended [])) as Hc'.
  { cbn. apply list_lookup_insert_eq. by eapply lookup_lt_Some. }
  assert (end_conn (set_broker s (set_client (sy_broker s) k (pop_client cl rest))) k c []
          = set_conn (set_broker (end_conn s k c []) (set_client (sy_broker (end_conn s k c [])) k (pop_client cl' rest))) k (with_phase c Ended [])) as ->.
  { unfold end_conn. cbn. rewrite Heq. unfold set_conn, set_broker. cbn. by rewrite list_insert_insert_eq. }
  pose proof (sv_conn _ Hinv' k _ cl' Hc' Hcl') as [H1 H2 H3 H4 H5 H6 H7 H8 H9]. rewrite E2, Hq, msg_ids_cons in *.
  assert (forall id, id ∈ msg_ids rest -> id ∈ (if sm_id msg =? "" then [] else [sm_id msg]) ++ msg_ids rest) as Hsub.
  { intros id H. by apply elem_of_app; right. }
  apply (local_inv (end_conn s k c []) k (with_phase c Ended []) cl' (with_phase c Ended []) (pop_client cl' rest)); try done.
  - split; cbn [sc_send pop_client sc_done sc_sessionID]; try done.
    + by apply NoDup_app in H1 as (_ & _ & H1).
    + intros id Hid. by apply H3, Hsub.
    + intros id [H|H]; apply H5; [left; by apply Hsub|by right].
  - intros i p Hi id Hn Hp. destruct (sv_pending _ Hinv' i p k _ cl' Hi Hc' Hcl' id Hn Hp) as [Ha Hb]. split; [|done].
    intros H. apply Ha. rewrite E2, msg_ids_cons. by apply Hsub.
  - intros i p Hi id _ _ _ Hd. cbn in Hd. by rewrite Hdone in Hd.
Qed.

Lemma inv_deliver s k c cl msg rest :
  stream_inv s -> sy_conns s !! k = Some c -> cn_phase c = Live -> br_heap (sy_broker s) !! k = Some cl -> sc_send cl = msg :: rest ->
  stream_inv
    (let s := set_broker s (set_client (sy_broker s) k (pop_client cl rest)) in
     match deliverSSEMessage msg (cn_replayed c) with
     | inl None => s
     | inl (Some out) => set_conn s k (with_phase c Live [out])
     | inr _ => end_conn s k c []
     end).
Proof.
  intros Hinv Hc Hph Hcl Hq. cbv zeta. set (s1 := set_broker s _).
  pose proof (sv_conn s Hinv k c cl Hc Hcl) as [H1 H2 H3 H4 H5 H6 H7 H8 H9]. rewrite Hq, msg_ids_cons in *.
  apply NoDup_app in H1 as (_ & Hfresh & Hnd).
  assert (forall id, id ∈ msg_ids rest -> id ∈ msg_ids (sc_send cl)) as Hsub.
  { intros id H. rewrite Hq, msg_ids_cons. by apply elem_of_app; right. }
  assert (forall id, id ∈ msg_ids (sc_send cl) -> id = sm_id msg \/ id ∈ msg_ids rest) as Hsplit.
  { intros id. rewrite Hq, msg_ids_cons. destruct (sm_id msg =? ""); cbn; [by right|]. by intros [|]%elem_of_cons; [left|right]. }
  (* popping a message leaves the invariant, but for the debt of this very message *)
  assert (forall c', cn_session c' = cn_session c -> cn_phase c' = Live -> cn_replayed c' = cn_replayed c -> cn_base c' = cn_base c -> cn_replay c' = cn_replay c ->
    (forall o, o ∈ cn_out c -> o ∈ cn_out c') -> NoDup (out_ids (cn_out c')) -> (forall id, id ∈ out_ids (cn_out c) -> id ∈ out_ids (cn_out c')) ->
    (forall id, id ∈ out_ids (cn_out c') -> id ∈ out_ids (cn_out c) \/ (id = sm_id msg /\ id <> "")) ->
    (sm_id msg <> "" -> sm_id msg ∈ out_ids (cn_out c')) ->
    stream_inv (set_conn s1 k c')) as Hlocal.
  { intros c' E1 E2 E3 E4 E9 Hrep9 Hout Hgrow Hnew Hpaid.
    assert (forall id, id = sm_id msg -> id <> "" -> id ∉ msg_ids rest) as Hmsg.
    { intros id -> Hn. apply Hfresh. apply String.eqb_neq in Hn as ->. by apply list_elem_of_singleton. }
    assert (forall id, id = sm_id msg -> id <> "" -> id ∈ msg_ids (sc_send cl)) as Hmsgq.
    { intros id -> Hn. rewrite Hq, msg_ids_cons. apply String.eqb_neq in Hn as ->. by left. }
    apply (local_inv s k c cl c' (pop_client cl rest)); try done.
    - split; cbn; rewrite ?E1, ?E2, ?E3; try done.
      + intros id Hid [Ho|[He Hn]]%Hnew; [apply H3; [|done]; apply elem_of_app; by right|]. by destruct (Hmsg id He Hn).
      + intros id Hid. apply Hgrow, H4, Hid.
      + intros id [H|[H|[He Hn]]%Hnew]; apply H5; [left; apply elem_of_app; by right|by right|].
        left. apply elem_of_app; left. rewrite He in Hn |- *. apply String.eqb_neq in Hn as ->. by apply list_elem_of_singleton.
      + rewrite E9. intros m o Hm Hr. apply Hrep9. by eapply ok_replay; [eapply sv_conn| |].
    - intros i p Hi id Hn Hp. destruct (sv_pending s Hinv i p k c cl Hi Hc Hcl id Hn Hp) as [Ha Hb]. cbn. rewrite E3. split.
      + intros H. by apply Ha, Hsub.
      + intros [H|[He Hne]]%Hnew; [by apply Hb|]. by destruct Ha; apply Hmsgq.
    - intros i p Hi id Hs Hn Hses Hd Hbase. rewrite E1 in Hses. rewrite E4 in Hbase. cbn [pop_client sc_done sc_send sc_overflow] in *.
      destruct (sv_cover s Hinv i p k c cl Hi Hc Hcl id Hs Hn Hses Hd Hbase) as [H|[H|[H|H]]];
        [by left| |by right; right; left; apply Hgrow|by right; right; right].
      destruct (Hsplit id H) as [->|H']; [right; right; left; by apply Hpaid|by right; left]. }
  unfold deliverSSEMessage. destruct (String.eqb_spec (sm_id msg) "") as [He|Hne]; cbn [negb andb].
  - destruct (event_text (sm_evt msg)) as [data|].
    + apply Hlocal; try done; cbn; rewrite ?out_ids_app; cbn; rewrite ?He; cbn; rewrite ?app_nil_r; try done; [intros o Ho; by apply elem_of_app; left|by left].
    + apply inv_end; [|done|done]. rewrite <- (set_conn_same s1 k c Hc). apply Hlocal; try done. by left.
  - destruct (decide (sm_id msg ∈ cn_replayed c)) as [Hrep|Hrep].
    + rewrite bool_decide_eq_true_2 by done. rewrite <- (set_conn_same s1 k c Hc). apply Hlocal; try done; [by left|]. intros _. by apply H4.
    + rewrite bool_decide_eq_false_2 by done. apply String.eqb_neq in Hne as Hneb. destruct (event_text (sm_evt msg)) as [data|].
      * assert (out_ids (cn_out (with_phase c Live [OutEvent (sm_id msg) data])) = out_ids (cn_out c) ++ [sm_id msg]) as Eo.
        { cbn. rewrite out_ids_app. cbn. by rewrite Hneb. }
        apply Hlocal; try done; rewrite ?Eo.
        -- intros o Ho. by apply elem_of_app; left.
        -- apply NoDup_app. split; [done|]. split; [|apply NoDup_singleton]. intros id Hid ->%list_elem_of_singleton.
           apply Hrep, H3; [|done]. by left.
        -- intros id H. by apply elem_of_app; left.
        -- intros id [H|H%list_elem_of_singleton]%elem_of_app; [by left|]. subst id. by right.
        -- intros _. apply elem_of_app; right. by apply list_elem_of_singleton.
      * (* the connection ends: what it owed does not count *)
        by apply (inv_end_popped s k c cl msg rest).
Qed.

Lemma select_send_ids pick cl msg :
  let cl' := select_send pick cl msg in
  sc_sessionID cl' = sc_sessionID cl /\ sc_done cl' = sc_done cl
  /\ (sc_send cl' = sc_send cl \/ sc_send cl' = sc_send cl ++ [msg])
  /\ (sc_overflow cl = true -> sc_overflow cl' = true)
  /\ (sc_done cl = false -> sc_send cl' = sc_send cl ++ [msg] \/ sc_overflow cl' = true).
Proof.
  unfold select_send. destruct (_ <? _)%nat, (sc_done cl) eqn:Hd; cbn; [destruct pick; cbn| | |]; rewrite ?Hd; split_and!; (done || auto).
Qed.

Lemma inv_send s i p id k rest pick :
  stream_inv s -> sy_pubs s !! i = Some p -> pb_stage p = Sending id (k :: rest) ->
  stream_inv (set_pub (set_broker s (send_to pick (sy_broker s) k {| sm_id := id; sm_evt := pb_event p |})) i
                (set_stage p (Sending id rest))).
Proof.
  intros Hinv Hi Hst. destruct Hinv as [Hb Hlen Hlog Hruns Hpub Hdist Hrest Hconn Hpend Hcov].
  set (msg := {| sm_id := id; sm_evt := pb_event p |}).
  pose proof (Hrest i p id (k :: rest) Hi Hst) as [Hkr Hnd]%NoDup_cons.
  assert (forall j q, <[i := set_stage p (Sending id rest)]> (sy_pubs s) !! j = Some q ->
            (j = i /\ q = set_stage p (Sending id rest)) \/ (j <> i /\ sy_pubs s !! j = Some q)) as Hcase.
  { intros j q Hj. destruct (decide (j = i)) as [->|Hji].
    - rewrite list_lookup_insert_eq in Hj by (by eapply lookup_lt_Some). simplify_eq. by left.
    - rewrite list_lookup_insert_ne in Hj by done. by right. }
  assert (forall j q, <[i := set_stage p (Sending id rest)]> (sy_pubs s) !! j = Some q ->
            exists q', sy_pubs s !! j = Some q' /\ stage_id (pb_stage q) = stage_id (pb_stage q')
              /\ pb_event q = pb_event q' /\ (forall k' id', pending k' id' (pb_stage q) -> pending k' id' (pb_stage q'))
              /\ (forall k' id', k' <> k -> pending k' id' (pb_stage q') -> pending k' id' (pb_stage q))) as Hback.
  { intros j q [[-> ->]|[_ H]]%Hcase; [|by exists q]. exists p. rewrite Hst. split_and!; try done.
    - intros k' id' [H|(r & [= <- <-] & Hk)]; [done|]. right. exists (k :: rest). split; [done|by right].
    - intros k' id' Hne [H|(r & [= <- <-] & Hk)]; [done|]. right. exists rest. split; [done|]. by apply elem_of_cons in Hk as [|]. }
  destruct (br_heap (sy_broker s) !! k) as [cl|] eqn:Hcl.
  2: { assert (send_to pick (sy_broker s) k msg = sy_broker s) as -> by (unfold send_to; by rewrite Hcl).
       rewrite set_broker_same. apply stage_inv; rewrite ?Hst; try done.
       - intros k' id' [H|(r & [= <- <-] & Hk)]; [done|]. right. exists (k :: rest). split; [done|by right].
       - intros id' r [= <- <-]. done.
       - intros k' cl' id' Hcl' _ _ [H|(r & [= <- <-] & Hk)]; [done|]. right. exists rest. split; [done|].
         apply elem_of_cons in Hk as [->|]; [by rewrite Hcl in Hcl'|done]. }
  assert (send_to pick (sy_broker s) k msg = set_client (sy_broker s) k (select_send pick cl msg)) as -> by (unfold send_to; by rewrite Hcl).
  destruct (select_send_ids pick cl msg) as (E1 & E2 & E3 & E4 & E5). set (cl' := select_send pick cl msg) in *.
  assert (forall j clj, <[k := cl']> (br_heap (sy_broker s)) !! j = Some clj ->
            (j = k /\ clj = cl') \/ (j <> k /\ br_heap (sy_broker s) !! j = Some clj)) as Hheap.
  { intros j clj Hj. destruct (decide (j = k)) as [->|Hjk].
    - rewrite list_lookup_insert_eq in Hj by (by eapply lookup_lt_Some). simplify_eq. by left.
    - rewrite list_lookup_insert_ne in Hj by done. by right. }
  assert (forall id', id' ∈ msg_ids (sc_send cl) -> id' ∈ msg_ids (sc_send cl')) as Hkeep.
  { intros id' H. destruct E3 as [-> | ->]; [done|]. rewrite msg_ids_app. by apply elem_of_app; left. }
  assert (forall id', id' ∈ msg_ids (sc_send cl') -> id' ∈ msg_ids (sc_send cl) \/ (id' = id /\ id <> "")) as Hnew.
  { intros id'. destruct E3 as [-> | ->]; [by left|]. rewrite msg_ids_app, msg_ids_cons. cbn.
    destruct (String.eqb_spec id "") as [|Hne]; cbn; rewrite ?app_nil_r; [by left|].
    intros [H|H%list_elem_of_singleton]%elem_of_app; [by left|by right]. }
  assert (forall c, sy_conns s !! k = Some c -> id <> "" -> id ∉ msg_ids (sc_send cl) /\ (id ∈ out_ids (cn_out c) -> id ∈ cn_replayed c)) as Hown.
  { intros c Hc Hne. apply (Hpend i p k c cl Hi Hc Hcl id Hne). rewrite Hst. right. exists (k :: rest). split; [done|by left]. }
  split; cbn [sy_runs sy_log sy_broker sy_pubs sy_conns set_pub set_broker]; try done.
  - by eapply set_client_inv.
  - cbn. by rewrite length_insert.
  - intros j q id' Hj Hs. destruct (Hback j q Hj) as (q' & Hq' & Es & _). rewrite Es in Hs. by eapply Hpub.
  - intros j1 j2 q1 q2 id' H1 H2 Hs1 Hs2. destruct (Hback _ _ H1) as (q1' & Hq1 & Es1 & _), (Hback _ _ H2) as (q2' & Hq2 & Es2 & _).
    rewrite Es1 in Hs1. rewrite Es2 in Hs2. by eapply Hdist.
  - intros j q id' r [[-> ->]|[_ Hj]]%Hcase; [by intros [= <- <-]|by eapply Hrest].
  - intros j c clj Hc [[-> ->]|[_ Hj]]%Hheap; [|by eapply Hconn]. destruct (Hconn k c cl Hc Hcl) as [H1 H2 H3 H4 H5 H6 H7 H8 H9].
    split; rewrite ?E1, ?E2; try done.
    + destruct E3 as [-> | ->]; [done|]. rewrite msg_ids_app, msg_ids_cons. cbn. destruct (String.eqb_spec id "") as [|Hne]; cbn.
      * by rewrite app_nil_r.
      * apply NoDup_app. split; [done|]. split; [|apply NoDup_singleton]. intros id' Hin ->%list_elem_of_singleton. by apply (Hown c Hc Hne).
    + intros id' [H|[-> Hne]]%Hnew; [by apply H3|by apply (Hown c Hc Hne)].
    + intros id' [[H|[-> Hne]]%Hnew|H]; [apply H5; by left| |apply H5; by right].
      eapply (Hpub i p); [done|by rewrite Hst|done].
  - intros j q j' c clj Hj Hc Hclj. destruct (Hback j q Hj) as (q' & Hq' & Es & _ & Hp & _). intros id' Hne Hpd.
    apply Hheap in Hclj as [[-> ->]|[_ Hclj]]; [|by apply (Hpend j q' j' c clj Hq' Hc Hclj id' Hne), Hp].
    destruct (Hpend j q' k c cl Hq' Hc Hcl id' Hne (Hp _ _ Hpd)) as [Ha Hb']. split; [|done].
    intros [H|[-> _]]%Hnew; [done|].
    (* the same event is not pending for [k] in another goroutine, nor in this one any more *)
    assert (stage_id (pb_stage q) = Some id) as Hsq by (destruct Hpd as [->|(r & -> & _)]; done).
    assert (j = i) as ->.
    { eapply (Hdist j i q' p id); [done|done|by rewrite <- Es|by rewrite Hst|done]. }
    apply Hcase in Hj as [[_ ->]|[? _]]; [|done]. destruct Hpd as [H|(r & [= <-] & Hk)]; [done|]. done.
  - intros j q j' c clj Hj Hc Hclj. destruct (Hback j q Hj) as (q' & Hq' & Es & Ev & _ & Hp). intros id' Hs Hne Hses Hd Hbase.
    rewrite Es in Hs. rewrite Ev in Hses. apply Hheap in Hclj as [[-> ->]|[Hjk Hclj]].
    + rewrite E2 in Hd. destruct (Hcov j q' k c cl Hq' Hc Hcl id' Hs Hne Hses Hd Hbase) as [H|[H|[H|H]]];
        [|by right; left; apply Hkeep|by right; right; left|by right; right; right; apply E4].
      destruct (decide (j = i)) as [->|Hji].
      * rewrite Hi in Hq'. injection Hq' as <-. rewrite Hst in Hs. cbn in Hs. injection Hs as <-.
        destruct (E5 Hd) as [Eq|Ho]; [|by right; right; right]. right; left. rewrite Eq, msg_ids_app, msg_ids_cons. cbn.
        apply String.eqb_neq in Hne as ->. apply elem_of_app; right. by left.
      * left. apply Hcase in Hj as [[? _]|[_ Hj]]; [done|]. rewrite Hj in Hq'. injection Hq' as <-. done.
    + destruct (Hcov j q' j' c clj Hq' Hc Hclj id' Hs Hne Hses Hd Hbase) as [H|H]; [|by right]. left. by apply Hp.
Qed.

Lemma stream_step_inv encode_error s s' : stream_step encode_error s s' -> stream_inv s -> stream_inv s'.
Proof.
  intros H Hinv. destruct H.
  - by apply inv_run.
  - by apply inv_start.
  - set (m := saveEventToDBSync encode_error (se_RunID (pb_event p)) (se_Event (pb_event p)) uuid (pb_createdAt p)).
    assert (rm_ID m = uuid) as Hid by (unfold m, saveEventToDBSync; by destruct (ev_Data _)).
    unfold persist. fold m. rewrite <- Hid. apply inv_persist; try done; by rewrite Hid.
  - by apply inv_persist_failed.
  - by apply inv_snapshot.
  - by apply inv_send.
  - by apply inv_published.
  - by apply inv_connect.
  - by apply inv_replay.
  - by apply inv_deliver.
  - by apply inv_end.
  - by apply inv_end.
  - by apply inv_close.
Qed.
Lemma reachable_stream_inv encode_error s : reachable_stream encode_error s -> stream_inv s.
Proof.
  intros H. unfold reachable_stream in H. assert (forall a b, rtc (stream_step encode_error) a b -> stream_inv a -> stream_inv b) as Hr.
  { induction 1; eauto using stream_step_inv. }
  exact (Hr _ _ H stream_inv_init).
Qed.

(** * Properties *)


(** what a read of the log returns: a run of at most 5000 messages whole, and of a
    longer one the first 1500 and the last 3500 in their order, each once. *)
Theorem listWindow_spec all :
  NoDup (map rm_ID all) -> StronglySorted Z.le (map rm_CreatedAt all) ->
  listWindow all = if (length all <=? 5000)%nat then all else take 1500 all ++ drop (length all - 3500) all.
Proof.
  intros Hnd Hs. unfold listWindow. change (messageWindowHead + messageWindowTail) with 5000.
  destruct (Nat.leb_spec (length all) 5000) as [|Hlong]; [done|]. unfold mergeMessageWindows, messageWindowHead, messageWindowTail.
  assert (rev (take 3500 (rev all)) = drop (length all - 3500) all) as Htail by (by rewrite firstn_rev, rev_involutive).
  rewrite Htail.
  assert (merge_unseen (list_to_set (map rm_ID (take 1500 all))) (drop (length all - 3500) all) = drop (length all - 3500) all) as ->.
  { assert (forall seen l, NoDup (map rm_ID l) -> (forall m, m ∈ l -> rm_ID m ∉ seen) -> merge_unseen seen l = l) as Hall.
    { clear. intros seen l. revert seen. induction l as [|m l IH]; intros seen Hnd Hseen; [done|]. cbn.
      rewrite decide_False by (apply Hseen; by left). cbn in Hnd. apply NoDup_cons in Hnd as [Hn Hnd]. f_equal. apply IH; [done|].
      intros m' Hm'. assert (rm_ID m' ∉ seen) by (apply Hseen; by right).
      assert (rm_ID m' <> rm_ID m) by (intros E; apply Hn; rewrite <- E; by apply list_elem_of_fmap_2). set_solver. }
    apply Hall.
    - rewrite <- skipn_map. rewrite <- (take_drop (length all - 3500) (map rm_ID all)) in Hnd. by apply NoDup_app in Hnd as (_ & _ & ?).
    - intros m Hm Hin%elem_of_list_to_set. rewrite <- firstn_map in Hin. rewrite <- (take_drop 1500 (map rm_ID all)) in Hnd.
      apply NoDup_app in Hnd as (_ & Hd & _). apply (Hd _ Hin). rewrite skipn_map. apply list_elem_of_fmap_2.
      replace (length all - 3500) with (1500 + (length all - 5000)) in Hm by lia. rewrite <- drop_drop in Hm.
      apply list_elem_of_lookup in Hm as [i Hi]. rewrite lookup_drop in Hi. by eapply list_elem_of_lookup_2. }
  apply sort_created_sorted. rewrite map_app, <- firstn_map, <- skipn_map.
  assert (forall (l : list Z) a b, a <= b -> StronglySorted Z.le l -> StronglySorted Z.le (take a l ++ drop b l)) as Hcut.
  { clear. intros l a b Hab Hs. rewrite <- (take_drop b l) in Hs.
    assert (take a l = take a (take b l)) as -> by (rewrite take_take; f_equal; lia).
    rewrite <- (take_drop a (take b l)) in Hs. rewrite <- app_assoc in Hs. revert Hs. generalize (take a (take b l)), (drop a (take b l)), (drop b l).
    intros x y z. induction x as [|u x IH]; cbn.
    - induction y as [|u y IHy]; cbn; [done|]. intros [Hs _]%StronglySorted_inv. auto.
    - intros [Hs Hall]%StronglySorted_inv. constructor; [auto|]. apply Forall_app in Hall as [H1 H2].
      apply Forall_app in H2 as [_ H3]. apply Forall_app. by split. }
  apply Hcut; [lia|done].
Qed.

Definition no_error (arguments : string) : string := "invalid".
Definition sample_event (content : string) : StreamEvent :=
  {| se_SessionID := "s1"; se_RunID := "r1"; se_Event := event EventAssistantStatus (AssistantStatusData content) |}.
Definition publisher (content : string) (t : time) (st : Stage) : Publisher :=
  {| pb_event := sample_event content; pb_createdAt := t; pb_stage := st |}.
Definition nth_conn (s : System) (k : nat) : Connection :=
  nth k (sy_conns s) {| cn_session := ""; cn_cursor := ""; cn_phase := Ended; cn_replayed := ∅; cn_out := []; cn_base := []; cn_replay := [] |}.
Definition nth_client (s : System) (k : nat) : sseClient := nth k (br_heap (sy_broker s)) (new_client "").

(** Two events of a run: the first is persisted before a client with no cursor connects;
    a second client that knows the first connects while the second event is persisted but
    not broadcast yet, and gets it by replay and again through its queue. *)
Definition stream1 : System := persist no_error (start_publisher (add_run init_system "s1" "r1") (sample_event "one") 1%Z true) 0 (publisher "one" 1%Z ToPersist) "m1".
Definition stream2 : System := connect stream1 "s1" "".
Definition stream3 : System := set_conn stream2 0 (replayed_conn stream2 (nth_conn stream2 0) None).
Definition stream4 : System := persist no_error (start_publisher stream3 (sample_event "two") 2%Z true) 1 (publisher "two" 2%Z ToPersist) "m2".
Definition stream5 : System := connect stream4 "s1" "m1".
Definition stream6 : System :=
  set_conn stream5 1 (replayed_conn stream5 (nth_conn stream5 1) (collectSessionMessages (sy_log stream5) (session_runs stream5 "s1") "s1")).
Definition stream7 : System := set_pub stream6 1 (publisher "two" 2%Z (Sending "m2" [0; 1])).
Definition stream8 : System := send_event stream7 1 (publisher "two" 2%Z (Sending "m2" [0; 1])) "m2" 0 [1] false.
Definition stream9 : System := send_event stream8 1 (publisher "two" 2%Z (Sending "m2" [1])) "m2" 1 [] false.
Definition deliver_first (s : System) (k : nat) : System :=
  match sc_send (nth_client s k) with
  | msg :: rest => deliver s k (nth_conn s k) (nth_client s k) msg rest
  | [] => s
  end.
Definition stream10 : System := deliver_first (deliver_first stream9 0) 1.

Lemma stream10_reachable : reachable_stream no_error stream10.
Proof.
  unfold reachable_stream.
  eapply rtc_r; [|eapply (SDeliver no_error (deliver_first stream9 0) 1); vm_compute; reflexivity].
  eapply rtc_r; [|eapply (SDeliver no_error stream9 0); vm_compute; reflexivity].
  eapply rtc_r; [|apply (SSend no_error stream8 1 (publisher "two" 2%Z (Sending "m2" [1])) "m2" 1 [] false); vm_compute; reflexivity].
  eapply rtc_r; [|apply (SSend no_error stream7 1 (publisher "two" 2%Z (Sending "m2" [0; 1])) "m2" 0 [1] false); vm_compute; reflexivity].
  eapply rtc_r; [|apply (SSnapshot no_error stream6 1 (publisher "two" 2%Z (ToSnapshot "m2")) "m2" [0; 1]);
    [vm_compute; reflexivity..|vm_compute; first [reflexivity | apply perm_swap]]].
  eapply rtc_r; [|apply (SReplay no_error stream5 1 (nth_conn stream5 1)); [vm_compute; reflexivity..|by right]].
  eapply rtc_r; [|apply (SConnect no_error stream4 "s1" "m1")].
  eapply rtc_r; [|apply (SPersist no_error (start_publisher stream3 (sample_event "two") 2%Z true) 1 (publisher "two" 2%Z ToPersist) "m2");
    [vm_compute; reflexivity..|done|by intros H%list_elem_of_singleton]].
  eapply rtc_r; [|apply (SStart no_error stream3 (sample_event "two") 2%Z true)].
  eapply rtc_r; [|apply (SReplay no_error stream2 0 (nth_conn stream2 0) None); [vm_compute; reflexivity..|by left]].
  eapply rtc_r; [|apply (SConnect no_error stream1 "s1" "")].
  eapply rtc_r; [|apply (SPersist no_error (start_publisher (add_run init_system "s1" "r1") (sample_event "one") 1%Z true) 0
                           (publisher "one" 1%Z ToPersist) "m1"); [vm_compute; reflexivity..|done|apply not_elem_of_nil]].
  eapply rtc_r; [|apply (SStart no_error (add_run init_system "s1" "r1") (sample_event "one") 1%Z true)].
  eapply rtc_r; [|apply (SRun no_error init_system "s1" "r1"); apply not_elem_of_nil].
  apply rtc_refl.
Qed.
Example stream10_out : map (fun c => out_ids (cn_out c)) (sy_conns stream10) = [["m2"]; ["m2"]].
Proof. vm_compute. reflexivity. Qed.


Definition log_message (id : string) (t : time) : RunMessage :=
  saveEventToDBSync no_error "r1" (event EventAssistantStatus (AssistantStatusData id)) id t.

Lemma listWindow_spec_witness :
  listWindow [log_message "a" 1%Z; log_message "b" 1%Z; log_message "c" 3%Z] = [log_message "a" 1%Z; log_message "b" 1%Z; log_message "c" 3%Z].
Proof.
  rewrite (listWindow_spec [log_message "a" 1%Z; log_message "b" 1%Z; log_message "c" 3%Z]).
  - vm_compute. reflexivity.
  - repeat first [apply NoDup_cons; split | apply NoDup_nil_2]; vm_compute; intros H;
      repeat (apply elem_of_cons in H as [H|H]; [discriminate H|]); by apply elem_of_nil in H.
  - repeat (constructor; cbn; try lia).
Defined.

(** * What the stream does not guarantee *)

(** The log is read by the time an event was stamped, which is taken before the event is
    queued for writing.  A client whose cursor is the later of two events never gets the
    earlier one by replay, although it was written after. *)
Lemma late_event_is_skipped encode_error run ev1 ev2 t :
  let late := saveEventToDBSync encode_error run ev1 "late" t in
  let cursor := saveEventToDBSync encode_error run ev2 "cursor" (t + 1)%Z in
  sessionReplayMessages (sort_created [cursor; late]) "cursor" = Some [].
Proof.
  intros late cursor. cbn [sort_created insert_created]. assert (rm_CreatedAt late = t /\ rm_CreatedAt cursor = (t + 1)%Z) as [Hl Hc].
  { unfold late, cursor, saveEventToDBSync. destruct (ev_Data ev1), (ev_Data ev2); done. }
  assert (rm_ID late = "late" /\ rm_ID cursor = "cursor") as [Il Ic].
  { unfold late, cursor, saveEventToDBSync. destruct (ev_Data ev1), (ev_Data ev2); done. }
  clearbody late cursor. unfold sort_created. cbn. rewrite ?Hl, ?Hc.
  unfold Before. rewrite (proj2 (Z.ltb_lt t (t + 1)) ltac:(lia)). cbn. by rewrite Il, Ic.
Qed.

(** A tool call whose arguments are not JSON ends every live connection of the session. *)
Lemma malformed_call_ends_stream sid run id name arguments replayed :
  json_compact arguments = None ->
  deliverSSEMessage {| sm_id := ""; sm_evt := {| se_SessionID := sid; se_RunID := run;
    se_Event := event EventToolCall (ToolCallData id name arguments) |} |} replayed = inr tt.
Proof.
  intros H. assert (data_text (ToolCallData id name arguments) = None) as Hd by (unfold data_text; by rewrite H).
  unfold deliverSSEMessage, event_text. cbn [sm_id sm_evt se_Event event ev_Data]. by rewrite Hd.
Qed.

(** When the log cannot be read the client is not told that its cursor was not served. *)
Lemma failed_replay_is_silent sid cursor : replaySessionMessages sid cursor None = ([], ∅).
Proof. unfold replaySessionMessages. by destruct (cursor =? ""). Qed.
