(* ===== verification/Providers.v ===== *)
(** The model client ([agent/llm.go], [agent/llm_google.go], [agent/clean_schema.go]):
    the requests built from a prompt bundle for the four wire protocols, the reading of
    the answers and the retries.

    The HTTP transport, the Anthropic library and [net/url] are arguments; a request is
    the value that is serialized.  The debug log is not modelled. *)
From S2P Require Import Prelude GoStrings Json JsonRoundtrip Conversation Jobs Tools Receipts Compaction HistoryRebuild.
From Stdlib Require Import Ascii.
Open Scope string_scope.
Open Scope list_scope.

(** * Configuration and errors *)

Record LLMConfig := {
  cf_Provider : string; cf_Model : string; cf_APIProtocol : string; cf_APIEndpoint : string; cf_APIKey : string;
  cf_ReasoningEffort : string; cf_TextVerbosity : string; cf_MaxTokens : Z; cf_RetryBudgetSec : Z
}.

(** What [errors.Is] and [errors.As] find in a transport error: a cancelled or expired
    context, a [net.Error] with its [Timeout] and [Temporary], and the listed sentinels
    (end of file, connection refused, reset or aborted, broken pipe). *)
Record TransportError := {
  te_context : bool; te_net : option (bool * bool); te_sentinel : bool
}.
Inductive LLMError :=
| EPrompt (e : PromptError)
| EPlain (message : string)                      (* wraps nothing that can be classified *)
| ETransport (e : TransportError)
| EStatus (code : Z) (body : string)             (* [httpStatusError] *)
| EStatusUnread (code : Z) (body : string) (read : TransportError)
| EAnthropicRequest (code : Z)
| EAnthropicAPI (rate_limit api overloaded : bool).
(** How [ChatWithTools] fails: before or at a call, out of time, or after its retries. *)
Inductive ChatError := ChatFailed (e : LLMError) | ChatBudget | ChatExhausted (last : LLMError).

Definition status_Retryable (code : Z) : bool :=
  (code =? 408)%Z || (code =? 409)%Z || (code =? 425)%Z || (code =? 429)%Z || (500 <=? code)%Z.
Definition transport_transient (e : TransportError) : bool :=
  if te_context e then false
  else match te_net e with Some (timeout, temporary) => timeout || temporary | None => false end || te_sentinel e.
Definition isTransientTransportError (e : LLMError) : bool :=
  match e with
  | EStatus code _ => status_Retryable code
  | EStatusUnread code _ read => if te_context read then false else status_Retryable code
  | ETransport e => transport_transient e
  | _ => false
  end.
Definition isRetryableLLMError (e : LLMError) : bool :=
  match e with
  | EAnthropicRequest code => status_Retryable code
  | EAnthropicAPI rate_limit api overloaded => rate_limit || api || overloaded
  | _ => isTransientTransportError e
  end.

(** * Parts of a request *)

(** [base64.StdEncoding] *)
Definition std_char (n : Z) : ascii :=
  nth (Z.to_nat n) (String.list_ascii_of_string "ABCDEFGHIJKLMNOPQRSTUVWXYZabcdefghijklmnopqrstuvwxyz0123456789+/") "A"%char.
Fixpoint std_base64 (l : list ascii) : list ascii :=
  match l with
  | a :: b :: c :: l =>
      let n := (byteZ a * 65536 + byteZ b * 256 + byteZ c)%Z in
      std_char (n / 262144) :: std_char (n / 4096 mod 64) :: std_char (n / 64 mod 64) :: std_char (n mod 64) :: std_base64 l
  | [a; b] =>
      let n := (byteZ a * 65536 + byteZ b * 256)%Z in
      [std_char (n / 262144); std_char (n / 4096 mod 64); std_char (n / 64 mod 64); "="%char]
  | [a] => let n := (byteZ a * 65536)%Z in [std_char (n / 262144); std_char (n / 4096 mod 64); "="%char; "="%char]
  | [] => []
  end.
Definition base64_text (s : string) : string := str_text (std_base64 (String.list_ascii_of_string s)).
Definition imageDataURI (part : MessagePart) : string :=
  String.concat "" ["data:"; mp_MIME part; ";base64,"; base64_text (mp_Data part)].

Definition NL1 : string := String "010"%char "".
Definition delegate_constraints (policy appendix : string) : string :=
  if appendix =? "" then policy
  else String.concat "" [policy; NL1; NL1; "## Delegate Additional Constraints"; NL1; appendix].
(** [buildChatSystemPrompt], [buildAnthropicSystemPrompt] *)
Definition buildChatSystemPrompt (bundle : PromptBundle) : string :=
  delegate_constraints (pb_Policy bundle) (pb_PolicyAppendix bundle).
(** The transport role is always the user. *)
Definition context_text (block : RuntimeContextBlock) : string :=
  String.concat "" ["[runtime_context role="; LLMRoleUser; " name="; rc_Name block; "]"; NL1; rc_Content block].

(** * Chat Completions *)

Record chatCompletionMessage := {
  cm_Role : string; cm_Content : string; cm_ReasoningContent : string; cm_ToolCalls : list LLMToolCall;
  cm_ToolCallID : string; cm_Parts : list MessagePart
}.
Record chatCompletionsRequest := {
  cr_Model : string; cr_Messages : list chatCompletionMessage; cr_Tools : list ToolSpec; cr_ToolChoice : string;
  cr_ReasoningEffort : string; cr_MaxTokens : Z
}.
Definition plain_message (role content : string) (parts : list MessagePart) : chatCompletionMessage :=
  {| cm_Role := role; cm_Content := content; cm_ReasoningContent := ""; cm_ToolCalls := []; cm_ToolCallID := "";
     cm_Parts := parts |}.
(** A call on the wire: its type is always a function, and it has no thought signature. *)
Definition wire_call (tc : LLMToolCall) : LLMToolCall :=
  {| tc_ID := tc_ID tc; tc_Type := LLMToolTypeFunction;
     tc_Function := {| fc_Name := fc_Name (tc_Function tc); fc_Arguments := fc_Arguments (tc_Function tc); fc_ThoughtSignature := "" |} |}.
Definition chat_message (msg : ConversationItem) : list chatCompletionMessage :=
  if ci_Role msg =? LLMRoleUser then [plain_message LLMRoleUser (ci_Content msg) (ci_Parts msg)]
  else if ci_Role msg =? LLMRoleAssistant then
    if negb (blank (ci_Content msg)) || (0 <? length (ci_ToolCalls msg))%nat then
      [{| cm_Role := LLMRoleAssistant; cm_Content := ci_Content msg; cm_ReasoningContent := ci_ReasoningContent msg;
          cm_ToolCalls := map wire_call (ci_ToolCalls msg); cm_ToolCallID := ""; cm_Parts := [] |}]
    else []
  else if ci_Role msg =? LLMRoleTool then
    [{| cm_Role := LLMRoleTool; cm_Content := ci_Content msg; cm_ReasoningContent := ""; cm_ToolCalls := [];
        cm_ToolCallID := ci_ToolCallID msg; cm_Parts := [] |}]
  else [].
Definition task_item {A} (task : string) (item : string -> A) : list A := if task =? "" then [] else [item task].
Definition chat_messages (bundle : PromptBundle) : list chatCompletionMessage :=
  (if buildChatSystemPrompt bundle =? "" then [] else [plain_message LLMRoleSystem (buildChatSystemPrompt bundle) []])
  ++ map (fun block => plain_message LLMRoleUser (context_text block) (rc_Parts block)) (pb_RuntimeContext bundle)
  ++ flat_map chat_message (pb_History bundle)
  ++ task_item (pb_Task bundle) (fun task => plain_message LLMRoleUser task []).
Definition tool_choice (specs : list ToolSpec) : string := if (0 <? length specs)%nat then "auto" else "".
Definition buildChatCompletionsRequest (cfg : LLMConfig) (bundle : PromptBundle) (specs : list ToolSpec) : chatCompletionsRequest :=
  {| cr_Model := cf_Model cfg; cr_Messages := chat_messages bundle; cr_Tools := specs; cr_ToolChoice := tool_choice specs;
     cr_ReasoningEffort := cf_ReasoningEffort cfg; cr_MaxTokens := if (0 <? cf_MaxTokens cfg)%Z then cf_MaxTokens cfg else 0%Z |}.

(** [MarshalJSON]: the array form of the content only when parts travel with it. *)
Definition encode_call (tc : LLMToolCall) : jval :=
  JObj [("id", JStr (tc_ID tc)); ("type", JStr (tc_Type tc));
        ("function", JObj [("name", JStr (fc_Name (tc_Function tc))); ("arguments", JStr (fc_Arguments (tc_Function tc)))])].
Definition encode_calls (calls : list LLMToolCall) : list (string * jval) :=
  if (length calls =? 0)%nat then [] else [("tool_calls", JArr (map encode_call calls))].
Definition content_part (part : MessagePart) : jval :=
  if mp_Kind part =? MessagePartImage
  then JObj [("type", JStr "image_url"); ("image_url", JObj [("url", JStr (imageDataURI part))])]
  else JObj (("type", JStr "text") :: opt_str "text" (mp_Text part)).
Definition message_MarshalJSON (m : chatCompletionMessage) : jval :=
  let content :=
    if (length (cm_Parts m) =? 0)%nat then opt_str "content" (cm_Content m)
    else [("content", JArr (map content_part (payloadParts (cm_Content m) (cm_Parts m))))] in
  JObj (("role", JStr (cm_Role m)) :: content ++ opt_str "reasoning_content" (cm_ReasoningContent m)
        ++ encode_calls (cm_ToolCalls m) ++ opt_str "tool_call_id" (cm_ToolCallID m)).

(** * Responses *)

Inductive responsesInput :=
| InMessage (role text : string) (parts : list MessagePart)
| InCall (call_id name arguments : string)
| InOutput (call_id output : string).
Record responsesAPIRequest := {
  rr_Model : string; rr_Instructions : string; rr_Input : list responsesInput; rr_Tools : list ToolSpec;
  rr_ToolChoice : string; rr_Reasoning : string; rr_Text : string
}.
Definition responses_item (msg : ConversationItem) : list responsesInput :=
  if ci_Role msg =? LLMRoleUser then [InMessage "user" (ci_Content msg) (ci_Parts msg)]
  else if ci_Role msg =? LLMRoleAssistant then
    (if blank (ci_Content msg) then [] else [InMessage "assistant" (ci_Content msg) []])
    ++ map (fun tc => InCall (tc_ID tc) (fc_Name (tc_Function tc)) (fc_Arguments (tc_Function tc))) (ci_ToolCalls msg)
  else if ci_Role msg =? LLMRoleTool then [InOutput (ci_ToolCallID msg) (ci_Content msg)]
  else [].
Definition buildResponsesRequest (cfg : LLMConfig) (bundle : PromptBundle) (specs : list ToolSpec) : responsesAPIRequest :=
  {| rr_Model := cf_Model cfg;
     rr_Instructions := if pb_Policy bundle =? "" then "" else delegate_constraints (pb_Policy bundle) (pb_PolicyAppendix bundle);
     rr_Input := map (fun block => InMessage "user" (context_text block) (rc_Parts block)) (pb_RuntimeContext bundle)
                 ++ flat_map responses_item (pb_History bundle)
                 ++ task_item (pb_Task bundle) (fun task => InMessage "user" task []);
     rr_Tools := specs; rr_ToolChoice := tool_choice specs; rr_Reasoning := cf_ReasoningEffort cfg; rr_Text := cf_TextVerbosity cfg |}.
(** [responsesContent] *)
Definition responsesContent (text : string) (parts : list MessagePart) : jval :=
  if (length parts =? 0)%nat then JStr text
  else JArr (map (fun part =>
    if mp_Kind part =? MessagePartImage
    then JObj [("image_url", JStr (imageDataURI part)); ("type", JStr "input_image")]
    else JObj [("text", JStr (mp_Text part)); ("type", JStr "input_text")]) (payloadParts text parts)).

(** * Anthropic *)

Inductive AnthropicContent :=
| ACText (text : string)
| ACImage (mime data : string)
| ACToolUse (id name input : string)
| ACToolResult (id content : string).
Record AnthropicMessage := { am_Role : string; am_Content : list AnthropicContent }.
Definition anthropicParts (text : string) (parts : list MessagePart) : list AnthropicContent :=
  map (fun part => if mp_Kind part =? MessagePartImage then ACImage (mp_MIME part) (base64_text (mp_Data part)) else ACText (mp_Text part))
    (payloadParts text parts).
(** [flushUserContent] *)
Definition flush_user (current : list AnthropicContent) : list AnthropicMessage :=
  if (0 <? length current)%nat then [{| am_Role := "user"; am_Content := current |}] else [].
Definition assistant_content (msg : ConversationItem) : list AnthropicContent :=
  (if ci_Content msg =? "" then [] else [ACText (ci_Content msg)])
  ++ map (fun tc => ACToolUse (tc_ID tc) (fc_Name (tc_Function tc)) (fc_Arguments (tc_Function tc))) (ci_ToolCalls msg).
(** The loop over the history: the messages so far and the user content that is
    gathered; and what follows it. *)
Fixpoint anthropic_loop (current : list AnthropicContent) (history : list ConversationItem) (task : string) : list AnthropicMessage :=
  match history with
  | [] => flush_user (current ++ task_item task ACText)
  | msg :: history =>
      if ci_Role msg =? LLMRoleUser then anthropic_loop (current ++ anthropicParts (ci_Content msg) (ci_Parts msg)) history task
      else if ci_Role msg =? LLMRoleAssistant then
        flush_user current
        ++ (if (0 <? length (assistant_content msg))%nat then [{| am_Role := "assistant"; am_Content := assistant_content msg |}] else [])
        ++ anthropic_loop [] history task
      else if ci_Role msg =? LLMRoleTool then anthropic_loop (current ++ [ACToolResult (ci_ToolCallID msg) (ci_Content msg)]) history task
      else anthropic_loop current history task
  end.
Definition buildAnthropicMessages (bundle : PromptBundle) : list AnthropicMessage :=
  anthropic_loop (flat_map (fun block => anthropicParts (context_text block) (rc_Parts block)) (pb_RuntimeContext bundle))
    (pb_History bundle) (pb_Task bundle).
Record AnthropicRequest := {
  ar_Model : string; ar_MaxTokens : Z; ar_Messages : list AnthropicMessage; ar_System : string; ar_Tools : list ToolSpec
}.
Definition anthropic_request (cfg : LLMConfig) (bundle : PromptBundle) (specs : list ToolSpec) : AnthropicRequest :=
  {| ar_Model := cf_Model cfg; ar_MaxTokens := 8192; ar_Messages := buildAnthropicMessages bundle;
     ar_System := buildChatSystemPrompt bundle; ar_Tools := specs |}.

(** * Google *)

Inductive geminiPart :=
| GText (text : string)
| GInline (mime data : string)
| GCall (name : string) (args : option (list (string * jval))) (signature : string)
| GResponse (name : string) (response : option (list (string * jval))).
Record geminiContent := { gc_Role : string; gc_Parts : list geminiPart }.
Definition geminiParts (text : string) (parts : list MessagePart) : list geminiPart :=
  map (fun part => if mp_Kind part =? MessagePartImage then GInline (mp_MIME part) (base64_text (mp_Data part)) else GText (mp_Text part))
    (payloadParts text parts).

(** [jsoncontract.Decode] into a map; null is the nil map. *)
Definition decode_object (raw : string) : option (option (list (string * jval))) :=
  let! v := Decode raw in
  match v with JObj kvs => Some (Some kvs) | JNull => Some None | _ => None end.
(** The arguments of a replayed call: an empty object when they are malformed. *)
Definition replay_args (arguments : string) : option (list (string * jval)) := default (Some []) (decode_object arguments).
Definition google_assistant (h : ConversationItem) : geminiContent :=
  {| gc_Role := "model";
     gc_Parts := (if blank (ci_Content h) then [] else [GText (ci_Content h)])
       ++ map (fun tc => GCall (fc_Name (tc_Function tc)) (replay_args (fc_Arguments (tc_Function tc)))
                               (fc_ThoughtSignature (tc_Function tc))) (ci_ToolCalls h) |}.
Definition record_names (names : gmap string string) (calls : list LLMToolCall) : gmap string string :=
  foldl (fun m tc => <[tc_ID tc := fc_Name (tc_Function tc)]> m) names calls.
Definition google_result (names : gmap string string) (h : ConversationItem) : res LLMError geminiContent :=
  match decode_object (ci_Content h) with
  | None => Err (EPlain "tool result is not a JSON object")
  | Some response =>
      guard negb (not_exact (ci_ToolCallName h)) else EPlain "tool result has a padded tool name" ;;
      let name := if ci_ToolCallName h =? "" then default "" (names !! ci_ToolCallID h) else ci_ToolCallName h in
      guard negb (name =? "") else EPlain "cannot match tool result to a tool name" ;;
      Ok {| gc_Role := "user"; gc_Parts := [GResponse name response] |}
  end.
Fixpoint google_history (names : gmap string string) (history : list ConversationItem) : res LLMError (list geminiContent) :=
  match history with
  | [] => Ok []
  | h :: history =>
      if ci_Role h =? LLMRoleUser then
        let? rest := google_history names history in
        Ok ({| gc_Role := "user"; gc_Parts := geminiParts (ci_Content h) (ci_Parts h) |} :: rest)
      else if ci_Role h =? LLMRoleAssistant then
        let? rest := google_history (record_names names (ci_ToolCalls h)) history in
        Ok (google_assistant h :: rest)
      else if ci_Role h =? LLMRoleTool then
        let? content := google_result names h in
        let? rest := google_history names history in
        Ok (content :: rest)
      else google_history names history
  end.
Definition google_contents (bundle : PromptBundle) : res LLMError (list geminiContent) :=
  let? rest := google_history ∅ (pb_History bundle) in
  Ok (map (fun c => {| gc_Role := "user"; gc_Parts := geminiParts (context_text c) (rc_Parts c) |}) (pb_RuntimeContext bundle)
      ++ rest ++ task_item (pb_Task bundle) (fun task => {| gc_Role := "user"; gc_Parts := [GText task] |})).

(** [cleanMap]; a decoded object has no two members of one name. *)
Fixpoint cleanMap (v : jval) : jval :=
  match v with
  | JObj kvs => JObj (List.filter (fun kv => negb (kv.1 =? "additionalProperties")) (map (fun kv => (kv.1, cleanMap kv.2)) kvs))
  | JArr vs => JArr (map cleanMap vs)
  | _ => v
  end.
Definition StripAdditionalProperties (input : string) : option string :=
  let! obj := Decode input in Some (Marshal (as_maps (cleanMap obj))).
Record geminiRequest := {
  gr_SystemInstruction : string; gr_Contents : list geminiContent; gr_Tools : list (string * string * string)
}.
Definition google_tool (ts : ToolSpec) : res LLMError (string * string * string) :=
  match StripAdditionalProperties (sp_Parameters ts) with
  | None => Err (EPlain "tool schema")
  | Some parameters => Ok (sp_Name ts, sp_Description ts, parameters)
  end.
Fixpoint map_each {A B} (f : A -> res LLMError B) (l : list A) : res LLMError (list B) :=
  match l with [] => Ok [] | a :: l => let? b := f a in let? bs := map_each f l in Ok (b :: bs) end.
Definition google_request (bundle : PromptBundle) (specs : list ToolSpec) : res LLMError geminiRequest :=
  let? contents := google_contents bundle in
  let? tools := map_each google_tool specs in
  Ok {| gr_SystemInstruction := buildChatSystemPrompt bundle; gr_Contents := contents; gr_Tools := tools |}.

(** * Reading an answer *)

(** A value decoded into a struct with [json.Unmarshal]: null is the zero value, unknown
    members are ignored; and into a slice of them. *)
Definition struct_members (fields : list (string * (jval -> bool))) (v : jval) : option (gmap string jval) :=
  match v with JObj kvs => bind_known fields kvs | JNull => Some ∅ | _ => None end.
Definition is_slice {A} (f : jval -> option A) (v : jval) : bool :=
  match v with JArr vs => bool_decide (is_Some (mapM f vs)) | _ => false end.
Definition is_struct {A} (f : jval -> option A) (v : jval) : bool := bool_decide (is_Some (f v)).
Definition slice_field {A} (f : jval -> option A) (m : gmap string jval) (k : string) : list A :=
  match m !! k with Some (JArr vs) => default [] (mapM f vs) | _ => [] end.
Definition struct_field {A} (f : jval -> option A) (zero : A) (m : gmap string jval) (k : string) : A :=
  match m !! k with Some v => default zero (f v) | None => zero end.

Definition read_function (v : jval) : option LLMFunctionCall :=
  let! m := struct_members [("name", is_jstr); ("arguments", is_jstr)] v in
  Some {| fc_Name := string_field m "name"; fc_Arguments := string_field m "arguments"; fc_ThoughtSignature := "" |}.
Definition no_function : LLMFunctionCall := {| fc_Name := ""; fc_Arguments := ""; fc_ThoughtSignature := "" |}.
Definition read_call (v : jval) : option LLMToolCall :=
  let! m := struct_members [("id", is_jstr); ("type", is_jstr); ("function", is_struct read_function)] v in
  Some {| tc_ID := string_field m "id"; tc_Type := string_field m "type"; tc_Function := struct_field read_function no_function m "function" |}.
Definition read_message (v : jval) : option chatCompletionMessage :=
  let! m := struct_members [("role", is_jstr); ("content", is_jstr); ("reasoning_content", is_jstr);
                            ("tool_calls", is_slice read_call); ("tool_call_id", is_jstr)] v in
  Some {| cm_Role := string_field m "role"; cm_Content := string_field m "content"; cm_ReasoningContent := string_field m "reasoning_content";
          cm_ToolCalls := slice_field read_call m "tool_calls"; cm_ToolCallID := string_field m "tool_call_id"; cm_Parts := [] |}.
Record chatCompletionChoice := { cc_Index : Z; cc_Message : chatCompletionMessage; cc_FinishReason : string }.
Definition read_choice (v : jval) : option chatCompletionChoice :=
  let! m := struct_members [("index", is_jint); ("message", is_struct read_message); ("finish_reason", is_jstr)] v in
  Some {| cc_Index := int_field m "index"; cc_Message := struct_field read_message (plain_message "" "" []) m "message";
          cc_FinishReason := string_field m "finish_reason" |}.
Definition read_usage (prompt completion total : string) (v : jval) : option LLMUsage :=
  let! m := struct_members [(prompt, is_jint); (completion, is_jint); (total, is_jint)] v in
  Some {| us_PromptTokens := int_field m prompt; us_CompletionTokens := int_field m completion; us_TotalTokens := int_field m total |}.
Definition no_usage : LLMUsage := {| us_PromptTokens := 0; us_CompletionTokens := 0; us_TotalTokens := 0 |}.
(** The code and the message of a [responsesAPIError]. *)
Definition read_api_error (v : jval) : option (string * string) :=
  let! m := struct_members [("code", is_jstr); ("message", is_jstr); ("type", is_jstr); ("param", is_jstr)] v in
  Some (string_field m "code", string_field m "message").
Definition pointer_field {A} (f : jval -> option A) (m : gmap string jval) (k : string) : option A := let! v := m !! k in f v.

Record chatCompletionsResponse := {
  cp_Choices : list chatCompletionChoice; cp_Usage : LLMUsage; cp_Error : option (string * string)
}.
Definition chat_usage : jval -> option LLMUsage := read_usage "prompt_tokens" "completion_tokens" "total_tokens".
Definition read_chat_response (body : string) : option chatCompletionsResponse :=
  let! v := Validate body in
  let! m := struct_members [("id", is_jstr); ("object", is_jstr); ("created", is_jint); ("model", is_jstr); ("choices", is_slice read_choice);
      ("usage", is_struct chat_usage); ("error", is_struct read_api_error)] v in
  Some {| cp_Choices := slice_field read_choice m "choices"; cp_Usage := struct_field chat_usage no_usage m "usage";
          cp_Error := pointer_field read_api_error m "error" |}.

Definition check_call (tc : LLMToolCall) : res LLMError unit :=
  guard tc_Type tc =? LLMToolTypeFunction else EPlain "unsupported tool call type" ;;
  guard negb (blank (tc_ID tc)) && negb (blank (fc_Name (tc_Function tc))) else EPlain "tool call requires id and function name" ;;
  guard negb (not_exact (tc_ID tc)) && negb (not_exact (fc_Name (tc_Function tc))) else EPlain "identifiers must not be padded" ;;
  Ok tt.
Definition LLMFinishReasonToolCalls : string := "tool_calls".
Definition check_finish (choice : chatCompletionChoice) : res LLMError unit :=
  let calls := length (cm_ToolCalls (cc_Message choice)) in
  if cc_FinishReason choice =? LLMFinishReasonStop then
    if negb (calls =? 0)%nat then Err (EPlain "finish_reason stop conflicts with tool calls") else Ok tt
  else if cc_FinishReason choice =? LLMFinishReasonToolCalls then
    if (calls =? 0)%nat then Err (EPlain "finish_reason tool_calls requires tool calls") else Ok tt
  else
    let hasContent := negb (blank (cm_Content (cc_Message choice))) || negb (blank (cm_ReasoningContent (cc_Message choice))) in
    if (calls =? 0)%nat && negb hasContent then Err (EPlain "unsupported finish_reason and no usable content") else Ok tt.
Definition check_choice (choice : chatCompletionChoice) : res LLMError unit :=
  guard cm_Role (cc_Message choice) =? LLMRoleAssistant else EPlain "role must be assistant" ;;
  let? _ := check_finish choice in
  each check_call (cm_ToolCalls (cc_Message choice)).
Definition validateChatCompletionsResponse (resp : chatCompletionsResponse) : res LLMError unit :=
  guard negb (length (cp_Choices resp) =? 0)%nat else EPlain "at least one choice is required" ;;
  each check_choice (cp_Choices resp).
Definition convert_choice (choice : chatCompletionChoice) : LLMChoice :=
  {| ch_Index := cc_Index choice;
     ch_Message := {| lm_Role := cm_Role (cc_Message choice); lm_Content := cm_Content (cc_Message choice);
                      lm_ReasoningContent := cm_ReasoningContent (cc_Message choice); lm_ToolCalls := cm_ToolCalls (cc_Message choice) |};
     ch_FinishReason := cc_FinishReason choice |}.
Definition convertChatCompletionsResponse (resp : chatCompletionsResponse) : LLMResponse :=
  {| rs_Choices := map convert_choice (cp_Choices resp); rs_Usage := cp_Usage resp |}.

Record responsesOutputItem := {
  ri_Type : string; ri_ID : string; ri_CallID : string; ri_Name : string; ri_Arguments : string; ri_Role : string;
  ri_Content : list (string * string)
}.
Definition read_output_content (v : jval) : option (string * string) :=
  let! m := struct_members [("type", is_jstr); ("text", is_jstr)] v in Some (string_field m "type", string_field m "text").
Definition read_output_item (v : jval) : option responsesOutputItem :=
  let! m := struct_members [("type", is_jstr); ("id", is_jstr); ("call_id", is_jstr); ("name", is_jstr); ("arguments", is_jstr);
                            ("role", is_jstr); ("content", is_slice read_output_content)] v in
  Some {| ri_Type := string_field m "type"; ri_ID := string_field m "id"; ri_CallID := string_field m "call_id";
          ri_Name := string_field m "name"; ri_Arguments := string_field m "arguments"; ri_Role := string_field m "role";
          ri_Content := slice_field read_output_content m "content" |}.
Record responsesAPIResponse := {
  rp_Status : string; rp_Instructions : string; rp_OutputText : string; rp_Output : list responsesOutputItem; rp_Usage : LLMUsage;
  rp_Error : option (string * string)
}.
Definition responses_usage : jval -> option LLMUsage := read_usage "input_tokens" "output_tokens" "total_tokens".
Definition parseResponsesBody (body : string) : option responsesAPIResponse :=
  let! v := Validate body in
  let! m := struct_members [("id", is_jstr); ("status", is_jstr); ("model", is_jstr); ("instructions", is_jstr); ("output_text", is_jstr);
      ("output", is_slice read_output_item); ("usage", is_struct responses_usage); ("error", is_struct read_api_error)] v in
  Some {| rp_Status := string_field m "status"; rp_Instructions := string_field m "instructions"; rp_OutputText := string_field m "output_text";
          rp_Output := slice_field read_output_item m "output"; rp_Usage := struct_field responses_usage no_usage m "usage";
          rp_Error := pointer_field read_api_error m "error" |}.
Definition check_output_item (item : responsesOutputItem) : res LLMError unit :=
  if ri_Type item =? "message" then
    each (fun content : string * string => guard content.1 =? "output_text" else EPlain "unsupported content type" ;; Ok tt) (ri_Content item)
  else if ri_Type item =? "function_call" then
    guard negb (blank (ri_CallID item)) && negb (blank (ri_Name item)) else EPlain "function_call requires call_id and name" ;;
    guard negb (not_exact (ri_CallID item)) && negb (not_exact (ri_Name item)) else EPlain "function_call identifiers must not be padded" ;;
    Ok tt
  else Err (EPlain "unsupported output type").
Definition validateResponsesAPIResponse (resp : responsesAPIResponse) : res LLMError unit :=
  guard rp_Status resp =? "completed" else EPlain "status must be completed" ;;
  each check_output_item (rp_Output resp).
Definition isEmptyOutput (r : responsesAPIResponse) : bool :=
  if negb (blank (rp_OutputText r)) then false else (length (rp_Output r) =? 0)%nat.
Definition hasPromptMismatch (requestInstructions responseInstructions : string) : bool :=
  if blank requestInstructions || blank responseInstructions then false else negb (requestInstructions =? responseInstructions).
Definition output_call (item : responsesOutputItem) : LLMToolCall :=
  {| tc_ID := ri_CallID item; tc_Type := LLMToolTypeFunction;
     tc_Function := {| fc_Name := ri_Name item; fc_Arguments := ri_Arguments item; fc_ThoughtSignature := "" |} |}.
Definition convertResponsesResponse (resp : responsesAPIResponse) : LLMResponse :=
  let calls := List.filter (fun item => ri_Type item =? "function_call") (rp_Output resp) in
  let texts := flat_map (fun item => if ri_Type item =? "message" then
                 List.filter (fun text => negb (blank text)) (map snd (ri_Content item)) else []) (rp_Output resp) in
  let textParts := if blank (rp_OutputText resp) then texts else [rp_OutputText resp] in
  {| rs_Choices := [{| ch_Index := 0;
       ch_Message := {| lm_Role := LLMRoleAssistant; lm_Content := String.concat "" textParts; lm_ReasoningContent := "";
                        lm_ToolCalls := map output_call calls |};
       ch_FinishReason := if (0 <? length calls)%nat then LLMFinishReasonToolCalls else LLMFinishReasonStop |}];
     rs_Usage := rp_Usage resp |}.

(** What the Anthropic library returns; the input of a call is raw JSON, absent when
    the answer has none. *)
Inductive AnthropicBlock :=
| ABText (text : option string)
| ABToolUse (id name : string) (input : option string)
| ABOther (type : string).
Record AnthropicResponse := { as_Content : list AnthropicBlock; as_StopReason : string; as_InputTokens : Z; as_OutputTokens : Z }.
Fixpoint anthropic_blocks (l : list AnthropicBlock) (texts : list string) (calls : list LLMToolCall) :
    res LLMError (list string * list LLMToolCall) :=
  match l with
  | [] => Ok (texts, calls)
  | ABText (Some text) :: l => anthropic_blocks l (texts ++ [text]) calls
  | ABText None :: l => anthropic_blocks l texts calls
  | ABToolUse id name input :: l =>
      guard negb (blank id) && negb (blank name) else EPlain "Anthropic tool_use requires id and name" ;;
      guard negb (not_exact id) && negb (not_exact name) else EPlain "Anthropic tool_use identifiers must not be padded" ;;
      match (match input with Some raw => json_compact raw | None => Some "null" end) with
      | None => Err (EPlain "failed to serialize Anthropic tool call arguments")
      | Some arguments => anthropic_blocks l texts (calls ++ [{| tc_ID := id; tc_Type := LLMToolTypeFunction;
            tc_Function := {| fc_Name := name; fc_Arguments := arguments; fc_ThoughtSignature := "" |} |}])
      end
  | ABOther _ :: _ => Err (EPlain "Anthropic response has unsupported content type")
  end.
Definition convertAnthropicResponse (resp : AnthropicResponse) : res LLMError LLMResponse :=
  let? blocks := anthropic_blocks (as_Content resp) [] [] in
  let '(texts, calls) := blocks in
  let? finish := (if as_StopReason resp =? "end_turn" then Ok LLMFinishReasonStop
                  else if as_StopReason resp =? "tool_use" then Ok LLMFinishReasonToolCalls
                  else Err (EPlain "Anthropic response has unsupported stop_reason")) in
  guard negb ((finish =? LLMFinishReasonToolCalls) && (length calls =? 0)%nat) else EPlain "stop_reason tool_use requires a tool call" ;;
  guard negb ((finish =? LLMFinishReasonStop) && negb (length calls =? 0)%nat) else EPlain "stop_reason end_turn conflicts with tool calls" ;;
  Ok {| rs_Choices := [{| ch_Index := 0;
          ch_Message := {| lm_Role := LLMRoleAssistant; lm_Content := String.concat NL1 texts; lm_ReasoningContent := ""; lm_ToolCalls := calls |};
          ch_FinishReason := finish |}];
        rs_Usage := {| us_PromptTokens := as_InputTokens resp; us_CompletionTokens := as_OutputTokens resp;
                       us_TotalTokens := as_InputTokens resp + as_OutputTokens resp |} |}.

(** The Google answer. *)
Record geminiAnswerPart := { gp_Text : string; gp_Call : option (string * option (list (string * jval))); gp_ThoughtSignature : string }.
Definition read_args (v : jval) : option (option (list (string * jval))) :=
  match v with JObj _ => let! w := to_interface v in let! kvs := as_object w in Some (Some kvs) | JNull => Some None | _ => None end.
Definition read_gemini_call (v : jval) : option (string * option (list (string * jval))) :=
  let! m := struct_members [("name", is_jstr); ("args", is_struct read_args)] v in
  Some (string_field m "name", struct_field read_args None m "args").
Definition read_gemini_part (v : jval) : option geminiAnswerPart :=
  let! m := struct_members [("text", is_jstr); ("functionCall", is_struct read_gemini_call); ("thoughtSignature", is_jstr);
      ("inlineData", is_struct (struct_members [("mimeType", is_jstr); ("data", is_jstr)]));
      ("functionResponse", is_struct (struct_members [("name", is_jstr); ("response", is_struct read_args)]))] v in
  Some {| gp_Text := string_field m "text"; gp_Call := pointer_field read_gemini_call m "functionCall";
          gp_ThoughtSignature := string_field m "thoughtSignature" |}.
Definition read_gemini_content (v : jval) : option (list geminiAnswerPart) :=
  let! m := struct_members [("role", is_jstr); ("parts", is_slice read_gemini_part)] v in Some (slice_field read_gemini_part m "parts").
Record geminiCandidate := { gd_Parts : list geminiAnswerPart; gd_FinishReason : string }.
Definition read_candidate (v : jval) : option geminiCandidate :=
  let! m := struct_members [("content", is_struct read_gemini_content); ("finishReason", is_jstr)] v in
  Some {| gd_Parts := struct_field read_gemini_content [] m "content"; gd_FinishReason := string_field m "finishReason" |}.
Definition gemini_usage : jval -> option LLMUsage := read_usage "promptTokenCount" "candidatesTokenCount" "totalTokenCount".
Definition read_gemini_response (body : string) : option (list geminiCandidate * LLMUsage) :=
  let! v := Validate body in
  let! m := struct_members [("candidates", is_slice read_candidate); ("usageMetadata", is_struct gemini_usage)] v in
  Some (slice_field read_candidate m "candidates", struct_field gemini_usage no_usage m "usageMetadata").
(** [uuids]: the identifiers drawn for the calls, in order. *)
Fixpoint gemini_calls (parts : list geminiAnswerPart) (uuids : nat -> string) (n : nat) : list LLMToolCall :=
  match parts with
  | [] => []
  | part :: parts =>
      match gp_Call part with
      | None => gemini_calls parts uuids n
      | Some (name, args) =>
          {| tc_ID := ("call_" ++ uuids n)%string; tc_Type := LLMToolTypeFunction;
             tc_Function := {| fc_Name := name;
               fc_Arguments := match args with None => "null" | Some kvs => MarshalMap (map (fun kv => (kv.1, as_maps kv.2)) kvs) end;
               fc_ThoughtSignature := gp_ThoughtSignature part |} |} :: gemini_calls parts uuids (S n)
      end
  end.
Definition convertGeminiResponse (answer : list geminiCandidate * LLMUsage) (uuids : nat -> string) : res LLMError LLMResponse :=
  match answer.1 with
  | [] => Err (EPlain "Google API returned no candidates")
  | candidate :: _ =>
      if negb (gd_FinishReason candidate =? "STOP") && (length (gd_Parts candidate) =? 0)%nat
      then Err (EPlain "Google API did not complete normally")
      else
        let calls := gemini_calls (gd_Parts candidate) uuids 0 in
        Ok {| rs_Choices := [{| ch_Index := 0;
                ch_Message := {| lm_Role := LLMRoleAssistant; lm_Content := String.concat "" (map gp_Text (gd_Parts candidate));
                                 lm_ReasoningContent := ""; lm_ToolCalls := calls |};
                ch_FinishReason := if (0 <? length calls)%nat then "tool_calls" else "stop" |}];
              rs_Usage := answer.2 |}
  end.

(** * A call of the model *)

Inductive WireRequest :=
| WireChat (r : chatCompletionsRequest)
| WireResponses (r : responsesAPIRequest)
| WireGoogle (r : geminiRequest).
(** [hr_Read]: the error that ended the reading of the body. *)
Record HTTPResponse := { hr_Status : Z; hr_Body : string; hr_Read : option TransportError }.
Definition limit_reader (n : nat) (body : string) : string := String.substring 0 n body.
Definition serializable (specs : list ToolSpec) : bool :=
  forallb (fun ts => bool_decide (is_Some (Unmarshal (sp_Parameters ts)))) specs.
Definition statusError (resp : HTTPResponse) : LLMError :=
  let body := TrimSpace (limit_reader 4096 (hr_Body resp)) in
  match hr_Read resp with
  | Some read => EStatusUnread (hr_Status resp) body read
  | None => EStatus (hr_Status resp) body
  end.
Definition max_body : Z := 10 * 1024 * 1024.
(** The first 10 MB of the body. *)
Definition response_body (resp : HTTPResponse) : res LLMError string :=
  match hr_Read resp with
  | Some read => Err (ETransport read)
  | None => Ok (if (max_body <? len (hr_Body resp))%Z then limit_reader (Z.to_nat max_body) (hr_Body resp) else hr_Body resp)
  end.

Section client.
Context {W : Type} (cfg : option LLMConfig).
(** The transport, given the endpoint and the key; the Anthropic library; the URL that
    [net/url] makes of the endpoint and the model; the identifiers a call draws. *)
Context (http : W -> string -> string -> WireRequest -> W * (HTTPResponse + TransportError)).
Context (create_messages : W -> AnthropicRequest -> W * res LLMError AnthropicResponse).
Context (google_endpoint : string -> string -> res LLMError string).
Context (uuids : W -> nat -> string).
(** The clock; whether the caller's context, or the deadline, is done; and a wait: whether
    either was done first. *)
Context (now : W -> time) (ctx_done : time -> W -> bool) (sleep : time -> W -> Z -> W * bool).

Definition exchange (w : W) (endpoint key : string) (r : WireRequest) (read : string -> res LLMError LLMResponse) :
    W * res LLMError LLMResponse :=
  match http w endpoint key r with
  | (w, inr err) => (w, Err (ETransport err))
  | (w, inl resp) =>
      if (300 <=? hr_Status resp)%Z then (w, Err (statusError resp))
      else match response_body resp with
      | Err e => (w, Err e)
      | Ok body => (w, read body)
      end
  end.

Definition read_chat (body : string) : res LLMError LLMResponse :=
  match read_chat_response body with
  | None => Err (EPlain "failed to parse Chat Completions body")
  | Some resp =>
      match cp_Error resp with
      | Some _ => Err (EPlain "OpenAI Chat Completions API call failed")
      | None => let? _ := validateChatCompletionsResponse resp in Ok (convertChatCompletionsResponse resp)
      end
  end.
Definition chatOpenAIChatCompletions (c : LLMConfig) (w : W) (endpoint : string) (bundle : PromptBundle) (specs : list ToolSpec) :
    W * res LLMError LLMResponse :=
  if negb (serializable specs) then (w, Err (EPlain "failed to serialize Chat Completions request"))
  else exchange w endpoint (cf_APIKey c) (WireChat (buildChatCompletionsRequest c bundle specs)) read_chat.

Definition read_responses (instructions : string) (body : string) : res LLMError LLMResponse :=
  match parseResponsesBody body with
  | None => Err (EPlain "failed to parse Responses body")
  | Some resp =>
      match rp_Error resp with
      | Some _ => Err (EPlain "OpenAI Responses API call failed")
      | None =>
          let? _ := validateResponsesAPIResponse resp in
          guard negb (hasPromptMismatch instructions (rp_Instructions resp) && isEmptyOutput resp) else EPlain "mismatched instructions and no output" ;;
          Ok (convertResponsesResponse resp)
      end
  end.
Definition openAIAPIChatCompletions : string := "chat_completions".
Definition openAIAPIResponses : string := "responses".
Definition resolveOpenAIEndpoint (c : LLMConfig) : res LLMError (string * string) :=
  if cf_APIEndpoint c =? "" then Err (EPlain "LLM_API_ENDPOINT not configured")
  else if cf_APIProtocol c =? openAIAPIChatCompletions then Ok (cf_APIEndpoint c, openAIAPIChatCompletions)
  else if cf_APIProtocol c =? openAIAPIResponses then Ok (cf_APIEndpoint c, openAIAPIResponses)
  else Err (EPlain "LLM_API_PROTOCOL must be responses or chat_completions").
Definition chatOpenAI (c : LLMConfig) (w : W) (bundle : PromptBundle) (specs : list ToolSpec) : W * res LLMError LLMResponse :=
  match resolveOpenAIEndpoint c with
  | Err e => (w, Err e)
  | Ok (endpoint, apiKind) =>
      if apiKind =? openAIAPIChatCompletions then chatOpenAIChatCompletions c w endpoint bundle specs
      else
        let req := buildResponsesRequest c bundle specs in
        if negb (serializable specs) then (w, Err (EPlain "failed to serialize Responses request"))
        else exchange w endpoint (cf_APIKey c) (WireResponses req) (read_responses (rr_Instructions req))
  end.
Definition chatAnthropic (c : LLMConfig) (w : W) (bundle : PromptBundle) (specs : list ToolSpec) : W * res LLMError LLMResponse :=
  match create_messages w (anthropic_request c bundle specs) with
  | (w, Err e) => (w, Err e)
  | (w, Ok resp) => (w, convertAnthropicResponse resp)
  end.
Definition read_google (w : W) (body : string) : res LLMError LLMResponse :=
  match read_gemini_response body with
  | None => Err (EPlain "failed to validate Google response")
  | Some answer => convertGeminiResponse answer (uuids w)
  end.
Definition chatGoogle (c : LLMConfig) (w : W) (bundle : PromptBundle) (specs : list ToolSpec) : W * res LLMError LLMResponse :=
  match google_request bundle specs with
  | Err e => (w, Err e)
  | Ok req =>
      match google_endpoint (cf_APIEndpoint c) (cf_Model c) with
      | Err e => (w, Err e)
      | Ok endpoint =>
          match http w endpoint (cf_APIKey c) (WireGoogle req) with
          | (w, inr err) => (w, Err (ETransport err))
          | (w, inl resp) =>
              match response_body resp with
              | Err e => (w, Err e)
              | Ok body =>
                  if negb (hr_Status resp =? 200)%Z then (w, Err (EStatus (hr_Status resp) (TrimSpace body)))
                  else (w, read_google w body)
              end
          end
      end
  end.

Definition known_provider (c : LLMConfig) : bool :=
  (cf_Provider c =? "anthropic") || (cf_Provider c =? "google") || (cf_Provider c =? "openai").
Definition call_provider (c : LLMConfig) (w : W) (bundle : PromptBundle) (specs : list ToolSpec) : W * res LLMError LLMResponse :=
  if cf_Provider c =? "anthropic" then chatAnthropic c w bundle specs
  else if cf_Provider c =? "google" then chatGoogle c w bundle specs
  else chatOpenAI c w bundle specs.
Definition retryDelays : list Z := [Second; 3 * Second; 8 * Second]%Z.
(** [llmRetryBudget] *)
Definition llmRetryBudget (c : LLMConfig) : Z := ((if (0 <? cf_RetryBudgetSec c)%Z then cf_RetryBudgetSec c else 360) * Second)%Z.
(** The attempts, [delays] being the waits that are left. *)
Fixpoint chat_attempts (c : LLMConfig) (deadline : time) (w : W) (bundle : PromptBundle) (specs : list ToolSpec) (delays : list Z) : W * res ChatError LLMResponse :=
  if ctx_done deadline w then (w, Err ChatBudget)
  else if negb (known_provider c) then (w, Err (ChatFailed (EPlain "unsupported LLM_PROVIDER")))
  else match call_provider c w bundle specs with
  | (w, Ok resp) => (w, Ok resp)
  | (w, Err err) =>
      if negb (isRetryableLLMError err) then (w, Err (ChatFailed err))
      else match delays with
      | [] => (w, Err (ChatExhausted err))
      | delay :: delays =>
          let '(w, done) := sleep deadline w delay in
          if done then (w, Err ChatBudget) else chat_attempts c deadline w bundle specs delays
      end
  end.
Definition ChatWithTools (w : W) (bundle : option PromptBundle) (specs : list ToolSpec) : W * res ChatError LLMResponse :=
  match validatePromptBundle bundle, bundle, cfg with
  | Err e, _, _ => (w, Err (ChatFailed (EPrompt e)))
  | Ok _, None, _ => (w, Err (ChatFailed (EPrompt EBundleNil)))
  | Ok _, Some _, None => (w, Err (ChatFailed (EPlain "LLM config is not initialized")))
  | Ok _, Some bundle, Some c =>
      if blank (cf_APIKey c) then (w, Err (ChatFailed (EPlain "LLM_API_KEY is not configured")))
      else if not_exact (cf_APIKey c) then (w, Err (ChatFailed (EPlain "LLM_API_KEY must not contain leading or trailing whitespace")))
      else chat_attempts c (now w + llmRetryBudget c)%Z w bundle specs retryDelays
  end.
End client.

(** * Specification *)

(** What the providers check in a request: a call is followed, after the calls of the
    same turn and before anything else, by results that answer all of them, and a result
    stands nowhere else. *)
Inductive wire := WCall (id : string) | WResult (id : string) | WOther.
Inductive answered : list wire -> Prop :=
| answered_nil : answered []
| answered_other l : answered l -> answered (WOther :: l)
| answered_calls ids results l :
    ids <> [] -> (forall id, id ∈ ids -> id ∈ results) -> answered l -> answered (map WCall ids ++ map WResult results ++ l).

Definition wire_chat (m : chatCompletionMessage) : list wire :=
  if cm_Role m =? LLMRoleTool then [WResult (cm_ToolCallID m)]
  else match cm_ToolCalls m with [] => [WOther] | calls => map (fun tc => WCall (tc_ID tc)) calls end.
Definition wire_input (i : responsesInput) : wire :=
  match i with InMessage _ _ _ => WOther | InCall id _ _ => WCall id | InOutput id _ => WResult id end.
Definition wire_block (b : AnthropicContent) : wire :=
  match b with ACToolUse id _ _ => WCall id | ACToolResult id _ => WResult id | _ => WOther end.
(** Gemini has no identifiers: a call is answered by name. *)
Definition wire_part (p : geminiPart) : wire :=
  match p with GCall name _ _ => WCall name | GResponse name _ => WResult name | _ => WOther end.

(** * Lemmas: the requests *)

Lemma answered_others n l : answered l -> answered (repeat WOther n ++ l).
Proof. intros. induction n; cbn; [done|by constructor]. Qed.
Lemma answered_plain (x l : list wire) : Forall (eq WOther) x -> answered l -> answered (x ++ l).
Proof. induction 1 as [|? ? <-]; cbn; [done|]. intros. constructor. auto. Qed.
Lemma answered_turn (calls : list LLMToolCall) (results : list ConversationItem) l :
  calls <> [] -> Forall (answers results "") calls -> answered l ->
  answered (map WCall (map tc_ID calls) ++ map WResult (map ci_ToolCallID results) ++ l).
Proof.
  intros Hne Hall Hl. constructor; [by destruct calls| |done].
  intros id (call & -> & Hin)%list_elem_of_fmap. rewrite Forall_forall in Hall. by destruct (Hall call Hin) as [|[]].
Qed.

(** A tool item and an item with calls, by their roles. *)
Lemma is_tool_role item : is_tool item = true -> ci_Role item = LLMRoleTool.
Proof. apply String.eqb_eq. Qed.
Lemma calls_tools_role item : calls_tools item = true -> ci_Role item = LLMRoleAssistant /\ ci_ToolCalls item <> [].
Proof. unfold calls_tools. intros [H%String.eqb_eq Hl]%andb_true_iff. split; [done|]. by destruct (ci_ToolCalls item). Qed.

(** The trace of a paired history, for a provider that gives each result one token, a
    turn with calls its calls after other tokens, and any other item other tokens. *)
Lemma paired_answered (f : ConversationItem -> list wire) h tail :
  (forall item, is_tool item = true -> f item = [WResult (ci_ToolCallID item)]) ->
  (forall item, is_tool item = false -> calls_tools item = true ->
     exists x, Forall (eq WOther) x /\ f item = x ++ map WCall (map tc_ID (ci_ToolCalls item))) ->
  (forall item, is_tool item = false -> calls_tools item = false -> Forall (eq WOther) (f item)) ->
  answered tail -> paired "" h -> answered (flat_map f h ++ tail).
Proof.
  intros Htool Hcalls Hplain Htail. induction 1 as [|item h Ht Hc _ IH|item results h Ht Hc Hr Ha _ IH]; cbn; [done| |].
  - rewrite <- app_assoc. apply answered_plain; [by apply Hplain|done].
  - destruct (Hcalls item Ht Hc) as (x & Hx & ->). rewrite flat_map_app, <- !app_assoc. apply answered_plain; [done|].
    assert (flat_map f results = map WResult (map ci_ToolCallID results)) as ->.
    { clear -Hr Htool. induction Hr as [|r results Hr _ IH]; cbn; [done|]. by rewrite Htool, IH. }
    apply answered_turn; [by apply calls_tools_role|done|done].
Qed.

Lemma flat_map_flat_map {A B C} (f : A -> list B) (g : B -> list C) l : flat_map g (flat_map f l) = flat_map (fun a => flat_map g (f a)) l.
Proof. induction l; cbn; [done|]. by rewrite flat_map_app, IHl. Qed.
Lemma map_flat_map {A B C} (f : A -> list B) (g : B -> C) l : map g (flat_map f l) = flat_map (fun a => map g (f a)) l.
Proof. induction l; cbn; [done|]. by rewrite map_app, IHl. Qed.
Lemma others_map {A} (f : A -> wire) l : (forall a, f a = WOther) -> Forall (eq WOther) (map f l).
Proof. intros. induction l; cbn; constructor; auto. Qed.

Lemma answered_tail {A} (task : string) (item : string -> A) (f : A -> list wire) :
  (forall t, f (item t) = [WOther]) -> answered (flat_map f (task_item task item)).
Proof. intros H. unfold task_item. destruct (task =? ""); cbn; [constructor|]. rewrite H. repeat constructor. Qed.

Lemma chat_answered bundle : paired "" (pb_History bundle) -> answered (flat_map wire_chat (chat_messages bundle)).
Proof.
  intros Hp. unfold chat_messages. rewrite !flat_map_app. apply answered_plain.
  { destruct (_ =? ""); cbn; repeat constructor. }
  apply answered_plain. { induction (pb_RuntimeContext bundle); cbn; constructor; auto. }
  rewrite flat_map_flat_map. apply paired_answered; [| | |by apply answered_tail|done].
  - intros item Hr%is_tool_role. unfold chat_message. by rewrite Hr.
  - intros item _ Hc. exists []. split; [constructor|]. apply calls_tools_role in Hc as [Hr Hne]. unfold chat_message. rewrite Hr. cbn.
    destruct (ci_ToolCalls item) as [|tc calls]; [done|]. cbn. rewrite orb_true_r. cbn. by rewrite app_nil_r, !map_map.
  - intros item Ht Hc. unfold is_tool in Ht. unfold calls_tools in Hc. unfold chat_message. rewrite Ht.
    destruct (ci_Role item =? LLMRoleUser); [cbn; repeat constructor|]. destruct (ci_Role item =? LLMRoleAssistant); [|constructor].
    cbn in Hc. destruct (ci_ToolCalls item); [|done]. cbn. destruct (blank _); cbn; repeat constructor.
Qed.

Lemma responses_answered cfg bundle specs : paired "" (pb_History bundle) -> answered (map wire_input (rr_Input (buildResponsesRequest cfg bundle specs))).
Proof.
  intros Hp. cbn. rewrite !map_app, map_map. apply answered_plain; [by apply others_map|]. rewrite map_flat_map.
  apply paired_answered; [| | | |done].
  - intros item Hr%is_tool_role. unfold responses_item. by rewrite Hr.
  - intros item _ Hc. apply calls_tools_role in Hc as [Hr _]. unfold responses_item. rewrite Hr. cbn. rewrite map_app.
    eexists. split; [|rewrite !map_map; reflexivity]. destruct (blank _); cbn; repeat constructor.
  - intros item Ht Hc. unfold is_tool in Ht. unfold calls_tools in Hc. unfold responses_item. rewrite Ht.
    destruct (ci_Role item =? LLMRoleUser); [cbn; repeat constructor|]. destruct (ci_Role item =? LLMRoleAssistant); [|constructor].
    cbn in Hc. destruct (ci_ToolCalls item); [|done]. destruct (blank _); cbn; repeat constructor.
  - unfold task_item. destruct (_ =? ""); repeat constructor.
Qed.

Lemma others_anthropic text parts : Forall (eq WOther) (map wire_block (anthropicParts text parts)).
Proof. unfold anthropicParts. rewrite map_map. apply others_map. intros part. by destruct (mp_Kind part =? MessagePartImage). Qed.
Definition anthropic_item (msg : ConversationItem) : list AnthropicContent :=
  if ci_Role msg =? LLMRoleUser then anthropicParts (ci_Content msg) (ci_Parts msg)
  else if ci_Role msg =? LLMRoleAssistant then assistant_content msg
  else if ci_Role msg =? LLMRoleTool then [ACToolResult (ci_ToolCallID msg) (ci_Content msg)] else [].
Lemma flush_user_content current : flat_map am_Content (flush_user current) = current.
Proof. unfold flush_user. destruct current; [done|]. cbn. by rewrite app_nil_r. Qed.
(** The blocks of the messages are those of the items, in order. *)
Lemma anthropic_content current history task :
  flat_map am_Content (anthropic_loop current history task) = current ++ flat_map anthropic_item history ++ task_item task ACText.
Proof.
  revert current. induction history as [|msg history IH]; intros current; cbn; [by rewrite flush_user_content|]. unfold anthropic_item at 1.
  destruct (ci_Role msg =? LLMRoleUser); [by rewrite IH, <- !app_assoc|].
  destruct (ci_Role msg =? LLMRoleAssistant).
  - rewrite !flat_map_app, flush_user_content, IH. destruct (assistant_content msg); cbn; by rewrite ?app_nil_r, <- ?app_assoc.
  - destruct (ci_Role msg =? LLMRoleTool); by rewrite IH, <- ?app_assoc.
Qed.
Lemma anthropic_answered bundle : paired "" (pb_History bundle) -> answered (map wire_block (flat_map am_Content (buildAnthropicMessages bundle))).
Proof.
  intros Hp. unfold buildAnthropicMessages. rewrite anthropic_content, !map_app, !map_flat_map. apply answered_plain.
  { induction (pb_RuntimeContext bundle); cbn; [constructor|]. apply Forall_app. split; [apply others_anthropic|done]. }
  apply paired_answered; [| | | |done].
  - intros item Hr%is_tool_role. unfold anthropic_item. by rewrite Hr.
  - intros item _ Hc. apply calls_tools_role in Hc as [Hr _]. unfold anthropic_item, assistant_content. rewrite Hr. cbn. rewrite map_app.
    eexists. split; [|rewrite !map_map; reflexivity]. destruct (_ =? ""); cbn; repeat constructor.
  - intros item Ht Hc. unfold is_tool in Ht. unfold calls_tools in Hc. unfold anthropic_item, assistant_content. rewrite Ht.
    destruct (ci_Role item =? LLMRoleUser); [apply others_anthropic|]. destruct (ci_Role item =? LLMRoleAssistant); [|constructor].
    cbn in Hc. destruct (ci_ToolCalls item); [|done]. destruct (_ =? ""); cbn; repeat constructor.
  - unfold task_item. destruct (_ =? ""); repeat constructor.
Qed.

(** A history whose results were recorded for the calls before them: each is a JSON
    object and names its call, or leaves the name to the call. *)
Definition recorded_result (calls : list LLMToolCall) (r : ConversationItem) : Prop :=
  is_tool r = true /\ decode_object (ci_Content r) <> None
  /\ exists call, call ∈ calls /\ tc_ID call = ci_ToolCallID r /\ (ci_ToolCallName r = "" \/ ci_ToolCallName r = fc_Name (tc_Function call)).
Definition named_call (call : LLMToolCall) : Prop := fc_Name (tc_Function call) <> "" /\ not_exact (fc_Name (tc_Function call)) = false.
Inductive recorded : list ConversationItem -> Prop :=
| recorded_nil : recorded []
| recorded_plain item h : is_tool item = false -> calls_tools item = false -> recorded h -> recorded (item :: h)
| recorded_calls item results h :
    is_tool item = false -> calls_tools item = true -> NoDup (map tc_ID (ci_ToolCalls item)) -> Forall named_call (ci_ToolCalls item) ->
    Forall (recorded_result (ci_ToolCalls item)) results -> Forall (answers results "") (ci_ToolCalls item) ->
    recorded h -> recorded (item :: results ++ h).

Lemma record_names_last names calls call :
  NoDup (map tc_ID calls) -> call ∈ calls -> record_names names calls !! tc_ID call = Some (fc_Name (tc_Function call)).
Proof.
  unfold record_names. revert names. induction calls as [|tc calls IH]; intros names Hnd Hin; [by apply elem_of_nil in Hin|].
  cbn in Hnd. apply NoDup_cons in Hnd as [Hn Hnd]. cbn. apply elem_of_cons in Hin as [->|Hin]; [|by apply IH].
  assert (forall (l : list LLMToolCall) (m : gmap string string) (k : string), k ∉ map tc_ID l ->
    foldl (fun m tc => <[tc_ID tc := fc_Name (tc_Function tc)]> m) m l !! k = m !! k) as Hkeep.
  { clear. induction l as [|x l IH]; intros m k Hk; [done|]. cbn in *. apply not_elem_of_cons in Hk as [Hk Hl].
    rewrite IH by done. by rewrite lookup_insert_ne by done. }
  rewrite Hkeep by done. by rewrite lookup_insert_eq.
Qed.

Definition wire_content (c : geminiContent) : list wire :=
  if gc_Role c =? "model" then
    match List.filter (fun p => match p with GCall _ _ _ => true | _ => false end) (gc_Parts c) with
    | [] => [WOther]
    | calls => map wire_part calls
    end
  else map wire_part (gc_Parts c).

Lemma google_result_named names calls r :
  NoDup (map tc_ID calls) -> Forall named_call calls -> recorded_result calls r ->
  exists call response, call ∈ calls /\ tc_ID call = ci_ToolCallID r
    /\ google_result (record_names names calls) r = Ok {| gc_Role := "user"; gc_Parts := [GResponse (fc_Name (tc_Function call)) response] |}.
Proof.
  intros Hnd Hnamed (_ & Hobj & call & Hin & Hid & Hname). exists call. unfold google_result.
  destruct (decode_object (ci_Content r)) as [response|]; [|done]. exists response. split; [done|]. split; [done|].
  rewrite Forall_forall in Hnamed. destruct (Hnamed call Hin) as [Hne Hex].
  pose proof (record_names_last names calls call Hnd Hin) as Hl. rewrite Hid in Hl.
  destruct Hname as [Hn|Hn]; rewrite Hn.
  - cbn. rewrite Hl. cbn. apply String.eqb_neq in Hne. by rewrite Hne.
  - rewrite Hex. cbn. apply String.eqb_neq in Hne. by rewrite !Hne.
Qed.

Lemma google_results names calls results h rest :
  NoDup (map tc_ID calls) -> Forall named_call calls -> Forall (recorded_result calls) results ->
  google_history (record_names names calls) h = Ok rest ->
  exists cs named, google_history (record_names names calls) (results ++ h) = Ok (cs ++ rest)
    /\ flat_map wire_content cs = map WResult named
    /\ forall call, call ∈ calls -> tc_ID call ∈ map ci_ToolCallID results -> fc_Name (tc_Function call) ∈ named.
Proof.
  intros Hnd Hnamed Hall Hh. induction Hall as [|r results Hr _ (cs & named & IH1 & IH2 & IH3)]; cbn.
  - exists [], []. split; [done|]. split; [done|]. intros call _ H. by apply elem_of_nil in H.
  - destruct (google_result_named names calls r Hnd Hnamed Hr) as (call & response & Hin & Hid & Hres).
    rewrite (is_tool_role r (proj1 Hr)). cbn. rewrite Hres, IH1. eexists (_ :: cs), (_ :: named). split; [reflexivity|].
    split; [cbn; by rewrite IH2|]. intros call' Hin' H. apply elem_of_cons in H as [H|H]; apply elem_of_cons; [left|right; by apply IH3].
    f_equal. f_equal. apply list_elem_of_lookup in Hin as [i Hi]. apply list_elem_of_lookup in Hin' as [j Hj].
    assert (i = j) as <-; [|congruence]. eapply (NoDup_lookup _ i j _ Hnd); rewrite list_lookup_fmap.
    + by rewrite Hi.
    + rewrite Hj. cbn. by rewrite H, <- Hid.
Qed.

Lemma google_assistant_wire h :
  flat_map wire_content [google_assistant h]
  = match ci_ToolCalls h with [] => [WOther] | calls => map WCall (map (fun tc => fc_Name (tc_Function tc)) calls) end.
Proof.
  cbn. unfold wire_content, google_assistant. cbn. rewrite app_nil_r, List.filter_app.
  assert (forall l : list LLMToolCall, List.filter (fun p => match p with GCall _ _ _ => true | _ => false end)
    (map (fun tc => GCall (fc_Name (tc_Function tc)) (replay_args (fc_Arguments (tc_Function tc))) (fc_ThoughtSignature (tc_Function tc))) l)
    = map (fun tc => GCall (fc_Name (tc_Function tc)) (replay_args (fc_Arguments (tc_Function tc))) (fc_ThoughtSignature (tc_Function tc))) l) as ->.
  { induction l; cbn; [done|]. by rewrite IHl. }
  assert (List.filter (fun p => match p with GCall _ _ _ => true | _ => false end) (if blank (ci_Content h) then [] else [GText (ci_Content h)]) = []) as ->
    by (by destruct (blank _)).
  destruct (ci_ToolCalls h); [done|]. cbn. by rewrite !map_map.
Qed.

Lemma google_history_answered names h :
  recorded h -> exists cs, google_history names h = Ok cs /\ forall tail, answered tail -> answered (flat_map wire_content cs ++ tail).
Proof.
  intros Hr. revert names. induction Hr as [|item h Ht Hc _ IH|item results h Ht Hc Hnd Hnamed Hres Hans _ IH]; intros names; cbn [google_history].
  - by exists [].
  - unfold is_tool in Ht. unfold calls_tools in Hc. rewrite Ht. destruct (ci_Role item =? LLMRoleUser).
    + destruct (IH names) as (cs & -> & Hcs). eexists. split; [reflexivity|]. intros tail Htail. cbn. rewrite <- app_assoc.
      apply answered_plain; [|by apply Hcs]. unfold wire_content. cbn. unfold geminiParts. rewrite map_map. apply others_map.
      intros part. by destruct (mp_Kind part =? MessagePartImage).
    + destruct (ci_Role item =? LLMRoleAssistant); [|apply IH]. cbn in Hc.
      destruct (IH (record_names names (ci_ToolCalls item))) as (cs & -> & Hcs). eexists. split; [reflexivity|]. intros tail Htail.
      change (google_assistant item :: cs) with ([google_assistant item] ++ cs). rewrite flat_map_app, google_assistant_wire, <- app_assoc.
      destruct (ci_ToolCalls item); [|done]. apply answered_other. by apply Hcs.
  - apply calls_tools_role in Hc as [Hrole Hne]. rewrite Hrole. cbn.
    destruct (IH (record_names names (ci_ToolCalls item))) as (rest & Hrest & Hcs).
    destruct (google_results names (ci_ToolCalls item) results h rest Hnd Hnamed Hres Hrest) as (cs & named & -> & Hw & Hin).
    eexists. split; [reflexivity|]. intros tail Htail. change (google_assistant item :: cs ++ rest) with ([google_assistant item] ++ cs ++ rest).
    rewrite !flat_map_app, google_assistant_wire, Hw, <- !app_assoc.
    destruct (ci_ToolCalls item) as [|tc0 calls0] eqn:Ecalls; [done|]. rewrite <- Ecalls in *.
    apply answered_calls; [by rewrite Ecalls| |by apply Hcs].
    intros name (call & -> & Hcall)%list_elem_of_fmap. apply Hin; [done|]. rewrite Forall_forall in Hans. by destruct (Hans call Hcall) as [|[]].
Qed.

(** * Lemmas: the attempts *)

Section attempt_lemmas.
Context {W : Type} (cfg : option LLMConfig).
Context (http : W -> string -> string -> WireRequest -> W * (HTTPResponse + TransportError)).
Context (create_messages : W -> AnthropicRequest -> W * res LLMError AnthropicResponse).
Context (google_endpoint : string -> string -> res LLMError string).
Context (uuids : W -> nat -> string).
Context (now : W -> time) (ctx_done : time -> W -> bool) (sleep : time -> W -> Z -> W * bool).
Local Abbreviation call := (call_provider http create_messages google_endpoint uuids) (only parsing).
Local Abbreviation run_attempts := (chat_attempts http create_messages google_endpoint uuids ctx_done sleep) (only parsing).

(** The calls of an execution and what they answered, the wait after each. *)
Inductive tried (c : LLMConfig) (bundle : PromptBundle) (specs : list ToolSpec) (deadline : time) :
    W -> list Z -> list (res LLMError LLMResponse) -> W -> Prop :=
| tried_none w ds : tried c bundle specs deadline w ds [] w
| tried_last w w' r ds : ctx_done deadline w = false -> call c w bundle specs = (w', r) -> tried c bundle specs deadline w ds [r] w'
| tried_wait w w' w1 done d ds r rs w'' :
    ctx_done deadline w = false -> call c w bundle specs = (w', r) -> sleep deadline w' d = (w1, done) ->
    tried c bundle specs deadline w1 ds rs w'' -> tried c bundle specs deadline w (d :: ds) (r :: rs) w''.

Definition retried (r : res LLMError LLMResponse) : Prop := exists e, r = Err e /\ isRetryableLLMError e = true.
(** How an execution ends, after the calls [rs]. *)
Definition attempts_end (delays : nat) (rs : list (res LLMError LLMResponse)) (result : res ChatError LLMResponse) : Prop :=
  match result with
  | Ok resp => exists before, rs = before ++ [Ok resp] /\ Forall retried before
  | Err (ChatFailed e) => exists before, rs = before ++ [Err e] /\ Forall retried before /\ isRetryableLLMError e = false
  | Err ChatBudget => Forall retried rs
  | Err (ChatExhausted e) => Forall retried rs /\ length rs = S delays /\ last rs = Some (Err e)
  end.

Lemma attempts_end_cons e delays rs result :
  isRetryableLLMError e = true -> attempts_end delays rs result -> attempts_end (S delays) (Err e :: rs) result.
Proof.
  intros He. assert (retried (Err e)) as Hr by (by exists e). unfold attempts_end. destruct result as [resp|[err| |err]].
  - intros (before & -> & Hb). exists (Err e :: before). split; [done|by constructor].
  - intros (before & -> & Hb & Hx). exists (Err e :: before). split; [done|]. split; [by constructor|done].
  - by constructor.
  - intros (Hb & Hl & Hlast). split; [by constructor|]. split; [cbn; by rewrite Hl|]. destruct rs; [done|]. by rewrite last_cons_cons.
Qed.

Lemma attempts_tried c deadline bundle specs delays w :
  known_provider c = true ->
  exists rs, tried c bundle specs deadline w delays rs (run_attempts c deadline w bundle specs delays).1
    /\ length rs <= S (length delays)
    /\ attempts_end (length delays) rs (run_attempts c deadline w bundle specs delays).2.
Proof.
  intros Hp. revert w. induction delays as [|d delays IH]; intros w; cbn [chat_attempts]; rewrite Hp; cbn [negb].
  - destruct (ctx_done deadline w) eqn:Hd; [exists []; split; [constructor|split; [cbn; lia|constructor]]|].
    destruct (call c w bundle specs) as [w1 r] eqn:Hc. exists [r]. destruct r as [resp|err]; cbn.
    + split; [by apply tried_last|]. split; [lia|]. by exists [].
    + destruct (isRetryableLLMError err) eqn:He; cbn; (split; [by apply tried_last|]; split; [lia|]).
      * split; [|done]. repeat constructor. by exists err.
      * by exists [].
  - destruct (ctx_done deadline w) eqn:Hd; [exists []; split; [constructor|split; [cbn; lia|constructor]]|].
    destruct (call c w bundle specs) as [w1 r] eqn:Hc. destruct r as [resp|err]; cbn.
    + exists [Ok resp]. split; [by apply tried_last|]. split; [cbn; lia|]. by exists [].
    + destruct (isRetryableLLMError err) eqn:He; cbn.
      2: { exists [Err err]. split; [by apply tried_last|]. split; [cbn; lia|]. by exists []. }
      destruct (sleep deadline w1 d) as [w2 done] eqn:Hs. destruct done.
      * exists [Err err]. split; [by eapply tried_wait; [..|constructor]|]. split; [cbn; lia|]. repeat constructor. by exists err.
      * destruct (IH w2) as (rs & Ht & Hl & Hend). exists (Err err :: rs). split; [by eapply tried_wait|]. split; [cbn; lia|].
        by apply attempts_end_cons.
Qed.
End attempt_lemmas.

(** * Lemmas: the answers *)

Definition exact_text (s : string) : Prop := blank s = false /\ not_exact s = false.
(** What the engine can rely on in an answer. *)
Definition choice_ok (named : bool) (choice : LLMChoice) : Prop :=
  lm_Role (ch_Message choice) = LLMRoleAssistant
  /\ (ch_FinishReason choice = LLMFinishReasonStop -> lm_ToolCalls (ch_Message choice) = [])
  /\ (ch_FinishReason choice = LLMFinishReasonToolCalls -> lm_ToolCalls (ch_Message choice) <> [])
  /\ forall call, call ∈ lm_ToolCalls (ch_Message choice) ->
       tc_Type call = LLMToolTypeFunction
       /\ (named = true -> exact_text (tc_ID call) /\ exact_text (fc_Name (tc_Function call))).
Definition answer_ok (named : bool) (resp : LLMResponse) : Prop :=
  rs_Choices resp <> [] /\ Forall (choice_ok named) (rs_Choices resp).

Lemma one_choice_ok named index content reasoning calls finish usage :
  (finish = LLMFinishReasonStop -> calls = []) -> (finish = LLMFinishReasonToolCalls -> calls <> []) ->
  (forall call, call ∈ calls -> tc_Type call = LLMToolTypeFunction
     /\ (named = true -> exact_text (tc_ID call) /\ exact_text (fc_Name (tc_Function call)))) ->
  answer_ok named {| rs_Choices := [{| ch_Index := index; ch_Message := {| lm_Role := LLMRoleAssistant; lm_Content := content;
      lm_ReasoningContent := reasoning; lm_ToolCalls := calls |}; ch_FinishReason := finish |}]; rs_Usage := usage |}.
Proof. intros H1 H2 H3. split; [done|]. constructor; [|constructor]. split; [done|]. by split. Qed.

Lemma check_call_ok tc : check_call tc = Ok tt ->
  tc_Type tc = LLMToolTypeFunction /\ exact_text (tc_ID tc) /\ exact_text (fc_Name (tc_Function tc)).
Proof.
  unfold check_call, exact_text. destruct (tc_Type tc =? LLMToolTypeFunction) eqn:Ht; [|done]. apply String.eqb_eq in Ht.
  destruct (blank (tc_ID tc)); [done|]. destruct (blank (fc_Name _)); [done|]. destruct (not_exact (tc_ID tc)); [done|].
  by destruct (not_exact (fc_Name _)).
Qed.

Lemma each_in {E A} (f : A -> res E unit) l : each f l = Ok tt -> forall a, a ∈ l -> f a = Ok tt.
Proof.
  induction l as [|x l IH]; cbn; intros H a Ha; [by apply elem_of_nil in Ha|].
  destruct (f x) as [[]|] eqn:Hx; [|done]. apply elem_of_cons in Ha as [->|Ha]; [done|by apply IH].
Qed.

Lemma check_choice_ok choice : check_choice choice = Ok tt -> choice_ok true (convert_choice choice).
Proof.
  unfold check_choice. destruct (_ =? LLMRoleAssistant) eqn:Hr; [|done]. apply String.eqb_eq in Hr.
  destruct (check_finish choice) as [[]|] eqn:Hf; [|done]. intros Hcalls. split; [done|]. unfold check_finish in Hf. cbn.
  split; [|split].
  - intros Hs. rewrite Hs in Hf. cbn in Hf. by destruct (cm_ToolCalls (cc_Message choice)).
  - intros Hs Hn. rewrite Hs, Hn in Hf. cbn in Hf. done.
  - intros call Hin. destruct (check_call_ok call (each_in _ _ Hcalls call Hin)) as (? & ? & ?). by split.
Qed.

Lemma read_chat_ok body resp : read_chat body = Ok resp -> answer_ok true resp.
Proof.
  unfold read_chat. destruct (read_chat_response body) as [r|]; [|done]. destruct (cp_Error r); [done|].
  unfold validateChatCompletionsResponse. destruct (cp_Choices r) as [|ch chs] eqn:Hcs; [done|].
  change (negb (length (ch :: chs) =? 0)%nat) with true. cbv iota.
  destruct (each check_choice (ch :: chs)) as [[]|] eqn:He; [|done]. intros [= <-].
  unfold convertChatCompletionsResponse, answer_ok. rewrite Hcs. cbn [rs_Choices]. split; [done|].
  apply Forall_forall. intros x (y & -> & Hy)%list_elem_of_fmap. apply check_choice_ok. by eapply each_in.
Qed.

Lemma read_responses_ok instructions body resp : read_responses instructions body = Ok resp -> answer_ok true resp.
Proof.
  unfold read_responses. destruct (parseResponsesBody body) as [r|]; [|done]. destruct (rp_Error r); [done|].
  unfold validateResponsesAPIResponse. destruct (rp_Status r =? "completed"); [|done].
  destruct (each check_output_item (rp_Output r)) as [[]|] eqn:He; [|done]. destruct (negb _); [|done]. intros [= <-].
  apply one_choice_ok; cbn.
  - destruct (List.filter _ _); cbn; [done|]. done.
  - destruct (List.filter _ _); cbn; [done|]. done.
  - intros call (item & -> & [Hin Hty]%list_elem_of_In%filter_In)%list_elem_of_fmap. split; [done|]. intros _.
    apply list_elem_of_In in Hin. pose proof (each_in _ _ He item Hin) as Hc. unfold check_output_item in Hc.
    apply String.eqb_eq in Hty. rewrite Hty in Hc. cbn in Hc |- *. unfold exact_text.
    destruct (blank (ri_CallID item)), (blank (ri_Name item)), (not_exact (ri_CallID item)), (not_exact (ri_Name item)); done.
Qed.

Lemma anthropic_blocks_calls l texts calls texts' calls' :
  anthropic_blocks l texts calls = Ok (texts', calls') ->
  Forall (fun call => tc_Type call = LLMToolTypeFunction /\ exact_text (tc_ID call) /\ exact_text (fc_Name (tc_Function call))) calls ->
  Forall (fun call => tc_Type call = LLMToolTypeFunction /\ exact_text (tc_ID call) /\ exact_text (fc_Name (tc_Function call))) calls'.
Proof.
  revert texts calls. induction l as [|[[text|]|id name input|ty] l IH]; cbn; intros texts calls H Hall; [by injection H as <- <-|by eauto..| |done].
  destruct (blank id) eqn:B1; [done|]. destruct (blank name) eqn:B2; [done|]. destruct (not_exact id) eqn:E1; [done|]. destruct (not_exact name) eqn:E2; [done|].
  cbn in H. destruct (match input with Some raw => json_compact raw | None => Some "null" end) as [arguments|]; [|done].
  eapply IH; [exact H|]. apply Forall_app. split; [done|]. by repeat constructor.
Qed.

Lemma convertAnthropic_ok r resp : convertAnthropicResponse r = Ok resp -> answer_ok true resp.
Proof.
  unfold convertAnthropicResponse. destruct (anthropic_blocks _ _ _) as [[texts calls]|] eqn:Hb; [|done].
  apply anthropic_blocks_calls in Hb; [|constructor]. rewrite Forall_forall in Hb.
  set (finish := if as_StopReason r =? "end_turn" then _ else _). assert (forall f, finish = Ok f -> f = LLMFinishReasonStop \/ f = LLMFinishReasonToolCalls) as Hf.
  { intros f. unfold finish. destruct (_ =? "end_turn"); [intros [= <-]; by left|]. destruct (_ =? "tool_use"); [|done]. intros [= <-]. by right. }
  destruct finish as [f|]; [|done]. specialize (Hf f eq_refl).
  destruct calls as [|call calls]; destruct Hf as [->| ->]; try done; intros [= <-]; apply one_choice_ok; try done.
  all: intros call' Hin; try (by apply elem_of_nil in Hin); by destruct (Hb call' Hin) as (? & ? & ?).
Qed.

Lemma gemini_calls_type parts uuids n call : call ∈ gemini_calls parts uuids n -> tc_Type call = LLMToolTypeFunction.
Proof.
  revert n. induction parts as [|part parts IH]; cbn; intros n H; [by apply elem_of_nil in H|].
  destruct (gp_Call part) as [[name args]|]; [|by eapply IH]. apply elem_of_cons in H as [->|H]; [done|by eapply IH].
Qed.
Lemma convertGemini_ok r uuids resp : convertGeminiResponse r uuids = Ok resp -> answer_ok false resp.
Proof.
  unfold convertGeminiResponse. destruct (r.1) as [|cand ?]; [done|]. destruct (_ && _); [done|]. intros [= <-].
  apply one_choice_ok; [by destruct (gemini_calls _ _ _)..|]. intros call Hin. split; [by eapply gemini_calls_type|done].
Qed.

(** * Lemmas: round trip *)

Definition plain_call (tc : LLMToolCall) : Prop := fc_ThoughtSignature (tc_Function tc) = "".

Lemma read_encode_function name arguments :
  read_function (JObj [("name", JStr name); ("arguments", JStr arguments)])
  = Some {| fc_Name := name; fc_Arguments := arguments; fc_ThoughtSignature := "" |}.
Proof. unfold read_function, struct_members. known_names. bind_text. cbn [bind_fields]. unfold string_field. by simplify_map_eq. Qed.

Lemma read_encode_call tc : plain_call tc -> read_call (encode_call tc) = Some tc.
Proof.
  destruct tc as [id ty [name arguments sig]]. intros Hsig. change (sig = "") in Hsig. subst sig. unfold read_call, encode_call, struct_members. cbn [tc_ID tc_Type tc_Function fc_Name fc_Arguments].
  known_names. bind_text. rewrite (bind_field _ "function" "function"); [|done|done|].
  2: { apply (accepts_field _ 2 "function" (is_struct read_function)); [done|]. unfold is_struct. rewrite read_encode_function. by apply bool_decide_eq_true_2. }
  cbn [bind_fields]. unfold string_field, struct_field. by simplify_map_eq.
Qed.

Lemma read_encode_calls calls : Forall plain_call calls -> mapM read_call (map encode_call calls) = Some calls.
Proof. intros H. apply mapM_Some_2. induction H; cbn; constructor; [by apply read_encode_call|done]. Qed.

Lemma read_message_MarshalJSON m :
  cm_Parts m = [] -> Forall plain_call (cm_ToolCalls m) -> read_message (message_MarshalJSON m) = Some m.
Proof.
  destruct m as [role content reasoning calls id parts]. cbn [cm_Parts cm_ToolCalls]. intros -> Hcalls.
  apply read_encode_calls in Hcalls. unfold read_message, message_MarshalJSON, struct_members, encode_calls.
  cbn [cm_Role cm_Content cm_ReasoningContent cm_ToolCalls cm_ToolCallID cm_Parts length Nat.eqb].
  assert (is_slice read_call (JArr (map encode_call calls)) = true) as Hslice.
  { unfold is_slice. rewrite Hcalls. by apply bool_decide_eq_true_2. }
  destruct calls as [|tc calls]; [|set (l := tc :: calls) in *; change (length l =? 0)%nat with false; cbv iota];
    cbn [length Nat.eqb]; opt_cases; subst; cbn [app]; known_names.
  all: repeat match goal with
       | |- context [bind_fields _ ((?k, JStr _) :: _) _] => rewrite (bind_field _ k k) by done
       | |- context [bind_fields _ (("tool_calls", _) :: _) _] =>
           rewrite (bind_field _ "tool_calls" "tool_calls") by (done || by apply (accepts_field _ 3 "tool_calls" (is_slice read_call)))
       end.
  all: cbn [bind_fields]; unfold string_field, slice_field; simplify_map_eq; by rewrite ?Hcalls.
Qed.

(** * Properties *)

Section properties.
Context {W : Type} (cfg : option LLMConfig).
Context (http : W -> string -> string -> WireRequest -> W * (HTTPResponse + TransportError)).
Context (create_messages : W -> AnthropicRequest -> W * res LLMError AnthropicResponse).
Context (google_endpoint : string -> string -> res LLMError string).
Context (uuids : W -> nat -> string).
Context (now : W -> time) (ctx_done : time -> W -> bool) (sleep : time -> W -> Z -> W * bool).
Local Abbreviation chat := (ChatWithTools cfg http create_messages google_endpoint uuids now ctx_done sleep) (only parsing).

Lemma call_provider_ok c w bundle specs w' resp :
  call_provider http create_messages google_endpoint uuids c w bundle specs = (w', Ok resp) ->
  answer_ok (negb (cf_Provider c =? "google")) resp.
Proof.
  unfold call_provider. destruct (cf_Provider c =? "anthropic") eqn:Ha.
  { apply String.eqb_eq in Ha. rewrite Ha. cbn. unfold chatAnthropic. destruct (create_messages _ _) as [? [r|]]; intros [= <- H]. by eapply convertAnthropic_ok. }
  destruct (cf_Provider c =? "google") eqn:Hg; cbn [negb].
  - unfold chatGoogle. destruct (google_request _ _); [|done]. destruct (google_endpoint _ _); [|done]. destruct (http _ _ _ _) as [? [r|]]; [|done].
    destruct (response_body r); [|done]. destruct (negb _); [done|]. unfold read_google. destruct (read_gemini_response _); intros [= <- H]. by eapply convertGemini_ok.
  - unfold chatOpenAI, chatOpenAIChatCompletions, exchange. destruct (resolveOpenAIEndpoint c) as [[endpoint kind]|]; [|done].
    destruct (kind =? openAIAPIChatCompletions); destruct (negb (serializable specs)); try done; destruct (http _ _ _ _) as [? [r|]]; try done;
      destruct (300 <=? hr_Status r)%Z; try done; destruct (response_body r); try done; intros [= <- H].
    + by eapply read_chat_ok.
    + by eapply read_responses_ok.
Qed.

Lemma attempts_ok c deadline bundle specs delays w w' resp :
  chat_attempts http create_messages google_endpoint uuids ctx_done sleep c deadline w bundle specs delays = (w', Ok resp) ->
  answer_ok (negb (cf_Provider c =? "google")) resp.
Proof.
  revert w. induction delays as [|d delays IH]; intros w; cbn [chat_attempts].
  all: destruct (ctx_done deadline w); [done|]; destruct (negb (known_provider c)); [done|].
  all: destruct (call_provider _ _ _ _ _ _ _ _) as [w1 [r|err]] eqn:Hc; [intros [= <- <-]; by eapply call_provider_ok|].
  - by destruct (isRetryableLLMError err).
  - destruct (isRetryableLLMError err); [|done]. cbn [negb]. destruct (sleep deadline w1 d) as [w2 []]; [done|]. apply IH.
Qed.

(** C29: an answer the client hands to the engine, from any of the four protocols and after
    any retries, has a choice; every choice is an assistant turn whose finish reason
    agrees with its calls, and every call is a function call whose identifier and name
    are neither blank nor padded, except that the names of Google's calls are not
    checked. *)
Theorem ChatWithTools_answer_ok w bundle specs :
  match chat w bundle specs with
  | (_, Ok resp) => exists c, cfg = Some c /\ answer_ok (negb (cf_Provider c =? "google")) resp
  | (_, Err _) => True
  end.
Proof.
  destruct (chat w bundle specs) as [w' [resp|]] eqn:H; [|done]. revert H. unfold ChatWithTools.
  destruct (validatePromptBundle bundle); [|done]. destruct bundle as [b|]; [|done]. destruct cfg as [c|]; [|done].
  destruct (blank _); [done|]. destruct (not_exact _); [done|]. intros H%attempts_ok. eauto.
Qed.

(** a chat makes at most four calls of the provider, a next one only after a failure
    that may pass; it returns the first answer, the first failure that will not pass, or
    the fourth that might, unless its time runs out; and a chat with an invalid bundle or
    without a usable key calls nobody. *)
Theorem ChatWithTools_attempts w bundle specs :
  match validatePromptBundle bundle, bundle, cfg with
  | Ok _, Some b, Some c =>
      known_provider c = true -> blank (cf_APIKey c) = false -> not_exact (cf_APIKey c) = false ->
      exists rs, tried http create_messages google_endpoint uuids ctx_done sleep c b specs (now w + llmRetryBudget c)%Z w retryDelays rs (chat w bundle specs).1
        /\ length rs <= 4 /\ attempts_end 3 rs (chat w bundle specs).2
  | _, _, _ => (chat w bundle specs).1 = w /\ is_ok (chat w bundle specs).2 = false
  end
  /\ forall c, cfg = Some c -> blank (cf_APIKey c) || not_exact (cf_APIKey c) = true ->
       (chat w bundle specs).1 = w /\ is_ok (chat w bundle specs).2 = false.
Proof.
  unfold ChatWithTools. split.
  - destruct (validatePromptBundle bundle); [|by destruct bundle, cfg]. destruct bundle as [b|]; [|done]. destruct cfg as [c|]; [|done].
    intros Hp -> ->. by apply attempts_tried.
  - intros c -> [Hb|Hb]%orb_true_iff; destruct (validatePromptBundle bundle); destruct bundle; try done; rewrite Hb; [done|]. by destruct (blank _).
Qed.
End properties.


(** for a history whose results are JSON objects recorded for the calls before them,
    whatever the arguments of the calls, the contents of the Google request are built, and
    each turn's calls are answered by name right after it. *)
Theorem google_request_answered bundle :
  recorded (pb_History bundle) -> exists contents, google_contents bundle = Ok contents /\ answered (flat_map wire_content contents).
Proof.
  intros H. unfold google_contents. destruct (google_history_answered ∅ _ H) as (cs & -> & Hcs). eexists. split; [reflexivity|].
  rewrite !flat_map_app. apply answered_plain.
  - induction (pb_RuntimeContext bundle) as [|block l IH]; cbn; [constructor|]. apply Forall_app. split; [|done].
    unfold wire_content, geminiParts. cbn. rewrite map_map. apply others_map. intros part. by destruct (mp_Kind part =? MessagePartImage).
  - apply Hcs. unfold task_item. destruct (_ =? ""); repeat constructor.
Qed.

(** the turn of an answer that is sent back in a Chat Completions request reads as the
    turn it was: text, reasoning, calls with their arguments byte for byte. *)
Theorem chat_message_roundtrip (msg : ConversationItem) :
  ci_Role msg = LLMRoleAssistant -> calls_tools msg = true \/ blank (ci_Content msg) = false ->
  exists m, chat_message msg = [m] /\ read_message (message_MarshalJSON m) = Some m
    /\ cm_Content m = ci_Content msg /\ cm_ReasoningContent m = ci_ReasoningContent msg /\ cm_ToolCalls m = map wire_call (ci_ToolCalls msg).
Proof.
  intros Hr Hsome. unfold chat_message. rewrite Hr. cbn [String.eqb].
  change (LLMRoleAssistant =? LLMRoleUser) with false. change (LLMRoleAssistant =? LLMRoleAssistant) with true. cbv iota.
  assert (negb (blank (ci_Content msg)) || (0 <? length (ci_ToolCalls msg))%nat = true) as ->.
  { destruct Hsome as [Hc| ->]; [|done]. apply calls_tools_role in Hc as [_ Hc]. destruct (ci_ToolCalls msg); [done|]. by rewrite orb_true_r. }
  eexists. split; [reflexivity|]. split; [|done]. apply read_message_MarshalJSON; [done|]. cbn. apply Forall_forall.
  by intros tc (tc' & -> & _)%list_elem_of_fmap.
Qed.

Definition sample_bundle : PromptBundle :=
  {| pb_Policy := "policy"; pb_PolicyAppendix := ""; pb_Task := "go on";
     pb_RuntimeContext := [text_block "facts" LLMRoleUser "f"];
     pb_History := [text_item LLMRoleUser "q"; calls_item "" [sample_call "c1" "sql"; sample_call "c2" "plot"];
                    tool_item "{}" "c1" "sql"; tool_item "null" "c2" ""; text_item LLMRoleAssistant "a"] |}.
Definition sample_config : LLMConfig :=
  {| cf_Provider := "openai"; cf_Model := "m"; cf_APIProtocol := "responses"; cf_APIEndpoint := "https://api"; cf_APIKey := "k";
     cf_ReasoningEffort := ""; cf_TextVerbosity := ""; cf_MaxTokens := 0; cf_RetryBudgetSec := 0 |}.


Lemma sample_recorded : recorded (pb_History sample_bundle).
Proof.
  cbn. apply recorded_plain; [reflexivity..|].
  apply (recorded_calls _ [tool_item "{}" "c1" "sql"; tool_item "null" "c2" ""]); [reflexivity..| | | | |].
  - cbn. apply NoDup_cons. split; [intros H; apply elem_of_cons in H as [H|H]; [discriminate H|by apply elem_of_nil in H]|].
    apply NoDup_cons. split; [apply not_elem_of_nil|apply NoDup_nil_2].
  - repeat constructor; cbn; try discriminate; vm_compute; reflexivity.
  - constructor; [|constructor; [|constructor]]; (split; [reflexivity|]; split; [vm_compute; discriminate|]).
    + exists (sample_call "c1" "sql"). split; [by left|]. split; [reflexivity|by right].
    + exists (sample_call "c2" "plot"). split; [by right; left|]. split; [reflexivity|by left].
  - constructor; [|constructor; [|constructor]]; left; cbn; [by left|by right; left].
  - apply recorded_plain; [reflexivity..|constructor].
Qed.
Lemma google_request_answered_witness :
  exists contents, google_contents sample_bundle = Ok contents /\ answered (flat_map wire_content contents)
    /\ flat_map wire_content contents = [WOther; WOther; WCall "sql"; WCall "plot"; WResult "sql"; WResult "plot"; WOther; WOther].
Proof.
  destruct (google_request_answered sample_bundle sample_recorded) as (contents & Hc & Ha). exists contents. split; [exact Hc|]. split; [exact Ha|].
  assert (google_contents sample_bundle = Ok contents -> flat_map wire_content contents = [WOther; WOther; WCall "sql"; WCall "plot"; WResult "sql"; WResult "plot"; WOther; WOther]) as H.
  { vm_compute. intros [= <-]. reflexivity. }
  exact (H Hc).
Defined.

Lemma chat_message_roundtrip_witness :
  exists m, chat_message (calls_item "look" [sample_call "c1" "sql"]) = [m] /\ read_message (message_MarshalJSON m) = Some m.
Proof.
  destruct (chat_message_roundtrip (calls_item "look" [sample_call "c1" "sql"]) eq_refl (or_introl eq_refl)) as (m & H1 & H2 & _).
  exists m. split; [exact H1|exact H2].
Defined.

Definition no_context (_ : time) (_ : unit) : bool := false.
Definition no_wait (_ : time) (w : unit) (_ : Z) : unit * bool := (w, false).
(** A provider that is always overloaded is called four times. *)
Example overloaded_provider :
  ChatWithTools (W := unit) (Some sample_config) (fun w _ _ _ => (w, inl {| hr_Status := 503; hr_Body := " busy "; hr_Read := None |}))
    (fun w _ => (w, Err (EPlain ""))) (fun e _ => Ok e) (fun _ _ => "u") (fun _ => 0%Z) no_context no_wait tt (Some sample_bundle) []
  = (tt, Err (ChatExhausted (EStatus 503 "busy"))).
Proof. vm_compute. reflexivity. Qed.

(** * What the client does not do *)

(** The comment in [chatGoogle] says that continuation turns cannot produce consecutive
    user contents; the facts and the question, and the results of two calls, are such. *)
Lemma google_consecutive_users :
  match google_contents sample_bundle with Ok contents => map gc_Role contents | Err _ => [] end
  = ["user"; "user"; "model"; "user"; "user"; "model"; "user"].
Proof. vm_compute. reflexivity. Qed.

(** A Google call without a name is handed to the engine; the other protocols refuse it. *)
Lemma google_blank_name uuids usage :
  let part := {| gp_Text := ""; gp_Call := Some ("", None); gp_ThoughtSignature := "" |} in
  exists resp call, convertGeminiResponse ([{| gd_Parts := [part]; gd_FinishReason := "STOP" |}], usage) uuids = Ok resp
    /\ map (fun c => lm_ToolCalls (ch_Message c)) (rs_Choices resp) = [[call]] /\ fc_Name (tc_Function call) = "".
Proof. do 2 eexists. split; [reflexivity|]. split; reflexivity. Qed.

(** An Anthropic answer cut at the token limit is refused with its text, and not retried;
    the other protocols keep a usable partial answer. *)
Lemma anthropic_partial_refused text :
  exists e, convertAnthropicResponse {| as_Content := [ABText (Some text)]; as_StopReason := "max_tokens"; as_InputTokens := 0; as_OutputTokens := 0 |} = Err e
    /\ isRetryableLLMError e = false.
Proof. eexists. split; reflexivity. Qed.
Lemma google_partial_kept text uuids usage :
  is_ok (convertGeminiResponse ([{| gd_Parts := [{| gp_Text := text; gp_Call := None; gp_ThoughtSignature := "" |}]; gd_FinishReason := "MAX_TOKENS" |}], usage) uuids) = true.
Proof. reflexivity. Qed.

(** The test for an expired context comes first: a request that ran into the HTTP client's
    own timeout, whose error is both, is not retried. *)
Lemma client_timeout_not_retried temporary sentinel :
  isRetryableLLMError (ETransport {| te_context := true; te_net := Some (true, temporary); te_sentinel := sentinel |}) = false.
Proof. reflexivity. Qed.
