(* ===== verification/Spill.v ===== *)
(** Tool results too large for the conversation ([agent/spill.go]) and the tool that pages
    through them ([agent/state_tools.go], [InspectToolResultTool]), with the sweeping of the
    directory they live in ([session/cleanup.go]).

    The directory is a map from identifier to file content with the time of its last
    change; a write may fail and leave a part of the file. *)
From S2P Require Import Prelude GoStrings Json JsonRoundtrip Conversation Jobs Tools Receipts Compaction.
From Stdlib Require Import Ascii.
Open Scope string_scope.
Open Scope list_scope.

Definition maxSpilledResultBytes : Z := Z.shiftl 8 20.
Definition spillIDBytes : nat := 16.
Definition maxWindow : Z := 6000.
Definition staleAge : Z := 4 * Hour.

Record SpillDir := { sd_files : gmap string string; sd_mtime : time }.

Inductive SpillError :=
| ESpillEmpty | ESpillLimit | ESpillDirectory | ESpillWrite
| ESpillID | ESpillMissing (id : string) | ESpillOffset | ESpillArguments.

(** What goes wrong with the disk; a failed write may leave the first bytes of the file. *)
Inductive DiskFault := NoFault | MkdirFails | WriteFails (kept : option nat).

Section spill.
Context (sha256hex : string -> string).

(** The first 16 bytes of the digest, in hexadecimal. *)
Definition spill_id (content : string) : string := String.substring 0 (2 * spillIDBytes) (sha256hex content).

Definition spillToolResult (d : SpillDir) (now : time) (fault : DiskFault) (content : string) : SpillDir * res SpillError string :=
  if (len content =? 0)%Z then (d, Err ESpillEmpty)
  else if (maxSpilledResultBytes <? len content)%Z then (d, Err ESpillLimit)
  else
    let id := spill_id content in
    match fault with
    | MkdirFails => (d, Err ESpillDirectory)
    | _ =>
        match sd_files d !! id with
        | Some _ => (d, Ok id)
        | None =>
            match fault with
            | WriteFails None => (d, Err ESpillWrite)
            | WriteFails (Some n) =>
                ({| sd_files := <[id := String.substring 0 n content]> (sd_files d); sd_mtime := now |}, Err ESpillWrite)
            | _ => ({| sd_files := <[id := content]> (sd_files d); sd_mtime := now |}, Ok id)
            end
        end
    end.
End spill.

Definition is_lower_hex (a : ascii) : bool :=
  ((48 <=? byteZ a)%Z && (byteZ a <=? 57)%Z) || ((97 <=? byteZ a)%Z && (byteZ a <=? 102)%Z).
Definition validSpillID (id : string) : bool :=
  (len id =? 2 * Z.of_nat spillIDBytes)%Z && forallb is_lower_hex (String.list_ascii_of_string id).

(** A window of the runes, and how many there are. *)
Definition readSpilledToolResult (d : SpillDir) (id : string) (offset limit : Z) : res SpillError (string * Z) :=
  guard validSpillID id else ESpillID ;;
  match sd_files d !! id with
  | None => Err (ESpillMissing id)
  | Some raw =>
      let rs := runes raw in
      let total := Z.of_nat (length rs) in
      guard negb (offset <? 0)%Z else ESpillOffset ;;
      let offset := Z.min offset total in
      let limit := if (limit <=? 0)%Z || (maxWindow <? limit)%Z then maxWindow else limit in
      let stop := Z.min (offset + limit) total in
      Ok (string_of_runes (take (Z.to_nat (stop - offset)) (drop (Z.to_nat offset) rs)), total)
  end.

(** [InspectToolResultTool.Execute] *)
Definition inspect_result (d : SpillDir) (id : string) (offset limit : Z) : res SpillError (string * Z * bool) :=
  let? window := readSpilledToolResult d id offset limit in
  let '(content, total) := window in
  Ok (content, total, (offset + Z.of_nat (length (runes content)) <? total)%Z).
Definition InspectToolResult_Execute (d : SpillDir) (args : string) : res SpillError string :=
  match decode_struct [("result_id", is_jstr); ("offset", is_jint); ("limit", is_jint)] args with
  | None => Err ESpillArguments
  | Some m =>
      let id := string_field m "result_id" in
      let offset := int_field m "offset" in
      let? window := inspect_result d id offset (int_field m "limit") in
      let '(content, total, more) := window in
      Ok (MarshalMap
        [("ok", JBool true); ("tool", JStr "state_tool_result_inspect"); ("result_id", JStr id); ("total_chars", JNum (itoa total));
         ("offset", JNum (itoa offset)); ("content", JStr content); ("has_more", JBool more);
         ("ui_summary", JStr "已读取超出上下文上限的工具结果片段。")])
  end.

(** [cleanupStaleTemp]: the hourly sweep removes what has not changed for four hours; the
    spill directory is one entry, whose time is that of its last new file.
    [CleanupTempDir]: on start, if it is configured. *)
Definition cleanupStaleTemp (d : SpillDir) (now : time) : SpillDir :=
  if Before (sd_mtime d) (now - staleAge)%Z then {| sd_files := ∅; sd_mtime := sd_mtime d |} else d.
Definition CleanupTempDir (d : SpillDir) : SpillDir := {| sd_files := ∅; sd_mtime := sd_mtime d |}.

(** * Specification *)

(** What else happens to the directory: time passes, results are spilled, the sweep runs. *)
Inductive spill_step (sha256hex : string -> string) : SpillDir * time -> SpillDir * time -> Prop :=
| SpTime d t t' : (t <= t')%Z -> spill_step sha256hex (d, t) (d, t')
| SpSpill d t fault content : spill_step sha256hex (d, t) ((spillToolResult sha256hex d t fault content).1, t)
| SpSweep d t : spill_step sha256hex (d, t) (cleanupStaleTemp d t, t).

(** A reader that asks for one window after the other while there are more. *)
Fixpoint read_pages (fuel : nat) (d : SpillDir) (id : string) (offset : Z) : option string :=
  match fuel with
  | O => None
  | S fuel =>
      match inspect_result d id offset 0 with
      | Err _ => None
      | Ok (content, total, more) =>
          if more then
            let! rest := read_pages fuel d id (offset + Z.of_nat (length (runes content)))%Z in Some (content ++ rest)%string
          else Some content
      end
  end.

(** * Lemmas: runes *)

Definition scalar (r : Z) : Prop := (0 <= r <= 1114111 /\ ~ (55296 <= r <= 57343))%Z.

Lemma decode_encode_rune r tail :
  scalar r -> decode_rune (encode_rune r ++ tail) = (r, length (encode_rune r)).
Proof.
  intros [Hr Hs]. unfold encode_rune.
  replace ((r <? 0)%Z || (1114111 <? r)%Z || ((55296 <=? r)%Z && (r <=? 57343)%Z)) with false by lia.
  destruct (Z.ltb_spec r 128) as [L1|L1]; [|destruct (Z.ltb_spec r 2048) as [L2|L2]; [|destruct (Z.ltb_spec r 65536) as [L3|L3]]].
  - cbn. rewrite byteZ_asciiZ by lia. by replace (r <? 128)%Z with true by lia.
  - assert (2 <= r / 64 < 32 /\ 0 <= r mod 64 < 64 /\ r = r / 64 * 64 + r mod 64)%Z as (H1 & H2 & H3) by (Z.div_mod_to_equations; lia).
    cbn. rewrite !byteZ_asciiZ by lia. generalize dependent (r mod 64)%Z. generalize dependent (r / 64)%Z. intros q Hq m Hm Heq.
    replace (192 + q <? 128)%Z with false by lia. replace (192 + q =? 224)%Z with false by lia. replace (192 + q =? 240)%Z with false by lia.
    replace (192 + q =? 237)%Z with false by lia. replace (192 + q =? 244)%Z with false by lia.
    replace ((128 <=? 128 + m)%Z && (128 + m <=? 191)%Z) with true by lia. cbn.
    replace ((194 <=? 192 + q)%Z && (192 + q <=? 223)%Z) with true by lia. f_equal. lia.
  - assert (0 <= r / 4096 < 16 /\ 0 <= (r / 64) mod 64 < 64 /\ 0 <= r mod 64 < 64 /\ r = r / 4096 * 4096 + (r / 64) mod 64 * 64 + r mod 64)%Z as (H1 & H2 & H3 & H4)
      by (Z.div_mod_to_equations; lia).
    cbn. rewrite !byteZ_asciiZ by lia. unfold is_cont. rewrite !byteZ_asciiZ by lia.
    generalize dependent (r mod 64)%Z. generalize dependent ((r / 64) mod 64)%Z. generalize dependent (r / 4096)%Z. intros q Hq m Hm c Hc Heq.
    replace (224 + q <? 128)%Z with false by lia. replace (224 + q =? 240)%Z with false by lia. replace (224 + q =? 244)%Z with false by lia.
    set (lo := if (224 + q =? 224)%Z then 160%Z else 128%Z). set (hi := if (224 + q =? 237)%Z then 159%Z else 191%Z).
    assert ((lo <=? 128 + m)%Z && (128 + m <=? hi)%Z = true) as ->.
    { subst lo hi. destruct (Z.eqb_spec (224 + q) 224), (Z.eqb_spec (224 + q) 237); lia. }
    cbn. replace ((194 <=? 224 + q)%Z && (224 + q <=? 223)%Z) with false by lia.
    replace ((128 <=? 128 + c)%Z && (128 + c <=? 191)%Z) with true by lia. cbn.
    replace ((224 <=? 224 + q)%Z && (224 + q <=? 239)%Z) with true by lia. f_equal. lia.
  - assert (0 <= r / 262144 < 5 /\ 0 <= (r / 4096) mod 64 < 64 /\ 0 <= (r / 64) mod 64 < 64 /\ 0 <= r mod 64 < 64
      /\ r = r / 262144 * 262144 + (r / 4096) mod 64 * 4096 + (r / 64) mod 64 * 64 + r mod 64)%Z as (H1 & H2 & H3 & H4 & H5) by (Z.div_mod_to_equations; lia).
    cbn. rewrite !byteZ_asciiZ by lia. unfold is_cont. rewrite !byteZ_asciiZ by lia.
    generalize dependent (r mod 64)%Z. generalize dependent ((r / 64) mod 64)%Z. generalize dependent ((r / 4096) mod 64)%Z. generalize dependent (r / 262144)%Z.
    intros q Hq m Hm c Hc e He Heq.
    replace (240 + q <? 128)%Z with false by lia. replace (240 + q =? 224)%Z with false by lia. replace (240 + q =? 237)%Z with false by lia.
    set (lo := if (240 + q =? 240)%Z then 144%Z else 128%Z). set (hi := if (240 + q =? 244)%Z then 143%Z else 191%Z).
    assert ((lo <=? 128 + m)%Z && (128 + m <=? hi)%Z = true) as ->.
    { subst lo hi. destruct (Z.eqb_spec (240 + q) 240), (Z.eqb_spec (240 + q) 244); lia. }
    cbn. replace ((194 <=? 240 + q)%Z && (240 + q <=? 223)%Z) with false by lia.
    replace ((128 <=? 128 + c)%Z && (128 + c <=? 191)%Z) with true by lia. cbn.
    replace ((224 <=? 240 + q)%Z && (240 + q <=? 239)%Z) with false by lia.
    replace ((128 <=? 128 + e)%Z && (128 + e <=? 191)%Z) with true by lia. cbn.
    replace ((240 <=? 240 + q)%Z && (240 + q <=? 244)%Z) with true by lia. f_equal. lia.
Qed.

Lemma encode_rune_length r : (1 <= length (encode_rune r) <= 4)%nat.
Proof. unfold encode_rune. repeat case_match; cbn; lia. Qed.

Lemma decode_rune_scalar l r w : decode_rune l = (r, w) -> l <> [] -> scalar r.
Proof.
  unfold decode_rune, scalar. destruct l as [|a l]; [done|]. intros H _. pose proof (byteZ_range a).
  destruct (Z.ltb_spec (byteZ a) 128); [injection H as <- _; lia|].
  destruct l as [|b l]; [injection H as <- _; unfold RuneError; lia|]. pose proof (byteZ_range b).
  destruct (negb _) eqn:Hb; [injection H as <- _; unfold RuneError; lia|]. apply negb_false_iff, andb_true_iff in Hb as [Hb1 Hb2].
  destruct ((194 <=? byteZ a)%Z && _) eqn:Ha; [injection H as <- _; lia|].
  destruct l as [|c l]; [injection H as <- _; unfold RuneError; lia|]. pose proof (byteZ_range c). unfold is_cont in H.
  destruct (negb _) eqn:Hc; [injection H as <- _; unfold RuneError; lia|]. apply negb_false_iff in Hc.
  destruct ((224 <=? byteZ a)%Z && _) eqn:Ha3.
  { injection H as <- _. destruct (Z.eqb_spec (byteZ a) 224), (Z.eqb_spec (byteZ a) 240), (Z.eqb_spec (byteZ a) 237), (Z.eqb_spec (byteZ a) 244); lia. }
  destruct l as [|d l]; [injection H as <- _; unfold RuneError; lia|]. pose proof (byteZ_range d).
  destruct (_ && _ && _) eqn:Hd; [|injection H as <- _; unfold RuneError; lia]. injection H as <- _.
  destruct (Z.eqb_spec (byteZ a) 224), (Z.eqb_spec (byteZ a) 240), (Z.eqb_spec (byteZ a) 237), (Z.eqb_spec (byteZ a) 244); lia.
Qed.

Lemma decode_runes_scalar fuel l : Forall scalar (decode_runes fuel l).
Proof.
  revert l. induction fuel as [|fuel IH]; intros l; [constructor|]. destruct l as [|a l]; [constructor|]. cbn [decode_runes].
  destruct (decode_rune (a :: l)) as [r w] eqn:H. constructor; [|apply IH]. by eapply decode_rune_scalar.
Qed.

Lemma decode_runes_encode rs fuel tail :
  Forall scalar rs -> (length (List.concat (map encode_rune rs)) <= fuel)%nat ->
  decode_runes fuel (List.concat (map encode_rune rs) ++ tail) = rs ++ decode_runes (fuel - length rs) tail.
Proof.
  intros Hrs. revert fuel. induction Hrs as [|r rs Hr _ IH]; intros fuel Hf; cbn; [by rewrite Nat.sub_0_r|].
  cbn in Hf. rewrite length_app in Hf. pose proof (encode_rune_length r). destruct fuel as [|fuel]; [lia|].
  rewrite <- app_assoc. pose proof (decode_encode_rune r (List.concat (map encode_rune rs) ++ tail) Hr) as Hd.
  cbn [decode_runes]. destruct (encode_rune r ++ _) as [|a l] eqn:Hl. { apply (f_equal length) in Hl. rewrite length_app in Hl. cbn in Hl. lia. }
  rewrite Hd, <- Hl, drop_app_length. f_equal. rewrite IH by lia. done.
Qed.

Lemma length_text l : String.length (String.string_of_list_ascii l) = length l.
Proof. induction l as [|a l IH]; cbn; [done|]. by rewrite IH. Qed.
Lemma length_chars s : length (String.list_ascii_of_string s) = String.length s.
Proof. induction s as [|a s IH]; cbn; [done|]. by rewrite IH. Qed.

Lemma runes_of_runes rs : Forall scalar rs -> runes (string_of_runes rs) = rs.
Proof.
  intros H. unfold runes, string_of_runes. rewrite String.list_ascii_of_string_of_list_ascii.
  set (l := List.concat (map encode_rune rs)). rewrite length_text.
  pose proof (decode_runes_encode rs (length l) [] H ltac:(done)) as Hd. rewrite app_nil_r in Hd. fold l in Hd. rewrite Hd.
  destruct (length l - length rs); cbn; by rewrite app_nil_r.
Qed.

Lemma encode_runes_valid fuel l :
  (length l <= fuel)%nat -> utf8_loop fuel l = true -> List.concat (map encode_rune (decode_runes fuel l)) = l.
Proof.
  revert l. induction fuel as [|fuel IH]; intros [|a l] Hf; cbn [decode_runes utf8_loop]; try done; [cbn in Hf; lia|].
  destruct (decode_rune (a :: l)) as [r w] eqn:Hd. intros [Hr Hv]%andb_true_iff. apply negb_true_iff in Hr.
  destruct (Z.ltb_spec (byteZ a) 128) as [Ha|Ha].
  - unfold decode_rune in Hd. rewrite (proj2 (Z.ltb_lt _ _) Ha) in Hd. injection Hd as <- <-. cbn [map List.concat].
    change (drop 1 (a :: l)) with l in *. rewrite IH by (done || (cbn in Hf; lia)). unfold encode_rune. pose proof (byteZ_range a).
    replace ((byteZ a <? 0)%Z || (1114111 <? byteZ a)%Z || ((55296 <=? byteZ a)%Z && (byteZ a <=? 57343)%Z)) with false by lia.
    replace (byteZ a <? 128)%Z with true by lia. cbn. by rewrite asciiZ_byteZ.
  - destruct (decode_rune_ok a l r w Ha Hd) as (bs & rest & Hl & Hw & Hlt & He & _).
    { intros [-> ->]. cbn in Hr. done. }
    rewrite Hl in *. subst w. rewrite drop_app_length in *. cbn [map List.concat]. rewrite He. f_equal. apply IH; [|done].
    rewrite length_app in Hf. lia.
Qed.
Lemma string_of_runes_runes s : ValidString s = true -> string_of_runes (runes s) = s.
Proof.
  intros H. unfold string_of_runes, runes. rewrite encode_runes_valid; [apply String.string_of_list_ascii_of_string|by rewrite length_chars|done].
Qed.

Lemma string_of_runes_app a b : string_of_runes (a ++ b) = (string_of_runes a ++ string_of_runes b)%string.
Proof.
  unfold string_of_runes. rewrite map_app, List.concat_app. generalize (List.concat (map encode_rune a)) (List.concat (map encode_rune b)). intros x y.
  induction x as [|c x IH]; cbn; [done|]. by rewrite IH.
Qed.

(** * Lemmas: reading *)

Lemma inspect_window d id raw offset :
  sd_files d !! id = Some raw -> validSpillID id = true -> (0 <= offset <= Z.of_nat (length (runes raw)))%Z ->
  inspect_result d id offset 0
  = Ok (string_of_runes (take (Z.to_nat 6000) (drop (Z.to_nat offset) (runes raw))), Z.of_nat (length (runes raw)),
        (offset + 6000 <? Z.of_nat (length (runes raw)))%Z)
  /\ length (runes (string_of_runes (take (Z.to_nat 6000) (drop (Z.to_nat offset) (runes raw))))) = length (take (Z.to_nat 6000) (drop (Z.to_nat offset) (runes raw))).
Proof.
  intros Hf Hid Ho. assert (Forall scalar (runes raw)) as Hs by apply decode_runes_scalar.
  assert (forall n m, runes (string_of_runes (take n (drop m (runes raw)))) = take n (drop m (runes raw))) as Hrr.
  { intros n m. apply runes_of_runes. apply Forall_take, Forall_drop. done. }
  split; [|by rewrite Hrr]. unfold inspect_result, readSpilledToolResult. rewrite Hid, Hf. unfold maxWindow.
  replace (negb (offset <? 0)%Z) with true by lia. change ((0 <=? 0)%Z || (6000 <? 0)%Z) with true. cbv iota zeta.
  set (total := Z.of_nat (length (runes raw))) in *. rewrite (Z.min_l offset total) by lia.
  set (l := drop (Z.to_nat offset) (runes raw)).
  assert (length l = Z.to_nat (total - offset)) as Hl by (subst l total; rewrite length_drop; lia).
  assert (take (Z.to_nat (Z.min (offset + 6000) total - offset)) l = take (Z.to_nat 6000) l) as ->.
  { destruct (Z.leb_spec (offset + 6000) total).
    - rewrite Z.min_l by lia. by replace (offset + 6000 - offset)%Z with 6000%Z by lia.
    - rewrite Z.min_r by lia. rewrite !take_ge by lia. done. }
  do 2 f_equal. subst l. rewrite Hrr, length_take, Hl. destruct (Z.ltb_spec (offset + 6000) total); [apply Z.ltb_lt|apply Z.ltb_ge]; lia.
Qed.

Lemma read_pages_spec d id raw offset fuel :
  sd_files d !! id = Some raw -> validSpillID id = true -> (0 <= offset <= Z.of_nat (length (runes raw)))%Z ->
  (Z.of_nat (length (runes raw)) - offset < 6000 * Z.of_nat fuel)%Z ->
  read_pages fuel d id offset = Some (string_of_runes (drop (Z.to_nat offset) (runes raw))).
Proof.
  intros Hf Hid. revert offset. induction fuel as [|fuel IH]; intros offset Ho Hfuel; [lia|].
  cbn [read_pages]. destruct (inspect_window d id raw offset Hf Hid Ho) as [-> Hlen]. set (l := drop (Z.to_nat offset) (runes raw)) in *.
  assert (length l = Z.to_nat (Z.of_nat (length (runes raw)) - offset)) as Hl by (subst l; rewrite length_drop; lia).
  destruct (Z.ltb_spec (offset + 6000) (Z.of_nat (length (runes raw)))) as [Hmore|Hmore].
  - rewrite Hlen, length_take, Hl. replace (offset + Z.of_nat (Z.to_nat 6000 `min` Z.to_nat (Z.of_nat (length (runes raw)) - offset)))%Z with (offset + 6000)%Z by lia.
    rewrite IH by lia. rewrite <- string_of_runes_app. do 2 f_equal. subst l. replace (Z.to_nat (offset + 6000)) with (Z.to_nat offset + Z.to_nat 6000)%nat by lia.
    rewrite <- drop_drop. apply take_drop.
  - f_equal. f_equal. apply take_ge. lia.
Qed.

(** * Lemmas: the directory *)

Section directory.
Context (sha256hex : string -> string).

Lemma spill_mtime d t fault content :
  sd_mtime (spillToolResult sha256hex d t fault content).1 = sd_mtime d \/ sd_mtime (spillToolResult sha256hex d t fault content).1 = t.
Proof. unfold spillToolResult. repeat case_match; auto. Qed.

Lemma spill_keeps d t fault content id raw :
  sd_files d !! id = Some raw -> sd_files (spillToolResult sha256hex d t fault content).1 !! id = Some raw.
Proof.
  intros H. unfold spillToolResult. repeat case_match; try done; cbn; (rewrite lookup_insert_ne; [done|congruence]).
Qed.

(** A stored result stays until the directory has not changed for four hours. *)
Lemma spilled_stays a b id raw limit :
  rtc (spill_step sha256hex) a b -> sd_files a.1 !! id = Some raw -> (limit <= sd_mtime a.1 + staleAge)%Z -> (sd_mtime a.1 <= a.2)%Z -> (b.2 <= limit)%Z ->
  sd_files b.1 !! id = Some raw.
Proof.
  intros Hsteps. assert (forall x y, rtc (spill_step sha256hex) x y -> (x.2 <= y.2)%Z) as Hmono.
  { clear. intros x y. induction 1 as [|x y z Hxy _ IH]; [done|]. inversion Hxy; subst; cbn in *; lia. }
  revert limit. induction Hsteps as [|x y z Hxy Hyz IH]; intros limit Hf Hlim Hm Hb; [done|]. apply Hmono in Hyz as Hle.
  inversion Hxy; subst; cbn in *.
  - apply (IH limit); cbn; [done|lia|lia|lia].
  - destruct (spill_mtime d t fault content) as [Hmt|Hmt]; apply (IH limit); cbn; rewrite ?Hmt; try lia; by apply spill_keeps.
  - assert (cleanupStaleTemp d t = d) as Hd.
    { unfold cleanupStaleTemp, Before. destruct (Z.ltb_spec (sd_mtime d) (t - staleAge)); [lia|done]. }
    rewrite Hd in IH. by apply (IH limit).
Qed.

Lemma spill_stored d t fault content d' id :
  spillToolResult sha256hex d t fault content = (d', Ok id) ->
  id = spill_id sha256hex content /\ (sd_files d !! id = None \/ sd_files d !! id = Some content -> sd_files d' !! id = Some content).
Proof.
  unfold spillToolResult. intros H. repeat case_match; simplify_eq; (split; [done|]); intros [Hn|Hs]; cbn; simplify_eq; try done; try congruence.
  all: by rewrite lookup_insert_eq.
Qed.
End directory.

(** * Properties *)

(** C30: a result that was spilled is read back exactly by paging through it from the start,
    in windows of at most 6000 runes that end where the tool says there is no more, as
    long as no other file has its identifier and the directory changed within the last
    four hours, whatever is spilled, fails or is swept in between. *)
Theorem spilled_result_recoverable sha256hex d now fault content d' id b :
  ValidString content = true -> validSpillID (spill_id sha256hex content) = true ->
  sd_files d !! spill_id sha256hex content = None \/ sd_files d !! spill_id sha256hex content = Some content ->
  spillToolResult sha256hex d now fault content = (d', Ok id) -> (sd_mtime d' <= now)%Z ->
  rtc (spill_step sha256hex) (d', now) b -> (b.2 <= sd_mtime d' + staleAge)%Z ->
  (forall fuel, (Z.of_nat (length (runes content)) < 6000 * Z.of_nat fuel)%Z -> read_pages fuel b.1 id 0 = Some content)
  /\ forall offset limit window total, readSpilledToolResult b.1 id offset limit = Ok (window, total) ->
       total = Z.of_nat (length (runes content)) /\ (Z.of_nat (length (runes window)) <= 6000)%Z.
Proof.
  intros Hv Hid Hfree Hspill Hm Hsteps Hb. destruct (spill_stored _ _ _ _ _ _ _ Hspill) as [-> Hst]. specialize (Hst Hfree).
  assert (sd_files b.1 !! spill_id sha256hex content = Some content) as Hf by (eapply spilled_stays; [exact Hsteps|done|done|done|done]).
  split.
  - intros fuel Hfuel. rewrite (read_pages_spec b.1 _ content 0 fuel Hf Hid) by lia. change (drop (Z.to_nat 0) (runes content)) with (runes content). by rewrite string_of_runes_runes.
  - intros offset limit window total. unfold readSpilledToolResult. rewrite Hid, Hf. destruct (negb _) eqn:Ho; [|done]. intros [= <- <-]. split; [done|].
    rewrite runes_of_runes by (apply Forall_take, Forall_drop, decode_runes_scalar). rewrite length_take. unfold maxWindow.
    destruct ((limit <=? 0)%Z || (6000 <? limit)%Z) eqn:Hl; lia.
Qed.

(** an identifier that the tool accepts is 32 lowercase hexadecimal digits, so the file
    it names is in the directory: no separator and no dot can stand in it. *)
Theorem inspect_stays_inside d id offset limit :
  match readSpilledToolResult d id offset limit with
  | Ok _ => String.length id = 32%nat /\ Forall (fun a => a <> "/"%char /\ a <> "."%char /\ a <> "\"%char) (String.list_ascii_of_string id)
  | Err _ => True
  end.
Proof.
  unfold readSpilledToolResult. destruct (validSpillID id) eqn:Hid; [|done]. destruct (sd_files d !! id); [|done]. destruct (negb _); [|done].
  unfold validSpillID, spillIDBytes in Hid. apply andb_true_iff in Hid as [Hlen Hhex]. apply Z.eqb_eq in Hlen. unfold len in Hlen. split; [lia|].
  rewrite forallb_forall in Hhex. apply Forall_forall. intros a Ha%list_elem_of_In. specialize (Hhex a Ha).
  split; [|split]; intros ->; vm_compute in Hhex; done.
Qed.

Definition toy_hash (s : string) : string := if s =? "data" then "00000000000000000000000000000001" else "00000000000000000000000000000002".
Definition empty_dir : SpillDir := {| sd_files := ∅; sd_mtime := 0 |}.
Definition spilled_dir : SpillDir := {| sd_files := {["00000000000000000000000000000001" := "data"]}; sd_mtime := 5 |}.

Lemma spilled_result_recoverable_witness :
  read_pages 1 spilled_dir "00000000000000000000000000000001" 0 = Some "data".
Proof.
  assert (spillToolResult toy_hash empty_dir 5%Z NoFault "data" = (spilled_dir, Ok "00000000000000000000000000000001")) as Hs by (vm_compute; reflexivity).
  assert (sd_files empty_dir !! spill_id toy_hash "data" = None) as Hn by reflexivity.
  destruct (spilled_result_recoverable toy_hash empty_dir 5%Z NoFault "data" spilled_dir "00000000000000000000000000000001" (spilled_dir, 5%Z)
              eq_refl eq_refl (or_introl Hn) Hs ltac:(cbn; lia) (rtc_refl _ _) ltac:(cbn; unfold staleAge, Hour, Minute, Second; lia)) as [H _].
  apply (H 1%nat). vm_compute. reflexivity.
Defined.

(** * What the store does not keep *)

(** The directory is one entry of the temporary directory: once nothing new was spilled
    for four hours the hourly sweep removes every result, also those a conversation still
    names; and spilling a result again does not renew it. *)
Lemma respilled_then_swept sha256hex d now content :
  (0 < len content <= maxSpilledResultBytes)%Z -> sd_files d !! spill_id sha256hex content = Some content -> (sd_mtime d < now - staleAge)%Z ->
  spillToolResult sha256hex d now NoFault content = (d, Ok (spill_id sha256hex content))
  /\ readSpilledToolResult (cleanupStaleTemp d now) (spill_id sha256hex content) 0 0
     = (if validSpillID (spill_id sha256hex content) then Err (ESpillMissing (spill_id sha256hex content)) else Err ESpillID).
Proof.
  intros Hl Hf Hm. split.
  - unfold spillToolResult. destruct (Z.eqb_spec (len content) 0); [lia|]. destruct (Z.ltb_spec maxSpilledResultBytes (len content)); [lia|]. by rewrite Hf.
  - unfold cleanupStaleTemp, Before. rewrite (proj2 (Z.ltb_lt _ _)) by done. unfold readSpilledToolResult. by destruct (validSpillID _).
Qed.

(** A write that was cut short is taken for the whole result from then on. *)
Lemma torn_write_is_kept :
  let d1 := (spillToolResult toy_hash empty_dir 1%Z (WriteFails (Some 2%nat)) "data").1 in
  (spillToolResult toy_hash d1 2%Z NoFault "data").2 = Ok (spill_id toy_hash "data")
  /\ read_pages 1 (spillToolResult toy_hash d1 2%Z NoFault "data").1 (spill_id toy_hash "data") 0 = Some "da".
Proof. split; vm_compute; reflexivity. Qed.

(** A page of at most 6000 runes is itself a tool result, and its encoding may pass the
    8192 runes the conversation keeps: then its middle is cut again. *)
Definition markup : string := str_text (repeat "<"%char 1500).
Definition markup_dir : SpillDir := {| sd_files := {["00000000000000000000000000000002" := markup]}; sd_mtime := 5 |}.
Lemma page_is_cut_again :
  match InspectToolResult_Execute markup_dir (Marshal (JObj [("result_id", JStr "00000000000000000000000000000002")])) with
  | Ok page => (toolResultHistoryThresholdChars <? length (runes page))%nat
  | Err _ => false
  end = true.
Proof. vm_compute. reflexivity. Qed.
