(* ===== verification/StateTools.v ===== *)
(** The tools that show and change the agent's own state: goals and working memory
    ([agent/worker.go], [agentic_tools.go]), jobs ([job_tools.go]), the report's facts
    ([state_tools.go]) and the question to the user ([agentic_tools.go]).

    A tool takes the state it works on and returns it with the events it emitted and its
    result, the JSON text of a payload.  The text of a time, which depends on the server's
    zone, is an argument. *)
From S2P Require Import Prelude GoStrings Json JsonRoundtrip Conversation WorkingMemory Subgoals Jobs Tools Receipts HistoryRebuild ReportState ReportOps ReportProps ReportSnapshot.
From Stdlib Require Import Ascii SpecFloat.
Open Scope string_scope.
Open Scope list_scope.

Inductive ToolError :=
| EToolState (what : string)
| EToolArguments
| EToolText (message : string)
| EToolMemory (e : MemoryError)
| EToolGoal (e : GoalError)
| EToolJob (e : JobError)
| EToolAuthorization (e : ReceiptError).

(** The events of these tools. *)
Inductive StateEvent :=
| MemoryUpdated (entries : gmap string MemoryEntry)
| SubgoalsUpdated (goals : list Subgoal).

(** [tools.ValidateNoArgs] *)
Definition ValidateNoArgs (args : string) : bool := bool_decide (is_Some (decode_struct [] args)).
Definition marshalToolPayload : list (string * jval) -> string := MarshalMap.
Definition jnat (n : nat) : jval := JNum (itoa (Z.of_nat n)).
Definition jtexts (l : list string) : jval := JArr (map JStr l).
(** A nil slice of strings. *)
Definition jtexts_or_null (l : list string) : jval := match l with [] => JNull | _ => jtexts l end.
(** [strings.Contains] *)
Definition contains_text (s sub : string) : bool := bool_decide (is_Some (String.index 0 sub s)).
Definition text (l : list string) : string := String.concat "" l.
Lemma str_app_nil s : (s ++ "")%string = s.
Proof. induction s as [|c s IH]; [done|]. exact (f_equal (String c) IH). Qed.
Lemma text_cons s l : text (s :: l) = (s ++ text l)%string.
Proof. unfold text. destruct l as [|s2 l]; [|done]. simpl. by rewrite str_app_nil. Qed.
Definition is_texts (v : jval) : bool := match v with JArr vs => forallb (fun v => is_jstr v || match v with JNull => true | _ => false end) vs | _ => false end.
Definition texts_field (m : gmap string jval) (k : string) : list string :=
  match m !! k with Some (JArr vs) => map (fun v => match v with JStr s => s | _ => "" end) vs | _ => [] end.

(** * Floats: a [*float64] member *)

Definition float_of_literal (lit : string) : option spec_float :=
  let '(neg, n, x) := literal_value (String.list_ascii_of_string lit) in
  if (n =? 0)%Z then Some (S754_zero neg)
  else if (310 <? Z.of_nat (length (itoa_digits n)) + x)%Z then None
  else if (Z.of_nat (length (itoa_digits n)) + x <? -330)%Z then Some (S754_zero neg)
  else
    let '(a, b) := pow_ratio 10 x in
    let! d := to_double (n * a) b in
    match d.1 with Zpos m => Some (S754_finite neg m d.2) | _ => Some (S754_zero neg) end.
Definition is_float (v : jval) : bool := match v with JNum lit => bool_decide (is_Some (float_of_literal lit)) | _ => false end.
(** The encoder's text; the values a decoder makes are finite. *)
Definition float_text (f : spec_float) : string :=
  match f with
  | S754_finite neg m e => let '(n, x) := shortest 16 1 (Zpos m) e in str_text (layout_float neg n x)
  | S754_zero neg => if neg then "-0" else "0"
  | _ => ""
  end.

Section tools.
Context (time_json : time -> string).

(** * Working memory *)

Definition encode_entry (e : MemoryEntry) : jval :=
  JObj ([("statement", JStr (me_Statement e)); ("status", JStr (me_Status e))]
        ++ (if (length (me_SourceResultIDs e) =? 0)%nat then [] else [("source_result_ids", jtexts (me_SourceResultIDs e))])
        ++ (match me_Confidence e with Some c => [("confidence", JNum (float_text c))] | None => [] end)
        ++ [("created_by", JStr (me_CreatedBy e)); ("created_at", JStr (time_json (me_CreatedAt e)))]).
Definition encode_entries (entries : gmap string MemoryEntry) : jval :=
  JObj (sort_keys (map (fun kv => (kv.1, encode_entry kv.2)) (map_to_list entries))).

Record saveMemoryParams := {
  sp_Key : string; sp_Statement : string; sp_Status : string; sp_SourceResultIDs : list string; sp_Confidence : option spec_float
}.
Definition decode_save (args : string) : option saveMemoryParams :=
  let! m := decode_struct [("key", is_jstr); ("statement", is_jstr); ("status", is_jstr); ("source_result_ids", is_texts); ("confidence", is_float)] args in
  Some {| sp_Key := string_field m "key"; sp_Statement := string_field m "statement"; sp_Status := string_field m "status";
          sp_SourceResultIDs := texts_field m "source_result_ids";
          sp_Confidence := match m !! "confidence" with Some (JNum lit) => float_of_literal lit | _ => None end |}.
(** The results the arguments cite, looked up one after the other. *)
Fixpoint check_citations (report : option ReportState) (ids : list string) : res ToolError unit :=
  match ids with
  | [] => Ok tt
  | id :: ids =>
      match report with
      | None => Err (EToolText "analysis result store is unavailable")
      | Some st =>
          guard bool_decide (is_Some (rp_Results st !! id)) else EToolText (text ["analysis result "; id; " not found"]) ;;
          check_citations report ids
      end
  end.
Definition check_save (report : option ReportState) (p : saveMemoryParams) : res ToolError unit :=
  if (sp_Key p =? "") || (sp_Statement p =? "") then Err (EToolText "key and statement are required")
  else if negb (sp_Status p =? "observed") && negb (sp_Status p =? "inferred") && negb (sp_Status p =? "assumed")
  then Err (EToolText "status must be observed, inferred, or assumed")
  else if (sp_Status p =? "observed") && (length (sp_SourceResultIDs p) =? 0)%nat
  then Err (EToolText "observed entries require source_result_ids")
  else check_citations report (sp_SourceResultIDs p).
Definition saved_entry (p : saveMemoryParams) (now : time) : MemoryEntry :=
  {| me_Statement := sp_Statement p; me_Status := sp_Status p; me_SourceResultIDs := sp_SourceResultIDs p;
     me_Confidence := sp_Confidence p; me_CreatedBy := "agent"; me_CreatedAt := now |}.
(** [SaveMemoryTool.Execute] with a memory and an emitter *)
Definition SaveMemory_Execute (m : WorkingMemory) (report : option ReportState) (now : time) (args : string) :
    WorkingMemory * list StateEvent * res ToolError string :=
  match decode_save args with
  | None => (m, [], Err EToolArguments)
  | Some p =>
      match check_save report p with
      | Err e => (m, [], Err e)
      | Ok _ =>
          let existed := bool_decide (is_Some (EntrySnapshot m !! sp_Key p)) in
          match SaveEntry m (sp_Key p) (saved_entry p now) now with
          | (m, Err e) => (m, [], Err (EToolMemory e))
          | (m, Ok false) =>
              (m, [], Ok (marshalToolPayload
                [("ok", JBool false); ("tool", JStr "memory_save_entry"); ("memory_key", JStr (sp_Key p));
                 ("error", JStr (text ["working memory full ("; itoa (Z.of_nat maxMemoryEntries); " entries max)"]));
                 ("entry_count", jnat (size (EntrySnapshot m))); ("ui_summary", JStr (text ["工作记忆已满，无法保存 ["; sp_Key p; "]。"]))]))
          | (m, Ok true) =>
              let entries := EntrySnapshot m in
              (m, [MemoryUpdated entries], Ok (marshalToolPayload
                [("ok", JBool true); ("tool", JStr "memory_save_entry"); ("memory_key", JStr (sp_Key p));
                 ("entry", match entries !! sp_Key p with Some e => encode_entry e | None => JNull end);
                 ("entry_count", jnat (size entries)); ("overwrote_existing", JBool existed); ("affects_report_delivery", JBool false);
                 ("affects_goal_state", JBool false); ("ui_summary", JStr (text ["工作记忆 ["; sp_Key p; "] 已写入。"]))]))
          end
      end
  end.
Definition InspectMemory_Execute (m : WorkingMemory) (args : string) : res ToolError string :=
  guard ValidateNoArgs args else EToolArguments ;;
  let entries := EntrySnapshot m in
  Ok (marshalToolPayload
    [("ok", JBool true); ("tool", JStr "state_memory_inspect"); ("entry_count", jnat (size entries)); ("entries", encode_entries entries);
     ("ui_summary", JStr (text ["工作记忆共有 "; itoa (Z.of_nat (size entries)); " 条记录。"]))]).

(** * Goals *)

Definition encode_goal (g : Subgoal) : jval :=
  JObj ([("id", JStr (sg_ID g))] ++ opt_str "parentGoalId" (sg_ParentGoalID g)
        ++ [("description", JStr (sg_Description g)); ("status", JStr (sg_Status g))]
        ++ (if sg_Blocking g then [("blocking", JBool true)] else []) ++ opt_str "result" (sg_Result g)
        ++ [("created_at", JStr (time_json (sg_CreatedAt g))); ("updated_at", JStr (time_json (sg_UpdatedAt g)))]).
(** The payload of [buildGoalStateFacts]. *)
Definition goal_facts_payload (f : GoalFacts) : list (string * jval) :=
  [("goal_count", jnat (gf_goal_count f)); ("active_roots", jnat (gf_active_roots f)); ("running_goals", jnat (gf_running_goals f));
   ("pending_goals", jnat (gf_pending_goals f)); ("complete_goals", jnat (gf_complete_goals f)); ("rejected_goals", jnat (gf_rejected_goals f));
   ("blocking_goals", jnat (gf_blocking_goals f)); ("active_root_goal_ids", jtexts (gf_active_root_goal_ids f));
   ("active_root_goals", JArr (map (fun g => let '(id, description, status, blocking) := g in
      JObj [("blocking", JBool blocking); ("description", JStr description); ("id", JStr id); ("status", JStr status)]) (gf_active_root_goals f)))]
  ++ (match gf_goals f with Some goals => [("goals", JArr (map encode_goal goals))] | None => [] end)
  ++ [("active_branches", jtexts (gf_active_branches f)); ("active_branch_count", jnat (gf_active_branch_count f))].
Definition InspectGoals_Execute (s : SubgoalManager) (args : string) : option (res ToolError string) :=
  if negb (ValidateNoArgs args) then Some (Err EToolArguments)
  else
    let! f := buildGoalStateFacts (Some s) true in
    Some (Ok (marshalToolPayload (goal_facts_payload f ++
      [("ok", JBool true); ("tool", JStr "state_goal_inspect");
       ("ui_summary", JStr (text ["当前共有 "; itoa (Z.of_nat (gf_goal_count f)); " 个目标，其中 "; itoa (Z.of_nat (gf_active_branch_count f)); " 个活动分支。"]))]))).

Record goalParams := {
  gp_Action : string; gp_Description : string; gp_ParentGoalID : string; gp_Blocking : option bool; gp_GoalID : string; gp_Result : string
}.
Definition decode_goal_params (args : string) : option goalParams :=
  let! m := decode_struct [("action", is_jstr); ("description", is_jstr); ("parent_goal_id", is_jstr); ("blocking", is_jbool);
                           ("goal_id", is_jstr); ("result", is_jstr)] args in
  Some {| gp_Action := string_field m "action"; gp_Description := string_field m "description";
          gp_ParentGoalID := string_field m "parent_goal_id"; gp_Blocking := opt_bool_field m "blocking";
          gp_GoalID := string_field m "goal_id"; gp_Result := string_field m "result" |}.
(** What follows a change: the event and the facts with the change's own members. *)
Definition goal_changed (s : SubgoalManager) (members : list (string * jval)) :
    option (SubgoalManager * list StateEvent * res ToolError string) :=
  let! f := buildGoalStateFacts (Some s) false in
  Some (s, [SubgoalsUpdated (ListAll s)], Ok (marshalToolPayload (goal_facts_payload f ++ members))).
(** The [complete] and [reject] actions. *)
Definition close_goal (s : SubgoalManager) (p : goalParams) (action status summary : string) (now : time) :
    option (SubgoalManager * list StateEvent * res ToolError string) :=
  if (gp_GoalID p =? "") || not_exact (gp_GoalID p) then Some (s, [], Err (EToolText (text ["goal_id is required for "; action; " action"])))
  else if blank (gp_Result p) then Some (s, [], Err (EToolText (text ["result is required for "; action; " action"])))
  else match UpdateGoalStatus s (gp_GoalID p) status (gp_Result p) now with
  | (s, Err e) => Some (s, [], Err (EToolGoal e))
  | (s, Ok _) =>
      goal_changed s
        [("ok", JBool true); ("tool", JStr "goal_manage"); ("action", JStr action); ("goal_id", JStr (gp_GoalID p)); ("status", JStr status);
         ("result", JStr (gp_Result p)); ("ui_summary", JStr (text ["目标 "; gp_GoalID p; summary]))]
  end.
(** [goal_error] is the text of a [GoalError]. *)
Context (goal_error : GoalError -> string).
Definition ManageSubgoals_Execute (s : SubgoalManager) (id : string) (now1 now2 : time) (args : string) :
    option (SubgoalManager * list StateEvent * res ToolError string) :=
  match decode_goal_params args with
  | None => Some (s, [], Err EToolArguments)
  | Some p =>
      if gp_Action p =? "add" then
        if gp_Description p =? "" then Some (s, [], Err (EToolText "description is required for add action"))
        else match gp_Blocking p with
        | None => Some (s, [], Err (EToolText "blocking must be explicitly true or false for add action"))
        | Some blocking =>
            if not_exact (gp_ParentGoalID p) then Some (s, [], Err (EToolText "parent_goal_id must be an exact value"))
            else match AddGoalWithBlocking s (gp_Description p) (gp_ParentGoalID p) blocking id now1 now2 with
            | (s, Err e) =>
                Some (s, [], Ok (marshalToolPayload
                  [("ok", JBool false); ("tool", JStr "goal_manage"); ("action", JStr "add"); ("error", JStr (goal_error e));
                   ("ui_summary", JStr (text ["目标创建失败："; goal_error e]))]))
            | (s, Ok id) =>
                goal_changed s
                  ([("ok", JBool true); ("tool", JStr "goal_manage"); ("action", JStr "add"); ("goal_id", JStr id); ("status", JStr StatusPending);
                    ("description", JStr (gp_Description p)); ("blocking", JBool blocking)]
                   ++ opt_str "parent_goal_id" (gp_ParentGoalID p) ++ [("ui_summary", JStr (text ["目标 "; id; " 已记录。"]))])
            end
        end
      else if gp_Action p =? "complete" then close_goal s p "complete" StatusComplete " 已标记为完成。" now1
      else if gp_Action p =? "reject" then close_goal s p "reject" StatusRejected " 已标记为拒绝。" now1
      else Some (s, [], Err (EToolText (text ["unknown action: "; gp_Action p])))
  end.

(** * Jobs *)

(** The raw JSON of the [arguments] member is passed on, null included; here it is the
    compact text of its value. *)
Definition raw_member (fields : list string) (f : string) (kvs : list (string * jval)) : option jval :=
  last (omap (fun kv => if bool_decide (match_field fields kv.1 = Some f) then Some kv.2 else None) kvs).
(** [time_utc]: the text of a time in UTC. *)
Context (time_utc : time -> string).
Definition decode_submit (args : string) : option (string * string) :=
  let! m := decode_struct [("tool", is_jstr); ("arguments", fun _ => true)] args in
  let! v := Validate args in
  let! kvs := as_object v in
  Some (string_field m "tool", match raw_member ["tool"; "arguments"] "arguments" kvs with Some v => Marshal v | None => "" end).
Definition SubmitJob_Execute (jobs : option JobManager) (id : string) (now : time) (args : string) : option JobManager * res ToolError string :=
  match jobs with
  | None => (jobs, Err (EToolState "background jobs are not initialized"))
  | Some _ =>
      match decode_submit args with
      | None => (jobs, Err EToolArguments)
      | Some (tool, arguments) =>
          match Submit jobs tool arguments id now with
          | (jobs, Err e) => (jobs, Err (EToolJob e))
          | (jobs, Ok job) =>
              (jobs, Ok (marshalToolPayload
                [("ok", JBool true); ("tool", JStr "job_submit"); ("job_id", JStr (jb_ID job)); ("job_tool", JStr (jb_Tool job));
                 ("status", JStr (jb_Status job)); ("started_at", JStr (time_utc (jb_StartedAt job)));
                 ("ui_summary", JStr (text ["已在后台启动 "; jb_Tool job; "，任务编号 "; jb_ID job; "。"]))]))
          end
      end
  end.
Definition job_summary (job : Job) : string :=
  if jb_Status job =? JobStatusRunning then text ["后台任务 "; jb_ID job; " 仍在运行。"]
  else if jb_Status job =? JobStatusSucceeded then text ["后台任务 "; jb_ID job; " 已完成。"]
  else text ["后台任务 "; jb_ID job; " 失败。"].
Definition InspectJobStatus_Execute (jobs : option JobManager) (now : time) (args : string) : res ToolError string :=
  match jobs with
  | None => Err (EToolState "background jobs are not initialized")
  | Some _ =>
      match decode_struct [("job_id", is_jstr)] args with
      | None => Err EToolArguments
      | Some m =>
          match JobManager_Status jobs (string_field m "job_id") with
          | Err e => Err (EToolJob e)
          | Ok job =>
              Ok (marshalToolPayload
                [("ok", JBool true); ("tool", JStr "state_job_inspect"); ("job_id", JStr (jb_ID job)); ("job_tool", JStr (jb_Tool job));
                 ("status", JStr (jb_Status job)); ("duration_ms", JNum (itoa (Milliseconds (Duration job now))));
                 ("result_chars", JNum (itoa (jb_ResultChars job))); ("result_id", JStr (jb_ResultID job));
                 ("has_result", JBool (negb (jb_ResultID job =? ""))); ("error_message", JStr (jb_ErrorMessage job));
                 ("ui_summary", JStr (job_summary job))])
          end
      end
  end.
End tools.

(** * The report *)

Definition block_refs (block : ReportBlock) : list string :=
  ChartReferences (rb_Content block)
  ++ (if (rb_Kind block =? "chart") && negb (rb_ChartID block =? "") then [rb_ChartID block] else []).
Definition count_refs (blocks : list ReportBlock) : gmap string nat :=
  foldl (fun m ref => <[ref := S (default 0 (m !! ref))]> m) ∅ (flat_map block_refs blocks).
Definition encode_block_facts (block : ReportBlock) : jval :=
  JObj ([("id", JStr (rb_ID block)); ("kind", JStr (rb_Kind block))] ++ opt_str "title" (rb_Title block) ++ opt_str "chart_id" (rb_ChartID block)
        ++ (if (length (block_refs block) =? 0)%nat then [] else [("chart_refs", jtexts (block_refs block))])
        ++ [("has_content", JBool (negb (blank (rb_Content block))))]).
(** The facts of [InspectReportStateTool.Execute]; [goals]: the answer of the checker, whose
    list of blockers may be nil. *)
Record ReportFacts := {
  rf_can_finalize : bool; rf_blockers : option (list string); rf_blocks : list ReportBlock; rf_renderable : nat; rf_chart_ids : list string;
  rf_counts : gmap string nat; rf_unreferenced : list string; rf_missing : list string; rf_duplicated : gmap string nat;
  rf_delivery : ReportDeliveryState; rf_issues : list string
}.
Definition report_facts (st : ReportState) (goals : option (bool * option (list string))) : ReportFacts :=
  let counts := count_refs (rp_Blocks st) in
  let ids := sort_strings (List.filter (fun id => negb (id =? "")) (map cd_ID (rp_Charts st))) in
  let issues := reportFinalizeIssues st in
  {| rf_can_finalize := (match goals with Some g => g.1 | None => true end) && (length issues =? 0)%nat;
     rf_blockers := match goals with Some g => g.2 | None => None end;
     rf_blocks := rp_Blocks st; rf_renderable := renderableReportBlockCount (rp_Blocks st); rf_chart_ids := ids; rf_counts := counts;
     rf_unreferenced := List.filter (fun id => (default 0 (counts !! id) =? 0)%nat) ids;
     rf_missing := sort_strings (List.filter (fun id => negb (bool_decide (id ∈ chart_set st))) (map fst (map_to_list counts)));
     rf_duplicated := filter (fun kv => 1 < kv.2) counts;
     rf_delivery := describeReportDeliveryState st; rf_issues := issues |}.
Definition encode_counts (m : gmap string nat) : jval := JObj (sort_keys (map (fun kv => (kv.1, jnat kv.2)) (map_to_list m))).
Definition report_payload (f : ReportFacts) : list (string * jval) :=
  [("ok", JBool true); ("tool", JStr "state_report_inspect"); ("can_finalize", JBool (rf_can_finalize f));
   ("active_goal_blockers", match rf_blockers f with Some l => jtexts l | None => JNull end); ("block_count", jnat (length (rf_blocks f)));
   ("renderable_block_count", jnat (rf_renderable f)); ("chart_count", jnat (length (rf_chart_ids f)));
   ("blocks", JArr (map encode_block_facts (rf_blocks f))); ("chart_ids", jtexts (rf_chart_ids f));
   ("chart_reference_counts", encode_counts (rf_counts f)); ("unreferenced_charts", jtexts_or_null (rf_unreferenced f));
   ("missing_chart_references", jtexts_or_null (rf_missing f)); ("duplicated_chart_refs", encode_counts (rf_duplicated f));
   ("has_content", JBool (dl_HasContent (rf_delivery f))); ("delivery_state", JStr (dl_DeliveryState (rf_delivery f)));
   ("is_finalized", JBool (dl_IsFinalized (rf_delivery f))); ("needs_finalize", JBool (dl_NeedsFinalize (rf_delivery f)));
   ("final_title", JStr (dl_FinalTitle (rf_delivery f))); ("final_author", JStr (dl_FinalAuthor (rf_delivery f)));
   ("finalize_issue_count", jnat (length (rf_issues f))); ("finalize_issues", jtexts_or_null (rf_issues f));
   ("ui_summary", JStr (text ["当前报告包含 "; itoa (Z.of_nat (rf_renderable f)); " 个可渲染内容块和 "; itoa (Z.of_nat (length (rf_chart_ids f))); " 个图表。"]))].
(** [SubgoalChecker.CanFinalize] with the nil list of a tree without roots *)
Definition checker_answer (s : SubgoalManager) : option (bool * option (list string)) :=
  let! answer := CanFinalize s in
  Some (answer.1, if (length (fs_roots (snapshotLocked s)) =? 0)%nat then None else Some answer.2).
Definition InspectReport_Execute (st : option ReportState) (goals : option SubgoalManager) (args : string) : option (res ToolError string) :=
  if negb (ValidateNoArgs args) then Some (Err EToolArguments)
  else match st, goals with
  | None, _ => Some (Err (EToolState "report state is not initialized"))
  | Some st, None => Some (Ok (marshalToolPayload (report_payload (report_facts st None))))
  | Some st, Some s =>
      let! answer := checker_answer s in Some (Ok (marshalToolPayload (report_payload (report_facts st (Some answer)))))
  end.

(** [InspectReportEditStateTool.Execute] *)
Definition findEditTargetBlock (st : ReportState) (id : string) : option ReportBlock := List.find (fun b => rb_ID b =? id) (rp_Blocks st).
Definition findEditTargetChart (st : ReportState) (id : string) : option ChartData := List.find (fun c => cd_ID c =? id) (rp_Charts st).
Definition target_block_member (st : ReportState) (id : string) : list (string * jval) :=
  match findEditTargetBlock st id with
  | Some b => [("target_block", JObj [("chart_id", JStr (rb_ChartID b)); ("content", JStr (rb_Content b)); ("id", JStr (rb_ID b));
                                      ("kind", JStr (rb_Kind b)); ("title", JStr (rb_Title b))])]
  | None => []
  end.
(** The option of a chart is raw JSON, nil as null; one that is not JSON fails the encoding. *)
Definition target_chart_member (st : ReportState) (id : string) : option (list (string * jval)) :=
  match findEditTargetChart st id with
  | Some c =>
      let! option_ := if cd_Option c =? "" then Some "null" else json_compact (cd_Option c) in
      Some [("target_chart", JObj [("height", JStr (cd_Height c)); ("id", JStr (cd_ID c)); ("option", JNum option_); ("width", JStr (cd_Width c))])]
  | None => Some []
  end.
Definition edit_summary (s : ReportEditState) : string :=
  if negb (Active s) then "当前没有活动的报告编辑范围。"
  else if ScopeKind s =? "whole_report" then "当前正在编辑整份报告。"
  else if ScopeKind s =? "layout" then "当前正在编辑报告布局。"
  else if ScopeKind s =? "partial_chart" then text ["当前正在局部编辑图表 "; es_TargetChartID s; "。"]
  else if (ScopeKind s =? "partial_selection") && es_SelectionRangeSet s && (es_SelectionStart s <? es_SelectionEnd s)%Z
  then text ["当前正在局部编辑内容块 "; es_TargetBlockID s; " 的 "; itoa (es_SelectionStart s); "-"; itoa (es_SelectionEnd s); " 区间。"]
  else text ["当前正在局部编辑内容块 "; es_TargetBlockID s; "。"].
Definition InspectReportEdit_Execute (s : option ReportEditState) (st : option ReportState) (args : string) : res ToolError string :=
  guard ValidateNoArgs args else EToolArguments ;;
  match s with
  | None => Err (EToolState "report edit state is not initialized")
  | Some s =>
      let targets :=
        match st with
        | Some st =>
            if Active s && negb (es_TargetBlockID s =? "") then
              let! chart := target_chart_member st (es_TargetChartID s) in Some (target_block_member st (es_TargetBlockID s) ++ chart)
            else if Active s && negb (es_TargetChartID s =? "") then target_chart_member st (es_TargetChartID s)
            else Some []
        | None => Some []
        end in
      match targets with
      | None => Err (EToolText "encoding failed")
      | Some targets =>
          Ok (marshalToolPayload (EditSnapshot s ++ targets
            ++ [("ok", JBool true); ("tool", JStr "state_report_edit_inspect"); ("ui_summary", JStr (edit_summary s))]))
      end
  end.

(** * The question to the user *)

Fixpoint validateAskUserOptions (seen : gset string) (options : list AskUserOption) : res ToolError (list AskUserOption) :=
  match options with
  | [] => Ok []
  | o :: options =>
      guard negb (blank (op_ID o) || blank (op_Label o)) else EToolText "options requires non-empty id and label" ;;
      guard negb (not_exact (op_ID o) || not_exact (op_Label o) || not_exact (op_Hint o)) else EToolText "options must not be padded" ;;
      guard negb (bool_decide (op_ID o ∈ seen)) else EToolText "option id is duplicated" ;;
      let? rest := validateAskUserOptions ({[op_ID o]} ∪ seen) options in
      Ok (o :: rest)
  end.
Definition validateAskUserSelectionMode (mode : string) : res ToolError string :=
  if mode =? "single" then Ok "single" else if mode =? "multiple" then Ok "multiple"
  else Err (EToolText "selection_mode must be single or multiple").
Definition approval_options : list AskUserOption :=
  [{| op_ID := "approve"; op_Label := "批准"; op_Hint := "" |}; {| op_ID := "reject"; op_Label := "拒绝"; op_Hint := "" |}].
Definition ask_data (args : askUserToolCallArguments) (required : bool) (mode : string) (custom : bool) (options : list AskUserOption) : AskUserData :=
  {| aq_Question := ak_Question args; aq_Reason := ak_Reason args; aq_Scope := ak_Scope args; aq_ContextRef := ak_ContextRef args;
     aq_InputHint := ak_InputHint args; aq_Required := required; aq_SelectionMode := mode; aq_AllowCustom := custom; aq_Options := options;
     aq_Authorization := ak_Authorization args; aq_ToolCallID := "" |}.

Section ask.
Context (sha256hex : string -> string).
Definition check_ask (args : askUserToolCallArguments) : res ToolError AskUserData :=
  guard negb (blank (ak_Question args)) else EToolText "question is required" ;;
  let? options := validateAskUserOptions ∅ (ak_Options args) in
  match ak_Authorization args with
  | Some a =>
      guard negb (blank (au_Action a) || blank (au_ResourceRef a)) else EToolText "authorization action and resource_ref are required" ;;
      match authorizationPayloadHash sha256hex (au_PayloadJSON a) with
      | Err e => Err (EToolAuthorization e)
      | Ok _ =>
          guard negb (not_exact (au_Action a) || not_exact (au_ResourceRef a)) else EToolText "authorization must not be padded" ;;
          Ok (ask_data args true "single" false approval_options)
      end
  | None =>
      match ak_AllowCustom args, ak_Required args with
      | None, _ => Err (EToolText "allow_custom is required when authorization is absent")
      | _, None => Err (EToolText "required is required when authorization is absent")
      | Some custom, Some required =>
          let? mode := validateAskUserSelectionMode (ak_SelectionMode args) in
          guard negb ((length options =? 0)%nat && negb custom) else EToolText "requires options when allow_custom is false" ;;
          Ok (ask_data args required mode custom options)
      end
  end.
Definition parseAskUserToolCallArguments (rawArgs : string) : res ToolError AskUserData :=
  match decode_ask_user rawArgs with
  | None => Err EToolArguments
  | Some args => check_ask args
  end.
Definition AskUser_Execute (args : string) : res ToolError string :=
  let? p := parseAskUserToolCallArguments args in
  Ok (marshalToolPayload
    [("ok", JBool true); ("tool", JStr "user_request_input"); ("question", JStr (aq_Question p)); ("reason", JStr (aq_Reason p));
     ("scope", JStr (aq_Scope p)); ("context_ref", JStr (aq_ContextRef p)); ("input_hint", JStr (aq_InputHint p));
     ("required", JBool (aq_Required p)); ("selection_mode", JStr (aq_SelectionMode p)); ("allow_custom", JBool (aq_AllowCustom p));
     ("options", JArr (map encode_option (aq_Options p)));
     ("authorization", match aq_Authorization p with Some a => encode_authorization a | None => JNull end);
     ("run_status", JStr "waiting_user_input"); ("ui_summary", JStr "用户输入请求已发送。")]).
Definition SuspensionEvent (toolCallID args : string) : res ToolError RuntimeEvent :=
  let? p := parseAskUserToolCallArguments args in
  Ok (event EventUserRequestInput (AskUser
    {| aq_Question := aq_Question p; aq_Reason := aq_Reason p; aq_Scope := aq_Scope p; aq_ContextRef := aq_ContextRef p;
       aq_InputHint := aq_InputHint p; aq_Required := aq_Required p; aq_SelectionMode := aq_SelectionMode p; aq_AllowCustom := aq_AllowCustom p;
       aq_Options := aq_Options p; aq_Authorization := aq_Authorization p; aq_ToolCallID := toolCallID |})).
End ask.

(** * Lemmas: the question *)

Definition ask_storable (p : AskUserData) : Prop :=
  Forall (fun s => ValidString s = true) [aq_Question p; aq_Reason p; aq_Scope p; aq_ContextRef p; aq_InputHint p; aq_SelectionMode p]
  /\ Forall (fun o => Forall (fun s => ValidString s = true) [op_ID o; op_Label o; op_Hint o]) (aq_Options p)
  /\ match aq_Authorization p with
     | Some a => Forall (fun s => ValidString s = true) [au_Action a; au_ResourceRef a; au_PayloadJSON a]
     | None => True
     end.

Lemma decode_encode_option o : decode_option (encode_option o) = Some o.
Proof.
  destruct o as [id label hint]. unfold encode_option, decode_option. cbn [op_ID op_Label op_Hint app].
  opt_cases; subst; bind_text; cbn [bind_fields]; unfold string_field; by simplify_map_eq.
Qed.
Lemma decode_encode_authorization a : decode_authorization (encode_authorization a) = Some a.
Proof.
  destruct a as [action ref payload]. unfold encode_authorization, decode_authorization. cbn [au_Action au_ResourceRef au_PayloadJSON].
  bind_text. cbn [bind_fields]. unfold string_field. by simplify_map_eq.
Qed.
Lemma decode_encode_options l : decode_options (JArr (map encode_option l)) = Some l.
Proof. cbn. apply mapM_Some_2. induction l; cbn; constructor; [apply decode_encode_option|done]. Qed.

Lemma carries_ask p : ask_storable p -> aq_ToolCallID p = "" -> carries 3 (encode_ask p).
Proof.
  unfold ask_storable. rewrite !Forall_cons. intros ((? & ? & ? & ? & ? & ? & _) & Hopts & Hauth) Hid. unfold encode_ask. rewrite Hid.
  change (opt_str "tool_call_id" "") with (@nil (string * jval)). rewrite app_nil_r.
  apply (carries_obj 2); [lia| |].
  - destruct (aq_Options p) as [|o l]; [|set (v := JArr (map encode_option (o :: l))); change (length (o :: l) =? 0)%nat with false; cbv iota];
      destruct (aq_Authorization p); carries_keys.
  - assert (forall b, carries 2 (JBool b)) as Hb by (intros b; split_and!; [done|done|cbn; lia]).
    repeat (apply Forall_app; split); carries_members.
    + destruct (length (aq_Options p) =? 0)%nat; [constructor|]. constructor; [|constructor]. split; [done|]. cbn [snd].
      apply (carries_arr 1); [lia|]. apply Forall_forall. intros v (o & -> & Ho)%list_elem_of_fmap. rewrite Forall_forall in Hopts.
      specialize (Hopts o Ho). rewrite !Forall_cons in Hopts. destruct Hopts as (? & ? & ? & _). apply (carries_obj 0); [lia|carries_keys|carries_members].
    + destruct (aq_Authorization p) as [a|]; [|constructor]. constructor; [|constructor]. split; [done|]. cbn [snd].
      rewrite !Forall_cons in Hauth. destruct Hauth as (? & ? & ? & _). assert (carries 1 (encode_authorization a)) as (? & ? & ?).
      { apply (carries_obj 0); [lia|reflexivity|carries_members]. }
      split_and!; [done|done|lia].
Qed.

Definition args_of (p : AskUserData) : askUserToolCallArguments :=
  {| ak_Question := aq_Question p; ak_Reason := aq_Reason p; ak_Scope := aq_Scope p; ak_ContextRef := aq_ContextRef p; ak_InputHint := aq_InputHint p;
     ak_Required := Some (aq_Required p); ak_SelectionMode := aq_SelectionMode p; ak_AllowCustom := Some (aq_AllowCustom p);
     ak_Options := aq_Options p; ak_Authorization := aq_Authorization p |}.

(** The members of the arguments after the texts: what they bind, given what is bound. *)
Lemma bind_ask_tail p acc :
  acc !! "options" = None -> acc !! "authorization" = None ->
  exists acc', bind_fields ask_user_fields
      ([("allow_custom", JBool (aq_AllowCustom p))]
        ++ (if (length (aq_Options p) =? 0)%nat then [] else [("options", JArr (map encode_option (aq_Options p)))])
        ++ (match aq_Authorization p with None => [] | Some a => [("authorization", encode_authorization a)] end)) acc = Some acc'
    /\ acc' !! "allow_custom" = Some (JBool (aq_AllowCustom p))
    /\ default [] (let! v := acc' !! "options" in decode_options v) = aq_Options p
    /\ (let! v := acc' !! "authorization" in decode_authorization v) = aq_Authorization p
    /\ forall k, k <> "allow_custom" -> k <> "options" -> k <> "authorization" -> acc' !! k = acc !! k.
Proof.
  intros Ho Ha. cbn [app]. rewrite (bind_field _ "allow_custom" "allow_custom") by done.
  assert (forall l, existsb (fun fa => (fa.1 =? "options")%string && fa.2 (JArr (map encode_option l))) ask_user_fields = true) as Hopt.
  { intros l. apply (accepts_field _ 8 "options" (fun v => bool_decide (is_Some (decode_options v)))); [done|]. apply bool_decide_eq_true_2. by rewrite decode_encode_options. }
  assert (forall a, existsb (fun fa => (fa.1 =? "authorization")%string && fa.2 (encode_authorization a)) ask_user_fields = true) as Hauth.
  { intros a. apply (accepts_field _ 9 "authorization" (fun v => bool_decide (is_Some (decode_authorization v)))); [done|]. apply bool_decide_eq_true_2. by rewrite decode_encode_authorization. }
  pose proof (decode_encode_options (aq_Options p)) as Hd.
  destruct (aq_Options p) as [|o l]; [|change (length (o :: l) =? 0)%nat with false; cbv iota; cbn [app]; rewrite (bind_field _ "options" "options") by (done || apply Hopt)];
    (destruct (aq_Authorization p) as [a|]; [cbn [length Nat.eqb app]; rewrite (bind_field _ "authorization" "authorization") by (done || apply Hauth)|cbn [length Nat.eqb app]]).
  all: cbn [bind_fields]; eexists; (split; [reflexivity|]).
  all: split_and!; [| | |by intros k H1 H2 H3; rewrite !lookup_insert_ne by done].
  all: repeat first [rewrite lookup_insert_eq | rewrite lookup_insert_ne by done]; rewrite ?Ho, ?Ha; try done.
  all: by rewrite ?decode_encode_authorization, ?Hd.
Qed.

Lemma decode_ask_encode p : ask_storable p -> aq_ToolCallID p = "" -> decode_ask_user (Marshal (encode_ask p)) = Some (args_of p).
Proof.
  intros Hs Hid. destruct (carries_ask p Hs Hid) as (Hok & Hdup & Hdepth). unfold decode_ask_user.
  assert (Validate (Marshal (encode_ask p)) = Some (encode_ask p)) as ->.
  { unfold Validate. rewrite Unmarshal_Marshal; [by rewrite Hdup|done|]. unfold maxNestingDepth. lia. }
  unfold encode_ask. cbn [as_object]. rewrite Hid. change (opt_str "tool_call_id" "") with (@nil (string * jval)). rewrite app_nil_r.
  cbn [app]. rewrite (bind_field _ "question" "question") by done.
  destruct (bind_opt_str ask_user_fields "reason" "reason" (aq_Reason p)
    (opt_str "scope" (aq_Scope p) ++ opt_str "context_ref" (aq_ContextRef p) ++ opt_str "input_hint" (aq_InputHint p)
      ++ ("required", JBool (aq_Required p)) :: opt_str "selection_mode" (aq_SelectionMode p)
      ++ ("allow_custom", JBool (aq_AllowCustom p))
         :: (if (length (aq_Options p) =? 0)%nat then [] else [("options", JArr (map encode_option (aq_Options p)))])
         ++ (match aq_Authorization p with None => [] | Some a => [("authorization", encode_authorization a)] end))
    (<["question" := JStr (aq_Question p)]> ∅)) as (m1 & -> & R1 & K1); [done|done|done|].
  edestruct (bind_opt_str ask_user_fields "scope" "scope" (aq_Scope p)) as (m2 & -> & R2 & K2); [done| |done|]; [by rewrite K1 by done|].
  edestruct (bind_opt_str ask_user_fields "context_ref" "context_ref" (aq_ContextRef p)) as (m3 & -> & R3 & K3); [done| |done|]; [by rewrite K2, K1 by done|].
  edestruct (bind_opt_str ask_user_fields "input_hint" "input_hint" (aq_InputHint p)) as (m4 & -> & R4 & K4); [done| |done|]; [by rewrite K3, K2, K1 by done|].
  rewrite (bind_field _ "required" "required") by done.
  edestruct (bind_opt_str ask_user_fields "selection_mode" "selection_mode" (aq_SelectionMode p)) as (m5 & -> & R5 & K5);
    [done| |done|]; [by rewrite lookup_insert_ne, K4, K3, K2, K1 by done|].
  destruct (bind_ask_tail p m5) as (m6 & E6 & C6 & O6 & A6 & K6); [by rewrite K5, lookup_insert_ne, K4, K3, K2, K1 by done..|].
  cbn [app] in E6. rewrite E6. unfold args_of, string_field, opt_bool_field. rewrite C6, O6, A6.
  rewrite (K6 "question"), (K6 "reason"), (K6 "scope"), (K6 "context_ref"), (K6 "input_hint"), (K6 "required"), (K6 "selection_mode") by done.
  unfold string_field in *. rewrite R5. rewrite (K5 "question"), (K5 "reason"), (K5 "scope"), (K5 "context_ref"), (K5 "input_hint"), (K5 "required") by done.
  rewrite lookup_insert_eq. rewrite !lookup_insert_ne by done. rewrite R4, (K4 "question"), (K4 "reason"), (K4 "scope"), (K4 "context_ref") by done.
  rewrite R3, (K3 "question"), (K3 "reason"), (K3 "scope") by done. rewrite R2, (K2 "question"), (K2 "reason") by done. rewrite R1, (K1 "question") by done.
  by rewrite lookup_insert_eq.
Qed.

Lemma validate_options_same l seen l' : validateAskUserOptions seen l = Ok l' -> l' = l.
Proof.
  revert seen l'. induction l as [|o l IH]; intros seen l'; cbn [validateAskUserOptions]; [by intros [= <-]|].
  do 3 (break_match; [|done]). destruct (validateAskUserOptions _ l) as [rest|] eqn:E; [|done]. intros [= <-]. by rewrite (IH _ _ E).
Qed.
Lemma validate_options_unique l seen l' :
  validateAskUserOptions seen l = Ok l' -> NoDup (map op_ID l) /\ Forall (fun o => op_ID o ∉ seen /\ blank (op_ID o) = false /\ blank (op_Label o) = false) l.
Proof.
  revert seen l'. induction l as [|o l IH]; intros seen l'; cbn [validateAskUserOptions]; [intros _; split; constructor|].
  destruct (negb (blank (op_ID o) || _)) eqn:Eb; [|done]. break_match; [|done]. destruct (negb (bool_decide _)) eqn:Eseen; [|done].
  destruct (validateAskUserOptions _ l) as [rest|] eqn:E; [|done]. intros _. destruct (IH _ _ E) as [Hnd Hall].
  apply negb_true_iff in Eb, Eseen. apply orb_false_iff in Eb. apply bool_decide_eq_false in Eseen. split.
  - cbn [map]. constructor; [|done]. intros (o' & Ho & Hin)%list_elem_of_fmap. rewrite Forall_forall in Hall.
    destruct (Hall o' Hin) as [Hn _]. apply Hn. rewrite <- Ho. apply elem_of_union_l. by apply elem_of_singleton.
  - constructor; [tauto|]. eapply Forall_impl; [exact Hall|]. intros o' (Hn & ? & ?). split_and!; [|done|done].
    intros Hin. apply Hn. by apply elem_of_union_r.
Qed.

(** What an accepted request is, by whether it asks for an authorization. *)
Lemma check_ask_spec sha args p :
  check_ask sha args = Ok p ->
  exists required mode custom options, p = ask_data args required mode custom options /\ blank (ak_Question args) = false
    /\ match ak_Authorization args with
       | Some a =>
           required = true /\ mode = "single" /\ custom = false /\ options = approval_options
           /\ blank (au_Action a) = false /\ blank (au_ResourceRef a) = false /\ not_exact (au_Action a) = false /\ not_exact (au_ResourceRef a) = false
           /\ exists h, authorizationPayloadHash sha (au_PayloadJSON a) = Ok h
       | None =>
           ak_Required args = Some required /\ ak_AllowCustom args = Some custom /\ options = ak_Options args
           /\ validateAskUserOptions ∅ options = Ok options /\ validateAskUserSelectionMode mode = Ok mode
           /\ (options <> [] \/ custom = true)
       end.
Proof.
  unfold check_ask. destruct (negb (blank (ak_Question args))) eqn:Eq; [|done]. apply negb_true_iff in Eq.
  destruct (validateAskUserOptions ∅ (ak_Options args)) as [options|] eqn:Eo; [|done].
  destruct (ak_Authorization args) as [a|] eqn:Ea.
  - destruct (negb (blank (au_Action a) || _)) eqn:Eb; [|done]. apply negb_true_iff, orb_false_iff in Eb.
    destruct (authorizationPayloadHash sha (au_PayloadJSON a)) as [h|] eqn:Eh; [|done].
    destruct (negb (not_exact (au_Action a) || _)) eqn:En; [|done]. apply negb_true_iff, orb_false_iff in En. intros [= <-].
    exists true, "single", false, approval_options. naive_solver.
  - destruct (ak_AllowCustom args) as [custom|] eqn:Ec; [|done]. destruct (ak_Required args) as [required|] eqn:Er; [|done].
    destruct (validateAskUserSelectionMode (ak_SelectionMode args)) as [mode|] eqn:Em; [|done].
    destruct (negb _) eqn:Et; [|done]. intros [= <-]. exists required, mode, custom, options.
    pose proof (validate_options_same _ _ _ Eo) as ->. apply negb_true_iff, andb_false_iff in Et.
    split_and!; try done.
    + unfold validateAskUserSelectionMode in *. repeat (break_match_in Em; [by inversion Em|]). done.
    + destruct Et as [Et|Et]; [left; by destruct (ak_Options args)|right; by apply negb_false_iff].
Qed.

(** * The question to the user: theorems *)

(** a question the tool accepts can be answered: its option identifiers are different and
    not blank, there is an option or a free text, and one that asks for an authorization is
    required, has exactly the options approve and reject, takes one of them, and names a
    payload that can be hashed.  The text under which the session stores it, from which a
    restarted server rebuilds the model's call, is accepted again as the same question. *)
Theorem ask_accepted_replayed sha raw p :
  parseAskUserToolCallArguments sha raw = Ok p -> ask_storable p ->
  (blank (aq_Question p) = false /\ NoDup (map op_ID (aq_Options p)) /\ Forall (fun o => blank (op_ID o) = false /\ blank (op_Label o) = false) (aq_Options p)
   /\ (aq_Options p <> [] \/ aq_AllowCustom p = true)
   /\ match aq_Authorization p with
      | Some a => aq_Required p = true /\ aq_SelectionMode p = "single" /\ aq_AllowCustom p = false /\ aq_Options p = approval_options
                  /\ exists h, authorizationPayloadHash sha (au_PayloadJSON a) = Ok h
      | None => aq_SelectionMode p = "single" \/ aq_SelectionMode p = "multiple"
      end)
  /\ parseAskUserToolCallArguments sha (Marshal (encode_ask p)) = Ok p.
Proof.
  unfold parseAskUserToolCallArguments. destruct (decode_ask_user raw) as [args|]; [|done]. intros Hp Hs.
  apply check_ask_spec in Hp. destruct Hp as (required & mode & custom & options & -> & Hq & Hspec).
  rewrite decode_ask_encode by done. unfold check_ask, args_of, ask_data in *.
  cbn [aq_Question aq_Reason aq_Scope aq_ContextRef aq_InputHint aq_Required aq_SelectionMode aq_AllowCustom aq_Options aq_Authorization
       ak_Question ak_Reason ak_Scope ak_ContextRef ak_InputHint ak_Required ak_SelectionMode ak_AllowCustom ak_Options ak_Authorization] in *.
  rewrite Hq. cbn [negb]. destruct (ak_Authorization args) as [a|].
  - destruct Hspec as (-> & -> & -> & -> & Ha & Hr & Hna & Hnr & h & Hh). rewrite Ha, Hr, Hna, Hnr, Hh. split; [|reflexivity].
    split_and!; try done; [repeat constructor; set_solver|repeat constructor|by left|by exists h].
  - destruct Hspec as (_ & _ & _ & Ho & Hm & Ht). rewrite Ho, Hm. destruct (validate_options_unique _ _ _ Ho) as [Hnd Hall]. split.
    + split_and!; try done; [eapply Forall_impl; [exact Hall|naive_solver]|].
      unfold validateAskUserSelectionMode in Hm. repeat (break_match_in Hm; [inversion Hm; subst; tauto|]). done.
    + destruct options; [|done]. destruct Ht as [?| ->]; done.
Qed.
Definition sample_question : string :=
  Marshal (JObj [("question", JStr "Which currency?"); ("required", JBool true); ("selection_mode", JStr "single"); ("allow_custom", JBool true);
                 ("options", JArr [JObj [("id", JStr "eur"); ("label", JStr "Euro")]])]).
Definition sample_asked : AskUserData :=
  {| aq_Question := "Which currency?"; aq_Reason := ""; aq_Scope := ""; aq_ContextRef := ""; aq_InputHint := ""; aq_Required := true;
     aq_SelectionMode := "single"; aq_AllowCustom := true; aq_Options := [{| op_ID := "eur"; op_Label := "Euro"; op_Hint := "" |}];
     aq_Authorization := None; aq_ToolCallID := "" |}.
Lemma ask_accepted_replayed_witness :
  parseAskUserToolCallArguments (fun s => s) (Marshal (encode_ask sample_asked)) = Ok sample_asked.
Proof.
  refine (proj2 (ask_accepted_replayed (fun s => s) sample_question sample_asked _ _)); [vm_compute; reflexivity|].
  split_and!; repeat constructor.
Defined.

(** * The report's facts: theorems *)

(** for a report not yet finalized and a title that is not blank, the facts shown to the
    agent say that the report can be finalized exactly when finalizing it succeeds. *)
Theorem inspected_can_finalize st goals p :
  dl_IsFinalized (describeReportDeliveryState st) = false -> blank (fp_ReportTitle p) = false ->
  rf_can_finalize (report_facts st goals) = true
  <-> exists st' r, finalizeReportState st ((fun g => (g.1, default [] g.2)) <$> goals) p = (st', Ok r).
Proof.
  intros Hf Ht. unfold finalizeReportState, report_facts. cbn [rf_can_finalize]. rewrite Hf, Ht.
  destruct (reportFinalizeIssues st) as [|i l]; cbn [length Nat.eqb];
    destruct goals as [[[] o]|]; cbn; split; intros H; try done; try destruct H as (? & ? & [=]); eauto.
Qed.
Definition sample_title : reportFinalizeParams := {| fp_ReportTitle := "Sales"; fp_Author := "" |}.
Lemma inspected_can_finalize_witness :
  rf_can_finalize (report_facts sample_report (Some (false, Some ["g1"]))) = true
  <-> exists st' r, finalizeReportState sample_report (Some (false, ["g1"])) sample_title = (st', Ok r).
Proof. apply (inspected_can_finalize sample_report (Some (false, Some ["g1"])) sample_title); reflexivity. Defined.

(** a report that is finalized and has not changed since is shown as one that can be
    finalized, and finalizing it is refused. *)
Theorem inspected_finalized_report :
  let st := (finalizeReportState sample_report None sample_title).1 in
  rf_can_finalize (report_facts st None) = true /\ (finalizeReportState st None sample_title).2 = Err EAlreadyFinalized.
Proof. split; vm_compute; reflexivity. Qed.

(** * Working memory: theorems *)

Lemma check_citations_ok report ids :
  check_citations report ids = Ok tt <-> Forall (fun id => exists st, report = Some st /\ is_Some (rp_Results st !! id)) ids.
Proof.
  induction ids as [|id ids IH]; [split; [constructor|done]|]. cbn [check_citations]. rewrite Forall_cons, <- IH. destruct report as [st|]; [|naive_solver].
  destruct (bool_decide _) eqn:E; [apply bool_decide_eq_true in E; naive_solver|]. apply bool_decide_eq_false in E.
  split; [done|]. intros [(? & [= <-] & ?) _]. done.
Qed.
(** What the checks of the arguments guarantee. *)
Definition entry_supported (report : option ReportState) (e : MemoryEntry) : Prop :=
  me_Statement e <> "" /\ me_Status e ∈ ["observed"; "inferred"; "assumed"]
  /\ (me_Status e = "observed" -> me_SourceResultIDs e <> [])
  /\ Forall (fun id => exists st, report = Some st /\ is_Some (rp_Results st !! id)) (me_SourceResultIDs e).
Lemma check_save_supported report p now : check_save report p = Ok tt -> entry_supported report (saved_entry p now).
Proof.
  unfold check_save, entry_supported, saved_entry. cbn [me_Statement me_Status me_SourceResultIDs].
  destruct ((sp_Key p =? "") || (sp_Statement p =? "")) eqn:E1; [done|]. apply orb_false_iff in E1 as [_ E1]. apply String.eqb_neq in E1.
  destruct (negb (sp_Status p =? "observed") && _ && _) eqn:E2; [done|].
  destruct ((sp_Status p =? "observed") && _) eqn:E3; [done|]. rewrite check_citations_ok. intros Hc. split_and!; try done.
  - rewrite !elem_of_cons. destruct (sp_Status p =? "observed") eqn:S1; [apply String.eqb_eq in S1; tauto|].
    destruct (sp_Status p =? "inferred") eqn:S2; [apply String.eqb_eq in S2; tauto|].
    destruct (sp_Status p =? "assumed") eqn:S3; [apply String.eqb_eq in S3; tauto|done].
  - intros Hs. rewrite Hs in E3. cbn in E3. intros Hn. by rewrite Hn in E3.
Qed.

(** the memory tool changes the memory only by storing one entry of the agent under the
    arguments' key, whose status is one of the three, whose cited results are all results of
    the report and, when it is observed, cites one; then exactly one event carries the memory
    as it now is.  In every other case, a full memory included, nothing is changed or sent. *)
Theorem memory_tool_effect time_json m report now args :
  let '(m', events, r) := SaveMemory_Execute time_json m report now args in
  (m' = m /\ events = [])
  \/ exists p e, decode_save args = Some p /\ wm_Entries m' = <[sp_Key p := e]> (wm_Entries m) /\ events = [MemoryUpdated (EntrySnapshot m')]
       /\ e = (if IsZero now then with_me_CreatedAt (saved_entry p now) now else saved_entry p now) /\ entry_supported report (saved_entry p now)
       /\ (size (wm_Entries m') <= Nat.max maxMemoryEntries (size (wm_Entries m)))%nat /\ is_ok r = true.
Proof.
  unfold SaveMemory_Execute. destruct (decode_save args) as [p|]; [|by left]. destruct (check_save report p) as [[]|e] eqn:Hc; [|by left].
  unfold SaveEntry. destruct (validateMemoryEntry _ _); [|by left].
  destruct ((maxMemoryEntries <=? size (wm_Entries m))%nat && _) eqn:Hfull; [by left|]. right. eexists p, _. cbn [wm_Entries EntrySnapshot].
  split_and!; try reflexivity; [by apply check_save_supported|]. destruct (wm_Entries m !! sp_Key p) as [e0|] eqn:Hk.
  - rewrite map_size_insert_Some by (by rewrite Hk). lia.
  - rewrite map_size_insert_None by done. apply andb_false_iff in Hfull as [Hf|Hf]; [apply Nat.leb_gt in Hf; lia|by rewrite bool_decide_eq_false_2 in Hf].
Qed.

(** * Goals: theorems *)

Lemma goal_facts_total s includeGoals : forest (sm_Goals s) -> exists f, buildGoalStateFacts (Some s) includeGoals = Some f.
Proof.
  intros (_ & Hnd & _). destruct (CanFinalize_total s Hnd) as (blockers & Hc & _). unfold buildGoalStateFacts. rewrite Hc. by eexists.
Qed.
(** What a call of the goal tool did. *)
Definition goal_tool_effect (s : SubgoalManager) (o : option (SubgoalManager * list StateEvent * res ToolError string)) : Prop :=
  exists s' events r, o = Some (s', events, r) /\ forest (sm_Goals s')
    /\ ((s' = s /\ events = []) \/ (goal_step s s' /\ events = [SubgoalsUpdated (ListAll s')] /\ is_ok r = true)).
Lemma goal_unchanged s r : forest (sm_Goals s) -> goal_tool_effect s (Some (s, [], r)).
Proof. intros Hf. exists s, [], r. auto. Qed.
Lemma goal_changed_effect time_json s s' members : forest (sm_Goals s) -> goal_step s s' -> goal_tool_effect s (goal_changed time_json s' members).
Proof.
  intros Hf Hs. assert (forest (sm_Goals s')) as Hf' by (by eapply goal_step_forest). unfold goal_changed.
  destruct (goal_facts_total s' false Hf') as [f ->]. eexists _, _, _. split; [reflexivity|]. split; [done|]. right. done.
Qed.
Lemma close_goal_effect time_json s p action status summary now : forest (sm_Goals s) -> goal_tool_effect s (close_goal time_json s p action status summary now).
Proof.
  intros Hf. unfold close_goal. destruct (_ || _); [by apply goal_unchanged|]. destruct (blank (gp_Result p)); [by apply goal_unchanged|].
  pose proof (goal_update s (gp_GoalID p) status (gp_Result p) now) as Hstep. unfold UpdateGoalStatus in *.
  destruct (update_first _ _ _ _ _); [by apply goal_changed_effect|by apply goal_unchanged].
Qed.

(** on a forest of goals the goal tool always answers.  Either it changes nothing and
    sends nothing, or it makes one step of the goal manager and sends exactly one event, the
    list of the goals as they now are; the goals are still a forest. *)
Theorem goal_tool_effective time_json goal_error s id now1 now2 args :
  forest (sm_Goals s) -> id <> "" -> HasGoal s id = false -> goal_tool_effect s (ManageSubgoals_Execute time_json goal_error s id now1 now2 args).
Proof.
  intros Hf Hid Hfresh. unfold ManageSubgoals_Execute. destruct (decode_goal_params args) as [p|]; [|by apply goal_unchanged].
  destruct (gp_Action p =? "add").
  - destruct (gp_Description p =? ""); [by apply goal_unchanged|]. destruct (gp_Blocking p) as [blocking|]; [|by apply goal_unchanged].
    destruct (not_exact (gp_ParentGoalID p)); [by apply goal_unchanged|].
    pose proof (goal_add s (gp_Description p) (gp_ParentGoalID p) blocking id now1 now2 Hid Hfresh) as Hstep. unfold AddGoalWithBlocking in *.
    repeat (match goal with |- context [if ?b then (s, Err _) else _] => destruct b; [by apply goal_unchanged|] end). by apply goal_changed_effect.
  - destruct (gp_Action p =? "complete"); [by apply close_goal_effect|]. destruct (gp_Action p =? "reject"); [by apply close_goal_effect|by apply goal_unchanged].
Qed.
Lemma goal_tool_effective_witness :
  forest (sm_Goals NewSubgoalManager)
  /\ goal_tool_effect NewSubgoalManager (ManageSubgoals_Execute (fun _ => "") (fun _ => "") NewSubgoalManager "g1" 1 1 "{}").
Proof.
  assert (forest (sm_Goals NewSubgoalManager)) as Hf by (split_and!; [cbn; lia|constructor|constructor]). split; [exact Hf|].
  apply (goal_tool_effective (fun _ => "") (fun _ => "") NewSubgoalManager "g1" 1 1 "{}"); [exact Hf|done|reflexivity].
Defined.
