(* ===== verification/Calls.v ===== *)
(** Calls of a store that may fail: a state monad over a store and a sequence that says of
    each call, in order, whether it fails; how the errors of the code are built; what can be
    said of a program whichever calls fail ([runs], [preserves], [never_fails]) and of one
    in which none does ([exec], [calm], [succeeds]). *)
From S2P Require Import Prelude GoStrings Json.
From Stdlib Require Import Ascii.
Open Scope string_scope.
Open Scope list_scope.

(** * Errors *)

Inductive SErr :=
| SNotFound
| SText (message : string)
| SWrap (prefix : string) (e : SErr)    (* fmt.Errorf("prefix: %w", err) *)
| SJoin (e1 e2 : SErr)                  (* errors.Join of two errors *)
| SStructure (detail : string)          (* data.StructureError *)
| SWorksheets (sheets : list string)    (* service.WorksheetSelectionError *)
| SAlso (e : SErr) (note : string).     (* fmt.Errorf("%w; note", err) *)
Fixpoint Error (e : SErr) : string :=
  match e with
  | SNotFound => "repository record not found"
  | SText m => m
  | SWrap prefix e => (prefix ++ ": " ++ Error e)%string
  | SJoin e1 e2 => (Error e1 ++ String (ascii_of_nat 10) (Error e2))%string
  | SStructure detail => detail
  | SWorksheets sheets => ("Excel workbook has " ++ itoa (Z.of_nat (length sheets)) ++ " worksheets; one must be selected")%string
  | SAlso e note => (Error e ++ "; " ++ note)%string
  end.
(** [errors.As] for a structure error: the first in the tree of the errors. *)
Fixpoint as_structure (e : SErr) : option string :=
  match e with
  | SStructure detail => Some detail
  | SWrap _ e | SAlso e _ => as_structure e
  | SJoin e1 e2 => match as_structure e1 with Some d => Some d | None => as_structure e2 end
  | SNotFound | SText _ | SWorksheets _ => None
  end.
(** The same for the choice of a worksheet: its names. *)
Fixpoint as_worksheets (e : SErr) : option (list string) :=
  match e with
  | SWorksheets sheets => Some sheets
  | SWrap _ e | SAlso e _ => as_worksheets e
  | SJoin e1 e2 => match as_worksheets e1 with Some l => Some l | None => as_worksheets e2 end
  | SNotFound | SText _ | SStructure _ => None
  end.
(** [errors.Join(e1, e2)] where the second may be nil. *)
Definition Join (e1 : SErr) (e2 : option SErr) : SErr := match e2 with Some e2 => SJoin e1 e2 | None => e1 end.

(** * Calls *)

Record World (S : Type) := { w_db : S; w_faults : list (option string) }.
Arguments w_db {_}.
Arguments w_faults {_}.
Definition M (S A : Type) : Type := World S -> World S * res SErr A.
Definition ret {S A} (a : A) : M S A := fun w => (w, Ok a).
Definition fail {S A} (e : SErr) : M S A := fun w => (w, Err e).
Definition lift_res {S A} (r : res SErr A) : M S A := fun w => (w, r).
Definition bind {S A B} (m : M S A) (k : A -> M S B) : M S B :=
  fun w => let '(w, r) := m w in match r with Ok a => k a w | Err e => (w, Err e) end.
(** The error is a value the code goes on with. *)
Definition try {S A} (m : M S A) : M S (res SErr A) := fun w => let '(w, r) := m w in (w, Ok r).
Definition wrap {S A} (prefix : string) (m : M S A) : M S A :=
  fun w => let '(w, r) := m w in (w, match r with Ok a => Ok a | Err e => Err (SWrap prefix e) end).
Notation "'do' x ':=' m 'in' k" := (bind m (fun x => k)) (at level 10, x name, m at level 100, k at level 200) : go_scope.
Notation "'require' b 'else' e ';;' k" := (if b then k else fail e) (at level 10, b at level 99, e at level 99, k at level 200) : go_scope.

(** One repository call. *)
Definition call {S A} (op : S -> S * res SErr A) : M S A :=
  fun w =>
    match w_faults w with
    | Some message :: faults => ({| w_db := w_db w; w_faults := faults |}, Err (SText message))
    | faults => let '(db, r) := op (w_db w) in ({| w_db := db; w_faults := tail faults |}, r)
    end.
Definition read {S A} (f : S -> res SErr A) : M S A := call (fun db => (db, f db)).
Definition write {S} (f : S -> res SErr S) : M S unit := call (fun db => match f db with Ok db' => (db', Ok tt) | Err e => (db, Err e) end).

(** The rows of a table that satisfy [p], in descending or ascending order of [key]. *)
Definition rows {K A} `{Countable K} (m : gmap K A) (p : A -> bool) : list A := List.filter p (map snd (map_to_list m)).
Definition not_before {A} (key : A -> time) (a b : A) : Prop := (key b <= key a)%Z.
#[global] Instance not_before_dec {A} (key : A -> time) : RelDecision (not_before key).
Proof. intros a b. unfold not_before. apply _. Defined.
Definition newest_first {A} (key : A -> time) (l : list A) : list A := merge_sort (not_before key) l.
Definition oldest_first {A} (key : A -> time) (l : list A) : list A := merge_sort (flip (not_before key)) l.
Lemma in_rows {K A} `{Countable K} (m : gmap K A) p a : a ∈ rows m p <-> p a = true /\ exists k, m !! k = Some a.
Proof.
  unfold rows. rewrite list_elem_of_In, filter_In, <- list_elem_of_In, list_elem_of_fmap. split.
  - intros [([k a'] & -> & Hk%elem_of_map_to_list) Hp]. eauto.
  - intros [Hp (k & Hk)]. split; [|done]. exists (k, a). by rewrite elem_of_map_to_list.
Qed.
Lemma elem_of_newest {A} (key : A -> time) a l : a ∈ newest_first key l <-> a ∈ l.
Proof. unfold newest_first. by rewrite merge_sort_Permutation. Qed.
Definition found {A} (o : option A) : res SErr A := match o with Some a => Ok a | None => Err SNotFound end.
Definition ErrUnique : SErr := SText "UNIQUE constraint failed".
Definition ErrForeignKey : SErr := SText "FOREIGN KEY constraint failed".
Definition has {K A} `{Countable K} (m : gmap K A) (k : K) : bool := bool_decide (is_Some (m !! k)).

(** A transaction: beginning and committing it are calls; one that fails leaves the store. *)
Definition transaction {S} (m : M S unit) : M S unit :=
  fun w =>
    let '(w', r) := (do _ := read (fun _ => Ok tt) in do _ := m in read (fun _ => Ok tt))%go w in
    match r with
    | Ok _ => (w', Ok tt)
    | Err e => ({| w_db := w_db w; w_faults := w_faults w' |}, Err e)
    end.

(** * Runs of a call *)

(** [m] can lead from one store to another with the result [r], for some faults. *)
Definition runs {S A} (m : M S A) (db db' : S) (r : res SErr A) : Prop :=
  exists fs fs', m {| w_db := db; w_faults := fs |} = ({| w_db := db'; w_faults := fs' |}, r).

Section runs.
Context {S A B : Type}.
Lemma runs_ret (a : A) (db db' : S) r : runs (ret a) db db' r -> db' = db /\ r = Ok a.
Proof. by intros (fs & fs' & [= <- <- <-]). Qed.
Lemma runs_fail e (db db' : S) (r : res SErr A) : runs (fail e) db db' r -> db' = db /\ r = Err e.
Proof. by intros (fs & fs' & [= <- <- <-]). Qed.
Lemma runs_lift (x : res SErr A) (db db' : S) r : runs (lift_res x) db db' r -> db' = db /\ r = x.
Proof. by intros (fs & fs' & [= <- <- <-]). Qed.
Lemma runs_bind (m : M S A) (k : A -> M S B) db db' r :
  runs (bind m k) db db' r ->
  (exists e, runs m db db' (Err e) /\ r = Err e) \/ (exists a db1, runs m db db1 (Ok a) /\ runs (k a) db1 db' r).
Proof.
  intros (fs & fs' & H). unfold bind in H. destruct (m _) as [[db1 fs1] [a|e]] eqn:Hm.
  - right. exists a, db1. split; [by exists fs, fs1|by exists fs1, fs'].
  - left. exists e. injection H as -> -> <-. split; [by exists fs, fs'|done].
Qed.
Lemma runs_try (m : M S A) db db' r : runs (try m) db db' r -> exists r0, runs m db db' r0 /\ r = Ok r0.
Proof.
  intros (fs & fs' & H). unfold try in H. destruct (m _) as [w1 r0] eqn:Hm. injection H as -> <-. exists r0. split; [by exists fs, fs'|done].
Qed.
Lemma runs_wrap prefix (m : M S A) db db' r :
  runs (wrap prefix m) db db' r ->
  exists r0, runs m db db' r0 /\ r = match r0 with Ok a => Ok a | Err e => Err (SWrap prefix e) end.
Proof.
  intros (fs & fs' & H). unfold wrap in H. destruct (m _) as [w1 r0] eqn:Hm. injection H as -> <-. exists r0. split; [by exists fs, fs'|done].
Qed.
Lemma runs_read (f : S -> res SErr A) db db' r :
  runs (read f) db db' r -> db' = db /\ ((exists m, r = Err (SText m)) \/ r = f db).
Proof.
  intros (fs & fs' & H). unfold read, call in H. cbn in H. destruct fs as [|[m|] fs]; injection H as <- <- <-; eauto.
Qed.
End runs.
Lemma runs_write {S} (f : S -> res SErr S) db db' r :
  runs (write f) db db' r -> (exists e, db' = db /\ r = Err e) \/ (f db = Ok db' /\ r = Ok tt).
Proof.
  intros (fs & fs' & H). unfold write, call in H. cbn in H.
  destruct fs as [|[m|] fs]; [|injection H as <- <- <-; eauto|]; (destruct (f db) as [db1|e] eqn:Hf; injection H as <- <- <-; eauto).
Qed.

Lemma transaction_runs {S} (m : M S unit) db db' r :
  runs (transaction m) db db' r -> (exists e, r = Err e /\ db' = db) \/ r = Ok tt /\ runs m db db' (Ok tt).
Proof.
  intros (fs & fs' & R). unfold transaction in R. cbn beta in R. destruct (bind _ _ _) as [w' [[]|e]] eqn:E.
  - injection R as -> <-. right. split; [done|]. assert (R : runs (do _ := read (fun _ => Ok tt) in do _ := m in read (fun _ => Ok tt))%go db db' (Ok tt)) by by exists fs, fs'.
    apply runs_bind in R as [(e & _ & [=])|(? & d & R1 & R)]. apply runs_read in R1 as (-> & _).
    apply runs_bind in R as [(e & _ & [=])|([] & d & R1 & R)]. by apply runs_read in R as (-> & _).
  - injection R as <- _ <-. left. eauto.
Qed.

(** One step of the inversion of a run. *)
Ltac use_result E := first [discriminate E | injection E as E; try subst | try subst].
Ltac run_step H :=
  lazymatch type of H with
  | runs (ret _) _ _ _ => let E := fresh "E" in apply runs_ret in H as [-> E]; use_result E
  | runs (fail _) _ _ _ => let E := fresh "E" in apply runs_fail in H as [-> E]; use_result E
  | runs (lift_res _) _ _ _ => apply runs_lift in H as [-> H]
  | runs (read _) _ _ _ => apply runs_read in H as [-> H]
  | runs (bind _ _) _ _ _ =>
      let e := fresh "e" in let a := fresh "a" in let db := fresh "db" in let H1 := fresh "R" in
      let E := fresh "E" in
      apply runs_bind in H as [(e & H1 & E)|(a & db & H1 & H)]; [use_result E|]
  | runs (try _) _ _ _ => let r := fresh "r" in let E := fresh "E" in apply runs_try in H as (r & H & E); use_result E
  | runs (wrap _ _) _ _ _ => let r := fresh "r" in let E := fresh "E" in apply runs_wrap in H as (r & H & E); destruct r; use_result E
  end.

(** All steps that can be inverted. *)
Ltac run_inv :=
  repeat match goal with
  | H : runs (ret _) _ _ _ |- _ => run_step H
  | H : runs (fail _) _ _ _ |- _ => run_step H
  | H : runs (lift_res _) _ _ _ |- _ => run_step H
  | H : runs (read _) _ _ _ |- _ => run_step H
  | H : runs (bind _ _) _ _ _ |- _ => run_step H
  | H : runs (try _) _ _ _ |- _ => run_step H
  | H : runs (wrap _ _) _ _ _ |- _ => run_step H
  | H : runs (if ?b then _ else _) _ _ _ |- _ => destruct b eqn:?
  | H : runs (match ?x with Ok _ => _ | Err _ => _ end) _ _ _ |- _ => destruct x eqn:?
  end.

(** Without a fault. *)
Definition exec {S A} (m : M S A) (db : S) : S * res SErr A := let '(w, r) := m {| w_db := db; w_faults := [] |} in (w_db w, r).
Definition calm {S A} (m : M S A) : Prop := forall db, exists db' r, m {| w_db := db; w_faults := [] |} = ({| w_db := db'; w_faults := [] |}, r).
Lemma exec_bind {S A B} (m : M S A) (k : A -> M S B) db :
  calm m -> exec (bind m k) db = match exec m db with (db', Ok a) => exec (k a) db' | (db', Err e) => (db', Err e) end.
Proof. intros Hm. unfold exec, bind. destruct (Hm db) as (db' & [a|e] & ->); done. Qed.
Lemma exec_try {S A} (m : M S A) db : exec (try m) db = ((exec m db).1, Ok (exec m db).2).
Proof. unfold exec, try. by destruct (m _). Qed.
Lemma exec_read {S A} (f : S -> res SErr A) db : exec (read f) db = (db, f db).
Proof. done. Qed.
Lemma exec_write {S} (f : S -> res SErr S) db : exec (write f) db = match f db with Ok db' => (db', Ok tt) | Err e => (db, Err e) end.
Proof. unfold exec, write, call. cbn. by destruct (f db). Qed.
Lemma exec_wrap {S A} prefix (m : M S A) db :
  exec (wrap prefix m) db = ((exec m db).1, match (exec m db).2 with Ok a => Ok a | Err e => Err (SWrap prefix e) end).
Proof. unfold exec, wrap. by destruct (m _). Qed.

Create HintDb calm discriminated.
Lemma calm_ret {S A} (a : A) : calm (ret (S:=S) a).
Proof. intros db. by eexists _, _. Qed.
Lemma calm_fail {S A} e : calm (fail (S:=S) (A:=A) e).
Proof. intros db. by eexists _, _. Qed.
Lemma calm_read {S A} (f : S -> res SErr A) : calm (read f).
Proof. intros db. by eexists _, _. Qed.
Lemma calm_write {S} (f : S -> res SErr S) : calm (write f).
Proof. intros db. unfold write, call. cbn. by destruct (f db); eexists _, _. Qed.
Lemma calm_lift {S A} (r : res SErr A) : calm (lift_res (S:=S) r).
Proof. intros db. by eexists _, _. Qed.
Lemma calm_bind {S A B} (m : M S A) (k : A -> M S B) : calm m -> (forall a, calm (k a)) -> calm (bind m k).
Proof. intros Hm Hk db. unfold bind. destruct (Hm db) as (db' & [a|e] & ->); [apply Hk|by eexists _, _]. Qed.
Lemma calm_try {S A} (m : M S A) : calm m -> calm (try m).
Proof. intros Hm db. unfold try. destruct (Hm db) as (db' & r & ->). by eexists _, _. Qed.
Lemma calm_wrap {S A} prefix (m : M S A) : calm m -> calm (wrap prefix m).
Proof. intros Hm db. unfold wrap. destruct (Hm db) as (db' & r & ->). by eexists _, _. Qed.
#[export] Hint Resolve calm_ret calm_fail calm_read calm_write calm_lift calm_bind calm_try calm_wrap : calm.

Lemma calm_transaction {S} (m : M S unit) : calm m -> calm (transaction m).
Proof.
  intros Hm db. unfold transaction. destruct (calm_bind _ _ (calm_read (fun _ : S => Ok tt)) (fun _ => calm_bind _ _ Hm (fun _ => calm_read (fun _ : S => Ok tt))) db) as (db' & [a|e] & ->);
    by eexists _, _.
Qed.
#[export] Hint Resolve calm_transaction : calm.
Lemma exec_transaction {S} (m : M S unit) db :
  calm m -> exec (transaction m) db = match exec m db with (db', Ok _) => (db', Ok tt) | (_, Err e) => (db, Err e) end.
Proof.
  intros Hm. unfold exec, transaction, bind, read, call. cbn. destruct (Hm db) as (db' & [a|e] & E); rewrite E; done.
Qed.

(** A run without faults is a run. *)
Lemma runs_exec {S A} (m : M S A) db : runs m db (exec m db).1 (exec m db).2.
Proof. unfold exec, runs. destruct (m {| w_db := db; w_faults := [] |}) as [[db' fs] r] eqn:E. by exists [], fs. Qed.

(** ** Calls that cannot fail *)
Definition never_fails {S A} (m : M S A) : Prop := forall db db' e, ~ runs m db db' (Err e).
Lemma never_fails_ret {S A} (a : A) : never_fails (ret (S:=S) a).
Proof. intros db db' e R. by run_step R. Qed.
Lemma never_fails_try {S A} (m : M S A) : never_fails (try m).
Proof. intros db db' e R. apply runs_try in R as (r & _ & [=]). Qed.
Lemma never_fails_bind {S A B} (m : M S A) (k : A -> M S B) : never_fails m -> (forall a, never_fails (k a)) -> never_fails (bind m k).
Proof. intros Hm Hk db db' e [(e' & R & _)|(a & d1 & _ & R)]%runs_bind; [by eapply Hm|by eapply Hk]. Qed.
Lemma read_found {A} (x : option A) (a : A) : (exists m, Ok a = Err (SText m)) \/ Ok a = found x -> x = Some a.
Proof. intros [(m & [=])|E]. unfold found in E. by destruct x; simplify_eq. Qed.
Definition succeeds {S A} (m : M S A) : Prop := calm m /\ forall db, is_ok (exec m db).2 = true.
Lemma succeeds_ret {S A} (a : A) : succeeds (ret (S:=S) a).
Proof. split; [auto with calm|done]. Qed.
Lemma succeeds_bind {S A B} (m : M S A) (k : A -> M S B) : succeeds m -> (forall a, succeeds (k a)) -> succeeds (bind m k).
Proof.
  intros [Hm Hok] Hk. split; [apply calm_bind; [done|]; intros a; apply Hk|]. intros db. rewrite exec_bind by done. specialize (Hok db).
  destruct (exec m db) as [d [a|e]]; [apply Hk|done].
Qed.
Lemma succeeds_wrap {S A} prefix (m : M S A) : succeeds m -> succeeds (wrap prefix m).
Proof. intros [Hm Hok]. split; [auto with calm|]. intros db. rewrite exec_wrap. cbn. specialize (Hok db). by destruct (exec m db).2. Qed.
Lemma succeeds_write {S} (f : S -> res SErr S) : (forall db, is_ok (f db) = true) -> succeeds (write f).
Proof. intros Hf. split; [auto with calm|]. intros db. rewrite exec_write. specialize (Hf db). by destruct (f db). Qed.
(** [m] does not change what [f] reads. *)
Definition preserves {S T A} (f : S -> T) (m : M S A) : Prop := forall db db' r, runs m db db' r -> f db' = f db.
Section preserves.
Context {S T : Type} (f : S -> T).
Lemma preserves_ret {A} (a : A) : preserves f (ret a).
Proof. intros db db' r R. by run_step R. Qed.
Lemma preserves_fail {A} e : preserves f (fail (S:=S) (A:=A) e).
Proof. intros db db' r R. by run_step R. Qed.
Lemma preserves_lift {A} (x : res SErr A) : preserves f (lift_res x).
Proof. intros db db' r R. by run_step R. Qed.
Lemma preserves_read {A} (g : S -> res SErr A) : preserves f (read g).
Proof. by intros db db' r [-> _]%runs_read. Qed.
Lemma preserves_bind {A B} (m : M S A) (k : A -> M S B) : preserves f m -> (forall a, preserves f (k a)) -> preserves f (bind m k).
Proof.
  intros Hm Hk db db' r R. apply runs_bind in R as [(e & R & _)|(a & d & R1 & R)]; [by eapply Hm|]. rewrite (Hk _ _ _ _ R). by eapply Hm.
Qed.
Lemma preserves_try {A} (m : M S A) : preserves f m -> preserves f (try m).
Proof. intros Hm db db' r (r0 & R & _)%runs_try. by eapply Hm. Qed.
Lemma preserves_wrap {A} prefix (m : M S A) : preserves f m -> preserves f (wrap prefix m).
Proof. intros Hm db db' r (r0 & R & _)%runs_wrap. by eapply Hm. Qed.
Lemma preserves_write g : (forall db db', g db = Ok db' -> f db' = f db) -> preserves f (write g).
Proof. intros Hg db db' r [(e & -> & _)|(E & _)]%runs_write; [done|by apply Hg]. Qed.
End preserves.
(** ** Concrete runs *)

Definition run_of {S A} (m : M S A) (db : S) (fs : list (option string)) : S := w_db (m {| w_db := db; w_faults := fs |}).1.
Lemma runs_of {S A} (m : M S A) db fs : runs m db (run_of m db fs) (m {| w_db := db; w_faults := fs |}).2.
Proof. unfold runs, run_of. destruct (m _) as [[d fs'] r] eqn:E. by exists fs, fs'. Qed.
Lemma exec_run_of {S A} (m : M S A) db : exec m db = (run_of m db [], (m {| w_db := db; w_faults := [] |}).2).
Proof. unfold exec, run_of. by destruct (m _). Qed.

(** ** Counting the failures *)

Definition failures (fs : list (option string)) : nat := length (List.filter (fun f => match f with Some _ => true | None => false end) fs).
(** [m] can lead from one store to another with the result [r] when [n] calls of the whole
    are made to fail, [n'] of them after it. *)
Definition counts {S A} (n : nat) (m : M S A) (db : S) (n' : nat) (db' : S) (r : res SErr A) : Prop :=
  exists fs fs', m {| w_db := db; w_faults := fs |} = ({| w_db := db'; w_faults := fs' |}, r) /\ failures fs = n /\ failures fs' = n'.
Section counts.
Context {S A B : Type}.
Lemma counts_ret n (a : A) (db : S) n' db' r : counts n (ret a) db n' db' r -> n' = n /\ db' = db /\ r = Ok a.
Proof. by intros (fs & fs' & [= <- <- <-] & <- & <-). Qed.
Lemma counts_fail n e (db : S) n' db' (r : res SErr A) : counts n (fail e) db n' db' r -> n' = n /\ db' = db /\ r = Err e.
Proof. by intros (fs & fs' & [= <- <- <-] & <- & <-). Qed.
Lemma counts_lift n (x : res SErr A) (db : S) n' db' r : counts n (lift_res x) db n' db' r -> n' = n /\ db' = db /\ r = x.
Proof. by intros (fs & fs' & [= <- <- <-] & <- & <-). Qed.
Lemma counts_read n (f : S -> res SErr A) db n' db' r :
  counts n (read f) db n' db' r -> db' = db /\ (n = Datatypes.S n' /\ (exists m, r = Err (SText m)) \/ n' = n /\ r = f db).
Proof.
  intros (fs & fs' & H & <- & <-). unfold read, call in H. cbn in H. destruct fs as [|[m|] fs]; injection H as <- <- <-; (split; [done|]); eauto.
Qed.
Lemma counts_bind n (m : M S A) (c : A -> M S B) db n' db' r :
  counts n (bind m c) db n' db' r ->
  (exists e, counts n m db n' db' (Err e) /\ r = Err e) \/ (exists a n1 db1, counts n m db n1 db1 (Ok a) /\ counts n1 (c a) db1 n' db' r).
Proof.
  intros (fs & fs' & H & E1 & E2). unfold bind in H. destruct (m _) as [[db1 fs1] [a|e]] eqn:Hm.
  - right. exists a, (failures fs1), db1. split; [by exists fs, fs1|by exists fs1, fs'].
  - left. exists e. injection H as -> -> <-. split; [by exists fs, fs'|done].
Qed.
Lemma counts_try n (m : M S A) db n' db' r : counts n (try m) db n' db' r -> exists r0, counts n m db n' db' r0 /\ r = Ok r0.
Proof.
  intros (fs & fs' & H & E). unfold try in H. destruct (m _) as [w1 r0] eqn:Hm. injection H as -> <-. exists r0. split; [by exists fs, fs'|done].
Qed.
Lemma counts_wrap n prefix (m : M S A) db n' db' r :
  counts n (wrap prefix m) db n' db' r ->
  exists r0, counts n m db n' db' r0 /\ r = match r0 with Ok a => Ok a | Err e => Err (SWrap prefix e) end.
Proof.
  intros (fs & fs' & H & E). unfold wrap in H. destruct (m _) as [w1 r0] eqn:Hm. injection H as -> <-. exists r0. split; [by exists fs, fs'|done].
Qed.
Lemma counts_runs n (m : M S A) db n' db' r : counts n m db n' db' r -> runs m db db' r.
Proof. intros (fs & fs' & H & _). by exists fs, fs'. Qed.
End counts.
Lemma counts_write {S} n (f : S -> res SErr S) db n' db' r :
  counts n (write f) db n' db' r ->
  n = Datatypes.S n' /\ db' = db /\ is_ok r = false \/ n' = n /\ (f db = Ok db' /\ r = Ok tt \/ db' = db /\ exists e, f db = Err e /\ r = Err e).
Proof.
  intros (fs & fs' & H & <- & <-). unfold write, call in H. cbn in H.
  destruct fs as [|[m|] fs]; [|injection H as <- <- <-; by left|]; right; (destruct (f db) as [d|e]; injection H as <- <- <-); eauto 6.
Qed.
(** A write that no constraint refuses. *)
Definition update {S} (g : S -> S) : M S unit := write (fun db => Ok (g db)).
Lemma counts_update {S} n (g : S -> S) db n' db' r :
  counts n (update g) db n' db' r -> n = Datatypes.S n' /\ db' = db /\ is_ok r = false \/ n' = n /\ db' = g db /\ r = Ok tt.
Proof. intros [?|(-> & [([= <-] & ->)|(_ & e & [=] & _)])]%counts_write; auto. Qed.
Lemma counts_wrapped_update {S} n prefix (g : S -> S) db n' db' r :
  counts n (wrap prefix (update g)) db n' db' r -> n = Datatypes.S n' /\ db' = db /\ is_ok r = false \/ n' = n /\ db' = g db /\ r = Ok tt.
Proof. intros (r0 & [(? & ? & H)|(? & ? & ->)]%counts_update & ->)%counts_wrap; [left|right]; split_and!; try done. by destruct r0. Qed.
