(* ===== verification/Sources.v ===== *)
(** Data sources, snapshots, profiles and confirmations: the metadata store
    ([repository/sqlite], with the keys of [metadata/store.go]) and the service over it
    ([service/source_service.go], [source_connector.go], [live_source.go],
    [semantic_assets.go]).

    The store is a value of [Db]; a repository call is an operation on it that either
    happens or fails.  [w_faults] says of each call, in order, whether the database fails
    it; a call that fails changes nothing.  The clock does not advance within an operation,
    and identifiers that the code draws at random are arguments.  A message shows a quoted
    value without its quotes. *)
From S2P Require Import Prelude GoStrings Json JsonRoundtrip GoText SqlGuard StateTools Calls.
From Stdlib Require Import Ascii SpecFloat.
Open Scope string_scope.
Open Scope list_scope.

(** * Records *)

Inductive SnapshotStatus := SnapshotStatusCreating | SnapshotStatusReady | SnapshotStatusFailed.
(** [ProfileModeUnset] is the zero value. *)
Inductive ProfileMode := ProfileModeUnset | ProfileModePending | ProfileModeSampled | ProfileModeExact | ProfileModeLive.
Inductive SnapshotMode := SnapshotModeImported | SnapshotModeLive.
Inductive ProfileStatus := ProfileStatusProfiled | ProfileStatusConfirmed.
#[global] Instance snapshot_status_eq : EqDecision SnapshotStatus. Proof. solve_decision. Defined.
#[global] Instance snapshot_mode_eq : EqDecision SnapshotMode. Proof. solve_decision. Defined.

Definition SourceTypeFileUpload : string := "file_upload".
Definition SourceStatusActive : string := "active".
Definition profile_mode_text (m : ProfileMode) : string :=
  match m with ProfileModeUnset => "" | ProfileModePending => "pending" | ProfileModeSampled => "sampled" | ProfileModeExact => "exact" | ProfileModeLive => "live" end.

Record DataSource := {
  ds_ID : string; ds_WorkspaceID : string; ds_Name : string; ds_SourceType : string; ds_Status : string; ds_FileID : option string; ds_CreatedBy : string;
  ds_CreatedAt : time; ds_UpdatedAt : time
}.
Record SourceConfig := {
  sf_SourceID : string; sf_ConnectorType : string; sf_ConfigJSON : string; sf_CredentialCiphertext : string; sf_LastTestedAt : option time;
  sf_LastTestStatus : string; sf_LastErrorMessage : option string; sf_CreatedAt : time; sf_UpdatedAt : time
}.
Record SourceSnapshot := {
  sn_ID : string; sn_SessionID : string; sn_SourceID : string; sn_UpstreamKind : string; sn_UpstreamSchema : string; sn_UpstreamObject : string;
  sn_AnalysisTableName : string; sn_RowCount : Z; sn_ColumnCount : Z; sn_Status : SnapshotStatus; sn_ErrorMessage : option string;
  sn_SchemaSignature : string; sn_ImportedAt : time; sn_RowsImported : Z; sn_RowsSkipped : Z; sn_ImportRowLimit : Z; sn_ImportTruncated : bool;
  sn_ImportDurationMs : Z; sn_ProfileDurationMs : Z; sn_SnapshotSizeBytes : Z; sn_ProfileMode : ProfileMode; sn_Mode : SnapshotMode
}.
Record SessionSourceBinding := {
  sb_SessionID : string; sb_SourceID : string; sb_SourceObjectKey : string; sb_ActiveSnapshotID : string; sb_CreatedAt : time; sb_UpdatedAt : time
}.
Record SemanticProfile := {
  pf_ID : string; pf_SessionID : string; pf_SourceID : string; pf_SnapshotID : string; pf_AnalysisTableName : string; pf_SchemaSignature : string;
  pf_ProfileStatus : ProfileStatus; pf_ProfileJSON : string; pf_CreatedAt : time; pf_UpdatedAt : time
}.
Record SemanticConfirmation := {
  cf_ID : string; cf_ProfileID : string; cf_WorkspaceID : string; cf_SessionID : string; cf_ConfirmedBy : string; cf_ConfirmationReceiptID : string;
  cf_Provenance : string; cf_Scope : string; cf_OverridesJSON : string; cf_CreatedAt : time
}.
Record SemanticAsset := {
  sa_ID : string; sa_WorkspaceID : string; sa_SourceID : string; sa_SchemaSignature : string; sa_AssetKind : string; sa_AssetKey : string;
  sa_AssetValueJSON : string; sa_CreatedFromProfileID : string; sa_CreatedFromConfirmationID : string; sa_CreatedBy : string;
  sa_CreatedAt : time; sa_UpdatedAt : time
}.
Record AuditEvent := {
  ae_ID : string; ae_WorkspaceID : string; ae_SessionID : string; ae_RunID : string; ae_ActorUserID : string; ae_EventType : string;
  ae_ResourceType : string; ae_ResourceID : string; ae_PayloadJSON : string; ae_CreatedAt : time
}.
Record ColumnInfo := {
  ci_Name : string; ci_DeclaredType : string; ci_NonEmptyRate : spec_float; ci_UniqueCount : Z; ci_SampleValues : list string; ci_Estimated : bool
}.
Record SamplingInfo := { si_Method : string; si_SourceRows : Z; si_SampleRows : Z; si_Estimated : bool }.
Record SchemaInfo := { sc_TableName : string; sc_RowCount : Z; sc_Columns : list ColumnInfo; sc_Sampling : SamplingInfo }.

(** * The store *)

(** [db_tables]: the tables of the sessions' analysis databases, by session and name, with
    what [ExtractSchema] reads from them. *)
Record Db := {
  db_sessions : gset string;
  db_sources : gmap string DataSource;
  db_snapshots : gmap string SourceSnapshot;
  db_bindings : gmap (string * string * string) SessionSourceBinding;
  db_profiles : gmap string SemanticProfile;
  db_confirmations : gmap string SemanticConfirmation;
  db_assets : gmap (string * string * string * string) SemanticAsset;
  db_audit : gmap string AuditEvent;
  db_tables : gmap (string * string) SchemaInfo;
  db_configs : gmap string SourceConfig
}.
Definition set_sources db m := Build_Db (db_sessions db) m (db_snapshots db) (db_bindings db) (db_profiles db) (db_confirmations db) (db_assets db) (db_audit db) (db_tables db) (db_configs db).
Definition set_snapshots db m := Build_Db (db_sessions db) (db_sources db) m (db_bindings db) (db_profiles db) (db_confirmations db) (db_assets db) (db_audit db) (db_tables db) (db_configs db).
Definition set_bindings db m := Build_Db (db_sessions db) (db_sources db) (db_snapshots db) m (db_profiles db) (db_confirmations db) (db_assets db) (db_audit db) (db_tables db) (db_configs db).
Definition set_profiles db m := Build_Db (db_sessions db) (db_sources db) (db_snapshots db) (db_bindings db) m (db_confirmations db) (db_assets db) (db_audit db) (db_tables db) (db_configs db).
Definition set_confirmations db m := Build_Db (db_sessions db) (db_sources db) (db_snapshots db) (db_bindings db) (db_profiles db) m (db_assets db) (db_audit db) (db_tables db) (db_configs db).
Definition set_assets db m := Build_Db (db_sessions db) (db_sources db) (db_snapshots db) (db_bindings db) (db_profiles db) (db_confirmations db) m (db_audit db) (db_tables db) (db_configs db).
Definition set_audit db m := Build_Db (db_sessions db) (db_sources db) (db_snapshots db) (db_bindings db) (db_profiles db) (db_confirmations db) (db_assets db) m (db_tables db) (db_configs db).
Definition set_tables db m := Build_Db (db_sessions db) (db_sources db) (db_snapshots db) (db_bindings db) (db_profiles db) (db_confirmations db) (db_assets db) (db_audit db) m (db_configs db).
Definition set_configs db m := Build_Db (db_sessions db) (db_sources db) (db_snapshots db) (db_bindings db) (db_profiles db) (db_confirmations db) (db_assets db) (db_audit db) (db_tables db) m.

Abbreviation M := (Calls.M Db).

(** * Repositories *)

Definition DataSource_GetByID (id : string) : M DataSource := read (fun db => found (db_sources db !! id)).
Definition DataSource_GetByFileID (fileID : string) : M DataSource :=
  read (fun db => found (head (rows (db_sources db) (fun d => bool_decide (ds_FileID d = Some fileID))))).
Definition DataSource_ListByWorkspace (workspaceID : string) : M (list DataSource) :=
  read (fun db => Ok (oldest_first ds_CreatedAt (rows (db_sources db) (fun d => ds_WorkspaceID d =? workspaceID)))).
Definition DataSource_Create (d : DataSource) : M unit :=
  write (fun db => guard negb (has (db_sources db) (ds_ID d)) else ErrUnique ;; Ok (set_sources db (<[ds_ID d := d]> (db_sources db)))).

(** ON DELETE CASCADE, from the referenced row to the rows that reference it. *)
Definition delete_profiles (p : SemanticProfile -> bool) (db : Db) : Db :=
  let gone := fun id => match db_profiles db !! id with Some f => p f | None => false end in
  set_confirmations (set_profiles db (filter (fun kv => p kv.2 = false) (db_profiles db)))
    (filter (fun kv => gone (cf_ProfileID kv.2) = false) (db_confirmations db)).
Definition delete_snapshots (p : SourceSnapshot -> bool) (db : Db) : Db :=
  let gone := fun id => match db_snapshots db !! id with Some s => p s | None => false end in
  delete_profiles (fun f => gone (pf_SnapshotID f)) (set_snapshots db (filter (fun kv => p kv.2 = false) (db_snapshots db))).
Definition DataSource_Delete (id : string) : M unit :=
  write (fun db =>
    let db := set_sources db (delete id (db_sources db)) in
    let db := set_bindings db (filter (fun kv => (sb_SourceID kv.2 =? id) = false) (db_bindings db)) in
    let db := set_configs db (delete id (db_configs db)) in
    Ok (delete_profiles (fun f => pf_SourceID f =? id) (delete_snapshots (fun s => sn_SourceID s =? id) db))).

Definition SourceConfig_Create (c : SourceConfig) : M unit :=
  write (fun db =>
    guard negb (has (db_configs db) (sf_SourceID c)) else ErrUnique ;;
    guard has (db_sources db) (sf_SourceID c) else ErrForeignKey ;;
    Ok (set_configs db (<[sf_SourceID c := c]> (db_configs db)))).

Definition Snapshot_Create (s : SourceSnapshot) : M unit :=
  write (fun db =>
    guard negb (has (db_snapshots db) (sn_ID s)) else ErrUnique ;;
    guard has (db_sources db) (sn_SourceID s) else ErrForeignKey ;;
    Ok (set_snapshots db (<[sn_ID s := s]> (db_snapshots db)))).
Definition Snapshot_GetByID (id : string) : M SourceSnapshot := read (fun db => found (db_snapshots db !! id)).
Definition Snapshot_ListBySource (sourceID : string) : M (list SourceSnapshot) :=
  read (fun db => Ok (newest_first sn_ImportedAt (rows (db_snapshots db) (fun s => sn_SourceID s =? sourceID)))).
Definition with_status (status : SnapshotStatus) (message : option string) (s : SourceSnapshot) : SourceSnapshot :=
  {| sn_ID := sn_ID s; sn_SessionID := sn_SessionID s; sn_SourceID := sn_SourceID s; sn_UpstreamKind := sn_UpstreamKind s;
     sn_UpstreamSchema := sn_UpstreamSchema s; sn_UpstreamObject := sn_UpstreamObject s; sn_AnalysisTableName := sn_AnalysisTableName s;
     sn_RowCount := sn_RowCount s; sn_ColumnCount := sn_ColumnCount s; sn_Status := status; sn_ErrorMessage := message;
     sn_SchemaSignature := sn_SchemaSignature s; sn_ImportedAt := sn_ImportedAt s; sn_RowsImported := sn_RowsImported s;
     sn_RowsSkipped := sn_RowsSkipped s; sn_ImportRowLimit := sn_ImportRowLimit s; sn_ImportTruncated := sn_ImportTruncated s;
     sn_ImportDurationMs := sn_ImportDurationMs s; sn_ProfileDurationMs := sn_ProfileDurationMs s;
     sn_SnapshotSizeBytes := sn_SnapshotSizeBytes s; sn_ProfileMode := sn_ProfileMode s; sn_Mode := sn_Mode s |}.
(** An update of a row that does not exist changes nothing and succeeds. *)
Definition Snapshot_UpdateStatus (id : string) (status : SnapshotStatus) (message : option string) : M unit :=
  write (fun db => Ok (set_snapshots db (alter (with_status status message) id (db_snapshots db)))).
Record CompletionFacts := {
  cp_RowCount : Z; cp_ColumnCount : Z; cp_SchemaSignature : string; cp_RowsImported : Z; cp_RowsSkipped : Z; cp_ImportRowLimit : Z;
  cp_ImportTruncated : bool; cp_ImportDurationMs : Z; cp_ProfileDurationMs : Z; cp_SnapshotSizeBytes : Z; cp_ProfileMode : ProfileMode
}.
Definition with_completion (c : CompletionFacts) (s : SourceSnapshot) : SourceSnapshot :=
  {| sn_ID := sn_ID s; sn_SessionID := sn_SessionID s; sn_SourceID := sn_SourceID s; sn_UpstreamKind := sn_UpstreamKind s;
     sn_UpstreamSchema := sn_UpstreamSchema s; sn_UpstreamObject := sn_UpstreamObject s; sn_AnalysisTableName := sn_AnalysisTableName s;
     sn_RowCount := cp_RowCount c; sn_ColumnCount := cp_ColumnCount c; sn_Status := sn_Status s; sn_ErrorMessage := sn_ErrorMessage s;
     sn_SchemaSignature := cp_SchemaSignature c; sn_ImportedAt := sn_ImportedAt s; sn_RowsImported := cp_RowsImported c;
     sn_RowsSkipped := cp_RowsSkipped c; sn_ImportRowLimit := cp_ImportRowLimit c; sn_ImportTruncated := cp_ImportTruncated c;
     sn_ImportDurationMs := cp_ImportDurationMs c; sn_ProfileDurationMs := cp_ProfileDurationMs c;
     sn_SnapshotSizeBytes := cp_SnapshotSizeBytes c; sn_ProfileMode := cp_ProfileMode c; sn_Mode := sn_Mode s |}.
Definition Snapshot_UpdateCompletion (id : string) (c : CompletionFacts) : M unit :=
  write (fun db => Ok (set_snapshots db (alter (with_completion c) id (db_snapshots db)))).
Definition Snapshot_Delete (id : string) : M unit := write (fun db => Ok (delete_snapshots (fun s => sn_ID s =? id) db)).

Definition binding_key (b : SessionSourceBinding) : string * string * string := (sb_SessionID b, sb_SourceID b, sb_SourceObjectKey b).
Definition Binding_Upsert (b : SessionSourceBinding) : M unit :=
  write (fun db =>
    guard bool_decide (sb_SessionID b ∈ db_sessions db) && has (db_sources db) (sb_SourceID b) else ErrForeignKey ;;
    let b := match db_bindings db !! binding_key b with
             | Some old => {| sb_SessionID := sb_SessionID b; sb_SourceID := sb_SourceID b; sb_SourceObjectKey := sb_SourceObjectKey b;
                              sb_ActiveSnapshotID := sb_ActiveSnapshotID b; sb_CreatedAt := sb_CreatedAt old; sb_UpdatedAt := sb_UpdatedAt b |}
             | None => b
             end in
    Ok (set_bindings db (<[binding_key b := b]> (db_bindings db)))).
Definition Binding_GetBySession (sessionID : string) : M (list SessionSourceBinding) :=
  read (fun db => Ok (newest_first sb_UpdatedAt (rows (db_bindings db) (fun b => sb_SessionID b =? sessionID)))).
Definition Binding_GetBySessionSourceObject (sessionID sourceID key : string) : M SessionSourceBinding :=
  read (fun db => found (db_bindings db !! (sessionID, sourceID, key))).
Definition Binding_Delete (sessionID sourceID key : string) : M unit :=
  write (fun db => Ok (set_bindings db (delete (sessionID, sourceID, key) (db_bindings db)))).

Definition Profile_Create (p : SemanticProfile) : M unit :=
  write (fun db =>
    guard negb (has (db_profiles db) (pf_ID p)) else ErrUnique ;;
    guard has (db_sources db) (pf_SourceID p) && has (db_snapshots db) (pf_SnapshotID p) else ErrForeignKey ;;
    Ok (set_profiles db (<[pf_ID p := p]> (db_profiles db)))).
Definition Profile_GetByID (id : string) : M SemanticProfile := read (fun db => found (db_profiles db !! id)).
Definition Profile_ListBySource (sourceID : string) : M (list SemanticProfile) :=
  read (fun db => Ok (newest_first pf_CreatedAt (rows (db_profiles db) (fun p => pf_SourceID p =? sourceID)))).
Definition Profile_ListBySession (sessionID : string) : M (list SemanticProfile) :=
  read (fun db => Ok (oldest_first pf_CreatedAt (rows (db_profiles db) (fun p => pf_SessionID p =? sessionID)))).
Definition with_profile_status (status : ProfileStatus) (now : time) (p : SemanticProfile) : SemanticProfile :=
  {| pf_ID := pf_ID p; pf_SessionID := pf_SessionID p; pf_SourceID := pf_SourceID p; pf_SnapshotID := pf_SnapshotID p;
     pf_AnalysisTableName := pf_AnalysisTableName p; pf_SchemaSignature := pf_SchemaSignature p; pf_ProfileStatus := status;
     pf_ProfileJSON := pf_ProfileJSON p; pf_CreatedAt := pf_CreatedAt p; pf_UpdatedAt := now |}.
Definition Profile_UpdateStatus (id : string) (status : ProfileStatus) (now : time) : M unit :=
  write (fun db => Ok (set_profiles db (alter (with_profile_status status now) id (db_profiles db)))).
Definition Profile_Delete (id : string) : M unit := write (fun db => Ok (delete_profiles (fun p => pf_ID p =? id) db)).

(** A receipt that is not empty confirms once. *)
Definition Confirmation_Create (c : SemanticConfirmation) : M unit :=
  write (fun db =>
    guard negb (has (db_confirmations db) (cf_ID c))
          && ((cf_ConfirmationReceiptID c =? "")
              || (length (rows (db_confirmations db) (fun c' => (cf_ConfirmationReceiptID c' =? cf_ConfirmationReceiptID c)%string)) =? 0)%nat)
    else ErrUnique ;;
    guard has (db_profiles db) (cf_ProfileID c) else ErrForeignKey ;;
    Ok (set_confirmations db (<[cf_ID c := c]> (db_confirmations db)))).
Definition Confirmation_ListByProfile (profileID : string) : M (list SemanticConfirmation) :=
  read (fun db => Ok (newest_first cf_CreatedAt (rows (db_confirmations db) (fun c => cf_ProfileID c =? profileID)))).
Definition Confirmation_DeleteByProfile (profileID : string) : M unit :=
  write (fun db => Ok (set_confirmations db (filter (fun kv => (cf_ProfileID kv.2 =? profileID) = false) (db_confirmations db)))).

Definition asset_key (a : SemanticAsset) : string * string * string * string := (sa_WorkspaceID a, sa_SchemaSignature a, sa_AssetKind a, sa_AssetKey a).
Definition Asset_Upsert (a : SemanticAsset) : M unit :=
  write (fun db =>
    match db_assets db !! asset_key a with
    | Some old =>
        Ok (set_assets db (<[asset_key a :=
          {| sa_ID := sa_ID old; sa_WorkspaceID := sa_WorkspaceID old; sa_SourceID := sa_SourceID a; sa_SchemaSignature := sa_SchemaSignature old;
             sa_AssetKind := sa_AssetKind old; sa_AssetKey := sa_AssetKey old; sa_AssetValueJSON := sa_AssetValueJSON a;
             sa_CreatedFromProfileID := sa_CreatedFromProfileID a; sa_CreatedFromConfirmationID := sa_CreatedFromConfirmationID a;
             sa_CreatedBy := sa_CreatedBy a; sa_CreatedAt := sa_CreatedAt old; sa_UpdatedAt := sa_UpdatedAt a |}]> (db_assets db)))
    | None =>
        guard (length (rows (db_assets db) (fun a' => (sa_ID a' =? sa_ID a)%string)) =? 0)%nat else ErrUnique ;;
        Ok (set_assets db (<[asset_key a := a]> (db_assets db)))
    end).
Definition asset_before (a b : SemanticAsset) : Prop :=
  if decide (sa_AssetKind a = sa_AssetKind b) then String.le (sa_AssetKey a) (sa_AssetKey b) else String.le (sa_AssetKind a) (sa_AssetKind b).
#[global] Instance asset_before_dec : RelDecision asset_before.
Proof. intros a b. unfold asset_before. case_decide; apply _. Defined.
Definition Asset_ListBySchema (workspaceID signature : string) : M (list SemanticAsset) :=
  read (fun db => Ok (merge_sort asset_before
    (rows (db_assets db) (fun a => (sa_WorkspaceID a =? workspaceID) && (sa_SchemaSignature a =? signature))))).
Definition Audit_Create (e : AuditEvent) : M unit :=
  write (fun db => guard negb (has (db_audit db) (ae_ID e)) else ErrUnique ;; Ok (set_audit db (<[ae_ID e := e]> (db_audit db)))).

(** * The service *)

(** What the service uses from outside: a hash as hexadecimal text and the text of a
    number of bytes or rows. *)
Section service.
Context (sha256hex : string -> string).

Definition validateExactConfigText (field value : string) : res SErr unit :=
  if (value =? "") || blank value then Err (SText (text [field; " is required"]))
  else if not_exact value then Err (SText (text [field; " must not contain leading or trailing whitespace"]))
  else if contains_byte value (ascii_of_nat 0) then Err (SText (text [field; " contains a NUL byte"]))
  else Ok tt.
Definition SourceObjectKey (sourceID kind schema object : string) : string :=
  text ["source_object_"; sha256hex (Marshal (JObj [("source_id", JStr sourceID); ("upstream_kind", JStr kind);
                                                    ("upstream_schema", JStr schema); ("upstream_object", JStr object)]))].
Definition snapshot_key (sourceID : string) (s : SourceSnapshot) : string :=
  SourceObjectKey sourceID (sn_UpstreamKind s) (sn_UpstreamSchema s) (sn_UpstreamObject s).

Definition EnsureFileSource (workspaceID fileID displayName uploadedBy hex12 : string) (now : time) : M DataSource :=
  do existing := try (DataSource_GetByFileID fileID) in
  match existing with
  | Ok d => ret d
  | Err SNotFound =>
      let d := {| ds_ID := text ["ds_"; hex12]; ds_WorkspaceID := workspaceID; ds_Name := displayName; ds_SourceType := SourceTypeFileUpload;
                  ds_Status := SourceStatusActive; ds_FileID := Some fileID; ds_CreatedBy := uploadedBy; ds_CreatedAt := now; ds_UpdatedAt := now |} in
      do _ := wrap "failed to create file-backed data source" (DataSource_Create d) in ret d
  | Err e => fail e
  end.
Definition ListPendingFileSources (workspaceID sessionID : string) : M (list (string * string)) :=
  do bindings := Binding_GetBySession sessionID in
  do sources := DataSource_ListByWorkspace workspaceID in
  ret (map (fun d => (ds_ID d, ds_Name d))
        (List.filter (fun d => (ds_SourceType d =? SourceTypeFileUpload) && negb (bool_decide (ds_ID d ∈ map sb_SourceID bindings))) sources)).
Definition CreateConfiguredSource (workspaceID name createdBy sourceType : string) (sourceConfig : option SourceConfig) (hex12 : string) (now : time) :
    M DataSource :=
  require (sourceType =? SourceTypeFileUpload) || bool_decide (is_Some sourceConfig) else
    SText (text ["source config is required for source type "; sourceType]) ;;
  let d := {| ds_ID := text ["ds_"; hex12]; ds_WorkspaceID := workspaceID; ds_Name := name; ds_SourceType := sourceType;
              ds_Status := SourceStatusActive; ds_FileID := None; ds_CreatedBy := createdBy; ds_CreatedAt := now; ds_UpdatedAt := now |} in
  do _ := DataSource_Create d in
  match sourceConfig with
  | None => ret d
  | Some c =>
      do _ := wrap "failed to persist source config" (SourceConfig_Create
        {| sf_SourceID := ds_ID d; sf_ConnectorType := sourceType; sf_ConfigJSON := sf_ConfigJSON c;
           sf_CredentialCiphertext := sf_CredentialCiphertext c; sf_LastTestedAt := sf_LastTestedAt c; sf_LastTestStatus := sf_LastTestStatus c;
           sf_LastErrorMessage := sf_LastErrorMessage c; sf_CreatedAt := if IsZero (sf_CreatedAt c) then now else sf_CreatedAt c; sf_UpdatedAt := now |}) in
      ret d
  end.
Definition RecordSnapshotError (snapshotID message : string) : M unit := Snapshot_UpdateStatus snapshotID SnapshotStatusFailed (Some message).

Fixpoint select_profile (sessionID snapshotID : string) (found : option SemanticProfile) (profiles : list SemanticProfile) :
    res SErr (option SemanticProfile) :=
  match profiles with
  | [] => Ok found
  | p :: profiles =>
      if (pf_SessionID p =? sessionID) && (pf_SnapshotID p =? snapshotID) then
        match found with
        | Some _ => Err (SText (text ["multiple semantic profiles match session_id="; sessionID; " snapshot_id="; snapshotID]))
        | None => select_profile sessionID snapshotID (Some p) profiles
        end
      else select_profile sessionID snapshotID found profiles
  end.
Definition selectProfileForSnapshot (profiles : list SemanticProfile) (sessionID snapshotID : string) : res SErr (option SemanticProfile) :=
  select_profile sessionID snapshotID None profiles.

(** ** Importing a file *)

Definition SnapshotScopedAnalysisTableName (snapshotID : string) : res SErr string :=
  if (snapshotID =? "") || not_exact snapshotID then Err (SText "snapshot ID must be a non-empty exact value")
  else match ValidateSQLIdent (text ["analysis_"; snapshotID]) with
  | Ok _ => Ok (text ["analysis_"; snapshotID])
  | Err _ => Err (SText "snapshot ID cannot form an analysis table identity")
  end.
Definition new_snapshot (id sessionID sourceID kind schema object table : string) (mode : SnapshotMode) (now : time) : SourceSnapshot :=
  {| sn_ID := id; sn_SessionID := sessionID; sn_SourceID := sourceID; sn_UpstreamKind := kind; sn_UpstreamSchema := schema;
     sn_UpstreamObject := object; sn_AnalysisTableName := table; sn_RowCount := 0; sn_ColumnCount := 0; sn_Status := SnapshotStatusCreating;
     sn_ErrorMessage := None; sn_SchemaSignature := ""; sn_ImportedAt := now; sn_RowsImported := 0; sn_RowsSkipped := 0; sn_ImportRowLimit := 0;
     sn_ImportTruncated := false; sn_ImportDurationMs := 0; sn_ProfileDurationMs := 0; sn_SnapshotSizeBytes := 0;
     sn_ProfileMode := match mode with SnapshotModeImported => ProfileModePending | SnapshotModeLive => ProfileModeUnset end; sn_Mode := mode |}.
Definition BeginSnapshotImport (sessionID sourceID kind schema object hex12 : string) (now : time) : M SourceSnapshot :=
  let snapshotID := text ["snap_"; hex12] in
  do table := lift_res (SnapshotScopedAnalysisTableName snapshotID) in
  let s := new_snapshot snapshotID sessionID sourceID kind schema object table SnapshotModeImported now in
  do _ := wrap "failed to create source snapshot" (Snapshot_Create s) in ret s.

Record ProfiledFacts := {
  fx_Schema : SchemaInfo; fx_ProfileMode : string; fx_ImportRowLimit : Z; fx_ImportTruncated : bool; fx_SnapshotSizeBytes : Z; fx_Warnings : list string
}.
Definition buildProfileFacts (schema : option SchemaInfo) (mode : ProfileMode) (size limit : Z) (truncated : bool) : res SErr ProfiledFacts :=
  match schema with
  | None => Err (SText "schema facts are required")
  | Some schema =>
      if (size <? 0)%Z || (limit <? 0)%Z then Err (SText "snapshot size and import row limit must not be negative")
      else if truncated && (limit =? 0)%Z then Err (SText "a truncated import requires a positive import row limit")
      else
        let capped := if truncated then
          [text ["snapshot import was capped at "; itoa limit; " rows; analysis is based on the imported subset, not the full upstream object"]] else [] in
        let facts := fun warnings => {| fx_Schema := schema; fx_ProfileMode := profile_mode_text mode; fx_ImportRowLimit := limit;
                                        fx_ImportTruncated := truncated; fx_SnapshotSizeBytes := size; fx_Warnings := warnings |} in
        match mode with
        | ProfileModeExact => Ok (facts capped)
        | ProfileModeSampled => Ok (facts ("profile is based on sampled data; statistics are estimated, not exact" :: capped))
        | _ => Err (SText (text ["unsupported profile mode: "; profile_mode_text mode]))
        end
  end.
Definition encode_column (c : ColumnInfo) : jval :=
  JObj [("name", JStr (ci_Name c)); ("declaredType", JStr (ci_DeclaredType c)); ("nonEmptyRate", JNum (float_text (ci_NonEmptyRate c)));
        ("uniqueCount", JNum (itoa (ci_UniqueCount c))); ("sampleValues", jtexts_or_null (ci_SampleValues c)); ("estimated", JBool (ci_Estimated c))].
Definition encode_schema (s : SchemaInfo) : jval :=
  JObj [("tableName", JStr (sc_TableName s)); ("rowCount", JNum (itoa (sc_RowCount s))); ("columns", JArr (map encode_column (sc_Columns s)));
        ("sampling", JObj [("method", JStr (si_Method (sc_Sampling s))); ("sourceRows", JNum (itoa (si_SourceRows (sc_Sampling s))));
                           ("sampleRows", JNum (itoa (si_SampleRows (sc_Sampling s)))); ("estimated", JBool (si_Estimated (sc_Sampling s)))])].
Definition encode_facts (f : ProfiledFacts) : jval :=
  JObj ([("schema", encode_schema (fx_Schema f)); ("profile_mode", JStr (fx_ProfileMode f))]
        ++ (if (fx_ImportRowLimit f =? 0)%Z then [] else [("import_row_limit", JNum (itoa (fx_ImportRowLimit f)))])
        ++ (if fx_ImportTruncated f then [("import_truncated", JBool true)] else [])
        ++ (if (fx_SnapshotSizeBytes f =? 0)%Z then [] else [("snapshot_size_bytes", JNum (itoa (fx_SnapshotSizeBytes f)))])
        ++ [("warnings", jtexts_or_null (fx_Warnings f))]).
Definition CreateSemanticProfile (sessionID sourceID snapshotID table signature : string) (facts : ProfiledFacts) (hex12 : string) (now : time) :
    M SemanticProfile :=
  let p := {| pf_ID := text ["sp_"; hex12]; pf_SessionID := sessionID; pf_SourceID := sourceID; pf_SnapshotID := snapshotID;
              pf_AnalysisTableName := table; pf_SchemaSignature := signature; pf_ProfileStatus := ProfileStatusProfiled;
              pf_ProfileJSON := Marshal (encode_facts facts); pf_CreatedAt := now; pf_UpdatedAt := now |} in
  do _ := wrap "failed to create semantic profile" (Profile_Create p) in ret p.
Definition ComputeSchemaSignature (s : SchemaInfo) : string :=
  String.substring 0 16 (sha256hex (text (map (fun c => text [ci_Name c; ":"; ci_DeclaredType c; ":"]) (sc_Columns s)))).
Definition failSnapshotIfPresent (snapshotID : string) (e : SErr) : M (option SErr) :=
  if blank snapshotID then ret None
  else
    do r := try (Snapshot_UpdateStatus snapshotID SnapshotStatusFailed (Some (Error e))) in
    ret (match r with Ok _ => None | Err e => Some (SWrap "failed to persist snapshot failure state" e) end).
(** The error [e] of a step is also stored with the snapshot as [stored]. *)
Definition fail_snapshot {A} (snapshotID : string) (e stored : SErr) : M A :=
  do status := failSnapshotIfPresent snapshotID stored in fail (Join e status).

(** [Ingester.DropTable] and [data.ExtractSchema] on a session's analysis database *)
Definition DropTable (sessionID table : string) : M unit :=
  match ValidateSQLIdent table with
  | Err _ => fail (SText "invalid identifier")
  | Ok _ =>
      wrap (text ["failed to drop table "; table]) (write (fun db => Ok (set_tables db (delete (sessionID, table) (db_tables db)))))
  end.
Definition ExtractSchema (sessionID table : string) : M SchemaInfo :=
  match ValidateSQLIdent table with
  | Err _ => fail (SWrap "invalid table name" (SText "invalid identifier"))
  | Ok _ =>
      wrap "failed to get row count"
        (read (fun db => match db_tables db !! (sessionID, table) with Some s => Ok s | None => Err (SText (text ["no such table: "; table])) end))
  end.

(** ** Superseded snapshots *)

(** The profiles of one superseded snapshot: the errors and whether there was one. *)
Fixpoint cleanup_profiles (profiles : list SemanticProfile) : M (list string) :=
  match profiles with
  | [] => ret []
  | p :: profiles =>
      do confirmations := try (Confirmation_DeleteByProfile (pf_ID p)) in
      match confirmations with
      | Err e => do rest := cleanup_profiles profiles in ret (text ["delete confirmations for "; pf_ID p; ": "; Error e] :: rest)
      | Ok _ =>
          do profile := try (Profile_Delete (pf_ID p)) in
          do rest := cleanup_profiles profiles in
          ret (match profile with Err e => text ["delete profile "; pf_ID p; ": "; Error e] :: rest | Ok _ => rest end)
      end
  end.
Definition cleanup_snapshot (ingester : bool) (sessionID : string) (profiles : list SemanticProfile) (s : SourceSnapshot) : M (list string) :=
  do dropped := try (if ingester && negb (sn_AnalysisTableName s =? "") then DropTable sessionID (sn_AnalysisTableName s) else ret tt) in
  match dropped with
  | Err e => ret [text ["drop table "; sn_AnalysisTableName s; ": "; Error e]]
  | Ok _ =>
      do errors := cleanup_profiles (List.filter (fun p => pf_SnapshotID p =? sn_ID s) profiles) in
      if negb (length errors =? 0)%nat then ret errors
      else
        do deleted := try (Snapshot_Delete (sn_ID s)) in
        ret (match deleted with Err e => [text ["delete snapshot "; sn_ID s; ": "; Error e]] | Ok _ => [] end)
  end.
Fixpoint cleanup_snapshots (ingester : bool) (sessionID : string) (profiles : list SemanticProfile) (snapshots : list SourceSnapshot) : M (list string) :=
  match snapshots with
  | [] => ret []
  | s :: snapshots =>
      do errors := cleanup_snapshot ingester sessionID profiles s in
      do rest := cleanup_snapshots ingester sessionID profiles snapshots in
      ret (errors ++ rest)
  end.
Definition superseded (sessionID sourceID key activeSnapshotID : string) (s : SourceSnapshot) : bool :=
  negb ((sn_ID s =? activeSnapshotID) || negb (sn_SessionID s =? sessionID) || negb (snapshot_key sourceID s =? key)).
Definition cleanupSupersededSnapshots (ingester : bool) (sessionID sourceID key activeSnapshotID : string) : M (list string) :=
  do snapshots := try (Snapshot_ListBySource sourceID) in
  match snapshots with
  | Err e => ret [text ["list superseded snapshots: "; Error e]]
  | Ok snapshots =>
      do profiles := try (Profile_ListBySource sourceID) in
      match profiles with
      | Err e => ret [text ["list superseded profiles: "; Error e]]
      | Ok profiles =>
          cleanup_snapshots ingester sessionID profiles (List.filter (superseded sessionID sourceID key activeSnapshotID) snapshots)
      end
  end.

(** ** Completing an import *)

Record SnapshotImportCompletion := {
  rq_SnapshotID : string; rq_SessionID : string; rq_SourceID : string; rq_UpstreamKind : string; rq_UpstreamSchema : string;
  rq_UpstreamObject : string; rq_AnalysisTableName : string; rq_RowCount : Z; rq_ColCount : Z; rq_RowsImported : Z; rq_RowsSkipped : Z;
  rq_ImportRowLimit : Z; rq_ImportTruncated : bool; rq_ImportDurationMs : Z; rq_SnapshotSizeBytes : Z; rq_ExtraWarnings : list string
}.
Record SnapshotImportResult := {
  ir_SnapshotID : string; ir_ProfileID : string; ir_TableName : string; ir_RowCount : Z; ir_ColCount : Z; ir_RowsImported : Z;
  ir_RowsSkipped : Z; ir_ImportRowLimit : Z; ir_ImportTruncated : bool; ir_ImportDurationMs : Z; ir_ProfileDurationMs : Z;
  ir_SnapshotSizeBytes : Z; ir_ProfileMode : ProfileMode; ir_CleanupErrors : list string
}.
Definition check_completion (req : SnapshotImportCompletion) : res SErr unit :=
  let? _ := validateExactConfigText "analysis_table_name" (rq_AnalysisTableName req) in
  let? _ := validateExactConfigText "snapshot_id" (rq_SnapshotID req) in
  let? _ := validateExactConfigText "session_id" (rq_SessionID req) in
  let? _ := validateExactConfigText "source_id" (rq_SourceID req) in
  let? _ := validateExactConfigText "upstream_kind" (rq_UpstreamKind req) in
  if (rq_RowCount req <? 0)%Z || (rq_ColCount req <? 0)%Z || (rq_RowsImported req <? 0)%Z || (rq_RowsSkipped req <? 0)%Z
     || (rq_ImportRowLimit req <? 0)%Z || (rq_SnapshotSizeBytes req <? 0)%Z
  then Err (SText "snapshot completion counts and sizes cannot be negative")
  else if negb (rq_RowsImported req =? rq_RowCount req)%Z then Err (SText "rows_imported must equal the observed analysis row_count")
  else Ok tt.
Definition same_identity (req : SnapshotImportCompletion) (s : SourceSnapshot) : bool :=
  (sn_SessionID s =? rq_SessionID req) && (sn_SourceID s =? rq_SourceID req) && (sn_UpstreamKind s =? rq_UpstreamKind req)
  && (sn_UpstreamSchema s =? rq_UpstreamSchema req) && (sn_UpstreamObject s =? rq_UpstreamObject req)
  && (sn_AnalysisTableName s =? rq_AnalysisTableName req).
(** The identity check against the stored snapshot. *)
Definition load_creating (req : SnapshotImportCompletion) : M SourceSnapshot :=
  do s := wrap "load snapshot before completion" (Snapshot_GetByID (rq_SnapshotID req)) in
  require same_identity req s else SText "snapshot completion identity does not match the creating snapshot" ;;
  require bool_decide (sn_Status s = SnapshotStatusCreating) else SText (text ["snapshot "; rq_SnapshotID req; " is not in creating state"]) ;;
  ret s.
Definition completion_facts (req : SnapshotImportCompletion) (signature : string) (profileMs size : Z) (mode : ProfileMode) : CompletionFacts :=
  {| cp_RowCount := rq_RowCount req; cp_ColumnCount := rq_ColCount req; cp_SchemaSignature := signature; cp_RowsImported := rq_RowsImported req;
     cp_RowsSkipped := rq_RowsSkipped req; cp_ImportRowLimit := rq_ImportRowLimit req; cp_ImportTruncated := rq_ImportTruncated req;
     cp_ImportDurationMs := rq_ImportDurationMs req; cp_ProfileDurationMs := profileMs; cp_SnapshotSizeBytes := size; cp_ProfileMode := mode |}.
Definition append_warnings (f : ProfiledFacts) (extra : list string) : ProfiledFacts :=
  {| fx_Schema := fx_Schema f; fx_ProfileMode := fx_ProfileMode f; fx_ImportRowLimit := fx_ImportRowLimit f; fx_ImportTruncated := fx_ImportTruncated f;
     fx_SnapshotSizeBytes := fx_SnapshotSizeBytes f; fx_Warnings := fx_Warnings f ++ extra |}.
(** A step whose failure fails the snapshot. *)
Definition or_fail {A} (snapshotID : string) (m : M A) (prefix : string) : M A :=
  do r := try m in
  match r with Ok a => ret a | Err e => fail_snapshot snapshotID (SWrap prefix e) e end.
(** Making the completed snapshot the active one. *)
Definition activate (req : SnapshotImportCompletion) (now : time) : M string :=
  let key := SourceObjectKey (rq_SourceID req) (rq_UpstreamKind req) (rq_UpstreamSchema req) (rq_UpstreamObject req) in
  do bound := try (Binding_Upsert {| sb_SessionID := rq_SessionID req; sb_SourceID := rq_SourceID req; sb_SourceObjectKey := key;
                                     sb_ActiveSnapshotID := rq_SnapshotID req; sb_CreatedAt := now; sb_UpdatedAt := now |}) in
  match bound with
  | Ok _ => ret key
  | Err e =>
      do status := try (Snapshot_UpdateStatus (rq_SnapshotID req) SnapshotStatusFailed (Some "failed to activate completed source snapshot")) in
      fail (Join (SWrap "failed to activate completed source snapshot" e) (match status with Ok _ => None | Err e => Some e end))
  end.
(** The three writes that complete a snapshot. *)
Definition store_facts (req : SnapshotImportCompletion) (c : CompletionFacts) (facts : ProfiledFacts) (hex12 : string) (now : time) : M SemanticProfile :=
  let id := rq_SnapshotID req in
  do _ := or_fail id (Snapshot_UpdateCompletion id c) "failed to update snapshot completion facts" in
  do _ := or_fail id (Snapshot_UpdateStatus id SnapshotStatusReady None) "failed to update snapshot status" in
  or_fail id (CreateSemanticProfile (rq_SessionID req) (rq_SourceID req) id (rq_AnalysisTableName req) (cp_SchemaSignature c) facts hex12 now)
    "failed to persist structural profile facts".
(** Storing the facts of a completed snapshot and making it the active one. *)
Definition complete_snapshot (req : SnapshotImportCompletion) (signature : string) (facts : ProfiledFacts) (mode : ProfileMode) (size profileMs : Z)
    (hex12 : string) (now : time) : M SnapshotImportResult :=
  let id := rq_SnapshotID req in
  do profile := store_facts req (completion_facts req signature profileMs size mode) facts hex12 now in
  do key := activate req now in
  do cleanupErrors := cleanupSupersededSnapshots true (rq_SessionID req) (rq_SourceID req) key id in
  ret {| ir_SnapshotID := id; ir_ProfileID := pf_ID profile; ir_TableName := rq_AnalysisTableName req; ir_RowCount := rq_RowCount req;
         ir_ColCount := rq_ColCount req; ir_RowsImported := rq_RowsImported req; ir_RowsSkipped := rq_RowsSkipped req;
         ir_ImportRowLimit := rq_ImportRowLimit req; ir_ImportTruncated := rq_ImportTruncated req;
         ir_ImportDurationMs := rq_ImportDurationMs req; ir_ProfileDurationMs := profileMs; ir_SnapshotSizeBytes := size;
         ir_ProfileMode := mode; ir_CleanupErrors := cleanupErrors |}.
(** [dbSize]: the size of the database file; [hex12] names the profile. *)
Definition FinalizeSnapshotImport (req : SnapshotImportCompletion) (dbSize : res SErr Z) (profileMs : Z) (hex12 : string) (now : time) :
    M SnapshotImportResult :=
  let id := rq_SnapshotID req in
  do _ := lift_res (check_completion req) in
  do _ := load_creating req in
  do schema := or_fail id (ExtractSchema (rq_SessionID req) (rq_AnalysisTableName req)) "schema extraction failed" in
  if negb ((sc_RowCount schema =? rq_RowCount req)%Z && (Z.of_nat (length (sc_Columns schema)) =? rq_ColCount req)%Z) then
    let e := SText (text ["snapshot completion shape rows="; itoa (rq_RowCount req); " columns="; itoa (rq_ColCount req);
      " does not match observed rows="; itoa (sc_RowCount schema); " columns="; itoa (Z.of_nat (length (sc_Columns schema)))]) in
    fail_snapshot id e e
  else
    let mode := if si_Estimated (sc_Sampling schema) then ProfileModeSampled else ProfileModeExact in
    let signature := ComputeSchemaSignature schema in
    match dbSize with
    | Err e => fail_snapshot id e e
    | Ok dbSize =>
        let size := if (0 <? dbSize)%Z then dbSize else rq_SnapshotSizeBytes req in
        match buildProfileFacts (Some schema) mode size (rq_ImportRowLimit req) (rq_ImportTruncated req) with
        | Err e => fail_snapshot id (SWrap "build structural profile facts" e) e
        | Ok facts =>
            complete_snapshot req signature (append_warnings facts (rq_ExtraWarnings req)) mode size profileMs hex12 now
        end
    end.

(** [Ingester.ImportFileRawAs] on a file with the content [file]: what the CSV or workbook
    reader makes of it.  An import that fails leaves no table. *)
Definition ImportFileRawAs (sessionID table : string) (file : res SErr SchemaInfo) : M (string * Z * Z) :=
  match ValidateSQLIdent table with
  | Err _ => fail (SWrap "invalid exact table name" (SText "invalid identifier"))
  | Ok _ =>
      do _ := write (fun db =>
        match file with
        | Ok s => guard negb (has (db_tables db) (sessionID, table)) else SText (text ["table "; table; " already exists"]) ;;
                  Ok (set_tables db (<[(sessionID, table) := s]> (db_tables db)))
        | Err e => Err e
        end) in
      match file with Ok s => ret (table, sc_RowCount s, Z.of_nat (length (sc_Columns s))) | Err e => fail e end
  end.
(** [FileUploadConnector.Import]: [materialized] is the size of the file once it is written
    to disk, [sheets] the sheets the workbook lists, [None] for another kind of file or
    a chosen worksheet. *)
Definition check_sheets (sheets : option (res SErr (list string))) : res SErr unit :=
  match sheets with
  | Some (Err e) => Err (SStructure (Error e))
  | Some (Ok l) => if (1 <? length l)%nat then Err (SWorksheets l) else Ok tt
  | None => Ok tt
  end.
Definition Import (sessionID sourceID : string) (materialized : res SErr Z) (sheets : option (res SErr (list string))) (file : res SErr SchemaInfo)
    (dbSize : res SErr Z) (importMs profileMs : Z) (hex12 profile12 : string) (now : time) : M SnapshotImportResult :=
  do d := DataSource_GetByID sourceID in
  require negb (match ds_FileID d with Some fileID => blank fileID | None => true end) else SText "file-backed source has no file_id" ;;
  do sizeBytes := wrap "file materialization failed" (lift_res materialized) in
  do _ := lift_res (check_sheets sheets) in
  do s := BeginSnapshotImport sessionID (ds_ID d) SourceTypeFileUpload "" "" hex12 now in
  do imported := try (ImportFileRawAs sessionID (sn_AnalysisTableName s) file) in
  match imported with
  | Err e =>
      do status := try (Snapshot_UpdateStatus (sn_ID s) SnapshotStatusFailed (Some (Error e))) in
      fail (Join (SWrap "import failed" e) (match status with Ok _ => None | Err e => Some e end))
  | Ok (table, rowCount, colCount) =>
      FinalizeSnapshotImport
        {| rq_SnapshotID := sn_ID s; rq_SessionID := sessionID; rq_SourceID := ds_ID d; rq_UpstreamKind := SourceTypeFileUpload;
           rq_UpstreamSchema := ""; rq_UpstreamObject := ""; rq_AnalysisTableName := table; rq_RowCount := rowCount; rq_ColCount := colCount;
           rq_RowsImported := rowCount; rq_RowsSkipped := 0; rq_ImportRowLimit := 0; rq_ImportTruncated := false; rq_ImportDurationMs := importMs;
           rq_SnapshotSizeBytes := sizeBytes; rq_ExtraWarnings := [] |} dbSize profileMs profile12 now
  end.

(** ** Importing a file the agent made *)

(** [filepath.Ext] and the comparison with ".csv" without regard to case, in which the long
    s of Unicode counts as an s. *)
Fixpoint ext_from (l : list ascii) : option (list ascii) :=
  match l with
  | [] => None
  | c :: l =>
      match ext_from l with
      | Some e => Some e
      | None => if Ascii.eqb c "."%char && negb (existsb (Ascii.eqb "/"%char) l) then Some (c :: l) else None
      end
  end.
Definition Ext (path : string) : string := String.string_of_list_ascii (default [] (ext_from (String.list_ascii_of_string path))).
Definition long_s : string := String (ascii_of_nat 197) (String (ascii_of_nat 191) "").
Definition is_csv_ext (e : string) : bool :=
  existsb (String.eqb e) (flat_map (fun c => flat_map (fun s => map (fun v => text ["."; c; s; v]) ["v"; "V"]) ["s"; "S"; long_s]) ["c"; "C"]).
Definition TrimSuffix (s suffix : string) : string :=
  if HasSuffix s suffix then String.substring 0 (String.length s - String.length suffix) s else s.
Definition maxArtifactBytes : Z := 50 * 1024 * 1024.
(** A failure of the tool: its code and its message. *)
Definition tool_failure {A} (code message : string) : M A := fail (SWrap code (SText message)).
(** [ImportArtifactTool.failSnapshot] before a failure. *)
Definition fail_artifact {A} (snapshotID stored code message : string) : M A :=
  do _ := try (Snapshot_UpdateStatus snapshotID SnapshotStatusFailed (Some stored)) in tool_failure code message.
Definition or_tool_failure {A} (m : M A) (code prefix : string) : M A :=
  do r := try m in
  match r with Ok a => ret a | Err e => tool_failure code (text [prefix; Error e]) end.
Record Artifact := { ar_FileID : string; ar_DisplayName : string; ar_SizeBytes : Z; ar_ContentBytes : res unit Z }.
Definition check_artifact_call (artifactID name userID workspaceID sessionID : string) : res SErr unit :=
  if (artifactID =? "") || not_exact artifactID then Err (SWrap "invalid_artifact_id" (SText "artifact_id must be a non-empty exact value"))
  else if not_exact name then Err (SWrap "invalid_name" (SText "name must be an exact value without leading or trailing whitespace"))
  else if (userID =? "") || (workspaceID =? "") || (sessionID =? "")
  then Err (SWrap "missing_execution_identity" (SText "authenticated user, workspace, and session identities are required"))
  else Ok tt.
Definition check_artifact (a : Artifact) : res SErr unit :=
  match ar_ContentBytes a with
  | Err _ => Err (SWrap "artifact_read_failed" (SText "artifact could not be read"))
  | Ok n =>
      if (maxArtifactBytes <? n)%Z then Err (SWrap "artifact_too_large" (SText "artifact exceeds the 50 MiB limit"))
      else if is_csv_ext (Ext (ar_DisplayName a)) then Ok tt
      else Err (SWrap "artifact_not_csv" (SText (text ["artifact "; ar_DisplayName a;
             " is not a CSV file; write cleaned data with pandas to_csv (or plain CSV) and import that output"])))
  end.
Definition object_name (name : string) (a : Artifact) : string :=
  if name =? "" then TrimSuffix (ar_DisplayName a) (Ext (ar_DisplayName a)) else name.
(** [opened] is the file behind the identifier, [temp] whether its copy on disk could be
    created and written, [file] what the CSV reader makes of it; [source12] names a new
    source. *)
Definition ImportArtifact (artifactID name userID workspaceID sessionID : string) (opened : res SErr Artifact) (temp : option string)
    (file : res SErr SchemaInfo) (dbSize : res SErr Z) (importMs profileMs : Z) (source12 hex12 profile12 : string) (now : time) :
    M (DataSource * SnapshotImportResult) :=
  do _ := lift_res (check_artifact_call artifactID name userID workspaceID sessionID) in
  do a := or_tool_failure (lift_res opened) "artifact_not_found" "artifact could not be opened: " in
  do _ := lift_res (check_artifact a) in
  let objectName := object_name name a in
  do d := or_tool_failure (EnsureFileSource workspaceID (ar_FileID a) (ar_DisplayName a) userID source12 now)
            "source_ensure_failed" "data source could not be created: " in
  do s := or_tool_failure (BeginSnapshotImport sessionID (ds_ID d) SourceTypeFileUpload "" objectName hex12 now)
            "snapshot_begin_failed" "import could not be started: " in
  match temp with
  | Some message => fail_artifact (sn_ID s) message "temp_file_failed" message
  | None =>
      do imported := try (ImportFileRawAs sessionID (sn_AnalysisTableName s) file) in
      match imported with
      | Err e => fail_artifact (sn_ID s) (Error e) "csv_import_failed" (text ["clean CSV import failed: "; Error e])
      | Ok (table, rowCount, colCount) =>
          do result := or_tool_failure (FinalizeSnapshotImport
            {| rq_SnapshotID := sn_ID s; rq_SessionID := sessionID; rq_SourceID := ds_ID d; rq_UpstreamKind := SourceTypeFileUpload;
               rq_UpstreamSchema := ""; rq_UpstreamObject := objectName; rq_AnalysisTableName := table; rq_RowCount := rowCount;
               rq_ColCount := colCount; rq_RowsImported := rowCount; rq_RowsSkipped := 0; rq_ImportRowLimit := 0; rq_ImportTruncated := false;
               rq_ImportDurationMs := importMs; rq_SnapshotSizeBytes := ar_SizeBytes a; rq_ExtraWarnings := [] |} dbSize profileMs profile12 now)
            "snapshot_finalize_failed" "import could not be completed: " in
          ret (d, result)
      end
  end.

(** ** Binding a live object *)

Record LiveMetadata := { lm_Columns : list (string * string); lm_RowCountEstimate : Z }.
Definition live_schema (name : string) (m : LiveMetadata) : SchemaInfo :=
  {| sc_TableName := name; sc_RowCount := lm_RowCountEstimate m;
     sc_Columns := map (fun c => {| ci_Name := c.1; ci_DeclaredType := c.2; ci_NonEmptyRate := S754_zero false; ci_UniqueCount := 0;
                                    ci_SampleValues := []; ci_Estimated := true |}) (lm_Columns m);
     sc_Sampling := {| si_Method := "live_catalog"; si_SourceRows := lm_RowCountEstimate m; si_SampleRows := 0; si_Estimated := true |} |}.
Definition buildLiveProfileFacts (schema : SchemaInfo) : ProfiledFacts :=
  {| fx_Schema := schema; fx_ProfileMode := "live"; fx_ImportRowLimit := 0; fx_ImportTruncated := false; fx_SnapshotSizeBytes := 0;
     fx_Warnings := ["live source: row_count is an engine statistics estimate; column statistics are structural facts from the upstream catalog, not computed values"] |}.
Definition or_mark {A} (snapshotID : string) (r : res SErr A) (prefix : string) : M A :=
  match r with
  | Ok a => ret a
  | Err e => fail_snapshot snapshotID (SWrap prefix e) e
  end.
(** The writes after the profile of the live snapshot was stored. *)
Definition complete_live (id sessionID sourceID key : string) (c : CompletionFacts) (now : time) : M (list string) :=
  do _ := wrap "failed to finalize live snapshot facts" (Snapshot_UpdateCompletion id c) in
  do _ := wrap "failed to activate live snapshot" (Snapshot_UpdateStatus id SnapshotStatusReady None) in
  do _ := wrap "failed to bind live source object"
            (Binding_Upsert {| sb_SessionID := sessionID; sb_SourceID := sourceID; sb_SourceObjectKey := key; sb_ActiveSnapshotID := id;
                               sb_CreatedAt := now; sb_UpdatedAt := now |}) in
  cleanupSupersededSnapshots false sessionID sourceID key id.
(** [resolve] finds the connector of a source type, [metadata] what it reads about the
    object upstream, and [qualified] the object's name in its dialect. *)
Definition BindLiveSourceObject (sourceID sessionID workspaceID schema name : string) (resolve : string -> res SErr unit)
    (metadata : res SErr LiveMetadata) (qualified : string) (metadataMs profileMs : Z) (hex12 profile12 : string) (now : time) : M SnapshotImportResult :=
  require negb ((sourceID =? "") || (sessionID =? "") || (workspaceID =? "")) else SText "source_id, workspace_id and session_id are required" ;;
  do _ := lift_res (validateExactConfigText "schema_name" schema) in
  do _ := lift_res (validateExactConfigText "object_name" name) in
  do source := DataSource_GetByID sourceID in
  require ds_WorkspaceID source =? workspaceID else SNotFound ;;
  do _ := lift_res (resolve (ds_SourceType source)) in
  let id := text ["snap_"; hex12] in
  do _ := wrap "failed to create live snapshot record"
            (Snapshot_Create (new_snapshot id sessionID sourceID (ds_SourceType source) schema name "" SnapshotModeLive now)) in
  do m := or_mark id metadata "live object metadata fetch failed" in
  if (length (lm_Columns m) =? 0)%nat then
    let e := SText (text ["upstream object "; schema; "."; name; " exposes no columns"]) in fail_snapshot id e e
  else
    let info := live_schema qualified m in
    let signature := ComputeSchemaSignature info in
    do created := try (CreateSemanticProfile sessionID sourceID id "" signature (buildLiveProfileFacts info) profile12 now) in
    match created with
    | Err e => fail_snapshot id e e
    | Ok profile =>
        let rows := lm_RowCountEstimate m in
        let columns := Z.of_nat (length (lm_Columns m)) in
        do _ := complete_live id sessionID sourceID (SourceObjectKey sourceID (ds_SourceType source) schema name)
                  {| cp_RowCount := rows; cp_ColumnCount := columns; cp_SchemaSignature := signature; cp_RowsImported := 0; cp_RowsSkipped := 0;
                     cp_ImportRowLimit := 0; cp_ImportTruncated := false; cp_ImportDurationMs := metadataMs; cp_ProfileDurationMs := profileMs;
                     cp_SnapshotSizeBytes := 0; cp_ProfileMode := ProfileModeLive |} now in
        ret {| ir_SnapshotID := id; ir_ProfileID := pf_ID profile; ir_TableName := ""; ir_RowCount := rows; ir_ColCount := columns;
               ir_RowsImported := 0; ir_RowsSkipped := 0; ir_ImportRowLimit := 0; ir_ImportTruncated := false; ir_ImportDurationMs := 0;
               ir_ProfileDurationMs := profileMs; ir_SnapshotSizeBytes := 0; ir_ProfileMode := ProfileModeLive; ir_CleanupErrors := [] |}
    end.

(** ** Removing a source *)

Fixpoint each_call {A} (f : A -> M unit) (l : list A) : M unit :=
  match l with
  | [] => ret tt
  | a :: l => do _ := f a in each_call f l
  end.
(** [drop] is the handlers' [dropRuntimeTable]. *)
Definition drop_table (drop : string -> string -> M unit) (s : SourceSnapshot) : M unit :=
  if sn_AnalysisTableName s =? "" then ret tt
  else wrap (text ["drop analysis table "; sn_AnalysisTableName s]) (drop (sn_SessionID s) (sn_AnalysisTableName s)).
Definition remove_profile (p : SemanticProfile) : M unit :=
  do _ := wrap (text ["delete confirmations for profile "; pf_ID p]) (Confirmation_DeleteByProfile (pf_ID p)) in
  wrap (text ["delete semantic profile "; pf_ID p]) (Profile_Delete (pf_ID p)).
Definition of_object (sessionID sourceID key : string) (s : SourceSnapshot) : bool :=
  (sn_SessionID s =? sessionID) && (snapshot_key sourceID s =? key).
(** After the snapshots to remove were read. *)
Definition remove_object (drop : string -> string -> M unit) (sessionID sourceID key : string) (selected : list SourceSnapshot) : M unit :=
  do _ := each_call (drop_table drop) selected in
  do profiles := wrap "list semantic profiles" (Profile_ListBySource sourceID) in
  do _ := each_call remove_profile (List.filter (fun p => bool_decide (pf_SnapshotID p ∈ map sn_ID selected)) profiles) in
  do _ := each_call (fun s => wrap (text ["delete source snapshot "; sn_ID s]) (Snapshot_Delete (sn_ID s))) selected in
  Binding_Delete sessionID sourceID key.
Definition RemoveSessionSource (drop : string -> string -> M unit) (sessionID sourceID key : string) : M unit :=
  require negb ((key =? "") || not_exact key) else SText "source_object_key is required and must be exact" ;;
  do binding := try (Binding_GetBySessionSourceObject sessionID sourceID key) in
  match binding with
  | Err SNotFound => ret tt
  | Err e => fail e
  | Ok _ =>
      do snapshots := wrap "list source snapshots" (Snapshot_ListBySource sourceID) in
      remove_object drop sessionID sourceID key (List.filter (of_object sessionID sourceID key) snapshots)
  end.
Definition DeleteWorkspaceSource (drop : string -> string -> M unit) (sourceID : string) : M unit :=
  do snapshots := Snapshot_ListBySource sourceID in
  do _ := each_call (drop_table drop) snapshots in
  DataSource_Delete sourceID.

(** ** Reading *)

Record SessionSourceSummary := {
  sm_SourceID : string; sm_SourceObjectKey : string; sm_DisplayName : string; sm_SourceType : string; sm_ActiveSnapshotID : string;
  sm_UpstreamKind : string; sm_UpstreamSchema : string; sm_UpstreamObject : string; sm_AnalysisTableName : string;
  sm_SnapshotStatus : SnapshotStatus; sm_ProfileStatus : string; sm_ProfileID : string; sm_ConfirmedOverrideCount : nat;
  sm_RowCount : Z; sm_ColCount : Z; sm_LastImportedAt : time; sm_RowsImported : Z; sm_RowsSkipped : Z; sm_ImportRowLimit : Z;
  sm_ImportUnbounded : bool; sm_ImportTruncated : bool; sm_ImportDurationMs : Z; sm_ProfileDurationMs : Z; sm_SnapshotSizeBytes : Z;
  sm_ProfileMode : string; sm_Mode : SnapshotMode; sm_RowCountEstimated : bool; sm_ErrorMessage : string
}.
Definition profile_status_text (s : ProfileStatus) : string :=
  match s with ProfileStatusProfiled => "profiled" | ProfileStatusConfirmed => "confirmed" end.
(** The status and identifier of the profile of a binding's snapshot, the number of its
    confirmations, and the errors met. *)
Definition summary_profile (b : SessionSourceBinding) (sessionID snapshotID : string) : M (string * string * nat * list string) :=
  do profiles := try (Profile_ListBySource (sb_SourceID b)) in
  let '(profiles, errors) := match profiles with
                             | Ok profiles => (profiles, [])
                             | Err e => ([], [text ["source_id="; sb_SourceID b; " profile list: "; Error e]])
                             end in
  match selectProfileForSnapshot profiles sessionID snapshotID with
  | Err e => ret ("", "", 0, errors ++ [Error e])
  | Ok None => ret ("pending", "", 0, errors)
  | Ok (Some p) =>
      do confirmations := try (Confirmation_ListByProfile (pf_ID p)) in
      let status := profile_status_text (pf_ProfileStatus p) in
      ret (match confirmations with
           | Ok l => (status, pf_ID p, length l, errors)
           | Err e => (status, pf_ID p, 0, errors ++ [text ["profile_id="; pf_ID p; " confirmation list: "; Error e]])
           end)
  end.
Definition summarize (b : SessionSourceBinding) (d : DataSource) (s : SourceSnapshot) (profileStatus profileID : string) (confirmed : nat) :
    SessionSourceSummary :=
  {| sm_SourceID := ds_ID d; sm_SourceObjectKey := sb_SourceObjectKey b; sm_DisplayName := ds_Name d; sm_SourceType := ds_SourceType d;
     sm_ActiveSnapshotID := sb_ActiveSnapshotID b; sm_UpstreamKind := sn_UpstreamKind s; sm_UpstreamSchema := sn_UpstreamSchema s;
     sm_UpstreamObject := sn_UpstreamObject s; sm_AnalysisTableName := sn_AnalysisTableName s; sm_SnapshotStatus := sn_Status s;
     sm_ProfileStatus := profileStatus; sm_ProfileID := profileID; sm_ConfirmedOverrideCount := confirmed; sm_RowCount := sn_RowCount s;
     sm_ColCount := sn_ColumnCount s; sm_LastImportedAt := sn_ImportedAt s; sm_RowsImported := sn_RowsImported s; sm_RowsSkipped := sn_RowsSkipped s;
     sm_ImportRowLimit := sn_ImportRowLimit s;
     sm_ImportUnbounded := negb (bool_decide (sn_Mode s = SnapshotModeLive)) && (sn_ImportRowLimit s =? 0)%Z;
     sm_ImportTruncated := sn_ImportTruncated s; sm_ImportDurationMs := sn_ImportDurationMs s; sm_ProfileDurationMs := sn_ProfileDurationMs s;
     sm_SnapshotSizeBytes := sn_SnapshotSizeBytes s; sm_ProfileMode := profile_mode_text (sn_ProfileMode s); sm_Mode := sn_Mode s;
     sm_RowCountEstimated := bool_decide (sn_Mode s = SnapshotModeLive); sm_ErrorMessage := default "" (sn_ErrorMessage s) |}.
Definition session_source (sessionID : string) (b : SessionSourceBinding) : M (list SessionSourceSummary * list string) :=
  do d := try (DataSource_GetByID (sb_SourceID b)) in
  match d with
  | Err e => ret ([], [text ["source_id="; sb_SourceID b; ": "; Error e]])
  | Ok d =>
      do s := try (Snapshot_GetByID (sb_ActiveSnapshotID b)) in
      match s with
      | Err e => ret ([], [text ["snapshot_id="; sb_ActiveSnapshotID b; ": "; Error e]])
      | Ok s =>
          do r := summary_profile b sessionID (sn_ID s) in
          let '(status, profileID, confirmed, errors) := r in
          ret ([summarize b d s status profileID confirmed], errors)
      end
  end.
Fixpoint session_sources (sessionID : string) (bindings : list SessionSourceBinding) : M (list SessionSourceSummary * list string) :=
  match bindings with
  | [] => ret ([], [])
  | b :: bindings =>
      do r := session_source sessionID b in
      do rest := session_sources sessionID bindings in
      ret (r.1 ++ rest.1, r.2 ++ rest.2)
  end.
(** The summaries, which the code returns with the error too, and the partial errors. *)
Definition GetSessionSources (sessionID : string) : M (list SessionSourceSummary * list string) :=
  do bindings := Binding_GetBySession sessionID in session_sources sessionID bindings.

Definition GetProfileDetail (profileID : string) : M (SemanticProfile * list SemanticConfirmation) :=
  do p := Profile_GetByID profileID in
  do confirmations := Confirmation_ListByProfile profileID in
  ret (p, confirmations).
Definition GetSessionProfileDetail (sessionID profileID : string) : M (SemanticProfile * list SemanticConfirmation) :=
  require negb (blank sessionID) else SText "session_id is required" ;;
  do r := GetProfileDetail profileID in
  require pf_SessionID r.1 =? sessionID else SText (text ["profile "; profileID; " does not belong to session "; sessionID]) ;;
  ret r.
Definition GetSessionProfiles (sessionID : string) : M (list (string * string * string * ProfileStatus * string)) :=
  do profiles := Profile_ListBySession sessionID in
  ret (map (fun p => (pf_ID p, pf_SourceID p, pf_AnalysisTableName p, pf_ProfileStatus p, pf_SchemaSignature p)) profiles).
Definition GetSemanticAssets (workspaceID signature : string) : M (list SemanticAsset) :=
  require negb ((workspaceID =? "") || not_exact workspaceID || (signature =? "") || not_exact signature)
    else SText "workspace ID and schema signature must be non-empty exact values" ;;
  Asset_ListBySchema workspaceID signature.

(** ** Audit events *)

(** A JSON object, decoded strictly into raw members: the members. *)
Definition decode_patch (raw : string) : res SErr (option (list (string * jval))) :=
  match Validate raw with
  | Some (JObj kvs) => Ok (Some kvs)
  | Some JNull => Ok None
  | _ => Err (SText "invalid JSON")
  end.
Definition auditPayloadJSON (payload : list (string * jval)) : string := MarshalMap payload.
Definition audit_texts (e : AuditEvent) : list string :=
  [ae_WorkspaceID e; ae_SessionID e; ae_RunID e; ae_ActorUserID e; ae_EventType e; ae_ResourceType e; ae_ResourceID e].
Definition recordAudit (e : AuditEvent) (hex12 : string) (now : time) : M unit :=
  require negb (blank (ae_WorkspaceID e) || blank (ae_EventType e)) else SText "audit repository, workspace_id, and event_type are required" ;;
  require negb (existsb not_exact (audit_texts e)) else SText "audit fields must be exact values" ;;
  require negb ((ae_PayloadJSON e =? "") || not_exact (ae_PayloadJSON e)) else SText "audit payload_json must be a non-empty exact JSON object" ;;
  do payload := lift_res (decode_patch (ae_PayloadJSON e)) in
  match payload with
  | None => fail (SText "audit payload_json must be a JSON object")
  | Some _ =>
      require blank (ae_ID e) || negb (not_exact (ae_ID e)) else SText "audit ID must be an exact value" ;;
      Audit_Create
        {| ae_ID := if blank (ae_ID e) then text ["ae_"; hex12] else ae_ID e; ae_WorkspaceID := ae_WorkspaceID e; ae_SessionID := ae_SessionID e;
           ae_RunID := ae_RunID e; ae_ActorUserID := ae_ActorUserID e; ae_EventType := ae_EventType e; ae_ResourceType := ae_ResourceType e;
           ae_ResourceID := ae_ResourceID e; ae_PayloadJSON := ae_PayloadJSON e;
           ae_CreatedAt := if IsZero (ae_CreatedAt e) then now else ae_CreatedAt e |}
  end.

(** ** Confirming a profile *)

Definition SemanticAssetKindPatch : string := "patch".
Definition semanticAssetID (workspaceID signature kind key : string) : string :=
  let nul := String (ascii_of_nat 0) "" in
  text ["sa_"; String.substring 0 20 (sha256hex (text [workspaceID; nul; signature; nul; kind; nul; key]))].
(** The values are encoded again from what they mean, with the keys in order. *)
Definition semanticAssetsFromConfirmation (p : SemanticProfile) (c : SemanticConfirmation) (now : time) : res SErr (list SemanticAsset) :=
  let? patch := decode_patch (cf_OverridesJSON c) in
  match patch with
  | None => Err (SText "confirmation patch must be a JSON object")
  | Some patch =>
      guard negb ((cf_ID c =? "") || not_exact (cf_ID c)) else SText "confirmation ID must be a non-empty exact value" ;;
      Ok [{| sa_ID := semanticAssetID (cf_WorkspaceID c) (pf_SchemaSignature p) SemanticAssetKindPatch (cf_ID c); sa_WorkspaceID := cf_WorkspaceID c;
             sa_SourceID := pf_SourceID p; sa_SchemaSignature := pf_SchemaSignature p; sa_AssetKind := SemanticAssetKindPatch; sa_AssetKey := cf_ID c;
             sa_AssetValueJSON := MarshalMap patch; sa_CreatedFromProfileID := pf_ID p; sa_CreatedFromConfirmationID := cf_ID c;
             sa_CreatedBy := cf_ConfirmedBy c; sa_CreatedAt := now; sa_UpdatedAt := now |}]
  end.
Definition asset_event (p : SemanticProfile) (c : SemanticConfirmation) (a : SemanticAsset) : AuditEvent :=
  {| ae_ID := ""; ae_WorkspaceID := sa_WorkspaceID a; ae_SessionID := cf_SessionID c; ae_RunID := ""; ae_ActorUserID := cf_ConfirmedBy c;
     ae_EventType := "semantic_asset_upserted"; ae_ResourceType := "semantic_asset"; ae_ResourceID := text [sa_AssetKind a; ":"; sa_AssetKey a];
     ae_PayloadJSON := auditPayloadJSON [("asset_kind", JStr (sa_AssetKind a)); ("asset_key", JStr (sa_AssetKey a)); ("asset_id", JStr (sa_ID a));
       ("schema_signature", JStr (sa_SchemaSignature a)); ("profile_id", JStr (pf_ID p)); ("confirmation_id", JStr (cf_ID c))];
     ae_CreatedAt := 0 |}.
(** One asset and its event; the identifiers of the events are drawn from [hex12s]. *)
Fixpoint upsert_assets (p : SemanticProfile) (c : SemanticConfirmation) (assets : list SemanticAsset) (hex12 : string) (now : time) : M (list string) :=
  match assets with
  | [] => ret []
  | a :: assets =>
      do _ := wrap (text ["upsert semantic asset "; sa_AssetKind a; "/"; sa_AssetKey a]) (Asset_Upsert a) in
      do recorded := try (recordAudit (asset_event p c a) hex12 now) in
      do rest := upsert_assets p c assets hex12 now in
      ret (match recorded with
           | Err e => text ["semantic asset "; sa_AssetKind a; "/"; sa_AssetKey a; ": "; Error e] :: rest
           | Ok _ => rest
           end)
  end.
Definition upsertSemanticAssetsFromConfirmation (p : SemanticProfile) (c : SemanticConfirmation) (hex12 : string) (now : time) : M (list string) :=
  do assets := lift_res (semanticAssetsFromConfirmation p c now) in upsert_assets p c assets hex12 now.

Record ConfirmRequest := {
  cq_ProfileID : string; cq_WorkspaceID : string; cq_SessionID : string; cq_ConfirmedBy : string; cq_Scope : string; cq_OverridesJSON : string;
  cq_ReceiptID : string; cq_Provenance : string
}.
Definition check_confirm (q : ConfirmRequest) : res SErr unit :=
  if negb (cq_Scope q =? "session") && negb (cq_Scope q =? "workspace") then Err (SText (text ["invalid confirmation scope: "; cq_Scope q]))
  else if negb (cq_Provenance q =? "authenticated_request") && negb (cq_Provenance q =? "authorization_receipt")
  then Err (SText (text ["invalid confirmation provenance: "; cq_Provenance q]))
  else if not_exact (cq_ReceiptID q) then Err (SText "confirmation_receipt_id must not contain leading or trailing whitespace")
  else if (cq_Provenance q =? "authorization_receipt") && (cq_ReceiptID q =? "")
  then Err (SText "authorization receipt provenance requires confirmation_receipt_id")
  else Ok tt.
Definition check_patch (raw : string) : res SErr unit :=
  if blank raw || (TrimSpace raw =? "null") then Err (SText "overrides_json must be an explicit JSON object")
  else match decode_patch raw with
  | Err e => Err (SWrap "invalid overrides_json" e)
  | Ok None => Err (SText "overrides_json must be a JSON object")
  | Ok (Some patch) =>
      if existsb (fun kv => (kv.1 =? "") || not_exact kv.1) patch then Err (SText "overrides_json keys must be non-empty and exact") else Ok tt
  end.
Definition same_facts (q : ConfirmRequest) (c : SemanticConfirmation) : bool :=
  (cf_WorkspaceID c =? cq_WorkspaceID q) && (cf_SessionID c =? cq_SessionID q) && (cf_ConfirmedBy c =? cq_ConfirmedBy q)
  && (cf_Scope c =? cq_Scope q) && (cf_Provenance c =? cq_Provenance q) && (cf_OverridesJSON c =? cq_OverridesJSON q).
(** The confirmation a receipt is bound to already, if any. *)
Definition stored_confirmation (q : ConfirmRequest) : M (option SemanticConfirmation) :=
  if cq_ReceiptID q =? "" then ret None
  else
    do confirmations := wrap "failed to inspect confirmation receipt history" (Confirmation_ListByProfile (cq_ProfileID q)) in
    match List.find (fun c => cf_ConfirmationReceiptID c =? cq_ReceiptID q) confirmations with
    | None => ret None
    | Some c => require same_facts q c else SText "confirmation_receipt_id is already bound to different confirmation facts" ;; ret (Some c)
    end.
Definition confirm_event (q : ConfirmRequest) (p : SemanticProfile) (c : SemanticConfirmation) : AuditEvent :=
  {| ae_ID := ""; ae_WorkspaceID := cq_WorkspaceID q; ae_SessionID := cq_SessionID q; ae_RunID := ""; ae_ActorUserID := cq_ConfirmedBy q;
     ae_EventType := "semantic_profile_confirmed"; ae_ResourceType := "semantic_profile"; ae_ResourceID := cq_ProfileID q;
     ae_PayloadJSON := auditPayloadJSON [("scope", JStr (cq_Scope q)); ("schema_signature", JStr (pf_SchemaSignature p));
       ("confirmation_receipt_id", JStr (cf_ConfirmationReceiptID c)); ("provenance", JStr (cq_Provenance q))];
     ae_CreatedAt := 0 |}.
Definition new_confirmation (q : ConfirmRequest) (hex12 : string) (now : time) : SemanticConfirmation :=
  {| cf_ID := text ["sc_"; hex12]; cf_ProfileID := cq_ProfileID q; cf_WorkspaceID := cq_WorkspaceID q; cf_SessionID := cq_SessionID q;
     cf_ConfirmedBy := cq_ConfirmedBy q; cf_ConfirmationReceiptID := cq_ReceiptID q; cf_Provenance := cq_Provenance q;
     cf_Scope := cq_Scope q; cf_OverridesJSON := cq_OverridesJSON q; cf_CreatedAt := now |}.
(** After the confirmation was stored. *)
Definition finish_confirmation (q : ConfirmRequest) (p : SemanticProfile) (c : SemanticConfirmation) (asset12 event12 : string) (now : time) :
    M (SemanticProfile * list string) :=
  do errors := if cq_Scope q =? "workspace" then wrap "semantic asset persistence failed" (upsertSemanticAssetsFromConfirmation p c asset12 now) else ret [] in
  do _ := wrap "failed to update profile status" (Profile_UpdateStatus (cq_ProfileID q) ProfileStatusConfirmed now) in
  do recorded := try (recordAudit (confirm_event q p c) event12 now) in
  ret (with_profile_status ProfileStatusConfirmed (pf_UpdatedAt p) p,
       errors ++ match recorded with Err e => [text ["semantic profile "; cq_ProfileID q; ": "; Error e]] | Ok _ => [] end).
(** [hex12], [asset12] and [event12] name the confirmation and the two events. *)
Definition ConfirmProfile (q : ConfirmRequest) (hex12 asset12 event12 : string) (now : time) : M (SemanticProfile * list string) :=
  do _ := lift_res (check_confirm q) in
  do p := wrap "failed to get profile" (Profile_GetByID (cq_ProfileID q)) in
  require (cq_SessionID q =? "") || (pf_SessionID p =? cq_SessionID q) else
    SText (text ["profile "; cq_ProfileID q; " does not belong to session "; cq_SessionID q]) ;;
  do _ := lift_res (check_patch (cq_OverridesJSON q)) in
  do stored := stored_confirmation q in
  let c := default (new_confirmation q hex12 now) stored in
  require negb ((cf_ID c =? "") || not_exact (cf_ID c) || IsZero (cf_CreatedAt c)) else SText "stored semantic confirmation is structurally invalid" ;;
  do _ := match stored with Some _ => ret tt | None => wrap "failed to create semantic confirmation" (Confirmation_Create c) end in
  finish_confirmation q p c asset12 event12 now.

End service.
