(* ===== verification/SourceProps.v ===== *)
(** What the service over the data sources guarantees: the bindings of a session stay
    usable through imports, live bindings, confirmations and removals of which any call of
    the database may fail, a removal can be repeated until it is complete, and a receipt
    confirms once. *)
From S2P Require Import Prelude GoStrings Json SqlGuard StateTools Calls Sources.
Open Scope string_scope.
Open Scope list_scope.

(** * Usable bindings *)

Section sound.
Context (sha256hex : string -> string).
Implicit Types (db : Db) (b : SessionSourceBinding) (s : SourceSnapshot) (p : SemanticProfile).
Abbreviation binding_id := (string * string * string)%type (only parsing).
Implicit Types (broken : gset (string * string * string)).

Definition table_of (id : string) : string := text ["analysis_"; id].
#[local] Arguments table_of _ : simpl never.
Definition snapshot_ok (id : string) s : Prop :=
  sn_ID s = id /\ sn_AnalysisTableName s = match sn_Mode s with SnapshotModeImported => table_of id | SnapshotModeLive => "" end
  /\ (sn_Mode s = SnapshotModeImported -> is_ok (ValidateSQLIdent (table_of id)) = true).
(** The binding's snapshot is ready, is of the binding's session, source and object, has
    one profile, and, when imported, its table with as many rows and columns as it says. *)
Definition usable db b : Prop :=
  let id := sb_ActiveSnapshotID b in
  exists s, db_snapshots db !! id = Some s /\ sn_SessionID s = sb_SessionID b /\ sn_SourceID s = sb_SourceID b
    /\ snapshot_key sha256hex (sb_SourceID b) s = sb_SourceObjectKey b /\ sn_Status s = SnapshotStatusReady
    /\ is_Some (db_sources db !! sb_SourceID b)
    /\ (sn_Mode s = SnapshotModeImported ->
        exists t, db_tables db !! (sb_SessionID b, table_of id) = Some t /\ sn_RowCount s = sc_RowCount t /\ sn_ColumnCount s = Z.of_nat (length (sc_Columns t)))
    /\ (exists pid p, db_profiles db !! pid = Some p /\ pf_SessionID p = sb_SessionID b /\ pf_SourceID p = sb_SourceID b /\ pf_SnapshotID p = id
        /\ forall pid' p', db_profiles db !! pid' = Some p' -> pf_SnapshotID p' = id -> pid' = pid).
Definition profiles_ok db : Prop :=
  forall pid p, db_profiles db !! pid = Some p ->
    pf_ID p = pid /\ exists s, db_snapshots db !! pf_SnapshotID p = Some s /\ (sn_Mode s = SnapshotModeImported -> sn_Status s <> SnapshotStatusCreating).
(** Every binding is usable but those of [broken], which a removal was begun for. *)
Record sound broken db : Prop := {
  so_snapshots : map_Forall snapshot_ok (db_snapshots db);
  so_profiles : profiles_ok db;
  so_bindings : map_Forall (fun k b => binding_key b = k /\ (k ∉ broken -> usable db b)) (db_bindings db)
}.
Definition unbound broken db (id : string) : Prop :=
  forall k b, db_bindings db !! k = Some b -> k ∉ broken -> sb_ActiveSnapshotID b <> id.

(** The profiles of a snapshot are the same but for what does not matter here. *)
Definition like p p' : Prop := pf_SessionID p' = pf_SessionID p /\ pf_SourceID p' = pf_SourceID p /\ pf_SnapshotID p' = pf_SnapshotID p.
Definition same_profiles db db' (id : string) : Prop :=
  (forall pid p', db_profiles db' !! pid = Some p' -> pf_SnapshotID p' = id -> exists p, db_profiles db !! pid = Some p /\ like p p')
  /\ (forall pid p, db_profiles db !! pid = Some p -> pf_SnapshotID p = id -> exists p', db_profiles db' !! pid = Some p' /\ like p p').
Lemma same_profiles_eq db db' id : db_profiles db' = db_profiles db -> same_profiles db db' id.
Proof. intros E. split; intros pid p Hp _; exists p; rewrite ?E in *; unfold like; auto. Qed.

(** What a change leaves as it was. *)
Ltac unchanged := try split_and!; auto; try (by apply same_profiles_eq).

Lemma usable_frame db db' b :
  let id := sb_ActiveSnapshotID b in
  usable db b -> db_snapshots db' !! id = db_snapshots db !! id -> (is_Some (db_sources db !! sb_SourceID b) -> is_Some (db_sources db' !! sb_SourceID b)) ->
  db_tables db' !! (sb_SessionID b, table_of id) = db_tables db !! (sb_SessionID b, table_of id) -> same_profiles db db' id -> usable db' b.
Proof.
  intros id (s & Hs & H1 & H2 & H3 & H4 & H5 & H6 & pid & p & Hp & P1 & P2 & P3 & P4) Es Hsrc Et [Hback Hforth].
  subst id. exists s. rewrite Es, Et. split_and!; auto. destruct (Hforth pid p Hp P3) as (p' & Hp' & L1 & L2 & L3).
  exists pid, p'. split_and!; try congruence. intros pid' p'' H'' E''. destruct (Hback pid' p'' H'' E'') as (q & Hq & _ & _ & Lq). apply (P4 pid' q Hq). congruence.
Qed.
Lemma sound_frame broken broken' db db' :
  sound broken db -> map_Forall snapshot_ok (db_snapshots db') -> profiles_ok db' ->
  (forall k b, db_bindings db' !! k = Some b -> db_bindings db !! k = Some b
     /\ (k ∉ broken' -> k ∉ broken /\ db_snapshots db' !! sb_ActiveSnapshotID b = db_snapshots db !! sb_ActiveSnapshotID b
          /\ (is_Some (db_sources db !! sb_SourceID b) -> is_Some (db_sources db' !! sb_SourceID b))
          /\ db_tables db' !! (sb_SessionID b, table_of (sb_ActiveSnapshotID b)) = db_tables db !! (sb_SessionID b, table_of (sb_ActiveSnapshotID b))
          /\ same_profiles db db' (sb_ActiveSnapshotID b))) ->
  sound broken' db'.
Proof.
  intros [_ _ Hb] Hs Hp Hframe. split; [done|done|]. intros k b Hk. destruct (Hframe k b Hk) as (Hk0 & Hu). destruct (Hb k b Hk0) as [Hkey Husable].
  split; [done|]. intros Hn. destruct (Hu Hn) as (Hn0 & F1 & F2 & F3 & F4). eapply usable_frame; eauto.
Qed.

(** ** The changes of the store *)

Lemma sound_same broken db db' :
  sound broken db -> db_snapshots db' = db_snapshots db -> db_bindings db' = db_bindings db -> db_profiles db' = db_profiles db ->
  db_tables db' = db_tables db -> (forall k, is_Some (db_sources db !! k) -> is_Some (db_sources db' !! k)) -> sound broken db'.
Proof.
  intros H E1 E2 E3 E4 E5. eapply (sound_frame broken); [exact H|rewrite E1; apply H|unfold profiles_ok; rewrite E3, E1; apply H|].
  intros k b Hk. rewrite E2 in Hk. split; [done|]. intros Hn. rewrite E1, E4. unchanged.
Qed.
Lemma sound_new_snapshot broken db s :
  sound broken db -> db_snapshots db !! sn_ID s = None -> snapshot_ok (sn_ID s) s -> sound broken (set_snapshots db (<[sn_ID s := s]> (db_snapshots db))).
Proof.
  intros H Hnew Hok. eapply (sound_frame broken); [exact H|cbn; apply map_Forall_insert_2; [done|apply H]| |].
  - intros pid p Hp. destruct (so_profiles _ _ H pid p Hp) as (Hid & s0 & Hs0 & Hc). split; [done|]. exists s0. cbn.
    rewrite lookup_insert_ne by congruence. done.
  - intros k b Hk. split; [done|]. intros Hn. cbn. unchanged.
    rewrite lookup_insert_ne; [done|]. intros E. destruct (proj2 (so_bindings _ _ H k b Hk) Hn) as (s0 & Hs0 & _). congruence.
Qed.
Lemma sound_alter_snapshot broken db f id :
  sound broken db -> unbound broken db id -> (forall s, snapshot_ok id s -> snapshot_ok id (f s)) ->
  (forall s, sn_Mode (f s) = sn_Mode s /\ (sn_Status (f s) = SnapshotStatusCreating -> sn_Status s = SnapshotStatusCreating)) ->
  sound broken (set_snapshots db (alter f id (db_snapshots db))).
Proof.
  intros H Hub Hok Hst. eapply (sound_frame broken); [exact H| | |].
  - intros k s. cbn. destruct (decide (k = id)) as [->|Hne].
    + rewrite lookup_alter_eq. intros (s0 & Hs0 & ->)%fmap_Some. apply Hok, (so_snapshots _ _ H _ _ Hs0).
    + rewrite lookup_alter_ne by done. apply (so_snapshots _ _ H).
  - intros pid p Hp. destruct (so_profiles _ _ H pid p Hp) as (Hid & s0 & Hs0 & Hc). split; [done|]. cbn.
    destruct (decide (pf_SnapshotID p = id)) as [<-|Hne].
    + exists (f s0). rewrite lookup_alter_eq, Hs0. split; [done|]. destruct (Hst s0) as [Em Es]. rewrite Em. intros Hm Hs. by apply (Hc Hm), Es.
    + exists s0. by rewrite lookup_alter_ne by done.
  - intros k b Hk. split; [done|]. intros Hn. cbn. unchanged.
    rewrite lookup_alter_ne; [done|]. intros E. by apply (Hub k b Hk Hn).
Qed.
Lemma sound_tables broken db m :
  sound broken db ->
  (forall k b, db_bindings db !! k = Some b -> k ∉ broken ->
     m !! (sb_SessionID b, table_of (sb_ActiveSnapshotID b)) = db_tables db !! (sb_SessionID b, table_of (sb_ActiveSnapshotID b))) ->
  sound broken (set_tables db m).
Proof.
  intros H Hm. eapply (sound_frame broken); [exact H|apply H|apply H|].
  intros k b Hk. split; [done|]. intros Hn. cbn. unchanged. by apply (Hm k b).
Qed.
Lemma sound_new_profile broken db p s :
  sound broken db -> db_profiles db !! pf_ID p = None -> db_snapshots db !! pf_SnapshotID p = Some s ->
  (sn_Mode s = SnapshotModeImported -> sn_Status s <> SnapshotStatusCreating) -> unbound broken db (pf_SnapshotID p) ->
  sound broken (set_profiles db (<[pf_ID p := p]> (db_profiles db))).
Proof.
  intros H Hnew Hs Hc Hub. eapply (sound_frame broken); [exact H|apply H| |].
  - intros pid p' Hp'. cbn in *. apply lookup_insert_Some in Hp' as [[<- <-]|[Hne Hp']]; [eauto|by apply (so_profiles _ _ H)].
  - intros k b Hk. split; [done|]. intros Hn. cbn. split_and!; auto. specialize (Hub k b Hk Hn). split; cbn; intros pid p' Hp' E.
    + apply lookup_insert_Some in Hp' as [[<- <-]|[Hne Hp']]; [congruence|]. exists p'. unfold like. auto.
    + exists p'. rewrite lookup_insert_ne by congruence. unfold like. auto.
Qed.
Lemma sound_alter_profile broken db f id :
  sound broken db -> (forall p, pf_ID (f p) = pf_ID p /\ like p (f p)) -> sound broken (set_profiles db (alter f id (db_profiles db))).
Proof.
  intros H Hf. assert (forall pid p', alter f id (db_profiles db) !! pid = Some p' -> exists p, db_profiles db !! pid = Some p /\ pf_ID p' = pf_ID p /\ like p p') as Hback.
  { intros pid p' Hp'. destruct (decide (pid = id)) as [->|Hne].
    - rewrite lookup_alter_eq in Hp'. apply fmap_Some in Hp' as (p & Hp & ->). exists p. by destruct (Hf p).
    - rewrite lookup_alter_ne in Hp' by done. exists p'. unfold like. auto. }
  eapply (sound_frame broken); [exact H|apply H| |].
  - intros pid p' Hp'. destruct (Hback pid p' Hp') as (p & Hp & Eid & _ & _ & E). destruct (so_profiles _ _ H pid p Hp) as (Hid & s0 & Hs0 & Hc).
    split; [congruence|]. exists s0. rewrite E. done.
  - intros k b Hk. split; [done|]. intros Hn. cbn. split_and!; auto. split; cbn; intros pid p Hp E.
    + destruct (Hback pid p Hp) as (p0 & Hp0 & _ & Hl). eauto.
    + destruct (decide (pid = id)) as [->|Hne]; [|exists p; rewrite lookup_alter_ne by done; unfold like; auto].
      exists (f p). rewrite lookup_alter_eq, Hp. split; [done|]. apply Hf.
Qed.
Lemma sound_delete_profiles broken db P :
  sound broken db -> (forall pid p, db_profiles db !! pid = Some p -> P p = true -> unbound broken db (pf_SnapshotID p)) ->
  sound broken (delete_profiles P db).
Proof.
  intros H HP. eapply (sound_frame broken); [exact H|apply H| |].
  - intros pid p Hp. cbn in Hp. apply map_lookup_filter_Some in Hp as [Hp _]. by apply (so_profiles _ _ H).
  - intros k b Hk. split; [done|]. intros Hn. unchanged. split; intros pid p Hp E; exists p; cbn in *.
    + apply map_lookup_filter_Some in Hp as [Hp _]. unfold like. auto.
    + split; [|unfold like; auto]. apply map_lookup_filter_Some. split; [done|]. cbn. destruct (P p) eqn:EP; [|done].
      exfalso. by apply (HP pid p Hp EP k b Hk Hn).
Qed.
Lemma sound_delete_snapshots broken db P :
  sound broken db -> (forall id s, db_snapshots db !! id = Some s -> P s = true -> unbound broken db id) -> sound broken (delete_snapshots P db).
Proof.
  intros H HP. unfold delete_snapshots. set (gone := fun id => match db_snapshots db !! id with Some s => P s | None => false end).
  assert (forall pid p, db_profiles (delete_snapshots P db) !! pid = Some p <-> db_profiles db !! pid = Some p /\ gone (pf_SnapshotID p) = false) as Hf.
  { intros pid p. cbn. by rewrite map_lookup_filter_Some. }
  fold (delete_snapshots P db). eapply (sound_frame broken); [exact H| | |].
  - intros id s Hs. cbn in Hs. apply map_lookup_filter_Some in Hs as [Hs _]. by apply (so_snapshots _ _ H).
  - intros pid p Hp. apply Hf in Hp as [Hp Hg]. destruct (so_profiles _ _ H pid p Hp) as (Hid & s & Hs & Hc). split; [done|]. exists s.
    split; [|done]. cbn. apply map_lookup_filter_Some. split; [done|]. cbn. unfold gone in Hg. by rewrite Hs in Hg.
  - intros k b Hk. split; [done|]. intros Hn. destruct (proj2 (so_bindings _ _ H k b Hk) Hn) as (s & Hs & _).
    assert (P s = false) as EP. { destruct (P s) eqn:EP; [|done]. exfalso. by apply (HP _ s Hs EP k b Hk Hn). }
    unchanged; cbn.
    + rewrite Hs. apply map_lookup_filter_Some. done.
    + split; intros pid p Hp E; exists p; (split; [|unfold like; auto]).
      * by apply Hf in Hp as [Hp _].
      * apply Hf. split; [done|]. unfold gone. rewrite E, Hs. done.
Qed.
Lemma sound_upsert broken db b :
  sound broken db -> usable db b -> sound (broken ∖ {[binding_key b]}) (set_bindings db (<[binding_key b := b]> (db_bindings db))).
Proof.
  intros [H1 H2 H3] Hu. split; [done|done|]. intros k b' Hk. cbn in Hk. apply lookup_insert_Some in Hk as [[<- <-]|[Hne Hk]].
  - split; [done|]. intros _. eapply usable_frame; [exact Hu|..]; unchanged.
  - destruct (H3 k b' Hk) as [Hkey Hb]. split; [done|]. intros Hn. eapply usable_frame; [apply Hb; set_solver|..]; unchanged.
Qed.
Lemma sound_delete_binding broken db k : sound broken db -> sound (broken ∖ {[k]}) (set_bindings db (delete k (db_bindings db))).
Proof.
  intros [H1 H2 H3]. split; [done|done|]. intros k' b' Hk. cbn in Hk. apply lookup_delete_Some in Hk as [Hne Hk].
  destruct (H3 k' b' Hk) as [Hkey Hb]. split; [done|]. intros Hn. eapply usable_frame; [apply Hb; set_solver|..]; unchanged.
Qed.
Lemma sound_weaken broken broken' db : broken ⊆ broken' -> sound broken db -> sound broken' db.
Proof. intros Hsub [H1 H2 H3]. split; [done|done|]. intros k b Hk. destruct (H3 k b Hk) as [Hkey Hb]. split; [done|]. intros Hn. apply Hb. set_solver. Qed.
End sound.

(** * Removing rows *)

(** Rows were only removed, and no binding or source. *)
Record shrinks (db db' : Db) : Prop := {
  sh_sessions : db_sessions db' = db_sessions db;
  sh_sources : db_sources db' = db_sources db;
  sh_bindings : db_bindings db' = db_bindings db;
  sh_snapshots : db_snapshots db' ⊆ db_snapshots db;
  sh_profiles : db_profiles db' ⊆ db_profiles db;
  sh_confirmations : db_confirmations db' ⊆ db_confirmations db;
  sh_tables : db_tables db' ⊆ db_tables db
}.
#[export] Instance shrinks_preorder : PreOrder shrinks.
Proof.
  split; [by intros db; split|]. intros d1 d2 d3 [A1 A2 A3 A4 A5 A6 A7] [B1 B2 B3 B4 B5 B6 B7].
  split; [congruence|congruence|congruence|by etransitivity..].
Qed.
Lemma shrinks_delete_profiles P db : shrinks db (delete_profiles P db).
Proof. split; try done; cbn; apply map_filter_subseteq. Qed.
Lemma shrinks_delete_snapshots P db : shrinks db (delete_snapshots P db).
Proof. split; try done; cbn; apply map_filter_subseteq. Qed.
Lemma shrinks_delete_confirmations P `{!forall x, Decision (P x)} db : shrinks db (set_confirmations db (filter P (db_confirmations db))).
Proof. split; try done; cbn; apply map_filter_subseteq. Qed.
Lemma shrinks_drop_table k db : shrinks db (set_tables db (delete k (db_tables db))).
Proof. split; try done; cbn. apply delete_subseteq. Qed.

Lemma table_of_inj id id' : table_of id = table_of id' -> id = id'.
Proof. unfold table_of, text. cbn. intros E. by repeat (injection E as E). Qed.

Section removal.
Context (sha256hex : string -> string).
Local Notation sound := (sound sha256hex).
Implicit Types (broken : gset (string * string * string)).

(** A removal that keeps the store sound where [C] holds, which removals do not end. *)
Definition stable (C : Db -> Prop) : Prop := forall db db', shrinks db db' -> C db -> C db'.
Definition trims {A} broken (C : Db -> Prop) (m : M A) : Prop :=
  forall db db' r, runs m db db' r -> sound broken db -> C db -> sound broken db' /\ shrinks db db'.

Lemma trims_ret {A} broken C (a : A) : trims broken C (ret a).
Proof. intros db db' r R H _. by run_step R. Qed.
Lemma trims_fail {A} broken C e : trims broken C (fail (A:=A) e).
Proof. intros db db' r R H _. by run_step R. Qed.
Lemma trims_read {A} broken C (f : Db -> res SErr A) : trims broken C (read f).
Proof. intros db db' r R H _. by run_step R. Qed.
Lemma trims_bind {A B} broken C (m : M A) (k : A -> M B) : stable C -> trims broken C m -> (forall a, trims broken C (k a)) -> trims broken C (bind m k).
Proof.
  intros Hst Hm Hk db db' r R H HC. run_step R; [by eapply Hm|]. destruct (Hm _ _ _ R0 H HC) as [H1 S1].
  destruct (Hk _ _ _ _ R H1 (Hst _ _ S1 HC)) as [H2 S2]. split; [done|by etransitivity].
Qed.
Lemma trims_try {A} broken C (m : M A) : trims broken C m -> trims broken C (try m).
Proof. intros Hm db db' r R. run_step R. by eapply Hm. Qed.
Lemma trims_wrap {A} broken C prefix (m : M A) : trims broken C m -> trims broken C (wrap prefix m).
Proof. intros Hm db db' r R. run_step R; by eapply Hm. Qed.
Lemma trims_write broken (C : Db -> Prop) f :
  (forall db db', f db = Ok db' -> sound broken db -> C db -> sound broken db' /\ shrinks db db') -> trims broken C (write f).
Proof. intros Hf db db' r [(e & -> & _)|(E & _)]%runs_write H HC; [by split|by eapply Hf]. Qed.
Lemma trims_weaken {A} broken (C C' : Db -> Prop) (m : M A) : (forall db, C' db -> C db) -> trims broken C m -> trims broken C' m.
Proof. intros HC Hm db db' r R H H'. eapply Hm; eauto. Qed.

(** No binding that counts uses the snapshot. *)
Lemma stable_unbound broken id : stable (fun db => unbound broken db id).
Proof. intros db db' Hs Hub k b. rewrite (sh_bindings _ _ Hs). apply Hub. Qed.
Lemma stable_and C C' : stable C -> stable C' -> stable (fun db => C db /\ C' db).
Proof. intros H H' db db' Hs [HC HC']. split; [by eapply H|by eapply H']. Qed.
(** The rows of [profiles] are those of the store, as far as they are still there. *)
Definition listed (profiles : list SemanticProfile) (db : Db) : Prop :=
  forall p p', p ∈ profiles -> db_profiles db !! pf_ID p = Some p' -> p' = p.
Lemma stable_listed profiles : stable (listed profiles).
Proof. intros db db' Hs Hl p p' Hp Hp'. apply (Hl p p' Hp). eapply lookup_weaken; [exact Hp'|apply Hs]. Qed.

Lemma delete_confirmations_trims broken C id : trims broken C (Confirmation_DeleteByProfile id).
Proof. apply trims_write. intros db db' [= <-] H _. split; [by eapply sound_same; [exact H|done..]|apply shrinks_delete_confirmations]. Qed.
Lemma drop_table_trims broken sessionID table :
  trims broken (fun db => forall k b, db_bindings db !! k = Some b -> k ∉ broken -> table <> table_of (sb_ActiveSnapshotID b)) (DropTable sessionID table).
Proof.
  unfold DropTable. destruct (ValidateSQLIdent table); [|apply trims_fail]. apply trims_wrap, trims_write. intros db db' [= <-] H Hne.
  split; [|apply shrinks_drop_table]. apply sound_tables; [done|]. intros k b Hk Hn. apply lookup_delete_ne. intros [= _ E]. by apply (Hne k b Hk Hn).
Qed.
Lemma delete_profile_trims broken id :
  trims broken (fun db => forall p, db_profiles db !! id = Some p -> unbound broken db (pf_SnapshotID p)) (Profile_Delete id).
Proof.
  apply trims_write. intros db db' [= <-] H Hub. split; [|apply shrinks_delete_profiles].
  apply sound_delete_profiles; [done|]. intros pid p Hp E. apply String.eqb_eq in E. destruct (so_profiles _ _ _ H pid p Hp) as [Hid _]. apply Hub. congruence.
Qed.
Lemma delete_snapshot_trims broken id : trims broken (fun db => unbound broken db id) (Snapshot_Delete id).
Proof.
  apply trims_write. intros db db' [= <-] H Hub. split; [|apply shrinks_delete_snapshots].
  apply sound_delete_snapshots; [done|]. intros id' s Hs E. apply String.eqb_eq in E. destruct (so_snapshots _ _ _ H id' s Hs) as [Hid _]. by rewrite <- Hid, E.
Qed.
Lemma unbound_table broken db id k b :
  unbound broken db id -> db_bindings db !! k = Some b -> k ∉ broken -> table_of id <> table_of (sb_ActiveSnapshotID b).
Proof. intros Hub Hk Hn E%table_of_inj. by apply (Hub k b Hk Hn). Qed.

Lemma cleanup_profiles_trims broken id profiles :
  Forall (fun p => pf_SnapshotID p = id) profiles -> trims broken (fun db => unbound broken db id /\ listed profiles db) (cleanup_profiles profiles).
Proof.
  set (C := fun profiles db => unbound broken db id /\ listed profiles db).
  assert (forall profiles, stable (C profiles)) as Hst by (intros l; apply stable_and; [apply stable_unbound|apply stable_listed]).
  induction 1 as [|p profiles Hp _ IH]; cbn [cleanup_profiles]; [apply trims_ret|]. fold (C (p :: profiles)).
  assert (trims broken (C (p :: profiles)) (cleanup_profiles profiles)) as Hrest.
  { eapply trims_weaken; [|exact IH]. intros db [Hub Hl]. split; [done|]. intros q q' Hq. apply Hl. by right. }
  apply trims_bind; [done|apply trims_try, delete_confirmations_trims|]. intros [[]|e]; [|apply trims_bind; [done..|]; intros; apply trims_ret].
  apply trims_bind; [done| |intros; apply trims_bind; [done..|]; intros; apply trims_ret].
  apply trims_try. eapply trims_weaken; [|apply delete_profile_trims]. intros db [Hub Hl] p' Hp'. assert (p' = p) as -> by (apply Hl; [by left|done]). by rewrite Hp.
Qed.

(** Snapshots that can go. *)
Definition table_named (s : SourceSnapshot) : Prop := sn_AnalysisTableName s = "" \/ sn_AnalysisTableName s = table_of (sn_ID s).
Definition removable broken (profiles : list SemanticProfile) (l : list SourceSnapshot) (db : Db) : Prop :=
  (forall s, s ∈ l -> unbound broken db (sn_ID s)) /\ listed profiles db.
Lemma stable_removable broken profiles l : stable (removable broken profiles l).
Proof. apply stable_and; [|apply stable_listed]. intros db db' Hs H s Hin. eapply stable_unbound; [exact Hs|by apply H]. Qed.
Lemma removable_tail broken profiles s l db : removable broken profiles (s :: l) db -> removable broken profiles l db.
Proof. intros [H1 H2]. split; [|done]. intros s' Hs'. apply H1. by right. Qed.

Lemma drop_named_trims broken profiles s l sessionID :
  table_named s -> sn_AnalysisTableName s <> "" -> trims broken (removable broken profiles (s :: l)) (DropTable sessionID (sn_AnalysisTableName s)).
Proof.
  intros [Hn|Hn] Hne; [done|]. eapply trims_weaken; [|apply drop_table_trims]. intros db [Hub _] k b Hk Hnb. rewrite Hn.
  eapply unbound_table; [apply Hub; by left|done|done].
Qed.
Lemma delete_listed_trims broken profiles s l : trims broken (removable broken profiles (s :: l)) (Snapshot_Delete (sn_ID s)).
Proof. eapply trims_weaken; [|apply delete_snapshot_trims]. intros db [Hub _]. apply Hub. by left. Qed.

Lemma cleanup_snapshot_trims broken ingester sessionID profiles s l :
  table_named s -> trims broken (removable broken profiles (s :: l)) (cleanup_snapshot ingester sessionID profiles s).
Proof.
  intros Hn. unfold cleanup_snapshot. pose proof (stable_removable broken profiles (s :: l)) as Hst. apply trims_bind; [done| |].
  - apply trims_try. destruct (ingester && negb (sn_AnalysisTableName s =? "")) eqn:E; [|apply trims_ret]. reflect_bools. by apply drop_named_trims.
  - intros [[]|e]; [|apply trims_ret]. apply trims_bind; [done| |].
    + eapply trims_weaken; [|apply (cleanup_profiles_trims broken (sn_ID s))].
      * intros db [Hub Hl]. split; [apply Hub; by left|]. intros p p' Hp. apply Hl. apply list_elem_of_In, filter_In in Hp as [Hp _]. by apply list_elem_of_In.
      * apply Forall_forall. intros p Hp. apply list_elem_of_In, filter_In in Hp as [_ Hp]. by apply String.eqb_eq.
    + intros errors. destruct (negb _); [apply trims_ret|]. apply trims_bind; [done|apply trims_try, delete_listed_trims|]. intros r. apply trims_ret.
Qed.
Lemma cleanup_snapshots_trims broken ingester sessionID profiles l :
  Forall table_named l -> trims broken (removable broken profiles l) (cleanup_snapshots ingester sessionID profiles l).
Proof.
  induction 1 as [|s l Hn _ IH]; cbn [cleanup_snapshots]; [apply trims_ret|].
  apply trims_bind; [apply stable_removable|by apply cleanup_snapshot_trims|]. intros errors.
  apply trims_bind; [apply stable_removable| |intros; apply trims_ret]. eapply trims_weaken; [|exact IH]. intros db. apply removable_tail.
Qed.

Lemma elem_of_rows {K A} `{Countable K} (m : gmap K A) p a : a ∈ rows m p -> exists k, m !! k = Some a /\ p a = true.
Proof. intros [Hp (k & Hk)]%in_rows. eauto. Qed.
Lemma snapshot_named broken db id s : sound broken db -> db_snapshots db !! id = Some s -> sn_ID s = id /\ table_named s.
Proof.
  intros H Hs. destruct (so_snapshots _ _ _ H id s Hs) as (Hid & Ht & _). split; [done|]. rewrite <- Hid in Ht. unfold table_named. destruct (sn_Mode s); auto.
Qed.
Lemma listed_profiles broken db sourceID : sound broken db -> listed (newest_first pf_CreatedAt (rows (db_profiles db) (fun p => pf_SourceID p =? sourceID))) db.
Proof.
  intros H p p' Hp Hp'. apply elem_of_newest, elem_of_rows in Hp as (k & Hk & _). destruct (so_profiles _ _ _ H k p Hk) as [Hid _]. congruence.
Qed.
(** A snapshot of a source that a binding does not point to is not used by any other. *)
Lemma unbound_object broken db id s k :
  sound broken db -> db_snapshots db !! id = Some s -> k = (sn_SessionID s, sn_SourceID s, snapshot_key sha256hex (sn_SourceID s) s) ->
  (forall b, db_bindings db !! k = Some b -> k ∉ broken -> sb_ActiveSnapshotID b <> id) -> unbound broken db id.
Proof.
  intros H Hs -> Hact k' b Hk Hn E. destruct (so_bindings _ _ _ H k' b Hk) as [Hkey Hu]. destruct (Hu Hn) as (s' & Hs' & E1 & E2 & E3 & _).
  rewrite E, Hs in Hs'. injection Hs' as <-. unfold binding_key in Hkey. rewrite <- E1, <- E2 in Hkey. rewrite <- E2 in E3. rewrite <- E3 in Hkey. subst k'.
  by apply (Hact b).
Qed.
Lemma cleanup_superseded_sound broken ingester sessionID sourceID key activeID db db' r :
  runs (cleanupSupersededSnapshots sha256hex ingester sessionID sourceID key activeID) db db' r -> sound broken db ->
  (forall b, db_bindings db !! (sessionID, sourceID, key) = Some b -> sb_ActiveSnapshotID b = activeID) -> sound broken db' /\ shrinks db db'.
Proof.
  intros R H Hact. unfold cleanupSupersededSnapshots in R. run_step R; [by run_step R0|]. run_step R0. unfold Snapshot_ListBySource in R0. run_step R0.
  destruct r0 as [snapshots|e]; [|by run_step R]. destruct R0 as [(m & [=])|[= ->]].
  run_step R; [by run_step R0|]. run_step R0. unfold Profile_ListBySource in R0. run_step R0.
  destruct r0 as [profiles|e]; [|by run_step R]. destruct R0 as [(m & [=])|[= ->]].
  assert (forall s, s ∈ List.filter (superseded sha256hex sessionID sourceID key activeID) (newest_first sn_ImportedAt (rows (db_snapshots db) (fun s => sn_SourceID s =? sourceID)))
    -> exists id, db_snapshots db !! id = Some s /\ sn_SessionID s = sessionID /\ sn_SourceID s = sourceID /\ snapshot_key sha256hex sourceID s = key /\ sn_ID s <> activeID) as Hin.
  { intros s Hs. apply list_elem_of_In, filter_In in Hs as [Hs Hf]. apply list_elem_of_In, elem_of_newest, elem_of_rows in Hs as (id & Hs & Hsrc).
    exists id. unfold superseded in Hf. reflect_bools. auto. }
  eapply cleanup_snapshots_trims; [|exact R|exact H|].
  - apply Forall_forall. intros s Hs. destruct (Hin s Hs) as (id & Hid & _). by eapply snapshot_named.
  - split; [|by eapply listed_profiles]. intros s Hs. destruct (Hin s Hs) as (id & Hid & E1 & E2 & E3 & E4).
    destruct (snapshot_named _ _ _ _ H Hid) as [Eid _]. rewrite Eid. eapply unbound_object; [exact H|exact Hid|done|]. rewrite E1, E2, E3.
    intros b Hb _. rewrite (Hact b Hb). congruence.
Qed.
End removal.

(** * Imports and live bindings *)

Section imports.
Context (sha256hex : string -> string).
Local Notation sound := (sound sha256hex).
Local Notation usable := (usable sha256hex).
Implicit Types (broken : gset (string * string * string)).

Lemma with_status_ok id status message s : snapshot_ok id s -> snapshot_ok id (with_status status message s).
Proof. done. Qed.
Lemma with_completion_ok id c s : snapshot_ok id s -> snapshot_ok id (with_completion c s).
Proof. done. Qed.
Lemma update_status_run id status message db db' r :
  runs (Snapshot_UpdateStatus id status message) db db' r ->
  (db' = db /\ is_ok r = false) \/ (db' = set_snapshots db (alter (with_status status message) id (db_snapshots db)) /\ r = Ok tt).
Proof. intros [(e & -> & ->)|(E & ->)]%runs_write; [by left|]. injection E as <-. by right. Qed.
Lemma set_status_sound broken db id status message :
  sound broken db -> unbound broken db id -> status <> SnapshotStatusCreating ->
  sound broken (set_snapshots db (alter (with_status status message) id (db_snapshots db))).
Proof. intros H Hub Hne. apply sound_alter_snapshot; [done|done|by intros; apply with_status_ok|]. intros s. split; [done|]. intros E. by contradict E. Qed.
Lemma fail_snapshot_sound {A} broken id e stored db db' (r : res SErr A) :
  runs (fail_snapshot id e stored) db db' r -> sound broken db -> unbound broken db id ->
  sound broken db' /\ db_bindings db' = db_bindings db /\ is_ok r = false.
Proof.
  intros R H Hub. unfold fail_snapshot, failSnapshotIfPresent in R. run_inv; try done.
  all: match goal with U : runs (Snapshot_UpdateStatus _ _ _) _ _ _ |- _ => apply update_status_run in U as [[-> _]|[-> _]] end; [done|].
  all: split; [|done]; by apply set_status_sound.
Qed.
Lemma or_fail_run {A} id (m : M A) prefix db db' r :
  runs (or_fail id m prefix) db db' r ->
  (exists a, runs m db db' (Ok a) /\ r = Ok a) \/ (exists e db1, runs m db db1 (Err e) /\ runs (A:=A) (fail_snapshot id (SWrap prefix e) e) db1 db' r).
Proof.
  intros R. unfold or_fail in R. run_step R; [by run_step R0|]. run_step R0. destruct r0 as [a|e]; [run_step R; left; eauto|right; eauto].
Qed.

(** What completing a snapshot leaves when it fails, and when it succeeds. *)
Definition kept broken db (db' : Db) (ok : bool) (k : string * string * string) (id : string) : Prop :=
  if ok then sound (broken ∖ {[k]}) db' /\ exists b, db_bindings db' !! k = Some b /\ sb_ActiveSnapshotID b = id /\ usable db' b
  else sound broken db' /\ db_bindings db' = db_bindings db.

(** The store with the completed snapshot [s] and its profile [p] makes a binding usable. *)
Lemma completed_usable broken db s p b c :
  let id := sn_ID s in
  sound broken db -> db_snapshots db !! id = Some s -> (forall pid q, db_profiles db !! pid = Some q -> pf_SnapshotID q <> id) ->
  sb_ActiveSnapshotID b = id -> sn_SessionID s = sb_SessionID b -> sn_SourceID s = sb_SourceID b ->
  snapshot_key sha256hex (sb_SourceID b) s = sb_SourceObjectKey b -> is_Some (db_sources db !! sb_SourceID b) ->
  (sn_Mode s = SnapshotModeImported ->
     exists t, db_tables db !! (sb_SessionID b, table_of id) = Some t /\ cp_RowCount c = sc_RowCount t /\ cp_ColumnCount c = Z.of_nat (length (sc_Columns t))) ->
  pf_SessionID p = sb_SessionID b -> pf_SourceID p = sb_SourceID b -> pf_SnapshotID p = id ->
  forall db', db_snapshots db' = alter (with_status SnapshotStatusReady None) id (alter (with_completion c) id (db_snapshots db)) ->
    db_profiles db' = <[pf_ID p := p]> (db_profiles db) -> db_tables db' = db_tables db -> db_sources db' = db_sources db -> usable db' b.
Proof.
  intros id H Hs Hnone Ea E1 E2 E3 Hsrc Ht P1 P2 P3 db' Es Ep Et Er. unfold SourceProps.usable. rewrite Ea, Es, Et, Er, Ep. rewrite !lookup_alter_eq, Hs.
  eexists. split; [reflexivity|]. refine (conj E1 (conj E2 (conj E3 (conj eq_refl (conj Hsrc (conj Ht _)))))).
  exists (pf_ID p), p. rewrite lookup_insert_eq. refine (conj eq_refl (conj P1 (conj P2 (conj P3 _)))). intros pid q Hq Eq.
  apply lookup_insert_Some in Hq as [[<- _]|[_ Hq]]; [done|]. by destruct (Hnone pid q Hq).
Qed.

Lemma load_creating_run req db db' r :
  runs (load_creating req) db db' r ->
  db' = db /\ forall s, r = Ok s -> db_snapshots db !! rq_SnapshotID req = Some s /\ same_identity req s = true /\ sn_Status s = SnapshotStatusCreating.
Proof.
  intros R. unfold load_creating, Snapshot_GetByID in R. run_inv; (split; [done|]); try (by intros ? [=]).
  intros s [= <-]. match goal with X : _ \/ Ok _ = found _ |- _ => destruct X as [(m & X)|X]; [discriminate X|unfold found in X] end.
  destruct (db_snapshots db !! rq_SnapshotID req); simplify_eq. reflect_bools. done.
Qed.
Lemma creating_unbound broken db id s :
  sound broken db -> db_snapshots db !! id = Some s -> sn_Status s <> SnapshotStatusReady -> unbound broken db id.
Proof.
  intros H Hs Hne k b Hk Hn E. destruct (proj2 (so_bindings _ _ _ H k b Hk) Hn) as (s' & Hs' & _ & _ & _ & Hr & _). rewrite E, Hs in Hs'. congruence.
Qed.
Lemma unbound_same broken db db' id : db_bindings db' = db_bindings db -> unbound broken db id -> unbound broken db' id.
Proof. intros E Hub k b. rewrite E. apply Hub. Qed.
Lemma create_profile_run sessionID sourceID snapshotID table signature facts hex12 now db db' r :
  runs (CreateSemanticProfile sessionID sourceID snapshotID table signature facts hex12 now) db db' r ->
  (db' = db /\ is_ok r = false)
  \/ exists p, r = Ok p /\ db' = set_profiles db (<[pf_ID p := p]> (db_profiles db)) /\ db_profiles db !! pf_ID p = None
       /\ is_Some (db_sources db !! sourceID) /\ pf_SessionID p = sessionID /\ pf_SourceID p = sourceID /\ pf_SnapshotID p = snapshotID.
Proof.
  intros R. unfold CreateSemanticProfile, Profile_Create in R. run_inv.
  all: match goal with X : runs (write _) _ _ _ |- _ => apply runs_write in X as [(e' & -> & X)|(Ew & X)]; first [discriminate X|idtac] end.
  all: try (by left).
  right. eexists. split; [reflexivity|]. destruct (negb _) eqn:En; [|done]. destruct (_ && _) eqn:Ef; [|done]. injection Ew as <-.
  unfold has in *. reflect_bools. split_and!; try done. by apply eq_None_not_Some.
Qed.

Definition object_key (req : SnapshotImportCompletion) : string * string * string :=
  (rq_SessionID req, rq_SourceID req, SourceObjectKey sha256hex (rq_SourceID req) (rq_UpstreamKind req) (rq_UpstreamSchema req) (rq_UpstreamObject req)).
Lemma upsert_run b db db' r :
  runs (Binding_Upsert b) db db' r ->
  (db' = db /\ is_ok r = false)
  \/ exists b', r = Ok tt /\ db' = set_bindings db (<[binding_key b' := b']> (db_bindings db)) /\ binding_key b' = binding_key b
       /\ sb_ActiveSnapshotID b' = sb_ActiveSnapshotID b.
Proof.
  intros [(e & -> & ->)|(E & ->)]%runs_write; [by left|]. destruct (_ && _); [|done]. injection E as <-. right.
  destruct (db_bindings db !! binding_key b) as [old|]; eexists; split_and!; reflexivity.
Qed.
Lemma activate_run broken req now db db' r :
  runs (activate sha256hex req now) db db' r -> sound broken db -> unbound broken db (rq_SnapshotID req) ->
  (is_ok r = false /\ sound broken db' /\ db_bindings db' = db_bindings db)
  \/ exists b, r = Ok (object_key req).2 /\ db' = set_bindings db (<[binding_key b := b]> (db_bindings db))
       /\ binding_key b = object_key req /\ sb_ActiveSnapshotID b = rq_SnapshotID req.
Proof.
  intros R H Hub. unfold activate in R. run_inv.
  all: match goal with U : runs (Binding_Upsert _) _ _ _ |- _ => apply upsert_run in U as [[-> ?]|(b & ? & -> & Hkey & Hact)] end; try done.
  - right. exists b. split_and!; [reflexivity|reflexivity|exact Hkey|exact Hact].
  - left. match goal with U : runs (Snapshot_UpdateStatus _ _ _) _ _ _ |- _ => apply update_status_run in U as [[-> _]|[-> _]] end; [done|].
    split_and!; try done. by apply set_status_sound.
Qed.

Lemma exact_not_blank field value : validateExactConfigText field value = Ok tt -> value <> "".
Proof. unfold validateExactConfigText. intros H ->. done. Qed.
Lemma completion_checked req : check_completion req = Ok tt -> rq_AnalysisTableName req <> "".
Proof.
  unfold check_completion. destruct (validateExactConfigText "analysis_table_name" _) as [[]|] eqn:E; [|done]. intros _. by eapply exact_not_blank.
Qed.
(** A snapshot still being created has its own table and no profile. *)
Lemma creating_facts broken db req s :
  sound broken db -> db_snapshots db !! rq_SnapshotID req = Some s -> same_identity req s = true -> sn_Status s = SnapshotStatusCreating ->
  rq_AnalysisTableName req <> "" ->
  sn_ID s = rq_SnapshotID req /\ sn_Mode s = SnapshotModeImported /\ rq_AnalysisTableName req = table_of (rq_SnapshotID req)
  /\ (forall pid q, db_profiles db !! pid = Some q -> pf_SnapshotID q <> rq_SnapshotID req).
Proof.
  intros H Hs Hi Hc Hne. destruct (so_snapshots _ _ _ H _ _ Hs) as (Hid & Ht & _). unfold same_identity in Hi. reflect_bools.
  assert (sn_Mode s = SnapshotModeImported) as Hm by (destruct (sn_Mode s); congruence). split_and!; [done|done|rewrite Hm in Ht; congruence|].
  intros pid q Hq E. destruct (so_profiles _ _ _ H pid q Hq) as (_ & s' & Hs' & Hn). rewrite E, Hs in Hs'. injection Hs' as <-. by apply Hn.
Qed.
Lemma extract_run sessionID table db db' t : runs (ExtractSchema sessionID table) db db' (Ok t) -> db' = db /\ db_tables db !! (sessionID, table) = Some t.
Proof.
  intros R. unfold ExtractSchema in R. destruct (ValidateSQLIdent table); [|by run_step R]. run_inv. split; [done|].
  match goal with X : _ \/ _ |- _ => destruct X as [(m & X)|X]; [discriminate X|] end. destruct (db_tables db !! _); by simplify_eq.
Qed.
Lemma extract_same {r} sessionID table db db' : runs (ExtractSchema sessionID table) db db' r -> db' = db.
Proof. intros R. unfold ExtractSchema in R. destruct (ValidateSQLIdent table); [|by run_step R]. by run_inv. Qed.

(** What is known of a snapshot that is being completed. *)
Record completing broken db req t s : Prop := {
  cg_sound : sound broken db;
  cg_row : db_snapshots db !! rq_SnapshotID req = Some s;
  cg_id : sn_ID s = rq_SnapshotID req;
  cg_mode : sn_Mode s = SnapshotModeImported;
  cg_same : same_identity req s = true;
  cg_table : db_tables db !! (rq_SessionID req, table_of (rq_SnapshotID req)) = Some t;
  cg_shape : rq_RowCount req = sc_RowCount t /\ rq_ColCount req = Z.of_nat (length (sc_Columns t));
  cg_none : forall pid q, db_profiles db !! pid = Some q -> pf_SnapshotID q <> rq_SnapshotID req;
  cg_unbound : unbound broken db (rq_SnapshotID req)
}.
Lemma fail_kept {A} broken db d d' req e stored (r : res SErr A) :
  runs (fail_snapshot (rq_SnapshotID req) e stored) d d' r -> unbound broken db (rq_SnapshotID req) -> sound broken d -> db_bindings d = db_bindings db ->
  kept broken db d' (is_ok r) (object_key req) (rq_SnapshotID req).
Proof.
  intros Rf Hub Hd Eb. apply (fail_snapshot_sound broken) in Rf as (H' & E' & ->); [|done|by eapply unbound_same; [exact Eb|exact Hub]].
  split; [done|congruence].
Qed.
Lemma update_completion_run id c db db' r :
  runs (Snapshot_UpdateCompletion id c) db db' r ->
  (db' = db /\ is_ok r = false) \/ (db' = set_snapshots db (alter (with_completion c) id (db_snapshots db)) /\ r = Ok tt).
Proof. intros [(e & -> & ->)|(E & ->)]%runs_write; [by left|]. injection E as <-. by right. Qed.

Lemma same_identity_spec req s :
  same_identity req s = true ->
  sn_SessionID s = rq_SessionID req /\ sn_SourceID s = rq_SourceID req /\ sn_UpstreamKind s = rq_UpstreamKind req
  /\ sn_UpstreamSchema s = rq_UpstreamSchema req /\ sn_UpstreamObject s = rq_UpstreamObject req.
Proof. unfold same_identity. intros Hi. reflect_bools. done. Qed.
(** A goal that follows from a failure of the snapshot, by the lemma in the context. *)
Ltac by_failing :=
  match goal with
  | X : runs (fail_snapshot _ _ _) _ _ _, F : forall (A : Type), _ |- _ =>
      let Y := fresh in edestruct F as (Y & ? & ?); [exact X|done|done|]; cbn in Y; first [discriminate Y|left; done]
  end.
(** The three writes before the activation: either one of them fails, and the snapshot is
    marked, or all of them are done. *)
Lemma store_facts_kept broken db req t s c facts hex12 now db' r :
  completing broken db req t s -> cp_RowCount c = rq_RowCount req -> cp_ColumnCount c = rq_ColCount req ->
  runs (store_facts req c facts hex12 now) db db' r ->
  (is_ok r = false /\ sound broken db' /\ db_bindings db' = db_bindings db)
  \/ (exists p, r = Ok p) /\ sound broken db' /\ db_bindings db' = db_bindings db
     /\ forall b, binding_key b = object_key req -> sb_ActiveSnapshotID b = rq_SnapshotID req -> usable db' b.
Proof.
  intros [H Hs Hid Hm Hi Ht [T1 T2] Hnone Hub] C1 C2 R. unfold store_facts in R.
  assert (forall A e stored d d' (r : res SErr A), runs (fail_snapshot (rq_SnapshotID req) e stored) d d' r -> sound broken d -> db_bindings d = db_bindings db ->
            is_ok r = false /\ sound broken d' /\ db_bindings d' = db_bindings db) as Hfail.
  { intros A e stored d d' r' Rf Hd Eb. apply (fail_snapshot_sound broken) in Rf as (H' & E' & ->); [|done|by eapply unbound_same; [exact Eb|exact Hub]].
    split_and!; [done|done|congruence]. }
  set (d1 := set_snapshots db (alter (with_completion c) (rq_SnapshotID req) (db_snapshots db))).
  assert (sound broken d1) as H1 by (apply sound_alter_snapshot; [done|done|by intros; apply with_completion_ok|done]).
  apply runs_bind in R as [(e & R0 & ->)|([] & db1 & R0 & R)]; apply or_fail_run in R0 as [(a & R0 & E)|(e' & dx & R0 & R1)]; try discriminate E;
    apply update_completion_run in R0 as [[-> ?]|[-> ?]]; try done; try by_failing.
  fold d1 in R. set (d2 := set_snapshots d1 (alter (with_status SnapshotStatusReady None) (rq_SnapshotID req) (db_snapshots d1))).
  assert (unbound broken d1 (rq_SnapshotID req)) as Hub1 by done.
  assert (sound broken d2) as H2 by (apply set_status_sound; done).
  apply runs_bind in R as [(e & R1 & ->)|([] & db1 & R1 & R)]; apply or_fail_run in R1 as [(a' & R1 & E1)|(e' & dx & R1 & R2)]; try discriminate E1;
    apply update_status_run in R1 as [[-> ?]|[-> ?]]; try done; try by_failing.
  fold d2 in R. apply or_fail_run in R as [(p & R2 & ->)|(e' & dx & R2 & R3)];
    apply create_profile_run in R2 as [[-> ?]|(p' & Ep & -> & Hp & Hsrc & P1 & P2 & P3)]; try done; try by_failing.
  injection Ep as <-. right. split; [by exists p|].
  assert (db_snapshots d2 !! rq_SnapshotID req = Some (with_status SnapshotStatusReady None (with_completion c s))) as Hs2.
  { cbn. by rewrite !lookup_alter_eq, Hs. }
  split; [eapply sound_new_profile; [exact H2|exact Hp|by rewrite P3|by cbn|by rewrite P3]|]. split; [done|].
  intros b Hkey Hact. unfold binding_key, object_key in Hkey. injection Hkey as K1 K2 K3.
  destruct (same_identity_spec req s Hi) as (I1 & I2 & I3 & I4 & I5).
  refine (completed_usable broken db s p b c H _ _ _ _ _ _ _ _ _ _ _ _ _ _ _ _).
  - by rewrite Hid.
  - intros pid q Hq. rewrite Hid. by apply (Hnone pid).
  - by rewrite Hid.
  - by rewrite I1.
  - by rewrite I2.
  - unfold snapshot_key. by rewrite I3, I4, I5, K2, K3.
  - by rewrite K2.
  - intros _. exists t. rewrite Hid, K1, C1, C2. done.
  - by rewrite P1.
  - by rewrite P2.
  - by rewrite P3.
  - by rewrite Hid.
  - done.
  - done.
  - done.
Qed.

(** Cleaning up reports what went wrong and never fails. *)
#[local] Hint Resolve never_fails_ret never_fails_try never_fails_bind : core.
Lemma cleanup_never_fails ingester sessionID sourceID key id : never_fails (cleanupSupersededSnapshots sha256hex ingester sessionID sourceID key id).
Proof.
  assert (forall l, never_fails (cleanup_profiles l)) as Hp.
  { induction l as [|p l IH]; cbn [cleanup_profiles]; [auto|]. apply never_fails_bind; [auto|]. intros [|]; auto. }
  assert (forall profiles l, never_fails (cleanup_snapshots ingester sessionID profiles l)) as Hs.
  { induction l as [|s l IH]; cbn [cleanup_snapshots]; [auto|]. apply never_fails_bind; [|auto]. unfold cleanup_snapshot.
    apply never_fails_bind; [auto|]. intros [|]; [|auto]. apply never_fails_bind; [auto|]. intros errors. destruct (negb _); auto. }
  unfold cleanupSupersededSnapshots. apply never_fails_bind; [auto|]. intros [|]; [|auto]. apply never_fails_bind; [auto|]. intros [|]; auto.
Qed.
(** A binding in a sound store that counts is usable. *)
Lemma sound_usable broken db k b : sound broken db -> db_bindings db !! k = Some b -> k ∉ broken -> usable db b.
Proof. intros H Hk Hn. by apply (so_bindings _ _ _ H k b Hk). Qed.
Lemma bound_kept broken db b ingester db' r :
  sound broken db -> usable db b ->
  runs (cleanupSupersededSnapshots sha256hex ingester (sb_SessionID b) (sb_SourceID b) (sb_SourceObjectKey b) (sb_ActiveSnapshotID b))
    (set_bindings db (<[binding_key b := b]> (db_bindings db))) db' r ->
  is_ok r = true /\ sound (broken ∖ {[binding_key b]}) db' /\ db_bindings db' !! binding_key b = Some b /\ usable db' b.
Proof.
  intros H Hu R. split; [destruct r as [|e]; [done|by apply cleanup_never_fails in R]|].
  apply (sound_upsert _ _ _ _ H) in Hu. eapply cleanup_superseded_sound in R as [H3 S3]; [|exact Hu|].
  - split; [done|]. assert (db_bindings db' !! binding_key b = Some b) as Hb by (rewrite (sh_bindings _ _ S3); apply lookup_insert_eq).
    split; [done|]. eapply sound_usable; [exact H3|exact Hb|set_solver].
  - intros b'. cbn. rewrite lookup_insert_eq. by intros [= <-].
Qed.
Lemma complete_kept broken db req t s signature facts mode size profileMs hex12 now db' r :
  completing broken db req t s ->
  runs (complete_snapshot sha256hex req signature facts mode size profileMs hex12 now) db db' r ->
  kept broken db db' (is_ok r) (object_key req) (rq_SnapshotID req).
Proof.
  intros Hc R. unfold complete_snapshot in R. apply runs_bind in R as [(e & R0 & ->)|(p & d1 & R0 & R)];
    destruct (store_facts_kept _ _ _ _ _ (completion_facts _ _ _ _ _) _ _ _ _ _ Hc eq_refl eq_refl R0) as [(Hok & H1 & Hb1)|((p' & Ep) & H1 & Hb1 & Hu)];
    try discriminate; [done|].
  assert (unbound broken d1 (rq_SnapshotID req)) as Hub by (eapply unbound_same; [exact Hb1|apply Hc]).
  apply runs_bind in R as [(e & R1 & ->)|(key & d2 & R1 & R)];
    destruct (activate_run _ _ _ _ _ _ R1 H1 Hub) as [(Hok & H2 & Hb2)|(b & Ek & -> & Hkey & Hact)]; try discriminate; [split; [done|congruence]|].
  assert (is_ok r = true /\ sound (broken ∖ {[binding_key b]}) db' /\ db_bindings db' !! binding_key b = Some b /\ usable db' b) as (Hr & H3 & Hb & Hu3).
  { pose proof Hkey as Hkey0. injection Hkey0 as K1 K2 K3. injection Ek as ->. unfold object_key in R. cbn [snd] in R. rewrite <- K3, <- K1, <- K2, <- Hact in R.
    apply runs_bind in R as [(e & R2 & ->)|(errors & d3 & R2 & R)]; [by apply cleanup_never_fails in R2|]. apply runs_ret in R as [-> ->].
    destruct (bound_kept _ _ _ _ _ _ H1 (Hu b Hkey Hact) R2) as (_ & ? & ? & ?). done. }
  rewrite Hr. split; rewrite <- Hkey; [done|by exists b].
Qed.
(** Completing an import: either it fails and the bindings are as they were, or the object
    has a usable binding to the snapshot. *)
Lemma finalize_kept broken db req dbSize profileMs hex12 now db' r :
  runs (FinalizeSnapshotImport sha256hex req dbSize profileMs hex12 now) db db' r -> sound broken db ->
  kept broken db db' (is_ok r) (object_key req) (rq_SnapshotID req).
Proof.
  intros R H. unfold FinalizeSnapshotImport in R.
  apply runs_bind in R as [(e & R0 & ->)|([] & d & R0 & R)]; apply runs_lift in R0 as [-> Ec]; [done|]. symmetry in Ec. apply completion_checked in Ec.
  apply runs_bind in R as [(e & R0 & ->)|(s & d & R0 & R)]; apply load_creating_run in R0 as [-> Hl]; [done|].
  destruct (Hl s eq_refl) as (Hs & Hi & Hc). destruct (creating_facts _ _ _ _ H Hs Hi Hc Ec) as (Hid & Hm & Htab & Hnone).
  assert (unbound broken db (rq_SnapshotID req)) as Hub by (eapply creating_unbound; [exact H|exact Hs|congruence]).
  assert (forall A e stored (r : res SErr A), runs (fail_snapshot (rq_SnapshotID req) e stored) db db' r ->
            kept broken db db' (is_ok r) (object_key req) (rq_SnapshotID req)) as Hfail by (intros; by eapply fail_kept).
  apply runs_bind in R as [(e & R0 & ->)|(t & d & R0 & R)]; apply or_fail_run in R0 as [(t' & R0 & Et)|(e' & dx & R0 & R1)];
    pose proof (extract_same _ _ _ _ R0) as ->; try discriminate Et;
    [by apply Hfail in R1| |by destruct (fail_snapshot_sound _ _ _ _ _ _ _ R1 H Hub) as (_ & _ & [=])].
  injection Et as <-. apply extract_run in R0 as [_ Ht]. rewrite Htab in Ht.
  destruct (negb _) eqn:Eshape in R; [by apply Hfail in R|]. destruct dbSize as [n|e]; [|by apply Hfail in R].
  destruct (buildProfileFacts _ _ _ _ _) as [facts|e]; [|by apply Hfail in R]. reflect_bools.
  eapply complete_kept; [|exact R]. by split.
Qed.

(** A new snapshot is used by no binding, and its table by none. *)
Lemma create_snapshot_run broken s db db' r :
  runs (Snapshot_Create s) db db' r -> sound broken db -> snapshot_ok (sn_ID s) s ->
  (db' = db /\ is_ok r = false)
  \/ (r = Ok tt /\ db' = set_snapshots db (<[sn_ID s := s]> (db_snapshots db)) /\ sound broken db' /\ unbound broken db' (sn_ID s)
      /\ db_snapshots db !! sn_ID s = None /\ is_Some (db_sources db !! sn_SourceID s)).
Proof.
  intros [(e & -> & ->)|(E & ->)]%runs_write H Hok; [by left|]. right. destruct (negb _) eqn:En; [|done]. destruct (has (db_sources db) _) eqn:Ef; [|done].
  injection E as <-. unfold has in *. reflect_bools. apply eq_None_not_Some in En. split_and!; try done; [by apply sound_new_snapshot|].
  intros k b Hk Hn Ea. destruct (sound_usable _ _ _ _ H Hk Hn) as (s' & Hs' & _). congruence.
Qed.
Lemma import_file_run broken sessionID id table file db db' r :
  runs (ImportFileRawAs sessionID table file) db db' r -> sound broken db -> unbound broken db id -> table = table_of id ->
  sound broken db' /\ db_bindings db' = db_bindings db /\ db_snapshots db' = db_snapshots db.
Proof.
  intros R H Hub ->. unfold ImportFileRawAs in R. destruct (ValidateSQLIdent _); [|by run_step R].
  assert (forall f db1 r1, runs (write f) db db1 r1 ->
    (forall d, f db = Ok d -> exists s, d = set_tables db (<[(sessionID, table_of id) := s]> (db_tables db))) ->
    sound broken db1 /\ db_bindings db1 = db_bindings db /\ db_snapshots db1 = db_snapshots db) as Hw.
  { intros f db1 r1 [(e & -> & _)|(E & _)]%runs_write Hf; [done|]. apply Hf in E as (s & ->). split; [|done]. apply sound_tables; [done|].
    intros k b Hk Hn. apply lookup_insert_ne. intros E%(f_equal snd). by eapply unbound_table. }
  assert (forall d, match file with
        | Ok s => guard negb (has (db_tables db) (sessionID, table_of id)) else SText (text ["table "; table_of id; " already exists"]) ;;
                  Ok (set_tables db (<[(sessionID, table_of id) := s]> (db_tables db)))
        | Err e => Err e end = Ok d -> exists s, d = set_tables db (<[(sessionID, table_of id) := s]> (db_tables db))) as Hf.
  { intros d E. destruct file as [s|]; [|done]. destruct (negb _); [|done]. injection E as <-. by exists s. }
  apply runs_bind in R as [(e & R0 & ->)|([] & d & R0 & R)]; (apply Hw in R0; [|exact Hf]); [done|]. destruct file; by run_step R.
Qed.
Lemma begin_import_run broken sessionID sourceID kind schema object hex12 now db db' r :
  runs (BeginSnapshotImport sessionID sourceID kind schema object hex12 now) db db' r -> sound broken db ->
  (db' = db /\ is_ok r = false)
  \/ exists s, r = Ok s /\ sn_ID s = text ["snap_"; hex12] /\ sn_AnalysisTableName s = table_of (sn_ID s)
       /\ sound broken db' /\ db_bindings db' = db_bindings db /\ unbound broken db' (sn_ID s).
Proof.
  intros R H. unfold BeginSnapshotImport in R. run_step R; run_step R0; [by left|]. symmetry in R0.
  assert (a = table_of (text ["snap_"; hex12]) /\ is_ok (ValidateSQLIdent (table_of (text ["snap_"; hex12]))) = true) as [-> Hident].
  { unfold SnapshotScopedAnalysisTableName in R0. destruct (_ || _); [done|]. destruct (ValidateSQLIdent _) eqn:E in R0; simplify_eq.
    split; [done|]. unfold table_of. by rewrite E. }
  run_step R.
  - run_step R1. apply (create_snapshot_run broken) in R1 as [[-> _]|(E & _)]; [by left|done..].
  - run_step R1. run_step R. apply (create_snapshot_run broken) in R1 as [[-> E]|(_ & -> & H' & Hub & _)]; [done| |done..].
    right. eexists. split; [done|]. done.
Qed.
(** The object that an operation binds. *)
Definition import_object (db : Db) (sessionID sourceID : string) : string * string * string :=
  match db_sources db !! sourceID with
  | Some d => (sessionID, ds_ID d, SourceObjectKey sha256hex (ds_ID d) SourceTypeFileUpload "" "")
  | None => (sessionID, sourceID, "")
  end.
Definition live_object (db : Db) (sessionID sourceID schema name : string) : string * string * string :=
  match db_sources db !! sourceID with
  | Some d => (sessionID, sourceID, SourceObjectKey sha256hex sourceID (ds_SourceType d) schema name)
  | None => (sessionID, sourceID, "")
  end.
(** An import leaves the bindings as they were or makes one usable. *)
Lemma import_kept broken sessionID sourceID size sheets file dbSize importMs profileMs hex12 profile12 now db db' r :
  runs (Import sha256hex sessionID sourceID size sheets file dbSize importMs profileMs hex12 profile12 now) db db' r -> sound broken db ->
  kept broken db db' (is_ok r) (import_object db sessionID sourceID) (text ["snap_"; hex12]).
Proof.
  intros R H. unfold Import in R. assert (forall k, kept broken db db false k (text ["snap_"; hex12])) as Hsame by done.
  apply runs_bind in R as [(e & Rd & ->)|(d & dx & Rd & R)]; apply runs_read in Rd as [-> Ed]; [done|]. apply read_found in Ed.
  unfold import_object. rewrite Ed. destruct (negb _) in R; [|by run_step R].
  apply runs_bind in R as [(e & Rm & ->)|(n & dx & Rm & R)]; apply runs_wrap in Rm as (rm & Rm & Em); apply runs_lift in Rm as [-> _]; [done|].
  run_step R; run_step R0; [done|].
  apply runs_bind in R as [(e & Rb & ->)|(s & d1 & Rb & R)];
    (eapply begin_import_run in Rb as [[-> Hr]|(s' & Er & Hid & Htab & H1 & Hb1 & Hub)]; [| |exact H]); try discriminate; [done|]. injection Er as <-.
  apply runs_bind in R as [(e & Ri & ->)|(x & d2 & Ri & R)]; [by apply never_fails_try in Ri|]. apply runs_try in Ri as (r0 & Ri & [= ->]).
  eapply import_file_run in Ri as (H2 & Hb2 & Hs2); [|exact H1|exact Hub|done].
  assert (unbound broken d2 (sn_ID s)) as Hub2 by (by eapply unbound_same).
  destruct r0 as [[[table rowCount] colCount]|e].
  - eapply finalize_kept in R; [|exact H2]. cbn [rq_SnapshotID] in R. rewrite Hid in R. unfold kept in *. rewrite Hb2, Hb1 in R. exact R.
  - apply runs_bind in R as [(e' & Rs & ->)|(x & d3 & Rs & R)]; [by apply never_fails_try in Rs|]. apply runs_try in Rs as (r0 & Rs & [= ->]).
    apply runs_fail in R as [-> ->].
    apply update_status_run in Rs as [[-> _]|[-> _]]; (split; [|cbn; congruence]); [done|]. by apply set_status_sound.
Qed.

(** An import of a file the agent made leaves the bindings as they were or makes one
    usable. *)
Definition artifact_object (db : Db) (name sessionID : string) (opened : res SErr Artifact) (source12 : string) : string * string * string :=
  match opened with
  | Ok a =>
      let sourceID := match head (rows (db_sources db) (fun d => bool_decide (ds_FileID d = Some (ar_FileID a)))) with
                      | Some d => ds_ID d
                      | None => text ["ds_"; source12]
                      end in
      (sessionID, sourceID, SourceObjectKey sha256hex sourceID SourceTypeFileUpload "" (object_name name a))
  | Err _ => (sessionID, "", "")
  end.
Lemma or_tool_run {A} (m : M A) code prefix db db' r :
  runs (or_tool_failure m code prefix) db db' r -> exists r0, runs m db db' r0 /\ is_ok r = is_ok r0 /\ forall a, r = Ok a -> r0 = Ok a.
Proof.
  intros R. unfold or_tool_failure in R. apply runs_bind in R as [(e & R & ->)|(x & d & R1 & R)]; [by apply never_fails_try in R|].
  apply runs_try in R1 as (r0 & R1 & [= ->]). exists r0. destruct r0; [apply runs_ret in R as [-> ->]|apply runs_fail in R as [-> ->]]; done.
Qed.
Lemma source_create_sound broken d db db' r :
  runs (DataSource_Create d) db db' r -> sound broken db -> sound broken db' /\ db_bindings db' = db_bindings db.
Proof.
  intros [(e & -> & _)|(E & _)]%runs_write H; [done|]. destruct (negb _); [|done]. injection E as <-. split; [|done]. eapply sound_same; [exact H|done..|].
  intros k Hk. cbn. destruct (decide (k = ds_ID d)) as [->|Hne]; [by rewrite lookup_insert_eq|by rewrite lookup_insert_ne].
Qed.
Lemma ensure_run broken workspaceID fileID name by' hex12 now db db' r :
  runs (EnsureFileSource workspaceID fileID name by' hex12 now) db db' r -> sound broken db ->
  sound broken db' /\ db_bindings db' = db_bindings db
  /\ forall d, r = Ok d -> ds_ID d = match head (rows (db_sources db) (fun d => bool_decide (ds_FileID d = Some fileID))) with
                                   | Some d => ds_ID d
                                   | None => text ["ds_"; hex12]
                                   end.
Proof.
  intros R H. unfold EnsureFileSource in R. apply runs_bind in R as [(e & R & ->)|(x & d1 & R1 & R)]; [by apply never_fails_try in R|].
  apply runs_try in R1 as (r1 & R1 & [= ->]). unfold DataSource_GetByFileID in R1. apply runs_read in R1 as [-> R1]. destruct r1 as [d|e].
  - apply read_found in R1. rewrite R1. apply runs_ret in R as [-> ->]. split_and!; [done|done|]. by intros d' [= <-].
  - destruct e; try (by apply runs_fail in R as [-> ->]). destruct R1 as [(m & [=])|R1]. unfold found in R1. destruct (head _); [done|].
    apply runs_bind in R as [(e & R & ->)|([] & d2 & R2 & R)].
    + apply runs_wrap in R as (r2 & R & _). by apply (source_create_sound broken) in R as [H' Hb]; [|done].
    + apply runs_wrap in R2 as (r2 & R2 & _). apply (source_create_sound broken) in R2 as [H' Hb]; [|done]. apply runs_ret in R as [-> ->].
      split_and!; [done|done|]. by intros d' [= <-].
Qed.
Lemma fail_artifact_sound {A} broken id stored code message db db' (r : res SErr A) :
  runs (fail_artifact id stored code message) db db' r -> sound broken db -> unbound broken db id ->
  sound broken db' /\ db_bindings db' = db_bindings db /\ is_ok r = false.
Proof.
  intros R H Hub. unfold fail_artifact in R. apply runs_bind in R as [(e & R & ->)|(x & d1 & R1 & R)]; [by apply never_fails_try in R|].
  apply runs_try in R1 as (r1 & R1 & _). unfold tool_failure in R. apply runs_fail in R as [-> ->].
  apply update_status_run in R1 as [[-> _]|[-> _]]; (split; [|done]); [done|]. by apply set_status_sound.
Qed.
Lemma artifact_kept broken artifactID name userID workspaceID sessionID opened temp file dbSize importMs profileMs source12 hex12 profile12 now db db' r :
  runs (ImportArtifact sha256hex artifactID name userID workspaceID sessionID opened temp file dbSize importMs profileMs source12 hex12 profile12 now) db db' r ->
  sound broken db -> kept broken db db' (is_ok r) (artifact_object db name sessionID opened source12) (text ["snap_"; hex12]).
Proof.
  intros R H. unfold ImportArtifact in R. assert (forall k, kept broken db db false k (text ["snap_"; hex12])) as Hsame by done.
  apply runs_bind in R as [(e & R & ->)|(u & d & R1 & R)]; [by apply runs_lift in R as [-> _]|]. apply runs_lift in R1 as [-> _].
  apply runs_bind in R as [(e & R & ->)|(a & d & R1 & R)].
  { apply or_tool_run in R as (r0 & R & _). by apply runs_lift in R as [-> _]. }
  apply or_tool_run in R1 as (r0 & R1 & _ & E1). apply runs_lift in R1 as [-> E2]. rewrite (E1 a eq_refl) in E2. subst opened. clear E1 r0.
  apply runs_bind in R as [(e & R & ->)|(u2 & d & R1 & R)]; [by apply runs_lift in R as [-> _]|]. apply runs_lift in R1 as [-> _]. cbv zeta in R.
  assert (forall d' k, sound broken d' -> db_bindings d' = db_bindings db -> kept broken db d' false k (text ["snap_"; hex12])) as Hfail by done.
  apply runs_bind in R as [(e & R & ->)|(ds & d1 & R1 & R)]; apply or_tool_run in R1 || apply or_tool_run in R.
  { destruct R as (r0 & R & _). apply (ensure_run broken) in R as (H1 & B1 & _); [|done]. by apply Hfail. }
  destruct R1 as (r0 & R1 & _ & E1). apply (ensure_run broken) in R1 as (H1 & B1 & Eid); [|done]. specialize (Eid ds (E1 ds eq_refl)). clear E1 r0.
  apply runs_bind in R as [(e & R & ->)|(s & d2 & R1 & R)]; apply or_tool_run in R1 || apply or_tool_run in R.
  { destruct R as (r0 & R & Eok & _). eapply begin_import_run in R as [[-> _]|(s & -> & _)]; [by apply Hfail|done|done]. }
  destruct R1 as (r0 & R1 & _ & E1). specialize (E1 s eq_refl). subst r0.
  eapply begin_import_run in R1 as [[_ [=]]|(s' & [= <-] & Hid & Htab & H2 & B2 & Hub)]; [|exact H1].
  destruct temp as [message|].
  { apply (fail_artifact_sound broken) in R as (H3 & B3 & ->); [|done|done]. apply Hfail; [done|congruence]. }
  apply runs_bind in R as [(e & R & ->)|(x & d3 & R1 & R)]; [by apply never_fails_try in R|]. apply runs_try in R1 as (r0 & R1 & [= ->]).
  eapply import_file_run in R1 as (H3 & B3 & S3); [|exact H2|exact Hub|done].
  assert (unbound broken d3 (sn_ID s)) as Hub3 by (by eapply unbound_same).
  assert (db_bindings d3 = db_bindings db) as B by congruence.
  destruct r0 as [[[table rowCount] colCount]|e].
  - assert (exists r0, runs (FinalizeSnapshotImport sha256hex
      {| rq_SnapshotID := sn_ID s; rq_SessionID := sessionID; rq_SourceID := ds_ID ds; rq_UpstreamKind := SourceTypeFileUpload;
         rq_UpstreamSchema := ""; rq_UpstreamObject := object_name name a; rq_AnalysisTableName := table; rq_RowCount := rowCount;
         rq_ColCount := colCount; rq_RowsImported := rowCount; rq_RowsSkipped := 0; rq_ImportRowLimit := 0; rq_ImportTruncated := false;
         rq_ImportDurationMs := importMs; rq_SnapshotSizeBytes := ar_SizeBytes a; rq_ExtraWarnings := [] |} dbSize profileMs profile12 now) d3 db' r0
      /\ is_ok r = is_ok r0) as (r0 & Rf & ->).
    { apply runs_bind in R as [(e & R & ->)|(x & d4 & R1 & R)].
      - apply or_tool_run in R as (r0 & R & E & _). eauto.
      - apply runs_ret in R as [-> ->]. apply or_tool_run in R1 as (r0 & R1 & E & _). eauto. }
    eapply finalize_kept in Rf; [|exact H3]. cbn [rq_SnapshotID] in Rf. rewrite Hid in Rf. unfold artifact_object. rewrite <- Eid. unfold kept in *. by rewrite B in Rf.
  - apply (fail_artifact_sound broken) in R as (H4 & B4 & ->); [|done|done]. apply Hfail; [done|congruence].
Qed.

(** The snapshot of a live object with its profile, made the active one. *)
Lemma live_kept broken db s p c id sessionID sourceID key now db' r :
  sound broken db -> unbound broken db id -> db_snapshots db !! id = Some s -> sn_ID s = id -> sn_Mode s = SnapshotModeLive ->
  sn_SessionID s = sessionID -> sn_SourceID s = sourceID -> snapshot_key sha256hex sourceID s = key ->
  (forall pid q, db_profiles db !! pid = Some q -> pf_SnapshotID q <> id) ->
  db_profiles db !! pf_ID p = None -> is_Some (db_sources db !! sourceID) -> pf_SessionID p = sessionID -> pf_SourceID p = sourceID -> pf_SnapshotID p = id ->
  runs (complete_live sha256hex id sessionID sourceID key c now)
    (set_profiles db (<[pf_ID p := p]> (db_profiles db))) db' r ->
  kept broken db db' (is_ok r) (sessionID, sourceID, key) id.
Proof.
  intros H Hub Hs Hid Hm E1 E2 E3 Hnone Hp Hsrc P1 P2 P3 R. unfold complete_live in R. set (d1 := set_profiles _ _) in R.
  assert (sound broken d1) as H1 by (eapply sound_new_profile; [exact H|exact Hp|by rewrite P3|by rewrite Hm|by rewrite P3]).
  set (d2 := set_snapshots d1 (alter (with_completion c) id (db_snapshots d1))).
  assert (sound broken d2) as H2 by (apply sound_alter_snapshot; [done|done|by intros; apply with_completion_ok|done]).
  set (d3 := set_snapshots d2 (alter (with_status SnapshotStatusReady None) id (db_snapshots d2))).
  assert (sound broken d3) as H3 by (by apply set_status_sound).
  apply runs_bind in R as [(e & R0 & ->)|([] & dx & R0 & R)]; apply runs_wrap in R0 as (r0 & R0 & E0);
    apply update_completion_run in R0 as [[-> Hr]|[-> ->]]; try discriminate E0; [done|by destruct r0|]. fold d2 in R.
  apply runs_bind in R as [(e & R0 & ->)|([] & dx & R0 & R)]; apply runs_wrap in R0 as (r1 & R0 & E1');
    apply update_status_run in R0 as [[-> Hr]|[-> ->]]; try discriminate E1'; [done|by destruct r1|]. fold d3 in R.
  apply runs_bind in R as [(e & R0 & ->)|([] & dx & R0 & R)]; apply runs_wrap in R0 as (r2 & R0 & E2');
    apply upsert_run in R0 as [[-> Hr]|(b & -> & -> & Hkey & Hact)]; try discriminate E2'; [done|by destruct r2|].
  assert (usable d3 b) as Hu.
  { pose proof Hkey as Hkey0. injection Hkey0 as K1 K2 K3. cbn in Hact.
    cbn [sb_SessionID sb_SourceID sb_SourceObjectKey] in K1, K2, K3. subst sessionID sourceID.
    refine (completed_usable broken db s p b c H _ _ _ _ _ _ _ _ _ _ _ d3 _ _ _ _); rewrite ?Hid, ?K1, ?K2, ?K3; try assumption; try reflexivity.
    all: try (by symmetry). by rewrite Hm. }
  cbn in Hact. pose proof Hkey as Hkey0. unfold binding_key in Hkey0. injection Hkey0 as K1 K2 K3. cbn in K1, K2, K3. rewrite <- K3, <- K1, <- K2, <- Hact in R.
  destruct (bound_kept _ _ _ _ _ _ H3 Hu R) as (Hr & H4 & Hb & Hu4).
  assert ((sessionID, sourceID, key) = binding_key b) as -> by (symmetry; exact Hkey). rewrite Hr, <- Hact. split; [done|by exists b].
Qed.
(** Binding a live object leaves the bindings as they were or makes one usable. *)
Lemma bind_live_kept broken sourceID sessionID workspaceID schema name resolve metadata qualified metadataMs profileMs hex12 profile12 now db db' r :
  runs (BindLiveSourceObject sha256hex sourceID sessionID workspaceID schema name resolve metadata qualified metadataMs profileMs hex12 profile12 now)
    db db' r -> sound broken db -> kept broken db db' (is_ok r) (live_object db sessionID sourceID schema name) (text ["snap_"; hex12]).
Proof.
  intros R H. unfold BindLiveSourceObject in R. assert (forall k, kept broken db db false k (text ["snap_"; hex12])) as Hsame by done.
  destruct (negb _) in R; [|by run_step R]. run_step R; run_step R0; [done|]. run_step R; run_step R1; [done|].
  apply runs_bind in R as [(e & Rd & ->)|(src & dx & Rd & R)]; apply runs_read in Rd as [-> Ed]; [done|]. apply read_found in Ed.
  unfold live_object. rewrite Ed. destruct (_ =? _) in R; [|by run_step R]. run_step R; run_step R2; [done|]. set (id := text ["snap_"; hex12]) in *. cbv zeta in R.
  apply runs_bind in R as [(e & Rb & ->)|([] & dx & Rb & R)]; apply runs_wrap in Rb as (r4 & Rb & E4);
    (apply (create_snapshot_run broken) in Rb as [[-> Hr]|(-> & -> & H1 & Hub & Hfresh & Hsrc)]; [| |done..]); try discriminate E4; [done|by destruct r4|].
  set (d1 := set_snapshots _ _) in R. set (s := new_snapshot _ _ _ _ _ _ _ _ _) in *.
  assert (forall B e stored d d2 (x : res SErr B), runs (fail_snapshot id e stored) d d2 x -> sound broken d -> db_bindings d = db_bindings db ->
            forall k, kept broken db d2 (is_ok x) k id) as Hfail.
  { intros B e stored d d2 x Rf Hd Eb. apply (fail_snapshot_sound broken) in Rf as (H' & E' & ->); [|done|by eapply unbound_same; [exact Eb|exact Hub]].
    intros k. split; [done|congruence]. }
  apply runs_bind in R as [(e & Rm & ->)|(m & d & Rm & R)]; (destruct metadata as [m'|e']; unfold or_mark in Rm;
    [apply runs_ret in Rm as [-> Em]|]); try discriminate Em; [by eapply Hfail in Rm| |].
  2: { apply (fail_snapshot_sound broken) in Rm as (_ & _ & [=]); done. }
  destruct (_ =? 0)%nat; [by eapply Hfail in R|].
  apply runs_bind in R as [(e & Rc & ->)|(y & d & Rc & R)]; [by apply never_fails_try in Rc|]. apply runs_try in Rc as (x' & Rc & [= ->]).
  apply create_profile_run in Rc as [[-> Hx]|(p & -> & -> & Hp & Hsrc' & P1 & P2 & P3)]; [destruct x'; [done|by eapply Hfail in R]|].
  assert (db_snapshots d1 !! id = Some s) as Hs by (by cbn; rewrite lookup_insert_eq).
  assert (forall pid q, db_profiles d1 !! pid = Some q -> pf_SnapshotID q <> id) as Hnone.
  { intros pid q Hq Eq. destruct (so_profiles _ _ _ H pid q Hq) as (_ & s' & Hs' & _). rewrite Eq in Hs'. change (db_snapshots db !! id = None) in Hfresh. congruence. }
  apply runs_bind in R as [(e & Rl & ->)|(errors & d & Rl & R)]; [|apply runs_ret in R as [-> ->]].
  all: eapply (live_kept broken d1 s p) in Rl; [exact Rl|done..].
Qed.
End imports.
