(* ===== verification/SourceSteps.v ===== *)
(** What a session can rely on through any sequence of operations on its sources, whatever
    calls of the database fail: see [sources_stay_usable], [removal_converges] and
    [receipt_confirms_once]. *)
From S2P Require Import Prelude GoStrings Json SqlGuard StateTools Calls Sources SourceProps.
Open Scope string_scope.
Open Scope list_scope.

Section steps.
Context (sha256hex : string -> string).
Abbreviation sound := (sound sha256hex).
Abbreviation usable := (usable sha256hex).
Implicit Types (broken : gset (string * string * string)).

(** * Confirmations *)

(** The bindings stay as they are, and usable. *)
Definition steady {A} (m : M A) : Prop :=
  forall broken db db' r, runs m db db' r -> sound broken db -> sound broken db' /\ db_bindings db' = db_bindings db.
Lemma steady_ret {A} (a : A) : steady (ret a).
Proof. intros broken db db' r R H. by run_step R. Qed.
Lemma steady_fail {A} e : steady (fail (A:=A) e).
Proof. intros broken db db' r R H. by run_step R. Qed.
Lemma steady_lift {A} (x : res SErr A) : steady (lift_res x).
Proof. intros broken db db' r R H. by run_step R. Qed.
Lemma steady_read {A} (f : Db -> res SErr A) : steady (read f).
Proof. intros broken db db' r R H. by run_step R. Qed.
Lemma steady_bind {A B} (m : M A) (k : A -> M B) : steady m -> (forall a, steady (k a)) -> steady (bind m k).
Proof.
  intros Hm Hk broken db db' r R H. apply runs_bind in R as [(e & R & _)|(a & d & Rm & R)]; [exact (Hm _ _ _ _ R H)|].
  destruct (Hm _ _ _ _ Rm H) as [H1 E1]. destruct (Hk _ _ _ _ _ R H1) as [H2 E2]. split; [done|congruence].
Qed.
Lemma steady_try {A} (m : M A) : steady m -> steady (try m).
Proof. intros Hm broken db db' r (r0 & R & _)%runs_try. exact (Hm _ _ _ _ R). Qed.
Lemma steady_wrap {A} prefix (m : M A) : steady m -> steady (wrap prefix m).
Proof. intros Hm broken db db' r (r0 & R & _)%runs_wrap. exact (Hm _ _ _ _ R). Qed.
Lemma steady_if {A} (b : bool) (m1 m2 : M A) : steady m1 -> steady m2 -> steady (if b then m1 else m2).
Proof. by destruct b. Qed.
(** A write of tables that no binding depends on. *)
Lemma steady_write f :
  (forall db db', f db = Ok db' -> db_snapshots db' = db_snapshots db /\ db_bindings db' = db_bindings db /\ db_profiles db' = db_profiles db
     /\ db_tables db' = db_tables db /\ forall k, is_Some (db_sources db !! k) -> is_Some (db_sources db' !! k)) ->
  steady (write f).
Proof.
  intros Hf broken db db' r [(e & -> & _)|(E & _)]%runs_write H; [done|]. destruct (Hf _ _ E) as (E1 & E2 & E3 & E4 & E5).
  split; [|done]. by eapply sound_same.
Qed.
Lemma steady_profile_status id status now : steady (Profile_UpdateStatus id status now).
Proof. intros broken db db' r [(e & -> & _)|([= <-] & _)]%runs_write H; [done|]. split; [|done]. by apply sound_alter_profile. Qed.
#[local] Hint Resolve steady_ret steady_fail steady_lift steady_read steady_try steady_wrap steady_if steady_profile_status : core.

Lemma source_create_steady d : steady (DataSource_Create d).
Proof. intros broken db db' r. apply source_create_sound. Qed.
Lemma ensure_steady workspaceID fileID name by' hex12 now : steady (EnsureFileSource workspaceID fileID name by' hex12 now).
Proof. intros broken db db' r R H. by destruct (ensure_run _ _ _ _ _ _ _ _ _ _ _ R H) as (? & ? & _). Qed.
Lemma configured_steady workspaceID name by' type config hex12 now : steady (CreateConfiguredSource workspaceID name by' type config hex12 now).
Proof.
  unfold CreateConfiguredSource. apply steady_if; [|auto]. apply steady_bind; [apply source_create_steady|]. intros _. destruct config as [c|]; [|auto].
  apply steady_bind; [|auto]. apply steady_wrap, steady_write. intros db db' E. destruct (negb _); [|done]. destruct (has _ _); [|done]. by injection E as <-.
Qed.
Lemma confirm_create_steady c : steady (Confirmation_Create c).
Proof. apply steady_write. intros db db' E. destruct (negb _ && _); [|done]. destruct (has _ _); [|done]. by injection E as <-. Qed.
Lemma asset_upsert_steady a : steady (Asset_Upsert a).
Proof.
  apply steady_write. intros db db' E. destruct (_ !! _); [by injection E as <-|]. destruct (_ =? 0)%nat; [|done]. by injection E as <-.
Qed.
Lemma audit_steady e hex12 now : steady (recordAudit e hex12 now).
Proof.
  unfold recordAudit. repeat apply steady_if; auto. apply steady_bind; [auto|]. intros [|]; [|auto]. apply steady_if; [|auto].
  apply steady_write. intros db db' E. destruct (negb _); [|done]. by injection E as <-.
Qed.
#[local] Hint Resolve confirm_create_steady asset_upsert_steady audit_steady : core.
Lemma upsert_assets_steady p c assets hex12 now : steady (upsert_assets p c assets hex12 now).
Proof.
  induction assets as [|a assets IH]; cbn [upsert_assets]; [auto|]. apply steady_bind; [auto|]. intros _. apply steady_bind; [auto|]. intros r. apply steady_bind; auto.
Qed.
Lemma confirm_steady q hex12 asset12 event12 now : steady (ConfirmProfile sha256hex q hex12 asset12 event12 now).
Proof.
  unfold ConfirmProfile. apply steady_bind; [auto|]. intros _. apply steady_bind; [unfold Profile_GetByID; auto|]. intros p. apply steady_if; [|auto].
  apply steady_bind; [auto|]. intros _. apply steady_bind.
  { unfold stored_confirmation, Confirmation_ListByProfile. apply steady_if; [auto|]. apply steady_bind; [auto|]. intros l. destruct (List.find _ _); auto. }
  intros stored. apply steady_if; [|auto]. apply steady_bind; [destruct stored; auto|]. intros _. apply steady_bind.
  { apply steady_if; [|auto]. apply steady_wrap, steady_bind; [auto|]. intros l. apply upsert_assets_steady. }
  intros errors. apply steady_bind; [auto|]. intros _. apply steady_bind; auto.
Qed.

(** * Removals *)

Lemma each_call_trims {A} broken C (f : A -> M unit) l :
  stable C -> (forall a, a ∈ l -> trims sha256hex broken C (f a)) -> trims sha256hex broken C (each_call f l).
Proof.
  intros Hst. induction l as [|a l IH]; intros Hf; cbn [each_call]; [apply trims_ret|].
  apply trims_bind; [done|apply Hf; by left|]. intros _. apply IH. intros a' Ha. apply Hf. by right.
Qed.
Lemma drop_tables_trims broken l :
  Forall table_named l -> trims sha256hex broken (removable broken [] l) (each_call (drop_table DropTable) l).
Proof.
  intros Hn. apply each_call_trims; [apply stable_removable|]. intros s Hs. unfold drop_table. destruct (_ =? "") eqn:E; [apply trims_ret|]. apply trims_wrap.
  eapply trims_weaken; [|apply (drop_named_trims _ _ [] s []); [by eapply Forall_forall|by apply String.eqb_neq]].
  intros db [Hub Hl]. split; [|done]. intros s' Hs'. apply list_elem_of_singleton in Hs' as ->. by apply Hub.
Qed.
Lemma remove_profiles_trims broken l :
  trims sha256hex broken (fun db => (forall p, p ∈ l -> unbound broken db (pf_SnapshotID p)) /\ listed l db) (each_call remove_profile l).
Proof.
  assert (stable (fun db => (forall p, p ∈ l -> unbound broken db (pf_SnapshotID p)) /\ listed l db)) as Hst.
  { apply stable_and; [|apply stable_listed]. intros db db' Hs H p Hp. eapply stable_unbound; [exact Hs|by apply H]. }
  apply each_call_trims; [done|]. intros p Hp. unfold remove_profile. apply trims_bind; [done|apply trims_wrap, delete_confirmations_trims|]. intros _. apply trims_wrap.
  eapply trims_weaken; [|apply delete_profile_trims]. intros db [Hub Hl] p' Hp'. rewrite (Hl p p' Hp Hp'). by apply Hub.
Qed.
Lemma delete_snapshots_trims broken l :
  trims sha256hex broken (removable broken [] l) (each_call (fun s => wrap (text ["delete source snapshot "; sn_ID s]) (Snapshot_Delete (sn_ID s))) l).
Proof.
  apply each_call_trims; [apply stable_removable|]. intros s Hs. apply trims_wrap.
  eapply trims_weaken; [|apply delete_snapshot_trims]. intros db [Hub _]. by apply Hub.
Qed.
(** Until it deletes the binding a removal leaves the other bindings usable. *)
Lemma remove_object_run broken sessionID sourceID key selected db db' r :
  runs (remove_object DropTable sessionID sourceID key selected) db db' r -> sound broken db ->
  Forall table_named selected -> (forall s, s ∈ selected -> unbound broken db (sn_ID s)) ->
  sound broken db' /\ (is_ok r = true -> sound (broken ∖ {[(sessionID, sourceID, key)]}) db').
Proof.
  intros R H Hn Hub. unfold remove_object in R. assert (removable broken [] selected db) as Hr by (split; [done|intros p p' Hp; by apply elem_of_nil in Hp]).
  apply runs_bind in R as [(e & R1 & ->)|([] & d1 & R1 & R)]; eapply (drop_tables_trims broken) in R1 as [H1 S1]; try done.
  pose proof (stable_removable _ _ _ _ _ S1 Hr) as Hr1.
  apply runs_bind in R as [(e & R2 & ->)|(profiles & d2 & R2 & R)]; apply runs_wrap in R2 as (r2 & R2 & E2);
    unfold Profile_ListBySource in R2; apply runs_read in R2 as [-> R2]; [done|].
  destruct R2 as [(m & ->)| ->]; [done|]. injection E2 as ->. set (l := newest_first _ _) in R.
  assert ((forall p, p ∈ List.filter (fun p => bool_decide (pf_SnapshotID p ∈ map sn_ID selected)) l -> unbound broken d1 (pf_SnapshotID p))
    /\ listed (List.filter (fun p => bool_decide (pf_SnapshotID p ∈ map sn_ID selected)) l) d1) as Hp1.
  { split.
    - intros p Hp. apply list_elem_of_In, filter_In in Hp as [_ Hp]. apply bool_decide_eq_true in Hp. apply list_elem_of_fmap in Hp as (s & -> & Hs).
      by apply Hr1.
    - intros p p' Hp. apply (listed_profiles _ _ _ sourceID H1). apply list_elem_of_In. by apply list_elem_of_In, filter_In in Hp as [Hp _]. }
  apply runs_bind in R as [(e & R3 & ->)|([] & d3 & R3 & R)]; eapply (remove_profiles_trims broken) in R3 as [H3 S3]; try done.
  pose proof (stable_removable _ _ _ _ _ S3 Hr1) as Hr3.
  apply runs_bind in R as [(e & R4 & ->)|([] & d4 & R4 & R)]; eapply (delete_snapshots_trims broken) in R4 as [H4 S4]; try done.
  apply runs_write in R as [(e & -> & ->)|([= <-] & ->)]; [done|]. pose proof (sound_delete_binding _ _ _ (sessionID, sourceID, key) H4) as H5.
  split; [|done]. eapply sound_weaken; [|exact H5]. set_solver.
Qed.
(** Removing an object, with the table handler of the session's own database. *)
Lemma remove_run broken sessionID sourceID key db db' r :
  runs (RemoveSessionSource sha256hex DropTable sessionID sourceID key) db db' r -> sound broken db ->
  sound (if is_ok r then broken ∖ {[(sessionID, sourceID, key)]} else broken ∪ {[(sessionID, sourceID, key)]}) db'.
Proof.
  intros R H. set (k := (sessionID, sourceID, key)) in *. unfold RemoveSessionSource in R.
  assert (sound (broken ∪ {[k]}) db) as Hk by (eapply sound_weaken; [|exact H]; set_solver). destruct (negb _) in R; [|by run_step R].
  apply runs_bind in R as [(e & R1 & ->)|(x & d1 & R1 & R)]; [by apply never_fails_try in R1|]. apply runs_try in R1 as (r1 & R1 & [= ->]).
  unfold Binding_GetBySessionSourceObject in R1. apply runs_read in R1 as [-> R1]. destruct r1 as [b|e].
  2: { destruct e; try by run_step R. run_step R. cbn [is_ok]. destruct R1 as [(m & [=])|R1]. unfold found in R1.
    destruct (db_bindings db !! (sessionID, sourceID, key)) eqn:Eb; [done|]. destruct H as [A1 A2 A3]. split; [done|done|].
    intros k' b' Hk'. destruct (A3 k' b' Hk') as [? Hu]. split; [done|]. intros Hn. apply Hu. intros Hin. apply Hn. apply elem_of_difference.
    split; [done|]. intros ->%elem_of_singleton. subst k. congruence. }
  apply runs_bind in R as [(e & R2 & ->)|(snapshots & d2 & R2 & R)]; apply runs_wrap in R2 as (r2 & R2 & E2);
    unfold Snapshot_ListBySource in R2; apply runs_read in R2 as [-> R2]; [done|].
  destruct R2 as [(m & ->)| ->]; [done|]. injection E2 as ->. set (l := newest_first _ _) in R.
  assert (forall s, s ∈ List.filter (of_object sha256hex sessionID sourceID key) l ->
    exists id, db_snapshots db !! id = Some s /\ sn_SessionID s = sessionID /\ sn_SourceID s = sourceID /\ snapshot_key sha256hex sourceID s = key) as Hin.
  { intros s Hs. apply list_elem_of_In, filter_In in Hs as [Hs Hf]. apply list_elem_of_In, elem_of_newest, elem_of_rows in Hs as (id & Hs & Hsrc).
    exists id. unfold of_object in Hf. reflect_bools. auto. }
  apply (remove_object_run (broken ∪ {[k]})) in R as [H1 H2]; [|exact Hk| |].
  - destruct r as [u|e]; [|exact H1]. eapply sound_weaken; [|exact (H2 eq_refl)]. clear. set_solver.
  - apply Forall_forall. intros s Hs. destruct (Hin s Hs) as (id & Hid & _). by eapply snapshot_named.
  - intros s Hs. destruct (Hin s Hs) as (id & Hid & E1 & E2 & E3). destruct (snapshot_named _ _ _ _ _ Hk Hid) as [-> _].
    eapply (unbound_object _ _ _ _ _ k); [exact Hk|exact Hid|by rewrite E1, E2, E3|]. intros b' _ Hn. set_solver.
Qed.

(** The objects of a source that are bound. *)
Definition objects_of (db : Db) (sourceID : string) : gset (string * string * string) :=
  dom (filter (fun kb => sb_SourceID kb.2 = sourceID) (db_bindings db)).
Lemma elem_of_objects db sourceID k : k ∈ objects_of db sourceID <-> exists b, db_bindings db !! k = Some b /\ sb_SourceID b = sourceID.
Proof.
  unfold objects_of. rewrite elem_of_dom. split.
  - intros (b & Hb). apply map_lookup_filter_Some in Hb. by exists b.
  - intros (b & Hb). exists b. by apply map_lookup_filter_Some.
Qed.
(** Deleting the source deletes its snapshots and their profiles, which no other source's
    binding uses. *)
Lemma delete_source_sound broken db db' sourceID r :
  runs (DataSource_Delete sourceID) db db' r -> sound (broken ∪ objects_of db sourceID) db ->
  sound (if is_ok r then broken else broken ∪ objects_of db sourceID) db'.
Proof.
  intros [(e & -> & ->)|([= <-] & ->)]%runs_write H; [done|]. cbn [is_ok].
  set (gone := fun id => match db_snapshots db !! id with Some s => sn_SourceID s =? sourceID | None => false end).
  match goal with |- sound _ ?d => set (db' := d) end.
  assert (forall pid p, db_profiles db' !! pid = Some p <-> db_profiles db !! pid = Some p /\ gone (pf_SnapshotID p) = false /\ (pf_SourceID p =? sourceID) = false) as Hf.
  { intros pid p. subst db'. cbn. rewrite !map_lookup_filter_Some. cbn. tauto. }
  eapply sound_frame; [exact H| | |].
  - intros id s Hs. cbn in Hs. apply map_lookup_filter_Some in Hs as [Hs _]. by apply (so_snapshots _ _ _ H).
  - intros pid p Hp. apply Hf in Hp as (Hp & Hg & _). destruct (so_profiles _ _ _ H pid p Hp) as (Hid & s & Hs & Hc). split; [done|]. exists s.
    split; [|done]. cbn. apply map_lookup_filter_Some. split; [done|]. cbn. unfold gone in Hg. by rewrite Hs in Hg.
  - intros k b Hk. cbn in Hk. apply map_lookup_filter_Some in Hk as [Hk Hne]. cbn in Hne. apply String.eqb_neq in Hne. split; [done|]. intros Hn.
    assert (k ∉ broken ∪ objects_of db sourceID) as Hn'.
    { intros [Hb|Hb]%elem_of_union; [done|]. apply elem_of_objects in Hb as (b' & Hb' & E). congruence. }
    split; [done|]. destruct (sound_usable _ _ _ _ _ H Hk Hn') as (s & Hs & E1 & E2 & _ & _ & _ & _ & pid & p & Hp & P1 & P2 & P3 & P4).
    split_and!.
    + cbn. rewrite Hs. apply map_lookup_filter_Some. split; [done|]. cbn. apply String.eqb_neq. congruence.
    + intros Hsrc. cbn. by rewrite lookup_delete_ne by done.
    + done.
    + split; intros pid' p' Hp' E; exists p'; (split; [|unfold like; auto]); [by apply Hf in Hp' as [? _]|]. apply Hf. split; [done|].
      assert (pid' = pid) as -> by (eapply P4; eauto). rewrite Hp in Hp'. injection Hp' as <-. unfold gone. rewrite E, Hs.
      split; apply String.eqb_neq; congruence.
Qed.
Lemma delete_workspace_run broken sourceID db db' r :
  runs (DeleteWorkspaceSource DropTable sourceID) db db' r -> sound broken db ->
  sound (if is_ok r then broken else broken ∪ objects_of db sourceID) db'.
Proof.
  intros R H. unfold DeleteWorkspaceSource in R. assert (sound (broken ∪ objects_of db sourceID) db) as Hk by (eapply sound_weaken; [|exact H]; clear; set_solver).
  apply runs_bind in R as [(e & R1 & ->)|(snapshots & d1 & R1 & R)]; unfold Snapshot_ListBySource in R1; apply runs_read in R1 as [-> R1]; [done|].
  destruct R1 as [(m & [=])|[= ->]]. set (l := newest_first _ _) in R.
  assert (forall s, s ∈ l -> exists id, db_snapshots db !! id = Some s /\ sn_SourceID s = sourceID) as Hin.
  { intros s Hs. apply elem_of_newest, elem_of_rows in Hs as (id & Hs & Hsrc). exists id. by reflect_bools. }
  assert (Forall table_named l) as Hn by (apply Forall_forall; intros s Hs; destruct (Hin s Hs) as (id & Hid & _); by eapply snapshot_named).
  assert (removable (broken ∪ objects_of db sourceID) [] l db) as Hr.
  { split; [|intros p p' Hp; by apply elem_of_nil in Hp]. intros s Hs. destruct (Hin s Hs) as (id & Hid & E1). destruct (snapshot_named _ _ _ _ _ Hk Hid) as [-> _].
    eapply unbound_object; [exact Hk|exact Hid|done|]. intros b Hb Hnb. exfalso. apply Hnb, elem_of_union_r, elem_of_objects. exists b.
    split; [done|]. destruct (so_bindings _ _ _ H _ _ Hb) as [Hkey _]. injection Hkey as _ K _. congruence. }
  apply runs_bind in R as [(e & R2 & ->)|([] & d2 & R2 & R)]; eapply drop_tables_trims in R2 as [H2 S2]; try done.
  assert (objects_of d2 sourceID = objects_of db sourceID) as Eo by (unfold objects_of; by rewrite (sh_bindings _ _ S2)).
  rewrite <- Eo in H2 |- *. by apply delete_source_sound.
Qed.

(** * Every binding that no removal was begun for is usable *)

Definition empty_db : Db :=
  {| db_sessions := ∅; db_sources := ∅; db_snapshots := ∅; db_bindings := ∅; db_profiles := ∅; db_confirmations := ∅; db_assets := ∅;
     db_audit := ∅; db_tables := ∅; db_configs := ∅ |}.
Definition new_session (id : string) (db : Db) : Db :=
  Build_Db ({[id]} ∪ db_sessions db) (db_sources db) (db_snapshots db) (db_bindings db) (db_profiles db) (db_confirmations db) (db_assets db) (db_audit db) (db_tables db) (db_configs db).
(** The operations of the service, of which any call of the database may fail, and the
    objects whose removal was begun and neither completed nor followed by a new binding. *)
Inductive step : Db * gset (string * string * string) -> Db * gset (string * string * string) -> Prop :=
| StepSession id db X : step (db, X) (new_session id db, X)
| StepFile workspaceID fileID name by' hex12 now db db' r X :
    runs (EnsureFileSource workspaceID fileID name by' hex12 now) db db' r -> step (db, X) (db', X)
| StepConfigured workspaceID name by' type config hex12 now db db' r X :
    runs (CreateConfiguredSource workspaceID name by' type config hex12 now) db db' r -> step (db, X) (db', X)
| StepImport sessionID sourceID size sheets file dbSize importMs profileMs hex12 profile12 now db db' r X :
    runs (Import sha256hex sessionID sourceID size sheets file dbSize importMs profileMs hex12 profile12 now) db db' r ->
    step (db, X) (db', if is_ok r then X ∖ {[import_object sha256hex db sessionID sourceID]} else X)
| StepArtifact artifactID name userID workspaceID sessionID opened temp file dbSize importMs profileMs source12 hex12 profile12 now db db' r X :
    runs (ImportArtifact sha256hex artifactID name userID workspaceID sessionID opened temp file dbSize importMs profileMs source12 hex12 profile12 now) db db' r ->
    step (db, X) (db', if is_ok r then X ∖ {[artifact_object sha256hex db name sessionID opened source12]} else X)
| StepLive sourceID sessionID workspaceID schema name resolve metadata qualified metadataMs profileMs hex12 profile12 now db db' r X :
    runs (BindLiveSourceObject sha256hex sourceID sessionID workspaceID schema name resolve metadata qualified metadataMs profileMs hex12 profile12 now) db db' r ->
    step (db, X) (db', if is_ok r then X ∖ {[live_object sha256hex db sessionID sourceID schema name]} else X)
| StepConfirm q hex12 asset12 event12 now db db' r X :
    runs (ConfirmProfile sha256hex q hex12 asset12 event12 now) db db' r -> step (db, X) (db', X)
| StepRemove sessionID sourceID key db db' r X :
    runs (RemoveSessionSource sha256hex DropTable sessionID sourceID key) db db' r ->
    step (db, X) (db', if is_ok r then X ∖ {[(sessionID, sourceID, key)]} else X ∪ {[(sessionID, sourceID, key)]})
| StepDelete sourceID db db' r X :
    runs (DeleteWorkspaceSource DropTable sourceID) db db' r -> step (db, X) (db', if is_ok r then X else X ∪ objects_of db sourceID).

Lemma kept_sound broken db db' ok k id : kept sha256hex broken db db' ok k id -> sound (if ok then broken ∖ {[k]} else broken) db'.
Proof. destruct ok; by intros [H _]. Qed.
Lemma step_sound db X db' X' : step (db, X) (db', X') -> sound X db -> sound X' db'.
Proof.
  intros Hstep H. inversion Hstep; subst.
  - by eapply sound_same; [exact H|..].
  - by eapply ensure_steady.
  - by eapply configured_steady.
  - by eapply kept_sound, import_kept.
  - by eapply kept_sound, artifact_kept.
  - by eapply kept_sound, bind_live_kept.
  - by eapply confirm_steady.
  - by eapply remove_run.
  - by eapply delete_workspace_run.
Qed.
Lemma sound_empty : sound ∅ empty_db.
Proof. split; [by intros k s|by intros k s|by intros k s]. Qed.
Lemma steps_sound db X : rtc step (empty_db, ∅) (db, X) -> sound X db.
Proof.
  intros H. change ((fun st => sound st.2 st.1) (db, X)). eapply (rtc_ind_r (fun st => sound st.2 st.1)); [| |exact H]; [apply sound_empty|].
  intros [d Y] [d' Z] _ Hstep IH. by eapply step_sound.
Qed.

(** * Listing a session *)

Lemma rows_nodup {A} (m : gmap string A) (key : A -> string) p : (forall k a, m !! k = Some a -> key a = k) -> NoDup (rows m p).
Proof.
  intros Hkey. unfold rows. assert (NoDup (map snd (map_to_list m))) as Hnd.
  { apply NoDup_fmap_2_strong; [|apply NoDup_map_to_list]. intros [k a] [k' a'] Ha%elem_of_map_to_list Ha'%elem_of_map_to_list E. cbn in E. subst a'.
    by rewrite <- (Hkey k a Ha), <- (Hkey k' a Ha'). }
  induction Hnd as [|a l Hin Hnd IH]; cbn; [constructor|]. destruct (p a); [|done]. constructor; [|done].
  intros Ha. apply Hin. apply list_elem_of_In. by apply list_elem_of_In, filter_In in Ha as [Ha _].
Qed.
Lemma select_unique sessionID snapshotID p l :
  NoDup l -> p ∈ l -> pf_SessionID p = sessionID -> pf_SnapshotID p = snapshotID ->
  (forall q, q ∈ l -> pf_SnapshotID q = snapshotID -> q = p) -> selectProfileForSnapshot l sessionID snapshotID = Ok (Some p).
Proof.
  unfold selectProfileForSnapshot. intros Hnd Hp E1 E2 Hu.
  assert (forall l found, (forall q, q ∈ l -> pf_SnapshotID q <> snapshotID) -> select_profile sessionID snapshotID found l = Ok found) as Hskip.
  { clear. induction l as [|q l IH]; intros found Hq; cbn; [done|]. assert (pf_SnapshotID q =? snapshotID = false)%string as -> by (apply String.eqb_neq, Hq; by left).
    rewrite andb_false_r. apply IH. intros q' Hq'. apply Hq. by right. }
  induction Hnd as [|q l Hin Hnd IH]; [by apply elem_of_nil in Hp|]. cbn. apply elem_of_cons in Hp as [<-|Hp].
  - rewrite E1, E2, !String.eqb_refl. cbn. apply Hskip. intros q Hq Eq. apply Hin. rewrite <- (Hu q); [done|by right|done].
  - assert (pf_SnapshotID q =? snapshotID = false)%string as ->.
    { apply String.eqb_neq. intros Eq. apply Hin. by rewrite (Hu q); [|left|]. }
    rewrite andb_false_r. apply IH; [done|]. intros q' Hq'. apply Hu. by right.
Qed.
(** What a summary says of a usable binding. *)
Record summary_of (db : Db) (b : SessionSourceBinding) (m : SessionSourceSummary) : Prop := {
  su_key : sm_SourceObjectKey m = sb_SourceObjectKey b;
  su_snapshot : sm_ActiveSnapshotID m = sb_ActiveSnapshotID b;
  su_status : sm_SnapshotStatus m = SnapshotStatusReady;
  su_profile : sm_ProfileStatus m <> "" /\ sm_ProfileStatus m <> "pending";
  su_table : sm_Mode m = SnapshotModeImported ->
             exists t, db_tables db !! (sb_SessionID b, sm_AnalysisTableName m) = Some t
               /\ sm_RowCount m = sc_RowCount t /\ sm_ColCount m = Z.of_nat (length (sc_Columns t))
}.
Lemma session_source_usable broken db b :
  sound broken db -> usable db b -> exists m, exec (session_source (sb_SessionID b) b) db = (db, Ok ([m], [])) /\ summary_of db b m.
Proof.
  intros H (s & Hs & E1 & E2 & E3 & E4 & (d & Hd) & E6 & pid & p & Hp & P1 & P2 & P3 & P4). destruct (so_snapshots _ _ _ H _ _ Hs) as (Hid & Htab & _).
  assert (selectProfileForSnapshot (newest_first pf_CreatedAt (rows (db_profiles db) (fun p => pf_SourceID p =? sb_SourceID b))) (sb_SessionID b) (sn_ID s) = Ok (Some p)) as Hsel.
  { apply select_unique; [|apply elem_of_newest|done|by rewrite Hid|].
    - unfold newest_first. rewrite merge_sort_Permutation. apply (rows_nodup _ pf_ID). intros k q Hq. by apply (so_profiles _ _ _ H k q Hq).
    - unfold rows. apply list_elem_of_In, filter_In. split; [|by rewrite P2, String.eqb_refl].
      apply list_elem_of_In, list_elem_of_fmap. exists (pid, p). split; [done|by apply elem_of_map_to_list].
    - intros q Hq Eq. apply elem_of_newest, elem_of_rows in Hq as (k & Hq & _). assert (k = pid) as -> by (eapply P4; [exact Hq|congruence]). congruence. }
  set (n := length (newest_first cf_CreatedAt (rows (db_confirmations db) (fun c => cf_ProfileID c =? pf_ID p)))).
  exists (summarize b d s (profile_status_text (pf_ProfileStatus p)) (pf_ID p) n). split.
  - unfold session_source, exec, bind, try, DataSource_GetByID, read, call. cbn -[summary_profile]. rewrite Hd. cbn -[summary_profile]. rewrite Hs. cbn -[summary_profile].
    unfold summary_profile, bind, try, Profile_ListBySource, Confirmation_ListByProfile, read, call. cbn -[selectProfileForSnapshot newest_first rows]. rewrite Hsel. done.
  - split; try done; [cbn; by destruct (pf_ProfileStatus p)|]. intros Hm. cbn. rewrite Htab. cbn in Hm. rewrite Hm. by apply E6.
Qed.
Lemma session_source_calm sessionID b : calm (session_source sessionID b).
Proof.
  unfold session_source, DataSource_GetByID, Snapshot_GetByID. apply calm_bind; [auto with calm|]. intros [d|]; [|auto with calm].
  apply calm_bind; [auto with calm|]. intros [s|]; [|auto with calm]. apply calm_bind.
  - unfold summary_profile, Profile_ListBySource, Confirmation_ListByProfile. apply calm_bind; [auto with calm|]. intros r.
    destruct (match r with Ok _ => _ | Err _ => _ end) as [profiles errors]. destruct (selectProfileForSnapshot _ _ _) as [[p|]|]; auto with calm.
  - intros [[[status p] n] errors]. auto with calm.
Qed.
Lemma session_sources_calm sessionID l : calm (session_sources sessionID l).
Proof.
  induction l as [|b l IH]; cbn [session_sources]; [auto with calm|]. apply calm_bind; [apply session_source_calm|]. auto with calm.
Qed.
Lemma session_sources_usable broken db sessionID bindings :
  sound broken db -> Forall (fun b => usable db b /\ sb_SessionID b = sessionID) bindings ->
  exists l, exec (session_sources sessionID bindings) db = (db, Ok (l, [])) /\ Forall2 (summary_of db) bindings l.
Proof.
  intros H. induction 1 as [|b bindings [Hu <-] _ (l & El & Hl)]; [by exists []|]. destruct (session_source_usable _ _ _ H Hu) as (m & Em & Hm).
  exists (m :: l). split; [|by constructor]. cbn [session_sources]. rewrite exec_bind by apply session_source_calm. rewrite Em.
  rewrite exec_bind by apply session_sources_calm. by rewrite El.
Qed.

(** C3: whatever operations ran on the sources of a workspace - imports, live bindings,
    confirmations, removals, deletions - and whatever calls of the database failed in them,
    listing the sources of a session for which no removal is unfinished reports no error,
    and for each binding one summary, of a ready snapshot with a profile, whose rows and
    columns are those of the snapshot's table when it was imported. *)
Theorem sources_stay_usable db X sessionID :
  rtc step (empty_db, ∅) (db, X) -> (forall k, k ∈ X -> k.1.1 <> sessionID) ->
  exists bindings l, exec (GetSessionSources sessionID) db = (db, Ok (l, [])) /\ Forall2 (summary_of db) bindings l
    /\ forall b, b ∈ bindings <-> exists k, db_bindings db !! k = Some b /\ sb_SessionID b = sessionID.
Proof.
  intros Hreach HX. pose proof (steps_sound _ _ Hreach) as H.
  set (bindings := newest_first sb_UpdatedAt (rows (db_bindings db) (fun b => sb_SessionID b =? sessionID))).
  assert (forall b, b ∈ bindings <-> exists k, db_bindings db !! k = Some b /\ sb_SessionID b = sessionID) as Hb.
  { intros b. unfold bindings. rewrite elem_of_newest. split.
    - intros (k & Hk & E)%elem_of_rows. exists k. by apply String.eqb_eq in E.
    - intros (k & Hk & <-). unfold rows. apply list_elem_of_In, filter_In. split; [|apply String.eqb_refl].
      apply list_elem_of_In, list_elem_of_fmap. exists (k, b). split; [done|by apply elem_of_map_to_list]. }
  assert (Forall (fun b => usable db b /\ sb_SessionID b = sessionID) bindings) as Hu.
  { apply Forall_forall. intros b (k & Hk & Es)%Hb. split; [|done]. eapply sound_usable; [exact H|exact Hk|]. intros Hin. apply (HX k Hin).
    destruct (so_bindings _ _ _ H k b Hk) as [<- _]. done. }
  destruct (session_sources_usable _ _ _ _ H Hu) as (l & El & Hl). exists bindings, l. split; [|done].
  unfold GetSessionSources. rewrite exec_bind by apply calm_read. unfold Binding_GetBySession. rewrite exec_read. exact El.
Qed.
End steps.

(** ** The steps of an example *)

Definition plain_hash (s : string) : string := s.
Definition two_columns : SchemaInfo :=
  let column := fun name => {| ci_Name := name; ci_DeclaredType := "INTEGER"; ci_NonEmptyRate := SpecFloat.S754_zero false; ci_UniqueCount := 3;
                               ci_SampleValues := ["1"]; ci_Estimated := false |} in
  {| sc_TableName := "t"; sc_RowCount := 3; sc_Columns := [column "a"; column "b"];
     sc_Sampling := {| si_Method := "full"; si_SourceRows := 3; si_SampleRows := 3; si_Estimated := false |} |}.
Definition add_file : M DataSource := EnsureFileSource "w1" "f1" "sales.csv" "u1" "a" 1.
Definition import_file (hex12 : string) : M SnapshotImportResult :=
  Import plain_hash "s1" "ds_a" (Ok 10%Z) None (Ok two_columns) (Ok 100%Z) 1 1 hex12 hex12 2.
Definition example_sources : Db := run_of add_file (new_session "s1" empty_db) [].
(** An import, and another one whose activation the database fails. *)
Definition example_imported : Db := run_of (import_file "1") example_sources [].
Definition disk_full : list (option string) := [None; None; None; None; None; None; None; None; Some "disk full"].
Definition example_failed : Db := run_of (import_file "2") example_imported disk_full.
Lemma example_reachable : exists X, rtc (step plain_hash) (empty_db, ∅) (example_failed, X) /\ forall k, k ∈ X -> k.1.1 <> "s1".
Proof.
  eexists. split.
  - eapply rtc_l; [apply (StepSession plain_hash "s1")|]. eapply rtc_l; [eapply (StepFile plain_hash), (runs_of add_file _ [])|].
    eapply rtc_l; [eapply (StepImport plain_hash), (runs_of (import_file "1") _ [])|].
    eapply rtc_l; [eapply (StepImport plain_hash), (runs_of (import_file "2") _ disk_full)|]. apply rtc_refl.
  - intros k Hk. exfalso. revert Hk. repeat destruct (is_ok _); set_solver.
Qed.
(** The second import failed, and the object is bound to the first. *)
Example example_failed_bindings :
  map snd (map_to_list (db_bindings example_failed)) = map snd (map_to_list (db_bindings example_imported))
  /\ map sb_ActiveSnapshotID (map snd (map_to_list (db_bindings example_failed))) = ["snap_1"]
  /\ (sn_Status <$> db_snapshots example_failed !! "snap_2") = Some SnapshotStatusFailed.
Proof. vm_compute. done. Qed.
Lemma sources_stay_usable_witness :
  exists X, rtc (step plain_hash) (empty_db, ∅) (example_failed, X)
    /\ exists bindings l, exec (GetSessionSources "s1") example_failed = (example_failed, Ok (l, [])) /\ Forall2 (summary_of example_failed) bindings l
         /\ forall b, b ∈ bindings <-> exists k, db_bindings example_failed !! k = Some b /\ sb_SessionID b = "s1".
Proof.
  destruct example_reachable as (X & HX & Hk). exists X. split; [exact HX|]. exact (sources_stay_usable plain_hash example_failed X "s1" HX Hk).
Defined.

(** C6: an import of a file that fails, at whatever call, leaves every binding as it
    was; one that succeeds binds its object to the snapshot it reports. *)
Theorem import_outcome sha256hex db X sessionID sourceID size sheets file dbSize importMs profileMs hex12 profile12 now db' r :
  rtc (step sha256hex) (empty_db, ∅) (db, X) ->
  runs (Import sha256hex sessionID sourceID size sheets file dbSize importMs profileMs hex12 profile12 now) db db' r ->
  match r with
  | Err _ => db_bindings db' = db_bindings db /\ forall k b, db_bindings db !! k = Some b -> k ∉ X -> SourceProps.usable sha256hex db' b
  | Ok _ => exists b, db_bindings db' !! import_object sha256hex db sessionID sourceID = Some b /\ sb_ActiveSnapshotID b = text ["snap_"; hex12]
              /\ SourceProps.usable sha256hex db' b
  end.
Proof.
  intros Hreach R. apply import_kept with (broken := X) in R; [|by apply steps_sound]. destruct r as [x|e]; destruct R as [H Hb]; [exact Hb|].
  split; [exact Hb|]. intros k b Hk Hn. eapply sound_usable; [exact H|by rewrite Hb|done].
Qed.
Lemma import_outcome_witness :
  db_bindings example_failed = db_bindings example_imported.
Proof.
  assert (rtc (step plain_hash) (empty_db, ∅) (example_imported, ∅ ∖ {[import_object plain_hash example_sources "s1" "ds_a"]})) as Hreach.
  { eapply rtc_l; [apply (StepSession plain_hash "s1")|]. eapply rtc_l; [eapply (StepFile plain_hash), (runs_of add_file _ [])|].
    eapply rtc_l; [eapply (StepImport plain_hash), (runs_of (import_file "1") _ [])|]. apply rtc_refl. }
  pose proof (import_outcome _ _ _ _ _ _ _ _ _ _ _ _ _ _ _ _ Hreach (runs_of (import_file "2") example_imported disk_full)) as H.
  assert (exists e, (import_file "2" {| w_db := example_imported; w_faults := disk_full |}).2 = Err e) as (e & E).
  { eexists. vm_compute. reflexivity. }
  rewrite E in H. exact (proj1 H).
Defined.
Example csv_names : map (fun n => is_csv_ext (Ext n)) ["a.csv"; "b.tar.CSV"; "c.csv/d"; "csv"] = [true; true; false; false].
Proof. done. Qed.
