(* ===== verification/SourceRemoval.v ===== *)
(** A removal that failed can be repeated: it ends in the store that a removal without
    failures ends in ([removal_converges]); and a receipt confirms one set of facts
    ([receipt_confirms_once]). *)
From S2P Require Import Prelude GoStrings Json SqlGuard StateTools Calls Sources SourceProps SourceSteps.
Open Scope string_scope.
Open Scope list_scope.

Section removal.
Context (sha256hex : string -> string) (sessionID sourceID key : string).
Abbreviation sound := (sound sha256hex).
Implicit Types (broken : gset (string * string * string)) (s : SourceSnapshot).

(** * What a removal removes *)

Definition doomed s : bool := (sn_SourceID s =? sourceID) && of_object sha256hex sessionID sourceID key s.
Definition doomed_id (db : Db) (id : string) : bool := match db_snapshots db !! id with Some s => doomed s | None => false end.
Definition doomed_profile (db : Db) (id : string) : bool := match db_profiles db !! id with Some p => doomed_id db (pf_SnapshotID p) | None => false end.
Definition doomed_tables (db : Db) : list (string * string) :=
  map (fun s => (sn_SessionID s, sn_AnalysisTableName s)) (rows (db_snapshots db) (fun s => doomed s && negb (sn_AnalysisTableName s =? ""))).
(** The rows without the object's snapshots, their tables and profiles and the profiles'
    confirmations. *)
Definition purge (db : Db) : Db :=
  {| db_sessions := db_sessions db; db_sources := db_sources db;
     db_snapshots := filter (fun kv => doomed kv.2 = false) (db_snapshots db);
     db_bindings := delete (sessionID, sourceID, key) (db_bindings db);
     db_profiles := filter (fun kv => doomed_id db (pf_SnapshotID kv.2) = false) (db_profiles db);
     db_confirmations := filter (fun kv => doomed_profile db (cf_ProfileID kv.2) = false) (db_confirmations db);
     db_assets := db_assets db; db_audit := db_audit db;
     db_tables := filter (fun kv => kv.1 ∉ doomed_tables db) (db_tables db); db_configs := db_configs db |}.
Lemma elem_of_doomed_tables db sid t :
  (sid, t) ∈ doomed_tables db <-> exists id s, db_snapshots db !! id = Some s /\ doomed s = true /\ sn_SessionID s = sid /\ sn_AnalysisTableName s = t /\ t <> "".
Proof.
  unfold doomed_tables. rewrite list_elem_of_fmap. split.
  - intros (s & [= -> ->] & (id & Hs & Hd)%elem_of_rows). exists id, s. reflect_bools. done.
  - intros (id & s & Hs & Hd & <- & <- & Hne). exists s. split; [done|]. unfold rows. apply list_elem_of_In, filter_In. apply String.eqb_neq in Hne. rewrite Hd, Hne.
    split; [|done]. apply list_elem_of_In, list_elem_of_fmap. exists (id, s). split; [done|by apply elem_of_map_to_list].
Qed.

(** A step of the removal leaves what remains to be removed out of account. *)
Definition purges {A} broken (C : Db -> Prop) (m : M A) : Prop :=
  forall db db' r, runs m db db' r -> sound broken db -> C db -> purge db' = purge db.
Lemma purges_bind {A B} broken C (m : M A) (k : A -> M B) :
  stable C -> trims sha256hex broken C m -> purges broken C m -> (forall a, purges broken C (k a)) -> purges broken C (bind m k).
Proof.
  intros Hst Ht Hm Hk db db' r R H HC. apply runs_bind in R as [(e & R & _)|(a & d & R1 & R)]; [by eapply Hm|].
  destruct (Ht _ _ _ R1 H HC) as [H1 S1]. rewrite (Hk _ _ _ _ R H1 (Hst _ _ S1 HC)). by eapply Hm.
Qed.
Lemma purges_ret {A} broken C (a : A) : purges broken C (ret a).
Proof. intros db db' r R H HC. by run_step R. Qed.
Lemma purges_wrap {A} broken C prefix (m : M A) : purges broken C m -> purges broken C (wrap prefix m).
Proof. intros Hm db db' r (r0 & R & _)%runs_wrap H HC. by eapply Hm. Qed.
Lemma purges_write broken (C : Db -> Prop) f : (forall db db', f db = Ok db' -> sound broken db -> C db -> purge db' = purge db) -> purges broken C (write f).
Proof. intros Hf db db' r [(e & -> & _)|(E & _)]%runs_write H HC; [done|by eapply Hf]. Qed.
Lemma purges_each {A} broken C (f : A -> M unit) l :
  stable C -> (forall a, a ∈ l -> trims sha256hex broken C (f a)) -> (forall a, a ∈ l -> purges broken C (f a)) -> purges broken C (each_call f l).
Proof.
  intros Hst. induction l as [|a l IH]; intros Ht Hf; cbn [each_call]; [apply purges_ret|].
  apply purges_bind; [done|apply Ht; by left|apply Hf; by left|]. intros _. apply IH; intros a' Ha; [apply Ht|apply Hf]; by right.
Qed.

(** Two purged stores are equal when their rows are. *)
Lemma purge_eq db db' :
  db_sessions db' = db_sessions db -> db_sources db' = db_sources db -> db_bindings db' = db_bindings db -> db_assets db' = db_assets db -> db_audit db' = db_audit db ->
  db_configs db' = db_configs db ->
  (forall id s, db_snapshots db' !! id = Some s /\ doomed s = false <-> db_snapshots db !! id = Some s /\ doomed s = false) ->
  (forall id p, db_profiles db' !! id = Some p /\ doomed_id db' (pf_SnapshotID p) = false <-> db_profiles db !! id = Some p /\ doomed_id db (pf_SnapshotID p) = false) ->
  (forall id c, db_confirmations db' !! id = Some c /\ doomed_profile db' (cf_ProfileID c) = false
     <-> db_confirmations db !! id = Some c /\ doomed_profile db (cf_ProfileID c) = false) ->
  (forall k t, db_tables db' !! k = Some t /\ k ∉ doomed_tables db' <-> db_tables db !! k = Some t /\ k ∉ doomed_tables db) ->
  purge db' = purge db.
Proof.
  intros E1 E2 E3 E4 E5 E6 Hs Hp Hc Ht. unfold purge. rewrite E1, E2, E3, E4, E5, E6. f_equal.
  all: apply map_eq; intros i; apply option_eq; intros x; rewrite !map_lookup_filter_Some; cbn; auto.
Qed.

(** * The phases of a removal *)

(** Dropping the tables of doomed snapshots. *)
Lemma drop_phase l db db' r :
  runs (each_call (drop_table DropTable) l) db db' r -> Forall (fun s => doomed s = true /\ exists id, db_snapshots db !! id = Some s) l ->
  purge db' = purge db /\ (exists m, db' = set_tables db m /\ m ⊆ db_tables db)
  /\ (is_ok r = true -> Forall (fun s => sn_AnalysisTableName s <> "" -> db_tables db' !! (sn_SessionID s, sn_AnalysisTableName s) = None) l).
Proof.
  revert db. induction l as [|s l IH]; intros db R Hl; cbn [each_call] in R.
  { apply runs_ret in R as [-> ->]. split; [done|]. split; [|by constructor]. exists (db_tables db). by destruct db. }
  apply Forall_cons in Hl as [[Hd (id & Hid)] Hl].
  assert (forall db1 r1, runs (drop_table DropTable s) db db1 r1 ->
    purge db1 = purge db /\ (exists m, db1 = set_tables db m /\ m ⊆ db_tables db)
    /\ (is_ok r1 = true -> sn_AnalysisTableName s <> "" -> db_tables db1 !! (sn_SessionID s, sn_AnalysisTableName s) = None)) as Hdrop.
  { intros db1 r1 R1. assert (exists m, db = set_tables db m /\ m ⊆ db_tables db) as Hsame by (exists (db_tables db); by destruct db).
    unfold drop_table in R1. destruct (_ =? "") eqn:En.
    { apply String.eqb_eq in En. apply runs_ret in R1 as [-> _]. done. }
    apply String.eqb_neq in En. apply runs_wrap in R1 as (r2 & R1 & E1). unfold DropTable in R1. destruct (ValidateSQLIdent _); [|apply runs_fail in R1 as [-> ->]; by subst].
    apply runs_wrap in R1 as (r3 & R1 & E2). apply runs_write in R1 as [(e & -> & ->)|([= <-] & ->)]; [by subst|].
    split; [|split; [eexists; split; [done|apply delete_subseteq]|intros _ _; apply lookup_delete_eq]].
    apply purge_eq; try done. intros k t. cbn. change (doomed_tables (set_tables db _)) with (doomed_tables db). rewrite lookup_delete_Some.
    split; [tauto|]. intros [Hk Hn]. split; [|done]. split; [|done]. intros <-. apply Hn, elem_of_doomed_tables. by exists id, s. }
  apply runs_bind in R as [(e & R & ->)|([] & d & R1 & R)]; [by destruct (Hdrop _ _ R) as (? & ? & _)|].
  destruct (Hdrop _ _ R1) as (P1 & (m & -> & Hm) & G1). destruct (IH _ R) as (P2 & (m' & -> & Hm') & G2); [by eapply Forall_impl|].
  split; [congruence|]. split; [exists m'; split; [done|by etransitivity]|]. intros Hok. constructor; [|by apply G2].
  intros Hne. cbn. specialize (G1 eq_refl Hne). cbn in G1, Hm'. by eapply lookup_weaken_None.
Qed.
(** Deleting the profiles of doomed snapshots, with their confirmations. *)
Definition keyed (db : Db) : Prop := forall id p, db_profiles db !! id = Some p -> pf_ID p = id.
Definition without_confirmations (id : string) (db : Db) : Db :=
  set_confirmations db (filter (fun kv => (cf_ProfileID kv.2 =? id) = false) (db_confirmations db)).
Definition without_profile (id : string) (db : Db) : Db := delete_profiles (fun q => pf_ID q =? id) (without_confirmations id db).
Lemma without_profile_rows db id i q : keyed db -> db_profiles (without_profile id db) !! i = Some q <-> db_profiles db !! i = Some q /\ i <> id.
Proof.
  intros Hid. cbn. rewrite map_lookup_filter_Some. cbn. split; intros [Hq Hn]; (split; [done|]).
  - intros ->. rewrite (Hid _ _ Hq), String.eqb_refl in Hn. done.
  - apply String.eqb_neq. by rewrite (Hid _ _ Hq).
Qed.
Lemma without_confirmations_purge db p :
  db_profiles db !! pf_ID p = Some p -> doomed_id db (pf_SnapshotID p) = true -> purge (without_confirmations (pf_ID p) db) = purge db.
Proof.
  intros Hp Hd. apply purge_eq; try done. intros i c. cbn. rewrite map_lookup_filter_Some. cbn.
  change (doomed_profile (without_confirmations (pf_ID p) db)) with (doomed_profile db).
  split; [tauto|]. intros [Hc Hn]. split; [|done]. split; [done|]. apply String.eqb_neq. intros E. unfold doomed_profile in Hn. rewrite E, Hp in Hn. congruence.
Qed.
Lemma without_profile_doomed db p id :
  keyed db -> doomed_profile (without_profile (pf_ID p) db) id = false <-> id = pf_ID p \/ doomed_profile db id = false.
Proof.
  intros Hid. unfold doomed_profile. change (doomed_id (without_profile (pf_ID p) db)) with (doomed_id db).
  destruct (decide (id = pf_ID p)) as [E|E]; destruct (db_profiles (without_profile (pf_ID p) db) !! id) as [q|] eqn:Eq.
  - by apply without_profile_rows in Eq as [_ Hne].
  - tauto.
  - apply without_profile_rows in Eq as [-> _]; [tauto|done].
  - destruct (db_profiles db !! id) as [q|] eqn:Eq'; [|tauto].
    assert (db_profiles (without_profile (pf_ID p) db) !! id = Some q) by (by apply without_profile_rows). congruence.
Qed.
Lemma without_profile_purge db p :
  keyed db -> db_profiles db !! pf_ID p = Some p -> doomed_id db (pf_SnapshotID p) = true -> purge (without_profile (pf_ID p) db) = purge db.
Proof.
  intros Hid Hp Hd. apply purge_eq; try done.
  - intros i q. rewrite without_profile_rows by done. change (doomed_id (without_profile (pf_ID p) db)) with (doomed_id db). split; [tauto|].
    intros [Hq Hn]. split; [|done]. split; [done|]. intros ->. congruence.
  - intros i c. rewrite without_profile_doomed by done. cbn. rewrite !map_lookup_filter_Some. cbn. rewrite String.eqb_neq. split.
    + intros [[[Hc Hne] _] [E|Hn]]; [done|done].
    + intros [Hc Hn]. assert (cf_ProfileID c <> pf_ID p) as Hne.
      { intros E. unfold doomed_profile in Hn. rewrite E, Hp in Hn. congruence. }
      repeat split; try done; [|by right]. destruct (db_profiles db !! cf_ProfileID c) as [q|] eqn:Eq; [|done]. apply String.eqb_neq. by rewrite (Hid _ _ Eq).
Qed.
Lemma remove_profile_run p db db' r :
  runs (remove_profile p) db db' r ->
  is_ok r = false /\ (db' = db \/ db' = without_confirmations (pf_ID p) db) \/ r = Ok tt /\ db' = without_profile (pf_ID p) db.
Proof.
  intros R. unfold remove_profile in R. apply runs_bind in R as [(e' & R & ->)|([] & dy & R1 & R)].
  - apply runs_wrap in R as (r1 & R & E). apply runs_write in R as [(e1 & -> & ->)|([= <-] & ->)]; [|done]. left. auto.
  - apply runs_wrap in R1 as (r1 & R1 & E1). apply runs_write in R1 as [(e1 & -> & ->)|([= <-] & ->)]; [done|].
    apply runs_wrap in R as (r2 & R & ->). apply runs_write in R as [(e1 & -> & ->)|([= <-] & ->)]; auto.
Qed.
Lemma profile_phase l db db' r :
  runs (each_call remove_profile l) db db' r -> keyed db -> NoDup l ->
  Forall (fun p => doomed_id db (pf_SnapshotID p) = true /\ db_profiles db !! pf_ID p = Some p) l ->
  purge db' = purge db /\ db_snapshots db' = db_snapshots db /\ db_tables db' = db_tables db /\ keyed db' /\ db_bindings db' = db_bindings db.
Proof.
  revert db. induction l as [|p l IH]; intros db R Hid Hnd Hl; cbn [each_call] in R; [by apply runs_ret in R as [-> ->]|].
  apply NoDup_cons in Hnd as [Hin Hnd]. apply Forall_cons in Hl as [[Hd Hp] Hl].
  assert (keyed (without_profile (pf_ID p) db)) as Hid' by (intros i q [Hq _]%without_profile_rows; [by apply Hid|done]).
  apply runs_bind in R as [(e & R & ->)|([] & dx & R1 & R)].
  - apply remove_profile_run in R as [(_ & [->| ->])|(Er & _)]; [done| |done]. by rewrite without_confirmations_purge.
  - apply remove_profile_run in R1 as [([=] & _)|(_ & ->)]. rewrite <- (without_profile_purge db p) by done. apply (IH _ R); [done|done|].
    apply Forall_forall. intros q Hq. pose proof (proj1 (Forall_forall _ _) Hl q Hq) as [Hdq Hpq]. split; [done|].
    apply without_profile_rows; [done|]. split; [done|]. intros E. rewrite E, Hp in Hpq. congruence.
Qed.
(** Deleting doomed snapshots whose tables were dropped. *)
Definition keyed_snapshots (db : Db) : Prop := forall id s, db_snapshots db !! id = Some s -> sn_ID s = id.
Definition no_table (db : Db) s : Prop := sn_AnalysisTableName s <> "" -> db_tables db !! (sn_SessionID s, sn_AnalysisTableName s) = None.
Definition without_snapshot (id : string) (db : Db) : Db := delete_snapshots (fun s => sn_ID s =? id) db.
Lemma without_snapshot_rows db id i s :
  keyed_snapshots db -> db_snapshots (without_snapshot id db) !! i = Some s <-> db_snapshots db !! i = Some s /\ i <> id.
Proof.
  intros Hid. cbn. rewrite map_lookup_filter_Some. cbn. split; intros [Hs Hn]; (split; [done|]).
  - intros ->. rewrite (Hid _ _ Hs), String.eqb_refl in Hn. done.
  - apply String.eqb_neq. by rewrite (Hid _ _ Hs).
Qed.
Lemma without_snapshot_profiles db s i p :
  keyed_snapshots db -> db_snapshots db !! sn_ID s = Some s ->
  db_profiles (without_snapshot (sn_ID s) db) !! i = Some p <-> db_profiles db !! i = Some p /\ pf_SnapshotID p <> sn_ID s.
Proof.
  intros Hid Hs. cbn. rewrite map_lookup_filter_Some. cbn. split; intros [Hp Hn]; (split; [done|]).
  - intros E. rewrite E, Hs, String.eqb_refl in Hn. done.
  - destruct (db_snapshots db !! pf_SnapshotID p) as [s'|] eqn:Es; [|done]. apply String.eqb_neq. by rewrite (Hid _ _ Es).
Qed.
Lemma without_snapshot_doomed db s id :
  keyed_snapshots db -> doomed_id (without_snapshot (sn_ID s) db) id = false <-> id = sn_ID s \/ doomed_id db id = false.
Proof.
  intros Hid. unfold doomed_id. destruct (db_snapshots (without_snapshot (sn_ID s) db) !! id) as [s'|] eqn:E.
  - apply without_snapshot_rows in E as [-> Hne]; [tauto|done].
  - destruct (decide (id = sn_ID s)) as [Es|Hne]; [tauto|]. destruct (db_snapshots db !! id) as [s'|] eqn:E'; [|tauto].
    assert (db_snapshots (without_snapshot (sn_ID s) db) !! id = Some s') by (by apply without_snapshot_rows). congruence.
Qed.
Lemma without_snapshot_doomed_profile db s id :
  keyed_snapshots db -> db_snapshots db !! sn_ID s = Some s ->
  doomed_profile (without_snapshot (sn_ID s) db) id = false
  <-> (exists p, db_profiles db !! id = Some p /\ pf_SnapshotID p = sn_ID s) \/ doomed_profile db id = false.
Proof.
  intros Hid Hs. unfold doomed_profile. destruct (db_profiles (without_snapshot (sn_ID s) db) !! id) as [p|] eqn:E.
  - apply without_snapshot_profiles in E as [E Hne]; [|done..]. rewrite E, without_snapshot_doomed by done. split; [intros [?|?]; [done|by right]|].
    intros [(p' & [= <-] & ?)|?]; [done|by right].
  - destruct (db_profiles db !! id) as [p|] eqn:E'; [|tauto]. destruct (decide (pf_SnapshotID p = sn_ID s)) as [Es|Hne].
    + split; [|done]. intros _. left. by exists p.
    + assert (db_profiles (without_snapshot (sn_ID s) db) !! id = Some p) by (by apply without_snapshot_profiles). congruence.
Qed.
Lemma without_snapshot_purge db s :
  keyed_snapshots db -> keyed db -> db_snapshots db !! sn_ID s = Some s -> doomed s = true -> no_table db s ->
  purge (without_snapshot (sn_ID s) db) = purge db.
Proof.
  intros Hid Hidp Hs Hd Ht. apply purge_eq; try done.
  - intros i s'. rewrite without_snapshot_rows by done. split; [tauto|]. intros [Hi Hn]. split; [|done]. split; [done|]. intros ->. congruence.
  - intros i p. rewrite without_snapshot_profiles, without_snapshot_doomed by done. split; [tauto|]. intros [Hp Hn].
    assert (pf_SnapshotID p <> sn_ID s) as Hne; [|by auto]. intros E. unfold doomed_id in Hn. rewrite E, Hs in Hn. congruence.
  - intros i c. rewrite without_snapshot_doomed_profile by done.
    assert (db_confirmations (without_snapshot (sn_ID s) db) !! i = Some c
      <-> db_confirmations db !! i = Some c /\ forall p, db_profiles db !! cf_ProfileID c = Some p -> pf_SnapshotID p <> sn_ID s) as ->.
    { cbn. rewrite map_lookup_filter_Some. cbn. split; intros [Hc Hn]; (split; [done|]).
      - intros p Hp E. by rewrite Hp, E, Hs, String.eqb_refl in Hn.
      - destruct (db_profiles db !! cf_ProfileID c) as [p|]; [|done]. specialize (Hn p eq_refl). destruct (db_snapshots db !! pf_SnapshotID p) as [s'|] eqn:Es; [|done].
        apply String.eqb_neq. by rewrite (Hid _ _ Es). }
    split.
    + intros [[Hc Hn] [(p & Hp & E)|Hdp]]; [by destruct (Hn p Hp)|done].
    + intros [Hc Hdp]. split; [|by right]. split; [done|]. intros p Hp E. unfold doomed_profile, doomed_id in Hdp. rewrite Hp, E, Hs in Hdp. congruence.
  - intros [sid t] x. cbn. assert ((sid, t) ∈ doomed_tables (without_snapshot (sn_ID s) db) -> (sid, t) ∈ doomed_tables db) as Hsub.
    { rewrite !elem_of_doomed_tables. intros (i & s' & [Hi _]%without_snapshot_rows & Hrest); [by exists i, s'|done]. }
    split; [|tauto]. intros [Hx Hn]. split; [done|]. rewrite elem_of_doomed_tables. intros (i & s' & Hi & Hd' & <- & <- & Hne).
    destruct (decide (i = sn_ID s)) as [->|Hi'].
    + rewrite Hs in Hi. injection Hi as <-. rewrite Ht in Hx; done.
    + apply Hn, elem_of_doomed_tables. exists i, s'. split_and!; try done. by apply without_snapshot_rows.
Qed.
Lemma snapshot_phase l db db' r :
  runs (each_call (fun s => wrap (text ["delete source snapshot "; sn_ID s]) (Snapshot_Delete (sn_ID s))) l) db db' r ->
  keyed_snapshots db -> keyed db -> NoDup l -> Forall (fun s => doomed s = true /\ db_snapshots db !! sn_ID s = Some s /\ no_table db s) l ->
  purge db' = purge db /\ db_bindings db' = db_bindings db /\ db_snapshots db' ⊆ db_snapshots db
  /\ (is_ok r = true -> Forall (fun s => db_snapshots db' !! sn_ID s = None) l).
Proof.
  revert db. induction l as [|s l IH]; intros db R Hid Hidp Hnd Hl; cbn [each_call] in R; [by apply runs_ret in R as [-> ->]|].
  apply NoDup_cons in Hnd as [Hin Hnd]. apply Forall_cons in Hl as [(Hd & Hs & Ht) Hl].
  apply runs_bind in R as [(e & R & ->)|([] & dx & R1 & R)].
  - apply runs_wrap in R as (r1 & R & E). by apply runs_write in R as [(e1 & -> & ->)|([= <-] & ->)].
  - apply runs_wrap in R1 as (r1 & R1 & E1). apply runs_write in R1 as [(e1 & -> & ->)|([= <-] & ->)]; [done|].
    fold (without_snapshot (sn_ID s) db) in R. rewrite <- (without_snapshot_purge db s) by done.
    assert (db_snapshots (without_snapshot (sn_ID s) db) !! sn_ID s = None) as Hgone.
    { destruct (db_snapshots (without_snapshot (sn_ID s) db) !! sn_ID s) as [s'|] eqn:E; [|done]. by apply without_snapshot_rows in E as [_ ?]. }
    destruct (IH _ R) as (Q1 & Q2 & Q3 & Q4).
    + intros i s' [Hi _]%without_snapshot_rows; [by apply Hid|done].
    + intros i p [Hi _]%without_snapshot_profiles; [by apply Hidp|done..].
    + done.
    + apply Forall_forall. intros q Hq. pose proof (proj1 (Forall_forall _ _) Hl q Hq) as (Hdq & Hsq & Htq). split_and!; [done| |done].
      apply without_snapshot_rows; [done|]. split; [done|]. intros E. rewrite E, Hs in Hsq. congruence.
    + split_and!; [done|done|etransitivity; [exact Q3|apply map_filter_subseteq]|]. intros Hok. constructor; [by eapply lookup_weaken_None|by apply Q4].
Qed.

(** * The whole removal *)

Definition RemoveSessionSource' : M unit := RemoveSessionSource sha256hex DropTable sessionID sourceID key.
Lemma sound_keyed broken db : sound broken db -> keyed db /\ keyed_snapshots db.
Proof. intros H. split; intros id x Hx; [by apply (so_profiles _ _ _ H id x)|by apply (so_snapshots _ _ _ H id x)]. Qed.
Lemma doomed_list db s :
  s ∈ List.filter (of_object sha256hex sessionID sourceID key) (newest_first sn_ImportedAt (rows (db_snapshots db) (fun s => sn_SourceID s =? sourceID)))
  <-> doomed s = true /\ exists id, db_snapshots db !! id = Some s.
Proof.
  rewrite list_elem_of_In, filter_In, <- list_elem_of_In, elem_of_newest. unfold doomed. split.
  - intros [(id & Hs & E)%elem_of_rows Ho]. rewrite E, Ho. eauto.
  - intros [[Hsrc Ho]%andb_prop (id & Hs)]. split; [|done]. unfold rows. apply list_elem_of_In, filter_In. split; [|done].
    apply list_elem_of_In, list_elem_of_fmap. exists (id, s). split; [done|by apply elem_of_map_to_list].
Qed.
Lemma filter_nodup {A} (p : A -> bool) l : NoDup l -> NoDup (List.filter p l).
Proof.
  induction 1 as [|a l Hin Hnd IH]; cbn; [constructor|]. destruct (p a); [|done]. constructor; [|done].
  intros Ha. apply Hin, list_elem_of_In. by apply list_elem_of_In, filter_In in Ha as [? _].
Qed.
Lemma newest_nodup {A} (m : gmap string A) (id : A -> string) key' p :
  (forall k a, m !! k = Some a -> id a = k) -> NoDup (newest_first key' (rows m p)).
Proof. intros Hid. unfold newest_first. rewrite merge_sort_Permutation. by eapply rows_nodup. Qed.
(** Nothing is left to remove. *)
Lemma purge_done db :
  (forall i s, db_snapshots db !! i = Some s -> doomed s = false) -> db_bindings db !! (sessionID, sourceID, key) = None -> purge db = db.
Proof.
  intros Hs Hb. assert (forall id, doomed_id db id = false) as Hd by (intros id; unfold doomed_id; destruct (db_snapshots db !! id) eqn:E; [by eapply Hs|done]).
  assert (forall id, doomed_profile db id = false) as Hp by (intros id; unfold doomed_profile; by destruct (db_profiles db !! id)).
  assert (forall k, k ∉ doomed_tables db) as Ht.
  { intros [sid t]. rewrite elem_of_doomed_tables. intros (i & s & Hi & Hds & _). by rewrite (Hs i s Hi) in Hds. }
  unfold purge. rewrite delete_id by done. rewrite !map_filter_id; [by destruct db|..]; cbn; eauto.
Qed.
Lemma remove_object_purge broken db db' r :
  let l := List.filter (of_object sha256hex sessionID sourceID key) (newest_first sn_ImportedAt (rows (db_snapshots db) (fun s => sn_SourceID s =? sourceID))) in
  runs (remove_object DropTable sessionID sourceID key l) db db' r -> sound broken db ->
  purge db' = purge db /\ (is_ok r = true -> db_bindings db' !! (sessionID, sourceID, key) = None /\ purge db' = db')
  /\ (is_ok r = false -> db_bindings db' = db_bindings db).
Proof.
  intros l R H. destruct (sound_keyed _ _ H) as [Hidp Hid]. unfold remove_object in R.
  assert (Forall (fun s => doomed s = true /\ exists id, db_snapshots db !! id = Some s) l) as Hl by (apply Forall_forall; intros s; apply doomed_list).
  assert (NoDup l) as Hnd by (by eapply filter_nodup, newest_nodup).
  apply runs_bind in R as [(e & R & ->)|([] & d1 & R1 & R)].
  { destruct (drop_phase _ _ _ _ R Hl) as (P1 & (m & -> & _) & _). done. }
  destruct (drop_phase _ _ _ _ R1 Hl) as (P1 & (m & -> & _) & G1). specialize (G1 eq_refl). set (d1 := set_tables db m) in *.
  assert (db_bindings d1 = db_bindings db) as B1 by done.
  apply runs_bind in R as [(e & R & ->)|(profiles & d2 & R2 & R)].
  { apply runs_wrap in R as (r2 & R & _). unfold Profile_ListBySource in R. by apply runs_read in R as [-> _]. }
  apply runs_wrap in R2 as (r2 & R2 & E2). unfold Profile_ListBySource in R2. apply runs_read in R2 as [-> R2].
  destruct R2 as [(x & ->)| ->]; [done|]. injection E2 as ->. set (ps := List.filter _ _) in R.
  assert (NoDup ps) as Hndp by (by eapply filter_nodup, (newest_nodup _ pf_ID)).
  assert (Forall (fun p => doomed_id d1 (pf_SnapshotID p) = true /\ db_profiles d1 !! pf_ID p = Some p) ps) as Hps.
  { apply Forall_forall. intros p Hp. apply list_elem_of_In, filter_In in Hp as [Hp Hin]. apply list_elem_of_In, elem_of_newest, elem_of_rows in Hp as (i & Hp & _).
    rewrite (Hidp _ _ Hp). split; [|done]. apply bool_decide_eq_true, list_elem_of_fmap in Hin as (s & -> & Hs).
    apply doomed_list in Hs as [Hd (j & Hj)]. unfold doomed_id. change (db_snapshots d1) with (db_snapshots db). rewrite (Hid _ _ Hj), Hj. done. }
  apply runs_bind in R as [(e & R & ->)|([] & d3 & R3 & R)].
  { destruct (profile_phase _ _ _ _ R Hidp Hndp Hps) as (P2 & _ & _ & _ & B2). split_and!; [congruence|done|congruence]. }
  destruct (profile_phase _ _ _ _ R3 Hidp Hndp Hps) as (P3 & S3 & T3 & Hidp3 & B3).
  assert (Forall (fun s => doomed s = true /\ db_snapshots d3 !! sn_ID s = Some s /\ no_table d3 s) l) as Hl3.
  { apply Forall_forall. intros s Hs. pose proof (proj1 (Forall_forall _ _) Hl s Hs) as [Hd (i & Hi)]. unfold no_table. rewrite S3, T3.
    change (db_snapshots d1) with (db_snapshots db). rewrite (Hid _ _ Hi). split_and!; [done|done|]. exact (proj1 (Forall_forall _ _) G1 s Hs). }
  assert (keyed_snapshots d3) as Hid3 by (intros i s; rewrite S3; apply Hid).
  apply runs_bind in R as [(e & R & ->)|([] & d4 & R4 & R)].
  { destruct (snapshot_phase _ _ _ _ R Hid3 Hidp3 Hnd Hl3) as (P4 & B4 & _). split_and!; [congruence|done|congruence]. }
  destruct (snapshot_phase _ _ _ _ R4 Hid3 Hidp3 Hnd Hl3) as (P4 & B4 & S4 & G4). specialize (G4 eq_refl).
  apply runs_write in R as [(e & -> & ->)|([= <-] & ->)]; [split_and!; [congruence|done|intros _; congruence]|].
  set (d5 := set_bindings d4 _). assert (purge d5 = purge d4) as P5 by (unfold purge; cbn; by rewrite delete_delete_eq).
  split; [congruence|]. split; [|done]. intros _. split; [apply lookup_delete_eq|]. apply purge_done; [|apply lookup_delete_eq].
  intros i s Hs. change (db_snapshots d4 !! i = Some s) in Hs. destruct (doomed s) eqn:Hd; [|done]. exfalso.
  assert (db_snapshots db !! i = Some s) as Hs0 by (rewrite S3 in S4; by eapply lookup_weaken).
  assert (s ∈ l) as Hin by (apply doomed_list; eauto). pose proof (proj1 (Forall_forall _ _) G4 s Hin) as Hnone. cbn beta in Hnone. rewrite (Hid _ _ Hs0) in Hnone. congruence.
Qed.

(** Without a fault no step of a removal fails. *)
Lemma succeeds_each {A} (f : A -> M unit) l : (forall a, a ∈ l -> succeeds (f a)) -> succeeds (each_call f l).
Proof.
  induction l as [|a l IH]; intros Hf; cbn [each_call]; [apply succeeds_ret|]. apply succeeds_bind; [apply Hf; by left|]. intros _. apply IH. intros a' Ha. apply Hf. by right.
Qed.
Lemma remove_object_succeeds l :
  Forall (fun s => sn_AnalysisTableName s <> "" -> is_ok (ValidateSQLIdent (sn_AnalysisTableName s)) = true) l ->
  succeeds (remove_object DropTable sessionID sourceID key l).
Proof.
  intros Hl. unfold remove_object. apply succeeds_bind.
  { apply succeeds_each. intros s Hs. unfold drop_table. destruct (_ =? "") eqn:E; [apply succeeds_ret|]. apply succeeds_wrap. unfold DropTable.
    apply String.eqb_neq in E. pose proof (proj1 (Forall_forall _ _) Hl s Hs E). destruct (ValidateSQLIdent _); [|done]. by apply succeeds_wrap, succeeds_write. }
  intros _. apply succeeds_bind; [apply succeeds_wrap; by split; [apply calm_read|]|]. intros profiles. apply succeeds_bind.
  { apply succeeds_each. intros p _. unfold remove_profile. apply succeeds_bind; [by apply succeeds_wrap, succeeds_write|]. intros _. by apply succeeds_wrap, succeeds_write. }
  intros _. apply succeeds_bind; [apply succeeds_each; intros s _; by apply succeeds_wrap, succeeds_write|]. intros _. by apply succeeds_write.
Qed.

Context (Hkey : key <> "") (Hexact : not_exact key = false).
Lemma remove_unfolds :
  RemoveSessionSource' =
    (do binding := try (Binding_GetBySessionSourceObject sessionID sourceID key) in
     match binding with
     | Err SNotFound => ret tt
     | Err e => fail e
     | Ok _ =>
         do snapshots := wrap "list source snapshots" (Snapshot_ListBySource sourceID) in
         remove_object DropTable sessionID sourceID key (List.filter (of_object sha256hex sessionID sourceID key) snapshots)
     end)%go.
Proof. unfold RemoveSessionSource', RemoveSessionSource. apply String.eqb_neq in Hkey. by rewrite Hkey, Hexact. Qed.
(** What any attempt leaves. *)
Lemma remove_run_purge broken db db' r :
  runs RemoveSessionSource' db db' r -> sound broken db ->
  (db_bindings db !! (sessionID, sourceID, key) = None -> db' = db)
  /\ (is_Some (db_bindings db !! (sessionID, sourceID, key)) -> purge db' = purge db
       /\ (is_ok r = true -> db_bindings db' !! (sessionID, sourceID, key) = None /\ purge db' = db')
       /\ (is_ok r = false -> db_bindings db' = db_bindings db)).
Proof.
  rewrite remove_unfolds. intros R H.
  apply runs_bind in R as [(e & R1 & ->)|(x & d1 & R1 & R)]; [by apply never_fails_try in R1|]. apply runs_try in R1 as (r1 & R1 & [= ->]).
  unfold Binding_GetBySessionSourceObject in R1. apply runs_read in R1 as [-> R1].
  destruct r1 as [b|e].
  2: { split; [by destruct e; run_step R|]. intros (b & Hb). destruct R1 as [(m & [= ->])|R1]; [by run_step R|]. by rewrite Hb in R1. }
  destruct R1 as [(m & [=])|R1]. unfold found in R1. destruct (db_bindings db !! _) eqn:Eb; [|done]. split; [done|]. intros _.
  apply runs_bind in R as [(e & R & ->)|(snapshots & d2 & R2 & R)].
  { apply runs_wrap in R as (r2 & R & _). unfold Snapshot_ListBySource in R. by apply runs_read in R as [-> _]. }
  apply runs_wrap in R2 as (r2 & R2 & E2). unfold Snapshot_ListBySource in R2. apply runs_read in R2 as [-> R2].
  destruct R2 as [(m & ->)| ->]; [done|]. injection E2 as ->.
  by eapply remove_object_purge.
Qed.
Lemma remove_exec broken db :
  sound broken db -> exec RemoveSessionSource' db = (if decide (is_Some (db_bindings db !! (sessionID, sourceID, key))) then purge db else db, Ok tt).
Proof.
  intros H. assert (is_ok (exec RemoveSessionSource' db).2 = true) as Hok.
  { rewrite remove_unfolds. rewrite exec_bind by (unfold Binding_GetBySessionSourceObject; auto with calm). rewrite exec_try.
    unfold Binding_GetBySessionSourceObject. rewrite exec_read. cbn [fst snd]. unfold found. destruct (db_bindings db !! _) as [b|]; [|done].
    rewrite exec_bind by (unfold Snapshot_ListBySource; auto with calm). rewrite exec_wrap. unfold Snapshot_ListBySource. rewrite exec_read. cbn [fst snd].
    apply remove_object_succeeds, Forall_forall. intros s (_ & id & Hs)%doomed_list Hne. destruct (so_snapshots _ _ _ H id s Hs) as (Hid & Ht & Hident).
    rewrite Ht in Hne |- *. destruct (sn_Mode s); [by apply Hident|done]. }
  pose proof (runs_exec RemoveSessionSource' db) as R. destruct (exec RemoveSessionSource' db) as [d [[]|e]]; [|done]. cbn in R. f_equal.
  destruct (remove_run_purge _ _ _ _ R H) as [Hnone Hsome]. case_decide as Hb.
  - destruct (Hsome Hb) as (P & Pok & _). destruct (Pok eq_refl) as [_ <-]. done.
  - apply Hnone. by apply eq_None_not_Some.
Qed.
Definition attempt (db db' : Db) : Prop := exists r, runs RemoveSessionSource' db db' r.
Lemma attempts_purge broken db db' :
  rtc attempt db db' -> sound broken db -> is_Some (db_bindings db !! (sessionID, sourceID, key)) ->
  (exists broken', sound broken' db') /\ purge db' = purge db
  /\ (is_Some (db_bindings db' !! (sessionID, sourceID, key)) \/ db_bindings db' !! (sessionID, sourceID, key) = None /\ purge db' = db').
Proof.
  intros Hrtc H Hb. eapply (rtc_ind_r (fun d => (exists broken', sound broken' d) /\ purge d = purge db
    /\ (is_Some (db_bindings d !! (sessionID, sourceID, key)) \/ db_bindings d !! (sessionID, sourceID, key) = None /\ purge d = d))); [eauto| |exact Hrtc].
  intros d d' _ [r R] ((broken' & Hs) & P & Hd). pose proof (remove_run _ _ _ _ _ _ _ _ R Hs) as Hs'. destruct (remove_run_purge _ _ _ _ R Hs) as [Hnone Hsome].
  destruct Hd as [Hd|[Hd Pd]]; [|rewrite (Hnone Hd); split_and!; eauto]. destruct (Hsome Hd) as (P' & Pok & Perr). split_and!; [eauto|congruence|].
  destruct r; [right; by apply Pok|left; by rewrite Perr].
Qed.
Lemma unbound_attempts broken db db' :
  rtc attempt db db' -> sound broken db -> db_bindings db !! (sessionID, sourceID, key) = None -> db' = db.
Proof.
  intros Hrtc H Hn. eapply (rtc_ind_r (fun d => d = db)); [done| |exact Hrtc]. intros d d' _ [r R] ->. by eapply remove_run_purge.
Qed.
End removal.

(** C4: however often a removal of an object was tried, and at whatever calls of the
    database it failed, trying it once more without a failure succeeds and leaves exactly
    the store that a first attempt without a failure leaves: the object unbound, and none of
    its snapshots. *)
Theorem removal_converges sha256hex sessionID sourceID key db X db' :
  rtc (step sha256hex) (empty_db, ∅) (db, X) -> key <> "" -> not_exact key = false ->
  rtc (attempt sha256hex sessionID sourceID key) db db' ->
  let again := exec (RemoveSessionSource sha256hex DropTable sessionID sourceID key) db' in
  again = exec (RemoveSessionSource sha256hex DropTable sessionID sourceID key) db /\ again.2 = Ok tt
  /\ db_bindings again.1 !! (sessionID, sourceID, key) = None
  /\ (is_Some (db_bindings db !! (sessionID, sourceID, key)) ->
      forall id s, db_snapshots again.1 !! id = Some s -> sn_SessionID s = sessionID -> sn_SourceID s = sourceID -> snapshot_key sha256hex sourceID s <> key).
Proof.
  intros Hreach Hkey Hexact Hrtc again. pose proof (steps_sound _ _ _ Hreach) as H.
  pose proof (fun d Y => remove_exec sha256hex sessionID sourceID key Hkey Hexact Y d) as Hexec.
  destruct (db_bindings db !! (sessionID, sourceID, key)) as [b|] eqn:Eb.
  - assert (is_Some (db_bindings db !! (sessionID, sourceID, key))) as Hb by eauto.
    destruct (attempts_purge _ _ _ _ Hkey Hexact _ _ _ Hrtc H Hb) as ((Y & HY) & P & Hd).
    assert (again = (purge sha256hex sessionID sourceID key db, Ok tt)) as ->.
    { subst again. specialize (Hexec _ _ HY). unfold RemoveSessionSource' in Hexec. rewrite Hexec. case_decide as Hb'; [by rewrite P|].
      destruct Hd as [?|[_ Pd]]; [done|]. by rewrite <- P, Pd. }
    specialize (Hexec _ _ H). unfold RemoveSessionSource' in Hexec. rewrite Hexec, decide_True by done. split_and!; [done|done|apply lookup_delete_eq|].
    intros _ id s Hs E1 E2 E3. cbn in Hs. apply map_lookup_filter_Some in Hs as [_ Hd']. cbn in Hd'. unfold doomed, of_object in Hd'.
    by rewrite E1, E2, E3, !String.eqb_refl in Hd'.
  - assert (db' = db) as -> by (by eapply unbound_attempts). subst again. specialize (Hexec _ _ H). unfold RemoveSessionSource' in Hexec.
    rewrite Hexec, decide_False by (by rewrite Eb; intros [? ?]). split_and!; [done|done|done|]. by intros [? ?].
Qed.
(** A removal that fails half way, and is tried again. *)
Definition remove_file : M unit := RemoveSessionSource plain_hash DropTable "s1" "ds_a" (SourceObjectKey plain_hash "ds_a" SourceTypeFileUpload "" "").
Definition removal_cut : list (option string) := [None; None; None; None; None; None; None; Some "disk full"].
Example example_half_removed :
  let db := run_of remove_file example_failed removal_cut in
  (map_size (db_bindings db), map_size (db_snapshots db), map_size (db_profiles db), map_size (db_tables db)) = (1, 2, 1, 0)
  /\ exec remove_file db = exec remove_file example_failed.
Proof. vm_compute. done. Qed.
Lemma removal_converges_witness :
  let db' := run_of remove_file example_failed removal_cut in
  exec remove_file db' = exec remove_file example_failed /\ (exec remove_file db').2 = Ok tt.
Proof.
  destruct example_reachable as (X & HX & _). intros db'.
  destruct (removal_converges plain_hash "s1" "ds_a" (SourceObjectKey plain_hash "ds_a" SourceTypeFileUpload "" "") example_failed X db' HX) as (H1 & H2 & _).
  - done.
  - by vm_compute.
  - eapply rtc_once. eexists. apply runs_of.
  - split; [exact H1|exact H2].
Defined.

(** * Receipts *)

Section receipts.
Context (sha256hex : string -> string).

#[local] Hint Resolve preserves_ret preserves_fail preserves_lift preserves_try preserves_wrap : core.

(** The unique index on the receipts. *)
Definition receipts_once (db : Db) : Prop :=
  forall i j c c', db_confirmations db !! i = Some c -> db_confirmations db !! j = Some c' ->
    cf_ConfirmationReceiptID c = cf_ConfirmationReceiptID c' -> cf_ConfirmationReceiptID c <> "" -> i = j.
Lemma audit_preserves e hex12 now : preserves db_confirmations (recordAudit e hex12 now).
Proof.
  unfold recordAudit. destruct (negb _); [|auto]. destruct (negb _); [|auto]. destruct (negb _); [|auto]. apply preserves_bind; [auto|].
  intros [|]; [|auto]. destruct (_ || _); [|auto]. apply preserves_write. intros db db' E. destruct (negb _); [|done]. by injection E as <-.
Qed.
Lemma upsert_assets_preserves p c assets hex12 now : preserves db_confirmations (upsert_assets p c assets hex12 now).
Proof.
  induction assets as [|a assets IH]; cbn [upsert_assets]; [auto|]. apply preserves_bind.
  { apply preserves_wrap, preserves_write. intros db db' E. destruct (_ !! _); [by injection E as <-|]. destruct (_ =? 0)%nat; [|done]. by injection E as <-. }
  intros _. apply preserves_bind; [apply preserves_try, audit_preserves|]. intros r. by apply preserves_bind.
Qed.
(** What follows the creation of the confirmation. *)
Lemma stored_run q db db' r :
  runs (stored_confirmation q) db db' r -> cq_ReceiptID q <> "" ->
  db' = db /\ forall x, r = Ok x ->
    match x with
    | Some c => same_facts q c = true /\ cf_ProfileID c = cq_ProfileID q /\ cf_ConfirmationReceiptID c = cq_ReceiptID q /\ exists i, db_confirmations db !! i = Some c
    | None => forall i c, db_confirmations db !! i = Some c -> cf_ProfileID c = cq_ProfileID q -> cf_ConfirmationReceiptID c <> cq_ReceiptID q
    end.
Proof.
  intros R Hne. unfold stored_confirmation in R. apply String.eqb_neq in Hne. rewrite Hne in R.
  apply runs_bind in R as [(e & R & ->)|(l & d & R1 & R)].
  { apply runs_wrap in R as (r1 & R & _). unfold Confirmation_ListByProfile in R. by apply runs_read in R as [-> _]. }
  apply runs_wrap in R1 as (r1 & R1 & E). unfold Confirmation_ListByProfile in R1. apply runs_read in R1 as [-> R1].
  destruct R1 as [(m & ->)| ->]; [done|]. injection E as ->. destruct (List.find _ _) as [c|] eqn:Ef.
  - destruct (same_facts q c) eqn:Es; [|by run_step R]. apply runs_ret in R as [-> ->]. split; [done|]. intros x [= <-].
    apply find_some in Ef as [Hin Er]. apply list_elem_of_In, elem_of_newest, elem_of_rows in Hin as (i & Hi & Ep). reflect_bools. eauto 6.
  - apply runs_ret in R as [-> ->]. split; [done|]. intros x [= <-] i c Hi Ep Er.
    assert (c ∈ newest_first cf_CreatedAt (rows (db_confirmations db) (fun c => cf_ProfileID c =? cq_ProfileID q))) as Hin.
    { apply elem_of_newest. unfold rows. apply list_elem_of_In, filter_In. split; [|by apply String.eqb_eq].
      apply list_elem_of_In, list_elem_of_fmap. exists (i, c). split; [done|by apply elem_of_map_to_list]. }
    apply list_elem_of_In in Hin. pose proof (find_none _ _ Ef c Hin) as Hf. cbn in Hf. rewrite Er, String.eqb_refl in Hf. done.
Qed.
Lemma finish_preserves q p c asset12 event12 now : preserves db_confirmations (finish_confirmation sha256hex q p c asset12 event12 now).
Proof.
  unfold finish_confirmation. apply preserves_bind.
  { destruct (_ =? _); [|auto]. apply preserves_wrap, preserves_bind; [auto|]. intros l. apply upsert_assets_preserves. }
  intros errors. apply preserves_bind; [apply preserves_wrap, preserves_write; by intros db db' [= <-]|]. intros _.
  apply preserves_bind; [apply preserves_try, audit_preserves|auto].
Qed.
Lemma create_spec c db db' :
  (guard negb (has (db_confirmations db) (cf_ID c))
         && ((cf_ConfirmationReceiptID c =? "")
             || (length (rows (db_confirmations db) (fun c' => (cf_ConfirmationReceiptID c' =? cf_ConfirmationReceiptID c)%string)) =? 0)%nat)
   else ErrUnique ;;
   guard has (db_profiles db) (cf_ProfileID c) else ErrForeignKey ;;
   Ok (set_confirmations db (<[cf_ID c := c]> (db_confirmations db)))) = Ok db' ->
  cf_ConfirmationReceiptID c <> "" ->
  db' = set_confirmations db (<[cf_ID c := c]> (db_confirmations db)) /\ db_confirmations db !! cf_ID c = None
  /\ forall i c', db_confirmations db !! i = Some c' -> cf_ConfirmationReceiptID c' <> cf_ConfirmationReceiptID c.
Proof.
  intros E Hne. destruct (negb _ && _) eqn:En; [|done]. destruct (has (db_profiles db) _); [|done]. injection E as <-. split; [done|].
  unfold has in En. apply String.eqb_neq in Hne. rewrite Hne in En. reflect_bools. split; [by apply eq_None_not_Some|].
  intros i c' Hi E. match goal with X : false || _ = true |- _ => apply Nat.eqb_eq, length_zero_iff_nil in X as Hnil end.
  assert (c' ∈ rows (db_confirmations db) (fun c' => (cf_ConfirmationReceiptID c' =? cf_ConfirmationReceiptID c)%string)) as Hin; [|by rewrite Hnil in Hin; apply elem_of_nil in Hin].
  unfold rows. apply list_elem_of_In, filter_In. split; [|by apply String.eqb_eq]. apply list_elem_of_In, list_elem_of_fmap. exists (i, c').
  split; [done|by apply elem_of_map_to_list].
Qed.
(** A confirmation of the request's facts under its receipt. *)
Definition confirms q (c : SemanticConfirmation) : Prop :=
  same_facts q c = true /\ cf_ProfileID c = cq_ProfileID q /\ cf_ConfirmationReceiptID c = cq_ReceiptID q.
Lemma confirm_run q hex12 asset12 event12 now db db' r :
  runs (ConfirmProfile sha256hex q hex12 asset12 event12 now) db db' r -> cq_ReceiptID q <> "" ->
  (db' = db /\ is_ok r = false)
  \/ (exists i c, db_confirmations db !! i = Some c /\ confirms q c /\ db_confirmations db' = db_confirmations db)
  \/ (exists c, confirms q c /\ db_confirmations db' = <[cf_ID c := c]> (db_confirmations db) /\ db_confirmations db !! cf_ID c = None
      /\ forall i c', db_confirmations db !! i = Some c' -> cf_ConfirmationReceiptID c' <> cq_ReceiptID q).
Proof.
  intros R Hne. unfold ConfirmProfile in R.
  apply runs_bind in R as [(e & R & ->)|(u & d & R1 & R)]; [apply runs_lift in R as [-> _]; by left|]. apply runs_lift in R1 as [-> _].
  apply runs_bind in R as [(e & R & ->)|(p & d & R1 & R)].
  { apply runs_wrap in R as (r1 & R & _). unfold Profile_GetByID in R. apply runs_read in R as [-> _]. by left. }
  apply runs_wrap in R1 as (r1 & R1 & _). unfold Profile_GetByID in R1. apply runs_read in R1 as [-> _].
  destruct (_ || _) in R; [|run_step R; by left].
  apply runs_bind in R as [(e & R & ->)|(u2 & d & R1 & R)]; [apply runs_lift in R as [-> _]; by left|]. apply runs_lift in R1 as [-> _].
  apply runs_bind in R as [(e & R & ->)|(stored & d & Rs & R)]; [apply stored_run in R as [-> _]; [by left|done]|].
  apply stored_run in Rs as [-> Hst]; [|done]. specialize (Hst stored eq_refl). cbv zeta in R. destruct (negb _) in R; [|run_step R; by left].
  destruct stored as [c|]; cbn [default] in R.
  - right. left. destruct Hst as (Hf & Hp & Hr & i & Hi). exists i, c. split_and!; [done|done|].
    apply runs_bind in R as [(e & R & ->)|(u3 & d & R1 & R)]; [by run_step R|]. run_step R1. by eapply finish_preserves.
  - apply runs_bind in R as [(e & R & ->)|(u3 & d & R1 & R)].
    { apply runs_wrap in R as (r2 & R & E2). apply runs_write in R as [(e' & -> & _)|(_ & ->)]; [by left|done]. }
    apply runs_wrap in R1 as (r2 & R1 & E2). apply runs_write in R1 as [(e' & -> & ->)|(E & ->)]; [done|]. right. right.
    apply create_spec in E as (-> & Hnew & Hno); [|done]. exists (new_confirmation q hex12 now). split.
    { unfold confirms, same_facts. cbn. by rewrite !String.eqb_refl. }
    split_and!; [|done|done]. by rewrite (finish_preserves _ _ _ _ _ _ _ _ _ R).
Qed.
End receipts.

(** C5: a receipt confirms one set of facts.  A confirmation that succeeded is stored with
    the request's facts under its receipt, and while it is stored any other request under
    that receipt - again, by anybody, for any profile, whatever fails - changes no
    confirmation, succeeds only with the very same facts, and with others changes nothing. *)
Theorem receipt_confirms_once sha256hex q hex12 asset12 event12 now db db1 x :
  receipts_once db -> cq_ReceiptID q <> "" -> runs (ConfirmProfile sha256hex q hex12 asset12 event12 now) db db1 (Ok x) ->
  receipts_once db1 /\ exists i c, db_confirmations db1 !! i = Some c /\ confirms q c
    /\ forall q' hex12' asset12' event12' now' db2 db3 r,
         receipts_once db2 -> db_confirmations db2 !! i = Some c -> cq_ReceiptID q' = cq_ReceiptID q ->
         runs (ConfirmProfile sha256hex q' hex12' asset12' event12' now') db2 db3 r ->
         db_confirmations db3 = db_confirmations db2 /\ (confirms q' c \/ db3 = db2 /\ is_ok r = false).
Proof.
  intros Ho Hne R. assert (exists i c, db_confirmations db1 !! i = Some c /\ confirms q c /\ receipts_once db1) as (i & c & Hi & Hc & Ho1).
  { apply confirm_run in R as [[_ [=]]|[(i & c & Hi & Hc & E)|(c & Hc & E & Hnew & Hno)]]; [| |done].
    - exists i, c. rewrite E. split_and!; [done|done|]. unfold receipts_once. by rewrite E.
    - exists (cf_ID c), c. rewrite E, lookup_insert_eq. split_and!; [done|done|]. destruct Hc as (_ & _ & Er).
      intros k k' a a'. rewrite E, !lookup_insert_Some. intros [[<- <-]|[_ Hk]] [[<- <-]|[_ Hk']] Ea Hna; [done| | |by eapply Ho].
      + destruct (Hno _ _ Hk'). congruence.
      + destruct (Hno _ _ Hk). congruence. }
  split; [done|]. exists i, c. split_and!; [done|done|]. intros q' hex12' asset12' event12' now' db2 db3 r Ho2 Hi2 Er R'.
  apply confirm_run in R' as [[-> Hr]|[(j & c2 & Hj & Hc2 & E)|(c2 & Hc2 & E & Hnew & Hno)]]; [auto| | |congruence].
  - split; [done|]. left. assert (i = j) as <-.
    { eapply (Ho2 i j c c2 Hi2 Hj); destruct Hc as (_ & _ & E1), Hc2 as (_ & _ & E2); congruence. }
    rewrite Hi2 in Hj. by injection Hj as <-.
  - destruct (Hno _ _ Hi2). destruct Hc as (_ & _ & E1). congruence.
Qed.
(** A profile confirmed by a receipt. *)
Definition example_request (patch : string) : ConfirmRequest :=
  {| cq_ProfileID := "sp_1"; cq_WorkspaceID := "w1"; cq_SessionID := "s1"; cq_ConfirmedBy := "u1"; cq_Scope := "workspace"; cq_OverridesJSON := patch;
     cq_ReceiptID := "rc_1"; cq_Provenance := "authorization_receipt" |}.
Definition patch_a : string := MarshalMap [("a", JStr "units")].
Definition confirm_a (hex12 : string) : M (SemanticProfile * list string) :=
  ConfirmProfile plain_hash (example_request patch_a) hex12 (text ["a"; hex12]) (text ["e"; hex12]) 3.
Definition example_confirmed : Db := run_of (confirm_a "1") example_imported [].
Lemma receipt_confirms_once_witness :
  (exists x, runs (confirm_a "1") example_imported example_confirmed (Ok x)) /\ receipts_once example_confirmed
  /\ exists i c, db_confirmations example_confirmed !! i = Some c /\ confirms (example_request patch_a) c
     /\ forall q' hex12' asset12' event12' now' db2 db3 r,
          receipts_once db2 -> db_confirmations db2 !! i = Some c -> cq_ReceiptID q' = cq_ReceiptID (example_request patch_a) ->
          runs (ConfirmProfile plain_hash q' hex12' asset12' event12' now') db2 db3 r ->
          db_confirmations db3 = db_confirmations db2 /\ (confirms q' c \/ db3 = db2 /\ is_ok r = false).
Proof.
  pose proof (runs_of (confirm_a "1") example_imported []) as R.
  assert (exists x, (confirm_a "1" {| w_db := example_imported; w_faults := [] |}).2 = Ok x) as (x & E) by (eexists; vm_compute; reflexivity).
  rewrite E in R. split; [by exists x|]. assert (receipts_once example_imported) as Ho.
  { intros i j c c' Hi. assert (db_confirmations example_imported = ∅) as En by (vm_compute; reflexivity). rewrite En, lookup_empty in Hi. discriminate Hi. }
  assert (cq_ReceiptID (example_request patch_a) <> "") as Hne by done.
  exact (receipt_confirms_once plain_hash (example_request patch_a) "1" "a1" "e1" 3 example_imported example_confirmed x Ho Hne R).
Defined.

(** * Where the operations fall short *)

(** The removal holds the upload lock only while it drops a table.  An import that runs
    between its reading of the snapshots and its last writes loses its binding: the removal
    reports success, and the imported snapshot and its table stay, bound to nothing. *)
Lemma removal_unbinds_new_import :
  let key := SourceObjectKey plain_hash "ds_a" SourceTypeFileUpload "" "" in
  let selected := List.filter (of_object plain_hash "s1" "ds_a" key) (newest_first sn_ImportedAt (rows (db_snapshots example_imported) (fun s => sn_SourceID s =? "ds_a"))) in
  let imported := run_of (import_file "2") example_imported [] in
  let removed := exec (remove_object DropTable "s1" "ds_a" key selected) imported in
  map sb_ActiveSnapshotID (map snd (map_to_list (db_bindings imported))) = ["snap_2"] /\ removed.2 = Ok tt
  /\ db_bindings removed.1 = ∅ /\ (sn_Status <$> db_snapshots removed.1 !! "snap_2") = Some SnapshotStatusReady
  /\ has (db_tables removed.1) ("s1", "analysis_snap_2") = true
  /\ exec remove_file removed.1 = (removed.1, Ok tt).
Proof. vm_compute. done. Qed.

(** A live binding that fails once its profile is stored leaves its snapshot in the state
    creating, without a message; an import marks it failed. *)
Definition bind_orders : M SnapshotImportResult :=
  BindLiveSourceObject plain_hash "ds_a" "s1" "w1" "public" "orders" (fun _ => Ok tt)
    (Ok {| lm_Columns := [("id", "integer")]; lm_RowCountEstimate := 10 |}) "public.orders" 1 1 "3" "3" 4.
Lemma failed_live_stays_creating :
  let db := run_of bind_orders example_imported [None; None; None; Some "disk full"] in
  is_ok (bind_orders {| w_db := example_imported; w_faults := [None; None; None; Some "disk full"] |}).2 = false
  /\ (fun s => (sn_Status s, sn_ErrorMessage s)) <$> db_snapshots db !! "snap_3" = Some (SnapshotStatusCreating, None)
  /\ has (db_profiles db) "sp_3" = true.
Proof. vm_compute. done. Qed.
