(* ===== verification/Csv.v ===== *)
(** [encoding/csv] as the importer uses it: what successive calls of [Reader.Read] return, up
    to the first error, with the settings of [csv.NewReader]; and that a table written with
    every field quoted is read back ([reads_quoted]). *)
From S2P Require Import Prelude GoStrings GoText SqlGuard.
From Stdlib Require Import Ascii.
Open Scope string_scope.
Open Scope list_scope.

Inductive CsvError := ErrBareQuote | ErrQuote | ErrFieldCount.
Definition NL : ascii := "010".
Definition CR : ascii := "013".

(** * Lines *)

(** [readLine] ends a line with a line feed where it ended with a carriage return as well,
    and drops a carriage return before the end of the file. *)
Fixpoint normalize (l : bytes) : bytes :=
  match l with
  | [] => []
  | c :: l' =>
      if Ascii.eqb c CR then
        match l' with
        | [] => []
        | d :: _ => if Ascii.eqb d NL then normalize l' else c :: normalize l'
        end
      else c :: normalize l'
  end.

(** * Records *)

(** Where the reader is: between records, before a field, in a field without quotes, within
    quotes, or after a quote within quotes; with the fields and the bytes read so far. *)
Inductive state :=
| LineStart
| FieldStart (fields : list bytes)
| Plain (fields : list bytes) (field : bytes)
| Quoted (fields : list bytes) (field : bytes)
| QuoteSeen (fields : list bytes) (field : bytes).
Definition start_field (fields : list bytes) (c : ascii) : state + list bytes :=
  if Ascii.eqb c dquote then inl (Quoted fields [])
  else if Ascii.eqb c "," then inl (FieldStart (fields ++ [[]]))
  else if Ascii.eqb c NL then inr (fields ++ [[]])
  else inl (Plain fields [c]).
(** One byte: the next state, or the record it ends. *)
Definition csv_step (s : state) (c : ascii) : res CsvError (state + list bytes) :=
  match s with
  | LineStart => if Ascii.eqb c NL then Ok (inl LineStart) else Ok (start_field [] c)
  | FieldStart fields => Ok (start_field fields c)
  | Plain fields field =>
      if Ascii.eqb c "," then Ok (inl (FieldStart (fields ++ [field])))
      else if Ascii.eqb c NL then Ok (inr (fields ++ [field]))
      else if Ascii.eqb c dquote then Err ErrBareQuote
      else Ok (inl (Plain fields (field ++ [c])))
  | Quoted fields field => if Ascii.eqb c dquote then Ok (inl (QuoteSeen fields field)) else Ok (inl (Quoted fields (field ++ [c])))
  | QuoteSeen fields field =>
      if Ascii.eqb c dquote then Ok (inl (Quoted fields (field ++ [dquote])))
      else if Ascii.eqb c "," then Ok (inl (FieldStart (fields ++ [field])))
      else if Ascii.eqb c NL then Ok (inr (fields ++ [field]))
      else Err ErrQuote
  end.
Fixpoint records (s : state) (l : bytes) : list (res CsvError (list bytes)) :=
  match l with
  | [] =>
      match s with
      | LineStart => []
      | FieldStart fields => [Ok (fields ++ [[]])]
      | Plain fields field | QuoteSeen fields field => [Ok (fields ++ [field])]
      | Quoted _ _ => [Err ErrQuote]
      end
  | c :: l =>
      match csv_step s c with
      | Err e => [Err e]
      | Ok (inl s) => records s l
      | Ok (inr r) => Ok r :: records LineStart l
      end
  end.
(** The first record says how many fields each has. *)
Fixpoint counted (n : nat) (l : list (res CsvError (list bytes))) : list (res CsvError (list bytes)) :=
  match l with
  | Ok r :: l => if (length r =? n)%nat then Ok r :: counted n l else [Err ErrFieldCount]
  | Err e :: _ => [Err e]
  | [] => []
  end.
Definition reads (content : bytes) : list (res CsvError (list bytes)) :=
  match records LineStart (normalize content) with
  | Ok r :: l => Ok r :: counted (length r) l
  | l => l
  end.

(** * Reading back what was quoted *)

Definition quote_field (f : bytes) : bytes := dquote :: double_byte dquote f ++ [dquote].
Fixpoint write_record (r : list bytes) : bytes :=
  match r with
  | [] => []
  | [f] => quote_field f ++ [NL]
  | f :: r => quote_field f ++ ("," : ascii) :: write_record r
  end.
Definition write_table (t : list (list bytes)) : bytes := concat (map write_record t).
Definition no_return (f : bytes) : Prop := CR ∉ f.

Lemma normalize_id l : no_return l -> normalize l = l.
Proof.
  induction l as [|c l IH]; cbn; [done|]. unfold no_return. intros [Hc Hl]%not_elem_of_cons.
  destruct (Ascii.eqb_spec c CR) as [->|_]; [done|]. by rewrite IH.
Qed.
Lemma records_quoted fields field f l :
  records (Quoted fields field) (double_byte dquote f ++ dquote :: l) = records (QuoteSeen fields (field ++ f)) l.
Proof.
  revert field. induction f as [|c f IH]; intros field; cbn [double_byte app]; [by rewrite app_nil_r|].
  destruct (Ascii.eqb_spec c dquote) as [->|Hc].
  - cbn. rewrite IH. by rewrite <- app_assoc.
  - cbn [app records csv_step]. rewrite (proj2 (Ascii.eqb_neq _ _) Hc). rewrite IH. by rewrite <- app_assoc.
Qed.
Lemma records_record fields r l :
  r <> [] -> records (FieldStart fields) (write_record r ++ l) = Ok (fields ++ r) :: records LineStart l.
Proof.
  intros Hr. revert fields. induction r as [|f r IH]; intros fields; [done|]. destruct r as [|f' r].
  - cbn [write_record]. unfold quote_field. cbn. rewrite <- !app_assoc. cbn. by rewrite records_quoted.
  - change (write_record (f :: f' :: r)) with (quote_field f ++ ("," : ascii) :: write_record (f' :: r)). unfold quote_field. cbn [app records csv_step].
    change (start_field fields dquote) with (inl (B := list bytes) (Quoted fields [])). cbn match.
    rewrite <- !app_assoc. cbn [app]. rewrite records_quoted. cbn [app records csv_step]. change (Ascii.eqb "," dquote) with false. cbn match.
    change (Ascii.eqb "," ",") with true. cbn match. rewrite IH by done. by rewrite <- app_assoc.
Qed.
Lemma records_table t : Forall (fun r => r <> []) t -> records LineStart (write_table t) = map Ok t.
Proof.
  induction 1 as [|r t Hr _ IH]; [done|]. unfold write_table in *. cbn [map concat].
  transitivity (records (FieldStart []) (write_record r ++ concat (map write_record t))).
  - destruct r as [|f [|f' r]]; done.
  - rewrite records_record by done. cbn. by rewrite IH.
Qed.
Lemma counted_same n t : Forall (fun r => length r = n) t -> counted n (map Ok t) = map Ok t.
Proof. induction 1 as [|r t Hr _ IH]; cbn; [done|]. by rewrite Hr, Nat.eqb_refl, IH. Qed.
Lemma double_no_return f : no_return f -> no_return (double_byte dquote f).
Proof.
  unfold no_return. induction f as [|c f IH]; cbn; [done|]. intros [Hc Hf]%not_elem_of_cons. specialize (IH Hf).
  destruct (Ascii.eqb c dquote); rewrite !not_elem_of_cons; [|done]. split; [done|]. split; [done|]. done.
Qed.
Lemma write_record_no_return r : Forall no_return r -> no_return (write_record r).
Proof.
  unfold no_return. induction 1 as [|f r Hf Hr IH]; [apply not_elem_of_nil|].
  assert (Hq : no_return (quote_field f)).
  { unfold quote_field, no_return. rewrite not_elem_of_cons, not_elem_of_app, not_elem_of_cons. split_and!; [done|by apply double_no_return|done|apply not_elem_of_nil]. }
  destruct r as [|f' r].
  - cbn [write_record]. rewrite not_elem_of_app, not_elem_of_cons. split_and!; [done..|apply not_elem_of_nil].
  - change (write_record (f :: f' :: r)) with (quote_field f ++ ("," : ascii) :: write_record (f' :: r)).
    rewrite not_elem_of_app, not_elem_of_cons. split_and!; done.
Qed.
Lemma reads_quoted n t :
  Forall (fun r => r <> [] /\ length r = n /\ Forall no_return r) t -> reads (write_table t) = map Ok t.
Proof.
  intros H. unfold reads. rewrite normalize_id.
  - rewrite records_table by (eapply Forall_impl; [exact H|]; cbn; tauto). destruct H as [|r t (_ & Hr & _) H]; [done|]. cbn.
    rewrite (counted_same (length r)); [done|]. eapply Forall_impl; [exact H|]. cbn. intros r' (_ & -> & _). done.
  - unfold no_return, write_table. induction H as [|r t (_ & _ & Hr) _ IH]; [apply not_elem_of_nil|]. cbn. rewrite not_elem_of_app.
    split; [by apply write_record_no_return|done].
Qed.
