(* ===== verification/Ingest.v ===== *)
(** The import of files into a session's analysis database ([data/ingester.go]) and what is
    read back of a table's shape and content ([extractSchemaInternal] of [data/schema.go]).

    The database is SQLite, whose own rules are the class [SQLite]: which columns it creates,
    what it makes of a value it stores, its texts and its equality.  A workbook is what
    [excelize] says of it. *)
From S2P Require Import Prelude GoStrings Json Tools GoText SqlGuard StateTools Calls Sources Csv.
From Stdlib Require Import Ascii SpecFloat.
Open Scope string_scope.
Open Scope list_scope.

(** * Tables *)

Inductive Value := VNull | VInt (n : Z) | VReal (f : spec_float) | VText (s : string) | VBlob (s : string).
(** The columns with their declared types; the rows in the order of their rowids, from 1.  A
    table is found by its exact name: the service makes them up in lower case. *)
Record Table := { tb_Columns : list (string * string); tb_Rows : list (list Value) }.
Abbreviation Tables := (gmap string Table).
Abbreviation D := (Calls.M Tables).

Class SQLite := {
  accepts : list (string * string) -> bool;      (* whether a table is created with these columns *)
  affinity : string -> Value -> Value;           (* a value stored in a column of a declared type *)
  as_text : Value -> string;                     (* CAST(v AS TEXT), where it is not NULL *)
  same_value : Value -> Value -> bool            (* equality in COUNT(DISTINCT ...) *)
}.
(** What is documented of values stored as text. *)
Class SQLiteLaws `{SQLite} := {
  accepts_names : forall columns, accepts columns = true -> NoDup (map fst columns);
  affinity_text : forall s, affinity "TEXT" (VText s) = VText s;
  affinity_null : forall t, affinity t VNull = VNull;
  as_text_text : forall s, as_text (VText s) = s;
  same_text : forall a b, same_value (VText a) (VText b) = (a =? b)
}.

Inductive ColumnType := TypeText | TypeInteger | TypeReal | TypePreserve.
Definition SQLType (t : ColumnType) : string :=
  match t with TypeInteger => "INTEGER" | TypeReal => "REAL" | TypePreserve => "BLOB" | TypeText => "TEXT" end.
Definition ident_text (e : IdentError) : string :=
  match e with
  | EmptyIdent => "empty SQL identifier"
  | NulIdent => "SQLite identifier contains NUL byte"
  | LongIdent shown => text ["SQL identifier too long: "; shown]
  | BadIdent name => text ["invalid characters in SQL identifier: "; name]
  end.
Definition quoted_ident_text (e : IdentError) : string :=
  match e with EmptyIdent => "empty SQLite identifier" | e => ident_text e end.

Section ingest.
Context `{SQLite}.
(** [ParseFloat]: [strconv.ParseFloat] with 64 bits; [csv_text]: the text of a reader's
    error, which names a line and a column. *)
Context (ParseFloat : string -> option spec_float) (csv_text : CsvError -> string).

(** ** Creating and filling a table *)

Definition valid_table (table : string) : D unit :=
  match ValidateSQLIdent table with Ok _ => ret tt | Err e => fail (SWrap "invalid table name" (SText (ident_text e))) end.
Fixpoint quote_columns (i : Z) (columns : list string) : res SErr (list string) :=
  match columns with
  | [] => Ok []
  | c :: columns =>
      match QuoteSQLiteIdentifier c with
      | Err e => Err (SWrap (text ["invalid column name at position "; itoa i]) (SText (quoted_ident_text e)))
      | Ok q => match quote_columns (i + 1) columns with Ok qs => Ok (q :: qs) | Err e => Err e end
      end
  end.
Definition column_type (types : list ColumnType) (i : nat) : string := match types !! i with Some t => SQLType t | None => "TEXT" end.
Definition createTableTyped (table : string) (columns : list string) (types : list ColumnType) : D unit :=
  do _ := valid_table table in
  do _ := lift_res (quote_columns 1 columns) in
  let defs := imap (fun i c => (c, column_type types i)) columns in
  wrap "failed to create table" (write (fun db =>
    guard negb (has db table) else SText (text ["table "; table; " already exists"]) ;;
    guard accepts defs else SText "duplicate column name" ;;
    Ok (<[table := {| tb_Columns := defs; tb_Rows := [] |}]> db))).
(** [strconv.ParseInt] in base ten with 64 bits. *)
Definition all_digits (l : list ascii) : bool := match l with [] => false | _ => forallb (fun c => (48 <=? nat_of_ascii c)%nat && (nat_of_ascii c <=? 57)%nat) l end.
Definition digits_value (l : list ascii) : Z := fold_left (fun n c => (n * 10 + (Z.of_nat (nat_of_ascii c) - 48))%Z) l 0%Z.
Definition ParseInt (s : string) : option Z :=
  let '(negative, digits) := match to_bytes s with
                             | c :: l => if Ascii.eqb c "-" then (true, l) else if Ascii.eqb c "+" then (false, l) else (false, c :: l)
                             | [] => (false, []) end in
  if all_digits digits then
    let n := if negative : bool then (- digits_value digits)%Z else digits_value digits in
    if ((- 2 ^ 63 <=? n) && (n <? 2 ^ 63))%Z then Some n else None
  else None.
Definition convert_value (t : ColumnType) (raw : string) : Value :=
  match t with
  | TypeInteger => let trimmed := TrimSpace raw in if trimmed =? "" then VNull else match ParseInt trimmed with Some n => VInt n | None => VText raw end
  | TypeReal => let trimmed := TrimSpace raw in if trimmed =? "" then VNull else match ParseFloat trimmed with Some f => VReal f | None => VText raw end
  | _ => VText raw
  end.
(** A row that is short is filled with NULL; what it has beyond the columns is left out. *)
Definition convert_row (columns : list string) (types : list ColumnType) (row : list string) : list Value :=
  imap (fun i _ => match row !! i with
                   | None => VNull
                   | Some raw => convert_value (match types !! i with Some t => t | None => TypeText end) raw
                   end) columns.
(** One row of a prepared statement. *)
Definition stored_row (columns : list (string * string)) (row : list Value) : list Value := zip_with (fun c v => affinity c.2 v) columns row.
Definition insert_row (table : string) (columns : list string) (row : list Value) : D unit :=
  require (length row =? length columns)%nat
  else SText (text ["row has "; itoa (Z.of_nat (length row)); " values; table has "; itoa (Z.of_nat (length columns)); " columns"]) ;;
  write (fun db =>
    match db !! table with
    | Some t => Ok (<[table := {| tb_Columns := tb_Columns t; tb_Rows := tb_Rows t ++ [stored_row (tb_Columns t) row] |}]> db)
    | None => Err (SText (text ["no such table: "; table]))
    end).
Fixpoint insert_rows (table : string) (columns : list string) (rows : list (list Value)) : D unit :=
  match rows with
  | [] => ret tt
  | row :: rows => do _ := insert_row table columns row in insert_rows table columns rows
  end.
(** Preparing the statement names the table and its columns. *)
Definition prepare (table : string) (columns : list string) : D unit :=
  read (fun db =>
    match db !! table with
    | Some t => if bool_decide (map fst (tb_Columns t) = columns) then Ok tt else Err (SText "no such column")
    | None => Err (SText (text ["no such table: "; table]))
    end).
Definition insertBatchValues (table : string) (columns : list string) (rows : list (list Value)) : D unit :=
  match rows with
  | [] => ret tt
  | _ =>
      do _ := valid_table table in
      transaction (do _ := lift_res (quote_columns 1 columns) in do _ := prepare table columns in insert_rows table columns rows)
  end.
Definition insertBatchTyped (table : string) (columns : list string) (types : list ColumnType) (rows : list (list string)) : D unit :=
  match rows with [] => ret tt | _ => insertBatchValues table columns (map (convert_row columns types) rows) end.

(** ** Importing *)

Definition drop_incomplete (table : string) : D unit := write (fun db => Ok (delete table db)).
(** The deferred removal of a table that could not be completed. *)
Definition or_drop {A} (table : string) (m : D A) : D A :=
  do r := try m in
  match r with
  | Ok a => ret a
  | Err e =>
      do dropped := try (drop_incomplete table) in
      match dropped with
      | Ok _ => fail e
      | Err d => fail (SAlso e (text ["additionally failed to drop incomplete table "; table; ": "; Error d]))
      end
  end.
Definition batchSize : Z := 5000.
Definition count {A} (l : list A) : Z := Z.of_nat (length l).
(** The rows of a file in batches: [check] is what is refused of a row, with its number. *)
Fixpoint load (table : string) (columns : list string) (check : Z -> res SErr (list string) -> res SErr (list string))
    (rows : list (res SErr (list string))) (batch : list (list string)) (rowCount : Z) : D Z :=
  match rows with
  | [] =>
      match batch with
      | [] => ret rowCount
      | _ => do _ := insertBatchTyped table columns (map (fun _ => TypeText) columns) batch in ret (rowCount + count batch)%Z
      end
  | row :: rows =>
      match check (rowCount + count batch + 2)%Z row with
      | Err e => fail e
      | Ok record =>
          let batch := batch ++ [record] in
          if (batchSize <=? count batch)%Z then
            do _ := insertBatchTyped table columns (map (fun _ => TypeText) columns) batch in
            load table columns check rows [] (rowCount + count batch)%Z
          else load table columns check rows batch rowCount
      end
  end.

Definition csv_check (colCount : Z) (n : Z) (row : res SErr (list string)) : res SErr (list string) :=
  match row with
  | Err e => Err (SStructure (text ["failed to read CSV row "; itoa n; ": "; Error e]))
  | Ok record =>
      guard (count record =? colCount)%Z
      else SStructure (text ["CSV row "; itoa n; " has "; itoa (count record); " fields; header has "; itoa colCount]) ;;
      Ok record
  end.
Definition csv_row (r : res CsvError (list bytes)) : res SErr (list string) :=
  match r with Ok fields => Ok (map of_bytes fields) | Err e => Err (SText (csv_text e)) end.
Definition importCSV (content : res SErr bytes) (table : string) : D (Z * Z) :=
  do content := wrap "failed to open CSV file" (lift_res content) in
  match map csv_row (reads content) with
  | [] => fail (SWrap "failed to read CSV headers" (SText "EOF"))
  | Err e :: _ => fail (SWrap "failed to read CSV headers" e)
  | Ok headers :: rows =>
      require negb (count headers =? 0)%Z else SStructure "CSV file has no headers" ;;
      do _ := createTableTyped table headers (map (fun _ => TypeText) headers) in
      or_drop table (do rowCount := load table headers (csv_check (count headers)) rows [] 0 in ret (rowCount, count headers))
  end.

(** A workbook: its sheets, whether each is shown, and the rows of a sheet. *)
Record Workbook := { wb_Sheets : list (string * res SErr bool); wb_Rows : string -> res SErr (list (res SErr (list string))) }.
Definition visibleSheetNames (wb : Workbook) : list string :=
  map fst (List.filter (fun s => match s.2 with Ok false => false | _ => true end) (wb_Sheets wb)).
Definition ExcelSheetNames (file : res SErr Workbook) : res SErr (list string) :=
  match file with Err e => Err (SWrap "failed to open Excel file" e) | Ok wb => Ok (visibleSheetNames wb) end.
Definition choose_sheet (names : list string) (worksheet : string) : res SErr string :=
  if negb (worksheet =? "") then
    guard existsb (String.eqb worksheet) names
    else SStructure (text ["worksheet "; Tools.quoted worksheet; " not found; available worksheets: "; String.concat ", " names]) ;;
    Ok worksheet
  else
    match names with
    | [name] => Ok name
    | _ => Err (SStructure (text ["Excel workbook has "; itoa (count names); " worksheets; worksheet selection is required (available: "; String.concat ", " names; ")"]))
    end.
Definition excel_check (colCount : Z) (n : Z) (row : res SErr (list string)) : res SErr (list string) :=
  match row with
  | Err e => Err (SWrap (text ["failed to read Excel row "; itoa n]) e)
  | Ok cells =>
      guard (count cells <=? colCount)%Z
      else SStructure (text ["Excel row "; itoa n; " has "; itoa (count cells); " cells; header has "; itoa colCount]) ;;
      Ok cells
  end.
Definition importExcel (file : res SErr Workbook) (table worksheet : string) : D (Z * Z) :=
  do wb := wrap "failed to open Excel file" (lift_res file) in
  do sheet := lift_res (choose_sheet (visibleSheetNames wb) worksheet) in
  do rows := wrap "failed to read Excel data" (lift_res (wb_Rows wb sheet)) in
  match rows with
  | [] => fail (SStructure "Excel file is empty")
  | Err e :: _ => fail (SWrap "failed to read Excel headers" e)
  | Ok headers :: rows =>
      require negb (count headers =? 0)%Z else SStructure "Excel file has no headers" ;;
      do _ := createTableTyped table headers (map (fun _ => TypeText) headers) in
      or_drop table
        (do rowCount := load table headers (excel_check (count headers)) rows [] 0 in
         require negb (rowCount =? 0)%Z else SStructure "Excel data area is empty" ;;
         ret (rowCount, count headers))
  end.
(** A file by the extension of its name, in lower case. *)
Inductive SourceData := CsvData (content : res SErr bytes) | ExcelData (file : res SErr Workbook) | OtherData (ext : string).
Definition ImportFileRawAs (data : SourceData) (table worksheet : string) : D (string * Z * Z) :=
  match ValidateSQLIdent table with
  | Err e => fail (SWrap "invalid exact table name" (SText (ident_text e)))
  | Ok _ =>
      do counts := match data with
                   | CsvData content => importCSV content table
                   | ExcelData file => importExcel file table worksheet
                   | OtherData ext => fail (SText (text ["unsupported file format: "; ext]))
                   end in
      ret (table, counts.1, counts.2)
  end.

(** ** The shape of a table *)

Definition schemaDistinctProbeRows : nat := 200.
Definition nonempty_value (v : Value) : bool := match v with VNull => false | VText s => negb (s =? "") | _ => true end.
Definition column_values (rows : list (list Value)) (j : nat) : list Value := omap (fun row => row !! j) rows.
(** The first of each class of equal values. *)
Fixpoint distinct_values (seen l : list Value) : list Value :=
  match l with
  | [] => []
  | v :: l => if existsb (same_value v) seen then distinct_values seen l else v :: distinct_values (v :: seen) l
  end.
Definition text_le (a b : string) : Prop := String.leb a b = true.
#[global] Instance text_le_dec : RelDecision text_le.
Proof. intros a b. unfold text_le. apply _. Defined.
(** SELECT DISTINCT CAST(column AS TEXT) ... ORDER BY 1 LIMIT n. *)
Definition collectDistinctColumnValues (rows : list (list Value)) (j limit : nat) : list string :=
  let texts := map as_text (List.filter (fun v => nonempty_value v && negb (as_text v =? "")) (column_values rows j)) in
  take limit (merge_sort text_le (remove_dups texts)).
Definition f64 (n : Z) : spec_float := binary_normalize 53 1024 n 0 false.
Definition rate (part whole : Z) : spec_float := if (0 <? whole)%Z then SFdiv 53 1024 (f64 part) (f64 whole) else S754_zero false.
Definition column_info (rows : list (list Value)) (total : Z) (sampled : bool) (j : nat) (c : string * string) : ColumnInfo :=
  let values := List.filter nonempty_value (column_values rows j) in
  {| ci_Name := c.1; ci_DeclaredType := c.2; ci_NonEmptyRate := rate (count values) total; ci_UniqueCount := count (distinct_values [] values);
     ci_SampleValues := take 5 (collectDistinctColumnValues rows j schemaDistinctProbeRows); ci_Estimated := sampled |}.
(** Every [stride]-th row from the first, at most [bound] of them; the stride is the ceiling
    of a quotient of floats, which is that of the integers below 2^53 rows. *)
Definition stride (rowCount bound : Z) : Z := ((rowCount + bound - 1) / bound)%Z.
Fixpoint every (n : nat) (skip : nat) (rows : list (list Value)) : list (list Value) :=
  match rows with
  | [] => []
  | row :: rows => match skip with 0 => row :: every n (n - 1) rows | S skip => every n skip rows end
  end.
Definition sample (rowCount bound : Z) (rows : list (list Value)) : list (list Value) := take (Z.to_nat bound) (every (Z.to_nat (stride rowCount bound)) 0 rows).
(** The statements for one column: the rows that are not empty, for a sample its size, the
    distinct values and the first of their texts. *)
Definition observe_column (rows : list (list Value)) (total : Z) (sampled : bool) (j : nat) (c : string * string) : D ColumnInfo :=
  do _ := match QuoteSQLiteIdentifier c.1 with Ok _ => ret tt | Err e => fail (SWrap "invalid observed column name" (SText (quoted_ident_text e))) end in
  do _ := wrap (text ["failed to count non-empty values for "; Tools.quoted c.1]) (read (fun _ => Ok tt)) in
  do _ := if sampled then wrap (text ["failed to count sample rows for "; Tools.quoted c.1]) (read (fun _ => Ok tt)) else ret tt in
  do _ := wrap (text ["failed to count distinct values for "; Tools.quoted c.1]) (read (fun _ => Ok tt)) in
  do _ := wrap (text ["failed to observe distinct values for "; Tools.quoted c.1]) (read (fun _ => Ok tt)) in
  ret (column_info rows total sampled j c).
Fixpoint observe_columns (rows : list (list Value)) (total : Z) (sampled : bool) (j : nat) (columns : list (string * string)) : D (list ColumnInfo) :=
  match columns with
  | [] => ret []
  | c :: columns =>
      do info := observe_column rows total sampled j c in
      do infos := observe_columns rows total sampled (j + 1) columns in
      ret (info :: infos)
  end.
(** The view of the sample is dropped again, whatever happened. *)
Definition with_sample {A} (m : D A) : D A :=
  do _ := wrap "failed to clear bounded schema sample" (read (fun _ => Ok tt)) in
  do _ := wrap "failed to create bounded schema sample" (read (fun _ => Ok tt)) in
  do r := try (do _ := wrap "failed to count bounded schema sample" (read (fun _ => Ok tt)) in m) in
  do dropped := try (wrap "failed to drop bounded schema sample" (read (fun _ => Ok tt))) in
  match r, dropped with
  | Ok a, Ok _ => ret a
  | Ok _, Err d => fail d
  | Err e, Ok _ => fail e
  | Err e, Err d => fail (SJoin e d)
  end.
Definition table_info (table : string) : D (list (string * string)) :=
  wrap "failed to get column info" (read (fun db => match db !! table with Some t => Ok (tb_Columns t) | None => Ok [] end)).
Definition extractSchemaInternal (table : string) (sampleRows : Z) : D SchemaInfo :=
  do _ := valid_table table in
  do rows := wrap "failed to get row count"
    (read (fun db => match db !! table with Some t => Ok (tb_Rows t) | None => Err (SText (text ["no such table: "; table])) end)) in
  let rowCount := count rows in
  if ((0 <? sampleRows) && (sampleRows <? rowCount))%Z then
    let sampled := sample rowCount sampleRows rows in
    with_sample
      (do columns := table_info table in
       do infos := observe_columns sampled (count sampled) true 0 columns in
       ret {| sc_TableName := table; sc_RowCount := rowCount; sc_Columns := infos;
              sc_Sampling := {| si_Method := "systematic_rowid_stride"; si_SourceRows := rowCount; si_SampleRows := count sampled; si_Estimated := true |} |})
  else
    do columns := table_info table in
    do infos := observe_columns rows rowCount false 0 columns in
    ret {| sc_TableName := table; sc_RowCount := rowCount; sc_Columns := infos;
           sc_Sampling := {| si_Method := "full_table"; si_SourceRows := rowCount; si_SampleRows := rowCount; si_Estimated := false |} |}.
Definition ExtractSchema (table : string) : D SchemaInfo := extractSchemaInternal table 0.
Definition ExtractSchemaBounded (table : string) (sampleRows : Z) : D SchemaInfo :=
  require (0 <=? sampleRows)%Z else SText "sample row bound cannot be negative" ;; extractSchemaInternal table sampleRows.
End ingest.
