(* ===== verification/IngestProps.v ===== *)
(** What an import does to a session's analysis database: the whole file or nothing
    ([import_all_or_nothing]), every record of a file that is a table
    ([csv_import_exact]); and how much of a table is looked at to describe it
    ([sample_bounded]). *)
From S2P Require Import Prelude GoStrings Json Tools GoText SqlGuard StateTools Calls Sources Csv Ingest.
From Stdlib Require Import Ascii.
Open Scope string_scope.
Open Scope list_scope.

Section props.
Context `{SQLite} (ParseFloat : string -> option SpecFloat.spec_float) (csv_text : CsvError -> string).
Abbreviation convert_row := (Ingest.convert_row ParseFloat).
Abbreviation insertBatchTyped := (Ingest.insertBatchTyped ParseFloat).
Abbreviation load := (Ingest.load ParseFloat).
Abbreviation importCSV := (Ingest.importCSV ParseFloat csv_text).
Abbreviation importExcel := (Ingest.importExcel ParseFloat).
Abbreviation ImportFileRawAs := (Ingest.ImportFileRawAs ParseFloat csv_text).
Abbreviation texts columns := (map (fun _ : string => TypeText) columns).

(** * Filling a table *)

(** [t] with the rows of a batch. *)
Definition append (columns : list string) (t : Table) (rows : list (list string)) : Table :=
  {| tb_Columns := tb_Columns t; tb_Rows := tb_Rows t ++ map (fun r => stored_row (tb_Columns t) (convert_row columns (texts columns) r)) rows |}.
Definition append_rows (t : Table) (rows : list (list Value)) : Table :=
  {| tb_Columns := tb_Columns t; tb_Rows := tb_Rows t ++ map (stored_row (tb_Columns t)) rows |}.
Lemma append_nil columns t : append columns t [] = t.
Proof. destruct t as [cs rs]. unfold append. cbn. by rewrite app_nil_r. Qed.
Lemma append_app columns t l1 l2 : append columns (append columns t l1) l2 = append columns t (l1 ++ l2).
Proof. unfold append. cbn. by rewrite map_app, app_assoc. Qed.
Lemma insert_rows_runs table columns rows db db' r t :
  db !! table = Some t -> runs (insert_rows table columns rows) db db' r -> is_ok r = true -> db' = <[table := append_rows t rows]> db.
Proof.
  revert db t. induction rows as [|row rows IH]; intros db t Ht R Hr.
  - apply runs_ret in R as (-> & _). destruct t as [cs rs]. unfold append_rows. cbn. rewrite app_nil_r. by rewrite insert_id.
  - apply runs_bind in R as [(e & R & ->)|([] & d & R1 & R)]; [done|]. unfold insert_row in R1.
    destruct (_ =? _)%nat; [|by apply runs_fail in R1 as (_ & [=])]. apply runs_write in R1 as [(e & _ & [=])|(E & _)]. rewrite Ht in E. injection E as <-.
    eapply IH in R; [|apply lookup_insert_eq|done]. rewrite R, insert_insert_eq. unfold append_rows. cbn. by rewrite <- app_assoc.
Qed.
Lemma insert_batch_runs table columns batch db db' r t :
  db !! table = Some t -> runs (insertBatchTyped table columns (texts columns) batch) db db' r ->
  db' = db /\ is_ok r = false \/ db' = <[table := append columns t batch]> db /\ r = Ok tt.
Proof.
  intros Ht R. unfold Ingest.insertBatchTyped in R. destruct batch as [|row batch].
  { apply runs_ret in R as (-> & ->). right. split; [|done]. rewrite append_nil. by rewrite insert_id. }
  unfold insertBatchValues in R. cbn [map] in R. apply runs_bind in R as [(e & R & ->)|([] & d & R1 & R)].
  { left. split; [|done]. unfold valid_table in R. destruct (ValidateSQLIdent table); [by apply runs_ret in R as (_ & [=])|by apply runs_fail in R as (-> & _)]. }
  assert (d = db) as ->. { unfold valid_table in R1. destruct (ValidateSQLIdent table); [by apply runs_ret in R1 as (-> & _)|by apply runs_fail in R1 as (_ & [=])]. }
  apply transaction_runs in R as [(e & -> & ->)|(-> & R)]; [by left|right; split; [|done]].
  apply runs_bind in R as [(e & _ & [=])|(? & d & R2 & R)]. apply runs_lift in R2 as (-> & _).
  apply runs_bind in R as [(e & _ & [=])|([] & d & R2 & R)]. apply runs_read in R2 as (-> & _).
  eapply insert_rows_runs in R; [|done..]. rewrite R. unfold append_rows, append. cbn. by rewrite map_map.
Qed.

(** * The rows of a file *)

Fixpoint check_all (check : Z -> res SErr (list string) -> res SErr (list string)) (k : Z) (rows : list (res SErr (list string))) : res SErr (list (list string)) :=
  match rows with
  | [] => Ok []
  | row :: rows => match check k row with Err e => Err e | Ok r => match check_all check (k + 1) rows with Ok l => Ok (r :: l) | Err e => Err e end end
  end.
Lemma count_app {A} (l1 l2 : list A) : count (l1 ++ l2) = (count l1 + count l2)%Z.
Proof. unfold count. rewrite length_app. lia. Qed.
Lemma count_map {A B} (f : A -> B) l : count (map f l) = count l.
Proof. unfold count. by rewrite length_map. Qed.
Lemma count_append columns t rows : count (tb_Rows (append columns t rows)) = (count (tb_Rows t) + count rows)%Z.
Proof. unfold append. cbn. by rewrite count_app, count_map. Qed.
(** Loading adds rows to the table and touches nothing else; where it succeeds, it added the
    rows it was given and every row of the file, in order. *)
Lemma load_runs table columns check rows batch rowCount db0 t db' r :
  rowCount = count (tb_Rows t) -> runs (load table columns check rows batch rowCount) (<[table := t]> db0) db' r ->
  match r with
  | Ok n => exists records, check_all check (rowCount + count batch + 2) rows = Ok records
      /\ db' = <[table := append columns t (batch ++ records)]> db0 /\ n = (count (tb_Rows t) + count batch + count records)%Z
  | Err _ => exists t', db' = <[table := t']> db0
  end.
Proof.
  revert batch rowCount t. induction rows as [|row rows IH]; intros batch rowCount t Hn R; cbn [Ingest.load] in R.
  - destruct batch as [|b batch].
    + apply runs_ret in R as (-> & ->). exists []. cbn. rewrite append_nil. split_and!; [done..|]. unfold count in *. cbn. lia.
    + apply runs_bind in R as [(e & R & ->)|([] & d & R1 & R)].
      * pose proof (insert_batch_runs _ _ _ _ _ _ _ (lookup_insert_eq db0 table t) R) as [(-> & _)|(_ & [=])]. by exists t.
      * pose proof (insert_batch_runs _ _ _ _ _ _ _ (lookup_insert_eq db0 table t) R1) as [(_ & [=])|(-> & _)]. apply runs_ret in R as (-> & ->).
        exists []. rewrite app_nil_r, insert_insert_eq. split_and!; [done..|]. unfold count in *. cbn in *. lia.
  - destruct (check _ row) as [record|e] eqn:Ec; [|apply runs_fail in R as (-> & ->); by exists t].
    assert (Hk : (rowCount + count (batch ++ [record]) + 2 = rowCount + count batch + 2 + 1)%Z) by (rewrite count_app; unfold count; cbn; lia).
    destruct (_ <=? _)%Z.
    + apply runs_bind in R as [(e & R & ->)|([] & d & R1 & R)].
      * pose proof (insert_batch_runs _ _ _ _ _ _ _ (lookup_insert_eq db0 table t) R) as [(-> & _)|(_ & [=])]. by exists t.
      * pose proof (insert_batch_runs _ _ _ _ _ _ _ (lookup_insert_eq db0 table t) R1) as [(_ & [=])|(-> & _)]. rewrite insert_insert_eq in R.
        apply IH in R; [|by rewrite count_append, Hn]. destruct r as [n|e]; [|done]. destruct R as (records & E & -> & ->).
        exists (record :: records). cbn [check_all]. rewrite Ec. replace (rowCount + count (batch ++ [record]) + count (@nil (list string)) + 2)%Z with (rowCount + count batch + 2 + 1)%Z in E by (unfold count at 3; cbn; lia).
        rewrite E, append_app, <- app_assoc. split_and!; [done..|]. rewrite count_append, count_app. unfold count. cbn. lia.
    + apply IH in R; [|done]. destruct r as [n|e]; [|done]. destruct R as (records & E & -> & ->). rewrite Hk in E.
      exists (record :: records). cbn [check_all]. rewrite Ec, E, <- app_assoc. split_and!; [done..|]. rewrite count_app. unfold count. cbn. lia.
Qed.

(** * Importing *)

Definition text_columns (headers : list string) : list (string * string) := imap (fun i c => (c, column_type (texts headers) i)) headers.
(** The table of a header and of the records below it. *)
Definition table_of (headers : list string) (records : list (list string)) : Table := append headers {| tb_Columns := text_columns headers; tb_Rows := [] |} records.
(** As before, but perhaps for a table that the error says could not be dropped. *)
Definition unchanged (table : string) (db db' : Tables) (e : SErr) : Prop := db' = db \/ (exists e0 note, e = SAlso e0 note) /\ delete table db' = db.
Lemma create_runs table columns types db db' r :
  runs (createTableTyped table columns types) db db' r ->
  db' = db /\ is_ok r = false
  \/ db !! table = None /\ accepts (imap (fun i c => (c, column_type types i)) columns) = true
     /\ db' = <[table := {| tb_Columns := imap (fun i c => (c, column_type types i)) columns; tb_Rows := [] |}]> db /\ r = Ok tt.
Proof.
  intros R. unfold createTableTyped, valid_table in R. apply runs_bind in R as [(e & R & ->)|([] & d & R1 & R)].
  { left. destruct (ValidateSQLIdent table); [by apply runs_ret in R as (_ & [=])|by apply runs_fail in R as (-> & _)]. }
  assert (d = db) as ->. { destruct (ValidateSQLIdent table); [by apply runs_ret in R1 as (-> & _)|by apply runs_fail in R1 as (_ & [=])]. }
  apply runs_bind in R as [(e & R & ->)|(qs & d & R2 & R)]; [by apply runs_lift in R as (-> & _); left|]. apply runs_lift in R2 as (-> & _).
  apply runs_wrap in R as (y & R & ->). apply runs_write in R as [(e & -> & ->)|(E & ->)]; [by left|]. right.
  unfold has in E. destruct (db !! table) eqn:Ht; [done|]. cbn in E. destruct (accepts _); [|done]. by injection E as <-.
Qed.
Lemma or_drop_runs {A} table (m : D A) db db' r :
  runs (or_drop table m) db db' r ->
  (exists a, r = Ok a /\ runs m db db' (Ok a))
  \/ exists e db1, runs m db db1 (Err e) /\ (r = Err e /\ db' = delete table db1 \/ (exists note, r = Err (SAlso e note)) /\ db' = db1).
Proof.
  intros R. unfold or_drop in R. apply runs_bind in R as [(e & R & ->)|(y & d & R1 & R)]; [by apply runs_try in R as (? & _ & [=])|].
  apply runs_try in R1 as (y' & R1 & [= ->]). destruct y' as [a|e].
  - apply runs_ret in R as (-> & ->). left. eauto.
  - right. exists e, d. split; [done|]. apply runs_bind in R as [(e' & R & ->)|(y & d1 & R2 & R)]; [by apply runs_try in R as (? & _ & [=])|].
    apply runs_try in R2 as (y' & R2 & [= ->]). apply runs_write in R2 as [(e' & -> & ->)|([= <-] & ->)]; apply runs_fail in R as (-> & ->); eauto.
Qed.
(** What both kinds of file have in common, where the end of it keeps the counts. *)
Lemma import_rows_runs table headers check rows db db' r (last : Z -> D (Z * Z)) :
  (forall n d d' x, runs (last n) d d' x -> d' = d /\ forall p, x = Ok p -> p = (n, count headers)) ->
  runs (do _ := createTableTyped table headers (texts headers) in or_drop table (do n := load table headers check rows [] 0 in last n))%go db db' r ->
  match r with
  | Ok p => exists records, check_all check 2 rows = Ok records /\ db !! table = None
      /\ db' = <[table := table_of headers records]> db /\ p = (count records, count headers)
  | Err e => unchanged table db db' e
  end.
Proof.
  intros Hlast R. apply runs_bind in R as [(e & R & ->)|([] & d & R1 & R)].
  { apply create_runs in R as [(-> & _)|(_ & _ & _ & [=])]. by left. }
  apply create_runs in R1 as [(_ & [=])|(Ht & _ & -> & _)]. apply or_drop_runs in R as [(a & -> & R)|(e & d1 & R & Hr)].
  - apply runs_bind in R as [(e & _ & [=])|(n & d1 & R1 & R)]. apply load_runs in R1 as (records & E & -> & ->); [|done].
    apply Hlast in R as (-> & Hp). exists records. split_and!; [done..|]. rewrite (Hp a) by done. done.
  - assert (Hd : exists t', d1 = <[table := t']> db).
    { apply runs_bind in R as [(e' & R & _)|(n & d2 & R1 & R)]; [by apply load_runs in R|].
      apply load_runs in R1 as (records & _ & -> & _); [|done]. apply Hlast in R as (-> & _). eauto. }
    destruct Hd as [t' ->]. destruct Hr as [(-> & ->)|((note & ->) & ->)]; [left|right; split; [by exists e, note|]]; by apply delete_insert_id.
Qed.
Lemma import_csv_runs content table db db' r :
  runs (importCSV content table) db db' r ->
  match r with
  | Ok p => exists bytes headers rows records, content = Ok bytes /\ map (csv_row csv_text) (reads bytes) = Ok headers :: rows
      /\ check_all (csv_check (count headers)) 2 rows = Ok records /\ db !! table = None
      /\ db' = <[table := table_of headers records]> db /\ p = (count records, count headers)
  | Err e => unchanged table db db' e
  end.
Proof.
  intros R. unfold Ingest.importCSV in R. apply runs_bind in R as [(e & R & ->)|(bytes & d & R1 & R)].
  { apply runs_wrap in R as (y & R & E). apply runs_lift in R as (-> & _). by left. }
  apply runs_wrap in R1 as (y & R1 & Ey). apply runs_lift in R1 as (-> & <-). destruct y as [b|]; [|done]. injection Ey as ->.
  destruct (map (csv_row csv_text) (reads b)) as [|[headers|e] rows] eqn:Er; [by apply runs_fail in R as (-> & ->); left| |by apply runs_fail in R as (-> & ->); left].
  destruct (negb _); [|by apply runs_fail in R as (-> & ->); left].
  apply (import_rows_runs table headers (csv_check (count headers)) rows _ _ _ (fun n => ret (n, count headers))) in R.
  - destruct r as [p|e]; [|done]. destruct R as (records & ? & ? & ? & ?). eauto 12.
  - intros n d d' x (-> & ->)%runs_ret. split; [done|]. by intros p [= ->].
Qed.
Lemma import_excel_runs file table worksheet db db' r :
  runs (importExcel file table worksheet) db db' r ->
  match r with
  | Ok p => exists wb sheet headers rows records, file = Ok wb /\ choose_sheet (visibleSheetNames wb) worksheet = Ok sheet
      /\ wb_Rows wb sheet = Ok (Ok headers :: rows) /\ check_all (excel_check (count headers)) 2 rows = Ok records
      /\ records <> [] /\ db !! table = None /\ db' = <[table := table_of headers records]> db /\ p = (count records, count headers)
  | Err e => unchanged table db db' e
  end.
Proof.
  intros R. unfold Ingest.importExcel in R. apply runs_bind in R as [(e & R & ->)|(wb & d & R1 & R)].
  { apply runs_wrap in R as (y & R & E). apply runs_lift in R as (-> & _). by left. }
  apply runs_wrap in R1 as (y & R1 & Ey). apply runs_lift in R1 as (-> & <-). destruct y as [b|]; [|done]. injection Ey as ->.
  apply runs_bind in R as [(e & R & ->)|(sheet & d & R1 & R)]; [by apply runs_lift in R as (-> & _); left|]. apply runs_lift in R1 as (-> & Es).
  apply runs_bind in R as [(e & R & ->)|(all & d & R1 & R)].
  { apply runs_wrap in R as (y & R & E). apply runs_lift in R as (-> & _). by left. }
  apply runs_wrap in R1 as (y & R1 & Ey). apply runs_lift in R1 as (-> & Ea). destruct y as [a|]; [|done]. injection Ey as ->.
  destruct a as [|[headers|e] rows]; [by apply runs_fail in R as (-> & ->); left| |by apply runs_fail in R as (-> & ->); left].
  destruct (negb _); [|by apply runs_fail in R as (-> & ->); left].
  pose proof R as R'. apply (import_rows_runs table headers (excel_check (count headers)) rows _ _ _
    (fun n => if negb (n =? 0)%Z then ret (n, count headers) else fail (SStructure "Excel data area is empty"))) in R.
  - destruct r as [p|e]; [|done]. destruct R as (records & Hc & Hn & -> & ->). exists b, sheet, headers, rows, records. split_and!; try done.
    intros ->. apply runs_bind in R' as [(e & _ & [=])|([] & d & R1 & R)]. apply or_drop_runs in R as [(a & [= <-] & R)|(e & d1 & _ & [([=] & _)|((note & [=]) & _)])].
    apply runs_bind in R as [(e & _ & [=])|(n & d1 & R2 & R)]. destruct (n =? 0)%Z eqn:En; [by apply runs_fail in R as (_ & [=])|].
    apply runs_ret in R as (_ & [= <-]). done.
  - intros n d d' x Hx. destruct (negb _); [apply runs_ret in Hx as (-> & ->); split; [done|by intros p [= ->]]|apply runs_fail in Hx as (-> & ->); by split].
Qed.

Lemma csv_records n k l records :
  check_all (csv_check n) k (map (csv_row csv_text) l) = Ok records -> exists rs, l = map Ok rs /\ records = map (map of_bytes) rs.
Proof.
  revert k records. induction l as [|x l IH]; intros k records E; [injection E as <-; by exists []|]. cbn in E. destruct x as [fields|e]; [|done]. cbn in E.
  destruct (_ =? _)%Z; [|done]. destruct (check_all _ _ _) as [rs|] eqn:Ec; [|done]. injection E as <-. destruct (IH _ _ Ec) as (rs' & -> & ->).
  by exists (fields :: rs').
Qed.
Lemma excel_records n k l records : check_all (excel_check n) k l = Ok records -> l = map Ok records.
Proof.
  revert k records. induction l as [|x l IH]; intros k records E; [by injection E as <-|]. cbn in E. destruct x as [cells|e]; [|done]. cbn in E.
  destruct (_ <=? _)%Z; [|done]. destruct (check_all _ _ _) as [rs|] eqn:Ec; [|done]. injection E as <-. by rewrite (IH _ _ Ec).
Qed.
Lemma table_shape headers records : Forall (fun row => length row = length headers) (tb_Rows (table_of headers records)).
Proof.
  unfold table_of, append. cbn. apply Forall_forall. intros row (r & -> & _)%list_elem_of_fmap.
  unfold stored_row, Ingest.convert_row, text_columns. rewrite length_zip_with, !length_imap. lia.
Qed.

(** C23: whichever calls fail, an import that succeeds made one table that was not there, with
    a column for each header and a row as wide for every record of the file, none left out,
    and reports their numbers; one that fails leaves the database as it was, unless its
    error says that the incomplete table could not be dropped, and then only that table is
    more. *)
Theorem import_all_or_nothing data table worksheet db db' r :
  runs (ImportFileRawAs data table worksheet) db db' r ->
  match r with
  | Ok (name, rowCount, colCount) =>
      exists headers records, name = table /\ db !! table = None /\ db' = <[table := table_of headers records]> db
        /\ rowCount = count records /\ colCount = count headers
        /\ Forall (fun row => length row = length headers) (tb_Rows (table_of headers records))
        /\ match data with
           | CsvData content => exists bytes h rs, content = Ok bytes /\ reads bytes = map Ok (h :: rs) /\ headers = map of_bytes h /\ records = map (map of_bytes) rs
           | ExcelData file => exists wb sheet, file = Ok wb /\ wb_Rows wb sheet = Ok (map Ok (headers :: records)) /\ In sheet (visibleSheetNames wb)
           | OtherData _ => False
           end
  | Err e => unchanged table db db' e
  end.
Proof.
  intros R. unfold Ingest.ImportFileRawAs in R. destruct (ValidateSQLIdent table) as [[]|i]; [|apply runs_fail in R as (-> & ->); by left].
  apply runs_bind in R as [(e & R & ->)|(p & d & R1 & R)].
  - destruct data as [content|file|ext]; [by apply import_csv_runs in R|by apply import_excel_runs in R|apply runs_fail in R as (-> & _); by left].
  - apply runs_ret in R as (-> & ->). destruct data as [content|file|ext]; [| |by apply runs_fail in R1 as (_ & [=])].
    + apply import_csv_runs in R1 as (bytes & headers & rows & records & -> & Er & Hc & Ht & -> & ->). exists headers, records. cbn.
      split_and!; [done..|apply table_shape|]. destruct (reads bytes) as [|x l] eqn:El; [done|]. cbn in Er. injection Er as Ex <-.
      destruct x as [h|e]; [|done]. injection Ex as <-. destruct (csv_records _ _ _ _ Hc) as (rs & -> & ->). exists bytes, h, rs. by rewrite El.
    + apply import_excel_runs in R1 as (wb & sheet & headers & rows & records & -> & Es & Er & Hc & _ & Ht & -> & ->). exists headers, records. cbn.
      split_and!; [done..|apply table_shape|]. exists wb, sheet. split; [done|]. rewrite Er. apply excel_records in Hc as ->. split; [done|].
      unfold choose_sheet in Es. destruct (negb _).
      * destruct (existsb _ _) eqn:E; [|done]. injection Es as <-. apply existsb_exists in E as (x & Hx & ->%String.eqb_eq). done.
      * destruct (visibleSheetNames wb) as [|n [|]]; [done| |done]. injection Es as ->. by left.
Qed.

(** * Without failures *)

Lemma calm_insert_row table columns row : calm (insert_row table columns row).
Proof. unfold insert_row. destruct (_ =? _)%nat; auto with calm. Qed.
Lemma calm_insert_rows table columns rows : calm (insert_rows table columns rows).
Proof. induction rows as [|row rows IH]; cbn; [auto with calm|]. apply calm_bind; [apply calm_insert_row|done]. Qed.
Lemma exec_insert_rows table columns rows db t :
  db !! table = Some t -> Forall (fun row => length row = length columns) rows ->
  exec (insert_rows table columns rows) db = (<[table := append_rows t rows]> db, Ok tt).
Proof.
  intros Ht Hr. revert db t Ht. induction Hr as [|row rows Hrow _ IH]; intros db t Ht; cbn [insert_rows].
  - unfold exec, ret. cbn. destruct t as [cs rs]. unfold append_rows. cbn. rewrite app_nil_r. by rewrite insert_id.
  - rewrite exec_bind by apply calm_insert_row. unfold insert_row. rewrite Hrow, Nat.eqb_refl, exec_write, Ht.
    erewrite IH; [|apply lookup_insert_eq]. rewrite insert_insert_eq. unfold append_rows. cbn. by rewrite <- app_assoc.
Qed.
Section calm_import.
Context (table : string) (columns : list string) (qs : list string).
Context (Hvalid : ValidateSQLIdent table = Ok tt) (Hquote : quote_columns 1 columns = Ok qs).
Lemma calm_insert_batch batch : calm (insertBatchTyped table columns (texts columns) batch).
Proof.
  unfold Ingest.insertBatchTyped. destruct batch as [|row batch]; [auto with calm|]. unfold insertBatchValues, valid_table. cbn [map]. rewrite Hvalid.
  apply calm_bind; [auto with calm|]. intros _. apply calm_transaction. apply calm_bind; [auto with calm|]. intros ?. apply calm_bind; [unfold prepare; auto with calm|]. intros ?. apply calm_insert_rows.
Qed.
Lemma exec_insert_batch batch db t :
  db !! table = Some t -> map fst (tb_Columns t) = columns ->
  exec (insertBatchTyped table columns (texts columns) batch) db = (<[table := append columns t batch]> db, Ok tt).
Proof.
  intros Ht Hc. unfold Ingest.insertBatchTyped. destruct batch as [|row batch].
  { unfold exec, ret. cbn. rewrite append_nil. by rewrite insert_id. }
  unfold insertBatchValues, valid_table. cbn [map]. rewrite Hvalid. change (bind (ret tt) ?k) with (k tt). cbv beta.
  set (rows := convert_row columns (texts columns) row :: map (convert_row columns (texts columns)) batch).
  rewrite exec_transaction by (apply calm_bind; [auto with calm|]; intros ?; apply calm_bind; [unfold prepare; auto with calm|]; intros ?; apply calm_insert_rows).
  rewrite Hquote. change (bind (lift_res (Ok qs)) ?k) with (k qs). cbv beta. rewrite exec_bind by (unfold prepare; auto with calm).
  unfold prepare. rewrite exec_read, Ht, bool_decide_true by done. rewrite (exec_insert_rows _ _ _ _ _ Ht).
  - unfold append_rows, append, rows. cbn. by rewrite map_map.
  - change rows with (map (convert_row columns (texts columns)) (row :: batch)). apply Forall_forall. intros r (r' & -> & _)%list_elem_of_fmap.
    unfold Ingest.convert_row. apply length_imap.
Qed.
Lemma calm_load check rows batch rowCount : calm (load table columns check rows batch rowCount).
Proof.
  revert batch rowCount. induction rows as [|row rows IH]; intros batch rowCount; cbn [Ingest.load].
  - destruct batch; [auto with calm|]. apply calm_bind; [apply calm_insert_batch|auto with calm].
  - destruct (check _ row); [|auto with calm]. destruct (_ <=? _)%Z; [|apply IH]. apply calm_bind; [apply calm_insert_batch|]. intros _. apply IH.
Qed.
Lemma exec_load check rows records batch rowCount db0 t :
  map fst (tb_Columns t) = columns -> check_all check (rowCount + count batch + 2) rows = Ok records ->
  exec (load table columns check rows batch rowCount) (<[table := t]> db0)
  = (<[table := append columns t (batch ++ records)]> db0, Ok (rowCount + count batch + count records)%Z).
Proof.
  revert records batch rowCount t. induction rows as [|row rows IH]; intros records batch rowCount t Ht E; cbn [Ingest.load].
  - injection E as <-. rewrite app_nil_r. destruct batch as [|b batch].
    + rewrite append_nil. unfold exec, ret. cbn. do 2 f_equal. unfold count. cbn. lia.
    + rewrite exec_bind by apply calm_insert_batch. rewrite (exec_insert_batch _ _ t) by (try apply lookup_insert_eq; done).
      rewrite insert_insert_eq. unfold exec, ret. cbn. do 2 f_equal. unfold count. cbn. lia.
  - cbn [check_all] in E. destruct (check _ row) as [record|]; [|done]. destruct (check_all _ _ rows) as [l|] eqn:El; [|done]. injection E as <-.
    destruct (_ <=? _)%Z.
    + rewrite exec_bind by apply calm_insert_batch. rewrite (exec_insert_batch _ _ t) by (try apply lookup_insert_eq; done). rewrite insert_insert_eq.
      rewrite (IH l); [|done|].
      * rewrite append_app, <- app_assoc. do 2 f_equal. rewrite count_app. unfold count. cbn. lia.
      * rewrite <- El. f_equal. rewrite count_app. unfold count. cbn. lia.
    + rewrite (IH l); [|done|].
      * rewrite <- app_assoc. do 2 f_equal. rewrite count_app. unfold count. cbn. lia.
      * rewrite <- El. f_equal. rewrite count_app. unfold count. cbn. lia.
Qed.
End calm_import.

(** ** Describing a table *)

Definition observed (rows : list (list Value)) (total : Z) (sampled : bool) (j : nat) (columns : list (string * string)) : list ColumnInfo :=
  imap (fun i c => column_info rows total sampled (j + i) c) columns.
Lemma calm_observe_column rows total sampled j c : calm (observe_column rows total sampled j c).
Proof.
  unfold observe_column. apply calm_bind; [destruct (QuoteSQLiteIdentifier c.1); auto with calm|]. intros ?. apply calm_bind; [auto with calm|]. intros ?.
  apply calm_bind; [destruct sampled; auto with calm|]. intros ?. auto 10 with calm.
Qed.
Lemma calm_observe rows total sampled j columns : calm (observe_columns rows total sampled j columns).
Proof.
  revert j. induction columns as [|c columns IH]; intros j; cbn [observe_columns]; [auto with calm|].
  apply calm_bind; [apply calm_observe_column|]. intros info. apply calm_bind; [apply IH|auto with calm].
Qed.
Lemma exec_observe rows total sampled j columns db :
  Forall (fun c => is_ok (QuoteSQLiteIdentifier c.1) = true) columns ->
  exec (observe_columns rows total sampled j columns) db = (db, Ok (observed rows total sampled j columns)).
Proof.
  intros Hq. revert j. induction Hq as [|c columns Hc _ IH]; intros j; [done|]. cbn [observe_columns].
  assert (E : exec (observe_column rows total sampled j c) db = (db, Ok (column_info rows total sampled j c))).
  { unfold observe_column. destruct (QuoteSQLiteIdentifier c.1); [|done]. by destruct sampled. }
  rewrite exec_bind by apply calm_observe_column. rewrite E. rewrite exec_bind by apply calm_observe.
  rewrite IH. unfold exec, ret, observed. cbn. do 2 f_equal. rewrite Nat.add_0_r. f_equal. apply imap_ext. intros i x _. cbn. f_equal. lia.
Qed.
Lemma observed_names rows total sampled j columns : map ci_Name (observed rows total sampled j columns) = map fst columns.
Proof.
  apply list_eq. intros i. unfold observed. rewrite !list_lookup_fmap, list_lookup_imap. by destruct (columns !! i).
Qed.

(** ** A file that is a table *)

Context `{!SQLiteLaws}.
Lemma text_row columns row :
  length row = length columns -> stored_row (map (fun c => (c, "TEXT")) columns) (convert_row columns (texts columns) row) = map VText row.
Proof.
  intros Hl. apply list_eq. intros i. unfold stored_row, Ingest.convert_row. rewrite lookup_zip_with, list_lookup_imap, !list_lookup_fmap.
  destruct (row !! i) as [s|] eqn:Hr.
  - assert (Hc : is_Some (columns !! i)) by (apply lookup_lt_is_Some; rewrite <- Hl; by eapply lookup_lt_Some).
    destruct Hc as [c Hc]. rewrite Hc. cbn. by rewrite affinity_text.
  - assert (Hc : columns !! i = None) by (apply lookup_ge_None; rewrite <- Hl; by apply lookup_ge_None). by rewrite Hc.
Qed.
Lemma text_columns_eq headers : text_columns headers = map (fun c => (c, "TEXT")) headers.
Proof.
  apply list_eq. intros i. unfold text_columns. rewrite list_lookup_imap, list_lookup_fmap. destruct (headers !! i) as [c|] eqn:E; [|done].
  cbn. unfold column_type. by rewrite list_lookup_fmap, E.
Qed.
Lemma table_of_texts headers records :
  Forall (fun r => length r = length headers) records ->
  table_of headers records = {| tb_Columns := map (fun c => (c, "TEXT")) headers; tb_Rows := map (map VText) records |}.
Proof.
  intros Hall. unfold table_of, append. cbn. rewrite text_columns_eq. f_equal. apply list_eq. intros i. rewrite !list_lookup_fmap.
  destruct (records !! i) as [r|] eqn:E; [|done]. cbn. f_equal. apply text_row. by eapply Forall_lookup_1 in Hall.
Qed.
Lemma quote_all columns k : Forall (fun c => is_ok (QuoteSQLiteIdentifier c) = true) columns -> exists qs, quote_columns k columns = Ok qs.
Proof.
  intros Hq. revert k. induction Hq as [|c columns Hc _ IH]; intros k; [by exists []|]. cbn. destruct (QuoteSQLiteIdentifier c) as [q|]; [|done].
  destruct (IH (k + 1)%Z) as [qs ->]. by exists (q :: qs).
Qed.
Lemma check_all_rows k n rs : Forall (fun r => count r = n) (map (map of_bytes) rs) ->
  check_all (csv_check n) k (map (csv_row csv_text) (map Ok rs)) = Ok (map (map of_bytes) rs).
Proof.
  revert k. induction rs as [|r rs IH]; intros k Hr; [done|]. inversion_clear Hr as [|? ? Hn Hrs]. cbn. rewrite Hn, Z.eqb_refl. by rewrite IH.
Qed.

(** C7: a file that holds a header and records as wide, every field quoted, none with a
    carriage return, is imported whole when no call fails: a column of texts for each header
    and a row for each record with the very texts, in order; and the description of the
    table then names these columns and counts these rows, all of them looked at. *)
Theorem csv_import_exact headers records table db :
  ValidateSQLIdent table = Ok tt -> db !! table = None -> accepts (map (fun c => (c, "TEXT")) headers) = true ->
  Forall (fun c => is_ok (QuoteSQLiteIdentifier c) = true) headers ->
  Forall (fun r => r <> [] /\ length r = length headers /\ Forall (fun f => no_return (to_bytes f)) r) (headers :: records) ->
  let content := write_table (map (map to_bytes) (headers :: records)) in
  let db' := <[table := {| tb_Columns := map (fun c => (c, "TEXT")) headers; tb_Rows := map (map VText) records |}]> db in
  exec (ImportFileRawAs (CsvData (Ok content)) table "") db = (db', Ok (table, count records, count headers))
  /\ exists s, exec (ExtractSchema table) db' = (db', Ok s) /\ sc_RowCount s = count records /\ map ci_Name (sc_Columns s) = headers
       /\ si_SampleRows (sc_Sampling s) = count records /\ si_Estimated (sc_Sampling s) = false.
Proof.
  intros Hv Ht Ha Hq Hr content db'. inversion_clear Hr as [|? ? (Hne & _ & Hh) Hrs].
  assert (Htab : table_of headers records = {| tb_Columns := map (fun c => (c, "TEXT")) headers; tb_Rows := map (map VText) records |}).
  { apply table_of_texts. eapply Forall_impl; [exact Hrs|]. cbn. tauto. }
  assert (Hreads : reads content = map Ok (map to_bytes headers :: map (map to_bytes) records)).
  { unfold content. change (map to_bytes headers :: ?l) with (map (map to_bytes) (headers :: records)). apply (reads_quoted (length headers)).
    apply Forall_map. constructor; [split_and!; [by destruct headers|apply length_map|by apply Forall_map]|].
    eapply Forall_impl; [exact Hrs|]. cbn. intros r (Hr1 & Hr2 & Hr3). split_and!; [by destruct r|by rewrite length_map|by apply Forall_map]. }
  assert (Hback : forall l : list string, map of_bytes (map to_bytes l) = l).
  { intros l. rewrite map_map. rewrite <- (map_id l) at 2. apply map_ext. intros y. apply String.string_of_list_ascii_of_string. }
  destruct (quote_all headers 1 Hq) as [qs Hqs]. split.
  - unfold Ingest.ImportFileRawAs. rewrite Hv. unfold Ingest.importCSV.
    change (bind (wrap ?p (lift_res (Ok content))) ?k) with (k content). cbv beta. rewrite Hreads. cbn [map csv_row]. rewrite Hback.
    set (rows := map _ (map Ok _)). assert (Hcheck : check_all (csv_check (count headers)) 2 rows = Ok records).
    { unfold rows. replace (map Ok (map (map to_bytes) records)) with (map (@Ok CsvError _) (map (map to_bytes) records)) by done.
      rewrite check_all_rows; rewrite map_map; rewrite (map_ext _ id) by (intros r; apply Hback); rewrite map_id; [done|].
      eapply Forall_impl; [exact Hrs|]. cbn. intros r (_ & Hl & _). unfold count. by rewrite Hl. }
    assert (Hn : (count headers =? 0)%Z = false) by (clear -Hne; by destruct headers).
    rewrite Hn. cbn [negb].
    assert (Hcreate : exec (createTableTyped table headers (texts headers)) db = (<[table := {| tb_Columns := text_columns headers; tb_Rows := [] |}]> db, Ok tt)
      /\ calm (createTableTyped table headers (texts headers))).
    { unfold createTableTyped, valid_table. rewrite Hv, Hqs. change (bind (ret tt) ?k) with (k tt). cbv beta. change (bind (lift_res (Ok qs)) ?k) with (k qs). cbv beta.
      split; [|auto with calm]. rewrite exec_wrap, exec_write. unfold has. rewrite Ht. cbn [negb bool_decide]. fold (text_columns headers).
      rewrite text_columns_eq, Ha. done. }
    destruct Hcreate as [Hcreate Hcalm].
    assert (Hload : calm (or_drop table (do n := load table headers (csv_check (count headers)) rows [] 0 in ret (n, count headers))%go)).
    { apply calm_bind; [apply calm_try, calm_bind; [by eapply calm_load|auto with calm]|]. intros [p|e]; [auto with calm|].
      apply calm_bind; [unfold drop_incomplete; auto with calm|]. intros [|]; auto with calm. }
    rewrite exec_bind by (apply calm_bind; [exact Hcalm|by intros _]). rewrite exec_bind by done. rewrite Hcreate.
    unfold or_drop. rewrite exec_bind by (apply calm_try, calm_bind; [by eapply calm_load|auto with calm]). rewrite exec_try.
    rewrite exec_bind by (by eapply calm_load). 
    rewrite (exec_load _ _ _ Hv Hqs _ _ records); [|rewrite text_columns_eq; cbn; rewrite map_map; apply map_id|done].
    cbn. fold (table_of headers records). rewrite Htab. done.
  - exists {| sc_TableName := table; sc_RowCount := count records; sc_Columns := observed (map (map VText) records) (count records) false 0 (map (fun c => (c, "TEXT")) headers);
              sc_Sampling := {| si_Method := "full_table"; si_SourceRows := count records; si_SampleRows := count records; si_Estimated := false |} |}.
    split_and!; try done; cbn [sc_Columns].
    + unfold ExtractSchema, extractSchemaInternal, valid_table. rewrite Hv. change (bind (ret tt) ?k) with (k tt). cbv beta.
      rewrite exec_bind by auto with calm. rewrite exec_wrap, exec_read. unfold db' at 1 2. rewrite !lookup_insert_eq. cbn [fst snd tb_Rows].
      rewrite Z.ltb_irrefl. cbn [andb]. unfold table_info. rewrite exec_bind by auto with calm. rewrite exec_wrap, exec_read.
      unfold db' at 1 2. rewrite !lookup_insert_eq. cbn [fst snd tb_Columns]. rewrite exec_bind by apply calm_observe.
      rewrite exec_observe by (by apply Forall_map). rewrite count_map. done.
    + rewrite observed_names, map_map. by rewrite map_id.
Qed.
End props.

(** * How much of a table is looked at *)

Section sampling.
Context `{SQLite}.
Lemma every_lookup n skip rows i : every (S n) skip rows !! i = rows !! (skip + i * S n).
Proof.
  revert skip i. induction rows as [|row rows IH]; intros skip i; [done|]. cbn [every]. destruct skip as [|skip].
  - destruct i as [|i]; [done|]. cbn [lookup list_lookup]. rewrite IH. replace (S n - 1 + i * S n) with (n + i * S n) by lia. done.
  - by rewrite IH.
Qed.
Lemma stride_spec rowCount bound : (0 < bound)%Z -> (0 < rowCount)%Z ->
  (0 < stride rowCount bound)%Z /\ (rowCount <= bound * stride rowCount bound)%Z.
Proof.
  intros Hb Hr. unfold stride. pose proof (Z.div_mod (rowCount + bound - 1) bound ltac:(lia)) as Hd. pose proof (Z.mod_pos_bound (rowCount + bound - 1) bound Hb). nia.
Qed.
Lemma every_length rows bound : (0 < bound)%Z -> (0 < count rows)%Z ->
  let n := Z.to_nat (stride (count rows) bound) in (1 <= count (every n 0 rows) <= bound)%Z.
Proof.
  intros Hb Hr n. destruct (stride_spec (count rows) bound Hb Hr) as [Hs1 Hs2].
  destruct n as [|m] eqn:En; [lia|]. assert (Hm : (Z.of_nat (S m) = stride (count rows) bound)%Z) by lia. clearbody n. split.
  - destruct rows as [|row rows]; [done|]. cbn [every]. unfold count. cbn. lia.
  - destruct (decide (count (every (S m) 0 rows) <= bound)%Z) as [|Hgt]; [done|]. exfalso.
    assert (Hi : is_Some (every (S m) 0 rows !! Z.to_nat bound)) by (apply lookup_lt_is_Some; unfold count in Hgt; lia).
    rewrite every_lookup in Hi. apply lookup_lt_is_Some in Hi. unfold count in *. nia.
Qed.

Lemma quiet_read {A B} prefix (k : A -> D B) (f : Tables -> res SErr A) db db' r :
  runs (bind (wrap prefix (read f)) k) db db' r -> db' = db /\ is_ok r = false \/ exists a, f db = Ok a /\ runs (k a) db db' r.
Proof.
  intros [(e & R & ->)|(a & d & R1 & R)]%runs_bind; [apply runs_wrap in R as (y & R & _); apply runs_read in R as (-> & _); by left|].
  apply runs_wrap in R1 as (y & R1 & Ey). apply runs_read in R1 as (-> & R1). destruct y as [y|]; [|done]. injection Ey as ->.
  destruct R1 as [(m & [=])|R1]. right. eauto.
Qed.
Lemma observe_column_runs rows total sampled j c db db' r :
  runs (observe_column rows total sampled j c) db db' r -> db' = db /\ forall info, r = Ok info -> info = column_info rows total sampled j c.
Proof.
  intros R. unfold observe_column in R. apply runs_bind in R as [(e & R & ->)|([] & d & R1 & R)].
  { destruct (QuoteSQLiteIdentifier c.1); [by apply runs_ret in R as (_ & [=])|by apply runs_fail in R as (-> & _)]. }
  assert (d = db) as ->. { destruct (QuoteSQLiteIdentifier c.1); [by apply runs_ret in R1 as (-> & _)|by apply runs_fail in R1 as (_ & [=])]. }
  apply quiet_read in R as [(-> & Hr)|([] & _ & R)]; [by destruct r|].
  assert (Hnext : exists db1, db1 = db /\ (db' = db /\ is_ok r = false \/ runs (do _ := wrap (text ["failed to count distinct values for "; Tools.quoted c.1]) (read (fun _ => Ok tt)) in
     do _ := wrap (text ["failed to observe distinct values for "; Tools.quoted c.1]) (read (fun _ => Ok tt)) in ret (column_info rows total sampled j c))%go db1 db' r)).
  { exists db. split; [done|]. destruct sampled; [apply quiet_read in R as [?|([] & _ & R)]; auto|].
    apply runs_bind in R as [(e & R & ->)|([] & d & R2 & R)]; [by apply runs_ret in R as (_ & [=])|]. apply runs_ret in R2 as (-> & _). auto. }
  destruct Hnext as (db1 & -> & [(-> & Hr)|R2]); [by destruct r|].
  apply quiet_read in R2 as [(-> & Hr)|([] & _ & R2)]; [by destruct r|]. apply quiet_read in R2 as [(-> & Hr)|([] & _ & R2)]; [by destruct r|].
  apply runs_ret in R2 as (-> & ->). split; [done|]. by intros info [= ->].
Qed.
Lemma observe_runs rows total sampled j columns db db' r :
  runs (observe_columns rows total sampled j columns) db db' r -> db' = db /\ forall infos, r = Ok infos -> infos = observed rows total sampled j columns.
Proof.
  revert j db db' r. induction columns as [|c columns IH]; intros j db db' r R; cbn [observe_columns] in R.
  { apply runs_ret in R as (-> & ->). split; [done|]. by intros infos [= <-]. }
  apply runs_bind in R as [(e & R & ->)|(info & d & R1 & R)]; [by apply observe_column_runs in R as (-> & _)|].
  apply observe_column_runs in R1 as (-> & Hi). rewrite (Hi info) in R by done.
  apply runs_bind in R as [(e & R & ->)|(infos & d & R1 & R)]; [by apply IH in R as (-> & _)|]. apply IH in R1 as (-> & Hinfos).
  apply runs_ret in R as (-> & ->). split; [done|]. intros l [= <-]. rewrite (Hinfos infos) by done. unfold observed. cbn. rewrite Nat.add_0_r.
  f_equal. apply imap_ext. intros i x _. cbn. f_equal. lia.
Qed.
Lemma info_runs table rows total sampled (finish : list ColumnInfo -> SchemaInfo) db db' r :
  runs (do columns := table_info table in do infos := observe_columns rows total sampled 0 columns in ret (finish infos))%go db db' r ->
  db' = db /\ forall s, r = Ok s -> s = finish (observed rows total sampled 0 (match db !! table with Some t => tb_Columns t | None => [] end)).
Proof.
  intros R. unfold table_info in R. apply quiet_read in R as [(-> & Hr)|(columns & E & R)]; [by destruct r|].
  apply runs_bind in R as [(e & R & ->)|(infos & d & R1 & R)]; [by apply observe_runs in R as (-> & _)|]. apply observe_runs in R1 as (-> & Hi).
  apply runs_ret in R as (-> & ->). split; [done|]. intros s [= <-]. rewrite (Hi infos) by done. f_equal. f_equal. by destruct (db !! table); injection E as ->.
Qed.
Lemma with_sample_runs {A} (m : D A) db db' a :
  (forall d d' x, runs m d d' x -> d' = d) -> runs (with_sample m) db db' (Ok a) -> db' = db /\ runs m db db (Ok a).
Proof.
  intros Hm R. unfold with_sample in R. apply quiet_read in R as [(_ & [=])|([] & _ & R)]. apply quiet_read in R as [(_ & [=])|([] & _ & R)].
  apply runs_bind in R as [(e & _ & [=])|(x & d & R1 & R)]. apply runs_try in R1 as (x' & R1 & [= ->]).
  apply runs_bind in R as [(e & _ & [=])|(y & d1 & R2 & R)]. apply runs_try in R2 as (y' & R2 & [= ->]). apply runs_wrap in R2 as (z & R2 & _). apply runs_read in R2 as (-> & _).
  destruct x' as [x|e], y' as [u|e']; try by apply runs_fail in R as (_ & [=]). apply runs_ret in R as (-> & [= ->]).
  apply quiet_read in R1 as [(_ & [=])|([] & _ & R1)]. pose proof (Hm _ _ _ R1) as ->. by split.
Qed.

(** describing a table reads and changes nothing.  With a positive bound below the number
    of rows it looks at one row in so many, from the first to the last, at least one and
    never more than the bound, and says so; in every other case it looks at all. *)
Theorem sample_bounded table bound db db' s :
  runs (ExtractSchemaBounded table bound) db db' (Ok s) ->
  exists t, db !! table = Some t /\ db' = db /\ (0 <= bound)%Z /\ sc_RowCount s = count (tb_Rows t) /\ si_SourceRows (sc_Sampling s) = count (tb_Rows t)
    /\ map ci_Name (sc_Columns s) = map fst (tb_Columns t)
    /\ if ((0 <? bound) && (bound <? count (tb_Rows t)))%Z then
         exists n, Z.of_nat (S n) = stride (count (tb_Rows t)) bound /\ (forall i, every (S n) 0 (tb_Rows t) !! i = tb_Rows t !! (i * S n)) /\ si_SampleRows (sc_Sampling s) = count (every (S n) 0 (tb_Rows t))
           /\ (1 <= si_SampleRows (sc_Sampling s) <= bound)%Z /\ si_Estimated (sc_Sampling s) = true
           /\ sc_Columns s = observed (every (S n) 0 (tb_Rows t)) (si_SampleRows (sc_Sampling s)) true 0 (tb_Columns t)
       else si_SampleRows (sc_Sampling s) = count (tb_Rows t) /\ si_Estimated (sc_Sampling s) = false
         /\ sc_Columns s = observed (tb_Rows t) (count (tb_Rows t)) false 0 (tb_Columns t).
Proof.
  intros R. unfold ExtractSchemaBounded in R. destruct (0 <=? bound)%Z eqn:Hb; [|by apply runs_fail in R as (_ & [=])].
  unfold extractSchemaInternal in R. apply runs_bind in R as [(e & _ & [=])|([] & d & R1 & R)].
  assert (d = db) as ->. { unfold valid_table in R1. destruct (ValidateSQLIdent table); [by apply runs_ret in R1 as (-> & _)|by apply runs_fail in R1 as (_ & [=])]. }
  apply runs_bind in R as [(e & _ & [=])|(rows & d & R2 & R)]. apply runs_wrap in R2 as (y & R2 & Ey). apply runs_read in R2 as (-> & R2).
  destruct y as [y|]; [|done]. injection Ey as ->. destruct R2 as [(m & [=])|R2]. destruct (db !! table) as [t|] eqn:Ht; [|done]. injection R2 as ->.
  exists t. split; [done|]. destruct (_ && _)%Z eqn:Hc.
  - apply andb_true_iff in Hc as [Hc1%Z.ltb_lt Hc2%Z.ltb_lt]. set (n := Z.to_nat (stride (count (tb_Rows t)) bound)) in *.
    pose proof (every_length (tb_Rows t) bound Hc1 ltac:(lia)) as Hlen. cbn zeta in Hlen. fold n in Hlen.
    assert (Hsample : sample (count (tb_Rows t)) bound (tb_Rows t) = every n 0 (tb_Rows t)) by (unfold sample; apply take_ge; unfold count in Hlen; lia).
    assert (Hn : exists m, n = S m) by (destruct (stride_spec (count (tb_Rows t)) bound Hc1 ltac:(lia)); exists (n - 1); lia). destruct Hn as [m Hm].
    rewrite Hsample in R. apply with_sample_runs in R as (-> & R); [|intros d d' x Hx; by eapply (info_runs table) in Hx as (-> & _)]. apply info_runs in R as (_ & E). rewrite (E s) by done. rewrite Ht.
    cbn. rewrite observed_names. rewrite Hm in *. split_and!; try done; [lia|]. exists m. split_and!; try done; try lia. intros i. by rewrite every_lookup.
  - apply info_runs in R as (-> & E). rewrite (E s) by done. rewrite Ht. cbn. rewrite observed_names. split_and!; try done. lia.
Qed.
End sampling.

(** * Examples *)

(** A database that creates a table where the names of its columns differ, and stores in a
    column of texts the text of a number. *)
Definition cast (v : Value) : string := match v with VText s => s | VInt n => itoa n | _ => "" end.
#[export] Instance plain_sqlite : SQLite := {
  accepts columns := bool_decide (NoDup (map fst columns));
  affinity t v := match v with VNull => VNull | _ => if t =? "TEXT" then VText (cast v) else v end;
  as_text := cast;
  same_value a b := cast a =? cast b
}.
#[export] Instance plain_sqlite_laws : SQLiteLaws.
Proof. split; try done. intros columns Hc. by apply bool_decide_eq_true in Hc. Qed.
Definition no_float (s : string) : option SpecFloat.spec_float := None.
Definition csv_error (e : CsvError) : string := "parse error on line 1".
Definition lines (l : list string) : bytes := flat_map (fun s => to_bytes s ++ [NL]) l.
Definition import_lines (l : list string) : Tables * res SErr (string * Z * Z) :=
  exec (ImportFileRawAs no_float csv_error (CsvData (Ok (lines l))) "t" "") ∅.

Lemma import_all_or_nothing_witness :
  exists headers records, exec (ImportFileRawAs no_float csv_error (CsvData (Ok (lines ["a,b"; "1,2"]))) "t" "") ∅ = ({["t" := table_of no_float headers records]}, Ok ("t", 1%Z, 2%Z))
    /\ count records = 1%Z /\ count headers = 2%Z.
Proof.
  pose proof (import_all_or_nothing no_float csv_error (CsvData (Ok (lines ["a,b"; "1,2"]))) "t" "" ∅ _ _ (runs_exec _ _)) as Hi.
  assert (E : (import_lines ["a,b"; "1,2"]).2 = Ok ("t", 1%Z, 2%Z)) by (vm_compute; reflexivity).
  unfold import_lines in E. rewrite E in Hi. destruct Hi as (headers & records & _ & _ & Hdb & Hr & Hc & _).
  exists headers, records. split; [|by split]. rewrite (surjective_pairing (exec _ _)), Hdb, E. reflexivity.
Defined.

Lemma csv_import_exact_witness :
  exec (ImportFileRawAs no_float csv_error (CsvData (Ok (write_table (map (map to_bytes) [["a"; "b"]; ["1,2"; "x"]])))) "t" "") ∅
  = ({["t" := {| tb_Columns := [("a", "TEXT"); ("b", "TEXT")]; tb_Rows := [[VText "1,2"; VText "x"]] |}]}, Ok ("t", 1%Z, 2%Z)).
Proof.
  apply (csv_import_exact no_float csv_error ["a"; "b"] [["1,2"; "x"]] "t" ∅); [done|done|vm_compute; reflexivity|by repeat constructor|].
  repeat constructor; try done; unfold no_return; vm_compute; set_solver.
Defined.

Lemma sample_bounded_witness :
  let db : Tables := {["t" := {| tb_Columns := [("a", "TEXT")]; tb_Rows := map (fun s => [VText s]) ["1"; "2"; "3"; "4"; "5"] |}]} in
  exists s, exec (ExtractSchemaBounded "t" 2) db = (db, Ok s) /\ si_SampleRows (sc_Sampling s) = 2%Z /\ sc_RowCount s = 5%Z /\ (si_SampleRows (sc_Sampling s) <= 2)%Z.
Proof.
  intros db. pose proof (runs_exec (ExtractSchemaBounded "t" 2) db) as R.
  assert (E : exists s, exec (ExtractSchemaBounded "t" 2) db = (db, Ok s) /\ si_SampleRows (sc_Sampling s) = 2%Z) by (eexists; vm_compute; split; reflexivity).
  destruct E as (s & E & E2). rewrite E in R. destruct (sample_bounded "t" 2 db _ s R) as (t & Ht & _ & _ & Hn & _ & _ & Hs).
  exists s. split; [done|]. split; [done|]. injection Ht as <-. split; [exact Hn|]. destruct Hs as (n & _ & _ & _ & Hb & _). apply Hb.
Defined.

(** A file without records is imported as an empty table; a workbook without is refused. *)
Lemma empty_csv_accepted :
  (import_lines ["a,b"]).2 = Ok ("t", 0%Z, 2%Z)
  /\ (exec (ImportFileRawAs no_float csv_error (ExcelData (Ok {| wb_Sheets := [("s", Ok true)]; wb_Rows := fun _ => Ok [Ok ["a"; "b"]] |})) "t" "") ∅).2
     = Err (SStructure "Excel data area is empty").
Proof. split; vm_compute; reflexivity. Qed.

(** What is wrong with the header is not reported as a fault of the structure: an empty file,
    an empty or repeated name, a quote within a name, as after a byte order mark. *)
Lemma header_faults_not_structure :
  Forall (fun file => match (import_lines file).2 with Err e => as_structure e = None | Ok _ => False end)
    [[]; ["a,"; "1,2"]; ["a,a"; "1,2"]; [text [String "239" (String "187" (String "191" "")); String dquote "a"; String dquote ",b"]; "1,2"]]
  /\ option_map as_structure (match (import_lines ["a,b"; "1"]).2 with Err e => Some e | Ok _ => None end) = Some (Some "failed to read CSV row 2: parse error on line 1").
Proof. split; [repeat constructor; vm_compute; reflexivity|vm_compute; reflexivity]. Qed.

(** In a file of one column a record without a value is a blank line, which is left out. *)
Lemma blank_record_skipped :
  import_lines ["a"; "1"; ""; "3"] = ({["t" := {| tb_Columns := [("a", "TEXT")]; tb_Rows := [[VText "1"]; [VText "3"]] |}]}, Ok ("t", 2%Z, 1%Z)).
Proof. vm_compute. reflexivity. Qed.
