(* ===== verification/Sanitize.v ===== *)
(** The sanitizing of reports: of a finished document ([tools/report_sanitize.go]) and of the
    fragments a model writes ([sanitizeHTMLFragment] and the text filters of
    [tools/report_html.go]).

    The trees are those of [golang.org/x/net/html], whose parser and renderer are arguments:
    a text under a [style] element is written as it is.  Nodes are values here: removing one
    or putting its children in its place gives a list of nodes. *)
From S2P Require Import Prelude GoStrings GoText ReportState ReportOps SqlGuard StateTools Ingest.
From Stdlib Require Import Ascii.
Open Scope string_scope.
Open Scope list_scope.

Record Attribute := { at_Namespace : string; at_Key : string; at_Val : string }.
Definition attribute (key value : string) : Attribute := {| at_Namespace := ""; at_Key := key; at_Val := value |}.
Inductive OtherType := DocumentNode | CommentNode | DoctypeNode.
Inductive Node :=
| NText (data : string)
| NElem (tag : string) (attrs : list Attribute) (children : list Node)
| NOther (type : OtherType) (data : string) (children : list Node).

(** * Texts *)

(** ** Patterns, without regard to case: an S is also the long s *)
Definition folded_letter (c : ascii) : re := if Ascii.eqb c "S" then RAlt (letter_is "S") (RSeq (byte_is "197") (byte_is "191")) else letter_is c.
Definition folded_word (w : string) : re := fold_right (fun c r => RSeq (folded_letter c) r) REmpty (to_bytes w).
Definition spaces : re := RStar re_space.
Definition alternatives (l : list re) : re := match l with [] => REmpty | r :: l => fold_left RAlt l r end.
Definition call_of (r : re) : re := RSeq r (RSeq spaces (byte_is "(")).
Definition inlineStyleDangerous : re :=
  call_of (alternatives [folded_word "EXPRESSION"; folded_word "JAVASCRIPT"; folded_word "VBSCRIPT"; folded_word "BEHAVIOR"; RSeq (byte_is "@") (folded_word "IMPORT")]).
Definition inlineStyleURL : re := call_of (folded_word "URL").
(** The end of the text needs no test: the star has taken all but a semicolon. *)
Definition styleImportRule : re :=
  RSeq (RSeq (byte_is "@") (folded_word "IMPORT")) (RSeq (RStar (RByte (fun c => negb (Ascii.eqb c ";")))) (ROpt (byte_is ";"))).
Definition cssStripRe : re :=
  alternatives [RSeq (byte_is "@") (RSeq spaces (folded_word "IMPORT")); call_of (folded_word "EXPRESSION");
                RSeq (folded_word "BEHAVIOR") (RSeq spaces (byte_is ":"));
                RSeq (alternatives [folded_word "JAVASCRIPT"; folded_word "VBSCRIPT"; folded_word "DATA"]) (RSeq spaces (byte_is ":"))].
(** [MatchString] and [ReplaceAllString] with nothing, of a pattern that matches no empty text. *)
Definition match_here (r : re) (prev : option ascii) (l : bytes) : option pos := re_match r {| pos_prev := prev; pos_rest := l; pos_cap := [] |} Some.
Fixpoint matches_from (r : re) (prev : option ascii) (l : bytes) : bool :=
  match match_here r prev l with
  | Some _ => true
  | None => match l with c :: l => matches_from r (Some c) l | [] => false end
  end.
Definition MatchString (r : re) (s : string) : bool := matches_from r None (to_bytes s).
Fixpoint remove_from (r : re) (fuel : nat) (prev : option ascii) (l : bytes) : bytes :=
  match fuel with
  | 0 => l
  | S fuel =>
      match match_here r prev l with
      | Some p => remove_from r fuel (pos_prev p) (pos_rest p)
      | None => match l with c :: l => c :: remove_from r fuel (Some c) l | [] => [] end
      end
  end.
Definition RemoveAll (r : re) (s : string) : string := of_bytes (remove_from r (S (String.length s)) None (to_bytes s)).

(** [strings.NewReplacer] of texts of one length with nothing. *)
Fixpoint without (olds : list string) (n : nat) (skip : nat) (s : string) : string :=
  match s with
  | EmptyString => ""
  | String c s' =>
      match skip with
      | S skip => without olds n skip s'
      | 0 => if existsb (HasPrefix s) olds then without olds n (n - 1) s' else String c (without olds n 0 s')
      end
  end.
Definition sanitizeCSS (value : string) : string :=
  let css := TrimSpace value in
  if css =? "" then "" else RemoveAll cssStripRe (without ["</style"; "</Style"; "</STYLE"] 7 0 css).
Definition sanitizeInlineStyle (value : string) : string :=
  if contains_byte value "<" then "" else if MatchString inlineStyleDangerous value then "" else if MatchString inlineStyleURL value then "" else value.
Definition isSameOriginPath (value : string) : bool :=
  let raw := TrimSpace value in
  negb ((raw =? "") || contains_byte raw "\") && HasPrefix raw "/" && negb (HasPrefix raw "//").

(** ** Links

    [url.Parse]: a control character before the fragment is an error; then the scheme;
    [url_rest]: whether the rest is accepted. *)
Definition control_byte (c : ascii) : bool := let n := N_of_ascii c in ((n <? 32) || (n =? 127))%N.
Fixpoint scheme_from (seen : bytes) (l : bytes) : option bytes :=
  match l with
  | [] => Some []
  | c :: l =>
      if is_letter c then scheme_from (seen ++ [c]) l
      else if in_range 48 57 c || Ascii.eqb c "+" || Ascii.eqb c "-" || Ascii.eqb c "." then match seen with [] => Some [] | _ => scheme_from (seen ++ [c]) l end
      else if Ascii.eqb c ":" then match seen with [] => None | _ => Some seen end
      else Some []
  end.
Fixpoint before_hash (l : bytes) : bytes := match l with [] => [] | c :: l => if Ascii.eqb c "#" then [] else c :: before_hash l end.
Definition lower_ascii (c : ascii) : ascii := if in_range 65 90 c then ascii_of_N (N_of_ascii c + 32) else c.

Section html.
Context (table : Z -> Z) (EqualFold : string -> string -> bool) (url_rest : string -> bool).
Abbreviation ToLower := (GoText.ToLower table).

Definition url_scheme (value : string) : option string :=
  let l := before_hash (to_bytes value) in
  if existsb control_byte l then None
  else match scheme_from [] l with
       | Some s => if url_rest value then Some (of_bytes (map lower_ascii s)) else None
       | None => None
       end.
Definition sanitizeURL (value : string) : option string :=
  if value =? "" then None
  else if HasPrefix value "//" || HasPrefix value "/\" then None
  else if HasPrefix value "#" || HasPrefix value "/" then Some value
  else match url_scheme value with
       | Some s => if (s =? "http") || (s =? "https") || (s =? "mailto") then Some value else None
       | None => None
       end.

(** * Fragments *)

Definition allowedHTMLBlockTags : list string :=
  ["a"; "b"; "blockquote"; "br"; "code"; "div"; "em"; "h1"; "h2"; "h3"; "h4"; "h5"; "h6"; "hr"; "i"; "li"; "ol"; "p"; "pre"; "span"; "strong"; "table";
   "tbody"; "td"; "th"; "thead"; "tr"; "ul"].
Definition member (l : list string) (s : string) : bool := existsb (String.eqb s) l.
(** [strings.ReplaceAll] of one byte by another. *)
Definition replace_byte (a b : ascii) (s : string) : string := of_bytes (map (fun c => if Ascii.eqb c a then b else c) (to_bytes s)).
Definition fragment_attr (tag : string) (a : Attribute) : list Attribute :=
  let key := ToLower (TrimSpace (at_Key a)) in
  let value := TrimSpace (at_Val a) in
  if (key =? "") || HasPrefix key "on" then []
  else if key =? "class" then
    let className := replace_byte " " "-" (sanitizeBodyClass (replace_byte ":" " " value)) in
    if className =? "" then [] else [attribute key className]
  else if key =? "href" then
    match sanitizeURL value with
    | Some href =>
        if tag =? "a" then [attribute key href; attribute "rel" "noopener noreferrer"; attribute "target" "_blank"]
        else []
    | None => []
    end
  else if key =? "title" then [attribute key value]
  else if (key =? "colspan") || (key =? "rowspan") then match ParseInt value with Some _ => [attribute key value] | None => [] end
  else [].
Definition sanitizeHTMLAttrs (tag : string) (attrs : list Attribute) : list Attribute := flat_map (fragment_attr tag) attrs.
Fixpoint sanitizeHTMLNode (node : Node) : list Node :=
  match node with
  | NText data => [NText data]
  | NElem data attrs children =>
      let tag := ToLower (TrimSpace data) in
      if member ["script"; "style"; "iframe"; "object"; "embed"; "link"; "meta"; "base"] tag then []
      else if negb (member allowedHTMLBlockTags tag) then flat_map sanitizeHTMLNode children
      else [NElem tag (sanitizeHTMLAttrs tag attrs) (flat_map sanitizeHTMLNode children)]
  | NOther _ _ children => flat_map sanitizeHTMLNode children
  end.
Fixpoint findHTMLNodeByID (id : string) (node : Node) : option Node :=
  let in_children := fix go (l : list Node) := match l with [] => None | n :: l => match findHTMLNodeByID id n with Some f => Some f | None => go l end end in
  match node with
  | NElem tag attrs children => if existsb (fun a => (at_Key a =? "id") && (at_Val a =? id)) attrs then Some node else in_children children
  | NOther _ _ children => in_children children
  | NText _ => None
  end.
Definition node_children (node : Node) : list Node := match node with NElem _ _ children | NOther _ _ children => children | NText _ => [] end.
(** [parse] and [render] are those of the library; the escaped text of what cannot be parsed. *)
Definition sanitizeHTMLFragment (parse : string -> option Node) (render : list Node -> option string) (escape : string -> string) (fragment : string) : string :=
  let failed := text ["<p>"; escape fragment; "</p>"] in
  match parse (text ["<!DOCTYPE html><html><body><div id="; of_bytes [dquote]; "__oda_root__"; of_bytes [dquote]; ">"; fragment; "</div></body></html>"]) with
  | None => failed
  | Some doc =>
      match findHTMLNodeByID "__oda_root__" doc with
      | None => failed
      | Some root => match render (flat_map sanitizeHTMLNode (node_children root)) with Some out => out | None => failed end
      end
  end.

(** * Documents *)

Definition reportAllowedTags : list string :=
  ["html"; "head"; "body"; "meta"; "link"; "title"; "style"; "script"; "div"; "span"; "p"; "br"; "hr"; "h1"; "h2"; "h3"; "h4"; "h5"; "h6";
   "table"; "thead"; "tbody"; "tfoot"; "tr"; "th"; "td"; "caption"; "ul"; "ol"; "li"; "dl"; "dt"; "dd"; "a"; "strong"; "em"; "b"; "i";
   "u"; "s"; "mark"; "small"; "sub"; "sup"; "blockquote"; "pre"; "code"; "img"; "figure"; "figcaption"; "section"; "article"; "aside"; "header";
   "footer"; "main"; "nav"; "details"; "summary"].
Definition reportRemoveTags : list string := ["iframe"; "object"; "embed"; "base"; "form"; "input"; "button"; "select"; "textarea"; "noscript"].
Definition reportScriptSources : list (string * string) :=
  [("oda-echarts-loader", "/assets/echarts.min.js"); ("oda-chart-runtime", "/oda-chart-runtime.js"); ("oda-math-loader", "/assets/katex/katex.min.js");
   ("oda-math-auto-render", "/assets/katex/contrib/auto-render.min.js"); ("oda-math-runtime", "/oda-math-runtime.js")].
Definition keptAttributeNames : list string := ["target"; "rel"; "charset"; "name"].
Definition reportAttributeNames : list string := ["id"; "title"; "colspan"; "rowspan"; "width"; "height"; "alt"; "role"; "lang"; "dir"].

(** ** Attributes of a node *)
Definition attributeValue (attrs : list Attribute) (name : string) : string :=
  match List.find (fun a => EqualFold (at_Key a) name) attrs with Some a => at_Val a | None => "" end.
Fixpoint setAttribute (attrs : list Attribute) (name value : string) : list Attribute :=
  match attrs with
  | [] => [attribute name value]
  | a :: attrs => if EqualFold (at_Key a) name then {| at_Namespace := at_Namespace a; at_Key := at_Key a; at_Val := value |} :: attrs else a :: setAttribute attrs name value
  end.
Definition removeAttribute (attrs : list Attribute) (name : string) : list Attribute := List.filter (fun a => negb (EqualFold (at_Key a) name)) attrs.
Definition isReportAttributeName (name : string) : bool := HasPrefix name "aria-" || member reportAttributeNames name.
Definition script_source (id : string) : option string := snd <$> List.find (fun p => p.1 =? id) reportScriptSources.
Definition isAllowedReportScriptID (id : string) : bool := match script_source id with Some _ => true | None => false end.
Definition isAllowedReportScript (attrs : list Attribute) : bool :=
  let src := TrimSpace (attributeValue attrs "src") in
  let id := attributeValue attrs "id" in
  if (src =? "") || (id =? "") then false
  else match script_source id with Some expected => src =? expected | None => false end.
(** The link kept of a [href] or [src], if any. *)
Definition safe_link (tag name value : string) : option string :=
  if (tag =? "link") && (name =? "href") then if isSameOriginPath value then Some value else None else sanitizeURL (TrimSpace value).
(** One attribute of the original list, on the list as it is by then. *)
Definition clean_attribute (tag : string) (attrs : list Attribute) (a : Attribute) : list Attribute :=
  let name := ToLower (TrimSpace (at_Key a)) in
  let value := at_Val a in
  if HasPrefix name "on" then removeAttribute attrs (at_Key a)
  else if (name =? "id") || (name =? "content") then
    if (name =? "id") && (negb (tag =? "script") || isAllowedReportScriptID value) then attrs else removeAttribute attrs (at_Key a)
  else if (name =? "href") || (name =? "src") then
    match safe_link tag name value with
    | Some safe =>
        if safe =? "" then removeAttribute attrs (at_Key a)
        else
          let attrs := setAttribute attrs (at_Key a) safe in
          if (name =? "href") && (tag =? "a") then setAttribute (setAttribute attrs "rel" "noopener noreferrer") "target" "_blank" else attrs
    | None => removeAttribute attrs (at_Key a)
    end
  else if name =? "style" then
    let safe := sanitizeInlineStyle value in if safe =? "" then removeAttribute attrs (at_Key a) else setAttribute attrs (at_Key a) safe
  else if name =? "class" then
    let safe := sanitizeBodyClass value in if safe =? "" then removeAttribute attrs (at_Key a) else setAttribute attrs (at_Key a) safe
  else if HasPrefix name "data-" then attrs
  else if isReportAttributeName name then attrs
  else if member keptAttributeNames name then attrs
  else removeAttribute attrs (at_Key a).
Definition cleanReportAttributes (tag : string) (attrs : list Attribute) : list Attribute := fold_left (clean_attribute tag) attrs attrs.

(** ** The passes over a document *)
Fixpoint walkReportNode (node : Node) : list Node :=
  match node with
  | NText _ => [node]
  | NOther type data children => [NOther type data (flat_map walkReportNode children)]
  | NElem tag attrs children =>
      if member reportRemoveTags tag then []
      else if negb (member reportAllowedTags tag) then flat_map walkReportNode children
      else [NElem tag (cleanReportAttributes tag attrs) (flat_map walkReportNode children)]
  end.
Fixpoint allow_scripts (node : Node) : list Node :=
  match node with
  | NText _ => [node]
  | NOther type data children => [NOther type data (flat_map allow_scripts children)]
  | NElem tag attrs children =>
      if (tag =? "script") && negb (isAllowedReportScript attrs) then [] else [NElem tag attrs (flat_map allow_scripts children)]
  end.
Fixpoint textContent (node : Node) : string :=
  match node with
  | NText data => data
  | NElem _ _ children | NOther _ _ children => String.concat "" (map textContent children)
  end.
Definition style_text (css : string) : string := sanitizeCSS (RemoveAll inlineStyleURL (RemoveAll styleImportRule css)).
Fixpoint clean_styles (node : Node) : Node :=
  match node with
  | NText _ => node
  | NOther type data children => NOther type data (map clean_styles children)
  | NElem tag attrs children =>
      if tag =? "style" then NElem tag attrs [NText (style_text (String.concat "" (map textContent children)))]
      else NElem tag attrs (map clean_styles children)
  end.
(** The first [body], in the order of the document. *)
Definition body_class (attrs : list Attribute) : list Attribute :=
  let className := sanitizeBodyClass (attributeValue attrs "class") in
  if className =? "" then removeAttribute attrs "class" else setAttribute attrs "class" className.
Fixpoint clean_body (node : Node) : option Node :=
  let in_children := fix go (l : list Node) := match l with
    | [] => None
    | n :: l => match clean_body n with Some n' => Some (n' :: l) | None => match go l with Some l' => Some (n :: l') | None => None end end
    end in
  match node with
  | NText _ => None
  | NElem tag attrs children =>
      if tag =? "body" then Some (NElem tag (body_class attrs) children)
      else match in_children children with Some l => Some (NElem tag attrs l) | None => None end
  | NOther type data children => match in_children children with Some l => Some (NOther type data l) | None => None end
  end.
Definition sanitizeReportTree (doc : list Node) : Node :=
  let node := clean_styles (NOther DocumentNode "" (flat_map allow_scripts (flat_map walkReportNode doc))) in
  match clean_body node with Some n => n | None => node end.
Fixpoint findFirstNode (tag : string) (node : Node) : option Node :=
  let in_children := fix go (l : list Node) := match l with [] => None | n :: l => match findFirstNode tag n with Some f => Some f | None => go l end end in
  match node with
  | NText _ => None
  | NElem t attrs children => if t =? tag then Some node else in_children children
  | NOther _ _ children => in_children children
  end.
Definition renderSanitizedDocument (render : Node -> option string) (doc : Node) : string :=
  match findFirstNode "html" doc with
  | None => ""
  | Some root => match render root with Some out => text ["<!DOCTYPE html>"; String "010" ""; out] | None => "" end
  end.
Definition SanitizeReportHTML (parse : string -> option (list Node)) (render : Node -> option string) (source : string) : string :=
  if TrimSpace source =? "" then ""
  else match parse source with None => "" | Some doc => renderSanitizedDocument render (sanitizeReportTree doc) end.
End html.
