(* ===== verification/SanitizeProps.v ===== *)
(** What the report sanitizers keep: allowed elements with checked attributes, in a document
    ([report_sanitized]) and in a fragment ([fragment_sanitized]); a fragment sanitized twice
    is the one sanitized once. *)
From S2P Require Import Prelude GoStrings GoText ReportState ReportOps SqlGuard StateTools Ingest Sanitize.
From Stdlib Require Import Ascii.
Open Scope string_scope.
Open Scope list_scope.

#[local] Arguments member : simpl never.

(** * Trees *)
Fixpoint all_elements (P : string -> list Attribute -> list Node -> Prop) (n : Node) : Prop :=
  match n with
  | NText _ => True
  | NElem tag attrs children => P tag attrs children /\ fold_right (fun c => and (all_elements P c)) True children
  | NOther _ _ children => fold_right (fun c => and (all_elements P c)) True children
  end.
Definition all_of (P : string -> list Attribute -> list Node -> Prop) (l : list Node) : Prop := fold_right (fun c => and (all_elements P c)) True l.

Lemma Node_nested (P : Node -> Prop) (Q : list Node -> Prop) :
  (forall d, P (NText d)) -> (forall tag attrs l, Q l -> P (NElem tag attrs l)) -> (forall t d l, Q l -> P (NOther t d l)) ->
  Q [] -> (forall n l, P n -> Q l -> Q (n :: l)) -> forall n, P n.
Proof.
  intros HT HE HO HN HC. fix IH 1. intros [d|tag attrs l|t d l]; [apply HT|apply HE|apply HO].
  all: induction l as [|n l IHl]; [exact HN|apply HC; [apply IH|exact IHl]].
Qed.
Lemma all_of_app P l1 l2 : all_of P (l1 ++ l2) <-> all_of P l1 /\ all_of P l2.
Proof. induction l1 as [|n l IH]; simpl; [tauto|]. unfold all_of in *. rewrite IH. tauto. Qed.

(** A pass that turns each node into nodes: what it makes of the nodes it makes of a list. *)
Lemma all_of_flat_map P (f : Node -> list Node) l : Forall (fun n => all_of P (f n)) l -> all_of P (flat_map f l).
Proof. induction 1 as [|n l H HF IH]; simpl; [done|]. apply all_of_app. done. Qed.
Lemma node_forall (P : Node -> Prop) :
  (forall d, P (NText d)) -> (forall tag attrs l, Forall P l -> P (NElem tag attrs l)) -> (forall t d l, Forall P l -> P (NOther t d l)) -> forall n, P n.
Proof. intros. apply (Node_nested P (Forall P)); auto. Qed.
Lemma all_of_forall P l : all_of P l <-> Forall (all_elements P) l.
Proof. induction l as [|n l IH]; simpl; split; intros H; [constructor|done| |]; [destruct H; constructor; tauto|inversion H; split; tauto]. Qed.
Lemma all_elements_impl (P Q : string -> list Attribute -> list Node -> Prop) n :
  (forall tag attrs l, P tag attrs l -> Q tag attrs l) -> all_elements P n -> all_elements Q n.
Proof.
  intros HPQ. induction n as [d|tag attrs l IH|t d l IH] using node_forall; simpl; [done| |].
  - intros [HP H]. split; [auto|]. apply all_of_forall in H. apply all_of_forall. rewrite Forall_forall in *. eauto.
  - intros H. apply all_of_forall in H. apply all_of_forall. rewrite Forall_forall in *. eauto.
Qed.

Section props.
Context (table : Z -> Z) (EqualFold : string -> string -> bool) (url_rest : string -> bool).

(** * Attributes of a document *)
Definition name_of (key : string) : string := ToLower table (TrimSpace key).
Definition checked_names : list string := ["id"; "href"; "src"; "style"].
Definition free_name (n : string) : bool := (n =? "class") || HasPrefix n "data-" || isReportAttributeName n || member keptAttributeNames n.
Definition refused_name (n : string) : bool := HasPrefix n "on" || (n =? "content") || negb (member checked_names n || free_name n).
(** What a kept attribute of an element satisfies. *)
Definition accepted_attr (tag key value : string) : bool :=
  let n := name_of key in
  negb (refused_name n) &&
  (if n =? "id" then negb (tag =? "script") || isAllowedReportScriptID value
   else if (n =? "href") || (n =? "src") then
     if (tag =? "link") && (n =? "href") then isSameOriginPath value else match sanitizeURL url_rest (TrimSpace value) with Some _ => true | None => false end
   else if n =? "style" then sanitizeInlineStyle value =? value
   else true).

Lemma sanitizeURL_value v w : sanitizeURL url_rest v = Some w -> w = v /\ v <> "".
Proof.
  unfold sanitizeURL. destruct (v =? "") eqn:E; [done|]. apply String.eqb_neq in E.
  repeat case_match; intros [= <-]; done.
Qed.
Lemma inline_value v : sanitizeInlineStyle v = "" \/ sanitizeInlineStyle v = v.
Proof. unfold sanitizeInlineStyle. repeat case_match; auto. Qed.
Lemma name_cases n : refused_name n = false -> member checked_names n = true \/ free_name n = true.
Proof. unfold refused_name. destruct (member checked_names n); [auto|]. destruct (free_name n); [auto|]. by rewrite !orb_true_r. Qed.
Lemma checked_cases n : member checked_names n = true <-> n = "id" \/ n = "href" \/ n = "src" \/ n = "style".
Proof.
  unfold member. rewrite existsb_exists. split.
  - intros (m & Hm & ->%String.eqb_eq). simpl in Hm. intuition congruence.
  - intros H. exists n. rewrite String.eqb_refl. simpl. intuition congruence.
Qed.

(** Fold-equal names of the attributes the code sets are one name. *)
Definition set_names : list string := ["id"; "href"; "src"; "style"; "class"; "rel"; "target"].
Hypothesis fold_refl : forall k, EqualFold k k = true.
Hypothesis fold_names : forall a b, EqualFold a b = true ->
  member set_names (name_of a) = true -> member set_names (name_of b) = true -> name_of a = name_of b.

(** ** The loop over the attributes

    What is in the list is still to come, or accepted, or refused with its key to come. *)
Definition attrs_ok (tag : string) (rest attrs : list Attribute) : Prop :=
  forall a, In a attrs -> In a rest \/ accepted_attr tag (at_Key a) (at_Val a) = true
    \/ (refused_name (name_of (at_Key a)) = true /\ exists b, In b rest /\ at_Key b = at_Key a).

Lemma in_removeAttribute a attrs k : In a (removeAttribute EqualFold attrs k) -> In a attrs /\ EqualFold (at_Key a) k = false.
Proof. unfold removeAttribute. rewrite filter_In. intros [H1 H2%negb_true_iff]. done. Qed.
Lemma remove_ok tag x rest attrs : attrs_ok tag (x :: rest) attrs -> attrs_ok tag rest (removeAttribute EqualFold attrs (at_Key x)).
Proof.
  intros H a [Ha Hf]%in_removeAttribute.
  assert (at_Key x <> at_Key a) as Hk by (intros E; rewrite <- E, fold_refl in Hf; done).
  destruct (H a Ha) as [[->|Hin]|[Hacc|(Hr & b & [->|Hb] & E)]]; try done; eauto. right. right. eauto.
Qed.
Lemma keep_ok tag x rest attrs : accepted_attr tag (at_Key x) (at_Val x) = true -> attrs_ok tag (x :: rest) attrs -> attrs_ok tag rest attrs.
Proof.
  intros Hx H a Ha. destruct (H a Ha) as [[->|Hin]|[Hacc|(Hr & b & [->|Hb] & E)]]; eauto.
  - exfalso. unfold accepted_attr in Hx. rewrite E, Hr in Hx. done.
  - right. right. eauto.
Qed.
Lemma in_setAttribute a attrs k w : In a (setAttribute EqualFold attrs k w) ->
  In a attrs \/ (at_Val a = w /\ (at_Key a = k \/ exists b, In b attrs /\ at_Key b = at_Key a /\ EqualFold (at_Key a) k = true)).
Proof.
  induction attrs as [|b attrs IH]; simpl.
  - intros [<-|[]]. right. auto.
  - destruct (EqualFold (at_Key b) k) eqn:E; simpl.
    + intros [<-|H]; [|auto]. right. simpl. split; [done|]. right. exists b. auto.
    + intros [<-|H]; [auto|]. destruct (IH H) as [?|(Hv & [?|(c & ? & ? & ?)])]; [auto|auto|]. right. split; [done|]. right. exists c. auto.
Qed.
Lemma accepted_key tag a b w : name_of a = name_of b -> accepted_attr tag a w = accepted_attr tag b w.
Proof. unfold accepted_attr. by intros ->. Qed.
Lemma free_accepted tag k v : refused_name (name_of k) = false -> member checked_names (name_of k) = false -> accepted_attr tag k v = true.
Proof.
  intros Hr Hc. unfold accepted_attr. rewrite Hr. simpl.
  destruct (name_of k =? "id") eqn:E1; [exfalso|]. { apply String.eqb_eq in E1. rewrite E1 in Hc. done. }
  destruct (name_of k =? "href") eqn:E2; [exfalso|]. { apply String.eqb_eq in E2. rewrite E2 in Hc. done. }
  destruct (name_of k =? "src") eqn:E3; [exfalso|]. { apply String.eqb_eq in E3. rewrite E3 in Hc. done. }
  destruct (name_of k =? "style") eqn:E4; [exfalso|done]. apply String.eqb_eq in E4. rewrite E4 in Hc. done.
Qed.
Lemma set_ok tag rest attrs k w : member set_names (name_of k) = true -> accepted_attr tag k w = true ->
  attrs_ok tag rest attrs -> attrs_ok tag rest (setAttribute EqualFold attrs k w).
Proof.
  intros Hk Hw H a [Ha|(Hv & [E|(b & Hb & E & Hf)])]%in_setAttribute; [auto|subst; auto|].
  destruct (refused_name (name_of (at_Key a))) eqn:Hr.
  - right. right. split; [done|]. rewrite <- E in Hr. destruct (H b Hb) as [Hin|[Hacc|(_ & c & Hc & Ec)]].
    + exists b. auto.
    + unfold accepted_attr in Hacc. rewrite Hr in Hacc. done.
    + exists c. split; [done|congruence].
  - right. left. rewrite Hv. destruct (member checked_names (name_of (at_Key a))) eqn:Hc; [|by apply free_accepted].
    rewrite (accepted_key tag (at_Key a) k); [done|]. apply fold_names; [done| |done].
    apply checked_cases in Hc. destruct Hc as [-> | [-> | [-> | ->]]]; reflexivity.
Qed.

Lemma set_self_ok tag x rest attrs w : attrs_ok tag (x :: rest) attrs -> member set_names (name_of (at_Key x)) = true ->
  accepted_attr tag (at_Key x) (at_Val x) = true -> accepted_attr tag (at_Key x) w = true -> attrs_ok tag rest (setAttribute EqualFold attrs (at_Key x) w).
Proof. intros H Hs Hx Hw. apply set_ok; [done|done|]. by apply (keep_ok tag x). Qed.

Definition clean_link (tag name : string) (attrs : list Attribute) (a : Attribute) : list Attribute :=
  match safe_link url_rest tag name (at_Val a) with
  | Some safe =>
      if safe =? "" then removeAttribute EqualFold attrs (at_Key a)
      else
        let attrs := setAttribute EqualFold attrs (at_Key a) safe in
        if (name =? "href") && (tag =? "a") then setAttribute EqualFold (setAttribute EqualFold attrs "rel" "noopener noreferrer") "target" "_blank" else attrs
  | None => removeAttribute EqualFold attrs (at_Key a)
  end.
Lemma link_ok tag x rest attrs : attrs_ok tag (x :: rest) attrs -> name_of (at_Key x) = "href" \/ name_of (at_Key x) = "src" ->
  attrs_ok tag rest (clean_link tag (name_of (at_Key x)) attrs x).
Proof.
  intros H Hn. pose proof (remove_ok tag x rest attrs H) as Hrem. unfold clean_link, safe_link.
  assert (member set_names (name_of (at_Key x)) = true) as Hs by (destruct Hn as [-> | ->]; reflexivity).
  destruct ((tag =? "link") && (name_of (at_Key x) =? "href")) eqn:El.
  - destruct (isSameOriginPath (at_Val x)) eqn:Ep; [|exact Hrem]. destruct (at_Val x =? ""); [exact Hrem|].
    apply andb_true_iff in El as [Et Eh]. apply String.eqb_eq in Et, Eh. subst tag. rewrite andb_false_r.
    apply set_self_ok; [done|done| |]; unfold accepted_attr; rewrite Eh; exact Ep.
  - destruct (sanitizeURL url_rest (TrimSpace (at_Val x))) as [w|] eqn:Eu; [|exact Hrem]. destruct (w =? ""); [exact Hrem|].
    destruct (sanitizeURL_value _ _ Eu) as [-> _].
    assert (forall v, TrimSpace v = TrimSpace (at_Val x) -> accepted_attr tag (at_Key x) v = true) as Hacc.
    { intros v Ev. unfold accepted_attr. rewrite Ev, Eu. destruct Hn as [Hn|Hn]; rewrite Hn in *; cbn in El |- *; by rewrite ?El. }
    pose proof (set_self_ok tag x rest attrs _ H Hs (Hacc _ eq_refl) (Hacc _ (TrimSpace_idem _))) as H1.
    destruct ((name_of (at_Key x) =? "href") && (tag =? "a")); [|exact H1].
    apply set_ok; [reflexivity|reflexivity|]. apply set_ok; [reflexivity|reflexivity|exact H1].
Qed.
Lemma clean_ok tag x rest attrs : attrs_ok tag (x :: rest) attrs -> attrs_ok tag rest (clean_attribute table EqualFold url_rest tag attrs x).
Proof.
  intros H. pose proof (remove_ok tag x rest attrs H) as Hrem.
  assert (accepted_attr tag (at_Key x) (at_Val x) = true -> attrs_ok tag rest attrs) as Hkeep by (intros Hx; by apply (keep_ok tag x)).
  unfold clean_attribute. fold (name_of (at_Key x)).
  destruct (HasPrefix (name_of (at_Key x)) "on") eqn:Eon; [exact Hrem|].
  destruct (name_of (at_Key x) =? "id") eqn:Eid.
  { apply String.eqb_eq in Eid. cbn [orb andb]. destruct (negb (tag =? "script") || _) eqn:Es; [|exact Hrem].
    apply Hkeep. unfold accepted_attr. rewrite Eid. exact Es. }
  destruct (name_of (at_Key x) =? "content") eqn:Econ; [exact Hrem|]. cbn [orb andb].
  destruct ((name_of (at_Key x) =? "href") || (name_of (at_Key x) =? "src")) eqn:Elink.
  { apply link_ok; [exact H|]. apply orb_true_iff in Elink as [?%String.eqb_eq|?%String.eqb_eq]; auto. }
  destruct (name_of (at_Key x) =? "style") eqn:Est.
  { apply String.eqb_eq in Est. destruct (sanitizeInlineStyle (at_Val x) =? "") eqn:E; [exact Hrem|].
    destruct (inline_value (at_Val x)) as [E2|E2]; rewrite E2 in *; [done|].
    apply set_self_ok; [done|by rewrite Est| |]; unfold accepted_attr; rewrite Est, E2; apply String.eqb_refl. }
  assert (free_name (name_of (at_Key x)) = true -> forall v, accepted_attr tag (at_Key x) v = true) as Hfree.
  { intros Hf v. apply free_accepted; [unfold refused_name; by rewrite Eon, Econ, Hf, orb_true_r|].
    apply orb_false_iff in Elink as [E1 E2]. unfold member, checked_names. simpl. by rewrite Eid, E1, E2, Est. }
  destruct (name_of (at_Key x) =? "class") eqn:Ecl.
  { destruct (sanitizeBodyClass (at_Val x) =? ""); [exact Hrem|]. apply String.eqb_eq in Ecl.
    apply set_self_ok; [done|by rewrite Ecl| |]; apply Hfree; by rewrite Ecl. }
  assert (forall b, (b = true -> free_name (name_of (at_Key x)) = true) -> forall other, attrs_ok tag rest other -> attrs_ok tag rest (if b : bool then attrs else other)) as Hif.
  { intros [|] Hb other Ho; [apply Hkeep, Hfree, Hb; done|exact Ho]. }
  apply Hif; [unfold free_name; intros ->; by rewrite orb_true_r|]. apply Hif; [unfold free_name; intros ->; by rewrite orb_true_r|].
  apply Hif; [unfold free_name; intros ->; by rewrite orb_true_r|exact Hrem].
Qed.
Lemma attrs_ok_all tag attrs : attrs_ok tag [] attrs <-> Forall (fun a => accepted_attr tag (at_Key a) (at_Val a) = true) attrs.
Proof.
  rewrite List.Forall_forall. split; intros H a Ha; [|by right; left; apply H].
  destruct (H a Ha) as [[]|[Hacc|(_ & b & [] & _)]]. exact Hacc.
Qed.
Lemma cleaned_ok tag attrs : attrs_ok tag [] (cleanReportAttributes table EqualFold url_rest tag attrs).
Proof.
  unfold cleanReportAttributes. assert (attrs_ok tag attrs attrs) as H by (intros a Ha; auto). revert H. generalize attrs at 1 3.
  intros rest. revert attrs. induction rest as [|x rest IH]; intros l Hl; [exact Hl|]. simpl. apply IH, clean_ok, Hl.
Qed.

(** * The passes over a document *)
Definition kept_element (tag : string) (attrs : list Attribute) (children : list Node) : Prop :=
  member reportAllowedTags tag = true /\ attrs_ok tag [] attrs.
Definition kept_script (tag : string) (attrs : list Attribute) (children : list Node) : Prop :=
  kept_element tag attrs children /\ (tag = "script" -> isAllowedReportScript EqualFold attrs = true).
Definition sanitized_element (tag : string) (attrs : list Attribute) (children : list Node) : Prop :=
  kept_script tag attrs children /\ (tag = "style" -> exists css, children = [NText (style_text css)]).

Lemma walk_kept n : all_of kept_element (walkReportNode table EqualFold url_rest n).
Proof.
  induction n as [d|tag attrs l IH|t d l IH] using node_forall; [done| |]; apply all_of_flat_map in IH; simpl; [|by split].
  destruct (member reportRemoveTags tag); [done|]. destruct (member reportAllowedTags tag) eqn:E; simpl; [|exact IH].
  split; [|done]. split; [|exact IH]. split; [done|apply cleaned_ok].
Qed.
Lemma scripts_kept n : all_elements kept_element n -> all_of kept_script (allow_scripts EqualFold n).
Proof.
  induction n as [d|tag attrs l IH|t d l IH] using node_forall; [done| |].
  - intros [Hk Hl]. simpl. destruct ((tag =? "script") && _) eqn:E; [done|]. split; [|done]. split.
    + split; [done|]. intros ->. simpl in E. by apply negb_false_iff in E.
    + apply all_of_forall in Hl. apply all_of_flat_map. rewrite Forall_forall in *. auto.
  - intros Hl. split; [|done]. apply all_of_forall in Hl. apply all_of_flat_map. rewrite Forall_forall in *. auto.
Qed.
Lemma styles_kept n : all_elements kept_script n -> all_elements sanitized_element (clean_styles n).
Proof.
  assert (forall l, Forall (fun n => all_elements kept_script n -> all_elements sanitized_element (clean_styles n)) l ->
    all_of kept_script l -> all_of sanitized_element (map clean_styles l)) as Hmap.
  { intros l IH Hl. apply all_of_forall in Hl. apply all_of_forall, Forall_map. rewrite Forall_forall in *. auto. }
  induction n as [d|tag attrs l IH|t d l IH] using node_forall; [done| |].
  - intros [Hk Hl]. simpl. destruct (tag =? "style") eqn:E; simpl.
    + split; [|done]. split; [exact Hk|]. intros _. by eexists.
    + split; [|by apply Hmap]. split; [exact Hk|]. intros ->. done.
  - intros Hl. by apply Hmap.
Qed.
Lemma body_kept n n' : all_elements sanitized_element n -> clean_body EqualFold n = Some n' -> all_elements sanitized_element n'.
Proof.
  set (in_children := fix go (l : list Node) := match l with
    | [] => None
    | n :: l => match clean_body EqualFold n with Some n' => Some (n' :: l) | None => match go l with Some l' => Some (n :: l') | None => None end end
    end).
  assert (forall l, Forall (fun n => forall n', all_elements sanitized_element n -> clean_body EqualFold n = Some n' -> all_elements sanitized_element n') l ->
    forall l', all_of sanitized_element l -> in_children l = Some l' -> all_of sanitized_element l' /\ ((exists css, l = [NText css]) -> l = l')) as Hl.
  { induction 1 as [|m l Hm _ IHl]; intros l' Hall; [done|]. destruct Hall as [H1 H2]. simpl.
    destruct (clean_body EqualFold m) as [m'|] eqn:Em.
    - intros [= <-]. split; [split; [by apply Hm|exact H2]|]. intros (css & [= -> ->]). done.
    - destruct (in_children l) as [l1|] eqn:El; [|done]. intros [= <-]. destruct (IHl l1 H2 eq_refl) as [H3 _].
      split; [split; [exact H1|exact H3]|]. intros (css & [= -> ->]). done. }
  revert n'. induction n as [d|tag attrs l IH|t d l IH] using node_forall; intros n'; [done| |].
  - intros [(((Ht & Ha) & Hs) & Hst) Hall]. simpl. fold in_children. destruct (tag =? "body") eqn:E.
    + intros [= <-]. apply String.eqb_eq in E. subst tag. split; [|exact Hall]. split; [|done]. split; [|done]. split; [done|].
      unfold body_class. destruct (_ =? ""); [|by apply set_ok].
      intros a [H _]%in_removeAttribute. by apply Ha.
    + destruct (in_children l) as [l'|] eqn:El; [|done]. intros [= <-]. destruct (Hl l IH l' Hall El) as [H1 H2].
      split; [|exact H1]. split; [done|]. intros Htag. destruct (Hst Htag) as [css Hc]. exists css. rewrite <- H2; [done|]. by eexists.
  - intros Hall. simpl. fold in_children. destruct (in_children l) as [l'|] eqn:El; [|done]. intros [= <-]. apply (Hl l IH l' Hall El).
Qed.

(** C8: a sanitized report holds allowed elements only, so none of the removed ones; every
    attribute it keeps is of an accepted name (no handler, no [content]), its links lead to http,
    https, mail or a place of this origin, its inline styles load nothing; each script is one of
    the five loaders with its own id and path; each style holds one sanitized text. *)
Theorem report_sanitized (doc : list Node) :
  all_elements (fun tag attrs children =>
    member reportAllowedTags tag = true /\ member reportRemoveTags tag = false /\
    Forall (fun a => accepted_attr tag (at_Key a) (at_Val a) = true) attrs /\
    (tag = "script" -> exists id src, In (id, src) reportScriptSources /\ attributeValue EqualFold attrs "id" = id /\ TrimSpace (attributeValue EqualFold attrs "src") = src) /\
    (tag = "style" -> exists css, children = [NText (style_text css)]))
    (sanitizeReportTree table EqualFold url_rest doc).
Proof.
  assert (all_elements sanitized_element (sanitizeReportTree table EqualFold url_rest doc)) as H.
  { assert (all_elements sanitized_element (clean_styles (NOther DocumentNode "" (flat_map (allow_scripts EqualFold) (flat_map (walkReportNode table EqualFold url_rest) doc))))) as H.
    { apply styles_kept. simpl. apply all_of_flat_map. apply Forall_impl with (all_elements kept_element); [|apply scripts_kept].
      apply all_of_forall, all_of_flat_map, Forall_forall. intros n _. apply walk_kept. }
    unfold sanitizeReportTree. destruct (clean_body _ _) eqn:E; [by apply (body_kept _ _ H)|exact H]. }
  revert H. apply all_elements_impl. intros tag attrs l [[[Ht Ha] Hs] Hst]. split; [done|]. split.
  { destruct (member reportRemoveTags tag) eqn:E; [|done]. unfold member in E. apply existsb_exists in E as (x & Hx & ->%String.eqb_eq).
    simpl in Hx. repeat destruct Hx as [<-|Hx]; done. }
  split; [by apply attrs_ok_all|]. split; [|exact Hst]. intros Htag. specialize (Hs Htag). unfold isAllowedReportScript, script_source in Hs.
  destruct (_ || _); [done|]. destruct (List.find _ _) as [[i p]|] eqn:E; [|done]. apply find_some in E as [E1 E2].
  exists i, p. simpl in *. apply String.eqb_eq in Hs, E2. auto.
Qed.
End props.

(** * Fragments *)

(** ** Texts without spaces *)
Lemma fields_edges cur l : forallb edge l = true -> fields_from cur l = flush_field (rev l ++ cur) [].
Proof.
  revert cur. induction l as [|a l IH]; intros cur; [done|]. intros [Ha Hl]%andb_true_iff.
  assert (fields_from cur (a :: l) = fields_from (a :: cur) l) as ->.
  { cbn [fields_from]. destruct (edge_spaces a a a Ha) as (-> & _). destruct l as [|b [|c l]]; [done|..].
    - by destruct (edge_spaces a b b Ha) as (_ & -> & _).
    - by destruct (edge_spaces a b c Ha) as (_ & -> & -> & _). }
  rewrite IH by done. cbn [rev]. by rewrite <- app_assoc.
Qed.
Lemma Fields_edges s : s <> "" -> forallb edge (to_bytes s) = true -> Fields s = [s].
Proof.
  intros Hs He. unfold Fields. rewrite fields_edges, app_nil_r by done. unfold flush_field. destruct (rev (to_bytes s)) as [|c l] eqn:E.
  - destruct s; [done|]. apply (f_equal (@List.length ascii)) in E. rewrite length_rev in E. done.
  - rewrite <- E, rev_involutive. cbn [map]. by rewrite String.string_of_list_ascii_of_string.
Qed.
Lemma TrimSpace_edge_text s : forallb edge (to_bytes s) = true -> TrimSpace s = s.
Proof.
  intros He. rewrite <- (String.string_of_list_ascii_of_string s) at 2. unfold TrimSpace. f_equal. revert He. generalize (to_bytes s). intros l He.
  destruct l as [|a l]; [done|]. rewrite trim_left_edge by (simpl in He; apply andb_true_iff in He; tauto).
  destruct (exists_last (l := a :: l) ltac:(done)) as (l' & b & E). rewrite E in *. apply trim_right_edge.
  rewrite forallb_app in He. apply andb_true_iff in He as [_ He]. cbn [forallb] in He. by rewrite andb_true_r in He.
Qed.
Lemma class_edge c : class_byte c = true -> edge c = true.
Proof. destruct c as [[] [] [] [] [] [] [] []]; vm_compute; intros H; exact H || reflexivity. Qed.

(** ** Class names *)
Definition class_text (s : string) : Prop := forallb class_byte (to_bytes s) = true.
Definition fragment_class (value : string) : string := replace_byte " " "-" (sanitizeBodyClass (replace_byte ":" " " value)).
Lemma class_text_edges s : class_text s -> forallb edge (to_bytes s) = true.
Proof. unfold class_text. rewrite !forallb_forall. intros H c Hc. apply class_edge, H, Hc. Qed.
Lemma replace_absent a b s : forallb (fun c => negb (Ascii.eqb c a)) (to_bytes s) = true -> replace_byte a b s = s.
Proof.
  intros H. rewrite <- (String.string_of_list_ascii_of_string s) at 2. unfold replace_byte. f_equal.
  rewrite <- (map_id (to_bytes s)) at 2. apply map_ext_in. intros c Hc. rewrite forallb_forall in H. specialize (H c Hc). by destruct (Ascii.eqb c a).
Qed.
Lemma concat_bytes (P : ascii -> Prop) sep l : Forall P (to_bytes sep) -> Forall (fun s => Forall P (to_bytes s)) l -> Forall P (to_bytes (String.concat sep l)).
Proof.
  intros Hs H. induction H as [|s l Hp H IH]; [constructor|]. destruct l as [|s2 l]; [exact Hp|].
  change (String.concat sep (s :: s2 :: l)) with (s ++ sep ++ String.concat sep (s2 :: l))%string.
  rewrite !to_bytes_app, !Forall_app. done.
Qed.
Lemma fragment_class_text value : class_text (fragment_class value).
Proof.
  unfold class_text, fragment_class, replace_byte at 1. rewrite String.list_ascii_of_string_of_list_ascii.
  apply forallb_forall. intros c (d & <- & Hd)%in_map_iff.
  assert (Forall (fun c => class_byte c = true \/ c = " "%char) (to_bytes (sanitizeBodyClass (replace_byte ":" " " value)))) as H.
  { apply concat_bytes; [constructor; [by right|constructor]|]. apply List.Forall_forall. intros s [_ Hs]%filter_In. apply List.Forall_forall. intros e He.
    rewrite forallb_forall in Hs. auto. }
  rewrite List.Forall_forall in H. destruct (H d Hd) as [Hc|Hc]; [|by rewrite Hc].
  destruct (Ascii.eqb d " ") eqn:E; [done|exact Hc].
Qed.
Lemma fragment_class_fixed s : class_text s -> fragment_class s = s.
Proof.
  intros H. assert (forall a, class_byte a = false -> forall b, replace_byte a b s = s) as Hr.
  { intros a Ha b. apply replace_absent, forallb_forall. intros c Hc. unfold class_text in H. rewrite forallb_forall in H. specialize (H c Hc).
    destruct (Ascii.eqb c a) eqn:E; [|done]. apply Ascii.eqb_eq in E. by subst; rewrite Ha in H. }
  unfold fragment_class. rewrite (Hr ":"%char) by done. unfold sanitizeBodyClass.
  destruct (String.eqb_spec s "") as [->|Hs]; [reflexivity|].
  rewrite Fields_edges by (done || by apply class_text_edges). cbn [List.filter]. unfold class_text in H. rewrite H. simpl. by apply Hr.
Qed.

(** ** Attributes and trees *)
Section fragments.
Context (table : Z -> Z) (url_rest : string -> bool).
Abbreviation attrs_of := (sanitizeHTMLAttrs table url_rest).
Abbreviation nodes_of := (sanitizeHTMLNode table url_rest).

(** What an attribute of a sanitized fragment is. *)
Definition fragment_attr_ok (tag : string) (a : Attribute) : Prop :=
  (at_Key a = "class" /\ class_text (at_Val a) /\ at_Val a <> "") \/
  (at_Key a = "href" /\ tag = "a" /\ sanitizeURL url_rest (at_Val a) = Some (at_Val a)) \/
  (at_Key a = "rel" /\ at_Val a = "noopener noreferrer") \/ (at_Key a = "target" /\ at_Val a = "_blank") \/
  (at_Key a = "title" /\ TrimSpace (at_Val a) = at_Val a) \/
  ((at_Key a = "colspan" \/ at_Key a = "rowspan") /\ TrimSpace (at_Val a) = at_Val a /\ exists n, ParseInt (at_Val a) = Some n).
Lemma fragment_attr_cases tag a :
  fragment_attr table url_rest tag a = [] \/
  (exists k v, fragment_attr table url_rest tag a = [attribute k v] /\ fragment_attr_ok tag (attribute k v) /\ k <> "rel" /\ k <> "target" /\ k <> "href") \/
  (exists v, TrimSpace v = v /\ fragment_attr table url_rest tag a = [attribute "href" v; attribute "rel" "noopener noreferrer"; attribute "target" "_blank"]
    /\ fragment_attr_ok tag (attribute "href" v)).
Proof.
  unfold fragment_attr. destruct (_ || _); [auto|]. set (key := ToLower table _). fold (fragment_class (TrimSpace (at_Val a))).
  destruct (key =? "class") eqn:E1.
  { apply String.eqb_eq in E1. rewrite E1. destruct (_ =? "") eqn:Ec; [auto|]. right. left. eexists _, _. split; [reflexivity|].
    split; [|done]. left. split; [done|]. split; [apply fragment_class_text|]. by apply String.eqb_neq. }
  destruct (key =? "href") eqn:E2.
  { apply String.eqb_eq in E2. rewrite E2. destruct (sanitizeURL _ _) as [u|] eqn:Eu; [|auto]. destruct (sanitizeURL_value _ _ _ Eu) as [-> _].
    destruct (tag =? "a") eqn:Et; [|auto]. apply String.eqb_eq in Et. right. right. exists (TrimSpace (at_Val a)). split; [apply TrimSpace_idem|]. split; [done|].
    right. left. done. }
  destruct (key =? "title") eqn:E3.
  { apply String.eqb_eq in E3. rewrite E3. right. left. eexists _, _. split; [reflexivity|]. split; [|done]. do 4 right. left. split; [done|]. apply TrimSpace_idem. }
  destruct (_ || _) eqn:E4; [|auto]. destruct (ParseInt _) as [n|] eqn:En; [|auto]. right. left. eexists _, _. split; [reflexivity|].
  apply orb_true_iff in E4. split.
  - do 5 right. split; [by destruct E4 as [?%String.eqb_eq|?%String.eqb_eq]; [left|right]|]. split; [apply TrimSpace_idem|eauto].
  - by destruct E4 as [->%String.eqb_eq | ->%String.eqb_eq].
Qed.
Lemma fragment_attr_fixed tag k v : fragment_attr_ok tag (attribute k v) -> k <> "rel" -> k <> "target" -> k <> "href" ->
  fragment_attr table url_rest tag (attribute k v) = [attribute k v].
Proof.
  unfold fragment_attr_ok. cbn [attribute at_Key at_Val].
  intros [(-> & Hc & Hv)|[(-> & _)|[(-> & _)|[(-> & _)|[(-> & Ht)|(Hk & Ht & n & Hn)]]]]] H1 H2 H3; try done; simpl in *.
  - unfold fragment_attr. simpl. rewrite TrimSpace_edge_text by (by apply class_text_edges). fold (fragment_class v). rewrite fragment_class_fixed by done.
    destruct (v =? "") eqn:E; [by apply String.eqb_eq in E|done].
  - unfold fragment_attr. simpl. by rewrite Ht.
  - destruct Hk as [-> | ->]; unfold fragment_attr; simpl; by rewrite Ht, Hn.
Qed.
Lemma attrs_of_ok tag attrs : Forall (fragment_attr_ok tag) (attrs_of tag attrs).
Proof.
  apply List.Forall_forall. intros b (a & _ & Hb)%in_flat_map. destruct (fragment_attr_cases tag a) as [E|[(k & v & E & Hk & _)|(v & _ & E & Hv)]]; rewrite E in Hb.
  - done.
  - destruct Hb as [<-|[]]. exact Hk.
  - destruct Hb as [<-|[<-|[<-|[]]]]; [exact Hv| |]; unfold fragment_attr_ok; simpl; tauto.
Qed.
Lemma attrs_of_idem tag attrs : attrs_of tag (attrs_of tag attrs) = attrs_of tag attrs.
Proof.
  unfold sanitizeHTMLAttrs. induction attrs as [|a attrs IH]; [done|]. cbn [flat_map]. rewrite flat_map_app, IH. f_equal.
  destruct (fragment_attr_cases tag a) as [E|[(k & v & E & Hk & H1 & H2 & H3)|(v & Hs & E & Hv)]]; rewrite E; [done| |].
  - cbn [flat_map]. by rewrite (fragment_attr_fixed tag k v Hk H1 H2 H3).
  - destruct Hv as [(Hk & _)|[(_ & -> & Hu)|[(Hk & _)|[(Hk & _)|[(Hk & _)|([Hk|Hk] & _)]]]]]; try discriminate Hk. simpl in Hu.
    cbn [flat_map]. unfold fragment_attr. simpl. rewrite Hs, Hu. done.
Qed.
Fixpoint no_other (n : Node) : Prop :=
  match n with
  | NText _ => True
  | NElem _ _ children => fold_right (fun c => and (no_other c)) True children
  | NOther _ _ _ => False
  end.
Definition fragment_element (tag : string) (attrs : list Attribute) (children : list Node) : Prop :=
  member allowedHTMLBlockTags tag = true /\ Forall (fragment_attr_ok tag) attrs.
Lemma nodes_of_ok n : all_of fragment_element (nodes_of n).
Proof.
  induction n as [d|tag attrs l IH|t d l IH] using node_forall; [done| |]; apply all_of_flat_map in IH; [|exact IH].
  cbn [sanitizeHTMLNode]. destruct (member [_; _; _; _; _; _; _; _] _); [done|]. destruct (member allowedHTMLBlockTags _) eqn:E; [|exact IH].
  cbn [negb]. split; [|done]. split; [|exact IH]. split; [exact E|apply attrs_of_ok].
Qed.
Lemma allowed_tag tag : member allowedHTMLBlockTags tag = true ->
  ToLower table (TrimSpace tag) = tag /\ member ["script"; "style"; "iframe"; "object"; "embed"; "link"; "meta"; "base"] tag = false.
Proof.
  unfold member at 1. intros (x & Hx & ->%String.eqb_eq)%existsb_exists. simpl in Hx.
  repeat (destruct Hx as [<-|Hx]; [split; reflexivity|]). destruct Hx.
Qed.
Lemma nodes_of_idem n : flat_map nodes_of (nodes_of n) = nodes_of n.
Proof.
  assert (forall l, Forall (fun n => flat_map nodes_of (nodes_of n) = nodes_of n) l -> flat_map nodes_of (flat_map nodes_of l) = flat_map nodes_of l) as Hl.
  { induction 1 as [|m l Hm _ IH]; [done|]. cbn [flat_map]. by rewrite flat_map_app, Hm, IH. }
  induction n as [d|tag attrs l IH|t d l IH] using node_forall; [done| |]; apply Hl in IH; [|exact IH].
  cbn [sanitizeHTMLNode]. destruct (member [_; _; _; _; _; _; _; _] _) eqn:E1; [done|]. destruct (member allowedHTMLBlockTags _) eqn:E2; [|exact IH].
  cbn [negb flat_map sanitizeHTMLNode]. destruct (allowed_tag _ E2) as [-> ->]. rewrite E2. cbn [negb]. by rewrite attrs_of_idem, IH.
Qed.

(** what is left of a fragment a model writes are texts and the block elements listed, each
    with class names of letters, digits, dashes and underscores, titles, whole-number spans and,
    on a link, a checked target; sanitizing it a second time changes nothing. *)
Theorem fragment_sanitized (l : list Node) :
  all_of (fun tag attrs _ => member allowedHTMLBlockTags tag = true /\ Forall (fragment_attr_ok tag) attrs) (flat_map nodes_of l) /\
  flat_map nodes_of (flat_map nodes_of l) = flat_map nodes_of l.
Proof.
  split.
  - apply all_of_flat_map, Forall_forall. intros n _. apply nodes_of_ok.
  - induction l as [|n l IH]; [done|]. cbn [flat_map]. by rewrite flat_map_app, nodes_of_idem, IH.
Qed.
End fragments.

(** * Where the filters of a text stop short *)

(** A style text can end its element: the filters take [</style] away before what is between its
    letters.  The page writes the report's style through [sanitizeCSS] first. *)
Lemma style_escape :
  let css := sanitizeCSS "</styexpexpression(ression(le><img src=x onerror=alert(1)>" in
  HasPrefix css "</style" = false /\ style_text css = "</style><img src=x onerror=alert(1)>".
Proof. vm_compute. auto. Qed.
(** One removal can make what it removes. *)
Lemma style_url_left : style_text "a{b:uurl(rl(//host/x)}" = "a{b:url(//host/x)}".
Proof. vm_compute. done. Qed.
(** A browser drops the tab and reads a place of another host. *)
Lemma tab_link_accepted url_rest :
  let link := String "/" (String "009" "/host/x.css") in isSameOriginPath link = true /\ sanitizeURL url_rest link = Some link.
Proof. vm_compute. auto. Qed.

(** The configuration admits a loader at another path of this origin, which no report keeps. *)
Lemma configured_loader_dropped EqualFold : (forall k, EqualFold k k = true) -> EqualFold "id" "src" = false ->
  isAllowedReportScript EqualFold [attribute "id" "oda-echarts-loader"; attribute "src" "/static/echarts.min.js"] = false.
Proof. intros Hr Hd. unfold isAllowedReportScript, attributeValue. cbn [List.find at_Key at_Val attribute]. rewrite Hd, !Hr. reflexivity. Qed.

(** A report with a handler, a link of another origin, a script and a style. *)
Lemma report_sanitized_witness :
  let table := fun r => r in
  let EqualFold := fun a b => ToLower table (TrimSpace a) =? ToLower table (TrimSpace b) in
  let doc := [NElem "html" [] [NElem "body" [attribute "onload" "x()"; attribute "class" "a b{"]
    [NElem "a" [attribute "href" "javascript:x()"; attribute "title" "t"] [NText "t"]; NElem "form" [] []; NElem "custom" [] [NText "u"];
     NElem "script" [attribute "id" "oda-chart-runtime"; attribute "src" "//host/x.js"] []; NElem "style" [] [NText "@import 'x'; p{}"]]]] in
  sanitizeReportTree table EqualFold (fun _ => true) doc =
    NOther DocumentNode "" [NElem "html" [] [NElem "body" [attribute "class" "a"]
      [NElem "a" [attribute "title" "t"] [NText "t"]; NText "u"; NElem "style" [] [NText "p{}"]]]] /\
  all_elements (fun tag attrs children =>
    member reportAllowedTags tag = true /\ member reportRemoveTags tag = false /\
    Forall (fun a => accepted_attr table (fun _ => true) tag (at_Key a) (at_Val a) = true) attrs /\
    (tag = "script" -> exists id src, In (id, src) reportScriptSources /\ attributeValue EqualFold attrs "id" = id /\ TrimSpace (attributeValue EqualFold attrs "src") = src) /\
    (tag = "style" -> exists css, children = [NText (style_text css)]))
    (sanitizeReportTree table EqualFold (fun _ => true) doc).
Proof.
  split; [vm_compute; reflexivity|]. apply report_sanitized.
  - intros k. apply String.eqb_refl.
  - intros a b Hab Ha Hb. by apply String.eqb_eq in Hab.
Defined.
