(* ===== verification/ReportPage.v ===== *)
(** The page of a report ([tools/report_html.go]): its units and numbered sections, the table
    of contents, the contents of a block, and the parts [RenderReportHTML] puts in the page.

    Arguments: [convert] (goldmark), the parsers and renderers of [golang.org/x/net/html] and
    the order in which a map of replacements is walked.  The fixed text of the page (its style
    sheet and the tags of its assets) is not repeated: [Page] holds what is put between. *)
From S2P Require Import Prelude GoStrings GoText Json ReportState ReportOps SqlGuard StateTools Ingest Sanitize.
From Stdlib Require Import Ascii.
Open Scope string_scope.
Open Scope list_scope.

Definition join_lines (l : list string) : string := String.concat (String newline "") l.
Definition quoted (s : string) : string := text [of_bytes [dquote]; s; of_bytes [dquote]].
(** [html.EscapeString] of the standard library. *)
Definition escape_byte (c : ascii) : string :=
  if Ascii.eqb c "&" then "&amp;" else if Ascii.eqb c squote then "&#39;" else if Ascii.eqb c "<" then "&lt;"
  else if Ascii.eqb c ">" then "&gt;" else if Ascii.eqb c dquote then "&#34;" else String c "".
Definition EscapeString (s : string) : string := String.concat "" (map escape_byte (to_bytes s)).
(** [strings.ReplaceAll] of a text that is not empty. *)
Fixpoint replace_from (fuel : nat) (old new l : bytes) : bytes :=
  match fuel, l with
  | S fuel, c :: l' => if starts_with old l then new ++ replace_from fuel old new (drop (List.length old) l) else c :: replace_from fuel old new l'
  | _, _ => []
  end.
Definition ReplaceText (s old new : string) : string := of_bytes (replace_from (S (String.length s)) (to_bytes old) (to_bytes new) (to_bytes s)).

(** * Headings *)
Fixpoint count_hashes (l : bytes) : nat := match l with c :: l => if Ascii.eqb c "#" then S (count_hashes l) else 0 | [] => 0 end.
Definition markdownHeadingLevel (line : string) : option nat :=
  let trimmed := to_bytes (TrimSpace line) in
  match count_hashes trimmed with
  | 0 => None
  | level => match drop level trimmed with c :: _ => if Ascii.eqb c " " then Some level else None | [] => None end
  end.
Fixpoint first_heading (lines : list string) : option (string * nat) :=
  match lines with
  | [] => None
  | line :: lines =>
      match markdownHeadingLevel line with
      | Some level => Some (TrimSpace (of_bytes (drop level (to_bytes (TrimSpace line)))), level)
      | None => first_heading lines
      end
  end.
Definition firstMarkdownHeading (content : string) : option (string * nat) := first_heading (Split content newline).

(** The two patterns, at the start of a line; the text they keep. *)
Definition re_space_byte (c : ascii) : bool := let n := N_of_ascii c in ((n =? 9) || (n =? 10) || (n =? 12) || (n =? 13) || (n =? 32))%N.
Fixpoint skip_spaces (l : bytes) : bytes := match l with c :: l' => if re_space_byte c then skip_spaces l' else l | [] => [] end.
Definition heading_name (l : bytes) : option bytes :=   (* h1 to h6 *)
  match l with h :: d :: l => if (Ascii.eqb h "h" || Ascii.eqb h "H") && in_range 49 54 d then Some l else None | _ => None end.
Fixpoint after_byte (a : ascii) (l : bytes) : option bytes := match l with c :: l => if Ascii.eqb c a then Some l else after_byte a l | [] => None end.
Definition closes_heading (l : bytes) : bool :=
  match l with a :: b :: l => Ascii.eqb a "<" && Ascii.eqb b "/" && match heading_name l with Some (c :: _) => Ascii.eqb c ">" | _ => false end | _ => false end.
Fixpoint until_close (l : bytes) : option bytes :=
  if closes_heading l then Some []
  else match l with c :: l => if Ascii.eqb c newline then None else cons c <$> until_close l | [] => None end.
Definition html_heading_at (l : bytes) : option bytes :=
  match skip_spaces l with
  | c :: l => if Ascii.eqb c "<" then let! l := heading_name l in let! l := after_byte ">" l in until_close l else None
  | [] => None
  end.
Fixpoint until_line_end (l : bytes) : bytes :=
  match l with
  | c :: l' => if Ascii.eqb c newline || (Ascii.eqb c "013" && next_is newline l') then [] else c :: until_line_end l'
  | [] => []
  end.
Definition md_heading_at (l : bytes) : option bytes :=
  let l := skip_spaces l in
  let level := count_hashes l in
  if (level =? 0)%nat || (6 <? level)%nat then None
  else match drop level l with
       | c :: l => if re_space_byte c then match skip_spaces l with [] => None | l => Some (until_line_end l) end else None
       | [] => None
       end.
Fixpoint find_at_line (m : bytes -> option bytes) (line_start : bool) (i : nat) (l : bytes) : option (nat * bytes) :=
  match (if line_start then m l else None), l with
  | Some t, _ => Some (i, t)
  | None, c :: l => find_at_line m (Ascii.eqb c newline) (S i) l
  | None, [] => None
  end.
Definition htmlTagsRegexp : re := RSeq (byte_is "<") (RSeq (RStar (RByte (fun c => negb (Ascii.eqb c ">")))) (byte_is ">")).
Definition extractContentHeadingTitle (content : string) : string :=
  let content := TrimSpace content in
  if content =? "" then ""
  else
    let htmlLoc := find_at_line html_heading_at true 0 (to_bytes content) in
    let mdLoc := find_at_line md_heading_at true 0 (to_bytes content) in
    match match htmlLoc, mdLoc with
          | Some (i, t), Some (j, u) => Some (if (i <? j)%nat then t else u)
          | Some (_, t), None => Some t
          | None, Some (_, u) => Some u
          | None, None => None
          end with
    | Some t => TrimSpace (RemoveAll htmlTagsRegexp (of_bytes t))
    | None => ""
    end.
Definition blockDisplayTitle (block : ReportBlock) : string :=
  let title := TrimSpace (rb_Title block) in if title =? "" then extractContentHeadingTitle (rb_Content block) else title.

(** * Units *)

(** The lowest level of the headings of level one and two, and how many have it. *)
Definition count_level (acc : nat * nat) (line : string) : nat * nat :=
  match markdownHeadingLevel line with
  | Some level =>
      if (2 <? level)%nat then acc
      else let '(minLevel, headingCount) := acc in
           if (minLevel =? 0)%nat || (level <? minLevel)%nat then (level, 1) else if (level =? minLevel)%nat then (minLevel, S headingCount) else acc
  | None => acc
  end.
Definition at_level (minLevel : nat) (line : string) : bool := match markdownHeadingLevel line with Some level => (level =? minLevel)%nat | None => false end.
Definition joined (current : list string) : string := TrimSpace (join_lines current).
Fixpoint cut_lines (minLevel : nat) (parts current lines : list string) : list string :=
  match lines with
  | [] => match current with [] => parts | _ => parts ++ [joined current] end
  | line :: lines =>
      match current with
      | [] => cut_lines minLevel parts [line] lines
      | _ => if at_level minLevel line then cut_lines minLevel (parts ++ [joined current]) [line] lines else cut_lines minLevel parts (current ++ [line]) lines
      end
  end.
Definition splitMarkdownIntoTopLevelSections (content : string) : list string :=
  let lines := Split content newline in
  let '(minLevel, headingCount) := fold_left count_level lines (0, 0) in
  if (minLevel =? 0)%nat || (headingCount <=? 1)%nat then [content]
  else let parts := cut_lines minLevel [] [] lines in if (List.length parts <=? 1)%nat then [content] else parts.
Definition with_content (b : ReportBlock) (content : string) : ReportBlock :=
  {| rb_ID := rb_ID b; rb_Kind := rb_Kind b; rb_Title := rb_Title b; rb_Content := content; rb_ChartID := rb_ChartID b; rb_Sources := rb_Sources b |}.
Definition splitRenderUnitSections (unit : ReportBlock) : list ReportBlock :=
  if negb (rb_Kind unit =? "markdown") then [unit]
  else let fragments := splitMarkdownIntoTopLevelSections (rb_Content unit) in
       if (List.length fragments <=? 1)%nat then [unit] else map (with_content unit) fragments.
Definition buildRenderUnits (blocks : list ReportBlock) : list ReportBlock := flat_map splitRenderUnitSections blocks.

(** * The table of contents *)
Record reportTOCItem := { ti_Anchor : string; ti_Title : string }.
Definition decimal (n : nat) : string := itoa (Z.of_nat n).
Definition section_id (n : nat) : string := text ["section-"; decimal n].
Definition documentTOCTitle (block : ReportBlock) : string :=
  let other := if rb_Kind block =? "html" then extractContentHeadingTitle (rb_Content block) else "" in
  match (if rb_Kind block =? "markdown" then firstMarkdownHeading (rb_Content block) else None) with
  | Some (heading, _) => heading
  | None => if other =? "" then TrimSpace (rb_Title block) else other
  end.
Fixpoint document_items (sectionNum : nat) (units : list ReportBlock) : list reportTOCItem :=
  match units with
  | [] => []
  | u :: units =>
      let title := documentTOCTitle u in
      (if title =? "" then [] else [{| ti_Anchor := section_id (S sectionNum); ti_Title := title |}]) ++ document_items (S sectionNum) units
  end.
Fixpoint toc_items (sectionNum : nat) (blocks : list ReportBlock) : list reportTOCItem :=
  match blocks with
  | [] => []
  | block :: blocks =>
      let splitUnits := splitRenderUnitSections block in
      let title := TrimSpace (rb_Title block) in
      (if title =? "" then document_items sectionNum splitUnits
       else match splitUnits with [] => [] | _ => [{| ti_Anchor := section_id (S sectionNum); ti_Title := title |}] end)
      ++ toc_items (sectionNum + List.length splitUnits) blocks
  end.
Definition buildReportTOCItems (blocks : list ReportBlock) : list reportTOCItem := toc_items 0 blocks.
Definition line (l : list string) : string := text (l ++ [String newline ""]).
Definition renderReportTOC (blocks : list ReportBlock) : string :=
  match buildReportTOCItems blocks with
  | [] => ""
  | items =>
      text ([line ["<nav class="; quoted "report-toc"; " aria-label="; quoted "报告目录"; ">"]; line ["<h2>目录</h2>"]; line ["<ol>"]]
        ++ map (fun item => line ["<li><a href="; quoted (text ["#"; EscapeString (ti_Anchor item)]); ">"; EscapeString (ti_Title item); "</a></li>"]) items
        ++ [line ["</ol>"]; "</nav>"])
  end.
Definition renderReportTitleHeader (title author : string) : string :=
  let title := TrimSpace title in
  if title =? "" then ""
  else
    let meta := if TrimSpace author =? "" then "" else text ["<div class="; quoted "meta"; ">"; EscapeString (TrimSpace author); "</div>"] in
    text [line ["<header class="; quoted "report-titlebar"; " data-report-title="; quoted "true"; ">"]; line ["  <h1>"; EscapeString title; "</h1>"];
          line ["  "; meta]; "</header>"].

(** * Scripts in the page *)

(** [strings.NewReplacer]: at each place the first of the texts that is there. *)
Fixpoint replacer_from (fuel : nat) (table : list (bytes * bytes)) (l : bytes) : bytes :=
  match fuel, l with
  | S fuel, c :: l' =>
      match List.find (fun p => starts_with p.1 l) table with
      | Some (old, new) => new ++ replacer_from fuel table (drop (List.length old) l)
      | None => c :: replacer_from fuel table l'
      end
  | _, _ => []
  end.
Definition line_separator (n : N) : string := of_bytes ["226"%char; "128"%char; ascii_of_N (n - 8232 + 168)].   (* U+2028, U+2029 *)
Definition escapeInlineScript (value : string) : string :=
  let table := [("</script", "<\/script"); ("<!--", "<\!--"); ("-->", "--\>"); (line_separator 8232, "\u2028"); (line_separator 8233, "\u2029")] in
  of_bytes (replacer_from (S (String.length value)) (map (fun p => (to_bytes p.1, to_bytes p.2)) table) (to_bytes value)).
(** A member of a decoded map: the last one with its key. *)
Fixpoint last_members {A} (kvs : list (string * A)) : list (string * A) :=
  match kvs with [] => [] | kv :: l => if existsb (fun q => q.1 =? kv.1) l then last_members l else kv :: last_members l end.
Fixpoint decoded_maps (v : jval) : jval :=
  match v with
  | JArr vs => JArr (map decoded_maps vs)
  | JObj kvs => JObj (sort_keys (last_members (map (fun kv => (kv.1, decoded_maps kv.2)) kvs)))
  | _ => v
  end.
Definition safeJSONForInlineScript (raw : string) : string :=
  let option := TrimSpace raw in
  if (option =? "") || (option =? "null") then "{}"
  else match (let! v := Unmarshal raw in to_interface v) with Some parsed => escapeInlineScript (Marshal (decoded_maps parsed)) | None => "{}" end.
Definition buildChartScripts (charts : list ChartData) : string :=
  match charts with [] => "" | _ => text ["<script id="; quoted "oda-chart-runtime"; " src="; quoted "/oda-chart-runtime.js"; "></script>"] end.

(** * Formulas

    A formula is put aside while the rest is turned into HTML. *)
Inductive segment := Plain (c : ascii) | Formula (id : nat) (value : bytes).
Definition delimiters : list (string * string) := [("$$", "$$"); ("\(", "\)"); ("\[", "\]")].
(** The text up to and with the first [close]. *)
Fixpoint through (close l : bytes) : option (bytes * bytes) :=
  if starts_with close l then Some (close, drop (List.length close) l)
  else match l with c :: l => match through close l with Some (a, b) => Some (c :: a, b) | None => None end | [] => None end.
Fixpoint cut_formulas (fuel : nat) (idCounter : nat) (l : bytes) : list segment :=
  match fuel, l with
  | S fuel, c :: l' =>
      match List.find (fun p => starts_with (to_bytes p.1) l) delimiters with
      | Some (open, close) =>
          match through (to_bytes close) (drop 2 l) with
          | Some (value, rest) => Formula (S idCounter) (to_bytes open ++ value) :: cut_formulas fuel (S idCounter) rest
          | None => Plain c :: cut_formulas fuel idCounter l'
          end
      | None => Plain c :: cut_formulas fuel idCounter l'
      end
  | _, _ => []
  end.
Definition formulas (md : string) : list segment := cut_formulas (S (String.length md)) 0 (to_bytes md).
Definition placeholder (id : nat) : bytes := to_bytes (text ["MATH_PLACEHOLDER_"; decimal id; "_END"]).
Definition with_placeholders (l : list segment) : bytes := flat_map (fun s => match s with Plain c => [c] | Formula id _ => placeholder id end) l.
Definition replacements (l : list segment) : list (bytes * bytes) := flat_map (fun s => match s with Plain _ => [] | Formula id value => [(placeholder id, value)] end) l.
Definition put_formula_back (html : string) (kv : bytes * bytes) : string := ReplaceText html (of_bytes kv.1) (EscapeString (of_bytes kv.2)).

Section page.
Context (table : Z -> Z) (url_rest : string -> bool) (convert : string -> option string)
  (parse_fragment : string -> option (list Node)) (render_node : Node -> string)
  (parse : string -> option Node) (render : list Node -> option string)
  (map_order : list (bytes * bytes) -> list (bytes * bytes)) (ReportEchartsUrl : string).
Abbreviation sanitizeHTMLFragment := (Sanitize.sanitizeHTMLFragment table url_rest parse render EscapeString).

(** ** Bold text that goldmark leaves *)
Definition stars : bytes := to_bytes "**".
Fixpoint strong_from (fuel : nat) (l : bytes) : bytes :=
  match fuel, l with
  | S fuel, c :: l' =>
      match (if starts_with stars l then match drop 2 l with d :: rest => match through stars rest with Some (t, rest) => Some (d :: t, rest) | None => None end | [] => None end else None) with
      | Some (t, rest) => to_bytes "%%ODA_STRONG_START%%" ++ take (List.length t - 2) t ++ to_bytes "%%ODA_STRONG_END%%" ++ strong_from fuel rest
      | None => c :: strong_from fuel l'
      end
  | _, _ => []
  end.
Definition mark_strong (data : string) : string := if contains_text data "**" then of_bytes (strong_from (S (String.length data)) (to_bytes data)) else data.
Fixpoint walk_strong (n : Node) : Node :=
  match n with
  | NText data => NText (mark_strong data)
  | NElem tag attrs children => if (tag =? "code") || (tag =? "pre") then n else NElem tag attrs (map walk_strong children)
  | NOther type data children => NOther type data (map walk_strong children)
  end.
Definition fixCJKBoldHTML (htmlStr : string) : string :=
  match parse_fragment htmlStr with
  | None => htmlStr
  | Some doc => ReplaceText (ReplaceText (text (map (fun n => render_node (walk_strong n)) doc)) "%%ODA_STRONG_START%%" "<strong>") "%%ODA_STRONG_END%%" "</strong>"
  end.
Definition markdownToHTML (md : string) : string :=
  if TrimSpace md =? "" then ""
  else
    let segments := formulas md in
    match convert (of_bytes (with_placeholders segments)) with
    | None => fixCJKBoldHTML (text ["<p>"; EscapeString md; "</p>"])
    | Some htmlStr => fixCJKBoldHTML (fold_left put_formula_back (map_order (replacements segments)) htmlStr)
    end.

(** ** Chart references *)
Definition chart_style (ch : ChartData) : string :=
  if negb (cd_Width ch =? "") || negb (cd_Height ch =? "") then
    let declarations := (if cd_Width ch =? "" then [] else [text ["width:"; cd_Width ch]]) ++ (if cd_Height ch =? "" then [] else [text ["height:"; cd_Height ch]]) in
    text [" style="; quoted (EscapeString (text [String.concat ";" declarations; ";"]))]
  else "".
Definition chart_box (ch : ChartData) (count : nat) : string :=
  text ["<div id="; quoted (EscapeString (text [cd_ID ch; "-ref-"; decimal count])); " data-chart-id="; quoted (EscapeString (cd_ID ch));
        " data-chart-option="; quoted (EscapeString (safeJSONForInlineScript (cd_Option ch))); " class="; quoted "chart-box"; chart_style ch; "></div>"].
Definition chart_replacement (charts : list ChartData) (chartRefCounts : gmap string nat) (chartID : string) : string * gmap string nat :=
  if negb (chartID =? TrimSpace chartID) then (text ["{{chart:"; chartID; "}}"], chartRefCounts)
  else match List.find (fun ch => cd_ID ch =? chartID) charts with
       | Some ch => let n := S (default 0 (chartRefCounts !! chartID)) in (chart_box ch n, <[chartID := n]> chartRefCounts)
       | None => ("", chartRefCounts)
       end.
Fixpoint replace_charts (fuel : nat) (charts : list ChartData) (counts : gmap string nat) (l : bytes) : bytes :=
  match fuel, l with
  | S fuel, c :: l1 =>
      let '(name, rest) := span name_byte (drop (List.length chart_open) l) in
      if starts_with chart_open l && negb (List.length name =? 0)%nat && starts_with chart_close rest
      then let '(out, counts) := chart_replacement charts counts (of_bytes name) in to_bytes out ++ replace_charts fuel charts counts (drop (List.length chart_close) rest)
      else c :: replace_charts fuel charts counts l1
  | _, _ => []
  end.
Definition processContent (content : string) (charts : list ChartData) : string :=
  let html := sanitizeHTMLFragment (markdownToHTML content) in
  of_bytes (replace_charts (S (String.length html)) charts ∅ (to_bytes html)).

(** * Blocks *)
Definition section_html (class : string) (chapterNum : nat) (contentHTML : string) (indent : string) : string :=
  text [String newline ""; indent; "<div class="; quoted class; " id="; quoted (section_id chapterNum); ">"; String newline "";
        indent; String "009" ""; "<div class="; quoted "content"; ">"; contentHTML; "</div>"; String newline ""; indent; "</div>"].
Definition tabs (n : nat) : string := of_bytes (repeat "009"%char n).
Definition content_heading (block : ReportBlock) : string :=
  let displayTitle := blockDisplayTitle block in
  if negb (displayTitle =? "") && (extractContentHeadingTitle (rb_Content block) =? "") then line ["<h2>"; EscapeString displayTitle; "</h2>"] else "".
Definition renderMarkdownBlockHTML (block : ReportBlock) (chapterNum : nat) (charts : list ChartData) : string :=
  section_html "section" chapterNum (text [content_heading block; processContent (rb_Content block) charts]) (tabs 3).
Definition renderHTMLBlock (block : ReportBlock) (chapterNum : nat) : string :=
  section_html "section html-block" chapterNum (text [content_heading block; sanitizeHTMLFragment (rb_Content block)]) (tabs 2).
Definition renderChartBlockHTML (block : ReportBlock) (chapterNum : nat) (charts : list ChartData) : string :=
  let title := blockDisplayTitle block in
  let content := text ["{{chart:"; rb_ChartID block; "}}"; if TrimSpace (rb_Content block) =? "" then "" else text [String newline (String newline ""); rb_Content block]] in
  let headingHTML := if title =? "" then "" else text ["<h2>"; EscapeString title; "</h2>"] in
  text [String newline ""; tabs 2; "<div class="; quoted "section chart-block"; " id="; quoted (section_id chapterNum); ">"; String newline "";
        tabs 3; headingHTML; String newline ""; tabs 3; "<div class="; quoted "content"; ">"; processContent content charts; "</div>"; String newline ""; tabs 2; "</div>"].
Definition reportBlockRenderers : list string := ["markdown"; "html"; "chart"].
Definition renderReportBlockHTML (block : ReportBlock) (chapterNum : nat) (charts : list ChartData) : string :=
  if rb_Kind block =? "markdown" then renderMarkdownBlockHTML block chapterNum charts
  else if rb_Kind block =? "html" then renderHTMLBlock block chapterNum
  else if rb_Kind block =? "chart" then renderChartBlockHTML block chapterNum charts
  else "".

(** * The page *)
Definition open_wrapper (block : ReportBlock) : string :=
  line ["<div class="; quoted "report-block-wrapper"; " data-block-id="; quoted (EscapeString (rb_ID block)); " data-block-kind="; quoted (EscapeString (rb_Kind block));
        " data-block-title="; quoted (EscapeString (blockDisplayTitle block)); ">"].
Definition close_wrapper : string := line ["</div>"].
Fixpoint body_loop (charts : list ChartData) (chapterNum : nat) (lastBlockID : string) (wrapperOpen : bool) (units : list ReportBlock) : string :=
  match units with
  | [] => if wrapperOpen then close_wrapper else ""
  | block :: units =>
      if negb (member reportBlockRenderers (rb_Kind block)) then body_loop charts chapterNum lastBlockID wrapperOpen units
      else
        let '(head, lastBlockID, wrapperOpen) :=
          if negb (rb_ID block =? lastBlockID) then (text [if wrapperOpen then close_wrapper else ""; open_wrapper block], rb_ID block, true)
          else ("", lastBlockID, wrapperOpen) in
        text [head; renderReportBlockHTML block (S chapterNum) charts; body_loop charts (S chapterNum) lastBlockID wrapperOpen units]
  end.
Record Page := { pg_Title : string; pg_CustomCSS : string; pg_Echarts : string; pg_BodyClass : string; pg_TitleHeader : string; pg_TOC : string; pg_Body : string; pg_ChartScripts : string }.
Definition ResolveReportTitleFromState (state : ReportState) : string := TrimSpace (rp_FinalTitle state).
Definition RenderReportHTML (title author : string) (state : option ReportState) : Page :=
  let state := default empty_report state in
  let title := TrimSpace (if title =? "" then ResolveReportTitleFromState state else title) in
  let author := TrimSpace (if author =? "" then rp_FinalAuthor state else author) in
  let customCSS := sanitizeCSS (ly_CustomCSS (rp_Layout state)) in
  {| pg_Title := EscapeString title;
     pg_CustomCSS := if customCSS =? "" then "" else text [String newline ""; customCSS; String newline ""];
     pg_Echarts := text ["<script id="; quoted "oda-echarts-loader"; " src=";
                         quoted (EscapeString (if ReportEchartsUrl =? "" then "/assets/echarts.min.js" else ReportEchartsUrl)); "></script>"];
     pg_BodyClass := sanitizeBodyClass (ly_BodyClass (rp_Layout state));
     pg_TitleHeader := renderReportTitleHeader title author;
     pg_TOC := renderReportTOC (rp_Blocks state);
     pg_Body := body_loop (rp_Charts state) 0 "" false (buildRenderUnits (rp_Blocks state));
     pg_ChartScripts := buildChartScripts (rp_Charts state) |}.
End page.
