(* ===== verification/PageProps.v ===== *)
(** Properties of the page of a report: the numbered sections and the table of contents that
    points to them ([page_structure]), the cutting of a markdown text ([sections_cut]), and the
    formulas put aside and back ([formulas_put_back]). *)
From S2P Require Import Prelude GoStrings GoText Json JsonRoundtrip ReportState ReportOps ReportProps SqlGuard StateTools Ingest Sanitize ReportPage.
From Stdlib Require Import Ascii.
Open Scope string_scope.
Open Scope list_scope.

#[local] Arguments member : simpl never.
#[local] Arguments text : simpl never.

(** * Sections and contents *)

(** The sections of each block, numbered over the whole report. *)
Fixpoint numbered (n : nat) (blocks : list ReportBlock) : list (ReportBlock * list (nat * ReportBlock)) :=
  match blocks with
  | [] => []
  | b :: blocks => let us := splitRenderUnitSections b in (b, zip (seq (S n) (List.length us)) us) :: numbered (n + List.length us) blocks
  end.
Definition toc_of (group : ReportBlock * list (nat * ReportBlock)) : list reportTOCItem :=
  let title := TrimSpace (rb_Title group.1) in
  if title =? "" then
    flat_map (fun u => let t := documentTOCTitle u.2 in if t =? "" then [] else [{| ti_Anchor := section_id u.1; ti_Title := t |}]) group.2
  else map (fun u => {| ti_Anchor := section_id u.1; ti_Title := title |}) (take 1 group.2).
Section body.
Context (table : Z -> Z) (url_rest : string -> bool) (convert : string -> option string)
  (parse_fragment : string -> option (list Node)) (render_node : Node -> string)
  (parse : string -> option Node) (render : list Node -> option string)
  (map_order : list (bytes * bytes) -> list (bytes * bytes)).
Abbreviation block_html := (renderReportBlockHTML table url_rest convert parse_fragment render_node parse render map_order).
Abbreviation body := (body_loop table url_rest convert parse_fragment render_node parse render map_order).
Definition group_html (charts : list ChartData) (us : list (nat * ReportBlock)) : string :=
  match us with
  | [] => ""
  | u :: _ => text [open_wrapper u.2; text (map (fun u => block_html u.2 u.1 charts) us); close_wrapper]
  end.

Lemma split_units b : exists u us, splitRenderUnitSections b = u :: us /\ Forall (fun u => rb_ID u = rb_ID b /\ rb_Kind u = rb_Kind b) (u :: us).
Proof.
  unfold splitRenderUnitSections. destruct (negb _); [exists b, []; auto|].
  destruct (splitMarkdownIntoTopLevelSections _) as [|p [|q l]] eqn:E; simpl; [exists b, []; auto..|].
  eexists _, _. split; [done|]. repeat constructor. apply Forall_map, Forall_forall. done.
Qed.
Lemma toc_items_numbered n blocks : toc_items n blocks = flat_map toc_of (numbered n blocks).
Proof.
  revert n. induction blocks as [|b blocks IH]; intros n; [done|]. cbn [toc_items numbered flat_map]. rewrite IH. f_equal.
  unfold toc_of. cbn [fst snd]. destruct (TrimSpace (rb_Title b) =? "") eqn:E.
  - generalize (splitRenderUnitSections b) as us. intros us. revert n. induction us as [|u us IHu]; intros n; [done|].
    cbn [document_items List.length seq zip zip_with flat_map]. by rewrite IHu.
  - by destruct (splitRenderUnitSections b) as [|u us].
Qed.

Lemma body_same charts id us : forall n rest, Forall (fun u => rb_ID u = id /\ member reportBlockRenderers (rb_Kind u) = true) us ->
  body charts n id true (us ++ rest) = (text (map (fun u => block_html u.2 u.1 charts) (zip (seq (S n) (List.length us)) us)) ++ body charts (n + List.length us) id true rest)%string.
Proof.
  induction us as [|u us IH]; intros n rest H; simpl.
  - by rewrite Nat.add_0_r.
  - apply Forall_cons in H as [[Hi Hk] H]. rewrite Hk, Hi, String.eqb_refl. cbn [negb]. rewrite IH by done. rewrite !text_cons.
    cbn [fst snd]. change (text []) with "". rewrite ?str_app_nil. replace (S n + List.length us)%nat with (n + S (List.length us))%nat by lia. by rewrite <- !app_str_assoc.
Qed.
Lemma body_groups charts blocks : forall n last open, NoDup (map rb_ID blocks) -> ~ last ∈ map rb_ID blocks ->
  Forall (fun b => member reportBlockRenderers (rb_Kind b) = true) blocks ->
  body charts n last open (buildRenderUnits blocks)
  = ((if open : bool then close_wrapper else "") ++ text (map (fun g => group_html charts g.2) (numbered n blocks)))%string.
Proof.
  induction blocks as [|b blocks IH]; intros n last open Hn Hl Hk; [by destruct open|].
  apply NoDup_cons in Hn as [Hb Hn]. apply Forall_cons in Hk as [Hkb Hk].
  destruct (split_units b) as (u & us & Eu & Hu). cbn [buildRenderUnits flat_map numbered map]. rewrite Eu.
  assert (Forall (fun u => rb_ID u = rb_ID b /\ member reportBlockRenderers (rb_Kind u) = true) (u :: us)) as Hu'.
  { eapply Forall_impl; [exact Hu|]. intros v [-> ->]. done. }
  apply Forall_cons in Hu' as [[Hui Huk] Hus]. cbn [app body_loop]. rewrite Huk. cbn [negb].
  assert ((rb_ID u =? last) = false) as -> by (apply String.eqb_neq; rewrite Hui; intros <-; apply Hl; left).
  cbn [negb]. rewrite Hui. unfold buildRenderUnits in IH.
  rewrite body_same by done. rewrite IH; [|done|done|done].
  cbn [List.length seq zip zip_with map snd group_html fst]. rewrite !text_cons.
  replace (S n + List.length us)%nat with (n + S (List.length us))%nat by lia.
  change (text []) with "". rewrite ?str_app_nil. by rewrite <- !app_str_assoc.
Qed.
End body.

(** C9: the body of the page of a well-formed report is one wrapper per block, in order, holding
    the block's sections; the sections are numbered over the whole report, and each entry of the
    table of contents points to a section: the first one of a block that has a title, and every
    section with a heading of one that has none. *)
Theorem page_structure table url_rest convert parse_fragment render_node parse render map_order url title author (st : ReportState) (Hwf : report_wf st) :
  pg_Body (RenderReportHTML table url_rest convert parse_fragment render_node parse render map_order url title author (Some st))
  = text (map (fun g => group_html table url_rest convert parse_fragment render_node parse render map_order (rp_Charts st) g.2) (numbered 0 (rp_Blocks st)))
  /\ buildReportTOCItems (rp_Blocks st) = flat_map toc_of (numbered 0 (rp_Blocks st))
  /\ map fst (flat_map snd (numbered 0 (rp_Blocks st))) = seq 1 (List.length (buildRenderUnits (rp_Blocks st)))
  /\ Forall (fun g => g.2 <> []) (numbered 0 (rp_Blocks st)).
Proof.
  split; [|split; [apply toc_items_numbered|split]].
  - cbn [RenderReportHTML pg_Body default]. rewrite body_groups; [done|apply (wf_block_ids _ Hwf)| |].
    + intros (b & Hb & Hin)%list_elem_of_fmap. pose proof (wf_blocks _ Hwf) as H. rewrite Forall_forall in H.
      destruct (H b Hin) as ([Hblank _] & _). rewrite <- Hb in Hblank. done.
    + eapply Forall_impl; [apply (wf_blocks _ Hwf)|]. intros b (_ & _ & _ & [[[-> | ->] _]|[-> _]]); done.
  - assert (forall n blocks, map fst (flat_map snd (numbered n blocks)) = seq (S n) (List.length (buildRenderUnits blocks))) as H; [|apply H].
    intros n blocks. revert n. induction blocks as [|b blocks IH]; intros n; [done|].
    cbn [numbered flat_map snd buildRenderUnits]. rewrite map_app, length_app, seq_app. f_equal.
    + rewrite fst_zip; [done|]. rewrite length_seq. lia.
    + rewrite IH. unfold buildRenderUnits. f_equal; lia.
  - generalize 0 as n. induction (rp_Blocks st) as [|b blocks IH]; intros n; [constructor|]. cbn [numbered]. constructor; [|apply IH].
    destruct (split_units b) as (u & us & -> & _). done.
Qed.

(** * The cutting of a markdown text *)

Lemma heading_level_pos line level : markdownHeadingLevel line = Some level -> 1 <= level.
Proof. unfold markdownHeadingLevel. destruct (count_hashes _) as [|n]; [done|]. repeat case_match; intros [= <-]; lia. Qed.
Lemma count_levels lines : forall m c, m = 0 \/ m = 1 \/ m = 2 ->
  let m' := (fold_left count_level lines (m, c)).1 in (m <> 0 -> m' <> 0 /\ m' <= m) /\
  (m' <> 0 -> (m' = 1 \/ m' = 2) /\ forall line level, line ∈ lines -> markdownHeadingLevel line = Some level -> m' <= level).
Proof.
  induction lines as [|line lines IH]; intros m c Hm; cbn [fold_left].
  - cbn. split; [lia|]. intros H. split; [lia|]. intros l n Hin. by apply elem_of_nil in Hin.
  - destruct (count_level (m, c) line) as [m1 c1] eqn:E.
    assert ((m1 = 0 \/ m1 = 1 \/ m1 = 2) /\ (m <> 0 -> m1 <> 0 /\ m1 <= m) /\ forall level, markdownHeadingLevel line = Some level -> 2 < level \/ (m1 <> 0 /\ m1 <= level)) as (H1 & H2 & H3).
    { unfold count_level in E. destruct (markdownHeadingLevel line) as [level|] eqn:El; [|injection E as <- <-; split; [done|]; split; [lia|]; done].
      pose proof (heading_level_pos _ _ El). destruct (2 <? level)%nat eqn:E2.
      - apply Nat.ltb_lt in E2. injection E as <- <-. split; [done|]. split; [lia|]. intros ? [= <-]. auto.
      - apply Nat.ltb_ge in E2. destruct ((m =? 0)%nat || (level <? m)%nat) eqn:E3.
        + injection E as <- <-. apply orb_true_iff in E3 as [?%Nat.eqb_eq|?%Nat.ltb_lt]; (split; [lia|]; split; [lia|]; intros ? [= <-]; lia).
        + apply orb_false_iff in E3 as [?%Nat.eqb_neq ?%Nat.ltb_ge].
          destruct (level =? m)%nat; injection E as <- <-; (split; [done|]; split; [lia|]; intros ? [= <-]; lia). }
    destruct (IH m1 c1 H1) as [I1 I2]. split; [lia|]. intros H0. destruct (I2 H0) as [I3 I4]. split; [done|].
    intros l level [-> | Hin]%elem_of_cons Hlevel; [|by apply (I4 l)]. specialize (H3 level Hlevel). lia.
Qed.
Definition one_head (minLevel : nat) (g : list string) : Prop := exists line lines, g = line :: lines /\ Forall (fun l => at_level minLevel l = false) lines.
Lemma cut_lines_groups minLevel lines : forall current parts, one_head minLevel current ->
  exists g gs, cut_lines minLevel parts current lines = parts ++ map joined (g :: gs) /\ mjoin (g :: gs) = current ++ lines /\
    Forall (one_head minLevel) (g :: gs) /\ Forall (fun g => exists line lines, g = line :: lines /\ at_level minLevel line = true) gs.
Proof.
  induction lines as [|line lines IH]; intros current parts Hc; pose proof Hc as (l & ls & -> & Hls); cbn [cut_lines].
  - exists (l :: ls), []. split; [done|]. split; [|auto]. cbn. by rewrite !app_nil_r.
  - destruct (at_level minLevel line) eqn:E.
    + destruct (IH [line] (parts ++ [joined (l :: ls)])) as (g & gs & E1 & E2 & H1 & H2); [by exists line, []|].
      exists (l :: ls), (g :: gs). rewrite E1, <- app_assoc. split; [done|]. split; [|split; [by constructor|]].
      * change (mjoin ((l :: ls) :: g :: gs)) with ((l :: ls) ++ mjoin (g :: gs)). by rewrite E2.
      * constructor; [|done]. cbn in E2. apply Forall_cons in H1 as [(l2 & ls2 & -> & _) _]. injection E2 as -> _. by exists line, ls2.
    + destruct (IH ((l :: ls) ++ [line]) parts) as (g & gs & E1 & E2 & H1 & H2).
      { exists l, (ls ++ [line]). split; [done|]. apply Forall_app. auto. }
      exists g, gs. split; [exact E1|]. rewrite <- app_assoc in E2. auto.
Qed.

(** a markdown text is shown whole, or is cut before each heading of its lowest level (one
    or two) into the sections its page numbers: their lines, in order, are the lines of the text. *)
Theorem sections_cut (content : string) :
  splitMarkdownIntoTopLevelSections content = [content] \/
  exists minLevel groups, (minLevel = 1 \/ minLevel = 2) /\
    Split content newline = mjoin groups /\ splitMarkdownIntoTopLevelSections content = map joined groups /\ 1 < List.length groups /\
    (forall line level, line ∈ Split content newline -> markdownHeadingLevel line = Some level -> minLevel <= level) /\
    Forall (fun g => exists line lines, g = line :: lines /\ Forall (fun l => at_level minLevel l = false) lines) groups /\
    Forall (fun g => exists line lines, g = line :: lines /\ at_level minLevel line = true) (tail groups).
Proof.
  unfold splitMarkdownIntoTopLevelSections. destruct (fold_left count_level (Split content newline) (0, 0)) as [minLevel headingCount] eqn:Ec.
  destruct ((minLevel =? 0)%nat || (headingCount <=? 1)%nat) eqn:E0; [auto|].
  apply orb_false_iff in E0 as [E0%Nat.eqb_neq _].
  destruct (Split_cons content newline) as (w & ws & Es). rewrite Es in *. cbn [cut_lines].
  destruct (cut_lines_groups minLevel ws [w] []) as (g & gs & Eg & Ej & Ho & Hh); [by exists w, []|].
  cbn [app] in Eg, Ej. rewrite Eg. destruct (List.length (map joined (g :: gs)) <=? 1)%nat eqn:El; [auto|].
  apply Nat.leb_gt in El. rewrite length_map in El. right. exists minLevel, (g :: gs).
  destruct (count_levels (w :: ws) 0 0) as [_ Hc]; [auto|]. rewrite Ec in Hc. cbn [fst] in Hc. destruct (Hc E0) as [Hm Hl]. repeat split; auto.
Qed.

(** * Formulas *)

(** The text with its formulas back, those for which [done] holds. *)
Definition shown (subst : nat -> bool) (s : segment) : bytes :=
  match s with Plain c => [c] | Formula id value => if subst id then to_bytes (EscapeString (of_bytes value)) else placeholder id end.
Definition shown_all (subst : nat -> bool) (l : list segment) : bytes := flat_map (shown subst) l.
Definition mark : bytes := to_bytes "MATH_PLACEHOLDER_".
Definition has_mark (l : bytes) : Prop := exists a b, l = a ++ mark ++ b.
Definition markless (c : ascii) : Prop := c <> "M"%char.
Fixpoint is_digits (l : bytes) : bool := match l with [] => true | c :: l => in_range 48 57 c && is_digits l end.

Lemma starts_with_app p l : starts_with p l = true <-> exists r, l = p ++ r.
Proof.
  unfold starts_with. rewrite bool_decide_eq_true. split.
  - intros H. exists (drop (length p) l). rewrite <- H at 1. by rewrite take_drop.
  - intros [r ->]. by rewrite take_app_length.
Qed.
Lemma starts_with_cons a p c l : starts_with (a :: p) (c :: l) = true <-> a = c /\ starts_with p l = true.
Proof.
  rewrite !starts_with_app. split.
  - intros [r [= -> ->]]. eauto.
  - intros (-> & r & ->). by exists r.
Qed.
Lemma placeholder_eq id : placeholder id = mark ++ itoa_digits (Z.of_nat id) ++ to_bytes "_END".
Proof.
  unfold placeholder, text, decimal. cbn [String.concat]. rewrite !to_bytes_app, itoa_text.
  assert ((Z.of_nat id <? 0)%Z = false) as -> by (apply Z.ltb_ge; lia). rewrite Z.abs_eq by lia. done.
Qed.
Lemma placeholder_mark id : exists t, placeholder id = mark ++ t /\ Forall markless t.
Proof.
  rewrite placeholder_eq. eexists. split; [reflexivity|]. apply Forall_app. split; [|repeat constructor; done].
  destruct (itoa_digits_spec (Z.of_nat id) ltac:(lia)) as (_ & H & _). eapply Forall_impl; [exact H|]. intros c Hc ->. done.
Qed.
Lemma placeholder_inj i j X : starts_with (placeholder i) (placeholder j ++ X) = true -> i = j.
Proof.
  rewrite starts_with_app, !placeholder_eq. intros [r H]. rewrite <- !app_assoc in H. apply app_inv_head in H.
  destruct (itoa_digits_spec (Z.of_nat i) ltac:(lia)) as (_ & Hi & Vi & _). destruct (itoa_digits_spec (Z.of_nat j) ltac:(lia)) as (_ & Hj & Vj & _).
  apply (f_equal (span is_digit)) in H. rewrite !span_all in H by done. injection H as H _. rewrite H in Vj. rewrite Vi in Vj. lia.
Qed.
Lemma starts_markless p c l : Forall markless p -> starts_with p (c :: l) = true -> p = [] \/ markless c.
Proof. intros H. destruct p as [|a p]; [auto|]. intros [-> _]%starts_with_cons. apply Forall_cons in H as [H _]. auto. Qed.

(** A text without the mark's letter that starts what is shown also starts what is shown in the end. *)
Lemma shown_prefix subst p l : Forall markless p -> starts_with p (shown_all subst l) = true -> starts_with p (shown_all (fun _ => true) l) = true.
Proof.
  assert (forall V p X Y, Forall markless p -> (forall q, Forall markless q -> starts_with q X = true -> starts_with q Y = true) ->
    starts_with p (V ++ X) = true -> starts_with p (V ++ Y) = true) as HV.
  { induction V as [|c V IH]; intros q X Y Hq HXY H; [by apply HXY|]. destruct q as [|a q]; [done|]. cbn [app] in *. rewrite starts_with_cons in *.
    destruct H as [-> H]. apply Forall_cons in Hq as [_ Hq]. eauto. }
  revert p. induction l as [|s l IH]; intros p Hp; [done|]. cbn [shown_all flat_map]. fold (shown_all subst l) (shown_all (fun _ => true) l).
  destruct s as [c|id v]; cbn [shown]; [apply HV; auto|]. destruct (subst id); [apply HV; auto|].
  destruct (placeholder_mark id) as (t & -> & _). intros H. destruct (starts_markless _ _ _ Hp H) as [-> |Hm]; [done|]. by destruct Hm.
Qed.
Lemma mark_found subst k R l : starts_with (placeholder k) (R ++ shown_all subst l) = true -> R <> [] -> has_mark (R ++ shown_all (fun _ => true) l).
Proof.
  destruct (placeholder_mark k) as (t & -> & _). intros (r & H)%starts_with_app HR. destruct R as [|c R]; [done|]. cbn [app] in H.
  injection H as -> H. assert (starts_with (tail mark) (R ++ shown_all (fun _ => true) l) = true) as (r' & E)%starts_with_app.
  { assert (Forall markless (tail mark)) as Hm by (repeat constructor; done).
    assert (starts_with (tail mark) (R ++ shown_all subst l) = true) as H1 by (apply starts_with_app; rewrite H; eexists; cbn; reflexivity).
    revert H1 Hm. generalize (tail mark). clear. induction R as [|d R IH]; intros p H Hp; [by apply (shown_prefix subst)|].
    destruct p as [|a p]; [done|]. cbn [app] in *. rewrite starts_with_cons in *. apply Forall_cons in Hp as [_ Hp]. destruct H. auto. }
  exists [], r'. cbn [app]. rewrite E. done.
Qed.

Lemma replace_skip fuel old new c l : starts_with old (c :: l) = false -> replace_from (S fuel) old new (c :: l) = c :: replace_from fuel old new l.
Proof. cbn [replace_from]. by intros ->. Qed.
Lemma replace_over old new X V : forall fuel, List.length V <= fuel -> (forall a V', V = a ++ V' -> V' <> [] -> starts_with old (V' ++ X) = false) ->
  replace_from fuel old new (V ++ X) = V ++ replace_from (fuel - List.length V) old new X.
Proof.
  induction V as [|c V IH]; intros fuel Hf H; cbn [app List.length] in *; [by rewrite Nat.sub_0_r|].
  destruct fuel as [|fuel]; [lia|]. rewrite replace_skip by (apply (H [] (c :: V)); done).
  rewrite IH; [done|lia|]. intros a V' -> HV'. apply (H (c :: a) V'); done.
Qed.
Lemma replace_hit fuel old new X : old <> [] -> replace_from (S fuel) old new (old ++ X) = new ++ replace_from fuel old new X.
Proof.
  intros H. assert (starts_with old (old ++ X) = true) as Hs by (apply starts_with_app; eauto).
  destruct old as [|c old]; [done|]. cbn [app replace_from] in *. rewrite Hs. cbn [List.length drop]. by rewrite drop_app_length.
Qed.
Lemma has_mark_app a l : has_mark l -> has_mark (a ++ l).
Proof. intros (x & y & ->). exists (a ++ x), y. by rewrite <- app_assoc. Qed.
Definition also (k : nat) (subst : nat -> bool) (id : nat) : bool := (id =? k)%nat || subst id.
Lemma over_shown subst k new s l fuel : shown subst s = shown (fun _ => true) s -> ~ has_mark (shown_all (fun _ => true) (s :: l)) ->
  List.length (shown subst s) <= fuel ->
  replace_from fuel (placeholder k) new (shown subst s ++ shown_all subst l) = shown subst s ++ replace_from (fuel - List.length (shown subst s)) (placeholder k) new (shown_all subst l).
Proof.
  intros Es Hm Hf. apply replace_over; [exact Hf|]. intros a V' EV HV'. destruct (starts_with _ _) eqn:E; [|done]. exfalso. apply Hm.
  cbn [shown_all flat_map]. fold (shown_all (fun _ => true) l). rewrite <- Es, EV, <- app_assoc. apply has_mark_app. by apply (mark_found subst k).
Qed.
Lemma over_placeholder k new id X fuel : id <> k -> List.length (placeholder id) <= fuel ->
  replace_from fuel (placeholder k) new (placeholder id ++ X) = placeholder id ++ replace_from (fuel - List.length (placeholder id)) (placeholder k) new X.
Proof.
  intros Hne Hf. apply replace_over; [exact Hf|]. intros a V' EV HV'. destruct (starts_with _ _) eqn:E; [|done]. exfalso.
  destruct a as [|c a]; [cbn [app] in EV; subst V'; by apply placeholder_inj in E|].
  destruct (placeholder_mark id) as (t & Et & Ht). rewrite Et in EV. injection EV as _ EV.
  assert (Forall markless V') as HM.
  { assert (Forall markless (a ++ V')) as H by (rewrite <- EV; repeat (constructor; [done|]); exact Ht). by apply Forall_app in H as [_ H]. }
  destruct (placeholder_mark k) as (u & Eu & _). rewrite Eu in E. destruct V' as [|d V']; [done|]. apply Forall_cons in HM as [Hd _].
  apply starts_with_cons in E as [<- _]. by destruct Hd.
Qed.
Lemma replace_shown subst k v l : (forall w, In (Formula k w) l -> w = v) -> forall fuel, ~ has_mark (shown_all (fun _ => true) l) ->
  List.length (shown_all subst l) <= fuel ->
  replace_from fuel (placeholder k) (to_bytes (EscapeString (of_bytes v))) (shown_all subst l) = shown_all (also k subst) l.
Proof.
  induction l as [|s l IH]; intros Hv fuel Hm Hf; [by destruct fuel|].
  assert (forall fuel, List.length (shown_all subst l) <= fuel ->
    replace_from fuel (placeholder k) (to_bytes (EscapeString (of_bytes v))) (shown_all subst l) = shown_all (also k subst) l) as IH'.
  { intros f Hf'. apply IH; [intros w Hw; apply Hv; by right| |done]. intros H. apply Hm. by apply has_mark_app. }
  cbn [shown_all flat_map] in Hf |- *. fold (shown_all subst l) (shown_all (also k subst) l) in *. rewrite length_app in Hf.
  destruct s as [c|id w].
  - rewrite over_shown by (done || lia). cbn [shown]. f_equal. apply IH'. cbn in *. lia.
  - cbn [shown] in Hf |- *. unfold also at 1. destruct (subst id) eqn:Eid.
    + rewrite orb_true_r. pose proof (over_shown subst k (to_bytes (EscapeString (of_bytes v))) (Formula id w) l fuel) as Ho. cbn [shown] in Ho. rewrite Eid in Ho.
      rewrite Ho by (done || lia). f_equal. apply IH'. lia.
    + rewrite orb_false_r. destruct (id =? k)%nat eqn:Ek.
      * apply Nat.eqb_eq in Ek. subst id. rewrite (Hv w (or_introl eq_refl)). destruct (placeholder_mark k) as (t & Et & _).
        assert (1 <= List.length (placeholder k)) by (rewrite Et; cbn; lia). destruct fuel as [|fuel]; [lia|].
        rewrite replace_hit by (intros E; rewrite E in *; cbn in *; lia). f_equal. apply IH'. lia.
      * apply Nat.eqb_neq in Ek. rewrite over_placeholder by (done || lia). f_equal. apply IH'. lia.
Qed.

(** ** What is put aside *)
Lemma through_spec close l a b : through close l = Some (a, b) -> l = a ++ b.
Proof.
  revert a b. induction l as [|c l IH]; intros a b; cbn [through]; (destruct (starts_with close _) eqn:E; [|]).
  - intros [= <- <-]. apply starts_with_app in E as [r ->]. by rewrite drop_app_length.
  - done.
  - intros [= <- <-]. apply starts_with_app in E as [r ->]. by rewrite drop_app_length.
  - destruct (through close l) as [[a' b']|]; [|done]. intros [= <- <-]. cbn [app]. by rewrite (IH _ _ eq_refl).
Qed.
Lemma delimiter_found l open close : List.find (fun p => starts_with (to_bytes p.1) l) delimiters = Some (open, close) -> l = to_bytes open ++ drop 2 l.
Proof.
  intros [Hin Hs]%find_some. cbn [fst] in Hs. apply starts_with_app in Hs as [r ->].
  destruct Hin as [[= <- <-]|[[= <- <-]|[[= <- <-]|[]]]]; done.
Qed.
Definition plain_text (l : list segment) : bytes := flat_map (fun s => match s with Plain c => [c] | Formula _ v => v end) l.
Lemma cut_text fuel : forall n l, List.length l <= fuel -> plain_text (cut_formulas fuel n l) = l.
Proof.
  induction fuel as [|fuel IH]; intros n l Hf; [by destruct l; [|cbn in Hf; lia]|]. destruct l as [|c l]; [done|]. cbn [cut_formulas].
  destruct (List.find _ _) as [[open close]|] eqn:E; [|cbn; rewrite IH; [done|cbn in Hf; lia]].
  apply delimiter_found in E. destruct (through _ _) as [[value rest]|] eqn:Et; [|cbn; rewrite IH; [done|cbn in Hf; lia]].
  apply through_spec in Et. cbn [plain_text flat_map]. fold (plain_text (cut_formulas fuel (S n) rest)). rewrite IH.
  - rewrite <- app_assoc. by rewrite <- Et.
  - apply (f_equal (@List.length ascii)) in Et. rewrite length_app, length_drop in Et. cbn in Hf, Et. lia.
Qed.
Lemma cut_ids fuel : forall n l id v, In (Formula id v) (cut_formulas fuel n l) -> n < id /\ forall w, In (Formula id w) (cut_formulas fuel n l) -> w = v.
Proof.
  induction fuel as [|fuel IH]; intros n l id v; [done|]. destruct l as [|c l]; [done|]. cbn [cut_formulas].
  assert (forall l', In (Formula id v) (Plain c :: cut_formulas fuel n l') -> n < id /\ forall w, In (Formula id w) (Plain c :: cut_formulas fuel n l') -> w = v) as Hplain.
  { intros l' [?|H]; [done|]. destruct (IH _ _ _ _ H) as [H1 H2]. split; [done|]. intros w [?|Hw]; [done|auto]. }
  destruct (List.find _ _) as [[open close]|]; [|apply Hplain]. destruct (through _ _) as [[value rest]|]; [|apply Hplain].
  intros [[= <- <-]|H].
  - split; [lia|]. intros w [[= <-]|Hw]; [done|]. destruct (IH _ _ _ _ Hw). lia.
  - destruct (IH _ _ _ _ H) as [H1 H2]. split; [lia|]. intros w [[= <- _]|Hw]; [lia|auto].
Qed.
Lemma in_replacements kv l : In kv (replacements l) -> exists id v, kv = (placeholder id, v) /\ In (Formula id v) l.
Proof. unfold replacements. intros (s & Hs & H)%in_flat_map. destruct s as [c|id v]; [done|]. destruct H as [<-|[]]. eauto. Qed.

Lemma put_back_all l : (forall id v w, In (Formula id v) l -> In (Formula id w) l -> v = w) -> ~ has_mark (shown_all (fun _ => true) l) ->
  forall q subst, (forall kv, In kv q -> In kv (replacements l)) ->
  exists subst', fold_left put_formula_back q (of_bytes (shown_all subst l)) = of_bytes (shown_all subst' l) /\
    (forall id, subst id = true -> subst' id = true) /\ forall id v, In (placeholder id, v) q -> subst' id = true.
Proof.
  intros Hu Hm. induction q as [|kv q IH]; intros subst Hq; [by exists subst|].
  destruct (in_replacements kv l (Hq kv (or_introl eq_refl))) as (k & v & -> & Hin). cbn [fold_left].
  assert (put_formula_back (of_bytes (shown_all subst l)) (placeholder k, v) = of_bytes (shown_all (also k subst) l)) as ->.
  { unfold put_formula_back, ReplaceText. cbn [fst snd]. rewrite !String.list_ascii_of_string_of_list_ascii. f_equal.
    apply replace_shown; [intros w Hw; by apply (Hu k)|done|]. rewrite <- length_bytes, String.list_ascii_of_string_of_list_ascii. lia. }
  destruct (IH (also k subst)) as (subst' & E & H1 & H2); [intros kv Hkv; apply Hq; by right|]. exists subst'. split; [exact E|]. split.
  - intros id Hid. apply H1. unfold also. rewrite Hid. apply orb_true_r.
  - intros id w [Ep%(f_equal fst)|Hw]; cbn [fst] in *; [|by apply (H2 id w)]. apply H1. unfold also.
    assert (k = id) as -> by (apply (placeholder_inj _ _ []); rewrite app_nil_r, Ep; apply starts_with_app; exists []; by rewrite app_nil_r).
    by rewrite Nat.eqb_refl.
Qed.

(** what is put aside of a text is a cut of the text; putting all of it back, in any order,
    gives the text with its formulas escaped, when no text of the page looks like a placeholder. *)
Theorem formulas_put_back (map_order : list (bytes * bytes) -> list (bytes * bytes)) (md : string)
  (Horder : forall l, Permutation (map_order l) l) (Hmark : ~ has_mark (shown_all (fun _ => true) (formulas md))) :
  plain_text (formulas md) = to_bytes md /\
  fold_left put_formula_back (map_order (replacements (formulas md))) (of_bytes (with_placeholders (formulas md))) = of_bytes (shown_all (fun _ => true) (formulas md)).
Proof.
  split. { apply cut_text. rewrite length_bytes. lia. }
  destruct (put_back_all (formulas md)) with (q := map_order (replacements (formulas md))) (subst := fun _ : nat => false) as (subst & E & _ & H).
  - intros id v w Hv Hw. by apply (proj2 (cut_ids _ _ _ _ _ Hw)).
  - exact Hmark.
  - intros kv Hkv. eapply Permutation_in; [apply Horder|exact Hkv].
  - change (with_placeholders (formulas md)) with (shown_all (fun _ => false) (formulas md)). rewrite E. f_equal. clear E.
    assert (forall id v, In (Formula id v) (formulas md) -> subst id = true) as Hall.
    { intros id v Hin. apply (H id v). eapply Permutation_in; [symmetry; apply Horder|]. apply in_flat_map. exists (Formula id v). split; [done|by left]. }
    revert Hall. generalize (formulas md). intros l. induction l as [|s l IH]; intros Hall; [done|]. cbn [shown_all flat_map]. f_equal.
    + destruct s as [c|id v]; [done|]. cbn [shown]. by rewrite (Hall id v (or_introl eq_refl)).
    + apply IH. intros id v Hin. apply (Hall id v). by right.
Qed.

(** * Where the page differs from its text *)

(** A line of a code block that starts with a hash is taken for a heading: the block is cut in
    two sections, each with half of the fence. *)
Lemma code_block_cut :
  splitMarkdownIntoTopLevelSections (join_lines ["```"; "# load"; "x = 1"; "# plot"; "y = 2"; "```"])
  = ["```"; join_lines ["# load"; "x = 1"]; join_lines ["# plot"; "y = 2"; "```"]].
Proof. vm_compute. done. Qed.
(** A text that starts with an empty line gets an empty first section, with a number. *)
Lemma empty_first_section :
  splitMarkdownIntoTopLevelSections (join_lines [""; "# A"; "a"; "# B"; "b"]) = [""; join_lines ["# A"; "a"]; join_lines ["# B"; "b"]].
Proof. vm_compute. done. Qed.
(** A text that reads like a placeholder is replaced by the formula. *)
Lemma placeholder_taken :
  let md := "MATH_PLACEHOLDER_1_END is $$x$$" in
  fold_left put_formula_back (replacements (formulas md)) (of_bytes (with_placeholders (formulas md))) = "$$x$$ is $$x$$".
Proof. vm_compute. done. Qed.

Lemma formulas_put_back_witness :
  let md := "a $$b<c$$ \(d\) e" in
  plain_text (formulas md) = to_bytes md /\ of_bytes (with_placeholders (formulas md)) = "a MATH_PLACEHOLDER_1_END MATH_PLACEHOLDER_2_END e" /\
  fold_left put_formula_back (rev (replacements (formulas md))) (of_bytes (with_placeholders (formulas md))) = "a $$b&lt;c$$ \(d\) e".
Proof.
  intros md. destruct (formulas_put_back (@rev (bytes * bytes)) md) as [H1 H2].
  - intros l. symmetry. apply Permutation_rev.
  - intros (a & b & E). assert (In "M"%char (a ++ mark ++ b)) as H by (apply in_or_app; right; left; done).
    rewrite <- E in H. vm_compute in H. repeat (destruct H as [H|H]; [discriminate H|]). destruct H.
  - split; [exact H1|]. split; [vm_compute; reflexivity|]. rewrite H2. vm_compute. reflexivity.
Defined.

Definition page_sample : ReportState :=
  {| rp_Blocks := [{| rb_ID := "b1"; rb_Kind := "markdown"; rb_Title := ""; rb_Content := join_lines ["# A"; "a"; "# B"; "b"]; rb_ChartID := ""; rb_Sources := [] |};
                   {| rb_ID := "b2"; rb_Kind := "html"; rb_Title := "T"; rb_Content := "<p>t</p>"; rb_ChartID := ""; rb_Sources := [] |}];
     rp_Charts := []; rp_FinalTitle := ""; rp_FinalAuthor := ""; rp_Layout := empty_layout; rp_NeedsFinalize := false; rp_MutationVersion := 0;
     rp_Results := ∅; rp_Artifacts := ∅ |}.
Lemma page_sample_wf : report_wf page_sample.
Proof.
  split.
  - repeat constructor; set_solver.
  - constructor; [|constructor; [|constructor]]; (split; [done|]; split; [done|]; split; [done|]); left; auto.
  - constructor.
  - constructor.
  - apply map_Forall_empty.
  - apply map_Forall_empty.
Qed.
Lemma page_structure_witness :
  let page := RenderReportHTML (fun r => r) (fun _ => true) Some (fun _ => None) (fun _ => "") (fun _ => None) (fun _ => None) (fun l => l) "" "" "" (Some page_sample) in
  buildReportTOCItems (rp_Blocks page_sample)
  = [{| ti_Anchor := "section-1"; ti_Title := "A" |}; {| ti_Anchor := "section-2"; ti_Title := "B" |}; {| ti_Anchor := "section-3"; ti_Title := "T" |}]
  /\ map fst (flat_map snd (numbered 0 (rp_Blocks page_sample))) = seq 1 (List.length (buildRenderUnits (rp_Blocks page_sample)))
  /\ HasPrefix (pg_Body page) (open_wrapper {| rb_ID := "b1"; rb_Kind := "markdown"; rb_Title := ""; rb_Content := join_lines ["# A"; "a"]; rb_ChartID := ""; rb_Sources := [] |}) = true.
Proof.
  destruct (page_structure (fun r => r) (fun _ => true) Some (fun _ => None) (fun _ => "") (fun _ => None) (fun _ => None) (fun l => l) "" "" "" page_sample page_sample_wf)
    as (H1 & H2 & H3 & _).
  split; [rewrite H2; vm_compute; reflexivity|]. split; [exact H3|]. cbv zeta. rewrite H1. vm_compute. reflexivity.
Defined.
