(* ===== verification/Config.v ===== *)
(** The configuration ([config/config.go]): what [Load] makes of the environment, and what
    [ValidateProductionReadiness] asks of it before the server starts.

    Arguments: the environment, the networks of [net.ParseCIDR], the host of a parsed address
    ([url.Parse] and [Hostname], in lower case) and the order in which a map is walked.  A panic
    is an error here: it ends the program at start. *)
From S2P Require Import Prelude GoStrings GoText SqlGuard StateTools Ingest ReportPage.
From Stdlib Require Import Ascii.
Open Scope string_scope.
Open Scope list_scope.

Definition CaptureModeOff : string := "off".
Definition CaptureModeFacts : string := "facts".
Definition CaptureModeImages : string := "images".
Definition validCaptureMode (mode : string) : bool := existsb (String.eqb mode) [CaptureModeOff; CaptureModeFacts; CaptureModeImages].
Definition trustedReportScriptURL (raw : string) : bool :=
  let trimmed := TrimSpace raw in
  if (trimmed =? "") || negb (trimmed =? raw) then false else HasPrefix trimmed "/" && negb (HasPrefix trimmed "//").
Definition defaultAllowedOrigins : list string := ["http://localhost"; "http://localhost:5173"; "http://127.0.0.1"; "http://127.0.0.1:5173"].
Definition containsWildcard (values : list string) : bool := existsb (fun value => value =? "*") values.
Definition panics {A} (parts : list string) : res string A := Err (text parts).

Section config.
Context {IPNet : Type} (hostname : string -> option string).

Record Config := {
  c_LLMProvider : string; c_LLMAPIProtocol : string; c_LLMBaseURL : string; c_LLMAPIEndpoint : string; c_LLMAPIKey : string; c_LLMModel : string;
  c_LLMReasoningEffort : string; c_LLMTextVerbosity : string; c_LLMMaxTokens : Z; c_LLMHTTPTimeoutSec : Z; c_LLMRetryBudgetSec : Z;
  c_LLMContextWindowTokens : Z; c_MaxParallelToolCalls : Z; c_ToolCallTimeoutSeconds : Z; c_MaxRepeatedToolFailures : Z; c_MaxMainLoopIterations : Z;
  c_LLMDebug : bool; c_LLMDebugDir : string; c_ServerPort : string; c_DeploymentMode : string; c_AllowedOrigins : list string;
  c_MetadataStore : string; c_StorageProvider : string; c_RunBackend : string; c_AnalysisStore : string; c_PythonArtifactStore : string;
  c_StorageRoot : string; c_CacheRoot : string; c_MetadataDBPath : string; c_TempDir : string; c_PythonMCPURL : string; c_RenderExecutorURL : string;
  c_RenderAssetBaseURL : string; c_ReportViewCaptureMode : string; c_PythonMaxTimeoutSec : Z; c_ProxyToken : string; c_PublicAPIBaseURL : string;
  c_AuthSecret : string; c_AuthCookieSecure : bool; c_TrustedProxyCIDRs : list IPNet; c_DatasourceCredentialSecret : string; c_DefaultUserID : string;
  c_DefaultUserEmail : string; c_DefaultUserName : string; c_DefaultUserPassword : string; c_DefaultWorkspaceID : string;
  c_DefaultWorkspaceName : string; c_BootstrapDefaultIdentity : bool; c_SessionTTLHours : Z; c_TraceRetentionDays : Z; c_TempCleanupOnStart : bool;
  c_ReportEchartsUrl : string; c_MetricsExpose : bool; c_MetricsAuthToken : string; c_PostgresDSN : string; c_S3Endpoint : string;
  c_S3Region : string; c_S3Bucket : string; c_S3AccessKey : string; c_S3SecretKey : string; c_S3ForcePathStyle : bool }.

(** * Loading *)
Section load.
Context (ParseCIDR : string -> option IPNet) (table : Z -> Z) (env : string -> option string).
Definition getEnv (key defaultValue : string) : string := default defaultValue (env key).
Definition getEnvList (key : string) (defaultValue : list string) : res string (list string) :=
  match env key with
  | None => Ok defaultValue
  | Some raw =>
      let parts := Split raw ","%char in
      if existsb (fun part => (part =? "") || negb (TrimSpace part =? part)) parts then panics [key; " entries must be non-empty exact values"] else Ok parts
  end.
Definition getEnvBool (key : string) (defaultValue : bool) : res string bool :=
  match env key with
  | None => Ok defaultValue
  | Some value => if value =? "true" then Ok true else if value =? "false" then Ok false else panics [key; " must be exactly true or false"]
  end.
Definition getEnvInt (key : string) (defaultValue : Z) : res string Z :=
  match env key with
  | None => Ok defaultValue
  | Some value => match ParseInt value with Some result => Ok result | None => panics [key; " must be an integer"] end
  end.
Fixpoint parseTrustedProxyCIDRs (values : list string) : res string (list IPNet) :=
  match values with
  | [] => Ok []
  | value :: values =>
      match ParseCIDR value with
      | None => panics ["TRUSTED_PROXY_CIDRS entry "; quoted value; " is not a valid CIDR"]
      | Some parsed => let? cidrs := parseTrustedProxyCIDRs values in Ok (parsed :: cidrs)
      end
  end.
Definition normalizeCaptureMode (value : string) : string := ToLower table (TrimSpace value).
Definition Load : res string Config :=
  let? v_LLMMaxTokens := getEnvInt "LLM_MAX_TOKENS" 0%Z in
  let? v_LLMHTTPTimeoutSec := getEnvInt "LLM_HTTP_TIMEOUT_SECONDS" 240%Z in
  let? v_LLMRetryBudgetSec := getEnvInt "LLM_RETRY_BUDGET_SECONDS" 360%Z in
  let? v_LLMContextWindowTokens := getEnvInt "LLM_CONTEXT_WINDOW_TOKENS" 128000%Z in
  let? v_ToolCallTimeoutSeconds := getEnvInt "TOOL_CALL_TIMEOUT_SECONDS" 300%Z in
  let? v_MaxMainLoopIterations := getEnvInt "MAX_MAIN_LOOP_ITERATIONS" 0%Z in
  let? v_MaxRepeatedToolFailures := getEnvInt "MAX_REPEATED_TOOL_FAILURES" 3%Z in
  let? v_LLMDebug := getEnvBool "LLM_DEBUG" false in
  let? v_AllowedOrigins := getEnvList "CORS_ALLOWED_ORIGINS" defaultAllowedOrigins in
  let? v_PythonMaxTimeoutSec := getEnvInt "PYTHON_MAX_TIMEOUT_SECONDS" 120%Z in
  let? v_AuthCookieSecure := getEnvBool "AUTH_COOKIE_SECURE" true in
  let? v_proxies := getEnvList "TRUSTED_PROXY_CIDRS" [] in
  let? v_TrustedProxyCIDRs := parseTrustedProxyCIDRs v_proxies in
  let? v_BootstrapDefaultIdentity := getEnvBool "BOOTSTRAP_DEFAULT_IDENTITY" false in
  let? v_SessionTTLHours := getEnvInt "SESSION_TTL_HOURS" 0%Z in
  let? v_TraceRetentionDays := getEnvInt "TRACE_RETENTION_DAYS" 0%Z in
  let? v_TempCleanupOnStart := getEnvBool "TEMP_CLEANUP_ON_START" false in
  let? v_MetricsExpose := getEnvBool "METRICS_EXPOSE" false in
  let? v_S3ForcePathStyle := getEnvBool "S3_FORCE_PATH_STYLE" true in
  let cfg := {|
    c_LLMProvider := getEnv "LLM_PROVIDER" ""; c_LLMAPIProtocol := getEnv "LLM_API_PROTOCOL" ""; c_LLMBaseURL := getEnv "LLM_BASE_URL" "";
    c_LLMAPIEndpoint := getEnv "LLM_API_ENDPOINT" ""; c_LLMAPIKey := getEnv "LLM_API_KEY" ""; c_LLMModel := getEnv "LLM_MODEL" "";
    c_LLMReasoningEffort := getEnv "LLM_REASONING_EFFORT" ""; c_LLMTextVerbosity := getEnv "LLM_TEXT_VERBOSITY" ""; c_LLMMaxTokens := v_LLMMaxTokens;
    c_LLMHTTPTimeoutSec := v_LLMHTTPTimeoutSec; c_LLMRetryBudgetSec := v_LLMRetryBudgetSec; c_LLMContextWindowTokens := v_LLMContextWindowTokens;
    c_MaxParallelToolCalls := 0%Z; c_ToolCallTimeoutSeconds := v_ToolCallTimeoutSeconds; c_MaxRepeatedToolFailures := v_MaxRepeatedToolFailures;
    c_MaxMainLoopIterations := v_MaxMainLoopIterations; c_LLMDebug := v_LLMDebug; c_LLMDebugDir := getEnv "LLM_DEBUG_DIR" "./data/llm-debug";
    c_ServerPort := getEnv "SERVER_PORT" "8080"; c_DeploymentMode := getEnv "DEPLOYMENT_MODE" "development"; c_AllowedOrigins := v_AllowedOrigins;
    c_MetadataStore := getEnv "METADATA_STORE" "sqlite"; c_StorageProvider := getEnv "STORAGE_PROVIDER" "local";
    c_RunBackend := getEnv "RUN_BACKEND" "inprocess"; c_AnalysisStore := getEnv "ANALYSIS_STORE" "session_sqlite";
    c_PythonArtifactStore := getEnv "PYTHON_ARTIFACT_STORE" "object_storage"; c_StorageRoot := getEnv "STORAGE_ROOT" "./data/storage";
    c_CacheRoot := getEnv "CACHE_ROOT" "./data/cache"; c_MetadataDBPath := getEnv "METADATA_DB_PATH" "./data/metadata/app.db";
    c_TempDir := getEnv "TEMP_DIR" "./data/tmp"; c_PythonMCPURL := getEnv "PYTHON_MCP_URL" "http://python-executor:8081";
    c_RenderExecutorURL := getEnv "RENDER_EXECUTOR_URL" "http://render-executor:8082"; c_RenderAssetBaseURL := getEnv "RENDER_ASSET_BASE_URL" "";
    c_ReportViewCaptureMode := normalizeCaptureMode (getEnv "REPORT_VIEW_CAPTURE" CaptureModeOff); c_PythonMaxTimeoutSec := v_PythonMaxTimeoutSec;
    c_ProxyToken := getEnv "PROXY_TOKEN" ""; c_PublicAPIBaseURL := getEnv "PUBLIC_API_BASE_URL" ""; c_AuthSecret := getEnv "AUTH_SECRET" "";
    c_AuthCookieSecure := v_AuthCookieSecure; c_TrustedProxyCIDRs := v_TrustedProxyCIDRs;
    c_DatasourceCredentialSecret := getEnv "DATASOURCE_CREDENTIAL_SECRET" ""; c_DefaultUserID := getEnv "DEFAULT_USER_ID" "";
    c_DefaultUserEmail := getEnv "DEFAULT_USER_EMAIL" ""; c_DefaultUserName := getEnv "DEFAULT_USER_NAME" "";
    c_DefaultUserPassword := getEnv "DEFAULT_USER_PASSWORD" ""; c_DefaultWorkspaceID := getEnv "DEFAULT_WORKSPACE_ID" "";
    c_DefaultWorkspaceName := getEnv "DEFAULT_WORKSPACE_NAME" ""; c_BootstrapDefaultIdentity := v_BootstrapDefaultIdentity;
    c_SessionTTLHours := v_SessionTTLHours; c_TraceRetentionDays := v_TraceRetentionDays; c_TempCleanupOnStart := v_TempCleanupOnStart;
    c_ReportEchartsUrl := getEnv "REPORT_ECHARTS_URL" "/assets/echarts.min.js"; c_MetricsExpose := v_MetricsExpose;
    c_MetricsAuthToken := getEnv "METRICS_AUTH_TOKEN" ""; c_PostgresDSN := getEnv "POSTGRES_DSN" ""; c_S3Endpoint := getEnv "S3_ENDPOINT" "";
    c_S3Region := getEnv "S3_REGION" "us-east-1"; c_S3Bucket := getEnv "S3_BUCKET" ""; c_S3AccessKey := getEnv "S3_ACCESS_KEY" "";
    c_S3SecretKey := getEnv "S3_SECRET_KEY" ""; c_S3ForcePathStyle := v_S3ForcePathStyle |} in
  if negb (c_ReportEchartsUrl cfg =? "") && negb (trustedReportScriptURL (c_ReportEchartsUrl cfg)) then
    panics ["REPORT_ECHARTS_URL must be an exact same-origin path or an allowed ECharts HTTPS URL"]
  else if negb (validCaptureMode (c_ReportViewCaptureMode cfg)) then panics ["REPORT_VIEW_CAPTURE must be one of: off, facts, images"]
  else Ok cfg.
End load.

(** * Readiness *)
Definition IsProduction (c : option Config) : bool := match c with Some c => c_DeploymentMode c =? "production" | None => false end.
Definition validateExactConfigValue (field value : string) (required : bool) : res string unit :=
  if TrimSpace value =? "" then if required then Err (text [field; " must be configured"]) else Ok tt
  else if negb (TrimSpace value =? value) then Err (text [field; " must not contain leading or trailing whitespace"])
  else Ok tt.
Definition containsLocalOrigin (values : list string) : bool :=
  existsb (fun value => match hostname value with Some host => (host =? "localhost") || (host =? "127.0.0.1") || (host =? "::1") | None => false end) values.
(** The rules of [productionBackendRules]: the value, the one that is for development, the issue. *)
Definition productionBackendRules (c : Config) : list (string * string * string) :=
  [(c_MetadataStore c, "sqlite", "METADATA_STORE=sqlite is development-only; production needs a shared metadata store such as postgres");
   (c_StorageProvider c, "local", "STORAGE_PROVIDER=local is development-only; production needs object storage such as s3");
   (c_RunBackend c, "inprocess", "RUN_BACKEND=inprocess is single-server only; this binary does not yet ship a durable distributed run backend");
   (c_AnalysisStore c, "session_sqlite", "ANALYSIS_STORE=session_sqlite is local scratch state; production needs durable snapshot ownership and worker recovery")].
Definition check_provider (c : Config) : res string unit :=
  if c_LLMProvider c =? "openai" then
    if negb (c_LLMAPIProtocol c =? "responses") && negb (c_LLMAPIProtocol c =? "chat_completions")
    then Err "LLM_API_PROTOCOL must be responses or chat_completions when LLM_PROVIDER=openai" else Ok tt
  else if c_LLMProvider c =? "anthropic" then
    if negb (c_LLMAPIProtocol c =? "messages") then Err "LLM_API_PROTOCOL must be messages when LLM_PROVIDER=anthropic" else Ok tt
  else if c_LLMProvider c =? "google" then
    if negb (c_LLMAPIProtocol c =? "generate_content") then Err "LLM_API_PROTOCOL must be generate_content when LLM_PROVIDER=google" else Ok tt
  else Err "LLM_PROVIDER must be openai, anthropic, or google".
Definition required_values (c : Config) : list (string * string) :=
  [("LLM_MODEL", c_LLMModel c); ("LLM_API_KEY", c_LLMAPIKey c); ("AUTH_SECRET", c_AuthSecret c)].
Definition optional_values (c : Config) : list (string * string) :=
  [("LLM_REASONING_EFFORT", c_LLMReasoningEffort c); ("LLM_TEXT_VERBOSITY", c_LLMTextVerbosity c); ("PYTHON_MCP_URL", c_PythonMCPURL c);
   ("RENDER_EXECUTOR_URL", c_RenderExecutorURL c); ("RENDER_ASSET_BASE_URL", c_RenderAssetBaseURL c); ("PROXY_TOKEN", c_ProxyToken c);
   ("PUBLIC_API_BASE_URL", c_PublicAPIBaseURL c); ("REPORT_ECHARTS_URL", c_ReportEchartsUrl c)].
Definition unless (bad : bool) (message : string) : res string unit := if bad then Err message else Ok tt.
Definition check_numbers (c : Config) : res string unit :=
  let? _ := unless (len (c_AuthSecret c) <? 32)%Z "AUTH_SECRET must contain at least 32 bytes" in
  let? _ := unless (c_PythonMaxTimeoutSec c <? 5)%Z "PYTHON_MAX_TIMEOUT_SECONDS must be at least 5" in
  let? _ := unless ((c_LLMHTTPTimeoutSec c <=? 0) || (c_LLMRetryBudgetSec c <=? 0))%Z "LLM_HTTP_TIMEOUT_SECONDS and LLM_RETRY_BUDGET_SECONDS must be positive" in
  let? _ := unless (c_LLMMaxTokens c <? 0)%Z "LLM_MAX_TOKENS must not be negative" in
  let? _ := unless (c_LLMContextWindowTokens c <? 0)%Z "LLM_CONTEXT_WINDOW_TOKENS must not be negative" in
  let? _ := unless (c_MaxParallelToolCalls c <? 0)%Z "MAX_PARALLEL_TOOL_CALLS must not be negative" in
  let? _ := unless (c_ToolCallTimeoutSeconds c <? 0)%Z "TOOL_CALL_TIMEOUT_SECONDS must not be negative" in
  let? _ := unless (c_MaxMainLoopIterations c <? 0)%Z "MAX_MAIN_LOOP_ITERATIONS must not be negative" in
  unless (c_MaxRepeatedToolFailures c <? 0)%Z "MAX_REPEATED_TOOL_FAILURES must not be negative".
Definition issue (bad : bool) (message : string) : list string := if bad then [message] else [].
Definition production_issues (c : Config) : list string :=
  flat_map (fun rule => issue (rule.1.1 =? rule.1.2) rule.2) (productionBackendRules c)
  ++ issue (match c_AllowedOrigins c with [] => true | _ => false end || containsWildcard (c_AllowedOrigins c) || containsLocalOrigin (c_AllowedOrigins c))
       "CORS_ALLOWED_ORIGINS must be explicit production origins; wildcard and localhost origins are not allowed"
  ++ issue (c_BootstrapDefaultIdentity c) "BOOTSTRAP_DEFAULT_IDENTITY must be false in production; provision users and workspaces through managed identity flows"
  ++ issue ((c_MetadataStore c =? "postgres") && blank (c_PostgresDSN c)) "POSTGRES_DSN must be configured when METADATA_STORE=postgres"
  ++ issue ((c_StorageProvider c =? "s3") && (blank (c_S3Endpoint c) || blank (c_S3Bucket c) || blank (c_S3AccessKey c) || blank (c_S3SecretKey c)))
       "S3_ENDPOINT, S3_BUCKET, S3_ACCESS_KEY, and S3_SECRET_KEY must be configured when STORAGE_PROVIDER=s3"
  ++ issue (c_MetricsExpose c && blank (c_MetricsAuthToken c)) "METRICS_AUTH_TOKEN must be configured when METRICS_EXPOSE=true; unauthenticated metrics endpoints leak operational data"
  ++ issue (negb (c_AuthCookieSecure c)) "AUTH_COOKIE_SECURE must be true in production; the auth cookie must only be sent over HTTPS".
Definition bullet (s : string) : string := text [String newline ""; "- "; s].
Definition ValidateProductionReadiness (map_order : list (string * string) -> list (string * string)) (c : option Config) : res string unit :=
  match c with
  | None => Err "configuration is not initialized"
  | Some c =>
      let? _ := unless (negb (existsb (String.eqb (c_DeploymentMode c)) ["development"; "test"; "production"])) "DEPLOYMENT_MODE must be development, test, or production" in
      let? _ := check_provider c in
      let? _ := each (fun fv => validateExactConfigValue fv.1 fv.2 true) (map_order (required_values c)) in
      let? _ := each (fun fv => validateExactConfigValue fv.1 fv.2 false) (map_order (optional_values c)) in
      let? _ := if (c_LLMProvider c =? "openai") || (c_LLMProvider c =? "google") then validateExactConfigValue "LLM_API_ENDPOINT" (c_LLMAPIEndpoint c) true else Ok tt in
      let? _ := check_numbers c in
      let? _ := if c_LLMProvider c =? "anthropic" then validateExactConfigValue "LLM_BASE_URL" (c_LLMBaseURL c) true else Ok tt in
      let? _ := each (fun origin => validateExactConfigValue "CORS_ALLOWED_ORIGINS entry" origin true) (c_AllowedOrigins c) in
      let? _ := unless (negb (c_ReportEchartsUrl c =? "") && negb (trustedReportScriptURL (c_ReportEchartsUrl c))) "REPORT_ECHARTS_URL is not trusted" in
      if negb (IsProduction (Some c)) then Ok tt
      else match production_issues c with
           | [] => Ok tt
           | issues => Err (text ("production deployment is not ready:" :: map bullet issues))
           end
  end.
Definition IsOriginAllowed (c : option Config) (origin : string) : bool :=
  if origin =? "" then true
  else match c with None => false | Some c => existsb (fun allowed => (allowed =? "*") || (allowed =? origin)) (c_AllowedOrigins c) end.

(** * What a checked configuration guarantees *)
Definition exact_value (v : string) : Prop := TrimSpace v <> "" /\ TrimSpace v = v.
Definition provider_protocols : list (string * string) :=
  [("openai", "responses"); ("openai", "chat_completions"); ("anthropic", "messages"); ("google", "generate_content")].
Record ready (c : Config) : Prop := {
  rd_mode : c_DeploymentMode c ∈ ["development"; "test"; "production"];
  rd_provider : (c_LLMProvider c, c_LLMAPIProtocol c) ∈ provider_protocols;
  rd_required : Forall exact_value [c_LLMModel c; c_LLMAPIKey c; c_AuthSecret c];
  rd_optional : Forall (fun v => TrimSpace v = "" \/ TrimSpace v = v) (map snd (optional_values c));
  rd_address : exact_value (if c_LLMProvider c =? "anthropic" then c_LLMBaseURL c else c_LLMAPIEndpoint c);
  rd_secret : (32 <= len (c_AuthSecret c))%Z;
  rd_times : (5 <= c_PythonMaxTimeoutSec c /\ 0 < c_LLMHTTPTimeoutSec c /\ 0 < c_LLMRetryBudgetSec c)%Z;
  rd_limits : Forall (fun n => 0 <= n)%Z [c_LLMMaxTokens c; c_LLMContextWindowTokens c; c_MaxParallelToolCalls c; c_ToolCallTimeoutSeconds c; c_MaxMainLoopIterations c; c_MaxRepeatedToolFailures c];
  rd_origins : Forall exact_value (c_AllowedOrigins c);
  rd_loader : c_ReportEchartsUrl c = "" \/ trustedReportScriptURL (c_ReportEchartsUrl c) = true;
}.
Record production_safe (c : Config) : Prop := {
  ps_stores : c_MetadataStore c <> "sqlite" /\ c_StorageProvider c <> "local" /\ c_RunBackend c <> "inprocess" /\ c_AnalysisStore c <> "session_sqlite";
  ps_origins : c_AllowedOrigins c <> [] /\ "*" ∉ c_AllowedOrigins c /\ containsLocalOrigin (c_AllowedOrigins c) = false;
  ps_identity : c_BootstrapDefaultIdentity c = false;
  ps_postgres : c_MetadataStore c = "postgres" -> blank (c_PostgresDSN c) = false;
  ps_s3 : c_StorageProvider c = "s3" -> Forall (fun v => blank v = false) [c_S3Endpoint c; c_S3Bucket c; c_S3AccessKey c; c_S3SecretKey c];
  ps_metrics : c_MetricsExpose c = true -> blank (c_MetricsAuthToken c) = false;
  ps_cookie : c_AuthCookieSecure c = true;
}.

Lemma bind_ok {E A} (r : res E unit) (k : res E A) a : (let? _ := r in k) = Ok a <-> r = Ok tt /\ k = Ok a.
Proof. destruct r as [[]|e]; naive_solver. Qed.
Lemma unless_ok b m : unless b m = Ok tt <-> b = false.
Proof. destruct b; simpl; naive_solver. Qed.
Lemma required_ok f v : validateExactConfigValue f v true = Ok tt <-> exact_value v.
Proof.
  unfold validateExactConfigValue, exact_value. destruct (String.eqb_spec (TrimSpace v) "") as [E|E]; [naive_solver|].
  destruct (String.eqb_spec (TrimSpace v) v); simpl; naive_solver.
Qed.
Lemma optional_ok f v : validateExactConfigValue f v false = Ok tt <-> TrimSpace v = "" \/ TrimSpace v = v.
Proof.
  unfold validateExactConfigValue. destruct (String.eqb_spec (TrimSpace v) "") as [E|E]; [naive_solver|].
  destruct (String.eqb_spec (TrimSpace v) v); simpl; naive_solver.
Qed.
Lemma issue_nil b m l : issue b m ++ l = [] <-> b = false /\ l = [].
Proof. destruct b; simpl; naive_solver. Qed.
Lemma each_order (f : string * string -> res string unit) order l : Permutation (order l) l -> each f (order l) = Ok tt <-> Forall (fun x => f x = Ok tt) l.
Proof. intros H. rewrite each_ok. by rewrite H. Qed.
Lemma check_provider_ok c : check_provider c = Ok tt <-> (c_LLMProvider c, c_LLMAPIProtocol c) ∈ provider_protocols.
Proof.
  unfold check_provider, provider_protocols.
  destruct (String.eqb_spec (c_LLMProvider c) "openai") as [->|E1]; [|destruct (String.eqb_spec (c_LLMProvider c) "anthropic") as [->|E2]; [|destruct (String.eqb_spec (c_LLMProvider c) "google") as [->|E3]]].
  - destruct (String.eqb_spec (c_LLMAPIProtocol c) "responses") as [->|]; [simpl; set_solver|]. destruct (String.eqb_spec (c_LLMAPIProtocol c) "chat_completions") as [->|]; simpl; set_solver.
  - destruct (String.eqb_spec (c_LLMAPIProtocol c) "messages") as [->|]; simpl; set_solver.
  - destruct (String.eqb_spec (c_LLMAPIProtocol c) "generate_content") as [->|]; simpl; set_solver.
  - set_solver.
Qed.
Lemma check_numbers_ok c : check_numbers c = Ok tt <->
  (32 <= len (c_AuthSecret c))%Z /\ (5 <= c_PythonMaxTimeoutSec c /\ 0 < c_LLMHTTPTimeoutSec c /\ 0 < c_LLMRetryBudgetSec c)%Z /\
  Forall (fun n => 0 <= n)%Z [c_LLMMaxTokens c; c_LLMContextWindowTokens c; c_MaxParallelToolCalls c; c_ToolCallTimeoutSeconds c; c_MaxMainLoopIterations c; c_MaxRepeatedToolFailures c].
Proof.
  unfold check_numbers. rewrite !bind_ok, !unless_ok, !Forall_cons, Forall_nil, orb_false_iff. rewrite !Z.ltb_ge, !Z.leb_gt. tauto.
Qed.
Lemma production_issues_nil c : production_issues c = [] <-> production_safe c.
Proof.
  unfold production_issues, productionBackendRules. cbn [flat_map fst snd]. rewrite !app_nil_r, <- !app_assoc, !issue_nil.
  rewrite <- (app_nil_r (issue (negb _) _)), issue_nil, !String.eqb_neq, !orb_false_iff.
  assert (containsWildcard (c_AllowedOrigins c) = false <-> "*" ∉ c_AllowedOrigins c) as Hw.
  { unfold containsWildcard. rewrite <- not_true_iff_false, existsb_exists. split.
    - intros H Hin. apply H. exists "*". rewrite String.eqb_refl. split; [by apply list_elem_of_In|done].
    - intros H (x & Hx & ->%String.eqb_eq). apply H. by apply list_elem_of_In. }
  assert (match c_AllowedOrigins c with [] => true | _ => false end = false <-> c_AllowedOrigins c <> []) as Hn by (destruct (c_AllowedOrigins c); naive_solver).
  assert (forall s v b, (s =? v) && b = false <-> (s = v -> b = false)) as He.
  { intros s v b. destruct (String.eqb_spec s v); simpl; naive_solver. }
  assert (forall b b', b && b' = false <-> (b = true -> b' = false)) as Hb by (intros [] []; naive_solver).
  rewrite Hw, Hn, !He, Hb, negb_false_iff, !orb_false_iff. split.
  - intros H. split; try tauto. intros Hs. rewrite !Forall_cons, Forall_nil. tauto.
  - intros [H1 H2 H3 H4 H5 H6 H7]. rewrite !Forall_cons in H5. tauto.
Qed.

Lemma mode_ok c : negb (existsb (String.eqb (c_DeploymentMode c)) ["development"; "test"; "production"]) = false <-> c_DeploymentMode c ∈ ["development"; "test"; "production"].
Proof.
  rewrite negb_false_iff, existsb_exists. split.
  - intros (x & Hx & ->%String.eqb_eq). by apply list_elem_of_In.
  - intros H. exists (c_DeploymentMode c). rewrite String.eqb_refl. split; [by apply list_elem_of_In|done].
Qed.
Lemma loader_ok c : negb (c_ReportEchartsUrl c =? "") && negb (trustedReportScriptURL (c_ReportEchartsUrl c)) = false <->
  c_ReportEchartsUrl c = "" \/ trustedReportScriptURL (c_ReportEchartsUrl c) = true.
Proof. destruct (String.eqb_spec (c_ReportEchartsUrl c) ""); destruct (trustedReportScriptURL _); simpl; naive_solver. Qed.
Lemma address_ok c : (if (c_LLMProvider c =? "openai") || (c_LLMProvider c =? "google") then validateExactConfigValue "LLM_API_ENDPOINT" (c_LLMAPIEndpoint c) true else Ok tt) = Ok tt
  <-> (c_LLMProvider c = "openai" \/ c_LLMProvider c = "google" -> exact_value (c_LLMAPIEndpoint c)).
Proof.
  destruct (_ || _) eqn:E.
  - rewrite required_ok. apply orb_true_iff in E as [E%String.eqb_eq|E%String.eqb_eq]; naive_solver.
  - apply orb_false_iff in E as [E1%String.eqb_neq E2%String.eqb_neq]. naive_solver.
Qed.
Lemma production_ok c : (if negb (IsProduction (Some c)) then Ok tt else match production_issues c with [] => Ok tt | issues => Err (text ("production deployment is not ready:" :: map bullet issues)) end) = Ok tt
  <-> (c_DeploymentMode c = "production" -> production_safe c).
Proof.
  rewrite <- production_issues_nil. unfold IsProduction. destruct (String.eqb_spec (c_DeploymentMode c) "production"); simpl; [|naive_solver].
  destruct (production_issues c); naive_solver.
Qed.
Lemma base_ok c : (if c_LLMProvider c =? "anthropic" then validateExactConfigValue "LLM_BASE_URL" (c_LLMBaseURL c) true else Ok tt) = Ok tt
  <-> (c_LLMProvider c = "anthropic" -> exact_value (c_LLMBaseURL c)).
Proof. destruct (String.eqb_spec (c_LLMProvider c) "anthropic"); [rewrite required_ok|]; naive_solver. Qed.
Lemma address_value c : (c_LLMProvider c, c_LLMAPIProtocol c) ∈ provider_protocols ->
  ((c_LLMProvider c = "openai" \/ c_LLMProvider c = "google" -> exact_value (c_LLMAPIEndpoint c)) /\ (c_LLMProvider c = "anthropic" -> exact_value (c_LLMBaseURL c))
   <-> exact_value (if c_LLMProvider c =? "anthropic" then c_LLMBaseURL c else c_LLMAPIEndpoint c)).
Proof.
  unfold provider_protocols. rewrite !elem_of_cons, elem_of_nil. intros [[= -> _]|[[= -> _]|[[= -> _]|[[= -> _]|[]]]]]; simpl; naive_solver.
Qed.

(** a configuration is accepted exactly when it names a provider with its protocol, its
    secrets are there and exact, its numbers are in their bounds and, in production, no store is
    one of development, every origin is an explicit remote one and nothing is left open. *)
Theorem configuration_accepted (map_order : list (string * string) -> list (string * string)) (c : Config)
  (Horder : forall l, Permutation (map_order l) l) :
  ValidateProductionReadiness map_order (Some c) = Ok tt <-> ready c /\ (c_DeploymentMode c = "production" -> production_safe c).
Proof.
  cbn [ValidateProductionReadiness]. rewrite !bind_ok, !each_order by apply Horder. rewrite !unless_ok, check_provider_ok, check_numbers_ok, each_ok.
  unfold required_values. rewrite !Forall_cons, Forall_nil. cbn [fst snd]. rewrite !required_ok.
  assert (forall l, Forall (fun x : string * string => validateExactConfigValue x.1 x.2 false = Ok tt) l <-> Forall (fun v => TrimSpace v = "" \/ TrimSpace v = v) (map snd l)) as Hopt.
  { intros l. rewrite Forall_map. apply Forall_iff. intros x. apply optional_ok. }
  assert (forall l, Forall (fun x => validateExactConfigValue "CORS_ALLOWED_ORIGINS entry" x true = Ok tt) l <-> Forall exact_value l) as Horig.
  { intros l. apply Forall_iff. intros x. apply required_ok. }
  rewrite Hopt, Horig, mode_ok, address_ok, base_ok, loader_ok, production_ok. split.
  - intros H. split; [split; rewrite ?Forall_cons, ?Forall_nil in *; try tauto|tauto]. apply address_value; tauto.
  - intros [[] Hp]. rewrite !Forall_cons in *. pose proof (address_value c ltac:(assumption)). tauto.
Qed.

(** What loading leaves: a known capture mode, a loader of this origin, exact origins, and no
    bound on the parallel calls, whatever the environment says. *)
Lemma loaded_configuration ParseCIDR table env cfg : Load ParseCIDR table env = Ok cfg ->
  validCaptureMode (c_ReportViewCaptureMode cfg) = true /\ (c_ReportEchartsUrl cfg = "" \/ trustedReportScriptURL (c_ReportEchartsUrl cfg) = true)
  /\ getEnvList env "CORS_ALLOWED_ORIGINS" defaultAllowedOrigins = Ok (c_AllowedOrigins cfg) /\ c_MaxParallelToolCalls cfg = 0%Z.
Proof.
  unfold Load. intros H. repeat match type of H with (match ?r with Ok _ => _ | Err _ => _ end) = _ => destruct r eqn:?; [|discriminate H] end.
  cbv zeta in H. match type of H with (if ?b then _ else _) = _ => destruct b eqn:E1; [discriminate H|] end.
  match type of H with (if ?b then _ else _) = _ => destruct b eqn:E2; [discriminate H|] end. injection H as <-.
  split; [by apply negb_false_iff in E2|]. split; [by apply loader_ok in E1|]. split; [done|reflexivity].
Qed.
Lemma parallel_limit_ignored ParseCIDR table env cfg : env "MAX_PARALLEL_TOOL_CALLS" = Some "3" -> Load ParseCIDR table env = Ok cfg -> c_MaxParallelToolCalls cfg = 0%Z.
Proof. intros _ H. by destruct (loaded_configuration _ _ env cfg H) as (_ & _ & _ & H3). Qed.
End config.

(** A production server with a shared store and one origin. *)
Definition production_env (key : string) : option string :=
  snd <$> List.find (fun kv => kv.1 =? key)
    [("DEPLOYMENT_MODE", "production"); ("LLM_PROVIDER", "google"); ("LLM_API_PROTOCOL", "generate_content"); ("LLM_API_ENDPOINT", "https://llm.example.com");
     ("LLM_MODEL", "m"); ("LLM_API_KEY", "k"); ("AUTH_SECRET", "0123456789abcdef0123456789abcdef"); ("CORS_ALLOWED_ORIGINS", "https://app.example.com");
     ("METADATA_STORE", "postgres"); ("POSTGRES_DSN", "postgres://db"); ("STORAGE_PROVIDER", "s3"); ("S3_ENDPOINT", "https://s3"); ("S3_BUCKET", "b");
     ("S3_ACCESS_KEY", "a"); ("S3_SECRET_KEY", "s"); ("RUN_BACKEND", "queue"); ("ANALYSIS_STORE", "durable"); ("LLM_MAX_TOKENS", "4096")].
Lemma configuration_accepted_witness : exists cfg : @Config string,
  Load Some (fun r => r) production_env = Ok cfg /\ c_LLMMaxTokens cfg = 4096%Z /\ ready cfg /\ (c_DeploymentMode cfg = "production" -> production_safe (fun _ => Some "app.example.com") cfg).
Proof.
  eexists. split; [vm_compute; reflexivity|]. split; [reflexivity|].
  apply (configuration_accepted (fun _ => Some "app.example.com") (@rev (string * string))); [intros l; symmetry; apply Permutation_rev|]. vm_compute. reflexivity.
Defined.
