(* ===== verification/Files.v ===== *)
(** Files, reports and the deletion of a session: the object storage on the local disk
    ([storage/local]), the rows of files and reports ([repository/sqlite]), the service over
    both ([service/file_service.go]), the saving of a final report
    ([handler/runtime_events.go]) and [handler/session_delete.go].

    The rows and the objects are one store; a call on either may fail, as in [Calls].  What a
    copy to disk wrote before it failed is taken to be nothing: an empty object is left. *)
From S2P Require Import Prelude GoStrings Json GoText StateTools Calls Sources.
From Stdlib Require Import Ascii.
Open Scope string_scope.
Open Scope list_scope.

(** * Records *)

Inductive FileStatus := FileStatusUploaded | FileStatusProcessing | FileStatusReady | FileStatusDeleted.
Inductive FileVisibility := FileVisibilityPrivate | FileVisibilityWorkspace.
Inductive FilePurpose := FilePurposeSource | FilePurposeReport | FilePurposeArtifact.
#[global] Instance file_visibility_eq : EqDecision FileVisibility. Proof. solve_decision. Defined.

Record File := {
  fl_ID : string; fl_WorkspaceID : string; fl_UploadedBy : string; fl_DisplayName : string; fl_Purpose : FilePurpose; fl_ContentType : string;
  fl_SizeBytes : Z; fl_StorageProvider : string; fl_Bucket : string; fl_StorageKey : string; fl_Checksum : string; fl_Status : FileStatus;
  fl_Visibility : FileVisibility; fl_CreatedAt : time; fl_UpdatedAt : time; fl_DeletedAt : option time
}.
Record Report := {
  ro_ID : string; ro_RunID : string; ro_WorkspaceID : string; ro_Title : string; ro_Author : string; ro_HTMLStorageProvider : string;
  ro_HTMLBucket : string; ro_HTMLStorageKey : string; ro_SnapshotJSON : string; ro_CreatedAt : time
}.
(** The columns of a run and of a message that the operations here read. *)
Record RunRow := { rr_SessionID : string; rr_ParentRunID : option string; rr_ReportFileID : option string }.
Record MessageRow := { mr_RunID : string; mr_SessionID : string }.
(** The local storage sets no version. *)
Record StoredObject := { so_Provider : string; so_Bucket : string; so_Key : string; so_ETag : string; so_Size : Z; so_ContentType : string }.

(** * The store *)

(** [fd_meta] holds the sessions and the data sources; [fd_objects] the files under the
    storage directory, by full path. *)
Record FileDb := {
  fd_meta : Db;
  fd_members : gset (string * string);
  fd_files : gmap string File;
  fd_session_files : gmap (string * string) time;
  fd_runs : gmap string RunRow;
  fd_reports : gmap string Report;
  fd_messages : gmap string MessageRow;
  fd_objects : gmap string string
}.
Definition set_meta db m := Build_FileDb m (fd_members db) (fd_files db) (fd_session_files db) (fd_runs db) (fd_reports db) (fd_messages db) (fd_objects db).
Definition set_files db m := Build_FileDb (fd_meta db) (fd_members db) m (fd_session_files db) (fd_runs db) (fd_reports db) (fd_messages db) (fd_objects db).
Definition set_session_files db m := Build_FileDb (fd_meta db) (fd_members db) (fd_files db) m (fd_runs db) (fd_reports db) (fd_messages db) (fd_objects db).
Definition set_runs db m := Build_FileDb (fd_meta db) (fd_members db) (fd_files db) (fd_session_files db) m (fd_reports db) (fd_messages db) (fd_objects db).
Definition set_reports db m := Build_FileDb (fd_meta db) (fd_members db) (fd_files db) (fd_session_files db) (fd_runs db) m (fd_messages db) (fd_objects db).
Definition set_messages db m := Build_FileDb (fd_meta db) (fd_members db) (fd_files db) (fd_session_files db) (fd_runs db) (fd_reports db) m (fd_objects db).
Definition set_objects db m := Build_FileDb (fd_meta db) (fd_members db) (fd_files db) (fd_session_files db) (fd_runs db) (fd_reports db) (fd_messages db) m.
Abbreviation F := (Calls.M FileDb).

(** * Paths *)

(** One component of a path, on the components before it, the last one first. *)
Definition clean_step (rooted : bool) (stack : list string) (c : string) : list string :=
  if (c =? "") || (c =? ".") then stack
  else if c =? ".." then
    match stack with
    | top :: rest => if top =? ".." then c :: stack else rest
    | [] => if rooted then [] else [c]
    end
  else c :: stack.
Definition clean_components (rooted : bool) (path : string) : list string :=
  rev (fold_left (clean_step rooted) (Split path "/"%char) []).
(** [filepath.Clean] and [filepath.Join] of two paths, where the separator is a slash. *)
Definition Clean (path : string) : string :=
  let rooted := HasPrefix path "/" in
  let body := String.concat "/" (clean_components rooted path) in
  if rooted then text ["/"; body] else if body =? "" then "." else body.
Definition Join2 (a b : string) : string :=
  if a =? "" then (if b =? "" then "" else Clean b) else if b =? "" then Clean a else Clean (text [a; "/"; b]).
(** [filepath.Base]. *)
Fixpoint strip_slashes (l : list ascii) : list ascii :=
  match l with
  | c :: l => if Ascii.eqb c "/"%char then strip_slashes l else c :: l
  | [] => []
  end.
Fixpoint up_to_slash (l : list ascii) : list ascii :=
  match l with
  | c :: l => if Ascii.eqb c "/"%char then [] else c :: up_to_slash l
  | [] => []
  end.
Definition Base (path : string) : string :=
  if path =? "" then "."
  else match strip_slashes (rev (String.list_ascii_of_string path)) with
  | [] => "/"
  | l => String.string_of_list_ascii (rev (up_to_slash l))
  end.

(** * The service *)

(** [alnum]: the letters and numbers of Unicode; [root]: the storage directory, absolute and
    clean; [sha256hex]: the digest of what was written. *)
Section files.
Context (alnum : Z -> bool) (root : string) (sha256hex : string -> string).

(** ** Objects on disk *)

Definition resolvePath (key : string) : res SErr string :=
  let cleanKey := Clean key in
  if contains_text cleanKey ".." then Err (SText (text ["illegal storage path (contains ..): "; key]))
  else
    let fullPath := Join2 root cleanKey in
    if HasPrefix fullPath root then Ok fullPath else Err (SText (text ["path traversal detected: "; key])).
Definition Put (key body contentType : string) : F StoredObject :=
  do path := lift_res (resolvePath key) in
  do _ := wrap "failed to create object" (write (fun db => Ok (set_objects db (<[path := ""]> (fd_objects db))))) in
  do _ := wrap "failed to write object" (write (fun db => Ok (set_objects db (<[path := body]> (fd_objects db))))) in
  ret {| so_Provider := "local"; so_Bucket := ""; so_Key := key; so_ETag := sha256hex body; so_Size := len body; so_ContentType := contentType |}.
Definition Get (key : string) : F string :=
  do path := lift_res (resolvePath key) in
  wrap "failed to open object" (read (fun db => match fd_objects db !! path with Some body => Ok body | None => Err (SText "no such file or directory") end)).
Definition Delete (key : string) : F unit :=
  do path := lift_res (resolvePath key) in
  wrap "failed to delete object" (write (fun db => Ok (set_objects db (delete path (fd_objects db))))).

(** ** Rows *)

Definition IsMember (workspaceID userID : string) : F bool := read (fun db => Ok (bool_decide ((workspaceID, userID) ∈ fd_members db))).
Definition File_Create (f : File) : F unit :=
  write (fun db => guard negb (has (fd_files db) (fl_ID f)) else ErrUnique ;; Ok (set_files db (<[fl_ID f := f]> (fd_files db)))).
(** Rows that reference a deleted file: its sessions lose it, a run's report is set to null. *)
Definition forget_file (gone : string -> bool) (r : RunRow) : RunRow :=
  {| rr_SessionID := rr_SessionID r; rr_ParentRunID := rr_ParentRunID r;
     rr_ReportFileID := match rr_ReportFileID r with Some id => if gone id then None else Some id | None => None end |}.
Definition delete_files (gone : string -> bool) (db : FileDb) : FileDb :=
  let db := set_files db (filter (fun kv => gone kv.1 = false) (fd_files db)) in
  let db := set_session_files db (filter (fun kv => gone kv.1.2 = false) (fd_session_files db)) in
  set_runs db (forget_file gone <$> fd_runs db).
Definition File_Delete (id : string) : F unit := write (fun db => Ok (delete_files (String.eqb id) db)).
Definition File_GetByID (id : string) : F File := read (fun db => found (fd_files db !! id)).
Definition File_ListBySession (sessionID : string) : F (list File) :=
  read (fun db =>
    Ok (oldest_first (fun f => default 0%Z (fd_session_files db !! (sessionID, fl_ID f)))
          (rows (fd_files db) (fun f => has (fd_session_files db) (sessionID, fl_ID f))))).
Fixpoint AttachFilesToSession (sessionID : string) (ids : list string) (now : time) : F unit :=
  match ids with
  | [] => ret tt
  | id :: ids =>
      do _ := write (fun db =>
        guard negb (has (fd_session_files db) (sessionID, id)) else ErrUnique ;;
        guard bool_decide (sessionID ∈ db_sessions (fd_meta db)) && has (fd_files db) id else ErrForeignKey ;;
        Ok (set_session_files db (<[(sessionID, id) := now]> (fd_session_files db)))) in
      AttachFilesToSession sessionID ids now
  end.
Definition Report_Create (r : Report) : F unit :=
  write (fun db =>
    guard negb (has (fd_reports db) (ro_ID r)) && (length (rows (fd_reports db) (fun r' => (ro_RunID r' =? ro_RunID r)%string)) =? 0)%nat else ErrUnique ;;
    guard has (fd_runs db) (ro_RunID r) else ErrForeignKey ;;
    Ok (set_reports db (<[ro_ID r := r]> (fd_reports db)))).
Definition Report_GetByRunID (runID : string) : F Report := read (fun db => found (head (rows (fd_reports db) (fun r => ro_RunID r =? runID)))).
Definition Report_Delete (id : string) : F unit := write (fun db => Ok (set_reports db (delete id (fd_reports db)))).
Definition bind_report (fileID : string) (r : RunRow) : RunRow :=
  {| rr_SessionID := rr_SessionID r; rr_ParentRunID := rr_ParentRunID r; rr_ReportFileID := Some fileID |}.
Definition BindReportFile (runID fileID : string) : F unit :=
  write (fun db =>
    guard negb (has (fd_runs db) runID) || has (fd_files db) fileID else ErrForeignKey ;;
    Ok (set_runs db (alter (bind_report fileID) runID (fd_runs db)))).

(** ** Names and keys *)

Definition safe_rune (r : Z) : bool := alnum r || (r =? 95)%Z || (r =? 46)%Z || (r =? 45)%Z.
Definition sanitizeFilename (name : string) : string :=
  let name := TrimSpace (Base name) in
  if (name =? "") || (name =? ".") || (name =? "..") || (128 <? len name)%Z || negb (forallb safe_rune (runes name)) then "upload.bin" else name.
Definition SourceFileKey (workspaceID fileID fileName : string) : string :=
  text ["workspaces/"; workspaceID; "/files/"; fileID; "/source/"; Base fileName].
Definition ReportHTMLKey (workspaceID runID : string) : string := text ["workspaces/"; workspaceID; "/runs/"; runID; "/report/report.html"].
Definition ArtifactKey (workspaceID runID name : string) : string := text ["workspaces/"; workspaceID; "/runs/"; runID; "/artifacts/"; Base name].

(** ** Storing a file *)

Definition denied {A} : F A := fail (SText "user not authorized to access workspace").
(** [errors.Join] of an error with those of the steps that undo what was done. *)
Fixpoint undo (e : SErr) (steps : list (F unit)) : F SErr :=
  match steps with
  | [] => ret e
  | step :: steps =>
      do r := try step in undo (Join e (match r with Ok _ => None | Err e => Some e end)) steps
  end.
Definition or_undo {A} (m : F A) (steps : list (F unit)) : F A :=
  do r := try m in
  match r with
  | Ok a => ret a
  | Err e => do e := undo e steps in fail e
  end.
Definition new_file (id workspaceID userID name : string) (purpose : FilePurpose) (status : FileStatus) (contentType : string) (o : StoredObject) (now : time) : File :=
  {| fl_ID := id; fl_WorkspaceID := workspaceID; fl_UploadedBy := userID; fl_DisplayName := name; fl_Purpose := purpose; fl_ContentType := contentType;
     fl_SizeBytes := so_Size o; fl_StorageProvider := so_Provider o; fl_Bucket := so_Bucket o; fl_StorageKey := so_Key o; fl_Checksum := so_ETag o;
     fl_Status := status; fl_Visibility := FileVisibilityPrivate; fl_CreatedAt := now; fl_UpdatedAt := now; fl_DeletedAt := None |}.
(** The row of a stored object and, where [attach] says so, its place in a session. *)
Definition record_file (f : File) (attach : bool) (sessionID : string) (now : time) : F File :=
  do _ := or_undo (File_Create f) [Delete (fl_StorageKey f)] in
  do _ := if attach then or_undo (AttachFilesToSession sessionID [fl_ID f] now) [Delete (fl_StorageKey f); File_Delete (fl_ID f)] else ret tt in
  ret f.
Definition Upload (userID workspaceID sessionID fileName contentType body hex16 : string) (now : time) : F File :=
  do ok := IsMember workspaceID userID in
  if negb ok then denied
  else
    let fileID := text ["f_"; hex16] in
    do o := Put (SourceFileKey workspaceID fileID (sanitizeFilename fileName)) body contentType in
    record_file (new_file fileID workspaceID userID (sanitizeFilename fileName) FilePurposeSource FileStatusUploaded contentType o now) true sessionID now.
Definition SaveArtifact (userID workspaceID sessionID runID fileName contentType body hex12 : string) (now : time) : F File :=
  do ok := IsMember workspaceID userID in
  if negb ok then denied
  else
    let name := sanitizeFilename fileName in
    let fileID := text ["art_"; hex12] in
    do o := Put (ArtifactKey workspaceID runID (text [fileID; "-"; name])) body contentType in
    record_file (new_file fileID workspaceID userID name FilePurposeArtifact FileStatusReady (so_ContentType o) o now) (negb (blank sessionID)) sessionID now.

(** ** Reading a file *)

Definition own_file (workspaceID fileID : string) : F File :=
  do f := File_GetByID fileID in
  require fl_WorkspaceID f =? workspaceID else SText "file does not belong to current workspace" ;; ret f.
(** The copy is read back from the temporary file: [temp] says whether it could be written. *)
Definition MaterializeToTemp (sessionID workspaceID fileID : string) (temp : res SErr unit) : F (string * File) :=
  do f := own_file workspaceID fileID in
  do files := wrap "failed to read session file list" (File_ListBySession sessionID) in
  require existsb (fun f => fl_ID f =? fileID) files else SText "security block: cannot access file not mounted in current session" ;;
  do body := Get (fl_StorageKey f) in
  do _ := lift_res temp in
  ret (body, f).
Definition OpenForDownload (userID workspaceID fileID : string) : F (string * File) :=
  do ok := IsMember workspaceID userID in
  if negb ok then denied
  else
    do f := own_file workspaceID fileID in
    do body := Get (fl_StorageKey f) in
    ret (body, f).
Definition OpenStoredObject (userID workspaceID storageKey : string) : F string :=
  do ok := IsMember workspaceID userID in
  if negb ok then denied else Get storageKey.

(** ** Reports *)

Definition replaceExistingReport (runID fileID : string) : F unit :=
  do existing := try (Report_GetByRunID runID) in
  do _ := match existing with
          | Ok r => wrap "failed to replace the existing report for this task" (Report_Delete (ro_ID r))
          | Err SNotFound => ret tt
          | Err e => fail (SWrap "failed to inspect the existing report for this task" e)
          end in
  do file := try (File_GetByID fileID) in
  match file with
  | Ok _ => wrap "failed to replace the existing report file for this task" (File_Delete fileID)
  | Err SNotFound => ret tt
  | Err e => fail (SWrap "failed to inspect the existing report file" e)
  end.
(** [snapshotJSON], [title] and [author] are taken from the snapshot. *)
Definition new_report (runID workspaceID title author snapshotJSON : string) (o : StoredObject) (now : time) : Report :=
  {| ro_ID := text ["report_"; runID]; ro_RunID := runID; ro_WorkspaceID := workspaceID; ro_Title := title; ro_Author := author;
     ro_HTMLStorageProvider := so_Provider o; ro_HTMLBucket := so_Bucket o; ro_HTMLStorageKey := so_Key o; ro_SnapshotJSON := snapshotJSON; ro_CreatedAt := now |}.
Definition SaveReportHTML (userID workspaceID runID html title author snapshotJSON : string) (now : time) : F File :=
  do ok := IsMember workspaceID userID in
  if negb ok then denied
  else
    let fileID := text ["rep_"; runID] in
    do _ := replaceExistingReport runID fileID in
    do o := Put (ReportHTMLKey workspaceID runID) html "text/html; charset=utf-8" in
    let f := new_file fileID workspaceID userID (text ["report-"; runID; ".html"]) FilePurposeReport FileStatusReady (so_ContentType o) o now in
    do _ := or_undo (File_Create f) [Delete (so_Key o)] in
    do _ := or_undo (wrap "failed to save report metadata" (Report_Create (new_report runID workspaceID title author snapshotJSON o now)))
              [Delete (so_Key o); File_Delete fileID] in
    ret f.
(** The errors met, joined; none is a success. *)
Definition DeleteReportFile (fileID runID : string) : F (list SErr) :=
  do r := try (Report_GetByRunID runID) in
  do errors := match r with
               | Err e => ret [SWrap "load report cleanup target" e]
               | Ok r =>
                   do e1 := try (wrap "delete report object" (Delete (ro_HTMLStorageKey r))) in
                   do e2 := try (wrap "delete report metadata" (Report_Delete (ro_ID r))) in
                   ret (match e1 with Err e => [e] | Ok _ => [] end ++ match e2 with Err e => [e] | Ok _ => [] end)
               end in
  do f := try (File_GetByID fileID) in
  match f with
  | Err e => ret (errors ++ [SWrap "load report file cleanup target" e])
  | Ok f =>
      do e := try (wrap "delete report file metadata" (File_Delete (fl_ID f))) in
      ret (errors ++ match e with Err e => [e] | Ok _ => [] end)
  end.
(** What [finalizeAndPersistReport] does to the store. *)
Definition persist_report (userID workspaceID runID html title author snapshotJSON : string) (now : time) : F File :=
  do f := SaveReportHTML userID workspaceID runID html title author snapshotJSON now in
  do bound := try (BindReportFile runID (fl_ID f)) in
  match bound with
  | Ok _ => ret f
  | Err e => do errors := DeleteReportFile (fl_ID f) runID in fail (fold_left SJoin errors e)
  end.

(** ** Deleting a session *)

(** [uniqueStrings], which trims, and what [queryStrings] makes of the values of a column. *)
Fixpoint unique_from (seen : gset string) (items : list string) : list string :=
  match items with
  | [] => []
  | item :: items =>
      let item := TrimSpace item in
      if (item =? "") || bool_decide (item ∈ seen) then unique_from seen items else item :: unique_from ({[item]} ∪ seen) items
  end.
Definition uniqueStrings (items : list string) : list string := unique_from ∅ items.
Definition queryStrings (q : FileDb -> list string) : F (list string) :=
  read (fun db => Ok (uniqueStrings (List.filter (fun s => negb (s =? "")) (map TrimSpace (q db))))).
(** The private files that only this session has, the report files of its runs, and their
    keys in the storage. *)
Definition only_in (sessionID : string) (db : FileDb) (f : File) : bool :=
  has (fd_session_files db) (sessionID, fl_ID f) && bool_decide (fl_Visibility f = FileVisibilityPrivate)
  && forallb (fun k => negb (k.2 =? fl_ID f) || (k.1 =? sessionID)) (map fst (map_to_list (fd_session_files db))).
Definition source_files (sessionID : string) (db : FileDb) : list string := map fl_ID (rows (fd_files db) (only_in sessionID db)).
Definition report_files (sessionID : string) (db : FileDb) : list string :=
  List.filter (fun id => negb (id =? "")) (omap rr_ReportFileID (rows (fd_runs db) (fun r => rr_SessionID r =? sessionID))).
Definition file_keys (sessionID : string) (db : FileDb) : list string :=
  map fl_StorageKey (rows (fd_files db) (fun f => only_in sessionID db f || bool_decide (fl_ID f ∈ report_files sessionID db))).
Definition report_keys (sessionID : string) (db : FileDb) : list string :=
  map ro_HTMLStorageKey (rows (fd_reports db) (fun r => match fd_runs db !! ro_RunID r with Some run => rr_SessionID run =? sessionID | None => false end)).
Record sessionDeletionPlan := { dp_sourceFileIDs : list string; dp_reportFileIDs : list string; dp_storageKeys : list string }.
Definition buildSessionDeletionPlan (sessionID : string) : F sessionDeletionPlan :=
  do sources := queryStrings (source_files sessionID) in
  do reports := queryStrings (report_files sessionID) in
  do keys := queryStrings (file_keys sessionID) in
  do html := queryStrings (report_keys sessionID) in
  ret {| dp_sourceFileIDs := sources; dp_reportFileIDs := reports; dp_storageKeys := uniqueStrings (keys ++ html) |}.
Fixpoint delete_objects (keys : list string) : F (list SErr) :=
  match keys with
  | [] => ret []
  | key :: keys =>
      do r := if blank key || not_exact key then ret (Err (SText "stored object key must be a non-empty exact value"))
              else try (wrap (text ["delete session storage object "; key]) (Delete key)) in
      do errors := delete_objects keys in
      ret (match r with Err e => e :: errors | Ok _ => errors end)
  end.

(** The runs under [ids], by their parents, which a cascade deletes. *)
Fixpoint below (n : nat) (db : FileDb) (ids : gset string) : gset string :=
  match n with
  | 0 => ids
  | S n =>
      below n db (ids ∪ dom (filter (fun kv => match rr_ParentRunID kv.2 with Some p => bool_decide (p ∈ ids) | None => false end = true) (fd_runs db)))
  end.
Definition delete_runs (ids : gset string) (db : FileDb) : FileDb :=
  let gone := below (map_size (fd_runs db)) db ids in
  let db := set_runs db (filter (fun kv => bool_decide (kv.1 ∈ gone) = false) (fd_runs db)) in
  let db := set_reports db (filter (fun kv => bool_decide (ro_RunID kv.2 ∈ gone) = false) (fd_reports db)) in
  set_messages db (filter (fun kv => bool_decide (mr_RunID kv.2 ∈ gone) = false) (fd_messages db)).
Definition runs_of_session (sessionID : string) (db : FileDb) : gset string :=
  dom (filter (fun kv => (rr_SessionID kv.2 =? sessionID) = true) (fd_runs db)).
Definition delete_session_row (sessionID : string) (db : FileDb) : FileDb :=
  let db := set_messages db (filter (fun kv => (mr_SessionID kv.2 =? sessionID) = false) (fd_messages db)) in
  let db := set_session_files db (filter (fun kv => (kv.1.1 =? sessionID) = false) (fd_session_files db)) in
  let db := delete_runs (runs_of_session sessionID db) db in
  let meta := fd_meta db in
  let meta := Build_Db (db_sessions meta ∖ {[sessionID]}) (db_sources meta) (db_snapshots meta)
                (filter (fun kv => (sb_SessionID kv.2 =? sessionID) = false) (db_bindings meta)) (db_profiles meta) (db_confirmations meta)
                (db_assets meta) (db_audit meta) (db_tables meta) (db_configs meta) in
  set_meta db meta.

Inductive Dialect := DialectSQLite | DialectPostgres.
#[global] Instance dialect_eq : EqDecision Dialect. Proof. solve_decision. Defined.
(** On Postgres a file that a data source names cannot be deleted ([migrations/002]); on
    SQLite the column is not a foreign key. *)
Definition deleteFilesByIDs (dialect : Dialect) (ids : list string) : F unit :=
  write (fun db =>
    let gone := fun id => bool_decide (id ∈ ids) in
    guard bool_decide (dialect = DialectSQLite)
          || (length (rows (db_sources (fd_meta db)) (fun d => match ds_FileID d with Some id => gone id && has (fd_files db) id | None => false end)) =? 0)%nat
    else ErrForeignKey ;;
    Ok (delete_files gone db)).
Definition in_meta (f : Db -> Db) : F unit := write (fun db => Ok (set_meta db (f (fd_meta db)))).
(** The statements of the transaction. *)
Definition session_statements (dialect : Dialect) (plan : sessionDeletionPlan) (sessionID : string) : F unit :=
  do _ := write (fun db => Ok (set_messages db (filter (fun kv => (mr_SessionID kv.2 =? sessionID) = false) (fd_messages db)))) in
  do _ := write (fun db => Ok (set_reports db (filter (fun kv => bool_decide (ro_RunID kv.2 ∈ runs_of_session sessionID db) = false) (fd_reports db)))) in
  do _ := match dp_reportFileIDs plan with [] => ret tt | ids => deleteFilesByIDs dialect ids end in
  do _ := write (fun db => Ok (delete_runs (runs_of_session sessionID db) db)) in
  do _ := write (fun db => Ok (set_session_files db (filter (fun kv => (kv.1.1 =? sessionID) = false) (fd_session_files db)))) in
  do _ := in_meta (fun m => set_confirmations m (filter (fun kv => (cf_SessionID kv.2 =? sessionID) = false) (db_confirmations m))) in
  do _ := in_meta (delete_profiles (fun p => pf_SessionID p =? sessionID)) in
  do _ := in_meta (delete_snapshots (fun s => sn_SessionID s =? sessionID)) in
  do _ := in_meta (fun m => set_bindings m (filter (fun kv => (sb_SessionID kv.2 =? sessionID) = false) (db_bindings m))) in
  do _ := match dp_sourceFileIDs plan with [] => ret tt | ids => deleteFilesByIDs dialect ids end in
  write (fun db => Ok (delete_session_row sessionID db)).
(** [stop]: whether the session's run could be stopped.  The session in memory and its event
    stream are closed after the commit; a failure there is only logged. *)
Definition deleteSessionResources (dialect : Dialect) (sessionID : string) (stop : res SErr unit) : F unit :=
  do plan := buildSessionDeletionPlan sessionID in
  do _ := lift_res stop in
  do errors := delete_objects (dp_storageKeys plan) in
  match errors with
  | e :: errors => fail (fold_left SJoin errors e)
  | [] => transaction (session_statements dialect plan sessionID)
  end.
End files.
