(* ===== verification/FileProps.v ===== *)
(** What the file service guarantees: a file that was stored is complete, one that was not
    leaves no row ([upload_all_or_nothing]); a report is replaced ([report_replaced]); a file
    is read only where it belongs ([files_confined]); and no key leaves the storage directory
    ([objects_stay_inside]). *)
From S2P Require Import Prelude GoStrings Json StateTools Calls Sources Files.
From Stdlib Require Import Ascii.
Open Scope string_scope.
Open Scope list_scope.

#[local] Arguments String.append : simpl nomatch.

(** * Paths *)

Definition plain (c : string) : Prop := c <> "" /\ c <> "." /\ c <> ".." /\ contains_byte c "/" = false.
Lemma clean_plain rooted cs stack : Forall plain cs -> fold_left (clean_step rooted) cs stack = rev cs ++ stack.
Proof.
  intros H. revert stack. induction H as [|c cs (E1 & E2 & E3 & _) _ IH]; intros stack; cbn; [done|].
  unfold clean_step at 2. rewrite <- String.eqb_neq in E1, E2, E3. rewrite E1, E2, E3. cbn. rewrite IH, <- app_assoc. done.
Qed.
Lemma clean_dotless cs stack :
  Forall (fun c => c <> ".." /\ contains_byte c "/" = false) cs -> exists more, fold_left (clean_step true) cs stack = rev more ++ stack /\ Forall plain more.
Proof.
  intros H. revert stack. induction H as [|c cs [E1 E2] _ IH]; intros stack; cbn; [by exists []|].
  unfold clean_step at 2. apply String.eqb_neq in E1 as E3. rewrite E3. destruct (c =? "") eqn:Ee; cbn; [apply IH|].
  destruct (c =? ".") eqn:Ed; [apply IH|]. apply String.eqb_neq in Ee, Ed.
  destruct (IH (c :: stack)) as (more & -> & Hmore). exists (c :: more). split; [cbn; by rewrite <- app_assoc|by repeat constructor].
Qed.
Lemma Split_parts s sep :
  exists w ws, Split s sep = w :: ws /\ contains_byte w sep = false /\ (exists b, s = (w ++ b)%string)
    /\ Forall (fun c => contains_byte c sep = false /\ exists a b, s = (a ++ c ++ b)%string) ws.
Proof.
  induction s as [|ch s (w & ws & E & Hw & (b & Hb) & Hws)]; cbn; [exists "", []; split_and!; [done..|by exists ""|done]|]. rewrite E.
  assert (H : Forall (fun c => contains_byte c sep = false /\ exists a b, String ch s = (a ++ c ++ b)%string) ws).
  { eapply Forall_impl; [exact Hws|]. cbn. intros c (Hc & a' & b' & ->). split; [done|]. by exists (String ch a'), b'. }
  destruct (Ascii.eqb ch sep) eqn:Ec.
  - exists "", (w :: ws). split_and!; [done..|by exists (String ch s)|]. constructor; [|done]. split; [done|]. exists (String ch ""), b. by rewrite Hb.
  - exists (String ch w), ws. split_and!; [done|cbn; by rewrite Ec|exists b; by rewrite Hb|done].
Qed.
Lemma substring_mid a c b : String.substring (String.length a) (String.length c) (a ++ c ++ b) = c.
Proof.
  induction a as [|x a IH]; cbn; [|done]. induction c as [|x c IH]; [by destruct b|]. cbn in *. by rewrite IH.
Qed.
Lemma contains_mid a c b : c <> "" -> contains_text (a ++ c ++ b) c = true.
Proof.
  intros Hc. apply bool_decide_eq_true. destruct (String.index 0 c _) as [i|] eqn:E; [by exists i|].
  exfalso. eapply (String.index_correct3 0 (String.length a)); [exact E|done|lia|]. apply substring_mid.
Qed.
Lemma Split_dotless s : contains_text s ".." = false -> Forall (fun c => c <> ".." /\ contains_byte c "/" = false) (Split s "/").
Proof.
  intros Hs. destruct (Split_parts s "/") as (w & ws & -> & Hw & (b & Hb) & Hws). constructor.
  - split; [|done]. intros ->. pose proof (contains_mid "" ".." b) as Hc. cbn in Hc, Hb. rewrite <- Hb, Hs in Hc. by specialize (Hc ltac:(done)).
  - eapply Forall_impl; [exact Hws|]. cbn. intros c (Hc & a & b' & E). split; [|done]. intros ->.
    pose proof (contains_mid a ".." b' ltac:(done)) as Hm. rewrite <- E, Hs in Hm. done.
Qed.
Lemma Split_concat cs k : cs <> [] -> Forall plain cs -> Split (String.concat "/" cs ++ String "/" k) "/" = cs ++ Split k "/".
Proof.
  intros Hne H. induction H as [|c cs (_ & _ & _ & Hc) H IH]; [done|]. destruct cs as [|c' cs].
  - cbn. by rewrite Split_app.
  - change (String.concat "/" (c :: c' :: cs)) with (c ++ String "/" (String.concat "/" (c' :: cs)))%string.
    rewrite <- app_str_assoc. cbn [String.append]. rewrite Split_app by done. by rewrite IH.
Qed.
Lemma prefix_nil s : String.prefix "" s = true.
Proof. by destruct s. Qed.
Lemma Clean_joined cs k :
  Forall plain cs -> Clean (text [text ["/"; String.concat "/" cs]; "/"; k])
    = text ["/"; String.concat "/" (rev (fold_left (clean_step true) (Split k "/") (rev cs)))].
Proof.
  intros H. unfold Clean, clean_components, text, HasPrefix. cbn. rewrite !prefix_nil. f_equal. destruct cs as [|c cs]; [done|].
  rewrite Split_concat, fold_left_app by done. rewrite (clean_plain true (c :: cs) []) by done. by rewrite app_nil_r.
Qed.
Lemma concat_app (l1 l2 : list string) : exists t, String.concat "/" (l1 ++ l2) = (String.concat "/" l1 ++ t)%string.
Proof.
  induction l1 as [|c l1 IH]; [by exists (String.concat "/" l2)|]. destruct l1 as [|c' l1].
  - destruct l2 as [|c2 l2]; [by exists ""; cbn; rewrite str_app_nil|by eexists (String "/" (String.concat "/" (c2 :: l2)))].
  - destruct IH as [t IH]. exists t. change (String.concat "/" ((c :: c' :: l1) ++ l2)) with (c ++ "/" ++ String.concat "/" ((c' :: l1) ++ l2))%string.
    rewrite IH. change (String.concat "/" (c :: c' :: l1)) with (c ++ "/" ++ String.concat "/" (c' :: l1))%string. by rewrite <- !app_str_assoc.
Qed.
Lemma Split_plain cs : cs <> [] -> Forall plain cs -> Split (String.concat "/" cs) "/" = cs.
Proof.
  intros Hne H. induction H as [|c cs (_ & _ & _ & Hc) H IH]; [done|]. destruct cs as [|c' cs]; [by apply Split_none|].
  change (String.concat "/" (c :: c' :: cs)) with (c ++ String "/" (String.concat "/" (c' :: cs)))%string. rewrite Split_app by done. by rewrite IH.
Qed.
Lemma Clean_plain cs : cs <> [] -> Forall plain cs -> Clean (String.concat "/" cs) = String.concat "/" cs.
Proof.
  intros Hne H. unfold Clean, clean_components.
  rewrite Split_plain by done. destruct cs as [|c cs]; [done|]. inversion_clear H as [|? ? Hc Hcs]. pose proof Hc as (E & _ & _ & Hslash).
  destruct c as [|ch c]; [done|]. assert (Hr : HasPrefix (String.concat "/" (String ch c :: cs)) "/" = false).
  { cbn in Hslash. apply orb_false_iff in Hslash as [Hch _]. apply Ascii.eqb_neq in Hch. apply not_true_is_false. intros [t Ht]%HasPrefix_spec. destruct cs; by injection Ht as ->. }
  rewrite Hr, clean_plain by (by constructor). rewrite app_nil_r, rev_involutive. by destruct cs.
Qed.
Lemma Clean_nonempty k : (Clean k =? "") = false.
Proof. unfold Clean. destruct (HasPrefix k "/"); [done|]. by destruct (String.concat _ _ =? "") eqn:E. Qed.
Lemma Join2_Clean comps k :
  Forall plain comps -> Join2 (text ["/"; String.concat "/" comps]) (Clean k)
    = text ["/"; String.concat "/" (rev (fold_left (clean_step true) (Split (Clean k) "/") (rev comps)))].
Proof. intros H. unfold Join2. rewrite Clean_nonempty. cbn [text String.concat String.append String.eqb]. by apply Clean_joined. Qed.

(** whatever the key, a path the storage accepts lies under the storage directory, an
    absolute and clean path; and a key of plain components without two dots in a row has the
    path of its components there. *)
Theorem objects_stay_inside comps key :
  Forall plain comps ->
  (forall path, resolvePath (text ["/"; String.concat "/" comps]) key = Ok path ->
     exists more, Forall plain more /\ path = text ["/"; String.concat "/" (comps ++ more)])
  /\ (forall cs, cs <> [] -> Forall plain cs -> contains_text key ".." = false -> key = String.concat "/" cs ->
     resolvePath (text ["/"; String.concat "/" comps]) key = Ok (text ["/"; String.concat "/" (comps ++ cs)])).
Proof.
  intros Hcomps. unfold resolvePath. split.
  - intros path. destruct (contains_text (Clean key) "..") eqn:Ed; [done|]. rewrite Join2_Clean by done.
    destruct (HasPrefix _ _); [|done]. intros [= <-]. destruct (clean_dotless _ (rev comps) (Split_dotless _ Ed)) as (more & -> & Hmore).
    exists more. split; [done|]. by rewrite rev_app_distr, !rev_involutive.
  - intros cs Hne Hcs Hd ->. rewrite Join2_Clean by done. rewrite (Clean_plain cs), Hd by done.
    assert (E : rev (fold_left (clean_step true) (Split (String.concat "/" cs) "/") (rev comps)) = comps ++ cs).
    { rewrite Split_plain by done. rewrite clean_plain by done. by rewrite rev_app_distr, !rev_involutive. }
    rewrite E. destruct (concat_app comps cs) as [t Et]. rewrite Et.
    replace (text ["/"; (String.concat "/" comps ++ t)%string]) with (text ["/"; String.concat "/" comps] ++ t)%string by done. by rewrite HasPrefix_app.
Qed.

Section props.
Context (root : string) (sha256hex : string -> string).
Abbreviation resolvePath := (Files.resolvePath root).
Abbreviation Put := (Files.Put root sha256hex).
Abbreviation Delete := (Files.Delete root).

(** * Storing a file *)

Definition put_object (path body : string) (db : FileDb) : FileDb := set_objects db (<[path := body]> (fd_objects db)).
Definition drop_object (path : string) (db : FileDb) : FileDb := set_objects db (delete path (fd_objects db)).
Lemma put_counts n key body contentType db n' db' r :
  counts n (Put key body contentType) db n' db' r ->
  (exists path, resolvePath key = Ok path /\ n' = n /\ db' = put_object path body db
     /\ r = Ok {| so_Provider := "local"; so_Bucket := ""; so_Key := key; so_ETag := sha256hex body; so_Size := len body; so_ContentType := contentType |})
  \/ is_ok r = false
     /\ (db' = db /\ is_ok (resolvePath key) = false \/ n = S n' /\ exists path, resolvePath key = Ok path /\ (db' = db \/ db' = put_object path "" db)).
Proof.
  intros R. unfold Files.Put in R. apply counts_bind in R as [(e & R & ->)|(path & n1 & db1 & R1 & R)].
  { apply counts_lift in R as (_ & -> & <-). auto. }
  apply counts_lift in R1 as (-> & -> & Ep). symmetry in Ep.
  apply counts_bind in R as [(e & R & ->)|([] & n2 & db2 & R1 & R)].
  { apply (counts_wrapped_update _ _ (put_object path "")) in R as [(-> & -> & _)|(_ & -> & [=])]. right. eauto 10. }
  apply (counts_wrapped_update _ _ (put_object path "")) in R1 as [(_ & _ & [=])|(-> & -> & _)].
  apply counts_bind in R as [(e & R & ->)|([] & n3 & db3 & R1 & R)].
  { apply (counts_wrapped_update _ _ (put_object path body)) in R as [(-> & -> & _)|(_ & -> & [=])]. right. eauto 10. }
  apply (counts_wrapped_update _ _ (put_object path body)) in R1 as [(_ & _ & [=])|(-> & -> & _)].
  apply counts_ret in R as (-> & -> & ->). left. exists path. split_and!; try done. unfold put_object. cbn. by rewrite insert_insert_eq.
Qed.
Lemma delete_counts n key path db n' db' r :
  resolvePath key = Ok path -> counts n (Delete key) db n' db' r ->
  n = S n' /\ db' = db /\ is_ok r = false \/ n' = n /\ db' = drop_object path db /\ r = Ok tt.
Proof.
  intros Ep R. unfold Files.Delete in R. rewrite Ep in R. apply counts_bind in R as [(e & R & ->)|(p & n1 & db1 & R1 & R)].
  { by apply counts_lift in R as (_ & _ & [=]). }
  apply counts_lift in R1 as (-> & -> & [= ->]). by apply (counts_wrapped_update _ _ (drop_object path)) in R.
Qed.
Lemma delete_spends n key db n' db' r : counts n (Delete key) db n' db' r -> n' <= n.
Proof.
  intros R. destruct (resolvePath key) as [path|e] eqn:Ep.
  - pose proof (delete_counts _ _ _ _ _ _ _ Ep R) as [(E & _)|(E & _)]; lia.
  - unfold Files.Delete in R. rewrite Ep in R. by apply counts_fail in R as (-> & _).
Qed.
Lemma undo_ok n e steps db n' db' r : counts n (undo e steps) db n' db' r -> is_ok r = true.
Proof.
  revert n e db. induction steps as [|st steps IH]; intros n e db R; cbn in R; [by apply counts_ret in R as (_ & _ & ->)|].
  apply counts_bind in R as [(e2 & R & _)|(y & n2 & db2 & _ & R)]; [by apply counts_try in R as (r0 & _ & [=])|by eapply IH].
Qed.
Lemma undo_step n e st steps db n' db' r :
  counts n (undo e (st :: steps)) db n' db' r ->
  exists r1 n1 db1 e1, counts n st db n1 db1 r1 /\ counts n1 (undo e1 steps) db1 n' db' r.
Proof.
  intros R. cbn in R. apply counts_bind in R as [(e2 & R & _)|(y & n2 & db2 & R2 & R)]; [by apply counts_try in R as (r0 & _ & [=])|].
  apply counts_try in R2 as (r1 & R2 & _). eauto 8.
Qed.
Lemma or_undo_counts {A} n (m : F A) steps db n' db' r :
  counts n (or_undo m steps) db n' db' r ->
  (exists a, r = Ok a /\ counts n m db n' db' (Ok a))
  \/ exists e r0 n1 db1, is_ok r = false /\ counts n m db n1 db1 (Err e) /\ counts n1 (undo e steps) db1 n' db' r0.
Proof.
  intros R. unfold or_undo in R. apply counts_bind in R as [(e & R & ->)|(x & n1 & db1 & R1 & R)].
  { by apply counts_try in R as (r0 & _ & [=]). }
  apply counts_try in R1 as (r0 & R1 & [= ->]). destruct r0 as [a|e].
  - apply counts_ret in R as (-> & -> & ->). left. eauto.
  - right. apply counts_bind in R as [(e' & R & ->)|(e' & n2 & db2 & R2 & R)]; [by apply undo_ok in R|].
    apply counts_fail in R as (-> & -> & ->). eauto 10.
Qed.

(** ** Recording it *)

(** Where no file has the name [id]: neither has a session. *)
Definition unused (id : string) (db : FileDb) : Prop := fd_files db !! id = None /\ forall sid, fd_session_files db !! (sid, id) = None.
Lemma create_counts n f db n' db' r :
  fd_files db !! fl_ID f = None -> counts n (File_Create f) db n' db' r ->
  n = S n' /\ db' = db /\ is_ok r = false \/ n' = n /\ db' = set_files db (<[fl_ID f := f]> (fd_files db)) /\ r = Ok tt.
Proof.
  intros Hf [?|(-> & [(E & ->)|(-> & e & E & ->)])]%counts_write; [by left|right|]; unfold has in E; rewrite Hf in E; cbn in E; [|done].
  by injection E as <-.
Qed.
Lemma attach_counts n sid id now db n' db' r :
  sid ∈ db_sessions (fd_meta db) -> is_Some (fd_files db !! id) -> fd_session_files db !! (sid, id) = None ->
  counts n (AttachFilesToSession sid [id] now) db n' db' r ->
  n = S n' /\ db' = db /\ is_ok r = false
  \/ n' = n /\ db' = set_session_files db (<[(sid, id) := now]> (fd_session_files db)) /\ r = Ok tt.
Proof.
  intros Hs Hf Ha R. cbn in R. apply counts_bind in R as [(e & R & ->)|([] & n1 & db1 & R1 & R)].
  - apply counts_write in R as [(-> & -> & _)|(-> & [(_ & [=])|(-> & e' & E & _)])]; [by left|].
    exfalso. unfold has in E. rewrite Ha, (bool_decide_true _ Hs), (bool_decide_true _ Hf) in E. done.
  - apply counts_ret in R as (-> & -> & ->). apply counts_write in R1 as [(_ & _ & [=])|(-> & [(E & _)|(_ & e' & _ & [=])])].
    right. unfold has in E. rewrite Ha, (bool_decide_true _ Hs), (bool_decide_true _ Hf) in E. by injection E as <-.
Qed.
Lemma file_delete_counts n id db n' db' r :
  counts n (File_Delete id) db n' db' r -> n = S n' /\ db' = db /\ is_ok r = false \/ n' = n /\ db' = delete_files (String.eqb id) db /\ r = Ok tt.
Proof. intros R. by apply (counts_update n (delete_files (String.eqb id))) in R. Qed.

(** The rows of an unused file, added and deleted again. *)
Lemma delete_unused id db db1 :
  unused id db -> fd_files db1 = fd_files db \/ (exists f, fd_files db1 = <[id := f]> (fd_files db)) -> fd_session_files db1 = fd_session_files db ->
  fd_files (delete_files (String.eqb id) db1) = fd_files db /\ fd_session_files (delete_files (String.eqb id) db1) = fd_session_files db.
Proof.
  intros [Hf Hs] E1 E2. cbn. rewrite E2. split; apply map_eq; intros k; apply option_eq; intros x; rewrite map_lookup_filter_Some; cbn.
  - rewrite String.eqb_neq. split.
    + intros [Hx Hne]. destruct E1 as [E|(f & E)]; rewrite E in Hx; [done|]. by rewrite lookup_insert_ne in Hx.
    + intros Hx. assert (id <> k) by congruence. split; [|done]. destruct E1 as [E|(f & E)]; rewrite E; [done|]. by rewrite lookup_insert_ne.
  - destruct k as [sid k]. cbn. rewrite String.eqb_neq. split; [by intros [? _]|]. intros Hx. split; [done|]. intros ->. by rewrite Hs in Hx.
Qed.

(** What storing the file [f] with [body] leaves: all of it, or the rows as they were and
    nothing new under a path but, perhaps, an empty object. *)
Definition stored (attach : bool) (sid : string) (now : time) (body : string) (db db' : FileDb) (f : File) : Prop :=
  (exists path, resolvePath (fl_StorageKey f) = Ok path /\ fd_objects db' = <[path := body]> (fd_objects db))
  /\ fd_files db' = <[fl_ID f := f]> (fd_files db)
  /\ fd_session_files db' = if attach then <[(sid, fl_ID f) := now]> (fd_session_files db) else fd_session_files db.
Definition not_stored (key : string) (db db' : FileDb) : Prop :=
  fd_files db' = fd_files db /\ fd_session_files db' = fd_session_files db
  /\ forall path, fd_objects db' !! path = fd_objects db !! path
       \/ resolvePath key = Ok path /\ (fd_objects db' !! path = None \/ fd_objects db' !! path = Some "").

Lemma not_stored_dropped key path body db db' :
  resolvePath key = Ok path -> fd_files db' = fd_files db -> fd_session_files db' = fd_session_files db ->
  fd_objects db' = delete path (<[path := body]> (fd_objects db)) -> not_stored key db db'.
Proof.
  intros Ep E1 E2 E3. split_and!; [done..|]. intros p. rewrite E3. destruct (decide (p = path)) as [->|Hne].
  - right. split; [done|]. left. apply lookup_delete_eq.
  - left. by rewrite lookup_delete_ne, lookup_insert_ne by done.
Qed.
Lemma store_file n key body contentType mk id attach sid now db n' db' r :
  n <= 1 -> sid ∈ db_sessions (fd_meta db) -> unused id db ->
  (forall o, fl_ID (mk o) = id /\ fl_StorageKey (mk o) = so_Key o) ->
  counts n (do o := Put key body contentType in record_file root (mk o) attach sid now)%go db n' db' r ->
  match r with Ok f => fl_StorageKey f = key /\ fl_ID f = id /\ stored attach sid now body db db' f | Err _ => not_stored key db db' end.
Proof.
  intros Hn Hs Hu Hmk R. apply counts_bind in R as [(e & R & ->)|(o & n1 & db1 & R1 & R)].
  { apply put_counts in R as [(path & _ & _ & _ & [=])|(_ & [(-> & _)|(_ & path & Ep & [->| ->])])]; [by split_and!; auto..|].
    split_and!; [done..|]. intros p. cbn. destruct (decide (p = path)) as [->|Hne]; [right; by rewrite lookup_insert_eq; auto|left; by rewrite lookup_insert_ne]. }
  apply put_counts in R1 as [(path & Ep & -> & -> & [= ->])|([=] & _)]. destruct (Hmk {| so_Provider := "local"; so_Bucket := ""; so_Key := key; so_ETag := sha256hex body; so_Size := len body; so_ContentType := contentType |}) as [Hid Hkey].
  cbn in Hkey. set (f := mk _) in *. unfold record_file in R. rewrite Hkey, Hid in R. destruct Hu as [Hf Hsf].
  apply counts_bind in R as [(e & R & ->)|([] & n2 & db2 & R2 & R)].
  { apply or_undo_counts in R as [(a & [=] & _)|(e' & r0 & n2 & db2 & _ & R1 & R)].
    apply create_counts in R1 as [(-> & -> & _)|(_ & _ & [=])]; [|by cbn; rewrite Hid]. apply undo_step in R as (r1 & n3 & db3 & e1 & R1 & R).
    apply counts_ret in R as (-> & -> & _). apply (delete_counts _ _ _ _ _ _ _ Ep) in R1 as [(-> & _)|(-> & -> & _)]; [lia|].
    by eapply not_stored_dropped. }
  apply or_undo_counts in R2 as [([] & _ & R2)|(e' & r0 & n3 & db3 & [=] & _)].
  apply create_counts in R2 as [(_ & _ & [=])|(-> & -> & _)]; [|by cbn; rewrite Hid]. rewrite Hid in R.
  apply counts_bind in R as [(e & R & ->)|([] & n2 & db2 & R2 & R)].
  - destruct attach; [|by apply counts_ret in R as (_ & _ & [=])].
    apply or_undo_counts in R as [(a & [=] & _)|(e' & r0 & n2 & db2 & _ & R1 & R)].
    apply attach_counts in R1 as [(-> & -> & _)|(_ & _ & [=])]; [|done|cbn; rewrite lookup_insert_eq; eauto|apply Hsf].
    apply undo_step in R as (r1 & n3 & db3 & e1 & R1 & R). apply undo_step in R as (r2 & n4 & db4 & e2 & R2 & R).
    apply counts_ret in R as (-> & -> & _). apply (delete_counts _ _ _ _ _ _ _ Ep) in R1 as [(-> & _)|(-> & -> & _)]; [lia|].
    apply file_delete_counts in R2 as [(-> & _)|(-> & -> & _)]; [lia|].
    destruct (delete_unused id db (drop_object path (set_files (put_object path body db) (<[id := f]> (fd_files (put_object path body db)))))) as [E1 E2]; [done|right; by exists f|done|].
    by eapply not_stored_dropped.
  - apply counts_ret in R as (-> & -> & ->). split_and!; [done..|]. unfold stored. rewrite Hkey, Hid.
    destruct attach.
    + apply or_undo_counts in R2 as [([] & _ & R2)|(e' & r0 & n3 & db3 & [=] & _)].
      apply attach_counts in R2 as [(_ & _ & [=])|(-> & -> & _)]; [|done|cbn; rewrite lookup_insert_eq; eauto|apply Hsf]. split_and!; eauto.
    + apply counts_ret in R2 as (_ & -> & _). split_and!; eauto.
Qed.
(** ** The operations *)

Lemma member_counts {A} n w u (k : F A) db n' db' r :
  counts n (do ok := IsMember w u in if negb ok then denied else k)%go db n' db' r ->
  db' = db /\ is_ok r = false \/ (w, u) ∈ fd_members db /\ counts n k db n' db' r \/ exists m, m <= n /\ (w, u) ∈ fd_members db /\ counts m k db n' db' r.
Proof.
  intros R. apply counts_bind in R as [(e & R & ->)|(b & n1 & db1 & R1 & R)].
  - apply counts_read in R as (-> & _). by left.
  - apply counts_read in R1 as (-> & [(-> & m & [=])|(-> & [= ->])]). destruct (decide ((w, u) ∈ fd_members db)) as [Hm|Hm].
    + rewrite bool_decide_true in R by done. auto.
    + rewrite bool_decide_false in R by done. apply counts_fail in R as (_ & -> & ->). by left.
Qed.
Lemma not_stored_same key db : not_stored key db db.
Proof. split_and!; auto. Qed.

(** where at most one call fails, an upload of an unused identifier to an existing session
    by a member leaves the whole body as an object, its row and its place in the session; any
    error, and every other caller, leaves the rows as they were and no content.  The same
    holds of an artifact. *)
Theorem upload_all_or_nothing (alnum : Z -> bool) n userID workspaceID sessionID runID fileName contentType body hex now db n' db' r :
  n <= 1 -> sessionID ∈ db_sessions (fd_meta db) ->
  (counts n (Upload alnum root sha256hex userID workspaceID sessionID fileName contentType body hex now) db n' db' r ->
   unused (text ["f_"; hex]) db ->
   match r with
   | Ok f => (workspaceID, userID) ∈ fd_members db /\ fl_ID f = text ["f_"; hex]
             /\ stored true sessionID now body db db' f
   | Err _ => not_stored (SourceFileKey workspaceID (text ["f_"; hex]) (sanitizeFilename alnum fileName)) db db'
   end)
  /\ (counts n (SaveArtifact alnum root sha256hex userID workspaceID sessionID runID fileName contentType body hex now) db n' db' r ->
      unused (text ["art_"; hex]) db ->
      match r with
      | Ok f => (workspaceID, userID) ∈ fd_members db /\ fl_ID f = text ["art_"; hex]
                /\ stored (negb (blank sessionID)) sessionID now body db db' f
      | Err _ => not_stored (ArtifactKey workspaceID runID (text [text ["art_"; hex]; "-"; sanitizeFilename alnum fileName])) db db'
      end).
Proof.
  intros Hn Hs. split; intros R Hu.
  all: apply member_counts in R as [(-> & E)|[(Hm & R)|(m & Hle & Hm & R)]]; [destruct r; [done|apply not_stored_same]|..].
  all: eapply store_file in R; [..|lia|done|exact Hu|by intros o]; destruct r; [destruct R as (_ & ? & ?); auto|done].
Qed.

(** * Reports *)

(** Reports are filed under their identifiers, one for each run. *)
Definition one_per_run (db : FileDb) : Prop :=
  (forall k r, fd_reports db !! k = Some r -> ro_ID r = k)
  /\ (forall k k' r r', fd_reports db !! k = Some r -> fd_reports db !! k' = Some r' -> ro_RunID r = ro_RunID r' -> k = k').
Definition no_report (runID : string) (db : FileDb) : Prop := forall k r, fd_reports db !! k = Some r -> ro_RunID r <> runID.
(** The rows of the report of [runID] are gone, all else is there. *)
Definition cleared (runID fileID : string) (db db' : FileDb) : Prop :=
  fd_files db' = delete fileID (fd_files db) /\ fd_objects db' = fd_objects db
  /\ (forall k, is_Some (fd_runs db' !! k) <-> is_Some (fd_runs db !! k))
  /\ forall k r, fd_reports db' !! k = Some r <-> fd_reports db !! k = Some r /\ ro_RunID r <> runID.

Lemma report_of_run runID db :
  (exists k r, found (head (rows (fd_reports db) (fun r => ro_RunID r =? runID))) = Ok r
     /\ fd_reports db !! k = Some r /\ ro_RunID r = runID)
  \/ found (head (rows (fd_reports db) (fun r => ro_RunID r =? runID))) = Err SNotFound /\ no_report runID db.
Proof.
  destruct (rows (fd_reports db) (fun r => ro_RunID r =? runID)) as [|r l] eqn:E.
  - right. split; [done|]. intros k r Hk Hr. assert (Hi : r ∈ rows (fd_reports db) (fun r => ro_RunID r =? runID)).
    { apply in_rows. split; [by apply String.eqb_eq|eauto]. }
    rewrite E in Hi. by apply not_elem_of_nil in Hi.
  - left. assert (Hi : r ∈ rows (fd_reports db) (fun r => ro_RunID r =? runID)) by (rewrite E; left).
    apply in_rows in Hi as [Hr%String.eqb_eq (k & Hk)]. exists k, r. eauto.
Qed.
Lemma delete_one_file id db : fd_files (delete_files (String.eqb id) db) = delete id (fd_files db).
Proof.
  apply map_eq. intros k. apply option_eq. intros f. cbn. rewrite map_lookup_filter_Some, lookup_delete_Some. cbn. rewrite String.eqb_neq. tauto.
Qed.
Lemma delete_files_runs gone db k : is_Some (fd_runs (delete_files gone db) !! k) <-> is_Some (fd_runs db !! k).
Proof. cbn. by rewrite lookup_fmap, fmap_is_Some. Qed.

Lemma replace_counts n runID fileID db n' db' r :
  one_per_run db -> counts n (replaceExistingReport runID fileID) db n' db' r ->
  r = Ok tt /\ n' = n /\ cleared runID fileID db db' \/ is_ok r = false /\ 0 < n /\ (db' = db \/ no_report runID db').
Proof.
  intros [Hid Hone] R. apply counts_bind in R as [(e & R & ->)|(ex & n1 & db1 & R1 & R)]; [by apply counts_try in R as (r0 & _ & [=])|].
  apply counts_try in R1 as (r0 & R1 & [= ->]). apply counts_read in R1 as (-> & R1).
  assert (Hfirst : forall db2, db2 = db /\ no_report runID db \/ (exists r, ro_RunID r = runID /\ fd_reports db !! ro_ID r = Some r /\ db2 = set_reports db (delete (ro_ID r) (fd_reports db))) ->
    fd_files db2 = fd_files db /\ fd_objects db2 = fd_objects db /\ fd_runs db2 = fd_runs db
    /\ forall k r, fd_reports db2 !! k = Some r <-> fd_reports db !! k = Some r /\ ro_RunID r <> runID).
  { intros db2 [[-> Hno]|(q & <- & Hq & ->)]; (split_and!; [done..|]); intros k x; [split; [by eauto|tauto]|]. cbn. rewrite lookup_delete_Some. split.
    - intros [Hne Hx]. split; [done|]. intros E. apply Hne. by eapply Hone.
    - intros [Hx Hne]. split; [|done]. intros <-. congruence. }
  apply counts_bind in R as [(e & R & ->)|([] & n2 & db2 & R2 & R)].
  { destruct R1 as [(-> & Hr0)|(-> & ->)].
    - right. destruct Hr0 as (m & ->). apply counts_fail in R as (_ & -> & _). split; [done|]. split; [lia|by left].
    - destruct (report_of_run runID db) as [(k & q & E & Hq & Hrun)|[E Hno]]; rewrite E in R.
      + apply (counts_wrapped_update _ _ (fun db => set_reports db (delete (ro_ID q) (fd_reports db)))) in R as [(-> & -> & _)|(_ & _ & [=])].
        right. split; [done|]. split; [lia|by left].
      + by apply counts_ret in R as (_ & _ & [=]). }
  assert (H2 : n2 = n /\ (db2 = db /\ no_report runID db \/ exists r, ro_RunID r = runID /\ fd_reports db !! ro_ID r = Some r /\ db2 = set_reports db (delete (ro_ID r) (fd_reports db)))).
  { destruct R1 as [(-> & Hr0)|(-> & ->)].
    - destruct Hr0 as (m & ->). by apply counts_fail in R2 as (_ & _ & [=]).
    - destruct (report_of_run runID db) as [(k & q & E & Hq & Hrun)|[E Hno]]; rewrite E in R2.
      + apply (counts_wrapped_update _ _ (fun db => set_reports db (delete (ro_ID q) (fd_reports db)))) in R2 as [(_ & _ & [=])|(-> & -> & _)].
        split; [done|]. right. exists q. by rewrite (Hid _ _ Hq).
      + apply counts_ret in R2 as (-> & -> & _). auto. }
  destruct H2 as [-> H2]. apply Hfirst in H2 as (E1 & E2 & E3 & E4). clear Hfirst R1 R2.
  assert (Hno : forall db', fd_reports db' = fd_reports db2 -> no_report runID db').
  { intros d Ed k q. rewrite Ed, E4. tauto. }
  apply counts_bind in R as [(e & R & ->)|(x & n3 & db3 & R1 & R)]; [by apply counts_try in R as (y & _ & [=])|].
  apply counts_try in R1 as (y & R1 & [= ->]). apply counts_read in R1 as (-> & [(-> & m & ->)|(-> & ->)]).
  { apply counts_fail in R as (_ & -> & ->). right. split; [done|]. split; [lia|]. right. by apply Hno. }
  destruct (fd_files db2 !! fileID) as [f|] eqn:Ef; cbn in R.
  - apply (counts_wrapped_update _ _ (delete_files (String.eqb fileID))) in R as [(-> & -> & ?)|(-> & -> & ->)].
    + right. split; [done|]. split; [lia|]. right. by apply Hno.
    + left. split_and!; [done..|]. split_and!; [by rewrite delete_one_file, E1|done| |done].
      intros k. rewrite delete_files_runs. by rewrite E3.
  - apply counts_ret in R as (-> & -> & ->). left. split_and!; [done..|]. split_and!; [|done|by rewrite E3|done].
    rewrite <- E1. by rewrite delete_id.
Qed.

(** ** Saving *)

(** What saving a report leaves: its rows and its object, in place of those of the run. *)
Definition report_stored (workspaceID runID html : string) (db db' : FileDb) (f : File) (q : Report) : Prop :=
  fl_ID f = text ["rep_"; runID] /\ fl_StorageKey f = ReportHTMLKey workspaceID runID
  /\ ro_ID q = text ["report_"; runID] /\ ro_RunID q = runID /\ ro_HTMLStorageKey q = fl_StorageKey f
  /\ fd_files db' = <[fl_ID f := f]> (fd_files db)
  /\ (exists path, resolvePath (fl_StorageKey f) = Ok path /\ fd_objects db' = <[path := html]> (fd_objects db))
  /\ forall k r, fd_reports db' !! k = Some r <-> k = ro_ID q /\ r = q \/ fd_reports db !! k = Some r /\ ro_RunID r <> runID.
Lemma undo_preserves {T} (g : FileDb -> T) n e steps db n' db' r :
  Forall (preserves g) steps -> counts n (undo e steps) db n' db' r -> g db' = g db.
Proof.
  intros Hs. revert n e db. induction Hs as [|st steps Hst Hs IH]; intros n e db R.
  - by apply counts_ret in R as (_ & -> & _).
  - apply undo_step in R as (r1 & n1 & db1 & e1 & R1 & R). rewrite (IH _ _ _ R). apply counts_runs in R1. by eapply Hst.
Qed.
Lemma delete_preserves key : preserves fd_reports (Delete key).
Proof.
  unfold Files.Delete. apply preserves_bind; [apply preserves_lift|]. intros path. apply preserves_wrap, preserves_write. by intros db db' [= <-].
Qed.
Lemma file_delete_preserves id : preserves fd_reports (File_Delete id).
Proof. apply preserves_write. by intros db db' [= <-]. Qed.
Lemma report_create_counts n q db n' db' r :
  no_report (ro_RunID q) db -> is_Some (fd_runs db !! ro_RunID q) ->
  (forall x, fd_reports db !! ro_ID q = Some x -> ro_RunID x = ro_RunID q) ->
  counts n (Report_Create q) db n' db' r ->
  n = S n' /\ db' = db /\ is_ok r = false \/ n' = n /\ db' = set_reports db (<[ro_ID q := q]> (fd_reports db)) /\ r = Ok tt.
Proof.
  intros Hno Hrun Hid R.
  assert (Hfree : has (fd_reports db) (ro_ID q) = false).
  { apply bool_decide_eq_false. intros [x Hx]. eapply Hno; [exact Hx|by apply Hid]. }
  assert (Hnil : rows (fd_reports db) (fun r' => ro_RunID r' =? ro_RunID q) = []).
  { destruct (rows _ _) as [|x l] eqn:El; [done|]. assert (Hx : x ∈ x :: l) by left. rewrite <- El in Hx.
    apply in_rows in Hx as [Hx%String.eqb_eq (k & Hk)]. by eapply Hno in Hk. }
  apply counts_write in R as [?|(-> & R)]; [by left|right]. unfold has at 2 4 in R. rewrite Hfree, Hnil, (bool_decide_true _ Hrun) in R.
  cbn in R. destruct R as [([= <-] & ->)|(_ & e & [=] & _)]. done.
Qed.

Section save.
Context (userID workspaceID runID html title author snapshotJSON : string) (now : time) (path : string) (db : FileDb).
Abbreviation fileID := (text ["rep_"; runID]).
Abbreviation reportID := (text ["report_"; runID]).
Context (Hpath : resolvePath (ReportHTMLKey workspaceID runID) = Ok path) (Hone : one_per_run db) (Hrun : is_Some (fd_runs db !! runID)).
Context (Hid : forall q, fd_reports db !! reportID = Some q -> ro_RunID q = runID).

(** After the old rows are gone: a failure is the only way not to store the report. *)
Lemma replaced_counts n db1 n' db' r (o : StoredObject) f q :
  cleared runID fileID db db1 -> fl_ID f = fileID -> fl_StorageKey f = so_Key o -> so_Key o = ReportHTMLKey workspaceID runID ->
  ro_ID q = reportID -> ro_RunID q = runID -> ro_HTMLStorageKey q = so_Key o ->
  counts n (do _ := or_undo (File_Create f) [Delete (so_Key o)] in
            do _ := or_undo (wrap "failed to save report metadata" (Report_Create q)) [Delete (so_Key o); File_Delete fileID] in
            ret f)%go (put_object path html db1) n' db' r ->
  (r = Ok f /\ n' = n /\ report_stored workspaceID runID html db db' f q /\ (forall k, is_Some (fd_runs db' !! k) <-> is_Some (fd_runs db !! k)))
  \/ is_ok r = false /\ 0 < n /\ no_report runID db'.
Proof.
  intros (E1 & E2 & E3 & E4) Hf Hk Ho Hq1 Hq2 Hq3 R.
  assert (Hno : forall d, fd_reports d = fd_reports db1 -> no_report runID d) by (intros d Ed k x; rewrite Ed, E4; tauto).
  apply counts_bind in R as [(e & R & ->)|([] & n2 & db2 & R2 & R)].
  { apply or_undo_counts in R as [(a & [=] & _)|(e' & r0 & n2 & db2 & _ & R1 & R)].
    apply create_counts in R1 as [(-> & -> & _)|(_ & _ & [=])]; [|rewrite Hf; cbn; rewrite E1; apply lookup_delete_eq].
    right. split; [done|]. split; [lia|]. apply Hno. apply undo_preserves with (g := fd_reports) in R; [done|].
    repeat constructor. apply delete_preserves. }
  apply or_undo_counts in R2 as [([] & _ & R2)|(e' & r0 & n3 & db3 & [=] & _)].
  apply create_counts in R2 as [(_ & _ & [=])|(-> & -> & _)]; [|rewrite Hf; cbn; rewrite E1; apply lookup_delete_eq].
  assert (Hcreate : forall n n' d r, counts n (Report_Create q) (set_files (put_object path html db1) (<[fl_ID f:=f]> (fd_files (put_object path html db1)))) n' d r ->
    n = S n' /\ d = set_files (put_object path html db1) (<[fl_ID f:=f]> (fd_files (put_object path html db1))) /\ is_ok r = false
    \/ n' = n /\ d = set_reports (set_files (put_object path html db1) (<[fl_ID f:=f]> (fd_files (put_object path html db1)))) (<[reportID := q]> (fd_reports db1)) /\ r = Ok tt).
  { intros m m' d x Rc. apply report_create_counts in Rc; [by rewrite Hq1 in Rc|rewrite Hq2; by apply Hno|rewrite Hq2; cbn; by apply E3|].
    intros y. cbn. rewrite Hq1, Hq2, E4. intros [Hy _]. by apply Hid. }
  apply counts_bind in R as [(e & R & ->)|([] & n2 & db2 & R2 & R)].
  - apply or_undo_counts in R as [(a & [=] & _)|(e' & r0 & n2 & db2 & _ & R1 & R)].
    apply counts_wrap in R1 as (y & R1 & Ey). apply Hcreate in R1 as [(-> & -> & _)|(_ & _ & ->)]; [|done].
    right. split; [done|]. split; [lia|]. apply Hno. apply undo_preserves with (g := fd_reports) in R; [done|].
    repeat constructor; [apply delete_preserves|apply file_delete_preserves].
  - apply counts_ret in R as (-> & -> & ->). apply or_undo_counts in R2 as [([] & _ & R2)|(e' & r0 & n3 & db3 & [=] & _)].
    apply counts_wrap in R2 as (y & R2 & Ey). apply Hcreate in R2 as [(_ & _ & Hy)|(-> & -> & ->)]; [by destruct y|].
    left. split_and!; [done..| |intros k; cbn; apply E3]. unfold report_stored. rewrite Hq3, Hk, Ho. cbn. split_and!; try done.
    + rewrite Hf, E1. by rewrite insert_delete_eq.
    + exists path. by rewrite E2.
    + intros k x. rewrite Hq1. destruct (decide (k = reportID)) as [->|Hne].
      * rewrite lookup_insert_eq. split; [intros [= <-]; by left|]. intros [[_ ->]|[Hx Hne]]; [done|]. by apply Hid in Hx.
      * rewrite lookup_insert_ne, E4 by done. tauto.
Qed.
Abbreviation SaveReportHTML := (Files.SaveReportHTML root sha256hex userID workspaceID runID html title author snapshotJSON now).
Abbreviation DeleteReportFile := (Files.DeleteReportFile root).
Lemma save_counts n n' db' r :
  (workspaceID, userID) ∈ fd_members db -> counts n SaveReportHTML db n' db' r ->
  (exists f q, r = Ok f /\ n' = n /\ report_stored workspaceID runID html db db' f q /\ forall k, is_Some (fd_runs db' !! k) <-> is_Some (fd_runs db !! k))
  \/ is_ok r = false /\ 0 < n /\ (db' = db \/ no_report runID db').
Proof.
  intros Hm R. apply counts_bind in R as [(e & R & ->)|(b & n1 & db1 & R1 & R)].
  { apply counts_read in R as (-> & [(-> & _)|(_ & [=])]). right. split_and!; [done|lia|by left]. }
  apply counts_read in R1 as (-> & [(_ & m & [=])|(-> & [= ->])]). rewrite bool_decide_true in R by done. cbn [negb] in R.
  apply counts_bind in R as [(e & R & ->)|([] & n2 & db2 & R1 & R)].
  { apply replace_counts in R as [([=] & _)|R]; [|done]. by right. }
  apply replace_counts in R1 as [(_ & -> & Hc)|([=] & _)]; [|done].
  assert (Hno : no_report runID db2) by (intros k x Hx; destruct Hc as (_ & _ & _ & E); apply E in Hx; tauto).
  apply counts_bind in R as [(e & R & ->)|(o & n3 & db3 & R1 & R)].
  { right. split; [done|]. apply put_counts in R as [(p & _ & _ & _ & [=])|(_ & [(_ & Hp)|(-> & p & _ & [->| ->])])]; [by rewrite Hpath in Hp|..]; (split; [lia|by right]). }
  apply put_counts in R1 as [(p & Ep & -> & -> & [= ->])|([=] & _)]. rewrite Hpath in Ep. injection Ep as <-.
  eapply replaced_counts in R as [(-> & -> & H)|(? & ? & ?)]; [left; eauto 10|by right; auto|done..].
Qed.
Lemma delete_report_counts db1 n' db' r q :
  ro_ID q = reportID -> ro_RunID q = runID -> (forall k x, fd_reports db1 !! k = Some x -> k = reportID /\ x = q \/ ro_RunID x <> runID) ->
  counts 0 (DeleteReportFile fileID runID) db1 n' db' r -> no_report runID db'.
Proof.
  intros Hq1 Hq2 Honly R. apply counts_bind in R as [(e & R & ->)|(y & n1 & db2 & R1 & R)]; [by apply counts_try in R as (? & _ & [=])|].
  apply counts_try in R1 as (y' & R1 & [= ->]). apply counts_read in R1 as (-> & [([=] & _)|(-> & ->)]).
  apply counts_bind in R as [(e & R & ->)|(errors & n2 & db2 & R1 & R)].
  { exfalso. destruct (found _); [|by apply counts_ret in R as (_ & _ & [=])].
    apply counts_bind in R as [(e1 & R & _)|(? & ? & ? & _ & R)]; [by apply counts_try in R as (? & _ & [=])|].
    apply counts_bind in R as [(e1 & R & _)|(? & ? & ? & _ & R)]; [by apply counts_try in R as (? & _ & [=])|]. by apply counts_ret in R as (_ & _ & [=]). }
  assert (H2 : n2 = 0 /\ no_report runID db2).
  { destruct (report_of_run runID db1) as [(k & x & E & Hx & Hxr)|[E Hno]]; rewrite E in R1.
    - destruct (Honly _ _ Hx) as [[-> ->]|]; [|done]. 
      apply counts_bind in R1 as [(e1 & R1 & _)|(? & n3 & db3 & R1 & R2)]; [by apply counts_try in R1 as (? & _ & [=])|].
      apply counts_try in R1 as (y1 & R1 & _).
      apply counts_wrap in R1 as (y2 & R1 & _). pose proof (delete_preserves _ _ _ _ (counts_runs _ _ _ _ _ _ R1)) as Hk.
      apply counts_bind in R2 as [(e1 & R2 & _)|(? & n4 & db4 & R2 & R3)]; [by apply counts_try in R2 as (? & _ & [=])|].
      apply counts_ret in R3 as (-> & -> & _). apply counts_try in R2 as (y3 & R2 & _).
      apply delete_spends in R1 as Hn3. apply Nat.le_0_r in Hn3 as ->.
      apply (counts_wrapped_update _ _ (fun db => set_reports db (delete (ro_ID q) (fd_reports db)))) in R2 as [([=] & _)|(-> & -> & _)].
      split; [done|]. intros k z. cbn. rewrite Hq1, lookup_delete_Some, Hk. intros [Hne Hkx]. destruct (Honly _ _ Hkx) as [[-> _]|]; done.
    - apply counts_ret in R1 as (-> & -> & _). by split. }
  destruct H2 as [-> H2]. assert (Hp : fd_reports db' = fd_reports db2); [|intros k x; rewrite Hp; apply H2].
  apply counts_runs in R. revert R. apply preserves_bind; [apply preserves_try, preserves_read|]. intros [f|e0]; [|apply preserves_ret].
  apply preserves_bind; [|intros; apply preserves_ret]. apply preserves_try, preserves_wrap, file_delete_preserves.
Qed.

(** for a member and a run that exists, persisting a report succeeds unless a call fails;
    then the file and the report of the run are the new ones, with the page as the object,
    the run names the file, and the files and reports of other runs are those there were.
    Where it fails once, either nothing changed or no report of the run is left: never one
    without its file. *)
Theorem report_saved_whole n n' db' r :
  (workspaceID, userID) ∈ fd_members db ->
  counts n (persist_report root sha256hex userID workspaceID runID html title author snapshotJSON now) db n' db' r ->
  (n = 0 -> is_ok r = true)
  /\ match r with
     | Ok f => (exists q, report_stored workspaceID runID html db db' f q) /\ (rr_ReportFileID <$> fd_runs db' !! runID) = Some (Some fileID)
     | Err _ => n <= 1 -> db' = db \/ no_report runID db'
     end.
Proof.
  intros Hm R. apply counts_bind in R as [(e & R & ->)|(f & n1 & db1 & R1 & R)].
  { apply save_counts in R as [(f & q & [=] & _)|(_ & ? & ?)]; [|done]. split; [lia|auto]. }
  apply save_counts in R1 as [(f' & q & [= <-] & -> & Hs & Hr)|([=] & _)]; [|done]. pose proof Hs as (Hf & _ & Hq1 & Hq2 & _ & Hfiles & _ & Hrep).
  apply counts_bind in R as [(e & R & ->)|(y & n2 & db2 & R2 & R)]; [by apply counts_try in R as (y & _ & [=])|].
  apply counts_try in R2 as (y' & R2 & [= ->]). rewrite Hf in *.
  assert (Hg : (negb (has (fd_runs db1) runID) || has (fd_files db1) fileID) = true).
  { rewrite orb_true_iff. right. apply bool_decide_eq_true. rewrite Hfiles, lookup_insert_eq. eauto. }
  assert (Honly : forall k x, fd_reports db1 !! k = Some x -> k = reportID /\ x = q \/ ro_RunID x <> runID).
  { intros k x Hx%Hrep. rewrite Hq1 in Hx. tauto. }
  apply counts_write in R2. rewrite Hg in R2. destruct R2 as [(-> & -> & Hy)|(-> & [([= <-] & ->)|(_ & e & [=] & _)])].
  - destruct y' as [|e]; [done|]. apply counts_bind in R as [(e' & R & ->)|(errors & n3 & db3 & R2 & R)].
    + split; [lia|]. intros Hn. replace n2 with 0 in R by lia. right. exact (delete_report_counts _ _ _ _ _ Hq1 Hq2 Honly R).
    + apply counts_fail in R as (_ & -> & ->). split; [lia|]. intros Hn. replace n2 with 0 in R2 by lia. right.
      exact (delete_report_counts _ _ _ _ _ Hq1 Hq2 Honly R2).
  - apply counts_ret in R as (-> & -> & ->). split; [done|]. split; [by exists q|]. cbn. rewrite lookup_alter_eq.
    apply Hr in Hrun as [run ->]. done.
Qed.
End save.
End props.

(** * Reading *)

Section reading.
Context (root : string).
Lemma own_file_runs workspaceID fileID db d f :
  runs (own_file workspaceID fileID) db d (Ok f) -> d = db /\ fd_files db !! fileID = Some f /\ fl_WorkspaceID f = workspaceID.
Proof.
  intros [(e & _ & [=])|(g & d1 & R1 & R)]%runs_bind. apply runs_read in R1 as (-> & Hg%read_found).
  destruct (_ =? _) eqn:E; [|by apply runs_fail in R as (_ & [=])]. apply runs_ret in R as (-> & [= ->]). by apply String.eqb_eq in E.
Qed.
Lemma get_runs key db d (body : string) :
  runs (Get root key) db d (Ok body) -> d = db /\ exists path, Files.resolvePath root key = Ok path /\ fd_objects db !! path = Some body.
Proof.
  intros [(e & _ & [=])|(path & d1 & R1 & R)]%runs_bind. apply runs_lift in R1 as (-> & E). apply runs_wrap in R as (y & R & Ey).
  apply runs_read in R as (-> & [(m & ->)| ->]); [done|]. split; [done|]. exists path. split; [done|]. destruct (fd_objects db !! path); [|done]. by injection Ey as ->.
Qed.
Lemma open_runs userID workspaceID fileID db db' body f :
  runs (OpenForDownload root userID workspaceID fileID) db db' (Ok (body, f)) ->
  db' = db /\ fd_files db !! fileID = Some f /\ fl_WorkspaceID f = workspaceID /\ (workspaceID, userID) ∈ fd_members db
  /\ exists path, Files.resolvePath root (fl_StorageKey f) = Ok path /\ fd_objects db !! path = Some body.
Proof.
  intros R. apply runs_bind in R as [(e & _ & [=])|(ok & d & R1 & R)]. apply runs_read in R1 as (-> & [(m & [=])|[= ->]]).
  destruct (decide ((workspaceID, userID) ∈ fd_members db)) as [Hm|Hm]; [rewrite bool_decide_true in R by done|rewrite bool_decide_false in R by done; by apply runs_fail in R as (_ & [=])].
  apply runs_bind in R as [(e & _ & [=])|(g & d & R1 & R)]. apply own_file_runs in R1 as (-> & Hf & Hw).
  apply runs_bind in R as [(e & _ & [=])|(b & d & R1 & R)]. apply get_runs in R1 as (-> & Hp). by apply runs_ret in R as (-> & [= <- <-]).
Qed.
End reading.

(** C25: a file is read for an analysis or for a download only where its row exists, is of the
    caller's workspace and is attached to the session, or the caller is a member; what is
    read is the object of the row's key, and reading changes nothing. *)
Theorem files_confined root userID workspaceID sessionID fileID temp db db' body f :
  (runs (MaterializeToTemp root sessionID workspaceID fileID temp) db db' (Ok (body, f)) ->
   db' = db /\ fd_files db !! fileID = Some f /\ fl_WorkspaceID f = workspaceID
   /\ is_Some (fd_session_files db !! (sessionID, fileID))
   /\ exists path, Files.resolvePath root (fl_StorageKey f) = Ok path /\ fd_objects db !! path = Some body)
  /\ (runs (OpenForDownload root userID workspaceID fileID) db db' (Ok (body, f)) ->
      db' = db /\ fd_files db !! fileID = Some f /\ fl_WorkspaceID f = workspaceID /\ (workspaceID, userID) ∈ fd_members db
      /\ exists path, Files.resolvePath root (fl_StorageKey f) = Ok path /\ fd_objects db !! path = Some body).
Proof.
  split; [intros R|by apply open_runs].
  apply runs_bind in R as [(e & _ & [=])|(g & d & R1 & R)]. apply own_file_runs in R1 as (-> & Hf & Hw).
  apply runs_bind in R as [(e & _ & [=])|(files & d & R1 & R)]. apply runs_wrap in R1 as (y & R1 & Ey). apply runs_read in R1 as (-> & [(m & ->)| ->]); [done|].
  injection Ey as ->. destruct (existsb _ _) eqn:E; [|by apply runs_fail in R as (_ & [=])].
  apply runs_bind in R as [(e & _ & [=])|(b & d & R1 & R)]. apply get_runs in R1 as (-> & Hp).
  apply runs_bind in R as [(e & _ & [=])|(? & d & R1 & R)]. apply runs_lift in R1 as (-> & _). apply runs_ret in R as (-> & [= <- <-]).
  split_and!; [done..| |done]. apply existsb_exists in E as (z & Hx & Ex%String.eqb_eq). apply list_elem_of_In in Hx. unfold oldest_first in Hx.
  rewrite merge_sort_Permutation in Hx. apply in_rows in Hx as (Ha & k & Hk). rewrite <- Ex. by apply bool_decide_eq_true in Ha.
Qed.

(** * Examples *)

Definition letter (r : Z) : bool := ((48 <=? r) && (r <=? 57) || (65 <=? r) && (r <=? 90) || (97 <=? r) && (r <=? 122))%Z.
Definition no_meta : Db := Build_Db {["s"]} ∅ ∅ ∅ ∅ ∅ ∅ ∅ ∅ ∅.
Definition one_run : FileDb :=
  Build_FileDb no_meta {[("w", "u")]} ∅ ∅ {["r" := {| rr_SessionID := "s"; rr_ParentRunID := None; rr_ReportFileID := None |}]} ∅ ∅ ∅.
Definition digest (body : string) : string := text ["sha:"; body].
Definition upload_a (name : string) : F File := Upload letter "/data" digest "u" "w" "s" name "text/csv" "a,b" "01" 7%Z.
Definition persist_a (html : string) : F File := persist_report "/data" digest "u" "w" "r" html "T" "A" "{}" 7%Z.

Lemma upload_all_or_nothing_witness :
  let db' := run_of (upload_a "a.csv") one_run [] in
  (exists path, Files.resolvePath "/data" "workspaces/w/files/f_01/source/a.csv" = Ok path /\ fd_objects db' !! path = Some "a,b")
  /\ fd_files (run_of (upload_a "a.csv") one_run [None; None; None; None; Some "disk"]) = ∅.
Proof.
  assert (Hu : unused (text ["f_"; "01"]) one_run) by done.
  assert (Hs : "s" ∈ db_sessions (fd_meta one_run)) by (vm_compute; reflexivity).
  split.
  - pose proof (proj1 (upload_all_or_nothing "/data" digest letter 0 "u" "w" "s" "r" "a.csv" "text/csv" "a,b" "01" 7 one_run 0
      (run_of (upload_a "a.csv") one_run []) (upload_a "a.csv" {| w_db := one_run; w_faults := [] |}).2 ltac:(lia) Hs)) as H.
    assert (E : exists f, (upload_a "a.csv" {| w_db := one_run; w_faults := [] |}).2 = Ok f /\ fl_StorageKey f = "workspaces/w/files/f_01/source/a.csv") by (vm_compute; eauto).
    destruct E as (f & E & Ek). rewrite E in H. destruct H as (_ & _ & (path & Ep & Eo) & _); [|done|].
    + exists [], []. split; [|done]. rewrite <- E. vm_compute. reflexivity.
    + rewrite Ek in Ep. exists path. split; [done|]. rewrite Eo. apply lookup_insert_eq.
  - pose proof (proj1 (upload_all_or_nothing "/data" digest letter 1 "u" "w" "s" "r" "a.csv" "text/csv" "a,b" "01" 7 one_run 0
      (run_of (upload_a "a.csv") one_run [None; None; None; None; Some "disk"])
      (upload_a "a.csv" {| w_db := one_run; w_faults := [None; None; None; None; Some "disk"] |}).2 ltac:(lia) Hs)) as H.
    assert (E : exists e, (upload_a "a.csv" {| w_db := one_run; w_faults := [None; None; None; None; Some "disk"] |}).2 = Err e) by (vm_compute; eauto).
    destruct E as (e & E). rewrite E in H. destruct H as (Hf & _); [|done|exact Hf].
    exists [None; None; None; None; Some "disk"], []. split; [|done]. rewrite <- E. vm_compute. reflexivity.
Defined.

Lemma no_reports k : fd_reports one_run !! k = None.
Proof. apply lookup_empty. Qed.
Lemma report_saved_whole_witness :
  exists f, exec (persist_a "<p>") one_run = (run_of (persist_a "<p>") one_run [], Ok f) /\ fl_ID f = "rep_r"
    /\ (rr_ReportFileID <$> fd_runs (run_of (persist_a "<p>") one_run []) !! "r") = Some (Some "rep_r").
Proof.
  assert (H1 : Files.resolvePath "/data" (ReportHTMLKey "w" "r") = Ok "/data/workspaces/w/runs/r/report/report.html") by (vm_compute; reflexivity).
  assert (H2 : one_per_run one_run) by (split; intros * Hk; by rewrite no_reports in Hk).
  assert (H3 : is_Some (fd_runs one_run !! "r")) by (vm_compute; eauto).
  assert (H4 : forall q, fd_reports one_run !! text ["report_"; "r"] = Some q -> ro_RunID q = "r") by (intros q Hq; by rewrite no_reports in Hq).
  assert (H5 : ("w", "u") ∈ fd_members one_run) by (vm_compute; reflexivity).
  pose proof (report_saved_whole "/data" digest "u" "w" "r" "<p>" "T" "A" "{}" 7 _ one_run H1 H2 H3 H4 0 0
    (run_of (persist_a "<p>") one_run []) (persist_a "<p>" {| w_db := one_run; w_faults := [] |}).2 H5) as H.
  assert (E : exists f, (persist_a "<p>" {| w_db := one_run; w_faults := [] |}).2 = Ok f) by (vm_compute; eauto).
  destruct E as (f & E). exists f. rewrite exec_run_of, E in *. destruct H as (_ & (q & Hs) & Hb).
  - exists [], []. split; [|done]. rewrite <- E. vm_compute. reflexivity.
  - split; [done|]. split; [apply Hs|exact Hb].
Defined.

Lemma files_confined_witness : exists db' body f, runs (OpenForDownload "/data" "u" "w" "f_01") (run_of (upload_a "a.csv") one_run []) db' (Ok (body, f))
    /\ db' = run_of (upload_a "a.csv") one_run [] /\ fl_WorkspaceID f = "w".
Proof.
  set (db := run_of (upload_a "a.csv") one_run []). pose proof (runs_of (OpenForDownload "/data" "u" "w" "f_01") db []) as R.
  assert (E : exists f, (OpenForDownload "/data" "u" "w" "f_01" {| w_db := db; w_faults := [] |}).2 = Ok ("a,b", f)) by (vm_compute; eauto).
  destruct E as (f & E). rewrite E in R. exists (run_of (OpenForDownload "/data" "u" "w" "f_01") db []), "a,b", f. split; [done|].
  destruct (proj2 (files_confined "/data" "u" "w" "s" "f_01" (Ok tt) _ _ _ _) R) as (E1 & _ & E2 & _). by split.
Defined.

Lemma objects_stay_inside_witness : resolvePath "/data" "workspaces/w/a.csv" = Ok "/data/workspaces/w/a.csv".
Proof.
  apply (proj2 (objects_stay_inside ["data"] "workspaces/w/a.csv" ltac:(by repeat constructor)) ["workspaces"; "w"; "a.csv"]); [done|by repeat constructor|vm_compute; reflexivity|done].
Defined.

(** A name with two dots in a row passes the check of names and is refused by the storage. *)
Lemma dotted_name_refused :
  sanitizeFilename letter "a..b.csv" = "a..b.csv"
  /\ (exec (upload_a "a..b.csv") one_run).2 = Err (SText "illegal storage path (contains ..): workspaces/w/files/f_01/source/a..b.csv").
Proof. split; vm_compute; reflexivity. Qed.

(** Saving the report of a run again deletes the rows of the one it has before anything is
    stored: where the disk refuses the new page, the run has no report any more. *)
Lemma replaced_report_lost :
  let db := run_of (persist_a "<p>") one_run [] in
  let db' := run_of (persist_a "<q>") db [None; None; None; None; None; Some "disk full"] in
  fd_objects db' = fd_objects db /\ map_size (fd_reports db) = 1%nat /\ fd_reports db' = ∅ /\ fd_files db' = ∅.
Proof. split_and!; vm_compute; reflexivity. Qed.
