(* ===== verification/SessionDeletion.v ===== *)
(** Deleting a session: what [deleteSessionResources] removes, what it leaves, and what a
    failure costs ([session_deleted]). *)
From S2P Require Import Prelude GoStrings Json StateTools Calls Sources Files.
From Stdlib Require Import Ascii.
Open Scope string_scope.
Open Scope list_scope.

(** * Lists of identifiers *)

Lemma elem_of_unique seen items x :
  x ∈ unique_from seen items <-> x <> "" /\ x ∉ seen /\ exists y, y ∈ items /\ x = TrimSpace y.
Proof.
  revert seen. induction items as [|item items IH]; intros seen; cbn.
  - split; [by intros ?%elem_of_nil|]. intros (_ & _ & y & Hy & _). by apply elem_of_nil in Hy.
  - destruct (_ || _) eqn:E.
    + rewrite IH. split; intros (Hx & Hs & y & Hy & ->); (split_and!; [done..|]).
      * exists y. split; [by right|done].
      * apply elem_of_cons in Hy as [->|Hy]; [|by exists y]. exfalso.
        apply orb_true_iff in E as [E%String.eqb_eq|E%bool_decide_eq_true]; [by rewrite E in Hx|done].
    + apply orb_false_iff in E as [E1%String.eqb_neq E2%bool_decide_eq_false]. rewrite elem_of_cons, IH, not_elem_of_union, not_elem_of_singleton.
      split.
      * intros [->|(Hx & [Hne Hs] & y & Hy & ->)]; (split_and!; [done..|]); [exists item; split; [by left|done]|exists y; split; [by right|done]].
      * intros (Hx & Hs & y & Hy & ->). destruct (decide (TrimSpace y = TrimSpace item)) as [E|Hne]; [by left|right].
        split_and!; [done..|]. apply elem_of_cons in Hy as [->|Hy]; [done|by exists y].
Qed.
(** [x] is one of the values, after trimming. *)
Definition named (x : string) (values : list string) : Prop := x <> "" /\ exists y, y ∈ values /\ x = TrimSpace y.
#[global] Instance named_dec x values : Decision (named x values).
Proof.
  destruct (decide (x = "")) as [->|Hx]; [right; by intros [? _]|].
  destruct (decide (x ∈ map TrimSpace values)) as [H|H]; rewrite list_elem_of_fmap in H; [left; split; [done|]; destruct H as (y & -> & Hy); eauto|].
  right. intros (_ & y & Hy & ->). apply H. eauto.
Defined.
Lemma elem_of_uniqueStrings items x : x ∈ uniqueStrings items <-> named x items.
Proof. unfold uniqueStrings, named. rewrite elem_of_unique. set_solver. Qed.
Lemma elem_of_query values x : x ∈ uniqueStrings (List.filter (fun s => negb (s =? "")) (map TrimSpace values)) <-> named x values.
Proof.
  rewrite elem_of_uniqueStrings. unfold named. split; intros (Hx & y & Hy & ->); (split; [done|]).
  - rewrite list_elem_of_In, filter_In, <- list_elem_of_In, list_elem_of_fmap in Hy. destruct Hy as [(z & -> & Hz) _].
    exists z. by rewrite TrimSpace_idem.
  - exists (TrimSpace y). rewrite TrimSpace_idem. split; [|done]. rewrite list_elem_of_In, filter_In, <- list_elem_of_In, list_elem_of_fmap.
    split; [by exists y|]. rewrite negb_true_iff. by apply String.eqb_neq.
Qed.

(** * The plan *)

(** What the plan of a session names: the private files that only it has, the report files of
    its runs, and the keys of these and of the pages of its reports. *)
Definition doomed_file (sid : string) (db : FileDb) (id : string) : Prop := named id (source_files sid db) \/ named id (report_files sid db).
Definition doomed_key (sid : string) (db : FileDb) (key : string) : Prop := named key (file_keys sid db) \/ named key (report_keys sid db).
Definition plan_for (sid : string) (db : FileDb) (plan : sessionDeletionPlan) : Prop :=
  (forall id, id ∈ dp_sourceFileIDs plan <-> named id (source_files sid db))
  /\ (forall id, id ∈ dp_reportFileIDs plan <-> named id (report_files sid db))
  /\ (forall key, key ∈ dp_storageKeys plan <-> doomed_key sid db key).
Lemma named_app x l1 l2 : named x (l1 ++ l2) <-> named x l1 \/ named x l2.
Proof. unfold named. set_solver. Qed.
Lemma named_query x values : named x (uniqueStrings (List.filter (fun s => negb (s =? "")) (map TrimSpace values))) <-> named x values.
Proof.
  rewrite <- (elem_of_query values). unfold named at 1. split.
  - intros (Hx & y & Hy & ->). pose proof Hy as (_ & z & _ & ->)%elem_of_query. by rewrite TrimSpace_idem.
  - intros Hx. pose proof Hx as (Hne & z & _ & ->)%elem_of_query. split; [done|]. exists (TrimSpace z). by rewrite TrimSpace_idem.
Qed.
Lemma build_plan_runs sid db db' r :
  runs (buildSessionDeletionPlan sid) db db' r -> db' = db /\ match r with Ok plan => plan_for sid db plan | Err _ => True end.
Proof.
  intros R. unfold buildSessionDeletionPlan, queryStrings in R.
  do 4 (apply runs_bind in R as [(e & R & ->)|(? & d & R1 & R)]; [by apply runs_read in R as (-> & _)|];
    apply runs_read in R1 as (-> & [(m & [=])|[= ->]])).
  apply runs_ret in R as (-> & ->). split; [done|]. split_and!; cbn; [apply elem_of_query..|]. intros key.
  rewrite elem_of_uniqueStrings, named_app. unfold doomed_key.
  by rewrite !named_query.
Qed.

(** * Objects *)

Section deletion.
Context (root : string).
Abbreviation resolvePath := (Files.resolvePath root).
(** The rows, whatever the objects. *)
Definition same_rows (db db' : FileDb) : Prop := set_objects db' ∅ = set_objects db ∅.
(** The object of a key of the list. *)
Definition named_object (keys : list string) (path : string) : Prop := exists key, key ∈ keys /\ resolvePath key = Ok path.
Definition objects_lost (lost : string -> Prop) (db db' : FileDb) : Prop :=
  forall path, fd_objects db' !! path = fd_objects db !! path \/ fd_objects db' !! path = None /\ lost path.
Lemma delete_runs_object key db db' r :
  runs (Files.Delete root key) db db' r ->
  db' = db /\ is_ok r = false \/ exists path, resolvePath key = Ok path /\ r = Ok tt /\ db' = set_objects db (delete path (fd_objects db)).
Proof.
  intros R. unfold Files.Delete in R. apply runs_bind in R as [(e & R & ->)|(path & d & R1 & R)].
  { apply runs_lift in R as (-> & _). by left. }
  apply runs_lift in R1 as (-> & Ep). apply runs_wrap in R as (y & R & ->). apply runs_write in R as [(e & -> & ->)|([= <-] & ->)]; [by left|].
  right. by exists path.
Qed.
Lemma delete_objects_runs keys db db' r :
  runs (delete_objects root keys) db db' r ->
  exists errors, r = Ok errors /\ same_rows db db' /\ objects_lost (named_object keys) db db'
    /\ (errors = [] -> forall path, named_object keys path -> fd_objects db' !! path = None).
Proof.
  revert db db' r. induction keys as [|key keys IH]; intros db db' r R; cbn in R.
  { apply runs_ret in R as (-> & ->). exists []. split_and!; [done..|by intros path; left|]. intros _ path (k & Hk & _). by apply elem_of_nil in Hk. }
  apply runs_bind in R as [(e & R & ->)|(y & d & R1 & R)].
  { destruct (_ || _); [by apply runs_ret in R as (_ & [=])|by apply runs_try in R as (? & _ & [=])]. }
  apply runs_bind in R as [(e & R & ->)|(errors & d2 & R2 & R)]; [by apply IH in R as (? & [=] & _)|].
  apply IH in R2 as (errors' & [= <-] & Hrows & Hlost & Hgone). apply runs_ret in R as (-> & ->).
  assert (H1 : d = db /\ is_ok y = false \/ exists path, resolvePath key = Ok path /\ y = Ok tt /\ d = set_objects db (delete path (fd_objects db))).
  { destruct (_ || _); [apply runs_ret in R1 as (-> & [= ->]); by left|]. apply runs_try in R1 as (y' & R1 & [= ->]).
    apply runs_wrap in R1 as (y1 & R1 & ->). apply delete_runs_object in R1 as [(-> & E)|(path & Ep & -> & ->)]; [left; by destruct y1|right; by exists path]. }
  eexists. split; [done|]. assert (Hsub : forall path, named_object keys path -> named_object (key :: keys) path).
  { intros path (k & Hk & E). exists k. split; [by right|done]. }
  destruct H1 as [(-> & E)|(path & Ep & -> & ->)].
  - split_and!; [done|..]; [|by destruct y]. intros p. destruct (Hlost p) as [?|[? ?]]; [by left|right; auto].
  - split_and!; [done|..].
    + intros p. cbn in Hlost. specialize (Hlost p). cbn in Hlost. destruct (decide (p = path)) as [->|Hne].
      * right. rewrite lookup_delete_eq in Hlost. split; [by destruct Hlost as [?|[? _]]|]. exists key. split; [by left|done].
      * rewrite lookup_delete_ne in Hlost by done. destruct Hlost as [?|[? ?]]; [by left|right; auto].
    + intros -> p (k & Hk & E). apply elem_of_cons in Hk as [->|Hk]; [|apply Hgone; [done|by exists k]].
      rewrite Ep in E. injection E as <-. specialize (Hlost path). cbn in Hlost. rewrite lookup_delete_eq in Hlost. by destruct Hlost as [?|[? _]].
Qed.

(** * The transaction *)

Definition listed_files (ids : list string) (db : FileDb) : FileDb := match ids with [] => db | _ => delete_files (fun id => bool_decide (id ∈ ids)) db end.
Definition drop_messages sid db := set_messages db (filter (fun kv => (mr_SessionID kv.2 =? sid) = false) (fd_messages db)).
Definition drop_reports sid db := set_reports db (filter (fun kv => bool_decide (ro_RunID kv.2 ∈ runs_of_session sid db) = false) (fd_reports db)).
Definition drop_attachments sid db := set_session_files db (filter (fun kv => (kv.1.1 =? sid) = false) (fd_session_files db)).
Definition drop_runs sid db := delete_runs (runs_of_session sid db) db.
Definition on_meta (f : Db -> Db) (db : FileDb) : FileDb := set_meta db (f (fd_meta db)).
Definition drop_confirmations sid m := set_confirmations m (filter (fun kv => (cf_SessionID kv.2 =? sid) = false) (db_confirmations m)).
Definition drop_profiles sid := delete_profiles (fun p => pf_SessionID p =? sid).
Definition drop_snapshots sid := delete_snapshots (fun s => sn_SessionID s =? sid).
Definition drop_bindings sid m := set_bindings m (filter (fun kv => (sb_SessionID kv.2 =? sid) = false) (db_bindings m)).
(** Up to the last statement. *)
Definition emptied (sid : string) (plan : sessionDeletionPlan) (db : FileDb) : FileDb :=
  listed_files (dp_sourceFileIDs plan)
    (on_meta (drop_bindings sid) (on_meta (drop_snapshots sid) (on_meta (drop_profiles sid) (on_meta (drop_confirmations sid)
       (drop_attachments sid (drop_runs sid (listed_files (dp_reportFileIDs plan) (drop_reports sid (drop_messages sid db))))))))).
Lemma runs_update {S} (g : S -> S) db db' r : runs (write (fun db => Ok (g db))) db db' (Ok r) -> db' = g db.
Proof. by intros [(e & _ & [=])|([= <-] & _)]%runs_write. Qed.
Lemma runs_in_meta f db db' r : runs (in_meta f) db db' (Ok r) -> db' = on_meta f db.
Proof. by intros [(e & _ & [=])|([= <-] & _)]%runs_write. Qed.
Lemma listed_runs dialect ids db db' r :
  runs (match ids with [] => ret tt | id :: l => deleteFilesByIDs dialect (id :: l) end) db db' (Ok r) -> db' = listed_files ids db.
Proof.
  destruct ids; [by intros [-> _]%runs_ret|]. intros [(e & _ & [=])|(E & _)]%runs_write.
  cbv zeta in E. by case_match; simplify_eq.
Qed.
Lemma statements_run dialect plan sid db db' r :
  runs (session_statements dialect plan sid) db db' (Ok r) -> db' = delete_session_row sid (emptied sid plan db).
Proof.
  intros R. unfold session_statements in R.
  apply runs_bind in R as [(e & _ & [=])|(? & d & R1 & R)]. apply (runs_update (drop_messages sid)) in R1 as ->.
  apply runs_bind in R as [(e & _ & [=])|(? & d & R1 & R)]. apply (runs_update (drop_reports sid)) in R1 as ->.
  apply runs_bind in R as [(e & _ & [=])|(? & d & R1 & R)]. apply listed_runs in R1 as ->.
  apply runs_bind in R as [(e & _ & [=])|(? & d & R1 & R)]. apply (runs_update (drop_runs sid)) in R1 as ->.
  apply runs_bind in R as [(e & _ & [=])|(? & d & R1 & R)]. apply (runs_update (drop_attachments sid)) in R1 as ->.
  apply runs_bind in R as [(e & _ & [=])|(? & d & R1 & R)]. apply (runs_in_meta (drop_confirmations sid)) in R1 as ->.
  apply runs_bind in R as [(e & _ & [=])|(? & d & R1 & R)]. apply (runs_in_meta (drop_profiles sid)) in R1 as ->.
  apply runs_bind in R as [(e & _ & [=])|(? & d & R1 & R)]. apply (runs_in_meta (drop_snapshots sid)) in R1 as ->.
  apply runs_bind in R as [(e & _ & [=])|(? & d & R1 & R)]. apply (runs_in_meta (drop_bindings sid)) in R1 as ->.
  apply runs_bind in R as [(e & _ & [=])|(? & d & R1 & R)]. apply listed_runs in R1 as ->.
  by apply runs_update in R.
Qed.

(** * What is left *)

(** Deleting runs only removes rows; the runs of [ids] are among them. *)
Lemma below_contains n db ids id : id ∈ ids -> id ∈ below n db ids.
Proof. revert ids. induction n as [|n IH]; intros ids Hid; cbn; [done|]. apply IH. set_solver. Qed.
Lemma delete_runs_gone ids db k : k ∈ ids -> fd_runs (delete_runs ids db) !! k = None.
Proof.
  intros Hk. cbn. apply map_lookup_filter_None. right. intros r _. rewrite bool_decide_eq_false. cbn. intros Hn. by apply Hn, below_contains.
Qed.
Lemma listed_files_lookup ids db id f : fd_files (listed_files ids db) !! id = Some f <-> fd_files db !! id = Some f /\ id ∉ ids.
Proof.
  destruct ids as [|x ids]; [set_solver|]. cbn -[elem_of]. rewrite map_lookup_filter_Some. cbn. by rewrite bool_decide_eq_false.
Qed.
Lemma listed_attachments ids db k t :
  fd_session_files (listed_files ids db) !! k = Some t <-> fd_session_files db !! k = Some t /\ k.2 ∉ ids.
Proof.
  destruct ids as [|x ids]; [set_solver|]. cbn -[elem_of]. rewrite map_lookup_filter_Some. cbn. by rewrite bool_decide_eq_false.
Qed.
Lemma listed_rest ids db :
  fd_meta (listed_files ids db) = fd_meta db /\ fd_members (listed_files ids db) = fd_members db /\ fd_reports (listed_files ids db) = fd_reports db
  /\ fd_messages (listed_files ids db) = fd_messages db /\ fd_objects (listed_files ids db) = fd_objects db.
Proof. by destruct ids. Qed.

(** What the deletion of a session leaves of the metadata, and of the rows of files and runs. *)
Definition meta_left (sid : string) (m m' : Db) : Prop :=
  db_sessions m' = db_sessions m ∖ {[sid]} /\ db_sources m' = db_sources m /\ db_tables m' = db_tables m
  /\ (forall k b, db_bindings m' !! k = Some b <-> db_bindings m !! k = Some b /\ sb_SessionID b <> sid)
  /\ (forall k s, db_snapshots m' !! k = Some s <-> db_snapshots m !! k = Some s /\ sn_SessionID s <> sid)
  /\ (forall k p, db_profiles m' !! k = Some p -> db_profiles m !! k = Some p /\ pf_SessionID p <> sid)
  /\ (forall k c, db_confirmations m' !! k = Some c -> db_confirmations m !! k = Some c /\ cf_SessionID c <> sid).
Definition rows_left (sid : string) (doomed : string -> Prop) (db db' : FileDb) : Prop :=
  (forall id f, fd_files db' !! id = Some f <-> fd_files db !! id = Some f /\ ~ doomed id)
  /\ (forall k t, fd_session_files db' !! k = Some t <-> fd_session_files db !! k = Some t /\ k.1 <> sid /\ ~ doomed k.2)
  /\ (forall k r, fd_runs db' !! k = Some r -> rr_SessionID r <> sid)
  /\ (forall k q, fd_reports db' !! k = Some q ->
        fd_reports db !! k = Some q /\ forall run, fd_runs db !! ro_RunID q = Some run -> rr_SessionID run <> sid)
  /\ (forall k m, fd_messages db' !! k = Some m -> fd_messages db !! k = Some m /\ mr_SessionID m <> sid).
Lemma drop_meta_left sid m :
  let m' := drop_bindings sid (drop_snapshots sid (drop_profiles sid (drop_confirmations sid m))) in
  db_sessions m' = db_sessions m /\ db_sources m' = db_sources m /\ db_tables m' = db_tables m
  /\ (forall k b, db_bindings m' !! k = Some b <-> db_bindings m !! k = Some b /\ sb_SessionID b <> sid)
  /\ (forall k s, db_snapshots m' !! k = Some s <-> db_snapshots m !! k = Some s /\ sn_SessionID s <> sid)
  /\ (forall k p, db_profiles m' !! k = Some p -> db_profiles m !! k = Some p /\ pf_SessionID p <> sid)
  /\ (forall k c, db_confirmations m' !! k = Some c -> db_confirmations m !! k = Some c /\ cf_SessionID c <> sid).
Proof.
  intros m'. split_and!; [done..| | | |]; intros k x.
  - unfold m'. cbn. by rewrite map_lookup_filter_Some, String.eqb_neq.
  - unfold m'. cbn. by rewrite map_lookup_filter_Some, String.eqb_neq.
  - unfold m'. cbn. intros [Hx _]%map_lookup_filter_Some. apply map_lookup_filter_Some in Hx. by rewrite String.eqb_neq in Hx.
  - unfold m'. cbn. intros [Hx _]%map_lookup_filter_Some. apply map_lookup_filter_Some in Hx as [Hx _].
    apply map_lookup_filter_Some in Hx. by rewrite String.eqb_neq in Hx.
Qed.
Lemma row_deleted sid db :
  fd_files (delete_session_row sid db) = fd_files db /\ fd_objects (delete_session_row sid db) = fd_objects db
  /\ (forall k t, fd_session_files (delete_session_row sid db) !! k = Some t <-> fd_session_files db !! k = Some t /\ k.1 <> sid)
  /\ (forall k r, fd_runs (delete_session_row sid db) !! k = Some r -> rr_SessionID r <> sid)
  /\ (forall k q, fd_reports (delete_session_row sid db) !! k = Some q -> fd_reports db !! k = Some q)
  /\ (forall k m, fd_messages (delete_session_row sid db) !! k = Some m -> fd_messages db !! k = Some m /\ mr_SessionID m <> sid).
Proof.
  unfold delete_session_row. set (d1 := set_session_files _ _).
  assert (E : fd_messages d1 = filter (fun kv => (mr_SessionID kv.2 =? sid) = false) (fd_messages db)) by done.
  split_and!; [done|done|..]; intros k x.
  - cbn. by rewrite map_lookup_filter_Some, String.eqb_neq.
  - intros Hx Hsid. assert (Hk : k ∈ runs_of_session sid d1).
    { apply elem_of_dom. exists x. apply map_lookup_filter_Some. split; [|by apply String.eqb_eq]. by apply map_lookup_filter_Some in Hx as [Hx _]. }
    change (fd_runs (delete_runs (runs_of_session sid d1) d1) !! k = Some x) in Hx. by rewrite delete_runs_gone in Hx.
  - cbn. by intros [Hx _]%map_lookup_filter_Some.
  - intros Hx. apply map_lookup_filter_Some in Hx as [Hx _]. change (fd_messages d1 !! k = Some x) in Hx. rewrite E in Hx.
    apply map_lookup_filter_Some in Hx. by rewrite String.eqb_neq in Hx.
Qed.
Definition drop_session (sid : string) (m : Db) : Db :=
  Build_Db (db_sessions m ∖ {[sid]}) (db_sources m) (db_snapshots m) (filter (fun kv => (sb_SessionID kv.2 =? sid) = false) (db_bindings m))
    (db_profiles m) (db_confirmations m) (db_assets m) (db_audit m) (db_tables m) (db_configs m).
Lemma row_meta sid db : fd_meta (delete_session_row sid db) = drop_session sid (fd_meta db).
Proof. done. Qed.
Lemma drop_session_left sid m :
  meta_left sid m (drop_session sid (drop_bindings sid (drop_snapshots sid (drop_profiles sid (drop_confirmations sid m))))).
Proof.
  destruct (drop_meta_left sid m) as (_ & _ & _ & Hb & H). do 3 (split; [done|]). split; [|exact H].
  intros k b. unfold drop_session. cbn [db_bindings]. rewrite map_lookup_filter_Some, Hb, String.eqb_neq. cbn. tauto.
Qed.
Lemma statements_left dialect plan sid db db' r :
  plan_for sid db plan -> runs (session_statements dialect plan sid) db db' (Ok r) ->
  meta_left sid (fd_meta db) (fd_meta db') /\ rows_left sid (doomed_file sid db) db db' /\ fd_objects db' = fd_objects db.
Proof.
  intros (Hsrc & Hrep & _) ->%statements_run. destruct (row_deleted sid (emptied sid plan db)) as (E1 & E2 & E3 & E4 & E5 & E6).
  unfold emptied in *. set (d1 := drop_reports sid (drop_messages sid db)) in *. set (d2 := listed_files (dp_reportFileIDs plan) d1) in *.
  set (d3 := drop_attachments sid (drop_runs sid d2)) in *.
  set (d4 := on_meta (drop_bindings sid) _) in *.
  assert (Hdoom : forall id, ~ doomed_file sid db id <-> id ∉ dp_sourceFileIDs plan /\ id ∉ dp_reportFileIDs plan).
  { intros id. unfold doomed_file. rewrite Hsrc, Hrep. tauto. }
  destruct (listed_rest (dp_sourceFileIDs plan) d4) as (F1 & _ & F2 & F3 & F4).
  destruct (listed_rest (dp_reportFileIDs plan) d1) as (G1 & _ & G2 & G3 & G4).
  split; [|split; [unfold rows_left; split_and!|]].
  - assert (Hm : fd_meta d4 = drop_bindings sid (drop_snapshots sid (drop_profiles sid (drop_confirmations sid (fd_meta db))))).
    { change (fd_meta d4) with (drop_bindings sid (drop_snapshots sid (drop_profiles sid (drop_confirmations sid (fd_meta d2))))). unfold d2. by rewrite G1. }
    rewrite row_meta, F1, Hm. apply drop_session_left.
  - intros id f. rewrite E1, listed_files_lookup, Hdoom. change (fd_files d4) with (fd_files d2). unfold d2. rewrite listed_files_lookup. change (fd_files d1) with (fd_files db). tauto.
  - intros k t. rewrite E3, listed_attachments, Hdoom. change (fd_session_files d4) with (filter (fun kv => (kv.1.1 =? sid) = false) (fd_session_files d2)).
    rewrite map_lookup_filter_Some, String.eqb_neq. unfold d2. rewrite listed_attachments. change (fd_session_files d1) with (fd_session_files db). cbn. tauto.
  - intros k x Hx. by eapply E4.
  - intros k q Hq%E5. rewrite F2 in Hq. change (fd_reports d4) with (fd_reports (drop_runs sid d2)) in Hq. cbn in Hq.
    apply map_lookup_filter_Some in Hq as [Hq _]. unfold d2 in Hq. rewrite G2 in Hq.
    apply map_lookup_filter_Some in Hq as [Hq Hn]. split; [done|]. intros run Hrun Hs. cbn in Hn.
    apply bool_decide_eq_false in Hn. apply Hn, elem_of_dom. exists run. apply map_lookup_filter_Some. split; [done|by apply String.eqb_eq].
  - intros k x Hx%E6. destruct Hx as [Hx Hs]. split; [|done]. rewrite F3 in Hx. change (fd_messages d4) with (fd_messages (drop_runs sid d2)) in Hx. cbn in Hx.
    apply map_lookup_filter_Some in Hx as [Hx _]. unfold d2 in Hx. rewrite G3 in Hx. by apply map_lookup_filter_Some in Hx as [Hx _].
  - rewrite E2, F4. change (fd_objects d4) with (fd_objects d2). unfold d2. by rewrite G4.
Qed.

(** * The operation *)

Definition lost_object (sid : string) (db : FileDb) (path : string) : Prop := exists key, doomed_key sid db key /\ resolvePath key = Ok path.
Lemma named_object_lost sid db plan path : plan_for sid db plan -> named_object (dp_storageKeys plan) path <-> lost_object sid db path.
Proof. intros (_ & _ & H). unfold named_object, lost_object. by setoid_rewrite H. Qed.
Lemma same_rows_meta db db' : same_rows db db' -> fd_meta db' = fd_meta db /\ fd_files db' = fd_files db /\ fd_session_files db' = fd_session_files db
  /\ fd_runs db' = fd_runs db /\ fd_reports db' = fd_reports db /\ fd_messages db' = fd_messages db.
Proof. unfold same_rows. destruct db, db'. cbn. by intros [= -> -> -> -> -> -> ->]. Qed.
Lemma same_rows_plan sid db db' plan : same_rows db db' -> plan_for sid db plan -> plan_for sid db' plan.
Proof.
  destruct db, db'. unfold same_rows. cbn. by intros [= -> -> -> -> -> -> ->].
Qed.

End deletion.

(** * Examples *)

(** A session with a private file, which a data source names, and a report; a second session
    has a file of its own. *)
Definition file_at (id key : string) : File :=
  {| fl_ID := id; fl_WorkspaceID := "w"; fl_UploadedBy := "u"; fl_DisplayName := id; fl_Purpose := FilePurposeSource; fl_ContentType := "text/csv";
     fl_SizeBytes := 3; fl_StorageProvider := "local"; fl_Bucket := ""; fl_StorageKey := key; fl_Checksum := "0"; fl_Status := FileStatusUploaded;
     fl_Visibility := FileVisibilityPrivate; fl_CreatedAt := 0%Z; fl_UpdatedAt := 0%Z; fl_DeletedAt := None |}.
Definition source_of (id : string) : DataSource :=
  {| ds_ID := "d"; ds_WorkspaceID := "w"; ds_Name := "a"; ds_SourceType := "file_upload"; ds_Status := "active"; ds_FileID := Some id; ds_CreatedBy := "u";
     ds_CreatedAt := 0%Z; ds_UpdatedAt := 0%Z |}.
Definition two_sessions : FileDb :=
  {| fd_meta := Build_Db {["s"; "t"]} {["d" := source_of "f"]} ∅ ∅ ∅ ∅ ∅ ∅ ∅ ∅; fd_members := ∅;
     fd_files := {["f" := file_at "f" "k/f"; "g" := file_at "g" "k/g"]};
     fd_session_files := {[("s", "f") := 0%Z; ("t", "g") := 0%Z]};
     fd_runs := {["r" := {| rr_SessionID := "s"; rr_ParentRunID := None; rr_ReportFileID := None |}]};
     fd_reports := ∅; fd_messages := {["m" := {| mr_RunID := "r"; mr_SessionID := "s" |}]};
     fd_objects := {["/data/k/f" := "a,b"; "/data/k/g" := "c,d"]} |}.
Definition delete_s (dialect : Dialect) : F unit := deleteSessionResources "/data" dialect "s" (Ok tt).


(** On Postgres the file of a data source cannot be deleted, which is found out after its
    object is gone: the deletion fails, every time, and the session keeps a file without
    content.  On SQLite it succeeds and leaves the data source with the name of a file there
    is not. *)
Lemma deletion_loses_source_file :
  (exec (delete_s DialectPostgres) two_sessions).2 = Err ErrForeignKey
  /\ fd_files (exec (delete_s DialectPostgres) two_sessions).1 = fd_files two_sessions
  /\ fd_objects (exec (delete_s DialectPostgres) two_sessions).1 = {["/data/k/g" := "c,d"]}
  /\ (exec (delete_s DialectPostgres) (exec (delete_s DialectPostgres) two_sessions).1).2 = Err ErrForeignKey
  /\ db_sources (fd_meta (exec (delete_s DialectSQLite) two_sessions).1) !! "d" = Some (source_of "f")
  /\ fd_files (exec (delete_s DialectSQLite) two_sessions).1 !! "f" = None.
Proof. split_and!; vm_compute; reflexivity. Qed.

(** The keys of the plan are trimmed before they are deleted, so a key that is not exact names
    another object, which is deleted, while its own stays. *)
Definition padded_key : FileDb :=
  set_objects (set_files two_sessions {["f" := file_at "f" "k/g "; "g" := file_at "g" "k/g"]}) {["/data/k/g " := "a,b"; "/data/k/g" := "c,d"]}.
Lemma padded_key_deletes_another :
  (exec (delete_s DialectSQLite) padded_key).2 = Ok tt
  /\ fd_objects (exec (delete_s DialectSQLite) padded_key).1 = {["/data/k/g " := "a,b"]}
  /\ fd_files (exec (delete_s DialectSQLite) padded_key).1 !! "g" = Some (file_at "g" "k/g").
Proof. split_and!; vm_compute; reflexivity. Qed.
