(* ===== verification/Connectors.v ===== *)
(** The connectors of the upstream databases ([service/postgres_connector.go],
    [postgres_service.go], [mysql_connector.go], [mysql_service.go]): the configuration of a
    source and its encrypted credential, the catalog of the objects a user allowed, the test
    of a connection, the facts of an object, a query; and the handlers that create, change,
    test and list a source ([handler/data_source.go]).

    Both engines run the same code but for the name of the security mode, its values and the
    statements; what they share is written once, over the engine.  AES-GCM, the hash of the
    secret, an open database and the text of its errors are arguments. *)
From S2P Require Import Prelude GoStrings Json JsonRoundtrip SqlGuard LiveQuery StateTools ReportSnapshot Calls Sources.
From Stdlib Require Import Ascii.
Open Scope string_scope.
Open Scope list_scope.
Open Scope go_scope.

Inductive SqlEngine := Postgres | MySQL.
#[global] Instance SqlEngine_eq_dec : EqDecision SqlEngine.
Proof. solve_decision. Defined.
Definition SourceTypePostgresConnection : string := "postgres_connection".
Definition SourceTypeMySQLConnection : string := "mysql_connection".
Definition source_type (e : SqlEngine) : string := match e with Postgres => SourceTypePostgresConnection | MySQL => SourceTypeMySQLConnection end.
Definition EngineDialect (e : SqlEngine) : string := match e with Postgres => "postgres" | MySQL => "mysql" end.
Definition mode_field (e : SqlEngine) : string := match e with Postgres => "ssl_mode" | MySQL => "tls_mode" end.
Definition mode_values (e : SqlEngine) : list (string * string) :=
  match e with
  | Postgres => [("disable", "不使用加密"); ("allow", "允许加密"); ("prefer", "优先加密"); ("require", "必须加密");
                 ("verify-ca", "验证证书颁发机构"); ("verify-full", "完整验证证书与主机名")]
  | MySQL => [("disabled", "不使用加密"); ("preferred", "优先加密"); ("verify_identity", "验证证书与主机身份"); ("skip_verify", "加密但不验证证书")]
  end.

(** * Configuration *)

Record AllowlistEntry := { al_Schema : string; al_Name : string; al_Kind : string }.
#[global] Instance AllowlistEntry_eq_dec : EqDecision AllowlistEntry.
Proof. solve_decision. Defined.
(** [PostgresSourceConfig] and [MySQLSourceConfig]. *)
Record DbConfig := {
  dc_Host : string; dc_Port : Z; dc_DatabaseName : string; dc_Mode : string; dc_Username : string; dc_Allowlist : list AllowlistEntry
}.
Definition encode_allowed (a : AllowlistEntry) : jval := JObj [("schema", JStr (al_Schema a)); ("name", JStr (al_Name a)); ("kind", JStr (al_Kind a))].
Definition encode_config (e : SqlEngine) (c : DbConfig) : jval :=
  JObj [("host", JStr (dc_Host c)); ("port", JNum (itoa (dc_Port c))); ("database_name", JStr (dc_DatabaseName c));
        (mode_field e, JStr (dc_Mode c)); ("username", JStr (dc_Username c)); ("allowlist", JArr (map encode_allowed (dc_Allowlist c)))].
Definition allowed_fields : list (string * (jval -> bool)) := [("schema", is_jstr); ("name", is_jstr); ("kind", is_jstr)].
Definition decode_allowed (v : jval) : option AllowlistEntry :=
  let! kvs := as_object v in
  let! m := bind_fields allowed_fields kvs ∅ in
  Some {| al_Schema := string_field m "schema"; al_Name := string_field m "name"; al_Kind := string_field m "kind" |}.
Definition decode_allowlist (v : jval) : option (list AllowlistEntry) := match v with JArr vs => mapM decode_allowed vs | _ => None end.
Definition config_fields (e : SqlEngine) : list (string * (jval -> bool)) :=
  [("host", is_jstr); ("port", is_jint); ("database_name", is_jstr); (mode_field e, is_jstr); ("username", is_jstr);
   ("allowlist", fun v => bool_decide (is_Some (decode_allowlist v)))].
Definition decode_config (e : SqlEngine) (raw : string) : option DbConfig :=
  let! m := decode_struct (config_fields e) raw in
  Some {| dc_Host := string_field m "host"; dc_Port := int_field m "port"; dc_DatabaseName := string_field m "database_name";
          dc_Mode := string_field m (mode_field e); dc_Username := string_field m "username";
          dc_Allowlist := default [] (let! v := m !! "allowlist" in decode_allowlist v) |}.

Definition check_texts (fields : list (string * string)) : res SErr unit := each (fun fv => validateExactConfigText fv.1 fv.2) fields.
Definition check_port (port : Z) : res SErr unit :=
  guard negb ((port <=? 0) || (65535 <? port))%Z else SText "port must be between 1 and 65535" ;; Ok tt.
Definition check_mode (e : SqlEngine) (mode : string) : res SErr unit :=
  guard existsb (String.eqb mode) (map fst (mode_values e)) else SText (text ["unsupported "; mode_field e; ": "; mode]) ;; Ok tt.
Definition validatePostgresConfig (c : DbConfig) : res SErr unit :=
  let? _ := check_texts [("host", dc_Host c); ("database_name", dc_DatabaseName c); ("username", dc_Username c); ("ssl_mode", dc_Mode c)] in
  let? _ := check_port (dc_Port c) in check_mode Postgres (dc_Mode c).
Definition validateMySQLConfig (c : DbConfig) : res SErr unit :=
  let? _ := check_texts [("host", dc_Host c); ("database_name", dc_DatabaseName c); ("tls_mode", dc_Mode c); ("username", dc_Username c)] in
  let? _ := check_port (dc_Port c) in check_mode MySQL (dc_Mode c).
Definition validateConfig (e : SqlEngine) : DbConfig -> res SErr unit := match e with Postgres => validatePostgresConfig | MySQL => validateMySQLConfig end.

Fixpoint check_allowlist (seen entries : list AllowlistEntry) : res SErr unit :=
  match entries with
  | [] => Ok tt
  | a :: entries =>
      let? _ := validateExactConfigText "allowlist schema" (al_Schema a) in
      let? _ := validateExactConfigText "allowlist name" (al_Name a) in
      guard (al_Kind a =? "table") || (al_Kind a =? "view") else SText "allowlist kind must be table or view" ;;
      guard negb (bool_decide (a ∈ seen))
      else SText (text ["duplicate allowlist entry: "; al_Schema a; "."; al_Name a; " ("; al_Kind a; ")"]) ;;
      check_allowlist (a :: seen) entries
  end.
Definition ValidateAllowlist (entries : list AllowlistEntry) : res SErr (list AllowlistEntry) :=
  match entries with
  | [] => Err (SText "allowlist must include at least one table or view")
  | _ => let? _ := check_allowlist [] entries in Ok entries
  end.
Definition isInAllowlist (entries : list AllowlistEntry) (schema object : string) : bool :=
  existsb (fun a => (al_Schema a =? schema) && (al_Name a =? object)) entries.

(** A text read and validated; the text of the decoder's error is left out. *)
Definition read_config (e : SqlEngine) (prefix : string) (raw : string) : res SErr DbConfig :=
  match decode_config e raw with
  | None => Err (SWrap prefix (SText "invalid JSON"))
  | Some c =>
      let? _ := validateConfig e c in
      let? _ := ValidateAllowlist (dc_Allowlist c) in
      Ok c
  end.
Definition ParseSourceConfig (e : SqlEngine) (c : SourceConfig) : res SErr DbConfig :=
  read_config e (text ["failed to parse "; EngineDialect e; " source config"]) (sf_ConfigJSON c).
Definition ParsePostgresSourceConfig := ParseSourceConfig Postgres.
Definition ParseMySQLSourceConfig := ParseSourceConfig MySQL.
Definition normalizeConfigJSON (e : SqlEngine) (raw : option string) (existing : option SourceConfig) : res SErr DbConfig :=
  match raw with
  | Some raw => read_config e (text ["invalid "; EngineDialect e; " config"]) raw
  | None => match existing with
            | None => Err (SText (text [EngineDialect e; " config is required"]))
            | Some c => ParseSourceConfig e c
            end
  end.
Definition normalizePostgresConfigJSON := normalizeConfigJSON Postgres.
Definition normalizeMySQLConfigJSON := normalizeConfigJSON MySQL.

(** * Credentials *)

(** SHA-256 and AES-256-GCM: [seal key nonce plaintext] and its inverse. *)
Class Cipher := { sha256 : string -> string; seal : string -> string -> string -> string; unseal : string -> string -> string -> option string }.
(** What the code relies on: a sealed text opens under its key and nonce, and only under its
    key. *)
Class CipherLaws `{Cipher} := {
  unseal_seal : forall k n p, unseal k n (seal k n p) = Some p;
  unseal_other : forall k k' n p, String.length (k) = String.length k' -> k <> k' -> unseal k' n (seal k n p) = None;
  sha256_length : forall s, String.length (sha256 s) = 32
}.
Definition nonceSize : nat := 12.

Section credentials.
Context `{Cipher}.

Definition credentialEncryptionKey (secret : string) : string := sha256 (text ["oda:datasource-credential-encryption:v1:"; secret]).
(** A credential is its password.  [nonce] is read from the random source. *)
Definition encode_credential (password : string) : string := Marshal (JObj [("password", JStr password)]).
Definition decode_credential (raw : string) : option string :=
  let! m := decode_struct [("password", is_jstr)] raw in Some (string_field m "password").
Definition EncryptCredential (password secret nonce : string) : string :=
  (nonce ++ seal (credentialEncryptionKey secret) nonce (encode_credential password))%string.
Definition DecryptCredential (ciphertext secret : string) : res SErr string :=
  guard negb (String.length ciphertext <? nonceSize)%nat else SText "ciphertext too short" ;;
  match unseal (credentialEncryptionKey secret) (String.substring 0 nonceSize ciphertext)
               (String.substring nonceSize (String.length ciphertext - nonceSize) ciphertext) with
  | None => Err (SText "decryption failed: cipher: message authentication failed")
  | Some plaintext =>
      match decode_credential plaintext with
      | Some password => Ok password
      | None => Err (SWrap "failed to parse credential payload" (SText "invalid JSON"))
      end
  end.

Record SourceConfigRequest := {
  qc_SourceID : string; qc_RawConfig : option string; qc_RawCredential : option string; qc_Existing : option SourceConfig;
  qc_RequireCredential : bool; qc_AuthSecret : string
}.
Definition new_credential (e : SqlEngine) (q : SourceConfigRequest) (nonce : string) : res SErr string :=
  match qc_RawCredential q with
  | None => Ok (match qc_Existing q with Some c => sf_CredentialCiphertext c | None => "" end)
  | Some raw =>
      match decode_credential raw with
      | None => Err (SWrap (text ["invalid "; EngineDialect e; " credential"]) (SText "invalid JSON"))
      | Some password =>
          guard negb (blank password) else SText (text [EngineDialect e; " credential password is required"]) ;;
          Ok (EncryptCredential password (qc_AuthSecret q) nonce)
      end
  end.
Definition NormalizeConfig (e : SqlEngine) (q : SourceConfigRequest) (nonce : string) (now : time) : res SErr SourceConfig :=
  guard negb (blank (qc_AuthSecret q) || (String.length (qc_AuthSecret q) <? 32)%nat)
  else SText "AUTH_SECRET too short, cannot store source credentials" ;;
  let? c := normalizeConfigJSON e (qc_RawConfig q) (qc_Existing q) in
  let? ciphertext := new_credential e q nonce in
  guard negb (qc_RequireCredential q && (ciphertext =? "")) else SText (text [EngineDialect e; " credential is required"]) ;;
  Ok {| sf_SourceID := qc_SourceID q; sf_ConnectorType := source_type e; sf_ConfigJSON := Marshal (encode_config e c);
        sf_CredentialCiphertext := ciphertext; sf_LastTestedAt := None; sf_LastTestStatus := ""; sf_LastErrorMessage := None;
        sf_CreatedAt := now; sf_UpdatedAt := now |}.
Definition Postgres_NormalizeConfig := NormalizeConfig Postgres.
Definition MySQL_NormalizeConfig := NormalizeConfig MySQL.
End credentials.

(** * An upstream database *)

(** The rows of a statement that reads names and types, the error after the last and that
    of closing them. *)
Record ColumnRows := { cr_Rows : list (res SErr (string * string)); cr_Err : option SErr; cr_Close : option SErr }.
(** An open database: its connection, and the results of the statements that read the
    catalog: the objects of a kind with a name, the columns of an object, and the estimate
    of its rows, which may be absent or NULL. *)
Record Upstream (V : Type) := {
  up_Conn : option (Conn V); up_Count : string -> string -> string -> res SErr Z; up_Columns : string -> string -> res SErr ColumnRows;
  up_Estimate : string -> string -> res SErr (option (option Z)); up_Close : option SErr
}.
Arguments up_Conn {V} _.
Arguments up_Count {V} _.
Arguments up_Columns {V} _.
Arguments up_Estimate {V} _.
Arguments up_Close {V} _.

Record SourceTestResult := { tr_Success : bool; tr_Error : string; tr_Objects : list (AllowlistEntry * bool) }.
Record SourceCatalogObject := { co_Schema : string; co_Name : string; co_Kind : string; co_SourceObjectKey : string }.
Record LiveQueryRows (V : Type) := { lr_Result : QueryResult V; lr_Dialect : string }.
Arguments lr_Result {V} _.
Arguments lr_Dialect {V} _.

Definition SourceConfig_GetBySourceID (id : string) : M SourceConfig := read (fun db => found (db_configs db !! id)).
Definition findSourceConfig := SourceConfig_GetBySourceID.
Definition with_test_result (testedAt : time) (status : string) (message : option string) (now : time) (c : SourceConfig) : SourceConfig :=
  {| sf_SourceID := sf_SourceID c; sf_ConnectorType := sf_ConnectorType c; sf_ConfigJSON := sf_ConfigJSON c;
     sf_CredentialCiphertext := sf_CredentialCiphertext c; sf_LastTestedAt := Some testedAt; sf_LastTestStatus := status;
     sf_LastErrorMessage := message; sf_CreatedAt := sf_CreatedAt c; sf_UpdatedAt := now |}.
Definition SourceConfig_UpdateTestResult (id : string) (testedAt : time) (status : string) (message : option string) (now : time) : M unit :=
  write (fun db => Ok (set_configs db (alter (with_test_result testedAt status message now) id (db_configs db)))).
(** The row keeps its source and when it was created. *)
Definition config_row (c old : SourceConfig) : SourceConfig :=
  {| sf_SourceID := sf_SourceID old; sf_ConnectorType := sf_ConnectorType c; sf_ConfigJSON := sf_ConfigJSON c;
     sf_CredentialCiphertext := sf_CredentialCiphertext c; sf_LastTestedAt := sf_LastTestedAt c; sf_LastTestStatus := sf_LastTestStatus c;
     sf_LastErrorMessage := sf_LastErrorMessage c; sf_CreatedAt := sf_CreatedAt old; sf_UpdatedAt := sf_UpdatedAt c |}.
Definition SourceConfig_Update (c : SourceConfig) : M unit :=
  write (fun db => Ok (set_configs db (alter (config_row c) (sf_SourceID c) (db_configs db)))).
Definition source_row (d : DataSource) (now : time) (old : DataSource) : DataSource :=
  {| ds_ID := ds_ID old; ds_WorkspaceID := ds_WorkspaceID old; ds_Name := ds_Name d; ds_SourceType := ds_SourceType old; ds_Status := ds_Status d;
     ds_FileID := ds_FileID old; ds_CreatedBy := ds_CreatedBy old; ds_CreatedAt := ds_CreatedAt old; ds_UpdatedAt := now |}.
Definition DataSource_Update (d : DataSource) (now : time) : M unit :=
  write (fun db => Ok (set_sources db (alter (source_row d now) (ds_ID d) (db_sources db)))).

Section connectors.
Context `{Cipher} {V : Type} (sha256hex : string -> string) (time_json : time -> string).
(** [dial] opens and pings a database; [exec_text] is the text of a query's error, which
    quotes the driver's. *)
Context (dial : SqlEngine -> DbConfig -> string -> res SErr (Upstream V)) (exec_text : QueryExecError -> string).

Definition OpenConnection (e : SqlEngine) (c : SourceConfig) (secret : string) : res SErr (Upstream V) :=
  let? cfg := ParseSourceConfig e c in
  match DecryptCredential (sf_CredentialCiphertext c) secret with
  | Err err => Err (SWrap "credential decryption failed" err)
  | Ok password =>
      guard negb (blank password) else SText (text [EngineDialect e; " credential password is empty"]) ;;
      dial e cfg password
  end.
Definition OpenPostgresConnection := OpenConnection Postgres.
Definition OpenMySQLConnection := OpenConnection MySQL.

(** The kinds as the catalogs name them. *)
Definition catalog_kind (e : SqlEngine) (kind : string) : option string :=
  match e with
  | Postgres => if kind =? "table" then Some "tables" else if kind =? "view" then Some "views" else None
  | MySQL => if kind =? "table" then Some "BASE TABLE" else if kind =? "view" then Some "VIEW" else None
  end.
Definition checkObjectExists (e : SqlEngine) (up : Upstream V) (a : AllowlistEntry) : res SErr bool :=
  match catalog_kind e (al_Kind a) with
  | None => Err (SText (text ["unsupported object kind "; Tools.quoted (al_Kind a)]))
  | Some kind => let? n := up_Count up kind (al_Schema a) (al_Name a) in Ok (0 <? n)%Z
  end.
Definition checkMySQLObjectExists := checkObjectExists MySQL.
Definition failed_test (message : string) (objects : list (AllowlistEntry * bool)) : SourceTestResult :=
  {| tr_Success := false; tr_Error := message; tr_Objects := objects |}.
Fixpoint test_objects (e : SqlEngine) (up : Upstream V) (validated : list (AllowlistEntry * bool)) (entries : list AllowlistEntry) : SourceTestResult :=
  match entries with
  | [] => {| tr_Success := true; tr_Error := ""; tr_Objects := validated |}
  | a :: entries =>
      match checkObjectExists e up a with
      | Err err => failed_test (text ["failed to inspect "; al_Schema a; "."; al_Name a; ": "; Error err]) validated
      | Ok present => test_objects e up (validated ++ [(a, present)]) entries
      end
  end.
Definition test_config (e : SqlEngine) (c : SourceConfig) (secret : string) : SourceTestResult :=
  match OpenConnection e c secret with
  | Err err => failed_test (Error err) []
  | Ok up =>
      match up_Close up with
      | Some err => failed_test (text ["failed to close tested connection: "; Error err]) []
      | None =>
          match ParseSourceConfig e c with
          | Err err => failed_test (Error err) []
          | Ok cfg => test_objects e up [] (dc_Allowlist cfg)
          end
      end
  end.
Definition TestConnection (e : SqlEngine) (sourceID secret : string) : M SourceTestResult :=
  do c := try (findSourceConfig sourceID) in
  ret (match c with Err err => failed_test (Error err) [] | Ok c => test_config e c secret end).
Definition TestPostgresConnection := TestConnection Postgres.
Definition TestMySQLConnection := TestConnection MySQL.

Fixpoint scan_columns (rows : list (res SErr (string * string))) : res SErr (list (string * string)) :=
  match rows with
  | [] => Ok []
  | Err e :: _ => Err (SWrap "failed to scan upstream column metadata" e)
  | Ok c :: rows => let? columns := scan_columns rows in Ok (c :: columns)
  end.
Definition read_columns (rows : ColumnRows) : res SErr (list (string * string)) :=
  let? columns := scan_columns (cr_Rows rows) in
  match cr_Err rows, cr_Close rows with
  | Some e, _ => Err (SWrap "failed while reading upstream column metadata" e)
  | None, Some e => Err (SWrap "failed to close upstream column metadata rows" e)
  | None, None => Ok columns
  end.
(** The estimate of PostgreSQL is never negative or NULL; MySQL's is 0 then. *)
Definition estimate_value (e : SqlEngine) (n : option Z) : Z :=
  match e with Postgres => default 0%Z n | MySQL => Z.max 0 (default 0%Z n) end.
Definition fetch_metadata (e : SqlEngine) (c : SourceConfig) (secret schema name : string) : res SErr LiveMetadata :=
  let? up := OpenConnection e c secret in
  let? rows := match up_Columns up schema name with Ok rows => Ok rows | Err err => Err (SWrap "failed to read upstream column metadata" err) end in
  let? columns := read_columns rows in
  guard negb (length columns =? 0)%nat
  else SText (text ["upstream object "; schema; "."; name; " does not exist or exposes no columns"]) ;;
  match up_Estimate up schema name with
  | Err err => Err (SWrap (text ["failed to estimate row count for "; schema; "."; name]) err)
  | Ok None => Err (SText (text ["upstream object "; schema; "."; name; " does not exist"]))
  | Ok (Some n) => Ok {| lm_Columns := columns; lm_RowCountEstimate := estimate_value e n |}
  end.
Definition FetchPostgresLiveObjectMetadata := fetch_metadata Postgres.
Definition FetchMySQLLiveObjectMetadata := fetch_metadata MySQL.

(** ** The connector of an engine *)

Definition QualifyObject (e : SqlEngine) : string -> string -> string := match e with Postgres => Postgres_QualifyObject | MySQL => MySQL_QualifyObject end.
Definition encode_time (t : option time) : jval := match t with Some t => JStr (time_json t) | None => JNull end.
Definition encode_text (s : option string) : jval := match s with Some s => JStr s | None => JNull end.
Definition PublicConfig (e : SqlEngine) (sourceID : string) : M (list (string * jval)) :=
  do c := findSourceConfig sourceID in
  do cfg := lift_res (ParseSourceConfig e c) in
  ret [("host", JStr (dc_Host cfg)); ("port", JNum (itoa (dc_Port cfg))); ("database_name", JStr (dc_DatabaseName cfg));
       (mode_field e, JStr (dc_Mode cfg)); ("username", JStr (dc_Username cfg)); ("allowlist", JArr (map encode_allowed (dc_Allowlist cfg)));
       ("last_tested_at", encode_time (sf_LastTestedAt c)); ("last_test_status", JStr (sf_LastTestStatus c));
       ("last_error_message", encode_text (sf_LastErrorMessage c))].
Definition MySQL_PublicConfig := PublicConfig MySQL.
Definition Catalog (e : SqlEngine) (sourceID : string) : M (list SourceCatalogObject) :=
  do c := findSourceConfig sourceID in
  do cfg := lift_res (ParseSourceConfig e c) in
  ret (map (fun a => {| co_Schema := al_Schema a; co_Name := al_Name a; co_Kind := al_Kind a;
                        co_SourceObjectKey := SourceObjectKey sha256hex sourceID (source_type e) (al_Schema a) (al_Name a) |}) (dc_Allowlist cfg)).
Definition MySQL_Catalog := Catalog MySQL.
Definition FetchLiveObjectMetadata (e : SqlEngine) (sourceID secret schema name : string) : M LiveMetadata :=
  do c := findSourceConfig sourceID in
  do cfg := lift_res (ParseSourceConfig e c) in
  do _ := lift_res (validateExactConfigText "schema_name" schema) in
  do _ := lift_res (validateExactConfigText "object_name" name) in
  require isInAllowlist (dc_Allowlist cfg) schema name
  else SText (text ["object "; schema; "."; name; " is not in the data source allowlist"]) ;;
  lift_res (fetch_metadata e c secret schema name).
Definition MySQL_FetchLiveObjectMetadata := FetchLiveObjectMetadata MySQL.
(** The statements on the open database, whose bounds are checked before it is opened. *)
Definition run_query (e : SqlEngine) (c : SourceConfig) (secret sql : string) (timeoutSeconds maxRows : Z) : res SErr (LiveQueryRows V) :=
  guard (1 <=? timeoutSeconds)%Z else SText "timeout_seconds must be positive" ;;
  guard (1 <=? maxRows)%Z else SText "max_rows must be positive" ;;
  let? up := OpenConnection e c secret in
  let r := match e with
           | Postgres => ExecutePostgresLiveQuery (up_Conn up) sql timeoutSeconds maxRows
           | MySQL => ExecuteMySQLLiveQuery (up_Conn up) sql timeoutSeconds maxRows
           end in
  match r.2 with
  | Ok r => Ok {| lr_Result := r; lr_Dialect := EngineDialect e |}
  | Err err => Err (SText (exec_text err))
  end.
Definition ExecuteLiveQuery (e : SqlEngine) (sourceID secret sql : string) (timeoutSeconds maxRows : Z) : M (LiveQueryRows V) :=
  do c := findSourceConfig sourceID in lift_res (run_query e c secret sql timeoutSeconds maxRows).
Definition MySQL_ExecuteLiveQuery := ExecuteLiveQuery MySQL.

(** ** The registry of the connectors, in the order of their labels in a category *)

Record SourceConnectorSpec := {
  cs_SourceType : string; cs_Label : string; cs_Category : string; cs_Configurable : bool; cs_SecurityModeField : string;
  cs_SecurityModeOptions : list (string * string); cs_SupportsAllowlist : bool; cs_SupportsCatalog : bool; cs_SupportsImport : bool
}.
Inductive Connector := FileConnector | SqlConnector (e : SqlEngine).
Definition connector_type (c : Connector) : string := match c with FileConnector => SourceTypeFileUpload | SqlConnector e => source_type e end.
Definition Spec (c : Connector) : SourceConnectorSpec :=
  match c with
  | SqlConnector e =>
      {| cs_SourceType := source_type e; cs_Label := match e with Postgres => "PostgreSQL" | MySQL => "MySQL" end; cs_Category := "sql";
         cs_Configurable := true; cs_SecurityModeField := mode_field e; cs_SecurityModeOptions := mode_values e;
         cs_SupportsAllowlist := true; cs_SupportsCatalog := true; cs_SupportsImport := false |}
  | FileConnector =>
      {| cs_SourceType := SourceTypeFileUpload; cs_Label := "上传文件"; cs_Category := "file"; cs_Configurable := false; cs_SecurityModeField := "";
         cs_SecurityModeOptions := []; cs_SupportsAllowlist := false; cs_SupportsCatalog := true; cs_SupportsImport := true |}
  end.
Definition sourceConnectors : list Connector := [SqlConnector Postgres; SqlConnector MySQL; FileConnector].
Definition Get_connector (sourceType : string) : res SErr Connector :=
  match List.find (fun c => connector_type c =? sourceType) sourceConnectors with
  | Some c => Ok c
  | None => Err (SText (text ["unsupported data source type: "; sourceType]))
  end.
Definition spec_le (a b : SourceConnectorSpec) : Prop :=
  (if cs_Category a =? cs_Category b then String.leb (cs_Label a) (cs_Label b) else String.leb (cs_Category a) (cs_Category b)) = true.
#[global] Instance spec_le_dec : RelDecision spec_le.
Proof. intros a b. unfold spec_le. apply _. Defined.
Definition Specs : list SourceConnectorSpec := merge_sort spec_le (map Spec sourceConnectors).
(** The connector live queries and bindings use. *)
Definition liveConnectorResolver (sourceType : string) : res SErr SqlEngine :=
  let? c := Get_connector sourceType in
  match c with
  | SqlConnector e => Ok e
  | FileConnector => Err (SText (text ["source type "; sourceType; " does not support live read-only queries"]))
  end.
(** The secret [handler/init.go] gives to the service for live queries. *)
Definition credentialSecret (AuthSecret DatasourceCredentialSecret : string) : string :=
  if DatasourceCredentialSecret =? "" then AuthSecret else DatasourceCredentialSecret.

(** * The handlers *)

(** A response: an error with its text, or a document. *)
Inductive Reply := Refused (status : Z) (message : string) | Replied (status : Z) (document : jval) | NoContent.
Abbreviation Handler := (Calls.M Db Reply).
(** [get_file] is the name of a stored file. *)
Context (get_file : string -> res SErr string) (AuthSecret : string).
Context (user : option string) (workspaceID : string).
Definition signed_in (k : string -> Handler) : Handler :=
  match user with
  | Some userID => if userID =? "" then ret (Refused 401 "未登录") else k userID
  | None => ret (Refused 401 "未登录")
  end.
(** A lookup whose error is the response. *)
Definition lookup_or {A} (m : M A) (notFound : string) (k : A -> Handler) : Handler :=
  do r := try m in
  match r with
  | Ok a => k a
  | Err SNotFound => ret (Refused 404 notFound)
  | Err _ => ret (Refused 500 "服务器内部错误")
  end.
Definition or_refuse {A} (m : M A) (status : Z) (message : string) (k : A -> Handler) : Handler :=
  do r := try m in match r with Ok a => k a | Err _ => ret (Refused status message) end.
(** A source of the user's workspace, with its connector. *)
Definition own_source (sourceID : string) (k : DataSource -> Connector -> Handler) : Handler :=
  lookup_or (DataSource_GetByID sourceID) "数据源不存在" (fun d =>
    if negb (ds_WorkspaceID d =? workspaceID) then ret (Refused 404 "数据源不存在")
    else or_refuse (lift_res (Get_connector (ds_SourceType d))) 400 "不支持的数据源类型" (k d)).

Definition public_config (c : Connector) (sourceID : string) : M (list (string * jval)) :=
  match c with FileConnector => ret [] | SqlConnector e => PublicConfig e sourceID end.
Definition serializeWorkspaceDataSource (d : DataSource) : M jval :=
  do c := wrap (text ["source "; ds_ID d; " connector"]) (lift_res (Get_connector (ds_SourceType d))) in
  do config := wrap (text ["source "; ds_ID d; " public config"]) (public_config c (ds_ID d)) in
  ret (JObj [("id", JStr (ds_ID d)); ("name", JStr (ds_Name d)); ("source_type", JStr (ds_SourceType d)); ("status", JStr (ds_Status d));
             ("created_at", JStr (time_json (ds_CreatedAt d))); ("updated_at", JStr (time_json (ds_UpdatedAt d))); ("config", JObj config)]).
Fixpoint serialize_all (l : list DataSource) : M (list jval) :=
  match l with
  | [] => ret []
  | d :: l => do item := serializeWorkspaceDataSource d in do items := serialize_all l in ret (item :: items)
  end.
Definition ListDataSourcesHandler : Handler :=
  signed_in (fun _ =>
    or_refuse (DataSource_ListByWorkspace workspaceID) 500 "获取数据源列表失败" (fun sources =>
    or_refuse (serialize_all sources) 500 "序列化数据源失败" (fun items =>
    ret (Replied 200 (JObj [("data_sources", match items with [] => JNull | _ => JArr items end)]))))).

Definition encode_spec (s : SourceConnectorSpec) : jval :=
  JObj ([("source_type", JStr (cs_SourceType s)); ("label", JStr (cs_Label s)); ("category", JStr (cs_Category s));
         ("configurable", JBool (cs_Configurable s))]
        ++ opt_str "security_mode_field" (cs_SecurityModeField s)
        ++ (match cs_SecurityModeOptions s with
            | [] => []
            | l => [("security_mode_options", JArr (map (fun o => JObj [("value", JStr o.1); ("label", JStr o.2)]) l))]
            end)
        ++ [("supports_allowlist", JBool (cs_SupportsAllowlist s)); ("supports_catalog", JBool (cs_SupportsCatalog s));
            ("supports_import", JBool (cs_SupportsImport s))]).
Definition ListDataSourceTypesHandler : Handler :=
  signed_in (fun _ => ret (Replied 200 (JObj [("source_types", JArr (map encode_spec Specs))]))).

Record CreateDataSourceRequest := { cq_Name : string; cq_SourceType : string; cq_Config : option string; cq_Credential : option string }.
Definition create_config (e : Connector) (q : CreateDataSourceRequest) (nonce : string) (now : time) : res SErr SourceConfig :=
  match e with
  | FileConnector => Err (SText "file_upload sources do not accept connector configuration")
  | SqlConnector e =>
      NormalizeConfig e {| qc_SourceID := ""; qc_RawConfig := cq_Config q; qc_RawCredential := cq_Credential q; qc_Existing := None;
                           qc_RequireCredential := true; qc_AuthSecret := AuthSecret |} nonce now
  end.
(** The request is [None] when the body is not one. *)
Definition CreateDataSourceHandler (req : option CreateDataSourceRequest) (nonce hex12 : string) (now : time) : Handler :=
  signed_in (fun userID =>
    match req with
    | None => ret (Refused 400 "请求体无效")
    | Some q =>
        if blank (cq_Name q) then ret (Refused 400 "名称不能为空")
        else if not_exact (cq_Name q) || not_exact (cq_SourceType q) then ret (Refused 400 "name 和 source_type 必须保持原值")
        else if cq_SourceType q =? SourceTypeFileUpload then ret (Refused 400 "file_upload 数据源只能通过上传文件创建")
        else
          or_refuse (lift_res (Get_connector (cq_SourceType q))) 400 "不支持的数据源类型" (fun c =>
          or_refuse (lift_res (create_config c q nonce now)) 400 "数据源配置无效" (fun config =>
          or_refuse (CreateConfiguredSource workspaceID (cq_Name q) userID (cq_SourceType q) (Some config) hex12 now) 500 "创建数据源失败" (fun d =>
          ret (Replied 201 (JObj [("id", JStr (ds_ID d)); ("name", JStr (ds_Name d)); ("source_type", JStr (ds_SourceType d));
                                  ("status", JStr (ds_Status d))])))))
    end).

Record UpdateDataSourceRequest := { uq_Name : option string; uq_Config : option string; uq_Credential : option string }.
Definition renamed (name : option string) (d : DataSource) : DataSource :=
  {| ds_ID := ds_ID d; ds_WorkspaceID := ds_WorkspaceID d; ds_Name := default (ds_Name d) name; ds_SourceType := ds_SourceType d;
     ds_Status := ds_Status d; ds_FileID := ds_FileID d; ds_CreatedBy := ds_CreatedBy d; ds_CreatedAt := ds_CreatedAt d;
     ds_UpdatedAt := ds_UpdatedAt d |}.
Definition is_null (raw : option string) : bool := bool_decide (raw = Some "null").
Definition updated_config (c : Connector) (sourceID : string) (q : UpdateDataSourceRequest) (existing : SourceConfig) (nonce : string) (now : time) :
    res SErr SourceConfig :=
  match c with
  | FileConnector => Err (SText "file_upload sources do not accept connector configuration")
  | SqlConnector e =>
      let? n := NormalizeConfig e {| qc_SourceID := sourceID; qc_RawConfig := uq_Config q; qc_RawCredential := uq_Credential q;
                                     qc_Existing := Some existing; qc_RequireCredential := false; qc_AuthSecret := AuthSecret |} nonce now in
      Ok {| sf_SourceID := sourceID; sf_ConnectorType := source_type e; sf_ConfigJSON := sf_ConfigJSON n;
            sf_CredentialCiphertext := sf_CredentialCiphertext n; sf_LastTestedAt := None; sf_LastTestStatus := ""; sf_LastErrorMessage := None;
            sf_CreatedAt := sf_CreatedAt existing; sf_UpdatedAt := now |}
  end.
Definition update_config (c : Connector) (sourceID : string) (q : UpdateDataSourceRequest) (nonce : string) (now : time) (k : Handler) : Handler :=
  match uq_Config q, uq_Credential q with
  | None, None => k
  | _, _ =>
      or_refuse (SourceConfig_GetBySourceID sourceID) 404 "数据源配置不存在" (fun existing =>
      or_refuse (lift_res (updated_config c sourceID q existing nonce now)) 400 "数据源配置无效" (fun n =>
      or_refuse (SourceConfig_Update n) 500 "更新数据源配置失败" (fun _ => k)))
  end.
Definition UpdateDataSourceHandler (sourceID : string) (req : option UpdateDataSourceRequest) (nonce : string) (now : time) : Handler :=
  signed_in (fun _ => own_source sourceID (fun d c =>
    match req with
    | None => ret (Refused 400 "请求体无效")
    | Some q =>
        if bool_decide (is_Some (uq_Name q)) && blank (default "" (uq_Name q)) then ret (Refused 400 "名称不能为空")
        else if not_exact (default "" (uq_Name q)) then ret (Refused 400 "name 必须保持原值")
        else if is_null (uq_Config q) || is_null (uq_Credential q) then ret (Refused 400 "不更新 config 或 credential 时必须省略字段，不能传 null")
        else
          update_config c sourceID q nonce now
            (or_refuse (DataSource_Update (renamed (uq_Name q) d) now) 500 "更新数据源失败" (fun _ =>
             or_refuse (DataSource_GetByID sourceID) 500 "重新加载数据源失败" (fun updated =>
             or_refuse (serializeWorkspaceDataSource updated) 500 "序列化数据源失败" (fun item => ret (Replied 200 item)))))
    end)).

Definition file_of (d : DataSource) : res SErr string :=
  match ds_FileID d with
  | Some id => if blank id then Err (SText "file-backed source has no file_id") else get_file id
  | None => Err (SText "file-backed source has no file_id")
  end.
Definition file_test (sourceID : string) : M SourceTestResult :=
  do d := try (DataSource_GetByID sourceID) in
  ret (match d with
       | Err err => failed_test (Error err) []
       | Ok d => match file_of d with Err err => failed_test (Error err) [] | Ok _ => {| tr_Success := true; tr_Error := ""; tr_Objects := [] |} end
       end).
Definition encode_tested (o : AllowlistEntry * bool) : jval :=
  JObj [("schema", JStr (al_Schema o.1)); ("name", JStr (al_Name o.1)); ("kind", JStr (al_Kind o.1)); ("exists", JBool o.2)].
Definition encode_test (r : SourceTestResult) : jval :=
  JObj ([("success", JBool (tr_Success r))] ++ opt_str "error" (tr_Error r)
        ++ (match tr_Objects r with [] => [] | l => [("objects", JArr (map encode_tested l))] end)
        ++ [("ui_summary", JStr (if tr_Success r then "连接测试成功" else "连接测试失败"))]).
Definition record_test (c : Connector) (sourceID : string) (r : SourceTestResult) (now : time) : M unit :=
  match c with
  | FileConnector => ret tt
  | SqlConnector _ =>
      SourceConfig_UpdateTestResult sourceID now (if tr_Success r then "success" else "failed")
        (if tr_Success r || (tr_Error r =? "") then None else Some (tr_Error r)) now
  end.
Definition TestDataSourceHandler (sourceID : string) (now : time) : Handler :=
  signed_in (fun _ => own_source sourceID (fun _ c =>
    do r := match c with FileConnector => file_test sourceID | SqlConnector e => TestConnection e sourceID AuthSecret end in
    or_refuse (record_test c sourceID r now) 500 "保存连接测试结果失败" (fun _ => ret (Replied 200 (encode_test r))))).

Definition file_catalog (sourceID : string) : M (list SourceCatalogObject) :=
  do d := DataSource_GetByID sourceID in
  do name := lift_res (file_of d) in
  ret [{| co_Schema := ""; co_Name := name; co_Kind := SourceTypeFileUpload;
          co_SourceObjectKey := SourceObjectKey sha256hex sourceID SourceTypeFileUpload "" "" |}].
Definition encode_object (o : SourceCatalogObject) : jval :=
  JObj (opt_str "schema" (co_Schema o) ++ [("name", JStr (co_Name o)); ("kind", JStr (co_Kind o))]
        ++ opt_str "source_object_key" (co_SourceObjectKey o)).
Definition CatalogDataSourceHandler (sourceID : string) : Handler :=
  signed_in (fun _ => own_source sourceID (fun _ c =>
    or_refuse (match c with FileConnector => file_catalog sourceID | SqlConnector e => Catalog e sourceID end) 500 "获取目录失败" (fun objects =>
    ret (Replied 200 (JObj [("objects", JArr (map encode_object objects))]))))).
Definition DeleteDataSourceHandler (drop : string -> string -> M unit) (sourceID : string) : Handler :=
  signed_in (fun _ =>
    lookup_or (DataSource_GetByID sourceID) "数据源不存在" (fun d =>
      if negb (ds_WorkspaceID d =? workspaceID) then ret (Refused 404 "数据源不存在")
      else if ds_SourceType d =? SourceTypeFileUpload then ret (Refused 400 "上传文件创建的数据源必须通过会话数据源删除")
      else or_refuse (DeleteWorkspaceSource drop sourceID) 500 "删除数据源失败" (fun _ => ret NoContent))).
End connectors.
