(* ===== verification/ConnectorProps.v ===== *)
(** What the connectors guarantee: a stored configuration reads back as it was accepted and
    its credential opens under the secret that sealed it, and under no other; the facts of
    an object are read only when its source allows it; and a request that is refused, or that
    is about a source of another workspace, changes nothing. *)
From S2P Require Import Prelude GoStrings Json JsonRoundtrip SqlGuard LiveQuery StateTools ReportSnapshot Calls Sources Connectors.
From Stdlib Require Import Ascii.
Open Scope string_scope.
Open Scope list_scope.

(** * The stored configuration *)

(** Texts a JSON decoder yields: the others would not survive being written. *)
Definition valid_texts (l : list string) : Prop := Forall (fun s => ValidString s = true) l.
Definition entry_valid (a : AllowlistEntry) : Prop := valid_texts [al_Schema a; al_Name a; al_Kind a].
Definition config_valid (c : DbConfig) : Prop :=
  valid_texts [dc_Host c; dc_DatabaseName c; dc_Mode c; dc_Username c] /\ Forall entry_valid (dc_Allowlist c).

Lemma decode_encode_allowed a : decode_allowed (encode_allowed a) = Some a.
Proof. destruct a as [s n k]. vm_compute. reflexivity. Qed.
Lemma decode_encode_list l : decode_allowlist (JArr (map encode_allowed l)) = Some l.
Proof.
  unfold decode_allowlist. induction l as [|a l IH]; [done|]. rewrite map_cons. cbn [mapM].
  rewrite decode_encode_allowed. cbn [mbind option_bind]. by rewrite IH.
Qed.
Lemma carries_allowed a : entry_valid a -> carries 1 (encode_allowed a).
Proof.
  unfold entry_valid, valid_texts. rewrite !Forall_cons. intros (? & ? & ? & _).
  apply (carries_obj 0); [lia|done|carries_members].
Qed.
Lemma carries_config e c : config_valid c -> carries 3 (encode_config e c).
Proof.
  intros [Ht Hl]. unfold valid_texts in Ht. rewrite !Forall_cons in Ht. destruct Ht as (? & ? & ? & ? & _).
  assert (carries 2 (JArr (map encode_allowed (dc_Allowlist c)))) as Ha.
  { apply (carries_arr 1); [lia|]. rewrite Forall_fmap. eapply Forall_impl; [exact Hl|]. intros a Hv. by apply carries_allowed. }
  apply (carries_obj 2); [lia|by destruct e|].
  repeat (constructor; [split; [by destruct e|]; cbn [snd]; auto with go lia|]). constructor.
Qed.
Lemma decode_encode_config e c :
  config_valid c -> (1 <= dc_Port c <= 65535)%Z -> decode_config e (Marshal (encode_config e c)) = Some c.
Proof.
  intros Hv Hp. destruct (carries_config e c Hv) as (Hok & Hdup & Hdepth).
  unfold decode_config, decode_struct. rewrite Validate_Marshal; [|done..|unfold maxNestingDepth in *; lia].
  destruct c as [h p d mo u l]. cbn [dc_Port] in Hp. unfold encode_config.
  cbn [dc_Host dc_Port dc_DatabaseName dc_Mode dc_Username dc_Allowlist as_object].
  pose proof (decode_encode_list l) as Hl. revert Hl. generalize (JArr (map encode_allowed l)) as L. intros L Hl.
  assert (L <> JNull) as HL by (by intros ->). pose proof (parse_int_itoa p ltac:(lia)) as Hi.
  rewrite (bind_field _ "host" "host") by (by destruct e).
  rewrite (bind_field _ "port" "port");
    [|by destruct e|done|apply (accepts_field _ 1 "port" is_jint); [by destruct e|unfold is_jint; by rewrite Hi]].
  rewrite (bind_field _ "database_name" "database_name") by (by destruct e).
  rewrite (bind_field _ (mode_field e) (mode_field e)) by (by destruct e).
  rewrite (bind_field _ "username" "username") by (by destruct e).
  rewrite (bind_field _ "allowlist" "allowlist");
    [|by destruct e|done|eapply (accepts_field _ 5 "allowlist"); [by destruct e|cbv beta; by rewrite Hl]].
  cbn [bind_fields mbind option_bind]. unfold string_field, int_field.
  clear Hok Hdup Hdepth Hv HL. destruct e; cbn [mode_field]; by simplify_map_eq.
Qed.

(** * Validation *)

Lemma validate_port e c : validateConfig e c = Ok tt -> (1 <= dc_Port c <= 65535)%Z.
Proof.
  assert (forall (m : res SErr unit) k, (let? _ := m in k) = Ok tt -> k = Ok tt) as Hb by (by intros [?|?]).
  assert (check_port (dc_Port c) = Ok tt -> (1 <= dc_Port c <= 65535)%Z) as Hp.
  { unfold check_port. destruct (negb _) eqn:E; [|done]. intros _. reflect_bools. lia. }
  destruct e; cbn [validateConfig]; [unfold validatePostgresConfig|unfold validateMySQLConfig]; intros H%Hb; apply Hp;
    destruct (check_port (dc_Port c)) as [[]|?]; done.
Qed.
Lemma read_config_ok e prefix raw c :
  read_config e prefix raw = Ok c ->
  decode_config e raw = Some c /\ validateConfig e c = Ok tt /\ ValidateAllowlist (dc_Allowlist c) = Ok (dc_Allowlist c).
Proof.
  unfold read_config. destruct (decode_config e raw) as [c'|]; [|done].
  destruct (validateConfig e c') as [[]|?] eqn:Hv; [|done]. destruct (ValidateAllowlist (dc_Allowlist c')) as [l|?] eqn:Ha; [|done].
  intros [= ->]. split_and!; [done|done|]. revert Ha. unfold ValidateAllowlist.
  destruct (dc_Allowlist c) as [|a l']; [done|]. by destruct (check_allowlist _ _).
Qed.
Lemma normalize_json_ok e raw existing c :
  normalizeConfigJSON e raw existing = Ok c -> validateConfig e c = Ok tt /\ ValidateAllowlist (dc_Allowlist c) = Ok (dc_Allowlist c).
Proof.
  unfold normalizeConfigJSON, ParseSourceConfig. destruct raw as [raw|]; [|destruct existing as [s|]; [|done]].
  all: by intros (_ & ? & ?)%read_config_ok.
Qed.
(** What was accepted reads back. *)
Lemma parse_stored e c s :
  config_valid c -> validateConfig e c = Ok tt -> ValidateAllowlist (dc_Allowlist c) = Ok (dc_Allowlist c) ->
  sf_ConfigJSON s = Marshal (encode_config e c) -> ParseSourceConfig e s = Ok c.
Proof.
  intros Hc Hv Ha Hs. unfold ParseSourceConfig, read_config. rewrite Hs, decode_encode_config; [|done|by eapply validate_port].
  by rewrite Hv, Ha.
Qed.

(** * Credentials *)

Section cipher.
Context `{CipherLaws}.

Lemma substring_app_l a b : String.substring 0 (String.length a) (a ++ b) = a.
Proof. induction a as [|x a IH]; simpl; [by destruct b|]. by rewrite IH. Qed.
Lemma substring_app_r a b : String.substring (String.length a) (String.length b) (a ++ b) = b.
Proof. induction a as [|x a IH]; simpl; [|exact IH]. induction b as [|y b IH]; [done|]. exact (f_equal (String y) IH). Qed.
Lemma append_length a b : String.length (a ++ b) = String.length a + String.length b.
Proof. induction a as [|x a IH]; simpl; [done|]. by rewrite IH. Qed.
Lemma decode_encode_credential p : ValidString p = true -> decode_credential (encode_credential p) = Some p.
Proof.
  intros Hp. unfold decode_credential, encode_credential, decode_struct.
  rewrite Validate_Marshal; [|split_and!; done|done|vm_compute; congruence].
  cbn [as_object]. rewrite (bind_field _ "password" "password") by done. cbn [bind_fields]. unfold string_field. by simplify_map_eq.
Qed.
(** The bytes of a ciphertext split where the nonce ends. *)
Lemma decrypt_sealed p secret nonce secret' :
  String.length nonce = nonceSize ->
  DecryptCredential (EncryptCredential p secret nonce) secret' =
  match unseal (credentialEncryptionKey secret') nonce (seal (credentialEncryptionKey secret) nonce (encode_credential p)) with
  | None => Err (SText "decryption failed: cipher: message authentication failed")
  | Some plaintext => match decode_credential plaintext with
                      | Some q => Ok q
                      | None => Err (SWrap "failed to parse credential payload" (SText "invalid JSON"))
                      end
  end.
Proof.
  intros Hn. unfold DecryptCredential, EncryptCredential. generalize (seal (credentialEncryptionKey secret) nonce (encode_credential p)) as c.
  intros c. rewrite append_length, <- Hn. replace (_ <? _)%nat with false by (symmetry; apply Nat.ltb_ge; lia). cbn [negb].
  replace (String.length nonce + String.length c - String.length nonce)%nat with (String.length c) by lia.
  by rewrite substring_app_l, substring_app_r.
Qed.
Lemma decrypt_same p secret nonce :
  String.length nonce = nonceSize -> ValidString p = true -> DecryptCredential (EncryptCredential p secret nonce) secret = Ok p.
Proof. intros Hn Hp. rewrite decrypt_sealed, unseal_seal by done. by rewrite decode_encode_credential. Qed.
Lemma decrypt_other p secret secret' nonce :
  String.length nonce = nonceSize -> credentialEncryptionKey secret <> credentialEncryptionKey secret' ->
  DecryptCredential (EncryptCredential p secret nonce) secret' = Err (SText "decryption failed: cipher: message authentication failed").
Proof.
  intros Hn Hk. rewrite decrypt_sealed by done. rewrite unseal_other; [done| |done]. unfold credentialEncryptionKey. by rewrite !sha256_length.
Qed.

(** ** What a request stores *)

Lemma normalize_ok e q nonce now s :
  NormalizeConfig e q nonce now = Ok s ->
  exists c, normalizeConfigJSON e (qc_RawConfig q) (qc_Existing q) = Ok c /\ sf_ConfigJSON s = Marshal (encode_config e c)
    /\ new_credential e q nonce = Ok (sf_CredentialCiphertext s) /\ sf_ConnectorType s = source_type e.
Proof.
  unfold NormalizeConfig. destruct (negb (_ || _)); [|done]. destruct (normalizeConfigJSON _ _ _) as [c|?] eqn:Hc; [|done].
  destruct (new_credential e q nonce) as [k|?] eqn:Hk; [|done]. destruct (negb (_ && _)); [|done].
  intros [= <-]. exists c. by split_and!.
Qed.
Lemma new_credential_ok e q nonce raw k :
  new_credential e q nonce = Ok k -> qc_RawCredential q = Some raw ->
  exists p, decode_credential raw = Some p /\ blank p = false /\ k = EncryptCredential p (qc_AuthSecret q) nonce.
Proof.
  unfold new_credential. intros H1 H2. rewrite H2 in H1. destruct (decode_credential raw) as [p|]; [|done].
  destruct (blank p) eqn:Hb; [done|]. injection H1 as <-. by exists p.
Qed.
End cipher.

Section connectors.
Context `{CipherLaws} {V : Type} (sha256hex : string -> string) (time_json : time -> string).
Context (dial : SqlEngine -> DbConfig -> string -> res SErr (Upstream V)) (exec_text : QueryExecError -> string).
Implicit Types (db : Db) (e : SqlEngine).

(** A configuration stored from a request, as another record of the store may carry it. *)
Lemma stored_opens e q nonce now s s' c raw p secret :
  NormalizeConfig e q nonce now = Ok s -> normalizeConfigJSON e (qc_RawConfig q) (qc_Existing q) = Ok c -> config_valid c ->
  qc_RawCredential q = Some raw -> decode_credential raw = Some p ->
  sf_ConfigJSON s' = sf_ConfigJSON s -> sf_CredentialCiphertext s' = sf_CredentialCiphertext s ->
  ParseSourceConfig e s' = Ok c /\ OpenConnection dial e s' secret =
    match DecryptCredential (EncryptCredential p (qc_AuthSecret q) nonce) secret with
    | Err err => Err (SWrap "credential decryption failed" err)
    | Ok password => if blank password then Err (SText (text [EngineDialect e; " credential password is empty"])) else dial e c password
    end.
Proof.
  intros (c' & Hc' & Hj & Hn & _)%normalize_ok Hc Hv Hraw Hp E1 E2. rewrite Hc in Hc'. injection Hc' as <-.
  apply normalize_json_ok in Hc as [Hval Hal].
  assert (ParseSourceConfig e s' = Ok c) as Hparse by (eapply parse_stored; [done..|congruence]).
  split; [done|]. unfold OpenConnection. rewrite Hparse, E2.
  eapply new_credential_ok in Hn as (p' & Hp' & _ & ->); [|done]. rewrite Hp in Hp'. injection Hp' as <-.
  destruct (DecryptCredential _ _) as [pw|?]; [|done]. by destruct (blank pw).
Qed.


(** Live queries open the sources with [credentialSecret], the handlers seal with the secret
    of the tokens: when another secret is configured for the credentials, no live query of a
    source opens it, whatever its database answers. *)
Theorem dedicated_secret_locks_out e q nonce now s c raw p dedicated sql timeoutSeconds maxRows db db' r
  (Hs : NormalizeConfig e q nonce now = Ok s) (Hc : normalizeConfigJSON e (qc_RawConfig q) (qc_Existing q) = Ok c) (Hv : config_valid c)
  (Hraw : qc_RawCredential q = Some raw) (Hp : decode_credential raw = Some p) (Hn : String.length nonce = nonceSize)
  (Hstored : db_configs db !! qc_SourceID q = Some s) (Hd : dedicated <> "")
  (Hk : credentialEncryptionKey (qc_AuthSecret q) <> credentialEncryptionKey dedicated) :
  runs (ExecuteLiveQuery dial exec_text e (qc_SourceID q) (credentialSecret (qc_AuthSecret q) dedicated) sql timeoutSeconds maxRows) db db' r ->
  is_ok r = false.
Proof.
  intros R. unfold ExecuteLiveQuery in R. apply runs_bind in R as [(err & _ & ->)|(s' & d & R1 & R)]; [done|].
  apply runs_read in R1 as [-> Hs']. apply read_found in Hs'. rewrite Hstored in Hs'. injection Hs' as <-.
  apply runs_lift in R as [_ ->]. unfold run_query. destruct (1 <=? timeoutSeconds)%Z; [|done]. destruct (1 <=? maxRows)%Z; [|done].
  edestruct (stored_opens e q nonce now s s c raw p (credentialSecret (qc_AuthSecret q) dedicated)) as [_ ->]; [done..|].
  unfold credentialSecret. apply String.eqb_neq in Hd. rewrite Hd. by rewrite decrypt_other.
Qed.

(** the facts of an object are read from an upstream database only when the source's
    stored configuration is valid and its allowlist names the object, and they are the columns
    and the estimate the database gave, at least one column; nothing is written. *)
Theorem metadata_allowlisted e sourceID secret schema name db db' m :
  runs (FetchLiveObjectMetadata dial e sourceID secret schema name) db db' (Ok m) ->
  db' = db /\ exists s c up rows, db_configs db !! sourceID = Some s /\ ParseSourceConfig e s = Ok c /\ validateConfig e c = Ok tt
    /\ isInAllowlist (dc_Allowlist c) schema name = true /\ OpenConnection dial e s secret = Ok up
    /\ up_Columns up schema name = Ok rows /\ cr_Rows rows = map Ok (lm_Columns m) /\ lm_Columns m <> []
    /\ exists n, up_Estimate up schema name = Ok (Some n) /\ lm_RowCountEstimate m = estimate_value e n.
Proof.
  intros R. unfold FetchLiveObjectMetadata, findSourceConfig, SourceConfig_GetBySourceID in R. run_inv.
  match goal with Hx : _ \/ _ = found _ |- _ => apply read_found in Hx as Hs end.
  split; [done|]. match goal with Hx : Ok ?c = ParseSourceConfig e ?s |- _ => symmetry in Hx; rename Hx into Hparse; exists s, c end.
  symmetry in R. rename R into Hmeta.
  unfold fetch_metadata in Hmeta. destruct (OpenConnection dial e a secret) as [up|?] eqn:Hup; [|done].
  destruct (up_Columns up schema name) as [rows|?] eqn:Hrows; [|done]. destruct (read_columns rows) as [cols|?] eqn:Hcols; [|done].
  destruct (negb (length cols =? 0)%nat) eqn:Hlen; [|done]. destruct (up_Estimate up schema name) as [[n|]|?] eqn:Hest; try done.
  injection Hmeta as <-. exists up, rows. pose proof Hparse as Hp. unfold ParseSourceConfig in Hp. apply read_config_ok in Hp as (_ & Hval & _).
  split_and!; try done; cbn [lm_Columns lm_RowCountEstimate].
  - unfold read_columns in Hcols. destruct (scan_columns (cr_Rows rows)) as [cols'|?] eqn:Hscan; [|done].
    destruct (cr_Err rows), (cr_Close rows); try done. injection Hcols as ->. clear -Hscan. revert cols Hscan.
    induction (cr_Rows rows) as [|[x|?] l IH]; intros cols; simpl; [by intros [= <-]| |done].
    destruct (scan_columns l) as [cols'|?] eqn:E; [|done]. intros [= <-]. simpl. by rewrite <- (IH cols' eq_refl).
  - intros ->. by cbn in Hlen.
  - by exists n.
Qed.
End connectors.

(** * The handlers *)

Section handlers.
Context `{Cipher} {V : Type} (sha256hex : string -> string) (time_json : time -> string).
Context (dial : SqlEngine -> DbConfig -> string -> res SErr (Upstream V)) (get_file : string -> res SErr string) (AuthSecret : string).
Context (user : option string) (workspaceID : string).
Implicit Types (db : Db).

(** What a step of a handler may do: either it answers, leaving the store, or the next goes on. *)
Lemma or_refuse_runs {A} (m : M A) status message k db db' r :
  runs (or_refuse m status message k) db db' r ->
  exists d r0, runs m db d r0 /\ match r0 with Ok a => runs (k a) d db' r | Err _ => db' = d /\ r = Ok (Refused status message) end.
Proof.
  intros R. unfold or_refuse in R. apply runs_bind in R as [(e & R & _)|(r0 & d & R1 & R)].
  { apply runs_try in R as (? & _ & [=]). }
  apply runs_try in R1 as (r0' & R1 & [= ->]). exists d, r0'. split; [done|]. destruct r0'; [done|]. by apply runs_ret in R as [-> ->].
Qed.
Lemma lookup_or_runs {A} (m : M A) notFound k db db' r :
  runs (lookup_or m notFound k) db db' r ->
  exists d r0, runs m db d r0 /\ match r0 with Ok a => runs (k a) d db' r | Err _ => db' = d /\ exists status message, r = Ok (Refused status message) end.
Proof.
  intros R. unfold lookup_or in R. apply runs_bind in R as [(e & R & _)|(r0 & d & R1 & R)].
  { apply runs_try in R as (? & _ & [=]). }
  apply runs_try in R1 as (r0' & R1 & [= ->]). exists d, r0'. split; [done|].
  destruct r0' as [a|[]]; [done|apply runs_ret in R as [-> ->]..]; eauto.
Qed.
Definition signed : Prop := exists u, user = Some u /\ u <> "".
Lemma signed_in_runs k db db' r :
  runs (signed_in user k) db db' r -> (db' = db /\ r = Ok (Refused 401 "未登录")) \/ (signed /\ exists u, runs (k u) db db' r).
Proof.
  unfold signed_in, signed. destruct user as [u|]; [|by intros [-> ->]%runs_ret; left].
  destruct (String.eqb_spec u "") as [->|Hu]; [by intros [-> ->]%runs_ret; left|]. intros R. right. split; eauto.
Qed.
Definition owned db (sourceID : string) : Prop := exists d, db_sources db !! sourceID = Some d /\ ds_WorkspaceID d = workspaceID.
Lemma own_source_runs sourceID k db db' r :
  runs (own_source workspaceID sourceID k) db db' r ->
  (db' = db /\ exists status message, r = Ok (Refused status message))
  \/ exists d c, db_sources db !! sourceID = Some d /\ ds_WorkspaceID d = workspaceID /\ Get_connector (ds_SourceType d) = Ok c
     /\ runs (k d c) db db' r.
Proof.
  intros (d1 & r0 & R1 & R)%lookup_or_runs. apply runs_read in R1 as [-> Hd].
  destruct r0 as [d|e]; [apply read_found in Hd|destruct R as [-> ?]; by left].
  destruct (String.eqb_spec (ds_WorkspaceID d) workspaceID) as [Hw|Hw]; cbn [negb] in R;
    [|apply runs_ret in R as [-> ->]; left; eauto].
  apply or_refuse_runs in R as (d2 & r0 & R1 & R). apply runs_lift in R1 as [-> ->].
  destruct (Get_connector (ds_SourceType d)) as [c|?] eqn:Hc; [|destruct R as [-> ->]; left; eauto]. right. exists d, c. auto.
Qed.

(** A change of one source's row, and of its configuration, that leaves what identifies it. *)
Definition same_source (d d' : DataSource) : Prop :=
  ds_ID d' = ds_ID d /\ ds_WorkspaceID d' = ds_WorkspaceID d /\ ds_SourceType d' = ds_SourceType d /\ ds_FileID d' = ds_FileID d
  /\ ds_CreatedBy d' = ds_CreatedBy d /\ ds_CreatedAt d' = ds_CreatedAt d.
Definition changed_source (sourceID : string) db db' : Prop :=
  exists f g, (forall d, same_source d (f d)) /\ (forall c, sf_SourceID (g c) = sf_SourceID c /\ sf_CreatedAt (g c) = sf_CreatedAt c)
    /\ db' = set_configs (set_sources db (alter f sourceID (db_sources db))) (alter g sourceID (db_configs db)).
Lemma set_sources_same db : set_sources db (db_sources db) = db.
Proof. by destruct db. Qed.
Lemma set_configs_same db : set_configs db (db_configs db) = db.
Proof. by destruct db. Qed.
Lemma alter_same {A} k (m : gmap string A) : alter id k m = m.
Proof. by apply alter_id. Qed.
Lemma alter_twice {A} (f g : A -> A) k (m : gmap string A) : alter f k (alter g k m) = alter (f ∘ g) k m.
Proof.
  apply map_eq. intros i. destruct (decide (i = k)) as [->|Hi]; rewrite ?lookup_alter_eq, ?lookup_alter_ne by done; [|done].
  by destruct (m !! k).
Qed.
Lemma same_source_refl d : same_source d d.
Proof. by unfold same_source. Qed.
Lemma unchanged_source sourceID db : changed_source sourceID db db.
Proof. exists id, id. split; [apply same_source_refl|split; [done|]]. rewrite !alter_same. by destruct db. Qed.
Lemma config_changed sourceID c db db' r :
  sf_SourceID c = sourceID -> runs (SourceConfig_Update c) db db' r -> changed_source sourceID db db'.
Proof.
  intros Hc [(e & -> & _)|(E & _)]%runs_write; [apply unchanged_source|]. injection E as <-.
  exists id, (config_row c). split; [apply same_source_refl|split; [done|]]. by rewrite alter_same, set_sources_same, Hc.
Qed.
Lemma row_changed sourceID d now db db' r :
  ds_ID d = sourceID -> runs (DataSource_Update d now) db db' r -> changed_source sourceID db db'.
Proof.
  intros Hd [(e & -> & _)|(E & _)]%runs_write; [apply unchanged_source|]. injection E as <-.
  exists (source_row d now), id. split; [by unfold same_source|split; [done|]]. rewrite alter_same, Hd. by destruct db.
Qed.
Lemma changed_trans sourceID db1 db2 db3 : changed_source sourceID db1 db2 -> changed_source sourceID db2 db3 -> changed_source sourceID db1 db3.
Proof.
  intros (f & g & Hf & Hg & ->) (f' & g' & Hf' & Hg' & ->). exists (f' ∘ f), (g' ∘ g). split; [|split].
  - intros d. destruct (Hf d) as (? & ? & ? & ? & ? & ?), (Hf' (f d)) as (? & ? & ? & ? & ? & ?). unfold same_source. split_and!; etrans; eauto.
  - intros c. destruct (Hg c), (Hg' (g c)). split; etrans; eauto.
  - destruct db1. cbn. by rewrite !alter_twice.
Qed.

(** What a request of a handler may do with the store. *)
Definition confined (sourceID : string) db db' (r : res SErr Reply) : Prop :=
  changed_source sourceID db db' /\ (db' <> db -> signed /\ owned db sourceID)
  /\ exists reply, r = Ok reply /\ forall status message, reply = Refused status message -> (status < 500)%Z -> db' = db.
Lemma confined_same sourceID db reply : confined sourceID db db (Ok reply).
Proof. split_and!; [apply unchanged_source|done|]. exists reply. by split. Qed.
Lemma confined_changed sourceID db db' reply :
  signed -> owned db sourceID -> changed_source sourceID db db' -> (forall status message, reply = Refused status message -> (500 <= status)%Z) ->
  confined sourceID db db' (Ok reply).
Proof.
  intros Hs Ho Hc Hr. split_and!; [done|done|]. exists reply. split; [done|]. intros st msg E Hlt. specialize (Hr st msg E). lia.
Qed.
Lemma serialize_same d db db' r : runs (serializeWorkspaceDataSource time_json d) db db' r -> db' = db.
Proof.
  enough (preserves id (serializeWorkspaceDataSource time_json d)) as Hp by (intros R; exact (Hp _ _ _ R)).
  repeat first [apply preserves_bind; [|intros ?]|apply preserves_wrap|apply preserves_lift|apply preserves_ret].
  unfold public_config, PublicConfig, findSourceConfig, SourceConfig_GetBySourceID.
  destruct a; repeat first [apply preserves_bind; [|intros ?]|apply preserves_read|apply preserves_lift|apply preserves_ret].
Qed.
Lemma update_tail_confined sourceID name d now db0 db db' r :
  signed -> owned db0 sourceID -> changed_source sourceID db0 db -> ds_ID d = sourceID ->
  runs (or_refuse (DataSource_Update (renamed name d) now) 500 "更新数据源失败" (fun _ =>
        or_refuse (DataSource_GetByID sourceID) 500 "重新加载数据源失败" (fun updated =>
        or_refuse (serializeWorkspaceDataSource time_json updated) 500 "序列化数据源失败" (fun item => ret (Replied 200 item))))) db db' r ->
  confined sourceID db0 db' r.
Proof.
  intros Hs Ho Hc Hid (d1 & r0 & R1 & R)%or_refuse_runs. apply row_changed with (sourceID := sourceID) in R1; [|done].
  assert (Hc1 := changed_trans _ _ _ _ Hc R1).
  destruct r0 as [u|?]; [|destruct R as [-> ->]; apply confined_changed; [done..|by intros ?? [= <- <-]]].
  apply or_refuse_runs in R as (d2 & r0 & R2 & R). apply runs_read in R2 as [-> _].
  destruct r0 as [updated|?]; [|destruct R as [-> ->]; apply confined_changed; [done..|by intros ?? [= <- <-]]].
  apply or_refuse_runs in R as (d2 & r0 & R2 & R). apply serialize_same in R2 as ->.
  destruct r0 as [item|?]; [apply runs_ret in R as [-> ->]|destruct R as [-> ->]]; (apply confined_changed; [done..|by intros ?? [= <- <-]]).
Qed.

(** C13: a request to change a source always gets an answer; it changes nothing but the row
    and the configuration of that source, keeping its identity, type, file and workspace, and
    those only for a signed-in user whose workspace the source is in; whatever calls of the
    database fail, an answer below 500 that refuses it means that nothing changed. *)
Theorem update_confined sourceID req nonce now db db' r :
  (forall d, db_sources db !! sourceID = Some d -> ds_ID d = sourceID) ->
  runs (UpdateDataSourceHandler time_json AuthSecret user workspaceID sourceID req nonce now) db db' r ->
  confined sourceID db db' r.
Proof.
  intros Hids [[-> ->]|(Hs & u & R)]%signed_in_runs; [apply confined_same|].
  apply own_source_runs in R as [(-> & st & msg & ->)|(d & c & Hd & Hw & _ & R)]; [apply confined_same|].
  assert (owned db sourceID) as Ho by (by exists d). apply Hids in Hd as Hid.
  destruct req as [q|]; [|apply runs_ret in R as [-> ->]; apply confined_same].
  repeat match type of R with runs (if ?b then _ else _) _ _ _ => destruct b; [apply runs_ret in R as [-> ->]; apply confined_same|] end.
  unfold update_config in R. remember (or_refuse (DataSource_Update _ _) _ _ _) as k eqn:Hk.
  assert (forall db1 db2 r, changed_source sourceID db db1 -> runs k db1 db2 r -> confined sourceID db db2 r) as Htail.
  { intros db1 db2 r' Hc R'. subst k. by eapply update_tail_confined. }
  assert (runs k db db' r \/ runs (or_refuse (SourceConfig_GetBySourceID sourceID) 404 "数据源配置不存在" (fun existing =>
      or_refuse (lift_res (updated_config AuthSecret c sourceID q existing nonce now)) 400 "数据源配置无效" (fun n =>
      or_refuse (SourceConfig_Update n) 500 "更新数据源配置失败" (fun _ => k)))) db db' r) as [R'|R'].
  { destruct (uq_Config q), (uq_Credential q); auto. }
  { apply (Htail db); [apply unchanged_source|done]. }
  clear R. apply or_refuse_runs in R' as (d1 & r0 & R1 & R). apply runs_read in R1 as [-> _].
  destruct r0 as [existing|?]; [|destruct R as [-> ->]; apply confined_same].
  apply or_refuse_runs in R as (d1 & r0 & R1 & R). apply runs_lift in R1 as [-> ->].
  destruct (updated_config AuthSecret c sourceID q existing nonce now) as [n|?] eqn:Hn; [|destruct R as [-> ->]; apply confined_same].
  apply or_refuse_runs in R as (d1 & r0 & R1 & R). apply config_changed with (sourceID := sourceID) in R1.
  2:{ unfold updated_config in Hn. destruct c; [done|]. destruct (NormalizeConfig _ _ _ _); [|done]. by injection Hn as <-. }
  destruct r0 as [[]|?]; [by apply (Htail d1)|]. destruct R as [-> ->]. apply confined_changed; [done..|by intros ?? [= <- <-]].
Qed.
End handlers.

(** * Examples *)

(** A cipher that satisfies the laws: the text after its key; and a hash of 32 bytes. *)
Module Toy.
Lemma text_length l : String.length (String.string_of_list_ascii l) = length l.
Proof. induction l as [|a l IH]; simpl; [done|]. by rewrite IH. Qed.
Definition hash (s : string) : string := String.string_of_list_ascii (take 32 (rev (String.list_ascii_of_string s) ++ repeat "0"%char 32)).
Definition open (k n c : string) : option string :=
  if String.prefix k c then Some (String.substring (String.length k) (String.length c - String.length k) c) else None.
#[global] Instance toy_cipher : Cipher := {| sha256 := hash; seal := fun k _ p => (k ++ p)%string; unseal := open |}.
Lemma prefix_app k p : String.prefix k (k ++ p) = true.
Proof. induction k as [|a k IH]; simpl; [by destruct p|]. by destruct (ascii_dec a a). Qed.
Lemma prefix_other k k' p : String.length k = String.length k' -> k <> k' -> String.prefix k' (k ++ p) = false.
Proof.
  revert k'. induction k as [|a k IH]; intros [|b k']; simpl; try done. intros [= Hl] Hne.
  destruct (ascii_dec b a) as [->|]; [|done]. apply IH; [done|]. by intros ->.
Qed.
#[global] Instance toy_laws : CipherLaws.
Proof.
  split.
  - intros k n p. cbn. unfold open. rewrite prefix_app, append_length. replace (_ + _ - _)%nat with (String.length p) by lia.
    by rewrite substring_app_r.
  - intros k k' n p Hl Hk. cbn. unfold open. by rewrite prefix_other.
  - intros s. cbn. unfold hash. rewrite text_length, length_take, length_app, repeat_length. lia.
Qed.

Definition config : string :=
  Marshal (JObj [("host", JStr "db.example"); ("port", JNum "5432"); ("database_name", JStr "sales"); ("ssl_mode", JStr "require");
                 ("username", JStr "reader"); ("allowlist", JArr [encode_allowed {| al_Schema := "public"; al_Name := "orders"; al_Kind := "table" |}])]).
Definition secret : string := "an auth secret of thirty-two bytes".
Definition other : string := "another secret for the credentials".
Definition request : SourceConfigRequest :=
  {| qc_SourceID := "ds_1"; qc_RawConfig := Some config; qc_RawCredential := Some (encode_credential "hunter2"); qc_Existing := None;
     qc_RequireCredential := true; qc_AuthSecret := secret |}.
Definition nonce : string := "0123456789ab".
Definition parsed : DbConfig :=
  {| dc_Host := "db.example"; dc_Port := 5432; dc_DatabaseName := "sales"; dc_Mode := "require"; dc_Username := "reader";
     dc_Allowlist := [{| al_Schema := "public"; al_Name := "orders"; al_Kind := "table" |}] |}.
Definition stored : SourceConfig := match NormalizeConfig Postgres request nonce 7 with Ok s => s
  | Err _ => {| sf_SourceID := ""; sf_ConnectorType := ""; sf_ConfigJSON := ""; sf_CredentialCiphertext := ""; sf_LastTestedAt := None;
                sf_LastTestStatus := ""; sf_LastErrorMessage := None; sf_CreatedAt := 0; sf_UpdatedAt := 0 |} end.
Definition source : DataSource :=
  {| ds_ID := "ds_1"; ds_WorkspaceID := "w1"; ds_Name := "sales"; ds_SourceType := "postgres_connection"; ds_Status := "active"; ds_FileID := None;
     ds_CreatedBy := "u1"; ds_CreatedAt := 7; ds_UpdatedAt := 7 |}.
Definition empty_db : Db := Build_Db ∅ ∅ ∅ ∅ ∅ ∅ ∅ ∅ ∅ ∅.
Definition db : Db := set_configs (set_sources empty_db {["ds_1" := source]}) {["ds_1" := stored]}.
Definition upstream : Upstream Z :=
  {| up_Conn := None; up_Count := fun _ _ _ => Ok 1%Z;
     up_Columns := fun _ _ => Ok {| cr_Rows := [Ok ("id", "integer"); Ok ("total", "numeric")]; cr_Err := None; cr_Close := None |};
     up_Estimate := fun _ _ => Ok (Some (Some 12%Z)); up_Close := None |}.
(** A database that answers the right password. *)
Definition dial (e : SqlEngine) (c : DbConfig) (password : string) : res SErr (Upstream Z) :=
  if password =? "hunter2" then Ok upstream else Err (SText "connection refused").
End Toy.


Lemma metadata_allowlisted_witness :
  let m := {| lm_Columns := [("id", "integer"); ("total", "numeric")]; lm_RowCountEstimate := 12 |} in
  runs (FetchLiveObjectMetadata Toy.dial Postgres "ds_1" Toy.secret "public" "orders") Toy.db Toy.db (Ok m)
  /\ exists s c, db_configs Toy.db !! "ds_1" = Some s /\ ParseSourceConfig Postgres s = Ok c /\ isInAllowlist (dc_Allowlist c) "public" "orders" = true.
Proof.
  intros m. assert (R : runs (FetchLiveObjectMetadata Toy.dial Postgres "ds_1" Toy.secret "public" "orders") Toy.db Toy.db (Ok m)).
  { exists [], []. vm_compute. reflexivity. }
  split; [exact R|].
  destruct (metadata_allowlisted Toy.dial Postgres "ds_1" Toy.secret "public" "orders" Toy.db Toy.db m R) as (_ & s & c & up & rows & H1 & H2 & _ & H3 & _).
  exists s, c. auto.
Defined.

(** A user of the workspace gives the source another name. *)
Lemma update_confined_witness :
  exists db' r, runs (UpdateDataSourceHandler (fun _ => "now") Toy.secret (Some "u1") "w1" "ds_1"
                        (Some {| uq_Name := Some "orders"; uq_Config := None; uq_Credential := None |}) Toy.nonce 9) Toy.db db' r
    /\ (ds_Name <$> db_sources db' !! "ds_1") = Some "orders" /\ confined (Some "u1") "w1" "ds_1" Toy.db db' r.
Proof.
  pose (m := UpdateDataSourceHandler (fun _ => "now") Toy.secret (Some "u1") "w1" "ds_1"
               (Some {| uq_Name := Some "orders"; uq_Config := None; uq_Credential := None |}) Toy.nonce 9).
  exists (run_of m Toy.db []), (m {| w_db := Toy.db; w_faults := [] |}).2. split; [apply runs_of|]. split; [vm_compute; reflexivity|].
  apply (update_confined (fun _ => "now") Toy.secret (Some "u1") "w1" "ds_1"
           (Some {| uq_Name := Some "orders"; uq_Config := None; uq_Credential := None |}) Toy.nonce 9); [|apply runs_of].
  intros d Hd. cbn in Hd. rewrite lookup_singleton_eq in Hd. by injection Hd as <-.
Defined.

(** A source whose connection test succeeds, and no live query of which does. *)
Lemma tested_source_locked_out :
  tr_Success (test_config Toy.dial Postgres Toy.stored Toy.secret) = true
  /\ forall sql t n db' r,
       runs (ExecuteLiveQuery Toy.dial (fun _ => "") Postgres "ds_1" (credentialSecret Toy.secret Toy.other) sql t n) Toy.db db' r -> is_ok r = false.
Proof.
  split; [vm_compute; reflexivity|]. intros sql t n db' r.
  apply (dedicated_secret_locks_out Toy.dial (fun _ => "") Postgres Toy.request Toy.nonce 7 Toy.stored Toy.parsed (encode_credential "hunter2") "hunter2").
  - vm_compute; reflexivity.
  - vm_compute; reflexivity.
  - split; repeat constructor.
  - reflexivity.
  - vm_compute; reflexivity.
  - reflexivity.
  - vm_compute; reflexivity.
  - done.
  - vm_compute. congruence.
Qed.

(** The table and the view of one name are two entries of an accepted allowlist, and one
    object of the catalog's keys. *)
Lemma twin_entries_share_key sha256hex sourceID e :
  let entries := [{| al_Schema := "public"; al_Name := "orders"; al_Kind := "table" |}; {| al_Schema := "public"; al_Name := "orders"; al_Kind := "view" |}] in
  ValidateAllowlist entries = Ok entries
  /\ map (fun a => SourceObjectKey sha256hex sourceID (source_type e) (al_Schema a) (al_Name a)) entries
     = repeat (SourceObjectKey sha256hex sourceID (source_type e) "public" "orders") 2.
Proof. by split. Qed.
