(* ===== verification/LiveTables.v ===== *)
(** The live-bound objects of a session as the model sees them: their list, and one
    described from the profile that was stored when it was bound, with a bounded sample read
    upstream ([service/live_source.go]). *)
From S2P Require Import Prelude GoStrings GoText Json JsonRoundtrip SqlGuard LiveQuery StateTools ReportSnapshot Calls Sources Connectors ConnectorProps.
From Stdlib Require Import Ascii SpecFloat.
Open Scope string_scope.
Open Scope list_scope.
Open Scope go_scope.

Record LiveTableFact := {
  lt_Schema : string; lt_Name : string; lt_QualifiedName : string; lt_Kind : string; lt_RowCountEstimate : Z; lt_Estimated : bool;
  lt_ProfileID : string; lt_SnapshotID : string; lt_Dialect : string
}.
Record LiveTableDescription (V : Type) := {
  ld_SourceID : string; ld_Schema : string; ld_Name : string; ld_QualifiedName : string; ld_Dialect : string; ld_RowCountEstimate : Z;
  ld_Estimated : bool; ld_ColumnCount : nat; ld_Columns : list (string * string); ld_Sample : option (LiveQueryRows V); ld_SampleRows : Z;
  ld_Warnings : list string
}.
Arguments ld_Columns {V} _.
Arguments ld_Sample {V} _.
Arguments ld_SampleRows {V} _.
Arguments ld_Warnings {V} _.
Arguments ld_SourceID {V} _.
Arguments ld_Schema {V} _.
Arguments ld_Name {V} _.
Arguments ld_QualifiedName {V} _.
Arguments ld_Dialect {V} _.
Arguments ld_RowCountEstimate {V} _.
Arguments ld_Estimated {V} _.
Arguments ld_ColumnCount {V} _.

(** ** The stored facts of a profile, read with [json.Unmarshal] *)

Definition is_record (fields : list (string * (jval -> bool))) (v : jval) : bool :=
  match v with JNull => true | JObj kvs => bool_decide (is_Some (bind_known fields kvs)) | _ => false end.
Definition record_of (fields : list (string * (jval -> bool))) (v : jval) : gmap string jval :=
  match v with JObj kvs => default ∅ (bind_known fields kvs) | _ => ∅ end.
Definition column_fields : list (string * (jval -> bool)) :=
  [("name", is_jstr); ("declaredType", is_jstr); ("nonEmptyRate", is_float); ("uniqueCount", is_jint); ("sampleValues", is_texts);
   ("estimated", is_jbool)].
Definition sampling_fields : list (string * (jval -> bool)) :=
  [("method", is_jstr); ("sourceRows", is_jint); ("sampleRows", is_jint); ("estimated", is_jbool)].
Definition is_columns (v : jval) : bool := match v with JArr vs => forallb (is_record column_fields) vs | _ => false end.
Definition schema_fields : list (string * (jval -> bool)) :=
  [("tableName", is_jstr); ("rowCount", is_jint); ("columns", is_columns); ("sampling", is_record sampling_fields)].
Definition facts_fields : list (string * (jval -> bool)) :=
  [("schema", is_record schema_fields); ("profile_mode", is_jstr); ("import_row_limit", is_jint); ("import_truncated", is_jbool);
   ("snapshot_size_bytes", is_jint); ("warnings", is_texts)].
Definition column_of (v : jval) : string * string :=
  let m := record_of column_fields v in (string_field m "name", string_field m "declaredType").
Definition columns_of (v : jval) : list (string * string) :=
  match record_of schema_fields v !! "columns" with Some (JArr vs) => map column_of vs | _ => [] end.
(** The columns of the schema, which the code reads without asking whether there is one, and
    the warnings. *)
Definition read_facts (raw : string) : option (option (list (string * string)) * list string) :=
  let! v := Unmarshal raw in
  let! kvs := as_object v in
  let! m := bind_known facts_fields kvs in
  Some (columns_of <$> m !! "schema", texts_field m "warnings").

Section live.
Context `{Cipher} {V : Type} (sha256hex : string -> string).
Context (dial : SqlEngine -> DbConfig -> string -> res SErr (Upstream V)) (exec_text : QueryExecError -> string).
(** The secret of the service, and which sources it has live connectors for. *)
Context (secret : string) (resolve : string -> res SErr SqlEngine).

Definition requireLiveBinding (sessionID workspaceID sourceID : string) : M DataSource :=
  do source := DataSource_GetByID sourceID in
  require ds_WorkspaceID source =? workspaceID else SNotFound ;;
  do bindings := Binding_GetBySession sessionID in
  require existsb (fun b => sb_SourceID b =? sourceID) bindings
  else SText (text ["source "; sourceID; " is not bound to session "; sessionID]) ;;
  ret source.
Definition fact_of (e : SqlEngine) (profileID : string) (s : SourceSnapshot) : LiveTableFact :=
  {| lt_Schema := sn_UpstreamSchema s; lt_Name := sn_UpstreamObject s; lt_QualifiedName := QualifyObject e (sn_UpstreamSchema s) (sn_UpstreamObject s);
     lt_Kind := "table"; lt_RowCountEstimate := sn_RowCount s; lt_Estimated := true; lt_ProfileID := profileID; lt_SnapshotID := sn_ID s;
     lt_Dialect := EngineDialect e |}.
(** An error of the profiles leaves the profile out. *)
Definition live_profile (sessionID sourceID snapshotID : string) : M string :=
  do profiles := try (Profile_ListBySource sourceID) in
  ret (match profiles with
       | Ok profiles => match selectProfileForSnapshot profiles sessionID snapshotID with Ok (Some p) => pf_ID p | _ => "" end
       | Err _ => ""
       end).
Fixpoint live_facts (e : SqlEngine) (sessionID sourceID : string) (bindings : list SessionSourceBinding) : M (list LiveTableFact) :=
  match bindings with
  | [] => ret []
  | b :: bindings =>
      if negb (sb_SourceID b =? sourceID) then live_facts e sessionID sourceID bindings
      else
        do s := Snapshot_GetByID (sb_ActiveSnapshotID b) in
        if negb (bool_decide (sn_Mode s = SnapshotModeLive)) then live_facts e sessionID sourceID bindings
        else
          do profileID := live_profile sessionID sourceID (sn_ID s) in
          do facts := live_facts e sessionID sourceID bindings in
          ret (fact_of e profileID s :: facts)
  end.
Definition ListSessionLiveTables (sessionID workspaceID sourceID : string) : M (list LiveTableFact) :=
  do source := requireLiveBinding sessionID workspaceID sourceID in
  do e := lift_res (resolve (ds_SourceType source)) in
  do bindings := Binding_GetBySession sessionID in
  live_facts e sessionID sourceID bindings.

Record LiveDescribeCall := { lc_SourceID : string; lc_SessionID : string; lc_WorkspaceID : string; lc_Schema : string; lc_Name : string; lc_SampleRows : Z }.
Definition object_text (c : LiveDescribeCall) : string := text ["object "; lc_Schema c; "."; lc_Name c].
Definition live_snapshot (c : LiveDescribeCall) (source : DataSource) : M SourceSnapshot :=
  do bound := try (Binding_GetBySessionSourceObject (lc_SessionID c) (lc_SourceID c)
                     (SourceObjectKey sha256hex (lc_SourceID c) (ds_SourceType source) (lc_Schema c) (lc_Name c))) in
  match bound with
  | Err SNotFound => fail (SText (text [object_text c; " is not bound to session "; lc_SessionID c]))
  | Err err => fail err
  | Ok b =>
      do s := Snapshot_GetByID (sb_ActiveSnapshotID b) in
      require bool_decide (sn_Mode s = SnapshotModeLive) else SText (text [object_text c; " is not a live-bound object"]) ;;
      ret s
  end.
Definition stored_facts (c : LiveDescribeCall) (s : SourceSnapshot) : M (list (string * string) * list string) :=
  do profiles := Profile_ListBySource (lc_SourceID c) in
  do profile := lift_res (selectProfileForSnapshot profiles (lc_SessionID c) (sn_ID s)) in
  match profile with
  | None => fail (SText (text ["live "; object_text c; " has no structural profile"]))
  | Some p =>
      match read_facts (pf_ProfileJSON p) with
      | None => fail (SWrap "failed to parse live profile" (SText "invalid JSON"))
      | Some (None, _) => fail (SText "runtime error: invalid memory address or nil pointer dereference")
      | Some (Some columns, warnings) => ret (columns, warnings)
      end
  end.
Definition sample_sql (qualified : string) (rows : Z) : string := text ["SELECT * FROM "; qualified; " LIMIT "; itoa rows].
(** A sample that fails is a warning. *)
Definition read_sample (e : SqlEngine) (c : LiveDescribeCall) (qualified : string) : M (option (LiveQueryRows V) * list string) :=
  if (lc_SampleRows c <=? 0)%Z then ret (None, [])
  else
    do r := try (ExecuteLiveQuery dial exec_text e (lc_SourceID c) secret (sample_sql qualified (lc_SampleRows c)) QueryTimeoutLargeSeconds (lc_SampleRows c + 1)) in
    ret (match r with Ok rows => (Some rows, []) | Err err => (None, [text ["sample query failed: "; Error err]]) end).
Definition DescribeSessionLiveTable (c : LiveDescribeCall) : M (LiveTableDescription V) :=
  require negb ((lc_SampleRows c <? 0) || (10000 <? lc_SampleRows c))%Z else SText "sample_rows must be between 0 and 10000" ;;
  do source := requireLiveBinding (lc_SessionID c) (lc_WorkspaceID c) (lc_SourceID c) in
  do e := lift_res (resolve (ds_SourceType source)) in
  do s := live_snapshot c source in
  do facts := stored_facts c s in
  let qualified := QualifyObject e (lc_Schema c) (lc_Name c) in
  do sample := read_sample e c qualified in
  ret {| ld_SourceID := lc_SourceID c; ld_Schema := lc_Schema c; ld_Name := lc_Name c; ld_QualifiedName := qualified;
         ld_Dialect := EngineDialect e; ld_RowCountEstimate := sn_RowCount s; ld_Estimated := true; ld_ColumnCount := length facts.1;
         ld_Columns := facts.1; ld_Sample := sample.1; ld_SampleRows := lc_SampleRows c; ld_Warnings := facts.2 ++ sample.2 |}.
End live.

(** * What the list shows is what queries may touch *)

(** The same store as the check of live queries reads it. *)
Definition snapshot_of (s : SourceSnapshot) : LiveQuery.SourceSnapshot :=
  {| LiveQuery.ss_ID := sn_ID s; LiveQuery.ss_SessionID := sn_SessionID s; LiveQuery.ss_SourceID := sn_SourceID s;
     LiveQuery.ss_UpstreamSchema := sn_UpstreamSchema s; LiveQuery.ss_UpstreamObject := sn_UpstreamObject s;
     LiveQuery.ss_Mode := match sn_Mode s with SnapshotModeImported => LiveQuery.SnapshotModeImported | SnapshotModeLive => LiveQuery.SnapshotModeLive end |}.
Definition binding_of (b : SessionSourceBinding) : LiveQuery.SessionSourceBinding :=
  {| LiveQuery.sb_SessionID := sb_SessionID b; LiveQuery.sb_SourceID := sb_SourceID b; LiveQuery.sb_SourceObjectKey := sb_SourceObjectKey b;
     LiveQuery.sb_ActiveSnapshotID := sb_ActiveSnapshotID b |}.
Definition session_bindings (db : Db) (sessionID : string) : list SessionSourceBinding :=
  newest_first sb_UpdatedAt (rows (db_bindings db) (fun b => sb_SessionID b =? sessionID)).
Definition repos_of (db : Db) : Repos SErr := {|
  LiveQuery.DataSource_GetByID := fun id => match db_sources db !! id with
    | Some d => Ok {| LiveQuery.ds_ID := ds_ID d; LiveQuery.ds_WorkspaceID := ds_WorkspaceID d; LiveQuery.ds_SourceType := ds_SourceType d |}
    | None => Err SNotFound end;
  LiveQuery.Binding_GetBySession := fun id => Ok (map binding_of (session_bindings db id));
  LiveQuery.Snapshot_GetByID := fun id => match db_snapshots db !! id with Some s => Ok (snapshot_of s) | None => Err SNotFound end;
  LiveQuery.ErrNotFound := SNotFound
|}.

Section listed.
Context (resolve : string -> res SErr SqlEngine) (tables : (Z -> Z) * (Z -> Z)).
Implicit Types (db : Db).

(** [key] is a name of a listed object, as references are compared. *)
Definition listed_name (facts : list LiveTableFact) (key : string) : Prop :=
  exists f, f ∈ facts /\ (key = ToLower (snd tables) (lt_Name f) \/ key = ToLower (snd tables) (lt_Schema f ++ "." ++ lt_Name f)%string).

Lemma live_profile_runs sessionID sourceID snapshotID db db' r :
  runs (live_profile sessionID sourceID snapshotID) db db' r -> db' = db.
Proof. intros R. unfold live_profile, Profile_ListBySource in R. by run_inv. Qed.
Lemma live_facts_runs e sessionID sourceID bindings db db' facts allowed0 :
  runs (live_facts e sessionID sourceID bindings) db db' (Ok facts) ->
  db' = db
  /\ (exists allowed, fold_res (allow_binding tables (repos_of db) sourceID) allowed0 (map binding_of bindings) = Ok allowed
        /\ forall key, key ∈ allowed <-> key ∈ allowed0 \/ listed_name facts key)
  /\ Forall (fun f => lt_QualifiedName f = QualifyObject e (lt_Schema f) (lt_Name f)) facts.
Proof.
  revert db' facts allowed0. induction bindings as [|b bindings IH]; intros db' facts allowed0 R; cbn [live_facts map] in *.
  { run_step R. split; [done|split; [|done]]. exists allowed0. split; [done|]. intros key. split; [by left|].
    intros [?|(f & Hf & _)]; [done|]. by apply elem_of_nil in Hf. }
  unfold fold_res; fold (fold_res (allow_binding tables (repos_of db) sourceID)). unfold allow_binding at 1.
  cbn [LiveQuery.sb_SourceID LiveQuery.sb_ActiveSnapshotID binding_of].
  destruct (sb_SourceID b =? sourceID); cbn [negb] in *; [|by apply IH].
  run_step R. unfold Snapshot_GetByID in R0. apply runs_read in R0 as [-> Hs]. apply read_found in Hs.
  unfold lift_repo. cbn [LiveQuery.Snapshot_GetByID repos_of]. rewrite Hs.
  cbn [LiveQuery.ss_Mode snapshot_of LiveQuery.ss_UpstreamObject LiveQuery.ss_UpstreamSchema].
  case_bool_decide as Hm; cbn [negb] in R; [|destruct (sn_Mode a); [by apply IH|done]]. rewrite Hm.
  run_step R. apply live_profile_runs in R0 as ->. run_step R. run_step R.
  match goal with |- context [fold_res _ ?al _] => apply (IH _ _ al) in R0 as (-> & (allowed & Hfold & Hin) & Hq) end. split; [done|]. split; [|by constructor].
  exists allowed. split; [exact Hfold|]. intros key. rewrite Hin, !elem_of_union, !elem_of_singleton. unfold listed_name.
  setoid_rewrite elem_of_cons. cbn [fact_of lt_Name lt_Schema]. split.
  - intros [[->|[->|?]]|(f & ? & ?)]; [right; eexists; split; [by left|]; by left|right; eexists; split; [by left|]; by right|by left|right; eauto].
  - intros [?|(f & [->|Hf] & Hk)]; [by left; right; right| |right; eauto].
    left. destruct Hk as [Hk|Hk]; [by left|right; by left].
Qed.

End listed.

(** * What a description says *)

Definition metadata_valid (qualified : string) (m : LiveMetadata) : Prop :=
  ValidString qualified = true /\ Forall (fun c => ValidString c.1 = true /\ ValidString c.2 = true) (lm_Columns m)
  /\ (-9223372036854775808 <= lm_RowCountEstimate m <= 9223372036854775807)%Z.
Definition live_column (c : string * string) : ColumnInfo :=
  {| ci_Name := c.1; ci_DeclaredType := c.2; ci_NonEmptyRate := S754_zero false; ci_UniqueCount := 0; ci_SampleValues := []; ci_Estimated := true |}.
Lemma column_read c : is_record column_fields (encode_column (live_column c)) = true /\ column_of (encode_column (live_column c)) = c.
Proof. destruct c as [n t]. split; vm_compute; reflexivity. Qed.
Lemma columns_read cs :
  let L := JArr (map encode_column (map live_column cs)) in is_columns L = true /\ match L with JArr vs => map column_of vs | _ => [] end = cs.
Proof.
  cbn. induction cs as [|c cs [IH1 IH2]]; [done|]. destruct (column_read c) as [H1 H2]. cbn [map forallb is_columns].
  rewrite H1, H2. split; [exact IH1|by f_equal].
Qed.
Lemma schema_read qualified m :
  metadata_valid qualified m ->
  let v := encode_schema (live_schema qualified m) in is_record schema_fields v = true /\ columns_of v = lm_Columns m /\ v <> JNull.
Proof.
  intros (_ & _ & Hr) v. subst v. unfold columns_of, record_of, is_record, encode_schema, live_schema.
  cbn [sc_TableName sc_RowCount sc_Columns sc_Sampling si_Method si_SourceRows si_SampleRows si_Estimated].
  change (fun c => _) with live_column. pose proof (columns_read (lm_Columns m)) as [H1 H2].
  rewrite bind_known_exact by (repeat (constructor; [vm_compute; tauto|]); constructor).
  pose proof (parse_int_itoa _ Hr) as Hi.
  set (s := JObj (("method", _) :: _)). assert (is_record sampling_fields s = true) as Hs.
  { subst s. unfold is_record. rewrite bind_known_exact by (repeat (constructor; [vm_compute; tauto|]); constructor).
    rewrite (bind_field _ "method" "method") by done.
    rewrite (bind_field _ "sourceRows" "sourceRows"); [|done..|apply (accepts_field _ 1 "sourceRows" is_jint); [done|unfold is_jint; by rewrite Hi]].
    rewrite (bind_field _ "sampleRows" "sampleRows") by done. rewrite (bind_field _ "estimated" "estimated") by done. by cbn [bind_fields]. }
  revert H1 H2. set (L := JArr _). assert (L <> JNull) as HL by done. assert (s <> JNull) as Hsn by done. intros H1 H2.
  assert (Hbind : exists mm, bind_fields schema_fields [("tableName", JStr qualified); ("rowCount", JNum (itoa (lm_RowCountEstimate m))); ("columns", L); ("sampling", s)] ∅ = Some mm
            /\ mm !! "columns" = Some L).
  { rewrite (bind_field _ "tableName" "tableName") by done.
    rewrite (bind_field _ "rowCount" "rowCount"); [|done..|apply (accepts_field _ 1 "rowCount" is_jint); [done|unfold is_jint; by rewrite Hi]].
    rewrite (bind_field _ "columns" "columns"); [|done..|by apply (accepts_field _ 2 "columns" is_columns)].
    rewrite (bind_field _ "sampling" "sampling"); [|done..|by apply (accepts_field _ 3 "sampling" (is_record sampling_fields))].
    cbn [bind_fields]. eexists. split; [reflexivity|]. by simplify_map_eq. }
  destruct Hbind as (mm & -> & Hmm). change (default ∅ (Some mm)) with mm. rewrite Hmm.
  split; [case_bool_decide as Hn; [done|by destruct Hn; eauto]|]. by split.
Qed.
(** The members of a record, but for those that are records themselves. *)
Ltac carries_all :=
  repeat first [apply Forall_nil_2 | apply Forall_cons_2; [split; [done|cbn [snd]; try (by auto with go lia); try (by split_and!)]|]].
(** The profile stored when an object is bound reads back. *)
Lemma facts_read qualified m :
  metadata_valid qualified m ->
  read_facts (Marshal (encode_facts (buildLiveProfileFacts (live_schema qualified m))))
  = Some (Some (lm_Columns m), fx_Warnings (buildLiveProfileFacts (live_schema qualified m))).
Proof.
  intros Hm. destruct (schema_read qualified m Hm) as (H1 & H2 & H3). destruct Hm as (Hq & Hc & Hr).
  assert (carries 3 (encode_schema (live_schema qualified m))) as Hs.
  { apply (carries_obj 2); [lia|done|]. carries_all.
    - apply (carries_arr 1); [lia|]. cbn [live_schema sc_Columns]. rewrite !Forall_fmap. eapply Forall_impl; [exact Hc|].
      intros [n t] [Hn Ht]. apply (carries_obj 0); [lia|done|]. carries_all. exact (carries_int 0 0 ltac:(lia)).
    - apply (carries_obj 1); [lia|done|]. carries_all. }
  unfold encode_facts, buildLiveProfileFacts. cbn [fx_Schema fx_ProfileMode fx_ImportRowLimit fx_ImportTruncated fx_SnapshotSizeBytes fx_Warnings].
  cbn [Z.eqb app jtexts_or_null]. generalize dependent (encode_schema (live_schema qualified m)). intros v H1 H2 H3 (Hok & _ & Hd).
  unfold read_facts. rewrite Unmarshal_Marshal; [|cbn; by split_and!|cbn; unfold maxNestingDepth in *; lia]. cbn [as_object].
  rewrite bind_known_exact by (repeat (constructor; [vm_compute; tauto|]); constructor).
  rewrite (bind_field _ "schema" "schema"); [|done..|by apply (accepts_field _ 0 "schema" (is_record schema_fields))].
  rewrite (bind_field _ "profile_mode" "profile_mode") by done. rewrite (bind_field _ "warnings" "warnings") by done.
  cbn [bind_fields]. unfold texts_field. simplify_map_eq. cbn. by rewrite H2.
Qed.

Section described.
Context `{Cipher} {V : Type} (sha256hex : string -> string).
Context (dial : SqlEngine -> DbConfig -> string -> res SErr (Upstream V)) (exec_text : QueryExecError -> string).
Context (secret : string) (resolve : string -> res SErr SqlEngine).
Implicit Types (db : Db).

(** The rows of an answered query are fewer than the bound it was given. *)
Lemma run_query_bounded e c sql timeoutSeconds maxRows rows :
  run_query dial exec_text e c secret sql timeoutSeconds maxRows = Ok rows ->
  (Z.of_nat (length (Rows (lr_Result rows))) < maxRows)%Z /\ lr_Dialect rows = EngineDialect e.
Proof.
  unfold run_query. destruct (1 <=? timeoutSeconds)%Z; [|done]. destruct (1 <=? maxRows)%Z eqn:Hm; [|done]. reflect_bools.
  destruct (OpenConnection dial e c secret) as [up|?]; [|done].
  assert (forall r, scanLiveQueryRows (V:=V) r maxRows = Ok (lr_Result rows) -> (Z.of_nat (length (Rows (lr_Result rows))) < maxRows)%Z) as Hscan.
  { intros r. unfold scanLiveQueryRows. destruct (maxRows <? 1)%Z; [done|]. intros Hr%read_rows_ok; [apply Hr|lia]. }
  destruct e; [unfold ExecutePostgresLiveQuery|unfold ExecuteMySQLLiveQuery].
  all: destruct (timeoutSeconds <? 1)%Z; [done|]; destruct (maxRows <? 1)%Z eqn:E; [done|].
  all: destruct (up_Conn up) as [cn|]; [|done]; destruct (conn_exec cn _); cbn [negb snd]; [|done]; destruct (conn_exec cn _); cbn [negb snd]; [|done].
  all: destruct (conn_query cn _) as [rs|]; cbn [snd]; [|done]; destruct (scanLiveQueryRows rs maxRows) as [q|?] eqn:Hq; [|done].
  all: intros [= <-]; split; [by eapply Hscan|done].
Qed.

Lemma require_binding_runs sessionID workspaceID sourceID db db' d :
  runs (requireLiveBinding sessionID workspaceID sourceID) db db' (Ok d) ->
  db' = db /\ db_sources db !! sourceID = Some d /\ ds_WorkspaceID d = workspaceID.
Proof.
  intros R. unfold requireLiveBinding, DataSource_GetByID, Binding_GetBySession in R. run_inv.
  repeat match goal with Hx : _ \/ _ = found _ |- _ => apply read_found in Hx end. by reflect_bools.
Qed.
Lemma live_snapshot_runs c source db db' s :
  runs (live_snapshot sha256hex c source) db db' (Ok s) ->
  db' = db /\ exists b,
    db_bindings db !! (lc_SessionID c, lc_SourceID c, SourceObjectKey sha256hex (lc_SourceID c) (ds_SourceType source) (lc_Schema c) (lc_Name c)) = Some b
    /\ db_snapshots db !! sb_ActiveSnapshotID b = Some s /\ sn_Mode s = SnapshotModeLive.
Proof.
  intros R. unfold live_snapshot, Binding_GetBySessionSourceObject, Snapshot_GetByID in R. run_inv.
  - repeat match goal with Hx : _ \/ _ = found _ |- _ => apply read_found in Hx end.
    match goal with Hx : bool_decide _ = true |- _ => apply bool_decide_eq_true_1 in Hx end. eauto.
  - match goal with Hx : runs (match ?e with _ => _ end) _ _ _ |- _ => destruct e; run_step Hx end.
Qed.
Lemma select_profile_in sessionID snapshotID found profiles p :
  select_profile sessionID snapshotID found profiles = Ok (Some p) ->
  found = Some p \/ p ∈ profiles /\ pf_SessionID p = sessionID /\ pf_SnapshotID p = snapshotID.
Proof.
  revert found. induction profiles as [|q profiles IH]; intros found; cbn [select_profile]; [intros [= ->]; by left|].
  destruct ((pf_SessionID q =? sessionID) && (pf_SnapshotID q =? snapshotID)) eqn:E.
  - destruct found; [done|]. intros [[= ->]|(? & ?)]%IH; [reflect_bools; right; split; [by left|done]|right; split; [by right|done]].
  - intros [?|(? & ?)]%IH; [by left|right; split; [by right|done]].
Qed.
Lemma stored_facts_runs c s db db' facts :
  runs (stored_facts c s) db db' (Ok facts) ->
  db' = db /\ exists p, pf_SessionID p = lc_SessionID c /\ pf_SnapshotID p = sn_ID s /\ pf_SourceID p = lc_SourceID c
    /\ (exists k, db_profiles db !! k = Some p) /\ read_facts (pf_ProfileJSON p) = Some (Some facts.1, facts.2).
Proof.
  intros R. unfold stored_facts, Profile_ListBySource in R. run_inv.
  match goal with Hx : _ \/ _ = Ok (newest_first _ _) |- _ => destruct Hx as [(? & [=])|[= ->]] end.
  match goal with Hx : Ok ?p = selectProfileForSnapshot _ _ _ |- _ => destruct p as [q|]; [symmetry in Hx; rename Hx into Hp; rename q into found|run_step R] end.
  apply select_profile_in in Hp as [[=]|(Hin & Hs & Hn)]. apply elem_of_newest, in_rows in Hin as (Hsrc & k & Hk). reflect_bools.
  destruct (read_facts _) as [[[cols|] w]|] eqn:Hf in R; run_step R. split; [done|]. eexists. eauto 8.
Qed.
Lemma read_sample_runs e c qualified db db' sample warnings :
  runs (read_sample dial exec_text secret e c qualified) db db' (Ok sample) ->
  db' = db /\ match sample.1 with
    | Some rows => (Z.of_nat (length (Rows (lr_Result rows))) <= lc_SampleRows c)%Z /\ (0 < lc_SampleRows c)%Z
                   /\ warnings ++ sample.2 = warnings /\ lr_Dialect rows = EngineDialect e
    | None => if (lc_SampleRows c <=? 0)%Z then warnings ++ sample.2 = warnings
              else exists err, warnings ++ sample.2 = warnings ++ [text ["sample query failed: "; err]]
    end.
Proof.
  intros R. unfold read_sample in R. destruct (lc_SampleRows c <=? 0)%Z eqn:Hn; [run_step R; split; [done|by rewrite app_nil_r]|].
  unfold ExecuteLiveQuery, findSourceConfig, SourceConfig_GetBySourceID in R. reflect_bools.
  apply runs_bind in R as [(e' & _ & [=])|(r & d & R1 & R)]. apply runs_try in R1 as (r0 & R1 & [= ->]).
  apply runs_ret in R as [-> [= ->]]. apply runs_bind in R1 as [(err & R1 & ->)|(cfg & d1 & R1 & R2)].
  - apply runs_read in R1 as [-> _]. split; [done|]. cbn [fst snd]. eauto.
  - apply runs_read in R1 as [-> _]. apply runs_lift in R2 as [-> ->]. split; [done|].
    destruct (run_query _ _ _ _ _ _ _ _) as [rows|err] eqn:Hq; cbn [fst snd]; [|eauto].
    apply run_query_bounded in Hq as [Hb Hd]. rewrite app_nil_r. split_and!; [lia|lia|done..].
Qed.

(** a description is of an object bound live to the session, in a source of the
    caller's workspace: its columns are those that were read when the object was bound, its
    size the snapshot's estimate; a sample has at most the asked rows, none is read when none
    is asked, and one that could not be read leaves a warning instead; nothing is written. *)
Theorem description_as_bound c db db' d :
  runs (DescribeSessionLiveTable sha256hex dial exec_text secret resolve c) db db' (Ok d) ->
  db' = db /\ (0 <= lc_SampleRows c <= 10000)%Z
  /\ exists source e b s p warnings, db_sources db !! lc_SourceID c = Some source /\ ds_WorkspaceID source = lc_WorkspaceID c
    /\ resolve (ds_SourceType source) = Ok e
    /\ db_bindings db !! (lc_SessionID c, lc_SourceID c, SourceObjectKey sha256hex (lc_SourceID c) (ds_SourceType source) (lc_Schema c) (lc_Name c)) = Some b
    /\ db_snapshots db !! sb_ActiveSnapshotID b = Some s /\ sn_Mode s = SnapshotModeLive
    /\ pf_SessionID p = lc_SessionID c /\ pf_SnapshotID p = sn_ID s /\ pf_SourceID p = lc_SourceID c /\ (exists k, db_profiles db !! k = Some p)
    /\ read_facts (pf_ProfileJSON p) = Some (Some (ld_Columns d), warnings)
    /\ (forall q m, metadata_valid q m -> pf_ProfileJSON p = Marshal (encode_facts (buildLiveProfileFacts (live_schema q m))) -> ld_Columns d = lm_Columns m)
    /\ ld_ColumnCount d = length (ld_Columns d) /\ ld_RowCountEstimate d = sn_RowCount s
    /\ match ld_Sample d with
       | Some rows => (Z.of_nat (length (Rows (lr_Result rows))) <= lc_SampleRows c)%Z /\ (0 < lc_SampleRows c)%Z
                      /\ ld_Warnings d = warnings /\ lr_Dialect rows = EngineDialect e
       | None => if (lc_SampleRows c <=? 0)%Z then ld_Warnings d = warnings
                 else exists err, ld_Warnings d = warnings ++ [text ["sample query failed: "; err]]
       end.
Proof.
  intros R. unfold DescribeSessionLiveTable in R. destruct (negb _) eqn:Hrange in R; [|by run_step R]. reflect_bools.
  apply runs_bind in R as [(? & _ & [=])|(source & d1 & R1 & R)]. apply require_binding_runs in R1 as (-> & Hsrc & Hw).
  apply runs_bind in R as [(? & _ & [=])|(e & d1 & R1 & R)]. apply runs_lift in R1 as (-> & He).
  apply runs_bind in R as [(? & _ & [=])|(s & d1 & R1 & R)]. apply live_snapshot_runs in R1 as (-> & b & Hb & Hs & Hm).
  apply runs_bind in R as [(? & _ & [=])|(facts & d1 & R1 & R)]. apply stored_facts_runs in R1 as (-> & p & Hp1 & Hp2 & Hp3 & Hp4 & Hf).
  apply runs_bind in R as [(? & _ & [=])|(sample & d1 & R1 & R)]. apply (read_sample_runs _ _ _ _ _ _ facts.2) in R1 as (-> & Hsample).
  apply runs_ret in R as [-> [= ->]]. split; [done|split; [done|]]. exists source, e, b, s, p, facts.2.
  cbn [ld_Columns ld_ColumnCount ld_RowCountEstimate ld_Sample ld_Warnings]. do 11 (split; [done|]). split; [|by split].
  intros q m Hv Hj. rewrite Hj, facts_read in Hf by done. by injection Hf as <- _.
Qed.
End described.

(** * An example: the object of the example source, bound live to a session *)

Module LiveExample.
Definition hex (s : string) : string := s.
Definition metadata : LiveMetadata := {| lm_Columns := [("id", "integer"); ("total", "numeric")]; lm_RowCountEstimate := 12 |}.
Definition qualified : string := Postgres_QualifyObject "public" "orders".
Definition before : Db :=
  Build_Db {["s1"]} (db_sources Toy.db) ∅ ∅ ∅ ∅ ∅ ∅ ∅ (db_configs Toy.db).
Definition bind_object : M SnapshotImportResult :=
  BindLiveSourceObject hex "ds_1" "s1" "w1" "public" "orders" (fun _ => Ok tt) (Ok metadata) qualified 1 1 "0123456789ab" "ba9876543210" 9.
Definition db : Db := run_of bind_object before [].
Definition rows : DbRows Z :=
  {| db_columns := Some ["id"; "total"]; db_rows := [Some [VOther 1%Z; VBytes "9.50"]; Some [VOther 2%Z; VBytes "12.00"]];
     db_err := false; db_close_ok := true |}.
Definition upstream : Upstream Z :=
  {| up_Conn := Some {| conn_exec := fun _ => true; conn_query := fun _ => Some rows; conn_close_ok := true |}; up_Count := fun _ _ _ => Ok 1%Z;
     up_Columns := fun _ _ => Ok {| cr_Rows := map Ok (lm_Columns metadata); cr_Err := None; cr_Close := None |};
     up_Estimate := fun _ _ => Ok (Some (Some 12%Z)); up_Close := None |}.
Definition dial (e : SqlEngine) (c : DbConfig) (password : string) : res SErr (Upstream Z) :=
  if password =? "hunter2" then Ok upstream else Err (SText "connection refused").
Definition call : LiveDescribeCall :=
  {| lc_SourceID := "ds_1"; lc_SessionID := "s1"; lc_WorkspaceID := "w1"; lc_Schema := "public"; lc_Name := "orders"; lc_SampleRows := 5 |}.
Definition describe : M (LiveTableDescription Z) := DescribeSessionLiveTable hex dial (fun _ => "") Toy.secret liveConnectorResolver call.
Definition shown : M (list LiveTableFact) := ListSessionLiveTables liveConnectorResolver "s1" "w1" "ds_1".
Definition orders : LiveTableFact :=
  {| lt_Schema := "public"; lt_Name := "orders"; lt_QualifiedName := qualified; lt_Kind := "table"; lt_RowCountEstimate := 12; lt_Estimated := true;
     lt_ProfileID := "sp_ba9876543210"; lt_SnapshotID := "snap_0123456789ab"; lt_Dialect := "postgres" |}.
Lemma orders_listed : (exec shown db).2 = Ok [orders].
Proof. vm_compute. reflexivity. Qed.
(** The columns of a description and the number of rows of its sample. *)
Definition summary (r : res SErr (LiveTableDescription Z)) : option (list (string * string) * option nat) :=
  match r with Ok d => Some (ld_Columns d, length ∘ Rows ∘ lr_Result <$> ld_Sample d) | Err _ => None end.
Lemma described : summary (exec describe db).2 = Some (lm_Columns metadata, Some 2).
Proof. vm_compute. reflexivity. Qed.
End LiveExample.


Lemma description_as_bound_witness :
  exists db' d, runs LiveExample.describe LiveExample.db db' (Ok d) /\ db' = LiveExample.db
    /\ LiveExample.summary (Ok d) = Some (lm_Columns LiveExample.metadata, Some 2) /\ (0 <= lc_SampleRows LiveExample.call <= 10000)%Z.
Proof.
  pose proof (runs_exec LiveExample.describe LiveExample.db) as R. pose proof LiveExample.described as Hd.
  destruct (exec LiveExample.describe LiveExample.db) as [db' [d|e]]; [|done]. exists db', d. split; [exact R|].
  destruct (description_as_bound LiveExample.hex LiveExample.dial (fun _ => "") Toy.secret liveConnectorResolver LiveExample.call
              LiveExample.db db' d R) as (Hdb & Hr & _).
  split; [exact Hdb|]. split; [exact Hd|exact Hr].
Defined.
