(* ===== verification/DataTools.v ===== *)
(** The tools through which the model reads data: tables listed, described and queried, on
    the session's own database or on a live source ([tools/tools.go]), and the ledger that
    holds the results of its queries ([tools/ledger.go]).

    What a driver returns for a cell is an argument with its JSON value, which it may lack:
    [encoding/json] refuses an infinite number.  The locks the tools hold while they read are
    not modelled. *)
From S2P Require Import Prelude GoStrings GoText Json JsonRoundtrip SqlGuard LiveQuery ReportState ReportOps ReportSnapshot StateTools Calls Sources Csv Ingest Connectors LiveTables.
From Stdlib Require Import Ascii.
Open Scope string_scope.
Open Scope list_scope.
Open Scope go_scope.

(** * The ledger *)

(** [lg_Refused]: the results with a value JSON cannot encode; their rows have null in its
    place. *)
Record Ledger := { lg_Report : ReportState; lg_Refused : gset string }.
Definition marshal_failed : string := Marshal (JObj [("ok", JBool false); ("message", JStr "tool response marshal failed")]).
(** The snapshot of the report, which encodes every result of its ledger. *)
Definition ledger_snapshot (l : Ledger) (now : time) : res SErr ReportSnapshot :=
  guard bool_decide (lg_Refused l ## dom (rp_Results (lg_Report l))) else SWrap "encode report results" (SText "json: unsupported value") ;;
  Ok (buildReportSnapshot (lg_Report l) now).

Record ledgerParams := { lp_ResultID : string; lp_ArtifactID : string }.
Definition decode_ledger_args (args : string) : option ledgerParams :=
  let! m := decode_struct [("result_id", is_jstr); ("artifact_id", is_jstr)] args in
  Some {| lp_ResultID := string_field m "result_id"; lp_ArtifactID := string_field m "artifact_id" |}.
Definition result_index (r : AnalysisResult) : jval :=
  JObj [("id", JStr (ar_ID r)); ("tool_name", JStr (ar_ToolName r)); ("operation", JStr (ar_Operation r)); ("row_count", JNum (itoa (ar_RowCount r)));
        ("created_at", JStr (ar_CreatedAt r))].
(** The records of a map in the order of their keys, which are their identifiers. *)
Definition by_key {A} (m : gmap string A) : list A := map snd (sort_keys (map_to_list m)).
Definition ledger_result (l : Ledger) (id : string) : string :=
  let tool := "state_analysis_ledger_inspect" in
  match rp_Results (lg_Report l) !! id with
  | None => toolFailure tool "result_not_found" "analysis result does not exist" [("result_id", JStr id)]
  | Some r => if bool_decide (id ∈ lg_Refused l) then marshal_failed
              else toolSuccess tool [("result", encode_result r); ("ui_summary", JStr (text ["已加载分析结果："; id]))]
  end.
Definition ledger_artifact (l : Ledger) (id : string) : string :=
  let tool := "state_analysis_ledger_inspect" in
  match rp_Artifacts (lg_Report l) !! id with
  | None => toolFailure tool "artifact_not_found" "artifact does not exist" [("artifact_id", JStr id)]
  | Some a => toolSuccess tool [("artifact", encode_artifact a); ("ui_summary", JStr (text ["已加载分析产物："; id]))]
  end.
Definition ledger_index (l : Ledger) : string :=
  let results := by_key (rp_Results (lg_Report l)) in
  let artifacts := by_key (rp_Artifacts (lg_Report l)) in
  toolSuccess "state_analysis_ledger_inspect"
    [("result_count", jnat (length results)); ("results", JArr (map result_index results));
     ("artifact_count", jnat (length artifacts)); ("artifacts", JArr (map encode_artifact artifacts));
     ("ui_summary", JStr (text ["分析台账包含 "; itoa (Z.of_nat (length results)); " 个结果和 "; itoa (Z.of_nat (length artifacts)); " 个产物。"]))].
Definition InspectAnalysisLedger_Execute (ledger : option Ledger) (args : string) : res ToolError string :=
  match ledger with
  | None => Err (EToolText "analysis ledger is not initialized")
  | Some l =>
      match decode_ledger_args args with
      | None => Err EToolArguments
      | Some p =>
          guard negb (not_exact (lp_ResultID p) || not_exact (lp_ArtifactID p))
          else EToolText "ledger IDs must not contain leading or trailing whitespace" ;;
          if negb (lp_ResultID p =? "") && negb (lp_ArtifactID p =? "") then
            Ok (toolFailure "state_analysis_ledger_inspect" "ambiguous_lookup" "provide result_id or artifact_id, not both" [])
          else if negb (lp_ResultID p =? "") then Ok (ledger_result l (lp_ResultID p))
          else if negb (lp_ArtifactID p =? "") then Ok (ledger_artifact l (lp_ArtifactID p))
          else Ok (ledger_index l)
      end
  end.

(** * Listing tables *)

(** SQLite's LIKE: [%] matches any text, [_] any character, letters of ASCII in any case. *)
Definition like_fold (r : Z) : Z := if ((65 <=? r) && (r <=? 90))%Z then (r + 32)%Z else r.
Fixpoint sql_like (pattern s : list Z) : bool :=
  match pattern with
  | [] => match s with [] => true | _ => false end
  | c :: pattern =>
      if (c =? 37)%Z then (fix any s := sql_like pattern s || match s with [] => false | _ :: s => any s end) s
      else match s with [] => false | r :: s => ((c =? 95)%Z || (like_fold c =? like_fold r)%Z) && sql_like pattern s end
  end.
Definition matches (name pattern : string) : bool := sql_like (runes pattern) (runes name).
(** The statement of the list: tables but SQLite's own and the program's, by name. *)
Definition local_tables : D (list string) :=
  do names := wrap "failed to query table list" (read (fun db => Ok (merge_sort String.le
    (List.filter (fun name => negb (matches name "sqlite_%") && negb (matches name "_oda_%")) (map fst (map_to_list db)))))) in
  do _ := wrap "failed while reading table list" (read (fun _ => Ok tt)) in
  ret names.
Definition tool_error {A} (r : res SErr A) : res ToolError A := match r with Ok a => Ok a | Err e => Err (EToolText (Error e)) end.
Definition list_local (tables : list string) : string :=
  match tables with
  | [] => toolSuccess "data_list_tables" [("scope", JStr "session_local"); ("table_count", jnat 0); ("tables", JArr []); ("empty", JBool true);
                                          ("ui_summary", JStr "当前没有已导入的数据表。")]
  | _ => toolSuccess "data_list_tables"
           [("scope", JStr "session_local"); ("table_count", jnat (length tables)); ("tables", jtexts tables); ("empty", JBool false);
            ("ui_summary", JStr (text ["当前共有 "; itoa (Z.of_nat (length tables)); " 个已导入数据表。"]))]
  end.
Definition encode_fact (f : LiveTableFact) : jval :=
  as_maps (JObj [("schema", JStr (lt_Schema f)); ("name", JStr (lt_Name f)); ("qualified_name", JStr (lt_QualifiedName f)); ("kind", JStr (lt_Kind f));
                 ("row_count_estimate", JNum (itoa (lt_RowCountEstimate f))); ("estimated", JBool (lt_Estimated f));
                 ("profile_id", JStr (lt_ProfileID f)); ("snapshot_id", JStr (lt_SnapshotID f)); ("dialect", JStr (lt_Dialect f))]).
Definition list_live (context : bool) (live : option (string -> res SErr (list LiveTableFact))) (sourceID : string) : string :=
  let failure := toolFailure "data_list_tables" in
  match live with
  | None => failure "live_unavailable" "live table listing is not configured for this session" [("source_id", JStr sourceID)]
  | Some live =>
      if negb context then failure "execution_context_missing" "execution context is not initialized for this tool call" [("source_id", JStr sourceID)]
      else match live sourceID with
      | Err e => failure "live_table_list_failed" "failed to list live source tables" [("source_id", JStr sourceID); ("detail", JStr (Error e))]
      | Ok facts =>
          toolSuccess "data_list_tables"
            [("source_id", JStr sourceID); ("scope", JStr "live_source"); ("table_count", jnat (length facts)); ("tables", JArr (map encode_fact facts));
             ("empty", JBool (length facts =? 0)%nat);
             ("ui_summary", JStr (text ["数据源 "; sourceID; " 当前绑定 "; itoa (Z.of_nat (length facts)); " 个实时对象。"]))]
      end
  end.
(** [local] is the result of [local_tables], [None] without a database; [live] that of
    [ListSessionLiveTables] for the session. *)
Definition ListTables_Execute (local : option (res SErr (list string))) (context : bool) (live : option (string -> res SErr (list LiveTableFact)))
    (args : string) : res ToolError string :=
  match decode_struct [("source_id", is_jstr)] args with
  | None => Err EToolArguments
  | Some m =>
      let sourceID := string_field m "source_id" in
      if negb (blank sourceID) then Ok (list_live context live sourceID)
      else match local with
      | None => Err (EToolText "database not initialized")
      | Some tables => let? tables := tool_error tables in Ok (list_local tables)
      end
  end.

Section cells.
Context {V : Type} (value_json : V -> option jval).

(** * Rows as JSON *)

(** Scanning has turned bytes into text. *)
Definition cell_json (v : SqlValue V) : option jval :=
  match v with VBytes b => Some (JStr b) | VString s => Some (JStr s) | VOther v => value_json v end.
Definition row_cells (row : gmap string (SqlValue V)) : list (string * option jval) :=
  sort_keys (map (fun kv => (kv.1, cell_json kv.2)) (map_to_list row)).
Definition row_json (row : gmap string (SqlValue V)) : list (string * jval) := map (fun kv => (kv.1, default JNull kv.2)) (row_cells row).
Definition encodable (rows : list (gmap string (SqlValue V))) : bool :=
  forallb (fun row => forallb (fun kv => bool_decide (is_Some kv.2)) (row_cells row)) rows.
(** [json.Marshal] of a payload that has these rows. *)
Definition with_rows (rows : list (gmap string (SqlValue V))) (response : string) : string := if encodable rows then response else marshal_failed.
Definition rows_json (rows : list (gmap string (SqlValue V))) : jval := JArr (map (fun row => JObj (row_json row)) rows).

(** * Describing a table *)

Record describeParams := { dp_TableName : string; dp_SampleRows : option Z; dp_SourceID : string; dp_SchemaName : string }.
Definition decode_describe (args : string) : option describeParams :=
  let! m := decode_struct [("table_name", is_jstr); ("sample_rows", is_jint); ("source_id", is_jstr); ("schema_name", is_jstr)] args in
  Some {| dp_TableName := string_field m "table_name"; dp_SampleRows := (fun _ => int_field m "sample_rows") <$> m !! "sample_rows";
          dp_SourceID := string_field m "source_id"; dp_SchemaName := string_field m "schema_name" |}.
Definition jint_or_null (n : option Z) : jval := match n with Some n => JNum (itoa n) | None => JNull end.
Definition describe_failure (code message : string) (payload : list (string * jval)) : string :=
  toolFailure "data_describe_table" code message payload.

Section local.
Context `{SQLite}.
Definition describe_local (tableName : string) (sampleRows : Z) : D string :=
  match ValidateSQLIdent tableName with
  | Err e => ret (describe_failure "invalid_table_name" (ident_text e) [("table_name", JStr tableName)])
  | Ok _ =>
      do r := try (ExtractSchemaBounded tableName sampleRows) in
      ret (match r with
           | Err e => describe_failure "schema_lookup_failed" "failed to read table structure" [("table_name", JStr tableName); ("detail", JStr (Error e))]
           | Ok s =>
               toolSuccess "data_describe_table"
                 [("table_name", JStr (sc_TableName s)); ("row_count", JNum (itoa (sc_RowCount s))); ("column_count", jnat (length (sc_Columns s)));
                  ("schema", encode_schema s);
                  ("sampling", JObj [("method", JStr (si_Method (sc_Sampling s))); ("sourceRows", JNum (itoa (si_SourceRows (sc_Sampling s))));
                                     ("sampleRows", JNum (itoa (si_SampleRows (sc_Sampling s)))); ("estimated", JBool (si_Estimated (sc_Sampling s)))]);
                  ("ui_summary", JStr (text ["数据表 "; sc_TableName s; " 的结构检查已完成，共 "; itoa (Z.of_nat (length (sc_Columns s))); " 列、";
                                             itoa (sc_RowCount s); " 行。"]))]
           end)
  end.
End local.

Definition sample_json (rows : LiveQueryRows V) : jval :=
  let r := lr_Result rows in
  JObj (sort_keys [("columns", jtexts_or_null (Columns r)); ("rows", rows_json (Rows r)); ("row_count", jnat (length (Rows r)))]).
Definition description_json (d : LiveTableDescription V) : string :=
  with_rows (match ld_Sample d with Some rows => Rows (lr_Result rows) | None => [] end)
    (toolSuccess "data_describe_table"
       ([("source_id", JStr (ld_SourceID d)); ("scope", JStr "live_source"); ("schema_name", JStr (ld_Schema d)); ("table_name", JStr (ld_Name d));
         ("qualified_name", JStr (ld_QualifiedName d)); ("dialect", JStr (ld_Dialect d)); ("row_count", JNum (itoa (ld_RowCountEstimate d)));
         ("row_count_source", JStr "upstream_engine_estimate"); ("column_count", jnat (ld_ColumnCount d));
         ("columns", JArr (map (fun c => JObj [("declared_type", JStr c.2); ("name", JStr c.1)]) (ld_Columns d)));
         ("sample_rows", JNum (itoa (ld_SampleRows d))); ("sampling", JObj [("estimated", JBool true); ("method", JStr "live_catalog")]);
         ("ui_summary", JStr (text ["数据表 "; ld_QualifiedName d; " 的结构检查已完成，共 "; itoa (Z.of_nat (ld_ColumnCount d)); " 列。"]))]
        ++ (match ld_Sample d with Some rows => [("sample", sample_json rows)] | None => [] end)
        ++ (match ld_Warnings d with [] => [] | l => [("warnings", jtexts l)] end))).
Abbreviation Describe := (string -> string -> string -> Z -> res SErr (LiveTableDescription V)).
Definition describe_live (context : bool) (live : option Describe) (p : describeParams) (sampleRows : Z) : string :=
  match live with
  | None => describe_failure "live_unavailable" "live table description is not configured for this session" [("source_id", JStr (dp_SourceID p))]
  | Some live =>
      if blank (dp_SchemaName p) then
        describe_failure "invalid_schema_name" "schema_name is required when source_id is set" [("source_id", JStr (dp_SourceID p))]
      else
        let r := if context then live (dp_SourceID p) (dp_SchemaName p) (dp_TableName p) sampleRows
                 else Err (SText "execution context is not initialized for this tool call") in
        match r with
        | Err e => describe_failure "schema_lookup_failed" "failed to read live table structure"
                     [("source_id", JStr (dp_SourceID p)); ("schema_name", JStr (dp_SchemaName p)); ("table_name", JStr (dp_TableName p));
                      ("detail", JStr (Error e))]
        | Ok d => description_json d
        end
  end.
(** [local] is what [describe_local] answers, [None] without a database. *)
Definition DescribeData_Execute (local : option (string -> Z -> res SErr string)) (context : bool) (live : option Describe) (args : string) :
    res ToolError string :=
  match decode_describe args with
  | None => Err EToolArguments
  | Some p =>
      let invalid := Ok (describe_failure "invalid_sample_rows" "sample_rows must be explicitly set between 0 and 10000"
                           [("sample_rows", jint_or_null (dp_SampleRows p))]) in
      match dp_SampleRows p with
      | None => invalid
      | Some n =>
          if (n <? 0)%Z || (10000 <? n)%Z then invalid
          else if negb (blank (dp_SourceID p)) then Ok (describe_live context live p n)
          else match local with
          | None => Err (EToolText "database not initialized")
          | Some local => tool_error (local (dp_TableName p) n)
          end
      end
  end.

(** * Querying *)

Definition liveQueryMaxRows : Z := 201.
Record QueryDataTool := {
  qt_Database : option (option (Conn V));   (* the connection, when there is a database *)
  qt_Live : option (string -> string -> Z -> Z -> res SErr (LiveQueryRows V));
  qt_Context : bool
}.
Record queryParams := { qp_SQL : string; qp_TimeoutSeconds : option Z; qp_SourceID : string }.
Definition decode_query (args : string) : option queryParams :=
  let! m := decode_struct [("sql", is_jstr); ("timeout_seconds", is_jint); ("source_id", is_jstr)] args in
  Some {| qp_SQL := string_field m "sql"; qp_TimeoutSeconds := (fun _ => int_field m "timeout_seconds") <$> m !! "timeout_seconds";
          qp_SourceID := string_field m "source_id" |}.
Definition query_failure (code message : string) (payload : list (string * jval)) : string := toolFailure "data_query_sql" code message payload.
(** What a query gave: its source, dialect, columns and rows. *)
Record Answer := { an_SourceID : string; an_Dialect : string; an_Columns : list string; an_Rows : list (gmap string (SqlValue V)) }.
Definition answer_count (a : Answer) : Z := Z.of_nat (length (an_Rows a)).
Definition result_of (id sql now : string) (a : Answer) : AnalysisResult :=
  {| ar_ID := id; ar_ToolName := "data_query_sql"; ar_Operation := sql; ar_Columns := an_Columns a; ar_Rows := map row_json (an_Rows a);
     ar_RowCount := answer_count a; ar_SourceID := an_SourceID a; ar_Dialect := an_Dialect a; ar_CreatedAt := now |}.
Definition record_answer (l : Ledger) (r : AnalysisResult) (a : Answer) : res ReportError Ledger :=
  let? st := RecordResult (lg_Report l) r in
  Ok {| lg_Report := st; lg_Refused := if encodable (an_Rows a) then lg_Refused l ∖ {[ar_ID r]} else {[ar_ID r]} ∪ lg_Refused l |}.
(** The result is recorded, then told. *)
Definition tell (ledger : option Ledger) (id sql now : string) (a : Answer) (response : string) : option Ledger * res ToolError string :=
  match ledger with
  | None => (None, Ok (with_rows (an_Rows a) response))
  | Some l =>
      match record_answer l (result_of id sql now a) a with
      | Err _ => (ledger, Err (EToolText "failed to record analysis result: analysis result ID must be a non-empty exact value"))
      | Ok l => (Some l, Ok (with_rows (an_Rows a) response))
      end
  end.
Definition live_response (id sql : string) (a : Answer) : string :=
  toolSuccess "data_query_sql"
    [("result_id", JStr id); ("sql", JStr sql); ("source_id", JStr (an_SourceID a)); ("dialect", JStr (an_Dialect a)); ("scope", JStr "live_source");
     ("row_count", JNum (itoa (answer_count a))); ("columns", jtexts_or_null (an_Columns a)); ("rows", rows_json (an_Rows a));
     ("ui_summary", JStr (text ["实时查询成功，返回 "; itoa (answer_count a); " 行。"]))].
(** Without a row the rows of the local query are a nil slice. *)
Definition local_response (id sql : string) (a : Answer) : string :=
  toolSuccess "data_query_sql"
    [("result_id", JStr id); ("sql", JStr sql); ("scope", JStr "session_local"); ("row_count", JNum (itoa (answer_count a)));
     ("columns", jtexts_or_null (an_Columns a)); ("rows", match an_Rows a with [] => JNull | rows => rows_json rows end);
     ("ui_summary", JStr (text ["查询成功，返回 "; itoa (answer_count a); " 行。"]))].

Context (upper : Z -> Z) (exec_text : list QueryExecError -> string).
(** [hex20] are the digits of a fresh UUID, [now] the time of the record. *)
Context (hex20 now : string).
Definition resultID : string := text ["res_"; hex20].
Definition query_live (t : QueryDataTool) (ledger : option Ledger) (sql : string) (timeoutSeconds : Z) (sourceID : string) :
    option Ledger * res ToolError string :=
  match qt_Live t with
  | None => (ledger, Ok (query_failure "live_unavailable" "live query execution is not configured for this session" [("source_id", JStr sourceID)]))
  | Some live =>
      if negb (qt_Context t) then (ledger, Ok (query_failure "missing_execution_context" "tool execution context is not initialized" []))
      else match live sourceID sql timeoutSeconds liveQueryMaxRows with
      | Err e => (ledger, Ok (query_failure "query_failed" "live SQL execution failed"
                                [("sql", JStr sql); ("source_id", JStr sourceID); ("detail", JStr (Error e))]))
      | Ok r =>
          let a := {| an_SourceID := sourceID; an_Dialect := lr_Dialect r; an_Columns := Columns (lr_Result r); an_Rows := Rows (lr_Result r) |} in
          tell ledger resultID sql now a (live_response resultID sql a)
      end
  end.
Definition query_local (t : QueryDataTool) (ledger : option Ledger) (sql : string) (timeoutSeconds : Z) : option Ledger * res ToolError string :=
  match qt_Database t with
  | None => (ledger, Err (EToolText "database not initialized"))
  | Some conn =>
      if negb (qt_Context t) then (ledger, Ok (query_failure "missing_execution_context" "tool execution context is not initialized" []))
      else match (ExecuteQueryDetailedContext upper true conn sql (timeoutSeconds * Second)).2 with
      | Err es => (ledger, Ok (query_failure "query_failed" "SQL execution failed" [("sql", JStr sql); ("detail", JStr (exec_text es))]))
      | Ok r =>
          let a := {| an_SourceID := ""; an_Dialect := ""; an_Columns := Columns r; an_Rows := Rows r |} in
          tell ledger resultID sql now a (local_response resultID sql a)
      end
  end.
Definition QueryData_Execute (t : QueryDataTool) (ledger : option Ledger) (args : string) : option Ledger * res ToolError string :=
  match decode_query args with
  | None => (ledger, Err EToolArguments)
  | Some p =>
      let n := default 0%Z (qp_TimeoutSeconds p) in
      if (n <? 1)%Z || (QueryTimeoutLargeSeconds <? n)%Z then
        (ledger, Ok (query_failure "invalid_timeout" "timeout_seconds must be explicitly set between 1 and 30" [("timeout_seconds", JNum (itoa n))]))
      else if negb (blank (qp_SourceID p)) then query_live t ledger (qp_SQL p) n (qp_SourceID p)
      else query_local t ledger (qp_SQL p) n
  end.
End cells.

(** * The live queries of a session *)

Section provider.
Context `{Cipher} {V : Type} (dial : SqlEngine -> DbConfig -> string -> res SErr (Upstream V)) (exec_text : QueryExecError -> string).
Context (secret : string) (resolve : string -> res SErr SqlEngine) (tables : (Z -> Z) * (Z -> Z)) (live_text : LiveError SErr -> string).

(** [LiveQueryProvider]: the boundary of the session, then the connector of the source. *)
Definition LiveQueryProvider (sessionID workspaceID : string) (db : Db) (sourceID sql : string) (timeoutSeconds maxRows : Z) : res SErr (LiveQueryRows V) :=
  match ExecuteSessionLiveQuery tables (repos_of db) (fun t => is_ok (resolve t))
          {| lq_SourceID := sourceID; lq_SessionID := sessionID; lq_WorkspaceID := workspaceID; lq_SQL := sql;
             lq_TimeoutSeconds := timeoutSeconds; lq_MaxRows := maxRows |} with
  | Err e => Err (SText (live_text e))
  | Ok call =>
      let? e := resolve (cc_SourceType call) in
      (exec (ExecuteLiveQuery dial exec_text e (cc_SourceID call) secret (cc_SQL call) (cc_TimeoutSeconds call) (cc_MaxRows call)) db).2
  end.
End provider.
