(* ===== verification/DataToolProps.v ===== *)
(** What the data tools guarantee: a query changes nothing of the report but the ledger, by
    one result of an accepted statement with at most 200 rows; the list of tables is the
    tables of imports, in order; and what a number JSON cannot encode does to the ledger. *)
From S2P Require Import Prelude GoStrings GoText Json JsonRoundtrip SqlGuard LiveQuery ReportState ReportOps ReportProps ReportSnapshot Spill StateTools Calls Sources Csv Ingest Connectors ConnectorProps LiveTables DataTools.
From Stdlib Require Import Ascii.
Open Scope string_scope.
Open Scope list_scope.

(** * Queries *)

(** The report but for its results. *)
Definition same_report (st st' : ReportState) : Prop :=
  rp_Blocks st' = rp_Blocks st /\ rp_Charts st' = rp_Charts st /\ rp_FinalTitle st' = rp_FinalTitle st /\ rp_FinalAuthor st' = rp_FinalAuthor st
  /\ rp_Layout st' = rp_Layout st /\ rp_NeedsFinalize st' = rp_NeedsFinalize st /\ rp_MutationVersion st' = rp_MutationVersion st
  /\ rp_Artifacts st' = rp_Artifacts st.

Section query.
Context `{Cipher} {V : Type} (value_json : V -> option jval) (tables : (Z -> Z) * (Z -> Z)) (exec_texts : list QueryExecError -> string).
Context (dial : SqlEngine -> DbConfig -> string -> res SErr (Upstream V)) (exec_text : QueryExecError -> string).
Context (secret : string) (resolve : string -> res SErr SqlEngine) (live_text : LiveError SErr -> string) (sessionID workspaceID : string).
Abbreviation provider db := (LiveQueryProvider dial exec_text secret resolve tables live_text sessionID workspaceID db).
Abbreviation Execute := (QueryData_Execute value_json (fst tables) exec_texts).
Implicit Types (l : Ledger) (t : QueryDataTool (V:=V)).

Lemma local_answer conn sql timeout r :
  (ExecuteQueryDetailedContext (V:=V) (fst tables) true conn sql timeout).2 = Ok r ->
  normalizeReadOnlyQuery (fst tables) sql = Ok sql /\ (Z.of_nat (length (Rows r)) <= queryRowLimit)%Z.
Proof.
  unfold ExecuteQueryDetailedContext. destruct (normalizeReadOnlyQuery (fst tables) sql) as [q|e] eqn:Hq; [|done].
  apply normalized_same in Hq as Hsame. subst q. destruct (timeout <=? 0)%Z; [done|]. cbn [negb]. destruct conn as [c|]; [|done].
  destruct (conn_exec c "PRAGMA query_only = ON"); cbn [negb]; [|by intros [_ ?]%join_errors_ok].
  destruct (conn_query c _) as [rows|]; [|by intros [_ ?]%join_errors_ok].
  cbn [snd]. intros [_ [_ Hr]%join_errors_ok]%join_errors_ok. apply lift_ok, read_rows_ok in Hr as (_ & _ & _ & _ & Hb); [|done].
  split; [done|]. unfold queryProbeRows in Hb. lia.
Qed.
Lemma live_answer db sourceID sql timeout maxRows r :
  provider db sourceID sql timeout maxRows = Ok r -> maxRows <> 0%Z ->
  normalizeReadOnlyQuery (fst tables) sql = Ok sql /\ (Z.of_nat (length (Rows (lr_Result r))) < maxRows)%Z.
Proof.
  unfold LiveQueryProvider, ExecuteSessionLiveQuery. cbn [lq_SourceID lq_SessionID lq_WorkspaceID lq_SQL lq_TimeoutSeconds lq_MaxRows].
  intros Hok Hz. destruct (_ || _ || _)%bool; [done|]. destruct (_ || (QueryTimeoutLargeSeconds <? _)%Z)%bool; [done|].
  rewrite (proj2 (Z.eqb_neq maxRows 0) Hz) in Hok. destruct (_ || (liveQueryProbeRows <? maxRows)%Z)%bool; [done|].
  unfold NormalizeReadOnlyQuery in Hok. destruct (normalizeReadOnlyQuery (fst tables) sql) as [q|] eqn:Hq; [|done].
  apply normalized_same in Hq as Hsame. subst q. destruct (requireLiveBindings _ _ _ _) as [[source bindings]|]; [|done]. cbn [fst snd] in Hok.
  destruct (enforceLiveQueryObjectBoundary _ _ _ _ _); [|done]. destruct (negb _); [done|]. cbn [cc_SourceType cc_SourceID cc_SQL cc_TimeoutSeconds cc_MaxRows] in Hok.
  destruct (resolve _) as [e|]; [|done]. split; [done|].
  destruct (exec _ db) as [db' r'] eqn:E. cbn [snd] in Hok. subst r'.
  pose proof (runs_exec (ExecuteLiveQuery dial exec_text e sourceID secret sql timeout maxRows) db) as R. rewrite E in R. cbn [fst snd] in R.
  unfold ExecuteLiveQuery, findSourceConfig, SourceConfig_GetBySourceID in R. apply runs_bind in R as [(? & _ & [=])|(c & d & R1 & R)].
  apply runs_read in R1 as [-> _]. apply runs_lift in R as [_ Hr]. symmetry in Hr. by apply run_query_bounded in Hr as [? _].
Qed.

(** What the tool does with its ledger: nothing, or one more result. *)
Definition queried hex20 now sql (l l' : Ledger) (r : res ToolError string) : Prop :=
  exists res rows, ar_ID res = resultID hex20 /\ ar_ToolName res = "data_query_sql" /\ ar_Operation res = sql /\ ar_CreatedAt res = now
    /\ normalizeReadOnlyQuery (fst tables) sql = Ok sql
    /\ ar_Rows res = map (row_json value_json) rows /\ ar_RowCount res = Z.of_nat (length rows) /\ (ar_RowCount res <= 200)%Z
    /\ rp_Results (lg_Report l') = <[ar_ID res := res]> (rp_Results (lg_Report l)) /\ same_report (lg_Report l) (lg_Report l')
    /\ (encodable value_json rows = true -> lg_Refused l' = lg_Refused l ∖ {[ar_ID res]}
          /\ exists payload, r = Ok (toolSuccess "data_query_sql" (("result_id", JStr (ar_ID res)) :: payload)))
    /\ (encodable value_json rows = false -> lg_Refused l' = {[ar_ID res]} ∪ lg_Refused l /\ r = Ok marshal_failed).
Lemma tell_queried hex20 now sql (a : Answer) l payload (l' : option Ledger) r :
  normalizeReadOnlyQuery (fst tables) sql = Ok sql -> (answer_count a <= 200)%Z ->
  tell value_json (Some l) (resultID hex20) sql now a (toolSuccess "data_query_sql" (("result_id", JStr (resultID hex20)) :: payload)) = (l', r) ->
  (l' = Some l /\ exists e, r = Err e) \/ exists l1, l' = Some l1 /\ queried hex20 now sql l l1 r.
Proof.
  intros Hsql Hc. unfold tell, record_answer, RecordResult. cbn [ar_ID result_of].
  destruct ((resultID hex20 =? "") || not_exact (resultID hex20)); [intros [= <- <-]; left; eauto|].
  intros [= <- <-]. right. eexists. split; [reflexivity|]. exists (result_of value_json (resultID hex20) sql now a), (an_Rows a).
  cbn [ar_ID ar_ToolName ar_Operation ar_CreatedAt ar_Rows ar_RowCount result_of lg_Report lg_Refused rp_Results with_ledger]. unfold with_rows.
  do 9 (split; [done|]). split; [done|]. split; intros ->; [|done]. split; [done|]. by eexists.
Qed.


(** ** A value that cannot be encoded *)

Definition poisoned l (id : string) : Prop := id ∈ lg_Refused l /\ is_Some (rp_Results (lg_Report l) !! id).
Lemma poisoned_snapshot l id now : poisoned l id -> is_ok (ledger_snapshot l now) = false.
Proof.
  intros [Hid Hr]. unfold ledger_snapshot. case_bool_decide as Hd; [|done]. exfalso.
  apply (Hd id); [done|]. by apply elem_of_dom.
Qed.
Lemma tell_keeps hex20 now sql (a : Answer) l response (l' : option Ledger) r id :
  id <> resultID hex20 -> poisoned l id -> tell value_json (Some l) (resultID hex20) sql now a response = (l', r) -> exists l1, l' = Some l1 /\ poisoned l1 id.
Proof.
  intros Hne [Hid Hr]. unfold tell, record_answer, RecordResult. cbn [ar_ID result_of].
  destruct ((resultID hex20 =? "") || not_exact (resultID hex20)); intros [= <- <-]; [exists l; by split|].
  eexists. split; [reflexivity|]. split; cbn [lg_Report lg_Refused rp_Results with_ledger].
  - destruct (encodable _ _); set_solver.
  - by rewrite lookup_insert_ne.
Qed.
(** No later query repairs the ledger. *)
Lemma poisoned_stays t l args hex20 now (l' : option Ledger) r id :
  id <> resultID hex20 -> poisoned l id -> Execute hex20 now t (Some l) args = (l', r) -> exists l1, l' = Some l1 /\ poisoned l1 id.
Proof.
  intros Hne Hp. unfold QueryData_Execute. assert (forall (o : option Ledger) (x : res ToolError string), (Some l, x) = (o, r) -> exists l1, o = Some l1 /\ poisoned l1 id) as Hsame.
  { intros o x [= <- _]. eauto. }
  destruct (decode_query args) as [p|]; [|apply Hsame]. destruct (_ || _)%bool; [apply Hsame|]. destruct (negb (blank _)).
  - unfold query_live. destruct (qt_Live t); [|apply Hsame]. destruct (negb (qt_Context t)); [apply Hsame|].
    destruct (r0 _ _ _ _); [by apply tell_keeps|apply Hsame].
  - unfold query_local. destruct (qt_Database t); [|apply Hsame]. destruct (negb (qt_Context t)); [apply Hsame|].
    destruct (ExecuteQueryDetailedContext _ _ _ _ _).2; [by apply tell_keeps|apply Hsame].
Qed.
End query.

(** * An example: a query on the session's database *)

Module QueryExample.
Definition rows : DbRows (option Z) :=
  {| db_columns := Some ["n"]; db_rows := [Some [VOther (Some 1%Z)]]; db_err := false; db_close_ok := true |}.
Definition infinite : DbRows (option Z) :=
  {| db_columns := Some ["n"]; db_rows := [Some [VOther None]]; db_err := false; db_close_ok := true |}.
Definition id_tables : (Z -> Z) * (Z -> Z) := (fun c => c, fun c => c).
(** A driver's number is a whole one, or infinite. *)
Definition value (v : option Z) : option jval := (fun n => JNum (itoa n)) <$> v.
Definition conn (r : DbRows (option Z)) : Conn (option Z) := {| conn_exec := fun _ => true; conn_query := fun _ => Some r; conn_close_ok := true |}.
Definition tool (r : DbRows (option Z)) : QueryDataTool :=
  {| qt_Database := Some (Some (conn r)); qt_Live := None; qt_Context := true |}.
Definition sql : string := "SELECT 1 AS n".
Definition args : string := Marshal (JObj [("sql", JStr sql); ("timeout_seconds", JNum "5")]).
Definition hex20 : string := "0123456789abcdef0123".
Definition execute (r : DbRows (option Z)) : option Ledger * res ToolError string :=
  QueryData_Execute value (fst id_tables) (fun _ => "") hex20 "now" (tool r) (Some {| lg_Report := empty_report; lg_Refused := ∅ |}) args.
Definition summary (o : option Ledger) : option (list (string * (Z * list (list (string * jval)))) * list string) :=
  (fun l => (map (fun kv => (kv.1, (ar_RowCount kv.2, ar_Rows kv.2))) (map_to_list (rp_Results (lg_Report l))), elements (lg_Refused l))) <$> o.
Lemma query_answered : summary (execute rows).1 = Some ([("res_0123456789abcdef0123", (1%Z, [[("n", JNum "1")]]))], []).
Proof. vm_compute. reflexivity. Qed.
Lemma overflowed : summary (execute infinite).1 = Some ([("res_0123456789abcdef0123", (1%Z, [[("n", JNull)]]))], ["res_0123456789abcdef0123"])
  /\ (execute infinite).2 = Ok marshal_failed.
Proof. vm_compute. split; reflexivity. Qed.
End QueryExample.


(** After a query whose answer holds an infinite number, the run's ledger has no snapshot, and
    no later query with another identifier changes that. *)
Theorem infinite_value_blocks_snapshot t args hex20 now now' (l' : option Ledger) r l :
  (QueryExample.execute QueryExample.infinite).1 = Some l -> resultID hex20 <> resultID QueryExample.hex20 ->
  QueryData_Execute QueryExample.value (fst QueryExample.id_tables) (fun _ => "") hex20 now t (Some l) args = (l', r) ->
  exists l1, l' = Some l1 /\ is_ok (ledger_snapshot l1 now') = false.
Proof.
  intros Hl Hne Hr. assert (poisoned l (resultID QueryExample.hex20)) as Hp.
  { pose proof (proj1 QueryExample.overflowed) as Hs. rewrite Hl in Hs. unfold QueryExample.summary in Hs. cbn [fmap option_fmap option_map] in Hs.
    injection Hs as Hm He. split.
    - apply elem_of_elements. by rewrite He, list_elem_of_singleton.
    - rewrite <- (list_to_map_to_list (rp_Results (lg_Report l))). destruct (map_to_list _) as [|[i x] [|]]; try discriminate Hm.
      injection Hm as -> _ _. cbn. rewrite lookup_insert. by eexists. }
  destruct (poisoned_stays QueryExample.value QueryExample.id_tables (fun _ => "") (fun _ => Err (SText "")) t l args hex20 now l' r (resultID QueryExample.hex20)) as (l1 & -> & Hp1);
    [by intros E; apply Hne|done|exact Hr|]. exists l1. split; [done|]. by eapply poisoned_snapshot.
Qed.

(** * The list of tables *)

Lemma sql_like_everything s : sql_like [37%Z] s = true.
Proof. induction s as [|r s IH]; [done|]. cbn in *. by rewrite IH. Qed.
(** The program's scratch tables are hidden, its tables of imports are not. *)
Lemma scratch_hidden suffix : matches (text ["_oda_sample_"; suffix]) "_oda_%" = true.
Proof.
  assert (E : exists s, runes (text ["_oda_sample_"; suffix]) = [95; 111; 100; 97; 95]%Z ++ s) by (eexists; cbn; reflexivity).
  destruct E as [s E]. unfold matches. rewrite E. apply (sql_like_everything s).
Qed.
Definition shown (name : string) : bool := negb (matches name "sqlite_%") && negb (matches name "_oda_%").
Lemma import_listed id table : SnapshotScopedAnalysisTableName id = Ok table -> shown table = true.
Proof.
  unfold SnapshotScopedAnalysisTableName. destruct (_ || _)%bool; [done|]. destruct (ValidateSQLIdent _); [|done]. intros [= <-].
  assert (E : exists s, runes (text ["analysis_"; id]) = [97; 110]%Z ++ s) by (eexists; cbn; reflexivity).
  destruct E as [s E]. unfold shown, matches. rewrite E. reflexivity.
Qed.
Lemma filter_is {A} (p : A -> bool) l : List.filter p l = filter (fun x => p x = true) l.
Proof. induction l as [|a l IH]; [done|]. rewrite filter_cons. cbn. rewrite IH. destruct (p a) eqn:E; case_decide; congruence. Qed.

(** the tool lists, in order and once each, the tables of the session but those SQLite and
    the program keep for themselves: the table of an imported snapshot is always listed, a
    scratch table of a sampling never, and listing changes nothing. *)
Theorem tables_listed (db db' : Tables) names :
  runs local_tables db db' (Ok names) ->
  db' = db /\ StronglySorted String.le names /\ NoDup names
  /\ (forall id table, SnapshotScopedAnalysisTableName id = Ok table -> (table ∈ names <-> is_Some (db !! table)))
  /\ (forall suffix, text ["_oda_sample_"; suffix] ∉ names)
  /\ (forall name, name ∈ names <-> is_Some (db !! name) /\ shown name = true).
Proof.
  unfold local_tables. intros R. run_inv. destruct R0 as [[? [=]]|[= ->]]. fold shown.
  assert (forall name, name ∈ merge_sort String.le (List.filter shown (map fst (map_to_list db))) <-> is_Some (db !! name) /\ shown name = true) as Hin.
  { intros name. rewrite merge_sort_Permutation, filter_is, list_elem_of_filter, list_elem_of_fmap. split.
    - intros [Hl ([i x] & -> & Hx)]. apply elem_of_map_to_list in Hx. by split; [eexists|].
    - intros [[x Hx] Hl]. split; [done|]. exists (name, x). split; [done|]. by apply elem_of_map_to_list. }
  split; [done|]. split; [apply StronglySorted_merge_sort; apply _|]. split.
  { rewrite merge_sort_Permutation, filter_is. apply NoDup_filter, NoDup_fst_map_to_list. }
  split; [|split; [|exact Hin]].
  - intros id table Ht%import_listed. rewrite Hin. tauto.
  - intros suffix [_ Hl]%Hin. unfold shown in Hl. rewrite scratch_hidden in Hl. by destruct (negb (matches _ _)).
Qed.
Definition example_tables : Tables := list_to_map (map (fun name => (name, {| tb_Columns := []; tb_Rows := [] |}))
  ["sqlite_stat1"; "_oda_sample_0123456789ab"; "analysis_snap_2"; "analysis_snap_1"]).
Lemma tables_listed_witness :
  runs local_tables example_tables example_tables (Ok ["analysis_snap_1"; "analysis_snap_2"])
  /\ StronglySorted String.le ["analysis_snap_1"; "analysis_snap_2"].
Proof.
  assert (R : runs local_tables example_tables example_tables (Ok ["analysis_snap_1"; "analysis_snap_2"])) by (exists [], []; vm_compute; reflexivity).
  split; [exact R|]. destruct (tables_listed _ _ _ R) as (_ & Hs & _). exact Hs.
Defined.
