(* ===== verification/Python.v ===== *)
(** The tool that runs Python code ([tools/python.go]): the inputs it resolves to files, the
    request to the executor, the files it fetches back and stores, and its health check with
    the cache of its outcome.

    The executor is a service outside: what it answers to a request is an argument, as is
    [net/url]'s parser.  A deadline ends the call it bounds with an error.  The identifier of
    the request, a header, is left out. *)
From S2P Require Import Prelude GoStrings Json ReportState ReportOps ReportSnapshot Spill StateTools Tools Calls Sources Files Providers Config DataTools.
From Stdlib Require Import Ascii.
Open Scope string_scope.
Open Scope list_scope.
Open Scope go_scope.

(** * Requests and answers *)

Record pyExecInput := { pi_Filename : string; pi_ContentBase64 : string }.
Record pyExecRequest := { pr_Code : string; pr_Timeout : Z; pr_SessionID : string; pr_WorkspaceID : string; pr_Inputs : list pyExecInput }.
Record pyExecResponse := {
  px_Success : bool; px_Stdout : string; px_Stderr : string; px_Error : option string; px_Files : list string; px_DurationMs : Z;
  px_Truncated : bool; px_ExecutionLimits : list (string * jval)
}.
Definition is_limits (v : jval) : bool := match v with JObj kvs => forallb (fun kv => is_jint kv.2 || match kv.2 with JNull => true | _ => false end) kvs | _ => false end.
(** The limits by their names, in order; a null is a zero. *)
Definition limits_of (v : option jval) : list (string * jval) :=
  match v with
  | Some (JObj kvs) => sort_keys (map_to_list (list_to_map (rev (map (fun kv => (kv.1, match kv.2 with JNull => JNum "0" | n => n end)) kvs)) : gmap string jval))
  | _ => []
  end.
Definition decode_response (body : string) : option pyExecResponse :=
  let! m := decode_struct [("success", is_jbool); ("stdout", is_jstr); ("stderr", is_jstr); ("error", is_jstr); ("files", is_texts);
                           ("duration_ms", is_jint); ("truncated", is_jbool); ("execution_limits", is_limits)] body in
  Some {| px_Success := bool_field m "success"; px_Stdout := string_field m "stdout"; px_Stderr := string_field m "stderr";
          px_Error := match m !! "error" with Some (JStr s) => Some s | _ => None end; px_Files := texts_field m "files";
          px_DurationMs := int_field m "duration_ms"; px_Truncated := bool_field m "truncated";
          px_ExecutionLimits := limits_of (m !! "execution_limits") |}.
Definition pythonMaxTimeout {IPNet} (cfg : option (Config (IPNet:=IPNet))) : Z :=
  match cfg with Some c => if (5 <=? c_PythonMaxTimeoutSec c)%Z then c_PythonMaxTimeoutSec c else 120%Z | None => 120%Z end.
Definition configuredProxyToken {IPNet} (cfg : option (Config (IPNet:=IPNet))) : string := match cfg with Some c => c_ProxyToken c | None => "" end.

(** [url.PathEscape]. *)
Definition path_byte (c : Z) : bool :=
  ((48 <=? c) && (c <=? 57) || (65 <=? c) && (c <=? 90) || (97 <=? c) && (c <=? 122))%Z
  || existsb (Z.eqb c) [45; 95; 46; 126; 36; 38; 43; 58; 61; 64]%Z.
Definition upper_hex (n : Z) : ascii := asciiZ (if (n <? 10)%Z then 48 + n else 55 + n)%Z.
Definition percent_byte (a : ascii) : list ascii :=
  let c := byteZ a in if path_byte c then [a] else ["%"%char; upper_hex (c / 16)%Z; upper_hex (c mod 16)%Z].
Definition PathEscape (s : string) : string := str_text (flat_map percent_byte (String.list_ascii_of_string s)).

(** What a request over HTTP gives: an error, or a status, a type of content and a body, whose
    reading may fail. *)
Record HttpAnswer := { ha_Status : Z; ha_ContentType : string; ha_Body : res SErr string }.
Definition limit_read (n : Z) (body : string) : string := String.substring 0 (Z.to_nat n) body.
Definition maxInputBytes : Z := 52428800.

Section python.
(** Of the file service: the letters and numbers, the storage directory and the digest. *)
Context (alnum : Z -> bool) (root : string) (sha256hex : string -> string).
(** [parse_url]: scheme, host, query and fragment of an address. *)
Context (parse_url : string -> option (string * string * string * string)) {IPNet : Type} (cfg : option (Config (IPNet:=IPNet))).
(** The service: a GET with the token, and the execution of a request under a URL. *)
Context (get : string -> string -> res SErr HttpAnswer) (post : string -> string -> pyExecRequest -> res SErr HttpAnswer).

Definition endpointURL (base path : string) : res SErr string :=
  guard negb (blank base) else SText "PYTHON_MCP_URL is not configured" ;;
  guard negb (not_exact base || HasSuffix base "/") else SText "PYTHON_MCP_URL must be an exact base URL without a trailing slash" ;;
  guard (match parse_url base with
         | Some (scheme, host, query, fragment) =>
             ((scheme =? "http") || (scheme =? "https")) && negb (host =? "") && (query =? "") && (fragment =? "")
         | None => false
         end) else SText "PYTHON_MCP_URL must be an absolute HTTP(S) base URL" ;;
  guard (path =? "") || HasPrefix path "/" else SText "Python executor path must start with a slash" ;;
  Ok (text [base; path]).

(** * Health *)

Definition health_request (hex32 : string) : pyExecRequest :=
  {| pr_Code := "print('ok')"; pr_Timeout := 5; pr_SessionID := text ["health_"; hex32]; pr_WorkspaceID := text ["health_"; hex32]; pr_Inputs := [] |}.
Definition runHealthCheck (base token hex32 : string) : res SErr unit :=
  let? healthURL := endpointURL base "/health" in
  let? resp := get healthURL "" in
  let? _ := (if (300 <=? ha_Status resp)%Z then
               match ha_Body resp with
               | Err e => Err (SWrap (text ["status="; itoa (ha_Status resp); " and failed to read response"]) e)
               | Ok body => Err (SText (text ["status="; itoa (ha_Status resp); " body="; TrimSpace (limit_read 1024 body)]))
               end
             else Ok tt) in
  let? executeURL := endpointURL base "/execute" in
  let? resp := post executeURL token (health_request hex32) in
  match ha_Body resp with
  | Err e => Err (SWrap "failed to read execute health response" e)
  | Ok body =>
      let body := limit_read 4096 body in
      if (300 <=? ha_Status resp)%Z then Err (SText (text ["execute status="; itoa (ha_Status resp); " body="; TrimSpace body]))
      else match decode_response body with
      | None => Err (SWrap "failed to parse execute health response" (SText "invalid JSON"))
      | Some r =>
          if px_Success r then Ok tt
          else
            let detail := match px_Error r with Some e => if blank e then TrimSpace (px_Stderr r) else TrimSpace e | None => TrimSpace (px_Stderr r) end in
            Err (SText (text ["execute health failed: "; detail]))
      end
  end.

(** The one cache of the process. *)
Record HealthCache := { hc_key : string; hc_checkedAt : time; hc_err : res SErr unit }.
Definition pythonHealthCacheTTL : Z := 30 * Second.
Definition pythonHealthFailureCacheTTL : Z := 2 * Second.
Definition cache_key (base token : string) : string := text [base; String "000"%char ""; token].
Definition cached (c : HealthCache) (key : string) (now : time) : option (res SErr unit) :=
  let ttl := if is_ok (hc_err c) then pythonHealthCacheTTL else pythonHealthFailureCacheTTL in
  if (hc_key c =? key) && (now - hc_checkedAt c <? ttl)%Z then Some (hc_err c) else None.
(** [now] when the cache is read, [later] when it is written; the flag tells whether the
    service was asked. *)
Definition HealthCheck (base hex32 : string) (now later : time) (c : HealthCache) : HealthCache * res SErr unit * bool :=
  let token := configuredProxyToken cfg in
  if blank token then (c, Err (SText "PROXY_TOKEN is not configured"), false)
  else if not_exact token then (c, Err (SText "PROXY_TOKEN must not contain leading or trailing whitespace"), false)
  else match endpointURL base "" with
  | Err e => (c, Err e, false)
  | Ok url =>
      match cached c (cache_key url token) now with
      | Some r => (c, r, false)
      | None => let r := runHealthCheck base token hex32 in ({| hc_key := cache_key url token; hc_checkedAt := later; hc_err := r |}, r, true)
      end
  end.
Definition CheckAvailability (base hex32 : string) (now later : time) (c : HealthCache) : HealthCache * res SErr unit * bool :=
  match endpointURL base "" with Err e => (c, Err e, false) | Ok _ => HealthCheck base hex32 now later c end.

(** * Inputs *)

(** [ExecutionMetadata]: whose run the call belongs to. *)
Record ExecutionMetadata := { em_UserID : string; em_WorkspaceID : string; em_SessionID : string; em_RunID : string }.
Record pyInput := { in_Kind : string; in_ID : string; in_Filename : string }.

(** [SourceFileLookup] of a session: the file of an uploaded source of the workspace. *)
Definition SourceFileLookup (workspaceID sourceID : string) : F (string * string) :=
  do found := try (read (fun db => found (db_sources (fd_meta db) !! sourceID))) in
  match found with
  | Err _ => fail (SText (text ["data source "; sourceID; " not found"]))
  | Ok d =>
      if negb (ds_WorkspaceID d =? workspaceID) then fail (SText (text ["data source "; sourceID; " does not belong to this workspace"]))
      else if negb (ds_SourceType d =? SourceTypeFileUpload) then fail (SText (text ["data source "; sourceID; " is not a file upload"]))
      else match ds_FileID d with
      | Some id => if id =? "" then fail (SText (text ["data source "; sourceID; " has no backing file"])) else ret (id, ds_Name d)
      | None => fail (SText (text ["data source "; sourceID; " has no backing file"]))
      end
  end.
Definition bounded_content (what : string) (content : string) : F string :=
  require (len content <=? maxInputBytes)%Z else SText (text [what; " exceeds the 50 MiB limit"]) ;; ret content.
(** The content of an input and the name it has when none is given. *)
Definition input_content (ledger : option Ledger) (meta : ExecutionMetadata) (i : pyInput) : F (string * string) :=
  if in_Kind i =? "analysis_result" then
    match ledger with
    | None => fail (SText "analysis result store is unavailable")
    | Some l =>
        match rp_Results (lg_Report l) !! in_ID i with
        | None => fail (SText (text ["analysis result "; in_ID i; " not found"]))
        | Some r =>
            require bool_decide (in_ID i ∉ lg_Refused l)
            else SWrap (text ["failed to encode analysis result "; in_ID i]) (SText "json: unsupported value") ;;
            ret (Marshal (encode_result r), text [ar_ID r; ".json"])
        end
    end
  else if in_Kind i =? "artifact" then
    do opened := OpenForDownload root (em_UserID meta) (em_WorkspaceID meta) (in_ID i) in
    do content := bounded_content "artifact input" opened.1 in
    ret (content, fl_DisplayName opened.2)
  else if in_Kind i =? "source_file" then
    do source := SourceFileLookup (em_WorkspaceID meta) (in_ID i) in
    do opened := OpenForDownload root (em_UserID meta) (em_WorkspaceID meta) source.1 in
    do content := bounded_content "source file input" opened.1 in
    ret (content, source.2)
  else fail (SText (text ["unsupported input kind "; quoted (in_Kind i)])).
Definition bad_filename (name : string) : bool :=
  (name =? ".") || (name =? "") || negb (name =? Base name) || contains_byte name "/"%char || contains_byte name "\"%char.
Fixpoint resolveInputs (ledger : option Ledger) (meta : ExecutionMetadata) (requested : list pyInput) : F (list pyExecInput) :=
  match requested with
  | [] => ret []
  | i :: requested =>
      require negb (not_exact (in_Kind i) || (in_ID i =? "") || not_exact (in_ID i) || not_exact (in_Filename i))
      else SText "Python input kind, id, and filename must use exact values" ;;
      do content := input_content ledger meta i in
      let name := if in_Filename i =? "" then content.2 else in_Filename i in
      require negb (bad_filename name) else SText (text ["invalid input filename "; quoted name]) ;;
      do inputs := resolveInputs ledger meta requested in
      ret ({| pi_Filename := name; pi_ContentBase64 := base64_text content.1 |} :: inputs)
  end.

(** * Files of the executor *)

Definition valid_segment (p : string) : bool := negb ((p =? "") || (p =? ".") || (p =? "..")).
Definition executor_path (filePath : string) : res SErr string :=
  guard negb (blank filePath || not_exact filePath || HasPrefix filePath "/" || HasSuffix filePath "/")
  else SText "executor file path must be a non-empty exact relative path" ;;
  guard forallb valid_segment (Split filePath "/"%char) else SText "executor file path contains an invalid segment" ;;
  Ok (text ["/files/"; String.concat "/" (map PathEscape (Split filePath "/"%char))]).
Definition fetch_file (base token filePath : string) : res SErr (string * string) :=
  let? path := executor_path filePath in
  let? fileURL := endpointURL base path in
  let? resp := get fileURL token in
  if negb (ha_Status resp =? 200)%Z then
    match ha_Body resp with
    | Err e => Err (SWrap (text ["executor file download status="; itoa (ha_Status resp); " and response read failed"]) e)
    | Ok body => Err (SText (text ["executor file download status="; itoa (ha_Status resp); " body="; TrimSpace (limit_read 2048 body)]))
    end
  else match ha_Body resp with
  | Err e => Err (SWrap "failed to read executor output" e)
  | Ok body =>
      guard (len body <=? maxInputBytes)%Z else SText "executor output exceeds the 50 MiB limit" ;;
      Ok (body, ha_ContentType resp)
  end.
(** [hex12] and [now] make the identifier and the time of the row; [stamp] is the time of the
    record. *)
Record Fresh := { fr_hex12 : string; fr_now : time; fr_stamp : string }.
Definition persistExecutorArtifact (base token filePath : string) (meta : ExecutionMetadata) (fresh : Fresh) : F ArtifactRecord :=
  do fetched := lift_res (fetch_file base token filePath) in
  do f := SaveArtifact alnum root sha256hex (em_UserID meta) (em_WorkspaceID meta) (em_SessionID meta) (em_RunID meta) (Base filePath)
            fetched.2 fetched.1 (fr_hex12 fresh) (fr_now fresh) in
  ret {| af_ID := fl_ID f; af_Name := fl_DisplayName f; af_ContentType := fl_ContentType f;
         af_DownloadURL := text ["/api/files/"; PathEscape (fl_ID f)]; af_CreatedAt := fr_stamp fresh |}.

(** * The tool *)

Definition python_failure (code message : string) (payload : list (string * jval)) : string := toolFailure "code_run_python" code message payload.
Definition record_artifact (l : Ledger) (a : ArtifactRecord) : res ReportError Ledger :=
  let? st := RecordArtifact (lg_Report l) a in Ok {| lg_Report := st; lg_Refused := lg_Refused l |}.
(** The files are stored and recorded one after the other; the first that cannot be ends the
    call with an answer or an error, and what was recorded stays. *)
Fixpoint persist_files (base token : string) (meta : ExecutionMetadata) (ledger : option Ledger) (done : list ArtifactRecord)
    (files : list (string * Fresh)) : F (option Ledger * res (res ToolError string) (list ArtifactRecord)) :=
  match files with
  | [] => ret (ledger, Ok done)
  | (path, fresh) :: files =>
      do saved := try (persistExecutorArtifact base token path meta fresh) in
      match saved with
      | Err e => ret (ledger, Err (Ok (python_failure "artifact_persistence_failed" "Python output could not be persisted" [("detail", JStr (Error e))])))
      | Ok a =>
          match ledger with
          | None => persist_files base token meta None (done ++ [a]) files
          | Some l =>
              match record_artifact l a with
              | Err _ => ret (ledger, Err (Err (EToolText "failed to record Python artifact: artifact ID must be a non-empty exact value")))
              | Ok l => persist_files base token meta (Some l) (done ++ [a]) files
              end
          end
      end
  end.
Definition formatPythonResult (r : pyExecResponse) (artifacts : list ArtifactRecord) : string :=
  let ms := itoa (px_DurationMs r) in
  let payload := [("duration_ms", JNum ms); ("stdout", JStr (px_Stdout r)); ("stderr", JStr (px_Stderr r)); ("truncated", JBool (px_Truncated r));
                  ("files", jtexts (map af_DownloadURL artifacts)); ("artifacts", JArr (map encode_artifact artifacts))]
                 ++ (match px_ExecutionLimits r with [] => [] | l => [("execution_limits", JObj l)] end) in
  if px_Success r then toolSuccess "code_run_python" (payload ++ [("ui_summary", JStr (text ["Python 执行成功，用时 "; ms; " 毫秒。"]))])
  else
    let said := match px_Error r with Some e => TrimSpace e | None => "" end in
    python_failure "execution_failed" "Python execution failed"
      (payload ++ [("detail", JStr (if said =? "" then TrimSpace (px_Stderr r) else said)); ("ui_summary", JStr (text ["Python 执行失败，用时 "; ms; " 毫秒。"]))]).

Record pyParams := { pp_Code : string; pp_Timeout : Z; pp_Inputs : list pyInput }.
Definition input_fields : list (string * (jval -> bool)) := [("kind", is_jstr); ("id", is_jstr); ("filename", is_jstr)].
Definition is_input (v : jval) : bool :=
  match v with JNull => true | JObj kvs => bool_decide (is_Some (bind_fields input_fields kvs ∅)) | _ => false end.
Definition input_of (v : jval) : pyInput :=
  let m := match v with JObj kvs => default ∅ (bind_fields input_fields kvs ∅) | _ => ∅ end in
  {| in_Kind := string_field m "kind"; in_ID := string_field m "id"; in_Filename := string_field m "filename" |}.
Definition is_inputs (v : jval) : bool := match v with JArr vs => forallb is_input vs | _ => false end.
Definition decode_python (args : string) : option pyParams :=
  let! m := decode_struct [("code", is_jstr); ("timeout", is_jint); ("inputs", is_inputs)] args in
  Some {| pp_Code := string_field m "code"; pp_Timeout := int_field m "timeout";
          pp_Inputs := match m !! "inputs" with Some (JArr vs) => map input_of vs | _ => [] end |}.
Definition has_identity (m : ExecutionMetadata) : bool :=
  negb ((em_UserID m =? "") || (em_WorkspaceID m =? "") || (em_SessionID m =? "") || (em_RunID m =? "")).
(** The request as far as it is checked before the service is asked: an answer, or the request
    with whose it is. *)
Definition prepare_request (ledger : option Ledger) (context : option ExecutionMetadata) (p : pyParams) : F (res string (ExecutionMetadata * pyExecRequest)) :=
  if (pp_Timeout p <? 5)%Z || (pythonMaxTimeout cfg <? pp_Timeout p)%Z then
    ret (Err (python_failure "invalid_timeout" (text ["timeout must be between 5 and "; itoa (pythonMaxTimeout cfg); " seconds"])
                [("timeout", JNum (itoa (pp_Timeout p)))]))
  else if blank (pp_Code p) then ret (Err (python_failure "invalid_code" "code must contain text" []))
  else match context with
  | None => ret (Err (python_failure "missing_execution_context" "tool execution context is not initialized" []))
  | Some meta =>
      if negb (has_identity meta) then
        ret (Err (python_failure "missing_execution_identity" "authenticated user, workspace, session, and run identities are required" []))
      else
        do inputs := try (resolveInputs ledger meta (pp_Inputs p)) in
        ret (match inputs with
             | Err e => Err (python_failure "input_resolution_failed" "Python input could not be resolved" [("detail", JStr (Error e))])
             | Ok inputs => Ok (meta, {| pr_Code := pp_Code p; pr_Timeout := pp_Timeout p; pr_SessionID := em_SessionID meta;
                                         pr_WorkspaceID := em_WorkspaceID meta; pr_Inputs := inputs |})
             end)
  end.
(** The exchange with the service. *)
Definition execute_request (base : string) (req : pyExecRequest) : res ToolError pyExecResponse :=
  let? executeURL := tool_error (endpointURL base "/execute") in
  guard negb (configuredProxyToken cfg =? "") else EToolText "PROXY_TOKEN is not configured" ;;
  match post executeURL (configuredProxyToken cfg) req with
  | Err e => Err (EToolText (text ["Python MCP service unavailable: "; Error e]))
  | Ok resp =>
      match ha_Body resp with
      | Err e => Err (EToolText (text ["failed to read Python execution response: "; Error e]))
      | Ok body =>
          let body := limit_read 10485760 body in
          if (300 <=? ha_Status resp)%Z then
            Err (EToolText (text ["Python MCP service returned status="; itoa (ha_Status resp); " body="; TrimSpace body]))
          else match decode_response body with
          | None => Err (EToolText "failed to parse Python execution result: invalid JSON")
          | Some r => Ok r
          end
      end
  end.
(** [fresh] gives the n-th file its identifier and times. *)
Definition RunPython_Execute (base : string) (fresh : nat -> Fresh) (context : option ExecutionMetadata) (ledger : option Ledger) (args : string) :
    F (option Ledger * res ToolError string) :=
  match decode_python args with
  | None => ret (ledger, Err EToolArguments)
  | Some p =>
      do prepared := prepare_request ledger context p in
      match prepared with
      | Err answer => ret (ledger, Ok answer)
      | Ok (meta, req) =>
          match execute_request base req with
          | Err e => ret (ledger, Err e)
          | Ok r =>
              do persisted := persist_files base (configuredProxyToken cfg) meta ledger [] (imap (fun i path => (path, fresh i)) (px_Files r)) in
              ret (persisted.1, match persisted.2 with Err ended => ended | Ok artifacts => Ok (formatPythonResult r artifacts) end)
          end
      end
  end.
End python.
