(* ===== verification/PythonProps.v ===== *)
(** What the Python tool guarantees: the service is asked only for an identified run, with
    inputs its user may read, under names of one segment; its files become artifacts of the
    workspace, recorded in order up to the first that fails ([python_run_scoped]); the path of
    a fetched file keeps its segments ([executor_path_segments]); the outcome of a health
    check is reused only while it is fresh ([health_cached]). *)
From S2P Require Import Prelude GoStrings Json JsonRoundtrip ReportState ReportOps ReportSnapshot Spill StateTools Tools Calls Sources Files FileProps Providers Config DataTools Python.
From Stdlib Require Import Ascii.
Open Scope string_scope.
Open Scope list_scope.
Open Scope go_scope.

Section props.
Context (alnum : Z -> bool) (root : string) (sha256hex : string -> string).
Context (parse_url : string -> option (string * string * string * string)) {IPNet : Type} (cfg : option (Config (IPNet:=IPNet))).
Context (get : string -> string -> res SErr HttpAnswer) (post : string -> string -> pyExecRequest -> res SErr HttpAnswer).
Implicit Types (db : FileDb) (meta : ExecutionMetadata) (l : Ledger).

(** ** What an input may be *)

(** A file the user of the run can open, of at most 50 MiB. *)
Definition readable db meta (id content : string) (f : File) : Prop :=
  (em_WorkspaceID meta, em_UserID meta) ∈ fd_members db /\ fd_files db !! id = Some f /\ fl_WorkspaceID f = em_WorkspaceID meta
  /\ (len content <= maxInputBytes)%Z /\ exists path, resolvePath root (fl_StorageKey f) = Ok path /\ fd_objects db !! path = Some content.
Inductive input_from db (ledger : option Ledger) meta : pyInput -> string -> string -> Prop :=
| from_result i l r : in_Kind i = "analysis_result" -> ledger = Some l -> rp_Results (lg_Report l) !! in_ID i = Some r -> in_ID i ∉ lg_Refused l ->
    input_from db ledger meta i (Marshal (encode_result r)) (text [ar_ID r; ".json"])
| from_artifact i content f : in_Kind i = "artifact" -> readable db meta (in_ID i) content f -> input_from db ledger meta i content (fl_DisplayName f)
| from_source i d id content f : in_Kind i = "source_file" -> db_sources (fd_meta db) !! in_ID i = Some d -> ds_WorkspaceID d = em_WorkspaceID meta ->
    ds_FileID d = Some id -> readable db meta id content f -> input_from db ledger meta i content (ds_Name d).
Definition sent db ledger meta (i : pyInput) (s : pyExecInput) : Prop :=
  exists content name, input_from db ledger meta i content name /\ pi_Filename s = (if in_Filename i =? "" then name else in_Filename i)
    /\ pi_ContentBase64 s = base64_text content /\ bad_filename (pi_Filename s) = false.

Lemma bounded_runs what content db db' c : runs (bounded_content what content) db db' (Ok c) -> db' = db /\ c = content /\ (len content <= maxInputBytes)%Z.
Proof. unfold bounded_content. destruct (_ <=? _)%Z eqn:E; [|by intros (_ & [=])%runs_fail]. intros (-> & [= ->])%runs_ret. by apply Z.leb_le in E. Qed.
Lemma open_bounded meta id what db db1 db2 opened content :
  runs (OpenForDownload root (em_UserID meta) (em_WorkspaceID meta) id) db db1 (Ok opened) -> runs (bounded_content what opened.1) db1 db2 (Ok content) ->
  db2 = db /\ readable db meta id content opened.2.
Proof.
  destruct opened as [body f]. intros (-> & Hf & Hw & Hm & Hp)%open_runs (-> & -> & Hb)%bounded_runs. split; [done|]. done.
Qed.
Lemma lookup_runs workspaceID sourceID db db' x :
  runs (SourceFileLookup workspaceID sourceID) db db' (Ok x) ->
  db' = db /\ exists d, db_sources (fd_meta db) !! sourceID = Some d /\ ds_WorkspaceID d = workspaceID /\ ds_FileID d = Some x.1 /\ ds_Name d = x.2.
Proof.
  unfold SourceFileLookup. intros R. apply runs_bind in R as [(e & _ & [=])|(found & d1 & R1 & R)]. apply runs_try in R1 as (r0 & R1 & [= ->]).
  apply runs_read in R1 as (-> & Hr). destruct r0 as [d|]; [|by apply runs_fail in R as (_ & [=])]. destruct Hr as [(? & [=])|Hr].
  destruct (ds_WorkspaceID d =? workspaceID) eqn:Hw; cbn [negb] in R; [|by apply runs_fail in R as (_ & [=])]. destruct (negb _); [by apply runs_fail in R as (_ & [=])|].
  destruct (ds_FileID d) as [id|] eqn:Hid; [|by apply runs_fail in R as (_ & [=])]. destruct (id =? ""); [by apply runs_fail in R as (_ & [=])|].
  apply runs_ret in R as (-> & [= ->]). split; [done|]. exists d. unfold found in Hr. destruct (db_sources _ !! _); [|done]. injection Hr as ->. apply String.eqb_eq in Hw. done.
Qed.
Lemma content_runs ledger meta i db db' content name :
  runs (input_content root ledger meta i) db db' (Ok (content, name)) -> db' = db /\ input_from db ledger meta i content name.
Proof.
  unfold input_content. destruct (in_Kind i =? "analysis_result") eqn:K1; [apply String.eqb_eq in K1|destruct (in_Kind i =? "artifact") eqn:K2;
    [apply String.eqb_eq in K2|destruct (in_Kind i =? "source_file") eqn:K3; [apply String.eqb_eq in K3|by intros (_ & [=])%runs_fail]]].
  - destruct ledger as [l|]; [|by intros (_ & [=])%runs_fail]. destruct (rp_Results (lg_Report l) !! in_ID i) as [r|] eqn:Hr; [|by intros (_ & [=])%runs_fail].
    case_bool_decide; [|by intros (_ & [=])%runs_fail]. intros (-> & [= -> ->])%runs_ret. split; [done|]. by eapply from_result.
  - intros [(e & _ & [=])|(opened & d & R1 & R)]%runs_bind. apply runs_bind in R as [(e & _ & [=])|(c & d2 & R2 & R)].
    apply runs_ret in R as (-> & [= -> ->]). destruct (open_bounded _ _ _ _ _ _ _ _ R1 R2) as (-> & Hf). split; [done|]. by eapply from_artifact.
  - intros [(e & _ & [=])|(source & d & R0 & R)]%runs_bind. apply lookup_runs in R0 as (-> & s & Hs & Hw & Hid & Hn).
    apply runs_bind in R as [(e & _ & [=])|(opened & d & R1 & R)]. apply runs_bind in R as [(e & _ & [=])|(c & d2 & R2 & R)].
    apply runs_ret in R as (-> & [= -> ->]). destruct (open_bounded _ _ _ _ _ _ _ _ R1 R2) as (-> & Hf). split; [done|]. rewrite <- Hn. by eapply from_source.
Qed.
Lemma inputs_runs ledger meta requested db db' inputs :
  runs (resolveInputs root ledger meta requested) db db' (Ok inputs) -> db' = db /\ Forall2 (sent db ledger meta) requested inputs.
Proof.
  revert inputs db'. induction requested as [|i requested IH]; intros inputs db'; cbn [resolveInputs]; [intros (-> & [= ->])%runs_ret; by split|].
  destruct (negb _); [|by intros (_ & [=])%runs_fail]. intros [(e & _ & [=])|([content name] & d & R1 & R)]%runs_bind.
  apply content_runs in R1 as (-> & Hi). cbn [fst snd] in R. destruct (bad_filename _) eqn:Hb; cbn [negb] in R; [by apply runs_fail in R as (_ & [=])|].
  apply runs_bind in R as [(e & _ & [=])|(rest & d & R1 & R)]. apply IH in R1 as (-> & Hrest). apply runs_ret in R as (-> & [= ->]).
  split; [done|]. constructor; [|done]. exists content, name. by split_and!.
Qed.
(** Resolving reads only, whatever becomes of it. *)
Lemma inputs_read ledger meta requested db db' r : runs (resolveInputs root ledger meta requested) db db' r -> db' = db.
Proof.
  assert (Ho : forall id, preserves (fun db => db) (OpenForDownload root (em_UserID meta) (em_WorkspaceID meta) id)).
  { intros id. unfold OpenForDownload. apply preserves_bind; [apply preserves_read|]. intros ok. destruct (negb ok); [apply preserves_fail|].
    apply preserves_bind; [|intros f; apply preserves_bind; [|intros; apply preserves_ret]].
    - unfold own_file. apply preserves_bind; [apply preserves_read|]. intros f. destruct (_ =? _); [apply preserves_ret|apply preserves_fail].
    - unfold Get. apply preserves_bind; [apply preserves_lift|]. intros. apply preserves_wrap, preserves_read. }
  assert (Hb : forall what c, preserves (fun db => db) (bounded_content what c)).
  { intros what c. unfold bounded_content. destruct (_ <=? _)%Z; [apply preserves_ret|apply preserves_fail]. }
  assert (Hl : forall w id, preserves (fun db => db) (SourceFileLookup w id)).
  { intros w id. unfold SourceFileLookup. apply preserves_bind; [apply preserves_try, preserves_read|]. intros [d|]; [|apply preserves_fail].
    repeat (destruct (negb _); [apply preserves_fail|]). destruct (ds_FileID d) as [f|]; [|apply preserves_fail].
    destruct (f =? ""); [apply preserves_fail|apply preserves_ret]. }
  assert (Hc : forall i, preserves (fun db => db) (input_content root ledger meta i)).
  { intros i. unfold input_content. destruct (_ =? _); [|destruct (_ =? _); [|destruct (_ =? _); [|apply preserves_fail]]].
    - destruct ledger as [l|]; [|apply preserves_fail]. destruct (_ !! _); [|apply preserves_fail]. destruct (bool_decide _); [apply preserves_ret|apply preserves_fail].
    - apply preserves_bind; [apply Ho|]. intros. apply preserves_bind; [apply Hb|]. intros. apply preserves_ret.
    - apply preserves_bind; [apply Hl|]. intros. apply preserves_bind; [apply Ho|]. intros. apply preserves_bind; [apply Hb|]. intros. apply preserves_ret. }
  assert (Hr : preserves (fun db => db) (resolveInputs root ledger meta requested)); [|by intros R; apply (Hr _ _ _ R)].
  induction requested as [|i requested IH]; cbn [resolveInputs]; [apply preserves_ret|].
  destruct (negb _); [|apply preserves_fail]. apply preserves_bind; [apply Hc|]. intros [content name].
  destruct (negb _); [|apply preserves_fail]. apply preserves_bind; [apply IH|]. intros. apply preserves_ret.
Qed.

(** ** The request that is sent *)

Definition admitted db ledger (context : option ExecutionMetadata) (p : pyParams) meta (req : pyExecRequest) : Prop :=
  context = Some meta /\ has_identity meta = true /\ (5 <= pp_Timeout p <= pythonMaxTimeout cfg)%Z /\ blank (pp_Code p) = false
  /\ pr_Code req = pp_Code p /\ pr_Timeout req = pp_Timeout p /\ pr_SessionID req = em_SessionID meta /\ pr_WorkspaceID req = em_WorkspaceID meta
  /\ Forall2 (sent db ledger meta) (pp_Inputs p) (pr_Inputs req).
Lemma prepare_runs ledger context p db db' r :
  runs (prepare_request root cfg ledger context p) db db' r ->
  db' = db /\ exists y, r = Ok y /\ forall meta req, y = Ok (meta, req) -> admitted db ledger context p meta req.
Proof.
  unfold prepare_request. destruct (_ || _)%bool eqn:Ht; [intros (-> & ->)%runs_ret; split; [done|]; by eexists|]. reflect_bools.
  destruct (blank (pp_Code p)) eqn:Hc; [intros (-> & ->)%runs_ret; split; [done|]; by eexists|].
  destruct context as [meta|]; [|intros (-> & ->)%runs_ret; split; [done|]; by eexists].
  destruct (has_identity meta) eqn:Hm; cbn [negb]; [|intros (-> & ->)%runs_ret; split; [done|]; by eexists].
  intros [(e & R & _)|(inputs & d & R1 & R)]%runs_bind; [by apply runs_try in R as (? & _ & [=])|].
  apply runs_try in R1 as (r0 & R1 & [= ->]). apply inputs_read in R1 as Hd. subst d. apply runs_ret in R as (-> & ->). split; [done|]. eexists. split; [done|].
  intros meta' req E. destruct r0 as [inputs|]; [|done]. injection E as <- <-. apply inputs_runs in R1 as [_ Hi]. split_and!; [done|done|lia..|done|done|done|done|done|done].
Qed.

(** ** The files that come back *)

(** A file of the run stored in its workspace. *)
Definition artifact_of meta (f : File) (body : string) (db : FileDb) : Prop :=
  (em_WorkspaceID meta, em_UserID meta) ∈ fd_members db /\ fl_WorkspaceID f = em_WorkspaceID meta /\ fl_UploadedBy f = em_UserID meta
  /\ fl_Purpose f = FilePurposeArtifact /\ fl_SizeBytes f = len body.
Lemma save_elsewhere userID workspaceID sessionID runID fileName contentType body hex now :
  preserves (fun db => (delete (text ["art_"; hex]) (fd_files db), fd_members db)) (SaveArtifact alnum root sha256hex userID workspaceID sessionID runID fileName contentType body hex now).
Proof.
  set (g := fun db : FileDb => _). unfold SaveArtifact. apply preserves_bind; [apply preserves_read|]. intros ok. destruct (negb ok); [apply preserves_fail|].
  set (id := text ["art_"; hex]) in *. assert (Hw : forall (u : FileDb -> FileDb), (forall db, g (u db) = g db) -> preserves g (write (fun db => Ok (u db)))).
  { intros u Hu. apply preserves_write. by intros db db' [= <-]. }
  assert (Hd : forall key, preserves g (Files.Delete root key)).
  { intros key. unfold Files.Delete. apply preserves_bind; [apply preserves_lift|]. intros. apply preserves_wrap, Hw. done. }
  assert (Hu : forall steps e, Forall (preserves g) steps -> preserves g (undo e steps)).
  { induction steps as [|st steps IH]; intros e Hs; cbn [undo]; [apply preserves_ret|]. inversion_clear Hs.
    apply preserves_bind; [by apply preserves_try|]. intros. by apply IH. }
  assert (Hor : forall A (m : F A) steps, preserves g m -> Forall (preserves g) steps -> preserves g (or_undo m steps)).
  { intros A m steps Hm Hs. unfold or_undo. apply preserves_bind; [by apply preserves_try|]. intros [a|e]; [apply preserves_ret|].
    apply preserves_bind; [by apply Hu|]. intros. apply preserves_fail. }
  apply preserves_bind.
  - unfold Files.Put. apply preserves_bind; [apply preserves_lift|]. intros path. apply preserves_bind; [by apply preserves_wrap, Hw|]. intros _.
    apply preserves_bind; [by apply preserves_wrap, Hw|]. intros. apply preserves_ret.
  - intros o. unfold record_file. cbn [fl_StorageKey fl_ID new_file]. apply preserves_bind; [apply Hor|].
    + apply preserves_write. intros db db'. cbn [fl_ID new_file]. destruct (negb _); [|done]. intros [= <-]. unfold g. cbn. by rewrite delete_insert_eq.
    + by constructor; [apply Hd|].
    + intros _. apply preserves_bind; [|intros; apply preserves_ret]. destruct (negb _); [|apply preserves_ret]. apply Hor.
      * cbn [AttachFilesToSession]. apply preserves_bind; [|intros; apply preserves_ret]. apply preserves_write. intros db db'.
        destruct (negb _); [|done]. destruct (_ && _); [|done]. by intros [= <-].
      * constructor; [apply Hd|]. constructor; [|done]. apply Hw. intros db. unfold g, delete_files. cbn. f_equal. apply map_eq. intros j.
        destruct (decide (j = id)) as [->|]; [by rewrite !lookup_delete_eq|]. rewrite !lookup_delete_ne by done. rewrite map_lookup_filter.
        destruct (fd_files db !! j); [|done]. cbn. case_guard as Hg; [done|]. exfalso. apply Hg. by apply String.eqb_neq.
Qed.
Lemma elsewhere userID workspaceID sessionID runID fileName contentType body hex now db db' r id :
  runs (SaveArtifact alnum root sha256hex userID workspaceID sessionID runID fileName contentType body hex now) db db' r ->
  fd_members db' = fd_members db /\ (id <> text ["art_"; hex] -> fd_files db' !! id = fd_files db !! id).
Proof.
  intros R. apply save_elsewhere in R. injection R as Hf Hm. split; [done|]. intros Hne.
  rewrite <- (lookup_delete_ne (fd_files db') _ _ (not_eq_sym Hne)), <- (lookup_delete_ne (fd_files db) _ _ (not_eq_sym Hne)). by rewrite Hf.
Qed.
Lemma or_undo_ok {A} (m : F A) steps db db' a : runs (or_undo m steps) db db' (Ok a) -> runs m db db' (Ok a).
Proof.
  intros [(e & _ & [=])|(r & d & R1 & R)]%runs_bind. apply runs_try in R1 as (r0 & R1 & [= ->]). destruct r0 as [b|e].
  - apply runs_ret in R as (-> & [= ->]). done.
  - by apply runs_bind in R as [(? & _ & [=])|(? & ? & _ & (_ & [=])%runs_fail)].
Qed.
Lemma record_row f attach sessionID now db db' f' : runs (record_file root f attach sessionID now) db db' (Ok f') -> f' = f /\ fd_files db' !! fl_ID f = Some f.
Proof.
  intros [(e & _ & [=])|(? & d1 & R1%or_undo_ok & R)]%runs_bind. apply runs_bind in R as [(e & _ & [=])|(? & d2 & R2 & R)]. apply runs_ret in R as (-> & [= ->]).
  split; [done|]. apply runs_write in R1 as [(? & _ & [=])|[R1 _]]. destruct (negb _); [|done]. injection R1 as <-.
  assert (Hd : forall d, runs (AttachFilesToSession sessionID [fl_ID f] now) d d2 (Ok x0) -> fd_files d2 = fd_files d).
  { intros d R. cbn [AttachFilesToSession] in R. apply runs_bind in R as [(e & _ & [=])|(? & d3 & R3 & R)]. apply runs_ret in R as (-> & _).
    apply runs_write in R3 as [(? & _ & [=])|[R3 _]]. destruct (negb _); [|done]. destruct (_ && _)%bool; [|done]. by injection R3 as <-. }
  destruct attach; [apply or_undo_ok, Hd in R2; rewrite R2|apply runs_ret in R2 as (-> & _)]; apply lookup_insert_eq.
Qed.
Lemma save_ok meta sessionID runID fileName contentType body hex now db db' f :
  runs (SaveArtifact alnum root sha256hex (em_UserID meta) (em_WorkspaceID meta) sessionID runID fileName contentType body hex now) db db' (Ok f) ->
  artifact_of meta f body db' /\ fl_ID f = text ["art_"; hex] /\ fd_files db' !! fl_ID f = Some f.
Proof.
  intros R. destruct (elsewhere _ _ _ _ _ _ _ _ _ _ _ _ "" R) as [Hm _]. unfold artifact_of. rewrite Hm. clear Hm. revert R. unfold SaveArtifact.
  intros [(e & _ & [=])|(ok & d & R1 & R)]%runs_bind. apply runs_read in R1 as (-> & [(m & [=])|[= ->]]).
  destruct (decide ((em_WorkspaceID meta, em_UserID meta) ∈ fd_members db)) as [Hu|Hu]; [rewrite bool_decide_true in R by done|rewrite bool_decide_false in R by done; by apply runs_fail in R as (_ & [=])].
  cbn [negb] in R. apply runs_bind in R as [(e & _ & [=])|(o & d & R1 & R)].
  assert (so_Size o = len body) as Ho.
  { unfold Files.Put in R1. apply runs_bind in R1 as [(e & _ & [=])|(p & d1 & _ & R1)]. apply runs_bind in R1 as [(e & _ & [=])|(? & d2 & _ & R1)].
    apply runs_bind in R1 as [(e & _ & [=])|(? & d3 & _ & R1)]. by apply runs_ret in R1 as (_ & [= ->]). }
  apply record_row in R as [-> Hrow]. by split_and!.
Qed.

Definition art_id (fa : string * Fresh) : string := text ["art_"; fr_hex12 fa.2].
(** The record [a] is of the file the executor gave for [fa], now a row of the workspace. *)
Definition recorded base meta db (fa : string * Fresh) (a : ArtifactRecord) : Prop :=
  exists body contentType f, fetch_file parse_url get base (configuredProxyToken cfg) fa.1 = Ok (body, contentType)
    /\ fd_files db !! art_id fa = Some f /\ artifact_of meta f body db
    /\ af_ID a = art_id fa /\ af_Name a = fl_DisplayName f /\ af_ContentType a = fl_ContentType f
    /\ af_DownloadURL a = text ["/api/files/"; PathEscape (art_id fa)].
Definition with_artifacts (ledger : option Ledger) (arts : list ArtifactRecord) : option Ledger :=
  (fun l => {| lg_Report := with_ledger (lg_Report l) (rp_Results (lg_Report l)) (fold_left (fun m a => <[af_ID a := a]> m) arts (rp_Artifacts (lg_Report l)));
               lg_Refused := lg_Refused l |}) <$> ledger.
Lemma with_artifacts_nil ledger : with_artifacts ledger [] = ledger.
Proof. destruct ledger as [[[] ?]|]; done. Qed.
Lemma persist_one base meta path fresh db db' a :
  runs (persistExecutorArtifact alnum root sha256hex parse_url get base (configuredProxyToken cfg) path meta fresh) db db' (Ok a) ->
  recorded base meta db' (path, fresh) a.
Proof.
  intros [(e & _ & [=])|([body contentType] & d & R1 & R)]%runs_bind. apply runs_lift in R1 as (-> & Hf). symmetry in Hf.
  apply runs_bind in R as [(e & _ & [=])|(f & d & R1 & R)]. apply runs_ret in R as (-> & [= ->]). apply save_ok in R1 as (Ha & Hid & Hrow).
  exists body, contentType, f. unfold art_id. cbn [af_ID af_Name af_ContentType af_DownloadURL fst snd]. rewrite Hid in *. by split_and!.
Qed.
Lemma persist_elsewhere base meta path fresh db db' r id :
  runs (persistExecutorArtifact alnum root sha256hex parse_url get base (configuredProxyToken cfg) path meta fresh) db db' r ->
  fd_members db' = fd_members db /\ (id <> art_id (path, fresh) -> fd_files db' !! id = fd_files db !! id).
Proof.
  intros [(e & R & _)|(fetched & d & R1 & R)]%runs_bind; [by apply runs_lift in R as (-> & _)|]. apply runs_lift in R1 as (-> & _).
  apply runs_bind in R as [(e & R & _)|(f & d & R1 & R)]; [by eapply elsewhere|]. apply runs_ret in R as (-> & _). by eapply elsewhere.
Qed.
Lemma recorded_stays base meta db db' fa a :
  fd_members db' = fd_members db -> fd_files db' !! art_id fa = fd_files db !! art_id fa -> recorded base meta db fa a -> recorded base meta db' fa a.
Proof. intros Hm Hf (body & ct & f & H1 & H2 & H3 & H4). exists body, ct, f. unfold artifact_of. rewrite Hm, Hf. done. Qed.
Lemma persist_runs base meta ledger done files db db' r :
  NoDup (map art_id files) -> runs (persist_files alnum root sha256hex parse_url get base (configuredProxyToken cfg) meta ledger done files) db db' r ->
  fd_members db' = fd_members db /\ (forall id, id ∉ map art_id files -> fd_files db' !! id = fd_files db !! id)
  /\ exists arts outcome, r = Ok (with_artifacts ledger arts, outcome) /\ (length arts <= length files)%nat
    /\ Forall2 (recorded base meta db') (take (length arts) files) arts
    /\ (outcome = Ok (done ++ arts) /\ length arts = length files \/ (length arts < length files)%nat /\ is_ok outcome = false).
Proof.
  revert ledger done db. induction files as [|[path fresh] files IH]; intros ledger done db Hnd; cbn [persist_files map] in *.
  { intros (-> & ->)%runs_ret. split; [easy|]. split; [easy|]. exists [], (Ok done). rewrite with_artifacts_nil, app_nil_r. split_and!; [easy|easy|constructor|by left]. }
  apply NoDup_cons in Hnd as [Hout Hnd]. intros [(e & R & _)|(saved & d & R1 & R)]%runs_bind; [by apply runs_try in R as (? & _ & [=])|].
  apply runs_try in R1 as (r0 & R1 & [= ->]).
  assert (forall id, fd_members d = fd_members db /\ (id <> art_id (path, fresh) -> fd_files d !! id = fd_files db !! id)) as Hd by (intros id; by eapply persist_elsewhere).
  assert (forall outcome, db' = d -> is_ok outcome = false -> r = Ok (ledger, outcome) ->
    fd_members db' = fd_members db /\ (forall id, id ∉ art_id (path, fresh) :: map art_id files -> fd_files db' !! id = fd_files db !! id)
    /\ exists arts outcome, r = Ok (with_artifacts ledger arts, outcome) /\ (length arts <= S (length files))%nat
      /\ Forall2 (recorded base meta db') (take (length arts) ((path, fresh) :: files)) arts
      /\ (outcome = Ok (done ++ arts) /\ length arts = S (length files) \/ (length arts < S (length files))%nat /\ is_ok outcome = false)) as Hstop.
  { intros outcome -> Ho ->. split; [apply (Hd "")|]. split; [intros id Hid; apply Hd; set_solver|]. exists [], outcome. rewrite with_artifacts_nil.
    split_and!; [easy|cbn; lia|constructor|right; split; [cbn; lia|easy]]. }
  destruct r0 as [a|e]; [|apply runs_ret in R as (-> & ->); refine (Hstop _ eq_refl _ eq_refl); reflexivity].
  apply persist_one in R1 as Ha.
  assert (forall ledger1, runs (persist_files alnum root sha256hex parse_url get base (configuredProxyToken cfg) meta ledger1 (done ++ [a]) files) d db' r ->
    (forall arts, with_artifacts ledger1 arts = with_artifacts ledger (a :: arts)) ->
    fd_members db' = fd_members db /\ (forall id, id ∉ art_id (path, fresh) :: map art_id files -> fd_files db' !! id = fd_files db !! id)
    /\ exists arts outcome, r = Ok (with_artifacts ledger arts, outcome) /\ (length arts <= S (length files))%nat
      /\ Forall2 (recorded base meta db') (take (length arts) ((path, fresh) :: files)) arts
      /\ (outcome = Ok (done ++ arts) /\ length arts = S (length files) \/ (length arts < S (length files))%nat /\ is_ok outcome = false)) as Hgo.
  { intros ledger1 R1' Hw. apply IH in R1' as (Hm & Hf & arts & outcome & -> & Hlen & Hall & Hend); [|easy]. destruct (Hd "") as [Hm1 _].
    split; [congruence|]. split; [intros id Hid; rewrite Hf by set_solver; apply Hd; set_solver|].
    exists (a :: arts), outcome. cbn [length take]. rewrite Hw. split_and!; [easy|lia| |].
    - constructor; [|easy]. eapply recorded_stays; [exact Hm|by apply Hf|easy].
    - destruct Hend as [[-> Hl]|[Hl Ho]]; [left; rewrite <- app_assoc; split; [easy|lia]|right; split; [lia|easy]]. }
  destruct ledger as [l|]; [|by eapply Hgo].
  unfold record_artifact, RecordArtifact in R. destruct (_ || _)%bool; [apply runs_ret in R as (-> & ->); refine (Hstop _ eq_refl _ eq_refl); reflexivity|]. by eapply Hgo.
Qed.


(** ** The path of a fetched file *)

Lemma escaped_byte a : Forall (fun c => Ascii.eqb c "/"%char = false) (percent_byte a).
Proof. destruct a as [[] [] [] [] [] [] [] []]; vm_compute; repeat constructor. Qed.
Lemma escaped_plain s : contains_byte (PathEscape s) "/"%char = false.
Proof. apply contains_byte_text, Forall_flat_map, Forall_forall. intros a _. apply escaped_byte. Qed.
(** What a server makes of an escaped segment. *)
Definition hex_value (a : ascii) : Z := let c := byteZ a in (if (c <=? 57)%Z then c - 48 else c - 55)%Z.
Fixpoint unescape (l : list ascii) : list ascii :=
  match l with
  | "%"%char :: h :: o :: l => asciiZ (hex_value h * 16 + hex_value o)%Z :: unescape l
  | c :: l => c :: unescape l
  | [] => []
  end.
Definition PathUnescape (s : string) : string := str_text (unescape (String.list_ascii_of_string s)).
Lemma unescape_byte a (l : list ascii) : unescape (percent_byte a ++ l) = a :: unescape l.
Proof. destruct a as [[] [] [] [] [] [] [] []]; reflexivity. Qed.
Lemma unescape_escape s : PathUnescape (PathEscape s) = s.
Proof.
  unfold PathUnescape, PathEscape. unfold str_text. rewrite String.list_ascii_of_string_of_list_ascii.
  assert (unescape (flat_map percent_byte (String.list_ascii_of_string s)) = String.list_ascii_of_string s) as ->; [|apply String.string_of_list_ascii_of_string].
  induction (String.list_ascii_of_string s) as [|a l IH]; [done|]. cbn [flat_map]. by rewrite unescape_byte, IH.
Qed.
Lemma escaped_segment s : valid_segment s = true -> plain (PathEscape s).
Proof.
  unfold valid_segment. intros Hs. reflect_bools. pose proof (unescape_escape s) as E. split_and!; [..|apply escaped_plain]; intros Hp; rewrite Hp in E; by subst s.
Qed.
(** A file is asked for under a path that has exactly its segments: none is empty or made of
    dots, and each is read back as it was. *)
Theorem executor_path_segments filePath path :
  executor_path filePath = Ok path ->
  Split path "/" = "" :: "files" :: map PathEscape (Split filePath "/") /\ Forall plain (map PathEscape (Split filePath "/"))
  /\ map PathUnescape (drop 2 (Split path "/")) = Split filePath "/".
Proof.
  unfold executor_path. destruct (negb _); [|done]. destruct (forallb _ _) eqn:Hs; [|done]. intros [= <-].
  assert (Hp : Forall plain (map PathEscape (Split filePath "/"))).
  { apply Forall_map, Forall_forall. intros s Hin. apply escaped_segment. rewrite forallb_forall in Hs. apply Hs. by apply list_elem_of_In. }
  assert (E : Split (text ["/files/"; String.concat "/" (map PathEscape (Split filePath "/"))]) "/" = "" :: "files" :: map PathEscape (Split filePath "/")).
  { change (text ["/files/"; ?x]) with (String "/" (String.concat "" ["files/"; x])). cbn [Split]. f_equal.
    transitivity (Split ("files" ++ String "/" (String.concat "/" (map PathEscape (Split filePath "/")))) "/"); [reflexivity|].
    rewrite Split_app by done. rewrite Split_plain; [done| |done]. destruct (Split_cons filePath "/") as (w & ws & ->). done. }
  split; [exact E|]. split; [exact Hp|]. rewrite E. cbn [drop]. rewrite drop_0, map_map. rewrite <- (map_id (Split filePath "/")) at 2. apply map_ext. intros s. apply unescape_escape.
Qed.

(** ** Health *)

(** the outcome of a health check is given again only for the same service and token and
    only while it is fresh, a success for thirty seconds and a failure for two; otherwise the
    service is asked, if the configuration names one, and what it said is kept. *)
Theorem health_cached base hex32 now later c c' r asked :
  CheckAvailability parse_url cfg get post base hex32 now later c = (c', r, asked) ->
  let token := configuredProxyToken cfg in
  if asked then
    r = runHealthCheck parse_url get post base token hex32 /\ c' = {| hc_key := cache_key base token; hc_checkedAt := later; hc_err := r |}
    /\ (forall hex now' later', (now' - later < (if is_ok r then pythonHealthCacheTTL else pythonHealthFailureCacheTTL))%Z ->
         CheckAvailability parse_url cfg get post base hex now' later' c' = (c', r, false))
  else c' = c /\ (hc_err c = r /\ hc_key c = cache_key base token /\ (now - hc_checkedAt c < pythonHealthCacheTTL)%Z
                 /\ (is_ok r = false -> (now - hc_checkedAt c < pythonHealthFailureCacheTTL)%Z)
               \/ is_ok r = false /\ forall c1 hex now' later', (CheckAvailability parse_url cfg get post base hex now' later' c1).1.2 = r).
Proof.
  unfold CheckAvailability. destruct (endpointURL parse_url base "") as [url|e] eqn:Hu; [|intros [= <- <- <-]; split; [done|by right]].
  assert (url = base) as ->.
  { unfold endpointURL in Hu. repeat (destruct (negb _); [|done]). destruct (parse_url base) as [[[[] ?] ?]|]; [|done]. repeat case_match; try done. injection Hu as <-. unfold text. cbn. induction base as [|ch base IH]; [done|]. exact (f_equal (String ch) IH). }
  unfold HealthCheck. destruct (blank _); [intros [= <- <- <-]; split; [done|by right]|]. destruct (not_exact _); [intros [= <- <- <-]; split; [done|by right]|].
  rewrite Hu. unfold cached at 1. destruct (_ && _)%bool eqn:Hc.
  - intros [= <- <- <-]. reflect_bools. split; [done|left]. split_and!; [done|done| |].
    + destruct (is_ok (hc_err c)); [done|]. unfold pythonHealthCacheTTL, pythonHealthFailureCacheTTL, Second in *. lia.
    + intros Hr. rewrite Hr in *. done.
  - intros [= <- <- <-]. split; [done|]. split; [done|]. intros hex now' later' Hfresh. unfold cached. cbn [hc_err hc_key hc_checkedAt].
    apply Z.ltb_lt in Hfresh. by rewrite String.eqb_refl, Hfresh.
Qed.
End props.

(** * An example: a run whose code writes a file *)

Module PythonExample.
Definition digits (n : nat) : string := str_text (repeat "a"%char n).
Lemma digits_inj i j : digits i = digits j -> i = j.
Proof. unfold digits, str_text. intros E%(f_equal String.list_ascii_of_string). rewrite !String.list_ascii_of_string_of_list_ascii in E. apply (f_equal length) in E. by rewrite !repeat_length in E. Qed.
Definition fresh (n : nat) : Fresh := {| fr_hex12 := digits n; fr_now := 7; fr_stamp := "now" |}.
Definition parse (s : string) : option (string * string * string * string) := Some ("http", "python", "", "").
Definition config : option (Config (IPNet:=unit)) :=
  match Load (fun _ => None) (fun c => c) (fun k => if k =? "PROXY_TOKEN" then Some "token" else None) with Ok c => Some c | Err _ => None end.
Definition said : string :=
  Marshal (JObj [("success", JBool true); ("stdout", JStr "2 rows"); ("stderr", JStr ""); ("error", JNull);
                 ("files", JArr [JStr "w/s/req_00000001/out.csv"; JStr "../secret"]); ("duration_ms", JNum "12"); ("truncated", JBool false)]).
Definition post (url token : string) (req : pyExecRequest) : res SErr HttpAnswer :=
  Ok {| ha_Status := 200; ha_ContentType := "application/json"; ha_Body := Ok said |}.
Definition get (url token : string) : res SErr HttpAnswer :=
  if url =? "http://python:8081/files/w/s/req_00000001/out.csv" then Ok {| ha_Status := 200; ha_ContentType := "text/csv"; ha_Body := Ok "a,b" |}
  else Err (SText "connection refused").
Definition answered : AnalysisResult :=
  {| ar_ID := "res_1"; ar_ToolName := "data_query_sql"; ar_Operation := "SELECT 1 AS n"; ar_Columns := ["n"]; ar_Rows := [[("n", JNum "1")]];
     ar_RowCount := 1; ar_SourceID := ""; ar_Dialect := ""; ar_CreatedAt := "now" |}.
Definition ledger : Ledger :=
  {| lg_Report := match RecordResult empty_report answered with Ok st => st | Err _ => empty_report end; lg_Refused := ∅ |}.
Definition meta : ExecutionMetadata := {| em_UserID := "u"; em_WorkspaceID := "w"; em_SessionID := "s"; em_RunID := "r" |}.
Definition args : string :=
  Marshal (JObj [("code", JStr "print(1)"); ("timeout", JNum "30"); ("inputs", JArr [JObj [("kind", JStr "analysis_result"); ("id", JStr "res_1")]])]).
Definition run : F (option Ledger * res ToolError string) :=
  RunPython_Execute letter "/data" digest parse config get post "http://python:8081" fresh (Some meta) (Some ledger) args.
(** The artifacts that are recorded, and the code of the answer's error. *)
Definition summary (r : res SErr (option Ledger * res ToolError string)) : option (list (string * string) * bool) :=
  match r with
  | Ok (Some l, answer) => Some (map (fun kv => (kv.1, af_Name kv.2)) (map_to_list (rp_Artifacts (lg_Report l))),
                                 match answer with Ok a => contains_text a "artifact_persistence_failed" | Err _ => false end)
  | _ => None
  end.
(** The second file has a path that is refused: the first one stays. *)
Lemma one_recorded : summary (exec run one_run).2 = Some ([("art_", "out.csv")], true).
Proof. vm_compute. reflexivity. Qed.
End PythonExample.


Lemma health_cached_witness :
  exists c, CheckAvailability PythonExample.parse PythonExample.config PythonExample.get PythonExample.post "http://python:8081" "0" 1 2 c
            = (c, Err (SText "down"), false) /\ (1 - hc_checkedAt c < pythonHealthFailureCacheTTL)%Z.
Proof.
  exists {| hc_key := cache_key "http://python:8081" "token"; hc_checkedAt := 0; hc_err := Err (SText "down") |}.
  assert (E : CheckAvailability PythonExample.parse PythonExample.config PythonExample.get PythonExample.post "http://python:8081" "0" 1 2
                {| hc_key := cache_key "http://python:8081" "token"; hc_checkedAt := 0; hc_err := Err (SText "down") |}
              = ({| hc_key := cache_key "http://python:8081" "token"; hc_checkedAt := 0; hc_err := Err (SText "down") |}, Err (SText "down"), false)).
  { vm_compute. reflexivity. }
  split; [exact E|]. destruct (health_cached _ _ _ _ _ _ _ _ _ _ _ _ E) as [_ [(_ & _ & _ & H)|[_ H]]]; [by apply H|].
  vm_compute. reflexivity.
Defined.

(** A name of dots is taken for a file name, and the name of an uploaded source is sent as it is. *)
Lemma dots_are_a_filename : bad_filename ".." = false.
Proof. reflexivity. Qed.
Lemma source_name_sent : bad_filename "销售 2024.csv" = false.
Proof. vm_compute. reflexivity. Qed.
