(* ===== verification/SourceTools.v ===== *)
(** What a session sees of its data sources and how a user's confirmations reach them: the
    inspection of a session's governance ([service/governance.go]), the tools over sources,
    profiles and time ([tools/source_tools.go], [time_context.go]) with the providers a session
    gives them ([session/types.go]), and the handlers on a session's sources and profiles
    ([handler/data_source.go]).

    The text of a time is an argument; the rows of the sessions are a map to their user and
    workspace. *)
From S2P Require Import Prelude GoStrings Json ReportState ReportOps ReportSnapshot SqlGuard StateTools Tools Receipts Calls Sources Connectors LiveTables DataTools.
From Stdlib Require Import Ascii.
Open Scope string_scope.
Open Scope list_scope.
Open Scope go_scope.

(** * Governance *)

Record GovernanceSourceSummary := {
  gs_SourceID : string; gs_SourceObjectKey : string; gs_AnalysisTableName : string; gs_SourceType : string; gs_SnapshotStatus : SnapshotStatus;
  gs_ProfileStatus : string; gs_ProfileID : string; gs_SchemaSignature : string; gs_RowCount : Z; gs_ColumnCount : Z; gs_ProfileMode : string;
  gs_ImportTruncated : bool; gs_SemanticAssetCount : nat
}.
Record GovernanceProfileWarning := { gw_SourceID : string; gw_ProfileID : string; gw_Index : nat; gw_Warning : string }.
Record GovernanceObservationError := { go_Operation : string; go_SourceID : string; go_ProfileID : string; go_Detail : string }.
Record GovernanceInspection := {
  gi_WorkspaceID : string; gi_SessionID : string; gi_SourceCount : nat; gi_SemanticAssetCount : nat; gi_Sources : list GovernanceSourceSummary;
  gi_ProfileWarnings : list GovernanceProfileWarning; gi_ObservationErrors : list GovernanceObservationError; gi_GeneratedAt : time
}.
(** What one source adds: its signature and number of assets, warnings and errors. *)
Record SourceFacts := { sx_Signature : string; sx_Assets : nat; sx_Warnings : list GovernanceProfileWarning; sx_Errors : list GovernanceObservationError }.
Definition no_facts : SourceFacts := {| sx_Signature := ""; sx_Assets := 0; sx_Warnings := []; sx_Errors := [] |}.
Definition observation (operation : string) (s : SessionSourceSummary) (detail : string) : GovernanceObservationError :=
  {| go_Operation := operation; go_SourceID := sm_SourceID s; go_ProfileID := sm_ProfileID s; go_Detail := detail |}.
Definition usable_asset (a : SemanticAsset) : bool := negb ((sa_ID a =? "") || not_exact (sa_ID a)).
(** The assets of a profile with an exact identifier; [seen] counts each of the session once. *)
Fixpoint count_assets (s : SessionSourceSummary) (seen : gset string) (assets : list SemanticAsset) : gset string * nat * list GovernanceObservationError :=
  match assets with
  | [] => (seen, 0, [])
  | a :: assets =>
      if negb (usable_asset a) then
        let '(seen, n, errors) := count_assets s seen assets in
        (seen, n, observation "validate_semantic_asset" s "semantic asset repository returned a record without an exact ID" :: errors)
      else
        let '(seen, n, errors) := count_assets s ({[sa_ID a]} ∪ seen) assets in (seen, S n, errors)
  end.
Definition profile_warnings (s : SessionSourceSummary) (profileJSON : string) : list GovernanceProfileWarning * list GovernanceObservationError :=
  match read_facts profileJSON with
  | None => ([], [observation "parse_semantic_profile" s "invalid JSON"])
  | Some (_, warnings) =>
      (imap (fun i w => {| gw_SourceID := sm_SourceID s; gw_ProfileID := sm_ProfileID s; gw_Index := i; gw_Warning := w |}) warnings, [])
  end.
Definition profile_facts (workspaceID : string) (s : SessionSourceSummary) (seen : gset string) : M (gset string * SourceFacts) :=
  if sm_ProfileID s =? "" then ret (seen, no_facts)
  else
    do detail := try (GetProfileDetail (sm_ProfileID s)) in
    match detail with
    | Err e => ret (seen, {| sx_Signature := ""; sx_Assets := 0; sx_Warnings := []; sx_Errors := [observation "load_semantic_profile" s (Error e)] |})
    | Ok (p, _) =>
        do assets := try (Asset_ListBySchema workspaceID (pf_SchemaSignature p)) in
        let '(seen, n, errors) := match assets with
                                  | Ok assets => count_assets s seen assets
                                  | Err e => (seen, 0, [observation "load_semantic_assets" s (Error e)])
                                  end in
        let '(warnings, more) := profile_warnings s (pf_ProfileJSON p) in
        ret (seen, {| sx_Signature := pf_SchemaSignature p; sx_Assets := n; sx_Warnings := warnings; sx_Errors := errors ++ more |})
    end.
Definition governed (s : SessionSourceSummary) (f : SourceFacts) : GovernanceSourceSummary :=
  {| gs_SourceID := sm_SourceID s; gs_SourceObjectKey := sm_SourceObjectKey s; gs_AnalysisTableName := sm_AnalysisTableName s;
     gs_SourceType := sm_SourceType s; gs_SnapshotStatus := sm_SnapshotStatus s; gs_ProfileStatus := sm_ProfileStatus s; gs_ProfileID := sm_ProfileID s;
     gs_SchemaSignature := sx_Signature f; gs_RowCount := sm_RowCount s; gs_ColumnCount := sm_ColCount s; gs_ProfileMode := sm_ProfileMode s;
     gs_ImportTruncated := sm_ImportTruncated s; gs_SemanticAssetCount := sx_Assets f |}.
Fixpoint inspect_sources (workspaceID : string) (seen : gset string) (sources : list SessionSourceSummary) :
    M (gset string * list (SessionSourceSummary * SourceFacts)) :=
  match sources with
  | [] => ret (seen, [])
  | s :: sources =>
      do r := profile_facts workspaceID s seen in
      do rest := inspect_sources workspaceID r.1 sources in
      ret (rest.1, (s, r.2) :: rest.2)
  end.
(** Errors of some sources are observations unless no source could be read. *)
Definition InspectSessionGovernance (workspaceID sessionID : string) (now : time) : M GovernanceInspection :=
  do r := GetSessionSources sessionID in
  let '(sources, partial) := r in
  require (length partial =? 0)%nat || negb (length sources =? 0)%nat else SText (String.concat (String "010"%char "") partial) ;;
  do inspected := inspect_sources workspaceID ∅ sources in
  ret {| gi_WorkspaceID := workspaceID; gi_SessionID := sessionID; gi_SourceCount := length sources; gi_SemanticAssetCount := size inspected.1;
         gi_Sources := map (fun sf => governed sf.1 sf.2) inspected.2;
         gi_ProfileWarnings := flat_map (fun sf => sx_Warnings sf.2) inspected.2;
         gi_ObservationErrors :=
           (match partial with [] => [] | _ => [{| go_Operation := "load_session_sources"; go_SourceID := ""; go_ProfileID := "";
                                                   go_Detail := String.concat (String "010"%char "") partial |}] end)
           ++ flat_map (fun sf => sx_Errors sf.2) inspected.2;
         gi_GeneratedAt := now |}.

(** * The tools *)

Section tools.
Context (time_json rfc3339 : time -> string).

Definition snapshot_status_text (s : SnapshotStatus) : string :=
  match s with SnapshotStatusCreating => "creating" | SnapshotStatusReady => "ready" | SnapshotStatusFailed => "failed" end.
Definition snapshot_mode_text (m : SnapshotMode) : string := match m with SnapshotModeImported => "imported" | SnapshotModeLive => "live" end.
Definition opt_int (k : string) (n : Z) : list (string * jval) := if (n =? 0)%Z then [] else [(k, JNum (itoa n))].
Definition opt_true (k : string) (b : bool) : list (string * jval) := if b then [(k, JBool true)] else [].
Definition encode_summary (s : SessionSourceSummary) : jval :=
  JObj ([("source_id", JStr (sm_SourceID s)); ("source_object_key", JStr (sm_SourceObjectKey s)); ("display_name", JStr (sm_DisplayName s));
         ("source_type", JStr (sm_SourceType s)); ("active_snapshot_id", JStr (sm_ActiveSnapshotID s)); ("upstream_kind", JStr (sm_UpstreamKind s));
         ("upstream_schema", JStr (sm_UpstreamSchema s)); ("upstream_object", JStr (sm_UpstreamObject s));
         ("analysis_table_name", JStr (sm_AnalysisTableName s)); ("snapshot_status", JStr (snapshot_status_text (sm_SnapshotStatus s)));
         ("profile_status", JStr (sm_ProfileStatus s))]
        ++ opt_str "profile_id" (sm_ProfileID s)
        ++ [("confirmed_override_count", jnat (sm_ConfirmedOverrideCount s)); ("row_count", JNum (itoa (sm_RowCount s)));
            ("column_count", JNum (itoa (sm_ColCount s))); ("last_imported_at", JStr (time_json (sm_LastImportedAt s)));
            ("rows_imported", JNum (itoa (sm_RowsImported s))); ("rows_skipped", JNum (itoa (sm_RowsSkipped s)))]
        ++ opt_int "import_row_limit" (sm_ImportRowLimit s) ++ [("import_unbounded", JBool (sm_ImportUnbounded s))]
        ++ opt_true "import_truncated" (sm_ImportTruncated s)
        ++ [("import_duration_ms", JNum (itoa (sm_ImportDurationMs s))); ("profile_duration_ms", JNum (itoa (sm_ProfileDurationMs s)));
            ("snapshot_size_bytes", JNum (itoa (sm_SnapshotSizeBytes s))); ("profile_mode", JStr (sm_ProfileMode s));
            ("mode", JStr (snapshot_mode_text (sm_Mode s))); ("row_count_estimated", JBool (sm_RowCountEstimated s))]
        ++ opt_str "error_message" (sm_ErrorMessage s)).
(** A nil slice for no source. *)
Definition jlist {A} (f : A -> jval) (l : list A) : jval := match l with [] => JNull | _ => JArr (map f l) end.
(** The provider: any error of a source is one of the whole. *)
Definition SessionSourcesProvider (sessionID : string) : M (list SessionSourceSummary) :=
  do r := GetSessionSources sessionID in
  require (length r.2 =? 0)%nat else SText (String.concat (String "010"%char "") r.2) ;; ret r.1.
Definition tool_call {A} (m : M A) (k : A -> string) : M (res ToolError string) :=
  do r := try m in ret (match r with Ok a => Ok (k a) | Err e => Err (EToolText (Error e)) end).
Definition InspectSessionSources_Execute (workspaceID sessionID : string) (context : bool) (args : string) : M (res ToolError string) :=
  if negb (ValidateNoArgs args) then ret (Err EToolArguments)
  else if negb context then ret (Err (EToolText "tool execution context is not initialized"))
  else tool_call (do sources := SessionSourcesProvider sessionID in
                  do pending := ListPendingFileSources workspaceID sessionID in ret (sources, pending))
    (fun '(sources, pending) =>
       let n := itoa (Z.of_nat (length sources)) in
       let summary := match pending with
                      | [] => text ["当前会话包含 "; n; " 个数据源。"]
                      | _ => text ["当前会话包含 "; n; " 个数据源，另有 "; itoa (Z.of_nat (length pending)); " 个待导入的上传文件。"]
                      end in
       toolSuccess "state_session_sources_inspect"
         ([("source_count", jnat (length sources)); ("sources", jlist encode_summary sources); ("ui_summary", JStr summary)]
          ++ match pending with
             | [] => []
             | _ => [("pending_file_uploads", JArr (map (fun f => JObj [("display_name", JStr f.2); ("source_id", JStr f.1)]) pending))]
             end)).

Definition encode_confirmation (c : SemanticConfirmation) : jval :=
  JObj [("ID", JStr (cf_ID c)); ("ProfileID", JStr (cf_ProfileID c)); ("WorkspaceID", JStr (cf_WorkspaceID c)); ("SessionID", JStr (cf_SessionID c));
        ("ConfirmedBy", JStr (cf_ConfirmedBy c)); ("ConfirmationReceiptID", JStr (cf_ConfirmationReceiptID c)); ("Provenance", JStr (cf_Provenance c));
        ("Scope", JStr (cf_Scope c)); ("OverridesJSON", JStr (cf_OverridesJSON c)); ("CreatedAt", JStr (time_json (cf_CreatedAt c)))].
Definition encode_asset (a : SemanticAsset) : jval :=
  JObj [("ID", JStr (sa_ID a)); ("WorkspaceID", JStr (sa_WorkspaceID a)); ("SourceID", JStr (sa_SourceID a)); ("SchemaSignature", JStr (sa_SchemaSignature a));
        ("AssetKind", JStr (sa_AssetKind a)); ("AssetKey", JStr (sa_AssetKey a)); ("AssetValueJSON", JStr (sa_AssetValueJSON a));
        ("CreatedFromProfileID", JStr (sa_CreatedFromProfileID a)); ("CreatedFromConfirmationID", JStr (sa_CreatedFromConfirmationID a));
        ("CreatedBy", JStr (sa_CreatedBy a)); ("CreatedAt", JStr (time_json (sa_CreatedAt a))); ("UpdatedAt", JStr (time_json (sa_UpdatedAt a)))].
(** The texts of a profile, its confirmations and the assets of its schema; each is JSON. *)
Definition ProfileDetailProvider (workspaceID sessionID profileID : string) : M (string * jval * jval) :=
  do detail := GetSessionProfileDetail sessionID profileID in
  do assets := GetSemanticAssets workspaceID (pf_SchemaSignature detail.1) in
  ret (pf_ProfileJSON detail.1, jlist encode_confirmation detail.2, jlist encode_asset assets).
(** A raw message that is not JSON cannot be written. *)
Definition InspectSemanticProfile_Execute (workspaceID sessionID : string) (context : bool) (args : string) : M (res ToolError string) :=
  match decode_struct [("profile_id", is_jstr)] args with
  | None => ret (Err EToolArguments)
  | Some m =>
      let profileID := string_field m "profile_id" in
      if negb context then ret (Err (EToolText "tool execution context is not initialized"))
      else tool_call (ProfileDetailProvider workspaceID sessionID profileID)
        (fun '(profileJSON, confirmations, patches) =>
           match Unmarshal profileJSON with
           | None => marshal_failed
           | Some profile => toolSuccess "state_semantic_profile_inspect"
               [("profile_id", JStr profileID); ("profile_json", profile); ("confirmations", confirmations); ("reusable_patches", patches)]
           end)
  end.

Definition encode_governed (s : GovernanceSourceSummary) : jval :=
  JObj ([("source_id", JStr (gs_SourceID s)); ("source_object_key", JStr (gs_SourceObjectKey s)); ("analysis_table_name", JStr (gs_AnalysisTableName s));
         ("source_type", JStr (gs_SourceType s)); ("snapshot_status", JStr (snapshot_status_text (gs_SnapshotStatus s)));
         ("profile_status", JStr (gs_ProfileStatus s))]
        ++ opt_str "profile_id" (gs_ProfileID s) ++ opt_str "schema_signature" (gs_SchemaSignature s)
        ++ [("row_count", JNum (itoa (gs_RowCount s))); ("column_count", JNum (itoa (gs_ColumnCount s))); ("profile_mode", JStr (gs_ProfileMode s));
            ("import_truncated", JBool (gs_ImportTruncated s)); ("semantic_asset_count", jnat (gs_SemanticAssetCount s))]).
Definition encode_warning (w : GovernanceProfileWarning) : jval :=
  JObj [("source_id", JStr (gw_SourceID w)); ("profile_id", JStr (gw_ProfileID w)); ("index", jnat (gw_Index w)); ("warning", JStr (gw_Warning w))].
Definition encode_observation (e : GovernanceObservationError) : jval :=
  JObj ([("operation", JStr (go_Operation e))] ++ opt_str "source_id" (go_SourceID e) ++ opt_str "profile_id" (go_ProfileID e)
        ++ [("detail", JStr (go_Detail e))]).
Definition InspectGovernance_Execute (workspaceID sessionID : string) (context : bool) (now : time) (args : string) : M (res ToolError string) :=
  if negb (ValidateNoArgs args) then ret (Err EToolArguments)
  else if negb context then ret (Err (EToolText "tool execution context is not initialized"))
  else tool_call (InspectSessionGovernance workspaceID sessionID now)
    (fun g => toolSuccess "state_governance_inspect"
       [("source_count", jnat (gi_SourceCount g)); ("semantic_asset_count", jnat (gi_SemanticAssetCount g)); ("sources", jlist encode_governed (gi_Sources g));
        ("profile_warnings", jlist encode_warning (gi_ProfileWarnings g)); ("observation_errors", jlist encode_observation (gi_ObservationErrors g));
        ("generated_at", JStr (time_json (gi_GeneratedAt g)));
        ("ui_summary", JStr (text ["已检查 "; itoa (Z.of_nat (gi_SourceCount g)); " 条数据源事实。"]))]).

(** The facts of the clock, as its location writes them. *)
Record WallClock := { ck_Date : string; ck_DateTime : string; ck_Location : string; ck_Zone : string; ck_Offset : Z }.
Definition encode_imported (s : SessionSourceSummary) : jval :=
  as_maps (JObj ([("source_id", JStr (sm_SourceID s)); ("display_name", JStr (sm_DisplayName s)); ("source_type", JStr (sm_SourceType s));
                  ("analysis_table_name", JStr (sm_AnalysisTableName s))]
                 ++ if IsZero (sm_LastImportedAt s) then [] else [("last_imported_at", JStr (rfc3339 (sm_LastImportedAt s)))])).
Definition InspectTimeContext_Execute (sessionID : string) (context : bool) (now : option WallClock) (args : string) : M (res ToolError string) :=
  if negb (ValidateNoArgs args) then ret (Err EToolArguments)
  else if negb context then ret (Err (EToolText "tool execution context is not initialized"))
  else match now with
  | None => ret (Err (EToolText "wall-clock provider is not initialized"))
  | Some c =>
      tool_call (SessionSourcesProvider sessionID)
        (fun sources => toolSuccess "state_time_context_inspect"
           [("current_date", JStr (ck_Date c)); ("current_datetime", JStr (ck_DateTime c)); ("timezone", JStr (ck_Location c));
            ("timezone_abbreviation", JStr (ck_Zone c)); ("timezone_offset_seconds", JNum (itoa (ck_Offset c)));
            ("source_count", jnat (length sources)); ("sources", JArr (map encode_imported sources));
            ("ui_summary", JStr (text ["当前日期："; ck_Date c; "；会话数据源："; itoa (Z.of_nat (length sources)); " 个"]))])
  end.
End tools.

(** * Committing a patch *)

Section confirm.
Context (sha256hex : string -> string).

Definition patch_action : string := "profile_patch_commit".
(** The identifiers and times a confirmation draws. *)
Record Drawn := { dr_hex12 : string; dr_asset12 : string; dr_event12 : string; dr_now : time; dr_now1 : time; dr_now2 : time }.
Definition receipt_request (workspaceID sessionID profileID scope overridesJSON receiptID actorUserID : string) : ConfirmRequest :=
  {| cq_ProfileID := profileID; cq_WorkspaceID := workspaceID; cq_SessionID := sessionID; cq_ConfirmedBy := actorUserID; cq_Scope := scope;
     cq_OverridesJSON := overridesJSON; cq_ReceiptID := receiptID; cq_Provenance := "authorization_receipt" |}.
Definition confirm_with (q : ConfirmRequest) (d : Drawn) : M (SemanticProfile * list string) :=
  ConfirmProfile sha256hex q (dr_hex12 d) (dr_asset12 d) (dr_event12 d) (dr_now d).
(** The commit keeps the errors of the audit beside the store. *)
Definition patch_commit (q : string -> ConfirmRequest) (d : Drawn) (actorUserID : string) (w : World Db * list string) :
    (World Db * list string) * res string unit :=
  let '(w', r) := confirm_with (q actorUserID) d w.1 in
  match r with
  | Ok (_, auditErrors) => ((w', auditErrors), Ok tt)
  | Err e => ((w', []), Err (Error e))
  end.
Definition ProfileConfirmer (engine : option Engine) (workspaceID sessionID profileID scope overridesJSON receiptID : string) (d : Drawn)
    (w : World Db) : option Engine * World Db * res ToolError (list string) :=
  match engine with
  | None => (None, w, Err (EToolText "agent engine is not initialized"))
  | Some e =>
      match SemanticConfirmationAuthorizationPayload scope overridesJSON with
      | Err m => (engine, w, Err (EToolText m))
      | Ok payload =>
          let '(e', (w', auditErrors), r) :=
            CommitWithConfirmationReceipt sha256hex e (w, []) receiptID patch_action profileID payload
              (Some (patch_commit (receipt_request workspaceID sessionID profileID scope overridesJSON receiptID) d)) (dr_now1 d) (dr_now2 d) in
          (Some e', w', match r with Ok _ => Ok auditErrors | Err err => Err (EToolAuthorization err) end)
      end
  end.
Definition request_fields : list (string * (jval -> bool)) := [("profile_id", is_jstr); ("scope", is_jstr); ("overrides_json", is_jstr)].
Definition patch_fields : list (string * (jval -> bool)) := request_fields ++ [("confirmation_receipt_id", is_jstr)].
(** [json.Unmarshal]: other members are ignored, and any error is no receipt. *)
Definition ApprovalReceiptID (args : string) : string :=
  match (let! v := Unmarshal args in let! kvs := as_object v in bind_known [("confirmation_receipt_id", is_jstr)] kvs) with
  | Some m => string_field m "confirmation_receipt_id"
  | None => ""
  end.
Definition ApprovalRequestOf (args : string) : res string ApprovalRequest :=
  match decode_struct request_fields args with
  | None => Err "failed to parse parameters"
  | Some m =>
      let profileID := string_field m "profile_id" in
      guard negb (blank profileID) else "profile_id must be a non-empty exact value" ;;
      let? payload := SemanticConfirmationAuthorizationPayload (string_field m "scope") (string_field m "overrides_json") in
      Ok {| ar_Action := patch_action; ar_ResourceRef := profileID; ar_PayloadJSON := payload |}
  end.
Definition profile_gate : ApprovalGate := {| ag_ApprovalRequest := ApprovalRequestOf; ag_ApprovalReceiptID := ApprovalReceiptID |}.
Definition ConfirmSourceProfile_Execute (engine : option Engine) (workspaceID sessionID : string) (context : bool) (args : string) (d : Drawn)
    (w : World Db) : option Engine * World Db * res ToolError string :=
  match decode_struct patch_fields args with
  | None => (engine, w, Err EToolArguments)
  | Some m =>
      let profileID := string_field m "profile_id" in
      let scope := string_field m "scope" in
      let receiptID := string_field m "confirmation_receipt_id" in
      if negb context then (engine, w, Err (EToolText "tool execution context is not initialized"))
      else
        let '(engine', w', r) := ProfileConfirmer engine workspaceID sessionID profileID scope (string_field m "overrides_json") receiptID d w in
        (engine', w',
         match r with
         | Err e => Err e
         | Ok auditErrors =>
             Ok (toolSuccess "profile_patch_commit"
                   ([("profile_id", JStr profileID); ("scope", JStr scope); ("confirmation_receipt_id", JStr receiptID);
                     ("ui_summary", JStr (text ["已按作用域 "; scope; " 提交画像 "; profileID; " 的授权补丁。"]))]
                    ++ match auditErrors with [] => [] | _ => [("audit_errors", jtexts auditErrors)] end))
         end)
  end.

(** * The handlers of a session's sources and profiles *)

Context (time_json : time -> string).
Abbreviation Handler := (Calls.M Db Reply).
(** The rows of the sessions. *)
Record SessionRow := { sr_UserID : string; sr_WorkspaceID : string }.
Context (sessions : string -> option SessionRow) (user : option string) (workspaceID : string).
Definition Session_GetByID (id : string) : M SessionRow := read (fun _ => found (sessions id)).
Definition own_session (sessionID userID : string) (k : SessionRow -> Handler) : Handler :=
  lookup_or (Session_GetByID sessionID) "会话不存在" (fun s =>
    if negb (sr_UserID s =? userID) || negb (sr_WorkspaceID s =? workspaceID) then ret (Refused 403 "无权访问此会话") else k s).
(** The service gives the errors of single sources as one error, with the summaries. *)
Definition SessionSourcesHandler (sessionID : string) : Handler :=
  signed_in user (fun userID => own_session sessionID userID (fun _ =>
    or_refuse (SessionSourcesProvider sessionID) 500 "获取数据源失败" (fun sources =>
    ret (Replied 200 (JObj [("sources", jlist (encode_summary time_json) sources)]))))).

(** [runtime] is the error of the session's runtime, if it cannot be had. *)
Definition drop_runtime_table (runtime : string -> string -> string -> res SErr unit) (userID workspace sessionID table : string) : M unit :=
  do _ := lift_res (runtime sessionID workspace userID) in DropTable sessionID table.
Definition DeleteSessionSourceHandler (runtime : string -> string -> string -> res SErr unit) (sessionID sourceID key : string) : Handler :=
  signed_in user (fun userID =>
    if blank key then ret (Refused 400 "缺少 source_object_key")
    else if not_exact key then ret (Refused 400 "source_object_key 必须保持原值")
    else own_session sessionID userID (fun s =>
      lookup_or (DataSource_GetByID sourceID) "数据源不存在" (fun d =>
        if negb (ds_WorkspaceID d =? workspaceID) then ret (Refused 403 "无权访问此数据源")
        else or_refuse (RemoveSessionSource sha256hex (drop_runtime_table runtime userID (sr_WorkspaceID s)) sessionID sourceID key) 500 "移除数据源失败"
               (fun _ => ret NoContent)))).

(** A profile whose source is in the user's workspace. *)
Definition own_profile (profileID : string) (k : SemanticProfile -> list SemanticConfirmation -> Handler) : Handler :=
  or_refuse (GetProfileDetail profileID) 404 "获取画像失败" (fun detail =>
    lookup_or (DataSource_GetByID (pf_SourceID detail.1)) "数据源不存在" (fun d =>
      if negb (ds_WorkspaceID d =? workspaceID) then ret (Refused 403 "无权执行此操作") else k detail.1 detail.2)).
(** A response with a raw message that is not JSON is not written. *)
Definition SemanticProfileDetailHandler (profileID : string) : Handler :=
  signed_in user (fun _ => own_profile profileID (fun p confirmations =>
    or_refuse (GetSemanticAssets workspaceID (pf_SchemaSignature p)) 500 "获取可复用数据源资产失败" (fun assets =>
    ret (match Unmarshal (pf_ProfileJSON p) with
         | None => Refused 500 "服务器内部错误"
         | Some facts =>
             Replied 200 (JObj
               [("profile_id", JStr (pf_ID p)); ("session_id", JStr (pf_SessionID p)); ("source_id", JStr (pf_SourceID p));
                ("snapshot_id", JStr (pf_SnapshotID p)); ("analysis_table_name", JStr (pf_AnalysisTableName p));
                ("schema_signature", JStr (pf_SchemaSignature p)); ("profile_status", JStr (profile_status_text (pf_ProfileStatus p)));
                ("profile_json", facts); ("confirmations", jlist (encode_confirmation time_json) confirmations);
                ("semantic_assets", jlist (encode_asset time_json) assets); ("created_at", JStr (time_json (pf_CreatedAt p)));
                ("updated_at", JStr (time_json (pf_UpdatedAt p)))])
         end)))).

Record ConfirmProfileRequest := { cr_SessionID : string; cr_Scope : string; cr_Overrides : option jval }.
Definition is_interface_map (v : jval) : bool := match v with JObj _ => bool_decide (is_Some (to_interface v)) | _ => false end.
Definition decode_confirm (body : string) : option ConfirmProfileRequest :=
  let! m := decode_struct [("session_id", is_jstr); ("scope", is_jstr); ("overrides", is_interface_map)] body in
  Some {| cr_SessionID := string_field m "session_id"; cr_Scope := string_field m "scope";
          cr_Overrides := let! v := m !! "overrides" in to_interface v |}.
(** A nil map is null. *)
Definition overrides_json (q : ConfirmProfileRequest) : string := Marshal (match cr_Overrides q with Some v => as_maps v | None => JNull end).
(** A confirmation that names a session is of a profile of it, and of one of the user's. *)
Definition check_confirm_session (q : ConfirmProfileRequest) (p : SemanticProfile) (userID : string) (k : Handler) : Handler :=
  if cr_SessionID q =? "" then k
  else own_session (cr_SessionID q) userID (fun _ =>
         if negb (pf_SessionID p =? cr_SessionID q) then ret (Refused 400 "画像不属于指定会话") else k).
Definition handler_request (q : ConfirmProfileRequest) (profileID userID : string) : ConfirmRequest :=
  {| cq_ProfileID := profileID; cq_WorkspaceID := workspaceID; cq_SessionID := cr_SessionID q; cq_ConfirmedBy := userID; cq_Scope := cr_Scope q;
     cq_OverridesJSON := overrides_json q; cq_ReceiptID := ""; cq_Provenance := "authenticated_request" |}.
Definition ConfirmProfileHandler (profileID body : string) (d : Drawn) : Handler :=
  signed_in user (fun userID => own_profile profileID (fun p _ =>
    match decode_confirm body with
    | None => ret (Refused 400 "请求体无效")
    | Some q =>
        if negb (cr_Scope q =? "session") && negb (cr_Scope q =? "workspace") then ret (Refused 400 "scope 必须是 'session' 或 'workspace'")
        else if (cr_Scope q =? "session") && (cr_SessionID q =? "") then ret (Refused 400 "scope 为 'session' 时必须提供 session_id")
        else check_confirm_session q p userID
          (or_refuse (confirm_with (handler_request q profileID userID) d) 500 "确认失败" (fun confirmed =>
           ret (Replied 200 (JObj
             ([("profile_id", JStr (pf_ID confirmed.1)); ("profile_status", JStr (profile_status_text (pf_ProfileStatus confirmed.1)))]
              ++ match confirmed.2 with [] => [] | l => [("audit_errors", jtexts l)] end)))))
    end)).
End confirm.
