(* ===== verification/SourceToolProps.v ===== *)
(** What the tools and handlers of [SourceTools] guarantee: a patch is committed once, by the
    receipt the user gave for it ([patch_commit_exact]), although the runtime never admits the
    call that would do so ([patch_never_admitted]); a confirmation over HTTP is of a profile of
    the caller's workspace ([confirm_scoped]); and the inspection of a session's governance
    counts each asset once ([governance_counted]). *)
From S2P Require Import Prelude GoStrings Json JsonRoundtrip ReportState ReportOps ReportSnapshot SqlGuard StateTools Tools Receipts Calls Sources SourceProps SourceSteps SourceRemoval Connectors LiveTables DataTools SourceTools.
From Stdlib Require Import Ascii.
Open Scope string_scope.
Open Scope list_scope.
Open Scope go_scope.

(** * Receipts and commits *)

Section commits.
Context (sha256hex : string -> string).

(** The receipt is stored, unused, fresh and for exactly this change. *)
Definition authorizes (e : Engine) (now : time) (id action ref payload : string) (rc : ConfirmationReceipt) : Prop :=
  id <> "" /\ en_receipts e !! id = Some rc /\ cf_ConsumedAt rc = None /\ expired rc now = false /\ Receipts.cf_Action rc = action
  /\ Receipts.cf_ResourceRef rc = ref /\ authorizationPayloadHash sha256hex payload = Ok (Receipts.cf_PayloadHash rc).
Lemma commit_cases {W} e (w w' : W) id action ref payload commit now1 now2 e' r :
  CommitWithConfirmationReceipt sha256hex e w id action ref payload (Some commit) now1 now2 = (e', w', r) ->
  (w' = w /\ is_ok r = false /\ en_receipts e' ⊆ en_receipts e)
  \/ exists rc, authorizes e now1 id action ref payload rc
     /\ ((r = Ok tt /\ commit (Receipts.cf_ActorUserID rc) w = (w', Ok tt) /\ en_receipts e' = <[id := consume rc now2]> (en_receipts e))
         \/ exists m, r = Err (ECommitFailed m) /\ commit (Receipts.cf_ActorUserID rc) w = (w', Err m) /\ e' = e).
Proof.
  unfold CommitWithConfirmationReceipt. intros H.
  destruct (_ || _) eqn:Hid in H; [injection H as <- <- <-; by left|].
  assert (id <> "") as Hne by (intros ->; done).
  destruct (en_receipts e !! id) as [rc|] eqn:Hrc; [|injection H as <- <- <-; by left].
  case_bool_decide as Hc; [injection H as <- <- <-; by left|].
  destruct (expired rc now1) eqn:Hexp; [injection H as <- <- <-; left; split_and!; [done|done|apply delete_subseteq]|].
  destruct (_ || _) eqn:Ha in H; [injection H as <- <- <-; by left|].
  destruct (_ || _) eqn:Hr in H; [injection H as <- <- <-; by left|].
  destruct (authorizationPayloadHash _ _) as [h|] eqn:Hh; [|injection H as <- <- <-; by left].
  destruct (negb (_ =? h)) eqn:Hp; [injection H as <- <- <-; by left|].
  apply orb_false_iff in Ha as [_ Ha]. apply orb_false_iff in Hr as [_ Hr]. apply negb_eqb_false in Ha, Hr, Hp. subst.
  right. exists rc. split. { split_and!; [done|done|by apply eq_None_not_Some|done..]. }
  destruct (commit _ w) as [w1 [[]|m]] eqn:Hk; injection H as <- <- <-; [left|right; exists m]; done.
Qed.
Lemma used_receipt {W} e (w : W) id action ref payload commit now1 now2 rc :
  en_receipts e !! id = Some rc -> is_Some (cf_ConsumedAt rc) ->
  exists err, CommitWithConfirmationReceipt sha256hex e w id action ref payload (Some commit) now1 now2 = (e, w, Err err).
Proof.
  intros Hrc Hc. unfold CommitWithConfirmationReceipt. destruct (_ || _); [by eexists|]. rewrite Hrc, (bool_decide_eq_true_2 _ Hc). by eexists.
Qed.

(** ** What a confirmation does to the profiles *)

Section field.
Context {T : Type} (f : Db -> T).
Hypothesis f_audit : forall db m, f (set_audit db m) = f db.
Hypothesis f_assets : forall db m, f (set_assets db m) = f db.
#[local] Hint Resolve preserves_ret preserves_fail preserves_lift preserves_try preserves_wrap : core.
Lemma audit_keeps e hex12 now : preserves f (recordAudit e hex12 now).
Proof.
  unfold recordAudit. destruct (negb _); [|auto]. destruct (negb _); [|auto]. destruct (negb _); [|auto]. apply preserves_bind; [auto|].
  intros [|]; [|auto]. destruct (_ || _); [|auto]. apply preserves_write. intros db db' E. destruct (negb _); [|done]. by injection E as <-.
Qed.
Lemma upsert_keeps p c hex12 now : preserves f (upsertSemanticAssetsFromConfirmation sha256hex p c hex12 now).
Proof.
  unfold upsertSemanticAssetsFromConfirmation. apply preserves_bind; [auto|]. intros assets.
  induction assets as [|a assets IH]; cbn [upsert_assets]; [auto|]. apply preserves_bind.
  { apply preserves_wrap, preserves_write. intros db db' E. destruct (_ !! _); [by injection E as <-|]. destruct (_ =? 0)%nat; [|done]. by injection E as <-. }
  intros _. apply preserves_bind; [apply preserves_try, audit_keeps|]. intros r. by apply preserves_bind.
Qed.
End field.

Lemma alter_stored {A} (f : A -> A) (m : gmap string A) k a : m !! k = Some a -> alter f k m = <[k := f a]> m.
Proof.
  intros Hk. apply map_eq. intros j. destruct (decide (j = k)) as [->|Hj].
  - by rewrite lookup_alter_eq, lookup_insert_eq, Hk.
  - by rewrite lookup_alter_ne, lookup_insert_ne.
Qed.
Definition set_confirmed (q : ConfirmRequest) (now : time) (m : gmap string SemanticProfile) : gmap string SemanticProfile :=
  alter (with_profile_status ProfileStatusConfirmed now) (cq_ProfileID q) m.
Lemma finish_profiles q p c asset12 event12 now db db' r :
  runs (finish_confirmation sha256hex q p c asset12 event12 now) db db' r ->
  match r with
  | Ok x => db_profiles db' = set_confirmed q now (db_profiles db) /\ pf_ID x.1 = pf_ID p
  | Err _ => db_profiles db' = db_profiles db
  end.
Proof.
  intros R. unfold finish_confirmation in R. apply runs_bind in R as [(e & R & ->)|(errors & d1 & R1 & R)].
  { destruct (_ =? _) in R; [|by run_step R]. apply runs_wrap in R as (r2 & R & E). by eapply (upsert_keeps db_profiles). }
  assert (db_profiles d1 = db_profiles db) as Ep.
  { destruct (_ =? _) in R1; [|by run_step R1]. apply runs_wrap in R1 as (r2 & R1 & E). by eapply (upsert_keeps db_profiles). }
  apply runs_bind in R as [(e & R & ->)|([] & d2 & R2 & R)].
  { apply runs_wrap in R as (r2 & R & E). apply runs_write in R as [(e' & -> & _)|(_ & ->)]; done. }
  apply runs_wrap in R2 as (r2 & R2 & E). apply runs_write in R2 as [(e' & _ & ->)|([= <-] & ->)]; [done|].
  apply runs_bind in R as [(e & R & ->)|(rec & d3 & R3 & R)]; [by apply runs_try in R as (? & _ & [=])|].
  apply runs_ret in R as [-> ->]. apply runs_try in R3 as (r3 & R3 & _). apply (audit_keeps db_profiles) in R3; [|done]. rewrite R3. cbn. by rewrite Ep.
Qed.
Lemma stored_reads q : preserves (fun db => db) (stored_confirmation q).
Proof.
  unfold stored_confirmation, Confirmation_ListByProfile. destruct (cq_ReceiptID q =? ""); [apply preserves_ret|].
  apply preserves_bind; [apply preserves_wrap, preserves_read|]. intros l. destruct (List.find _ l) as [c|]; [|apply preserves_ret].
  destruct (same_facts q c); [apply preserves_ret|apply preserves_fail].
Qed.
(** The profile is one of the named session, if one is named, and the scope is one of two. *)
Lemma confirm_profiles q hex12 asset12 event12 now db db' r :
  runs (ConfirmProfile sha256hex q hex12 asset12 event12 now) db db' r ->
  (db' = db /\ is_ok r = false)
  \/ exists p, db_profiles db !! cq_ProfileID q = Some p /\ (cq_SessionID q = "" \/ pf_SessionID p = cq_SessionID q)
     /\ (cq_Scope q = "session" \/ cq_Scope q = "workspace")
     /\ match r with
        | Ok x => db_profiles db' = <[cq_ProfileID q := with_profile_status ProfileStatusConfirmed now p]> (db_profiles db) /\ pf_ID x.1 = pf_ID p
        | Err _ => db_profiles db' = db_profiles db
        end.
Proof.
  intros R. unfold ConfirmProfile in R.
  apply runs_bind in R as [(e & R & ->)|(u & d & R1 & R)]; [apply runs_lift in R as [-> _]; by left|]. apply runs_lift in R1 as [-> Hchk].
  apply runs_bind in R as [(e & R & ->)|(p & d & R1 & R)].
  { apply runs_wrap in R as (r1 & R & _). unfold Profile_GetByID in R. apply runs_read in R as [-> _]. by left. }
  apply runs_wrap in R1 as (r1 & R1 & E1). unfold Profile_GetByID in R1. apply runs_read in R1 as [-> R1].
  destruct r1 as [p1|]; [|done]. injection E1 as <-. apply read_found in R1.
  destruct (_ || _) eqn:Hs in R; [|run_step R; by left].
  apply runs_bind in R as [(e & R & ->)|(u2 & d & R2 & R)]; [apply runs_lift in R as [-> _]; by left|]. apply runs_lift in R2 as [-> _].
  pose proof (stored_reads q) as Hst.
  apply runs_bind in R as [(e & R & ->)|(stored & d & Rs & R)]; [left; split; [by eapply Hst|done]|]. apply Hst in Rs as ->.
  cbv zeta in R. destruct (negb _) in R; [|run_step R; by left].
  apply runs_bind in R as [(e & R & ->)|([] & d & R3 & R)].
  { destruct stored; [by run_step R|]. apply runs_wrap in R as (r2 & R & E). apply runs_write in R as [(e' & -> & _)|(_ & ->)]; [by left|done]. }
  assert (db_profiles d = db_profiles db) as Ep.
  { destruct stored; [by run_step R3|]. apply runs_wrap in R3 as (r2 & R3 & E). apply runs_write in R3 as [(e' & -> & _)|(E3 & _)]; [done|].
    destruct (negb _ && _); [|done]. destruct (has _ _); [|done]. by injection E3 as <-. }
  right. exists p. apply finish_profiles in R. rewrite Ep in R. split_and!; [done| | |].
  - apply orb_true_iff in Hs as [Hs|Hs]; apply String.eqb_eq in Hs; auto.
  - unfold check_confirm in Hchk. destruct (negb _ && _) eqn:Hsc in Hchk; [done|]. apply andb_false_iff in Hsc as [Hsc|Hsc]; apply negb_eqb_false in Hsc; auto.
  - destruct r as [x|]; [|done]. destruct R as [-> ?]. split; [|done]. unfold set_confirmed. by apply alter_stored.
Qed.
End commits.

(** * The patch tool *)

Lemma runs_world {S A} (m : Calls.M S A) (w w' : World S) r : m w = (w', r) -> runs m (w_db w) (w_db w') r.
Proof. destruct w as [db fs], w' as [db' fs']. intros E. by exists fs, fs'. Qed.

Section patches.
Context (sha256hex : string -> string) (workspaceID sessionID : string).

(** The members of a patch call and the receipt that allows it. *)
Definition patch_allowed (m : gmap string jval) (e : Engine) (d : Drawn) (rc : ConfirmationReceipt) : Prop :=
  exists payload,
    SemanticConfirmationAuthorizationPayload (string_field m "scope") (string_field m "overrides_json") = Ok payload
    /\ authorizes sha256hex e (dr_now1 d) (string_field m "confirmation_receipt_id") patch_action (string_field m "profile_id") payload rc.
Definition patch_request (m : gmap string jval) (rc : ConfirmationReceipt) : ConfirmRequest :=
  receipt_request workspaceID sessionID (string_field m "profile_id") (string_field m "scope") (string_field m "overrides_json")
    (string_field m "confirmation_receipt_id") (Receipts.cf_ActorUserID rc).
Definition patch_stored (m : gmap string jval) (rc : ConfirmationReceipt) (d : Drawn) (db db' : Db) : Prop :=
  (exists i c, db_confirmations db' !! i = Some c /\ confirms (patch_request m rc) c)
  /\ exists p, db_profiles db !! string_field m "profile_id" = Some p /\ (sessionID = "" \/ pf_SessionID p = sessionID)
     /\ db_profiles db' = <[string_field m "profile_id" := with_profile_status ProfileStatusConfirmed (dr_now d) p]> (db_profiles db).

Lemma confirm_stored m rc d db db' x :
  runs (confirm_with sha256hex (patch_request m rc) d) db db' (Ok x) -> string_field m "confirmation_receipt_id" <> "" -> patch_stored m rc d db db'.
Proof.
  intros R Hne. unfold confirm_with in R. split.
  - apply confirm_run in R as [[_ [=]]|[(i & c & Hi & Hc & E)|(c & Hc & E & _ & _)]]; [|exists (cf_ID c), c|done].
    + exists i, c. by rewrite E.
    + by rewrite E, lookup_insert_eq.
  - apply confirm_profiles in R as [[_ [=]]|(p & Hp & Hs & _ & E & _)]. by exists p.
Qed.
(** A call of the tool either finds a receipt that allows it or changes nothing. *)
Lemma patch_cases e args d w engine' w' r :
  ConfirmSourceProfile_Execute sha256hex (Some e) workspaceID sessionID true args d w = (engine', w', r) ->
  exists e', engine' = Some e'
  /\ ((w' = w /\ is_ok r = false /\ en_receipts e' ⊆ en_receipts e)
      \/ exists m rc, decode_struct patch_fields args = Some m /\ patch_allowed m e d rc
         /\ ((is_ok r = true /\ patch_stored m rc d (w_db w) (w_db w')
              /\ en_receipts e' = <[string_field m "confirmation_receipt_id" := consume rc (dr_now2 d)]> (en_receipts e))
             \/ (is_ok r = false /\ e' = e))).
Proof.
  unfold ConfirmSourceProfile_Execute. destruct (decode_struct patch_fields args) as [m|] eqn:Hm.
  2: { intros [= <- <- <-]. exists e. split; [done|]. by left. }
  cbv zeta. cbn [negb]. unfold ProfileConfirmer. destruct (SemanticConfirmationAuthorizationPayload _ _) as [payload|msg] eqn:Hp.
  2: { intros [= <- <- <-]. exists e. split; [done|]. by left. }
  destruct (CommitWithConfirmationReceipt _ _ _ _ _ _ _ _ _ _) as [[e' [w1 errs]] rc0] eqn:Hc. intros [= <- <- <-].
  exists e'. split; [done|]. apply commit_cases in Hc as [(E & Hr & Hsub)|(rc & Hau & Hk)].
  - injection E as -> ->. left. destruct rc0; done.
  - right. exists m, rc. split; [done|]. split; [by exists payload|]. destruct Hau as (Hne & _). destruct Hk as [(-> & Hk & Er)|(msg & -> & _ & ->)]; [|by right].
    left. split_and!; [done| |done]. unfold patch_commit in Hk. cbn [fst] in Hk. destruct (confirm_with _ _ _ w) as [w2 [[p l]|err]] eqn:Hw; [|done].
    injection Hk as -> _. apply runs_world in Hw. by eapply confirm_stored.
Qed.
(** A receipt that was used allows nothing more. *)
Lemma patch_used e args d w m rc :
  decode_struct patch_fields args = Some m -> en_receipts e !! string_field m "confirmation_receipt_id" = Some rc -> is_Some (cf_ConsumedAt rc) ->
  exists err, ConfirmSourceProfile_Execute sha256hex (Some e) workspaceID sessionID true args d w = (Some e, w, Err err).
Proof.
  intros Hm Hrc Hc. unfold ConfirmSourceProfile_Execute. rewrite Hm. cbv zeta. cbn [negb]. unfold ProfileConfirmer.
  destruct (SemanticConfirmationAuthorizationPayload _ _); [|by eexists]. cbn [negb].
  edestruct (used_receipt sha256hex e (w, [] : list string)) as [err ->]; [done..|]. by eexists.
Qed.
End patches.

(** ** Admission *)

Lemma bound_known fields kvs acc m :
  bind_fields fields kvs acc = Some m -> Forall (fun kv : string * jval => is_Some (match_field (map fst fields) kv.1)) kvs.
Proof.
  revert acc. induction kvs as [|[k v] kvs IH]; intros acc E; [constructor|]. cbn [bind_fields] in E.
  destruct (match_field (map fst fields) k) as [f|] eqn:Hf; [|done]. constructor; [by eexists|].
  destruct v; try (by eapply IH); (destruct (existsb _ _); [by eapply IH|done]).
Qed.
Lemma match_fold fields k f : match_field fields k = Some f -> f ∈ fields /\ fold_key f = fold_key k.
Proof.
  unfold match_field. destruct (List.find (String.eqb k) fields) as [g|] eqn:E1.
  - intros [= <-]. apply find_some in E1 as [Hin Hk]. apply String.eqb_eq in Hk as <-. split; [by apply list_elem_of_In|done].
  - intros E2. apply find_some in E2 as [Hin Hk]. apply String.eqb_eq in Hk. split; [by apply list_elem_of_In|done].
Qed.
(** A member one list of fields knows is unknown to another whose names differ from them when folded. *)
Lemma match_apart fields others k :
  (forall f g, f ∈ fields -> g ∈ others -> fold_key f <> fold_key g) ->
  is_Some (match_field fields k) -> match_field others k = None.
Proof.
  intros Hap (f & Hf). apply match_fold in Hf as [Hin E]. destruct (match_field others k) as [g|] eqn:Hg; [|done].
  apply match_fold in Hg as [Hin2 E2]. destruct (Hap f g Hin Hin2). congruence.
Qed.
Lemma request_no_receipt args req : ApprovalRequestOf args = Ok req -> ApprovalReceiptID args = "".
Proof.
  unfold ApprovalRequestOf, ApprovalReceiptID. destruct (decode_struct request_fields args) as [m|] eqn:Hm; [|done]. intros _.
  unfold decode_struct, Validate in Hm. destruct (Unmarshal args) as [v|]; [|done]. destruct (no_duplicate_keys v); [|done].
  destruct (as_object v) as [kvs|]; [|done]. apply bound_known in Hm. unfold bind_known.
  assert (List.filter (fun kv : string * jval => bool_decide (is_Some (match_field (map fst [("confirmation_receipt_id", is_jstr)]) kv.1))) kvs = []) as ->; [|done].
  induction Hm as [|kv kvs Hk _ IH]; [done|]. cbn [List.filter]. rewrite (match_apart (map fst request_fields)), IH; [done| |done].
  intros f g Hf Hg. repeat (apply elem_of_cons in Hf as [->|Hf]); [..|by apply elem_of_nil in Hf]; apply list_elem_of_singleton in Hg as ->; by vm_compute.
Qed.

(** * Governance *)

Lemma count_assets_spec s seen assets seen' n errors :
  count_assets s seen assets = (seen', n, errors) ->
  seen' = list_to_set (map sa_ID (List.filter usable_asset assets)) ∪ seen /\ n = length (List.filter usable_asset assets)
  /\ (errors = [] -> Forall (fun a => usable_asset a = true) assets).
Proof.
  revert seen seen' n errors. induction assets as [|a assets IH]; intros seen seen' n errors; cbn [count_assets List.filter].
  { intros [= <- <- <-]. split_and!; [set_solver|done|constructor]. }
  destruct (usable_asset a) eqn:Ha; cbn [negb].
  - destruct (count_assets s ({[sa_ID a]} ∪ seen) assets) as [[seen1 n1] errors1] eqn:E. intros [= <- <- <-].
    apply IH in E as (-> & -> & He). cbn [map list_to_set length]. split_and!; [set_solver|done|]. intros Hnil. by constructor; [|apply He].
  - destruct (count_assets s seen assets) as [[seen1 n1] errors1] eqn:E. intros [= <- <- <-]. apply IH in E as (-> & -> & _). done.
Qed.
(** The assets of a schema in the workspace. *)
Definition schema_asset (db : Db) (workspaceID signature : string) (a : SemanticAsset) : Prop :=
  (exists k, db_assets db !! k = Some a) /\ sa_WorkspaceID a = workspaceID /\ sa_SchemaSignature a = signature /\ usable_asset a = true.
(** What the inspection says of one source with a profile when it met no error. *)
Definition fully_observed (db : Db) (workspaceID : string) (s : SessionSourceSummary) (f : SourceFacts) (ids : gset string) : Prop :=
  exists p, db_profiles db !! sm_ProfileID s = Some p /\ sx_Signature f = pf_SchemaSignature p
    /\ forall a, schema_asset db workspaceID (pf_SchemaSignature p) a -> sa_ID a ∈ ids.
Lemma detail_run id db db' r :
  runs (GetProfileDetail id) db db' r -> db' = db /\ forall x, r = Ok x -> db_profiles db !! id = Some x.1.
Proof.
  intros R. unfold GetProfileDetail, Profile_GetByID, Confirmation_ListByProfile in R.
  apply runs_bind in R as [(e & R & ->)|(p & d & R1 & R)]; [by apply runs_read in R as [-> _]|]. apply runs_read in R1 as [-> R1].
  apply read_found in R1. apply runs_bind in R as [(e & R & ->)|(l & d & R2 & R)]; [by apply runs_read in R as [-> _]|].
  apply runs_read in R2 as [-> _]. apply runs_ret in R as [-> ->]. split; [done|]. by intros x [= <-].
Qed.
Lemma listed_run workspaceID signature db db' r :
  runs (Asset_ListBySchema workspaceID signature) db db' r ->
  db' = db /\ forall l, r = Ok l -> forall a, a ∈ l <-> (exists k, db_assets db !! k = Some a) /\ sa_WorkspaceID a = workspaceID /\ sa_SchemaSignature a = signature.
Proof.
  intros R. unfold Asset_ListBySchema in R. apply runs_read in R as [-> R]. split; [done|]. intros l ->. destruct R as [(m & [=])|[= ->]].
  intros a. rewrite merge_sort_Permutation, in_rows, andb_true_iff, !String.eqb_eq. naive_solver.
Qed.
Lemma profile_facts_run workspaceID s seen db db' seen' f :
  runs (profile_facts workspaceID s seen) db db' (Ok (seen', f)) ->
  db' = db /\ exists X, seen' = X ∪ seen /\ (forall id, id ∈ X -> exists sig a, schema_asset db workspaceID sig a /\ sa_ID a = id)
    /\ (sx_Errors f = [] -> sm_ProfileID s <> "" -> fully_observed db workspaceID s f X).
Proof.
  intros R. unfold profile_facts in R. destruct (_ =? "") eqn:Ep in R.
  { apply runs_ret in R as [-> [= -> ->]]. split; [done|]. exists ∅. apply String.eqb_eq in Ep. split_and!; [set_solver|set_solver|done]. }
  apply runs_bind in R as [(e & R & [=])|(detail & d & R1 & R)]. apply runs_try in R1 as (r1 & R1 & [= ->]). apply detail_run in R1 as [-> Hp].
  destruct r1 as [[p l]|e]; cycle 1.
  { apply runs_ret in R as [-> [= -> ->]]. split; [done|]. exists ∅. split_and!; [set_solver|set_solver|done]. }
  specialize (Hp _ eq_refl). apply runs_bind in R as [(e & R & [=])|(assets & d & R2 & R)]. apply runs_try in R2 as (r2 & R2 & [= ->]).
  apply listed_run in R2 as [-> Hl]. destruct r2 as [assets|e]; cycle 1.
  { destruct (profile_warnings _ _) in R. apply runs_ret in R as [-> [= -> ->]]. split; [done|]. exists ∅. split_and!; [set_solver|set_solver|done]. }
  specialize (Hl _ eq_refl). destruct (count_assets s seen assets) as [[seen1 n] errors] eqn:Hc. destruct (profile_warnings _ _) as [ws more] in R.
  apply runs_ret in R as [-> [= -> ->]]. split; [done|]. apply count_assets_spec in Hc as (-> & -> & Hall). eexists. split; [done|]. split.
  - intros id (a & -> & Ha)%elem_of_list_to_set%list_elem_of_fmap. apply list_elem_of_In, filter_In in Ha as [Ha Hu]. apply list_elem_of_In, Hl in Ha.
    exists (pf_SchemaSignature p), a. split; [|done]. unfold schema_asset. tauto.
  - cbn [sx_Errors]. intros [-> ->]%app_eq_nil _. exists p. split_and!; [done|done|]. intros a (Hk & Hw & Hs & Hu).
    apply elem_of_list_to_set, list_elem_of_fmap. exists a. split; [done|]. apply list_elem_of_In, filter_In. split; [|done]. apply list_elem_of_In, Hl. tauto.
Qed.
Lemma inspect_run workspaceID seen sources db db' r :
  runs (inspect_sources workspaceID seen sources) db db' (Ok r) ->
  db' = db /\ map fst r.2 = sources /\ exists X, r.1 = X ∪ seen
    /\ (forall id, id ∈ X -> exists sig a, schema_asset db workspaceID sig a /\ sa_ID a = id)
    /\ Forall (fun sf => sx_Errors sf.2 = [] -> sm_ProfileID sf.1 <> "" -> fully_observed db workspaceID sf.1 sf.2 X) r.2.
Proof.
  revert seen db db' r. induction sources as [|s sources IH]; intros seen db db' r R; cbn [inspect_sources] in R.
  { apply runs_ret in R as [-> [= ->]]. split_and!; [done|done|]. exists ∅. split_and!; [set_solver|set_solver|constructor]. }
  apply runs_bind in R as [(e & R & [=])|([seen1 f] & d & R1 & R)]. apply profile_facts_run in R1 as (-> & X1 & -> & HX1 & Hf).
  apply runs_bind in R as [(e & R & [=])|(rest & d & R2 & R)]. apply IH in R2 as (-> & E & X2 & Hr & HX2 & Hall).
  apply runs_ret in R as [-> [= ->]]. cbn [fst snd map]. split_and!; [done|by rewrite E|]. exists (X1 ∪ X2). rewrite Hr. split_and!; [set_solver| |].
  - intros id [?|?]%elem_of_union; [by apply HX1|by apply HX2].
  - assert (forall s f X Y, fully_observed db workspaceID s f X -> X ⊆ Y -> fully_observed db workspaceID s f Y) as Hmono.
    { intros s0 f0 X Y (p & H1 & H2 & H3) Hsub. exists p. split_and!; [done|done|]. intros a Ha. by apply Hsub, H3. }
    constructor. { intros H1 H2. eapply Hmono; [by apply Hf|set_solver]. }
    eapply Forall_impl; [exact Hall|]. intros sf Hsf H1 H2. eapply Hmono; [by apply Hsf|set_solver].
Qed.
Lemma sources_read sessionID : preserves (fun db => db) (GetSessionSources sessionID).
Proof.
  assert (forall b, preserves (fun db => db) (session_source sessionID b)) as Hs.
  { intros b. unfold session_source, DataSource_GetByID, Snapshot_GetByID, summary_profile, Profile_ListBySource, Confirmation_ListByProfile.
    apply preserves_bind; [apply preserves_try, preserves_read|]. intros [d|e]; [|apply preserves_ret].
    apply preserves_bind; [apply preserves_try, preserves_read|]. intros [s|e]; [|apply preserves_ret]. apply preserves_bind.
    - apply preserves_bind; [apply preserves_try, preserves_read|]. intros [l|e]; (destruct (selectProfileForSnapshot _ _ _) as [[p|]|]; [|apply preserves_ret..]);
        (apply preserves_bind; [apply preserves_try, preserves_read|]; intros r; apply preserves_ret).
    - intros [[[status id] n] errors]. apply preserves_ret. }
  unfold GetSessionSources, Binding_GetBySession. apply preserves_bind; [apply preserves_read|]. intros l.
  induction l as [|b l IH]; cbn [session_sources]; [apply preserves_ret|]. apply preserves_bind; [apply Hs|]. intros r.
  apply preserves_bind; [apply IH|]. intros rest. apply preserves_ret.
Qed.

(** * The handlers *)

Section handlers.
Context (sha256hex : string -> string) (time_json : time -> string) (sessions : string -> option SessionRow) (user : option string) (workspaceID : string).

Lemma signed_in_run k db db' r :
  runs (signed_in user k) db db' r ->
  (db' = db /\ r = Ok (Refused 401 "未登录")) \/ exists userID, user = Some userID /\ userID <> "" /\ runs (k userID) db db' r.
Proof.
  unfold signed_in. intros R. destruct user as [u|]; [|run_step R; by left]. destruct (u =? "") eqn:E; [run_step R; by left|].
  right. exists u. split_and!; [done|by apply String.eqb_neq|done].
Qed.
Lemma lookup_run {A} (m : M A) text k db db' r :
  preserves (fun db => db) m -> runs (lookup_or m text k) db db' r ->
  (db' = db /\ exists status message, r = Ok (Refused status message)) \/ exists a, runs m db db (Ok a) /\ runs (k a) db db' r.
Proof.
  intros Hm R. unfold lookup_or in R. apply runs_bind in R as [(e & R & ->)|(x & d & R1 & R)]; [by apply runs_try in R as (? & _ & [=])|].
  apply runs_try in R1 as (r1 & R1 & [= ->]). pose proof (Hm _ _ _ R1) as E. cbn in E. subst d.
  destruct r1 as [a|[]]; [right; by exists a|run_step R; left; eauto..].
Qed.
Lemma refuse_run {A} (m : M A) status message k db db' r :
  runs (or_refuse m status message k) db db' r ->
  (exists e, runs m db db' (Err e) /\ r = Ok (Refused status message)) \/ exists a d, runs m db d (Ok a) /\ runs (k a) d db' r.
Proof.
  intros R. unfold or_refuse in R. apply runs_bind in R as [(e & R & ->)|(x & d & R1 & R)]; [by apply runs_try in R as (? & _ & [=])|].
  apply runs_try in R1 as (r1 & R1 & [= ->]). destruct r1 as [a|e]; [right; by exists a, d|run_step R; left; eauto].
Qed.
(** Refusals that changed nothing. *)
Definition refused (db db' : Db) (r : res SErr Reply) : Prop := db' = db /\ exists status message, r = Ok (Refused status message).
Lemma own_session_run id userID k db db' r :
  runs (own_session sessions workspaceID id userID k) db db' r ->
  refused db db' r \/ exists s, sessions id = Some s /\ sr_UserID s = userID /\ sr_WorkspaceID s = workspaceID /\ runs (k s) db db' r.
Proof.
  intros R. unfold own_session in R. apply lookup_run in R as [R|(s & R1 & R)]; [by left| |apply preserves_read].
  unfold Session_GetByID in R1. apply runs_read in R1 as [_ R1]. apply read_found in R1.
  destruct (_ || _) eqn:E in R; [apply runs_ret in R as [-> ->]; left; split; [done|by eauto]|]. apply orb_false_iff in E as [E1 E2].
  apply negb_eqb_false in E1, E2. right. by exists s.
Qed.
Lemma own_profile_run id k db db' r :
  runs (own_profile workspaceID id k) db db' r ->
  refused db db' r \/ exists p l d, db_profiles db !! id = Some p /\ db_sources db !! pf_SourceID p = Some d /\ ds_WorkspaceID d = workspaceID /\ runs (k p l) db db' r.
Proof.
  intros R. unfold own_profile in R. apply refuse_run in R as [(e & R & ->)|([p l] & d & R1 & R)].
  { apply detail_run in R as [-> _]. left. split; [done|by eauto]. }
  apply detail_run in R1 as [-> Hp]. specialize (Hp _ eq_refl). cbn [fst snd] in *.
  apply lookup_run in R as [R|(src & R1 & R)]; [by left| |apply preserves_read]. unfold DataSource_GetByID in R1. apply runs_read in R1 as [_ R1]. apply read_found in R1.
  destruct (negb _) eqn:E in R; [apply runs_ret in R as [-> ->]; left; split; [done|by eauto]|]. apply negb_eqb_false in E. right. by exists p, l, src.
Qed.
End handlers.
(** Without a receipt a confirmation is always a new one. *)
Lemma confirm_new sha256hex q hex12 asset12 event12 now db db' x :
  runs (ConfirmProfile sha256hex q hex12 asset12 event12 now) db db' (Ok x) -> cq_ReceiptID q = "" ->
  db_confirmations db' = <[cf_ID (new_confirmation q hex12 now) := new_confirmation q hex12 now]> (db_confirmations db).
Proof.
  intros R He. unfold ConfirmProfile in R. apply runs_bind in R as [(e & R & [=])|(u & d & R1 & R)]. apply runs_lift in R1 as [-> _].
  apply runs_bind in R as [(e & R & [=])|(p & d & R1 & R)]. apply runs_wrap in R1 as (r1 & R1 & _). apply runs_read in R1 as [-> _].
  destruct (_ || _) in R; [|by run_step R]. apply runs_bind in R as [(e & R & [=])|(u2 & d & R1 & R)]. apply runs_lift in R1 as [-> _].
  apply runs_bind in R as [(e & R & [=])|(stored & d & R1 & R)]. unfold stored_confirmation in R1. rewrite He in R1. cbn [String.eqb] in R1. apply runs_ret in R1 as [-> [= ->]].
  cbv zeta in R. cbn [default] in R. destruct (negb _) in R; [|by run_step R].
  apply runs_bind in R as [(e & R & [=])|(u3 & d & R1 & R)]. apply runs_wrap in R1 as (r2 & R1 & E2).
  apply runs_write in R1 as [(e' & _ & ->)|(E & ->)]; [done|]. rewrite (finish_preserves _ _ _ _ _ _ _ _ _ _ R). destruct (negb _ && _); [|done].
  destruct (has _ _); [|done]. by injection E as <-.
Qed.
Lemma delete_run sha256hex sessions user workspaceID runtime sessionID sourceID key db db' r :
  runs (DeleteSessionSourceHandler sha256hex sessions user workspaceID runtime sessionID sourceID key) db db' r ->
  refused db db' r
  \/ exists userID s d r0, user = Some userID /\ sessions sessionID = Some s /\ sr_UserID s = userID /\ sr_WorkspaceID s = workspaceID
     /\ db_sources db !! sourceID = Some d /\ ds_WorkspaceID d = workspaceID
     /\ runs (RemoveSessionSource sha256hex (drop_runtime_table runtime userID workspaceID) sessionID sourceID key) db db' r0
     /\ r = Ok (match r0 with Ok _ => NoContent | Err _ => Refused 500 "移除数据源失败" end).
Proof.
  intros R. unfold DeleteSessionSourceHandler in R. apply signed_in_run in R as [[-> ->]|(userID & Hu & _ & R)]; [left; split; [done|by eauto]|].
  destruct (blank key); [apply runs_ret in R as [-> ->]; left; split; [done|by eauto]|].
  destruct (not_exact key); [apply runs_ret in R as [-> ->]; left; split; [done|by eauto]|].
  apply own_session_run in R as [R|(s & Hs & E1 & E2 & R)]; [by left|].
  apply lookup_run in R as [R|(src & R1 & R)]; [by left| |apply preserves_read]. unfold DataSource_GetByID in R1. apply runs_read in R1 as [_ R1]. apply read_found in R1.
  destruct (negb _) eqn:E in R; [apply runs_ret in R as [-> ->]; left; split; [done|by eauto]|]. apply negb_eqb_false in E.
  right. exists userID, s, src. rewrite <- E2. apply refuse_run in R as [(e & R & ->)|([] & d & R2 & R)].
  - exists (Err e). rewrite E2 in *. split_and!; done.
  - apply runs_ret in R as [-> ->]. exists (Ok tt). rewrite E2 in *. split_and!; done.
Qed.

Lemma confirm_session_run sessions workspaceID q p userID k db db' r :
  runs (check_confirm_session sessions workspaceID q p userID k) db db' r ->
  refused db db' r
  \/ (cr_SessionID q = ""
      \/ pf_SessionID p = cr_SessionID q /\ sessions (cr_SessionID q) = Some {| sr_UserID := userID; sr_WorkspaceID := workspaceID |})
     /\ runs k db db' r.
Proof.
  unfold check_confirm_session. intros R. destruct (_ =? "") eqn:E; [apply String.eqb_eq in E; right; auto|].
  apply own_session_run in R as [R|(s & Hs & E1 & E2 & R)]; [by left|].
  destruct (negb _) eqn:Ep in R; [apply runs_ret in R as [-> ->]; left; split; [done|by eauto]|]. apply negb_eqb_false in Ep.
  right. split; [right|done]. split; [done|]. rewrite Hs. destruct s. cbn in E1, E2. by subst.
Qed.
Lemma confirm_reply_run sha256hex workspaceID profileID userID q d p (k : SemanticProfile * list string -> jval) db db' r :
  db_profiles db !! profileID = Some p ->
  runs (or_refuse (confirm_with sha256hex (handler_request workspaceID q profileID userID) d) 500 "确认失败" (fun x => ret (Replied 200 (k x)))) db db' r ->
  exists reply, r = Ok reply
  /\ let c := new_confirmation (handler_request workspaceID q profileID userID) (dr_hex12 d) (dr_now d) in
     (reply = Refused 500 "确认失败" /\ db_profiles db' = db_profiles db
      \/ (exists document, reply = Replied 200 document)
         /\ db_profiles db' = <[profileID := with_profile_status ProfileStatusConfirmed (dr_now d) p]> (db_profiles db)
         /\ db_confirmations db' = <[cf_ID c := c]> (db_confirmations db)).
Proof.
  intros Hp R. apply refuse_run in R as [(e & R & ->)|(x & d1 & R1 & R)].
  - eexists. split; [done|]. left. split; [done|]. apply confirm_profiles in R as [[-> _]|(p1 & _ & _ & _ & E)]; done.
  - apply runs_ret in R as [-> ->]. eexists. split; [done|]. right. split; [by eauto|]. split; [|by apply confirm_new in R1].
    apply confirm_profiles in R1 as [[_ [=]]|(p1 & Hp1 & _ & _ & E & _)]. rewrite E. cbn [cq_ProfileID handler_request] in *. congruence.
Qed.

(** * Properties *)

(** C16: a patch is committed by the receipt the user gave for it, once.  A call of the
    patch tool succeeds only under a stored, unused and fresh receipt for the profile and the
    canonical text of the patch; then the confirmation of exactly this patch by the user who
    answered is stored, the profile of the session is confirmed, no other profile changes,
    the receipt is used up, and every later call with it is refused and changes nothing,
    whatever its other members.  A call that fails changes nothing at all unless such a
    receipt allowed it, and then keeps the receipt. *)
Theorem patch_commit_exact sha256hex workspaceID sessionID e args d w engine' w' r :
  ConfirmSourceProfile_Execute sha256hex (Some e) workspaceID sessionID true args d w = (engine', w', r) ->
  exists e', engine' = Some e'
  /\ match r with
     | Ok _ =>
         exists m rc, decode_struct patch_fields args = Some m /\ patch_allowed sha256hex m e d rc
         /\ patch_stored workspaceID sessionID m rc d (w_db w) (w_db w')
         /\ en_receipts e' = <[string_field m "confirmation_receipt_id" := consume rc (dr_now2 d)]> (en_receipts e)
         /\ forall args2 m2 d2 w2, decode_struct patch_fields args2 = Some m2 ->
              string_field m2 "confirmation_receipt_id" = string_field m "confirmation_receipt_id" ->
              exists err, ConfirmSourceProfile_Execute sha256hex (Some e') workspaceID sessionID true args2 d2 w2 = (Some e', w2, Err err)
     | Err _ =>
         en_receipts e' ⊆ en_receipts e
         /\ (w' = w \/ exists m rc, decode_struct patch_fields args = Some m /\ patch_allowed sha256hex m e d rc /\ e' = e)
     end.
Proof.
  intros H. apply patch_cases in H as (e' & -> & H). exists e'. split; [done|]. destruct r as [out|err].
  - destruct H as [(_ & [=] & _)|(m & rc & Hm & Ha & [(_ & Hs & He)|([=] & _)])]. exists m, rc. split_and!; [done..|].
    intros args2 m2 d2 w2 Hm2 E. apply (patch_used sha256hex workspaceID sessionID e' args2 d2 w2 m2 (consume rc (dr_now2 d))); [done| |by eexists].
    by rewrite He, E, lookup_insert_eq.
  - destruct H as [(-> & _ & Hsub)|(m & rc & Hm & Ha & [([=] & _)|(_ & ->)])]; [by split; [|left]|]. split; [done|]. right. by exists m, rc.
Qed.

(** C17: the runtime never admits the patch tool.  Its gate reads the request strictly and
    without the member of the receipt, so a call that carries a receipt is denied, even one
    the user gave for exactly this patch, and a call without one is at best asked for it. *)
Theorem patch_never_admitted {W S} `{ApprovalStore S} (tool : Tool W) args has_store (s s' : S) a :
  t_ApprovalGate tool = Some profile_gate -> DecideToolCall tool args has_store s = (s', a) ->
  s' = s /\ ad_Kind a <> AdmissionAllow /\ (ApprovalReceiptID args <> "" -> ad_Kind a = AdmissionDeny).
Proof.
  intros Hg. unfold DecideToolCall. rewrite Hg. unfold profile_gate. cbn [ag_ApprovalRequest ag_ApprovalReceiptID].
  destruct (ApprovalRequestOf args) as [req|err] eqn:Hr; [|by intros [= <- <-]].
  destruct (_ || _); [by intros [= <- <-]|]. rewrite (request_no_receipt _ _ Hr). by intros [= <- <-].
Qed.

(** a confirmation over HTTP is of a profile the caller may confirm.  The request always
    gets an answer, and it changes nothing unless the caller is signed in, the profile's
    source is in the caller's workspace and the session named, which a confirmation for a
    session must name, is one of the caller's with that profile.  Then either the
    confirmation failed and the profiles are as they were, or the profile alone is confirmed
    and a new confirmation in the caller's name is stored. *)
Theorem confirm_scoped sha256hex sessions user workspaceID profileID body d db db' r :
  runs (ConfirmProfileHandler sha256hex sessions user workspaceID profileID body d) db db' r ->
  exists reply, r = Ok reply
  /\ ((db' = db /\ exists status message, reply = Refused status message)
      \/ exists userID p src q, user = Some userID /\ userID <> "" /\ db_profiles db !! profileID = Some p
         /\ db_sources db !! pf_SourceID p = Some src /\ ds_WorkspaceID src = workspaceID
         /\ decode_confirm body = Some q
         /\ (cr_SessionID q = "" /\ cr_Scope q = "workspace"
             \/ (cr_Scope q = "session" \/ cr_Scope q = "workspace") /\ pf_SessionID p = cr_SessionID q
                /\ sessions (cr_SessionID q) = Some {| sr_UserID := userID; sr_WorkspaceID := workspaceID |})
         /\ let c := new_confirmation (handler_request workspaceID q profileID userID) (dr_hex12 d) (dr_now d) in
            (reply = Refused 500 "确认失败" /\ db_profiles db' = db_profiles db
             \/ (exists document, reply = Replied 200 document)
                /\ db_profiles db' = <[profileID := with_profile_status ProfileStatusConfirmed (dr_now d) p]> (db_profiles db)
                /\ db_confirmations db' = <[cf_ID c := c]> (db_confirmations db))).
Proof.
  intros R. unfold ConfirmProfileHandler in R.
  assert (refused db db' r -> exists reply, r = Ok reply /\ (db' = db /\ exists status message, reply = Refused status message)) as Href.
  { intros (-> & status & message & ->). eexists. split; [done|]. eauto. }
  apply signed_in_run in R as [[-> ->]|(userID & Hu & Hne & R)]; [eexists; split; [done|]; left; by eauto|].
  apply own_profile_run in R as [R|(p & l & src & Hp & Hsrc & Hw & R)]; [destruct (Href R) as (x & ? & ?); exists x; auto|].
  destruct (decode_confirm body) as [q|] eqn:Hq; [|apply runs_ret in R as [-> ->]; eexists; split; [done|]; left; by eauto].
  destruct (negb _ && _) eqn:Hsc in R; [apply runs_ret in R as [-> ->]; eexists; split; [done|]; left; by eauto|].
  destruct (_ && _) eqn:Hss in R; [apply runs_ret in R as [-> ->]; eexists; split; [done|]; left; by eauto|].
  apply confirm_session_run in R as [R|[Hs R]]; [destruct (Href R) as (x & ? & ?); exists x; auto|].
  destruct (confirm_reply_run _ _ _ _ _ _ _ _ _ _ _ Hp R) as (reply & -> & H). exists reply. split; [done|]. right. exists userID, p, src, q.
  assert (cr_Scope q = "session" \/ cr_Scope q = "workspace") as Hscope.
  { apply andb_false_iff in Hsc as [Hsc|Hsc]; apply negb_eqb_false in Hsc; auto. }
  split_and!; [done..| |exact H]. destruct Hs as [He|[E1 E2]]; [left|right; by split_and!]. split; [done|].
  rewrite He in Hss. cbn in Hss. rewrite andb_true_r in Hss. apply String.eqb_neq in Hss. by destruct Hscope.
Qed.

(** the governance of a session is counted from the store, and reading it changes
    nothing: each asset of the count is a stored one of the workspace, counted once, and when
    no error is observed the count has every exact asset of the schemas of the listed
    profiles. *)
Theorem governance_counted workspaceID sessionID now db db' g :
  runs (InspectSessionGovernance workspaceID sessionID now) db db' (Ok g) ->
  db' = db /\ gi_SourceCount g = length (gi_Sources g)
  /\ exists X : gset string, gi_SemanticAssetCount g = size X
     /\ (forall id, id ∈ X -> exists sig a, schema_asset db workspaceID sig a /\ sa_ID a = id)
     /\ (gi_ObservationErrors g = [] -> forall s, s ∈ gi_Sources g -> gs_ProfileID s <> "" ->
         exists p, db_profiles db !! gs_ProfileID s = Some p /\ gs_SchemaSignature s = pf_SchemaSignature p
         /\ forall a, schema_asset db workspaceID (pf_SchemaSignature p) a -> sa_ID a ∈ X).
Proof.
  intros R. unfold InspectSessionGovernance in R. apply runs_bind in R as [(e & R & [=])|([sources partial] & d & R1 & R)].
  apply sources_read in R1 as ->. destruct (_ || _) in R; [|by apply runs_fail in R as [_ [=]]].
  apply runs_bind in R as [(e & R & [=])|([seen l] & d & R1 & R)]. apply inspect_run in R1 as (-> & E & X & Es & HX & Hall).
  apply runs_ret in R as [-> [= ->]]. cbn [fst snd] in *. cbn [gi_SourceCount gi_Sources gi_SemanticAssetCount gi_ObservationErrors].
  split; [done|]. split; [by rewrite length_map, <- E, length_map|]. exists X. subst seen. split; [f_equal; set_solver|]. split; [done|].
  intros [_ Hnil]%app_eq_nil s Hs Hne. apply list_elem_of_fmap in Hs as ([s0 f] & -> & Hin). cbn in Hne |- *.
  rewrite Forall_forall in Hall. apply (Hall _ Hin); [|done]. cbn. apply list_elem_of_split in Hin as (l1 & l2 & ->).
  rewrite flat_map_app in Hnil. apply app_eq_nil in Hnil as [_ Hnil]. cbn in Hnil. by apply app_eq_nil in Hnil as [? _].
Qed.

(** * Witnesses *)

(** The user approved the patch of [sp_1]; the receipt is in the engine. *)
Definition example_patch_args : string :=
  Marshal (JObj [("profile_id", JStr "sp_1"); ("scope", JStr "session"); ("overrides_json", JStr patch_a); ("confirmation_receipt_id", JStr "ucr_1")]).
Definition example_payload : string := match SemanticConfirmationAuthorizationPayload "session" patch_a with Ok p => p | Err _ => "" end.
Definition example_receipt : ConfirmationReceipt :=
  {| Receipts.cf_ID := "ucr_1"; cf_ToolCallID := "c1"; cf_ActorUserID := "u1"; Receipts.cf_Scope := "session"; cf_ContextRef := ""; cf_Question := "?";
     cf_ResponseText := ""; cf_Action := patch_action; cf_ResourceRef := "sp_1";
     cf_PayloadHash := match authorizationPayloadHash plain_hash example_payload with Ok h => h | Err _ => "" end;
     Receipts.cf_CreatedAt := 5%Z; cf_ExpiresAt := 100%Z; cf_ConsumedAt := None |}.
Definition example_engine : Engine := with_receipts (NewEngine "") {["ucr_1" := example_receipt]}.
Definition example_drawn : Drawn := {| dr_hex12 := "c1"; dr_asset12 := "a1"; dr_event12 := "e1"; dr_now := 7%Z; dr_now1 := 6%Z; dr_now2 := 7%Z |}.
Definition example_patch (args : string) : option Engine * World Db * res ToolError string :=
  ConfirmSourceProfile_Execute plain_hash (Some example_engine) "w1" "s1" true args example_drawn {| w_db := example_imported; w_faults := [] |}.
Lemma patch_commit_exact_witness :
  is_ok (example_patch example_patch_args).2 = true
  /\ exists e' rc, (example_patch example_patch_args).1.1 = Some e' /\ en_receipts e' !! "ucr_1" = Some rc /\ is_Some (cf_ConsumedAt rc).
Proof.
  split; [by vm_compute|]. destruct (example_patch example_patch_args) as [[engine' w'] r] eqn:Hx. unfold example_patch in Hx.
  assert (is_ok r = true) as Hok. { assert (r = (example_patch example_patch_args).2) as -> by (unfold example_patch; by rewrite Hx). by vm_compute. }
  pose proof (patch_commit_exact plain_hash "w1" "s1" example_engine example_patch_args example_drawn {| w_db := example_imported; w_faults := [] |} engine' w' r Hx)
    as (e' & -> & H).
  destruct r as [out|]; [|done]. destruct H as (m & rc & Hm & _ & _ & He & _).
  assert (string_field m "confirmation_receipt_id" = "ucr_1") as Er.
  { assert (decode_struct patch_fields example_patch_args = Some m -> string_field m "confirmation_receipt_id" = "ucr_1") as Hd; [|by apply Hd].
    assert ((fun o => match o with Some m => string_field m "confirmation_receipt_id" | None => "" end) (decode_struct patch_fields example_patch_args) = "ucr_1") as E by by vm_compute.
    intros E2. by rewrite E2 in E. }
  exists e', (consume rc (dr_now2 example_drawn)). split; [done|]. rewrite He, Er, lookup_insert_eq. split; [done|by eexists].
Defined.
(** The same call, at the gate. *)
Lemma patch_never_admitted_witness :
  let tool := {| t_Name := patch_action; t_Description := ""; t_Parameters := ""; t_Execute := fun _ (w : unit) => (w, Ok ""); t_Strict := None;
                 t_Capability := None; t_ApprovalGate := Some profile_gate; t_CheckAvailability := None; t_SuspensionEvent := None;
                 t_AcceptsUserResponse := None; t_IsConcurrencySafe := None |} in
  is_ok (example_patch example_patch_args).2 = true
  /\ exists a, DecideToolCall (H := engine_approvals plain_hash 6) tool example_patch_args true example_engine = (example_engine, a) /\ ad_Kind a = AdmissionDeny.
Proof.
  intros tool. split; [by vm_compute|].
  destruct (DecideToolCall (H := engine_approvals plain_hash 6) tool example_patch_args true example_engine) as [s' a] eqn:Hd.
  destruct (patch_never_admitted (H := engine_approvals plain_hash 6) tool example_patch_args true example_engine s' a eq_refl Hd) as (-> & _ & Hdeny).
  exists a. split; [done|]. apply Hdeny. by vm_compute.
Defined.
Definition example_rows (id : string) : option SessionRow := if id =? "s1" then Some {| sr_UserID := "u1"; sr_WorkspaceID := "w1" |} else None.
Definition example_body : string := Marshal (JObj [("session_id", JStr "s1"); ("scope", JStr "session"); ("overrides", JObj [("a", JStr "units")])]).
Definition example_confirm : Calls.M Db Reply := ConfirmProfileHandler plain_hash example_rows (Some "u1") "w1" "sp_1" example_body example_drawn.
Lemma confirm_scoped_witness :
  (match (exec example_confirm example_imported).2 with Ok (Replied 200 _) => true | _ => false end) = true
  /\ exists q, decode_confirm example_body = Some q /\ cr_SessionID q = "s1".
Proof.
  split; [by vm_compute|]. destruct (exec example_confirm example_imported) as [db' r] eqn:Hx.
  assert (runs example_confirm example_imported db' r) as R. { pose proof (runs_exec example_confirm example_imported) as R. by rewrite Hx in R. }
  assert (match r with Ok (Replied 200 _) => true | _ => false end = true) as Hr.
  { assert (r = (exec example_confirm example_imported).2) as -> by by rewrite Hx. by vm_compute. }
  unfold example_confirm in R.
  destruct (confirm_scoped plain_hash example_rows (Some "u1") "w1" "sp_1" example_body example_drawn example_imported db' r R)
    as (reply & -> & [(_ & status & message & ->)|(userID & p & src & q & _ & _ & _ & _ & _ & Hq & _)]); [done|].
  exists q. split; [done|].
  assert (match decode_confirm example_body with Some q => cr_SessionID q =? "s1" | None => false end = true) as E by by vm_compute.
  rewrite Hq in E. by apply String.eqb_eq in E.
Defined.
Lemma governance_counted_witness :
  exists g, (exec (InspectSessionGovernance "w1" "s1" 9) example_confirmed).2 = Ok g
  /\ gi_SemanticAssetCount g = 1 /\ gi_ObservationErrors g = [] /\ gi_SourceCount g = length (gi_Sources g).
Proof.
  destruct (exec (InspectSessionGovernance "w1" "s1" 9) example_confirmed) as [db' r] eqn:Hx.
  assert (runs (InspectSessionGovernance "w1" "s1" 9) example_confirmed db' r) as R.
  { pose proof (runs_exec (InspectSessionGovernance "w1" "s1" 9) example_confirmed) as R. by rewrite Hx in R. }
  assert (match r with Ok g => (gi_SemanticAssetCount g =? 1)%nat && (length (gi_ObservationErrors g) =? 0)%nat | Err _ => false end = true) as Hr.
  { assert (r = (exec (InspectSessionGovernance "w1" "s1" 9) example_confirmed).2) as -> by by rewrite Hx. by vm_compute. }
  destruct r as [g|]; [|done]. apply andb_true_iff in Hr as [H1 H2]. apply Nat.eqb_eq in H1, H2. exists g. split_and!; [done|done|by apply length_zero_iff_nil|].
  by destruct (governance_counted "w1" "s1" 9 example_confirmed db' g R) as (_ & E & _).
Defined.
