(* ===== verification/Uploads.v ===== *)
(** Uploading a file into a session and importing the object of a source: [handler/upload.go]
    and the import of [handler/data_source.go].  The rows and objects of the files and those
    of the sources are one store ([Files]), in which the operations on the sources work on
    their part ([of_sources]).

    What the readers make of a file, the size of the database and the times taken are
    arguments ([ImportFacts]), as in [Sources]. *)
From S2P Require Import Prelude GoStrings GoText Json StateTools Calls Sources Files Connectors SourceTools.
From Stdlib Require Import Ascii.
Open Scope string_scope.
Open Scope list_scope.
Open Scope go_scope.

(** An operation on the sources, in the whole store. *)
Definition of_sources {A} (m : Calls.M Db A) : F A :=
  fun w =>
    let '(w', r) := m {| w_db := fd_meta (w_db w); w_faults := w_faults w |} in
    ({| w_db := set_meta (w_db w) (w_db w'); w_faults := w_faults w' |}, r).

(** * The uploaded file *)

Section uploads.
(** [table]: the lower cases outside ASCII; [megabytes]: a size as it is shown; [digits]: the
    letters and numbers of Unicode. *)
Context (table : Z -> Z) (megabytes : Z -> string) (alnum : Z -> bool) (root : string) (sha256hex : string -> string).

Definition allowedExtensions : list string := [".csv"; ".xlsx"].
Definition allowedMimeTypes : list string :=
  ["text/csv"; "application/vnd.openxmlformats-officedocument.spreadsheetml.sheet"; "application/octet-stream"].
Definition xlsx_magic : list Z := [80; 75; 3; 4]%Z.
(** The bytes compared are those of a buffer of eight, which a shorter file fills with
    zeros. *)
Definition head_of (body : string) : list Z := firstn 8 (map byteZ (String.list_ascii_of_string body) ++ repeat 0%Z 8).
Definition forbidden_byte (a : ascii) : bool := existsb (Z.eqb (byteZ a)) [60; 62; 58; 34; 124; 63; 42]%Z.
Definition validateUploadedFile (filename contentType : string) (head : list Z) : res string unit :=
  let cleanName := Clean filename in
  let ext := ToLower table (Ext filename) in
  if contains_text cleanName ".." || HasPrefix cleanName "/" then Err "文件名无效：检测到路径穿越"
  else if existsb forbidden_byte (String.list_ascii_of_string cleanName) then Err "文件名无效：包含禁止字符"
  else if negb (existsb (String.eqb ext) allowedExtensions) then Err (text ["不允许使用 "; ext; " 文件类型，仅支持 .csv 和 .xlsx"])
  else if negb (contentType =? "") && negb (existsb (String.eqb contentType) allowedMimeTypes)
  then Err (text ["不允许使用 MIME 类型 "; contentType])
  else if (ext =? ".xlsx") && negb (bool_decide (firstn 4 head = xlsx_magic)) then Err (text ["文件内容与扩展名 "; ext; " 不匹配"])
  else Ok tt.

(** What the readers make of the file and of the database after it; it depends on the body
    and the chosen worksheet. *)
Record ImportFacts := {
  if_materialized : res SErr Z; if_sheets : option (res SErr (list string)); if_file : res SErr SchemaInfo; if_dbSize : res SErr Z;
  if_importMs : Z; if_profileMs : Z
}.
(** The identifiers drawn for the file, its source, the snapshot, the profile and the event. *)
Record UploadDrawn := { ud_file : string; ud_source : string; ud_snapshot : string; ud_profile : string; ud_event : string; ud_now : time }.
Record UploadForm := { uf_FileName : string; uf_ContentType : string; uf_Body : string; uf_Worksheet : string }.
Inductive ParsedForm := FormUnparsed | FormNoFile | FormUnread | FormUnseekable | FormParsed (form : UploadForm).

Definition import_object_of (sessionID sourceID : string) (x : ImportFacts) (d : UploadDrawn) : Calls.M Db SnapshotImportResult :=
  Import sha256hex sessionID sourceID (if_materialized x) (if_sheets x) (if_file x) (if_dbSize x) (if_importMs x) (if_profileMs x)
    (ud_snapshot d) (ud_profile d) (ud_now d).
Definition cleanup_texts (l : list string) : list (string * jval) := match l with [] => [] | _ => [("cleanup_errors", jtexts l)] end.
Definition import_fields (r : SnapshotImportResult) : list (string * jval) :=
  [("snapshot_id", JStr (ir_SnapshotID r)); ("semantic_profile_id", JStr (ir_ProfileID r)); ("analysis_table_name", JStr (ir_TableName r));
   ("row_count", JNum (itoa (ir_RowCount r))); ("column_count", JNum (itoa (ir_ColCount r))); ("rows_imported", JNum (itoa (ir_RowsImported r)));
   ("rows_skipped", JNum (itoa (ir_RowsSkipped r))); ("import_row_limit", JNum (itoa (ir_ImportRowLimit r)));
   ("import_truncated", JBool (ir_ImportTruncated r)); ("import_duration_ms", JNum (itoa (ir_ImportDurationMs r)));
   ("profile_duration_ms", JNum (itoa (ir_ProfileDurationMs r))); ("snapshot_size_bytes", JNum (itoa (ir_SnapshotSizeBytes r)));
   ("profile_mode", JStr (profile_mode_text (ir_ProfileMode r)))].
(** The status of the import, with the fields it adds to the response. *)
Definition ingest_status (status : string) (more : list (string * jval)) : list (string * jval) := ("ingest_status", JStr status) :: more.
(** [errors.As] for the choice of a worksheet, then for the structure of the file. *)
Definition agent_status (e : SErr) (sheets_message structure_message : string) : option (list (string * jval)) :=
  match as_worksheets e with
  | Some sheets =>
      Some (ingest_status "worksheet_selection_required"
              [("worksheets", jtexts sheets); ("agent_capable", JBool true); ("message", JStr sheets_message)])
  | None =>
      match as_structure e with
      | Some detail =>
          Some (ingest_status "needs_agent" [("import_error", JStr detail); ("agent_capable", JBool true); ("message", JStr structure_message)])
      | None => None
      end
  end.
Definition sheets_text : string := "文件包含多个工作表，请选择要导入的工作表，或交给智能体处理".

(** ** The event of an import *)

Definition imported_event (workspaceID sessionID userID eventType snapshotID : string) (payload : list (string * jval)) (now : time) : AuditEvent :=
  {| ae_ID := ""; ae_WorkspaceID := workspaceID; ae_SessionID := sessionID; ae_RunID := ""; ae_ActorUserID := userID; ae_EventType := eventType;
     ae_ResourceType := "source_snapshot"; ae_ResourceID := snapshotID; ae_PayloadJSON := auditPayloadJSON payload; ae_CreatedAt := now |}.
Definition counts_payload (sourceID sourceType : string) (r : SnapshotImportResult) : list (string * jval) :=
  [("source_id", JStr sourceID); ("source_type", JStr sourceType); ("analysis_table_name", JStr (ir_TableName r)); ("row_count", JNum (itoa (ir_RowCount r)));
   ("column_count", JNum (itoa (ir_ColCount r))); ("rows_imported", JNum (itoa (ir_RowsImported r))); ("rows_skipped", JNum (itoa (ir_RowsSkipped r)));
   ("profile_id", JStr (ir_ProfileID r)); ("cleanup_errors", jtexts_or_null (ir_CleanupErrors r))].

(** ** The handler *)

Context (sessions : string -> option SessionRow) (user : option string) (workspaceID : string).
Abbreviation Upload_Handler := (Calls.M FileDb Reply).
Definition uploaded_fields (f : File) : list (string * jval) :=
  [("file_id", JStr (fl_ID f)); ("filename", JStr (fl_DisplayName f)); ("purpose", JStr "source"); ("size", JNum (itoa (fl_SizeBytes f)))].
(** The response for what became of the import. *)
Definition import_failed (e : SErr) : list (string * jval) :=
  match agent_status e sheets_text "文件已上传，但结构不符合直接导入要求（需单张矩形表：首行表头、每行等宽）。可在对话中让智能体读取原始文件、清洗后导入" with
  | Some fields => fields
  | None => ingest_status "failed" [("message", JStr "文件已上传，但导入失败")]
  end.
Definition upload_import (s : SessionRow) (sessionID userID : string) (source : DataSource) (x : ImportFacts) (d : UploadDrawn) :
    Calls.M Db (list (string * jval)) :=
  do r := try (import_object_of sessionID (ds_ID source) x d) in
  match r with
  | Err e => ret (import_failed e)
  | Ok result =>
      do recorded := try (recordAudit (imported_event (sr_WorkspaceID s) sessionID userID "data_source_imported" (ir_SnapshotID result)
                                        (counts_payload (ds_ID source) (ds_SourceType source) result) (ud_now d)) (ud_event d) (ud_now d)) in
      ret (ingest_status "success" (import_fields result ++ cleanup_texts (ir_CleanupErrors result)
             ++ match recorded with Ok _ => [] | Err e => [("audit_errors", jtexts [Error e])] end))
  end.
(** After the file was stored. [runtime] is the error of the session's runtime, if it cannot
    be had. *)
Definition upload_source (runtime : res SErr unit) (s : SessionRow) (sessionID userID : string) (f : File) (x : ImportFacts) (d : UploadDrawn) :
    Calls.M Db (list (string * jval)) :=
  let uploaded := ("message", JStr (text ["文件 "; fl_DisplayName f; " 上传成功（"; megabytes (fl_SizeBytes f); " MB）"])) in
  do r := try (EnsureFileSource (sr_WorkspaceID s) (fl_ID f) (fl_DisplayName f) userID (ud_source d) (ud_now d)) in
  match r with
  | Err _ => ret (ingest_status "failed" [("message", JStr "文件已上传，但创建数据源失败")])
  | Ok source =>
      let found := ("source_id", JStr (ds_ID source)) in
      match runtime, Get_connector (ds_SourceType source) with
      | Err _, _ => ret (found :: ingest_status "failed" [uploaded])
      | Ok _, Err _ => ret (found :: ingest_status "failed" [("message", JStr "文件已上传，但导入失败")])
      | Ok _, Ok (SqlConnector _) => ret (found :: ingest_status "failed" [("message", JStr "文件已上传，但导入失败")])
      | Ok _, Ok FileConnector =>
          do fields := upload_import s sessionID userID source x d in
          ret (found :: fields ++ match lookup_key fields "message" with Some _ => [] | None => [uploaded] end)
      end
  end.
Definition UploadHandler (sessionID : string) (form : ParsedForm) (runtime : res SErr unit) (x : string -> string -> ImportFacts) (d : UploadDrawn) : Upload_Handler :=
  if blank sessionID then ret (Refused 400 "缺少 session_id")
  else if not_exact sessionID then ret (Refused 400 "session_id 必须保持原值")
  else
    match user with
    | None => ret (Refused 401 "未登录")
    | Some userID =>
        if userID =? "" then ret (Refused 401 "未登录")
        else
          do r := try (of_sources (Session_GetByID sessions sessionID)) in
          match r with
          | Err SNotFound => ret (Refused 404 "会话不存在")
          | Err _ => ret (Refused 500 "服务器内部错误")
          | Ok s =>
              if negb (sr_UserID s =? userID) || negb (sr_WorkspaceID s =? workspaceID) then ret (Refused 403 "无权访问此会话")
              else
                match form with
                | FormUnparsed => ret (Refused 400 "解析上传请求失败")
                | FormNoFile => ret (Refused 400 "获取上传文件失败")
                | FormUnread => ret (Refused 400 "读取文件头失败")
                | FormUnseekable => ret (Refused 500 "重置文件读取位置失败")
                | FormParsed f =>
                    match validateUploadedFile (uf_FileName f) (uf_ContentType f) (head_of (uf_Body f)) with
                    | Err message => ret (Refused 400 message)
                    | Ok _ =>
                        do stored := try (Upload alnum root sha256hex userID (sr_WorkspaceID s) sessionID (uf_FileName f) (uf_ContentType f) (uf_Body f)
                                            (ud_file d) (ud_now d)) in
                        match stored with
                        | Err _ => ret (Refused 500 "上传文件失败")
                        | Ok file =>
                            do fields := of_sources (upload_source runtime s sessionID userID file (x (uf_Body f) (uf_Worksheet f)) d) in
                            ret (Replied 200 (JObj (uploaded_fields file ++ fields)))
                        end
                    end
                end
          end
    end.

(** * Importing the object of a source *)

Record ImportRequest := { mq_SessionID : string; mq_SchemaName : string; mq_ObjectName : string; mq_Worksheet : string }.
Definition decode_import (body : string) : option ImportRequest :=
  let! m := decode_struct [("session_id", is_jstr); ("schema_name", is_jstr); ("object_name", is_jstr); ("worksheet", is_jstr)] body in
  Some {| mq_SessionID := string_field m "session_id"; mq_SchemaName := string_field m "schema_name";
          mq_ObjectName := string_field m "object_name"; mq_Worksheet := string_field m "worksheet" |}.
(** What a live source says of an object, with the times taken. *)
Record LiveFacts := { vf_resolve : string -> res SErr unit; vf_metadata : res SErr LiveMetadata; vf_qualified : string; vf_metadataMs : Z; vf_profileMs : Z }.
Definition auditEventTypeForBind (live : bool) : string := if live then "data_source_bound" else "data_source_imported".
Definition bind_mode (live : bool) : string := if live then "live" else "imported".
Definition bind_or_import (live : bool) (q : ImportRequest) (sourceID : string) (x : ImportFacts) (v : LiveFacts) (d : UploadDrawn) :
    Calls.M Db SnapshotImportResult :=
  if live then
    BindLiveSourceObject sha256hex sourceID (mq_SessionID q) workspaceID (mq_SchemaName q) (mq_ObjectName q) (vf_resolve v) (vf_metadata v)
      (vf_qualified v) (vf_metadataMs v) (vf_profileMs v) (ud_snapshot d) (ud_profile d) (ud_now d)
  else import_object_of (mq_SessionID q) sourceID x d.
Definition refuse_import (live : bool) (sourceID : string) (e : SErr) : Reply :=
  match (if live then None else agent_status e sheets_text
           "结构不符合直接导入要求（需单张矩形表：首行表头、每行等宽）。可在对话中让智能体读取原始文件、清洗后导入") with
  | Some fields => Replied 200 (JObj (("source_id", JStr sourceID) :: fields))
  | None => Refused 500 (if live then "绑定数据源失败" else "导入失败")
  end.
Definition bind_payload (sourceID : string) (src : DataSource) (q : ImportRequest) (r : SnapshotImportResult) : list (string * jval) :=
  counts_payload sourceID (ds_SourceType src) r
  ++ [("schema_name", JStr (mq_SchemaName q)); ("object_name", JStr (mq_ObjectName q)); ("import_truncated", JBool (ir_ImportTruncated r));
      ("ingest_status", JStr "success")].
Definition finish_import (live : bool) (userID sourceID : string) (src : DataSource) (q : ImportRequest) (x : ImportFacts) (v : LiveFacts) (d : UploadDrawn) :
    Calls.M Db Reply :=
  do r := try (bind_or_import live q sourceID x v d) in
  match r with
  | Err e => ret (refuse_import live sourceID e)
  | Ok result =>
      do recorded := try (recordAudit (imported_event workspaceID (mq_SessionID q) userID (auditEventTypeForBind live) (ir_SnapshotID result)
                                        (bind_payload sourceID src q result) (ud_now d)) (ud_event d) (ud_now d)) in
      ret (Replied 200 (JObj ([("source_id", JStr sourceID); ("mode", JStr (bind_mode live))]
             ++ ingest_status "success" (import_fields result ++ cleanup_texts (ir_CleanupErrors result)
                  ++ match recorded with Ok _ => [] | Err _ => [("audit_errors", jtexts ["审计事件记录失败"])] end))))
  end.
Definition check_import (q : ImportRequest) (src : DataSource) : option string :=
  if mq_SessionID q =? "" then Some "缺少 session_id"
  else if not_exact (mq_SessionID q) || not_exact (mq_SchemaName q) || not_exact (mq_ObjectName q)
  then Some "session_id、schema_name 和 object_name 必须保持原值"
  else if negb (ds_SourceType src =? SourceTypeFileUpload) && blank (mq_ObjectName q) then Some "缺少 object_name"
  else None.
(** [runtime] is the workspace of the session's runtime, which is had only by its user. *)
Definition ImportDataSourceHandler (sourceID body : string) (runtime : string -> string -> string -> res SErr string) (x : string -> ImportFacts)
    (v : LiveFacts)
    (d : UploadDrawn) : Calls.M Db Reply :=
  signed_in user (fun userID =>
    lookup_or (DataSource_GetByID sourceID) "数据源不存在" (fun src =>
      if negb (ds_WorkspaceID src =? workspaceID) then ret (Refused 404 "数据源不存在")
      else
        match decode_import body with
        | None => ret (Refused 400 "请求体无效")
        | Some q =>
            match check_import q src with
            | Some message => ret (Refused 400 message)
            | None =>
                or_refuse (lift_res (runtime (mq_SessionID q) workspaceID userID)) 500 "获取会话失败" (fun workspace =>
                if negb (workspace =? workspaceID) then ret (Refused 403 "会话不属于当前工作空间")
                else
                  or_refuse (lift_res (Get_connector (ds_SourceType src))) 400 "不支持的数据源类型" (fun c =>
                  finish_import (negb (cs_SupportsImport (Spec c))) userID sourceID src q (x (mq_Worksheet q)) v d))
            end
        end)).
End uploads.
