(* ===== verification/UploadProps.v ===== *)
(** What an upload and an import over HTTP guarantee: a file is stored and its import is
    reported as it went, the bindings of every session staying usable ([upload_reported],
    [import_reported]); a file that is accepted keeps to a name of its directory
    ([upload_checked]). *)
From S2P Require Import Prelude GoStrings GoText Json StateTools Calls Sources SourceProps SourceSteps Files FileProps Connectors SourceTools SourceToolProps Uploads.
From Stdlib Require Import Ascii.
Open Scope string_scope.
Open Scope list_scope.
Open Scope go_scope.

(** * Operations on the sources in the whole store *)

Lemma of_sources_run {A} (m : Calls.M Db A) db db' r :
  runs (of_sources m) db db' r -> runs m (fd_meta db) (fd_meta db') r /\ db' = set_meta db (fd_meta db').
Proof.
  intros (fs & fs' & H). unfold of_sources in H. cbn in H. destruct (m _) as [[d fs1] r1] eqn:E. injection H as <- <- <-.
  split; [by exists fs, fs1|done].
Qed.
#[local] Hint Resolve preserves_ret preserves_fail preserves_lift preserves_try preserves_wrap preserves_read : core.
Lemma put_meta root sha256hex key body contentType : preserves fd_meta (Put root sha256hex key body contentType).
Proof.
  unfold Put. apply preserves_bind; [auto|]. intros path. apply preserves_bind; [apply preserves_wrap, preserves_write; by intros db db' [= <-]|].
  intros _. apply preserves_bind; [apply preserves_wrap, preserves_write; by intros db db' [= <-]|auto].
Qed.
Lemma undo_meta e steps : Forall (preserves fd_meta) steps -> preserves fd_meta (undo e steps).
Proof.
  intros Hs. revert e. induction Hs as [|m steps Hm _ IH]; intros e; cbn [undo]; [auto|]. apply preserves_bind; [auto|]. intros r. apply IH.
Qed.
Lemma or_undo_meta {A} (m : F A) steps : preserves fd_meta m -> Forall (preserves fd_meta) steps -> preserves fd_meta (or_undo m steps).
Proof.
  intros Hm Hs. unfold or_undo. apply preserves_bind; [auto|]. intros [a|e]; [auto|]. apply preserves_bind; [by apply undo_meta|auto].
Qed.
Lemma delete_meta root key : preserves fd_meta (Delete root key).
Proof. unfold Files.Delete. apply preserves_bind; [auto|]. intros path. apply preserves_wrap, preserves_write. by intros db db' [= <-]. Qed.
Lemma file_delete_meta id : preserves fd_meta (File_Delete id).
Proof. apply preserves_write. by intros db db' [= <-]. Qed.
Lemma attach_meta sid ids now : preserves fd_meta (AttachFilesToSession sid ids now).
Proof.
  induction ids as [|id ids IH]; cbn [AttachFilesToSession]; [auto|]. apply preserves_bind; [|auto]. apply preserves_write. intros db db' E.
  destruct (negb _); [|done]. destruct (_ && _); [|done]. by injection E as <-.
Qed.
(** Storing a file leaves the sources as they were. *)
Lemma upload_meta alnum root sha256hex userID workspaceID sid name type body hex now :
  preserves fd_meta (Upload alnum root sha256hex userID workspaceID sid name type body hex now).
Proof.
  unfold Upload, IsMember. apply preserves_bind; [auto|]. intros [|]; cbn [negb]; [|apply preserves_fail]. cbv zeta. apply preserves_bind; [apply put_meta|]. intros o.
  unfold record_file. apply preserves_bind.
  { apply or_undo_meta; [|repeat constructor; apply delete_meta]. apply preserves_write. intros db db' E. destruct (negb _); [|done]. by injection E as <-. }
  intros _. apply preserves_bind; [|auto]. apply or_undo_meta; [apply attach_meta|]. repeat constructor; [apply delete_meta|apply file_delete_meta].
Qed.

(** * What became of an import *)

Section answers.
Context (table : Z -> Z) (megabytes : Z -> string) (alnum : Z -> bool) (root : string) (sha256hex : string -> string).

(** What follows an import and touches no binding leaves what the import did. *)
Lemma kept_steady {A} (m : Calls.M Db A) broken db d d' ok k id r :
  kept sha256hex broken db d ok k id -> steady sha256hex m -> runs m d d' r -> kept sha256hex broken db d' ok k id.
Proof.
  unfold kept. intros Hk Hm R. destruct ok.
  - destruct Hk as (Hs & b & Hb & Hid & _). destruct (Hm _ _ _ _ R Hs) as [Hs' E]. split; [done|]. exists b. rewrite E. split_and!; [done..|].
    eapply sound_usable; [exact Hs'|by rewrite E|set_solver].
  - destruct Hk as [Hs E]. destruct (Hm _ _ _ _ R Hs) as [Hs' E']. split; [done|congruence].
Qed.
(** The status a response names, and what it says of the bindings: made for the session and
    usable, or as they were. *)
Definition status_of (fields : list (string * jval)) : option jval := lookup_key fields "ingest_status".
Definition reported (broken : gset (string * string * string)) (sessionID id : string) (db db' : Db) (fields : list (string * jval)) : Prop :=
  exists status k, status_of fields = Some (JStr status) /\ k.1.1 = sessionID /\ kept sha256hex broken db db' (status =? "success") k id
  /\ In status ["success"; "failed"; "needs_agent"; "worksheet_selection_required"].
Lemma import_object_session db sid source : (import_object sha256hex db sid source).1.1 = sid.
Proof. unfold import_object. by destruct (_ !! _). Qed.
Lemma live_object_session db sid source schema name : (live_object sha256hex db sid source schema name).1.1 = sid.
Proof. unfold live_object. by destruct (_ !! _). Qed.
Lemma lookup_key_last kvs k k' v : k' <> k -> lookup_key (kvs ++ [(k', v)]) k = lookup_key kvs k.
Proof.
  intros Hne. induction kvs as [|[k1 v1] kvs IH]; cbn [lookup_key app].
  - apply String.eqb_neq in Hne. by rewrite Hne.
  - by rewrite IH.
Qed.
Lemma lookup_key_app l1 l2 k : lookup_key l2 k = None -> lookup_key (l1 ++ l2) k = lookup_key l1 k.
Proof. intros Hn. induction l1 as [|[k1 v1] l1 IH]; cbn [lookup_key app]; [done|]. by rewrite IH. Qed.
Lemma lookup_key_skip l1 l2 k v : lookup_key l2 k = Some v -> lookup_key (l1 ++ l2) k = Some v.
Proof. intros Hs. induction l1 as [|[k1 v1] l1 IH]; cbn [lookup_key app]; [done|]. by rewrite IH. Qed.
(** The status of the head, when no later member is one. *)
Lemma status_head status more : lookup_key more "ingest_status" = None -> status_of (ingest_status status more) = Some (JStr status).
Proof. intros Hn. unfold status_of, ingest_status. cbn [lookup_key]. by rewrite Hn. Qed.
Lemma success_status (r : SnapshotImportResult) errors :
  lookup_key errors "ingest_status" = None ->
  status_of (ingest_status "success" (import_fields r ++ cleanup_texts (ir_CleanupErrors r) ++ errors)) = Some (JStr "success").
Proof.
  intros He. apply status_head. rewrite lookup_key_app; [done|]. unfold cleanup_texts. destruct (ir_CleanupErrors r); [done|]. cbn [app lookup_key]. by rewrite He.
Qed.
Lemma agent_status_of e m1 m2 fields :
  agent_status e m1 m2 = Some fields -> exists status, status_of fields = Some (JStr status) /\ In status ["needs_agent"; "worksheet_selection_required"].
Proof.
  unfold agent_status. destruct (as_worksheets e) as [l|]; [intros [= <-]; eexists; split; [done|]; right; by left|].
  destruct (as_structure e) as [d|]; [|done]. intros [= <-]. eexists. split; [done|]. by left.
Qed.
Lemma import_failed_status e : exists status, status_of (import_failed e) = Some (JStr status) /\ In status ["failed"; "needs_agent"; "worksheet_selection_required"].
Proof.
  unfold import_failed. destruct (agent_status e _ _) as [fields|] eqn:E; [|by eexists; split; [done|left]].
  apply agent_status_of in E as (status & E & Hin). exists status. split; [done|by right].
Qed.
Lemma not_success status : In status ["failed"; "needs_agent"; "worksheet_selection_required"] -> (status =? "success") = false.
Proof. cbn. naive_solver. Qed.
Lemma upload_import_run broken s sid userID source x d db db' r :
  runs (upload_import sha256hex s sid userID source x d) db db' r -> sound sha256hex broken db ->
  exists fields, r = Ok fields /\ reported broken sid (text ["snap_"; ud_snapshot d]) db db' fields.
Proof.
  intros R Hs. unfold upload_import in R. apply runs_bind in R as [(e & R & ->)|(x1 & d1 & R1 & R)]; [by apply runs_try in R as (? & _ & [=])|].
  apply runs_try in R1 as (r1 & R1 & [= ->]). unfold import_object_of in R1. apply import_kept with (broken := broken) in R1; [|done].
  pose proof (import_object_session db sid (ds_ID source)) as Hsid. destruct r1 as [result|e].
  - apply runs_bind in R as [(e & R & ->)|(rec & d2 & R2 & R)]; [by apply runs_try in R as (? & _ & [=])|]. apply runs_try in R2 as (r2 & R2 & [= ->]).
    apply runs_ret in R as [-> ->]. eexists. split; [done|]. exists "success", (import_object sha256hex db sid (ds_ID source)). split_and!; [|done| |by left].
    + apply success_status. by destruct r2.
    + eapply kept_steady; [exact R1|apply audit_steady|exact R2].
  - apply runs_ret in R as [-> ->]. eexists. split; [done|]. destruct (import_failed_status e) as (status & E & Hin).
    exists status, (import_object sha256hex db sid (ds_ID source)). rewrite (not_success _ Hin). split_and!; [done..|by right].
Qed.
(** A response that adds only other members reports the same. *)
Lemma reported_more broken sid id db d db' fields pre post :
  db_bindings d = db_bindings db -> lookup_key post "ingest_status" = None ->
  reported broken sid id d db' fields -> reported broken sid id db db' (pre ++ fields ++ post).
Proof.
  intros E Hp (status & k & Hst & Hk & Hkept & Hin). exists status, k. split_and!; [|done| |done].
  - unfold status_of. apply lookup_key_skip. by rewrite lookup_key_app.
  - unfold kept in *. destruct (status =? "success"); [done|]. destruct Hkept. split; [done|congruence].
Qed.
Lemma same_reported broken sid id db db' fields :
  sound sha256hex broken db' -> db_bindings db' = db_bindings db -> status_of fields = Some (JStr "failed") -> reported broken sid id db db' fields.
Proof. intros Hs E Hst. exists "failed", (sid, "", ""). split_and!; [done..|by right; left]. Qed.
Lemma upload_source_run broken runtime s sid userID f x d db db' r :
  runs (upload_source megabytes sha256hex runtime s sid userID f x d) db db' r -> sound sha256hex broken db ->
  exists fields, r = Ok fields /\ reported broken sid (text ["snap_"; ud_snapshot d]) db db' fields.
Proof.
  intros R Hs. unfold upload_source in R. apply runs_bind in R as [(e & R & ->)|(x1 & d1 & R1 & R)]; [by apply runs_try in R as (? & _ & [=])|].
  apply runs_try in R1 as (r1 & R1 & [= ->]). destruct (ensure_steady sha256hex _ _ _ _ _ _ _ _ _ _ R1 Hs) as [Hs1 E1].
  assert (forall fields, runs (ret fields) d1 db' r -> status_of fields = Some (JStr "failed") ->
            exists fields, r = Ok fields /\ reported broken sid (text ["snap_"; ud_snapshot d]) db db' fields) as Hfail.
  { intros fields Rf Hst. apply runs_ret in Rf as [-> ->]. exists fields. split; [done|]. by apply same_reported. }
  destruct r1 as [source|e]; [|by eapply Hfail]. destruct runtime as [[]|e]; [|by eapply Hfail].
  destruct (Get_connector (ds_SourceType source)) as [[|engine]|e]; [|by eapply Hfail..].
  apply runs_bind in R as [(e & R & ->)|(fields & d2 & R2 & R)]; [by apply (upload_import_run broken) in R as (? & [=] & _)|].
  apply (upload_import_run broken) in R2 as (fields' & [= <-] & Hrep); [|done]. apply runs_ret in R as [-> ->]. eexists. split; [done|].
  apply (reported_more _ _ _ _ d1 _ fields [("source_id", JStr (ds_ID source))]); [done| |done]. by destruct (lookup_key fields "message").
Qed.
Lemma bind_or_import_kept workspaceID broken live q sourceID x v d db db' r :
  runs (bind_or_import sha256hex workspaceID live q sourceID x v d) db db' r -> sound sha256hex broken db ->
  exists k, k.1.1 = mq_SessionID q /\ kept sha256hex broken db db' (is_ok r) k (text ["snap_"; ud_snapshot d]).
Proof.
  intros R Hs. unfold bind_or_import, import_object_of in R. destruct live.
  - eapply bind_live_kept in R; [|exact Hs]. eexists. split; [apply live_object_session|exact R].
  - apply import_kept with (broken := broken) in R; [|done]. eexists. split; [apply import_object_session|exact R].
Qed.
(** An answer with a document reports the import; a refusal left the bindings. *)
Definition answered (broken : gset (string * string * string)) (sid id : string) (db db' : Db) (reply : Reply) : Prop :=
  match reply with
  | Replied status (JObj fields) => status = 200%Z /\ reported broken sid id db db' fields
  | Refused status message => sound sha256hex broken db' /\ db_bindings db' = db_bindings db /\ (status <> 500%Z -> db' = db)
  | _ => False
  end.
Lemma finish_import_run workspaceID broken live userID sourceID src q x v d db db' r :
  runs (finish_import sha256hex workspaceID live userID sourceID src q x v d) db db' r -> sound sha256hex broken db ->
  exists reply, r = Ok reply /\ answered broken (mq_SessionID q) (text ["snap_"; ud_snapshot d]) db db' reply.
Proof.
  intros R Hs. unfold finish_import in R. apply runs_bind in R as [(e & R & ->)|(x1 & d1 & R1 & R)]; [by apply runs_try in R as (? & _ & [=])|].
  apply runs_try in R1 as (r1 & R1 & [= ->]). eapply bind_or_import_kept in R1 as (k & Hk & R1); [|exact Hs]. destruct r1 as [result|e].
  - apply runs_bind in R as [(e & R & ->)|(rec & d2 & R2 & R)]; [by apply runs_try in R as (? & _ & [=])|]. apply runs_try in R2 as (r2 & R2 & [= ->]).
    apply runs_ret in R as [-> ->]. eexists. split; [done|]. split; [done|]. exists "success", k. split_and!; [|done| |by left].
    + unfold status_of. apply lookup_key_skip, success_status. by destruct r2.
    + eapply kept_steady; [exact R1|apply audit_steady|exact R2].
  - apply runs_ret in R as [-> ->]. exists (refuse_import live sourceID e). split; [done|]. unfold refuse_import. destruct R1 as [Hs1 E1].
    destruct (if live then None else agent_status e _ _) as [fields|] eqn:Ea; [|by split_and!].
    destruct live; [done|]. apply agent_status_of in Ea as (status & E & Hin). split; [done|]. exists status, k.
    assert (In status ["failed"; "needs_agent"; "worksheet_selection_required"]) as Hin' by (by right). rewrite (not_success _ Hin').
    split_and!; [|done|by split|by right]. unfold status_of. by apply (lookup_key_skip [_]).
Qed.
End answers.

(** * The name of an accepted file *)

Lemma validate_accepts table filename contentType head :
  validateUploadedFile table filename contentType head = Ok tt ->
  contains_text (Clean filename) ".." = false /\ HasPrefix (Clean filename) "/" = false
  /\ In (ToLower table (Ext filename)) allowedExtensions /\ (contentType = "" \/ In contentType allowedMimeTypes)
  /\ (ToLower table (Ext filename) = ".xlsx" -> firstn 4 head = xlsx_magic).
Proof.
  unfold validateUploadedFile. cbv zeta. destruct (_ || _) eqn:E1; [done|]. apply orb_false_iff in E1 as [E1 E2].
  destruct (existsb forbidden_byte _); [done|]. destruct (negb (existsb (String.eqb (ToLower table (Ext filename))) _)) eqn:E3; [done|].
  apply negb_false_iff, existsb_exists in E3 as (e & Hin & He). apply String.eqb_eq in He as <-.
  destruct (negb (contentType =? "") && _) eqn:E4; [done|].
  destruct ((ToLower table (Ext filename) =? ".xlsx") && _) eqn:E5; [done|]. intros _. split_and!; [done|done|done| |].
  - apply andb_false_iff in E4 as [E4|E4]; [left; by apply negb_eqb_false in E4|right]. apply negb_false_iff, existsb_exists in E4 as (t & Ht & E4).
    by apply String.eqb_eq in E4 as <-.
  - intros Hx. rewrite Hx, String.eqb_refl in E5. cbn [andb] in E5. apply negb_false_iff, bool_decide_eq_true in E5. done.
Qed.

(** * The answers to an upload *)

Section upload_answers.
Context (table : Z -> Z) (megabytes : Z -> string) (alnum : Z -> bool) (root : string) (sha256hex : string -> string)
  (sessions : string -> option SessionRow) (user : option string) (workspaceID sid : string) (form : ParsedForm) (d : UploadDrawn)
  (X : gset (string * string * string)) (db db' : FileDb).

(** A file of the caller's session that passed the checks was stored, and its import is
    reported. *)
Definition stored_and_reported (fields : list (string * jval)) : Prop :=
  exists userID f file db1, user = Some userID /\ sessions sid = Some {| sr_UserID := userID; sr_WorkspaceID := workspaceID |}
  /\ form = FormParsed f /\ validateUploadedFile table (uf_FileName f) (uf_ContentType f) (head_of (uf_Body f)) = Ok tt
  /\ runs (Upload alnum root sha256hex userID workspaceID sid (uf_FileName f) (uf_ContentType f) (uf_Body f) (ud_file d) (ud_now d)) db db1 (Ok file)
  /\ db' = set_meta db1 (fd_meta db') /\ (exists more, fields = uploaded_fields file ++ more)
  /\ reported sha256hex X sid (text ["snap_"; ud_snapshot d]) (fd_meta db) (fd_meta db') fields.
Definition upload_answer (reply : Reply) : Prop :=
  match reply with
  | Refused status message => fd_meta db' = fd_meta db /\ (message <> "上传文件失败" -> db' = db)
  | Replied status (JObj fields) => status = 200%Z /\ stored_and_reported fields
  | _ => False
  end.
Lemma refusal_answer status message r : runs (ret (Refused status message)) db db' r -> exists reply, r = Ok reply /\ upload_answer reply.
Proof. intros R. apply runs_ret in R as [E ->]. eexists. split; [done|]. split; congruence. Qed.
Lemma upload_form_run runtime s userID x r :
  sound sha256hex X (fd_meta db) -> user = Some userID -> sessions sid = Some {| sr_UserID := userID; sr_WorkspaceID := workspaceID |} ->
  sr_WorkspaceID s = workspaceID ->
  forall f, form = FormParsed f -> validateUploadedFile table (uf_FileName f) (uf_ContentType f) (head_of (uf_Body f)) = Ok tt ->
  runs (do stored := try (Upload alnum root sha256hex userID (sr_WorkspaceID s) sid (uf_FileName f) (uf_ContentType f) (uf_Body f) (ud_file d) (ud_now d)) in
        match stored with
        | Err _ => ret (Refused 500 "上传文件失败")
        | Ok file =>
            do fields := of_sources (upload_source megabytes sha256hex runtime s sid userID file (x (uf_Body f) (uf_Worksheet f)) d) in
            ret (Replied 200 (JObj (uploaded_fields file ++ fields)))
        end) db db' r ->
  exists reply, r = Ok reply /\ upload_answer reply.
Proof.
  intros Hs Hu Hsid Ew f Hf Hv R. apply runs_bind in R as [(e & R & ->)|(stored & db1 & R1 & R)]; [by apply runs_try in R as (? & _ & [=])|].
  apply runs_try in R1 as (r1 & R1 & [= ->]). pose proof (upload_meta _ _ _ _ _ _ _ _ _ _ _ _ _ _ R1) as Em. destruct r1 as [file|e].
  - apply runs_bind in R as [(e & R & ->)|(fields & db2 & R2 & R)].
    + apply of_sources_run in R as [R _]. apply (upload_source_run _ _ X) in R as (? & [=] & _). by rewrite Em.
    + apply of_sources_run in R2 as [R2 E2]. apply (upload_source_run _ _ X) in R2 as (fields' & [= <-] & Hrep); [|by rewrite Em].
      apply runs_ret in R as [E ->]. eexists. split; [done|]. split; [done|]. exists userID, f, file, db1. rewrite Ew in R1. rewrite Em in Hrep.
      split_and!; [done..|by rewrite E|by eexists|]. rewrite E. rewrite <- (app_nil_r fields).
      by eapply (reported_more _ _ _ _ (fd_meta db) (fd_meta db) _ fields (uploaded_fields file) []).
  - apply runs_ret in R as [E ->]. eexists. split; [done|]. split; [by rewrite E|done].
Qed.
End upload_answers.

(** * Properties *)

(** C15: an upload is checked, stored and reported as its import went.  The request always
    gets an answer.  A refusal leaves every source, snapshot and binding as it was, and
    everything else too unless storing the file failed.  Otherwise the caller owns the
    session, the file passed the checks of its name and content and is stored, and the
    answer names it and a status: "success" says that a binding of the session holds the new
    snapshot and can be used, any other that the bindings are as they were; no binding that
    could be used before is lost either way. *)
Theorem upload_reported table megabytes alnum root sha256hex sessions user workspaceID sid form runtime x d X db db' r :
  rtc (step sha256hex) (empty_db, ∅) (fd_meta db, X) ->
  runs (UploadHandler table megabytes alnum root sha256hex sessions user workspaceID sid form runtime x d) db db' r ->
  exists reply, r = Ok reply /\ upload_answer table alnum root sha256hex sessions user workspaceID sid form d X db db' reply.
Proof.
  intros Hreach R. apply steps_sound in Hreach as Hs. unfold UploadHandler in R.
  destruct (blank sid); [by eapply refusal_answer|]. destruct (not_exact sid); [by eapply refusal_answer|].
  destruct user as [userID|] eqn:Hu; [|by eapply refusal_answer]. destruct (userID =? ""); [by eapply refusal_answer|].
  apply runs_bind in R as [(e & R & ->)|(r0 & d1 & R1 & R)]; [by apply runs_try in R as (? & _ & [=])|].
  apply runs_try in R1 as (r1 & R1 & [= ->]). apply of_sources_run in R1 as [R1 Em]. unfold Session_GetByID in R1. apply runs_read in R1 as [Er R1].
  assert (d1 = db) as -> by (rewrite Em, Er; by destruct db). clear Em Er. destruct r1 as [s|[]]; [|by eapply refusal_answer..].
  apply read_found in R1. destruct (_ || _) eqn:Ho in R; [by eapply refusal_answer|]. apply orb_false_iff in Ho as [E1 E2]. apply negb_eqb_false in E1, E2.
  destruct form as [| | | |f] eqn:Hform; [by eapply refusal_answer..|].
  destruct (validateUploadedFile _ _ _ _) as [[]|message] eqn:Hv; [|by eapply refusal_answer].
  eapply (upload_form_run _ _ _ _ _ _ _ _ _ _ _ _ _ _ _ s userID); [done|done| |done|done|done|exact R]. rewrite R1. destruct s. cbn in *. by subst.
Qed.

(** an import over HTTP is of a source of the caller's workspace and is reported as it
    went.  The request always gets an answer; a refusal leaves the bindings of every session
    as they were, and below 500 the whole store; otherwise the status says whether a binding
    of the session asked for holds the new snapshot, usable, or the bindings are as they
    were. *)
Theorem import_reported sha256hex user workspaceID sourceID body runtime x v d X db db' r :
  rtc (step sha256hex) (empty_db, ∅) (db, X) ->
  runs (ImportDataSourceHandler sha256hex user workspaceID sourceID body runtime x v d) db db' r ->
  exists reply, r = Ok reply
  /\ (db' = db /\ (exists status message, reply = Refused status message)
      \/ exists userID src q, user = Some userID /\ userID <> "" /\ db_sources db !! sourceID = Some src /\ ds_WorkspaceID src = workspaceID
         /\ decode_import body = Some q /\ runtime (mq_SessionID q) workspaceID userID = Ok workspaceID
         /\ answered sha256hex X (mq_SessionID q) (text ["snap_"; ud_snapshot d]) db db' reply).
Proof.
  intros Hreach R. apply steps_sound in Hreach as Hs. unfold ImportDataSourceHandler in R.
  assert (refused db db' r -> exists reply, r = Ok reply /\ (db' = db /\ exists status message, reply = Refused status message)) as Href.
  { intros (-> & status & message & ->). eexists. split; [done|]. eauto. }
  assert (forall status message, runs (ret (Refused status message)) db db' r -> exists reply, r = Ok reply /\ (db' = db /\ exists status message, reply = Refused status message)) as Hret.
  { intros status message Rf. apply runs_ret in Rf as [-> ->]. eexists. split; [done|]. eauto. }
  apply signed_in_run in R as [[-> ->]|(userID & Hu & Hne & R)]; [eexists; split; [done|]; left; by eauto|].
  apply lookup_run in R as [R|(src & R1 & R)]; [destruct (Href R) as (y & ? & ?); exists y; auto| |apply preserves_read].
  unfold DataSource_GetByID in R1. apply runs_read in R1 as [_ R1]. apply read_found in R1.
  destruct (negb _) eqn:Ew in R; [destruct (Hret _ _ R) as (y & ? & ?); exists y; auto|]. apply negb_eqb_false in Ew.
  destruct (decode_import body) as [q|] eqn:Hq; [|destruct (Hret _ _ R) as (y & ? & ?); exists y; auto].
  destruct (check_import q src); [destruct (Hret _ _ R) as (y & ? & ?); exists y; auto|].
  apply refuse_run in R as [(e & R & ->)|(workspace & d1 & R2 & R)]; [apply runs_lift in R as [-> _]; eexists; split; [done|]; left; by eauto|].
  apply runs_lift in R2 as [-> R2]. destruct (negb _) eqn:Ew2 in R; [destruct (Hret _ _ R) as (y & ? & ?); exists y; auto|]. apply negb_eqb_false in Ew2 as ->.
  apply refuse_run in R as [(e & R & ->)|(c & d1 & R3 & R)]; [apply runs_lift in R as [-> _]; eexists; split; [done|]; left; by eauto|].
  apply runs_lift in R3 as [-> _]. apply (finish_import_run _ _ X) in R as (reply & -> & Ha); [|done]. exists reply. split; [done|]. right.
  exists userID, src, q. by split_and!.
Qed.

(** * Witnesses *)

Definition example_facts : ImportFacts :=
  {| if_materialized := Ok 10%Z; if_sheets := None; if_file := Ok two_columns; if_dbSize := Ok 100%Z; if_importMs := 1; if_profileMs := 1 |}.
Definition example_draw : UploadDrawn := {| ud_file := "01"; ud_source := "a"; ud_snapshot := "1"; ud_profile := "1"; ud_event := "1"; ud_now := 7 |}.
Definition example_store : FileDb := Build_FileDb (new_session "s1" empty_db) {[("w1", "u1")]} ∅ ∅ ∅ ∅ ∅ ∅.
Definition example_form (sheet : string) : ParsedForm :=
  FormParsed {| uf_FileName := "a.csv"; uf_ContentType := "text/csv"; uf_Body := "a,b"; uf_Worksheet := sheet |}.
(** A workbook of two sheets asks for a choice. *)
Definition facts_of (body sheet : string) : ImportFacts :=
  if sheet =? "?" then {| if_materialized := Ok 10%Z; if_sheets := Some (Ok ["one"; "two"]); if_file := Ok two_columns; if_dbSize := Ok 100%Z;
                          if_importMs := 1; if_profileMs := 1 |}
  else example_facts.
Definition example_upload (sheet : string) : Calls.M FileDb Reply :=
  UploadHandler (fun r => r) (fun _ => "0.00") letter "/data" plain_hash example_rows (Some "u1") "w1" "s1" (example_form sheet) (Ok tt) facts_of example_draw.
Definition reply_status (r : res SErr Reply) : option jval := match r with Ok (Replied 200 (JObj fields)) => status_of fields | _ => None end.
Example two_sheets : reply_status (exec (example_upload "?") example_store).2 = Some (JStr "worksheet_selection_required").
Proof. by vm_compute. Qed.
Lemma upload_reported_witness :
  reply_status (exec (example_upload "") example_store).2 = Some (JStr "success")
  /\ exists k b, db_bindings (fd_meta (exec (example_upload "") example_store).1) !! k = Some b /\ k.1.1 = "s1" /\ sb_ActiveSnapshotID b = "snap_1"
     /\ SourceProps.usable plain_hash (fd_meta (exec (example_upload "") example_store).1) b.
Proof.
  assert (reply_status (exec (example_upload "") example_store).2 = Some (JStr "success")) as Hok by by vm_compute. split; [exact Hok|].
  assert (rtc (step plain_hash) (empty_db, ∅) (fd_meta example_store, ∅)) as Hreach by apply rtc_once, (StepSession plain_hash "s1").
  pose proof (runs_exec (example_upload "") example_store) as R. destruct (exec (example_upload "") example_store) as [db' r]. cbn [fst snd] in *.
  unfold example_upload in R.
  destruct (upload_reported (fun r => r) (fun _ => "0.00") letter "/data" plain_hash example_rows (Some "u1") "w1" "s1" (example_form "") (Ok tt) facts_of example_draw
    ∅ example_store db' r Hreach R) as (reply & -> & Ha).
  destruct reply as [|st doc|]; try discriminate Hok. destruct doc as [| | | | |fields]; try by destruct Ha. destruct Ha as (-> & _ & _ & _ & _ & _ & _ & _ & _ & _ & _ & _ & Hrep).
  destruct Hrep as (status & k & Hst & Hk & Hkept & _). cbn [reply_status] in Hok. rewrite Hst in Hok. injection Hok as ->.
  destruct Hkept as (_ & b & Hb & Hid & Hu). exists k, b. by split_and!.
Defined.
Definition example_import (sheet : string) : Calls.M Db Reply :=
  ImportDataSourceHandler plain_hash (Some "u1") "w1" "ds_a" (Marshal (JObj [("session_id", JStr "s1"); ("worksheet", JStr sheet)]))
    (fun _ w _ => Ok w) (facts_of "") {| vf_resolve := fun _ => Ok tt; vf_metadata := Err SNotFound; vf_qualified := ""; vf_metadataMs := 1; vf_profileMs := 1 |}
    example_draw.
Lemma import_reported_witness :
  reply_status (exec (example_import "?") example_sources).2 = Some (JStr "worksheet_selection_required")
  /\ db_bindings (exec (example_import "?") example_sources).1 = db_bindings example_sources.
Proof.
  assert (reply_status (exec (example_import "?") example_sources).2 = Some (JStr "worksheet_selection_required")) as Hok by by vm_compute. split; [exact Hok|].
  assert (rtc (step plain_hash) (empty_db, ∅) (example_sources, ∅)) as Hreach.
  { eapply rtc_l; [apply (StepSession plain_hash "s1")|]. eapply rtc_l; [eapply (StepFile plain_hash), (runs_of add_file _ [])|]. apply rtc_refl. }
  pose proof (runs_exec (example_import "?") example_sources) as R. destruct (exec (example_import "?") example_sources) as [db' r]. cbn [fst snd] in *.
  unfold example_import in R.
  destruct (import_reported plain_hash (Some "u1") "w1" "ds_a" (Marshal (JObj [("session_id", JStr "s1"); ("worksheet", JStr "?")])) (fun _ w _ => Ok w)
    (facts_of "") {| vf_resolve := fun _ => Ok tt; vf_metadata := Err SNotFound; vf_qualified := ""; vf_metadataMs := 1; vf_profileMs := 1 |} example_draw
    ∅ example_sources db' r Hreach R) as (reply & -> & [[-> _]|(userID & src & q & _ & _ & _ & _ & Hq & _ & Ha)]); [done|].
  destruct reply as [|st doc|]; try discriminate Hok. destruct doc as [| | | | |fields]; try by destruct Ha. destruct Ha as (-> & status & k & Hst & _ & Hkept & _).
  cbn [reply_status] in Hok. rewrite Hst in Hok. injection Hok as ->. by destruct Hkept.
Defined.
