(* ===== verification/RuntimeState.v ===== *)
(** The runtime state of a session read back from its log: the messages of a session's runs
    and of the tree under one run, the events that replace the memory, the goals, the report
    and the edit scope, and the hydration of a session after a restart
    ([handler/runtime_state.go], [handler/session_runtime.go]); what the list of runs shows of
    a run ([handler/run.go]).

    The store holds the rows of the runs and the log, both in the order they were added;
    either query may fail ([Calls]).  The text of a time and its reading are arguments.  A raw
    JSON member is its compact text. *)
From S2P Require Import Prelude GoStrings GoText Json Conversation WorkingMemory Subgoals Tools Receipts Compaction HistoryRebuild ReportState ReportOps ReportSnapshot SessionRun StateTools EventStream Calls.
From Stdlib Require Import Ascii.
Open Scope string_scope.
Open Scope list_scope.
Open Scope go_scope.

(** * The payloads of state events *)

Section decoders.
Context (parse_time : string -> option time).

Definition is_time (v : jval) : bool := match v with JStr s => bool_decide (is_Some (parse_time s)) | _ => false end.
Definition time_field (m : gmap string jval) (k : string) : time :=
  match m !! k with Some (JStr s) => default 0%Z (parse_time s) | _ => 0%Z end.
Definition is_raw (v : jval) : bool := true.
(** A raw member keeps null too. *)
Definition raw_last (names : list string) (kvs : list (string * jval)) (k : string) : string :=
  fold_left (fun raw kv => if bool_decide (match_field names kv.1 = Some k) then Marshal kv.2 else raw) kvs "".

(** A member of a map, a list or a pointer that null leaves at its zero value. *)
Definition decode_record {A} (fields : list (string * (jval -> bool))) (build : gmap string jval -> (string -> string) -> A) (v : jval) : option A :=
  let! kvs := as_object v in let! m := bind_fields fields kvs ∅ in Some (build m (raw_last (map fst fields) kvs)).
Definition decode_list {A} (decode : jval -> option A) (v : jval) : option (list A) :=
  match v with JArr vs => mapM decode vs | JNull => Some [] | _ => None end.
Definition decode_entries {A} (decode : jval -> option A) (v : jval) : option (gmap string A) :=
  match v with
  | JObj kvs => let! entries := mapM (fun kv : string * jval => pair kv.1 <$> decode kv.2) kvs in Some (list_to_map entries)
  | JNull => Some ∅
  | _ => None
  end.
(** A member that is checked by its decoder. *)
Definition decodes {A} (decode : jval -> option A) (v : jval) : bool := bool_decide (is_Some (decode v)).

Definition decode_entry : jval -> option MemoryEntry :=
  decode_record [("statement", is_jstr); ("status", is_jstr); ("source_result_ids", is_texts); ("confidence", is_float); ("created_by", is_jstr);
                 ("created_at", is_time)]
    (fun m raw => {| me_Statement := string_field m "statement"; me_Status := string_field m "status";
                 me_SourceResultIDs := texts_field m "source_result_ids";
                 me_Confidence := match m !! "confidence" with Some (JNum lit) => float_of_literal lit | _ => None end;
                 me_CreatedBy := string_field m "created_by"; me_CreatedAt := time_field m "created_at" |}).
Definition decode_memory (content : string) : option (gmap string MemoryEntry) :=
  let! m := decode_struct [("entries", decodes (decode_entries decode_entry))] content in
  match m !! "entries" with Some v => decode_entries decode_entry v | None => Some ∅ end.
Definition decode_goal : jval -> option Subgoal :=
  decode_record [("id", is_jstr); ("parentGoalId", is_jstr); ("description", is_jstr); ("status", is_jstr); ("blocking", is_jbool); ("result", is_jstr);
                 ("created_at", is_time); ("updated_at", is_time)]
    (fun m raw => {| sg_ID := string_field m "id"; sg_ParentGoalID := string_field m "parentGoalId"; sg_Description := string_field m "description";
                 sg_Status := string_field m "status"; sg_Blocking := bool_field m "blocking"; sg_Result := string_field m "result";
                 sg_CreatedAt := time_field m "created_at"; sg_UpdatedAt := time_field m "updated_at" |}).
Definition decode_goals (content : string) : option (list Subgoal) :=
  let! m := decode_struct [("goals", decodes (decode_list decode_goal))] content in
  match m !! "goals" with Some v => decode_list decode_goal v | None => Some [] end.

Definition decode_layout : jval -> option ReportLayout :=
  decode_record [("customCss", is_jstr); ("bodyClass", is_jstr)]
    (fun m raw => {| ly_CustomCSS := string_field m "customCss"; ly_BodyClass := string_field m "bodyClass" |}).
Definition decode_block : jval -> option ReportSnapshotBlock :=
  decode_record [("id", is_jstr); ("kind", is_jstr); ("title", is_jstr); ("content", is_jstr); ("chartId", is_jstr); ("sources", is_raw)]
    (fun m raw => {| sb_ID := string_field m "id"; sb_Kind := string_field m "kind"; sb_Title := string_field m "title";
                 sb_Content := string_field m "content"; sb_ChartID := string_field m "chartId"; sb_Sources := raw "sources" |}).
Definition decode_chart : jval -> option ReportSnapshotChart :=
  decode_record [("id", is_jstr); ("option", is_raw); ("width", is_jstr); ("height", is_jstr); ("sources", is_raw)]
    (fun m raw => {| sc_ID := string_field m "id"; sc_Option := raw "option"; sc_Width := string_field m "width";
                 sc_Height := string_field m "height"; sc_Sources := raw "sources" |}).
Definition no_layout : ReportLayout := {| ly_CustomCSS := ""; ly_BodyClass := "" |}.
Definition part {A} (decode : jval -> option A) (zero : A) (m : gmap string jval) (k : string) : A :=
  match m !! k with Some v => default zero (decode v) | None => zero end.
Definition decode_snapshot : jval -> option ReportSnapshot :=
  decode_record [("version", is_jstr); ("generatedAt", is_time); ("title", is_jstr); ("author", is_jstr); ("needsFinalize", is_jbool);
                 ("layout", decodes decode_layout); ("blocks", decodes (decode_list decode_block)); ("charts", decodes (decode_list decode_chart));
                 ("results", is_raw); ("artifacts", is_raw)]
    (fun m raw => {| sn_Version := string_field m "version"; sn_GeneratedAt := time_field m "generatedAt"; sn_Title := string_field m "title";
                 sn_Author := string_field m "author"; sn_NeedsFinalize := bool_field m "needsFinalize";
                 sn_Layout := part decode_layout no_layout m "layout"; sn_Blocks := part (decode_list decode_block) [] m "blocks";
                 sn_Charts := part (decode_list decode_chart) [] m "charts"; sn_Results := raw "results";
                 sn_Artifacts := raw "artifacts" |}).
(** The page and the snapshot of a report event; the other members are checked only. *)
Definition decode_report (content : string) : option (string * option ReportSnapshot) :=
  let! m := decode_struct [("html", is_jstr); ("sectionId", is_jstr); ("title", is_jstr); ("reportFileId", is_jstr);
                           ("report_snapshot", decodes decode_snapshot)] content in
  Some (string_field m "html", let! v := m !! "report_snapshot" in decode_snapshot v).
Definition decode_context : jval -> option ReportEditContext :=
  decode_record [("scopeKind", is_jstr); ("targetRunId", is_jstr); ("blockId", is_jstr); ("blockLabel", is_jstr); ("chartId", is_jstr);
                 ("selectionText", is_jstr); ("selectionStart", is_jint); ("selectionEnd", is_jint); ("selectionRangeSet", is_jbool)]
    (fun m raw => {| ec_ScopeKind := string_field m "scopeKind"; ec_TargetRunID := string_field m "targetRunId"; ec_BlockID := string_field m "blockId";
                 ec_BlockLabel := string_field m "blockLabel"; ec_ChartID := string_field m "chartId"; ec_SelectionText := string_field m "selectionText";
                 ec_SelectionStart := int_field m "selectionStart"; ec_SelectionEnd := int_field m "selectionEnd";
                 ec_SelectionRangeSet := bool_field m "selectionRangeSet" |}).
Definition decode_edit (content : string) : option EditStateUpdatedData :=
  let! m := decode_struct [("active", is_jbool); ("scopeKind", is_jstr); ("editContext", decodes decode_context)] content in
  Some {| eu_Active := bool_field m "active"; eu_ScopeKind := string_field m "scopeKind";
          eu_EditContext := let! v := m !! "editContext" in decode_context v |}.

(** * The state the events leave *)

Definition EventStateMemoryUpdated : string := "state_memory_updated".
Definition EventStateSubgoalsUpdated : string := "state_subgoals_updated".
Definition EventStateReportEditUpdated : string := "state_report_edit_updated".

Record RuntimeState := {
  rt_Entries : gmap string MemoryEntry; rt_Goals : list Subgoal; rt_Snapshot : option ReportSnapshot; rt_HTML : string;
  rt_Edit : option EditStateUpdatedData
}.
Definition no_state : RuntimeState := {| rt_Entries := ∅; rt_Goals := []; rt_Snapshot := None; rt_HTML := ""; rt_Edit := None |}.
Definition with_entries s entries := Build_RuntimeState entries (rt_Goals s) (rt_Snapshot s) (rt_HTML s) (rt_Edit s).
Definition with_goals s goals := Build_RuntimeState (rt_Entries s) goals (rt_Snapshot s) (rt_HTML s) (rt_Edit s).
Definition with_report s (html : string) snapshot :=
  Build_RuntimeState (rt_Entries s) (rt_Goals s) (match snapshot with Some x => Some x | None => rt_Snapshot s end)
    (if blank html then rt_HTML s else html) (rt_Edit s).
Definition with_edit s (d : EditStateUpdatedData) :=
  Build_RuntimeState (rt_Entries s) (rt_Goals s) (rt_Snapshot s) (rt_HTML s)
    (if eu_Active d && bool_decide (is_Some (eu_EditContext d)) then Some d else None).
Definition with_html s html := Build_RuntimeState (rt_Entries s) (rt_Goals s) (rt_Snapshot s) html (rt_Edit s).
Definition invalid_event (what : string) (msg : RunMessage) : SErr := SText (text ["invalid "; what; " event "; rm_ID msg]).
(** One message; [Err] names the event that is not one. *)
Definition apply_event (s : RuntimeState) (msg : RunMessage) : res SErr RuntimeState :=
  let ty := rm_Type msg in
  let content := rm_Content msg in
  if ty =? EventStateMemoryUpdated then
    match decode_memory content with Some entries => Ok (with_entries s entries) | None => Err (invalid_event "memory state" msg) end
  else if ty =? EventStateSubgoalsUpdated then
    match decode_goals content with Some goals => Ok (with_goals s goals) | None => Err (invalid_event "subgoal state" msg) end
  else if (ty =? EventReportUpdate) || (ty =? EventReportFinal) then
    match decode_report content with
    | Some (html, snapshot) => Ok (with_report s html snapshot)
    | None => Err (invalid_event "report state" msg)
    end
  else if ty =? EventStateReportEditUpdated then
    match decode_edit content with Some d => Ok (with_edit s d) | None => Err (invalid_event "edit state" msg) end
  else Ok s.
(** [page]: the safe page of a title, an author and a state of the report ([ReportPage]). *)
Definition snapshot_error (e : SnapshotError) : SErr := SText (match e with ESnapResults => "results" | ESnapArtifacts => "artifacts" | _ => "report" end).
Definition renderReportHTMLFromSnapshotData (page : string -> string -> ReportState -> string) (snapshot : ReportSnapshot) : res SErr string :=
  match load_report empty_report snapshot with
  | Err e => Err (SWrap "invalid report snapshot state" (snapshot_error e))
  | Ok state => Ok (page (sn_Title snapshot) (sn_Author snapshot) state)
  end.
Definition deriveRuntimeStateFromMessages (page : string -> string -> ReportState -> string) (messages : list RunMessage) : res SErr RuntimeState :=
  let? s := fold_res apply_event no_state messages in
  match rt_Snapshot s with
  | None => Ok s
  | Some snapshot =>
      match renderReportHTMLFromSnapshotData page snapshot with
      | Ok html => Ok (with_html s html)
      | Err e => Err (SWrap "persisted report snapshot is not renderable" e)
      end
  end.
End decoders.

(** * The log of a session and of a tree of runs *)

(** The columns of a run this file reads. *)
Record TaskRow := { rn_ID : string; rn_SessionID : string; rn_ParentRunID : option string; rn_CreatedAt : time }.
Record RunStore := { rl_Runs : list TaskRow; rl_Log : list RunMessage }.
Definition is_root_run (run : TaskRow) : bool := match rn_ParentRunID run with None => true | Some parent => parent =? "" end.
Definition root_runs (db : RunStore) (sessionID : string) : list TaskRow :=
  List.filter (fun run => (rn_SessionID run =? sessionID) && is_root_run run) (rl_Runs db).
Definition Runs_ListBySession (sessionID : string) : Calls.M RunStore (list TaskRow) :=
  read (fun db => Ok (newest_first rn_CreatedAt (root_runs db sessionID))).
Definition child_rows (db : RunStore) (parent : string) : list TaskRow :=
  take 200 (oldest_first rn_CreatedAt (List.filter (fun run => bool_decide (rn_ParentRunID run = Some parent)) (rl_Runs db))).
Definition Runs_ListByParent (parent : string) : Calls.M RunStore (list TaskRow) := read (fun db => Ok (child_rows db parent)).
Definition Messages_ListByRun (runID : string) : Calls.M RunStore (list RunMessage) := read (fun db => Ok (ListByRun (rl_Log db) runID)).
Definition Messages_CountByRun (runID : string) : Calls.M RunStore nat :=
  read (fun db => Ok (length (List.filter (fun m => rm_RunID m =? runID) (rl_Log db)))).
(** [sort.SliceStable] by creation time. *)
Definition chronological (runs : list TaskRow) : list TaskRow := oldest_first rn_CreatedAt runs.

Fixpoint messages_of (runs : list TaskRow) : Calls.M RunStore (list RunMessage) :=
  match runs with
  | [] => ret []
  | run :: runs =>
      do here := wrap ("failed to list messages for task " ++ rn_ID run)%string (Messages_ListByRun (rn_ID run)) in
      do rest := messages_of runs in ret (here ++ rest)
  end.
Definition session_messages (sessionID : string) : Calls.M RunStore (list RunMessage) :=
  require negb (blank sessionID || not_exact sessionID) else SText "session id must be a non-empty exact value" ;;
  do runs := wrap "failed to list session tasks" (Runs_ListBySession sessionID) in
  do messages := messages_of (chronological runs) in
  ret (sort_created messages).

Definition returned (messages : list RunMessage) (runID : string) : nat := length (List.filter (fun m => rm_RunID m =? runID) messages).
Fixpoint truncated_of (messages : list RunMessage) (runs : list TaskRow) : Calls.M RunStore nat :=
  match runs with
  | [] => ret 0
  | run :: runs =>
      do total := wrap ("failed to count messages for task " ++ rn_ID run)%string (Messages_CountByRun (rn_ID run)) in
      do rest := truncated_of messages runs in
      ret ((if (returned messages (rn_ID run) <? total)%nat then total - returned messages (rn_ID run) else 0) + rest)
  end.
Definition countTruncatedSessionMessages (sessionID : string) (messages : list RunMessage) : Calls.M RunStore nat :=
  do runs := wrap "failed to list session tasks" (Runs_ListBySession sessionID) in truncated_of messages runs.

(** ** The tree under a run *)

Record Walk := { wk_queue : list string; wk_visited : gset string; wk_messages : list RunMessage }.
(** The children of one run that were not seen. *)
Fixpoint visit_children (w : Walk) (children : list TaskRow) : Calls.M RunStore Walk :=
  match children with
  | [] => ret w
  | child :: children =>
      if bool_decide (rn_ID child ∈ wk_visited w) then visit_children w children
      else
        do messages := wrap ("failed to list messages for child task " ++ rn_ID child)%string (Messages_ListByRun (rn_ID child)) in
        visit_children {| wk_queue := wk_queue w ++ [rn_ID child]; wk_visited := {[rn_ID child]} ∪ wk_visited w;
                          wk_messages := wk_messages w ++ messages |} children
  end.
(** [None]: out of fuel ([tree_total]). *)
Fixpoint walk_tree (fuel : nat) (w : Walk) : Calls.M RunStore (option (list RunMessage)) :=
  match wk_queue w with
  | [] => ret (Some (wk_messages w))
  | curr :: queue =>
      match fuel with
      | O => ret None
      | S fuel =>
          do children := wrap ("failed to list child tasks for " ++ curr)%string (Runs_ListByParent curr) in
          do w := visit_children {| wk_queue := queue; wk_visited := wk_visited w; wk_messages := wk_messages w |} children in
          walk_tree fuel w
      end
  end.
Definition collectRunTreeMessages (fuel : nat) (runID : string) : Calls.M RunStore (option (list RunMessage)) :=
  require negb (blank runID || not_exact runID) else SText "task id must be a non-empty exact value" ;;
  do messages := wrap "failed to list task messages" (Messages_ListByRun runID) in
  do messages := walk_tree fuel {| wk_queue := [runID]; wk_visited := {[runID]}; wk_messages := messages |} in
  ret (sort_created <$> messages).

(** * Hydration *)

Record Hydrated := { hy_Session : Session; hy_Memory : WorkingMemory; hy_Goals : SubgoalManager; hy_Engine : option Engine }.
Inductive HydrateError :=
| HEvents (e : SErr) | HState (e : SErr) | HMemory (e : MemoryError) | HGoals (e : GoalError) | HSnapshot (e : SnapshotError)
| HHistory (e : RebuildError) | HTruncated (e : SErr).
Definition set_session (h : Hydrated) s := Build_Hydrated s (hy_Memory h) (hy_Goals h) (hy_Engine h).

Section hydrate.
Context (parse_time : string -> option time) (page : string -> string -> ReportState -> string) (spill : string -> option string).
(** The memory is replaced before the goals; the walk over the goals always ends ([ReplaceAll_total]). *)
Definition LoadRuntimeStateEntries (h : Hydrated) (entries : gmap string MemoryEntry) (goals : list Subgoal) (now : time) : Hydrated * res HydrateError unit :=
  let s := hy_Session h in
  let seen := set_run s (ss_ActiveRun s) now in
  match ReplaceEntries (hy_Memory h) entries with
  | (memory, Err e) => (Build_Hydrated s memory (hy_Goals h) (hy_Engine h), Err (HMemory e))
  | (memory, Ok _) =>
      match ReplaceAll (hy_Goals h) goals with
      | Some (manager, Ok _) => (Build_Hydrated seen memory manager (hy_Engine h), Ok tt)
      | Some (manager, Err e) => (Build_Hydrated s memory manager (hy_Engine h), Err (HGoals e))
      | None => (Build_Hydrated s memory (hy_Goals h) (hy_Engine h), Ok tt)
      end
  end.
Definition restore_report (h : Hydrated) (state : RuntimeState) : Hydrated * res HydrateError unit :=
  match LoadReportSnapshot (hy_Session h) (rt_Snapshot state) with
  | (s, Err e) => (set_session h s, Err (HSnapshot e))
  | (s, Ok _) =>
      let scope := match rt_Edit state with Some d => if eu_Active d then eu_EditContext d else None | None => None end in
      (set_session h (match scope with Some context => ConfigureEditState s (Some context) | None => ClearEditState s end), Ok tt)
  end.
Definition restore_history (h : Hydrated) (messages : list RunMessage) (truncated : nat) : res HydrateError Hydrated :=
  match RebuildHistoryFromMessages spill messages with
  | Err e => Err (HHistory e)
  | Ok (history, omitted, summary) =>
      Ok (Build_Hydrated (hy_Session h) (hy_Memory h) (hy_Goals h)
        ((fun e => SetHistorySummary (SetHistory e history (omitted + Z.of_nat truncated)) summary) <$> hy_Engine h))
  end.
(** The session after the attempt and whether it succeeded. *)
Definition hydrateSessionFromPersistence (h : Hydrated) (now : time) : Calls.M RunStore (Hydrated * res HydrateError unit) :=
  do collected := try (session_messages (ss_ID (hy_Session h))) in
  match collected with
  | Err e => ret (h, Err (HEvents e))
  | Ok messages =>
      match deriveRuntimeStateFromMessages parse_time page messages with
      | Err e => ret (h, Err (HState e))
      | Ok state =>
          match LoadRuntimeStateEntries h (rt_Entries state) (rt_Goals state) now with
          | (h, Err e) => ret (h, Err e)
          | (h, Ok _) =>
              match restore_report h state with
              | (h, Err e) => ret (h, Err e)
              | (h, Ok _) =>
                  match restore_history h messages 0 with
                  | Err e => ret (h, Err e)
                  | Ok _ =>
                      do truncated := try (countTruncatedSessionMessages (ss_ID (hy_Session h)) messages) in
                      match truncated with
                      | Err e => ret (h, Err (HTruncated e))
                      | Ok n =>
                          match restore_history h messages n with
                          | Ok h => ret (h, Ok tt)
                          | Err e => ret (h, Err e)
                          end
                      end
                  end
              end
          end
      end
  end.
End hydrate.

(** * What the list of runs shows *)

Definition runPreviewLimit : nat := 3.
Definition clipPreviewText (input : string) (max : nat) : string :=
  let input := String.concat " " (Fields (TrimSpace input)) in
  if (max =? 0)%nat then ""
  else if (length (runes input) <=? max)%nat then input
  else (string_of_runes (take max (runes input)) ++ "...")%string.
Definition ui_summary_of (content : string) : option string :=
  match Decode content with
  | Some (JObj kvs) => match list_to_map (M:=gmap string jval) kvs !! "ui_summary" with Some (JStr s) => if blank s then None else Some s | _ => None end
  | _ => None
  end.
Definition summarizeRunMessage (msg : RunMessage) : string :=
  let content := TrimSpace (rm_Content msg) in
  let ty := rm_Type msg in
  if ty =? "tool_call" then rm_Name msg
  else if ty =? "tool_result" then
    match ui_summary_of content with
    | Some summary => clipPreviewText summary 120
    | None => if rm_Name msg =? "" then clipPreviewText content 120 else clipPreviewText (text [rm_Name msg; ": "; content]) 120
    end
  else clipPreviewText content 120.
(** The newest messages, in chronological order. *)
Definition recent_messages (log : list RunMessage) (runID : string) (limit : nat) : list RunMessage := rev (take limit (rev (run_rows log runID))).
Definition preview_item (msg : RunMessage) : list (string * string * string) :=
  let summary := summarizeRunMessage msg in if summary =? "" then [] else [(rm_Type msg, rm_Name msg, summary)].
Definition buildRunPreview (runID : string) : Calls.M RunStore (list (string * string * string)) :=
  do messages := wrap "failed to read task preview messages" (read (fun db => Ok (recent_messages (rl_Log db) runID runPreviewLimit))) in
  ret (flat_map preview_item messages).
(** [table]: the lower cases outside ASCII. *)
Definition reportFilename (table : Z -> Z) (title runID : string) : string :=
  let name := if TrimSpace title =? "" then ("report-" ++ runID)%string else TrimSpace title in
  if HasSuffix (ToLower table name) ".html" then name else (name ++ ".html")%string.
Definition defaultContentType (contentType : string) : string := if blank contentType then "application/octet-stream" else contentType.
Definition header_byte (c : ascii) : bool := negb (existsb (Ascii.eqb c) ["010"%char; "013"%char; "034"%char]).
Definition safeHeaderFilename (name : string) : string :=
  let safe := TrimSpace (String.string_of_list_ascii (List.filter header_byte (String.list_ascii_of_string name))) in
  if safe =? "" then "report.html" else safe.
