(* ===== verification/RuntimeProps.v ===== *)
(** What the reading of a session's log promises: the walk of a tree of runs ends and takes
    each run once, the state of a session is the last event of each kind, and a hydrated
    session holds it with every event that was left out counted. *)
From S2P Require Import Prelude GoStrings GoText Json Conversation WorkingMemory Subgoals Tools Receipts Compaction HistoryRebuild ReportState ReportOps ReportSnapshot SessionRun StateTools EventStream Calls RuntimeState.
From Stdlib Require Import Ascii.
Open Scope string_scope.
Open Scope list_scope.
Open Scope go_scope.

(** * The tree of runs *)

Definition child (db : RunStore) (parent x : string) : Prop := exists row, row ∈ child_rows db parent /\ rn_ID row = x.
Definition tree_order (db : RunStore) (runID : string) (order : list string) : Prop :=
  NoDup order /\ forall x, x ∈ order <-> rtc (child db) runID x.

(** The runs that were taken: [before] have had their children visited. *)
Record walk_inv (db : RunStore) (root : string) (w : Walk) (before : list string) : Prop := {
  wi_once : NoDup (before ++ wk_queue w);
  wi_visited : wk_visited w = list_to_set (before ++ wk_queue w);
  wi_messages : wk_messages w = flat_map (ListByRun (rl_Log db)) (before ++ wk_queue w);
  wi_reached : forall x, x ∈ before ++ wk_queue w -> rtc (child db) root x
}.

Lemma child_known db parent x : child db parent x -> x ∈ map rn_ID (rl_Runs db).
Proof.
  intros (row & Hrow & <-). apply list_elem_of_fmap. exists row. split; [done|]. unfold child_rows in Hrow. apply take_in in Hrow.
  unfold oldest_first in Hrow. rewrite merge_sort_Permutation in Hrow. apply list_elem_of_In, filter_In in Hrow as [Hrow _]. by apply list_elem_of_In.
Qed.
Lemma reached_known db root x : rtc (child db) root x -> x ∈ root :: map rn_ID (rl_Runs db).
Proof.
  intros H. apply rtc_inv_r in H as [<-|(y & _ & Hy)]; [by left|]. right. by eapply child_known.
Qed.
Lemma reached_bound db root l :
  NoDup l -> (forall x, x ∈ l -> rtc (child db) root x) -> (length l <= S (length (rl_Runs db)))%nat.
Proof.
  intros Hnd Hl. rewrite <- (length_map rn_ID (rl_Runs db)). change (length l <= length (root :: map rn_ID (rl_Runs db)))%nat.
  apply NoDup_incl_length; [by apply NoDup_ListNoDup|]. intros x Hx%list_elem_of_In. apply list_elem_of_In. by apply (reached_known _ root), Hl.
Qed.

Lemma closed_reached db root (l : list string) x :
  (forall x y, x ∈ l -> child db x y -> y ∈ l) -> root ∈ l -> rtc (child db) root x -> x ∈ l.
Proof. intros Hl Hroot Hx. induction Hx as [|x y z Hxy _ IH]; [done|]. by apply IH, (Hl x). Qed.

Lemma visit_children_runs db root before : forall children w db' r,
  walk_inv db root w before -> (forall row, row ∈ children -> rtc (child db) root (rn_ID row)) ->
  runs (visit_children w children) db db' r ->
  db' = db /\ forall w', r = Ok w' ->
    walk_inv db root w' before /\ (forall x, x ∈ before ++ wk_queue w -> x ∈ before ++ wk_queue w')
    /\ forall row, row ∈ children -> rn_ID row ∈ before ++ wk_queue w'.
Proof.
  induction children as [|row children IH]; intros w db' r Hi Hch R; cbn in R.
  { run_inv. split; [done|]. intros w' [= <-]. split; [done|]. split; [done|]. by intros row ?%elem_of_nil. }
  case_bool_decide as Hin.
  - apply IH in R as (-> & R); [|done|]; [|by intros; apply Hch; right]. split; [done|]. intros w' Hw'.
    destruct (R w' Hw') as (H1 & H2 & H3). split; [done|]. split; [done|]. intros row' [->|?]%elem_of_cons; [|by apply H3].
    apply H2. rewrite (wi_visited _ _ _ _ Hi) in Hin. by apply elem_of_list_to_set in Hin.
  - apply runs_bind in R as [(e & R & ->)|(messages & d & R1 & R)]; [unfold Messages_ListByRun in R; run_inv; by split|].
    unfold Messages_ListByRun in R1. run_step R1. run_step R1.
    destruct R1 as [(m & [=])|[= ->]]. apply IH in R as (-> & R).
    + split; [done|]. intros w' Hw'. destruct (R w' Hw') as (H1 & H2 & H3). split; [done|]. cbn in H2. rewrite app_assoc in H2. split; [set_solver|].
      intros row' [->|?]%elem_of_cons; [apply H2; set_solver|by apply H3].
    + rewrite (wi_visited _ _ _ _ Hi) in Hin. rewrite elem_of_list_to_set in Hin. destruct Hi as [O V M Re]. split; cbn; rewrite app_assoc.
      * apply NoDup_app. split; [done|]. split; [|apply NoDup_singleton]. intros x Hx ->%list_elem_of_singleton. done.
      * rewrite list_to_set_app_L, V. cbn. set_solver.
      * rewrite flat_map_app, M. cbn. by rewrite app_nil_r.
      * intros x [Hx| ->%list_elem_of_singleton]%elem_of_app; [by apply Re|]. apply Hch. by left.
    + intros row' Hr. apply Hch. by right.
Qed.

Lemma walk_tree_runs db root : forall fuel w before db' r,
  walk_inv db root w before -> root ∈ before ++ wk_queue w -> (forall x y, x ∈ before -> child db x y -> y ∈ before ++ wk_queue w) ->
  (S (length (rl_Runs db)) <= fuel + length before)%nat ->
  runs (walk_tree fuel w) db db' r ->
  db' = db /\ r <> Ok None /\ forall messages, r = Ok (Some messages) ->
    exists order, tree_order db root order /\ messages = flat_map (ListByRun (rl_Log db)) order.
Proof.
  induction fuel as [|fuel IH]; intros w before db' r Hi Hroot Hclosed Hfuel R; cbn in R; destruct (wk_queue w) as [|curr queue] eqn:Hq.
  1,3: run_inv; split; [done|]; split; [done|]; intros messages [= <-]; exists before; rewrite app_nil_r in Hroot, Hclosed;
    destruct Hi as [O V M Re]; rewrite Hq, app_nil_r in O, M, Re; (split; [|done]); split; [done|]; intros x;
    (split; [apply Re|]); intros Hx; by apply (closed_reached db root).
  - exfalso. destruct Hi as [O _ _ Re]. rewrite Hq in O, Re. pose proof (reached_bound _ _ _ O Re) as Hb. rewrite length_app in Hb. cbn in Hb. lia.
  - apply runs_bind in R as [(e & R & ->)|(children & d & R1 & R)]; [unfold Runs_ListByParent in R; run_inv; by split|].
    unfold Runs_ListByParent in R1. run_step R1. run_step R1. destruct R1 as [(m & [=])|[= ->]].
    assert (Hi' : walk_inv db root {| wk_queue := queue; wk_visited := wk_visited w; wk_messages := wk_messages w |} (before ++ [curr])).
    { destruct Hi as [O V M Re]. rewrite Hq in O, V, M, Re. split; cbn; rewrite <- app_assoc; done. }
    assert (Hch : forall row, row ∈ child_rows db curr -> rtc (child db) root (rn_ID row)).
    { intros row Hrow. apply rtc_r with curr; [|by exists row]. apply (wi_reached _ _ _ _ Hi). rewrite Hq. set_solver. }
    apply runs_bind in R as [(e & R & ->)|(w' & d & R1 & R)].
    + apply (visit_children_runs _ _ _ _ _ _ _ Hi' Hch) in R as [-> _]. by split.
    + apply (visit_children_runs _ _ _ _ _ _ _ Hi' Hch) in R1 as [-> R1]. destruct (R1 w' eq_refl) as (H1 & H2 & H3). cbn in H2. rewrite <- app_assoc in H2.
      eapply IH in R; [exact R|done|by apply H2|..].
      * intros x y [Hx| ->%list_elem_of_singleton]%elem_of_app (row & Hrow & <-); [|by apply H3]. apply H2, (Hclosed x); [done|by exists row].
      * rewrite length_app. cbn. lia.
Qed.
Lemma succeeds_read {S A} (f : S -> A) : succeeds (read (fun db => Ok (f db))).
Proof. split; [auto with calm|done]. Qed.
Lemma walk_tree_succeeds fuel : forall w, succeeds (walk_tree fuel w).
Proof.
  induction fuel as [|fuel IH]; intros w; cbn; destruct (wk_queue w); try apply succeeds_ret.
  apply succeeds_bind; [apply succeeds_wrap, succeeds_read|]. intros children. apply succeeds_bind; [|intros; apply IH].
  generalize {| wk_queue := l; wk_visited := wk_visited w; wk_messages := wk_messages w |}. induction children as [|row children IHc]; intros w'; cbn; [apply succeeds_ret|].
  case_bool_decide; [apply IHc|]. apply succeeds_bind; [apply succeeds_wrap, succeeds_read|]. intros. apply IHc.
Qed.

Definition exact_run (s : string) : Prop := blank s = false /\ not_exact s = false.

(** C20: Reading the log of a run and of the runs delegated under it ends, whichever queries
    fail and even if the parents of the runs form a cycle: it never needs more turns than there
    are runs and one.  It changes nothing; what it returns is, by time, the log of every run
    that can be reached from the run over the list of children, each taken once; and it fails
    only when a query does. *)
Theorem tree_collected (db : RunStore) (runID : string) (Hid : exact_run runID) (db' : RunStore) r
    (R : runs (collectRunTreeMessages (S (length (rl_Runs db))) runID) db db' r) :
  db' = db /\ r <> Ok None
  /\ (forall messages, r = Ok (Some messages) ->
       exists order, tree_order db runID order /\ messages = sort_created (flat_map (ListByRun (rl_Log db)) order))
  /\ is_ok (exec (collectRunTreeMessages (S (length (rl_Runs db))) runID) db).2 = true.
Proof.
  destruct Hid as [Hb Hx]. unfold collectRunTreeMessages in *. rewrite Hb, Hx in *. cbn [negb orb] in *.
  set (walk := walk_tree _) in *.
  assert (H : is_ok (exec (do messages := wrap "failed to list task messages" (Messages_ListByRun runID) in
    do messages := walk {| wk_queue := [runID]; wk_visited := {[runID]}; wk_messages := messages |} in ret (sort_created <$> messages)) db).2 = true).
  { apply succeeds_bind; [apply succeeds_wrap, succeeds_read|]. intros. apply succeeds_bind; [apply walk_tree_succeeds|]. intros. apply succeeds_ret. }
  enough (db' = db /\ r <> Ok None /\ forall messages, r = Ok (Some messages) ->
    exists order, tree_order db runID order /\ messages = sort_created (flat_map (ListByRun (rl_Log db)) order)) as (? & ? & ?); [done|].
  unfold Messages_ListByRun in *. apply runs_bind in R as [(e & R & ->)|(logged & d & R1 & R)]; [run_inv; by split_and!|].
  run_step R1. run_step R1. destruct R1 as [(m & [=])|[= ->]].
  assert (Hi : walk_inv db runID {| wk_queue := [runID]; wk_visited := {[runID]}; wk_messages := ListByRun (rl_Log db) runID |} []).
  { split; cbn; [apply NoDup_singleton|set_solver|by rewrite app_nil_r|]. by intros x ->%list_elem_of_singleton. }
  apply runs_bind in R as [(e & R & ->)|(found & d & R1 & R)]; 
    apply (walk_tree_runs _ runID _ _ []) in R || apply (walk_tree_runs _ runID _ _ []) in R1; cbn; try done; try lia; try set_solver.
  destruct R1 as (E & Hn & Hs). apply runs_ret in R as [-> ->]. split; [done|].
  destruct found as [messages|]; [|done]. split; [done|]. intros ms [= <-].
  destruct (Hs messages eq_refl) as (order & Ho & ->). by exists order.
Qed.

Definition logged (id run : string) (at_ : time) (ty content : string) : RunMessage :=
  {| rm_ID := id; rm_RunID := run; rm_Type := ty; rm_Name := ""; rm_ToolCallID := None; rm_Content := content; rm_Success := None;
     rm_Duration := None; rm_CreatedAt := at_ |}.
Definition run_row (id parent : string) (at_ : time) : TaskRow :=
  {| rn_ID := id; rn_SessionID := "s"; rn_ParentRunID := Some parent; rn_CreatedAt := at_ |}.
(** A run, its child and its grandchild, which is also its parent. *)
Definition cyclic_runs : RunStore :=
  {| rl_Runs := [run_row "a" "c" 1; run_row "b" "a" 2; run_row "c" "b" 3; run_row "other" "" 4];
     rl_Log := [logged "m1" "a" 10 "thinking" ""; logged "m2" "b" 12 "thinking" ""; logged "m3" "c" 11 "thinking" ""; logged "m4" "other" 9 "thinking" ""] |}.
Lemma tree_collected_witness :
  exact_run "a" /\ exists messages, exec (collectRunTreeMessages 5 "a") cyclic_runs = (cyclic_runs, Ok (Some messages))
  /\ map rm_ID messages = ["m1"; "m3"; "m2"]
  /\ exists order, tree_order cyclic_runs "a" order /\ messages = sort_created (flat_map (ListByRun (rl_Log cyclic_runs)) order).
Proof.
  assert (He : exact_run "a") by done. split; [done|].
  pose proof (tree_collected cyclic_runs "a" He _ _ (runs_exec _ cyclic_runs)) as (_ & _ & Hm & _).
  eexists. split; [vm_compute; reflexivity|]. split; [vm_compute; reflexivity|]. apply Hm. vm_compute. reflexivity.
Defined.

(** * The state the log leaves *)

(** What the messages of one kind decode to, in order, and the last of them. *)
Definition decoded {A} (kind : string -> bool) (decode : string -> option A) (messages : list RunMessage) : list A :=
  omap (fun msg => if kind (rm_Type msg) then decode (rm_Content msg) else None) messages.
Definition last_of {A} (l : list A) (zero : A) : A := default zero (last l).
Definition is_memory ty := ty =? EventStateMemoryUpdated.
Definition is_goals ty := ty =? EventStateSubgoalsUpdated.
Definition is_report ty := (ty =? EventReportUpdate) || (ty =? EventReportFinal).
Definition is_edit ty := ty =? EventStateReportEditUpdated.
Definition kind_name (ty : string) : string :=
  if is_memory ty then "memory state" else if is_goals ty then "subgoal state" else if is_report ty then "report state" else "edit state".

Section derived.
Context (parse_time : string -> option time) (page : string -> string -> ReportState -> string).
Definition readable_event (msg : RunMessage) : bool :=
  let content := rm_Content msg in
  implb (is_memory (rm_Type msg)) (bool_decide (is_Some (decode_memory parse_time content)))
  && implb (is_goals (rm_Type msg)) (bool_decide (is_Some (decode_goals parse_time content)))
  && implb (is_report (rm_Type msg)) (bool_decide (is_Some (decode_report parse_time content)))
  && implb (is_edit (rm_Type msg)) (bool_decide (is_Some (decode_edit content))).
Definition pages_of (messages : list RunMessage) : list (string * option ReportSnapshot) := decoded is_report (decode_report parse_time) messages.
Definition in_force (d : EditStateUpdatedData) : option EditStateUpdatedData :=
  if eu_Active d && bool_decide (is_Some (eu_EditContext d)) then Some d else None.
Definition last_html (messages : list RunMessage) : string := last_of (List.filter (fun html => negb (blank html)) (map fst (pages_of messages))) "".
(** The state by its parts: each is the last event of its kind. *)
Definition state_of (messages : list RunMessage) : RuntimeState :=
  {| rt_Entries := last_of (decoded is_memory (decode_memory parse_time) messages) ∅;
     rt_Goals := last_of (decoded is_goals (decode_goals parse_time) messages) [];
     rt_Snapshot := last (omap snd (pages_of messages));
     rt_HTML := last_html messages;
     rt_Edit := last_of (map in_force (decoded is_edit decode_edit messages)) None |}.

Lemma last_of_snoc {A} (l : list A) x zero : last_of (l ++ [x]) zero = x.
Proof. unfold last_of. by rewrite last_snoc. Qed.
Lemma decoded_snoc {A} kind (decode : string -> option A) messages msg :
  decoded kind decode (messages ++ [msg]) =
  decoded kind decode messages ++ (if kind (rm_Type msg) then match decode (rm_Content msg) with Some x => [x] | None => [] end else []).
Proof. unfold decoded. rewrite omap_app. cbn. destruct (kind (rm_Type msg)); [|done]. by destruct (decode (rm_Content msg)). Qed.

(** The parts of the state after one more message. *)
Lemma state_of_step messages msg :
  state_of (messages ++ [msg]) =
  let content := rm_Content msg in
  let ty := rm_Type msg in
  let s := state_of messages in
  let page := if is_report ty then decode_report parse_time content else None in
  {| rt_Entries := default (rt_Entries s) (if is_memory ty then decode_memory parse_time content else None);
     rt_Goals := default (rt_Goals s) (if is_goals ty then decode_goals parse_time content else None);
     rt_Snapshot := match page with Some (_, Some x) => Some x | _ => rt_Snapshot s end;
     rt_HTML := match page with Some (html, _) => if blank html then rt_HTML s else html | None => rt_HTML s end;
     rt_Edit := match (if is_edit ty then decode_edit content else None) with Some d => in_force d | None => rt_Edit s end |}.
Proof.
  unfold state_of, last_html, pages_of. rewrite !decoded_snoc. cbn zeta. f_equal; cbn [rt_Entries rt_Goals rt_Snapshot rt_HTML rt_Edit].
  - destruct (is_memory _); [|by rewrite app_nil_r]. destruct (decode_memory _ _); [apply last_of_snoc|by rewrite app_nil_r].
  - destruct (is_goals _); [|by rewrite app_nil_r]. destruct (decode_goals _ _); [apply last_of_snoc|by rewrite app_nil_r].
  - destruct (is_report _); [|by rewrite app_nil_r]. destruct (decode_report _ _) as [[html [x|]]|]; rewrite ?omap_app; cbn;
      [by rewrite last_snoc|by rewrite app_nil_r|by rewrite app_nil_r].
  - destruct (is_report _); [|by rewrite app_nil_r]. destruct (decode_report _ _) as [[html x]|]; [|by rewrite app_nil_r].
    rewrite map_app, List.filter_app. cbn [map List.filter fst]. destruct (blank html); cbn [negb]; [by rewrite app_nil_r|apply last_of_snoc].
  - rewrite map_app. destruct (is_edit _); [|by rewrite app_nil_r]. destruct (decode_edit _); cbn; [apply last_of_snoc|by rewrite app_nil_r].
Qed.
Lemma kinds_disjoint ty :
  match is_memory ty, is_goals ty, is_report ty, is_edit ty with
  | true, false, false, false | false, true, false, false | false, false, true, false | false, false, false, true | false, false, false, false => True
  | _, _, _, _ => False
  end.
Proof.
  unfold is_memory, is_goals, is_report, is_edit. destruct (String.eqb_spec ty EventStateMemoryUpdated) as [->|]; [done|].
  destruct (String.eqb_spec ty EventStateSubgoalsUpdated) as [->|]; [done|]. destruct (String.eqb_spec ty EventReportUpdate) as [->|]; [done|].
  destruct (String.eqb_spec ty EventReportFinal) as [->|]; [done|]. by destruct (_ =? _).
Qed.
Lemma apply_event_state messages msg :
  apply_event parse_time (state_of messages) msg =
  if readable_event msg then Ok (state_of (messages ++ [msg]))
  else Err (invalid_event (kind_name (rm_Type msg)) msg).
Proof.
  rewrite state_of_step. pose proof (kinds_disjoint (rm_Type msg)) as Hk. unfold readable_event, apply_event, kind_name.
  fold (is_memory (rm_Type msg)) (is_goals (rm_Type msg)) (is_report (rm_Type msg)) (is_edit (rm_Type msg)). cbn zeta.
  destruct (is_memory _), (is_goals _), (is_report _), (is_edit _); try done; cbn [implb andb].
  - by destruct (decode_memory _ _).
  - by destruct (decode_goals _ _).
  - destruct (decode_report _ _) as [[html snapshot]|]; [|done]. by destruct snapshot.
  - destruct (decode_edit _) as [d|]; [|done]. done.
Qed.
(** The events that can be read, applied from the state the others left. *)
Lemma apply_events_state messages : forall before,
  match List.find (fun msg => negb (readable_event msg)) messages with
  | None => fold_res (apply_event parse_time) (state_of before) messages = Ok (state_of (before ++ messages))
  | Some bad => fold_res (apply_event parse_time) (state_of before) messages = Err (invalid_event (kind_name (rm_Type bad)) bad)
  end.
Proof.
  induction messages as [|msg messages IH]; intros before; cbn [List.find fold_res]; [by rewrite app_nil_r|].
  rewrite apply_event_state. destruct (readable_event msg); cbn [negb]; [|done]. specialize (IH (before ++ [msg])). by rewrite <- app_assoc in IH.
Qed.

(** C19: The state rebuilt from a log is, part by part, the last event of its kind: the memory,
    the goals, the edit scope if the last edit event puts one in force, the snapshot of the last
    report event that carries one, and the page of that snapshot, or without one the last page
    that is not blank.  It cannot be rebuilt exactly when some state event is not the JSON of
    its kind, which the error names, or the snapshot does not load. *)
Theorem derived_state (messages : list RunMessage) :
  deriveRuntimeStateFromMessages parse_time page messages =
  match List.find (fun msg => negb (readable_event msg)) messages with
  | Some bad =>
      Err (invalid_event (kind_name (rm_Type bad)) bad)
  | None =>
      match rt_Snapshot (state_of messages) with
      | None => Ok (state_of messages)
      | Some snapshot =>
          match load_report empty_report snapshot with
          | Ok report => Ok (with_html (state_of messages) (page (sn_Title snapshot) (sn_Author snapshot) report))
          | Err e => Err (SWrap "persisted report snapshot is not renderable" (SWrap "invalid report snapshot state" (snapshot_error e)))
          end
      end
  end.
Proof.
  unfold deriveRuntimeStateFromMessages. pose proof (apply_events_state messages []) as H. change (state_of []) with no_state in H.
  destruct (List.find _ messages); rewrite H; [done|]. cbn [app]. destruct (rt_Snapshot _) as [snapshot|]; [|done].
  unfold renderReportHTMLFromSnapshotData. by destruct (load_report _ _).
Qed.
End derived.

(** * The log of a session *)

Definition session_run_ids (db : RunStore) (sessionID : string) : list string :=
  map rn_ID (chronological (newest_first rn_CreatedAt (root_runs db sessionID))).
Definition session_log (db : RunStore) (sessionID : string) : list RunMessage :=
  sort_created (flat_map (ListByRun (rl_Log db)) (session_run_ids db sessionID)).
Definition logged_by (log : list RunMessage) (runID : string) : list RunMessage := List.filter (fun m => rm_RunID m =? runID) log.
Definition in_runs (ids : list string) (m : RunMessage) : bool := bool_decide (rm_RunID m ∈ ids).
(** The events of the root runs of the session, read or not. *)
Definition session_events (db : RunStore) (sessionID : string) : nat :=
  length (List.filter (in_runs (map rn_ID (root_runs db sessionID))) (rl_Log db)).

Lemma messages_of_runs db ids : forall db' r,
  runs (messages_of ids) db db' r -> db' = db /\ forall messages, r = Ok messages -> messages = flat_map (ListByRun (rl_Log db)) (map rn_ID ids).
Proof.
  induction ids as [|run ids IH]; intros db' r R; cbn in R; [run_inv; split; [done|]; by intros m [= <-]|].
  apply runs_bind in R as [(e & R & ->)|(here & d & R1 & R)]; [unfold Messages_ListByRun in R; run_inv; by split|].
  unfold Messages_ListByRun in R1. run_step R1. run_step R1. destruct R1 as [(m & [=])|[= ->]].
  apply runs_bind in R as [(e & R & ->)|(rest & d & R1 & R)]; [apply IH in R as [-> _]; by split|].
  apply IH in R1 as [-> Hrest]. apply runs_ret in R as [-> ->]. split; [done|]. intros m [= <-]. cbn. by rewrite (Hrest rest).
Qed.
Lemma session_messages_runs db id db' r :
  runs (session_messages id) db db' r -> db' = db /\ forall messages, r = Ok messages -> exact_run id /\ messages = session_log db id.
Proof.
  unfold session_messages. intros R. destruct (negb _) eqn:Hx; [|apply runs_fail in R as [-> ->]; by split].
  apply negb_true_iff, orb_false_iff in Hx.
  apply runs_bind in R as [(e & R & ->)|(roots & d & R1 & R)]; [unfold Runs_ListBySession in R; run_inv; by split|].
  unfold Runs_ListBySession in R1. run_step R1. run_step R1. destruct R1 as [(m & [=])|[= ->]].
  apply runs_bind in R as [(e & R & ->)|(messages & d & R1 & R)]; [apply messages_of_runs in R as [-> _]; by split|].
  apply messages_of_runs in R1 as [-> Hm]. apply runs_ret in R as [-> ->]. split; [done|]. intros ms [= <-].
  split; [done|]. unfold session_log, session_run_ids. by rewrite (Hm messages).
Qed.

Lemma window_of log runID m : m ∈ ListByRun log runID -> rm_RunID m = runID.
Proof.
  intros Hm. assert (Hm' : m ∈ run_rows log runID).
  { unfold ListByRun, listWindow in Hm. destruct (_ <=? _)%nat; [done|]. unfold mergeMessageWindows in Hm. rewrite sort_created_perm in Hm.
    apply elem_of_app in Hm as [Hm|Hm]; [by eapply take_in|]. apply merge_unseen_ids in Hm as [Hm _].
    apply list_elem_of_In, in_rev, list_elem_of_In, take_in in Hm. by apply list_elem_of_In, in_rev, list_elem_of_In in Hm. }
  unfold run_rows in Hm'. rewrite sort_created_perm in Hm'. apply list_elem_of_In, filter_In in Hm' as [_ Hr]. by apply String.eqb_eq.
Qed.
Lemma merge_unseen_length seen l : (length (merge_unseen seen l) <= length l)%nat.
Proof. revert seen. induction l as [|m l IH]; intros seen; cbn; [lia|]. destruct (decide _); cbn; [pose proof (IH seen); lia|]. specialize (IH ({[rm_ID m]} ∪ seen)). lia. Qed.
Lemma window_length log runID : (length (ListByRun log runID) <= length (logged_by log runID))%nat.
Proof.
  unfold ListByRun, logged_by. rewrite <- (Permutation_length (sort_created_perm (List.filter _ log))). fold (run_rows log runID).
  unfold listWindow. destruct (_ <=? _)%nat eqn:Hle; [done|]. apply Nat.leb_gt in Hle. unfold mergeMessageWindows.
  rewrite (Permutation_length (sort_created_perm _)), length_app.
  pose proof (merge_unseen_length (list_to_set (map rm_ID (take messageWindowHead (run_rows log runID)))) (rev (take messageWindowTail (rev (run_rows log runID))))) as Hm.
  rewrite length_rev in Hm. pose proof (firstn_le_length messageWindowTail (rev (run_rows log runID))).
  pose proof (firstn_le_length messageWindowHead (run_rows log runID)). pose proof (length_take_le (run_rows log runID) messageWindowHead).
  pose proof (length_take (rev (run_rows log runID)) messageWindowTail). pose proof (length_take (run_rows log runID) messageWindowHead). lia.
Qed.

(** What was read of one run is what is returned for it. *)
Lemma filter_none {A} (p : A -> bool) l : (forall x, x ∈ l -> p x = false) -> List.filter p l = [].
Proof. induction l as [|x l IH]; intros H; cbn; [done|]. rewrite (H x) by (by left). apply IH. intros y Hy. apply H. by right. Qed.
Lemma filter_keeps {A} (p : A -> bool) l : (forall x, x ∈ l -> p x = true) -> List.filter p l = l.
Proof. induction l as [|x l IH]; intros H; cbn; [done|]. rewrite (H x) by (by left). f_equal. apply IH. intros y Hy. apply H. by right. Qed.
Lemma filter_length_perm {A} (p : A -> bool) l l' : l ≡ₚ l' -> length (List.filter p l) = length (List.filter p l').
Proof. induction 1 as [|x l l' _ IH|x y l|l1 l2 l3 _ IH1 _ IH2]; cbn; [done| | |lia]; repeat destruct (p _); cbn; lia. Qed.
Lemma returned_window log ids runID :
  NoDup ids -> runID ∈ ids -> returned (sort_created (flat_map (ListByRun log) ids)) runID = length (ListByRun log runID).
Proof.
  unfold returned. rewrite (filter_length_perm _ _ _ (sort_created_perm _)). intros Hnd Hin. induction Hnd as [|id ids Hn _ IH]; [by apply elem_of_nil in Hin|].
  cbn [flat_map]. rewrite List.filter_app, length_app. destruct (decide (runID = id)) as [<-|Hne].
  - rewrite filter_keeps by (intros m Hm; apply String.eqb_eq; by eapply window_of).
    rewrite filter_none; [cbn; lia|]. intros m Hm. apply list_elem_of_In, in_flat_map in Hm as (id & Hid & Hm).
    apply list_elem_of_In, window_of in Hm. apply String.eqb_neq. intros Heq. apply Hn, list_elem_of_In. by rewrite <- Heq, Hm.
  - rewrite filter_none by (intros m Hm%window_of; apply String.eqb_neq; congruence). cbn. apply IH. set_solver.
Qed.

Lemma list_sum_cons n l : list_sum (n :: l) = (n + list_sum l)%nat.
Proof. done. Qed.
Lemma truncated_of_runs db messages rows : forall db' r,
  runs (truncated_of messages rows) db db' r ->
  db' = db /\ forall n, r = Ok n ->
    n = list_sum (map (fun run => length (logged_by (rl_Log db) (rn_ID run)) - returned messages (rn_ID run)) rows)%nat.
Proof.
  induction rows as [|run rows IH]; intros db' r R; cbn [truncated_of] in R; [apply runs_ret in R as [-> ->]; split; [done|]; by intros n [= <-]|].
  apply runs_bind in R as [(e & R & ->)|(total & d & R1 & R)]; [unfold Messages_CountByRun in R; run_inv; by split|].
  unfold Messages_CountByRun in R1. run_step R1. run_step R1. destruct R1 as [(m & [=])|[= ->]].
  apply runs_bind in R as [(e & R & ->)|(rest & d & R1 & R)]; [apply IH in R as [-> _]; by split|].
  apply IH in R1 as [-> Hrest]. apply runs_ret in R as [-> ->]. split; [done|]. intros n [= <-]. rewrite (Hrest rest eq_refl). cbn [map]. rewrite ?list_sum_cons. unfold logged_by.
  destruct (_ <? _)%nat eqn:Hlt; [done|]. apply Nat.ltb_ge in Hlt. lia.
Qed.
Lemma in_runs_cons id ids log :
  id ∉ ids -> length (List.filter (in_runs (id :: ids)) log) = (length (logged_by log id) + length (List.filter (in_runs ids) log))%nat.
Proof.
  intros Hn. unfold logged_by. induction log as [|m log IH]; cbn [List.filter]; [done|].
  assert (Hm : in_runs (id :: ids) m = (rm_RunID m =? id) || in_runs ids m).
  { unfold in_runs. apply eq_true_iff_eq. rewrite bool_decide_eq_true, orb_true_iff, String.eqb_eq, bool_decide_eq_true. apply elem_of_cons. }
  rewrite Hm. destruct (String.eqb_spec (rm_RunID m) id) as [Heq|Hne]; cbn [orb].
  - assert (in_runs ids m = false) as -> by (unfold in_runs; apply bool_decide_false; congruence). cbn. lia.
  - destruct (in_runs ids m); cbn; lia.
Qed.
Lemma session_events_sum log ids :
  NoDup ids -> length (List.filter (in_runs ids) log) = list_sum (map (fun id => length (logged_by log id)) ids).
Proof.
  induction 1 as [|id ids Hn _ IH]; cbn [map]; rewrite ?list_sum_cons; [by rewrite filter_none|]. rewrite in_runs_cons by done. lia.
Qed.
Lemma windows_sum log ids : length (flat_map (ListByRun log) ids) = list_sum (map (fun id => length (ListByRun log id)) ids).
Proof. induction ids as [|id ids IH]; [done|]. cbn [flat_map map]. rewrite length_app, list_sum_cons. lia. Qed.
Lemma list_sum_perm l l' : l ≡ₚ l' -> list_sum l = list_sum l'.
Proof. induction 1; rewrite ?list_sum_cons; lia. Qed.
(** The events that a bounded read left behind. *)
Lemma truncated_total log ids rows :
  NoDup ids -> map rn_ID rows ≡ₚ ids ->
  (list_sum (map (fun run => length (logged_by log (rn_ID run)) - returned (sort_created (flat_map (ListByRun log) ids)) (rn_ID run)) rows)
   + length (flat_map (ListByRun log) ids) = length (List.filter (in_runs ids) log))%nat.
Proof.
  intros Hnd Hids. rewrite (session_events_sum _ _ Hnd), windows_sum.
  transitivity (list_sum (map (fun id => length (logged_by log id) - length (ListByRun log id)) ids) + list_sum (map (fun id => length (ListByRun log id)) ids))%nat.
  - f_equal. rewrite <- (list_sum_perm _ _ (Permutation_map _ Hids)), map_map. f_equal. apply map_ext_in.
    intros run Hrun%(in_map rn_ID)%list_elem_of_In. rewrite returned_window; [done|done|]. by rewrite <- Hids.
  - clear Hids Hnd rows. induction ids as [|id ids IH]; [done|]. cbn [map]. rewrite !list_sum_cons. pose proof (window_length log id). lia.
Qed.
Lemma session_run_ids_perm db id : session_run_ids db id ≡ₚ map rn_ID (root_runs db id).
Proof. unfold session_run_ids, chronological, oldest_first, newest_first. by rewrite !merge_sort_Permutation. Qed.
Lemma session_run_ids_once db id : NoDup (map rn_ID (rl_Runs db)) -> NoDup (session_run_ids db id).
Proof.
  intros Hnd. rewrite session_run_ids_perm. unfold root_runs. induction (rl_Runs db) as [|run l IH]; cbn; [constructor|].
  apply NoDup_cons in Hnd as [Hn Hnd]. destruct (_ && _); [|by apply IH]. cbn. constructor; [|by apply IH].
  intros (x & Hx & Hin)%list_elem_of_fmap. apply Hn, list_elem_of_fmap. exists x. split; [done|]. apply list_elem_of_In, filter_In in Hin as [Hin _]. by apply list_elem_of_In.
Qed.
Lemma count_truncated_runs db id db' r :
  NoDup (map rn_ID (rl_Runs db)) ->
  runs (countTruncatedSessionMessages id (session_log db id)) db db' r ->
  db' = db /\ forall n, r = Ok n -> (n + length (session_log db id))%nat = session_events db id.
Proof.
  unfold countTruncatedSessionMessages. intros Hnd R.
  apply runs_bind in R as [(e & R & ->)|(roots & d & R1 & R)]; [unfold Runs_ListBySession in R; run_inv; by split|].
  unfold Runs_ListBySession in R1. run_step R1. run_step R1. destruct R1 as [(m & [=])|[= ->]].
  apply truncated_of_runs in R as [-> Hn]. split; [done|]. intros n ->. rewrite (Hn n eq_refl).
  assert (Hids : map rn_ID (newest_first rn_CreatedAt (root_runs db id)) ≡ₚ session_run_ids db id).
  { rewrite session_run_ids_perm. unfold newest_first. by rewrite merge_sort_Permutation. }
  unfold session_log. rewrite (Permutation_length (sort_created_perm _)).
  rewrite (truncated_total _ _ _ (session_run_ids_once db id Hnd) Hids). unfold session_events. f_equal. apply filter_ext. intros m.
  unfold in_runs. apply bool_decide_ext. by rewrite session_run_ids_perm.
Qed.

(** * Hydration *)

Section hydration.
Context (parse_time : string -> option time) (page : string -> string -> ReportState -> string) (spill : string -> option string).

Lemma entries_restored h entries goals now h' :
  LoadRuntimeStateEntries h entries goals now = (h', Ok tt) ->
  h' = {| hy_Session := set_run (hy_Session h) (ss_ActiveRun (hy_Session h)) now; hy_Memory := {| wm_Entries := entries |};
          hy_Goals := {| sm_Goals := goals |}; hy_Engine := hy_Engine h |} /\ forest goals.
Proof.
  unfold LoadRuntimeStateEntries, ReplaceEntries. destruct (_ <? _)%nat; [done|]. destruct (each _ _); [|done].
  destruct (ReplaceAll_total (hy_Goals h) goals) as (manager & r & E & Hr). rewrite E. destruct r; [|done]. destruct Hr as [<- Hf].
  intros [= <-]. by destruct manager.
Qed.
(** The scope an edit event puts in force. *)
Definition scope_of (state : RuntimeState) : option ReportEditContext := let! d := rt_Edit state in if eu_Active d then eu_EditContext d else None.
Lemma report_restored h state h' :
  restore_report h state = (h', Ok tt) ->
  exists s, LoadReportSnapshot (hy_Session h) (rt_Snapshot state) = (s, Ok tt) /\ h' = set_session h (ConfigureEditState s (scope_of state)).
Proof.
  unfold restore_report, scope_of. destruct (LoadReportSnapshot _ _) as [s [[]|e]]; [|done]. intros [= <-]. exists s. split; [done|].
  by destruct (rt_Edit state) as [d|]; [destruct (eu_Active d); [destruct (eu_EditContext d)|]|].
Qed.
Lemma history_restored h messages n h' :
  restore_history spill h messages n = Ok h' ->
  exists items omitted digest, RebuildHistoryFromMessages spill messages = Ok (items, omitted, digest)
  /\ h' = {| hy_Session := hy_Session h; hy_Memory := hy_Memory h; hy_Goals := hy_Goals h;
             hy_Engine := (fun e => SetHistorySummary (SetHistory e items (omitted + Z.of_nat n)) digest) <$> hy_Engine h |}.
Proof.
  unfold restore_history. destruct (RebuildHistoryFromMessages _ _) as [[[items omitted] digest]|]; [|done]. intros [= <-]. by exists items, omitted, digest.
Qed.

(** C18: A session that is hydrated holds what its log says and loses nothing unsaid.  The
    memory and the goals are those of the last events that set them, the goals a forest; the
    report is the last snapshot that was logged, and the edit scope the last one in force; the
    engine's history and digest are those rebuilt from the messages that were read, and the
    number of omitted items counts, besides those the history itself left out, every event of
    the session's own runs that the bounded read left behind.  The log is not changed. *)
Theorem hydration_restores (h : Hydrated) (now : time) (db db' : RunStore) (h' : Hydrated)
    (Hrows : NoDup (map rn_ID (rl_Runs db)))
    (R : runs (hydrateSessionFromPersistence parse_time page spill h now) db db' (Ok (h', Ok tt))) :
  db' = db
  /\ exists state s items omitted digest n,
    let messages := session_log db (ss_ID (hy_Session h)) in
    deriveRuntimeStateFromMessages parse_time page messages = Ok state
    /\ wm_Entries (hy_Memory h') = rt_Entries state
    /\ sm_Goals (hy_Goals h') = rt_Goals state /\ forest (rt_Goals state)
    /\ LoadReportSnapshot (set_run (hy_Session h) (ss_ActiveRun (hy_Session h)) now) (rt_Snapshot state) = (s, Ok tt)
    /\ hy_Session h' = ConfigureEditState s (scope_of state)
    /\ RebuildHistoryFromMessages spill messages = Ok (items, omitted, digest)
    /\ (n + length messages)%nat = session_events db (ss_ID (hy_Session h))
    /\ hy_Engine h' = (fun e => SetHistorySummary (SetHistory e items (omitted + Z.of_nat n)) digest) <$> hy_Engine h.
Proof.
  unfold hydrateSessionFromPersistence in R. apply runs_bind in R as [(e & _ & [=])|(collected & d & R1 & R)].
  apply runs_try in R1 as (r & R1 & [= ->]). apply session_messages_runs in R1 as [-> Hm].
  destruct r as [messages|e]; [|by apply runs_ret in R as [-> [=]]]. destruct (Hm messages eq_refl) as [_ ->].
  destruct (deriveRuntimeStateFromMessages _ _ _) as [state|e] eqn:Hd; [|by apply runs_ret in R as [-> [=]]].
  destruct (LoadRuntimeStateEntries _ _ _ _) as [h1 [[]|e]] eqn:H1; [|by apply runs_ret in R as [-> [=]]].
  apply entries_restored in H1 as [-> Hf].
  destruct (restore_report _ state) as [h2 [[]|e]] eqn:H2; [|by apply runs_ret in R as [-> [=]]].
  apply report_restored in H2 as (s & Hs & ->).
  destruct (restore_history spill _ _ 0) as [h3|e] eqn:H3; [|by apply runs_ret in R as [-> [=]]].
  apply runs_bind in R as [(e & _ & [=])|(truncated & d & R1 & R)]. apply runs_try in R1 as (r & R1 & [= ->]).
  assert (Hid : ss_ID (ConfigureEditState s (scope_of state)) = ss_ID (hy_Session h)).
  { unfold LoadReportSnapshot in Hs. destruct (rt_Snapshot state); [destruct (load_report _ _); [|done]|]; injection Hs as <-; by destruct (scope_of state). }
  cbn [hy_Session set_session] in R1. rewrite Hid in R1. apply count_truncated_runs in R1 as [-> Hn]; [|done].
  destruct r as [n|e]; [|by apply runs_ret in R as [-> [=]]].
  destruct (restore_history spill _ _ n) as [h4|e] eqn:H4; [|by apply runs_ret in R as [-> [=]]].
  apply runs_ret in R as [-> [= ->]]. split; [done|]. apply history_restored in H4 as (items & omitted & digest & Hr & ->).
  exists state, s, items, omitted, digest, n. cbn zeta. split_and!; try done. by apply Hn.
Qed.
End hydration.

Definition memory_event : string :=
  Marshal (JObj [("entries", JObj [("k", JObj [("statement", JStr "revenue grew"); ("status", JStr "observed"); ("source_result_ids", JArr [JStr "r1"]);
                                               ("created_by", JStr "model"); ("created_at", JStr "t")])])]).
Definition goals_event : string :=
  Marshal (JObj [("goals", JArr [JObj [("id", JStr "g1"); ("description", JStr "totals"); ("status", JStr "pending"); ("created_at", JStr "t"); ("updated_at", JStr "t")]])]).
Definition rebuilt (h : Hydrated) : nat := match hy_Engine h with Some e => length (en_history e) | None => 0 end.
(** A session of one run that was asked something and saved an entry and a goal. *)
Definition saved_session : RunStore :=
  {| rl_Runs := [run_row "a" "" 1];
     rl_Log := [logged "m1" "a" 10 EventStateMemoryUpdated memory_event; logged "m2" "a" 11 EventStateSubgoalsUpdated goals_event;
                logged "m0" "a" 9 EventUser "How did sales go?"] |}.
Definition fresh_session : Hydrated :=
  {| hy_Session := NewSession "s" "w" "u" 0; hy_Memory := {| wm_Entries := ∅ |}; hy_Goals := {| sm_Goals := [] |}; hy_Engine := Some (NewEngine "") |}.
Definition hydrate_saved := hydrateSessionFromPersistence (fun _ => Some 1%Z) (fun _ _ _ => "page") (fun _ => None) fresh_session 20.
Lemma hydration_restores_witness :
  NoDup (map rn_ID (rl_Runs saved_session)) /\
  exists h' state, runs hydrate_saved saved_session saved_session (Ok (h', Ok tt))
  /\ map sg_ID (sm_Goals (hy_Goals h')) = ["g1"] /\ me_Statement <$> wm_Entries (hy_Memory h') !! "k" = Some "revenue grew" /\ rebuilt h' = 1%nat
  /\ wm_Entries (hy_Memory h') = rt_Entries state /\ sm_Goals (hy_Goals h') = rt_Goals state /\ forest (rt_Goals state).
Proof.
  assert (Hrows : NoDup (map rn_ID (rl_Runs saved_session))) by apply NoDup_singleton. split; [done|].
  pose proof (runs_exec hydrate_saved saved_session) as R.
  assert (Hs : match (exec hydrate_saved saved_session).2 with
               | Ok (h', Ok _) => map sg_ID (sm_Goals (hy_Goals h')) = ["g1"] /\ me_Statement <$> wm_Entries (hy_Memory h') !! "k" = Some "revenue grew" /\ rebuilt h' = 1%nat
               | _ => False
               end) by (vm_compute; by split_and!).
  destruct (exec hydrate_saved saved_session) as [db' [[h' [[]|e]]|e]]; try done. cbn [fst snd] in R, Hs.
  destruct (hydration_restores _ _ _ fresh_session 20 saved_session db' h' Hrows R) as (-> & state & _ & _ & _ & _ & _ & _ & H1 & H2 & H3 & _).
  exists h', state. destruct Hs as (? & ? & ?). done.
Defined.
