(* ===== verification/Persister.v ===== *)
(** The goroutine that persists events and the goroutines that submit them
    ([startEventPersistWorker], [runPersistJob] and [saveEventToDB] of
    [handler/runtime_events.go]): a bounded queue under a read-write lock, a submitter that
    waits for its result or writes the event itself, and a shutdown that closes the queue,
    drains it and waits for the worker.

    Every step is one critical section or one channel operation of one goroutine.  A write
    ends with the event stored or with an error ([ok]); a panic of the write is an error. *)
From S2P Require Import Prelude.
Open Scope list_scope.

(** * The goroutines *)

Definition queueCapacity : nat := 4096.

(** A submitted event and the time it was stamped with. *)
Record PersistJob := { jb_submitter : nat; jb_createdAt : time }.
(** Where a call of [saveEventToDB] is. *)
Inductive Submitter :=
| Arrived                            (* before the read lock *)
| Holding (createdAt : time)         (* at the select, with the read lock *)
| Writing (createdAt : time)         (* [saveEventToDBSync] *)
| Waiting (createdAt : time)         (* [<-job.result] *)
| Resulted (ok : bool)               (* the result is in its channel *)
| Answered (ok : bool).
Inductive Worker := Idle | Draining | Saving (job : PersistJob) (draining : bool) | Exited.
(** The function that [startEventPersistWorker] returns: before the lock, with the queue gone
    and the worker told to stop, and after [wg.Wait]. *)
Inductive Shutdown := NotCalled | Locking | Joining | Returned.
#[global] Instance Shutdown_eq_dec : EqDecision Shutdown.
Proof. solve_decision. Defined.

(** [pw_open]: [eventPersistQueue] is not nil.  [pw_log]: the events stored.  [pw_sent] and
    [pw_saved] only record what happened: the submitters in the order their jobs entered the
    queue, and those whose jobs the worker has finished. *)
Record PersistSystem := {
  pw_queue : list PersistJob; pw_open : bool; pw_subs : list Submitter; pw_worker : Worker; pw_shutdown : Shutdown;
  pw_log : list (nat * time); pw_sent : list nat; pw_saved : list nat
}.
(** The worker is started and [n] events will be submitted. *)
Definition startEventPersistWorker (n : nat) : PersistSystem :=
  {| pw_queue := []; pw_open := true; pw_subs := replicate n Arrived; pw_worker := Idle; pw_shutdown := NotCalled; pw_log := [];
     pw_sent := []; pw_saved := [] |}.

Definition set_sub (s : PersistSystem) (i : nat) (p : Submitter) : PersistSystem :=
  {| pw_queue := pw_queue s; pw_open := pw_open s; pw_subs := <[i := p]> (pw_subs s); pw_worker := pw_worker s; pw_shutdown := pw_shutdown s;
     pw_log := pw_log s; pw_sent := pw_sent s; pw_saved := pw_saved s |}.
Definition set_worker (s : PersistSystem) (w : Worker) : PersistSystem :=
  {| pw_queue := pw_queue s; pw_open := pw_open s; pw_subs := pw_subs s; pw_worker := w; pw_shutdown := pw_shutdown s;
     pw_log := pw_log s; pw_sent := pw_sent s; pw_saved := pw_saved s |}.
Definition set_shutdown (s : PersistSystem) (open : bool) (d : Shutdown) : PersistSystem :=
  {| pw_queue := pw_queue s; pw_open := open; pw_subs := pw_subs s; pw_worker := pw_worker s; pw_shutdown := d;
     pw_log := pw_log s; pw_sent := pw_sent s; pw_saved := pw_saved s |}.
(** [messageRepo.Create] *)
Definition store_event (s : PersistSystem) (job : PersistJob) (ok : bool) : PersistSystem :=
  {| pw_queue := pw_queue s; pw_open := pw_open s; pw_subs := pw_subs s; pw_worker := pw_worker s; pw_shutdown := pw_shutdown s;
     pw_log := pw_log s ++ (if ok then [(jb_submitter job, jb_createdAt job)] else []); pw_sent := pw_sent s; pw_saved := pw_saved s |}.
(** [q <- job] *)
Definition send_job (s : PersistSystem) (job : PersistJob) : PersistSystem :=
  {| pw_queue := pw_queue s ++ [job]; pw_open := pw_open s; pw_subs := pw_subs s; pw_worker := pw_worker s; pw_shutdown := pw_shutdown s;
     pw_log := pw_log s; pw_sent := pw_sent s ++ [jb_submitter job]; pw_saved := pw_saved s |}.
Definition take_job (s : PersistSystem) (rest : list PersistJob) : PersistSystem :=
  {| pw_queue := rest; pw_open := pw_open s; pw_subs := pw_subs s; pw_worker := pw_worker s; pw_shutdown := pw_shutdown s;
     pw_log := pw_log s; pw_sent := pw_sent s; pw_saved := pw_saved s |}.
Definition finish_job (s : PersistSystem) (job : PersistJob) : PersistSystem :=
  {| pw_queue := pw_queue s; pw_open := pw_open s; pw_subs := pw_subs s; pw_worker := pw_worker s; pw_shutdown := pw_shutdown s;
     pw_log := pw_log s; pw_sent := pw_sent s; pw_saved := pw_saved s ++ [jb_submitter job] |}.
Definition resumed (draining : bool) : Worker := if draining then Draining else Idle.
(** [runPersistJob] *)
Definition runPersistJob (s : PersistSystem) (job : PersistJob) (draining ok : bool) : PersistSystem :=
  set_worker (set_sub (finish_job (store_event s job ok) job) (jb_submitter job) (Resulted ok)) (resumed draining).

(** * Steps *)

Definition holds_lock (p : Submitter) : bool := match p with Holding _ => true | _ => false end.
Definition no_reader (s : PersistSystem) : Prop := Forall (fun p => holds_lock p = false) (pw_subs s).

(** A call of [saveEventToDB]; a writer that waits for the lock bars new readers. *)
Inductive submit_step : PersistSystem -> PersistSystem -> Prop :=
| PLock s i now : pw_subs s !! i = Some Arrived -> pw_shutdown s <> Locking ->
    submit_step s (set_sub s i (if pw_open s then Holding now else Writing now))
| PSend s i now : pw_subs s !! i = Some (Holding now) -> (length (pw_queue s) < queueCapacity)%nat ->
    submit_step s (set_sub (send_job s {| jb_submitter := i; jb_createdAt := now |}) i (Waiting now))
| PWrite s i now ok : pw_subs s !! i = Some (Writing now) ->
    submit_step s (set_sub (store_event s {| jb_submitter := i; jb_createdAt := now |} ok) i (Answered ok))
| PReceive s i ok : pw_subs s !! i = Some (Resulted ok) ->
    submit_step s (set_sub s i (Answered ok)).
(** The worker: [select] may take a job although it was told to stop. *)
Inductive worker_step : PersistSystem -> PersistSystem -> Prop :=
| PTake s job rest draining : pw_worker s = resumed draining -> pw_queue s = job :: rest ->
    worker_step s (set_worker (take_job s rest) (Saving job draining))
| PSave s job draining ok : pw_worker s = Saving job draining ->
    worker_step s (runPersistJob s job draining ok)
| PDrain s : pw_worker s = Idle -> pw_shutdown s = Joining ->
    worker_step s (set_worker s Draining)
| PExit s : pw_worker s = Draining -> pw_queue s = [] ->
    worker_step s (set_worker s Exited).
(** The function that stops it, once called. *)
Inductive shutdown_step : PersistSystem -> PersistSystem -> Prop :=
| PClose s : pw_shutdown s = Locking -> no_reader s ->
    shutdown_step s (set_shutdown s false Joining)
| PReturn s : pw_shutdown s = Joining -> pw_worker s = Exited ->
    shutdown_step s (set_shutdown s (pw_open s) Returned).
(** What the goroutines do by themselves. *)
Definition persist_step (s s' : PersistSystem) : Prop := submit_step s s' \/ worker_step s s' \/ shutdown_step s s'.
(** What they may be told: the context of a call is done, the shutdown is called. *)
Inductive told : PersistSystem -> PersistSystem -> Prop :=
| TCancel s i now : pw_subs s !! i = Some (Holding now) -> told s (set_sub s i (Writing now))
| TShutdown s : pw_shutdown s = NotCalled -> told s (set_shutdown s (pw_open s) Locking).
Definition system_step (s s' : PersistSystem) : Prop := persist_step s s' \/ told s s'.
Definition reachable (n : nat) (s : PersistSystem) : Prop := rtc system_step (startEventPersistWorker n) s.

(** * How far the goroutines still have to go *)

Definition sub_weight (p : Submitter) : nat :=
  match p with Arrived => 7 | Holding _ => 6 | Waiting _ => 2 | Writing _ | Resulted _ => 1 | Answered _ => 0 end.
Fixpoint subs_weight (l : list Submitter) : nat := match l with [] => 0 | p :: l => sub_weight p + subs_weight l end.
Definition worker_weight (w : Worker) : nat :=
  match w with Idle => 3 | Draining => 1 | Saving _ draining => (if draining then 1 else 3) + 2 | Exited => 0 end.
Definition shutdown_weight (d : Shutdown) : nat := match d with NotCalled => 3 | Locking => 2 | Joining => 1 | Returned => 0 end.
Definition weight (s : PersistSystem) : nat :=
  (subs_weight (pw_subs s) + 3 * length (pw_queue s) + worker_weight (pw_worker s) + shutdown_weight (pw_shutdown s))%nat.

Lemma subs_weight_insert l i p q :
  l !! i = Some q -> (subs_weight (<[i := p]> l) + sub_weight q = subs_weight l + sub_weight p)%nat.
Proof. 
  revert i. induction l as [|x l IH]; intros [|i] H; [done|done| |].
  - injection H as ->. change (<[0%nat := p]> (q :: l)) with (p :: l). cbn [subs_weight]. lia.
  - change (<[S i := p]> (x :: l)) with (x :: <[i := p]> l). cbn [subs_weight]. pose proof (IH i H). lia.
Qed.
Lemma subs_weight_resulted l i ok : (subs_weight (<[i := Resulted ok]> l) <= subs_weight l + 1)%nat.
Proof.
  destruct (l !! i) as [q|] eqn:Hi; [pose proof (subs_weight_insert l i (Resulted ok) q Hi) as H; cbn in H; lia|].
  rewrite list_insert_ge; [lia|]. by apply lookup_ge_None.
Qed.
Lemma subs_weight_start n : subs_weight (replicate n Arrived) = (7 * n)%nat.
Proof. induction n as [|n IH]; cbn [replicate subs_weight sub_weight]; lia. Qed.
Lemma step_lighter s s' : system_step s s' -> (weight s' < weight s)%nat.
Proof.
  intros [[H|[H|H]]|H]; destruct H; unfold weight; cbn; try (pose proof (subs_weight_insert _ _ (Answered ok) _ H) as W; cbn in W; lia).
  - pose proof (subs_weight_insert _ _ (if pw_open s then Holding now else Writing now) _ H) as W. destruct (pw_open s); cbn in W; lia.
  - rewrite length_app. pose proof (subs_weight_insert _ _ (Waiting now) _ H) as W. cbn in *. lia.
  - rewrite H, H0. destruct draining; cbn; lia.
  - rewrite H. pose proof (subs_weight_resulted (pw_subs s) (jb_submitter job) ok). destruct draining; cbn; lia.
  - rewrite H. cbn. lia.
  - rewrite H. cbn. lia.
  - rewrite H. cbn. lia.
  - rewrite H. cbn. lia.
  - pose proof (subs_weight_insert _ _ (Writing now) _ H) as W. cbn in *. lia.
  - rewrite H. cbn. lia.
Qed.
Lemma steps_bounded n k s : nsteps system_step k (startEventPersistWorker n) s -> (k <= 7 * n + 6)%nat.
Proof.
  intros H. enough (k + weight s <= weight (startEventPersistWorker n))%nat as W.
  { unfold weight in W at 2. cbn [startEventPersistWorker pw_subs pw_queue pw_worker pw_shutdown] in W. rewrite subs_weight_start in W. cbn in W. lia. }
  revert H. generalize (startEventPersistWorker n). intros s0 H. induction H as [|k x y z Hxy _ IH]; [lia|]. apply step_lighter in Hxy. lia.
Qed.

(** * The invariant *)

Definition in_hand (w : Worker) : list PersistJob := match w with Saving job _ => [job] | _ => [] end.
(** The jobs that were sent and not finished. *)
Definition jobs_of (s : PersistSystem) : list PersistJob := in_hand (pw_worker s) ++ pw_queue s.
Definition stored (p : Submitter) : bool := match p with Resulted ok | Answered ok => ok | _ => false end.
Definition ending (w : Worker) : bool := match w with Draining | Exited | Saving _ true => true | _ => false end.
Definition awaits (now : time) (p : option Submitter) : Prop := p = Some (Waiting now).
Definition is_stored (p : option Submitter) : Prop := exists q, p = Some q /\ stored q = true.

Record persist_inv (s : PersistSystem) : Prop := {
  iv_pending : NoDup (map jb_submitter (jobs_of s));
  iv_jobs : forall i now, {| jb_submitter := i; jb_createdAt := now |} ∈ jobs_of s <-> awaits now (pw_subs s !! i);
  iv_once : NoDup (map fst (pw_log s));
  iv_stored : forall i, i ∈ map fst (pw_log s) <-> is_stored (pw_subs s !! i);
  iv_order : pw_sent s = pw_saved s ++ map jb_submitter (jobs_of s);
  iv_open : pw_open s = match pw_shutdown s with NotCalled | Locking => true | _ => false end;
  iv_readers : pw_open s = false -> no_reader s;
  iv_ending : ending (pw_worker s) = true -> pw_open s = false;
  iv_exited : pw_worker s = Exited -> pw_queue s = [];
  iv_returned : pw_shutdown s = Returned -> pw_worker s = Exited
}.

Lemma lookup_sub (l : list Submitter) i j p q : l !! i = Some q -> <[i := p]> l !! j = if decide (i = j) then Some p else l !! j.
Proof.
  intros H. destruct (decide (i = j)) as [<-|Hne]; [|by apply list_lookup_insert_ne]. apply list_lookup_insert_eq. by eapply lookup_lt_Some.
Qed.
Lemma no_reader_set s i p : holds_lock p = false -> no_reader s -> no_reader (set_sub s i p).
Proof. intros Hp Hs. unfold no_reader. cbn. by apply Forall_insert. Qed.
Lemma no_holding s i now : no_reader s -> pw_subs s !! i <> Some (Holding now).
Proof. intros Hs Hi. unfold no_reader in Hs. rewrite Forall_lookup in Hs. by apply Hs in Hi. Qed.

(** A submitter moves between states in which it neither waits for a job nor is stored. *)
Definition quiet (p : Submitter) : Prop := stored p = false /\ forall now, p <> Waiting now.
Lemma persist_inv_quiet s i p q :
  persist_inv s -> pw_subs s !! i = Some q -> quiet q -> quiet p -> (holds_lock p = true -> pw_open s = true) -> persist_inv (set_sub s i p).
Proof.
  intros [] Hi [Hq1 Hq2] [Hp1 Hp2] Hlock. split; cbn; try done.
  - intros j now. rewrite iv_jobs0, (lookup_sub _ i j p q Hi). destruct (decide (i = j)) as [<-|]; [|done]. unfold awaits. rewrite Hi. split; intros [= E]; naive_solver.
  - intros j. rewrite iv_stored0, (lookup_sub _ i j p q Hi). destruct (decide (i = j)) as [<-|]; [|done]. unfold is_stored. rewrite Hi. split; intros (x & [= <-] & Hx); congruence.
  - intros Ho. apply no_reader_set; [|by apply iv_readers0]. destruct (holds_lock p); [|done]. rewrite Hlock in Ho by done. done.
Qed.
(** A submitter that waits for no job gets its answer. *)
Lemma persist_inv_answer s i q ok :
  persist_inv s -> pw_subs s !! i = Some q -> (forall now, q <> Waiting now) -> stored q = ok -> persist_inv (set_sub s i (Answered ok)).
Proof.
  intros [] Hi Hq <-. split; cbn; try done.
  - intros j now. rewrite iv_jobs0, (lookup_sub _ i j _ q Hi). destruct (decide (i = j)) as [<-|]; [|done]. unfold awaits. rewrite Hi. split; intros [= E]; naive_solver.
  - intros j. rewrite iv_stored0, (lookup_sub _ i j _ q Hi). destruct (decide (i = j)) as [<-|]; [|done]. unfold is_stored. rewrite Hi. split; intros (x & [= <-] & Hx); eauto.
  - intros Ho. by apply no_reader_set; [|apply iv_readers0].
Qed.
(** An event is written and its submitter told: through the result channel or not. *)
Lemma persist_inv_store s i q now ok p :
  persist_inv s -> pw_subs s !! i = Some q -> stored q = false -> (forall now, q <> Waiting now) -> p = Resulted ok \/ p = Answered ok ->
  persist_inv (set_sub (store_event s {| jb_submitter := i; jb_createdAt := now |} ok) i p).
Proof.
  intros [] Hi Hq Hw Hp. assert (Hn : i ∉ map fst (pw_log s)).
  { rewrite iv_stored0. intros (x & [= ->]%(eq_trans (eq_sym Hi)) & Hx). congruence. }
  split; cbn; try done.
  - intros j at_. rewrite iv_jobs0, (lookup_sub _ i j _ q Hi). destruct (decide (i = j)) as [<-|]; [|done]. unfold awaits. rewrite Hi.
    destruct Hp as [-> | ->]; split; intros [= E]; naive_solver.
  - rewrite map_app. destruct ok; cbn; [|by rewrite app_nil_r]. apply NoDup_app. split_and!; [done| |apply NoDup_singleton].
    intros j Hj ->%list_elem_of_singleton. done.
  - intros j. rewrite map_app, elem_of_app, iv_stored0, (lookup_sub _ i j _ q Hi). destruct (decide (i = j)) as [<-|Hne].
    + unfold is_stored. rewrite Hi. destruct ok; cbn.
      * split; [intros _; exists p; by destruct Hp as [-> | ->]|]. intros _. right. by left.
      * split; [intros [(x & [= <-] & Hx)|Hx]; [congruence|by apply elem_of_nil in Hx]|]. intros (x & [= <-] & Hx). by destruct Hp as [-> | ->].
    + split; [|by left]. intros [Hj|Hj]; [done|]. destruct ok; [|by apply elem_of_nil in Hj]. by apply list_elem_of_singleton in Hj.
  - intros Ho. apply no_reader_set; [by destruct Hp as [-> | ->]|by apply iv_readers0].
Qed.

Lemma persist_inv_send s i now :
  persist_inv s -> pw_subs s !! i = Some (Holding now) ->
  persist_inv (set_sub (send_job s {| jb_submitter := i; jb_createdAt := now |}) i (Waiting now)).
Proof.
  intros [] Hi. set (job := {| jb_submitter := i; jb_createdAt := now |}).
  assert (Hjobs : jobs_of (set_sub (send_job s job) i (Waiting now)) = jobs_of s ++ [job]) by (unfold jobs_of; cbn; by rewrite app_assoc).
  assert (Hn : i ∉ map jb_submitter (jobs_of s)).
  { intros ([j at_] & Hj & Hin)%list_elem_of_fmap. cbn in Hj. subst j. apply iv_jobs0 in Hin. unfold awaits in Hin. congruence. }
  assert (Ho : pw_open s = true). { destruct (pw_open s); [done|]. exfalso. by apply (no_holding s i now); [apply iv_readers0|]. }
  split; rewrite ?Hjobs; cbn; try done.
  - rewrite map_app. apply NoDup_app. split_and!; [done| |apply NoDup_singleton]. by intros j Hj ->%list_elem_of_singleton.
  - intros j at_. rewrite elem_of_app, iv_jobs0, (lookup_sub _ i j _ _ Hi), list_elem_of_singleton. destruct (decide (i = j)) as [<-|Hne].
    + unfold awaits. rewrite Hi. split; [intros [[=]|[= ->]]; done|intros [= ->]; by right].
    + split; [intros [Hj|[= <-]]; done|by left].
  - intros j. rewrite iv_stored0, (lookup_sub _ i j _ _ Hi). destruct (decide (i = j)) as [<-|]; [|done]. unfold is_stored. rewrite Hi.
    by split; intros (x & [= <-] & Hx).
  - by rewrite iv_order0, map_app, app_assoc.
  - rewrite Ho. done.
  - intros Hx. rewrite (iv_exited0 Hx). exfalso. assert (ending (pw_worker s) = true) as He by (by rewrite Hx). apply iv_ending0 in He. congruence.
Qed.
Lemma persist_inv_save s job draining ok : persist_inv s -> pw_worker s = Saving job draining -> persist_inv (runPersistJob s job draining ok).
Proof.
  intros [] Hw. destruct job as [i now].
  assert (Hjobs : jobs_of s = {| jb_submitter := i; jb_createdAt := now |} :: pw_queue s) by (unfold jobs_of; by rewrite Hw).
  assert (Hjobs' : jobs_of (runPersistJob s {| jb_submitter := i; jb_createdAt := now |} draining ok) = pw_queue s) by (unfold jobs_of; by destruct draining).
  rewrite Hjobs in *. cbn [map jb_submitter] in *. apply NoDup_cons in iv_pending0 as [Hn Hnd].
  assert (Hi : pw_subs s !! i = Some (Waiting now)) by (apply iv_jobs0; by left).
  assert (Hl : i ∉ map fst (pw_log s)). { rewrite iv_stored0, Hi. by intros (x & [= <-] & Hx). }
  split; rewrite ?Hjobs'; cbn; try done.
  - intros j at_. rewrite (lookup_sub _ i j _ _ Hi). destruct (decide (i = j)) as [<-|Hne].
    + split; [|done]. intros Hin. destruct Hn. apply list_elem_of_fmap. by exists {| jb_submitter := i; jb_createdAt := at_ |}.
    + rewrite <- iv_jobs0. rewrite elem_of_cons. split; [by right|intros [[= <- <-]|]; done].
  - rewrite map_app. destruct ok; cbn; [|by rewrite app_nil_r]. apply NoDup_app. split_and!; [done| |apply NoDup_singleton]. by intros j Hj ->%list_elem_of_singleton.
  - intros j. rewrite map_app, elem_of_app, iv_stored0, (lookup_sub _ i j _ _ Hi). destruct (decide (i = j)) as [<-|Hne].
    + unfold is_stored. rewrite Hi. destruct ok; cbn.
      * split; [intros _; by exists (Resulted true)|]. intros _. right. by left.
      * split; [intros [(x & [= <-] & Hx)|Hx]; [done|by apply elem_of_nil in Hx]|]. by intros (x & [= <-] & Hx).
    + split; [|by left]. intros [Hj|Hj]; [done|]. destruct ok; [|by apply elem_of_nil in Hj]. by apply list_elem_of_singleton in Hj.
  - rewrite iv_order0, <- app_assoc. done.
  - intros Ho. apply (no_reader_set s i); [done|by apply iv_readers0].
  - intros He. apply iv_ending0. rewrite Hw. by destruct draining.
  - by destruct draining.
  - intros Hr. apply iv_returned0 in Hr. congruence.
Qed.
(** The worker, the queue and the lock change; the jobs and the submitters do not. *)
Lemma persist_inv_worker s s' :
  persist_inv s -> jobs_of s' = jobs_of s -> pw_subs s' = pw_subs s -> pw_log s' = pw_log s -> pw_sent s' = pw_sent s -> pw_saved s' = pw_saved s ->
  pw_open s' = match pw_shutdown s' with NotCalled | Locking => true | _ => false end -> (pw_open s' = false -> no_reader s) ->
  (ending (pw_worker s') = true -> pw_open s' = false) -> (pw_worker s' = Exited -> pw_queue s' = []) -> (pw_shutdown s' = Returned -> pw_worker s' = Exited) ->
  persist_inv s'.
Proof. intros [] Hj Hs Hl Ht Hd ? Hr ? ? ?. split; unfold no_reader; rewrite ?Hj, ?Hs, ?Hl, ?Ht, ?Hd; done. Qed.

Lemma persist_inv_step s s' : persist_inv s -> system_step s s' -> persist_inv s'.
Proof.
  intros Hs [[H|[H|H]]|H]; destruct H.
  - apply (persist_inv_quiet _ _ _ Arrived); [done|done|done| |]; [by destruct (pw_open s)|]. by destruct (pw_open s).
  - by apply persist_inv_send.
  - apply (persist_inv_store _ _ (Writing now)); [done|done|done|done|by right].
  - by apply (persist_inv_answer _ _ (Resulted ok)).
  - apply (persist_inv_worker s); try done; destruct Hs; cbn; try done.
    + unfold jobs_of. rewrite H, H0. by destruct draining.
    + intros He. apply iv_ending0. rewrite H. by destruct draining.
    + intros Hr. apply iv_returned0 in Hr. rewrite H in Hr. by destruct draining.
  - by apply persist_inv_save.
  - apply (persist_inv_worker s); try done; destruct Hs; cbn; try done.
    + unfold jobs_of. by rewrite H.
    + intros _. by rewrite iv_open0, H0.
    + by rewrite H0.
  - apply (persist_inv_worker s); try done; destruct Hs; cbn; try done.
    + unfold jobs_of. by rewrite H.
    + intros _. apply iv_ending0. by rewrite H.
  - apply (persist_inv_worker s); try done; destruct Hs; cbn; done.
  - apply (persist_inv_worker s); try done; destruct Hs; cbn; try done. by rewrite iv_open0, H.
  - apply (persist_inv_quiet _ _ _ (Holding now)); done.
  - apply (persist_inv_worker s); try done; destruct Hs; cbn; try done. by rewrite iv_open0, H.
Qed.
Lemma persist_inv_start n : persist_inv (startEventPersistWorker n).
Proof.
  split; cbn; try done; try constructor.
  - intros H. by apply elem_of_nil in H.
  - unfold awaits. by intros [[= E] _]%lookup_replicate.
  - intros H. by apply elem_of_nil in H.
  - by intros (x & [-> _]%lookup_replicate & Hx).
Qed.
Lemma persist_inv_reachable n s : reachable n s -> persist_inv s.
Proof.
  intros H. assert (Hi : persist_inv (startEventPersistWorker n)) by apply persist_inv_start. revert Hi. induction H as [|x y z Hxy _ IH]; [done|].
  intros Hx. apply IH. by eapply persist_inv_step.
Qed.

(** * Progress *)

Definition answered (p : Submitter) : bool := match p with Answered _ => true | _ => false end.
Definition at_rest (s : PersistSystem) : Prop :=
  Forall (fun p => answered p = true) (pw_subs s) /\ (pw_shutdown s = NotCalled \/ pw_shutdown s = Returned).

(** The worker can go on while it has a job or the queue does. *)
Lemma worker_goes_on s : persist_inv s -> jobs_of s <> [] -> exists s', persist_step s s'.
Proof.
  intros [] Hj. destruct (pw_worker s) as [| |job draining|] eqn:Hw.
  - destruct (pw_queue s) as [|job rest] eqn:Hq; [|eexists; right; left; by eapply (PTake s job rest false)]. unfold jobs_of in Hj. by rewrite Hw, Hq in Hj.
  - destruct (pw_queue s) as [|job rest] eqn:Hq; [|eexists; right; left; by eapply (PTake s job rest true)]. unfold jobs_of in Hj. by rewrite Hw, Hq in Hj.
  - eexists. right; left; by eapply (PSave s job draining true).
  - exfalso. apply Hj. unfold jobs_of. by rewrite Hw, iv_exited0.
Qed.
Lemma reader_goes_on s i now : persist_inv s -> pw_subs s !! i = Some (Holding now) -> exists s', persist_step s s'.
Proof.
  intros Hs Hi. destruct (decide (length (pw_queue s) < queueCapacity)%nat) as [Hq|Hq]; [eexists; left; by eapply PSend|].
  apply worker_goes_on; [done|]. intros E. apply app_eq_nil in E as [_ E]. rewrite E in Hq. cbn in Hq. unfold queueCapacity in Hq. lia.
Qed.
Lemma find_not (f : Submitter -> bool) (l : list Submitter) : Forall (fun p => f p = true) l \/ exists i p, l !! i = Some p /\ f p = false.
Proof.
  induction l as [|p l [IH|(i & q & Hi & Hq)]]; [by left| |right; by exists (S i), q].
  destruct (f p) eqn:Hp; [left; by constructor|right; by exists 0%nat, p].
Qed.
Lemma closer_goes_on s : persist_inv s -> pw_shutdown s = Locking -> exists s', persist_step s s'.
Proof.
  intros Hs Hd. destruct (find_not (fun p => negb (holds_lock p)) (pw_subs s)) as [H|(i & p & Hi & Hp)].
  - exists (set_shutdown s false Joining). right; right; apply PClose; [done|]. eapply Forall_impl; [exact H|]. intros p Hp. by apply negb_true_iff.
  - destruct p; try done. by eapply reader_goes_on.
Qed.
Lemma joiner_goes_on s : persist_inv s -> pw_shutdown s = Joining -> exists s', persist_step s s'.
Proof.
  intros Hs Hd. destruct (pw_worker s) as [| |job draining|] eqn:Hw; [eexists; right; left; by apply PDrain| |eexists; right; left; by eapply (PSave s job draining true)|eexists; right; right; by apply PReturn].
  destruct (pw_queue s) as [|job rest] eqn:Hq; [eexists; right; left; by apply PExit|eexists; right; left; by eapply (PTake s job rest true)].
Qed.
Lemma goes_on s : persist_inv s -> at_rest s \/ exists s', persist_step s s'.
Proof.
  intros Hs. destruct (find_not answered (pw_subs s)) as [H|(i & p & Hi & Hp)].
  - destruct (pw_shutdown s) eqn:Hd; [left; by split; [|left]|right; by apply closer_goes_on|right; by apply joiner_goes_on|left; by split; [|right]].
  - right. destruct p as [|now|now|now|ok|ok]; [|by eapply reader_goes_on|eexists; left; by eapply (PWrite s i now true)| |eexists; left; by eapply PReceive|done].
    + destruct (decide (pw_shutdown s = Locking)) as [Hd|Hd]; [by apply closer_goes_on|]. eexists. left; by eapply (PLock s i 0%Z).
    + apply worker_goes_on; [done|]. intros E. apply (iv_jobs s Hs) in Hi. rewrite E in Hi. by apply elem_of_nil in Hi.
Qed.

(** * Properties *)

(** C22: No event is stored twice, and whoever submitted one is told it was stored exactly
    when it was, whether the worker wrote it or the submitter did.  The worker finishes the
    jobs in the order in which they entered the queue.  When the shutdown has returned, nobody
    waits for a job and none is left. *)
Theorem events_stored_once (n : nat) (s : PersistSystem) (H : reachable n s) :
  NoDup (map fst (pw_log s))
  /\ (forall i ok, pw_subs s !! i = Some (Answered ok) -> ok = true <-> i ∈ map fst (pw_log s))
  /\ pw_sent s = pw_saved s ++ map jb_submitter (jobs_of s)
  /\ (pw_shutdown s = Returned -> jobs_of s = [] /\ forall i now, pw_subs s !! i <> Some (Waiting now) /\ pw_subs s !! i <> Some (Holding now)).
Proof.
  apply persist_inv_reachable in H. split; [by destruct H|]. split.
  { intros i ok Hi. rewrite (iv_stored s H), Hi. unfold is_stored. split; [intros ->; by eexists|]. by intros (x & [= <-] & Hx). }
  split; [by destruct H|]. intros Hr. assert (Hj : jobs_of s = []).
  { pose proof (iv_returned s H Hr) as Hw. unfold jobs_of. by rewrite Hw, (iv_exited s H Hw). }
  split; [done|]. intros i now. split.
  - intros Hi. apply (iv_jobs s H) in Hi. rewrite Hj in Hi. by apply elem_of_nil in Hi.
  - apply no_holding, (iv_readers s H). by rewrite (iv_open s H), Hr.
Qed.

(** C21: Every event submitted is answered and the shutdown, if it is called, returns, whatever
    the interleaving: the goroutines take at most seven steps for each event and six more, and
    as long as a call has not returned one of them can take its next step, even when the queue
    is full, while the shutdown waits for the lock, and without any call being cancelled. *)
Theorem submitters_answered (n : nat) (s : PersistSystem) (k : nat) (H : nsteps system_step k (startEventPersistWorker n) s) :
  (k <= 7 * n + 6)%nat /\ (at_rest s \/ exists s', persist_step s s').
Proof. split; [by eapply steps_bounded|]. apply goes_on, (persist_inv_reachable n). apply rtc_nsteps. by exists k. Qed.

(** One event goes through the queue, the other call is cancelled at the select; the shutdown
    is called before the worker has taken the first. *)
Definition sent_one : PersistSystem := set_sub (send_job (set_sub (startEventPersistWorker 2) 0 (Holding 5)) {| jb_submitter := 0; jb_createdAt := 5 |}) 0 (Waiting 5).
Definition closing : PersistSystem := set_shutdown (set_sub sent_one 1 (Holding 6)) true Locking.
Definition closed : PersistSystem := set_shutdown (set_sub closing 1 (Writing 6)) false Joining.
Definition written : PersistSystem :=
  runPersistJob (set_worker (take_job (set_worker closed Draining) []) (Saving {| jb_submitter := 0; jb_createdAt := 5 |} true))
    {| jb_submitter := 0; jb_createdAt := 5 |} true true.
Definition returned_system : PersistSystem :=
  set_sub (set_sub (store_event (set_shutdown (set_worker written Exited) false Returned) {| jb_submitter := 1; jb_createdAt := 6 |} false) 1 (Answered false))
    0 (Answered true).
Lemma run_to_rest : nsteps system_step 13 (startEventPersistWorker 2) returned_system.
Proof.
  eapply nsteps_l; [left; left; by apply (PLock _ 0 5)|]. eapply nsteps_l; [left; left; apply (PSend _ 0 5); cbn; [done|unfold queueCapacity; lia]|].
  eapply nsteps_l; [left; left; by apply (PLock _ 1 6)|]. eapply nsteps_l; [right; by apply TShutdown|]. eapply nsteps_l; [right; by apply (TCancel _ 1 6)|].
  eapply nsteps_l; [left; right; right; apply PClose; [done|by repeat constructor]|]. eapply nsteps_l; [left; right; left; by apply PDrain|].
  eapply nsteps_l; [left; right; left; by apply (PTake _ {| jb_submitter := 0; jb_createdAt := 5 |} [] true)|]. eapply nsteps_l; [left; right; left; by apply (PSave _ {| jb_submitter := 0; jb_createdAt := 5 |} true true)|].
  eapply nsteps_l; [left; right; left; by apply PExit|]. eapply nsteps_l; [left; right; right; by apply PReturn|].
  eapply nsteps_l; [left; left; by apply (PWrite _ 1 6 false)|]. eapply nsteps_l; [left; left; by apply (PReceive _ 0 true)|]. constructor.
Qed.
Lemma events_stored_once_witness :
  reachable 2 returned_system /\ pw_log returned_system = [(0%nat, 5%Z)] /\ pw_shutdown returned_system = Returned
  /\ NoDup (map fst (pw_log returned_system))
  /\ (pw_subs returned_system !! 1%nat = Some (Answered false) -> false = true <-> 1%nat ∈ map fst (pw_log returned_system)).
Proof.
  assert (H : reachable 2 returned_system) by (apply rtc_nsteps; exists 13%nat; apply run_to_rest).
  destruct (events_stored_once 2 returned_system H) as (H1 & H2 & _). split_and!; [done|done|done|done|apply H2].
Defined.
Lemma submitters_answered_witness :
  nsteps system_step 13 (startEventPersistWorker 2) returned_system /\ at_rest returned_system
  /\ (13 <= 7 * 2 + 6)%nat /\ (at_rest returned_system \/ exists s', persist_step returned_system s').
Proof. split; [apply run_to_rest|]. split; [split; [by repeat constructor|by right]|]. apply (submitters_answered 2 returned_system 13 run_to_rest). Defined.
